(* ===== verification/_CoqProject ===== *)
-Q . S2P
Prelude.v
Linked.v
NcmTypes.v
NtbList.v
Ntb.v
NcmTx.v
NcmRx.v
NcmNet.v
NcmBench.v
NcmSystem.v
NcmRun.v
NcmSafe.v
NcmFaults.v
NcmDeliver.v
NcmBehaviour.v
NcmClassTest.v
MemUtil.v
BlockList.v
DmaBits.v
DmaHeap.v
UsbDesc.v
LwipMem.v
LwipHeap.v
LwipHeapRun.v
Pbuf.v
PbufChain.v
PbufPool.v
PbufProps.v
PbufFree.v
OnesComp.v
InetChksum.v
InetChksumProps.v
Timeouts.v
TimerQueue.v
TimerRun.v
Ip4Addr.v
Ip4AddrProps.v
PbufView.v
Ethernet.v
Ip4.v
Icmp.v
Ip4Input.v
Ip4Props.v
IcmpProps.v
Etharp.v
EtharpInv.v
EtharpFind.v
EtharpOps.v
EtharpSend.v
EtharpRun.v
EtharpProps.v
PbufOwn.v
PbufHeap.v
NetStack.v
Below.v
BelowIcmp.v
Ip4Reass.v
Ip4ReassSpec.v
Ip4ReassOrder.v
Ip4ReassMem.v
Ip4ReassRoom.v
Ip4ReassChain.v
Ip4ReassJoin.v
Ip4ReassProps.v
Ip4ReassRun.v
NetLaws.v
Ip4ReassTheorems.v
Udp.v
UdpBlocks.v
UdpInput.v
UdpSend.v
UdpRoom.v
UdpProps.v
Fw.v
FwMain.v
FwProps.v
FwEvents.v
FwData.v
FwControl.v
FwService.v
