(* ===== verification/Prelude.v ===== *)
(** * The FX3 USB network adapter firmware: a verification development

    The firmware makes a Cypress FX3 a USB network adapter of the CDC-NCM class.
    Its parts, from the wire to the network stack, and the files that model them:

    - The application, [src/src/main.c]: USB callbacks, endpoints and DMA
      channels, the functions the driver calls, two threads.  [Fw] has its
      globals as a record, the calls into the FX3 SDK as an inductive type and
      the state monad [FM]; [FwMain] has its functions under their own names;
      [FwProps] (setup packets), [FwEvents] (sequences of callbacks), [FwData]
      (transfers, received frames, event log), [FwControl] (deferred requests)
      and [FwService] (a frame through the network thread) have the theorems.
    - The descriptors, [src/src/usb_desc.c] with [desc_types.h]: [UsbDesc].
    - The NCM class driver, [src/lib/ncm]: [NcmTypes] (the state
      [ncm_interface_t], the wire structures of [struct.h] as offsets into
      bytes, the monad [NM]), [NtbList] ([push_ntb], [pop_ntb] of
      [struct.c]), [Ntb] (the wire format as an abstract specification),
      [NcmTx] ([tx.c]), [NcmRx] ([rx.c]) and [NcmNet] ([net.c]).
      [NcmSystem], [NcmRun], [NcmSafe] and [NcmFaults] run the driver on
      sequences of events; [NcmDeliver] and [NcmBehaviour] treat deliveries and single
      operations; [NcmBench] is a concrete user for the witnesses.
      [NcmClassTest] compares the earlier copy in [src/ncm].
    - The RTOS port, [src/src/cyfx/cyfx_tx.c]: [MemUtil] (set, copy, compare),
      [BlockList] (leak and corruption tracking), [DmaBits] (status bits of the
      DMA buffer manager) and [DmaHeap] (both heaps).
    - The parts of lwIP, [src/lib/lwip/src], the frames pass through: [Pbuf]
      ([core/pbuf.c] and the pools of [core/memp.c]), [PbufChain], [PbufPool] and
      [PbufProps] (chains, pools, theorems), [PbufFree] (freeing), [Ethernet]
      ([netif/ethernet.c]), the heap of [core/mem.c]: [LwipMem] (its
      functions), [LwipHeap] (the heap as a list of blocks) and [LwipHeapRun]
      (its users), and the checksums of [core/inet_chksum.c]: [OnesComp] (the
      checksum of RFC 1071), [InetChksum] (the functions) and [InetChksumProps].
    - The network layer of lwIP, [src/lib/lwip/src/core/ipv4]: [Ip4Addr] and
      [Ip4AddrProps] ([ip4_addr.c]: text and masks), [Ip4] ([ip4.c]: routes and
      output), [Icmp] ([icmp.c]), [Ip4Input] ([ip4.c]: input), [Ip4Props] and
      [IcmpProps] (theorems, on the memory of [PbufView]), and ARP:
      [Etharp] ([etharp.c], every function), [EtharpInv] (the invariant of the
      table and of its packets), [EtharpFind] (the search), [EtharpOps],
      [EtharpSend] (one operation), [EtharpRun] (sequences) and [EtharpProps].
      [PbufOwn] shows that the packet buffers keep the laws ARP relies on,
      [PbufHeap] does so with the heap of the stack under them, and [NetStack]
      puts Ethernet, ARP, IP and ICMP together.
    - The reassembly of IP fragments, the first half of [core/ipv4/ip4_frag.c]:
      [Ip4Reass] (every function, with the helper structure in the bytes of the
      packets), [Ip4ReassSpec] (the specification on lists of fragments and its
      invariant), [Ip4ReassOrder] (fragments in any order), [Below] and
      [BelowIcmp] (what may be relied on while packets go down the stack),
      [Ip4ReassMem], [Ip4ReassRoom], [Ip4ReassChain], [Ip4ReassJoin],
      [Ip4ReassProps] and [Ip4ReassRun] (the code against the specification:
      lists and fields, freeing, inserting, joining, one fragment, sequences),
      [NetLaws] (ARP, packet buffers and heap keep what is relied on) and
      [Ip4ReassTheorems].
    - UDP, [core/udp.c]: [Udp] (every function), [UdpBlocks] (calls on control
      blocks against a specification on lists), [UdpInput] (what becomes of a
      datagram), [UdpSend] (what is sent), [UdpRoom] (from packets without room for
      the header) and [UdpProps].
    - The timers of lwIP, [core/timeouts.c]: [Timeouts] (every function),
      [TimerQueue] (the list as a queue) and [TimerRun] (sequences).  [Linked] has
      the linked lists that timers and packet buffers share.

    ** How they interact

    The application receives USB events and setup packets from the SDK.  It
    answers a packet at once or leaves it to its thread, which decodes it and
    calls the driver ([net_usb_control_transfer]).  The driver calls back:
    [usb_transfer_ep] and the like to move NTBs, [net_rx_cb] and [net_tx_cb] to
    move frames to and from packet buffers.  These calls are the class [NcmEnv]
    of [NcmTypes]: the driver's theorems hold for every instance (with the class
    [NcmProvider] where they need a fact about it), and [FwMain.fw_env] is the
    instance the application makes.  The network thread passes received packets
    to [ethernet_input] and renews.  Above it [etharp_input] and [ip4_input] are
    reached through the class [UpperLayers]; [ip4_input] passes packets to
    [icmp_input], and to reassembly, UDP and TCP through the class [Receivers];
    the class [Neighbours] holds the way down ([netif->output], which is
    [etharp_output] on this interface, and [ip4_frag]).  Reassembly holds packets
    while ICMP sends others: [Below.OutputLaws] says that sending leaves held
    packets alone, and [NetLaws.arp_below] discharges it for [etharp_output] over
    the packet buffers and the heap.  Its variables, and those of UDP, are a part
    ([Part]) of the state around IP; the callbacks of UDP are the class
    [UdpUsers].  ARP uses packets through the class [PacketOps],
    whose laws are [PacketLaws]: who owns a reference may use and free it.
    [PbufOwn.pbuf_laws] discharges them for the packet buffers on any heap with
    the laws [HeapLaws], and [PbufHeap.ram_laws] those for [mem.c].  [NetStack]
    has the instances of [UpperLayers] and [Neighbours] that connect the layers,
    with what is left above them in the class [Transport].  Packet buffers of type [PBUF_RAM] come from
    a heap, the class [MemHeap]; the heap of the stack is modelled on its own.

    ** Conventions

    Machine integers are [Z] with the wrap-around of their width written out
    ([wrap8], [wrap16], [wrap32] below); memory is lists of bytes, and accesses
    check their range.  What has no defined result in C is a value [Fault f];
    [Halted] stands for the endless loops of the error handlers and [OutOfFuel]
    for a loop that has used the rounds it was given.  Loops over chains get as
    many rounds as there are structures and one more ([Pbuf.chain_fuel]);
    [PbufChain.chain_fuel_ok] shows that this is enough on every chain.  The scans
    of the heap get 100 rounds ([LwipMem.Mem.heap_fuel]); its 1600 bytes hold at
    most 80 blocks ([LwipHeap.seg_length]).  The walk
    over the event log gets one round per entry, which [FwData.log_walk_ends]
    shows to be enough exactly when it ends at all.  The loops of the threads
    and of [link_output_app] have no end in the code: they take the number of
    rounds as an argument, and the theorems hold for every number.  The FX3 SDK
    and ThreadX are not part of the sources: they are the classes [Sdk], which
    answers every call while the calls are recorded, and [Rtos].  The loops over
    the timeouts get one round more than there are structures
    ([Timeouts.timer_fuel]), which [TimerRun] shows to be enough, the loops over
    the ARP table one round per entry.  The loops of reassembly get one round more
    than there are structures ([Ip4Reass.reass_fuel]) or packet buffers; every
    theorem about it says that the code returns.  So do the loops of UDP
    ([Udp.udp_fuel]); the search for a port gets as many rounds as there are
    ports.  The clock and what handlers do are
    the class [TimerEnv], with [TimerClock] for what is relied on of the clock and
    [TimerApp] for handlers that set, cancel and rebase timeouts and let time pass;
    a check calls at most as many handlers as the rounds it is given say.  The log and
    debug output is left out everywhere.

    ** What the theorems show

    - The driver (C1 to C9): along every run from [net_init] the frames in its
      NTBs are the frames it has taken, each NTB has one owner, what is sent is a
      well-formed NTB with the oldest frames; with a well-behaved host and frames
      that fit, no event faults but in one of the functions the driver calls; the
      lists refine a bounded queue; what a built
      NTB says is read back; control requests and notifications on every branch;
      and where the code falls short: one transfer per direction between two
      initialisations, sixteen frames, a sender that never returns, malformed or
      oversized data that is accepted.
    - The RTOS port: DMA buffers in use are disjoint, in range and at a fixed
      distance from a cache line (none, or 20 bytes with the leak checks) over
      every sequence of operations, a null answer means that there was no room,
      freeing is exact; the leak lists track exactly the blocks in use; the
      memory functions equal their references, overlaps included.
    - The application: the answer to every setup packet (with the recipients USB
      defines), now or from the thread, which only an NTB that is offered and
      faults can prevent;
      DMA channels exist exactly while the application is active, over every
      sequence of callbacks; every transfer and every received frame on every
      branch; a frame that is for none of the layers above is back in the pool,
      and what the second release in the network thread does to the others.
    - Packet buffers: allocation is all or nothing, freeing follows the reference
      counts and gives every kind of buffer back to where it comes from, a chain is one buffer, headers go off and on again.
    - Checksums: on every packet, however it is split into buffers and aligned,
      the result is that of RFC 1071 over its bytes; a stored checksum is
      accepted, and every change of a single byte after it is detected.
    - The heap: over every sequence of operations blocks in use are disjoint and
      in range and nothing is lost, also after the trim that an assertion of the
      code says does not happen; allocation is first fit and complete.
    - The descriptors are consistent, and strings read back.
    - ARP (C22, C25 to C27): over every sequence of operations on the packet buffers
      and the heap of the stack nothing faults, the table keeps one entry per
      address and reference counts are exact; the search, learning, sending what
      waits and expiry.
    - Timers (C28, C29): the list with 32-bit times refines a queue ordered by an
      unbounded clock, with handlers that use the timers themselves, as long as
      timeouts are served in time; and the cyclic timers never get lost.
    - IPv4 (C30 to C34): addresses print and parse back; the header that is
      written is the one of RFC 791 with the checksum of RFC 1071, is accepted by
      the receiver, and with a byte changed is dropped; a ping is answered, at
      the level of IP and from frame to frame through all layers.
    - Reassembly (C35 to C37): whatever fragments come and however the timer
      ticks, the code does what the specification says, within its bounds and
      without touching the packets of others; the fragments of a datagram give the
      datagram in any order; what stays incomplete is freed in time.
    - UDP (C38 to C40): whatever is called in whatever order, no two control blocks
      are bound to one address and port and none is lost; a datagram that comes in
      reaches the control block that matches best, or is dropped or refused for a
      reason; what is sent is a datagram the receiver accepts, in the caller's
      packet or, without room there, in front of it.

    ** Not modelled

    TCP, the second half of [ip4_frag.c] (packets that are cut when they are
    sent) and the iperf server, the optional parts of lwIP that are not configured (IPv6, PPP, VLAN,
    sockets), its ports, examples and tests: third-party code around the path of
    the frames.  The startup assembly, the flash tool on the host and the C++
    twin of [cyfx_tx.c]. The preemption of one thread by the other: the threads
    are modelled each on its own, with callbacks in any order. *)

From stdpp Require Import base numbers list decidable.
From Stdlib Require Import ZArith Lia Bool.
Open Scope Z_scope.

(** ** Faults and the error monad

    C code that indexes outside an object, follows a null pointer, uses a
    value it never set or memory it has given back has no defined result.  Such
    an execution is the value [Fault f] of the model; a defined one is [Ok v].
    [Halted] is not an error of this kind: it stands for the endless loops in
    which the firmware stops on purpose. *)

Inductive fault : Type :=
| OutOfBounds
| NullPointer
| Unset
| Dangling
| Halted
| OutOfFuel.

Inductive result (A : Type) : Type :=
| Ok (a : A)
| Fault (f : fault).

Arguments Ok {A} a.
Arguments Fault {A} f.

Definition rbind {A B} (m : result A) (k : A -> result B) : result B :=
  match m with
  | Ok a => k a
  | Fault f => Fault f
  end.

Definition is_ok {A} (m : result A) : bool :=
  match m with Ok _ => true | Fault _ => false end.

Declare Scope fx3_scope.
Delimit Scope fx3_scope with fx3.
Open Scope fx3_scope.

Notation "'let*' x ':=' m 'in' k" := (rbind m (fun x => k))
  (at level 10, x pattern, m at level 100, k at level 200,
   format "'[v' 'let*'  x  ':='  m  'in' '/' k ']'") : fx3_scope.

Lemma rbind_Ok {A B} (m : result A) (k : A -> result B) b :
  rbind m k = Ok b <-> exists a, m = Ok a /\ k a = Ok b.
Proof. destruct m; simpl; split; [eauto|by intros (?&[= ->]&?)|done|by intros (?&?&?)]. Qed.

(** ** Loops

    [while fuel cond body s] runs a C loop on the state [s]; a loop that is
    still running after [fuel] rounds is [Fault OutOfFuel], so that a theorem
    with an [Ok] result says that the loop ends. *)

Fixpoint while {S : Type} (fuel : nat) (cond : S -> bool) (body : S -> result S) (s : S) : result S :=
  match fuel with
  | O => Fault OutOfFuel
  | Datatypes.S fuel =>
      if cond s then let* s := body s in while fuel cond body s else Ok s
  end.

(** Total correctness of a loop: an invariant and a measure. *)
Lemma while_total {S : Type} (I : S -> Prop) (measure : S -> nat) cond body fuel (s : S) :
  I s -> (measure s < fuel)%nat ->
  (forall s, I s -> cond s = true ->
     exists s', body s = Ok s' /\ I s' /\ (measure s' < measure s)%nat) ->
  exists s', while fuel cond body s = Ok s' /\ I s' /\ cond s' = false.
Proof.
  intros HI Hm Hbody. revert s HI Hm. induction fuel as [|fuel IH]; intros s HI Hm; [lia|].
  cbn [while]. destruct (cond s) eqn:Hc; [|eauto].
  destruct (Hbody s HI Hc) as (s'&->&HI'&Hlt). cbn [rbind]. apply IH; [done|lia].
Qed.

(** ** Machine-width integers *)

Definition wrap (w z : Z) : Z := z mod 2 ^ w.
Abbreviation wrap8 := (wrap 8).
Abbreviation wrap16 := (wrap 16).
Abbreviation wrap32 := (wrap 32).

Definition uint (w z : Z) : Prop := 0 <= z < 2 ^ w.

Lemma wrap_range w z : 0 <= w -> uint w (wrap w z).
Proof. intros. apply Z.mod_pos_bound. lia. Qed.

Lemma wrap_small w z : uint w z -> wrap w z = z.
Proof. apply Z.mod_small. Qed.

Lemma wrap16_small z : 0 <= z < 65536 -> wrap16 z = z.
Proof. intros. apply wrap_small. split; [lia|]. change (2 ^ 16) with 65536. lia. Qed.

Lemma wrap16_range z : 0 <= wrap16 z < 65536.
Proof. apply (wrap_range 16). lia. Qed.

Lemma wrap8_range z : 0 <= wrap8 z < 256.
Proof. apply (wrap_range 8). lia. Qed.

Lemma wrap32_range z : 0 <= wrap32 z < 4294967296.
Proof. apply (wrap_range 32). lia. Qed.

Lemma wrap32_small z : 0 <= z < 4294967296 -> wrap32 z = z.
Proof. intros. apply wrap_small. exact H. Qed.

(** ** Byte buffers *)

(** Bytes are integers; [bytes_ok] says that each one fits in 8 bits. *)
Definition bytes_ok (l : list Z) : Prop := Forall (fun b => 0 <= b < 256) l.

Definition slice (off n : nat) (l : list Z) : list Z := take n (drop off l).
Definition splice (off : nat) (bs l : list Z) : list Z :=
  take off l ++ bs ++ drop (off + length bs) l.

Lemma length_splice off bs l :
  (off + length bs <= length l)%nat -> length (splice off bs l) = length l.
Proof.
  intros. unfold splice. rewrite !length_app, length_take, length_drop. lia.
Qed.

Lemma length_slice off n l : (off + n <= length l)%nat -> length (slice off n l) = n.
Proof. intros. unfold slice. rewrite length_take, length_drop. lia. Qed.

Lemma lookup_splice off bs (l : list Z) i :
  (off + length bs <= length l)%nat ->
  splice off bs l !! i =
    if decide (i < off)%nat then l !! i
    else if decide (i < off + length bs)%nat then bs !! (i - off)%nat
    else l !! i.
Proof.
  intros H. unfold splice.
  assert (Hlt : length (take off l) = off) by (rewrite length_take; lia).
  case_decide as H1.
  - rewrite lookup_app_l by lia. rewrite lookup_take_lt by lia. done.
  - rewrite lookup_app_r by lia. rewrite Hlt.
    case_decide as H2.
    + rewrite lookup_app_l by lia. done.
    + rewrite lookup_app_r by lia. rewrite lookup_drop. f_equal. lia.
Qed.

Lemma lookup_slice off n (l : list Z) i :
  slice off n l !! i = if decide (i < n)%nat then l !! (off + i)%nat else None.
Proof.
  unfold slice. case_decide.
  - rewrite lookup_take_lt by lia. apply lookup_drop.
  - apply lookup_take_ge. lia.
Qed.

Lemma slice_splice_same off n bs l :
  length bs = n -> (off + n <= length l)%nat -> slice off n (splice off bs l) = bs.
Proof.
  intros Hn H. apply list_eq. intros i. rewrite lookup_slice, lookup_splice by lia.
  repeat case_decide; try lia.
  - f_equal. lia.
  - symmetry. apply lookup_ge_None. lia.
Qed.

Lemma slice_splice_disj off bs l off' n' :
  (off + length bs <= length l)%nat ->
  (off' + n' <= off \/ off + length bs <= off')%nat ->
  slice off' n' (splice off bs l) = slice off' n' l.
Proof.
  intros H Hd. apply list_eq. intros i. rewrite !lookup_slice.
  case_decide; [|done]. rewrite lookup_splice by lia.
  repeat case_decide; try lia; done.
Qed.

(** Two writes one behind the other. *)
Lemma splice_splice off (x y l : list Z) :
  (off + length x + length y <= length l)%nat ->
  splice (off + length x) y (splice off x l) = splice off (x ++ y) l.
Proof.
  intros Hl. apply list_eq. intros i.
  rewrite !lookup_splice by (rewrite ?length_splice, ?length_app; lia). rewrite length_app.
  destruct (decide (i < off)%nat); [by rewrite decide_True by lia|].
  destruct (decide (i < off + length x)%nat).
  - rewrite !decide_True by lia. by rewrite lookup_app_l by lia.
  - destruct (decide (i < off + length x + length y)%nat).
    + rewrite (decide_True (P := (i < off + (length x + length y))%nat)) by lia.
      rewrite lookup_app_r by lia. f_equal. lia.
    + by rewrite (decide_False (P := (i < off + (length x + length y))%nat)) by lia.
Qed.

Lemma splice_nil off (l : list Z) : splice off [] l = l.
Proof. unfold splice. cbn. rewrite Nat.add_0_r. apply take_drop. Qed.

Lemma bytes_ok_splice off bs l :
  bytes_ok bs -> bytes_ok l -> bytes_ok (splice off bs l).
Proof.
  unfold bytes_ok, splice. intros Hb Hl.
  rewrite !Forall_app. auto using Forall_take, Forall_drop.
Qed.

(** *** Little-endian fields *)

Fixpoint le_bytes (n : nat) (z : Z) : list Z :=
  match n with
  | O => []
  | S n => z mod 256 :: le_bytes n (z / 256)
  end.

Fixpoint le_val (bs : list Z) : Z :=
  match bs with
  | [] => 0
  | b :: bs => b + 256 * le_val bs
  end.

Lemma length_le_bytes n z : length (le_bytes n z) = n.
Proof. revert z; induction n; simpl; auto. Qed.

Lemma le_val_bytes n z : le_val (le_bytes n z) = z mod 2 ^ (8 * Z.of_nat n).
Proof.
  revert z. induction n as [|n IH]; intros z.
  - simpl. rewrite Z.mod_1_r. done.
  - cbn [le_bytes le_val]. rewrite IH.
    replace (8 * Z.of_nat (S n)) with (8 + 8 * Z.of_nat n) by lia.
    rewrite Z.pow_add_r by lia. change (2 ^ 8) with 256.
    rewrite Z.rem_mul_r by lia. lia.
Qed.

Lemma le_val_range bs : bytes_ok bs -> 0 <= le_val bs < 2 ^ (8 * Z.of_nat (length bs)).
Proof.
  induction 1 as [|b bs Hb _ IH]; [simpl; lia|].
  cbn [le_val length].
  replace (8 * Z.of_nat (S (length bs))) with (8 + 8 * Z.of_nat (length bs)) by lia.
  rewrite Z.pow_add_r by lia. change (2 ^ 8) with 256. nia.
Qed.

Lemma le_bytes_val bs : bytes_ok bs -> le_bytes (length bs) (le_val bs) = bs.
Proof.
  induction 1 as [|b bs Hb Hbs IH]; [done|].
  cbn [le_val length le_bytes].
  replace (b + 256 * le_val bs) with (b + le_val bs * 256) by lia.
  rewrite Z.mod_add, Z.div_add, Z.mod_small, Z.div_small, Z.add_0_l by lia.
  by rewrite IH.
Qed.

Lemma bytes_ok_le_bytes n z : bytes_ok (le_bytes n z).
Proof.
  revert z. induction n as [|n IH]; intros z; [by constructor|].
  constructor; [|apply IH]. apply Z.mod_pos_bound. lia.
Qed.

(** *** Bounded access to a C array of bytes *)

Definition in_range (buf : list Z) (off n : Z) : bool :=
  (0 <=? off) && (0 <=? n) && (off + n <=? Z.of_nat (length buf)).

(** The [n]-byte little-endian field at offset [off]. *)
Definition rd (buf : list Z) (off n : Z) : result Z :=
  if in_range buf off n then Ok (le_val (slice (Z.to_nat off) (Z.to_nat n) buf))
  else Fault OutOfBounds.

(** Store the bytes [bs] at offset [off]. *)
Definition wr (buf : list Z) (off : Z) (bs : list Z) : result (list Z) :=
  if in_range buf off (Z.of_nat (length bs)) then Ok (splice (Z.to_nat off) bs buf)
  else Fault OutOfBounds.

Abbreviation rd16 buf off := (rd buf off 2).
Abbreviation rd32 buf off := (rd buf off 4).
Definition wr16 (buf : list Z) (off v : Z) : result (list Z) := wr buf off (le_bytes 2 v).
Definition wr32 (buf : list Z) (off v : Z) : result (list Z) := wr buf off (le_bytes 4 v).

Lemma in_range_spec buf off n :
  in_range buf off n = true <-> 0 <= off /\ 0 <= n /\ off + n <= Z.of_nat (length buf).
Proof. unfold in_range. rewrite !andb_true_iff, !Z.leb_le. tauto. Qed.

Lemma wr_Ok buf off bs buf' :
  wr buf off bs = Ok buf' <->
  0 <= off /\ off + Z.of_nat (length bs) <= Z.of_nat (length buf) /\
  buf' = splice (Z.to_nat off) bs buf.
Proof.
  unfold wr. destruct (in_range _ _ _) eqn:E.
  - apply in_range_spec in E. split; [intros [= <-]|intros (?&?&->)]; intuition lia.
  - split; [done|]. intros (?&?&?).
    enough (in_range buf off (Z.of_nat (length bs)) = true) by congruence.
    apply in_range_spec. lia.
Qed.

Lemma wr_in_range buf off bs :
  0 <= off -> off + Z.of_nat (length bs) <= Z.of_nat (length buf) ->
  wr buf off bs = Ok (splice (Z.to_nat off) bs buf).
Proof. intros. apply wr_Ok. auto. Qed.

Lemma rd_in_range buf off n :
  0 <= off -> 0 <= n -> off + n <= Z.of_nat (length buf) ->
  rd buf off n = Ok (le_val (slice (Z.to_nat off) (Z.to_nat n) buf)).
Proof.
  intros. unfold rd. replace (in_range _ _ _) with true; [done|].
  symmetry. apply in_range_spec. lia.
Qed.

Lemma wr_length buf off bs buf' : wr buf off bs = Ok buf' -> length buf' = length buf.
Proof. intros (?&?&->)%wr_Ok. apply length_splice. lia. Qed.

Lemma wr_bytes_ok buf off bs buf' :
  wr buf off bs = Ok buf' -> bytes_ok bs -> bytes_ok buf -> bytes_ok buf'.
Proof. intros (?&?&->)%wr_Ok. apply bytes_ok_splice. Qed.

(** Reading back the field just written. *)
Lemma rd_wr_same buf off bs buf' :
  wr buf off bs = Ok buf' -> rd buf' off (Z.of_nat (length bs)) = Ok (le_val bs).
Proof.
  intros H. pose proof (wr_length _ _ _ _ H) as Hl. apply wr_Ok in H as (?&?&->).
  rewrite rd_in_range by lia. rewrite Nat2Z.id.
  rewrite slice_splice_same by lia. done.
Qed.

(** A write leaves every field outside its range as it was. *)
Lemma rd_wr_disj buf off bs buf' off' n' :
  wr buf off bs = Ok buf' -> 0 <= off' ->
  off' + n' <= off \/ off + Z.of_nat (length bs) <= off' ->
  rd buf' off' n' = rd buf off' n'.
Proof.
  intros H Hoff Hd. pose proof (wr_length _ _ _ _ H) as Hl. apply wr_Ok in H as (?&?&->).
  unfold rd, in_range. rewrite Hl.
  destruct (_ && _) eqn:E; [|done]. rewrite !andb_true_iff, !Z.leb_le in E.
  rewrite slice_splice_disj by lia. done.
Qed.

(** The [n] bytes at offset [off], for accesses known to be in range. *)
Definition bytes_at (buf : list Z) (off n : Z) : list Z :=
  slice (Z.to_nat off) (Z.to_nat n) buf.

Lemma rd_bytes_at buf off n :
  0 <= off -> 0 <= n -> off + n <= Z.of_nat (length buf) ->
  rd buf off n = Ok (le_val (bytes_at buf off n)).
Proof. apply rd_in_range. Qed.

Lemma bytes_at_wr_same buf off bs buf' :
  wr buf off bs = Ok buf' -> bytes_at buf' off (Z.of_nat (length bs)) = bs.
Proof.
  intros (?&?&->)%wr_Ok. unfold bytes_at. rewrite Nat2Z.id.
  apply slice_splice_same; lia.
Qed.

Lemma bytes_at_wr_disj buf off bs buf' off' n' :
  wr buf off bs = Ok buf' -> 0 <= off' -> 0 <= n' ->
  off' + n' <= off \/ off + Z.of_nat (length bs) <= off' ->
  bytes_at buf' off' n' = bytes_at buf off' n'.
Proof.
  intros (?&?&->)%wr_Ok. intros. unfold bytes_at. apply slice_splice_disj; lia.
Qed.

Lemma rd16_wr16_same buf off v buf' :
  wr16 buf off v = Ok buf' -> rd16 buf' off = Ok (wrap16 v).
Proof.
  intros H%rd_wr_same. rewrite length_le_bytes, le_val_bytes in H. exact H.
Qed.

Lemma rd32_wr32_same buf off v buf' :
  wr32 buf off v = Ok buf' -> rd32 buf' off = Ok (wrap32 v).
Proof.
  intros H%rd_wr_same. rewrite length_le_bytes, le_val_bytes in H. exact H.
Qed.

Lemma rd16_wr16_disj buf off v buf' off' n' :
  wr16 buf off v = Ok buf' -> 0 <= off' -> off' + n' <= off \/ off + 2 <= off' ->
  rd buf' off' n' = rd buf off' n'.
Proof.
  intros H ? Hd. eapply rd_wr_disj; [exact H|done|]. rewrite length_le_bytes. lia.
Qed.

Lemma bytes_at_wr16_disj buf off v buf' off' n' :
  wr16 buf off v = Ok buf' -> 0 <= off' -> 0 <= n' ->
  off' + n' <= off \/ off + 2 <= off' ->
  bytes_at buf' off' n' = bytes_at buf off' n'.
Proof.
  intros H ? ? Hd. eapply bytes_at_wr_disj; [exact H|done|done|].
  rewrite length_le_bytes. lia.
Qed.

Lemma rd_Ok_range buf off n v :
  rd buf off n = Ok v -> 0 <= off /\ 0 <= n /\ off + n <= Z.of_nat (length buf).
Proof. unfold rd. destruct (in_range _ _ _) eqn:E; [|done]. by apply in_range_spec in E. Qed.

Lemma rd16_range buf off v : bytes_ok buf -> rd16 buf off = Ok v -> 0 <= v < 65536.
Proof.
  intros Hb H. pose proof (rd_Ok_range _ _ _ _ H). rewrite rd_bytes_at in H by lia.
  injection H as <-. unfold bytes_at.
  assert (Hs : bytes_ok (slice (Z.to_nat off) (Z.to_nat 2) buf))
    by (apply Forall_take, Forall_drop, Hb).
  apply le_val_range in Hs. rewrite length_slice in Hs by lia. exact Hs.
Qed.

Lemma rd_wr_le buf off k v buf' n :
  wr buf off (le_bytes k v) = Ok buf' -> n = Z.of_nat k ->
  rd buf' off n = Ok (v mod 2 ^ (8 * n)).
Proof.
  intros H%rd_wr_same ->. by rewrite length_le_bytes, le_val_bytes in H.
Qed.

(** Reading a field inside a written block. *)
Lemma rd_wr_inside buf off bs buf' off' n :
  wr buf off bs = Ok buf' -> off <= off' -> 0 <= n ->
  off' + n <= off + Z.of_nat (length bs) ->
  rd buf' off' n = Ok (le_val (slice (Z.to_nat (off' - off)) (Z.to_nat n) bs)).
Proof.
  intros H ? ? ?. pose proof (wr_length _ _ _ _ H) as Hl. apply wr_Ok in H as (?&?&->).
  rewrite rd_in_range by lia. do 2 f_equal. apply list_eq. intros i.
  rewrite !lookup_slice. case_decide; [|done].
  rewrite lookup_splice by lia. repeat case_decide; try lia. f_equal. lia.
Qed.

Lemma le_val_zeroes l : Forall (fun b => b = 0) l -> le_val l = 0.
Proof. induction 1 as [|b l -> _ IH]; [done|]. simpl. rewrite IH. done. Qed.

Lemma slice_zeroes off n m : Forall (fun b => b = 0) (slice off n (replicate m 0)).
Proof. apply Forall_take, Forall_drop, Forall_replicate. done. Qed.

Lemma bytes_ok_zeroes m : bytes_ok (replicate m 0).
Proof. apply Forall_replicate. lia. Qed.

(** A write in range succeeds. *)
Lemma wr_total buf off bs :
  0 <= off -> off + Z.of_nat (length bs) <= Z.of_nat (length buf) ->
  exists buf', wr buf off bs = Ok buf' /\ length buf' = length buf /\
    (bytes_ok bs -> bytes_ok buf -> bytes_ok buf').
Proof.
  intros. eexists. split; [by apply wr_in_range|]. split; [apply length_splice; lia|].
  apply bytes_ok_splice.
Qed.

(** ** Parts of a state

    The variables of a C file as a part [S] of the state [X] of all files around
    it. *)

Class Part (S X : Type) : Type := {
  part : X -> S;
  set_part : S -> X -> X;
  part_set : forall v x, part (set_part v x) = v;
  set_part_set : forall v w x, set_part v (set_part w x) = set_part v x;
  set_part_same : forall x, set_part (part x) x = x
}.

#[export] Instance part_self S : Part S S := {|
  part x := x;
  set_part v _ := v;
  part_set _ _ := eq_refl;
  set_part_set _ _ _ := eq_refl;
  set_part_same _ := eq_refl
|}.

(** ** Tactics and hints *)

Create HintDb fx3.
Create Rewrite HintDb fx3.
#[export] Hint Resolve wrap16_range wrap8_range wrap32_range bytes_ok_le_bytes bytes_ok_zeroes : fx3.
#[export] Hint Rewrite @length_le_bytes @length_app @length_insert @length_replicate : fx3.

(** Split every [rbind _ _ = Ok _] hypothesis into its steps. *)
Ltac inv_bind :=
  repeat match goal with
  | H : rbind _ _ = Ok _ |- _ =>
      let a := fresh "a" in let E := fresh "E" in
      apply rbind_Ok in H as (a & E & H)
  | H : Ok _ = Ok _ |- _ => injection H as H
  | H : Fault _ = Ok _ |- _ => discriminate H
  end.

(** Perform the next write of the goal, in range by arithmetic. *)
Ltac do_write :=
  match goal with
  | |- context [wr ?b ?o ?bs] =>
      let b' := fresh "b" in let H := fresh "Hw" in
      let Hl := fresh "Hlen" in let Hb := fresh "Hbytes" in
      destruct (wr_total b o bs) as (b' & H & Hl & Hb);
      [ | | rewrite H; cbn [rbind];
            try specialize (Hb ltac:(auto with fx3) ltac:(assumption)) ]
  end.

(** Push a read through the writes that do not touch it. *)
Ltac skip_writes :=
  repeat match goal with
  | H : wr ?b ?o ?bs = Ok ?b' |- context [rd ?b' ?o' ?n] =>
      rewrite (rd_wr_disj b o bs b' o' n H)
        by (rewrite ?length_le_bytes, ?length_replicate; lia)
  | H : wr ?b ?o ?bs = Ok ?b' |- context [bytes_at ?b' ?o' ?n] =>
      rewrite (bytes_at_wr_disj b o bs b' o' n H)
        by (rewrite ?length_le_bytes, ?length_replicate; lia)
  end.

(** Read back a little-endian field, possibly under later writes. *)
Ltac read_field :=
  skip_writes;
  match goal with
  | H : wr _ ?o (le_bytes _ ?v) = Ok ?b' |- rd ?b' ?o ?n = Ok _ =>
      rewrite (rd_wr_le _ _ _ _ _ n H) by done; f_equal;
      try (rewrite Z.mod_small by lia; done)
  end.
