(* ===== verification/Linked.v ===== *)
(** * Singly linked lists in a store of structures

    The stack links its structures through a pointer in their first word: packet
    buffers, timeouts, and the free lists of the pools they come from.  [linked]
    says which structures a pointer leads to, for any type of structures. *)

From stdpp Require Import base numbers list decidable gmap.
From Stdlib Require Import ZArith Lia Bool.
From S2P Require Import Prelude.
Open Scope Z_scope.

Section linked.
Context {A : Type} {nxt : A -> option Z}.
Implicit Types (m : gmap Z A) (o : option Z) (l : list Z).

(** Following [nxt] from [o] gives exactly the structures [l]. *)
Fixpoint linked m o l : Prop :=
  match l with
  | [] => o = None
  | p :: l => o = Some p /\ exists b, m !! p = Some b /\ linked m (nxt b) l
  end.

Lemma linked_det m o l l' : linked m o l -> linked m o l' -> l = l'.
Proof.
  revert o l'. induction l as [|p l IH]; intros o [|p' l']; cbn.
  - done.
  - intros -> [? _]. done.
  - intros [-> _] ?. done.
  - intros [-> (b&Hb&Hc)] [[= <-] (b'&Hb'&Hc')]. f_equal. rewrite Hb in Hb'. injection Hb' as <-. eauto.
Qed.

Lemma linked_starts m o l : linked m o l -> o = head l.
Proof. destruct l; [done|]. by intros [-> _]. Qed.

Lemma linked_suffix m o l1 p l2 : linked m o (l1 ++ p :: l2) -> linked m (Some p) (p :: l2).
Proof. revert o. induction l1 as [|q l1 IH]; intros o; cbn; [by intros [-> ?]|]. intros [_ (b&_&Hc)]. exact (IH _ Hc). Qed.

Lemma linked_nodup m o l : linked m o l -> NoDup l.
Proof.
  revert o. induction l as [|p l IH]; intros o Hc; [apply NoDup_nil_2|]. pose proof Hc as [-> (b&Hb&Hc')].
  apply NoDup_cons. split; [|eauto]. intros Hin. apply list_elem_of_split in Hin as (l1&l2&->).
  pose proof (linked_suffix _ _ (p :: l1) p l2 Hc) as Hs.
  pose proof (linked_det _ _ _ _ Hc Hs) as Heq. apply (f_equal length) in Heq.
  cbn in Heq. rewrite length_app in Heq. cbn in Heq. lia.
Qed.

Lemma linked_dom m o l p : linked m o l -> p ∈ l -> is_Some (m !! p).
Proof.
  revert o. induction l as [|q l IH]; intros o; [set_solver|]. intros [_ (b&Hb&Hc)] [->|Hp]%elem_of_cons; eauto.
Qed.

Lemma linked_size m o l : linked m o l -> (length l <= size m)%nat.
Proof.
  intros Hc. rewrite <- size_dom. rewrite <- (size_list_to_set (C := gset Z) l) by (by eapply linked_nodup).
  apply subseteq_size. intros p Hp%elem_of_list_to_set. apply elem_of_dom. by eapply linked_dom.
Qed.

(** A list depends only on the links of its members. *)
Lemma linked_ext m m' o l :
  (forall p, p ∈ l -> nxt <$> m' !! p = nxt <$> m !! p) -> linked m o l -> linked m' o l.
Proof.
  revert o. induction l as [|p l IH]; intros o Hext; [done|]. intros [-> (b&Hb&Hc)]. split; [done|].
  pose proof (Hext p ltac:(set_solver)) as Hp. rewrite Hb in Hp.
  destruct (m' !! p) as [b'|]; [|done]. injection Hp as Hn. exists b'. split; [done|]. rewrite Hn.
  apply IH; [|done]. intros q Hq. apply Hext. set_solver.
Qed.

(** Writing a structure that is not a member. *)
Lemma linked_insert_ne m o l p b : p ∉ l -> linked m o l -> linked (<[p := b]> m) o l.
Proof. intros Hp. apply linked_ext. intros q Hq. rewrite lookup_insert_ne; [done|]. by intros ->. Qed.

End linked.

Arguments linked {A} nxt m o l.

(** One member taken out. *)
Lemma linked_skip {A} (nxt : A -> option Z) m o l1 j i l2 dj di dj' : linked nxt m o (l1 ++ j :: i :: l2) -> m !! j = Some dj -> m !! i = Some di ->
  NoDup (l1 ++ j :: i :: l2) -> nxt dj' = nxt di -> linked nxt (<[j := dj']> m) o (l1 ++ j :: l2).
Proof.
  intros Hl Hj Hi Hn He. revert o Hl. induction l1 as [|k l1 IH]; intros o Hl; cbn [app] in *.
  - destruct Hl as [-> (b&Hb&Hx&(b'&Hb'&Hl))]. split; [done|]. exists dj'. rewrite lookup_insert_eq. split; [done|]. assert (b' = di) as -> by congruence.
    rewrite He. apply linked_insert_ne; [|done]. apply NoDup_cons in Hn as [Hn _]. set_solver.
  - destruct Hl as [-> (b&Hb&Hl)]. apply NoDup_cons in Hn as [Hk Hn]. split; [done|]. exists b. rewrite lookup_insert_ne by set_solver.
    split; [done|]. by apply IH.
Qed.
