(* ===== verification/NcmTypes.v ===== *)
(** * Types, constants and static data of the NCM class driver

    The data of [src/lib/ncm]: the constants of [include/ncm.h], the packed
    wire structures as offsets into an NTB's bytes, the driver's state
    [ncm_interface_t] of [include/struct.h], the initialised objects of
    [struct.c], and the interface [NcmEnv] through which the driver calls
    the functions it only declares ([include/usb.h], [include/net.h]). *)

From stdpp Require Import base numbers list decidable.
From Stdlib Require Import ZArith Lia Bool.
From S2P Require Import Prelude.
Open Scope Z_scope.

(** ** Constants of [ncm.h] and [desc_value.h] *)

Definition NCM_EP_SIZE : Z := 512.
Definition NCM_EP_NOTIFY : Z := 0x81.
Definition NCM_EP_DATA_OUT : Z := 0x02.
Definition NCM_EP_DATA_IN : Z := 0x82.
Definition NCM_NTB_MAX_SIZE : Z := 3200.
Definition NCM_NTB_N : Z := 2.
Definition NCM_MAX_DATAGRAMS_PER_NTB : Z := 8.
Definition NCM_NDP_ALIGN_MIN_SIZE : Z := 4.
Definition NTH16_SIGNATURE : Z := 0x484D434E.
Definition NDP16_SIGNATURE_NCM0 : Z := 0x304D434E.
Definition USB_CDC_NOTIFY_NETWORK_CONNECTION : Z := 0x00.
Definition USB_CDC_NOTIFY_SPEED_CHANGE : Z := 0x2a.
Definition NCM_GET_NTB_PARAMETERS : Z := 0x80.

Definition USB_DATA_DEVICE_TO_HOST : Z := 0x01.
Definition USB_TYPE_STANDARD : Z := 0x00.
Definition USB_TYPE_CLASS : Z := 0x01.
Definition USB_RECIP_INTERFACE : Z := 0x01.
Definition USB_REQ_GET_INTERFACE : Z := 0x0A.
Definition USB_REQ_SET_INTERFACE : Z := 0x0B.

(** [#define ALIGN_OFFSET(x)] of [struct.h]: the padding after [x] bytes. *)
Definition ALIGN_OFFSET (x : Z) : Z :=
  Z.land (4 - Z.land x (NCM_NDP_ALIGN_MIN_SIZE - 1)) (NCM_NDP_ALIGN_MIN_SIZE - 1).

(** ** Packed structures: field offsets inside an NTB

    [nth16_t] is at offset 0 of an NTB.  In an NTB the driver builds
    ([ntb_def_t]) an [ndp16_t] and [NCM_MAX_DATAGRAMS_PER_NTB + 1] entries of
    [ndp16_datagram_t] follow it; in one it receives ([ntb_t]) only the
    position of the header is fixed. *)

Definition nth_dwSignature : Z := 0.
Definition nth_wHeaderLength : Z := 4.
Definition nth_wSequence : Z := 6.
Definition nth_wBlockLength : Z := 8.
Definition nth_wNdpIndex : Z := 10.
Definition sizeof_nth16_t : Z := 12.

Definition ndp_dwSignature : Z := 0.
Definition ndp_wLength : Z := 4.
Definition ndp_wNextNdpIndex : Z := 6.
Definition sizeof_ndp16_t : Z := 8.

Definition dg_wDatagramIndex : Z := 0.
Definition dg_wDatagramLength : Z := 2.
Definition sizeof_ndp16_datagram_t : Z := 4.

(** Members [ndp] and [ndp_datagram] of [ntb_def_t]. *)
Definition def_ndp : Z := sizeof_nth16_t.
Definition def_ndp_datagram : Z := sizeof_nth16_t + sizeof_ndp16_t.
Definition sizeof_def_ndp_datagram : Z :=
  (NCM_MAX_DATAGRAMS_PER_NTB + 1) * sizeof_ndp16_datagram_t.
Definition def_header_size : Z :=
  sizeof_nth16_t + sizeof_ndp16_t + sizeof_def_ndp_datagram.

(** ** The driver's state ([struct.h]) *)

(** A pointer to an [ntb_t]: an element of [ncm_if.rx_ntb] or [ncm_if.tx_ntb].
    [option ntb_ptr] is a pointer that may be [NULL]. *)
Inductive ntb_ptr : Type :=
| RxNtb (n : nat)
| TxNtb (n : nat).

#[export] Instance ntb_ptr_eq_dec : EqDecision ntb_ptr.
Proof. solve_decision. Defined.

Record ntb_list_t : Type := mk_ntb_list {
  ntb_list : list (option ntb_ptr);
  list_front : Z;
  list_back : Z
}.

Inductive notifiy_state_t : Type :=
| TX_NOTIFY_STATE_WAITING
| TX_NOTIFY_STATE_SPEED_CHANGE
| TX_NOTIFY_STATE_CONNECTED.

#[export] Instance notifiy_state_t_eq_dec : EqDecision notifiy_state_t.
Proof. solve_decision. Defined.

Record ncm_interface_t : Type := mk_ncm {
  interface_active : Z;
  rx_ntb : list (list Z);
  rx_free_ntb : ntb_list_t;
  rx_wait_ntb : ntb_list_t;
  rx_usbd_ntb : option ntb_ptr;
  rx_user_ntb : option ntb_ptr;
  rx_user_ntb_datagram_index : Z;
  tx_ntb : list (list Z);
  tx_free_ntb : ntb_list_t;
  tx_wait_ntb : ntb_list_t;
  tx_usbd_ntb : option ntb_ptr;
  tx_user_ntb : option ntb_ptr;
  tx_user_ntb_datagram_index : Z;
  tx_seq_count : Z;
  notification_state : notifiy_state_t
}.

(** *** Field assignments [ncm_if.f = v] *)

Definition set_interface_active (v : Z) (s : ncm_interface_t) : ncm_interface_t :=
  mk_ncm v (rx_ntb s) (rx_free_ntb s) (rx_wait_ntb s) (rx_usbd_ntb s) (rx_user_ntb s) (rx_user_ntb_datagram_index s) (tx_ntb s) (tx_free_ntb s) (tx_wait_ntb s) (tx_usbd_ntb s) (tx_user_ntb s) (tx_user_ntb_datagram_index s) (tx_seq_count s) (notification_state s).
Definition set_rx_ntb (v : list (list Z)) (s : ncm_interface_t) : ncm_interface_t :=
  mk_ncm (interface_active s) v (rx_free_ntb s) (rx_wait_ntb s) (rx_usbd_ntb s) (rx_user_ntb s) (rx_user_ntb_datagram_index s) (tx_ntb s) (tx_free_ntb s) (tx_wait_ntb s) (tx_usbd_ntb s) (tx_user_ntb s) (tx_user_ntb_datagram_index s) (tx_seq_count s) (notification_state s).
Definition set_rx_free_ntb (v : ntb_list_t) (s : ncm_interface_t) : ncm_interface_t :=
  mk_ncm (interface_active s) (rx_ntb s) v (rx_wait_ntb s) (rx_usbd_ntb s) (rx_user_ntb s) (rx_user_ntb_datagram_index s) (tx_ntb s) (tx_free_ntb s) (tx_wait_ntb s) (tx_usbd_ntb s) (tx_user_ntb s) (tx_user_ntb_datagram_index s) (tx_seq_count s) (notification_state s).
Definition set_rx_wait_ntb (v : ntb_list_t) (s : ncm_interface_t) : ncm_interface_t :=
  mk_ncm (interface_active s) (rx_ntb s) (rx_free_ntb s) v (rx_usbd_ntb s) (rx_user_ntb s) (rx_user_ntb_datagram_index s) (tx_ntb s) (tx_free_ntb s) (tx_wait_ntb s) (tx_usbd_ntb s) (tx_user_ntb s) (tx_user_ntb_datagram_index s) (tx_seq_count s) (notification_state s).
Definition set_rx_usbd_ntb (v : option ntb_ptr) (s : ncm_interface_t) : ncm_interface_t :=
  mk_ncm (interface_active s) (rx_ntb s) (rx_free_ntb s) (rx_wait_ntb s) v (rx_user_ntb s) (rx_user_ntb_datagram_index s) (tx_ntb s) (tx_free_ntb s) (tx_wait_ntb s) (tx_usbd_ntb s) (tx_user_ntb s) (tx_user_ntb_datagram_index s) (tx_seq_count s) (notification_state s).
Definition set_rx_user_ntb (v : option ntb_ptr) (s : ncm_interface_t) : ncm_interface_t :=
  mk_ncm (interface_active s) (rx_ntb s) (rx_free_ntb s) (rx_wait_ntb s) (rx_usbd_ntb s) v (rx_user_ntb_datagram_index s) (tx_ntb s) (tx_free_ntb s) (tx_wait_ntb s) (tx_usbd_ntb s) (tx_user_ntb s) (tx_user_ntb_datagram_index s) (tx_seq_count s) (notification_state s).
Definition set_rx_user_ntb_datagram_index (v : Z) (s : ncm_interface_t) : ncm_interface_t :=
  mk_ncm (interface_active s) (rx_ntb s) (rx_free_ntb s) (rx_wait_ntb s) (rx_usbd_ntb s) (rx_user_ntb s) v (tx_ntb s) (tx_free_ntb s) (tx_wait_ntb s) (tx_usbd_ntb s) (tx_user_ntb s) (tx_user_ntb_datagram_index s) (tx_seq_count s) (notification_state s).
Definition set_tx_ntb (v : list (list Z)) (s : ncm_interface_t) : ncm_interface_t :=
  mk_ncm (interface_active s) (rx_ntb s) (rx_free_ntb s) (rx_wait_ntb s) (rx_usbd_ntb s) (rx_user_ntb s) (rx_user_ntb_datagram_index s) v (tx_free_ntb s) (tx_wait_ntb s) (tx_usbd_ntb s) (tx_user_ntb s) (tx_user_ntb_datagram_index s) (tx_seq_count s) (notification_state s).
Definition set_tx_free_ntb (v : ntb_list_t) (s : ncm_interface_t) : ncm_interface_t :=
  mk_ncm (interface_active s) (rx_ntb s) (rx_free_ntb s) (rx_wait_ntb s) (rx_usbd_ntb s) (rx_user_ntb s) (rx_user_ntb_datagram_index s) (tx_ntb s) v (tx_wait_ntb s) (tx_usbd_ntb s) (tx_user_ntb s) (tx_user_ntb_datagram_index s) (tx_seq_count s) (notification_state s).
Definition set_tx_wait_ntb (v : ntb_list_t) (s : ncm_interface_t) : ncm_interface_t :=
  mk_ncm (interface_active s) (rx_ntb s) (rx_free_ntb s) (rx_wait_ntb s) (rx_usbd_ntb s) (rx_user_ntb s) (rx_user_ntb_datagram_index s) (tx_ntb s) (tx_free_ntb s) v (tx_usbd_ntb s) (tx_user_ntb s) (tx_user_ntb_datagram_index s) (tx_seq_count s) (notification_state s).
Definition set_tx_usbd_ntb (v : option ntb_ptr) (s : ncm_interface_t) : ncm_interface_t :=
  mk_ncm (interface_active s) (rx_ntb s) (rx_free_ntb s) (rx_wait_ntb s) (rx_usbd_ntb s) (rx_user_ntb s) (rx_user_ntb_datagram_index s) (tx_ntb s) (tx_free_ntb s) (tx_wait_ntb s) v (tx_user_ntb s) (tx_user_ntb_datagram_index s) (tx_seq_count s) (notification_state s).
Definition set_tx_user_ntb (v : option ntb_ptr) (s : ncm_interface_t) : ncm_interface_t :=
  mk_ncm (interface_active s) (rx_ntb s) (rx_free_ntb s) (rx_wait_ntb s) (rx_usbd_ntb s) (rx_user_ntb s) (rx_user_ntb_datagram_index s) (tx_ntb s) (tx_free_ntb s) (tx_wait_ntb s) (tx_usbd_ntb s) v (tx_user_ntb_datagram_index s) (tx_seq_count s) (notification_state s).
Definition set_tx_user_ntb_datagram_index (v : Z) (s : ncm_interface_t) : ncm_interface_t :=
  mk_ncm (interface_active s) (rx_ntb s) (rx_free_ntb s) (rx_wait_ntb s) (rx_usbd_ntb s) (rx_user_ntb s) (rx_user_ntb_datagram_index s) (tx_ntb s) (tx_free_ntb s) (tx_wait_ntb s) (tx_usbd_ntb s) (tx_user_ntb s) v (tx_seq_count s) (notification_state s).
Definition set_tx_seq_count (v : Z) (s : ncm_interface_t) : ncm_interface_t :=
  mk_ncm (interface_active s) (rx_ntb s) (rx_free_ntb s) (rx_wait_ntb s) (rx_usbd_ntb s) (rx_user_ntb s) (rx_user_ntb_datagram_index s) (tx_ntb s) (tx_free_ntb s) (tx_wait_ntb s) (tx_usbd_ntb s) (tx_user_ntb s) (tx_user_ntb_datagram_index s) v (notification_state s).
Definition set_notification_state (v : notifiy_state_t) (s : ncm_interface_t) : ncm_interface_t :=
  mk_ncm (interface_active s) (rx_ntb s) (rx_free_ntb s) (rx_wait_ntb s) (rx_usbd_ntb s) (rx_user_ntb s) (rx_user_ntb_datagram_index s) (tx_ntb s) (tx_free_ntb s) (tx_wait_ntb s) (tx_usbd_ntb s) (tx_user_ntb s) (tx_user_ntb_datagram_index s) (tx_seq_count s) v.

(** [*p] for an NTB pointer, and the store back to it. *)
Definition ntb_data (s : ncm_interface_t) (p : ntb_ptr) : result (list Z) :=
  match (match p with RxNtb n => rx_ntb s !! n | TxNtb n => tx_ntb s !! n end) with
  | Some b => Ok b
  | None => Fault OutOfBounds
  end.

Definition set_ntb_data (p : ntb_ptr) (b : list Z) (s : ncm_interface_t) : ncm_interface_t :=
  match p with
  | RxNtb n => set_rx_ntb (<[n := b]> (rx_ntb s)) s
  | TxNtb n => set_tx_ntb (<[n := b]> (tx_ntb s)) s
  end.

(** ** Control requests ([desc_types.h]) *)

Record usb_control_request_t : Type := mk_request {
  req_recipient : Z;
  req_type : Z;
  req_direction : Z;
  req_bRequest : Z;
  req_wValue : Z;
  req_wIndex : Z;
  req_wLength : Z
}.

(** The byte that holds the bit fields [recipient:5], [type:2], [direction:1]. *)
Definition bmRequestType_byte (recipient type direction : Z) : Z :=
  Z.lor (Z.land recipient 31)
    (Z.lor (Z.shiftl (Z.land type 3) 5) (Z.shiftl (Z.land direction 1) 7)).

(** ** Initialised objects of [struct.c], as the bytes of the packed structure *)

Record ntb_parameters_t : Type := mk_ntb_parameters {
  np_wLength : Z;
  np_bmNtbFormatsSupported : Z;
  np_dwNtbInMaxSize : Z;
  np_wNdpInDivisor : Z;
  np_wNdpInPayloadRemainder : Z;
  np_wNdpInAlignment : Z;
  np_wReserved : Z;
  np_dwNtbOutMaxSize : Z;
  np_wNdpOutDivisor : Z;
  np_wNdpOutPayloadRemainder : Z;
  np_wNdpOutAlignment : Z;
  np_wNtbOutMaxDatagrams : Z
}.

Definition ntb_parameters_bytes (p : ntb_parameters_t) : list Z :=
  le_bytes 2 (np_wLength p) ++ le_bytes 2 (np_bmNtbFormatsSupported p) ++
  le_bytes 4 (np_dwNtbInMaxSize p) ++ le_bytes 2 (np_wNdpInDivisor p) ++
  le_bytes 2 (np_wNdpInPayloadRemainder p) ++ le_bytes 2 (np_wNdpInAlignment p) ++
  le_bytes 2 (np_wReserved p) ++ le_bytes 4 (np_dwNtbOutMaxSize p) ++
  le_bytes 2 (np_wNdpOutDivisor p) ++ le_bytes 2 (np_wNdpOutPayloadRemainder p) ++
  le_bytes 2 (np_wNdpOutAlignment p) ++ le_bytes 2 (np_wNtbOutMaxDatagrams p).

Definition sizeof_ntb_parameters_t : Z := 28.

Definition ntb_parameters : ntb_parameters_t := {|
  np_wLength := sizeof_ntb_parameters_t;
  np_bmNtbFormatsSupported := 0x01;
  np_dwNtbInMaxSize := NCM_NTB_MAX_SIZE;
  np_wNdpInDivisor := 1;
  np_wNdpInPayloadRemainder := 0;
  np_wNdpInAlignment := NCM_NDP_ALIGN_MIN_SIZE;
  np_wReserved := 0;
  np_dwNtbOutMaxSize := NCM_NDP_ALIGN_MIN_SIZE;
  np_wNdpOutDivisor := 1;
  np_wNdpOutPayloadRemainder := 0;
  np_wNdpOutAlignment := NCM_NDP_ALIGN_MIN_SIZE;
  np_wNtbOutMaxDatagrams := 6
|}.

Record usb_cdc_notification_t : Type := mk_notification {
  n_recipient : Z;
  n_type : Z;
  n_direction : Z;
  n_bNotificationType : Z;
  n_wValue : Z;
  n_wIndex : Z;
  n_wLength : Z
}.

Definition notification_bytes (n : usb_cdc_notification_t) : list Z :=
  [bmRequestType_byte (n_recipient n) (n_type n) (n_direction n); n_bNotificationType n] ++
  le_bytes 2 (n_wValue n) ++ le_bytes 2 (n_wIndex n) ++ le_bytes 2 (n_wLength n).

Definition sizeof_notification : Z := 8.

(** The initialiser of [bmRequestType] is positional, so its first value goes
    to the first declared bit field, [recipient]; members an initialiser does
    not name are zero. *)
Definition notify_connection : usb_cdc_notification_t := {|
  n_recipient := USB_DATA_DEVICE_TO_HOST;
  n_type := USB_TYPE_CLASS;
  n_direction := USB_RECIP_INTERFACE;
  n_bNotificationType := USB_CDC_NOTIFY_NETWORK_CONNECTION;
  n_wValue := 1;
  n_wIndex := 0;
  n_wLength := 0
|}.

Record usb_cdc_notify_speed_t : Type := mk_notify_speed {
  ns_header : usb_cdc_notification_t;
  ns_DLBitRRate : Z;
  ns_ULBitRate : Z
}.

Definition notify_speed_bytes (n : usb_cdc_notify_speed_t) : list Z :=
  notification_bytes (ns_header n) ++ le_bytes 4 (ns_DLBitRRate n) ++ le_bytes 4 (ns_ULBitRate n).

Definition sizeof_notify_speed : Z := 16.

Definition notify_speed : usb_cdc_notify_speed_t := {|
  ns_header := {|
    n_recipient := USB_DATA_DEVICE_TO_HOST;
    n_type := USB_TYPE_CLASS;
    n_direction := USB_RECIP_INTERFACE;
    n_bNotificationType := USB_CDC_NOTIFY_SPEED_CHANGE;
    n_wValue := 0;
    n_wIndex := 0;
    n_wLength := 8
  |};
  ns_DLBitRRate := 480000000;
  ns_ULBitRate := 480000000
|}.

(** ** The functions the driver declares and its user provides

    [E] is the state of the provider and [D] the type behind the [void *]
    datagram handle.  A buffer argument is given as the bytes it points to.
    [net_tx_cb] answers with the bytes it stores at [destination] and the
    size it returns. *)

Class NcmEnv (D E : Type) : Type := {
  usb_transfer_ep : Z -> option (list Z) -> Z -> E -> result (bool * E);
  usb_transfer_ep0 : usb_control_request_t -> list Z -> Z -> E -> result (bool * E);
  usb_control_status : usb_control_request_t -> E -> result (bool * E);
  usb_ep_busy : Z -> E -> result (bool * E);
  net_tx_cb : D -> Z -> E -> result (list Z * Z * E);
  net_rx_cb : list Z -> Z -> E -> result (Z * E)
}.

(** Every call that leaves the driver, with its arguments and its answer. *)
Inductive ext_call : Type :=
| CTransferEp (ep : Z) (buffer : option (list Z)) (bytes : Z) (ret : bool)
| CTransferEp0 (request : usb_control_request_t) (buffer : list Z) (bytes : Z) (ret : bool)
| CControlStatus (request : usb_control_request_t) (ret : bool)
| CEpBusy (ep : Z) (ret : bool)
| CNetTx (arg : Z) (stored : list Z) (size : Z)
| CNetRx (datagram : list Z) (size : Z) (ret : Z).

(** ** State passing

    The driver's functions run on a [world]: the global [ncm_if], the
    provider's state, and the calls made so far, the latest last. *)

Record world (E : Type) : Type := mk_world {
  ncm_if : ncm_interface_t;
  env : E;
  calls : list ext_call
}.
Arguments mk_world {E}.
Arguments ncm_if {E}.
Arguments env {E}.
Arguments calls {E}.

Definition NM (E A : Type) : Type := world E -> result (A * world E).

Definition ret {E A} (a : A) : NM E A := fun w => Ok (a, w).
Definition bind {E A B} (m : NM E A) (k : A -> NM E B) : NM E B :=
  fun w => match m w with
           | Ok (a, w') => k a w'
           | Fault f => Fault f
           end.
Definition gets {E A} (f : ncm_interface_t -> A) : NM E A := fun w => Ok (f (ncm_if w), w).
Definition modify {E} (f : ncm_interface_t -> ncm_interface_t) : NM E unit :=
  fun w => Ok (tt, mk_world (f (ncm_if w)) (env w) (calls w)).
Definition getsr {E A} (f : ncm_interface_t -> result A) : NM E A :=
  fun w => match f (ncm_if w) with Ok a => Ok (a, w) | Fault e => Fault e end.

Notation "'let!' x ':=' m 'in' k" := (bind m (fun x => k))
  (at level 10, x pattern, m at level 100, k at level 200,
   format "'[v' 'let!'  x  ':='  m  'in' '/' k ']'") : fx3_scope.

Lemma bind_Ok {E A B} (m : NM E A) (k : A -> NM E B) w r :
  bind m k w = Ok r <-> exists a w1, m w = Ok (a, w1) /\ k a w1 = Ok r.
Proof.
  unfold bind. destruct (m w) as [[a w1]|f]; split; eauto.
  - by intros (? & ? & [= -> ->] & ?).
  - done.
  - by intros (? & ? & ? & ?).
Qed.

(** The external calls, recorded. *)
Section calls.
Context {D E : Type} `{NcmEnv D E}.

Definition record_call (c : ext_call) (e : E) (w : world E) : world E :=
  mk_world (ncm_if w) e (calls w ++ [c]).

Definition call_transfer_ep (ep : Z) (buffer : option (list Z)) (bytes : Z) : NM E bool :=
  fun w => let* (r, e) := usb_transfer_ep ep buffer bytes (env w) in
           Ok (r, record_call (CTransferEp ep buffer bytes r) e w).

Definition call_transfer_ep0 (request : usb_control_request_t) (buffer : list Z) (bytes : Z)
  : NM E bool :=
  fun w => let* (r, e) := usb_transfer_ep0 request buffer bytes (env w) in
           Ok (r, record_call (CTransferEp0 request buffer bytes r) e w).

Definition call_control_status (request : usb_control_request_t) : NM E bool :=
  fun w => let* (r, e) := usb_control_status request (env w) in
           Ok (r, record_call (CControlStatus request r) e w).

Definition call_ep_busy (ep : Z) : NM E bool :=
  fun w => let* (r, e) := usb_ep_busy ep (env w) in
           Ok (r, record_call (CEpBusy ep r) e w).

(** The callbacks return [uint16_t]. *)
Definition call_net_tx (datagram : D) (arg : Z) : NM E (list Z * Z) :=
  fun w => let* (bs, size, e) := net_tx_cb datagram arg (env w) in
           Ok ((bs, wrap16 size), record_call (CNetTx arg bs (wrap16 size)) e w).

Definition call_net_rx (datagram : list Z) (size : Z) : NM E Z :=
  fun w => let* (r, e) := net_rx_cb datagram size (env w) in
           Ok (wrap16 r, record_call (CNetRx datagram size (wrap16 r)) e w).
End calls.

(** ** Total correctness of state-passing programs

    [wp m w Q]: run from [w], [m] ends without a fault and [Q] holds of what
    it returns and of the world it leaves. *)

Definition wp {E A} (m : NM E A) (w : world E) (Q : A -> world E -> Prop) : Prop :=
  match m w with
  | Ok (a, w') => Q a w'
  | Fault _ => False
  end.

Definition with_if {E} (s : ncm_interface_t) (w : world E) : world E :=
  mk_world s (env w) (calls w).

Section wp.
Context {E : Type}.
Implicit Types (w : world E).

Lemma wp_ret {A} (a : A) w (Q : A -> world E -> Prop) : Q a w -> wp (ret a) w Q.
Proof. done. Qed.

Lemma wp_bind {A B} (m : NM E A) (k : A -> NM E B) w Q :
  wp m w (fun a w' => wp (k a) w' Q) -> wp (bind m k) w Q.
Proof. unfold wp, bind. by destruct (m w) as [[a w']|]. Qed.

Lemma wp_gets {A} (f : ncm_interface_t -> A) w (Q : A -> world E -> Prop) :
  Q (f (ncm_if w)) w -> wp (gets f) w Q.
Proof. done. Qed.

Lemma wp_modify f w (Q : unit -> world E -> Prop) :
  Q tt (with_if (f (ncm_if w)) w) -> wp (modify f) w Q.
Proof. done. Qed.

Lemma wp_getsr {A} (f : ncm_interface_t -> result A) w (Q : A -> world E -> Prop) a :
  f (ncm_if w) = Ok a -> Q a w -> wp (getsr f) w Q.
Proof. unfold wp, getsr. by intros ->. Qed.

Lemma wp_mono {A} (m : NM E A) w (Q Q' : A -> world E -> Prop) :
  wp m w Q -> (forall a w', Q a w' -> Q' a w') -> wp m w Q'.
Proof. unfold wp. destruct (m w) as [[]|]; auto. Qed.

Lemma wp_Ok {A} (m : NM E A) w Q :
  wp m w Q <-> exists a w', m w = Ok (a, w') /\ Q a w'.
Proof.
  unfold wp. destruct (m w) as [[a w']|f]; split; eauto.
  - by intros (? & ? & [= -> ->] & ?).
  - done.
  - by intros (? & ? & ? & ?).
Qed.
End wp.

(** What the driver relies on in the functions it calls: they return, and
    [net_tx_cb] stores the frame behind its handle and returns its length.
    [net_rx_cb] may read the [size] bytes it is given. *)
Class NcmProvider (D E : Type) `{NcmEnv D E} (frame : D -> list Z) : Prop := {
  transfer_ep_returns ep b n e : exists r e', usb_transfer_ep ep b n e = Ok (r, e');
  transfer_ep0_returns rq b n e : exists r e', usb_transfer_ep0 rq b n e = Ok (r, e');
  control_status_returns rq e : exists r e', usb_control_status rq e = Ok (r, e');
  ep_busy_returns ep e : exists r e', usb_ep_busy ep e = Ok (r, e');
  net_tx_cb_copies d arg e :
    exists e', net_tx_cb d arg e = Ok (frame d, Z.of_nat (length (frame d)), e');
  frame_bytes d : bytes_ok (frame d);
  frame_length d : Z.of_nat (length (frame d)) < 65536;
  net_rx_cb_returns window size e :
    0 <= size <= Z.of_nat (length window) -> exists r e', net_rx_cb window size e = Ok (r, e')
}.

Section wp_calls.
Context {D E : Type} `{NcmProvider D E frame}.
Implicit Types (w : world E).

Lemma wp_transfer_ep ep b n w (Q : bool -> world E -> Prop) :
  (forall r e, Q r (record_call (CTransferEp ep b n r) e w)) ->
  wp (call_transfer_ep ep b n) w Q.
Proof.
  intros HQ. unfold wp, call_transfer_ep.
  destruct (transfer_ep_returns ep b n (env w)) as (r & e & ->). apply HQ.
Qed.

Lemma wp_transfer_ep0 rq b n w (Q : bool -> world E -> Prop) :
  (forall r e, Q r (record_call (CTransferEp0 rq b n r) e w)) ->
  wp (call_transfer_ep0 rq b n) w Q.
Proof.
  intros HQ. unfold wp, call_transfer_ep0.
  destruct (transfer_ep0_returns rq b n (env w)) as (r & e & ->). apply HQ.
Qed.

Lemma wp_control_status rq w (Q : bool -> world E -> Prop) :
  (forall r e, Q r (record_call (CControlStatus rq r) e w)) ->
  wp (call_control_status rq) w Q.
Proof.
  intros HQ. unfold wp, call_control_status.
  destruct (control_status_returns rq (env w)) as (r & e & ->). apply HQ.
Qed.

Lemma wp_ep_busy ep w (Q : bool -> world E -> Prop) :
  (forall r e, Q r (record_call (CEpBusy ep r) e w)) -> wp (call_ep_busy ep) w Q.
Proof.
  intros HQ. unfold wp, call_ep_busy.
  destruct (ep_busy_returns ep (env w)) as (r & e & ->). apply HQ.
Qed.

Lemma wp_call_net_tx d arg w (Q : list Z * Z -> world E -> Prop) :
  (forall e, Q (frame d, Z.of_nat (length (frame d)))
     (record_call (CNetTx arg (frame d) (Z.of_nat (length (frame d)))) e w)) ->
  wp (call_net_tx d arg) w Q.
Proof.
  intros HQ. unfold wp, call_net_tx.
  destruct (net_tx_cb_copies d arg (env w)) as (e & ->). cbn [rbind].
  rewrite wrap16_small by (pose proof (frame_length d); lia). apply HQ.
Qed.

Lemma wp_call_net_rx window size w (Q : Z -> world E -> Prop) :
  0 <= size <= Z.of_nat (length window) ->
  (forall r e, 0 <= r < 65536 -> Q r (record_call (CNetRx window size r) e w)) ->
  wp (call_net_rx window size) w Q.
Proof.
  intros Hs HQ. unfold wp, call_net_rx.
  destruct (net_rx_cb_returns window size (env w) Hs) as (r & e & ->). cbn [rbind].
  apply HQ, wrap16_range.
Qed.
End wp_calls.

(** One step of a total-correctness proof. *)
Ltac wp_step :=
  lazymatch goal with
  | |- wp (bind _ _) _ _ => apply wp_bind
  | |- wp (ret _) _ _ => apply wp_ret
  | |- wp (gets _) _ _ => apply wp_gets
  | |- wp (modify _) _ _ => apply wp_modify
  | |- wp (call_transfer_ep _ _ _) _ _ => apply wp_transfer_ep; intros
  | |- wp (call_transfer_ep0 _ _ _) _ _ => apply wp_transfer_ep0; intros
  | |- wp (call_control_status _) _ _ => apply wp_control_status; intros
  | |- wp (call_ep_busy _) _ _ => apply wp_ep_busy; intros
  | |- wp (call_net_tx _ _) _ _ => apply wp_call_net_tx; intros
  end.
Ltac wp_steps := repeat (wp_step; cbn beta).
