(* ===== verification/NtbList.v ===== *)
(** * The NTB lists: [push_ntb] and [pop_ntb] of [src/lib/ncm/struct.c]

    A list is an array of [NCM_NTB_N] pointers with a front and a back index.
    The operations are modelled with the index update the code has; the
    abstract view of a list is the queue of the pointers it holds. *)

From stdpp Require Import base numbers list decidable.
From Stdlib Require Import ZArith Lia Bool.
From S2P Require Import Prelude NcmTypes.
Open Scope Z_scope.

(** ** Operations *)

(** [list->ntb_list[i]]. *)
Definition list_slot (l : ntb_list_t) (i : Z) : result (option ntb_ptr) :=
  if i <? 0 then Fault OutOfBounds
  else match ntb_list l !! Z.to_nat i with
       | Some p => Ok p
       | None => Fault OutOfBounds
       end.

(** [i += (i + 1) % NCM_NTB_N] on a [uint16_t]. *)
Definition list_advance (i : Z) : Z := wrap16 (i + (i + 1) mod NCM_NTB_N).

Definition push_ntb (l : ntb_list_t) (ntb : option ntb_ptr) : result (bool * ntb_list_t) :=
  match ntb with
  | None => Ok (false, l)
  | Some p =>
      let* slot := list_slot l (list_back l) in
      match slot with
      | Some _ => Ok (false, l)
      | None =>
          Ok (true, mk_ntb_list (<[Z.to_nat (list_back l) := Some p]> (ntb_list l))
                      (list_front l) (list_advance (list_back l)))
      end
  end.

Definition pop_ntb (l : ntb_list_t) : result (option ntb_ptr * ntb_list_t) :=
  let* ntb_temp := list_slot l (list_front l) in
  match ntb_temp with
  | None => Ok (None, l)
  | Some p =>
      Ok (Some p, mk_ntb_list (<[Z.to_nat (list_front l) := None]> (ntb_list l))
                    (list_advance (list_front l)) (list_back l))
  end.

(** The list [net_init]'s [memset] leaves. *)
Definition empty_ntb_list : ntb_list_t :=
  mk_ntb_list (replicate (Z.to_nat NCM_NTB_N) None) 0 0.

(** ** Abstract view and invariant *)

(** The pointers held, oldest first. *)
Definition ntb_queue (l : ntb_list_t) : list ntb_ptr := omap id (ntb_list l).

(** How many pointers the list takes: both slots until the first pop, and
    only the second one afterwards, because both indices stop at 1. *)
Definition ntb_capacity (l : ntb_list_t) : nat :=
  if list_front l =? 0 then 2%nat else 1%nat.

(** The shapes a list goes through: untouched, being filled for the first
    time, and after the first pop. *)
Inductive ntb_list_inv : ntb_list_t -> Prop :=
| inv_fresh : ntb_list_inv (mk_ntb_list [None; None] 0 0)
| inv_first a o : ntb_list_inv (mk_ntb_list [Some a; o] 0 1)
| inv_later o : ntb_list_inv (mk_ntb_list [None; o] 1 1).

#[export] Hint Constructors ntb_list_inv : fx3.

Lemma empty_ntb_list_inv : ntb_list_inv empty_ntb_list.
Proof. constructor. Qed.

Lemma empty_ntb_queue : ntb_queue empty_ntb_list = [].
Proof. done. Qed.

#[export] Hint Resolve empty_ntb_list_inv : fx3.

Ltac list_cases :=
  repeat match goal with
  | H : ntb_list_inv _ |- _ => destruct H
  | o : option ntb_ptr |- _ => destruct o
  end.

Ltac list_shape :=
  first [exact inv_fresh | exact (inv_first _ _) | exact (inv_later _)].

(** What a push does to a list of the invariant: it never indexes out of
    range, refuses a null pointer or a full list and leaves the list as it
    was, and otherwise appends to the queue. *)
Lemma push_ntb_cases l p :
  ntb_list_inv l ->
  exists r l', push_ntb l p = Ok (r, l') /\ ntb_list_inv l' /\
    ntb_capacity l' = ntb_capacity l /\
    (r = false -> l' = l) /\
    (forall q, p = Some q ->
       r = bool_decide (length (ntb_queue l) < ntb_capacity l)%nat /\
       (r = true -> ntb_queue l' = ntb_queue l ++ [q])).
Proof.
  intros Hl. list_cases; eexists _, _; (split; [reflexivity|]);
    (split; [list_shape|]); (split; [done|]); (split; [done|]);
    intros q' Hq'; try discriminate Hq'; injection Hq' as <-; by split.
Qed.

(** A pop never indexes out of range and takes the oldest pointer, if any. *)
Lemma pop_ntb_cases l :
  ntb_list_inv l ->
  exists o l', pop_ntb l = Ok (o, l') /\ ntb_list_inv l' /\
    match o with
    | Some q => ntb_queue l = q :: ntb_queue l' /\ ntb_capacity l' = 1%nat
    | None => ntb_queue l = [] /\ l' = l
    end.
Proof.
  intros Hl. list_cases; eexists _, _; (split; [reflexivity|]);
    (split; [list_shape|]); done.
Qed.

Lemma push_ntb_inv l p r l' :
  ntb_list_inv l -> push_ntb l p = Ok (r, l') -> ntb_list_inv l'.
Proof. intros Hl H. destruct (push_ntb_cases l p Hl) as (?&?&?&?&_). congruence. Qed.

Lemma pop_ntb_inv l o l' :
  ntb_list_inv l -> pop_ntb l = Ok (o, l') -> ntb_list_inv l'.
Proof. intros Hl H. destruct (pop_ntb_cases l Hl) as (?&?&?&?&_). congruence. Qed.

#[export] Hint Resolve push_ntb_inv pop_ntb_inv : fx3.

(** The queue after a push, in one equation. *)
Lemma push_ntb_queue l p r l' :
  ntb_list_inv l -> push_ntb l p = Ok (r, l') ->
  ntb_queue l' = ntb_queue l ++ (if r then option_list p else []).
Proof.
  intros Hl H. destruct (push_ntb_cases l p Hl) as (r0&l0&H0&_&_&Hf&Hq).
  rewrite H in H0. injection H0 as <- <-.
  destruct r; [|rewrite Hf, app_nil_r by done; done].
  destruct p as [q|]; [|cbn in H; by injection H].
  by destruct (Hq q eq_refl) as [_ ->].
Qed.

Lemma push_ntb_keeps l p l' : push_ntb l p = Ok (false, l') -> l' = l.
Proof.
  unfold push_ntb. destruct p; [|by intros [= ->]].
  destruct (list_slot _ _) as [[]|]; cbn; congruence.
Qed.

Lemma pop_ntb_queue l o l' :
  ntb_list_inv l -> pop_ntb l = Ok (o, l') ->
  ntb_queue l = option_list o ++ ntb_queue l'.
Proof.
  intros Hl H. destruct (pop_ntb_cases l Hl) as (o0&l0&H0&_&Ho).
  rewrite H in H0. injection H0 as <- <-.
  destruct o; [by destruct Ho as [-> _]|]. destruct Ho as [E ->]. by rewrite E.
Qed.

Lemma pop_ntb_empty l l' : ntb_list_inv l -> pop_ntb l = Ok (None, l') -> ntb_queue l = [].
Proof.
  intros Hl H. destruct (pop_ntb_cases l Hl) as (o0&l0&H0&_&Ho).
  rewrite H in H0. injection H0 as <- <-. apply Ho.
Qed.

(** ** Theorems *)

(** Sequences of list operations, with what each returns. *)
Inductive list_op : Type :=
| Push (p : ntb_ptr)
| Pop.

Fixpoint run_list (ops : list list_op) (l : ntb_list_t) : result (list (option ntb_ptr) * ntb_list_t) :=
  match ops with
  | [] => Ok ([], l)
  | Push p :: ops =>
      let* (_, l) := push_ntb l (Some p) in run_list ops l
  | Pop :: ops =>
      let* (o, l) := pop_ntb l in
      let* (os, l) := run_list ops l in
      Ok (o :: os, l)
  end.

(** The specification: a first-in first-out queue that takes [cap] pointers,
    and one pointer only once something has been taken out of it. *)
Fixpoint run_fifo (ops : list list_op) (cap : nat) (q : list ntb_ptr)
  : list (option ntb_ptr) * list ntb_ptr :=
  match ops with
  | [] => ([], q)
  | Push p :: ops =>
      if bool_decide (length q < cap)%nat then run_fifo ops cap (q ++ [p])
      else run_fifo ops cap q
  | Pop :: ops =>
      match q with
      | [] => let '(os, q) := run_fifo ops cap [] in (None :: os, q)
      | p :: q => let '(os, q) := run_fifo ops 1 q in (Some p :: os, q)
      end
  end.

(** C6. Every sequence of pushes and pops on a list of the driver, starting
    from the zeroed list or any later one, runs without an out-of-range index
    and answers like a FIFO queue: pointers come out in the order in which they
    went in, each at most once, and a pop of an empty list gives [NULL]. *)
Theorem ntb_list_refines_fifo ops l :
  ntb_list_inv l ->
  exists os l', run_list ops l = Ok (os, l') /\ ntb_list_inv l' /\
    run_fifo ops (ntb_capacity l) (ntb_queue l) = (os, ntb_queue l').
Proof.
  revert l. induction ops as [|[p|] ops IH]; intros l Hl; [by eexists _, _|..];
    cbn [run_list run_fifo].
  - destruct (push_ntb_cases l (Some p) Hl) as (r&l1&->&Hl1&Hc&Hf&Hq).
    destruct (Hq p eq_refl) as [Hr Happ]. cbn [rbind].
    destruct (IH l1 Hl1) as (os&l'&->&Hl'&Hrun). eexists _, _. split; [done|]. split; [done|].
    rewrite Hc in Hrun. rewrite <- Hr. destruct r.
    + by rewrite <- Happ.
    + by rewrite Hf in Hrun by done.
  - destruct (pop_ntb_cases l Hl) as (o&l1&->&Hl1&Ho). cbn [rbind].
    destruct (IH l1 Hl1) as (os&l'&->&Hl'&Hrun). eexists _, _. split; [done|]. split; [done|].
    destruct o as [q|]; destruct Ho as [Hq Hc].
    + rewrite Hc in Hrun. by rewrite Hq, Hrun.
    + subst l1. rewrite Hq in *. by rewrite Hrun.
Qed.

Lemma ntb_list_refines_fifo_witness :
  exists os l', run_list [Push (TxNtb 0); Push (TxNtb 1); Pop; Pop; Pop] empty_ntb_list = Ok (os, l') /\
    os = [Some (TxNtb 0); Some (TxNtb 1); None].
Proof.
  destruct (ntb_list_refines_fifo [Push (TxNtb 0); Push (TxNtb 1); Pop; Pop; Pop] empty_ntb_list)
    as (os&l'&Hrun&_&Hfifo); [constructor|].
  exists os, l'. split; [exact Hrun|]. vm_compute in Hfifo. congruence.
Defined.

(** The index update loses a slot: in a list that has ever been popped,
    whatever pushes and pops follow, at most one pointer is held, and a push
    while one is held is refused, although the array has two slots. *)
Theorem ntb_list_one_slot ops l os l' :
  ntb_list_inv l -> list_front l <> 0 -> run_list ops l = Ok (os, l') ->
  list_front l' <> 0 /\ (length (ntb_queue l') <= 1)%nat /\
  forall p, ntb_queue l' <> [] -> push_ntb l' (Some p) = Ok (false, l').
Proof.
  revert l os. induction ops as [|[p|] ops IH]; intros l os Hl Hf Hrun; cbn [run_list] in Hrun.
  - injection Hrun as <- <-. by destruct Hl as [| |[q|]]; cbn in *; (split; [done|]);
      (split; [lia|]); intros p Hp.
  - destruct Hl as [| |[q|]]; cbn in Hf; try done; cbn in Hrun;
      (eapply IH; [..|exact Hrun]; [apply inv_later|done]).
  - apply rbind_Ok in Hrun as ([o l1]&Hpop&Hrun). apply rbind_Ok in Hrun as ([os1 l2]&Hrun1&Hrun).
    injection Hrun as <- <-. eapply (IH l1); [by eapply pop_ntb_inv| |exact Hrun1].
    destruct Hl as [| |[q|]]; cbn in Hf; try done; cbn in Hpop; by injection Hpop as <- <-.
Qed.

Lemma ntb_list_one_slot_witness :
  exists l', run_list [Push (TxNtb 0); Push (TxNtb 1)] (mk_ntb_list [None; None] 1 1) = Ok ([], l') /\
    (length (ntb_queue l') <= 1)%nat.
Proof.
  eexists. split; [reflexivity|].
  exact (proj1 (proj2 (ntb_list_one_slot [Push (TxNtb 0); Push (TxNtb 1)] (mk_ntb_list [None; None] 1 1)
    _ _ (inv_later None) ltac:(discriminate) eq_refl))).
Defined.
