(* ===== verification/Ntb.v ===== *)
(** * NTBs as lists of datagrams

    The wire format the transmit side writes: a 16-bit transfer header, one
    datagram pointer table of [NCM_MAX_DATAGRAMS_PER_NTB + 1] entries, and
    the datagrams, each starting at a multiple of four.  [ntb_encodes] is
    the abstract specification that [tx.c], [net.c] and [rx.c] are proved
    against. *)

From stdpp Require Import base numbers list decidable.
From Stdlib Require Import ZArith Lia Bool.
From S2P Require Import Prelude NcmTypes.
Open Scope Z_scope.

(** ** Alignment *)

(** The space a datagram of [n] bytes takes in an NTB. *)
Definition padded (n : Z) : Z := n + ALIGN_OFFSET n.

Lemma ALIGN_OFFSET_mod x : ALIGN_OFFSET x = (- x) mod 4.
Proof.
  unfold ALIGN_OFFSET, NCM_NDP_ALIGN_MIN_SIZE. change (4 - 1) with (Z.ones 2).
  rewrite !Z.land_ones by lia. change (2 ^ 2) with 4.
  replace (4 - x mod 4) with (- (x mod 4) + 1 * 4) by lia.
  rewrite Z.mod_add by lia.
  rewrite <- (Z.sub_0_l (x mod 4)), <- (Z.sub_0_l x).
  by rewrite Zminus_mod_idemp_r.
Qed.

Lemma padded_bounds n : n <= padded n <= n + 3.
Proof. unfold padded. rewrite ALIGN_OFFSET_mod. pose proof (Z.mod_pos_bound (- n) 4). lia. Qed.

Lemma padded_aligned n : padded n mod 4 = 0.
Proof.
  unfold padded. rewrite ALIGN_OFFSET_mod, Zplus_mod_idemp_r.
  by rewrite Z.add_opp_diag_r.
Qed.

(** ** Offsets *)

Definition dg_len (d : list Z) : Z := Z.of_nat (length d).

(** Bytes taken by the datagrams of an NTB. *)
Fixpoint payload_size (ds : list (list Z)) : Z :=
  match ds with
  | [] => 0
  | d :: ds => padded (dg_len d) + payload_size ds
  end.

(** Where the [i]-th datagram starts, and the block length for [i = length ds]. *)
Definition dg_offset (ds : list (list Z)) (i : nat) : Z :=
  def_header_size + payload_size (take i ds).

Definition block_length (ds : list (list Z)) : Z := def_header_size + payload_size ds.

Lemma payload_size_app ds1 ds2 :
  payload_size (ds1 ++ ds2) = payload_size ds1 + payload_size ds2.
Proof. induction ds1; simpl; lia. Qed.

Lemma payload_size_nonneg ds : 0 <= payload_size ds.
Proof.
  induction ds as [|d ds IH]; simpl; [lia|].
  pose proof (padded_bounds (dg_len d)). unfold dg_len in *. lia.
Qed.

Lemma payload_size_aligned ds : payload_size ds mod 4 = 0.
Proof.
  induction ds as [|d ds IH]; [done|]. simpl.
  rewrite Z.add_mod, IH, padded_aligned by lia. done.
Qed.

Lemma block_length_snoc ds d :
  block_length (ds ++ [d]) = block_length ds + padded (dg_len d).
Proof. unfold block_length. rewrite payload_size_app. simpl. lia. Qed.

Lemma dg_offset_bound ds i d :
  ds !! i = Some d -> def_header_size <= dg_offset ds i /\
    dg_offset ds i + dg_len d <= block_length ds.
Proof.
  intros H. unfold dg_offset, block_length.
  pose proof (payload_size_nonneg (take i ds)).
  pose proof (f_equal payload_size (take_drop_middle ds i d H)) as E.
  rewrite payload_size_app in E. simpl in E.
  pose proof (payload_size_nonneg (drop (S i) ds)).
  pose proof (padded_bounds (dg_len d)). lia.
Qed.

Lemma dg_offset_app ds d i :
  (i <= length ds)%nat -> dg_offset (ds ++ [d]) i = dg_offset ds i.
Proof. intros. unfold dg_offset. by rewrite take_app_le. Qed.

Lemma dg_offset_all ds : dg_offset ds (length ds) = block_length ds.
Proof. unfold dg_offset, block_length. by rewrite take_ge. Qed.

(** ** The encoding *)

Definition dg_slots : nat := Z.to_nat (NCM_MAX_DATAGRAMS_PER_NTB + 1).

Definition entry_offset (i : nat) : Z := def_ndp_datagram + sizeof_ndp16_datagram_t * Z.of_nat i.

(** [b] is an NTB with sequence number [seq] that carries exactly the
    datagrams [ds]: header fields, pointer table (unused entries zero) and
    payload. *)
Record ntb_encodes (seq : Z) (ds : list (list Z)) (b : list Z) : Prop := {
  enc_size : Z.of_nat (length b) = NCM_NTB_MAX_SIZE;
  enc_bytes : bytes_ok b;
  enc_signature : rd32 b nth_dwSignature = Ok NTH16_SIGNATURE;
  enc_header_length : rd16 b nth_wHeaderLength = Ok sizeof_nth16_t;
  enc_sequence : rd16 b nth_wSequence = Ok seq;
  enc_block_length : rd16 b nth_wBlockLength = Ok (block_length ds);
  enc_ndp_index : rd16 b nth_wNdpIndex = Ok sizeof_nth16_t;
  enc_ndp_signature : rd32 b (def_ndp + ndp_dwSignature) = Ok NDP16_SIGNATURE_NCM0;
  enc_ndp_length :
    rd16 b (def_ndp + ndp_wLength) = Ok (sizeof_ndp16_t + sizeof_def_ndp_datagram);
  enc_ndp_next : rd16 b (def_ndp + ndp_wNextNdpIndex) = Ok 0;
  enc_fits : block_length ds <= NCM_NTB_MAX_SIZE;
  enc_count : (length ds <= dg_slots)%nat;
  enc_entries : forall i, (i < dg_slots)%nat ->
    rd16 b (entry_offset i + dg_wDatagramIndex) =
      Ok (match ds !! i with Some _ => dg_offset ds i | None => 0 end) /\
    rd16 b (entry_offset i + dg_wDatagramLength) =
      Ok (match ds !! i with Some d => dg_len d | None => 0 end);
  enc_payload : forall i d, ds !! i = Some d ->
    bytes_at b (dg_offset ds i) (dg_len d) = d
}.

(** ** Reading an NTB back *)

(** The datagrams the table of an NTB of the driver's own layout lists, up to
    the first entry with a zero index. *)
Fixpoint decode_from (b : list Z) (i fuel : nat) : list (list Z) :=
  match fuel with
  | O => []
  | S fuel =>
      match rd16 b (entry_offset i + dg_wDatagramIndex),
            rd16 b (entry_offset i + dg_wDatagramLength) with
      | Ok dIndex, Ok dLength =>
          if dIndex =? 0 then [] else bytes_at b dIndex dLength :: decode_from b (S i) fuel
      | _, _ => []
      end
  end.

Definition ntb_datagrams (b : list Z) : list (list Z) := decode_from b 0 dg_slots.

Lemma decode_from_encodes seq ds b i fuel :
  ntb_encodes seq ds b -> (i + fuel = dg_slots)%nat -> decode_from b i fuel = drop i ds.
Proof.
  intros He. revert i. induction fuel as [|fuel IH]; intros i Hi; cbn [decode_from].
  { rewrite drop_ge; [done|]. pose proof (enc_count _ _ _ He). lia. }
  destruct (enc_entries _ _ _ He i) as [-> ->]; [lia|].
  destruct (ds !! i) as [d|] eqn:Hd.
  - destruct (dg_offset_bound ds i d Hd) as [Hlo _].
    assert (def_header_size = 56) by done.
    destruct (Z.eqb_spec (dg_offset ds i) 0); [lia|].
    rewrite (enc_payload _ _ _ He i d Hd), IH by lia. symmetry. by apply drop_S.
  - symmetry. apply drop_ge. by apply lookup_ge_None.
Qed.

(** Decoding undoes encoding, so an NTB carries one list of datagrams. *)
Lemma ntb_datagrams_encodes seq ds b : ntb_encodes seq ds b -> ntb_datagrams b = ds.
Proof. intros He. unfold ntb_datagrams. by rewrite (decode_from_encodes seq ds). Qed.
