(* ===== verification/NcmTx.v ===== *)
(** * The transmit side: [src/lib/ncm/tx.c] *)

From stdpp Require Import base numbers list decidable sets.
From Stdlib Require Import ZArith Lia Bool.
From S2P Require Import Prelude NcmTypes NtbList Ntb.
Open Scope Z_scope.

(** ** Operations *)

(** Lines 67 to 75 of [tx_accept_user_ntb]: an NTB without datagrams. *)
Definition populate_ntb (seq : Z) (b : list Z) : result (list Z) :=
  let* b := wr32 b nth_dwSignature NTH16_SIGNATURE in
  let* b := wr16 b nth_wHeaderLength sizeof_nth16_t in
  let* b := wr16 b nth_wSequence seq in
  let* b := wr16 b nth_wBlockLength def_header_size in
  let* b := wr16 b nth_wNdpIndex sizeof_nth16_t in
  let* b := wr32 b (def_ndp + ndp_dwSignature) NDP16_SIGNATURE_NCM0 in
  let* b := wr16 b (def_ndp + ndp_wLength) (sizeof_ndp16_t + sizeof_def_ndp_datagram) in
  let* b := wr16 b (def_ndp + ndp_wNextNdpIndex) 0 in
  wr b def_ndp_datagram (replicate (Z.to_nat sizeof_def_ndp_datagram) 0).

Section tx.
Context {D E : Type} `{NcmEnv D E}.

(** [push_ntb(&ncm_if.l, p)] and [pop_ntb(&ncm_if.l)]. *)
Definition push_to (get : ncm_interface_t -> ntb_list_t)
    (set : ntb_list_t -> ncm_interface_t -> ncm_interface_t) (p : option ntb_ptr) : NM E bool :=
  let! (r, l) := getsr (fun s => push_ntb (get s) p) in
  let! _ := modify (set l) in
  ret r.

Definition pop_from (get : ncm_interface_t -> ntb_list_t)
    (set : ntb_list_t -> ncm_interface_t -> ncm_interface_t) : NM E (option ntb_ptr) :=
  let! (o, l) := getsr (fun s => pop_ntb (get s)) in
  let! _ := modify (set l) in
  ret o.

(** Update the bytes of [*p]. *)
Definition update_ntb (p : ntb_ptr) (f : list Z -> result (list Z)) : NM E unit :=
  let! b := getsr (fun s => let* b := ntb_data s p in f b) in
  modify (set_ntb_data p b).

Definition tx_notification (force_next : bool) : NM E unit :=
  let! st := gets notification_state in
  if negb force_next && negb (bool_decide (st = TX_NOTIFY_STATE_WAITING)) then ret tt
  else match st with
  | TX_NOTIFY_STATE_WAITING =>
      let! _ := modify (set_notification_state TX_NOTIFY_STATE_SPEED_CHANGE) in
      let! _ := call_transfer_ep NCM_EP_NOTIFY (Some (notify_speed_bytes notify_speed))
                  sizeof_notify_speed in
      let! _ := call_transfer_ep NCM_EP_NOTIFY (Some (notification_bytes notify_connection))
                  sizeof_notification in
      modify (set_notification_state TX_NOTIFY_STATE_CONNECTED)
  | TX_NOTIFY_STATE_CONNECTED =>
      modify (set_notification_state TX_NOTIFY_STATE_WAITING)
  | TX_NOTIFY_STATE_SPEED_CHANGE => ret tt
  end.

Definition tx_insert_zlp (size : Z) : NM E bool :=
  if (size =? 0) || negb (size mod NCM_EP_SIZE =? 0) then ret false
  else
    let! _ := call_transfer_ep NCM_EP_DATA_IN None 0 in
    ret true.

Definition tx_datagram_fits_user_ntb (datagram_size : Z) : NM E bool :=
  let! user := gets tx_user_ntb in
  match user with
  | None => ret false
  | Some p =>
      let! idx := gets tx_user_ntb_datagram_index in
      if NCM_MAX_DATAGRAMS_PER_NTB <=? idx then ret false
      else
        let! bl := getsr (fun s => let* b := ntb_data s p in rd16 b nth_wBlockLength) in
        if NCM_NTB_MAX_SIZE <? bl + datagram_size + ALIGN_OFFSET datagram_size then ret false
        else ret true
  end.

(** Lines 57 to 76 of [tx_accept_user_ntb]: take a free NTB and populate it. *)
Definition tx_fetch_user_ntb : NM E bool :=
  let! fresh := pop_from tx_free_ntb set_tx_free_ntb in
  let! _ := modify (set_tx_user_ntb fresh) in
  match fresh with
  | None => ret false
  | Some p =>
      let! _ := modify (set_tx_user_ntb_datagram_index 0) in
      let! seq := gets tx_seq_count in
      let! _ := modify (set_tx_seq_count (wrap16 (seq + 1))) in
      let! _ := update_ntb p (populate_ntb seq) in
      ret true
  end.

Definition tx_accept_user_ntb : NM E bool :=
  let! user := gets tx_user_ntb in
  let! pushed := match user with
                 | Some _ => push_to tx_wait_ntb set_tx_wait_ntb user
                 | None => ret true
                 end in
  if negb pushed then ret false else tx_fetch_user_ntb.

(** [usb_transfer_ep(NCM_EP_DATA_IN, p->data, p->nth.wBlockLength)]. *)
Definition transfer_ntb_in (p : ntb_ptr) : NM E bool :=
  let! b := getsr (fun s => ntb_data s p) in
  let! bl := getsr (fun _ => rd16 b nth_wBlockLength) in
  call_transfer_ep NCM_EP_DATA_IN (Some b) bl.

Definition tx_try_start : NM E bool :=
  let! usbd := gets tx_usbd_ntb in
  match usbd with
  | Some _ => ret false
  | None =>
      let! active := gets interface_active in
      if negb (active =? 1) then ret false
      else
        let! busy := call_ep_busy NCM_EP_DATA_IN in
        if busy then ret false
        else
          let! waiting := pop_from tx_wait_ntb set_tx_wait_ntb in
          let! _ := modify (set_tx_usbd_ntb waiting) in
          match waiting with
          | Some p => transfer_ntb_in p
          | None =>
              let! user := gets tx_user_ntb in
              let! idx := gets tx_user_ntb_datagram_index in
              match user with
              | None => ret false
              | Some p =>
                  if idx =? 0 then ret false
                  else
                    let! _ := modify (set_tx_usbd_ntb user) in
                    let! _ := modify (set_tx_user_ntb None) in
                    transfer_ntb_in p
              end
          end
  end.
End tx.

(** ** Byte-level lemmas *)

Ltac unfold_layout :=
  unfold entry_offset, dg_slots, nth_dwSignature, nth_wHeaderLength, nth_wSequence, nth_wBlockLength, nth_wNdpIndex,
    ndp_dwSignature, ndp_wLength, ndp_wNextNdpIndex, dg_wDatagramIndex, dg_wDatagramLength,
    def_header_size, def_ndp, def_ndp_datagram, sizeof_def_ndp_datagram,
    sizeof_nth16_t, sizeof_ndp16_t, sizeof_ndp16_datagram_t,
    NCM_NTB_MAX_SIZE, NCM_MAX_DATAGRAMS_PER_NTB in *.

(** A populated NTB is the encoding of no datagrams. *)
Lemma populate_ntb_encodes seq b :
  Z.of_nat (length b) = NCM_NTB_MAX_SIZE -> bytes_ok b -> 0 <= seq < 65536 ->
  exists b', populate_ntb seq b = Ok b' /\ ntb_encodes seq [] b'.
Proof.
  intros Hl Hb Hseq. unfold populate_ntb, wr16, wr32. unfold_layout.
  do 9 (do_write; [lia | rewrite ?length_le_bytes, ?length_replicate; lia |]).
  eexists; split; [done|]. constructor; unfold_layout; try lia; try done; try (by read_field).
  { cbn. lia. }
  intros i Hi. rewrite lookup_nil.
  split; erewrite rd_wr_inside by
    (try eassumption; rewrite ?length_replicate; lia);
    f_equal; apply le_val_zeroes, slice_zeroes.
Qed.

(** ** The transmit invariant *)

Definition buffers_ok (bufs : list (list Z)) : Prop :=
  length bufs = 2%nat /\
  Forall (fun b => Z.of_nat (length b) = NCM_NTB_MAX_SIZE /\ bytes_ok b) bufs.

(** Where each transmit NTB is: free, waiting for USB, with USB, or being
    filled by the user. *)
Definition tx_owned (s : ncm_interface_t) : list ntb_ptr :=
  ntb_queue (tx_free_ntb s) ++ ntb_queue (tx_wait_ntb s) ++
  option_list (tx_usbd_ntb s) ++ option_list (tx_user_ntb s).

(** The NTB behind [p] carries [ds]. *)
Definition ntb_carries (s : ncm_interface_t) (p : ntb_ptr) (ds : list (list Z)) : Prop :=
  exists seq b, ntb_data s p = Ok b /\ ntb_encodes seq ds b.

Record tx_inv (s : ncm_interface_t) : Prop := {
  tx_buffers : buffers_ok (tx_ntb s);
  tx_free_inv : ntb_list_inv (tx_free_ntb s);
  tx_wait_inv : ntb_list_inv (tx_wait_ntb s);
  tx_partition : tx_owned s ≡ₚ [TxNtb 0; TxNtb 1];
  tx_seq_range : 0 <= tx_seq_count s < 65536;
  tx_user_carries : forall p, tx_user_ntb s = Some p ->
    exists ds, ntb_carries s p ds /\
      Z.of_nat (length ds) = tx_user_ntb_datagram_index s /\
      Z.of_nat (length ds) <= NCM_MAX_DATAGRAMS_PER_NTB;
  tx_queued_carries : forall p,
    p ∈ ntb_queue (tx_wait_ntb s) ++ option_list (tx_usbd_ntb s) ->
    exists ds, ntb_carries s p ds /\ Z.of_nat (length ds) <= NCM_MAX_DATAGRAMS_PER_NTB
}.

(** The part of the state the transmit side works on, and the rest. *)
Definition rx_view (s : ncm_interface_t) :=
  (rx_ntb s, rx_free_ntb s, rx_wait_ntb s, rx_usbd_ntb s, rx_user_ntb s,
   rx_user_ntb_datagram_index s).
Definition tx_view (s : ncm_interface_t) :=
  (tx_ntb s, tx_free_ntb s, tx_wait_ntb s, tx_usbd_ntb s, tx_user_ntb s,
   tx_user_ntb_datagram_index s, tx_seq_count s).

Lemma ntb_data_tx_view s s' n : tx_view s = tx_view s' -> ntb_data s (TxNtb n) = ntb_data s' (TxNtb n).
Proof. unfold tx_view. intros [= E]. unfold ntb_data. by rewrite E. Qed.

Lemma tx_owned_valid s p : tx_inv s -> p ∈ tx_owned s -> p = TxNtb 0 \/ p = TxNtb 1.
Proof. intros Hs Hp. rewrite (tx_partition s Hs) in Hp. set_solver. Qed.

Lemma tx_owned_nodup s : tx_inv s -> NoDup (tx_owned s).
Proof.
  intros Hs. rewrite (tx_partition s Hs). apply NoDup_cons. split; [set_solver|].
  apply NoDup_singleton.
Qed.

Lemma buffers_lookup bufs n :
  buffers_ok bufs -> (n < 2)%nat ->
  exists b, bufs !! n = Some b /\ Z.of_nat (length b) = NCM_NTB_MAX_SIZE /\ bytes_ok b.
Proof.
  intros [Hl Hf] Hn. destruct (lookup_lt_is_Some_2 bufs n) as [b Hb]; [lia|].
  exists b. split; [done|]. by rewrite Forall_lookup in Hf; apply (Hf n).
Qed.

Lemma buffers_insert bufs n b :
  buffers_ok bufs -> Z.of_nat (length b) = NCM_NTB_MAX_SIZE -> bytes_ok b ->
  buffers_ok (<[n := b]> bufs).
Proof.
  intros [Hl Hf] ? ?. split; [by rewrite length_insert|]. by apply Forall_insert.
Qed.

Lemma tx_data_ok s p :
  tx_inv s -> p ∈ tx_owned s ->
  exists b, ntb_data s p = Ok b /\ Z.of_nat (length b) = NCM_NTB_MAX_SIZE /\ bytes_ok b.
Proof.
  intros Hs Hp. destruct (tx_owned_valid s p Hs Hp) as [->| ->];
    [destruct (buffers_lookup (tx_ntb s) 0) as (b&Hb&?&?)
    |destruct (buffers_lookup (tx_ntb s) 1) as (b&Hb&?&?)];
    try apply Hs; try lia; exists b; unfold ntb_data; by rewrite Hb.
Qed.

(** Writing one NTB leaves the others. *)
Lemma ntb_data_set_other s p q b : p <> q -> ntb_data (set_ntb_data p b s) q = ntb_data s q.
Proof.
  intros Hne. destruct p, q; cbn; unfold ntb_data; cbn; try done;
    rewrite list_lookup_insert_ne; congruence.
Qed.

Lemma ntb_data_set_same s p b b0 : ntb_data s p = Ok b0 -> ntb_data (set_ntb_data p b s) p = Ok b.
Proof.
  unfold ntb_data. destruct p as [n|n]; cbn.
  - destruct (rx_ntb s !! n) eqn:El; [|done]. intros _.
    rewrite list_lookup_insert_eq; [done|by eapply lookup_lt_Some].
  - destruct (tx_ntb s !! n) eqn:El; [|done]. intros _.
    rewrite list_lookup_insert_eq; [done|by eapply lookup_lt_Some].
Qed.

(** Writing an NTB changes nothing else of the interface. *)
Lemma set_ntb_data_keeps s p b :
  let s' := set_ntb_data p b s in
  tx_free_ntb s' = tx_free_ntb s /\ tx_wait_ntb s' = tx_wait_ntb s /\
  tx_usbd_ntb s' = tx_usbd_ntb s /\ tx_user_ntb s' = tx_user_ntb s /\
  tx_user_ntb_datagram_index s' = tx_user_ntb_datagram_index s /\
  tx_seq_count s' = tx_seq_count s /\
  rx_free_ntb s' = rx_free_ntb s /\ rx_wait_ntb s' = rx_wait_ntb s /\
  rx_usbd_ntb s' = rx_usbd_ntb s /\ rx_user_ntb s' = rx_user_ntb s /\
  rx_user_ntb_datagram_index s' = rx_user_ntb_datagram_index s /\
  interface_active s' = interface_active s /\ notification_state s' = notification_state s.
Proof. destruct p; repeat split. Qed.

Lemma ntb_carries_set_other s p q b ds :
  p <> q -> ntb_carries s q ds -> ntb_carries (set_ntb_data p b s) q ds.
Proof. intros ? (seq&b'&?&?). exists seq, b'. by rewrite ntb_data_set_other. Qed.

(** The invariant is about the transmit fields only. *)
Lemma tx_inv_view s s' : tx_view s' = tx_view s -> tx_inv s -> tx_inv s'.
Proof.
  intros Hv Hs. pose proof Hv as [= E1 E2 E3 E4 E5 E6 E7].
  assert (Hown : tx_owned s' = tx_owned s) by (unfold tx_owned; congruence).
  assert (Hc : forall p ds, p ∈ tx_owned s -> ntb_carries s p ds -> ntb_carries s' p ds).
  { intros p ds Hp (seq&b&Hd&?). exists seq, b. split; [|done]. rewrite <- Hd.
    destruct (tx_owned_valid s p Hs Hp) as [->| ->]; by apply ntb_data_tx_view. }
  constructor; rewrite ?E1, ?E2, ?E3, ?E4, ?E5, ?E6, ?E7, ?Hown; try apply Hs.
  - intros p Hp. destruct (tx_user_carries s Hs p Hp) as (ds&?&?). exists ds.
    split; [apply Hc; [unfold tx_owned; rewrite Hp; set_solver|done]|done].
  - intros p Hp. destruct (tx_queued_carries s Hs p Hp) as (ds&?&?). exists ds.
    split; [apply Hc; [unfold tx_owned; set_solver|done]|done].
Qed.

(** ** Moves of NTBs between their owners *)

Lemma carries_data s s' p ds : ntb_data s' p = ntb_data s p -> ntb_carries s p ds -> ntb_carries s' p ds.
Proof. intros Hd (seq&b&?&?). exists seq, b. by rewrite Hd. Qed.

(** The user's NTB goes to the end of the waiting list. *)
Lemma tx_inv_stash s p l :
  tx_inv s -> tx_user_ntb s = Some p ->
  push_ntb (tx_wait_ntb s) (Some p) = Ok (true, l) ->
  tx_inv (set_tx_user_ntb None (set_tx_wait_ntb l s)).
Proof.
  intros Hs Hu Hp. pose proof (tx_wait_inv s Hs) as Hw.
  pose proof (push_ntb_queue _ _ _ _ Hw Hp) as Hq. cbn in Hq.
  constructor; cbn; try apply Hs; eauto with fx3.
  - rewrite <- (tx_partition s Hs). unfold tx_owned. cbn. rewrite Hq, Hu. cbn.
    rewrite app_nil_r, <- app_assoc. do 2 apply Permutation_app_head. apply Permutation_app_comm.
  - done.
  - intros q Hin. rewrite Hq in Hin.
    destruct (decide (q = p)) as [->|].
    + destruct (tx_user_carries s Hs p Hu) as (ds&Hc&_&Hle). exists ds.
      split; [by eapply carries_data, Hc|done].
    + destruct (tx_queued_carries s Hs q) as (ds&Hc&Hle); [set_solver|].
      exists ds. split; [by eapply carries_data, Hc|done].
Qed.

(** A free NTB, populated, becomes the user's. *)
Lemma tx_inv_fetch s p l b b' :
  tx_inv s -> tx_user_ntb s = None -> pop_ntb (tx_free_ntb s) = Ok (Some p, l) ->
  ntb_data s p = Ok b -> ntb_encodes (tx_seq_count s) [] b' ->
  tx_inv (set_ntb_data p b' (set_tx_seq_count (wrap16 (tx_seq_count s + 1))
    (set_tx_user_ntb_datagram_index 0 (set_tx_user_ntb (Some p) (set_tx_free_ntb l s))))).
Proof.
  intros Hs Hu Hp Hd Henc. set (s1 := set_tx_seq_count _ _).
  assert (Hd1 : ntb_data s1 p = Ok b) by done.
  pose proof (tx_free_inv s Hs) as Hf.
  pose proof (pop_ntb_queue _ _ _ Hf Hp) as Hq. cbn in Hq.
  assert (Hown : tx_owned s1 ≡ₚ tx_owned s).
  { unfold tx_owned. cbn. rewrite Hq, Hu. cbn. rewrite app_nil_r.
    rewrite !app_assoc, <- Permutation_cons_append. done. }
  assert (Hnd : NoDup (tx_owned s1)) by (rewrite Hown; by apply tx_owned_nodup).
  assert (Hin : p ∈ tx_owned s) by (unfold tx_owned; rewrite Hq; set_solver).
  assert (Hother : forall q, q ∈ ntb_queue (tx_wait_ntb s) ++ option_list (tx_usbd_ntb s) -> p <> q).
  { intros q Hq' ->. unfold tx_owned in Hnd. cbn in Hnd.
    rewrite !app_assoc in Hnd. apply NoDup_app in Hnd as (_&Hx&_).
    apply (Hx q); set_solver. }
  assert (Hbuf : buffers_ok (tx_ntb (set_ntb_data p b' s1))).
  { destruct (tx_owned_valid s p Hs Hin) as [->| ->];
      (apply buffers_insert; [apply Hs|apply Henc..]). }
  destruct (set_ntb_data_keeps s1 p b') as (Ef&Ew&Eu&Er&Ei&Es&_).
  cbn -[wrap] in Ef, Ew, Eu, Er, Ei, Es.
  constructor; rewrite ?Ef, ?Ew, ?Eu, ?Er, ?Ei, ?Es; eauto using tx_wait_inv with fx3.
  - unfold tx_owned. rewrite Ef, Ew, Eu, Er. by rewrite <- (tx_partition s Hs), <- Hown.
  - intros q [= <-]. exists []. split; [|cbn; unfold NCM_MAX_DATAGRAMS_PER_NTB; lia].
    exists (tx_seq_count s), b'. split; [exact (ntb_data_set_same s1 _ b' b Hd1)|done].
  - intros q Hq'. destruct (tx_queued_carries s Hs q Hq') as (ds&Hc&Hle).
    exists ds. split; [|done]. apply ntb_carries_set_other; [by apply Hother|exact Hc].
Qed.

(** The first waiting NTB goes to USB. *)
Lemma tx_inv_start_waiting s o l :
  tx_inv s -> tx_usbd_ntb s = None -> pop_ntb (tx_wait_ntb s) = Ok (o, l) ->
  tx_inv (set_tx_usbd_ntb o (set_tx_wait_ntb l s)).
Proof.
  intros Hs Hu Hp. pose proof (tx_wait_inv s Hs) as Hw.
  pose proof (pop_ntb_queue _ _ _ Hw Hp) as Hq.
  constructor; cbn; try apply Hs; eauto with fx3.
  - rewrite <- (tx_partition s Hs). unfold tx_owned. cbn. rewrite Hq, Hu. cbn.
    apply Permutation_app_head. rewrite !app_assoc. apply Permutation_app_tail.
    apply Permutation_app_comm.
  - intros q Hin. apply (tx_queued_carries s Hs q). rewrite Hq. set_solver.
Qed.

(** The user's NTB goes to USB directly. *)
Lemma tx_inv_start_user s p :
  tx_inv s -> tx_usbd_ntb s = None -> tx_user_ntb s = Some p ->
  tx_inv (set_tx_user_ntb None (set_tx_usbd_ntb (Some p) s)).
Proof.
  intros Hs Hu Hp. constructor; cbn; try apply Hs; try done.
  - rewrite <- (tx_partition s Hs). unfold tx_owned. cbn. by rewrite Hp, Hu.
  - intros q Hin. destruct (decide (q = p)) as [->|].
    + destruct (tx_user_carries s Hs p Hp) as (ds&Hc&_&Hle). eauto.
    + apply (tx_queued_carries s Hs q). set_solver.
Qed.

(** ** The frames on their way out *)

(** The NTBs that hold frames, in the order in which they will be sent. *)
Definition tx_order (s : ncm_interface_t) : list ntb_ptr :=
  option_list (tx_usbd_ntb s) ++ ntb_queue (tx_wait_ntb s) ++ option_list (tx_user_ntb s).

Definition datagrams_at (s : ncm_interface_t) (p : ntb_ptr) : list (list Z) :=
  match ntb_data s p with
  | Ok b => ntb_datagrams b
  | Fault _ => []
  end.

(** The frames handed to the driver and not dropped, oldest first. *)
Definition tx_stream (s : ncm_interface_t) : list (list Z) :=
  concat (datagrams_at s <$> tx_order s).

Lemma carries_datagrams_at s p ds : ntb_carries s p ds -> datagrams_at s p = ds.
Proof. intros (seq&b&Hd&He). unfold datagrams_at. rewrite Hd. by eapply ntb_datagrams_encodes. Qed.

Lemma datagrams_at_ext s s' (ps : list ntb_ptr) :
  (forall p, p ∈ ps -> ntb_data s' p = ntb_data s p) -> datagrams_at s' <$> ps = datagrams_at s <$> ps.
Proof.
  intros Hps. apply list_fmap_ext. intros i p Hi%list_elem_of_lookup_2.
  unfold datagrams_at. by rewrite Hps.
Qed.

Lemma tx_stream_ext s s' :
  tx_order s' = tx_order s -> (forall p, p ∈ tx_order s -> ntb_data s' p = ntb_data s p) ->
  tx_stream s' = tx_stream s.
Proof. intros Ho Hd. unfold tx_stream. rewrite Ho. f_equal. by apply datagrams_at_ext. Qed.

Lemma tx_stream_split s :
  tx_stream s =
  concat (datagrams_at s <$> (option_list (tx_usbd_ntb s) ++ ntb_queue (tx_wait_ntb s))) ++
  concat (datagrams_at s <$> option_list (tx_user_ntb s)).
Proof. unfold tx_stream, tx_order. by rewrite app_assoc, fmap_app, concat_app. Qed.

Lemma tx_order_owned s p : p ∈ tx_order s -> p ∈ tx_owned s.
Proof. unfold tx_order, tx_owned. rewrite !elem_of_app. tauto. Qed.

Lemma tx_stream_view s s' : tx_inv s -> tx_view s' = tx_view s -> tx_stream s' = tx_stream s.
Proof.
  intros Hs Hv. pose proof Hv as [= E1 E2 E3 E4 E5 E6 E7].
  apply tx_stream_ext; [unfold tx_order; congruence|]. intros p Hp%tx_order_owned.
  destruct (tx_owned_valid s p Hs Hp) as [->| ->]; by apply ntb_data_tx_view.
Qed.

(** Populating a fresh NTB for the user adds no frame. *)
Lemma tx_stream_fetch s p l b b' n q :
  tx_inv s -> tx_user_ntb s = None -> pop_ntb (tx_free_ntb s) = Ok (Some p, l) ->
  ntb_data s p = Ok b -> ntb_encodes q [] b' ->
  tx_stream (set_ntb_data p b' (set_tx_seq_count n
    (set_tx_user_ntb_datagram_index 0 (set_tx_user_ntb (Some p) (set_tx_free_ntb l s))))) = tx_stream s.
Proof.
  intros Hs Hu Hp Hd He. set (s1 := set_tx_seq_count _ _).
  destruct (set_ntb_data_keeps s1 p b') as (Ef&Ew&Eu&Er&_).
  rewrite !tx_stream_split, Ew, Eu, Er, Hu. cbn.
  rewrite (carries_datagrams_at _ p []), !app_nil_r.
  2: { exists q, b'. split; [|done]. by apply (ntb_data_set_same s1 p b' b). }
  f_equal. apply datagrams_at_ext. intros r Hr. apply (ntb_data_set_other s1).
  intros ->. pose proof (tx_owned_nodup s Hs) as Hnd. unfold tx_owned in Hnd.
  rewrite (pop_ntb_queue _ _ _ (tx_free_inv s Hs) Hp) in Hnd. cbn in Hnd.
  apply NoDup_cons in Hnd as [Hni _]. apply Hni. rewrite !elem_of_app in *. tauto.
Qed.

(** ** Specifications of the operations *)

Section tx_specs.
Context {D E : Type} `{NcmProvider D E frame}.
Implicit Types (w : world E).

Lemma wp_push_to get set p w (Q : bool -> world E -> Prop) :
  ntb_list_inv (get (ncm_if w)) ->
  (forall r l, push_ntb (get (ncm_if w)) p = Ok (r, l) -> ntb_list_inv l ->
     ntb_queue l = ntb_queue (get (ncm_if w)) ++ (if r then option_list p else []) ->
     Q r (with_if (set l (ncm_if w)) w)) ->
  wp (push_to get set p) w Q.
Proof.
  intros Hi HQ. destruct (push_ntb_cases _ p Hi) as (r&l&Hp&Hl&_).
  unfold push_to. wp_step. eapply wp_getsr; [done|]. cbn beta iota. wp_steps.
  apply HQ; [done|done|]. by eapply push_ntb_queue.
Qed.

Lemma wp_pop_from get set w (Q : option ntb_ptr -> world E -> Prop) :
  ntb_list_inv (get (ncm_if w)) ->
  (forall o l, pop_ntb (get (ncm_if w)) = Ok (o, l) -> ntb_list_inv l ->
     ntb_queue (get (ncm_if w)) = option_list o ++ ntb_queue l ->
     (o = None -> l = get (ncm_if w)) ->
     Q o (with_if (set l (ncm_if w)) w)) ->
  wp (pop_from get set) w Q.
Proof.
  intros Hi HQ. destruct (pop_ntb_cases _ Hi) as (o&l&Hp&Hl&Ho).
  unfold pop_from. wp_step. eapply wp_getsr; [done|]. cbn beta iota. wp_steps.
  apply HQ; [done|done|by eapply pop_ntb_queue|]. intros ->. tauto.
Qed.

(** What a world keeps when only the transmit state and the calls change. *)
Definition keeps_rx (w w' : world E) : Prop :=
  rx_view (ncm_if w') = rx_view (ncm_if w) /\
  interface_active (ncm_if w') = interface_active (ncm_if w) /\
  notification_state (ncm_if w') = notification_state (ncm_if w).

(** The datagram of the size given fits into the NTB the user is filling. *)
Definition user_fits (s : ncm_interface_t) (size : Z) : Prop :=
  exists p ds, tx_user_ntb s = Some p /\ ntb_carries s p ds /\
    Z.of_nat (length ds) = tx_user_ntb_datagram_index s /\
    Z.of_nat (length ds) < NCM_MAX_DATAGRAMS_PER_NTB /\
    block_length ds + padded size <= NCM_NTB_MAX_SIZE.

Lemma wp_tx_datagram_fits size w (Q : bool -> world E -> Prop) :
  tx_inv (ncm_if w) ->
  (forall r, r = true <-> user_fits (ncm_if w) size -> Q r w) ->
  wp (tx_datagram_fits_user_ntb size) w Q.
Proof.
  intros Hs HQ. unfold tx_datagram_fits_user_ntb. wp_steps.
  destruct (tx_user_ntb (ncm_if w)) as [p|] eqn:Hu; wp_steps.
  2: { apply HQ. split; [done|]. intros (?&?&?&_). congruence. }
  destruct (tx_user_carries _ Hs p Hu) as (ds&(seq&b&Hd&Henc)&Hidx&Hle).
  assert (Huniq : forall ds', ntb_carries (ncm_if w) p ds' ->
            Z.of_nat (length ds') = tx_user_ntb_datagram_index (ncm_if w) ->
            block_length ds' = block_length ds).
  { intros ds' (seq'&b'&Hd'&Henc') _. rewrite Hd in Hd'. injection Hd' as <-.
    pose proof (enc_block_length _ _ _ Henc). pose proof (enc_block_length _ _ _ Henc').
    congruence. }
  destruct (Z.leb_spec NCM_MAX_DATAGRAMS_PER_NTB (tx_user_ntb_datagram_index (ncm_if w))); wp_steps.
  { apply HQ. split; [done|]. intros (?&?&?&?&?&?&?). lia. }
  eapply wp_getsr; [by rewrite Hd; apply Henc|].
  destruct (Z.ltb_spec NCM_NTB_MAX_SIZE (block_length ds + size + ALIGN_OFFSET size)); wp_steps.
  - apply HQ. split; [done|]. intros (p'&ds'&Hu'&Hc&Hi&_&Hf).
    rewrite Hu in Hu'. injection Hu' as <-. rewrite (Huniq ds') in Hf by done.
    unfold padded in Hf. lia.
  - apply HQ. split; [intros _|done]. exists p, ds. split; [done|].
    split; [by exists seq, b|]. unfold padded. lia.
Qed.

Lemma wp_update_ntb p f w (Q : unit -> world E -> Prop) b b' :
  ntb_data (ncm_if w) p = Ok b -> f b = Ok b' ->
  Q tt (with_if (set_ntb_data p b' (ncm_if w)) w) ->
  wp (update_ntb p f) w Q.
Proof.
  intros Hd Hf HQ. unfold update_ntb. wp_step. eapply wp_getsr; [by rewrite Hd|]. by wp_step.
Qed.

(** How [tx_accept_user_ntb] may end: with an empty NTB for the user, with
    nothing changed, or with the user left without an NTB. *)
Definition accept_outcome (s s' : ncm_interface_t) (r : bool) : Prop :=
  if r then
    tx_user_ntb_datagram_index s' = 0 /\
    exists p, tx_user_ntb s' = Some p /\ ntb_carries s' p []
  else tx_view s' = tx_view s \/ tx_user_ntb s' = None.

(** What both transmit operations leave alone. *)
Definition only_tx (w w' : world E) : Prop :=
  keeps_rx w w' /\ env w' = env w /\ calls w' = calls w /\
  tx_usbd_ntb (ncm_if w') = tx_usbd_ntb (ncm_if w).

Lemma wp_tx_fetch w (Q : bool -> world E -> Prop) :
  tx_inv (set_tx_user_ntb None (ncm_if w)) ->
  (forall (r : bool) w', tx_inv (ncm_if w') -> only_tx w w' ->
     tx_stream (ncm_if w') = tx_stream (set_tx_user_ntb None (ncm_if w)) ->
     (if r then accept_outcome (ncm_if w) (ncm_if w') true
      else tx_user_ntb (ncm_if w') = None /\ ntb_queue (tx_free_ntb (ncm_if w)) = []) -> Q r w') ->
  wp tx_fetch_user_ntb w Q.
Proof.
  intros Hs HQ. unfold tx_fetch_user_ntb. wp_step.
  apply wp_pop_from; [apply (tx_free_inv _ Hs)|]. intros o l Hpop Hl Hq Hnone.
  wp_steps. destruct o as [p|]; wp_steps.
  2: { apply HQ; [|done|done|].
       - rewrite Hnone by done. by apply (tx_inv_view _ _ eq_refl).
       - split; [done|]. exact (pop_ntb_empty _ _ (tx_free_inv _ Hs) Hpop). }
  assert (Hin : p ∈ tx_owned (set_tx_user_ntb None (ncm_if w))).
  { unfold tx_owned. cbn. rewrite Hq. set_solver. }
  destruct (tx_data_ok _ p Hs Hin) as (b&Hd&Hlen&Hb).
  destruct (populate_ntb_encodes _ b Hlen Hb (tx_seq_range _ Hs)) as (b'&Hpo&Henc).
  eapply wp_update_ntb; [exact Hd|exact Hpo|]. wp_step.
  pose proof (tx_inv_fetch _ p l b b' Hs eq_refl Hpop Hd Henc) as Hs2.
  pose proof (tx_stream_fetch _ p l b b' (wrap16 (tx_seq_count (ncm_if w) + 1)) _
                Hs eq_refl Hpop Hd Henc) as Hst.
  destruct (tx_owned_valid _ p Hs Hin) as [->| ->];
    (apply HQ; [exact Hs2|done|exact Hst|]; split; [done|]; eexists; split; [done|];
     eexists _, b'; split; [|exact Henc]; eapply ntb_data_set_same, Hd).
Qed.

(** [tx_accept_user_ntb] keeps the invariant and ends in one of its outcomes. *)
Lemma wp_tx_accept w (Q : bool -> world E -> Prop) :
  tx_inv (ncm_if w) ->
  (forall r w', tx_inv (ncm_if w') -> only_tx w w' ->
     tx_stream (ncm_if w') = tx_stream (ncm_if w) ->
     accept_outcome (ncm_if w) (ncm_if w') r -> Q r w') ->
  wp tx_accept_user_ntb w Q.
Proof.
  intros Hs HQ. unfold tx_accept_user_ntb. wp_step. wp_step. cbn beta. wp_step.
  destruct (tx_user_ntb (ncm_if w)) as [p|] eqn:Hu.
  - apply wp_push_to; [apply (tx_wait_inv _ Hs)|]. intros [] l Hp Hl Hq; cbn [negb].
    + assert (Hst : tx_stream (set_tx_user_ntb None (set_tx_wait_ntb l (ncm_if w))) =
                    tx_stream (ncm_if w)).
      { apply tx_stream_ext; [|done]. unfold tx_order. cbn. rewrite Hq, Hu. cbn.
        by rewrite app_nil_r. }
      apply wp_tx_fetch; [by apply (tx_inv_stash (ncm_if w) p l)|].
      intros [] w' Hs' Hk Hst' Ho; apply HQ; try done; try (by rewrite <- Hst). right. apply Ho.
    + apply wp_ret. apply push_ntb_keeps in Hp as ->.
      apply HQ; [by apply (tx_inv_view (ncm_if w))|done|by apply tx_stream_view|by left].
  - wp_step. cbn [negb].
    assert (Hv : tx_view (set_tx_user_ntb None (ncm_if w)) = tx_view (ncm_if w))
      by (unfold tx_view; cbn; by rewrite Hu).
    apply wp_tx_fetch; [by apply (tx_inv_view (ncm_if w))|].
    intros [] w' Hs' Hk Hst Ho; rewrite (tx_stream_view _ _ Hs Hv) in Hst; apply HQ; try done.
    right. apply Ho.
Qed.

(** How [tx_try_start] may end: without a transfer, or with exactly one
    transfer of the oldest finished NTB, of its block length. *)
Inductive tx_start_outcome (s s' : ncm_interface_t) : list ext_call -> bool -> Prop :=
| TxNotStarted new :
    tx_view s' = tx_view s ->
    new = [] \/ (exists busy, new = [CEpBusy NCM_EP_DATA_IN busy]) ->
    tx_start_outcome s s' new false
| TxStarted p seq ds b r :
    tx_usbd_ntb s = None -> interface_active s = 1 ->
    head (ntb_queue (tx_wait_ntb s) ++ option_list (tx_user_ntb s)) = Some p ->
    tx_usbd_ntb s' = Some p -> ntb_data s' p = Ok b ->
    ntb_encodes seq ds b -> Z.of_nat (length ds) <= NCM_MAX_DATAGRAMS_PER_NTB ->
    tx_start_outcome s s'
      [CEpBusy NCM_EP_DATA_IN false;
       CTransferEp NCM_EP_DATA_IN (Some b) (block_length ds) r] r.

Lemma wp_transfer_ntb_in p w (Q : bool -> world E -> Prop) seq ds b :
  ntb_data (ncm_if w) p = Ok b -> ntb_encodes seq ds b ->
  (forall r e, Q r (record_call (CTransferEp NCM_EP_DATA_IN (Some b) (block_length ds) r) e w)) ->
  wp (transfer_ntb_in p) w Q.
Proof.
  intros Hd Henc HQ. unfold transfer_ntb_in. wp_step. eapply wp_getsr; [done|]. wp_step.
  eapply wp_getsr; [apply Henc|]. by wp_step.
Qed.

Lemma wp_tx_try_start w (Q : bool -> world E -> Prop) :
  tx_inv (ncm_if w) ->
  (forall r w' new, tx_inv (ncm_if w') -> keeps_rx w w' -> calls w' = calls w ++ new ->
     tx_stream (ncm_if w') = tx_stream (ncm_if w) ->
     tx_start_outcome (ncm_if w) (ncm_if w') new r -> Q r w') ->
  wp tx_try_start w Q.
Proof.
  intros Hs HQ. unfold tx_try_start. wp_steps.
  destruct (tx_usbd_ntb (ncm_if w)) as [q|] eqn:Hu; wp_steps.
  { apply (HQ _ _ []); rewrite ?app_nil_r; try done. constructor; auto. }
  destruct (Z.eqb_spec (interface_active (ncm_if w)) 1) as [Ha|]; cbn [negb]; wp_steps.
  2: { apply (HQ _ _ []); rewrite ?app_nil_r; try done. constructor; auto. }
  destruct r as [|]; wp_steps.
  { eapply HQ; try done. constructor; eauto. }
  apply wp_pop_from; [apply (tx_wait_inv _ Hs)|]. cbn. intros o l Hpop Hl Hq Hnone. wp_steps.
  pose proof (tx_inv_start_waiting _ o l Hs Hu Hpop) as Hs1.
  destruct o as [p|].
  - destruct (tx_queued_carries _ Hs1 p) as (ds&(seq&b&Hd&Henc)&Hle); [cbn; set_solver|].
    eapply wp_transfer_ntb_in; [exact Hd|done|]. intros r e'.
    eapply HQ; [exact Hs1|done|cbn; by rewrite <- app_assoc| |].
    + apply tx_stream_ext; [|done]. unfold tx_order. cbn. by rewrite Hq, Hu.
    + eapply (TxStarted _ _ p); try done. by rewrite Hq.
  - cbn in Hq. rewrite Hnone in * by done. wp_steps. cbn.
    assert (Hsame : tx_view (set_tx_usbd_ntb None (set_tx_wait_ntb
         (tx_wait_ntb (ncm_if w)) (ncm_if w))) = tx_view (ncm_if w))
      by (unfold tx_view; cbn; by rewrite Hu).
    assert (Hback : tx_start_outcome (ncm_if w) (set_tx_usbd_ntb None (set_tx_wait_ntb
         (tx_wait_ntb (ncm_if w)) (ncm_if w))) [CEpBusy NCM_EP_DATA_IN false] false)
      by (constructor; eauto).
    assert (Hempty : ntb_queue (tx_wait_ntb (ncm_if w)) = []).
    { destruct (pop_ntb_cases _ (tx_wait_inv _ Hs)) as (?&?&E1&_&E2).
      rewrite Hpop in E1. injection E1 as <- <-. tauto. }
    destruct (tx_user_ntb (ncm_if w)) as [p|] eqn:Hus; wp_steps.
    2: { eapply HQ; [exact Hs1|done|done|by apply tx_stream_view|exact Hback]. }
    destruct (Z.eqb_spec (tx_user_ntb_datagram_index (ncm_if w)) 0); wp_steps.
    { eapply HQ; [exact Hs1|done|done|by apply tx_stream_view|exact Hback]. }
    pose proof (tx_inv_start_user (ncm_if w) p Hs Hu Hus) as Hs2.
    destruct (tx_queued_carries _ Hs2 p) as (ds&(seq&b&Hd&Henc)&Hle); [cbn; set_solver|].
    eapply wp_transfer_ntb_in; [exact Hd|done|]. intros r e'.
    eapply HQ; [|done|cbn; by rewrite <- app_assoc| |].
    + by apply (tx_inv_view _ _ eq_refl).
    + apply tx_stream_ext; [|done]. unfold tx_order. cbn. by rewrite Hempty, Hu, Hus.
    + eapply (TxStarted _ _ p); try done. by rewrite Hempty, Hus.
Qed.
End tx_specs.
