(* ===== verification/NcmRx.v ===== *)
(** * The receive side: [src/lib/ncm/rx.c] *)

From stdpp Require Import base numbers list decidable sets.
From Stdlib Require Import ZArith Lia Bool.
From S2P Require Import Prelude NcmTypes NtbList Ntb NcmTx.
Open Scope Z_scope.

(** ** Operations *)

(** [ndp16_datagram[i]] of a received NTB: the table is behind the NDP the
    header points to. *)
Definition rx_entry (b : list Z) (i : Z) : result (Z * Z) :=
  let* ndp := rd16 b nth_wNdpIndex in
  let off := ndp + sizeof_ndp16_t + sizeof_ndp16_datagram_t * i in
  let* dIndex := rd16 b (off + dg_wDatagramIndex) in
  let* dLength := rd16 b (off + dg_wDatagramLength) in
  Ok (dIndex, dLength).

(** The memory from [&data[i]] to the end of the NTB. *)
Definition rx_window (b : list Z) (i : Z) : result (list Z) :=
  if (0 <=? i) && (i <=? Z.of_nat (length b)) then Ok (drop (Z.to_nat i) b)
  else Fault OutOfBounds.

Section rx.
Context {D E : Type} `{NcmEnv D E}.

(** The two parameters are cast to [void]. *)
Definition rx_validate_datagram (ntb : option ntb_ptr) (size : Z) : bool := true.

(** Lines 20 to 24: get an NTB when the user has none. *)
Definition rx_fetch_user_ntb : NM E unit :=
  let! user := gets rx_user_ntb in
  match user with
  | Some _ => ret tt
  | None =>
      let! waiting := pop_from rx_wait_ntb set_rx_wait_ntb in
      let! _ := modify (set_rx_user_ntb waiting) in
      modify (set_rx_user_ntb_datagram_index 0)
  end.

(** Lines 27 to 39: offer the current datagram to the user. *)
Definition rx_offer_datagram (p : ntb_ptr) : NM E bool :=
  let! b := getsr (fun s => ntb_data s p) in
  let! idx := gets rx_user_ntb_datagram_index in
  let! (dIndex, dLength) := getsr (fun _ => rx_entry b idx) in
  let! window := getsr (fun _ => rx_window b dIndex) in
  let! accepted := call_net_rx window dLength in
  if accepted =? 0 then ret true
  else
    let! (dIndex', dLength') := getsr (fun _ => rx_entry b (idx + 1)) in
    if negb (dIndex' =? 0) && negb (dLength' =? 0) then
      let! _ := modify (set_rx_user_ntb_datagram_index (wrap16 (idx + 1))) in
      ret true
    else push_to rx_free_ntb set_rx_free_ntb (Some p).

Definition rx_update_user_ntb : NM E bool :=
  let! _ := rx_fetch_user_ntb in
  let! user := gets rx_user_ntb in
  match user with
  | None => ret true
  | Some p => rx_offer_datagram p
  end.

Definition rx_try_start : NM E bool :=
  let! usbd := gets rx_usbd_ntb in
  match usbd with
  | Some _ => ret false
  | None =>
      let! active := gets interface_active in
      if negb (active =? 1) then ret false
      else
        let! busy := call_ep_busy NCM_EP_DATA_OUT in
        if busy then ret false
        else
          let! free := pop_from rx_free_ntb set_rx_free_ntb in
          let! _ := modify (set_rx_usbd_ntb free) in
          match free with
          | None => ret false
          | Some p =>
              let! b := getsr (fun s => ntb_data s p) in
              let! r := call_transfer_ep NCM_EP_DATA_OUT (Some b) NCM_NTB_MAX_SIZE in
              if negb r then
                let! _ := push_to rx_free_ntb set_rx_free_ntb free in
                ret false
              else ret true
          end
  end.
End rx.

(** ** The receive invariant *)

Definition rx_valid_ptr (p : ntb_ptr) : Prop := p = RxNtb 0 \/ p = RxNtb 1.

Record rx_inv (s : ncm_interface_t) : Prop := {
  rx_buffers : buffers_ok (rx_ntb s);
  rx_free_inv : ntb_list_inv (rx_free_ntb s);
  rx_wait_inv : ntb_list_inv (rx_wait_ntb s);
  rx_index_range : 0 <= rx_user_ntb_datagram_index s < 65536;
  rx_pointers : forall p,
    p ∈ ntb_queue (rx_free_ntb s) ++ ntb_queue (rx_wait_ntb s) ++
        option_list (rx_usbd_ntb s) ++ option_list (rx_user_ntb s) -> rx_valid_ptr p
}.

Lemma rx_inv_view s s' : rx_view s' = rx_view s -> rx_inv s -> rx_inv s'.
Proof.
  intros [= E1 E2 E3 E4 E5 E6] []. constructor; rewrite ?E1, ?E2, ?E3, ?E4, ?E5, ?E6; auto.
Qed.

Lemma rx_data_ok s p :
  rx_inv s -> rx_valid_ptr p ->
  exists b, ntb_data s p = Ok b /\ Z.of_nat (length b) = NCM_NTB_MAX_SIZE /\ bytes_ok b.
Proof.
  intros Hs [->| ->];
    [destruct (buffers_lookup (rx_ntb s) 0) as (b&Hb&?&?)
    |destruct (buffers_lookup (rx_ntb s) 1) as (b&Hb&?&?)];
    try apply Hs; try lia; exists b; unfold ntb_data; by rewrite Hb.
Qed.

(** ** What a received NTB holds *)

(** The table of [b] lists the datagrams [es] (start, length), all of them
    inside the NTB, and then an entry with a zero. *)
Record rx_lists (b : list Z) (es : list (Z * Z)) : Prop := {
  rxl_entry : forall i e, es !! i = Some e ->
    rx_entry b (Z.of_nat i) = Ok e /\ e.1 <> 0 /\ e.2 <> 0 /\
    0 <= e.1 /\ 0 <= e.2 /\ e.1 + e.2 <= Z.of_nat (length b);
  rxl_end : exists e, rx_entry b (Z.of_nat (length es)) = Ok e /\ (e.1 = 0 \/ e.2 = 0);
  rxl_count : Z.of_nat (length es) < 65536
}.

(** An NTB the transmit side built, with no empty datagram in it, lists
    exactly its datagrams. *)
Definition encoded_entries (ds : list (list Z)) : list (Z * Z) :=
  imap (fun i d => (dg_offset ds i, dg_len d)) ds.

Lemma rx_entry_encoded seq ds b i :
  ntb_encodes seq ds b -> (i < dg_slots)%nat ->
  rx_entry b (Z.of_nat i) =
    Ok (match ds !! i with Some d => (dg_offset ds i, dg_len d) | None => (0, 0) end).
Proof.
  intros He Hi. unfold rx_entry. rewrite (enc_ndp_index _ _ _ He). cbn [rbind].
  destruct (enc_entries _ _ _ He i Hi) as [H1 H2]. unfold entry_offset, def_ndp_datagram in H1, H2.
  rewrite H1, H2. cbn [rbind]. by destruct (ds !! i).
Qed.

Lemma rx_lists_encoded seq ds b :
  ntb_encodes seq ds b -> Z.of_nat (length ds) <= NCM_MAX_DATAGRAMS_PER_NTB ->
  Forall (fun d => d <> []) ds -> rx_lists b (encoded_entries ds).
Proof.
  intros He Hc Hne. unfold NCM_MAX_DATAGRAMS_PER_NTB in Hc.
  assert (Hslots : dg_slots = 9%nat) by done.
  constructor.
  - intros i e Hi. unfold encoded_entries in Hi. rewrite list_lookup_imap in Hi.
    destruct (ds !! i) as [d|] eqn:Hd; [|done]. injection Hi as <-.
    assert (i < length ds)%nat by (by eapply lookup_lt_Some).
    rewrite (rx_entry_encoded seq ds b) by (done || lia). rewrite Hd.
    destruct (dg_offset_bound ds i d Hd) as [Hlo Hhi].
    pose proof (enc_fits _ _ _ He). pose proof (enc_size _ _ _ He).
    assert (dg_len d <> 0).
    { rewrite Forall_lookup in Hne. specialize (Hne i d Hd). destruct d; [done|].
      unfold dg_len. cbn. lia. }
    assert (0 <= dg_len d) by (unfold dg_len; lia).
    unfold def_header_size, sizeof_nth16_t, sizeof_ndp16_t, sizeof_def_ndp_datagram,
      NCM_MAX_DATAGRAMS_PER_NTB, sizeof_ndp16_datagram_t in Hlo.
    cbn [fst snd]. repeat split; try lia.
  - exists (0, 0). unfold encoded_entries. rewrite length_imap.
    rewrite (rx_entry_encoded seq ds b) by (done || lia).
    rewrite lookup_ge_None_2 by lia. split; [done|by left].
  - unfold encoded_entries. rewrite length_imap. lia.
Qed.

(** ** Specifications *)

Section rx_specs.
Context {D E : Type} `{NcmProvider D E frame}.
Implicit Types (w : world E).

(** What the receive operations leave alone. *)
Definition keeps_tx (w w' : world E) : Prop :=
  tx_view (ncm_if w') = tx_view (ncm_if w) /\
  interface_active (ncm_if w') = interface_active (ncm_if w) /\
  notification_state (ncm_if w') = notification_state (ncm_if w).

(** The user works on [p], which holds [b], at datagram [i]. *)
Definition rx_at (s : ncm_interface_t) (p : ntb_ptr) (b : list Z) (i : nat) : Prop :=
  rx_user_ntb s = Some p /\ ntb_data s p = Ok b /\
  rx_user_ntb_datagram_index s = Z.of_nat i.

Lemma wp_rx_window b e w (Q : list Z -> world E -> Prop) :
  0 <= e <= Z.of_nat (length b) -> Q (drop (Z.to_nat e) b) w ->
  wp (getsr (fun _ => rx_window b e)) w Q.
Proof.
  intros He HQ. eapply wp_getsr; [|exact HQ]. unfold rx_window.
  destruct (Z.leb_spec 0 e), (Z.leb_spec e (Z.of_nat (length b))); try lia. done.
Qed.

(** Offering datagram [i]: the user gets exactly the bytes of entry [i].  If
    it refuses, nothing changes; if it accepts, the next entry is current,
    or after the last one the NTB is pushed to the free list, and the user
    keeps it. *)
Lemma wp_rx_offer p b es i e w (Q : bool -> world E -> Prop) :
  rx_inv (ncm_if w) -> rx_at (ncm_if w) p b i -> rx_lists b es -> es !! i = Some e ->
  (forall r w' c, rx_inv (ncm_if w') -> keeps_tx w w' ->
     calls w' = calls w ++ [CNetRx (drop (Z.to_nat e.1) b) e.2 c] -> 0 <= c < 65536 ->
     rx_at (ncm_if w') p b (if c =? 0 then i else if decide (S i < length es)%nat then S i else i) ->
     (c = 0 \/ (S i < length es)%nat -> rx_free_ntb (ncm_if w') = rx_free_ntb (ncm_if w)) ->
     rx_usbd_ntb (ncm_if w') = rx_usbd_ntb (ncm_if w) -> Q r w') ->
  wp (rx_offer_datagram p) w Q.
Proof.
  intros Hs (Hu&Hd&Hi) Hl He HQ.
  destruct (rxl_entry _ _ Hl i e He) as (Hent&?&?&?&?&?).
  assert (Hlt : (i < length es)%nat) by (by eapply lookup_lt_Some).
  pose proof (rxl_count _ _ Hl) as Hcount.
  unfold rx_offer_datagram. wp_step. eapply wp_getsr; [done|]. wp_steps.
  eapply wp_getsr; [by rewrite Hi|]. destruct e as [dI dL]; cbn [fst snd] in *. wp_step.
  apply wp_rx_window; [lia|]. wp_step.
  apply wp_call_net_rx; [rewrite length_drop; lia|]. intros c e' Hc.
  destruct (Z.eqb_spec c 0) as [->|Hc0]; wp_steps.
  { eapply (HQ _ _ 0); try done. }
  destruct (decide (S i < length es)%nat) as [Hnext|Hlast].
  - destruct (lookup_lt_is_Some_2 es (S i) Hnext) as [[nI nL] Hn].
    destruct (rxl_entry _ _ Hl _ _ Hn) as (Hent'&?&?&_). cbn [fst snd] in *.
    eapply wp_getsr; [rewrite Hi; by replace (Z.of_nat i + 1) with (Z.of_nat (S i)) by lia|].
    cbn beta iota.
    replace (negb (nI =? 0) && negb (nL =? 0)) with true
      by (destruct (Z.eqb_spec nI 0), (Z.eqb_spec nL 0); done).
    wp_steps.
    assert (Hw : wrap16 (rx_user_ntb_datagram_index (ncm_if w) + 1) = Z.of_nat (S i))
      by (rewrite wrap16_small; lia).
    eapply (HQ _ _ c); try done.
    + destruct Hs. constructor; cbn; auto. rewrite Hw. lia.
    + by destruct (Z.eqb_spec c 0).
  - destruct (rxl_end _ _ Hl) as ([nI nL]&Hend&Hz). cbn [fst snd] in *.
    replace (length es) with (S i) in Hend by lia.
    eapply wp_getsr; [rewrite Hi; by replace (Z.of_nat i + 1) with (Z.of_nat (S i)) by lia|].
    cbn beta iota.
    replace (negb (nI =? 0) && negb (nL =? 0)) with false
      by (destruct (Z.eqb_spec nI 0), (Z.eqb_spec nL 0); try done; lia).
    apply wp_push_to; [apply Hs|]. intros r l Hp Hl' Hq. cbn in Hq.
    eapply (HQ _ _ c); try done.
    + pose proof (rx_pointers _ Hs) as Hptr. rewrite Hu in Hptr.
      destruct Hs. constructor; cbn; auto. rewrite Hq. intros q Hin. apply Hptr.
      rewrite Hu, !elem_of_app in Hin. rewrite !elem_of_app.
      destruct r; rewrite ?elem_of_nil in Hin; cbn in *; tauto.
    + by destruct (Z.eqb_spec c 0).
    + intros [|]; [done|lia].
Qed.

(** [rx_fetch_user_ntb] gives the user the oldest waiting NTB when it has none. *)
Lemma wp_rx_fetch w (Q : unit -> world E -> Prop) :
  rx_inv (ncm_if w) ->
  (forall w', rx_inv (ncm_if w') -> keeps_tx w w' -> calls w' = calls w ->
     rx_ntb (ncm_if w') = rx_ntb (ncm_if w) ->
     rx_usbd_ntb (ncm_if w') = rx_usbd_ntb (ncm_if w) ->
     match rx_user_ntb (ncm_if w) with
     | Some _ => w' = w
     | None => rx_user_ntb (ncm_if w') = head (ntb_queue (rx_wait_ntb (ncm_if w))) /\
               rx_user_ntb_datagram_index (ncm_if w') = 0 /\
               ntb_queue (rx_wait_ntb (ncm_if w')) = tail (ntb_queue (rx_wait_ntb (ncm_if w)))
     end -> Q tt w') ->
  wp rx_fetch_user_ntb w Q.
Proof.
  intros Hs HQ. unfold rx_fetch_user_ntb. wp_steps.
  destruct (rx_user_ntb (ncm_if w)) as [p|] eqn:Hu; wp_steps.
  { by apply HQ. }
  apply wp_pop_from; [apply Hs|]. intros o l Hp Hl Hq Hnone. wp_steps.
  apply HQ; try done.
  - pose proof (rx_pointers _ Hs) as Hptr. rewrite Hq in Hptr.
    destruct Hs. constructor; cbn; try done. intros q Hin. apply Hptr.
    rewrite !elem_of_app in *. tauto.
  - cbn. rewrite Hq. destruct (pop_ntb_cases _ (rx_wait_inv _ Hs)) as (o'&l'&E'&_&Ho').
    rewrite Hp in E'. injection E' as <- <-. destruct o; [done|].
    destruct Ho' as [Hnil ->]. by rewrite Hnil.
Qed.
End rx_specs.
