(* ===== verification/NcmNet.v ===== *)
(** * The driver's interface: [src/lib/ncm/net.c]

    The functions the application calls ([net_can_tx], [net_tx],
    [net_rx_renew], [net_init]) and those the USB side calls
    ([net_usb_transfer], [net_usb_control_transfer]). *)

From stdpp Require Import base numbers list decidable sets.
From Stdlib Require Import ZArith Lia Bool.
From S2P Require Import Prelude NcmTypes NtbList Ntb NcmTx NcmRx.
Open Scope Z_scope.

(** ** Operations *)

(** Lines 32 to 36 of [net_tx] on the bytes of the user's NTB: the frame goes
    behind the block, its entry [idx] into the table, and the block grows.
    An entry past the table is out of range. *)
Definition append_datagram (idx : Z) (stored : list Z) (size : Z) (b : list Z) : result (list Z) :=
  let* bl := rd16 b nth_wBlockLength in
  let* b := wr b bl stored in
  if negb ((0 <=? idx) && (idx <? NCM_MAX_DATAGRAMS_PER_NTB + 1)) then Fault OutOfBounds
  else
    let off := def_ndp_datagram + sizeof_ndp16_datagram_t * idx in
    let* bl := rd16 b nth_wBlockLength in
    let* b := wr16 b (off + dg_wDatagramIndex) bl in
    let* b := wr16 b (off + dg_wDatagramLength) size in
    let* bl := rd16 b nth_wBlockLength in
    wr16 b nth_wBlockLength (bl + (size + ALIGN_OFFSET size)).

(** The all-zero interface of [memset(&ncm_if, 0, sizeof(ncm_if))]. *)
Definition zero_ntb : list Z := replicate (Z.to_nat NCM_NTB_MAX_SIZE) 0.
Definition zero_ncm_if : ncm_interface_t :=
  mk_ncm 0
    (replicate (Z.to_nat NCM_NTB_N) zero_ntb) empty_ntb_list empty_ntb_list None None 0
    (replicate (Z.to_nat NCM_NTB_N) zero_ntb) empty_ntb_list empty_ntb_list None None 0 0
    TX_NOTIFY_STATE_WAITING.

Section net.
Context {D E : Type} `{NcmEnv D E}.

Definition net_can_tx (size : Z) : NM E bool :=
  let! fits := tx_datagram_fits_user_ntb size in
  let! allowed := (if fits then ret true else tx_accept_user_ntb) in
  if allowed then ret true
  else
    let! _ := tx_try_start in
    ret false.

Definition net_tx (datagram : D) (arg : Z) : NM E unit :=
  let! user := gets tx_user_ntb in
  match user with
  | None => ret tt
  | Some p =>
      let! (stored, size) := call_net_tx datagram arg in
      let! idx := gets tx_user_ntb_datagram_index in
      let! _ := update_ntb p (append_datagram idx stored size) in
      let! _ := modify (set_tx_user_ntb_datagram_index (wrap16 (idx + 1))) in
      let! bl := getsr (fun s => let* b := ntb_data s p in rd16 b nth_wBlockLength) in
      if NCM_NTB_MAX_SIZE <? bl then ret tt
      else
        let! _ := tx_try_start in
        ret tt
  end.

Definition net_rx_renew : NM E unit :=
  let! _ := rx_update_user_ntb in
  let! _ := rx_try_start in
  ret tt.

(** The loop [for (n = 0; n < NCM_NTB_N; n++)] over the indices given. *)
Fixpoint free_ntbs (ns : list nat) : NM E unit :=
  match ns with
  | [] => ret tt
  | n :: ns =>
      let! _ := push_to tx_free_ntb set_tx_free_ntb (Some (TxNtb n)) in
      let! _ := push_to rx_free_ntb set_rx_free_ntb (Some (RxNtb n)) in
      free_ntbs ns
  end.

Definition net_init : NM E unit :=
  let! _ := modify (fun _ => zero_ncm_if) in
  free_ntbs (seq 0 (Z.to_nat NCM_NTB_N)).

Definition net_usb_transfer (ep_addr bytes : Z) : NM E bool :=
  let! _ :=
    (if ep_addr =? NCM_EP_DATA_OUT then
       let! usbd := gets rx_usbd_ntb in
       let! _ := (if rx_validate_datagram usbd bytes
                  then let! _ := push_to rx_wait_ntb set_rx_wait_ntb usbd in ret tt
                  else modify (set_rx_usbd_ntb None)) in
       net_rx_renew
     else if ep_addr =? NCM_EP_DATA_IN then
       let! usbd := gets rx_usbd_ntb in
       let! _ := push_to rx_free_ntb set_rx_free_ntb usbd in
       let! zlp := tx_insert_zlp bytes in
       if zlp then ret tt
       else
         let! _ := tx_try_start in
         ret tt
     else if ep_addr =? NCM_EP_NOTIFY then tx_notification true
     else ret tt) in
  ret true.

Definition net_usb_control_transfer (request : usb_control_request_t) : NM E bool :=
  if req_type request =? USB_TYPE_STANDARD then
    if req_bRequest request =? USB_REQ_GET_INTERFACE then
      let! active := gets interface_active in
      let! _ := call_transfer_ep0 request [active] 1 in
      ret true
    else if req_bRequest request =? USB_REQ_SET_INTERFACE then
      let! _ := modify (set_interface_active (wrap8 (req_wValue request))) in
      let! active := gets interface_active in
      let! _ := (if active =? 0 then ret tt
                 else
                   let! _ := rx_update_user_ntb in
                   tx_notification false) in
      let! _ := call_control_status request in
      ret true
    else ret false
  else if req_type request =? USB_TYPE_CLASS then
    if req_bRequest request =? NCM_GET_NTB_PARAMETERS then
      let! _ := call_transfer_ep0 request (ntb_parameters_bytes ntb_parameters)
                  sizeof_ntb_parameters_t in
      ret true
    else ret false
  else ret false.
End net.

(** ** Appending a datagram *)

(** The four writes of [append_datagram], in range. *)
Lemma append_datagram_writes ds d b n :
  Z.of_nat (length b) = NCM_NTB_MAX_SIZE ->
  rd16 b nth_wBlockLength = Ok (block_length ds) ->
  0 <= n <= NCM_MAX_DATAGRAMS_PER_NTB ->
  block_length ds + padded (dg_len d) <= NCM_NTB_MAX_SIZE ->
  exists b1 b2 b3 b4, append_datagram n d (dg_len d) b = Ok b4 /\
    wr b (block_length ds) d = Ok b1 /\
    wr16 b1 (def_ndp_datagram + sizeof_ndp16_datagram_t * n + dg_wDatagramIndex)
      (block_length ds) = Ok b2 /\
    wr16 b2 (def_ndp_datagram + sizeof_ndp16_datagram_t * n + dg_wDatagramLength)
      (dg_len d) = Ok b3 /\
    wr16 b3 nth_wBlockLength (block_length (ds ++ [d])) = Ok b4.
Proof.
  intros Hl Hbl Hn Hf. pose proof (padded_bounds (dg_len d)).
  pose proof (payload_size_nonneg ds) as Hp.
  assert (Hlo : 56 <= block_length ds) by (unfold block_length; unfold_layout; lia).
  assert (Hdl : dg_len d = Z.of_nat (length d)) by done.
  unfold append_datagram. rewrite Hbl. cbn [rbind].
  unfold wr16. unfold_layout.
  do_write; [lia|lia|].
  replace (negb ((0 <=? n) && (n <? 8 + 1))) with false
    by (destruct (Z.leb_spec 0 n), (Z.ltb_spec n (8 + 1)); try done; lia).
  rewrite (rd_wr_disj _ _ _ _ 8 2 Hw) by lia. rewrite Hbl. cbn [rbind].
  do_write; [lia|rewrite length_le_bytes; lia|].
  do_write; [lia|rewrite length_le_bytes; lia|].
  skip_writes. rewrite Hbl. cbn [rbind].
  do_write; [lia|rewrite length_le_bytes; lia|].
  exists b0, b1, b2, b3. rewrite block_length_snoc. unfold padded. auto.
Qed.

(** [append_datagram] takes the encoding of [ds] to that of [ds ++ [d]]. *)
Lemma append_datagram_encodes seq ds d b :
  ntb_encodes seq ds b -> bytes_ok d ->
  Z.of_nat (length ds) <= NCM_MAX_DATAGRAMS_PER_NTB ->
  block_length ds + padded (dg_len d) <= NCM_NTB_MAX_SIZE ->
  exists b', append_datagram (Z.of_nat (length ds)) d (dg_len d) b = Ok b' /\
    ntb_encodes seq (ds ++ [d]) b'.
Proof.
  intros He Hd Hc Hf.
  pose proof He as [Hsize Hbytes Hsig Hhl Hseq Hbl Hni Hns Hnl Hnn Hfit Hcnt Hent Hpay].
  destruct (append_datagram_writes ds d b (Z.of_nat (length ds)))
    as (b1&b2&b3&b4&Happ&Hw1&Hw2&Hw3&Hw4); try done; [lia|].
  exists b4. split; [done|].
  pose proof (padded_bounds (dg_len d)). pose proof (payload_size_nonneg ds).
  assert (Hlo : 56 <= block_length ds) by (unfold block_length; unfold_layout; lia).
  assert (Hdl : dg_len d = Z.of_nat (length d)) by done.
  unfold wr16 in *.
  pose proof (wr_length _ _ _ _ Hw1) as L1. pose proof (wr_length _ _ _ _ Hw2) as L2.
  pose proof (wr_length _ _ _ _ Hw3) as L3. pose proof (wr_length _ _ _ _ Hw4) as L4.
  assert (Hsnoc := block_length_snoc ds d).
  unfold_layout.
  constructor; unfold_layout; try (lia); try (by skip_writes).
  - eauto 8 using wr_bytes_ok, bytes_ok_le_bytes.
  - read_field.
  - rewrite length_app. cbn. lia.
  - intros i Hi. destruct (lt_eq_lt_dec i (length ds)) as [[Hlt| ->]|Hgt].
    + rewrite lookup_app_l, dg_offset_app by lia.
      destruct (Hent i Hi) as [<- <-]. split; by skip_writes.
    + rewrite lookup_app_r, Nat.sub_diag, dg_offset_app, dg_offset_all by lia.
      split; read_field.
    + rewrite (lookup_ge_None_2 (ds ++ [d])) by (rewrite length_app; cbn; lia).
      destruct (Hent i Hi) as [E1 E2].
      rewrite (lookup_ge_None_2 ds) in E1, E2 by lia. rewrite <- E1, <- E2 at 1.
      split; by skip_writes.
  - intros i d' Hi. assert (i <= length ds)%nat.
    { apply lookup_lt_Some in Hi. rewrite length_app in Hi. cbn in Hi. lia. }
    rewrite dg_offset_app by lia. destruct (decide (i = length ds)) as [->|].
    + rewrite lookup_app_r, Nat.sub_diag in Hi by lia. injection Hi as <-.
      rewrite dg_offset_all. skip_writes. rewrite Hdl. by eapply bytes_at_wr_same.
    + rewrite lookup_app_l in Hi by lia.
      destruct (dg_offset_bound ds i d' Hi) as [Hlo' Hhi']. unfold_layout.
      assert (0 <= dg_len d') by (unfold dg_len; lia).
      rewrite <- (Hpay i d' Hi) at 2. by skip_writes.
Qed.

(** ** Specifications *)

(** Appending to the user's NTB keeps the transmit invariant and adds the
    frame at the end of the stream. *)
Lemma tx_inv_append s p seq ds d b b' :
  tx_inv s -> tx_user_ntb s = Some p -> ntb_data s p = Ok b ->
  Z.of_nat (length ds) = tx_user_ntb_datagram_index s ->
  Z.of_nat (length ds) < NCM_MAX_DATAGRAMS_PER_NTB ->
  ntb_encodes seq ds b -> ntb_encodes seq (ds ++ [d]) b' ->
  let s' := set_tx_user_ntb_datagram_index (wrap16 (tx_user_ntb_datagram_index s + 1))
              (set_ntb_data p b' s) in
  tx_inv s' /\ tx_stream s' = tx_stream s ++ [d].
Proof.
  intros Hs Hu Hd Hidx Hlt He He' s'.
  assert (Hin : p ∈ tx_owned s) by (unfold tx_owned; rewrite Hu; set_solver).
  destruct (set_ntb_data_keeps s p b') as (Ef&Ew&Eu&Er&_&Es&_).
  assert (Hc : ntb_carries s' p (ds ++ [d])).
  { exists seq, b'. split; [exact (ntb_data_set_same s p b' b Hd)|done]. }
  assert (Hother : forall q, q ∈ option_list (tx_usbd_ntb s) ++ ntb_queue (tx_wait_ntb s) -> p <> q).
  { intros q Hq ->. pose proof (tx_owned_nodup s Hs) as Hnd. unfold tx_owned in Hnd.
    rewrite Hu, !app_assoc in Hnd. apply NoDup_app in Hnd as (_&Hx&_).
    apply (Hx q); [rewrite !elem_of_app in *; tauto|cbn; set_solver]. }
  assert (Hw : wrap16 (tx_user_ntb_datagram_index s + 1) = Z.of_nat (length (ds ++ [d]))).
  { rewrite length_app, <- Hidx. unfold NCM_MAX_DATAGRAMS_PER_NTB in Hlt. cbn.
    rewrite wrap16_small; lia. }
  split.
  - constructor; subst s'; cbn -[wrap]; rewrite ?Ef, ?Ew, ?Eu, ?Er, ?Es; try apply Hs.
    + destruct (tx_owned_valid s p Hs Hin) as [->| ->];
        (apply buffers_insert; [apply Hs|apply He'..]).
    + unfold tx_owned. cbn. rewrite Ef, Ew, Eu, Er. apply Hs.
    + rewrite Hu. intros q [= <-]. exists (ds ++ [d]). split; [exact Hc|].
      rewrite Hw, length_app in *. cbn. lia.
    + intros q Hq. destruct (tx_queued_carries s Hs q Hq) as (ds'&Hc'&?). exists ds'.
      split; [|done]. apply (carries_data (set_ntb_data p b' s)); [done|].
      apply ntb_carries_set_other; [|done]. apply Hother. rewrite !elem_of_app in *. tauto.
  - rewrite !tx_stream_split. subst s'. cbn. rewrite Ew, Eu, Er, Hu. cbn.
    rewrite (carries_datagrams_at _ p _ Hc), !app_nil_r.
    rewrite (carries_datagrams_at s p ds) by (by exists seq, b).
    rewrite app_assoc. do 3 f_equal. apply datagrams_at_ext.
    intros q Hq. apply (ntb_data_set_other s). by apply Hother.
Qed.

Section net_specs.
Context {D E : Type} `{NcmProvider D E frame}.
Implicit Types (w : world E).

(** The user has an NTB without datagrams. *)
Definition user_empty (s : ncm_interface_t) : Prop :=
  tx_user_ntb_datagram_index s = 0 /\
  exists p, tx_user_ntb s = Some p /\ ntb_carries s p [].

Lemma user_empty_fits s size :
  user_empty s -> padded size <= NCM_NTB_MAX_SIZE - def_header_size -> user_fits s size.
Proof.
  intros (Hi&p&Hu&Hc) Hs. exists p, []. unfold block_length. cbn [length payload_size].
  rewrite Hi. unfold NCM_MAX_DATAGRAMS_PER_NTB. repeat split; try done; lia.
Qed.

(** [net_can_tx]: [true] only if the datagram fits into the user's NTB or
    that NTB is fresh.  No frame is lost or moved in either case. *)
Lemma wp_net_can_tx size w (Q : bool -> world E -> Prop) :
  tx_inv (ncm_if w) ->
  (forall (r : bool) w' new, tx_inv (ncm_if w') -> keeps_rx w w' ->
     calls w' = calls w ++ new -> tx_stream (ncm_if w') = tx_stream (ncm_if w) ->
     (if r then new = [] /\ tx_usbd_ntb (ncm_if w') = tx_usbd_ntb (ncm_if w) /\
                (user_fits (ncm_if w') size \/ user_empty (ncm_if w'))
      else exists s1 b, tx_start_outcome s1 (ncm_if w') new b /\
             tx_usbd_ntb s1 = tx_usbd_ntb (ncm_if w)) -> Q r w') ->
  wp (net_can_tx size) w Q.
Proof.
  intros Hs HQ. unfold net_can_tx. wp_step. apply wp_tx_datagram_fits; [done|].
  intros [] Hr; wp_step.
  - apply wp_ret, wp_ret. apply (HQ true w []); rewrite ?app_nil_r; try done.
    split; [done|]. split; [done|]. left. by apply Hr.
  - apply wp_tx_accept; [done|]. intros [] w1 Hs1 (Hk&He&Hc&Hu) Hst Ho.
    + wp_step. apply (HQ true w1 []); rewrite ?app_nil_r; try done.
      split; [done|]. split; [done|]. right. exact Ho.
    + wp_step. apply wp_tx_try_start; [done|]. intros r w2 new Hs2 Hk2 Hc2 Hst2 Ho2. wp_step.
      apply (HQ false w2 new); [done| |by rewrite Hc2, Hc|congruence|eauto].
      destruct Hk as (?&?&?), Hk2 as (?&?&?). repeat split; congruence.
Qed.

(** [net_tx] on a datagram that fits: the frame goes to the end of the
    stream, and a transfer may start. *)
Lemma wp_net_tx d arg w (Q : unit -> world E -> Prop) :
  tx_inv (ncm_if w) -> user_fits (ncm_if w) (dg_len (frame d)) ->
  (forall w' new s1 r, tx_inv (ncm_if w') -> keeps_rx w w' ->
     calls w' = calls w ++ CNetTx arg (frame d) (dg_len (frame d)) :: new ->
     tx_stream (ncm_if w') = tx_stream (ncm_if w) ++ [frame d] ->
     tx_start_outcome s1 (ncm_if w') new r ->
     tx_usbd_ntb s1 = tx_usbd_ntb (ncm_if w) -> Q tt w') ->
  wp (net_tx d arg) w Q.
Proof.
  intros Hs (p&ds&Hu&(seq&b&Hd&He)&Hidx&Hlt&Hfit) HQ. unfold net_tx. wp_steps. rewrite Hu.
  wp_steps. cbn [ncm_if record_call].
  destruct (append_datagram_encodes seq ds (frame d) b) as (b'&Happ&He');
    [done|apply frame_bytes|lia|done|].
  eapply wp_update_ntb; [exact Hd|by rewrite <- Hidx; exact Happ|]. wp_steps.
  pose proof (tx_inv_append _ p seq ds (frame d) b b' Hs Hu Hd Hidx Hlt He He') as [Hs1 Hst].
  cbn -[wrap] in *. set (s1 := set_tx_user_ntb_datagram_index _ _) in *.
  assert (Hd1 : ntb_data s1 p = Ok b') by exact (ntb_data_set_same _ p b' b Hd).
  eapply wp_getsr; [cbn; rewrite Hd1; apply He'|].
  pose proof (enc_fits _ _ _ He').
  destruct (Z.ltb_spec NCM_NTB_MAX_SIZE (block_length (ds ++ [frame d]))); [lia|].
  wp_step. apply wp_tx_try_start; [done|]. intros r w' new Hs' Hk Hc Hst' Ho. wp_step.
  destruct (set_ntb_data_keeps (ncm_if w) p b') as (_&_&Eu&_&_&_&_&_&_&_&_&Ea&En).
  eapply (HQ w' new s1 r); try done.
  - destruct Hk as (K1&K2&K3). repeat split; cbn in *; try congruence.
    rewrite K1. assert (Hin : p ∈ tx_owned (ncm_if w)) by (unfold tx_owned; rewrite Hu; set_solver).
    by destruct (tx_owned_valid _ p Hs Hin) as [->| ->].
  - rewrite Hc. cbn. by rewrite <- app_assoc.
  - by rewrite Hst'.
Qed.
End net_specs.

(** ** Building an NTB *)

(** Fill an NTB as [tx_accept_user_ntb] and successive calls of [net_tx] do. *)
Fixpoint append_all (idx : Z) (ds : list (list Z)) (b : list Z) : result (list Z) :=
  match ds with
  | [] => Ok b
  | d :: ds =>
      let* b := append_datagram idx d (dg_len d) b in
      append_all (idx + 1) ds b
  end.

Definition build_ntb (seq : Z) (ds : list (list Z)) (b : list Z) : result (list Z) :=
  let* b := populate_ntb seq b in
  append_all 0 ds b.

Lemma append_all_encodes seq ds1 ds2 b :
  ntb_encodes seq ds1 b -> Forall bytes_ok ds2 ->
  Z.of_nat (length (ds1 ++ ds2)) <= NCM_MAX_DATAGRAMS_PER_NTB + 1 ->
  block_length (ds1 ++ ds2) <= NCM_NTB_MAX_SIZE ->
  exists b', append_all (Z.of_nat (length ds1)) ds2 b = Ok b' /\ ntb_encodes seq (ds1 ++ ds2) b'.
Proof.
  intros He Hb. revert ds1 b He.
  induction Hb as [|d ds2 Hd _ IH]; intros ds1 b He Hn Hf; cbn [append_all].
  { rewrite app_nil_r. eauto. }
  rewrite (cons_middle d ds1 ds2) in Hn, Hf |- *. rewrite (app_assoc ds1 [d] ds2) in Hn, Hf |- *.
  assert (Hf1 : block_length ds1 + padded (dg_len d) <= NCM_NTB_MAX_SIZE).
  { rewrite <- block_length_snoc. unfold block_length in *. rewrite payload_size_app in Hf.
    pose proof (payload_size_nonneg ds2). lia. }
  destruct (append_datagram_encodes seq ds1 d b He Hd) as (b1&->&He1); [|done|].
  { rewrite !length_app in Hn. cbn in Hn. lia. }
  cbn [rbind]. destruct (IH (ds1 ++ [d]) b1 He1 Hn Hf) as (b'&Hrun&?). exists b'. split; [|done].
  rewrite <- Hrun. f_equal. rewrite length_app. cbn. lia.
Qed.

(** C4. Round trip of the transfer block: starting from any NTB-sized buffer,
    the code that populates an NTB and appends frames to it writes, for every
    list of at most nine frames that fits the buffer, a block from which
    exactly these frames are read back, in order, each starting at a multiple
    of four and ending inside the buffer. *)
Theorem build_ntb_roundtrip seq ds b :
  Z.of_nat (length b) = NCM_NTB_MAX_SIZE -> bytes_ok b -> 0 <= seq < 65536 ->
  Forall bytes_ok ds -> Z.of_nat (length ds) <= NCM_MAX_DATAGRAMS_PER_NTB + 1 ->
  block_length ds <= NCM_NTB_MAX_SIZE ->
  exists b', build_ntb seq ds b = Ok b' /\ ntb_datagrams b' = ds /\
    rd16 b' nth_wSequence = Ok seq /\ rd16 b' nth_wBlockLength = Ok (block_length ds) /\
    forall i d, ds !! i = Some d ->
      dg_offset ds i mod 4 = 0 /\ dg_offset ds i + dg_len d <= NCM_NTB_MAX_SIZE /\
      bytes_at b' (dg_offset ds i) (dg_len d) = d.
Proof.
  intros Hl Hb Hs Hds Hn Hf. unfold build_ntb.
  destruct (populate_ntb_encodes seq b Hl Hb Hs) as (b1&->&He1). cbn [rbind].
  destruct (append_all_encodes seq [] ds b1 He1 Hds Hn Hf) as (b'&Hrun&He).
  exists b'. split; [exact Hrun|]. split; [by eapply ntb_datagrams_encodes|].
  split; [apply He|]. split; [apply He|]. intros i d Hi.
  pose proof (dg_offset_bound ds i d Hi) as [_ Hend]. split; [|split; [lia|by apply He]].
  unfold dg_offset. by rewrite Z.add_mod, payload_size_aligned by lia.
Qed.

Lemma build_ntb_roundtrip_witness :
  exists b', build_ntb 7 [[1; 2; 3]; []; [4; 5]] zero_ntb = Ok b' /\
    ntb_datagrams b' = [[1; 2; 3]; []; [4; 5]].
Proof.
  destruct (build_ntb_roundtrip 7 [[1; 2; 3]; []; [4; 5]] zero_ntb) as (b'&?&?&_).
  - reflexivity.
  - apply bytes_ok_zeroes.
  - lia.
  - repeat constructor; lia.
  - vm_compute. discriminate.
  - vm_compute. discriminate.
  - exists b'. split; assumption.
Defined.
