(* ===== verification/NcmBench.v ===== *)
(** * A concrete user of the driver

    An instance of the interfaces [NcmEnv] and [NcmProvider] on which the
    driver's functions evaluate: endpoints that are busy or not, accept
    transfers or not, and a network stack that answers [net_rx_cb] with a
    fixed value.  A datagram handle is the frame itself, cut to 2048 bytes. *)

From stdpp Require Import base numbers list decidable.
From Stdlib Require Import ZArith Lia Bool.
From S2P Require Import Prelude NcmTypes.
Open Scope Z_scope.

Record bench : Type := mk_bench {
  bench_busy : bool;
  bench_accepts : bool;
  bench_rx : Z
}.

Definition bench_frame (d : list Z) : list Z := (fun b => wrap8 b) <$> take 2048 d.

#[export] Instance bench_env : NcmEnv (list Z) bench := {|
  usb_transfer_ep ep b n e := Ok (bench_accepts e, e);
  usb_transfer_ep0 rq b n e := Ok (bench_accepts e, e);
  usb_control_status rq e := Ok (true, e);
  usb_ep_busy ep e := Ok (bench_busy e, e);
  net_tx_cb d arg e := Ok (bench_frame d, Z.of_nat (length (bench_frame d)), e);
  net_rx_cb window size e :=
    if (0 <=? size) && (size <=? Z.of_nat (length window)) then Ok (bench_rx e, e)
    else Fault OutOfBounds
|}.

#[export] Instance bench_provider : NcmProvider (list Z) bench bench_frame.
Proof.
  split; cbn; eauto.
  - intros d. apply Forall_fmap, Forall_true. intros b. apply wrap8_range.
  - intros d. unfold bench_frame. rewrite length_fmap, length_take. lia.
  - intros window size e [H1 H2]. apply Z.leb_le in H1, H2. rewrite H1, H2. eauto.
Qed.

(** A world of this user before [net_init]: the interface holds garbage. *)
Definition bench_world (busy accepts : bool) (rx : Z) : world bench :=
  mk_world (mk_ncm 7 [] (mk_ntb_list [] 5 6) (mk_ntb_list [] 5 6) None None 9
              [] (mk_ntb_list [] 5 6) (mk_ntb_list [] 5 6) None None 9 3
              TX_NOTIFY_STATE_CONNECTED)
    (mk_bench busy accepts rx) [].
