(* ===== verification/NcmSystem.v ===== *)
(** * The driver as a system

    Sequences of calls into the driver, starting with [net_init]: what is
    preserved along every sequence, which frames leave the device and in
    which order, and where the driver stops making progress. *)

From stdpp Require Import base numbers list decidable sets.
From Stdlib Require Import ZArith Lia Bool.
From S2P Require Import Prelude NcmTypes NtbList Ntb NcmTx NcmRx NcmNet.
Open Scope Z_scope.

(** ** Relations that every defined run respects *)

Definition respects {E A} (R : world E -> world E -> Prop) (m : NM E A) : Prop :=
  forall w a w', m w = Ok (a, w') -> R w w'.

Section respects.
Context {D E : Type} `{NcmEnv D E} (R : world E -> world E -> Prop) `{!PreOrder R}.

Lemma respects_ret {A} (a : A) : respects R (ret a).
Proof. intros w x w' Hm. unfold ret in Hm. by simplify_eq. Qed.

Lemma respects_bind {A A'} (m : NM E A) (k : A -> NM E A') :
  respects R m -> (forall a, respects R (k a)) -> respects R (bind m k).
Proof.
  intros Hm Hk w a w' (x&w1&H1&H2)%bind_Ok. etransitivity; [by eapply Hm|by eapply Hk].
Qed.

Lemma respects_gets {A} (g : ncm_interface_t -> A) : respects R (gets g).
Proof. intros w x w' Hm. unfold gets in Hm. by simplify_eq. Qed.

Lemma respects_getsr {A} (g : ncm_interface_t -> result A) : respects R (getsr g).
Proof. intros w x w'. unfold getsr. destruct (g (ncm_if w)); intros Hm; by simplify_eq. Qed.

Lemma respects_modify g : (forall w, R w (with_if (g (ncm_if w)) w)) -> respects R (modify g).
Proof. intros Hg w x w' Hm. unfold modify in Hm. simplify_eq. apply Hg. Qed.

Lemma respects_transfer_ep ep b n :
  (forall r e w, R w (record_call (CTransferEp ep b n r) e w)) ->
  respects R (call_transfer_ep ep b n).
Proof. intros HR w x w' H1. apply rbind_Ok in H1 as ([r e]&_&?). by simplify_eq. Qed.

Lemma respects_transfer_ep0 rq b n :
  (forall r e w, R w (record_call (CTransferEp0 rq b n r) e w)) ->
  respects R (call_transfer_ep0 rq b n).
Proof. intros HR w x w' H1. apply rbind_Ok in H1 as ([r e]&_&?). by simplify_eq. Qed.

Lemma respects_control_status rq :
  (forall r e w, R w (record_call (CControlStatus rq r) e w)) ->
  respects R (call_control_status rq).
Proof. intros HR w x w' H1. apply rbind_Ok in H1 as ([r e]&_&?). by simplify_eq. Qed.

Lemma respects_ep_busy ep :
  (forall r e w, R w (record_call (CEpBusy ep r) e w)) -> respects R (call_ep_busy ep).
Proof. intros HR w x w' H1. apply rbind_Ok in H1 as ([r e]&_&?). by simplify_eq. Qed.

Lemma respects_net_tx d arg :
  (forall b n e w, R w (record_call (CNetTx arg b n) e w)) -> respects R (call_net_tx d arg).
Proof. intros HR w x w' H1. apply rbind_Ok in H1 as ([[b s] e]&_&?). by simplify_eq. Qed.

Lemma respects_net_rx b n :
  (forall r e w, R w (record_call (CNetRx b n r) e w)) -> respects R (call_net_rx b n).
Proof. intros HR w x w' H1. apply rbind_Ok in H1 as ([r e]&_&?). by simplify_eq. Qed.
End respects.

Create HintDb ncm_steps.

(** Follow the structure of a program; [tac] proves the relation for one
    assignment or one recorded call. *)
Ltac respects_with tac :=
  repeat first
    [ solve [auto with ncm_steps]
    | apply respects_ret; exact _
    | apply respects_gets; exact _
    | apply respects_getsr; exact _
    | apply respects_bind; [exact _| |intros]
    | apply respects_modify; intros; tac
    | apply respects_transfer_ep; intros; tac
    | apply respects_transfer_ep0; intros; tac
    | apply respects_control_status; intros; tac
    | apply respects_ep_busy; intros; tac
    | apply respects_net_tx; intros; tac
    | apply respects_net_rx; intros; tac
    | match goal with
      | |- respects _ (match ?x with _ => _ end) => destruct x
      | |- respects _ (let '(_, _) := ?x in _) => destruct x
      | |- respects _ (if ?x then _ else _) => destruct x
      end ].

(** *** Transfers on the bulk endpoints *)

(** The NTB a call hands to the endpoint [ep], if it does. *)
Definition ntb_transfer_of (ep : Z) (c : ext_call) : option (list Z) :=
  match c with
  | CTransferEp ep' (Some b) _ _ => if ep' =? ep then Some b else None
  | _ => None
  end.

Definition ntb_transfers (ep : Z) (cs : list ext_call) : list (list Z) :=
  omap (ntb_transfer_of ep) cs.
Arguments ntb_transfers : simpl never.

(** [usbd] is the NTB that is with USB on endpoint [ep].  While there is one
    it stays there and nothing else is handed over; otherwise at most one
    NTB is handed over, which then stays. *)
Definition account {E} (usbd : ncm_interface_t -> option ntb_ptr) (ep : Z) (w w' : world E) : Prop :=
  match usbd (ncm_if w) with
  | Some p =>
      usbd (ncm_if w') = Some p /\ ntb_transfers ep (calls w') = ntb_transfers ep (calls w)
  | None =>
      (usbd (ncm_if w') = None /\ ntb_transfers ep (calls w') = ntb_transfers ep (calls w)) \/
      (is_Some (usbd (ncm_if w')) /\
       exists b, ntb_transfers ep (calls w') = ntb_transfers ep (calls w) ++ [b])
  end.

#[export] Instance account_preorder {E} usbd ep : PreOrder (@account E usbd ep).
Proof.
  split.
  - intros w. unfold account. destruct (usbd (ncm_if w)); auto.
  - intros w1 w2 w3. unfold account. destruct (usbd (ncm_if w1)) as [p|].
    + intros [-> <-] [-> <-]. done.
    + intros [[-> <-]|[[p ->] [b Hb]]]; [done|]. intros [-> ->]. eauto.
Qed.

Lemma ntb_transfers_snoc ep cs c :
  ntb_transfers ep (cs ++ [c]) = ntb_transfers ep cs ++ option_list (ntb_transfer_of ep c).
Proof.
  unfold ntb_transfers. by rewrite omap_app; destruct (ntb_transfer_of ep c) eqn:Hc; cbn; rewrite Hc.
Qed.

(** A step that keeps [usbd] and hands nothing over. *)
Lemma account_quiet {E} usbd ep (w w' : world E) :
  usbd (ncm_if w') = usbd (ncm_if w) ->
  ntb_transfers ep (calls w') = ntb_transfers ep (calls w) -> account usbd ep w w'.
Proof. unfold account. intros -> ->. destruct (usbd (ncm_if w)); auto. Qed.

Ltac no_transfer := cbn; rewrite ?ntb_transfers_snoc; cbn; by rewrite ?app_nil_r.
Ltac quiet := apply account_quiet; [reflexivity|no_transfer].

Abbreviation in_account := (account tx_usbd_ntb NCM_EP_DATA_IN).
Abbreviation out_account := (account rx_usbd_ntb NCM_EP_DATA_OUT).

(** Split a defined run into its steps. *)
Ltac run_inv :=
  repeat match goal with
  | H : bind _ _ _ = Ok _ |- _ =>
      let a := fresh "a" in let w := fresh "w" in let E := fresh "E" in
      apply bind_Ok in H as (a & w & E & H)
  | H : ret _ _ = Ok _ |- _ => injection H as <- <-
  | H : gets _ _ = Ok _ |- _ => injection H as <- <-
  | H : modify _ _ = Ok _ |- _ => injection H as <- <-
  | H : getsr ?f ?w = Ok _ |- _ =>
      unfold getsr in H; destruct (f (ncm_if w)) eqn:?; [injection H as <- <-|discriminate H]
  | H : call_ep_busy _ _ = Ok _ |- _ => apply rbind_Ok in H as ([? ?]&_&[= <- <-])
  | H : call_transfer_ep _ _ _ _ = Ok _ |- _ => apply rbind_Ok in H as ([? ?]&_&[= <- <-])
  | H : call_transfer_ep0 _ _ _ _ = Ok _ |- _ => apply rbind_Ok in H as ([? ?]&_&[= <- <-])
  | H : call_control_status _ _ = Ok _ |- _ => apply rbind_Ok in H as ([? ?]&_&[= <- <-])
  | H : call_net_rx _ _ _ = Ok _ |- _ => apply rbind_Ok in H as ([? ?]&_&[= <- <-])
  | H : (let '(_, _) := ?x in _) _ = Ok _ |- _ => destruct x
  end.

Section account.
Context {D E : Type} `{NcmEnv D E}.

Lemma transfer_ntb_in_sends p w r w' :
  transfer_ntb_in p w = Ok (r, w') ->
  tx_usbd_ntb (ncm_if w') = tx_usbd_ntb (ncm_if w) /\
  exists b, ntb_transfers NCM_EP_DATA_IN (calls w') = ntb_transfers NCM_EP_DATA_IN (calls w) ++ [b].
Proof.
  unfold transfer_ntb_in. intros Hm. run_inv. split; [done|]. cbn.
  rewrite ntb_transfers_snoc. cbn. eauto.
Qed.

Lemma tx_try_start_in : respects in_account (tx_try_start (E:=E)).
Proof.
  intros w r w' Hm. unfold tx_try_start in Hm. run_inv.
  destruct (tx_usbd_ntb (ncm_if w)) as [q|] eqn:Hu; run_inv; [reflexivity|].
  destruct (negb _); run_inv; [reflexivity|].
  destruct b; run_inv; [quiet|].
  unfold pop_from in *. run_inv.
  unfold account. rewrite Hu. destruct o as [p|].
  - right. apply transfer_ntb_in_sends in Hm as [-> [b Hb]]. cbn in *. split; [eauto|].
    rewrite ntb_transfers_snoc in Hb. cbn in Hb. rewrite app_nil_r in Hb. eauto.
  - run_inv. cbn in *. destruct (tx_user_ntb (ncm_if w)) as [p|]; run_inv.
    2: { left. split; [done|no_transfer]. }
    destruct (_ =? 0); run_inv.
    { left. split; [done|no_transfer]. }
    right. apply transfer_ntb_in_sends in Hm as [-> [b Hb]]. cbn in *. split; [eauto|].
    rewrite ntb_transfers_snoc in Hb. cbn in Hb. rewrite app_nil_r in Hb. eauto.
Qed.

Lemma push_to_out get set p :
  (forall l s, rx_usbd_ntb (set l s) = rx_usbd_ntb s) ->
  respects out_account (push_to (E:=E) get set p).
Proof.
  intros Hset. unfold push_to.
  respects_with ltac:(apply account_quiet; [apply Hset|no_transfer]).
Qed.

Lemma rx_try_start_out : respects out_account (rx_try_start (E:=E)).
Proof.
  intros w r w' Hm. unfold rx_try_start in Hm. run_inv.
  destruct (rx_usbd_ntb (ncm_if w)) as [q|] eqn:Hu; run_inv; [reflexivity|].
  destruct (negb _); run_inv; [reflexivity|].
  destruct b; run_inv; [quiet|].
  unfold pop_from in *. run_inv.
  destruct o as [p|]; run_inv.
  2: { unfold account. rewrite Hu. left. split; [done|no_transfer]. }
  (* the NTB is handed over, whatever the transfer returns *)
  match type of Hm with _ ?x = _ => set (w1 := x) in * end.
  assert (H1 : account rx_usbd_ntb NCM_EP_DATA_OUT w w1).
  { unfold account. rewrite Hu. right. subst w1. cbn. split; [eauto|]. eexists.
    rewrite !ntb_transfers_snoc. cbn. by rewrite app_nil_r. }
  etransitivity; [exact H1|]. destruct (negb _); run_inv; [|reflexivity].
  by eapply (push_to_out rx_free_ntb set_rx_free_ntb (Some p)).
Qed.
End account.

#[export] Hint Resolve tx_try_start_in rx_try_start_out : ncm_steps.

Section api.
Context {D E : Type} `{NcmEnv D E}.

(** Calls into the driver, and the USB core storing received bytes into
    the NTB it was given. *)
Inductive api : Type :=
| ApiCanTx (size : Z)
| ApiTx (datagram : D) (arg : Z)
| ApiRxRenew
| ApiUsbTransfer (ep_addr bytes : Z)
| ApiControl (request : usb_control_request_t)
| ApiReceived (data : list Z).

(** The USB core writes [data] at the start of the NTB behind [rx_usbd_ntb]. *)
Definition usb_receive (data : list Z) : NM E unit :=
  let! usbd := gets rx_usbd_ntb in
  match usbd with
  | None => ret tt
  | Some p => update_ntb p (fun b => wr b 0 data)
  end.

Definition run_api (a : api) : NM E unit :=
  match a with
  | ApiCanTx size => let! _ := net_can_tx size in ret tt
  | ApiTx d arg => net_tx d arg
  | ApiRxRenew => net_rx_renew
  | ApiUsbTransfer ep bytes => let! _ := net_usb_transfer ep bytes in ret tt
  | ApiControl rq => let! _ := net_usb_control_transfer rq in ret tt
  | ApiReceived data => usb_receive data
  end.

Fixpoint run_apis (ops : list api) : NM E unit :=
  match ops with
  | [] => ret tt
  | a :: ops => let! _ := run_api a in run_apis ops
  end.

Lemma respects_apis (R : world E -> world E -> Prop) `{!PreOrder R} ops :
  (forall a, respects R (run_api a)) -> respects R (run_apis ops).
Proof. intros Ha. induction ops; cbn; respects_with ltac:(done). Qed.

Lemma update_ntb_account usbd ep p f :
  (forall b s, usbd (set_ntb_data p b s) = usbd s) ->
  respects (account usbd ep) (update_ntb (E:=E) p f).
Proof.
  intros Hset. unfold update_ntb.
  respects_with ltac:(apply account_quiet; [apply Hset|no_transfer]).
Qed.

Lemma run_api_in a : respects in_account (run_api a).
Proof.
  assert (forall p f, respects in_account (update_ntb (E:=E) p f))
    by (intros; apply update_ntb_account; by destruct p).
  destruct a; cbn; unfold net_can_tx, tx_datagram_fits_user_ntb, tx_accept_user_ntb,
    tx_fetch_user_ntb, net_tx, net_usb_transfer, net_usb_control_transfer, usb_receive,
    net_rx_renew, rx_update_user_ntb, rx_fetch_user_ntb, rx_offer_datagram, rx_try_start,
    tx_notification, tx_insert_zlp, pop_from, push_to; respects_with ltac:(quiet).
Qed.

Lemma tx_try_start_out : respects out_account (tx_try_start (E:=E)).
Proof.
  unfold tx_try_start, pop_from, transfer_ntb_in. respects_with ltac:(quiet).
Qed.
#[local] Hint Resolve tx_try_start_out : ncm_steps.

Lemma run_api_out a : respects out_account (run_api a).
Proof.
  assert (forall p f, respects out_account (update_ntb (E:=E) p f))
    by (intros; apply update_ntb_account; by destruct p).
  destruct a; cbn; unfold net_can_tx, tx_datagram_fits_user_ntb, tx_accept_user_ntb,
    tx_fetch_user_ntb, net_tx, net_usb_transfer, net_usb_control_transfer, usb_receive,
    net_rx_renew, rx_update_user_ntb, rx_fetch_user_ntb, rx_offer_datagram,
    tx_notification, tx_insert_zlp, pop_from, push_to; cbn [rx_validate_datagram];
    respects_with ltac:(quiet).
Qed.
End api.
Arguments api D : clear implicits.

(** ** The state [net_init] leaves *)

Definition init_ncm_if : ncm_interface_t :=
  mk_ncm 0
    (replicate 2 zero_ntb) (mk_ntb_list [Some (RxNtb 0); Some (RxNtb 1)] 0 1) empty_ntb_list
    None None 0
    (replicate 2 zero_ntb) (mk_ntb_list [Some (TxNtb 0); Some (TxNtb 1)] 0 1) empty_ntb_list
    None None 0 0 TX_NOTIFY_STATE_WAITING.

Lemma net_init_runs {E} (w : world E) : net_init w = Ok (tt, with_if init_ncm_if w).
Proof. reflexivity. Qed.

Lemma zero_buffers_ok : buffers_ok (replicate 2 zero_ntb).
Proof.
  split; [done|]. apply Forall_replicate. split; [done|]. apply bytes_ok_zeroes.
Qed.

Lemma init_tx_inv : tx_inv init_ncm_if.
Proof.
  constructor; try done; try exact zero_buffers_ok; try exact (inv_first _ _); try exact inv_fresh.
  intros p Hp%elem_of_nil. done.
Qed.

Lemma init_rx_inv : rx_inv init_ncm_if.
Proof.
  constructor; try done; try exact zero_buffers_ok; try exact (inv_first _ _); try exact inv_fresh.
  cbn. intros p. rewrite !elem_of_cons, elem_of_nil. unfold rx_valid_ptr. tauto.
Qed.

(** ** The system invariant *)

(** The frames [net_tx_cb] has put into NTBs, in order. *)
Definition frame_of (c : ext_call) : option (list Z) :=
  match c with
  | CNetTx _ stored _ => Some stored
  | _ => None
  end.
Definition tx_frames (cs : list ext_call) : list (list Z) := omap frame_of cs.
Arguments tx_frames : simpl never.

Lemma tx_frames_app cs cs' : tx_frames (cs ++ cs') = tx_frames cs ++ tx_frames cs'.
Proof. apply omap_app. Qed.

Lemma tx_frames_snoc cs c : tx_frames (cs ++ [c]) = tx_frames cs ++ option_list (frame_of c).
Proof. rewrite tx_frames_app. by destruct c. Qed.

(** Both sides are well formed and the NTBs hold exactly the frames that the
    driver has taken, oldest first. *)
Definition sys_inv {E} (w : world E) : Prop :=
  tx_inv (ncm_if w) /\ rx_inv (ncm_if w) /\ tx_stream (ncm_if w) = tx_frames (calls w).

Definition keeps_inv {E} (w w' : world E) : Prop := sys_inv w -> sys_inv w'.

#[export] Instance keeps_inv_preorder {E} : PreOrder (@keeps_inv E).
Proof. split; unfold keeps_inv; [by intros ?|]. intros ? ? ? ? ?. tauto. Qed.

(** A step on the receive fields only. *)
Lemma keeps_inv_rx {E} (w w' : world E) :
  tx_view (ncm_if w') = tx_view (ncm_if w) -> tx_frames (calls w') = tx_frames (calls w) ->
  (rx_inv (ncm_if w) -> rx_inv (ncm_if w')) -> keeps_inv w w'.
Proof.
  intros Hv Hf Hrx (Ht&Hr&Hs). split; [by eapply tx_inv_view|]. split; [auto|].
  by rewrite Hf, <- Hs, (tx_stream_view _ _ Ht Hv).
Qed.

(** A step on neither side. *)
Lemma keeps_inv_view {E} (w w' : world E) :
  tx_view (ncm_if w') = tx_view (ncm_if w) -> rx_view (ncm_if w') = rx_view (ncm_if w) ->
  tx_frames (calls w') = tx_frames (calls w) -> keeps_inv w w'.
Proof. intros Ht Hr Hf. apply keeps_inv_rx; [done|done|]. by apply rx_inv_view. Qed.

Ltac no_frame := cbn; rewrite ?tx_frames_snoc; cbn; by rewrite ?app_nil_r.
Ltac untouched := apply keeps_inv_view; [reflexivity|reflexivity|no_frame].

(** ** Preservation of the invariant *)

Section preservation.
Context {D E : Type} `{NcmProvider D E frame}.
Implicit Types (w : world E).

(** A program that is total on the invariant and keeps it. *)
Lemma respects_wp {A} (m : NM E A) :
  (forall w, sys_inv w -> wp m w (fun _ w' => sys_inv w')) -> respects keeps_inv m.
Proof. intros Hm w a w' Ha Hs. specialize (Hm w Hs). unfold wp in Hm. by rewrite Ha in Hm. Qed.

Lemma tx_outcome_frames s s' new r : tx_start_outcome s s' new r -> tx_frames new = [].
Proof. destruct 1 as [new _ [->|[busy ->]]|]; done. Qed.

Lemma wp_sys_tx_try_start w : sys_inv w -> wp tx_try_start w (fun _ w' => sys_inv w').
Proof.
  intros (Ht&Hr&Hs). apply wp_tx_try_start; [done|]. intros r w' new Ht' (Hk&_) Hc Hst Ho.
  split; [done|]. split; [by eapply rx_inv_view|].
  by rewrite Hc, tx_frames_app, (tx_outcome_frames _ _ _ _ Ho), app_nil_r, Hst.
Qed.

Lemma tx_try_start_keeps : respects keeps_inv (tx_try_start (E:=E)).
Proof. apply respects_wp, wp_sys_tx_try_start. Qed.

(** Pushing a receive NTB to a receive list. *)
Lemma wp_sys_rx_push get set p w (Q : bool -> world E -> Prop) :
  (get = rx_free_ntb /\ set = set_rx_free_ntb) \/ (get = rx_wait_ntb /\ set = set_rx_wait_ntb) ->
  sys_inv w -> (forall q, p = Some q -> rx_valid_ptr q) ->
  (forall r l, sys_inv (with_if (set l (ncm_if w)) w) ->
     push_ntb (get (ncm_if w)) p = Ok (r, l) -> Q r (with_if (set l (ncm_if w)) w)) ->
  wp (push_to get set p) w Q.
Proof.
  intros Hgs (Ht&Hr&Hs) Hp HQ. apply wp_push_to; [destruct Hgs as [[-> _]|[-> _]]; apply Hr|].
  intros r l Hpush Hl Hq. apply HQ; [|done].
  assert (Hv : forall q, q ∈ ntb_queue l -> q ∈ ntb_queue (get (ncm_if w)) \/ rx_valid_ptr q).
  { intros q. rewrite Hq, elem_of_app. intros [|Hin]; [by left|]. right. apply Hp.
    destruct r, p; set_solver. }
  pose proof (rx_pointers _ Hr) as Hptr.
  destruct Hgs as [[-> ->]|[-> ->]]; (split; [by apply (tx_inv_view (ncm_if w))|]);
    (split; [|etransitivity; [by apply tx_stream_view|exact Hs]]);
    destruct Hr; constructor; cbn; auto; intros q; specialize (Hv q); specialize (Hptr q);
    rewrite !elem_of_app in *; tauto.
Qed.

Lemma wp_sys_rx_fetch w :
  sys_inv w -> wp rx_fetch_user_ntb w (fun _ w' => sys_inv w').
Proof.
  intros (Ht&Hr&Hs). apply wp_rx_fetch; [done|]. intros w' Hr' (Hk&_) Hc _ _ _.
  split; [by eapply tx_inv_view|]. split; [done|]. rewrite Hc, <- Hs. by apply tx_stream_view.
Qed.

(** Whatever the NTB holds, a datagram that is offered without a fault
    leaves the invariant in place. *)
Lemma rx_offer_keeps p w r w' :
  sys_inv w -> rx_user_ntb (ncm_if w) = Some p -> rx_offer_datagram p w = Ok (r, w') -> sys_inv w'.
Proof.
  intros Hs Hu Hm. unfold rx_offer_datagram in Hm. run_inv. 
  match type of Hm with (if _ then _ else _) ?x = _ => set (w1 := x) in * end.
  assert (Hs1 : sys_inv w1) by (revert Hs; untouched).
  destruct (_ =? 0); run_inv; [done|].
  destruct (negb _ && _); run_inv.
  - destruct Hs1 as (?&Hr&?). split; [by apply (tx_inv_view (ncm_if w1))|].
    split; [|done]. destruct Hr. constructor; cbn; auto with fx3.
  - assert (Hp : wp (push_to rx_free_ntb set_rx_free_ntb (Some p)) w1 (fun _ w' => sys_inv w')).
    { apply wp_sys_rx_push; [by left|done| |done]. intros q [= <-].
      apply (rx_pointers (ncm_if w)); [apply Hs|]. rewrite Hu. set_solver. }
    unfold wp in Hp. by rewrite Hm in Hp.
Qed.

Lemma rx_update_keeps : respects keeps_inv (rx_update_user_ntb (E:=E)).
Proof.
  intros w r w' Hm Hs. unfold rx_update_user_ntb in Hm. run_inv.
  pose proof (wp_sys_rx_fetch w Hs) as Hf. unfold wp in Hf. rewrite E0 in Hf.
  destruct (rx_user_ntb (ncm_if w0)) as [p|] eqn:Hu; [by eapply rx_offer_keeps|]. by run_inv.
Qed.

Lemma wp_sys_rx_try_start w : sys_inv w -> wp rx_try_start w (fun _ w' => sys_inv w').
Proof.
  intros Hs. unfold rx_try_start. wp_steps.
  destruct (rx_usbd_ntb (ncm_if w)) as [q|] eqn:Hu; wp_steps; [done|].
  destruct (negb _); wp_steps; [done|].
  destruct r as [|]; wp_steps; [revert Hs; untouched|].
  assert (Hs1 : sys_inv (record_call (CEpBusy NCM_EP_DATA_OUT false) e w))
    by (revert Hs; untouched). clear Hs.
  set (w1 := record_call _ _ w) in *. destruct Hs1 as (Ht&Hr&Hs).
  apply wp_pop_from; [apply Hr|]. intros o l _ Hl Hq _. wp_steps. cbn.
  set (s2 := set_rx_usbd_ntb _ _).
  pose proof (rx_pointers _ Hr) as Hptr. rewrite Hq in Hptr.
  assert (Hr2 : rx_inv s2).
  { subst s2. destruct Hr. constructor; cbn; auto. intros q; specialize (Hptr q).
    rewrite !elem_of_app in *. tauto. }
  assert (Hs2 : forall c e', frame_of c = None ->
            sys_inv (record_call c e' (with_if s2 w1))).
  { intros c e' Hc. split; [by apply (tx_inv_view (ncm_if w1))|]. split; [done|].
    cbn. rewrite tx_frames_snoc, Hc, app_nil_r. etransitivity; [by apply tx_stream_view|exact Hs]. }
  destruct o as [p|]; wp_steps.
  2: { split; [by apply (tx_inv_view (ncm_if w1))|]. split; [done|].
       etransitivity; [by apply tx_stream_view|exact Hs]. }
  destruct (rx_data_ok s2 p Hr2) as (b&Hb&_); [apply Hptr; set_solver|].
  eapply wp_getsr; [exact Hb|]. wp_steps.
  destruct (negb _); wp_steps; [|by apply (Hs2 (CTransferEp _ _ _ _))].
  apply wp_sys_rx_push; [by left|by apply (Hs2 (CTransferEp _ _ _ _))| |intros; by wp_steps].
  intros q [= <-]. apply Hptr. set_solver.
Qed.

Lemma rx_try_start_keeps : respects keeps_inv (rx_try_start (E:=E)).
Proof. apply respects_wp, wp_sys_rx_try_start. Qed.

Lemma tx_notification_keeps f : respects keeps_inv (tx_notification (E:=E) f).
Proof. unfold tx_notification. respects_with ltac:(untouched). Qed.

Lemma tx_insert_zlp_keeps n : respects keeps_inv (tx_insert_zlp (E:=E) n).
Proof. unfold tx_insert_zlp. respects_with ltac:(untouched). Qed.
#[local] Hint Resolve tx_try_start_keeps rx_try_start_keeps rx_update_keeps
  tx_notification_keeps tx_insert_zlp_keeps : ncm_steps.

Lemma net_rx_renew_keeps : respects keeps_inv (net_rx_renew (E:=E)).
Proof. unfold net_rx_renew. respects_with ltac:(untouched). Qed.
#[local] Hint Resolve net_rx_renew_keeps : ncm_steps.

Lemma net_usb_control_keeps rq : respects keeps_inv (net_usb_control_transfer (E:=E) rq).
Proof. unfold net_usb_control_transfer. respects_with ltac:(untouched). Qed.

(** Pushing [rx_usbd_ntb], which the invariant covers. *)
Lemma push_usbd_keeps get set :
  (get = rx_free_ntb /\ set = set_rx_free_ntb) \/ (get = rx_wait_ntb /\ set = set_rx_wait_ntb) ->
  respects keeps_inv (let! usbd := gets rx_usbd_ntb in push_to (E:=E) get set usbd).
Proof.
  intros Hgs. apply respects_wp. intros w Hs. wp_steps.
  apply wp_sys_rx_push; [done|done| |done]. intros q Hq.
  apply (rx_pointers (ncm_if w)); [apply Hs|]. rewrite Hq. set_solver.
Qed.

Lemma net_usb_transfer_keeps ep n : respects keeps_inv (net_usb_transfer (E:=E) ep n).
Proof.
  intros w r w' Hm Hs. unfold net_usb_transfer in Hm. run_inv. revert Hs. change (keeps_inv w w0).
  destruct (ep =? NCM_EP_DATA_OUT).
  { cbn [rx_validate_datagram] in *. run_inv. etransitivity; [|by eapply net_rx_renew_keeps].
    by eapply (push_usbd_keeps rx_wait_ntb set_rx_wait_ntb (or_intror (conj eq_refl eq_refl))). }
  destruct (ep =? NCM_EP_DATA_IN).
  { run_inv. etransitivity;
      [by eapply (push_usbd_keeps rx_free_ntb set_rx_free_ntb (or_introl (conj eq_refl eq_refl)))|].
    etransitivity; [by eapply tx_insert_zlp_keeps|].
    destruct a2; run_inv; [reflexivity|]. by eapply tx_try_start_keeps. }
  destruct (ep =? NCM_EP_NOTIFY); run_inv; [by eapply tx_notification_keeps|reflexivity].
Qed.

Lemma usb_receive_keeps data :
  bytes_ok data -> respects keeps_inv (usb_receive (E:=E) data).
Proof.
  intros Hb w r w' Hm (Ht&Hr&Hs). unfold usb_receive in Hm. run_inv.
  destruct (rx_usbd_ntb (ncm_if w)) as [p|] eqn:Hu; run_inv; [|done].
  unfold update_ntb in Hm. run_inv. inv_bind.
  assert (Hp : rx_valid_ptr p) by (apply (rx_pointers _ Hr); rewrite Hu; set_solver).
  destruct (rx_data_ok _ p Hr Hp) as (b0&Hb0&Hl&Hok). rewrite E0 in Hb0. injection Hb0 as <-.
  assert (Hbuf : buffers_ok (rx_ntb (set_ntb_data p a0 (ncm_if w)))).
  { pose proof (wr_length _ _ _ _ Heqr). destruct Hp as [->| ->];
      (apply buffers_insert; [apply Hr|lia|by eapply wr_bytes_ok]). }
  destruct Hp as [->| ->]; (split; [by apply (tx_inv_view (ncm_if w))|]);
    (split; [|etransitivity; [by apply tx_stream_view|exact Hs]]);
    destruct Hr; by constructor.
Qed.
End preservation.
