(* ===== verification/NcmRun.v ===== *)
(** * Runs of the driver

    The driver together with the application that sends frames
    ([link_output_app] of [src/src/main.c]) and the USB host: event sequences
    from [net_init] on, what holds along them, and which of them are free of
    faults. *)

From stdpp Require Import base numbers list decidable sets relations.
From Stdlib Require Import ZArith Lia Bool.
From S2P Require Import Prelude NcmTypes NtbList Ntb NcmTx NcmRx NcmNet NcmSystem NcmBench.
Open Scope Z_scope.

(** ** The application's send loop *)

Inductive err_t : Type :=
| ERR_OK
| ERR_USE.

Section app.
Context {D E : Type} `{NcmEnv D E} (tot_len : D -> Z).

(** [link_output_app]: [active n] is what the [n]-th read of
    [glIsApplnActive] gives.  [None] is a loop that has not returned after
    [fuel] rounds. *)
Fixpoint link_output_app (fuel : nat) (active : nat -> bool) (p : D) : NM E (option err_t) :=
  match fuel with
  | O => ret None
  | S fuel =>
      if negb (active 0%nat) then ret (Some ERR_USE)
      else
        let! ok := net_can_tx (tot_len p) in
        if ok then
          let! _ := net_tx p 0 in
          ret (Some ERR_OK)
        else link_output_app fuel (fun n => active (S n)) p
  end.

(** What happens to the driver: a round of the send loop, the application
    asking for the next datagram, the host's data arriving in the NTB that
    was given to USB, an IN or a notification transfer completing, and a
    control request. *)
Inductive event : Type :=
| EvSend (p : D)
| EvRenew
| EvReceived (data : list Z)
| EvInDone (bytes : Z)
| EvNotified (bytes : Z)
| EvControl (request : usb_control_request_t).

Definition run_event (ev : event) : NM E unit :=
  match ev with
  | EvSend p => let! _ := link_output_app 1 (fun _ => true) p in ret tt
  | EvRenew => net_rx_renew
  | EvReceived data =>
      let! _ := usb_receive data in
      let! _ := net_usb_transfer NCM_EP_DATA_OUT (Z.of_nat (length data)) in ret tt
  | EvInDone bytes => let! _ := net_usb_transfer NCM_EP_DATA_IN bytes in ret tt
  | EvNotified bytes => let! _ := net_usb_transfer NCM_EP_NOTIFY bytes in ret tt
  | EvControl rq => let! _ := net_usb_control_transfer rq in ret tt
  end.
End app.
Arguments event D : clear implicits.

(** The largest frame an empty NTB takes. *)
Definition max_frame : Z := NCM_NTB_MAX_SIZE - def_header_size.

(** ** What goes out on the wire *)

(** A transfer to the IN endpoint is a well-formed NTB of at most
    [NCM_MAX_DATAGRAMS_PER_NTB] datagrams, sent up to its block length, whose
    datagrams are the oldest of [frames]. *)
Definition wire_call (frames : list (list Z)) (c : ext_call) : Prop :=
  match c with
  | CTransferEp ep (Some b) n _ =>
      ep = NCM_EP_DATA_IN ->
      exists seq ds, ntb_encodes seq ds b /\ n = block_length ds /\
        Z.of_nat (length ds) <= NCM_MAX_DATAGRAMS_PER_NTB /\ ds `prefix_of` frames
  | _ => True
  end.

(** A call that hands no NTB to the IN endpoint. *)
Definition quiet_call (c : ext_call) : Prop := ntb_transfer_of NCM_EP_DATA_IN c = None.

Lemma quiet_wire_call frames c : quiet_call c -> wire_call frames c.
Proof.
  destruct c as [ep [b|] n r| | | | |]; try done. unfold quiet_call. cbn.
  destruct (Z.eqb_spec ep NCM_EP_DATA_IN); done.
Qed.

Lemma wire_call_mono frames frames' c :
  frames `prefix_of` frames' -> wire_call frames c -> wire_call frames' c.
Proof.
  destruct c as [ep [b|] n r| | | | |]; try done. cbn. intros Hp Hc Hep.
  destruct (Hc Hep) as (seq&ds&?&?&?&?). exists seq, ds. do 3 (split; [done|]). by transitivity frames.
Qed.

Definition wire_ok {E} (w : world E) : Prop := Forall (wire_call (tx_frames (calls w))) (calls w).

Lemma wire_ok_extend {E} (w w' : world E) new :
  calls w' = calls w ++ new -> wire_ok w -> Forall (wire_call (tx_frames (calls w'))) new -> wire_ok w'.
Proof.
  unfold wire_ok. intros Hc Hw Hn. rewrite Hc at 2. apply Forall_app. split; [|done].
  eapply Forall_impl; [exact Hw|]. intros c. apply wire_call_mono.
  rewrite Hc, tx_frames_app. by apply prefix_app_r.
Qed.

(** Only calls that are quiet are added. *)
Definition quietly {E} (w w' : world E) : Prop :=
  exists new, calls w' = calls w ++ new /\ Forall quiet_call new.

#[export] Instance quietly_preorder {E} : PreOrder (@quietly E).
Proof.
  split.
  - intros w. exists []. by rewrite app_nil_r.
  - intros w1 w2 w3 (n1&H1&Q1) (n2&H2&Q2). exists (n1 ++ n2).
    rewrite H2, H1, app_assoc. split; [done|]. by apply Forall_app.
Qed.

Lemma quietly_wire {E} (w w' : world E) : quietly w w' -> wire_ok w -> wire_ok w'.
Proof.
  intros (new&Hc&Hq) Hw. eapply wire_ok_extend; [done|done|].
  eapply Forall_impl; [exact Hq|]. intros c. apply quiet_wire_call.
Qed.

Ltac quietly :=
  first [exists []; rewrite app_nil_r; by split
        |eexists; split; [reflexivity|]; by repeat constructor].

Section runs.
Context {D E : Type} `{NcmProvider D E frame}.
Implicit Types (w : world E).

Abbreviation frame_len := (fun p => dg_len (frame p)).

(** The transfer [tx_try_start] makes, seen from the state it leaves. *)
Lemma tx_outcome_wire s w' new r :
  sys_inv w' -> tx_start_outcome s (ncm_if w') new r ->
  Forall (wire_call (tx_frames (calls w'))) new.
Proof.
  intros (Ht&_&Hs) [new' _ [->|[busy ->]]|p seq ds b r' _ _ _ Hu Hd He Hle]; [by repeat constructor..|].
  constructor; [done|]. constructor; [|done]. intros _. exists seq, ds. do 3 (split; [done|]).
  rewrite <- Hs. unfold tx_stream, tx_order. rewrite Hu. cbn.
  rewrite (carries_datagrams_at _ p ds) by (by exists seq, b). by apply prefix_app_r.
Qed.

(** *** Sending *)

(** One round of the send loop: the frame is taken and is the last of the
    stream, or it is not and the stream is as before. *)
Lemma wp_send_round fuel active p w (Q : option err_t -> world E -> Prop) :
  sys_inv w -> active 0%nat = true -> padded (frame_len p) <= max_frame ->
  (forall w' new, sys_inv w' -> keeps_rx w w' -> calls w' = calls w ++ new ->
     tx_frames new = [frame p] -> Forall (wire_call (tx_frames (calls w'))) new ->
     tx_stream (ncm_if w') = tx_stream (ncm_if w) ++ [frame p] -> Q (Some ERR_OK) w') ->
  (forall w' new, sys_inv w' -> keeps_rx w w' -> calls w' = calls w ++ new ->
     tx_frames new = [] -> Forall (wire_call (tx_frames (calls w'))) new ->
     tx_stream (ncm_if w') = tx_stream (ncm_if w) ->
     wp (link_output_app frame_len fuel (fun n => active (S n)) p) w' Q) ->
  wp (link_output_app frame_len (S fuel) active p) w Q.
Proof.
  intros (Ht&Hr&Hst) Ha Hp HQ1 HQ2. cbn [link_output_app]. rewrite Ha. cbn [negb]. wp_step.
  apply wp_net_can_tx; [done|]. intros [] w1 new Ht1 Hk1 Hc1 Hst1 Ho.
  - destruct Ho as (->&_&Hfit). rewrite app_nil_r in Hc1.
    assert (Hf : user_fits (ncm_if w1) (frame_len p))
      by (destruct Hfit; [done|by apply user_empty_fits]).
    wp_step. apply wp_net_tx; [done|done|]. intros w2 new s1 r Ht2 Hk2 Hc2 Hst2 Ho _. wp_step.
    assert (Hnew : tx_frames (CNetTx 0 (frame p) (frame_len p) :: new) = [frame p])
      by exact (f_equal (cons (frame p)) (tx_outcome_frames _ _ _ _ Ho)).
    assert (Hk : keeps_rx w w2).
    { destruct Hk1 as (?&?&?), Hk2 as (?&?&?). repeat split; congruence. }
    assert (Hs2 : sys_inv w2).
    { split; [done|]. split; [eapply rx_inv_view; [|done]; apply Hk|].
      by rewrite Hc2, Hc1, tx_frames_app, Hnew, Hst2, Hst1, Hst. }
    eapply HQ1; [done|done|by rewrite Hc2, Hc1|done| |by rewrite Hst2, Hst1].
    constructor; [done|]. by eapply tx_outcome_wire.
  - destruct Ho as (s1&b&Ho&_). pose proof (tx_outcome_frames _ _ _ _ Ho) as Hnew.
    assert (Hs1 : sys_inv w1).
    { split; [done|]. split; [eapply rx_inv_view; [|done]; apply Hk1|].
      by rewrite Hc1, tx_frames_app, Hnew, Hst1, app_nil_r. }
    eapply HQ2; try done. by eapply tx_outcome_wire.
Qed.

Lemma send_keeps p :
  padded (frame_len p) <= max_frame ->
  respects keeps_inv (link_output_app frame_len 1 (fun _ => true) p).
Proof.
  intros Hp. apply respects_wp. intros w Hs. by apply wp_send_round.
Qed.

(** *** Steps and reachable states *)

(** What is asked of the events: frames that an empty NTB takes, and data
    that is bytes.  Nothing is asked of what the bytes say. *)
Definition event_ok (ev : event D) : Prop :=
  match ev with
  | EvSend p => padded (frame_len p) <= max_frame
  | EvReceived data => bytes_ok data
  | _ => True
  end.

Inductive driver_step : world E -> world E -> Prop :=
| DriverStep ev w w' :
    event_ok ev -> run_event frame_len ev w = Ok (tt, w') -> driver_step w w'.

Lemma run_event_keeps ev : event_ok ev -> respects keeps_inv (run_event frame_len ev).
Proof.
  intros Hev.
  assert (Hthen : forall A (m : NM E A), respects keeps_inv m ->
            respects keeps_inv (let! _ := m in ret tt)).
  { intros A m Hm. apply respects_bind; [exact _|done|]. intros. apply respects_ret, _. }
  destruct ev as [p| |data|bytes|bytes|rq]; cbn [run_event].
  - by apply Hthen, send_keeps.
  - apply net_rx_renew_keeps.
  - apply respects_bind; [exact _|by apply usb_receive_keeps|]. intros.
    apply Hthen, net_usb_transfer_keeps.
  - apply Hthen, net_usb_transfer_keeps.
  - apply Hthen, net_usb_transfer_keeps.
  - apply Hthen, net_usb_control_keeps.
Qed.

Lemma driver_steps_keep w w' : rtc driver_step w w' -> sys_inv w -> sys_inv w'.
Proof.
  induction 1 as [|w1 w2 w3 [ev w1' w2' Hok Hrun] _ IH]; [done|].
  intros Hs. apply IH. by apply (run_event_keeps ev Hok _ _ _ Hrun).
Qed.

(** *** The wire along a run *)

(** A part of an event: it keeps the invariant, and what it sends is right. *)
Definition wire_part {A} (m : NM E A) : Prop :=
  forall w a w', sys_inv w -> wire_ok w -> m w = Ok (a, w') -> sys_inv w' /\ wire_ok w'.

Lemma wire_part_quiet {A} (m : NM E A) :
  respects keeps_inv m -> respects quietly m -> wire_part m.
Proof.
  intros Hk Hq w a w' Hs Hw Hm. split; [by eapply Hk|]. by eapply quietly_wire; [eapply Hq|].
Qed.

Lemma wire_part_bind {A B} (m : NM E A) (k : A -> NM E B) :
  wire_part m -> (forall a, wire_part (k a)) -> wire_part (bind m k).
Proof.
  intros Hm Hk w b w' Hs Hw (a&w1&H1&H2)%bind_Ok.
  destruct (Hm _ _ _ Hs Hw H1). by eapply Hk.
Qed.

Lemma wire_part_ret {A} (a : A) : wire_part (ret a).
Proof. intros w x w' Hs Hw Hm. unfold ret in Hm. by simplify_eq. Qed.

Lemma tx_try_start_wire : wire_part (tx_try_start (E:=E)).
Proof.
  intros w a w' Hs Hw Hm. pose proof (tx_try_start_keeps _ _ _ Hm Hs) as Hs'. split; [done|].
  assert (Hp : wp tx_try_start w (fun r w1 => exists new s, calls w1 = calls w ++ new /\
                 tx_start_outcome s (ncm_if w1) new r)).
  { apply wp_tx_try_start; [apply Hs|]. eauto. }
  unfold wp in Hp. rewrite Hm in Hp. destruct Hp as (new&s&Hc&Ho).
  eapply wire_ok_extend; [exact Hc|done|]. by eapply tx_outcome_wire.
Qed.

Lemma send_wire p :
  padded (frame_len p) <= max_frame -> wire_part (link_output_app frame_len 1 (fun _ => true) p).
Proof.
  intros Hp w a w' Hs Hw Hm.
  assert (H1 : wp (link_output_app frame_len 1 (fun _ => true) p) w
                 (fun _ w' => sys_inv w' /\ wire_ok w')).
  { apply wp_send_round; [done|done|done| |]; intros; [|apply wp_ret];
      (split; [done|]); by eapply wire_ok_extend. }
  unfold wp in H1. by rewrite Hm in H1.
Qed.

Lemma update_ntb_quietly p f : respects quietly (update_ntb (E:=E) p f).
Proof. unfold update_ntb. respects_with ltac:(quietly). Qed.

Lemma rx_update_quietly : respects quietly (rx_update_user_ntb (E:=E)).
Proof.
  unfold rx_update_user_ntb, rx_fetch_user_ntb, rx_offer_datagram, pop_from, push_to.
  respects_with ltac:(quietly).
Qed.

Lemma rx_try_start_quietly : respects quietly (rx_try_start (E:=E)).
Proof. unfold rx_try_start, pop_from, push_to. respects_with ltac:(quietly). Qed.
#[local] Hint Resolve update_ntb_quietly rx_update_quietly rx_try_start_quietly : ncm_steps.

Lemma push_to_quietly get set p : respects quietly (push_to (E:=E) get set p).
Proof. unfold push_to. respects_with ltac:(quietly). Qed.

Lemma net_rx_renew_wire : wire_part (net_rx_renew (E:=E)).
Proof.
  apply wire_part_quiet; [apply net_rx_renew_keeps|].
  unfold net_rx_renew. respects_with ltac:(quietly).
Qed.

Lemma net_usb_transfer_wire ep n : wire_part (net_usb_transfer (E:=E) ep n).
Proof.
  intros w a w' Hs Hw Hm. split; [by eapply net_usb_transfer_keeps|].
  unfold net_usb_transfer in Hm. run_inv. revert Hw.
  destruct (ep =? NCM_EP_DATA_OUT).
  { apply quietly_wire. cbn [rx_validate_datagram] in *. run_inv.
    etransitivity; [by eapply push_to_quietly|].
    assert (Hq : respects quietly (net_rx_renew (E:=E)))
      by (unfold net_rx_renew; respects_with ltac:(quietly)).
    by eapply Hq. }
  destruct (ep =? NCM_EP_DATA_IN).
  { run_inv. intros Hw.
    assert (Hz : respects quietly (tx_insert_zlp (E:=E) n))
      by (unfold tx_insert_zlp; respects_with ltac:(quietly)).
    assert (Hw2 : wire_ok w3).
    { revert Hw. apply quietly_wire. etransitivity; [by eapply push_to_quietly|by eapply Hz]. }
    assert (Hs2 : sys_inv w3).
    { eapply tx_insert_zlp_keeps; [exact E3|]. revert Hs.
      by eapply (push_usbd_keeps rx_free_ntb set_rx_free_ntb (or_introl (conj eq_refl eq_refl))). }
    destruct a2; run_inv; [done|]. by eapply tx_try_start_wire. }
  apply quietly_wire. destruct (ep =? NCM_EP_NOTIFY); run_inv; [|reflexivity].
  assert (Hq : respects quietly (tx_notification (E:=E) true))
    by (unfold tx_notification; respects_with ltac:(quietly)).
  by eapply Hq.
Qed.

Lemma net_usb_control_wire rq : wire_part (net_usb_control_transfer (E:=E) rq).
Proof.
  apply wire_part_quiet; [apply net_usb_control_keeps|].
  unfold net_usb_control_transfer, tx_notification. respects_with ltac:(quietly).
Qed.

Lemma run_event_wire ev : event_ok ev -> wire_part (run_event frame_len ev).
Proof.
  intros Hev.
  assert (Hthen : forall A (m : NM E A), wire_part m -> wire_part (let! _ := m in ret tt))
    by (intros; apply wire_part_bind; [done|intros; apply wire_part_ret]).
  destruct ev as [p| |data|bytes|bytes|rq]; cbn [run_event];
    try apply Hthen; auto using net_rx_renew_wire, net_usb_transfer_wire, net_usb_control_wire.
  - by apply send_wire.
  - apply wire_part_bind; [|intros; apply Hthen, net_usb_transfer_wire].
    apply wire_part_quiet; [by apply usb_receive_keeps|].
    unfold usb_receive. respects_with ltac:(quietly).
Qed.

Lemma driver_steps_wire w w' :
  rtc driver_step w w' -> sys_inv w -> wire_ok w -> sys_inv w' /\ wire_ok w'.
Proof.
  induction 1 as [|w1 w2 w3 [ev w1' w2' Hok Hrun] _ IH]; [done|].
  intros Hs Hw. destruct (run_event_wire ev Hok _ _ _ Hs Hw Hrun). by apply IH.
Qed.
End runs.

(** ** Capacity *)

Section capacity.
Context {D E : Type} `{NcmProvider D E frame}.
Implicit Types (w : world E).

Lemma tx_order_length s : tx_inv s -> (length (tx_order s) <= 2)%nat.
Proof.
  intros Hs. pose proof (Permutation_length (tx_partition s Hs)) as Hl.
  unfold tx_owned, tx_order in *. rewrite !length_app in *. cbn in Hl. lia.
Qed.

Lemma tx_order_datagrams s p :
  tx_inv s -> p ∈ tx_order s -> (length (datagrams_at s p) <= 8)%nat.
Proof.
  intros Hs Hp.
  assert (Hc : exists ds, ntb_carries s p ds /\ Z.of_nat (length ds) <= NCM_MAX_DATAGRAMS_PER_NTB).
  { unfold tx_order in Hp. rewrite app_assoc, elem_of_app in Hp. destruct Hp as [Hp|Hp].
    - apply (tx_queued_carries s Hs). rewrite elem_of_app in *. tauto.
    - destruct (tx_user_ntb s) as [q|] eqn:Hu; [|set_solver].
      apply list_elem_of_singleton in Hp as ->.
      destruct (tx_user_carries s Hs q Hu) as (ds&?&_&?). eauto. }
  destruct Hc as (ds&Hc&Hle). rewrite (carries_datagrams_at s p ds Hc).
  unfold NCM_MAX_DATAGRAMS_PER_NTB in Hle. lia.
Qed.

(** Two NTBs of eight datagrams are all there is. *)
Lemma tx_stream_length s : tx_inv s -> (length (tx_stream s) <= 16)%nat.
Proof.
  intros Hs. unfold tx_stream. pose proof (tx_order_length s Hs) as Hl.
  pose proof (fun p => tx_order_datagrams s p Hs) as Hd.
  destruct (tx_order s) as [|p [|q [|]]]; cbn in *; rewrite ?app_nil_r, ?length_app; try lia.
  - specialize (Hd p ltac:(set_solver)). lia.
  - pose proof (Hd p ltac:(set_solver)). specialize (Hd q ltac:(set_solver)). lia.
Qed.

(** *** A blocked send loop *)

(** USB holds an NTB, none is free, and the frame does not fit the user's. *)
Definition tx_blocked (s : ncm_interface_t) (size : Z) : Prop :=
  is_Some (tx_usbd_ntb s) /\ ntb_queue (tx_free_ntb s) = [] /\ ~ user_fits s size.

Lemma user_fits_view s s' size :
  tx_inv s -> tx_view s' = tx_view s -> user_fits s' size -> user_fits s size.
Proof.
  intros Hs Hv (p&ds&Hu&(seq&b&Hd&He)&Hi&Hlt&Hf). pose proof Hv as [= E1 E2 E3 E4 E5 E6 E7].
  exists p, ds. rewrite <- E5, <- E6. split; [done|]. split; [|done].
  exists seq, b. split; [|done]. rewrite <- Hd.
  destruct (tx_owned_valid s p Hs) as [->| ->];
    [unfold tx_owned; rewrite <- E5, Hu; set_solver|by apply ntb_data_tx_view..].
Qed.

Lemma wp_blocked_can_tx size w (Q : bool -> world E -> Prop) :
  tx_inv (ncm_if w) -> tx_blocked (ncm_if w) size ->
  (forall w', tx_inv (ncm_if w') -> tx_blocked (ncm_if w') size ->
     calls w' = calls w -> Q false w') ->
  wp (net_can_tx size) w Q.
Proof.
  intros Hs ((q&Hu)&Hf&Hn) HQ. unfold net_can_tx. wp_step.
  apply wp_tx_datagram_fits; [done|]. intros [] Hr; [by destruct Hn; apply Hr|]. wp_step.
  apply wp_mono with (Q := fun r w' => r = false /\ tx_inv (ncm_if w') /\
    tx_blocked (ncm_if w') size /\ calls w' = calls w).
  2: { intros r w' (->&Hs'&Hb'&Hc'). unfold tx_try_start. wp_steps.
       pose proof Hb' as ((q'&->)&_). wp_steps. by apply HQ. }
  unfold tx_accept_user_ntb. wp_steps.
  assert (Hempty : forall w1, tx_inv (set_tx_user_ntb None (ncm_if w1)) ->
    tx_usbd_ntb (ncm_if w1) = Some q -> ntb_queue (tx_free_ntb (ncm_if w1)) = [] ->
    calls w1 = calls w ->
    wp tx_fetch_user_ntb w1 (fun r w' => r = false /\ tx_inv (ncm_if w') /\
      tx_blocked (ncm_if w') size /\ calls w' = calls w)).
  { intros w1 Hs1 Hu1 Hf1 Hc1. unfold tx_fetch_user_ntb. wp_step.
    apply wp_pop_from; [apply (tx_free_inv _ Hs1)|]. intros o l Hp Hl Hq Hnone.
    rewrite Hf1 in Hq. destruct o; [done|]. wp_steps. rewrite Hnone by done.
    split; [done|]. split; [by apply (tx_inv_view _ _ eq_refl)|]. split; [|done].
    split; [by exists q|]. split; [done|]. intros (?&?&[=]&_). }
  destruct (tx_user_ntb (ncm_if w)) as [p|] eqn:Hus.
  - apply wp_push_to; [apply (tx_wait_inv _ Hs)|]. intros [] l Hp Hl Hq; cbn [negb].
    + apply Hempty; try done. by apply (tx_inv_stash (ncm_if w) p l).
    + apply push_ntb_keeps in Hp as ->. wp_steps.
      assert (Hv : tx_view (set_tx_wait_ntb (tx_wait_ntb (ncm_if w)) (ncm_if w)) =
                   tx_view (ncm_if w)) by done.
      split; [done|]. split; [by apply (tx_inv_view (ncm_if w))|]. split; [|done].
      split; [by exists q|]. split; [done|]. contradict Hn. by eapply user_fits_view.
  - wp_steps. apply Hempty; try done. apply (tx_inv_view (ncm_if w)); [|done].
    unfold tx_view. cbn. by rewrite Hus.
Qed.

Lemma blocked_never_returns fuel p w :
  tx_inv (ncm_if w) -> tx_blocked (ncm_if w) (dg_len (frame p)) ->
  wp (link_output_app (fun p => dg_len (frame p)) fuel (fun _ => true) p) w
    (fun r w' => r = None /\ calls w' = calls w).
Proof.
  revert w. induction fuel as [|fuel IH]; intros w Hs Hb; [done|].
  cbn [link_output_app negb]. wp_step. apply wp_blocked_can_tx; [done|done|].
  intros w' Hs' Hb' Hc'. eapply wp_mono; [by apply IH|]. cbn. intros r w'' [-> ->]. by rewrite Hc'.
Qed.
End capacity.

(** ** Concrete runs *)

Section event_lists.
Context {D E : Type} `{NcmEnv D E} (tot_len : D -> Z).

Fixpoint run_events (evs : list (event D)) : NM E unit :=
  match evs with
  | [] => ret tt
  | ev :: evs => let! _ := run_event tot_len ev in run_events evs
  end.
End event_lists.

Lemma run_events_steps {D E} `{NcmProvider D E frame} evs (w w' : world E) :
  Forall (event_ok (frame := frame)) evs ->
  run_events (fun p => dg_len (frame p)) evs w = Ok (tt, w') ->
  rtc (driver_step (frame := frame)) w w'.
Proof.
  intros Hok. revert w. induction Hok as [|ev evs Hev _ IH]; intros w Hrun; cbn in Hrun.
  - injection Hrun as <-. apply rtc_refl.
  - apply bind_Ok in Hrun as ([]&w1&H1&H2). eapply rtc_l; [by econstructor|by apply IH].
Qed.

Definition set_interface (v : Z) : usb_control_request_t :=
  mk_request 1 USB_TYPE_STANDARD 0 USB_REQ_SET_INTERFACE v 1 0.

Definition bench_init : world bench := with_if init_ncm_if (bench_world false true 1).

(** The world after [evs], and [bench_init] if they fault. *)
Definition bench_run (evs : list (event (list Z))) : world bench :=
  match run_events (fun p => dg_len (bench_frame p)) evs bench_init with
  | Ok (_, w) => w
  | Fault _ => bench_init
  end.

(** A run of this user: the host selects the interface, three frames are
    sent, one of them after the first transfer has completed. *)
Definition bench_events : list (event (list Z)) :=
  [EvControl (set_interface 1); EvSend [1; 2; 3]; EvSend [4; 5]; EvInDone 60; EvSend [6; 7; 8; 9]].

Lemma bench_events_ok : Forall (event_ok (frame := bench_frame)) bench_events.
Proof. repeat constructor; vm_compute; discriminate. Qed.

Lemma bench_events_run :
  run_events (fun p => dg_len (bench_frame p)) bench_events bench_init = Ok (tt, bench_run bench_events).
Proof. vm_compute. reflexivity. Qed.

(** ** Theorems *)

(** C1. Nothing is lost, duplicated or reordered inside the driver: in every
    state reached from [net_init] by frames that are sent, datagrams that are
    fetched, data of any content that arrives, completed transfers and control
    requests, the frames in the NTBs that are with USB, waiting or being
    filled are exactly the frames that [net_tx] has taken, in that order; and
    each of the two transmit NTBs has exactly one owner. *)
Theorem driver_keeps_frames {D E} `{NcmProvider D E frame} (w0 w1 w : world E) :
  calls w0 = [] -> net_init w0 = Ok (tt, w1) -> rtc (driver_step (frame := frame)) w1 w ->
  tx_stream (ncm_if w) = tx_frames (calls w) /\
  tx_owned (ncm_if w) ≡ₚ [TxNtb 0; TxNtb 1].
Proof.
  intros Hc Hi Hsteps. rewrite net_init_runs in Hi. injection Hi as <-.
  destruct (driver_steps_keep _ _ Hsteps) as (Ht&_&Hs); [|split; [done|apply Ht]].
  split; [apply init_tx_inv|]. split; [apply init_rx_inv|]. cbn. by rewrite Hc.
Qed.

Lemma driver_keeps_frames_witness :
  tx_stream (ncm_if (bench_run bench_events)) = tx_frames (calls (bench_run bench_events)) /\
  tx_frames (calls (bench_run bench_events)) = [[1; 2; 3]; [4; 5]; [6; 7; 8; 9]].
Proof.
  split; [|vm_compute; reflexivity].
  refine (proj1 (driver_keeps_frames (frame := bench_frame) (bench_world false true 1) bench_init
    (bench_run bench_events) eq_refl (net_init_runs _) _)).
  exact (run_events_steps bench_events _ _ bench_events_ok bench_events_run).
Defined.

(** C3. What goes out on the wire: along every run from [net_init], every
    transfer to the IN endpoint is a well-formed NTB (signatures, header
    lengths, datagram table, alignment and payload), sent up to its block
    length, of at most eight datagrams, and these are the oldest frames that
    [net_tx] has taken, in order. *)
Theorem driver_wire_format {D E} `{NcmProvider D E frame} (w0 w1 w : world E) :
  calls w0 = [] -> net_init w0 = Ok (tt, w1) -> rtc (driver_step (frame := frame)) w1 w ->
  Forall (wire_call (tx_frames (calls w))) (calls w).
Proof.
  intros Hc Hi Hsteps. rewrite net_init_runs in Hi. injection Hi as <-.
  apply (driver_steps_wire _ _ Hsteps).
  - split; [apply init_tx_inv|]. split; [apply init_rx_inv|]. cbn. by rewrite Hc.
  - unfold wire_ok. cbn. rewrite Hc. constructor.
Qed.

Lemma driver_wire_format_witness :
  Forall (wire_call [[1; 2; 3]; [4; 5]; [6; 7; 8; 9]]) (calls (bench_run bench_events)) /\
  length (ntb_transfers NCM_EP_DATA_IN (calls (bench_run bench_events))) = 1%nat.
Proof.
  split; [|vm_compute; reflexivity].
  refine (driver_wire_format (frame := bench_frame) (bench_world false true 1) bench_init
    (bench_run bench_events) eq_refl (net_init_runs _) _).
  exact (run_events_steps bench_events _ _ bench_events_ok bench_events_run).
Defined.

(** The driver never gives a transmit NTB back: along every run from
    [net_init] it takes at most sixteen frames, two NTBs of eight. *)
Theorem driver_lifetime_frames {D E} `{NcmProvider D E frame} (w0 w1 w : world E) :
  calls w0 = [] -> net_init w0 = Ok (tt, w1) -> rtc (driver_step (frame := frame)) w1 w ->
  (length (tx_frames (calls w)) <= 16)%nat.
Proof.
  intros Hc Hi Hsteps. rewrite net_init_runs in Hi. injection Hi as <-.
  destruct (driver_steps_keep _ _ Hsteps) as (Ht&_&<-); [|by apply tx_stream_length].
  split; [apply init_tx_inv|]. split; [apply init_rx_inv|]. cbn. by rewrite Hc.
Qed.

Lemma driver_lifetime_frames_witness :
  (length (tx_frames (calls (bench_run bench_events))) <= 16)%nat.
Proof.
  refine (driver_lifetime_frames (frame := bench_frame) (bench_world false true 1) bench_init
    (bench_run bench_events) eq_refl (net_init_runs _) _).
  exact (run_events_steps bench_events _ _ bench_events_ok bench_events_run).
Defined.

(** One short frame goes out with the first NTB, and eight frames of 100 bytes fill the second
    one behind it. *)
Definition bench_full : list (event (list Z)) :=
  EvControl (set_interface 1) :: EvSend [7] :: replicate 8 (EvSend (replicate 100 5)).

Lemma bench_full_ok : Forall (event_ok (frame := bench_frame)) bench_full.
Proof. repeat constructor; vm_compute; discriminate. Qed.

Lemma bench_full_run :
  run_events (fun p => dg_len (bench_frame p)) bench_full bench_init = Ok (tt, bench_run bench_full).
Proof. vm_compute. reflexivity. Qed.

Lemma bench_full_inv : sys_inv (bench_run bench_full).
Proof.
  apply (driver_steps_keep (frame := bench_frame) bench_init).
  - exact (run_events_steps bench_full _ _ bench_full_ok bench_full_run).
  - split; [apply init_tx_inv|]. split; [apply init_rx_inv|]. done.
Qed.

(** C9. The send loop of [link_output_app] does not return once USB holds an
    NTB, none is free and the frame does not fit the user's NTB: as long as the
    application stays active, no number of rounds ends it, and no transfer is
    started in them. *)
Theorem link_output_blocks {D E} `{NcmProvider D E frame} fuel (p : D) (w : world E) :
  tx_inv (ncm_if w) -> tx_blocked (ncm_if w) (dg_len (frame p)) ->
  exists w', link_output_app (fun p => dg_len (frame p)) fuel (fun _ => true) p w = Ok (None, w') /\
    calls w' = calls w.
Proof.
  intros Hs Hb. pose proof (blocked_never_returns fuel p w Hs Hb) as (r&w'&Hrun&->&Hc)%wp_Ok. eauto.
Qed.

Lemma bench_full_blocked : tx_blocked (ncm_if (bench_run bench_full)) (dg_len (bench_frame [9])).
Proof.
  split; [eexists; vm_compute; reflexivity|]. split; [vm_compute; reflexivity|].
  intros (p&ds&_&_&Hi&Hlt&_). rewrite Hi in Hlt. revert Hlt. vm_compute. discriminate.
Qed.

Lemma link_output_blocks_witness :
  exists w', link_output_app (fun p => dg_len (bench_frame p)) 1000 (fun _ => true) [9]
               (bench_run bench_full) = Ok (None, w') /\
    calls w' = calls (bench_run bench_full).
Proof.
  exact (link_output_blocks (frame := bench_frame) 1000 [9] (bench_run bench_full)
           (proj1 bench_full_inv) bench_full_blocked).
Defined.

(** At most one NTB is ever handed to the IN endpoint between two calls of
    [net_init], whatever the application, the host and the USB core do: the
    completion of an IN transfer does not release the NTB that was sent. *)
Theorem one_in_ntb {D E} `{NcmEnv D E} (w0 w1 w : world E) (ops : list (api D)) :
  calls w0 = [] -> net_init w0 = Ok (tt, w1) -> run_apis ops w1 = Ok (tt, w) ->
  (length (ntb_transfers NCM_EP_DATA_IN (calls w)) <= 1)%nat.
Proof.
  intros Hc Hi Hrun. rewrite net_init_runs in Hi. injection Hi as <-.
  pose proof (respects_apis in_account ops run_api_in _ _ _ Hrun) as Ha. unfold account in Ha.
  cbn [ncm_if with_if init_ncm_if tx_usbd_ntb calls] in Ha. rewrite Hc in Ha.
  destruct Ha as [[_ ->]|[_ [b ->]]]; [exact (Nat.le_0_l 1)|exact (le_n 1)].
Qed.

(** At most one receive request is ever made of the OUT endpoint between
    two calls of [net_init]: its completion does not clear [rx_usbd_ntb]. *)
Theorem one_out_request {D E} `{NcmEnv D E} (w0 w1 w : world E) (ops : list (api D)) :
  calls w0 = [] -> net_init w0 = Ok (tt, w1) -> run_apis ops w1 = Ok (tt, w) ->
  (length (ntb_transfers NCM_EP_DATA_OUT (calls w)) <= 1)%nat.
Proof.
  intros Hc Hi Hrun. rewrite net_init_runs in Hi. injection Hi as <-.
  pose proof (respects_apis out_account ops run_api_out _ _ _ Hrun) as Ha. unfold account in Ha.
  cbn [ncm_if with_if init_ncm_if rx_usbd_ntb calls] in Ha. rewrite Hc in Ha.
  destruct Ha as [[_ ->]|[_ [b ->]]]; [exact (Nat.le_0_l 1)|exact (le_n 1)].
Qed.

(** Frames sent and completed, and data received. *)
Definition bench_ops : list (api (list Z)) :=
  [ApiControl (set_interface 1); ApiRxRenew; ApiCanTx 3; ApiTx [1; 2; 3] 0; ApiUsbTransfer NCM_EP_DATA_IN 60;
   ApiCanTx 2; ApiTx [4; 5] 0; ApiUsbTransfer NCM_EP_DATA_IN 60;
   ApiReceived [1; 2; 3]; ApiUsbTransfer NCM_EP_DATA_OUT 3; ApiRxRenew].

Definition bench_ops_world : world bench :=
  match run_apis bench_ops bench_init with Ok (_, w) => w | Fault _ => bench_init end.

Lemma bench_ops_run : run_apis bench_ops bench_init = Ok (tt, bench_ops_world).
Proof. vm_compute. reflexivity. Qed.

Lemma one_in_ntb_witness :
  (length (ntb_transfers NCM_EP_DATA_IN (calls bench_ops_world)) <= 1)%nat.
Proof.
  exact (one_in_ntb (bench_world false true 1) bench_init bench_ops_world bench_ops
           eq_refl (net_init_runs _) bench_ops_run).
Defined.

Lemma one_out_request_witness :
  (length (ntb_transfers NCM_EP_DATA_OUT (calls bench_ops_world)) <= 1)%nat.
Proof.
  exact (one_out_request (bench_world false true 1) bench_init bench_ops_world bench_ops
           eq_refl (net_init_runs _) bench_ops_run).
Defined.
