(* ===== verification/NcmSafe.v ===== *)
(** * Runs with a well-behaved host

    The driver does not check what it receives.  Here the host sends only
    well-formed NTBs and data arrives only for accepted receive requests:
    then, with functions that return, every event of such a sequence ends.
    Theorem C2 of [NcmFaults] is the consequence for arbitrary functions. *)

From stdpp Require Import base numbers list decidable sets relations.
From Stdlib Require Import ZArith Lia Bool.
From S2P Require Import Prelude NcmTypes NtbList Ntb NcmTx NcmRx NcmNet NcmSystem NcmBench NcmRun.
Open Scope Z_scope.

(** ** Well-formed NTBs from the host *)

(** The bytes of an NTB that lists at least one datagram, all inside it. *)
Definition host_ntb (data : list Z) : Prop :=
  bytes_ok data /\ Z.of_nat (length data) <= NCM_NTB_MAX_SIZE /\
  exists es, es <> [] /\ rx_lists data es.

Lemma rd_extend b t off n v : rd b off n = Ok v -> rd (b ++ t) off n = Ok v.
Proof.
  intros H. pose proof (rd_Ok_range _ _ _ _ H) as (?&?&?).
  rewrite rd_in_range in * by (rewrite ?length_app; lia). rewrite <- H. do 2 f_equal.
  unfold slice. rewrite drop_app_le, take_app_le by (rewrite ?length_drop; lia). done.
Qed.

Lemma rx_entry_extend b t i e : rx_entry b i = Ok e -> rx_entry (b ++ t) i = Ok e.
Proof.
  unfold rx_entry. intros H. inv_bind. subst.
  rewrite (rd_extend _ _ _ _ _ E). cbn [rbind].
  rewrite (rd_extend _ _ _ _ _ E0). cbn [rbind]. by rewrite (rd_extend _ _ _ _ _ E1).
Qed.

Lemma rx_lists_extend b t es : rx_lists b es -> rx_lists (b ++ t) es.
Proof.
  intros [He Hend Hc]. constructor; [|destruct Hend as (e&?&?); eauto using rx_entry_extend|done].
  intros i e Hi. destruct (He i e Hi) as (?&?&?&?&?&?). rewrite length_app.
  repeat split; eauto using rx_entry_extend; lia.
Qed.

(** ** Where the receive side is *)

(** Requests the USB core has accepted on the OUT endpoint. *)
Definition out_request (c : ext_call) : bool :=
  match c with
  | CTransferEp ep _ _ r => (ep =? NCM_EP_DATA_OUT) && r
  | _ => false
  end.
Definition out_requests (cs : list ext_call) : nat := length (filter (fun c => out_request c = true) cs).
Arguments out_requests : simpl never.

(** [k] requests are outstanding. *)
Inductive rx_phase (s : ncm_interface_t) : nat -> Prop :=
| RxIdle :
    rx_usbd_ntb s = None -> rx_user_ntb s = None -> ntb_queue (rx_wait_ntb s) = [] ->
    rx_phase s 0
| RxRequested p k :
    rx_usbd_ntb s = Some p -> rx_user_ntb s = None -> ntb_queue (rx_wait_ntb s) = [] ->
    (k <= 1)%nat -> rx_phase s k
| RxDelivering p b es i :
    rx_usbd_ntb s = Some p -> rx_at s p b i -> rx_lists b es -> (i < length es)%nat ->
    rx_phase s 0.

(** [completed] of the requests have been completed. *)
Definition phase_inv {E} (completed : nat) (w : world E) : Prop :=
  sys_inv w /\ exists k, out_requests (calls w) = (completed + k)%nat /\ rx_phase (ncm_if w) k.

Lemma out_requests_app cs cs' :
  out_requests (cs ++ cs') = (out_requests cs + out_requests cs')%nat.
Proof. unfold out_requests. by rewrite filter_app, length_app. Qed.

Lemma out_requests_snoc cs c :
  out_requests (cs ++ [c]) = (out_requests cs + if out_request c then 1 else 0)%nat.
Proof. rewrite out_requests_app. unfold out_requests at 2. rewrite filter_cons, filter_nil. by destruct (out_request c). Qed.

(** What the phase depends on. *)
Lemma rx_phase_view s s' k :
  rx_usbd_ntb s' = rx_usbd_ntb s -> rx_user_ntb s' = rx_user_ntb s ->
  rx_wait_ntb s' = rx_wait_ntb s -> rx_ntb s' = rx_ntb s ->
  rx_user_ntb_datagram_index s' = rx_user_ntb_datagram_index s ->
  (forall p, rx_user_ntb s = Some p -> rx_valid_ptr p) ->
  rx_phase s k -> rx_phase s' k.
Proof.
  intros E1 E2 E3 E4 E5 Hv Hp.
  inversion Hp as [Hu Hus Hw|p k' Hu Hus Hw Hk|p b es i Hu (Hus&Hd&Hi) Hl Hlt]; subst.
  - apply RxIdle; congruence.
  - apply (RxRequested _ p); congruence.
  - apply (RxDelivering _ p b es i); try congruence. split; [congruence|]. split; [|congruence].
    rewrite <- Hd. destruct (Hv p Hus) as [->| ->]; unfold ntb_data; by rewrite E4.
Qed.

(** Steps that make no accepted receive request. *)
Definition no_requests {E} (w w' : world E) : Prop := out_requests (calls w') = out_requests (calls w).

#[export] Instance no_requests_preorder {E} : PreOrder (@no_requests E).
Proof. split; unfold no_requests; [done|congruence]. Qed.

Ltac no_requests :=
  unfold no_requests; cbn [calls with_if record_call]; rewrite ?out_requests_snoc; cbn; lia.

Section safe.
Context {D E : Type} `{NcmProvider D E frame}.
Implicit Types (w : world E).

Abbreviation frame_len := (fun p => dg_len (frame p)).

(** [m] runs without a fault whenever [n] requests are completed, and keeps
    the invariant. *)
Definition safe {A} (n : nat) (m : NM E A) : Prop :=
  forall w, phase_inv n w -> wp m w (fun _ w' => phase_inv n w').

Lemma safe_ret {A} n (a : A) : safe n (ret a).
Proof. by intros w Hw. Qed.

Lemma safe_bind {A B} n (m : NM E A) (k : A -> NM E B) :
  safe n m -> (forall a, safe n (k a)) -> safe n (bind m k).
Proof. intros Hm Hk w Hw. apply wp_bind. eapply wp_mono; [by apply Hm|]. intros. by apply Hk. Qed.

Lemma safe_use {A} n (m : NM E A) w (Q : A -> world E -> Prop) :
  safe n m -> phase_inv n w -> (forall a w', phase_inv n w' -> Q a w') -> wp m w Q.
Proof. intros Hm Hw. by eapply wp_mono, Hm. Qed.

Lemma phase_valid_user n w p :
  phase_inv n w -> rx_user_ntb (ncm_if w) = Some p -> rx_valid_ptr p.
Proof.
  intros ((_&Hr&_)&_) Hu. apply (rx_pointers _ Hr). rewrite Hu. set_solver.
Qed.

(** A step that leaves the phase alone. *)
Lemma phase_inv_view n w w' :
  phase_inv n w -> sys_inv w' -> no_requests w w' ->
  rx_usbd_ntb (ncm_if w') = rx_usbd_ntb (ncm_if w) ->
  rx_user_ntb (ncm_if w') = rx_user_ntb (ncm_if w) ->
  rx_wait_ntb (ncm_if w') = rx_wait_ntb (ncm_if w) ->
  rx_ntb (ncm_if w') = rx_ntb (ncm_if w) ->
  rx_user_ntb_datagram_index (ncm_if w') = rx_user_ntb_datagram_index (ncm_if w) ->
  phase_inv n w'.
Proof.
  intros Hp Hs Hn. intros. split; [done|]. pose proof (fun p => phase_valid_user n w p Hp) as Hv.
  destruct Hp as (?&k&Hk&Hph). exists k. split; [congruence|].
  eapply (rx_phase_view (ncm_if w)); eauto.
Qed.

(** A total program that does not touch the receive side. *)
Lemma safe_rx_view {A} n (m : NM E A) :
  (forall w, sys_inv w -> wp m w (fun _ w' => rx_view (ncm_if w') = rx_view (ncm_if w))) ->
  respects keeps_inv m -> respects no_requests m -> safe n m.
Proof.
  intros Hv Hk Hn w Hw. pose proof (Hv w (proj1 Hw)) as Hx. unfold wp in *.
  destruct (m w) as [[a w']|] eqn:Hm; [|done].
  pose proof (Hn _ _ _ Hm). pose proof (Hk _ _ _ Hm (proj1 Hw)).
  injection Hx. intros. by eapply phase_inv_view.
Qed.

(** *** Transmit events *)

Lemma tx_try_start_no_requests : respects no_requests (tx_try_start (E:=E)).
Proof. unfold tx_try_start, pop_from, transfer_ntb_in. respects_with ltac:(no_requests). Qed.
#[local] Hint Resolve tx_try_start_no_requests : ncm_steps.

Lemma send_no_requests p : respects no_requests (link_output_app frame_len 1 (fun _ => true) p).
Proof.
  cbn [link_output_app negb]. unfold net_can_tx, net_tx, tx_datagram_fits_user_ntb,
    tx_accept_user_ntb, tx_fetch_user_ntb, push_to, pop_from, update_ntb.
  respects_with ltac:(no_requests).
Qed.

Lemma send_safe n p :
  padded (frame_len p) <= max_frame -> safe n (link_output_app frame_len 1 (fun _ => true) p).
Proof.
  intros Hp. apply safe_rx_view; [|by apply send_keeps|apply send_no_requests].
  intros w Hs. apply wp_send_round; try done; intros w' new Hs' Hk **; [|apply wp_ret]; apply Hk.
Qed.

Lemma tx_try_start_safe n : safe n (tx_try_start (E:=E)).
Proof.
  apply safe_rx_view; [|apply tx_try_start_keeps|apply tx_try_start_no_requests].
  intros w Hs. apply wp_tx_try_start; [apply Hs|]. intros r w' new _ Hk **. apply Hk.
Qed.

Lemma tx_notification_safe n f : safe n (tx_notification (E:=E) f).
Proof.
  apply safe_rx_view; [|apply tx_notification_keeps|].
  - intros w Hs. unfold tx_notification. wp_steps. destruct (_ && _); wp_steps; [done|].
    by destruct (notification_state (ncm_if w)); wp_steps.
  - unfold tx_notification. respects_with ltac:(no_requests).
Qed.

Lemma tx_insert_zlp_safe n size : safe n (tx_insert_zlp (E:=E) size).
Proof.
  apply safe_rx_view; [|apply tx_insert_zlp_keeps|].
  - intros w Hs. unfold tx_insert_zlp. by destruct (_ || _); wp_steps.
  - unfold tx_insert_zlp. respects_with ltac:(no_requests).
Qed.

(** *** Receive events *)

(** Offering a datagram of a well-formed NTB. *)
Lemma wp_offer_phase n p b es i w :
  sys_inv w -> rx_usbd_ntb (ncm_if w) = Some p -> rx_at (ncm_if w) p b i -> rx_lists b es ->
  (i < length es)%nat -> out_requests (calls w) = n ->
  wp (rx_offer_datagram p) w (fun _ w' => phase_inv n w').
Proof.
  intros Hs Hu Hat Hl Hlt Hn. destruct (lookup_lt_is_Some_2 es i Hlt) as [e He].
  destruct Hs as (Ht&Hr&Hst).
  eapply wp_rx_offer; [done|done|done|exact He|]. intros r w' c Hr' (Hk&_) Hc _ Hat' _ Hu'.
  split.
  - split; [by eapply tx_inv_view|]. split; [done|].
    rewrite Hc, tx_frames_snoc, app_nil_r, <- Hst. by apply tx_stream_view.
  - exists 0%nat. rewrite Hc, out_requests_snoc. cbn. split; [lia|].
    eapply RxDelivering; [by rewrite Hu'|exact Hat'|done|].
    destruct (c =? 0); [done|]. by case_decide.
Qed.

(** Fetching when the user has no NTB. *)
Lemma wp_fetch_sys w (Q : unit -> world E -> Prop) :
  sys_inv w -> rx_user_ntb (ncm_if w) = None ->
  (forall w', sys_inv w' -> calls w' = calls w -> rx_ntb (ncm_if w') = rx_ntb (ncm_if w) ->
     rx_usbd_ntb (ncm_if w') = rx_usbd_ntb (ncm_if w) ->
     rx_user_ntb (ncm_if w') = head (ntb_queue (rx_wait_ntb (ncm_if w))) ->
     rx_user_ntb_datagram_index (ncm_if w') = 0 ->
     ntb_queue (rx_wait_ntb (ncm_if w')) = tail (ntb_queue (rx_wait_ntb (ncm_if w))) -> Q tt w') ->
  wp rx_fetch_user_ntb w Q.
Proof.
  intros (Ht&Hr&Hst) Hu HQ. apply wp_rx_fetch; [done|]. rewrite Hu.
  intros w' Hr' (Hk&_) Hc Hb Hus (?&?&?). apply HQ; try done.
  split; [by eapply tx_inv_view|]. split; [done|]. rewrite Hc, <- Hst. by apply tx_stream_view.
Qed.

Lemma rx_update_safe n : safe n (rx_update_user_ntb (E:=E)).
Proof.
  intros w (Hs&k&Hk&Hp). unfold rx_update_user_ntb. wp_step.
  inversion Hp as [Hu Hus Hw|p k' Hu Hus Hw Hk'|p b es i Hu Hat Hl Hlt]; subst.
  - apply wp_fetch_sys; [done|done|]. rewrite Hw, Hu. cbn. intros w' Hs' Hc _ Hu' Hus' _ Hw'.
    wp_steps. rewrite Hus'. wp_steps. split; [done|]. exists 0%nat.
    rewrite Hc. split; [done|]. by apply RxIdle.
  - apply wp_fetch_sys; [done|done|]. rewrite Hw, Hu. cbn. intros w' Hs' Hc _ Hu' Hus' _ Hw'.
    wp_steps. rewrite Hus'. wp_steps. split; [done|]. exists k.
    rewrite Hc. split; [done|]. by apply (RxRequested _ p).
  - pose proof Hat as (Hus&_). unfold rx_fetch_user_ntb. wp_steps. rewrite Hus. wp_steps.
    rewrite Hus. eapply wp_offer_phase; eauto with lia.
Qed.

(** The first datagram of an NTB that has just arrived. *)
Lemma wp_update_arrived n p b es w :
  sys_inv w -> rx_usbd_ntb (ncm_if w) = Some p -> rx_user_ntb (ncm_if w) = None ->
  ntb_queue (rx_wait_ntb (ncm_if w)) = [p] -> ntb_data (ncm_if w) p = Ok b -> rx_lists b es ->
  es <> [] -> out_requests (calls w) = n ->
  wp rx_update_user_ntb w (fun _ w' => phase_inv n w').
Proof.
  intros Hs Hu Hus Hw Hd Hl Hne Hn. unfold rx_update_user_ntb. wp_step.
  assert (Hv : rx_valid_ptr p) by (apply (rx_pointers (ncm_if w)); [apply Hs|]; rewrite Hu; set_solver).
  apply wp_fetch_sys; [done|done|]. rewrite Hw, Hu. cbn. intros w' Hs' Hc Hb Hu' Hus' Hi _.
  wp_steps. rewrite Hus'. eapply (wp_offer_phase _ p b es 0); try done.
  - split; [done|]. split; [|done]. rewrite <- Hd.
    destruct Hv as [->| ->]; unfold ntb_data; by rewrite Hb.
  - destruct es; [done|]. cbn. lia.
  - by rewrite Hc.
Qed.

Lemma rx_try_start_safe n : safe n (rx_try_start (E:=E)).
Proof.
  intros w Hw. pose proof Hw as (Hs&k&Hk&Hp).
  pose proof (wp_sys_rx_try_start w Hs) as Hsys.
  assert (Hgoal : wp rx_try_start w (fun _ w' => exists k,
            out_requests (calls w') = (n + k)%nat /\ rx_phase (ncm_if w') k)).
  2: { unfold wp in *. by destruct (rx_try_start w) as [[]|]. }
  unfold rx_try_start. wp_steps.
  inversion Hp as [Hu Hus Hq|p k' Hu Hus Hq Hk'|p b es i Hu Hat Hl Hlt]; subst;
    rewrite Hu; wp_steps; [|by exists k|by exists 0%nat].
  destruct (negb _); wp_steps; [by exists 0%nat|].
  destruct r as [|]; wp_steps.
  { exists 0%nat. cbn. rewrite out_requests_snoc. split; [cbn; lia|by apply RxIdle]. }
  pose proof (proj1 (proj2 Hs)) as Hr.
  apply wp_pop_from; [apply Hr|]. cbn. intros o l _ Hl Hfree _. wp_steps. cbn.
  destruct o as [p|]; wp_steps.
  2: { exists 0%nat. cbn. rewrite out_requests_snoc. split; [cbn; lia|by apply RxIdle]. }
  destruct (rx_data_ok (ncm_if w) p Hr) as (b&Hb&_).
  { apply (rx_pointers _ Hr). rewrite Hfree. set_solver. }
  eapply wp_getsr; [exact Hb|]. wp_steps. cbn.
  destruct r as [|]; cbn [negb]; wp_steps.
  - exists 1%nat. cbn. rewrite !out_requests_snoc. split; [cbn; lia|]. by apply (RxRequested _ p).
  - apply wp_push_to; [done|]. intros r l' _ _ _. wp_steps. exists 0%nat. cbn.
    rewrite !out_requests_snoc. split; [cbn; lia|]. apply (RxRequested _ p); try done. lia.
Qed.

Lemma net_rx_renew_safe n : safe n (net_rx_renew (E:=E)).
Proof.
  apply safe_bind; [apply rx_update_safe|]. intros. apply safe_bind; [apply rx_try_start_safe|].
  intros. apply safe_ret.
Qed.

(** *** USB events *)

Lemma push_usbd_free_safe n :
  safe n (let! usbd := gets rx_usbd_ntb in push_to (E:=E) rx_free_ntb set_rx_free_ntb usbd).
Proof.
  intros w Hw. wp_steps. apply wp_sys_rx_push; [by left|apply Hw| |].
  - intros q Hq. apply (rx_pointers (ncm_if w)); [apply Hw|]. rewrite Hq. set_solver.
  - intros r l Hs _. by eapply phase_inv_view.
Qed.

Lemma net_usb_transfer_in_safe n bytes : safe n (net_usb_transfer (E:=E) NCM_EP_DATA_IN bytes).
Proof.
  apply safe_bind; [|intros; apply safe_ret]. cbn [Z.eqb].
  intros w Hw. cbn. apply wp_bind, wp_gets, wp_bind.
  eapply wp_mono; [exact (push_usbd_free_safe n w Hw)|]. cbn beta. intros ? w1 Hw1.
  apply wp_bind. eapply safe_use; [apply tx_insert_zlp_safe|done|]. intros [] w2 Hw2; [done|].
  apply wp_bind. eapply safe_use; [apply tx_try_start_safe|done|]. by intros.
Qed.

Lemma net_usb_control_safe n rq : safe n (net_usb_control_transfer (E:=E) rq).
Proof.
  unfold net_usb_control_transfer.
  assert (Hcall : forall c e w, phase_inv n w -> frame_of c = None -> out_request c = false ->
            phase_inv n (record_call c e w)).
  { intros c e w Hw Hf Ho. apply (phase_inv_view n w); try done.
    - destruct Hw as ((?&?&Hst)&_). split; [done|]. split; [done|].
      cbn. by rewrite tx_frames_snoc, Hf, app_nil_r.
    - unfold no_requests. cbn. rewrite out_requests_snoc, Ho. lia. }
  assert (Hset : forall v w, phase_inv n w -> phase_inv n (with_if (set_interface_active v (ncm_if w)) w)).
  { intros v w Hw. apply (phase_inv_view n w); try done.
    assert (Hk : keeps_inv w (with_if (set_interface_active v (ncm_if w)) w)) by untouched.
    apply Hk, Hw. }
  intros w Hw. destruct (_ =? USB_TYPE_STANDARD).
  - destruct (_ =? USB_REQ_GET_INTERFACE); wp_steps; [by apply (Hcall (CTransferEp0 _ _ _ _))|].
    destruct (_ =? USB_REQ_SET_INTERFACE); wp_steps; [|done].
    destruct (_ =? 0); wp_steps; [apply (Hcall (CControlStatus _ _)); try done; by apply Hset|].
    eapply safe_use; [apply rx_update_safe|by apply Hset|]. intros ? w1 Hw1.
    eapply safe_use; [apply tx_notification_safe|done|]. intros ? w2 Hw2. wp_steps.
    by apply (Hcall (CControlStatus _ _)).
  - destruct (_ =? USB_TYPE_CLASS); wp_steps; [|done].
    destruct (_ =? NCM_GET_NTB_PARAMETERS); wp_steps; [|done].
    by apply (Hcall (CTransferEp0 _ _ _ _)).
Qed.

(** The USB core stores the data in the NTB that it was given. *)
Lemma wp_usb_receive data p w (Q : unit -> world E -> Prop) :
  sys_inv w -> rx_usbd_ntb (ncm_if w) = Some p -> bytes_ok data ->
  Z.of_nat (length data) <= NCM_NTB_MAX_SIZE ->
  (forall t, sys_inv (with_if (set_ntb_data p (data ++ t) (ncm_if w)) w) ->
     Q tt (with_if (set_ntb_data p (data ++ t) (ncm_if w)) w)) ->
  wp (usb_receive data) w Q.
Proof.
  intros Hs Hu Hb Hlen HQ. pose proof Hs as (_&Hr&_).
  destruct (rx_data_ok (ncm_if w) p Hr) as (b&Hd&Hl&Hok).
  { apply (rx_pointers _ Hr). rewrite Hu. set_solver. }
  assert (Hwr : wr b 0 data = Ok (data ++ drop (length data) b)).
  { rewrite wr_in_range by lia. done. }
  assert (Hrun : usb_receive data w =
            Ok (tt, with_if (set_ntb_data p (data ++ drop (length data) b) (ncm_if w)) w)).
  { unfold usb_receive, bind at 1, gets. rewrite Hu. unfold update_ntb, bind, getsr.
    rewrite Hd. cbn [rbind]. rewrite Hwr. done. }
  unfold wp. rewrite Hrun. apply HQ. exact (usb_receive_keeps data Hb _ _ _ Hrun Hs).
Qed.

(** Data for an outstanding request arrives: the NTB is handed to the
    application's side, which then runs [net_rx_renew]. *)
Lemma received_renews n data w :
  phase_inv n w -> (n < out_requests (calls w))%nat -> bytes_ok data ->
  Z.of_nat (length data) <= NCM_NTB_MAX_SIZE ->
  exists p t w2, sys_inv w2 /\ rx_usbd_ntb (ncm_if w2) = Some p /\
    rx_user_ntb (ncm_if w2) = None /\ ntb_queue (rx_wait_ntb (ncm_if w2)) = [p] /\
    ntb_data (ncm_if w2) p = Ok (data ++ t) /\ out_requests (calls w2) = S n /\
    run_event frame_len (EvReceived data) w = (let! _ := net_rx_renew in ret tt) w2.
Proof.
  intros (Hs&k&Hk&Hp) Hlt Hb Hlen.
  inversion Hp as [Hu Hus Hq|p k' Hu Hus Hq Hk'|p b es' i Hu Hat Hl' Hlt']; subst; try lia.
  assert (k = 1)%nat as -> by lia.
  assert (Hv : rx_valid_ptr p)
    by (apply (rx_pointers _ (proj1 (proj2 Hs))); rewrite Hu; set_solver).
  destruct (rx_data_ok (ncm_if w) p (proj1 (proj2 Hs)) Hv) as (b&Hd&_).
  assert (Hrecv : wp (usb_receive data) w (fun _ w1 => exists t,
            w1 = with_if (set_ntb_data p (data ++ t) (ncm_if w)) w /\ sys_inv w1)).
  { eapply wp_usb_receive; [done|done|done|done|]. eauto. }
  apply wp_Ok in Hrecv as ([]&w1&Hrun1&t&Hw1&Hs1).
  destruct (set_ntb_data_keeps (ncm_if w) p (data ++ t)) as (_&_&_&_&_&_&_&Ew&Eu&Er&_).
  assert (Hpush : wp (push_to rx_wait_ntb set_rx_wait_ntb (Some p)) w1 (fun _ w2 => exists l,
            w2 = with_if (set_rx_wait_ntb l (ncm_if w1)) w1 /\ sys_inv w2 /\ ntb_queue l = [p])).
  { apply wp_sys_rx_push; [by right|done|by intros q [= <-]|]. intros r l Hs2 Hpush.
    exists l. split; [done|]. split; [done|].
    destruct (push_ntb_cases (rx_wait_ntb (ncm_if w1)) (Some p)) as (r'&l'&E1&_&_&_&E2);
      [apply Hs1|]. rewrite Hpush in E1. injection E1 as <- <-.
    destruct (E2 p eq_refl) as [-> E3]. rewrite Hw1 in *. cbn in *. rewrite Ew, Hq in *.
    apply E3. apply bool_decide_eq_true. unfold ntb_capacity. cbn. destruct (_ =? 0); lia. }
  apply wp_Ok in Hpush as (r&w2&Hrun2&l&Hw2&Hs2&Hlq).
  exists p, t, w2. split; [done|]. subst w2 w1. cbn.
  split; [congruence|]. split; [congruence|]. split; [done|].
  split; [destruct Hv as [->| ->]; exact (ntb_data_set_same (ncm_if w) _ (data ++ t) b Hd)|].
  split; [cbn; lia|].
  unfold run_event, bind at 1. rewrite Hrun1. unfold net_usb_transfer, bind, gets. cbn.
  rewrite Eu, Hu, Hrun2. cbn. by destruct (net_rx_renew _) as [[[] ?]|].
Qed.

Lemma wp_received n data w :
  phase_inv n w -> (n < out_requests (calls w))%nat -> host_ntb data ->
  wp (run_event frame_len (EvReceived data)) w (fun _ w' => phase_inv (S n) w').
Proof.
  intros Hp Hlt (Hb&Hlen&es&Hne&Hl).
  destruct (received_renews n data w Hp Hlt Hb Hlen) as (p&t&w2&Hs2&Hu&Hus&Hq&Hd&Hn&Hrun).
  unfold wp. rewrite Hrun. apply wp_bind, wp_bind.
  eapply wp_mono; [by eapply wp_update_arrived; try done; apply rx_lists_extend|].
  cbn beta. intros ? w3 Hw3. apply wp_bind.
  eapply safe_use; [apply rx_try_start_safe|done|]. intros. by wp_steps.
Qed.

(** *** Event sequences *)

(** The host's part of the contract, when [completed] of the accepted
    requests are completed: data arrives for a request only, and it is a
    well-formed NTB; frames are no larger than an empty NTB takes. *)
Inductive host_step : nat * world E -> nat * world E -> Prop :=
| HostReceived n w w' data :
    (n < out_requests (calls w))%nat -> host_ntb data ->
    run_event frame_len (EvReceived data) w = Ok (tt, w') -> host_step (n, w) (S n, w')
| HostOther n w w' ev :
    event_ok (frame := frame) ev -> (forall data, ev <> EvReceived data) ->
    run_event frame_len ev w = Ok (tt, w') -> host_step (n, w) (n, w').

(** The events that may happen in a state. *)
Definition enabled (n : nat) (w : world E) (ev : event D) : Prop :=
  match ev with
  | EvReceived data => (n < out_requests (calls w))%nat /\ host_ntb data
  | _ => event_ok (frame := frame) ev
  end.

Lemma other_safe n ev :
  event_ok (frame := frame) ev -> (forall data, ev <> EvReceived data) ->
  safe n (run_event frame_len ev).
Proof.
  intros Hev Hne.
  assert (Hthen : forall A (m : NM E A), safe n m -> safe n (let! _ := m in ret tt))
    by (intros; apply safe_bind; [done|intros; apply safe_ret]).
  destruct ev as [p| |data|bytes|bytes|rq]; cbn [run_event];
    try apply Hthen; auto using net_rx_renew_safe, net_usb_transfer_in_safe, net_usb_control_safe.
  - by apply send_safe.
  - by destruct (Hne data).
  - apply (safe_bind n (tx_notification true) (fun _ => ret true));
      [apply tx_notification_safe|intros; apply safe_ret].
Qed.

Lemma host_step_keeps st st' :
  host_step st st' -> phase_inv st.1 st.2 -> phase_inv st'.1 st'.2.
Proof.
  destruct 1 as [n w w' data Hlt Hh Hrun|n w w' ev Hev Hne Hrun]; intros Hp; cbn [fst snd] in *.
  - pose proof (wp_received n data w Hp Hlt Hh) as Hw. unfold wp in Hw. by rewrite Hrun in Hw.
  - pose proof (other_safe n ev Hev Hne w Hp) as Hw. unfold wp in Hw. by rewrite Hrun in Hw.
Qed.

Lemma host_steps_keep n w n' w' :
  rtc host_step (n, w) (n', w') -> phase_inv n w -> phase_inv n' w'.
Proof.
  enough (Hk : forall st st', rtc host_step st st' -> phase_inv st.1 st.2 -> phase_inv st'.1 st'.2)
    by exact (Hk (n, w) (n', w')).
  induction 1 as [|s1 s2 s3 Hst _ IH]; [done|]. intros Hp. eapply IH, host_step_keeps; eauto.
Qed.

Lemma enabled_runs n w ev :
  phase_inv n w -> enabled n w ev -> exists w', run_event frame_len ev w = Ok (tt, w').
Proof.
  intros Hp He.
  assert (Hw : exists Q, wp (run_event frame_len ev) w Q).
  { destruct ev; try (eexists; apply (other_safe n); done).
    eexists. destruct He. by apply (wp_received n). }
  destruct Hw as (Q&([]&w'&Hrun&_)%wp_Ok). eauto.
Qed.

Lemma init_phase w : calls w = [] -> phase_inv 0 (with_if init_ncm_if w).
Proof.
  intros Hc. split.
  - split; [apply init_tx_inv|]. split; [apply init_rx_inv|]. cbn. by rewrite Hc.
  - exists 0%nat. cbn. rewrite Hc. split; [done|]. by apply RxIdle.
Qed.
End safe.

(** ** A host on the bench *)

(** An NTB of a host: header, table with two datagrams, and their bytes. *)
Definition host_data : list Z :=
  [78; 67; 77; 72; 12; 0; 0; 0; 40; 0; 12; 0] ++
  [78; 67; 77; 48; 20; 0; 0; 0] ++ [32; 0; 3; 0; 36; 0; 4; 0; 0; 0; 0; 0] ++
  [1; 2; 3; 0] ++ [4; 5; 6; 7].

Lemma host_data_ntb : host_ntb host_data.
Proof.
  split; [repeat constructor; lia|]. split; [vm_compute; discriminate|].
  exists [(32, 3); (36, 4)]. split; [done|]. constructor.
  - intros [|[|i]] e Hi; cbn in Hi; simplify_eq; (split; [reflexivity|]); cbn; lia.
  - exists (0, 0). split; [reflexivity|by left].
  - cbn. lia.
Qed.

(** The host selects the interface and the application asks for data. *)
Definition bench_requested : world bench := bench_run [EvControl (set_interface 1); EvRenew].

Lemma bench_requested_steps :
  rtc (host_step (frame := bench_frame)) (0%nat, bench_init) (0%nat, bench_requested).
Proof.
  eapply rtc_l; [|eapply rtc_l; [|apply rtc_refl]].
  - apply (HostOther 0 bench_init (bench_run [EvControl (set_interface 1)]) (EvControl (set_interface 1)));
      [done|done|vm_compute; reflexivity].
  - apply (HostOther 0 _ bench_requested EvRenew); [done|done|vm_compute; reflexivity].
Qed.
