(* ===== verification/NcmFaults.v ===== *)
(** * Where a fault can come from

    The theorems of [NcmSafe] are about functions that return whenever the
    driver calls them.  The functions of [src/src/main.c] do not always:
    [usb_transfer_ep] copies into a DMA buffer whose size it does not look
    at.  Here the driver runs with arbitrary functions.  Its run is compared
    with the one in which each call that faults is answered instead, and
    whatever fault is left is the answer of a call the driver had made with
    proper arguments. *)

From stdpp Require Import base numbers list decidable sets relations.
From Stdlib Require Import ZArith Lia Bool.
From S2P Require Import Prelude NcmTypes NtbList Ntb NcmTx NcmRx NcmNet NcmSystem NcmBench NcmRun NcmSafe.
Open Scope Z_scope.

(** What is asked of the data that [net_tx_cb] stores, if it returns. *)
Class NcmFrames (D E : Type) (N : NcmEnv D E) (frame : D -> list Z) : Prop := {
  frames_copied d arg e b n e' :
    net_tx_cb d arg e = Ok (b, n, e') -> b = frame d /\ n = Z.of_nat (length (frame d));
  frames_bytes d : bytes_ok (frame d);
  frames_length d : Z.of_nat (length (frame d)) < 65536
}.

(** [r], or [d] where it is a fault. *)
Definition or_else {A} (r : result A) (d : A) : result A :=
  match r with Ok a => Ok a | Fault _ => Ok d end.

(** The same functions, where every call with proper arguments returns. *)
Definition answering {D E} (N : NcmEnv D E) (frame : D -> list Z) : NcmEnv D E := {|
  usb_transfer_ep ep b n e := or_else (usb_transfer_ep ep b n e) (false, e);
  usb_transfer_ep0 rq b n e := or_else (usb_transfer_ep0 rq b n e) (false, e);
  usb_control_status rq e := or_else (usb_control_status rq e) (false, e);
  usb_ep_busy ep e := or_else (usb_ep_busy ep e) (false, e);
  net_tx_cb d arg e := or_else (net_tx_cb d arg e) (frame d, Z.of_nat (length (frame d)), e);
  net_rx_cb window size e :=
    if (0 <=? size) && (size <=? Z.of_nat (length window))
    then or_else (net_rx_cb window size e) (0, e)
    else net_rx_cb window size e
|}.

Lemma or_else_returns {A B} (r : result (A * B)) d : exists a b, or_else r d = Ok (a, b).
Proof. destruct r as [[]|], d; cbn; eauto. Qed.

Lemma answering_provider {D E} (N : NcmEnv D E) frame :
  NcmFrames D E N frame -> @NcmProvider D E (answering N frame) frame.
Proof.
  intros F. split; cbn; intros; try apply or_else_returns; try apply F.
  - destruct (net_tx_cb d arg e) as [[[b n] e']|] eqn:Hr; cbn; [|eauto].
    destruct (frames_copied _ _ _ _ _ _ Hr) as [-> ->]. eauto.
  - replace ((0 <=? size) && (size <=? Z.of_nat (length window))) with true by lia.
    apply or_else_returns.
Qed.

Section faults.
Context {D E : Type} (N : NcmEnv D E) (frame : D -> list Z).
Implicit Types (w : world E) (c : ext_call) (cs : list ext_call).

(** [answers e cs e']: from the state [e], the functions answer the calls [cs]
    as recorded, and are in state [e'] then. *)
Inductive answers : E -> list ext_call -> E -> Prop :=
| AnsNone e : answers e [] e
| AnsEp ep b n r e e1 e2 cs : usb_transfer_ep ep b n e = Ok (r, e1) -> answers e1 cs e2 ->
    answers e (CTransferEp ep b n r :: cs) e2
| AnsEp0 rq b n r e e1 e2 cs : usb_transfer_ep0 rq b n e = Ok (r, e1) -> answers e1 cs e2 ->
    answers e (CTransferEp0 rq b n r :: cs) e2
| AnsStatus rq r e e1 e2 cs : usb_control_status rq e = Ok (r, e1) -> answers e1 cs e2 ->
    answers e (CControlStatus rq r :: cs) e2
| AnsBusy ep r e e1 e2 cs : usb_ep_busy ep e = Ok (r, e1) -> answers e1 cs e2 ->
    answers e (CEpBusy ep r :: cs) e2
| AnsTx d arg b n e e1 e2 cs : net_tx_cb d arg e = Ok (b, n, e1) -> answers e1 cs e2 ->
    answers e (CNetTx arg b (wrap16 n) :: cs) e2
| AnsRx b n r e e1 e2 cs : net_rx_cb b n e = Ok (r, e1) -> answers e1 cs e2 ->
    answers e (CNetRx b n (wrap16 r) :: cs) e2.

(** In the state [e], the function that [c] calls faults with [f].  What is
    offered to [net_rx_cb] lies inside the buffer. *)
Definition call_faults c (e : E) (f : fault) : Prop :=
  match c with
  | CTransferEp ep b n _ => usb_transfer_ep ep b n e = Fault f
  | CTransferEp0 rq b n _ => usb_transfer_ep0 rq b n e = Fault f
  | CControlStatus rq _ => usb_control_status rq e = Fault f
  | CEpBusy ep _ => usb_ep_busy ep e = Fault f
  | CNetTx arg _ _ => exists d, net_tx_cb d arg e = Fault f
  | CNetRx b n _ => 0 <= n <= Z.of_nat (length b) /\ net_rx_cb b n e = Fault f
  end.

(** The driver's run from [w], had all its calls been answered, ends in [w'];
    [f] is the answer to one of these calls, after the answers to those
    before it. *)
Definition faults_at w w' (f : fault) : Prop :=
  exists cs c cs' e, calls w' = calls w ++ cs ++ c :: cs' /\
    answers (env w) cs e /\ call_faults c e f.

Lemma answers_app e cs e1 cs' e2 :
  answers e cs e1 -> answers e1 cs' e2 -> answers e (cs ++ cs') e2.
Proof. induction 1; cbn; [done|..]; intros; econstructor; eauto. Qed.

(** ** Comparing the two runs *)

Record follows {A} (m m' : NM E A) : Prop := {
  follows_Ok w a w1 : m w = Ok (a, w1) -> m' w = Ok (a, w1) /\
    exists cs, calls w1 = calls w ++ cs /\ answers (env w) cs (env w1);
  follows_Fault w f a w' : m w = Fault f -> m' w = Ok (a, w') -> faults_at w w' f;
  follows_grows w a w' : m' w = Ok (a, w') -> calls w `prefix_of` calls w'
}.

(** A program without calls. *)
Lemma follows_pure {A} (m : NM E A) :
  (forall w a w', m w = Ok (a, w') -> calls w' = calls w /\ env w' = env w) -> follows m m.
Proof.
  intros Hm. split.
  - intros w a w1 Hr. destruct (Hm _ _ _ Hr) as [Hc He]. split; [done|].
    exists []. rewrite app_nil_r, He. split; [done|constructor].
  - congruence.
  - intros w a w' Hr. by destruct (Hm _ _ _ Hr) as [-> _].
Qed.

Lemma follows_ret {A} (a : A) : follows (ret a) (ret a).
Proof. apply follows_pure. by intros w b w' [= <- <-]. Qed.

Lemma follows_gets {A} (g : ncm_interface_t -> A) : follows (gets g) (gets g).
Proof. apply follows_pure. by intros w b w' [= <- <-]. Qed.

Lemma follows_modify g : follows (modify g) (modify g).
Proof. apply follows_pure. by intros w b w' [= <- <-]. Qed.

Lemma follows_getsr {A} (g : ncm_interface_t -> result A) : follows (getsr g) (getsr g).
Proof.
  apply follows_pure. intros w b w'. unfold getsr. by destruct (g (ncm_if w)); intros [= <- <-].
Qed.

Lemma follows_bind {A B} (m m' : NM E A) (k k' : A -> NM E B) :
  follows m m' -> (forall a, follows (k a) (k' a)) -> follows (bind m k) (bind m' k').
Proof.
  intros Hm Hk. split.
  - intros w b w2 (a&w1&H1&H2)%bind_Ok.
    destruct (follows_Ok _ _ Hm _ _ _ H1) as (Hm'&cs&Hc&Ha).
    destruct (follows_Ok _ _ (Hk a) _ _ _ H2) as (Hk'&cs'&Hc'&Ha').
    split; [apply bind_Ok; eauto|]. exists (cs ++ cs'). rewrite Hc', Hc, app_assoc.
    split; [done|]. by eapply answers_app.
  - intros w f b w2 Hf (a&w1&H1&H2)%bind_Ok. unfold bind in Hf.
    destruct (m w) as [[a' w1']|] eqn:E1; simplify_eq.
    + destruct (follows_Ok _ _ Hm _ _ _ E1) as (Hm'&cs&Hc&Ha). rewrite Hm' in H1. simplify_eq.
      destruct (follows_Fault _ _ (Hk a) _ _ _ _ Hf H2) as (cs1&c&cs2&e&Hc2&Ha2&Hcf).
      exists (cs ++ cs1), c, cs2, e. rewrite Hc2, Hc, !app_assoc. split; [done|].
      split; [by eapply answers_app|done].
    + destruct (follows_Fault _ _ Hm _ _ _ _ E1 H1) as (cs1&c&cs2&e&Hc2&Ha2&Hcf).
      destruct (follows_grows _ _ (Hk a) _ _ _ H2) as [cs3 Hc3].
      exists cs1, c, (cs2 ++ cs3), e. rewrite Hc3, Hc2, <- !app_assoc. done.
  - intros w b w2 (a&w1&H1&H2)%bind_Ok. transitivity (calls w1).
    + exact (follows_grows _ _ Hm _ _ _ H1).
    + exact (follows_grows _ _ (Hk a) _ _ _ H2).
Qed.

(** A recorded call. *)
Lemma follows_call {A B} (g g' : E -> result (A * E)) (h : A -> B) (c : A -> ext_call) m m' :
  (forall w, m w = let* (r, e) := g (env w) in Ok (h r, record_call (c r) e w)) ->
  (forall w, m' w = let* (r, e) := g' (env w) in Ok (h r, record_call (c r) e w)) ->
  (forall e r e1, g e = Ok (r, e1) -> g' e = Ok (r, e1) /\ answers e [c r] e1) ->
  (forall e f r e1, g e = Fault f -> g' e = Ok (r, e1) -> call_faults (c r) e f) ->
  follows m m'.
Proof.
  intros Hm Hm' HO HF. split; intros w; rewrite ?Hm, ?Hm'.
  - intros a w1 ([r e]&H1&[= <- <-])%rbind_Ok. destruct (HO _ _ _ H1) as [-> Ha].
    split; [done|]. by exists [c r].
  - intros f a w' Hf ([r e]&H1&[= <- <-])%rbind_Ok.
    destruct (g (env w)) as [[r' e']|f'] eqn:Hg; cbn in Hf; simplify_eq.
    exists [], (c r), [], (env w). split; [done|]. split; [constructor|by eapply HF].
  - intros a w' ([r e]&H1&[= <- <-])%rbind_Ok. by eexists.
Qed.
End faults.

Section answered.
Context {D E : Type} (N : NcmEnv D E) (frame : D -> list Z).
Implicit Types (w : world E).

Let N' : NcmEnv D E := answering N frame.
Abbreviation follows := (follows N).

Lemma or_else_Ok {A} (r : result A) d x : r = Ok x -> or_else r d = Ok x.
Proof. by intros ->. Qed.

Lemma follows_transfer_ep ep b n :
  follows (call_transfer_ep ep b n) (call_transfer_ep (H := N') ep b n).
Proof.
  eapply (follows_call N _ _ id); [intros; reflexivity..| |].
  - intros e r e1 Hr. split; [by apply or_else_Ok|]. econstructor; [done|constructor].
  - done.
Qed.

Lemma follows_transfer_ep0 rq b n :
  follows (call_transfer_ep0 rq b n) (call_transfer_ep0 (H := N') rq b n).
Proof.
  eapply (follows_call N _ _ id); [intros; reflexivity..| |].
  - intros e r e1 Hr. split; [by apply or_else_Ok|]. econstructor; [done|constructor].
  - done.
Qed.

Lemma follows_control_status rq :
  follows (call_control_status rq) (call_control_status (H := N') rq).
Proof.
  eapply (follows_call N _ _ id); [intros; reflexivity..| |].
  - intros e r e1 Hr. split; [by apply or_else_Ok|]. econstructor; [done|constructor].
  - done.
Qed.

Lemma follows_ep_busy ep : follows (call_ep_busy ep) (call_ep_busy (H := N') ep).
Proof.
  eapply (follows_call N _ _ id); [intros; reflexivity..| |].
  - intros e r e1 Hr. split; [by apply or_else_Ok|]. econstructor; [done|constructor].
  - done.
Qed.

Lemma follows_net_tx d arg : follows (call_net_tx d arg) (call_net_tx (H := N') d arg).
Proof.
  apply (follows_call N (@net_tx_cb _ _ N d arg) (@net_tx_cb _ _ N' d arg)
    (fun r => (r.1, wrap16 r.2)) (fun r => CNetTx arg r.1 (wrap16 r.2))).
  - intros w. unfold call_net_tx. by destruct (net_tx_cb d arg (env w)) as [[[]]|].
  - intros w. unfold call_net_tx. by destruct (@net_tx_cb _ _ N' d arg (env w)) as [[[]]|].
  - intros e [b n] e1 Hr. split; [by apply or_else_Ok|]. econstructor; [done|constructor].
  - intros e f r e1 Hf _. by exists d.
Qed.

Lemma follows_net_rx window size :
  follows (call_net_rx window size) (call_net_rx (H := N') window size).
Proof.
  eapply (follows_call N _ _ (fun r => wrap16 r) (fun r => CNetRx window size (wrap16 r)));
    [intros; reflexivity..| |].
  - intros e r e1 Hr. split; [unfold N'; cbn [answering net_rx_cb]; rewrite Hr; by destruct (_ && _)|].
    econstructor; [done|constructor].
  - intros e f r e1 Hf. unfold N'; cbn [answering net_rx_cb]. rewrite Hf. destruct (_ && _) eqn:Hb; [|done]. intros _.
    split; [lia|done].
Qed.

(** Follow the structure of a program on both sides. *)
Ltac follow :=
  repeat first
    [ apply follows_ret | apply follows_gets | apply follows_getsr | apply follows_modify
    | apply follows_bind; [|intros]
    | apply follows_transfer_ep | apply follows_transfer_ep0 | apply follows_control_status
    | apply follows_ep_busy | apply follows_net_tx | apply follows_net_rx
    | match goal with
      | |- NcmFaults.follows _ (match ?x with _ => _ end) _ => destruct x
      | |- NcmFaults.follows _ (let '(_, _) := ?x in _) _ => destruct x
      | |- NcmFaults.follows _ (if ?x then _ else _) _ => destruct x
      end ].

Lemma run_event_follows tot_len ev :
  follows (run_event tot_len ev) (run_event (H := N') tot_len ev).
Proof.
  destruct ev; cbn [run_event]; unfold link_output_app, usb_receive, net_can_tx, net_tx,
    net_rx_renew, net_usb_transfer, net_usb_control_transfer, tx_datagram_fits_user_ntb,
    tx_accept_user_ntb, tx_fetch_user_ntb, tx_try_start, transfer_ntb_in, tx_notification,
    tx_insert_zlp, rx_update_user_ntb, rx_fetch_user_ntb, rx_offer_datagram, rx_try_start,
    push_to, pop_from, update_ntb; follow.
Qed.

(** A sequence of events that return is one with the calls answered. *)
Lemma host_step_answered st st' :
  host_step (frame := frame) st st' -> host_step (H := N') (frame := frame) st st'.
Proof.
  destruct 1 as [n w w' data ? ? Hr|n w w' ev ? ? Hr];
    apply (follows_Ok _ _ _ (run_event_follows _ _)) in Hr as [Hr _].
  - by apply HostReceived with data.
  - by apply HostOther with ev.
Qed.
End answered.

(** ** Theorems *)

(** C2. Faults only come from outside: the driver runs with arbitrary
    functions around it, which may fault.  From [net_init] on, after every
    sequence of events in which the host's data are well-formed NTBs for
    accepted receive requests and the frames sent fit an empty NTB, the
    driver itself does nothing wrong on a further such event: with its calls
    answered it runs to its end, without an access out of range or through a
    null pointer, and the event ends there as well unless one of the calls it
    makes on the way answers with a fault, which the event then ends with.
    Whatever it offers to [net_rx_cb] lies inside the receive buffer. *)
Theorem driver_faults_outside {D E} (N : NcmEnv D E) (frame : D -> list Z)
    (w0 w1 : world E) n w ev :
  NcmFrames D E N frame ->
  calls w0 = [] -> net_init w0 = Ok (tt, w1) ->
  rtc (host_step (frame := frame)) (0%nat, w1) (n, w) ->
  enabled (frame := frame) n w ev ->
  exists w', run_event (H := answering N frame) (fun p => dg_len (frame p)) ev w = Ok (tt, w') /\
    (run_event (fun p => dg_len (frame p)) ev w = Ok (tt, w') \/
     exists f, run_event (fun p => dg_len (frame p)) ev w = Fault f /\ faults_at N w w' f).
Proof.
  intros F Hc Hi Hsteps Hen. pose proof (answering_provider N frame F) as P.
  assert (Hp : phase_inv n w).
  { rewrite net_init_runs in Hi. injection Hi as <-.
    apply (host_steps_keep (H0 := P) 0 (with_if init_ncm_if w0)); [|by apply init_phase].
    revert Hsteps. apply rtc_congruence with (f := id). apply host_step_answered. }
  destruct (enabled_runs (H0 := P) n w ev Hp Hen) as [w' Hr]. exists w'. split; [done|].
  pose proof (run_event_follows N frame (fun p => dg_len (frame p)) ev) as Hf.
  destruct (run_event (H := N) _ ev w) as [[[] w2]|f] eqn:Ho.
  - left. apply (follows_Ok _ _ _ Hf) in Ho as [Ho _]. congruence.
  - right. exists f. split; [done|]. by apply (follows_Fault _ _ _ Hf _ _ _ _ Ho Hr).
Qed.

(** The bench, with an IN endpoint whose buffer takes 64 bytes and which does
    not look before it copies. *)
Definition narrow_env : NcmEnv (list Z) bench := {|
  usb_transfer_ep ep b n e :=
    if (ep =? NCM_EP_DATA_IN) && (64 <? n) then Fault OutOfBounds else usb_transfer_ep ep b n e;
  usb_transfer_ep0 := usb_transfer_ep0;
  usb_control_status := usb_control_status;
  usb_ep_busy := usb_ep_busy;
  net_tx_cb := net_tx_cb;
  net_rx_cb := net_rx_cb
|}.

Lemma narrow_frames : NcmFrames (list Z) bench narrow_env bench_frame.
Proof.
  split; [by intros d arg e b n e' [= <- <- <-]| |].
  - apply (frame_bytes (NcmProvider := bench_provider)).
  - apply (frame_length (NcmProvider := bench_provider)).
Qed.

(** The host has selected the interface. *)
Definition narrow_selected : world bench :=
  match run_event (H := narrow_env) dg_len (EvControl (set_interface 1)) bench_init with
  | Ok (_, w) => w
  | Fault _ => bench_init
  end.

Lemma narrow_steps :
  rtc (host_step (H := narrow_env) (frame := bench_frame)) (0%nat, bench_init) (0%nat, narrow_selected).
Proof.
  eapply rtc_l; [|apply rtc_refl].
  apply (HostOther (H := narrow_env) 0 bench_init narrow_selected (EvControl (set_interface 1)));
    [done|done|vm_compute; reflexivity].
Qed.

Lemma driver_faults_outside_witness :
  run_event (H := narrow_env) (fun p => dg_len (bench_frame p)) (EvSend [1; 2; 3; 4; 5; 6; 7; 8; 9]) narrow_selected
    = Fault OutOfBounds /\
  exists w', faults_at narrow_env narrow_selected w' OutOfBounds.
Proof.
  assert (Hf : run_event (H := narrow_env) (fun p => dg_len (bench_frame p)) (EvSend [1; 2; 3; 4; 5; 6; 7; 8; 9])
            narrow_selected = Fault OutOfBounds) by (vm_compute; reflexivity).
  split; [exact Hf|].
  destruct (driver_faults_outside narrow_env bench_frame (bench_world false true 1) bench_init 0
    narrow_selected (EvSend [1; 2; 3; 4; 5; 6; 7; 8; 9]) narrow_frames eq_refl
    (net_init_runs _) narrow_steps) as (w'&_&[Hr|(f&Hr&Ha)]).
  - vm_compute. discriminate.
  - rewrite Hf in Hr. discriminate.
  - exists w'. rewrite Hf in Hr. injection Hr as <-. exact Ha.
Defined.
