(* ===== verification/NcmDeliver.v ===== *)
(** * Delivery of received datagrams

    What the application gets from repeated calls of [net_rx_renew] on a
    received NTB, what the transmit and the receive side of the driver make
    of each other's NTBs, and what happens with NTBs that are malformed. *)

From stdpp Require Import base numbers list decidable sets relations.
From Stdlib Require Import ZArith Lia Bool.
From S2P Require Import Prelude NcmTypes NtbList Ntb NcmTx NcmRx NcmNet NcmSystem NcmBench NcmRun NcmSafe.
Open Scope Z_scope.

(** ** The cursor over an NTB *)

(** The datagram after [i] of [n], once the application has answered [c]. *)
Definition rx_next (n i : nat) (c : Z) : nat :=
  if c =? 0 then i else if decide (S i < n)%nat then S i else i.

(** The calls of [net_rx_cb] when it answers [answers]. *)
Fixpoint offered (b : list Z) (es : list (Z * Z)) (i : nat) (answers : list Z) : list ext_call :=
  match answers with
  | [] => []
  | c :: cs =>
      match es !! i with
      | Some e => CNetRx (drop (Z.to_nat e.1) b) e.2 c :: offered b es (rx_next (length es) i c) cs
      | None => []
      end
  end.

(** The datagrams that the application has accepted. *)
Definition accepted_of (c : ext_call) : option (list Z) :=
  match c with
  | CNetRx window size r => if r =? 0 then None else Some (take (Z.to_nat size) window)
  | _ => None
  end.
Definition rx_frames (cs : list ext_call) : list (list Z) := omap accepted_of cs.

Lemma rx_next_lt n i c : (i < n)%nat -> (rx_next n i c < n)%nat.
Proof. intros. unfold rx_next. destruct (c =? 0); [done|]. by case_decide. Qed.

Section deliver.
Context {D E : Type} `{NcmProvider D E frame}.
Implicit Types (w : world E).

Fixpoint renews (n : nat) : NM E unit :=
  match n with
  | O => ret tt
  | S n => let! _ := net_rx_renew in renews n
  end.

(** The application is at datagram [i] of the NTB [b], which USB keeps too. *)
Definition delivering (b : list Z) (i : nat) (w : world E) : Prop :=
  rx_inv (ncm_if w) /\ exists p, rx_usbd_ntb (ncm_if w) = Some p /\ rx_at (ncm_if w) p b i.

Lemma wp_renew_delivers b es i e w (Q : unit -> world E -> Prop) :
  delivering b i w -> rx_lists b es -> es !! i = Some e ->
  (forall w' c, delivering b (rx_next (length es) i c) w' ->
     calls w' = calls w ++ [CNetRx (drop (Z.to_nat e.1) b) e.2 c] -> Q tt w') ->
  wp net_rx_renew w Q.
Proof.
  intros (Hr&p&Hu&Hat) Hl He HQ. pose proof Hat as (Hus&_).
  unfold net_rx_renew, rx_update_user_ntb, rx_fetch_user_ntb. wp_steps. rewrite Hus. wp_steps.
  rewrite Hus. eapply wp_rx_offer; [done|done|done|exact He|].
  intros r w' c Hr' _ Hc _ Hat' _ Hu'. wp_step. unfold rx_try_start. wp_steps.
  rewrite Hu', Hu. wp_steps. eapply HQ; [|exact Hc]. split; [done|]. exists p.
  by rewrite Hu'.
Qed.

Lemma wp_renews_deliver n b es i w :
  delivering b i w -> rx_lists b es -> (i < length es)%nat ->
  wp (renews n) w (fun _ w' => exists answers, length answers = n /\
    calls w' = calls w ++ offered b es i answers).
Proof.
  revert w i. induction n as [|n IH]; intros w i Hd Hl Hi.
  { apply wp_ret. exists []. cbn. by rewrite app_nil_r. }
  destruct (lookup_lt_is_Some_2 es i Hi) as [e He]. cbn [renews]. wp_step.
  eapply wp_renew_delivers; [done|done|done|]. intros w1 c Hd1 Hc1.
  eapply wp_mono; [apply (IH w1 _ Hd1 Hl (rx_next_lt _ _ _ Hi))|]. cbn beta.
  intros _ w' (answers&Hn&Hc). exists (c :: answers). cbn. rewrite Hn, He, Hc, Hc1.
  by rewrite <- app_assoc.
Qed.
End deliver.

(** The frames of an NTB of the transmit side, all accepted. *)
Lemma offered_frames seq ds b answers i :
  ntb_encodes seq ds b -> (i < length ds)%nat -> Forall (fun c => c <> 0) answers ->
  rx_frames (offered b (encoded_entries ds) i answers) =
    (fun k => ds !!! Nat.min (i + k) (length ds - 1)) <$> List.seq 0 (length answers).
Proof.
  intros He Hi Hc. revert i Hi. induction Hc as [|c cs Hc _ IH]; intros i Hi; [done|].
  destruct (lookup_lt_is_Some_2 ds i Hi) as [d Hd]. cbn [offered].
  unfold encoded_entries at 1. rewrite list_lookup_imap, Hd. cbn [fmap option_fmap option_map fst snd].
  unfold rx_frames. cbn [omap list_omap accepted_of]. destruct (Z.eqb_spec c 0); [done|].
  cbn [length List.seq fmap list_fmap]. f_equal.
  - rewrite Nat.add_0_r, Nat.min_l by lia.
    rewrite (list_lookup_total_correct _ _ _ Hd). exact (enc_payload _ _ _ He i d Hd).
  - unfold encoded_entries. rewrite length_imap. fold (encoded_entries ds).
    assert (Hnext : rx_next (length ds) i c = Nat.min (S i) (length ds - 1)).
    { unfold rx_next. destruct (Z.eqb_spec c 0); [done|]. case_decide; lia. }
    rewrite Hnext. etransitivity; [apply IH; lia|].
    rewrite <- (fmap_S_seq 0), <- list_fmap_compose. apply list_fmap_ext. intros _ k _. unfold compose.
    f_equal. lia.
Qed.

(** Answers of a user that always accepts. *)
Lemma offered_answers b es i answers c :
  (i < length es)%nat -> c ∈ answers -> exists window size, CNetRx window size c ∈ offered b es i answers.
Proof.
  revert i. induction answers as [|c' cs IH]; intros i Hi Hc; [by apply elem_of_nil in Hc|].
  destruct (lookup_lt_is_Some_2 es i Hi) as [e He]. cbn [offered]. rewrite He.
  apply elem_of_cons in Hc as [->|Hc].
  - eexists _, _. apply list_elem_of_here.
  - destruct (IH _ (rx_next_lt _ _ c' Hi) Hc) as (win&size&Hin). exists win, size.
    by apply list_elem_of_further.
Qed.

(** ** Theorems *)

(** C5. Delivery follows the datagram table: while the application is at a
    datagram of an NTB whose table lists only datagrams inside the NTB, any
    number of calls of [net_rx_renew] run without a fault, and each makes one
    call of [net_rx_cb] with the current datagram's bytes and length; the
    cursor moves to the next datagram when the answer is not zero and there is
    one, and stays otherwise. *)
Theorem renew_follows_table {D E} `{NcmProvider D E frame} n b es i (w : world E) :
  delivering b i w -> rx_lists b es -> (i < length es)%nat ->
  exists answers w', renews n w = Ok (tt, w') /\ length answers = n /\
    calls w' = calls w ++ offered b es i answers.
Proof.
  intros Hd Hl Hi.
  pose proof (wp_renews_deliver n b es i w Hd Hl Hi) as ([]&w'&Hrun&answers&Hn&Hc)%wp_Ok. eauto.
Qed.

(** C8. Round trip between the two sides of the driver, with its flaw: from an
    NTB that the transmit side built for the frames [ds], none of them empty, [n]
    calls of [net_rx_renew] with a [net_rx_cb] that never refuses a datagram, and
    functions around the driver that return, deliver the frames of [ds] in order, and, the receive NTB never being released, the last frame again
    on every further call. *)
Theorem loopback_delivers {D E} `{NcmProvider D E frame} n seq ds b (w : world E) :
  delivering b 0 w -> ntb_encodes seq ds b -> ds <> [] -> Forall (fun d => d <> []) ds ->
  Z.of_nat (length ds) <= NCM_MAX_DATAGRAMS_PER_NTB ->
  (forall w' window size, renews n w = Ok (tt, w') -> CNetRx window size 0 ∉ calls w') ->
  exists w' new, renews n w = Ok (tt, w') /\ calls w' = calls w ++ new /\
    rx_frames new = (fun k => ds !!! Nat.min k (length ds - 1)) <$> List.seq 0 n.
Proof.
  intros Hd He Hne Hds Hle Hacc. pose proof (rx_lists_encoded seq ds b He Hle Hds) as Hl.
  assert (Hlen : (0 < length ds)%nat) by (destruct ds; [done|cbn; lia]).
  assert (Hlen' : (0 < length (encoded_entries ds))%nat)
    by (unfold encoded_entries; by rewrite length_imap).
  pose proof (wp_renews_deliver n b _ 0 w Hd Hl Hlen') as ([]&w'&Hrun&answers&Hn&Hc)%wp_Ok.
  exists w'. eexists. split; [done|]. split; [exact Hc|].
  rewrite (offered_frames seq ds b answers 0 He Hlen), Hn; [done|].
  apply Forall_forall. intros c Hin ->.
  destruct (offered_answers b (encoded_entries ds) 0 answers 0 Hlen' Hin) as (win&size&Hcall).
  apply (Hacc w' win size Hrun). rewrite Hc. apply elem_of_app. by right.
Qed.

(** ** Malformed NTBs *)

Section malformed.
Context {D E : Type} `{NcmProvider D E frame}.
Implicit Types (w : world E).

Lemma bind_fault {A B} (m : NM E A) (k : A -> NM E B) w f :
  wp m w (fun a w' => k a w' = Fault f) -> bind m k w = Fault f.
Proof. unfold wp, bind. by destruct (m w) as [[a w']|]. Qed.

Lemma bind_fault_first {A B} (m : NM E A) (k : A -> NM E B) w f :
  m w = Fault f -> bind m k w = Fault f.
Proof. unfold bind. by intros ->. Qed.

(** The table of the NTB, or the first datagram it lists, is outside it. *)
Definition malformed (data : list Z) : Prop :=
  (exists ndp, rd16 data nth_wNdpIndex = Ok ndp /\
     NCM_NTB_MAX_SIZE < ndp + sizeof_ndp16_t + sizeof_ndp16_datagram_t) \/
  (exists dI dL, rx_entry data 0 = Ok (dI, dL) /\ NCM_NTB_MAX_SIZE < dI).

Lemma rd_fault b off n : Z.of_nat (length b) < off + n -> rd b off n = Fault OutOfBounds.
Proof.
  intros. unfold rd. destruct (in_range b off n) eqn:Hr; [|done].
  apply in_range_spec in Hr. lia.
Qed.

Lemma malformed_offer data t p w :
  malformed data -> Z.of_nat (length (data ++ t)) = NCM_NTB_MAX_SIZE ->
  rx_at (ncm_if w) p (data ++ t) 0 -> rx_offer_datagram p w = Fault OutOfBounds.
Proof.
  intros Hm Hl (_&Hd&Hi). unfold rx_offer_datagram. apply bind_fault. eapply wp_getsr; [done|].
  apply bind_fault, wp_gets. rewrite Hi.
  destruct Hm as [(ndp&Hn&Hout)|(dI&dL&He&Hout)].
  - apply bind_fault_first. unfold getsr, rx_entry. rewrite (rd_extend _ _ _ _ _ Hn). cbn [rbind].
    unfold sizeof_ndp16_t, sizeof_ndp16_datagram_t, dg_wDatagramIndex, dg_wDatagramLength in *.
    destruct (rd16 (data ++ t) (ndp + 8 + 4 * Z.of_nat 0 + 0)) as [v|f] eqn:E1; cbn [rbind].
    + by rewrite rd_fault by lia.
    + unfold rd in E1. destruct (in_range _ _ _); [done|]. by injection E1 as <-.
  - apply bind_fault. eapply wp_getsr; [exact (rx_entry_extend _ _ _ _ He)|]. cbn beta iota.
    apply bind_fault_first. unfold getsr, rx_window. rewrite Hl.
    destruct (Z.leb_spec dI NCM_NTB_MAX_SIZE); [lia|]. by rewrite andb_false_r.
Qed.

Lemma malformed_update data t p w :
  sys_inv w -> malformed data -> rx_user_ntb (ncm_if w) = None ->
  ntb_queue (rx_wait_ntb (ncm_if w)) = [p] -> ntb_data (ncm_if w) p = Ok (data ++ t) ->
  rx_update_user_ntb w = Fault OutOfBounds.
Proof.
  intros Hs Hm Hus Hq Hd.
  assert (Hv : rx_valid_ptr p).
  { apply (rx_pointers (ncm_if w)); [apply Hs|]. rewrite Hq. set_solver. }
  destruct (rx_data_ok (ncm_if w) p (proj1 (proj2 Hs)) Hv) as (b&Hb&Hlen&_).
  rewrite Hd in Hb. injection Hb as <-.
  apply bind_fault, wp_fetch_sys; [done|done|]. rewrite Hq. cbn.
  intros w' _ _ Hb _ Hus' Hi _. rewrite Hus'.
  eapply malformed_offer; [done|exact Hlen|]. split; [done|]. split; [|done]. rewrite <- Hd.
  destruct Hv as [->| ->]; unfold ntb_data; by rewrite Hb.
Qed.
End malformed.

(** The driver does not validate what it receives: data whose table, or
    whose first datagram, lies outside the NTB makes the completion of the
    receive request access memory outside the NTB. *)
Theorem malformed_ntb_faults {D E} `{NcmProvider D E frame} n data (w : world E) :
  phase_inv n w -> (n < out_requests (calls w))%nat -> bytes_ok data ->
  Z.of_nat (length data) <= NCM_NTB_MAX_SIZE -> malformed data ->
  run_event (fun p => dg_len (frame p)) (EvReceived data) w = Fault OutOfBounds.
Proof.
  intros Hp Hlt Hb Hlen Hm.
  destruct (received_renews n data w Hp Hlt Hb Hlen) as (p&t&w2&Hs2&_&Hus&Hq&Hd&_&->).
  apply bind_fault_first, bind_fault_first. by eapply malformed_update.
Qed.

(** A host's NTB that points to a table outside of it. *)
Definition bad_data : list Z := [78; 67; 77; 72; 12; 0; 0; 0; 40; 0; 255; 255].

Lemma bench_requested_phase : phase_inv 0 bench_requested.
Proof.
  apply (host_steps_keep (frame := bench_frame) 0 bench_init 0 bench_requested
           bench_requested_steps).
  exact (init_phase (bench_world false true 1) eq_refl).
Qed.

Lemma malformed_ntb_faults_witness :
  run_event (fun p => dg_len (bench_frame p)) (EvReceived bad_data) bench_requested = Fault OutOfBounds.
Proof.
  refine (malformed_ntb_faults (frame := bench_frame) 0 bad_data bench_requested bench_requested_phase _ _ _ _).
  - vm_compute. lia.
  - repeat constructor; lia.
  - vm_compute. discriminate.
  - left. exists 65535. split; [reflexivity|vm_compute; reflexivity].
Defined.

(** An application that is at the first datagram of an NTB that the transmit
    side built from two frames. *)
Definition looped_ntb : list Z :=
  match build_ntb 0 [[1; 2; 3]; [4; 5]] zero_ntb with Ok b => b | Fault _ => [] end.

Lemma looped_ntb_encodes : ntb_encodes 0 [[1; 2; 3]; [4; 5]] looped_ntb.
Proof.
  unfold looped_ntb, build_ntb.
  destruct (populate_ntb_encodes 0 zero_ntb) as (b1&->&He1); [done|apply bytes_ok_zeroes|lia|].
  cbn [rbind]. destruct (append_all_encodes 0 [] [[1; 2; 3]; [4; 5]] b1 He1) as (b2&Hb2&He2);
    [repeat constructor; lia|vm_compute; discriminate..|].
  change (append_all 0 [[1; 2; 3]; [4; 5]] b1 = Ok b2) in Hb2. rewrite Hb2. exact He2.
Qed.

Definition looped_world : world bench :=
  mk_world (set_rx_user_ntb (Some (RxNtb 0)) (set_rx_usbd_ntb (Some (RxNtb 0))
             (set_rx_free_ntb (mk_ntb_list [None; Some (RxNtb 1)] 1 1)
               (set_ntb_data (RxNtb 0) looped_ntb init_ncm_if))))
    (mk_bench false true 1) [].

Lemma looped_world_delivering : delivering looped_ntb 0 looped_world.
Proof.
  split; [|by exists (RxNtb 0)]. destruct init_rx_inv as [Hb Hf Hw Hi Hp]. constructor; try done.
  - exact (buffers_insert _ 0 _ Hb (enc_size _ _ _ looped_ntb_encodes) (enc_bytes _ _ _ looped_ntb_encodes)).
  - apply inv_later.
  - intros p Hin. change (p ∈ [RxNtb 1; RxNtb 0; RxNtb 0]) in Hin.
    rewrite !elem_of_cons, elem_of_nil in Hin. unfold rx_valid_ptr. tauto.
Qed.

Lemma looped_ntb_lists : rx_lists looped_ntb (encoded_entries [[1; 2; 3]; [4; 5]]).
Proof.
  apply (rx_lists_encoded 0); [apply looped_ntb_encodes|vm_compute; discriminate|].
  repeat constructor; discriminate.
Qed.

Lemma renew_follows_table_witness :
  exists answers w', renews 5 looped_world = Ok (tt, w') /\ length answers = 5%nat /\
    calls w' = offered looped_ntb (encoded_entries [[1; 2; 3]; [4; 5]]) 0 answers.
Proof.
  refine (renew_follows_table (frame := bench_frame) 5 looped_ntb _ 0 looped_world
            looped_world_delivering looped_ntb_lists _).
  vm_compute. lia.
Defined.

Definition rx_answer (c : ext_call) : Z := match c with CNetRx _ _ r => r | _ => 1 end.

Lemma looped_answers :
  rx_answer <$> calls (match renews 4 looped_world with Ok (_, w) => w | Fault _ => looped_world end) =
  [1; 1; 1; 1].
Proof. vm_compute. reflexivity. Qed.

Lemma loopback_delivers_witness :
  exists w' new, renews 4 looped_world = Ok (tt, w') /\ calls w' = new /\
    rx_frames new = [[1; 2; 3]; [4; 5]; [4; 5]; [4; 5]].
Proof.
  refine (loopback_delivers (frame := bench_frame) 4 0 [[1; 2; 3]; [4; 5]] looped_ntb looped_world
            looped_world_delivering looped_ntb_encodes _ _ _ _).
  - discriminate.
  - repeat constructor; discriminate.
  - vm_compute. discriminate.
  - intros w' window size Hrun Hin.
    assert (Hc : calls w' = calls (match renews 4 looped_world with Ok (_, w) => w | Fault _ => looped_world end))
      by (rewrite Hrun; reflexivity).
    rewrite Hc in Hin. apply (list_elem_of_fmap_2 rx_answer) in Hin.
    rewrite looped_answers in Hin. cbn in Hin. rewrite !elem_of_cons, elem_of_nil in Hin. intuition discriminate.
Defined.
