(* ===== verification/NcmBehaviour.v ===== *)
(** * Behaviour of single operations

    Control requests, notifications, the bound on datagram sizes and the
    parameters the device reports: one theorem per operation, on every
    branch. *)

From stdpp Require Import base numbers list decidable sets.
From Stdlib Require Import ZArith Lia Bool.
From S2P Require Import Prelude NcmTypes NtbList Ntb NcmTx NcmRx NcmNet NcmSystem NcmBench NcmRun.
Open Scope Z_scope.

(** ** Sizes *)

Section sizes.
Context {D E : Type} `{NcmProvider D E frame}.
Implicit Types (w : world E).

Lemma padded_max n : padded n <= max_frame <-> n <= max_frame.
Proof.
  change max_frame with 3144. split; [pose proof (padded_bounds n); lia|]. intros Hn.
  pose proof (padded_bounds n). pose proof (padded_aligned n) as Ha.
  apply Z.mod_divide in Ha as [k Hk]; [|lia]. lia.
Qed.

(** With an empty NTB, [net_tx] on too large a frame writes outside it. *)
Lemma net_tx_overflow p (d : D) w :
  tx_user_ntb (ncm_if w) = Some p -> ntb_carries (ncm_if w) p [] ->
  max_frame < dg_len (frame d) -> net_tx d 0 w = Fault OutOfBounds.
Proof.
  intros Hu (seq&b&Hd&He) Hbig. unfold net_tx, bind at 1, gets at 1. rewrite Hu.
  unfold bind at 1, call_net_tx. destruct (net_tx_cb_copies d 0 (env w)) as (e&->). cbn [rbind].
  unfold bind at 1, gets at 1. unfold bind at 1, update_ntb, bind at 1, getsr at 1.
  cbn [ncm_if record_call]. rewrite Hd. cbn [rbind]. unfold append_datagram.
  rewrite (enc_block_length _ _ _ He). cbn [rbind].
  assert (Hwr : wr b (block_length []) (frame d) = Fault OutOfBounds).
  { unfold wr. destruct (in_range _ _ _) eqn:Hr; [|done]. apply in_range_spec in Hr.
    rewrite (enc_size _ _ _ He) in Hr. unfold block_length, max_frame, dg_len in *. cbn in *. lia. }
  by rewrite Hwr.
Qed.
End sizes.

(** The bound on frames: with a free NTB and none in the user's hands,
    [net_can_tx] answers [true] for a frame of any size, and [net_tx] then
    succeeds if and only if the frame is at most 3144 bytes; a larger one is
    written past the end of the NTB, the size being checked only afterwards. *)
Theorem net_tx_size_bound {D E} `{NcmProvider D E frame} (d : D) (w : world E) :
  sys_inv w -> tx_user_ntb (ncm_if w) = None -> ntb_queue (tx_free_ntb (ncm_if w)) <> [] ->
  exists w', net_can_tx (dg_len (frame d)) w = Ok (true, w') /\
    (dg_len (frame d) <= max_frame -> exists w'', net_tx d 0 w' = Ok (tt, w'')) /\
    (max_frame < dg_len (frame d) -> net_tx d 0 w' = Fault OutOfBounds).
Proof.
  intros (Hs&_) Hu Hfree.
  assert (Hcan : wp (net_can_tx (dg_len (frame d))) w (fun r w' => r = true /\
            tx_inv (ncm_if w') /\ user_empty (ncm_if w'))).
  { unfold net_can_tx, tx_datagram_fits_user_ntb, tx_accept_user_ntb. wp_steps. rewrite Hu. wp_steps.
    assert (Hv : tx_view (set_tx_user_ntb None (ncm_if w)) = tx_view (ncm_if w))
      by (unfold tx_view; cbn; by rewrite Hu).
    rewrite Hu. wp_steps. cbn [negb].
    apply wp_tx_fetch; [by apply (tx_inv_view (ncm_if w))|].
    intros [] w' Hs' _ _ Ho; [by wp_steps|]. by destruct Hfree, Ho. }
  apply wp_Ok in Hcan as (r&w'&Hrun&->&Hs'&He). exists w'. split; [done|].
  pose proof He as (Hi&p&Hp&Hc). split.
  - intros Hle. apply padded_max in Hle.
    pose proof (wp_net_tx d 0 w' (fun _ _ => True) Hs' (user_empty_fits _ _ He Hle)) as Hw.
    destruct (proj1 (wp_Ok _ _ _) (Hw ltac:(done))) as ([]&w''&?&_). eauto.
  - intros Hbig. by eapply net_tx_overflow.
Qed.

Lemma bench_init_inv : sys_inv bench_init.
Proof. split; [apply init_tx_inv|]. split; [apply init_rx_inv|]. done. Qed.

Lemma net_tx_size_bound_witness :
  exists w', net_can_tx (dg_len (bench_frame (replicate 1500 7))) bench_init = Ok (true, w') /\
    exists w'', net_tx (replicate 1500 7) 0 w' = Ok (tt, w'').
Proof.
  destruct (net_tx_size_bound (frame := bench_frame) (replicate 1500 7) bench_init bench_init_inv)
    as (w'&Hcan&Hsmall&_).
  - reflexivity.
  - discriminate.
  - exists w'. split; [exact Hcan|]. apply Hsmall. vm_compute. discriminate.
Defined.

(** ** Notifications *)

(** The two messages of a connection. *)
Definition notify_calls (r1 r2 : bool) : list ext_call :=
  [CTransferEp NCM_EP_NOTIFY (Some (notify_speed_bytes notify_speed)) sizeof_notify_speed r1;
   CTransferEp NCM_EP_NOTIFY (Some (notification_bytes notify_connection)) sizeof_notification r2].

Section notify.
Context {D E : Type} `{NcmProvider D E frame}.

Fixpoint notifications (n : nat) : NM E unit :=
  match n with
  | O => ret tt
  | S n => let! _ := net_usb_transfer NCM_EP_NOTIFY 0 in notifications n
  end.

(** One completed notification transfer. *)
Lemma wp_notified n (w : world E) (Q : bool -> world E -> Prop) :
  (notification_state (ncm_if w) = TX_NOTIFY_STATE_WAITING ->
   forall r1 r2 e, Q true (mk_world (set_notification_state TX_NOTIFY_STATE_CONNECTED (ncm_if w)) e
     (calls w ++ notify_calls r1 r2))) ->
  (notification_state (ncm_if w) = TX_NOTIFY_STATE_CONNECTED ->
   Q true (with_if (set_notification_state TX_NOTIFY_STATE_WAITING (ncm_if w)) w)) ->
  notification_state (ncm_if w) <> TX_NOTIFY_STATE_SPEED_CHANGE ->
  wp (net_usb_transfer NCM_EP_NOTIFY n) w Q.
Proof.
  intros Hw Hc Hn. change (net_usb_transfer NCM_EP_NOTIFY n)
    with (let! _ := tx_notification (E := E) true in ret true).
  unfold tx_notification. wp_steps. cbn [negb andb].
  destruct (notification_state (ncm_if w)) eqn:Hst; wp_steps; [|done|by apply Hc].
  specialize (Hw eq_refl r r0 e0). unfold notify_calls in Hw.
  unfold with_if, record_call. cbn [ncm_if env calls]. rewrite <- app_assoc. exact Hw.
Qed.
End notify.

(** The notification state machine: from the state of [net_init], the
    [n]-th completion of a notification transfer sends the speed and then the
    connection message when [n] is odd and nothing when it is even, so the
    two messages are repeated on every second completion; the state in between
    the two messages is never seen outside of [tx_notification]. *)
Theorem notification_cycle {D E} `{NcmProvider D E frame} n (w : world E) :
  notification_state (ncm_if w) = TX_NOTIFY_STATE_WAITING ->
  exists w' answers, notifications n w = Ok (tt, w') /\
    notification_state (ncm_if w') =
      (if Nat.even n then TX_NOTIFY_STATE_WAITING else TX_NOTIFY_STATE_CONNECTED) /\
    length answers = Nat.div2 (S n) /\
    calls w' = calls w ++ concat ((fun a => notify_calls a.1 a.2) <$> answers).
Proof.
  revert w. induction n as [n IH] using (well_founded_induction Wf_nat.lt_wf). intros w Hst.
  destruct n as [|[|n]].
  - exists w, []. cbn. by rewrite app_nil_r.
  - assert (Hone : wp (notifications 1) w (fun _ w' => exists r1 r2,
              notification_state (ncm_if w') = TX_NOTIFY_STATE_CONNECTED /\
              calls w' = calls w ++ notify_calls r1 r2)).
    { cbn [notifications]. wp_step. apply wp_notified; try congruence; eauto.
      intros _ r1 r2 e. wp_steps. by exists r1, r2. }
    apply wp_Ok in Hone as ([]&w'&Hrun&r1&r2&Hs&Hc). exists w', [(r1, r2)]. by rewrite Hc.
  - assert (Htwo : wp (net_usb_transfer NCM_EP_NOTIFY 0) w (fun _ w1 =>
              wp (net_usb_transfer NCM_EP_NOTIFY 0) w1 (fun _ w2 => exists r1 r2,
                notification_state (ncm_if w2) = TX_NOTIFY_STATE_WAITING /\
                calls w2 = calls w ++ notify_calls r1 r2))).
    { apply wp_notified; try congruence. intros _ r1 r2 e. apply wp_notified; cbn; try congruence; eauto. }
    apply wp_Ok in Htwo as (?&w1&Hrun1&Htwo). apply wp_Ok in Htwo as (?&w2&Hrun2&r1&r2&Hs2&Hc2).
    destruct (IH n ltac:(lia) w2 Hs2) as (w'&answers&Hrun&Hs&Hl&Hc).
    exists w', ((r1, r2) :: answers). cbn [notifications]. unfold bind. rewrite Hrun1, Hrun2.
    split; [done|]. split; [done|]. split; [cbn in *; by rewrite Hl|].
    rewrite Hc, Hc2. cbn. by rewrite <- app_assoc.
Qed.

Lemma notification_cycle_witness :
  exists w', notifications 3 bench_init = Ok (tt, w') /\
    notification_state (ncm_if w') = TX_NOTIFY_STATE_CONNECTED.
Proof.
  destruct (notification_cycle (frame := bench_frame) 3 bench_init eq_refl) as (w'&answers&Hrun&Hs&_).
  exists w'. split; [exact Hrun|exact Hs].
Defined.

(** ** Control requests *)

(** The requests the driver handles. *)
Definition control_handled (rq : usb_control_request_t) : bool :=
  ((req_type rq =? USB_TYPE_STANDARD) &&
     ((req_bRequest rq =? USB_REQ_GET_INTERFACE) || (req_bRequest rq =? USB_REQ_SET_INTERFACE))) ||
  ((req_type rq =? USB_TYPE_CLASS) && (req_bRequest rq =? NCM_GET_NTB_PARAMETERS)).

(** No NTB is there to take a datagram from. *)
Definition nothing_received (s : ncm_interface_t) : Prop :=
  rx_user_ntb s = None /\ exists l, pop_ntb (rx_wait_ntb s) = Ok (None, l).

(** What a state keeps when the receive side or the notification moves on. *)
Definition rest_view (s : ncm_interface_t) := (interface_active s, tx_view s).

Section control.
Context {D E : Type} `{NcmEnv D E}.
Implicit Types (w : world E).

(** What a control request does: the state it leaves, and all the calls it
    makes.  [offered] is the datagram offered on SET_INTERFACE, [notified] the
    two notifications, and the last call is the reply on endpoint 0. *)
Inductive control_effect (rq : usb_control_request_t) (w w' : world E) : Prop :=
| CtlGetInterface r :
    req_type rq = USB_TYPE_STANDARD -> req_bRequest rq = USB_REQ_GET_INTERFACE ->
    ncm_if w' = ncm_if w ->
    calls w' = calls w ++ [CTransferEp0 rq [interface_active (ncm_if w)] 1 r] ->
    control_effect rq w w'
| CtlSetInactive r :
    req_type rq = USB_TYPE_STANDARD -> req_bRequest rq = USB_REQ_SET_INTERFACE ->
    wrap8 (req_wValue rq) = 0 ->
    ncm_if w' = set_interface_active 0 (ncm_if w) ->
    calls w' = calls w ++ [CControlStatus rq r] ->
    control_effect rq w w'
| CtlSetActive r offered notified :
    req_type rq = USB_TYPE_STANDARD -> req_bRequest rq = USB_REQ_SET_INTERFACE ->
    wrap8 (req_wValue rq) <> 0 ->
    rest_view (ncm_if w') = (wrap8 (req_wValue rq), tx_view (ncm_if w)) ->
    (offered = [] /\ nothing_received (ncm_if w) \/
     (exists window size a, offered = [CNetRx window size a]) /\ ~ nothing_received (ncm_if w)) ->
    (if bool_decide (notification_state (ncm_if w) = TX_NOTIFY_STATE_WAITING)
     then notification_state (ncm_if w') = TX_NOTIFY_STATE_CONNECTED /\
          exists r1 r2, notified = notify_calls r1 r2
     else notification_state (ncm_if w') = notification_state (ncm_if w) /\ notified = []) ->
    calls w' = calls w ++ offered ++ notified ++ [CControlStatus rq r] ->
    control_effect rq w w'
| CtlNtbParameters r :
    req_type rq = USB_TYPE_CLASS -> req_bRequest rq = NCM_GET_NTB_PARAMETERS ->
    ncm_if w' = ncm_if w ->
    calls w' = calls w ++
      [CTransferEp0 rq (ntb_parameters_bytes ntb_parameters) sizeof_ntb_parameters_t r] ->
    control_effect rq w w'.

(** Offering a datagram is one call of [net_rx_cb]. *)
Lemma rx_offer_calls p w b w' :
  rx_offer_datagram p w = Ok (b, w') ->
  rest_view (ncm_if w') = rest_view (ncm_if w) /\
  notification_state (ncm_if w') = notification_state (ncm_if w) /\
  exists window size a, calls w' = calls w ++ [CNetRx window size a].
Proof.
  intros Hm. unfold rx_offer_datagram in Hm. run_inv.
  destruct (_ =? 0) in Hm; run_inv; [by eauto 6|].
  destruct (_ && _) in Hm; run_inv; [by eauto 6|].
  unfold push_to in Hm. run_inv. by eauto 6.
Qed.

Lemma rx_update_calls w b w' :
  rx_update_user_ntb w = Ok (b, w') ->
  rest_view (ncm_if w') = rest_view (ncm_if w) /\
  notification_state (ncm_if w') = notification_state (ncm_if w) /\
  exists offered, calls w' = calls w ++ offered /\
    (offered = [] /\ nothing_received (ncm_if w) \/
     (exists window size a, offered = [CNetRx window size a]) /\ ~ nothing_received (ncm_if w)).
Proof.
  intros Hm. unfold rx_update_user_ntb, rx_fetch_user_ntb in Hm. run_inv.
  destruct (rx_user_ntb (ncm_if w)) as [p|] eqn:Hu.
  - run_inv. rewrite Hu in Hm. destruct (rx_offer_calls _ _ _ _ Hm) as (?&?&window&size&a&?).
    split; [done|]. split; [done|]. eexists. split; [done|]. right. split; [eauto|].
    intros [? _]. congruence.
  - unfold pop_from in E0. run_inv. cbn [with_if ncm_if rx_user_ntb set_rx_user_ntb
      set_rx_user_ntb_datagram_index] in *.
    destruct o as [p|]; run_inv.
    + destruct (rx_offer_calls _ _ _ _ Hm) as (Hv&Hn&window&size&a&Hc).
      split; [exact Hv|]. split; [exact Hn|]. eexists. split; [exact Hc|]. right.
      split; [eauto|]. intros (_&l'&Hp). congruence.
    + split; [done|]. split; [done|]. exists []. rewrite app_nil_r. split; [done|]. left.
      split; [done|]. split; [done|eauto].
Qed.

Lemma tx_notification_calls w b w' :
  tx_notification false w = Ok (b, w') ->
  rest_view (ncm_if w') = rest_view (ncm_if w) /\
  exists notified, calls w' = calls w ++ notified /\
    (if bool_decide (notification_state (ncm_if w) = TX_NOTIFY_STATE_WAITING)
     then notification_state (ncm_if w') = TX_NOTIFY_STATE_CONNECTED /\
          exists r1 r2, notified = notify_calls r1 r2
     else notification_state (ncm_if w') = notification_state (ncm_if w) /\ notified = []).
Proof.
  intros Hm. unfold tx_notification in Hm. run_inv.
  destruct (notification_state (ncm_if w)) eqn:Hst;
    rewrite ?bool_decide_eq_true_2, ?bool_decide_eq_false_2 in * by done; cbn [negb andb] in Hm; run_inv.
  - split; [done|]. eexists. split; [cbn; by rewrite <- app_assoc|]. cbn. split; [done|]. by do 2 eexists.
  - split; [done|]. exists []. by rewrite app_nil_r.
  - split; [done|]. exists []. by rewrite app_nil_r.
Qed.

Lemma set_active_effect rq r e b w w1 w2 u :
  wrap8 (req_wValue rq) <> 0 ->
  req_type rq = USB_TYPE_STANDARD -> req_bRequest rq = USB_REQ_SET_INTERFACE ->
  rx_update_user_ntb (with_if (set_interface_active (wrap8 (req_wValue rq)) (ncm_if w)) w)
    = Ok (b, w1) ->
  tx_notification false w1 = Ok (u, w2) ->
  control_effect rq w (record_call (CControlStatus rq r) e w2).
Proof.
  intros Hz Ht Hb E1 E2.
  destruct (rx_update_calls _ _ _ E1) as (Hv&Hn&offered&Hc&Ho).
  destruct (tx_notification_calls _ _ _ E2) as (Hv'&notified&Hc'&Hno).
  rewrite Hn in Hno. cbn in Hno.
  eapply CtlSetActive; [done|done|done| |exact Ho|exact Hno|].
  - cbn. rewrite Hv', Hv. done.
  - cbn. by rewrite Hc', Hc, <- !app_assoc.
Qed.
End control.

Lemma control_transfer_ok {D E} `{NcmEnv D E} rq (w w' : world E) r :
  net_usb_control_transfer rq w = Ok (r, w') ->
  r = control_handled rq /\
  if r then control_effect rq w w' else w' = w.
Proof.
  intros Hm. unfold net_usb_control_transfer in Hm. unfold control_handled.
  destruct (Z.eqb_spec (req_type rq) USB_TYPE_STANDARD) as [Ht|Ht].
  - rewrite Ht. cbn [Z.eqb andb orb USB_TYPE_STANDARD USB_TYPE_CLASS].
    destruct (Z.eqb_spec (req_bRequest rq) USB_REQ_GET_INTERFACE) as [Hb|Hb].
    { run_inv. split; [done|]. by eapply CtlGetInterface. }
    destruct (Z.eqb_spec (req_bRequest rq) USB_REQ_SET_INTERFACE) as [Hs|Hs]; run_inv.
    2: { done. }
    split; [done|]. cbn [ncm_if interface_active set_interface_active] in *.
    destruct (Z.eqb_spec (wrap8 (req_wValue rq)) 0) as [Hz|Hz]; run_inv.
    + rewrite Hz. by eapply CtlSetInactive.
    + by eapply set_active_effect.
  - destruct (Z.eqb_spec (req_type rq) USB_TYPE_CLASS) as [Hc|Hc]; cbn [andb orb]; run_inv; [|done].
    destruct (Z.eqb_spec (req_bRequest rq) NCM_GET_NTB_PARAMETERS) as [Hb|Hb]; run_inv; [|done].
    split; [done|]. by eapply CtlNtbParameters.
Qed.

(** A request that is not handled makes no call that could fault. *)
Lemma control_unhandled {D E} `{NcmEnv D E} rq (w : world E) :
  control_handled rq = false -> net_usb_control_transfer rq w = Ok (false, w).
Proof.
  unfold control_handled, net_usb_control_transfer. intros Hr.
  repeat (destruct (_ =? _); cbn [andb orb] in Hr; try discriminate Hr); reflexivity.
Qed.



(** Steps that keep the alternate setting. *)
Definition same_active {E} (w w' : world E) : Prop :=
  interface_active (ncm_if w') = interface_active (ncm_if w).

#[export] Instance same_active_preorder {E} : PreOrder (@same_active E).
Proof. split; unfold same_active; [done|congruence]. Qed.

Lemma tx_notification_active {D E} `{NcmEnv D E} f : respects same_active (tx_notification (E := E) f).
Proof. unfold tx_notification. respects_with ltac:(done). Qed.

Lemma rx_update_active {D E} `{NcmEnv D E} : respects same_active (rx_update_user_ntb (E := E)).
Proof.
  unfold rx_update_user_ntb, rx_fetch_user_ntb, rx_offer_datagram, pop_from, push_to.
  respects_with ltac:(done).
Qed.

(** An alternate setting other than 1 never starts a transfer: [wValue] is
    stored in a byte, any non-zero byte counts as active for the reply and for
    the notification, but both directions compare it with 1. *)
Theorem inactive_starts_nothing {D E} `{NcmProvider D E frame} rq (w w' : world E) r :
  net_usb_control_transfer rq w = Ok (r, w') ->
  req_type rq = USB_TYPE_STANDARD -> req_bRequest rq = USB_REQ_SET_INTERFACE ->
  wrap8 (req_wValue rq) <> 1 ->
  tx_try_start w' = Ok (false, w') /\ rx_try_start w' = Ok (false, w').
Proof.
  intros Hm Ht Hb Hv.
  assert (Hactive : interface_active (ncm_if w') = wrap8 (req_wValue rq)).
  { unfold net_usb_control_transfer in Hm. rewrite Ht, Hb in Hm. cbn in Hm. run_inv. cbn [record_call ncm_if].
    destruct (_ =? 0); run_inv; [done|].
    rewrite (tx_notification_active false _ _ _ E0).
    by rewrite (rx_update_active _ _ _ E1). }
  apply Z.eqb_neq in Hv.
  unfold tx_try_start, rx_try_start, bind, gets.
  by destruct (tx_usbd_ntb _), (rx_usbd_ntb _); rewrite ?Hactive, ?Hv.
Qed.

Lemma inactive_starts_nothing_witness :
  exists w', net_usb_control_transfer (set_interface 2) bench_init = Ok (true, w') /\
    tx_try_start w' = Ok (false, w') /\ rx_try_start w' = Ok (false, w').
Proof.
  destruct (net_usb_control_transfer (set_interface 2) bench_init) as [[r w']|] eqn:Hm;
    [|vm_compute in Hm; discriminate Hm].
  assert (Hr : r = true) by (vm_compute in Hm; congruence).
  exists w'. split; [rewrite Hr; reflexivity|].
  exact (inactive_starts_nothing (frame := bench_frame) (set_interface 2) bench_init w' r Hm
           eq_refl eq_refl ltac:(discriminate)).
Defined.

(** ** NTB parameters *)

(** The reply to GET_NTB_PARAMETERS is a well-formed structure of 28 bytes
    that announces NTB16 only, IN blocks of up to 3200 bytes, the size of every
    NTB of the driver, and four-byte alignment; the OUT block size it announces
    is 4, where receive requests are made for 3200 bytes. *)
Theorem ntb_parameters_wire :
  let b := ntb_parameters_bytes ntb_parameters in
  Z.of_nat (length b) = sizeof_ntb_parameters_t /\ bytes_ok b /\
  rd16 b 0 = Ok (Z.of_nat (length b)) /\ rd16 b 2 = Ok 1 /\
  rd32 b 4 = Ok (Z.of_nat (length zero_ntb)) /\
  rd16 b 12 = Ok NCM_NDP_ALIGN_MIN_SIZE /\ rd16 b 24 = Ok NCM_NDP_ALIGN_MIN_SIZE /\
  rd32 b 16 = Ok 4 /\ rd16 b 26 = Ok 6.
Proof.
  intros b. split; [reflexivity|]. split; [repeat constructor; discriminate|].
  repeat split.
Qed.
