(* ===== verification/NcmClassTest.v ===== *)
(** * The earlier copy of the driver: [src/ncm]

    [src/ncm] holds an older state of the driver for a host-side test program.
    Three functions differ from [src/lib/ncm]; they are modelled here, next to
    the ones of the current driver. *)

From stdpp Require Import base numbers list decidable.
From Stdlib Require Import ZArith Lia Bool.
From S2P Require Import Prelude NcmTypes NtbList Ntb NcmTx NcmRx NcmNet NcmSystem NcmBench NcmRun NcmBehaviour.
Open Scope Z_scope.

Module ClassTest.
Section class_test.
Context {D E : Type} `{NcmEnv D E}.

(** The state is overwritten before the [switch] reads it. *)
Definition tx_notification (force_next : bool) : NM E unit :=
  let! st := gets notification_state in
  if negb force_next && negb (bool_decide (st = TX_NOTIFY_STATE_WAITING)) then ret tt
  else
    let! _ := modify (set_notification_state TX_NOTIFY_STATE_SPEED_CHANGE) in
    let! st := gets notification_state in
    match st with
    | TX_NOTIFY_STATE_SPEED_CHANGE =>
        let! _ := modify (set_notification_state TX_NOTIFY_STATE_CONNECTED) in
        let! _ := call_transfer_ep NCM_EP_NOTIFY (Some (notify_speed_bytes notify_speed))
                    sizeof_notify_speed in
        ret tt
    | TX_NOTIFY_STATE_CONNECTED =>
        let! _ := modify (set_notification_state TX_NOTIFY_STATE_WAITING) in
        let! _ := call_transfer_ep NCM_EP_NOTIFY (Some (notification_bytes notify_connection))
                    sizeof_notification in
        ret tt
    | TX_NOTIFY_STATE_WAITING => ret tt
    end.

(** The function ends without [return] after starting a transfer: [None]
    stands for the value that is not there. *)
Definition tx_try_start : NM E (option bool) :=
  let! usbd := gets tx_usbd_ntb in
  match usbd with
  | Some _ => ret (Some false)
  | None =>
      let! active := gets interface_active in
      if negb (active =? 1) then ret (Some false)
      else
        let! busy := call_ep_busy NCM_EP_DATA_IN in
        if busy then ret (Some false)
        else
          let! waiting := pop_from tx_wait_ntb set_tx_wait_ntb in
          let! _ := modify (set_tx_usbd_ntb waiting) in
          match waiting with
          | Some p =>
              let! _ := transfer_ntb_in p in
              ret None
          | None =>
              let! user := gets tx_user_ntb in
              let! idx := gets tx_user_ntb_datagram_index in
              match user with
              | None => ret (Some false)
              | Some p =>
                  if idx =? 0 then ret (Some false)
                  else
                    let! _ := modify (set_tx_usbd_ntb user) in
                    let! _ := modify (set_tx_user_ntb None) in
                    let! _ := transfer_ntb_in p in
                    ret None
              end
          end
  end.

Definition net_usb_control_transfer (request : usb_control_request_t) : NM E bool :=
  if req_type request =? USB_TYPE_STANDARD then
    if req_bRequest request =? USB_REQ_GET_INTERFACE then
      let! active := gets interface_active in
      let! _ := call_transfer_ep0 request [active] 1 in
      ret true
    else if req_bRequest request =? USB_REQ_SET_INTERFACE then
      let! _ := modify (set_interface_active (wrap8 (req_wValue request))) in
      let! active := gets interface_active in
      let! _ := (if active =? 0 then ret tt
                 else
                   let! _ := rx_update_user_ntb in
                   tx_notification false) in
      let! _ := call_control_status request in
      ret true
    else ret false
  else if req_type request =? USB_TYPE_CLASS then
    if req_bRequest request =? NCM_GET_NTB_PARAMETERS then
      let! _ := call_transfer_ep0 request (notify_speed_bytes notify_speed) sizeof_notify_speed in
      ret true
    else ret false
  else ret false.

Fixpoint notifies (forces : list bool) : NM E unit :=
  match forces with
  | [] => ret tt
  | f :: fs => let! _ := tx_notification f in notifies fs
  end.
End class_test.

(** The message that tells the host that the link is up. *)
Definition is_connection (c : ext_call) : bool :=
  match c with
  | CTransferEp _ (Some b) _ _ => bool_decide (b = notification_bytes notify_connection)
  | _ => false
  end.

Definition quiet_notify {E} (w w' : world E) : Prop :=
  exists new, calls w' = calls w ++ new /\ existsb is_connection new = false.

#[export] Instance quiet_notify_preorder {E} : PreOrder (@quiet_notify E).
Proof.
  split.
  - intros w. exists []. by rewrite app_nil_r.
  - intros w1 w2 w3 (n1&H1&Q1) (n2&H2&Q2). exists (n1 ++ n2).
    rewrite H2, H1, app_assoc, existsb_app, Q1, Q2. done.
Qed.

Lemma tx_notification_quiet {D E} `{NcmEnv D E} f : respects quiet_notify (tx_notification (E := E) f).
Proof.
  intros w a w' Hm. unfold tx_notification in Hm. run_inv.
  destruct (_ && _); run_inv; [reflexivity|]. cbn -[notify_speed_bytes] in Hm. run_inv.
  eexists. split; [reflexivity|]. vm_compute. reflexivity.
Qed.

(** The earlier copy never announces the link: no sequence of calls of its
    [tx_notification], forced or not, sends the connection message, because the
    state is set before the [switch] that should go through the states. *)
Theorem never_connected {D E} `{NcmEnv D E} forces (w w' : world E) :
  notifies forces w = Ok (tt, w') ->
  exists new, calls w' = calls w ++ new /\ existsb is_connection new = false.
Proof.
  assert (Hr : respects quiet_notify (notifies (E := E) forces)).
  { induction forces; cbn; [apply respects_ret, _|]. apply respects_bind; [exact _| |by intros].
    apply tx_notification_quiet. }
  apply Hr.
Qed.

Lemma never_connected_witness :
  exists w', notifies [false; true; true] bench_init = Ok (tt, w') /\
    exists new, calls w' = calls bench_init ++ new /\ existsb is_connection new = false.
Proof.
  destruct (notifies [false; true; true] bench_init) as [[[] w']|] eqn:Hm; [|vm_compute in Hm; discriminate Hm].
  exists w'. split; [reflexivity|]. exact (never_connected [false; true; true] bench_init w' Hm).
Defined.

(** Apart from the value it returns, the earlier [tx_try_start] is the
    current one: the same faults, the same calls and the same state, and the
    same answer wherever it gives one. *)
Theorem try_start_equiv {D E} `{NcmEnv D E} (w : world E) :
  match tx_try_start w, NcmTx.tx_try_start w with
  | Ok (r, w1), Ok (r', w2) => w1 = w2 /\ (forall b, r = Some b -> r' = b)
  | Fault f1, Fault f2 => f1 = f2
  | _, _ => False
  end.
Proof.
  unfold tx_try_start, NcmTx.tx_try_start, bind, gets, ret, modify.
  destruct (tx_usbd_ntb _); [naive_solver|]. destruct (negb _); [naive_solver|].
  destruct (call_ep_busy _ w) as [[[|] w1]|]; [naive_solver| |done].
  destruct (pop_from _ _ w1) as [[[p|] w2]|]; [| |done].
  - by destruct (transfer_ntb_in p _) as [[]|]; naive_solver.
  - cbn. destruct (tx_user_ntb _) as [p|]; [|naive_solver]. destruct (_ =? 0); [naive_solver|].
    by destruct (transfer_ntb_in p _) as [[]|]; naive_solver.
Qed.
End ClassTest.
