(* ===== verification/MemUtil.v ===== *)
(** * Memory primitives

    [CyU3PMemSet], [CyU3PMemCopy] and [CyU3PMemCmp] of
    [src/src/cyfx/cyfx_tx.c] and [memcmp] of [src/src/main.c], on a memory that
    is an array of bytes.  The loops are the ones of the code, unrolled by
    eight; the theorems say that they set, move and compare blocks. *)

From stdpp Require Import base numbers list decidable.
From Stdlib Require Import ZArith Lia Bool.
From S2P Require Import Prelude.
Open Scope Z_scope.

(** ** Byte accesses *)

Definition ld (mem : list Z) (a : Z) : result Z :=
  if a <? 0 then Fault OutOfBounds
  else match mem !! Z.to_nat a with
       | Some v => Ok v
       | None => Fault OutOfBounds
       end.

Definition st (mem : list Z) (a v : Z) : result (list Z) :=
  if (0 <=? a) && (a <? Z.of_nat (length mem)) then Ok (<[Z.to_nat a := v]> mem)
  else Fault OutOfBounds.

(** ** [CyU3PMemSet] *)

(** [ptr[o] = data] for each [o] of [offs]. *)
Fixpoint set_offs (mem : list Z) (ptr data : Z) (offs : list Z) : result (list Z) :=
  match offs with
  | [] => Ok mem
  | o :: offs => let* mem := st mem (ptr + o) data in set_offs mem ptr data offs
  end.

Definition CyU3PMemSet (mem : list Z) (ptr data count : Z) : result (list Z) :=
  let* (mem, ptr, count) :=
    while (S (Z.to_nat count))
      (fun '(_, _, count) => negb (Z.shiftr count 3 =? 0))
      (fun '(mem, ptr, count) =>
         let* mem := set_offs mem ptr data [0; 1; 2; 3; 4; 5; 6; 7] in
         Ok (mem, ptr + 8, count - 8))
      (mem, ptr, count) in
  let* (mem, _, _) :=
    while (S (Z.to_nat count))
      (fun '(_, _, count) => negb (count =? 0))
      (fun '(mem, ptr, count) =>
         let* mem := st mem ptr data in
         Ok (mem, ptr + 1, count - 1))
      (mem, ptr, count) in
  Ok mem.

(** ** [CyU3PMemCopy] *)

(** [dest[o] = src[o]] for each [o] of [offs], in this order. *)
Fixpoint copy_offs (mem : list Z) (dest src : Z) (offs : list Z) : result (list Z) :=
  match offs with
  | [] => Ok mem
  | o :: offs =>
      let* v := ld mem (src + o) in
      let* mem := st mem (dest + o) v in
      copy_offs mem dest src offs
  end.

Definition CyU3PMemCopy (mem : list Z) (dest src count : Z) : result (list Z) :=
  if src <? dest then
    let dest := dest + count in
    let src := src + count in
    let* (mem, dest, src, count) :=
      while (S (Z.to_nat count))
        (fun '(_, _, _, count) => 8 <=? count)
        (fun '(mem, dest, src, count) =>
           let dest := dest - 8 in
           let src := src - 8 in
           let count := count - 8 in
           let* mem := copy_offs mem dest src [7; 6; 5; 4; 3; 2; 1; 0] in
           Ok (mem, dest, src, count))
        (mem, dest, src, count) in
    let* (mem, _, _, _) :=
      while (S (Z.to_nat count))
        (fun '(_, _, _, count) => 0 <? count)
        (fun '(mem, dest, src, count) =>
           let dest := dest - 1 in
           let src := src - 1 in
           let count := count - 1 in
           let* v := ld mem src in
           let* mem := st mem dest v in
           Ok (mem, dest, src, count))
        (mem, dest, src, count) in
    Ok mem
  else
    let* (mem, dest, src, count) :=
      while (S (Z.to_nat count))
        (fun '(_, _, _, count) => 8 <=? count)
        (fun '(mem, dest, src, count) =>
           let* mem := copy_offs mem dest src [0; 1; 2; 3; 4; 5; 6; 7] in
           Ok (mem, dest + 8, src + 8, count - 8))
        (mem, dest, src, count) in
    let* (mem, _, _, _) :=
      while (S (Z.to_nat count))
        (fun '(_, _, _, count) => 0 <? count)
        (fun '(mem, dest, src, count) =>
           let* v := ld mem src in
           let* mem := st mem dest v in
           Ok (mem, dest + 1, src + 1, count - 1))
        (mem, dest, src, count) in
    Ok mem.

(** ** [CyU3PMemCmp] *)

(** The loop of [CyU3PMemCmp] on its counter; the memory blocks may lie
    anywhere.  [memcmp] of [main.c] calls it. *)
Fixpoint mem_cmp_loop (mem : list Z) (ptr1 ptr2 : Z) (n : nat) : result Z :=
  match n with
  | O => Ok 0
  | S n =>
      let* v1 := ld mem ptr1 in
      let* v2 := ld mem ptr2 in
      if negb (v1 =? v2) then Ok (v1 - v2)
      else mem_cmp_loop mem (ptr1 + 1) (ptr2 + 1) n
  end.

Definition CyU3PMemCmp (mem : list Z) (s1 s2 n : Z) : result Z := mem_cmp_loop mem s1 s2 (Z.to_nat n).

(** ** [memcmp] of [main.c] *)

Definition memcmp (mem : list Z) (vl vr n : Z) : result Z :=
  let* (l, r, n) :=
    (fix loop (fuel : nat) (l r n : Z) : result (Z * Z * Z) :=
       match fuel with
       | O => Ok (l, r, n)
       | S fuel =>
           if n =? 0 then Ok (l, r, n)
           else
             let* x := ld mem l in
             let* y := ld mem r in
             if x =? y then loop fuel (l + 1) (r + 1) (n - 1) else Ok (l, r, n)
       end) (Z.to_nat n) vl vr n in
  if n =? 0 then Ok 0
  else
    let* x := ld mem l in
    let* y := ld mem r in
    Ok (x - y).

(** ** Lemmas *)

Lemma ld_in_range mem a : 0 <= a < Z.of_nat (length mem) -> ld mem a = Ok (mem !!! Z.to_nat a).
Proof.
  intros Ha. unfold ld. destruct (Z.ltb_spec a 0); [lia|].
  destruct (lookup_lt_is_Some_2 mem (Z.to_nat a)) as [v Hv]; [lia|].
  by rewrite Hv, (list_lookup_total_correct _ _ _ Hv).
Qed.

Lemma st_in_range mem a v :
  0 <= a < Z.of_nat (length mem) -> st mem a v = Ok (<[Z.to_nat a := v]> mem).
Proof.
  intros Ha. unfold st. destruct (Z.leb_spec 0 a), (Z.ltb_spec a (Z.of_nat (length mem))); try lia. done.
Qed.

(** [mem'] is [mem] with the bytes from [lo] to [hi] taken from [f]. *)
Definition patched (mem mem' : list Z) (lo hi : Z) (f : nat -> Z) : Prop :=
  length mem' = length mem /\
  forall i, (i < length mem)%nat ->
    mem' !!! i = if decide (lo <= Z.of_nat i < hi) then f i else mem !!! i.

Lemma patched_refl mem lo f : patched mem mem lo lo f.
Proof. split; [done|]. intros i _. case_decide; [lia|done]. Qed.

Lemma patched_step mem mem' lo hi f lo' hi' (a v : Z) :
  patched mem mem' lo hi f -> 0 <= a < Z.of_nat (length mem) -> v = f (Z.to_nat a) ->
  (forall i, lo' <= i < hi' <-> lo <= i < hi \/ i = a) ->
  exists mem'', st mem' a v = Ok mem'' /\ patched mem mem'' lo' hi' f.
Proof.
  intros [Hl Hf] Ha -> Hr. rewrite st_in_range by (rewrite Hl; lia). eexists. split; [done|].
  split; [by rewrite length_insert|]. intros i Hi.
  destruct (decide (i = Z.to_nat a)) as [->|Hne].
  - rewrite list_lookup_total_insert_eq by lia. specialize (Hr (Z.of_nat (Z.to_nat a))).
    case_decide; [done|]. lia.
  - rewrite list_lookup_total_insert_ne by done. rewrite Hf by done. specialize (Hr (Z.of_nat i)).
    repeat case_decide; (done || lia).
Qed.

Lemma patched_splice mem mem' lo n (bs : list Z) f :
  patched mem mem' (Z.of_nat lo) (Z.of_nat (lo + n)) f -> length bs = n ->
  (lo + n <= length mem)%nat -> (forall i, (i < n)%nat -> bs !!! i = f (lo + i)%nat) ->
  mem' = splice lo bs mem.
Proof.
  intros [Hl Hf] Hn Hr Hbs. apply list_eq_same_length with (length mem);
    [by rewrite length_splice by lia|done|].
  intros i x y Hi Hx Hy. rewrite lookup_splice in Hy by lia.
  rewrite <- (list_lookup_total_correct _ _ _ Hx), Hf by lia.
  repeat case_decide; try lia; try (by apply list_lookup_total_correct).
  rewrite <- (list_lookup_total_correct _ _ _ Hy), Hbs by lia. f_equal. lia.
Qed.

(** *** Setting *)

Lemma set_offs_patched mem mem' lo ptr data (k : nat) (o : Z) :
  patched mem mem' lo (ptr + o) (fun _ => data) -> 0 <= lo <= ptr + o ->
  ptr + o + Z.of_nat k <= Z.of_nat (length mem) ->
  exists mem'', set_offs mem' ptr data ((fun i => o + Z.of_nat i) <$> seq 0 k) = Ok mem'' /\
    patched mem mem'' lo (ptr + o + Z.of_nat k) (fun _ => data).
Proof.
  revert mem' o. induction k as [|k IH]; intros mem' o Hp Hlo Hk.
  { exists mem'. split; [done|]. by rewrite Z.add_0_r. }
  cbn [seq fmap list_fmap set_offs]. rewrite Z.add_0_r.
  destruct (patched_step mem mem' lo (ptr + o) (fun _ => data) lo (ptr + (o + 1)) (ptr + o) data)
    as (m1&->&Hp1); [done|lia|done|intros; lia|]. cbn [rbind].
  destruct (IH m1 (o + 1) Hp1) as (m2&Hrun&Hp2); [lia|lia|]. exists m2.
  split; [|by replace (ptr + o + Z.of_nat (S k)) with (ptr + (o + 1) + Z.of_nat k) by lia].
  rewrite <- Hrun. f_equal. rewrite <- (fmap_S_seq 0), <- list_fmap_compose.
  apply list_fmap_ext. intros _ i _. unfold compose. lia.
Qed.

Lemma shiftr3_zero c : 0 <= c -> (Z.shiftr c 3 =? 0) = (c <? 8).
Proof.
  intros. rewrite Z.shiftr_div_pow2 by lia. change (2 ^ 3) with 8.
  destruct (Z.ltb_spec c 8); [by rewrite Z.div_small|].
  apply Z.eqb_neq. pose proof (Z.div_le_lower_bound c 8 1). lia.
Qed.

(** What both loops of [CyU3PMemSet] keep: the bytes before [p] are set. *)
Definition setting (mem : list Z) (ptr data count : Z) (s : list Z * Z * Z) : Prop :=
  let '(m, p, c) := s in
  patched mem m ptr p (fun _ => data) /\ 0 <= c /\ p + c = ptr + count /\ ptr <= p.

(** [CyU3PMemSet] ends and writes exactly the [count] bytes from [ptr] on,
    for every block inside the memory; the unrolled loop and the byte loop
    together cover the block once. *)
Theorem mem_set_correct mem ptr data count :
  0 <= ptr -> 0 <= count -> ptr + count <= Z.of_nat (length mem) ->
  CyU3PMemSet mem ptr data count =
    Ok (splice (Z.to_nat ptr) (replicate (Z.to_nat count) data) mem).
Proof.
  intros Hp Hc Hr. unfold CyU3PMemSet.
  destruct (while_total (setting mem ptr data count) (fun '(_, _, c) => Z.to_nat c)
    (fun '(_, _, count) => negb (Z.shiftr count 3 =? 0))
    (fun '(mem, ptr, count) =>
       let* mem := set_offs mem ptr data [0; 1; 2; 3; 4; 5; 6; 7] in
       Ok (mem, ptr + 8, count - 8)) (S (Z.to_nat count)) (mem, ptr, count))
    as ([[m1 p1] c1]&->&(Hs1&Hc1&Hpc1&Hpp1)&_).
  - repeat split; try lia. intros i _. case_decide; [lia|done].
  - lia.
  - intros [[m p] c] (Hs&Hc0&Hpc&Hpp) Hcond. rewrite shiftr3_zero in Hcond by done.
    apply negb_true_iff, Z.ltb_ge in Hcond.
    destruct (set_offs_patched mem m ptr p data 8 0) as (m'&Hrun&Hs'); [by rewrite Z.add_0_r|lia|lia|].
    change ((fun i => 0 + Z.of_nat i) <$> seq 0 8) with [0; 1; 2; 3; 4; 5; 6; 7] in Hrun.
    rewrite Hrun. eexists. split; [done|]. split; [|lia]. rewrite Z.add_0_r in Hs'. repeat split; try lia; apply Hs'.
  - cbn [rbind].
    destruct (while_total (setting mem ptr data count) (fun '(_, _, c) => Z.to_nat c)
      (fun '(_, _, count) => negb (count =? 0))
      (fun '(mem, ptr, count) => let* mem := st mem ptr data in Ok (mem, ptr + 1, count - 1))
      (S (Z.to_nat c1)) (m1, p1, c1)) as ([[m2 p2] c2]&->&(Hs2&Hc2&Hpc2&Hpp2)&Hend).
    + done.
    + lia.
    + intros [[m p] c] (Hs&Hc0&Hpc&Hpp) Hcond%negb_true_iff%Z.eqb_neq.
      destruct (patched_step mem m ptr p (fun _ => data) ptr (p + 1) p data) as (m'&->&Hs');
        [done|lia|done|intros; lia|]. eexists. split; [done|]. split; [|lia]. repeat split; try lia; apply Hs'.
    + apply negb_false_iff, Z.eqb_eq in Hend. cbn [rbind]. f_equal.
      apply (patched_splice _ _ _ (Z.to_nat count) _ (fun _ => data)).
      * rewrite Nat2Z.inj_add, !Z2Nat.id by lia. by replace (ptr + count) with p2 by lia.
      * apply length_replicate.
      * lia.
      * intros i Hi. by rewrite lookup_total_replicate_2 by lia.
Qed.

Lemma mem_set_correct_witness :
  CyU3PMemSet (replicate 20 1) 3 7 11 = Ok (splice 3 (replicate 11 7) (replicate 20 1)).
Proof. apply (mem_set_correct (replicate 20 1) 3 7 11); vm_compute; discriminate. Defined.

(** *** Moving *)

(** The source byte of position [i]. *)
Definition moved (mem : list Z) (dest src : Z) (i : nat) : Z :=
  mem !!! Z.to_nat (Z.of_nat i - dest + src).

(** One byte, when its source has not been overwritten yet. *)
Lemma copy_step mem m dest src lo hi lo' hi' o d s :
  patched mem m lo hi (moved mem dest src) ->
  0 <= d + o < Z.of_nat (length mem) -> 0 <= s + o < Z.of_nat (length mem) ->
  d - s = dest - src -> ~ lo <= s + o < hi ->
  (forall i, lo' <= i < hi' <-> lo <= i < hi \/ i = d + o) ->
  exists m', (let* v := ld m (s + o) in st m (d + o) v) = Ok m' /\
    patched mem m' lo' hi' (moved mem dest src).
Proof.
  intros Hp Hd Hs Heq Hout Hr. pose proof Hp as [Hl Hf].
  rewrite ld_in_range by (rewrite Hl; lia). cbn [rbind].
  apply (patched_step mem m lo hi); [done|done| |done].
  rewrite Hf by lia. rewrite decide_False by lia. unfold moved. f_equal. lia.
Qed.

(** What the loops keep: the bytes between [lo] and [hi] are moved, and [d]
    and [s] run in step. *)
Definition moving (mem : list Z) (dest src lo hi d s : Z) (m : list Z) : Prop :=
  patched mem m lo hi (moved mem dest src) /\ d - s = dest - src.

(** Upwards, when the destination is not above the source. *)
Lemma copy_offs_up mem m dest src d s (k : nat) (o : Z) :
  moving mem dest src dest (d + o) d s m -> dest <= src -> 0 <= dest <= d + o -> 0 <= src ->
  d + o + Z.of_nat k <= Z.of_nat (length mem) -> s + o + Z.of_nat k <= Z.of_nat (length mem) ->
  exists m', copy_offs m d s ((fun i => o + Z.of_nat i) <$> seq 0 k) = Ok m' /\
    moving mem dest src dest (d + o + Z.of_nat k) d s m'.
Proof.
  revert m o. induction k as [|k IH]; intros m o [Hp Heq] Hle Hd Hs Hdk Hsk.
  { exists m. split; [done|]. by rewrite Z.add_0_r. }
  cbn [seq fmap list_fmap copy_offs]. rewrite Z.add_0_r.
  destruct (copy_step mem m dest src dest (d + o) dest (d + (o + 1)) o d s) as (m1&Hrun1&Hp1);
    [done|lia|lia|done|lia|intros; lia|].
  apply rbind_Ok in Hrun1 as (v&->&Hrun1). cbn [rbind]. rewrite Hrun1. cbn [rbind].
  destruct (IH m1 (o + 1)) as (m2&Hrun&Hm2); [done|lia..|]. exists m2.
  split; [|by replace (d + o + Z.of_nat (S k)) with (d + (o + 1) + Z.of_nat k) by lia].
  rewrite <- Hrun. f_equal. rewrite <- (fmap_S_seq 0), <- list_fmap_compose.
  apply list_fmap_ext. intros _ i _. unfold compose. lia.
Qed.

(** Downwards, when the destination is above the source. *)
Lemma copy_offs_down mem m dest src hi d s (o : nat) :
  moving mem dest src (d + Z.of_nat o) hi d s m -> src < dest ->
  0 <= d -> 0 <= s -> d + Z.of_nat o <= hi -> hi <= Z.of_nat (length mem) ->
  exists m', copy_offs m d s (Z.of_nat <$> rev (seq 0 o)) = Ok m' /\
    moving mem dest src d hi d s m'.
Proof.
  revert m. induction o as [|o IH]; intros m [Hp Heq] Hlt Hd Hs Hhi Hl.
  { exists m. split; [done|]. by rewrite Z.add_0_r in Hp. }
  rewrite seq_S, rev_app_distr. cbn [rev app fmap list_fmap copy_offs].
  destruct (copy_step mem m dest src (d + Z.of_nat (S o)) hi (d + Z.of_nat o) hi (Z.of_nat o) d s)
    as (m1&Hrun1&Hp1); [done|lia|lia|done|lia|intros; lia|].
  apply rbind_Ok in Hrun1 as (v&Hv&Hrun1). rewrite Nat.add_0_l, Hv. cbn [rbind]. rewrite Hrun1.
  cbn [rbind]. apply IH; [done|lia..].
Qed.

Lemma moving_splice mem m dest src count :
  patched mem m dest (dest + count) (moved mem dest src) ->
  0 <= dest -> 0 <= src -> 0 <= count ->
  dest + count <= Z.of_nat (length mem) -> src + count <= Z.of_nat (length mem) ->
  m = splice (Z.to_nat dest) (slice (Z.to_nat src) (Z.to_nat count) mem) mem.
Proof.
  intros Hp Hd Hs Hc Hdc Hsc.
  apply (patched_splice _ _ _ (Z.to_nat count) _ (moved mem dest src)).
  - rewrite Nat2Z.inj_add, !Z2Nat.id by lia. done.
  - apply length_slice. lia.
  - lia.
  - intros i Hi. unfold moved, slice. rewrite list_lookup_total_alt, lookup_take_lt, lookup_drop by lia.
    rewrite <- list_lookup_total_alt. f_equal. lia.
Qed.

Section mem_copy.
Context (mem : list Z) (dest src count : Z).
Hypothesis (Hd0 : 0 <= dest) (Hs0 : 0 <= src) (Hc0 : 0 <= count).
Hypothesis (Hd1 : dest + count <= Z.of_nat (length mem)).
Hypothesis (Hs1 : src + count <= Z.of_nat (length mem)).

(** The invariants of the loops, downwards and upwards. *)
Definition copy_down (st : list Z * Z * Z * Z) : Prop :=
  let '(m, d, s, c) := st in
  moving mem dest src d (dest + count) d s m /\ 0 <= c <= count /\ d = dest + c.
Definition copy_up (st : list Z * Z * Z * Z) : Prop :=
  let '(m, d, s, c) := st in
  moving mem dest src dest d d s m /\ 0 <= c /\ d + c = dest + count /\ dest <= d.

Lemma mem_copy_down :
  src < dest -> CyU3PMemCopy mem dest src count =
    Ok (splice (Z.to_nat dest) (slice (Z.to_nat src) (Z.to_nat count) mem) mem).
Proof.
  intros Hlt. unfold CyU3PMemCopy. destruct (Z.ltb_spec src dest); [|lia]. cbn zeta.
  match goal with |- context [while ?fuel ?cond ?body ?init] =>
    destruct (while_total copy_down (fun '(_, _, _, c) => Z.to_nat c) cond body fuel init)
      as ([[[m1 d1] s1] c1]&->&Hinv1&_) end.
  - split; [|lia]. split; [apply patched_refl|lia].
  - lia.
  - intros [[[m d] s] c] (Hm&Hc&->) Hcond%Z.leb_le. pose proof Hm as [Hp Heq].
    replace (dest + c) with (dest + c - 8 + Z.of_nat 8) in Hm at 1 by lia.
    destruct (copy_offs_down mem m dest src (dest + count) (dest + c - 8) (s - 8) 8) as (m'&Hrun&Hm');
      [by split; [apply Hm|lia]|lia..|].
    change (Z.of_nat <$> rev (seq 0 8)) with [7; 6; 5; 4; 3; 2; 1; 0] in Hrun.
    rewrite Hrun. eexists. split; [done|]. split; [|lia]. split; [done|lia].
  - cbn [rbind].
    match goal with |- context [while ?fuel ?cond ?body ?init] =>
      destruct (while_total copy_down (fun '(_, _, _, c) => Z.to_nat c) cond body fuel init)
        as ([[[m2 d2] s2] c2]&->&((Hp2&_)&Hc2&->)&Hend) end.
    + done.
    + destruct Hinv1 as (_&?&_). lia.
    + intros [[[m d] s] c] ((Hp&Heq)&Hc&->) Hcond%Z.ltb_lt.
      destruct (copy_step mem m dest src (dest + c) (dest + count) (dest + c - 1) (dest + count) 0
                  (dest + c - 1) (s - 1)) as (m'&Hrun&Hp'); [done|lia|lia|lia|lia|intros; lia|].
      rewrite !Z.add_0_r in Hrun. apply rbind_Ok in Hrun as (v&->&Hrun). cbn [rbind]. rewrite Hrun.
      eexists. split; [done|]. split; [|lia]. split; [|lia]. split; [done|lia].
    + apply Z.ltb_ge in Hend. cbn [rbind]. f_equal. apply moving_splice; try done.
      by replace (dest + c2) with dest in Hp2 by lia.
Qed.

Lemma mem_copy_up :
  dest <= src -> CyU3PMemCopy mem dest src count =
    Ok (splice (Z.to_nat dest) (slice (Z.to_nat src) (Z.to_nat count) mem) mem).
Proof.
  intros Hle. unfold CyU3PMemCopy. destruct (Z.ltb_spec src dest); [lia|].
  match goal with |- context [while ?fuel ?cond ?body ?init] =>
    destruct (while_total copy_up (fun '(_, _, _, c) => Z.to_nat c) cond body fuel init)
      as ([[[m1 d1] s1] c1]&->&Hinv1&_) end.
  - split; [|lia]. split; [apply patched_refl|lia].
  - lia.
  - intros [[[m d] s] c] (Hm&Hc&Hdc&Hdd) Hcond%Z.leb_le. pose proof Hm as [Hp Heq].
    destruct (copy_offs_up mem m dest src d s 8 0) as (m'&Hrun&Hm');
      [by rewrite Z.add_0_r|lia..|].
    change ((fun i => 0 + Z.of_nat i) <$> seq 0 8) with [0; 1; 2; 3; 4; 5; 6; 7] in Hrun.
    rewrite Hrun. eexists. split; [done|]. rewrite Z.add_0_r in Hm'. destruct Hm' as [Hp' _].
    split; [|lia]. split; [|lia]. split; [done|lia].
  - cbn [rbind].
    match goal with |- context [while ?fuel ?cond ?body ?init] =>
      destruct (while_total copy_up (fun '(_, _, _, c) => Z.to_nat c) cond body fuel init)
        as ([[[m2 d2] s2] c2]&->&((Hp2&_)&Hc2&Hdc2&_)&Hend) end.
    + done.
    + destruct Hinv1 as (_&?&_). lia.
    + intros [[[m d] s] c] ((Hp&Heq)&Hc&Hdc&Hdd) Hcond%Z.ltb_lt.
      destruct (copy_step mem m dest src dest d dest (d + 1) 0 d s) as (m'&Hrun&Hp');
        [done|lia|lia|lia|lia|intros; lia|].
      rewrite !Z.add_0_r in Hrun. apply rbind_Ok in Hrun as (v&->&Hrun). cbn [rbind]. rewrite Hrun.
      eexists. split; [done|]. split; [|lia]. split; [|lia]. split; [done|lia].
    + apply Z.ltb_ge in Hend. cbn [rbind]. f_equal. apply moving_splice; try done.
      by replace d2 with (dest + count) in Hp2 by lia.
Qed.
End mem_copy.

(** [CyU3PMemCopy] ends and moves the block: for all source and
    destination blocks inside the memory, overlapping or not, the destination
    holds afterwards what the source held before, and nothing else changes. *)
Theorem mem_copy_moves mem dest src count :
  0 <= dest -> 0 <= src -> 0 <= count ->
  dest + count <= Z.of_nat (length mem) -> src + count <= Z.of_nat (length mem) ->
  CyU3PMemCopy mem dest src count =
    Ok (splice (Z.to_nat dest) (slice (Z.to_nat src) (Z.to_nat count) mem) mem).
Proof.
  intros. destruct (Z.lt_ge_cases src dest); [by apply mem_copy_down|by apply mem_copy_up].
Qed.

Lemma mem_copy_moves_witness :
  CyU3PMemCopy (Z.of_nat <$> seq 0 20) 3 1 11 =
    Ok (splice 3 (slice 1 11 (Z.of_nat <$> seq 0 20)) (Z.of_nat <$> seq 0 20)).
Proof. apply (mem_copy_moves (Z.of_nat <$> seq 0 20) 3 1 11); vm_compute; discriminate. Defined.

(** *** Comparing *)

(** The reference: the difference at the first position where the blocks
    differ, and 0 if there is none. *)
Fixpoint bytes_diff (l r : list Z) : Z :=
  match l, r with
  | x :: l, y :: r => if x =? y then bytes_diff l r else x - y
  | _, _ => 0
  end.

Lemma bytes_diff_zero l r :
  length l = length r -> bytes_diff l r = 0 <-> l = r.
Proof.
  revert r. induction l as [|x l IH]; intros [|y r] Hl; cbn in *; try done.
  destruct (Z.eqb_spec x y) as [->|Hne]; [rewrite IH by lia; naive_solver|].
  split; [lia|]. intros [= ? ?]. done.
Qed.

Lemma slice_cons mem (a : Z) n :
  0 <= a < Z.of_nat (length mem) ->
  slice (Z.to_nat a) (S n) mem = mem !!! Z.to_nat a :: slice (Z.to_nat (a + 1)) n mem.
Proof.
  intros Ha. destruct (lookup_lt_is_Some_2 mem (Z.to_nat a)) as [v Hv]; [lia|].
  unfold slice. rewrite (drop_S _ v _ Hv), (list_lookup_total_correct _ _ _ Hv). cbn.
  do 2 f_equal. f_equal. lia.
Qed.

Lemma mem_cmp_loop_diff mem s1 s2 n :
  0 <= s1 -> 0 <= s2 -> s1 + Z.of_nat n <= Z.of_nat (length mem) ->
  s2 + Z.of_nat n <= Z.of_nat (length mem) ->
  mem_cmp_loop mem s1 s2 n =
    Ok (bytes_diff (slice (Z.to_nat s1) n mem) (slice (Z.to_nat s2) n mem)).
Proof.
  revert s1 s2. induction n as [|n IH]; intros s1 s2 H1 H2 H3 H4; [done|].
  cbn [mem_cmp_loop]. rewrite !ld_in_range by lia. cbn [rbind].
  rewrite !slice_cons by lia. cbn [bytes_diff].
  destruct (_ =? _) eqn:He; cbn [negb]; [|done]. apply IH; lia.
Qed.

(** [CyU3PMemCmp] and the [memcmp] of the application are the same
    function on blocks inside the memory: the difference of the first bytes that
    differ, and 0 exactly when the blocks are equal. *)
Theorem mem_cmp_correct mem s1 s2 n :
  0 <= s1 -> 0 <= s2 -> 0 <= n -> s1 + n <= Z.of_nat (length mem) ->
  s2 + n <= Z.of_nat (length mem) ->
  let l := slice (Z.to_nat s1) (Z.to_nat n) mem in
  let r := slice (Z.to_nat s2) (Z.to_nat n) mem in
  CyU3PMemCmp mem s1 s2 n = Ok (bytes_diff l r) /\
  memcmp mem s1 s2 n = Ok (bytes_diff l r) /\ (bytes_diff l r = 0 <-> l = r).
Proof.
  intros H1 H2 H0 H3 H4 l r. split; [apply mem_cmp_loop_diff; lia|].
  split; [|apply bytes_diff_zero; unfold l, r; rewrite !length_slice; lia].
  subst l r. unfold memcmp. replace n with (Z.of_nat (Z.to_nat n)) in H3, H4 |- * at 2 by lia.
  clear H0. generalize dependent (Z.to_nat n). intros k H3 H4. clear n.
  revert s1 s2 H1 H2 H3 H4. induction k as [|k IH]; intros s1 s2 H1 H2 H3 H4; [done|].
  cbn [bytes_diff]. rewrite !slice_cons by lia. destruct (Z.eqb_spec (Z.of_nat (S k)) 0); [lia|].
  rewrite !ld_in_range by lia. cbn [rbind bytes_diff].
  destruct (mem !!! Z.to_nat s1 =? mem !!! Z.to_nat s2) eqn:He.
  - replace (Z.of_nat (S k) - 1) with (Z.of_nat k) by lia. apply IH; lia.
  - cbn [rbind]. destruct (Z.eqb_spec (Z.of_nat (S k)) 0); [lia|]. by rewrite !ld_in_range by lia.
Qed.

Lemma mem_cmp_correct_witness :
  memcmp [1; 2; 3; 1; 2; 9] 0 3 3 = Ok (3 - 9).
Proof.
  refine (proj1 (proj2 (mem_cmp_correct [1; 2; 3; 1; 2; 9] 0 3 3 _ _ _ _ _))); vm_compute; discriminate.
Defined.
