(* ===== verification/BlockList.v ===== *)
(** * Leak and corruption tracking of the two heaps

    With checks enabled, [CyU3PMemAlloc]/[CyU3PMemFree] and
    [CyU3PDmaBufferAlloc]/[CyU3PDmaBufferFree] of [src/src/cyfx/cyfx_tx.c] put a
    header ([MemBlockInfo]) and a footer around each block and keep the blocks in
    use in a list that is linked both ways through the headers.  The two heaps
    run the same code on variables of their own; it is modelled once. *)

From stdpp Require Import base numbers list decidable gmap.
From Stdlib Require Import ZArith Lia Bool.
From S2P Require Import Prelude.
Open Scope Z_scope.

(** ** Data *)

(** The status codes of the SDK that the file uses. *)
Inductive CyU3PReturnStatus_t : Type :=
| CY_U3P_SUCCESS
| CY_U3P_ERROR_ALREADY_STARTED
| CY_U3P_ERROR_FAILURE
| CY_U3P_ERROR_NO_REENUM_REQUIRED
| CY_U3P_ERROR_OTHER.

#[export] Instance status_eq_dec : EqDecision CyU3PReturnStatus_t.
Proof. solve_decision. Defined.

Definition CY_U3P_MEM_START_SIG : Z := 0x4658334D.
Definition CY_U3P_MEM_END_SIG : Z := 0x454E444D.

(** The header; a null pointer is 0. *)
Record MemBlockInfo : Type := mk_block {
  alloc_id : Z;
  alloc_size : Z;
  prev_blk : Z;
  next_blk : Z;
  start_sig : Z
}.

Definition set_prev_blk (v : Z) (h : MemBlockInfo) : MemBlockInfo :=
  mk_block (alloc_id h) (alloc_size h) v (next_blk h) (start_sig h).
Definition set_next_blk (v : Z) (h : MemBlockInfo) : MemBlockInfo :=
  mk_block (alloc_id h) (alloc_size h) (prev_blk h) v (start_sig h).

(** The header is 20 bytes and a footer of 4 bytes follows the block. *)
Definition sizeof_MemBlockInfo : Z := 20.
Definition sizeof_uint32 : Z := 4.

(** The variables of one heap ([glMem...] or [glBuf...]) and the memory they
    are about: headers by address, footers by address.  [bad_cb] says whether a
    callback is registered, [reports] is what it has been called with. *)
Record tracker : Type := mk_tracker {
  enable_checks : bool;
  alloc_cnt : Z;
  free_cnt : Z;
  in_use_list : Z;
  bad_cb : bool;
  headers : gmap Z MemBlockInfo;
  footers : gmap Z Z;
  reports : list Z
}.

Definition set_in_use (v : Z) (t : tracker) : tracker :=
  mk_tracker (enable_checks t) (alloc_cnt t) (free_cnt t) v (bad_cb t) (headers t) (footers t) (reports t).
Definition set_headers (v : gmap Z MemBlockInfo) (t : tracker) : tracker :=
  mk_tracker (enable_checks t) (alloc_cnt t) (free_cnt t) (in_use_list t) (bad_cb t) v (footers t) (reports t).
Definition set_alloc_cnt (v : Z) (t : tracker) : tracker :=
  mk_tracker (enable_checks t) v (free_cnt t) (in_use_list t) (bad_cb t) (headers t) (footers t) (reports t).
Definition set_free_cnt (v : Z) (t : tracker) : tracker :=
  mk_tracker (enable_checks t) (alloc_cnt t) v (in_use_list t) (bad_cb t) (headers t) (footers t) (reports t).
Definition set_footer (a v : Z) (t : tracker) : tracker :=
  mk_tracker (enable_checks t) (alloc_cnt t) (free_cnt t) (in_use_list t) (bad_cb t) (headers t)
    (<[a := v]> (footers t)) (reports t).

(** ** Operations *)

(** Access to the header at [a]. *)
Definition header (t : tracker) (a : Z) : result MemBlockInfo :=
  match headers t !! a with
  | Some h => Ok h
  | None => Fault (if a =? 0 then NullPointer else OutOfBounds)
  end.

Definition footer (t : tracker) (a : Z) : result Z :=
  match footers t !! a with
  | Some v => Ok v
  | None => Fault OutOfBounds
  end.

Definition update_header (f : MemBlockInfo -> MemBlockInfo) (a : Z) (t : tracker) : result tracker :=
  let* h := header t a in
  Ok (set_headers (<[a := f h]> (headers t)) t).

(** [if (cb != 0) cb (mem_p)]. *)
Definition report (a : Z) (t : tracker) : tracker :=
  if bad_cb t then
    mk_tracker (enable_checks t) (alloc_cnt t) (free_cnt t) (in_use_list t) (bad_cb t) (headers t)
      (footers t) (reports t ++ [a])
  else t.

(** The code that stores the header and the footer of a block of [size] bytes
    at [block_p], header and footer included; the address behind the header. *)
Definition block_alloc (block_p size : Z) (t : tracker) : result (Z * tracker) :=
  let old := in_use_list t in
  let h := mk_block (alloc_cnt t) size old 0 CY_U3P_MEM_START_SIG in
  let t := set_alloc_cnt (wrap32 (alloc_cnt t + 1)) t in
  let t := set_headers (<[block_p := h]> (headers t)) t in
  let* t := (if negb (old =? 0) then update_header (set_next_blk block_p) old t else Ok t) in
  let t := set_in_use block_p t in
  let t := set_footer (block_p + 4 * (Z.shiftr size 2 - 1)) CY_U3P_MEM_END_SIG t in
  Ok (block_p + sizeof_MemBlockInfo, t).

(** The code that checks the block behind [mem_p] and takes it off the list;
    the address of its header. *)
Definition block_free (mem_p : Z) (t : tracker) : result (Z * tracker) :=
  let block_p := mem_p - sizeof_MemBlockInfo in
  let* h := header t block_p in
  let endsig_p := block_p + alloc_size h - sizeof_uint32 in
  let* t := (if negb (start_sig h =? CY_U3P_MEM_START_SIG) then Ok (report mem_p t)
             else let* sig := footer t endsig_p in
                  if negb (sig =? CY_U3P_MEM_END_SIG) then Ok (report mem_p t) else Ok t) in
  let t := set_free_cnt (wrap32 (free_cnt t + 1)) t in
  let* t := (if negb (next_blk h =? 0) then update_header (set_prev_blk (prev_blk h)) (next_blk h) t
             else Ok t) in
  let* t := (if negb (prev_blk h =? 0) then update_header (set_next_blk (next_blk h)) (prev_blk h) t
             else Ok t) in
  let t := (if in_use_list t =? block_p then set_in_use (prev_blk h) t else t) in
  Ok (block_p, t).

(** The walk of [CyU3PMemCorruptionCheck] and [CyU3PBufCorruptionCheck] over
    the list, from [block_p] on; blocks lie between [lo] and [hi]. *)
Fixpoint corruption_walk (fuel : nat) (lo hi block_p : Z) (t : tracker)
  : result (CyU3PReturnStatus_t * tracker) :=
  match fuel with
  | O => Fault OutOfFuel
  | S fuel =>
      if block_p =? 0 then Ok (CY_U3P_SUCCESS, t)
      else if (block_p <? lo) || (hi <=? block_p) then Ok (CY_U3P_ERROR_FAILURE, t)
      else
        let* h := header t block_p in
        let mem_p := block_p + alloc_size h - sizeof_uint32 in
        let bad := Ok (CY_U3P_ERROR_FAILURE, report (block_p + sizeof_MemBlockInfo) t) in
        if negb (start_sig h =? CY_U3P_MEM_START_SIG) then bad
        else
          let* sig := footer t mem_p in
          if negb (sig =? CY_U3P_MEM_END_SIG) then bad
          else corruption_walk fuel lo hi (prev_blk h) t
  end.

(** [CyU3PMemGetCounts], [CyU3PBufGetCounts]: the pointers that are null are
    left alone ([None] before and after). *)
Definition get_counts (want_alloc want_free : bool) (t : tracker) : option Z * option Z :=
  (if want_alloc then Some (alloc_cnt t) else None, if want_free then Some (free_cnt t) else None).

(** ** The list of blocks in use *)

(** [l] is linked from its head on through [prev_blk], and back through
    [next_blk]; [nx] is before the head and [pv] behind the last. *)
Fixpoint linked (hs : gmap Z MemBlockInfo) (nx : Z) (l : list Z) (pv : Z) : Prop :=
  match l with
  | [] => True
  | a :: l =>
      (exists h, hs !! a = Some h /\ next_blk h = nx /\ prev_blk h = hd pv l) /\ linked hs a l pv
  end.

(** The blocks in use, newest first. *)
Record tracks (t : tracker) (l : list Z) : Prop := {
  tr_head : in_use_list t = hd 0 l;
  tr_linked : linked (headers t) 0 l 0;
  tr_nodup : NoDup l;
  tr_nonnull : 0 ∉ l
}.

Lemma linked_other hs nx l pv a h : a ∉ l -> linked hs nx l pv -> linked (<[a := h]> hs) nx l pv.
Proof.
  revert nx. induction l as [|b l IH]; intros nx Ha Hl; [done|]. cbn in *.
  apply not_elem_of_cons in Ha as [Hne Ha]. destruct Hl as [(h'&Hh&?&?) Hl]. split; [|by apply IH].
  exists h'. by rewrite lookup_insert_ne by congruence.
Qed.

Lemma linked_app hs nx l1 l2 pv :
  linked hs nx (l1 ++ l2) pv <-> linked hs nx l1 (hd pv l2) /\ linked hs (List.last l1 nx) l2 pv.
Proof.
  revert nx. induction l1 as [|a l1 IH]; intros nx; cbn; [tauto|].
  rewrite IH. assert (Hh : hd pv (l1 ++ l2) = hd (hd pv l2) l1) by (by destruct l1).
  assert (Hl : List.last l1 a = match l1 with [] => a | _ => List.last l1 nx end).
  { clear. destruct l1 as [|b l1]; [done|]. revert b. induction l1 as [|c l1 IH]; intros b; [done|apply IH]. }
  rewrite Hh, Hl. destruct l1; tauto.
Qed.

Lemma linked_head hs nx nx' a l pv h :
  a ∉ l -> hs !! a = Some h -> linked hs nx (a :: l) pv ->
  linked (<[a := set_next_blk nx' h]> hs) nx' (a :: l) pv.
Proof.
  intros Ha Hh [(h'&Hh'&_&Hp) Hl]. rewrite Hh in Hh'. injection Hh' as <-. split.
  - exists (set_next_blk nx' h). by rewrite lookup_insert_eq.
  - by apply linked_other.
Qed.

Lemma linked_last hs nx l a pv pv' h :
  a ∉ l -> hs !! a = Some h -> linked hs nx (l ++ [a]) pv ->
  linked (<[a := set_prev_blk pv' h]> hs) nx (l ++ [a]) pv'.
Proof.
  intros Ha Hh. rewrite !linked_app. cbn. intros [Hl [(h'&Hh'&Hn&_) _]].
  rewrite Hh in Hh'. injection Hh' as <-. split; [by apply linked_other|]. split; [|done].
  exists (set_prev_blk pv' h). by rewrite lookup_insert_eq.
Qed.

Lemma linked_lookup hs nx l pv a : linked hs nx l pv -> a ∈ l -> exists h, hs !! a = Some h.
Proof.
  revert nx. induction l as [|b l IH]; intros nx Hl Ha; [by apply elem_of_nil in Ha|].
  destruct Hl as [(h&Hh&_) Hl]. apply elem_of_cons in Ha as [->|Ha]; [eauto|by eapply IH].
Qed.

(** The header and the footer of a block are as [block_alloc] wrote them. *)
Definition intact (t : tracker) (b : Z) : Prop :=
  exists h, headers t !! b = Some h /\ start_sig h = CY_U3P_MEM_START_SIG /\
    footers t !! (b + alloc_size h - sizeof_uint32) = Some CY_U3P_MEM_END_SIG.

(** The links of other blocks are all that changes in the headers. *)
Definition same_blocks (t t' : tracker) : Prop :=
  forall a h, headers t !! a = Some h ->
    exists h', headers t' !! a = Some h' /\ alloc_size h' = alloc_size h /\ start_sig h' = start_sig h.

Lemma update_header_ok f a t h :
  headers t !! a = Some h -> update_header f a t = Ok (set_headers (<[a := f h]> (headers t)) t).
Proof. intros Hh. unfold update_header, header. by rewrite Hh. Qed.

Lemma block_alloc_tracks t l p size :
  tracks t l -> p ∉ l -> p <> 0 -> size mod 4 = 0 ->
  exists t', block_alloc p size t = Ok (p + sizeof_MemBlockInfo, t') /\ tracks t' (p :: l) /\
    intact t' p /\ (forall b, b ∈ l -> intact t b -> intact t' b) /\
    alloc_cnt t' = wrap32 (alloc_cnt t + 1) /\ free_cnt t' = free_cnt t /\ reports t' = reports t.
Proof.
  intros [Hhd Hl Hnd H0] Hp Hp0 Hsz. unfold block_alloc. set (h := mk_block _ _ _ _ _).
  set (t1 := set_headers _ _).
  assert (Hfoot : p + 4 * (Z.shiftr size 2 - 1) = p + size - sizeof_uint32).
  { rewrite Z.shiftr_div_pow2 by lia. change (2 ^ 2) with 4. unfold sizeof_uint32.
    pose proof (Z.div_mod size 4). lia. }
  rewrite Hfoot.
  assert (Hl1 : linked (headers t1) 0 l 0) by (by apply linked_other).
  assert (Hint : forall hs t2, t2 = set_footer (p + size - sizeof_uint32) CY_U3P_MEM_END_SIG
              (set_in_use p (set_headers hs t1)) ->
            (exists h', hs !! p = Some h' /\ alloc_size h' = size /\ start_sig h' = CY_U3P_MEM_START_SIG) ->
            (forall b h0, b ∈ l -> headers t !! b = Some h0 -> exists h', hs !! b = Some h' /\
               alloc_size h' = alloc_size h0 /\ start_sig h' = start_sig h0) ->
            intact t2 p /\ (forall b, b ∈ l -> intact t b -> intact t2 b)).
  { intros hs t2 -> (h'&Hh'&Hs'&Hg') Hk. split.
    - exists h'. cbn. rewrite Hs'. by rewrite lookup_insert_eq.
    - intros b Hb (h0&Hh0&Hg0&Hf0). destruct (Hk b h0 Hb Hh0) as (h1&Hh1&Hs1&Hg1).
      exists h1. cbn. rewrite Hs1, Hg1. split; [done|]. split; [done|].
      destruct (decide (p + size - sizeof_uint32 = b + alloc_size h0 - sizeof_uint32)) as [->|Hne];
        [by rewrite lookup_insert_eq|by rewrite lookup_insert_ne]. }
  destruct l as [|q l]; cbn [hd] in Hhd; rewrite Hhd in *; cbn [Z.eqb negb rbind].
  - eexists. split; [done|]. split.
    + constructor; cbn; [done| |by apply NoDup_singleton|set_solver].
      split; [|done]. exists h. by rewrite lookup_insert_eq.
    + destruct (Hint (headers t1) _ eq_refl) as [H1 H2]; [|set_solver|by split; [exact H1|]; split; [exact H2|]].
      exists h. cbn. by rewrite lookup_insert_eq.
  - assert (q <> 0) by set_solver. destruct (Z.eqb_spec q 0); [done|]. cbn [negb].
    apply not_elem_of_cons in Hp as [Hpq Hp]. apply NoDup_cons in Hnd as [Hq Hnd].
    destruct (linked_lookup _ _ _ _ q Hl1 ltac:(set_solver)) as [hq Hhq].
    rewrite (update_header_ok _ q t1 hq Hhq). cbn [rbind]. eexists. split; [done|]. split.
    + constructor; cbn [in_use_list set_footer set_in_use set_headers headers hd]; [done| |by repeat (apply NoDup_cons; split; [set_solver|])|set_solver].
      split; [|by apply (linked_head _ 0)]. exists h. rewrite lookup_insert_ne by done.
      cbn. by rewrite lookup_insert_eq.
    + match goal with |- intact ?t2 p /\ _ => destruct (Hint (headers t2) t2 eq_refl) as [H1 H2] end;
        [..|by split; [exact H1|]; split; [exact H2|]].
      * exists h. cbn. rewrite lookup_insert_ne, lookup_insert_eq by done. done.
      * cbn. intros b h0 Hb Hh0. destruct (decide (b = q)) as [->|Hne].
        -- rewrite lookup_insert_eq. eexists. split; [done|]. cbn in Hhq.
           rewrite lookup_insert_ne in Hhq by done. rewrite Hh0 in Hhq. by injection Hhq as <-.
        -- exists h0. rewrite !lookup_insert_ne by set_solver. done.
Qed.

Lemma update_header_checks f a t t' :
  update_header f a t = Ok t' -> enable_checks t' = enable_checks t.
Proof. unfold update_header. intros Hu. apply rbind_Ok in Hu as (h&_&[= <-]). done. Qed.

Lemma block_alloc_checks p size t r t' :
  block_alloc p size t = Ok (r, t') -> enable_checks t' = enable_checks t.
Proof.
  unfold block_alloc. intros Hb. apply rbind_Ok in Hb as (t1&H1&[= _ <-]). cbn.
  destruct (negb _); [by apply update_header_checks in H1|]. by injection H1 as <-.
Qed.

Lemma block_free_checks p t r t' :
  block_free p t = Ok (r, t') -> enable_checks t' = enable_checks t.
Proof.
  unfold block_free. intros Hb. apply rbind_Ok in Hb as (a&_&Hb). apply rbind_Ok in Hb as (a0&E0&Hb).
  apply rbind_Ok in Hb as (a1&E1&Hb). apply rbind_Ok in Hb as (a2&E2&Hb). injection Hb as _ <-.
  assert (Hr : forall x t, enable_checks (report x t) = enable_checks t)
    by (intros x t0; unfold report; by destruct (bad_cb t0)).
  assert (E4 : enable_checks a0 = enable_checks t).
  { destruct (negb _); [injection E0 as <-; apply Hr|]. apply rbind_Ok in E0 as (v&_&E0).
    destruct (negb _); injection E0 as <-; [apply Hr|done]. }
  assert (E5 : enable_checks a1 = enable_checks t).
  { destruct (negb (next_blk a =? 0)); [apply update_header_checks in E1; by rewrite E1|].
    by injection E1 as <-. }
  assert (E6 : enable_checks a2 = enable_checks t).
  { destruct (negb (prev_blk a =? 0)); [apply update_header_checks in E2; by rewrite E2|].
    by injection E2 as <-. }
  destruct (in_use_list a2 =? _); exact E6.
Qed.

(** Take the block with header [h] out of the links. *)
Definition unlink (h : MemBlockInfo) (t : tracker) : result tracker :=
  let* t := (if negb (next_blk h =? 0) then update_header (set_prev_blk (prev_blk h)) (next_blk h) t
             else Ok t) in
  if negb (prev_blk h =? 0) then update_header (set_next_blk (next_blk h)) (prev_blk h) t else Ok t.

Lemma set_headers_id t : set_headers (headers t) t = t.
Proof. by destruct t. Qed.

Lemma same_blocks_refl t : same_blocks t t.
Proof. intros a h Hh. eauto. Qed.

Lemma same_blocks_update t a h h' :
  headers t !! a = Some h -> alloc_size h' = alloc_size h -> start_sig h' = start_sig h ->
  same_blocks t (set_headers (<[a := h']> (headers t)) t).
Proof.
  intros Ha Hs Hg b hb Hb. cbn. destruct (decide (b = a)) as [->|Hne].
  - rewrite lookup_insert_eq. rewrite Ha in Hb. injection Hb as <-. eauto.
  - rewrite lookup_insert_ne by done. eauto.
Qed.

Lemma same_blocks_trans t1 t2 t3 : same_blocks t1 t2 -> same_blocks t2 t3 -> same_blocks t1 t3.
Proof.
  intros H1 H2 a h Hh. destruct (H1 a h Hh) as (h'&Hh'&?&?). destruct (H2 a h' Hh') as (h''&?&?&?).
  exists h''. repeat split; congruence.
Qed.

(** The neighbour before the block, whose [prev_blk] skips it. *)
Lemma unlink_before t l1 b l2 :
  linked (headers t) 0 l1 b -> linked (headers t) b l2 0 -> NoDup (l1 ++ b :: l2) -> 0 ∉ l1 ->
  exists hs, (let nx := List.last l1 0 in
     if negb (nx =? 0) then update_header (set_prev_blk (hd 0 l2)) nx t else Ok t) = Ok (set_headers hs t) /\
    linked hs 0 l1 (hd 0 l2) /\ linked hs b l2 0 /\ same_blocks t (set_headers hs t).
Proof.
  intros H1 H2 Hnd H0. destruct l1 as [|c l1 _] using rev_ind.
  { exists (headers t). cbn. rewrite set_headers_id. eauto using same_blocks_refl. }
  rewrite last_last. cbn zeta. destruct (Z.eqb_spec c 0) as [->|Hc]; [set_solver|]. cbn [negb].
  rewrite <- app_assoc in Hnd. cbn in Hnd.
  assert (c ∉ l1 /\ c ∉ l2) as [Hc1 Hc2].
  { apply NoDup_app in Hnd as (_&Hd&Hnd). apply NoDup_cons in Hnd as [Hn _].
    split; [intros Hin; apply (Hd c Hin); set_solver|set_solver]. }
  destruct (linked_lookup _ _ _ _ c H1 ltac:(set_solver)) as [h Hh].
  rewrite (update_header_ok _ c t h Hh). eexists. split; [done|].
  split; [by eapply linked_last|]. split; [by apply linked_other|].
  by eapply same_blocks_update.
Qed.

(** The neighbour behind the block, whose [next_blk] skips it. *)
Lemma unlink_behind t l1 b l2 :
  linked (headers t) 0 l1 (hd 0 l2) -> linked (headers t) b l2 0 -> NoDup (l1 ++ l2) -> 0 ∉ l2 ->
  exists hs, (if negb (hd 0 l2 =? 0) then update_header (set_next_blk (List.last l1 0)) (hd 0 l2) t
              else Ok t) = Ok (set_headers hs t) /\
    linked hs 0 (l1 ++ l2) 0 /\ same_blocks t (set_headers hs t).
Proof.
  intros H1 H2 Hnd H0. destruct l2 as [|d l2]; cbn [hd] in *.
  { exists (headers t). cbn. rewrite set_headers_id, linked_app. eauto using same_blocks_refl. }
  destruct (Z.eqb_spec d 0) as [->|Hd]; [set_solver|]. cbn [negb].
  assert (d ∉ l1 /\ d ∉ l2) as [Hd1 Hd2].
  { apply NoDup_app in Hnd as (_&Hd'&Hnd). apply NoDup_cons in Hnd as [Hn _].
    split; [intros Hin; apply (Hd' d Hin); set_solver|done]. }
  destruct (linked_lookup _ _ _ _ d H2 ltac:(set_solver)) as [h Hh].
  rewrite (update_header_ok _ d t h Hh). eexists. split; [done|].
  split; [|by eapply same_blocks_update]. rewrite linked_app. cbn [hd]. split; [by apply linked_other|].
  by eapply linked_head.
Qed.

Lemma unlink_tracks t l1 b l2 h :
  linked (headers t) 0 (l1 ++ b :: l2) 0 -> NoDup (l1 ++ b :: l2) -> 0 ∉ l1 ++ b :: l2 ->
  headers t !! b = Some h ->
  next_blk h = List.last l1 0 /\ prev_blk h = hd 0 l2 /\
  exists hs, unlink h t = Ok (set_headers hs t) /\ linked hs 0 (l1 ++ l2) 0 /\
    same_blocks t (set_headers hs t).
Proof.
  intros Hl Hnd H0 Hh. apply linked_app in Hl as [H1 [(h'&Hh'&Hn&Hp) H2]]. cbn [hd] in H1.
  rewrite Hh in Hh'. injection Hh' as <-. split; [done|]. split; [done|].
  destruct (unlink_before t l1 b l2) as (hs1&Hrun1&L1&L2&S1); [done|done|done|set_solver|].
  destruct (unlink_behind (set_headers hs1 t) l1 b l2) as (hs2&Hrun2&L3&S2); [done|done| |set_solver|].
  { apply NoDup_app in Hnd as (?&Hd&Hnd). apply NoDup_cons in Hnd as [? ?]. apply NoDup_app.
    split; [done|]. split; [intros x Hx Hx2; apply (Hd x Hx); set_solver|done]. }
  exists hs2. split; [|split; [done|exact (same_blocks_trans _ _ _ S1 S2)]].
  unfold unlink. rewrite Hn, Hp. cbn zeta in Hrun1. rewrite Hrun1. cbn [rbind]. exact Hrun2.
Qed.

(** Freeing a block in use: the list without it, everything else as it was,
    and a report exactly when the block is damaged. *)
Lemma block_free_tracks t l1 b l2 h v :
  tracks t (l1 ++ b :: l2) -> headers t !! b = Some h ->
  footers t !! (b + alloc_size h - sizeof_uint32) = Some v ->
  exists t', block_free (b + sizeof_MemBlockInfo) t = Ok (b, t') /\ tracks t' (l1 ++ l2) /\
    (forall c, intact t c -> intact t' c) /\
    alloc_cnt t' = alloc_cnt t /\ free_cnt t' = wrap32 (free_cnt t + 1) /\ bad_cb t' = bad_cb t /\
    reports t' = reports t ++
      (if bool_decide (start_sig h = CY_U3P_MEM_START_SIG /\ v = CY_U3P_MEM_END_SIG) then []
       else if bad_cb t then [b + sizeof_MemBlockInfo] else []).
Proof.
  intros [Hhd Hl Hnd H0] Hh Hv. unfold block_free.
  replace (b + sizeof_MemBlockInfo - sizeof_MemBlockInfo) with b by lia.
  unfold header. rewrite Hh. cbn [rbind].
  set (bad := negb (bool_decide (start_sig h = CY_U3P_MEM_START_SIG /\ v = CY_U3P_MEM_END_SIG))).
  assert (Hrep : (if negb (start_sig h =? CY_U3P_MEM_START_SIG) then Ok (report (b + sizeof_MemBlockInfo) t)
     else let* sig := footer t (b + alloc_size h - sizeof_uint32) in
          if negb (sig =? CY_U3P_MEM_END_SIG) then Ok (report (b + sizeof_MemBlockInfo) t) else Ok t) =
     Ok (if bad then report (b + sizeof_MemBlockInfo) t else t)).
  { unfold footer, bad. rewrite Hv. cbn [rbind].
    destruct (Z.eqb_spec (start_sig h) CY_U3P_MEM_START_SIG), (Z.eqb_spec v CY_U3P_MEM_END_SIG);
      cbn [negb]; case_bool_decide; tauto || done. }
  rewrite Hrep. cbn [rbind]. set (t1 := set_free_cnt _ _).
  assert (Ht1 : headers t1 = headers t /\ footers t1 = footers t /\ in_use_list t1 = in_use_list t /\
    alloc_cnt t1 = alloc_cnt t /\ free_cnt t1 = wrap32 (free_cnt t + 1) /\ bad_cb t1 = bad_cb t /\
    reports t1 = reports t ++ (if negb bad then [] else if bad_cb t then [b + sizeof_MemBlockInfo] else [])).
  { subst t1. clear. clearbody bad. unfold report.
    destruct bad, t as [? ? ? ? [] ? ? ?]; cbn -[wrap]; rewrite ?app_nil_r; done. }
  destruct Ht1 as (E1&E2&E3&E4&E5&E6&E7). clearbody t1. clear Hrep.
  destruct (unlink_tracks t1 l1 b l2 h) as (Hn&Hp&hs&Hun&Hlink&Hsame); [by rewrite ?E1..|].
  unfold unlink in Hun. apply rbind_Ok in Hun as (t2&-> & Hun). cbn [rbind]. rewrite Hun. cbn [rbind].
  cbn [in_use_list set_headers]. rewrite E3, Hhd. eexists. split; [done|].
  assert (Hint : forall c, intact t c -> intact (set_headers hs t1) c).
  { intros c (hc&Hc&Hg&Hf). rewrite <- E1 in Hc. destruct (Hsame c hc Hc) as (hc'&Hc'&Hs'&Hg').
    exists hc'. cbn. rewrite E2, Hs', Hg'. done. }
  assert (Hnd' : NoDup (l1 ++ l2)).
  { apply NoDup_app in Hnd as (?&Hd&Hnd). apply NoDup_cons in Hnd as [? ?]. apply NoDup_app.
    split; [done|]. split; [intros x Hx Hx2; apply (Hd x Hx); set_solver|done]. }
  replace (bool_decide _) with (negb bad) by (unfold bad; by rewrite negb_involutive).
  destruct l1 as [|c l1]; cbn [hd app].
  - rewrite Z.eqb_refl. split; [|done]. constructor; cbn; [done|done|done|set_solver].
  - assert (c <> b) by (intros ->; apply NoDup_cons in Hnd as [? _]; set_solver).
    destruct (Z.eqb_spec c b); [done|]. split; [|done].
    constructor; cbn; [by rewrite E3|done|done|set_solver].
Qed.

(** ** The corruption check *)

Definition damaged (t : tracker) (b : Z) : bool :=
  match headers t !! b with
  | Some h => negb (start_sig h =? CY_U3P_MEM_START_SIG) ||
              negb (bool_decide (footers t !! (b + alloc_size h - sizeof_uint32) = Some CY_U3P_MEM_END_SIG))
  | None => true
  end.

(** The footer of a block whose header is right can be read. *)
Definition readable (t : tracker) (b : Z) : Prop :=
  forall h, headers t !! b = Some h -> start_sig h = CY_U3P_MEM_START_SIG ->
    is_Some (footers t !! (b + alloc_size h - sizeof_uint32)).

Lemma intact_damaged t b : intact t b <-> damaged t b = false.
Proof.
  unfold intact, damaged. destruct (headers t !! b) as [h|]; [|naive_solver].
  rewrite orb_false_iff, !negb_false_iff, Z.eqb_eq, bool_decide_eq_true. naive_solver.
Qed.

Lemma walk_finds t lo hi nx l fuel :
  linked (headers t) nx l 0 -> 0 ∉ l -> Forall (fun b => lo <= b < hi) l ->
  (forall b, b ∈ l -> readable t b) -> (length l < fuel)%nat ->
  corruption_walk fuel lo hi (hd 0 l) t =
    Ok (match List.find (damaged t) l with
        | None => (CY_U3P_SUCCESS, t)
        | Some b => (CY_U3P_ERROR_FAILURE, report (b + sizeof_MemBlockInfo) t)
        end).
Proof.
  revert nx l. induction fuel as [|fuel IH]; intros nx l Hl H0 Hr Hread Hf; [lia|].
  destruct l as [|b l]; [done|]. cbn [hd corruption_walk List.find].
  destruct Hl as [(h&Hh&Hn&Hp) Hl]. apply Forall_cons in Hr as [Hb Hr].
  destruct (Z.eqb_spec b 0) as [->|_]; [set_solver|].
  destruct (Z.ltb_spec b lo), (Z.leb_spec hi b); try lia. cbn [orb].
  unfold header. rewrite Hh. cbn [rbind]. unfold damaged at 1. rewrite Hh.
  destruct (Z.eqb_spec (start_sig h) CY_U3P_MEM_START_SIG) as [Hs|Hs]; cbn [negb orb]; [|done].
  destruct (Hread b ltac:(set_solver) h Hh Hs) as [v Hv]. unfold footer. rewrite Hv. cbn [rbind].
  destruct (Z.eqb_spec v CY_U3P_MEM_END_SIG) as [->|Hne]; cbn [negb].
  - rewrite bool_decide_true by done. cbn [negb]. rewrite Hp. apply (IH b); try done.
    + set_solver.
    + intros c Hc. apply Hread. set_solver.
    + cbn in Hf. lia.
  - rewrite bool_decide_false by congruence. done.
Qed.

(** ** Sequences of operations *)

(** An allocation gives the address and the size of the block; a block is
    freed by its address. *)
Inductive track_op : Type :=
| TAlloc (block_p size : Z)
| TFree (block_p : Z).

Fixpoint run_track (ops : list track_op) (t : tracker) : result tracker :=
  match ops with
  | [] => Ok t
  | TAlloc p size :: ops => let* (_, t) := block_alloc p size t in run_track ops t
  | TFree p :: ops => let* (_, t) := block_free (p + sizeof_MemBlockInfo) t in run_track ops t
  end.

(** The specification: the blocks in use, newest first. *)
Definition live_after (op : track_op) (l : list Z) : list Z :=
  match op with
  | TAlloc p _ => p :: l
  | TFree p => filter (fun q => q <> p) l
  end.

(** Addresses that the underlying heap may give, and blocks that are in use. *)
Definition track_ok (op : track_op) (l : list Z) : Prop :=
  match op with
  | TAlloc p size => p ∉ l /\ p <> 0 /\ size mod 4 = 0
  | TFree p => p ∈ l
  end.

Fixpoint track_oks (ops : list track_op) (l : list Z) : Prop :=
  match ops with
  | [] => True
  | op :: ops => track_ok op l /\ track_oks ops (live_after op l)
  end.

Fixpoint live_afters (ops : list track_op) (l : list Z) : list Z :=
  match ops with
  | [] => l
  | op :: ops => live_afters ops (live_after op l)
  end.

Lemma filter_remove {A} `{EqDecision A} (l1 l2 : list A) b :
  NoDup (l1 ++ b :: l2) -> filter (fun q => q <> b) (l1 ++ b :: l2) = l1 ++ l2.
Proof.
  intros Hnd. apply NoDup_app in Hnd as (_&Hd&Hnd). apply NoDup_cons in Hnd as [Hb _].
  assert (Hall : forall l : list A, b ∉ l -> filter (fun q => q <> b) l = l).
  { induction l as [|x l IH]; intros Hx; [done|]. rewrite filter_cons, decide_True by set_solver.
    f_equal. apply IH. set_solver. }
  rewrite filter_app, filter_cons, decide_False by tauto.
  rewrite !Hall; [done|done|]. intros Hin. apply (Hd b Hin). set_solver.
Qed.

(** What a sequence of operations keeps. *)
Definition tracked (t : tracker) (l : list Z) : Prop :=
  tracks t l /\ (forall b, b ∈ l -> intact t b) /\
  alloc_cnt t = wrap32 (free_cnt t + Z.of_nat (length l)) /\ reports t = [].

Lemma wrap32_succ a : wrap32 (wrap32 a + 1) = wrap32 (a + 1).
Proof. unfold wrap. by rewrite Zplus_mod_idemp_l. Qed.

Lemma run_track_tracked ops t l :
  tracked t l -> track_oks ops l -> exists t', run_track ops t = Ok t' /\ tracked t' (live_afters ops l).
Proof.
  revert t l. induction ops as [|op ops IH]; intros t l (Ht&Hi&Hc&Hr) Hok; [by eexists|].
  destruct Hok as [Hop Hops]. destruct op as [p size|b]; cbn [run_track live_afters live_after].
  - destruct Hop as (Hp&Hp0&Hsz).
    destruct (block_alloc_tracks t l p size Ht Hp Hp0 Hsz) as (t1&->&Ht1&Hip&Hk&Ha&Hf&Hr1). cbn [rbind].
    apply IH; [|done]. split; [done|]. split; [intros c [->|Hc']%elem_of_cons; auto|].
    split; [|congruence]. rewrite Ha, Hf, Hc, wrap32_succ. cbn [length]. f_equal. lia.
  - apply list_elem_of_split in Hop as (l1&l2&->). rewrite filter_remove by apply Ht.
    destruct (Hi b ltac:(set_solver)) as (h&Hh&Hg&Hf).
    destruct (block_free_tracks t l1 b l2 h _ Ht Hh Hf) as (t1&->&Ht1&Hk&Ha&Hfc&_&Hr1). cbn [rbind].
    rewrite bool_decide_true, app_nil_r in Hr1 by done.
    apply IH; [|by cbn in Hops; rewrite filter_remove in Hops by apply Ht].
    split; [done|]. split; [intros c Hc'; apply Hk, Hi; set_solver|]. split; [|congruence].
    rewrite Ha, Hfc, Hc. unfold wrap. rewrite Zplus_mod_idemp_l. f_equal.
    rewrite !length_app. cbn [length]. lia.
Qed.

(** The variables as they are initialised, with checks enabled. *)
Definition tracker_init (cb : bool) : tracker := mk_tracker true 0 0 0 cb ∅ ∅ [].

Lemma tracker_init_tracked cb : tracked (tracker_init cb) [].
Proof.
  split; [|split; [intros b Hb; set_solver|done]].
  constructor; cbn; try done; [apply NoDup_nil_2|set_solver].
Qed.

(** C11. The list of blocks in use of both heaps: after every sequence of
    allocations and frees of blocks in use, in any order, the list that is
    linked through the headers holds exactly the blocks that have been allocated
    and not freed, newest first; the counters differ by their number; and no
    block is reported as damaged.  Headers and footers are in memories of their
    own, so that blocks which overlap are not excluded here: that they do not is
    for the heaps to show, as [DmaHeap] does. *)
Theorem block_list_tracks cb ops :
  track_oks ops [] ->
  exists t, run_track ops (tracker_init cb) = Ok t /\ tracks t (live_afters ops []) /\
    wrap32 (alloc_cnt t - free_cnt t) = wrap32 (Z.of_nat (length (live_afters ops []))) /\
    reports t = [].
Proof.
  intros Hok.
  destruct (run_track_tracked ops _ [] (tracker_init_tracked cb) Hok) as (t&Hrun&Ht&_&Hc&Hr).
  exists t. split; [done|]. split; [done|]. split; [|done]. rewrite Hc. unfold wrap.
  rewrite Zminus_mod_idemp_l. f_equal. lia.
Qed.

Lemma block_list_tracks_witness :
  exists t, run_track [TAlloc 100 24; TAlloc 200 48; TAlloc 300 32; TFree 200; TFree 300; TAlloc 400 28]
              (tracker_init true) = Ok t /\ tracks t [400; 100].
Proof.
  destruct (block_list_tracks true
    [TAlloc 100 24; TAlloc 200 48; TAlloc 300 32; TFree 200; TFree 300; TAlloc 400 28]) as (t&Hrun&Ht&_).
  - cbn. repeat split; try set_solver; lia.
  - exists t. split; [exact Hrun|exact Ht].
Defined.

(** The corruption check walks the whole list and ends: it succeeds exactly
    when every block in use has its start and end signatures, and otherwise it
    fails and reports the newest damaged block, once. *)
Theorem corruption_check_finds t l lo hi fuel :
  tracks t l -> Forall (fun b => lo <= b < hi) l -> (forall b, b ∈ l -> readable t b) ->
  (length l < fuel)%nat ->
  corruption_walk fuel lo hi (in_use_list t) t =
    Ok (match List.find (damaged t) l with
        | None => (CY_U3P_SUCCESS, t)
        | Some b => (CY_U3P_ERROR_FAILURE, report (b + sizeof_MemBlockInfo) t)
        end).
Proof. intros Ht. rewrite (tr_head _ _ Ht). apply (walk_finds _ _ _ 0); apply Ht. Qed.

(** Three blocks, the middle one overwritten past its end. *)
Definition overrun : tracker :=
  match run_track [TAlloc 100 24; TAlloc 200 48; TAlloc 300 32] (tracker_init true) with
  | Ok t => set_footer 244 0 t
  | Fault _ => tracker_init true
  end.

Lemma overrun_tracks : tracks overrun [300; 200; 100].
Proof.
  constructor; [vm_compute; reflexivity| |apply (bool_decide_unpack _); vm_compute; exact I|set_solver].
  vm_compute. repeat split; eexists; (split; [reflexivity|done]).
Qed.

Lemma overrun_readable b : b ∈ [300; 200; 100] -> readable overrun b.
Proof.
  intros Hb h Hh _. rewrite !elem_of_cons, elem_of_nil in Hb.
  destruct Hb as [->|[->|[->|[]]]]; vm_compute in Hh; injection Hh as <-; eexists; vm_compute; reflexivity.
Qed.

Lemma corruption_check_finds_witness :
  corruption_walk 10 100 400 (in_use_list overrun) overrun =
    Ok (match List.find (damaged overrun) [300; 200; 100] with
        | None => (CY_U3P_SUCCESS, overrun)
        | Some b => (CY_U3P_ERROR_FAILURE, report (b + sizeof_MemBlockInfo) overrun)
        end) /\
  List.find (damaged overrun) [300; 200; 100] = Some 200.
Proof.
  split; [|vm_compute; reflexivity].
  refine (corruption_check_finds overrun [300; 200; 100] 100 400 10 overrun_tracks _ overrun_readable _).
  - repeat constructor; lia.
  - cbn. lia.
Defined.
