(* ===== verification/DmaBits.v ===== *)
(** * The status bits of the DMA buffer manager

    The buffer manager of [src/src/cyfx/cyfx_tx.c] keeps one bit per cache line
    in an array of 32-bit words.  Here are the helper that sets and clears runs of
    bits and the search of the allocator, as the code has them, and what they
    mean for the bits. *)

From stdpp Require Import base numbers list decidable.
From Stdlib Require Import ZArith Lia Bool.
From S2P Require Import Prelude.
Open Scope Z_scope.

(** ** Operations *)

Definition ALL_ONES : Z := 0xFFFFFFFF.

Definition rd_word (ws : list Z) (i : Z) : result Z :=
  if i <? 0 then Fault OutOfBounds
  else match ws !! Z.to_nat i with Some w => Ok w | None => Fault OutOfBounds end.

Definition wr_word (ws : list Z) (i v : Z) : result (list Z) :=
  if (0 <=? i) && (i <? Z.of_nat (length ws)) then Ok (<[Z.to_nat i := v]> ws)
  else Fault OutOfBounds.

(** [(uint32_t)(1 << n) - 1]. *)
Definition low_mask (n : Z) : Z := wrap32 (wrap32 (Z.shiftl 1 n) - 1).

(** [CyU3PDmaBufMgrSetStatus]: the loop state is the array, the word, the bits
    of it to change, their mask and the number of bits left. *)
Definition CyU3PDmaBufMgrSetStatus (ws : list Z) (startPos numBits : Z) (value : bool)
  : result (list Z) :=
  let wordnum := Z.shiftr startPos 5 in
  let startbit := Z.land startPos 31 in
  let endbit := Z.min 32 (startbit + numBits) in
  let mask := (if endbit =? 32 then ALL_ONES else low_mask endbit) in
  let mask := wrap32 (mask - low_mask startbit) in
  let* (ws, _, _, _, _, _) :=
    while (S (Z.to_nat numBits))
      (fun '(_, _, _, _, _, numBits) => negb (numBits =? 0))
      (fun '(ws, wordnum, startbit, endbit, mask, numBits) =>
         let* w := rd_word ws wordnum in
         let* ws := wr_word ws wordnum
                      (if value then Z.lor w mask else Z.land w (wrap32 (Z.lnot mask))) in
         let wordnum := wordnum + 1 in
         let numBits := numBits - (endbit - startbit) in
         if 32 <=? numBits then Ok (ws, wordnum, 0, 32, ALL_ONES, numBits)
         else Ok (ws, wordnum, 0, numBits, low_mask numBits, numBits))
      (ws, wordnum, startbit, endbit, mask, numBits) in
  Ok ws.

(** The search of [CyU3PDmaBufferAlloc] for [size + 1] zero bits. *)
Record search : Type := mk_search {
  s_word : Z;
  s_bit : Z;
  s_count : Z;
  s_start : Z;
  s_tmp : Z;
  s_found : bool
}.

Definition search_step (ws : list Z) (statusSize target : Z) (s : search) : result search :=
  let* w := rd_word ws (s_word s) in
  let zero := Z.land w (Z.shiftl 1 (s_bit s)) =? 0 in
  let start := if zero && (s_count s =? 0) then Z.shiftl (s_word s) 5 + s_bit s + 1 else s_start s in
  let count := if zero then s_count s + 1 else 0 in
  if zero && (count =? target) then Ok (mk_search (s_word s) (s_bit s) count start (s_tmp s) true)
  else
    let bitnum := s_bit s + 1 in
    if bitnum =? 32 then
      let wordnum := s_word s + 1 in
      if wordnum =? statusSize then Ok (mk_search 0 0 0 start (s_tmp s + 1) false)
      else Ok (mk_search wordnum 0 count start (s_tmp s + 1) false)
    else Ok (mk_search (s_word s) bitnum count start (s_tmp s) false).

Definition search_run (ws : list Z) (statusSize searchPos target : Z) : result search :=
  while (S (32 * Z.to_nat statusSize))
    (fun s => (s_tmp s <? statusSize) && negb (s_found s))
    (search_step ws statusSize target)
    (mk_search searchPos 0 0 0 0 false).

(** The loop of [CyU3PDmaBufferFree] that counts the one bits from a position on. *)
Fixpoint count_loop (fuel : nat) (ws : list Z) (statusSize wordnum bitnum count : Z) : result Z :=
  match fuel with
  | O => Fault OutOfFuel
  | S fuel =>
      if wordnum <? statusSize then
        let* w := rd_word ws wordnum in
        if negb (Z.land w (Z.shiftl 1 bitnum) =? 0) then
          if bitnum + 1 =? 32 then count_loop fuel ws statusSize (wordnum + 1) 0 (count + 1)
          else count_loop fuel ws statusSize wordnum (bitnum + 1) (count + 1)
        else Ok count
      else Ok count
  end.

Definition count_ones (ws : list Z) (statusSize wordnum bitnum : Z) : result Z :=
  count_loop (S (32 * Z.to_nat statusSize)) ws statusSize wordnum bitnum 0.

(** ** Bits *)

Definition bit (ws : list Z) (p : Z) : bool :=
  Z.testbit (ws !!! Z.to_nat (p / 32)) (p mod 32).

Definition words_ok (ws : list Z) : Prop := Forall (fun w => 0 <= w < 2 ^ 32) ws.

Lemma rd_word_ok ws i : 0 <= i < Z.of_nat (length ws) -> rd_word ws i = Ok (ws !!! Z.to_nat i).
Proof.
  intros Hi. unfold rd_word. destruct (Z.ltb_spec i 0); [lia|].
  destruct (lookup_lt_is_Some_2 ws (Z.to_nat i)) as [v Hv]; [lia|].
  by rewrite Hv, (list_lookup_total_correct _ _ _ Hv).
Qed.

Lemma wr_word_ok ws i v :
  0 <= i < Z.of_nat (length ws) -> wr_word ws i v = Ok (<[Z.to_nat i := v]> ws).
Proof.
  intros Hi. unfold wr_word. destruct (Z.leb_spec 0 i), (Z.ltb_spec i (Z.of_nat (length ws))); try lia. done.
Qed.

Lemma land_bit w i : 0 <= i -> (Z.land w (Z.shiftl 1 i) =? 0) = negb (Z.testbit w i).
Proof.
  intros Hi. rewrite Z.shiftl_1_l. destruct (Z.testbit w i) eqn:Hb; cbn [negb].
  - apply Z.eqb_neq. intros H0. apply (f_equal (fun z => Z.testbit z i)) in H0.
    rewrite Z.land_spec, Z.pow2_bits_true, Hb, Z.bits_0 in H0 by done. done.
  - apply Z.eqb_eq, Z.bits_inj'. intros n Hn. rewrite Z.land_spec, Z.bits_0.
    destruct (Z.eq_dec n i) as [->|Hne]; [by rewrite Hb|].
    by rewrite Z.pow2_bits_false, andb_false_r by congruence.
Qed.

(** *** Masks *)

Lemma low_mask_ones n : 0 <= n < 32 -> low_mask n = Z.ones n.
Proof.
  intros Hn. unfold low_mask. rewrite Z.shiftl_1_l, Z.ones_equiv.
  assert (2 ^ n < 2 ^ 32) by (apply Z.pow_lt_mono_r; lia).
  pose proof (Z.pow_pos_nonneg 2 n ltac:(lia) ltac:(lia)). change (2 ^ 32) with 4294967296 in *.
  rewrite (wrap32_small (2 ^ n)) by lia. rewrite wrap32_small by lia. lia.
Qed.

(** The bits from [s] to [e]. *)
Definition range_mask (s e : Z) : Z := Z.shiftl (Z.ones (e - s)) s.

Lemma range_mask_eq s e : 0 <= s <= e -> range_mask s e = 2 ^ e - 2 ^ s.
Proof.
  intros Hs. unfold range_mask. rewrite Z.shiftl_mul_pow2, Z.ones_equiv by lia.
  replace e with (e - s + s) at 2 by lia. rewrite Z.pow_add_r by lia. lia.
Qed.

Lemma range_mask_bits s e i :
  0 <= s <= e -> 0 <= i -> Z.testbit (range_mask s e) i = (s <=? i) && (i <? e).
Proof.
  intros Hs Hi. unfold range_mask. rewrite Z.shiftl_spec by done.
  destruct (Z.leb_spec s i); cbn [andb]; [|by rewrite Z.testbit_neg_r by lia].
  destruct (Z.ltb_spec i e); [apply Z.ones_spec_low|apply Z.ones_spec_high]; lia.
Qed.

Lemma first_mask_eq s e :
  0 <= s <= e -> s < 32 -> e <= 32 ->
  wrap32 ((if e =? 32 then ALL_ONES else low_mask e) - low_mask s) = range_mask s e.
Proof.
  intros Hs Hs32 He. rewrite range_mask_eq, (low_mask_ones s), Z.ones_equiv by lia.
  assert (2 ^ s <= 2 ^ e) by (apply Z.pow_le_mono_r; lia).
  assert (2 ^ e <= 2 ^ 32) by (apply Z.pow_le_mono_r; lia).
  pose proof (Z.pow_pos_nonneg 2 s ltac:(lia) ltac:(lia)). change (2 ^ 32) with 4294967296 in *.
  destruct (Z.eqb_spec e 32) as [->|Hne].
  - unfold ALL_ONES. change (2 ^ 32) with 4294967296. rewrite wrap32_small by lia. lia.
  - rewrite low_mask_ones, Z.ones_equiv by lia. rewrite wrap32_small by lia. lia.
Qed.

Lemma rest_mask_eq n :
  0 <= n < 32 -> low_mask n = range_mask 0 n.
Proof. intros. rewrite low_mask_ones, range_mask_eq, Z.ones_equiv by lia. change (2 ^ 0) with 1. lia. Qed.

(** *** Changing bits of one word *)

Definition in_run (s n p : Z) : bool := (s <=? p) && (p <? s + n).

(** [ws'] is [ws] with the [n] bits from [s] on changed to [value]. *)
Definition bits_set (ws ws' : list Z) (s n : Z) (value : bool) : Prop :=
  length ws' = length ws /\ (words_ok ws -> words_ok ws') /\
  forall p, 0 <= p < 32 * Z.of_nat (length ws) ->
    bit ws' p = if in_run s n p then value else bit ws p.

Lemma in_run_spec s n p : in_run s n p = true <-> s <= p < s + n.
Proof. unfold in_run. rewrite andb_true_iff, Z.leb_le, Z.ltb_lt. done. Qed.

Lemma word_update_range w mask (value : bool) :
  0 <= w < 2 ^ 32 -> 0 <= mask < 2 ^ 32 ->
  0 <= (if value then Z.lor w mask else Z.land w (wrap32 (Z.lnot mask))) < 2 ^ 32.
Proof.
  intros Hw Hm.
  assert (Hx : forall z, 0 <= z -> (forall n, 32 <= n -> Z.testbit z n = false) -> z < 2 ^ 32).
  { intros z Hz Hbits. destruct (Z_lt_ge_dec z (2 ^ 32)); [done|]. exfalso.
    assert (32 <= Z.log2 z) by (apply Z.log2_le_pow2; lia).
    specialize (Hbits (Z.log2 z) ltac:(done)). rewrite Z.bit_log2 in Hbits by lia. done. }
  assert (Hhigh : forall z n, 0 <= z < 2 ^ 32 -> 32 <= n -> Z.testbit z n = false).
  { intros z n Hz Hn. destruct (Z.eq_dec z 0) as [->|]; [apply Z.bits_0|].
    apply Z.bits_above_log2; [lia|]. apply Z.log2_lt_pow2; [lia|].
    apply Z.lt_le_trans with (2 ^ 32); [lia|apply Z.pow_le_mono_r; lia]. }
  destruct value.
  - split; [apply Z.lor_nonneg; lia|]. apply Hx; [apply Z.lor_nonneg; lia|].
    intros n Hn. by rewrite Z.lor_spec, !Hhigh.
  - split; [apply Z.land_nonneg; lia|]. apply Hx; [apply Z.land_nonneg; lia|].
    intros n Hn. by rewrite Z.land_spec, (Hhigh w).
Qed.

Lemma range_mask_range s e : 0 <= s <= e -> e <= 32 -> 0 <= range_mask s e < 2 ^ 32.
Proof.
  intros Hs He. rewrite range_mask_eq by done.
  assert (2 ^ s <= 2 ^ e) by (apply Z.pow_le_mono_r; lia).
  assert (2 ^ e <= 2 ^ 32) by (apply Z.pow_le_mono_r; lia).
  pose proof (Z.pow_pos_nonneg 2 s). lia.
Qed.

Lemma word_update ws i s e (value : bool) :
  0 <= i < Z.of_nat (length ws) -> 0 <= s <= e -> e <= 32 ->
  exists ws', wr_word ws i
      (if value then Z.lor (ws !!! Z.to_nat i) (range_mask s e)
       else Z.land (ws !!! Z.to_nat i) (wrap32 (Z.lnot (range_mask s e)))) = Ok ws' /\
    bits_set ws ws' (32 * i + s) (e - s) value.
Proof.
  intros Hi Hs He. rewrite wr_word_ok by done. eexists. split; [done|].
  split; [by rewrite length_insert|]. split.
  - intros Hw. apply Forall_insert; [done|]. apply word_update_range; [|by apply range_mask_range].
    destruct (lookup_lt_is_Some_2 ws (Z.to_nat i)) as [v Hv]; [lia|].
    rewrite (list_lookup_total_correct _ _ _ Hv). by eapply Forall_lookup_1 in Hw.
  - intros p Hp. unfold bit. pose proof (Z.mod_pos_bound p 32 ltac:(lia)) as Hm.
    pose proof (Z.div_mod p 32 ltac:(lia)) as Hdm.
    destruct (decide (Z.to_nat (p / 32) = Z.to_nat i)) as [Heq|Hne].
    + assert (p / 32 = i) by lia. rewrite Heq, list_lookup_total_insert_eq by lia.
      unfold in_run.
      replace (32 * i + s <=? p) with (s <=? p mod 32)
        by (destruct (Z.leb_spec s (p mod 32)), (Z.leb_spec (32 * i + s) p); try lia; done).
      replace (p <? 32 * i + s + (e - s)) with (p mod 32 <? e)
        by (destruct (Z.ltb_spec (p mod 32) e), (Z.ltb_spec p (32 * i + s + (e - s))); try lia; done).
      destruct value.
      * rewrite Z.lor_spec, range_mask_bits by lia. destruct ((s <=? _) && _); [apply orb_true_r|apply orb_false_r].
      * unfold wrap. rewrite Z.land_spec, Z.mod_pow2_bits_low, Z.lnot_spec, range_mask_bits by lia.
        destruct ((s <=? _) && _); [apply andb_false_r|apply andb_true_r].
    + rewrite list_lookup_total_insert_ne by congruence.
      replace (in_run (32 * i + s) (e - s) p) with false; [done|].
      symmetry. apply not_true_iff_false. rewrite in_run_spec. intros Hr.
      apply Hne. f_equal. symmetry. apply (Z.div_unique _ _ _ (p - 32 * i)); lia.
Qed.

(** *** Runs of bits *)

Lemma bits_set_trans ws1 ws2 ws3 s n1 n2 value :
  0 <= n1 -> 0 <= n2 -> bits_set ws1 ws2 s n1 value -> bits_set ws2 ws3 (s + n1) n2 value ->
  bits_set ws1 ws3 s (n1 + n2) value.
Proof.
  intros Hn1 Hn2 (L1&W1&B1) (L2&W2&B2). split; [congruence|]. split; [auto|]. intros p Hp.
  rewrite B2 by (rewrite L1; lia). rewrite B1 by done.
  destruct (in_run s n1 p) eqn:E1, (in_run (s + n1) n2 p) eqn:E2, (in_run s (n1 + n2) p) eqn:E3;
    try done; exfalso;
    repeat match goal with
    | H : _ = true |- _ => apply in_run_spec in H
    | H : _ = false |- _ => apply not_true_iff_false in H; rewrite in_run_spec in H
    end; lia.
Qed.

Lemma bits_set_refl ws s value : bits_set ws ws s 0 value.
Proof.
  split; [done|]. split; [done|]. intros p _. destruct (in_run s 0 p) eqn:Hr; [|done].
  apply in_run_spec in Hr. lia.
Qed.

(** What the loop keeps: [pos] is the next bit to change. *)
Definition setting_bits (ws0 : list Z) (start numBits : Z) (value : bool)
    (st : list Z * Z * Z * Z * Z * Z) : Prop :=
  let '(ws, wordnum, startbit, endbit, mask, rest) := st in
  0 <= rest <= numBits /\ 0 <= wordnum /\ 0 <= startbit < 32 /\
  endbit = Z.min 32 (startbit + rest) /\ mask = range_mask startbit endbit /\
  (rest <> 0 -> 32 * wordnum + startbit = start + (numBits - rest)) /\
  bits_set ws0 ws start (numBits - rest) value.

Lemma set_status_bits_ok ws start n (value : bool) :
  0 <= start -> 0 <= n -> start + n <= 32 * Z.of_nat (length ws) ->
  exists ws', CyU3PDmaBufMgrSetStatus ws start n value = Ok ws' /\ bits_set ws ws' start n value.
Proof.
  intros Hs Hn Hr. unfold CyU3PDmaBufMgrSetStatus. cbn zeta.
  change 31 with (Z.ones 5). rewrite Z.land_ones, Z.shiftr_div_pow2 by lia. change (2 ^ 5) with 32.
  pose proof (Z.mod_pos_bound start 32 ltac:(lia)). pose proof (Z.div_mod start 32 ltac:(lia)).
  pose proof (Z.div_pos start 32 Hs ltac:(lia)).
  rewrite first_mask_eq by lia.
  match goal with |- context [while ?fuel ?cond ?body ?init] =>
    destruct (while_total (setting_bits ws start n value) (fun '(_, _, _, _, _, rest) => Z.to_nat rest)
      cond body fuel init) as ([[[[[ws' w'] sb] eb] m] rest]&->&Hinv&Hend) end.
  - split; [lia|]. split; [done|]. split; [done|]. split; [done|]. split; [done|]. split; [lia|].
    rewrite Z.sub_diag. apply bits_set_refl.
  - lia.
  - intros [[[[[ws1 w] sb] eb] m] rest] (Hl&Hw&Hsb&->&->&Hpos&Hset) Hc%negb_true_iff%Z.eqb_neq.
    specialize (Hpos Hc). pose proof Hset as (Hlen&_).
    rewrite rd_word_ok by (rewrite Hlen; lia). cbn [rbind].
    destruct (word_update ws1 w sb (Z.min 32 (sb + rest)) value) as (ws2&->&Hset2);
      [rewrite Hlen; lia|lia|lia|]. cbn [rbind].
    assert (Hset3 : bits_set ws ws2 start (n - (rest - (Z.min 32 (sb + rest) - sb))) value).
    { replace (n - (rest - (Z.min 32 (sb + rest) - sb))) with (n - rest + (Z.min 32 (sb + rest) - sb)) by lia.
      eapply bits_set_trans; [lia|lia|exact Hset|]. by rewrite <- Hpos. }
    set (rest' := rest - (Z.min 32 (sb + rest) - sb)) in *.
    destruct (Z.leb_spec 32 rest').
    + eexists. split; [done|]. split; [|lia]. repeat (split; [lia|]). split; [by rewrite range_mask_eq by lia|].
      split; [lia|done].
    + eexists. split; [done|]. split; [|lia]. repeat (split; [lia|]).
      split; [rewrite rest_mask_eq by lia; f_equal; lia|]. split; [lia|done].
  - apply negb_false_iff, Z.eqb_eq in Hend. cbn [rbind]. exists ws'. split; [done|].
    destruct Hinv as (_&_&_&_&_&_&Hset). by rewrite Hend, Z.sub_0_r in Hset.
Qed.

(** [CyU3PDmaBufMgrSetStatus] ends and changes exactly the [numBits] bits
    from [startPos] on, in however many words they lie, and no other bit. *)
Theorem set_status_bits ws start n (value : bool) :
  0 <= start -> 0 <= n -> start + n <= 32 * Z.of_nat (length ws) ->
  exists ws', CyU3PDmaBufMgrSetStatus ws start n value = Ok ws' /\ length ws' = length ws /\
    forall p, 0 <= p < 32 * Z.of_nat (length ws) ->
      bit ws' p = if in_run start n p then value else bit ws p.
Proof.
  intros Hs Hn Hr. destruct (set_status_bits_ok ws start n value Hs Hn Hr) as (ws'&?&?&_&?). eauto.
Qed.

Lemma set_status_bits_witness :
  exists ws', CyU3PDmaBufMgrSetStatus [0; 0; 0] 30 40 true = Ok ws' /\ bit ws' 69 = true /\ bit ws' 70 = false.
Proof.
  destruct (set_status_bits [0; 0; 0] 30 40 true) as (ws'&Hrun&_&Hbits); [vm_compute; discriminate..|].
  exists ws'. split; [exact Hrun|]. split; rewrite Hbits by (cbn; lia); reflexivity.
Defined.

(** ** The search *)

Definition s_pos (s : search) : Z := 32 * s_word s + s_bit s.

(** The bits from [a] to [b] are all clear. *)
Definition clear_run (ws : list Z) (a b : Z) : Prop := forall p, a <= p < b -> bit ws p = false.

(** [target] clear bits from [a] on, inside the array. *)
Definition free_run (ws : list Z) (target a : Z) : Prop :=
  0 <= a /\ a + target <= 32 * Z.of_nat (length ws) /\ clear_run ws a (a + target).

Section search.
Context (ws : list Z) (target : Z).
Hypothesis (Ht : 0 < target).
Abbreviation N := (Z.of_nat (length ws)).

(** The run of clear bits that ends at the current position. *)
Definition search_inv (s : search) : Prop :=
  0 <= s_tmp s <= N /\
  if s_found s then s_count s = target /\ free_run ws target (s_start s - 1)
  else 0 <= s_word s < N /\ 0 <= s_bit s < 32 /\ 0 <= s_count s < target /\
       0 <= s_pos s - s_count s /\ clear_run ws (s_pos s - s_count s) (s_pos s) /\
       (0 < s_count s -> s_start s = s_pos s - s_count s + 1).

Definition search_measure (s : search) : nat :=
  if s_found s then O else Z.to_nat (32 * (N - s_tmp s) - s_bit s).

Lemma step_bit (s : search) :
  0 <= s_word s < N -> 0 <= s_bit s < 32 ->
  rd_word ws (s_word s) = Ok (ws !!! Z.to_nat (s_word s)) /\
  (Z.land (ws !!! Z.to_nat (s_word s)) (Z.shiftl 1 (s_bit s)) =? 0) = negb (bit ws (s_pos s)).
Proof.
  intros Hw Hb. split; [by apply rd_word_ok|]. rewrite land_bit by lia. unfold bit, s_pos.
  replace ((32 * s_word s + s_bit s) / 32) with (s_word s) by (apply (Z.div_unique _ _ _ (s_bit s)); lia).
  by replace ((32 * s_word s + s_bit s) mod 32) with (s_bit s)
    by (apply (Z.mod_unique _ _ (s_word s)); lia).
Qed.

(** One step that does not find the run moves on by one bit. *)
Lemma search_step_ok s :
  search_inv s -> s_tmp s < N -> s_found s = false ->
  exists s', search_step ws N target s = Ok s' /\ search_inv s' /\
    (search_measure s' < search_measure s)%nat /\
    (s_found s' = false -> s_word s' <> 0 \/ s_bit s' <> 0 ->
       s_pos s' = s_pos s + 1 /\
       s_count s' = (if bit ws (s_pos s) then 0 else s_count s + 1) /\
       s_tmp s' - s_tmp s = s_word s' - s_word s) /\
    (s_found s' = false -> s_word s' = 0 -> s_bit s' = 0 ->
       s_pos s + 1 = 32 * N /\ s_tmp s' = s_tmp s + 1 /\
       (bit ws (s_pos s) = false -> s_count s + 1 <> target)).
Proof.
  intros [Hb Hinv] Ht' Hf. rewrite Hf in Hinv. destruct Hinv as (Hw&Hbit&Hc&Hlo&Hclear&Hstart).
  destruct (step_bit s Hw Hbit) as [Hrd Hz]. unfold search_step. rewrite Hrd. cbn [rbind]. rewrite Hz.
  assert (Hpos : 0 <= s_pos s < 32 * N) by (unfold s_pos; lia).
  rewrite Z.shiftl_mul_pow2 by lia. change (2 ^ 5) with 32.
  destruct (bit ws (s_pos s)) eqn:Hbv; cbn [negb andb].
  - destruct (Z.eqb_spec (s_bit s + 1) 32) as [H32|H32];
      [destruct (Z.eqb_spec (s_word s + 1) N) as [Hn|Hn]|]; eexists; (split; [done|]);
      unfold search_inv, search_measure, s_pos, clear_run in *; cbn; rewrite Hf;
      (split; [repeat split; intros; lia|]); (split; [lia|]); (split; intros; repeat split; intros; try done; lia).
  - set (start := if s_count s =? 0 then _ else _).
    assert (Hst : start = s_pos s - s_count s + 1).
    { subst start. destruct (Z.eqb_spec (s_count s) 0); [unfold s_pos; lia|]. apply Hstart. lia. }
    assert (Hclear' : clear_run ws (s_pos s - s_count s) (s_pos s + 1)).
    { intros p Hp. destruct (Z.eq_dec p (s_pos s)) as [->|]; [done|]. apply Hclear. lia. }
    destruct (Z.eqb_spec (s_count s + 1) target) as [Hfound|Hmore].
    + eexists. split; [done|]. unfold search_inv, search_measure. cbn. rewrite Hf.
      split; [|split; [lia|split; intros; discriminate]]. split; [lia|]. split; [done|].
      unfold free_run. rewrite Hst. split; [lia|]. split; [lia|].
      intros p Hp. apply Hclear'. lia.
    + destruct (Z.eqb_spec (s_bit s + 1) 32) as [H32|H32];
        [destruct (Z.eqb_spec (s_word s + 1) N) as [Hn|Hn]|]; eexists; (split; [done|]);
        unfold search_inv, search_measure, s_pos in *; cbn; rewrite Hf;
        (split; [repeat split; intros; try lia|]);
        try ((split; [lia|]); (split; intros; repeat split; intros; try done; lia)).
      * intros p Hp. lia.
      * intros p Hp. apply Hclear'. lia.
      * intros p Hp. apply Hclear'. lia.
Qed.

(** No run ends before [pos], and the run of [count] clear bits that ends there
    cannot be made longer to the left. *)
Definition none_before (pos count : Z) : Prop :=
  (forall q, 0 <= q -> q + target <= pos -> ~ clear_run ws q (q + target)) /\
  (pos - count = 0 \/ bit ws (pos - count - 1) = true).

Lemma none_before_step pos count :
  none_before pos count -> 0 <= count < target -> 0 <= pos - count ->
  (bit ws pos = false -> count + 1 <> target) ->
  none_before (pos + 1) (if bit ws pos then 0 else count + 1).
Proof.
  intros [HJ HK] Hc Hp Hne. split.
  - intros q Hq Hle Hrun. destruct (Z.eq_dec (q + target) (pos + 1)) as [Heq|]; [|by apply (HJ q); [|lia|]].
    destruct (bit ws pos) eqn:Hb; [rewrite Hrun in Hb by lia; done|].
    specialize (Hne eq_refl). destruct HK as [HK|HK]; [lia|].
    rewrite (Hrun (pos - count - 1)) in HK by lia. done.
  - destruct (bit ws pos) eqn:Hb; [right|].
    + by replace (pos + 1 - 0 - 1) with pos by lia.
    + by replace (pos + 1 - (count + 1)) with (pos - count) by lia.
Qed.

(** From the first word on, the search misses nothing. *)
Definition search_complete (s : search) : Prop :=
  s_found s = false ->
  if s_tmp s <? N then s_word s = s_tmp s /\ none_before (s_pos s) (s_count s)
  else forall a, ~ free_run ws target a.

Lemma search_complete_step s s' :
  search_inv s -> s_tmp s < N -> s_found s = false -> search_complete s ->
  search_step ws N target s = Ok s' -> search_complete s'.
Proof.
  intros Hinv Htmp Hf Hcomp Hstep Hf'.
  destruct (search_step_ok s Hinv Htmp Hf) as (s2&Hs2&[_ Hinv']&_&Hon&Hwrap).
  rewrite Hstep in Hs2. injection Hs2 as <-. rewrite Hf' in Hinv'.
  specialize (Hcomp Hf). destruct (Z.ltb_spec (s_tmp s) N); [|lia]. destruct Hcomp as [Hw Hnone].
  destruct Hinv as [_ Hinv]. rewrite Hf in Hinv. destruct Hinv as (Hw0&Hb0&Hc0&Hlo&_).
  destruct (decide (s_word s' = 0 /\ s_bit s' = 0)) as [[H0 H1]|Hne].
  - destruct (Hwrap Hf' H0 H1) as (Hend&Htmp'&Hcount).
    assert (s_tmp s' = N) as -> by (unfold s_pos in Hend; lia).
    rewrite Z.ltb_irrefl. intros a (Ha&Hle&Hrun).
    destruct (none_before_step _ _ Hnone Hc0 Hlo Hcount) as [HJ _].
    apply (HJ a); [done|lia|done].
  - destruct (Hon Hf') as (Hpos&Hcount&Htmp'); [destruct (Z.eq_dec (s_word s') 0); tauto|].
    assert (s_word s' = s_tmp s') by lia.
    destruct (Z.ltb_spec (s_tmp s') N); [|lia]. split; [done|]. rewrite Hpos, Hcount.
    apply none_before_step; try done. intros Hb. rewrite Hb in Hcount. lia.
Qed.

Lemma search_run_ok searchPos :
  0 <= searchPos < N ->
  exists s, search_run ws N searchPos target = Ok s /\
    (s_found s = true -> s_count s = target /\ free_run ws target (s_start s - 1)) /\
    (s_found s = false -> s_count s <> target) /\
    (searchPos = 0 -> s_found s = false -> forall a, ~ free_run ws target a).
Proof.
  intros Hpos. unfold search_run. rewrite Nat2Z.id.
  match goal with |- context [while ?fuel ?cond ?body ?init] =>
    destruct (while_total (fun s => search_inv s /\ (searchPos = 0 -> search_complete s))
      search_measure cond body fuel init) as (s&->&[Hinv Hcomp]&Hend) end.
  - split.
    + unfold search_inv, s_pos. cbn. repeat split; try lia. intros p Hp. lia.
    + intros -> _. unfold s_pos, none_before. cbn. destruct (Z.ltb_spec 0 N); [|lia].
      split; [done|]. split; [lia|by left].
  - unfold search_measure. cbn. lia.
  - intros s [Hinv Hcomp] [Htmp%Z.ltb_lt Hf%negb_true_iff]%andb_true_iff.
    destruct (search_step_ok s Hinv Htmp Hf) as (s'&Hs'&Hinv'&Hm&_).
    exists s'. split; [done|]. split; [|done]. split; [done|]. intros H0.
    by apply (search_complete_step s s'); auto.
  - exists s. split; [done|]. destruct Hinv as [Hb Hinv]. destruct (s_found s) eqn:Hf.
    + split; [done|]. done.
    + split; [done|]. split; [intros _; lia|]. intros H0 _ a. specialize (Hcomp H0 Hf).
      rewrite andb_true_r in Hend. by rewrite Hend in Hcomp.
Qed.
End search.

(** The word in which the search ends. *)
Lemma search_run_word ws target searchPos s :
  0 <= searchPos < Z.of_nat (length ws) -> search_run ws (Z.of_nat (length ws)) searchPos target = Ok s ->
  0 <= s_word s < Z.of_nat (length ws).
Proof.
  intros Hpos. unfold search_run.
  assert (Hk : forall fuel s s', 0 <= s_word s < Z.of_nat (length ws) ->
    while fuel (fun s => (s_tmp s <? Z.of_nat (length ws)) && negb (s_found s))
      (search_step ws (Z.of_nat (length ws)) target) s = Ok s' -> 0 <= s_word s' < Z.of_nat (length ws)).
  { induction fuel as [|fuel IH]; intros s1 s2 Hs Hrun; [done|]. cbn [while] in Hrun.
    destruct (_ && _); [|by injection Hrun as <-]. apply rbind_Ok in Hrun as (s3&Hstep&Hrun).
    eapply IH; [|exact Hrun]. unfold search_step in Hstep. apply rbind_Ok in Hstep as (v&_&Hstep).
    destruct (_ && (_ =? target)); [injection Hstep as <-; done|].
    destruct (_ =? 32); [|injection Hstep as <-; done].
    destruct (Z.eqb_spec (s_word s1 + 1) (Z.of_nat (length ws))); injection Hstep as <-; cbn; lia. }
  apply Hk. done.
Qed.

(** ** Counting *)

Lemma count_loop_ok ws fuel w b c k :
  0 <= w < Z.of_nat (length ws) -> 0 <= b < 32 -> 0 <= k ->
  (forall p, 32 * w + b <= p < 32 * w + b + k -> bit ws p = true) ->
  bit ws (32 * w + b + k) = false -> 32 * w + b + k < 32 * Z.of_nat (length ws) ->
  k < Z.of_nat fuel ->
  count_loop fuel ws (Z.of_nat (length ws)) w b c = Ok (c + k).
Proof.
  revert w b c k. induction fuel as [|fuel IH]; intros w b c k Hw Hb Hk Hones Hzero Hlt Hf; [lia|].
  cbn [count_loop]. destruct (Z.ltb_spec w (Z.of_nat (length ws))); [|lia].
  destruct (step_bit ws (mk_search w b 0 0 0 false) Hw Hb) as [Hrd Hz]. cbn [s_word s_bit] in Hrd, Hz.
  rewrite Hrd. cbn [rbind]. rewrite Hz, negb_involutive. unfold s_pos. cbn [s_word s_bit].
  destruct (Z.eq_dec k 0) as [->|Hk0].
  { rewrite Z.add_0_r in Hzero. by rewrite Hzero, Z.add_0_r. }
  rewrite Hones by lia. replace (c + k) with (c + 1 + (k - 1)) by lia.
  destruct (Z.eqb_spec (b + 1) 32).
  - apply IH; try lia.
    + intros p Hp. apply Hones. lia.
    + by replace (32 * (w + 1) + 0 + (k - 1)) with (32 * w + b + k) by lia.
  - apply IH; try lia.
    + intros p Hp. apply Hones. lia.
    + by replace (32 * w + (b + 1) + (k - 1)) with (32 * w + b + k) by lia.
Qed.

Lemma count_ones_ok ws start k :
  0 <= start -> 0 <= k -> (forall p, start <= p < start + k -> bit ws p = true) ->
  bit ws (start + k) = false -> start + k < 32 * Z.of_nat (length ws) ->
  count_ones ws (Z.of_nat (length ws)) (Z.shiftr start 5) (Z.land start 31) = Ok k.
Proof.
  intros Hs Hk Hones Hzero Hlt. unfold count_ones.
  change 31 with (Z.ones 5). rewrite Z.land_ones, Z.shiftr_div_pow2 by lia. change (2 ^ 5) with 32.
  pose proof (Z.div_mod start 32 ltac:(lia)). pose proof (Z.mod_pos_bound start 32 ltac:(lia)).
  pose proof (Z.div_pos start 32 Hs ltac:(lia)).
  rewrite (count_loop_ok _ _ _ _ 0 k); try lia; [done|..].
  - intros p Hp. apply Hones. lia.
  - by replace (32 * (start / 32) + start mod 32 + k) with (start + k) by lia.
Qed.
