(* ===== verification/DmaHeap.v ===== *)
(** * The driver heap and the DMA buffer manager of [src/src/cyfx/cyfx_tx.c]

    [CyU3PMemAlloc] and [CyU3PMemFree] on the byte pool of the RTOS, and the
    allocator of DMA buffers on the status bits, with the leak tracking of
    both.  The RTOS is not part of the sources: its services are the class
    [Rtos]. *)

From stdpp Require Import base numbers list decidable gmap.
From Stdlib Require Import ZArith Lia Bool.
From S2P Require Import Prelude BlockList DmaBits.
Open Scope Z_scope.

(** ** Memory map (512 KB RAM) *)

Definition CY_U3P_MEM_HEAP_BASE : Z := 0x40038000.
Definition CY_U3P_MEM_HEAP_SIZE : Z := 0x8000.
Definition CY_U3P_SYS_MEM_TOP : Z := 0x40078000.
Definition CY_U3P_BUFFER_HEAP_BASE : Z := CY_U3P_MEM_HEAP_BASE + CY_U3P_MEM_HEAP_SIZE.
Definition CY_U3P_BUFFER_HEAP_SIZE : Z := CY_U3P_SYS_MEM_TOP - CY_U3P_BUFFER_HEAP_BASE.
Definition FX3_CACHE_LINE_SZ : Z := 32.

(** [ROUND_UP (s, n)] on [uint32_t]. *)
Definition ROUND_UP (s n : Z) : Z := Z.land (wrap32 (s + n - 1)) (wrap32 (Z.lnot (n - 1))).

(** ** RTOS services *)

Inductive wait : Type :=
| CYU3P_NO_WAIT
| CYU3P_WAIT_FOREVER
| Timeout (ticks : Z).

Class Rtos (O : Type) : Type := {
  CyU3PThreadIdentify : O -> bool;
  CyU3PMutexCreate : O -> CyU3PReturnStatus_t * O;
  CyU3PMutexGet : wait -> O -> CyU3PReturnStatus_t * O;
  CyU3PMutexPut : O -> O;
  CyU3PMutexDestroy : O -> O;
  CyU3PBytePoolCreate : Z -> Z -> O -> O;
  CyU3PBytePoolDestroy : O -> O;
  CyU3PByteAlloc : Z -> wait -> O -> CyU3PReturnStatus_t * Z * O;
  CyU3PByteFree : Z -> O -> O
}.

(** ** State *)

(** [usedStatus] is the address of the array with its words, or null. *)
Record CyU3PDmaBufMgr_t : Type := mk_mgr {
  usedStatus : option (Z * list Z);
  startAddr : Z;
  regionSize : Z;
  statusSize : Z;
  searchPos : Z
}.

Record heaps (O : Type) : Type := mk_heaps {
  glMemPoolInit : bool;
  mem_trk : tracker;
  glBufferManager : CyU3PDmaBufMgr_t;
  buf_trk : tracker;
  rtos : O
}.
Arguments mk_heaps {O}.
Arguments glMemPoolInit {O}.
Arguments mem_trk {O}.
Arguments glBufferManager {O}.
Arguments buf_trk {O}.
Arguments rtos {O}.

Definition set_mgr {O} (m : CyU3PDmaBufMgr_t) (s : heaps O) : heaps O :=
  mk_heaps (glMemPoolInit s) (mem_trk s) m (buf_trk s) (rtos s).
Definition set_rtos {O} (o : O) (s : heaps O) : heaps O :=
  mk_heaps (glMemPoolInit s) (mem_trk s) (glBufferManager s) (buf_trk s) o.
Definition set_mem_trk {O} (t : tracker) (s : heaps O) : heaps O :=
  mk_heaps (glMemPoolInit s) t (glBufferManager s) (buf_trk s) (rtos s).
Definition set_buf_trk {O} (t : tracker) (s : heaps O) : heaps O :=
  mk_heaps (glMemPoolInit s) (mem_trk s) (glBufferManager s) t (rtos s).

(** ** The driver heap *)

Definition set_checks (enable cb : bool) (t : tracker) : tracker :=
  mk_tracker enable (alloc_cnt t) (free_cnt t) (in_use_list t) cb (headers t) (footers t) (reports t).

(** Counters and list cleared. *)
Definition clear_tracking (t : tracker) : tracker :=
  mk_tracker (enable_checks t) 0 0 0 (bad_cb t) (headers t) (footers t) (reports t).

Section heap.
Context {O : Type} `{Rtos O}.

Definition CyU3PMemEnableChecks (enable cb : bool) (s : heaps O) : CyU3PReturnStatus_t * heaps O :=
  if glMemPoolInit s then (CY_U3P_ERROR_ALREADY_STARTED, s)
  else (CY_U3P_SUCCESS, set_mem_trk (set_checks enable cb (mem_trk s)) s).

Definition CyU3PMemInit (s : heaps O) : heaps O :=
  if glMemPoolInit s then s
  else mk_heaps true (mem_trk s) (glBufferManager s) (buf_trk s)
         (CyU3PBytePoolCreate CY_U3P_MEM_HEAP_BASE CY_U3P_MEM_HEAP_SIZE (rtos s)).

(** No waiting outside of a thread. *)
Definition wait_for (w : wait) (s : heaps O) : wait :=
  if CyU3PThreadIdentify (rtos s) then w else CYU3P_NO_WAIT.

Definition CyU3PMemAlloc (size : Z) (s : heaps O) : result (Z * heaps O) :=
  let size := ROUND_UP size 4 in
  let size := (if enable_checks (mem_trk s)
               then wrap32 (size + (sizeof_MemBlockInfo + sizeof_uint32)) else size) in
  let '(status, ret_p, o) := CyU3PByteAlloc size (wait_for (Timeout 10) s) (rtos s) in
  let s := set_rtos o s in
  if bool_decide (status = CY_U3P_SUCCESS) then
    if enable_checks (mem_trk s) then
      let* (p, t) := block_alloc ret_p size (mem_trk s) in
      Ok (p, set_mem_trk t s)
    else Ok (ret_p, s)
  else Ok (0, s).

Definition CyU3PMemFree (mem_p : Z) (s : heaps O) : result (heaps O) :=
  if mem_p <? CY_U3P_MEM_HEAP_BASE then Ok s
  else
    let* (p, s) := (if enable_checks (mem_trk s) then
                      let* (p, t) := block_free mem_p (mem_trk s) in
                      Ok (p, set_mem_trk t s)
                    else Ok (mem_p, s)) in
    Ok (set_rtos (CyU3PByteFree p (rtos s)) s).

Definition CyU3PMemGetCounts (want_alloc want_free : bool) (s : heaps O) : option Z * option Z :=
  get_counts want_alloc want_free (mem_trk s).

Definition CyU3PMemGetActiveList (s : heaps O) : Z := in_use_list (mem_trk s).

Definition CyU3PMemCorruptionCheck (fuel : nat) (s : heaps O)
  : result (CyU3PReturnStatus_t * heaps O) :=
  let* (r, t) := corruption_walk fuel CY_U3P_MEM_HEAP_BASE CY_U3P_BUFFER_HEAP_BASE
                   (in_use_list (mem_trk s)) (mem_trk s) in
  Ok (r, set_mem_trk t s).

(** ** DMA buffers *)

Definition CyU3PBufEnableChecks (enable cb : bool) (s : heaps O) : CyU3PReturnStatus_t * heaps O :=
  match usedStatus (glBufferManager s) with
  | Some _ => (CY_U3P_ERROR_ALREADY_STARTED, s)
  | None => (CY_U3P_SUCCESS, set_buf_trk (set_checks enable cb (buf_trk s)) s)
  end.

(** The status words for [lines] cache lines: cleared, and the bits of the last
    word behind the memory as the code marks them. *)
Definition status_words (lines : Z) : Z := ROUND_UP lines 32 / 32.

Definition init_status (lines : Z) : result (list Z) :=
  let size := status_words lines in
  let ws := replicate (Z.to_nat size) 0 in
  if negb (Z.land lines 31 =? 0) then
    let tmp := 32 - Z.land lines 31 in
    wr_word ws (size - 1) (wrap32 (Z.lnot (Z.shiftl 1 tmp - 1)))
  else Ok ws.

Definition CyU3PDmaBufferInit (s : heaps O) : result (heaps O) :=
  let m := glBufferManager s in
  if negb (startAddr m =? 0) && negb (regionSize m =? 0) then Ok s
  else
    let '(status, o) := CyU3PMutexCreate (rtos s) in
    let s := set_rtos o s in
    if negb (bool_decide (status = CY_U3P_SUCCESS)) then Ok s
    else
      let lines := CY_U3P_BUFFER_HEAP_SIZE / FX3_CACHE_LINE_SZ in
      let size := status_words lines in
      let* (p, s) := CyU3PMemAlloc (size * sizeof_uint32) s in
      if p =? 0 then
        let m := glBufferManager s in
        Ok (set_rtos (CyU3PMutexDestroy (rtos s))
              (set_mgr (mk_mgr None (startAddr m) (regionSize m) (statusSize m) (searchPos m)) s))
      else
        let* ws := init_status lines in
        Ok (set_mgr (mk_mgr (Some (p, ws)) CY_U3P_BUFFER_HEAP_BASE CY_U3P_BUFFER_HEAP_SIZE size 0) s).

Definition CyU3PDmaBufferDeInit (s : heaps O) : result (heaps O) :=
  let '(status, o) := CyU3PMutexGet (wait_for CYU3P_WAIT_FOREVER s) (rtos s) in
  let s := set_rtos o s in
  if negb (bool_decide (status = CY_U3P_SUCCESS)) then Ok s
  else
    let p := match usedStatus (glBufferManager s) with Some (p, _) => p | None => 0 end in
    let* s := CyU3PMemFree p s in
    let s := set_mgr (mk_mgr None 0 0 0 (searchPos (glBufferManager s))) s in
    let s := set_buf_trk (clear_tracking (buf_trk s)) s in
    Ok (set_rtos (CyU3PMutexDestroy (CyU3PMutexPut (rtos s))) s).

(** The words behind [usedStatus]. *)
Definition status_array (m : CyU3PDmaBufMgr_t) : result (Z * list Z) :=
  match usedStatus m with Some a => Ok a | None => Fault NullPointer end.

(** The number of cache lines for a block. *)
Definition block_lines (blk_size : Z) : Z :=
  wrap16 (if blk_size <=? FX3_CACHE_LINE_SZ then 2
          else (blk_size + FX3_CACHE_LINE_SZ - 1) / FX3_CACHE_LINE_SZ).

(** The size with header and footer. *)
Definition tracked_size (checks : bool) (size : Z) : Z :=
  if checks then wrap32 (ROUND_UP size 4 + (sizeof_MemBlockInfo + sizeof_uint32)) else size.

Definition CyU3PDmaBufferAlloc (size : Z) (s : heaps O) : result (Z * heaps O) :=
  let '(status, o) := CyU3PMutexGet (wait_for (Timeout 10) s) (rtos s) in
  let s := set_rtos o s in
  if negb (bool_decide (status = CY_U3P_SUCCESS)) then Ok (0, s)
  else
    let m := glBufferManager s in
    if (startAddr m =? 0) || (regionSize m =? 0) then Ok (0, set_rtos (CyU3PMutexPut (rtos s)) s)
    else
      let blk_size := tracked_size (enable_checks (buf_trk s)) size in
      let lines := block_lines blk_size in
      let* (a, ws) := status_array m in
      let* r := search_run ws (statusSize m) (searchPos m) (wrap16 (lines + 1)) in
      let pos := (if s_found r then s_word r else searchPos m) in
      let m := mk_mgr (Some (a, ws)) (startAddr m) (regionSize m) (statusSize m) pos in
      let s := set_mgr m s in
      let* (ptr, s) :=
        (if s_count r =? wrap16 (lines + 1) then
           let* ws := CyU3PDmaBufMgrSetStatus ws (s_start r) (lines - 1) true in
           let s := set_mgr (mk_mgr (Some (a, ws)) (startAddr m) (regionSize m) (statusSize m) pos) s in
           let ptr := wrap32 (startAddr m + Z.shiftl (s_start r) 5) in
           if enable_checks (buf_trk s) then
             let* (p, t) := block_alloc ptr blk_size (buf_trk s) in
             Ok (p, set_buf_trk t s)
           else Ok (ptr, s)
         else Ok (0, s)) in
      Ok (ptr, set_rtos (CyU3PMutexPut (rtos s)) s).

Definition CyU3PDmaBufferFree (buffer : Z) (s : heaps O) : result (Z * heaps O) :=
  if buffer <? CY_U3P_BUFFER_HEAP_BASE then Ok (-1, s)
  else
    let '(status, o) := CyU3PMutexGet (wait_for (Timeout 10) s) (rtos s) in
    let s := set_rtos o s in
    if negb (bool_decide (status = CY_U3P_SUCCESS)) then Ok (-1, s)
    else
      let* (buffer, s) := (if enable_checks (buf_trk s) then
                             let* (p, t) := block_free buffer (buf_trk s) in
                             Ok (p, set_buf_trk t s)
                           else Ok (buffer, s)) in
      let m := glBufferManager s in
      let* (retVal, s) :=
        (if (startAddr m <? buffer) && (buffer <? startAddr m + regionSize m) then
           let start := Z.shiftr (buffer - startAddr m) 5 in
           let* (a, ws) := status_array m in
           let* count := count_ones ws (statusSize m) (Z.shiftr start 5) (Z.land start 31) in
           let* ws := CyU3PDmaBufMgrSetStatus ws start count false in
           Ok (0, set_mgr (mk_mgr (Some (a, ws)) (startAddr m) (regionSize m) (statusSize m) 0) s)
         else Ok (-1, s)) in
      Ok (retVal, set_rtos (CyU3PMutexPut (rtos s)) s).

Definition CyU3PFreeHeaps (s : heaps O) : result (heaps O) :=
  let* s := CyU3PDmaBufferDeInit s in
  Ok (mk_heaps false (clear_tracking (mem_trk s)) (glBufferManager s) (buf_trk s)
        (CyU3PBytePoolDestroy (rtos s))).

Definition CyU3PBufGetCounts (want_alloc want_free : bool) (s : heaps O) : option Z * option Z :=
  get_counts want_alloc want_free (buf_trk s).

Definition CyU3PBufGetActiveList (s : heaps O) : Z := in_use_list (buf_trk s).

Definition CyU3PBufCorruptionCheck (fuel : nat) (s : heaps O)
  : result (CyU3PReturnStatus_t * heaps O) :=
  let* (r, t) := corruption_walk fuel CY_U3P_BUFFER_HEAP_BASE CY_U3P_SYS_MEM_TOP
                   (in_use_list (buf_trk s)) (buf_trk s) in
  Ok (r, set_buf_trk t s).
End heap.

(** ** Blocks and status bits *)

(** A block is its first cache line and its number of lines.  All its lines but
    the last have their bit set; the clear bit of the last line ends the block. *)
Record heap_ok (ws : list Z) (blocks : list (Z * Z)) : Prop := {
  ho_words : words_ok ws;
  ho_nodup : NoDup blocks;
  ho_inside : forall b, b ∈ blocks -> 1 <= b.1 /\ 2 <= b.2 /\ b.1 + b.2 <= 32 * Z.of_nat (length ws);
  ho_disjoint : forall b c, b ∈ blocks -> c ∈ blocks -> b <> c ->
    b.1 + b.2 <= c.1 \/ c.1 + c.2 <= b.1;
  ho_bits : forall p, 0 <= p < 32 * Z.of_nat (length ws) ->
    bit ws p = true <-> exists b, b ∈ blocks /\ b.1 <= p < b.1 + b.2 - 1
}.

(** A block of the lines behind the first of [n + 1] clear ones touches no other. *)
Lemma free_run_disjoint ws blocks a n b :
  heap_ok ws blocks -> free_run ws (n + 1) a -> 2 <= n -> b ∈ blocks ->
  a + 1 + n <= b.1 \/ b.1 + b.2 <= a + 1.
Proof.
  intros Hok (Ha&Hr&Hc) Hn Hb. destruct (ho_inside _ _ Hok b Hb) as (H1&H2&H3).
  destruct (Z_le_gt_dec (a + 1 + n) b.1); [by left|]. destruct (Z_le_gt_dec (b.1 + b.2) (a + 1)); [by right|].
  exfalso.
  (* a set bit of [b] lies in the run *)
  assert (Hp : exists p, a <= p < a + (n + 1) /\ b.1 <= p < b.1 + b.2 - 1).
  { destruct (Z_lt_ge_dec b.1 a); [exists a; lia|exists b.1; lia]. }
  destruct Hp as (p&Hp1&Hp2). specialize (Hc p Hp1).
  assert (Ht : bit ws p = true) by (apply (ho_bits _ _ Hok); [lia|eauto]). congruence.
Qed.

Lemma heap_ok_alloc ws ws' blocks a n :
  heap_ok ws blocks -> free_run ws (n + 1) a -> 2 <= n -> bits_set ws ws' (a + 1) (n - 1) true ->
  heap_ok ws' ((a + 1, n) :: blocks).
Proof.
  intros Hok Hrun Hn (Hl&Hw&Hb).
  pose proof (fun b => free_run_disjoint ws blocks a n b Hok Hrun Hn) as Hdis.
  destruct Hrun as (Ha&Hr&_). destruct Hok as [Hok1 Hok2 Hok3 Hok4 Hok5].
  assert (Hnew : (a + 1, n) ∉ blocks).
  { intros Hin. pose proof (Hok3 _ Hin). specialize (Hdis _ Hin). cbn in *. lia. }
  constructor.
  - by apply Hw.
  - by apply NoDup_cons.
  - rewrite Hl. intros b [->|Hin]%elem_of_cons; [cbn; lia|by apply Hok3].
  - intros b c [->|Hb']%elem_of_cons [->|Hc']%elem_of_cons Hne; cbn [fst snd]; try done; eauto.
    destruct (Hdis _ Hb'); auto.
  - rewrite Hl. intros p Hp. rewrite Hb by done. destruct (in_run (a + 1) (n - 1) p) eqn:Hin.
    + apply in_run_spec in Hin. split; [intros _|done]. exists (a + 1, n). cbn. split; [set_solver|lia].
    + apply not_true_iff_false in Hin. rewrite in_run_spec in Hin. rewrite Hok5 by done.
      split; [intros (b&?&?); exists b; split; [set_solver|done]|].
      intros (b&[->|Hb']%elem_of_cons&Hbp); [cbn in Hbp; lia|eauto].
Qed.

Lemma heap_ok_ones ws blocks b :
  heap_ok ws blocks -> b ∈ blocks ->
  (forall p, b.1 <= p < b.1 + (b.2 - 1) -> bit ws p = true) /\ bit ws (b.1 + (b.2 - 1)) = false.
Proof.
  intros Hok Hb. destruct (ho_inside _ _ Hok b Hb) as (H1&H2&H3). split.
  - intros p Hp. apply (ho_bits _ _ Hok); [lia|]. exists b. split; [done|lia].
  - apply not_true_iff_false. rewrite (ho_bits _ _ Hok) by lia. intros (c&Hc&Hp).
    destruct (decide (c = b)) as [->|Hne]; [lia|].
    destruct (ho_inside _ _ Hok c Hc) as (?&?&?).
    destruct (ho_disjoint _ _ Hok b c Hb Hc (not_eq_sym Hne)); lia.
Qed.

Lemma heap_ok_free ws ws' blocks b :
  heap_ok ws blocks -> b ∈ blocks -> bits_set ws ws' b.1 (b.2 - 1) false ->
  heap_ok ws' (filter (fun c => c <> b) blocks).
Proof.
  intros Hok Hin (Hl&Hw&Hb). destruct Hok as [Hok1 Hok2 Hok3 Hok4 Hok5].
  constructor.
  - by apply Hw.
  - by apply NoDup_filter.
  - rewrite Hl. intros c [_ Hc]%list_elem_of_filter. by apply Hok3.
  - intros c d [_ Hc]%list_elem_of_filter [_ Hd]%list_elem_of_filter. by apply Hok4.
  - rewrite Hl. intros p Hp. rewrite Hb by done. destruct (in_run b.1 (b.2 - 1) p) eqn:Hr.
    + apply in_run_spec in Hr. split; [done|].
      intros (c&[Hne Hc]%list_elem_of_filter&Hcp). pose proof (Hok3 b Hin). pose proof (Hok3 c Hc).
      destruct (Hok4 b c Hin Hc (not_eq_sym Hne)); lia.
    + apply not_true_iff_false in Hr. rewrite in_run_spec in Hr. rewrite Hok5 by done.
      split; intros (c&Hc&Hcp).
      * exists c. split; [|done]. apply list_elem_of_filter. split; [|done]. intros ->. lia.
      * apply list_elem_of_filter in Hc as [_ Hc]. eauto.
Qed.

(** ** Sizes *)

Lemma ROUND_UP_spec s k :
  0 <= s -> 0 <= k <= 31 -> s + 2 ^ k <= 2 ^ 32 ->
  ROUND_UP s (2 ^ k) = (s + 2 ^ k - 1) / 2 ^ k * 2 ^ k.
Proof.
  intros Hs Hk Hb. unfold ROUND_UP. pose proof (Z.pow_pos_nonneg 2 k ltac:(lia) ltac:(lia)).
  change (2 ^ 32) with 4294967296 in Hb. rewrite wrap32_small by lia.
  replace (2 ^ k - 1) with (Z.ones k) by (rewrite Z.ones_equiv; lia).
  rewrite <- Z.shiftl_mul_pow2, <- Z.shiftr_div_pow2, <- Z.ldiff_ones_r by lia.
  apply Z.bits_inj'. intros n Hn. rewrite Z.land_spec, Z.ldiff_spec. unfold wrap.
  destruct (Z_lt_ge_dec n 32).
  - by rewrite Z.mod_pow2_bits_low, Z.lnot_spec by lia.
  - rewrite Z.mod_pow2_bits_high by lia.
    assert (Hz : Z.testbit (s + 2 ^ k - 1) n = false); [|by rewrite Hz].
    destruct (Z.eq_dec (s + 2 ^ k - 1) 0) as [->|]; [apply Z.bits_0|].
    apply Z.bits_above_log2; [lia|]. apply Z.log2_lt_pow2; [lia|].
    apply Z.lt_le_trans with (2 ^ 32); [change (2 ^ 32) with 4294967296; lia|].
    apply Z.pow_le_mono_r; lia.
Qed.

Lemma tracked_size_bounds (checks : bool) size :
  0 <= size < 65536 ->
  size + (if checks then 24 else 0) <= tracked_size checks size <= 65560 /\
  (checks = true -> tracked_size checks size mod 4 = 0).
Proof.
  intros Hs. destruct checks; cbn [tracked_size]; [|lia].
  change (ROUND_UP size 4) with (ROUND_UP size (2 ^ 2)). rewrite (ROUND_UP_spec size 2) by (change (2 ^ 32) with 4294967296; change (2 ^ 2) with 4; lia).
  change (2 ^ 2) with 4. unfold sizeof_MemBlockInfo, sizeof_uint32.
  pose proof (Z.div_mod (size + 4 - 1) 4 ltac:(lia)).
  pose proof (Z.mod_pos_bound (size + 4 - 1) 4 ltac:(lia)).
  rewrite wrap32_small by lia. split; [lia|]. intros _.
  replace ((size + 4 - 1) / 4 * 4 + (20 + 4)) with (((size + 4 - 1) / 4 + 6) * 4) by lia.
  by apply Z.mod_mul.
Qed.

Lemma block_lines_bounds blk :
  0 <= blk <= 65560 -> 2 <= block_lines blk <= 2049 /\ blk <= 32 * block_lines blk.
Proof.
  intros Hb. unfold block_lines, FX3_CACHE_LINE_SZ. destruct (Z.leb_spec blk 32).
  - rewrite wrap16_small by lia. lia.
  - pose proof (Z.div_mod (blk + 32 - 1) 32 ltac:(lia)).
    pose proof (Z.mod_pos_bound (blk + 32 - 1) 32 ltac:(lia)).
    rewrite wrap16_small by lia. lia.
Qed.

(** ** The invariant of the buffer manager *)

Definition block_addr (b : Z * Z) : Z := CY_U3P_BUFFER_HEAP_BASE + 32 * b.1.

(** The pointer the user has for a block. *)
Definition user_ptr {O} (s : heaps O) (b : Z * Z) : Z :=
  block_addr b + (if enable_checks (buf_trk s) then sizeof_MemBlockInfo else 0).

(** The manager is initialised, [blocks] are the blocks in use, newest first,
    and with checks enabled the leak tracking has exactly these. *)
Record dma_inv {O} (s : heaps O) (blocks : list (Z * Z)) : Prop := {
  di_mgr : exists a ws pos,
    glBufferManager s = mk_mgr (Some (a, ws)) CY_U3P_BUFFER_HEAP_BASE CY_U3P_BUFFER_HEAP_SIZE 224 pos /\
    length ws = 224%nat /\ 0 <= pos < 224 /\ heap_ok ws blocks;
  di_track : enable_checks (buf_trk s) = true ->
    tracks (buf_trk s) (block_addr <$> blocks) /\
    forall b, b ∈ blocks -> intact (buf_trk s) (block_addr b)
}.

Lemma dma_inv_rtos {O} (s : heaps O) blocks o : dma_inv s blocks -> dma_inv (set_rtos o s) blocks.
Proof. intros []. by constructor. Qed.

Lemma dma_inv_pos {O} (s : heaps O) blocks a ws pos pos' :
  dma_inv s blocks ->
  glBufferManager s = mk_mgr (Some (a, ws)) CY_U3P_BUFFER_HEAP_BASE CY_U3P_BUFFER_HEAP_SIZE 224 pos ->
  0 <= pos' < 224 ->
  dma_inv (set_mgr (mk_mgr (Some (a, ws)) CY_U3P_BUFFER_HEAP_BASE CY_U3P_BUFFER_HEAP_SIZE 224 pos') s) blocks.
Proof.
  intros [(a0&ws0&pos0&E&?&?&?) Ht] E' Hp. rewrite E in E'. injection E' as <- <- <-.
  constructor; [|done]. exists a0, ws0, pos'. done.
Qed.

Lemma block_addr_fresh ws blocks a n :
  heap_ok ws blocks -> free_run ws (n + 1) a -> 2 <= n -> block_addr (a + 1, n) ∉ block_addr <$> blocks.
Proof.
  intros Hok Hrun Hn Hin. apply list_elem_of_fmap in Hin as (b&Heq&Hb).
  destruct (free_run_disjoint ws blocks a n b Hok Hrun Hn Hb); unfold block_addr in Heq; cbn in Heq;
    pose proof (ho_inside _ _ Hok b Hb); lia.
Qed.

Section dma_theorems.
Context {O : Type} `{Rtos O}.
Implicit Types (s : heaps O).

(** The part of the allocator after the search has found [a]. *)
Lemma alloc_commit s blocks ad ws pos a lines blk :
  dma_inv s blocks ->
  glBufferManager s = mk_mgr (Some (ad, ws)) CY_U3P_BUFFER_HEAP_BASE CY_U3P_BUFFER_HEAP_SIZE 224 pos ->
  free_run ws (lines + 1) a -> 2 <= lines ->
  (enable_checks (buf_trk s) = true -> blk mod 4 = 0) ->
  exists ws' s', CyU3PDmaBufMgrSetStatus ws (a + 1) (lines - 1) true = Ok ws' /\
    (let s1 := set_mgr (mk_mgr (Some (ad, ws')) CY_U3P_BUFFER_HEAP_BASE CY_U3P_BUFFER_HEAP_SIZE 224 pos) s in
     let ptr := wrap32 (CY_U3P_BUFFER_HEAP_BASE + Z.shiftl (a + 1) 5) in
     if enable_checks (buf_trk s1) then
       let* (p, t) := block_alloc ptr blk (buf_trk s1) in Ok (p, set_buf_trk t s1)
     else Ok (ptr, s1)) = Ok (user_ptr s (a + 1, lines), s') /\
    dma_inv s' ((a + 1, lines) :: blocks) /\ enable_checks (buf_trk s') = enable_checks (buf_trk s).
Proof.
  intros Hinv Hm Hrun Hl Hblk. pose proof Hinv as [(ad0&ws0&pos0&E&Hlen&Hpos&Hok) Ht].
  rewrite E in Hm. injection Hm as <- <- <-. pose proof Hrun as (Ha&Hr&_).
  destruct (set_status_bits_ok ws0 (a + 1) (lines - 1) true) as (ws'&->&Hset); [lia..|].
  assert (Hok' : heap_ok ws' ((a + 1, lines) :: blocks)) by (by eapply heap_ok_alloc).
  assert (Hlen' : length ws' = 224%nat) by (destruct Hset; congruence).
  exists ws'. cbn [buf_trk set_mgr]. cbn zeta.
  assert (Hptr : wrap32 (CY_U3P_BUFFER_HEAP_BASE + Z.shiftl (a + 1) 5) = block_addr (a + 1, lines)).
  { unfold block_addr. rewrite Z.shiftl_mul_pow2 by lia. cbn [fst]. change (2 ^ 5) with 32.
    change CY_U3P_BUFFER_HEAP_BASE with 1074003968. rewrite wrap32_small by lia. lia. }
  rewrite Hptr. destruct (enable_checks (buf_trk s)) eqn:Hen.
  - destruct (Ht eq_refl) as [Htr Hint].
    destruct (block_alloc_tracks (buf_trk s) _ (block_addr (a + 1, lines)) blk Htr) as
      (t'&Halloc&Htr'&Hi&Hk&_); [by eapply block_addr_fresh|unfold block_addr; cbn; change CY_U3P_BUFFER_HEAP_BASE with 1074003968; lia|auto|].
    rewrite Halloc. cbn [rbind]. eexists. split; [done|]. split; [by unfold user_ptr; rewrite Hen|].
    assert (Hen' : enable_checks t' = true) by (by rewrite (block_alloc_checks _ _ _ _ _ Halloc)).
    split; [|done]. constructor; [by exists ad0, ws', pos0|]. intros _. cbn. split; [done|].
    intros b [->|Hb]%elem_of_cons; [done|]. apply Hk; [|by apply Hint]. by apply list_elem_of_fmap_2.
  - eexists. split; [done|]. split; [unfold user_ptr; rewrite Hen; by rewrite Z.add_0_r|].
    split; [|done]. constructor; [by exists ad0, ws', pos0|]. cbn. by rewrite Hen.
Qed.

(** The search found a block: where it is, and what the manager says then. *)
Definition alloc_found s blocks size ptr s' : Prop :=
  exists b, b ∉ blocks /\ dma_inv s' (b :: blocks) /\ ptr = user_ptr s b /\ ptr = user_ptr s' b /\
    size + (if enable_checks (buf_trk s) then 24 else 0) <= 32 * b.2 /\
    CY_U3P_BUFFER_HEAP_BASE < block_addr b /\ block_addr b + 32 * b.2 <= CY_U3P_SYS_MEM_TOP.

Lemma alloc_cases size s blocks :
  dma_inv s blocks -> 0 <= size < 65536 ->
  exists ptr s', CyU3PDmaBufferAlloc size s = Ok (ptr, s') /\
    (ptr = 0 /\ dma_inv s' blocks \/ alloc_found s blocks size ptr s') /\
    forall o, CyU3PMutexGet (wait_for (Timeout 10) s) (rtos s) = (CY_U3P_SUCCESS, o) ->
      searchPos (glBufferManager s) = 0 -> ptr = 0 ->
      forall ad ws a, usedStatus (glBufferManager s) = Some (ad, ws) ->
        ~ free_run ws (block_lines (tracked_size (enable_checks (buf_trk s)) size) + 1) a.
Proof.
  intros Hinv Hsize. unfold CyU3PDmaBufferAlloc.
  destruct (CyU3PMutexGet _ (rtos s)) as [status o] eqn:Hget. cbn [buf_trk set_rtos glBufferManager].
  pose proof (dma_inv_rtos s blocks o Hinv) as Hinv0.
  destruct (bool_decide (status = CY_U3P_SUCCESS)) eqn:Hst; cbn [negb].
  2: { eexists 0, _. split; [done|]. split; [by left|]. intros o' [= -> _].
       apply bool_decide_eq_false in Hst. done. }
  pose proof Hinv as [(ad&ws&pos&E&Hlen&Hpos&Hok) Ht]. rewrite E. cbn [startAddr regionSize usedStatus statusSize searchPos].
  change ((CY_U3P_BUFFER_HEAP_BASE =? 0) || (CY_U3P_BUFFER_HEAP_SIZE =? 0)) with false. cbn match.
  set (blk := tracked_size _ size).
  destruct (tracked_size_bounds (enable_checks (buf_trk s)) size Hsize) as [Hblk Hblk4]. fold blk in Hblk, Hblk4.
  destruct (block_lines_bounds blk) as [Hlines Hfit]; [destruct (enable_checks _); lia|].
  set (lines := block_lines blk) in *. cbn [status_array usedStatus rbind].
  rewrite (wrap16_small (lines + 1)) by lia.
  replace 224 with (Z.of_nat (length ws)) by (by rewrite Hlen).
  destruct (search_run_ok ws (lines + 1) ltac:(lia) pos ltac:(by rewrite Hlen)) as (r&Hrr&Hfound&Hnot&Hcomp).
  pose proof (search_run_word ws (lines + 1) pos r ltac:(by rewrite Hlen) Hrr) as Hword.
  rewrite Hlen in Hword. rewrite Hrr.
  cbn [rbind]. rewrite Hlen. change (Z.of_nat 224) with 224. destruct (s_found r) eqn:Hf.
  - destruct (Hfound eq_refl) as [Hcount Hrun]. rewrite Hcount, Z.eqb_refl.
    pose proof Hrun as (Hs0&Hs1&_). rewrite Hlen in Hs1.
    set (s1 := set_mgr _ (set_rtos o s)).
    assert (Hinv1 : dma_inv s1 blocks) by (by eapply dma_inv_pos).
    set (a := s_start r - 1) in *. replace (s_start r) with (a + 1) by lia.
    destruct (alloc_commit s1 blocks ad ws (s_word r) a lines blk Hinv1 eq_refl Hrun)
      as (ws'&s'&->&Hrun2&Hinv2&Hen); [lia|done|].
    cbn [rbind]. cbn zeta in Hrun2. cbn [startAddr regionSize statusSize]. rewrite Hrun2. cbn [rbind].
    eexists _, _. split; [done|]. split.
    + right. exists (a + 1, lines). split_and!; cbn [fst snd].
      * intros Hin. eapply (block_addr_fresh ws blocks); [done|exact Hrun|lia|]. by apply list_elem_of_fmap_2.
      * by apply dma_inv_rtos.
      * done.
      * unfold user_ptr. cbn [buf_trk set_rtos]. by rewrite Hen.
      * destruct (enable_checks (buf_trk s)); lia.
      * unfold block_addr. cbn. lia.
      * unfold block_addr. cbn [fst]. change CY_U3P_SYS_MEM_TOP with (CY_U3P_BUFFER_HEAP_BASE + 32 * 32 * 224). lia.
    + intros o' _ _ H0. exfalso. unfold user_ptr, block_addr in H0. cbn [fst] in H0.
      change CY_U3P_BUFFER_HEAP_BASE with 1074003968 in H0. unfold sizeof_MemBlockInfo in H0.
      destruct (enable_checks (buf_trk s1)); lia.
  - destruct (Z.eqb_spec (s_count r) (lines + 1)) as [Heq|_]; [by destruct (Hnot eq_refl)|]. cbn [rbind].
    eexists 0, _. split; [done|]. split.
    + left. split; [done|]. apply dma_inv_rtos. by eapply dma_inv_pos.
    + intros o' _ -> _ ad' ws' a [= <- <-]. by apply Hcomp.
Qed.

(** The leak tracking part of a free. *)
Lemma free_tracking s blocks b :
  dma_inv s blocks -> b ∈ blocks ->
  exists s', (if enable_checks (buf_trk s) then
                let* (p, t) := block_free (user_ptr s b) (buf_trk s) in Ok (p, set_buf_trk t s)
              else Ok (user_ptr s b, s)) = Ok (block_addr b, s') /\
    glBufferManager s' = glBufferManager s /\ enable_checks (buf_trk s') = enable_checks (buf_trk s) /\
    (enable_checks (buf_trk s) = true ->
     tracks (buf_trk s') (block_addr <$> filter (fun c => c <> b) blocks) /\
     forall c, c ∈ blocks -> intact (buf_trk s') (block_addr c)).
Proof.
  intros [(ad&ws&pos&E&Hlen&Hpos&Hok) Ht] Hb. unfold user_ptr. destruct (enable_checks (buf_trk s)) eqn:Hen.
  2: { eexists. rewrite Z.add_0_r. done. }
  destruct (Ht eq_refl) as [Htr Hint]. destruct (Hint b Hb) as (h&Hh&Hg&Hf).
  apply list_elem_of_split in Hb as (k1&k2&->).
  rewrite filter_remove by apply (ho_nodup _ _ Hok). rewrite fmap_app in Htr. cbn [fmap list_fmap] in Htr.
  destruct (block_free_tracks _ _ _ _ _ _ Htr Hh Hf) as (t'&Hfree&Htr'&Hk&_).
  rewrite Hfree. cbn [rbind]. eexists. split; [done|]. split; [done|].
  assert (enable_checks t' = true) by (by rewrite (block_free_checks _ _ _ _ Hfree)).
  split; [done|]. intros _. cbn [buf_trk set_buf_trk]. rewrite fmap_app. split; [done|].
  intros c Hc. by apply Hk, Hint.
Qed.

Lemma block_addr_range ws blocks b :
  heap_ok ws blocks -> length ws = 224%nat -> b ∈ blocks ->
  CY_U3P_BUFFER_HEAP_BASE < block_addr b /\
  block_addr b < CY_U3P_BUFFER_HEAP_BASE + CY_U3P_BUFFER_HEAP_SIZE /\
  Z.shiftr (block_addr b - CY_U3P_BUFFER_HEAP_BASE) 5 = b.1.
Proof.
  intros Hok Hlen Hb. destruct (ho_inside _ _ Hok b Hb) as (H1&H2&H3). rewrite Hlen in H3.
  unfold block_addr. change CY_U3P_BUFFER_HEAP_SIZE with (32 * 32 * 224). split; [lia|]. split; [lia|].
  rewrite Z.shiftr_div_pow2 by lia. change (2 ^ 5) with 32. symmetry. apply (Z.div_unique _ _ _ 0); lia.
Qed.

(** Freeing a block in use. *)
Lemma free_cases s blocks b :
  dma_inv s blocks -> b ∈ blocks ->
  exists r s', CyU3PDmaBufferFree (user_ptr s b) s = Ok (r, s') /\
    enable_checks (buf_trk s') = enable_checks (buf_trk s) /\
    (if bool_decide ((CyU3PMutexGet (wait_for (Timeout 10) s) (rtos s)).1 = CY_U3P_SUCCESS)
     then r = 0 /\ dma_inv s' (filter (fun c => c <> b) blocks) /\ searchPos (glBufferManager s') = 0
     else r = -1 /\ dma_inv s' blocks).
Proof.
  intros Hinv Hb. unfold CyU3PDmaBufferFree.
  pose proof Hinv as [(ad&ws&pos&E&Hlen&Hpos&Hok) Ht].
  destruct (block_addr_range ws blocks b Hok Hlen Hb) as (Hlo&Hhi&Hsh).
  assert (Hge : user_ptr s b <? CY_U3P_BUFFER_HEAP_BASE = false).
  { apply Z.ltb_ge. unfold user_ptr, sizeof_MemBlockInfo. destruct (enable_checks _); lia. }
  rewrite Hge. destruct (CyU3PMutexGet _ (rtos s)) as [status o] eqn:Hget. cbn [fst].
  destruct (bool_decide (status = CY_U3P_SUCCESS)) eqn:Hst; cbn [negb].
  2: { eexists _, _. split; [done|]. split; [done|]. split; [done|]. by apply dma_inv_rtos. }
  destruct (free_tracking (set_rtos o s) blocks b) as (s1&Hrun&Em&Hen&Htr); [by apply dma_inv_rtos|done|].
  change (user_ptr (set_rtos o s) b) with (user_ptr s b) in Hrun. rewrite Hrun. cbn [rbind].
  rewrite Em. cbn [set_rtos glBufferManager]. rewrite E. cbn [startAddr regionSize statusSize status_array usedStatus rbind].
  rewrite (proj2 (Z.ltb_lt _ _) Hlo), (proj2 (Z.ltb_lt _ _) Hhi). cbn [andb]. rewrite Hsh.
  destruct (heap_ok_ones ws blocks b Hok Hb) as [Hones Hzero].
  destruct (ho_inside _ _ Hok b Hb) as (H1&H2&H3).
  pose proof (count_ones_ok ws b.1 (b.2 - 1) ltac:(lia) ltac:(lia) Hones Hzero ltac:(lia)) as Hcount.
  rewrite Hlen in Hcount. change (Z.of_nat 224) with 224 in Hcount. rewrite Hcount. cbn [rbind].
  destruct (set_status_bits_ok ws b.1 (b.2 - 1) false) as (ws'&->&Hset); [lia..|]. cbn [rbind].
  eexists _, _. split; [done|]. split; [done|]. split; [done|]. split; [|done].
  apply dma_inv_rtos. constructor.
  - exists ad, ws', 0. split; [done|]. split; [destruct Hset; congruence|]. split; [lia|].
    by eapply heap_ok_free.
  - cbn [buf_trk set_mgr]. rewrite Hen. cbn [set_rtos buf_trk]. intros Hc. destruct (Htr Hc) as [Htr1 Hint].
    split; [done|]. intros c [_ Hc']%list_elem_of_filter. by apply Hint.
Qed.

(** *** Initialisation *)

Lemma init_status_lines : init_status 7168 = Ok (replicate 224 0).
Proof. reflexivity. Qed.

(** The mask for the bits behind the memory has the count of these bits where
    the position of the first would be needed: of a last word with 8 lines, the
    lines 8 to 23 are left as free. *)
Example init_status_tail : init_status 40 = Ok [0; 0xFF000000].
Proof. reflexivity. Qed.

Lemma replicate_ok : heap_ok (replicate 224 0) [].
Proof.
  constructor; try set_solver; [|apply NoDup_nil_2|].
  - apply Forall_replicate. split; [lia|]. apply Z.pow_pos_nonneg; lia.
  - intros p Hp. unfold bit. rewrite length_replicate in Hp. rewrite lookup_total_replicate_2, Z.bits_0.
    + split; [done|]. intros (b&Hb&_). set_solver.
    + apply Nat2Z.inj_lt. rewrite Z2Nat.id by (apply Z.div_pos; lia). apply Z.div_lt_upper_bound; lia.
Qed.

(** What the code relies on at start: the lock and the memory for the bits. *)
Record init_ok s : Prop := {
  io_fresh : glBufferManager s = mk_mgr None 0 0 0 0;
  io_mutex : (CyU3PMutexCreate (rtos s)).1 = CY_U3P_SUCCESS;
  io_checks : enable_checks (mem_trk s) = false;
  io_alloc : let '(st, p, _) := CyU3PByteAlloc 896 (wait_for (Timeout 10) (set_rtos (CyU3PMutexCreate (rtos s)).2 s))
                                  (CyU3PMutexCreate (rtos s)).2 in
             st = CY_U3P_SUCCESS /\ p <> 0;
  io_track : buf_trk s = mk_tracker (enable_checks (buf_trk s)) 0 0 0 (bad_cb (buf_trk s)) ∅ ∅ []
}.

Lemma init_inv s :
  init_ok s -> exists s', CyU3PDmaBufferInit s = Ok s' /\ dma_inv s' [] /\ buf_trk s' = buf_trk s.
Proof.
  intros [E Hm Hc Ha Ht]. unfold CyU3PDmaBufferInit. rewrite E. cbn [startAddr regionSize Z.eqb negb andb].
  destruct (CyU3PMutexCreate (rtos s)) as [st o] eqn:Hmu. cbn [fst snd] in *. rewrite Hm. cbn [negb].
  rewrite bool_decide_true by done. cbn [negb].
  change (CY_U3P_BUFFER_HEAP_SIZE / FX3_CACHE_LINE_SZ) with 7168. change (status_words 7168) with 224.
  unfold CyU3PMemAlloc. change (ROUND_UP (224 * sizeof_uint32) 4) with 896. cbn [mem_trk set_rtos]. rewrite Hc.
  cbn [rtos] in *. change (rtos (set_rtos o s)) with o.
  destruct (CyU3PByteAlloc 896 _ o) as [[st2 p] o2]. destruct Ha as [-> Hp].
  rewrite bool_decide_true by done. cbn [rbind].
  destruct (Z.eqb_spec p 0); [done|]. rewrite init_status_lines. cbn [rbind].
  eexists. split; [done|]. split; [|done]. constructor.
  - exists p, (replicate 224 0), 0. split; [done|]. split; [done|]. split; [lia|]. apply replicate_ok.
  - cbn. rewrite Ht. intros Hen. split; [|set_solver]. constructor; cbn; try done; [apply NoDup_nil_2|set_solver].
Qed.

(** *** Sequences of requests *)

(** A free is of the [k]-th buffer in use. *)
Inductive dma_op : Type :=
| DAlloc (size : Z)
| DFree (k : nat).

(** The user keeps the pointers and sizes of the buffers it has, newest first;
    a buffer whose free fails stays in use. *)
Fixpoint run_dma (ops : list dma_op) (live : list (Z * Z)) s : result (list (Z * Z) * heaps O) :=
  match ops with
  | [] => Ok (live, s)
  | DAlloc size :: ops =>
      let* (ptr, s) := CyU3PDmaBufferAlloc size s in
      run_dma ops (if ptr =? 0 then live else (ptr, size) :: live) s
  | DFree k :: ops =>
      match live !! k with
      | None => run_dma ops live s
      | Some (ptr, _) =>
          let* (r, s) := CyU3PDmaBufferFree ptr s in
          run_dma ops (if r =? 0 then delete k live else live) s
      end
  end.

Definition sizes_ok (ops : list dma_op) : Prop :=
  Forall (fun op => match op with DAlloc size => 0 <= size < 65536 | DFree _ => True end) ops.

(** The user's view of a block. *)
Definition buffer_of (checks : bool) (u b : Z * Z) : Prop :=
  u.1 = block_addr b + (if checks then sizeof_MemBlockInfo else 0) /\
  0 <= u.2 /\ u.2 + (if checks then 24 else 0) <= 32 * b.2.

Definition dma_live s (live : list (Z * Z)) (blocks : list (Z * Z)) : Prop :=
  dma_inv s blocks /\ Forall2 (buffer_of (enable_checks (buf_trk s))) live blocks.

Lemma alloc_checks_kept size s ptr s' blocks :
  dma_inv s blocks -> CyU3PDmaBufferAlloc size s = Ok (ptr, s') ->
  enable_checks (buf_trk s') = enable_checks (buf_trk s).
Proof.
  intros Hinv. unfold CyU3PDmaBufferAlloc. destruct (CyU3PMutexGet _ _) as [st o].
  destruct (negb _); [by intros [= <- <-]|]. destruct (_ || _); [by intros [= <- <-]|].
  intros ([a ws]&_&Hr)%rbind_Ok. apply rbind_Ok in Hr as (r&_&Hr). apply rbind_Ok in Hr as ([p s1]&H1&[= <- <-]).
  cbn [buf_trk set_rtos]. destruct (_ =? _); [|by injection H1 as <- <-].
  apply rbind_Ok in H1 as (ws'&_&H1). revert H1. cbn [buf_trk set_mgr set_rtos].
  destruct (enable_checks (buf_trk s)) eqn:Hen; [|by intros [= <- <-]].
  intros ([q t]&Ha&[= <- <-])%rbind_Ok. cbn. by rewrite (block_alloc_checks _ _ _ _ _ Ha).
Qed.

Lemma filter_delete {A} `{EqDecision A} (l : list A) k b :
  NoDup l -> l !! k = Some b -> filter (fun c => c <> b) l = delete k l.
Proof.
  intros Hnd Hk. rewrite <- (take_drop_middle l k b Hk) in Hnd |- *.
  rewrite filter_remove by done. rewrite delete_take_drop.
  assert (k < length l)%nat by (by eapply lookup_lt_Some).
  rewrite take_app_length' by (rewrite length_take; lia).
  f_equal. rewrite drop_app_ge by (rewrite length_take; lia). rewrite length_take.
  replace (S k - k `min` length l)%nat with 1%nat by lia. done.
Qed.

Lemma run_dma_inv ops live s blocks :
  sizes_ok ops -> dma_live s live blocks ->
  exists live' s' blocks', run_dma ops live s = Ok (live', s') /\ dma_live s' live' blocks' /\
    enable_checks (buf_trk s') = enable_checks (buf_trk s).
Proof.
  revert live s blocks. induction ops as [|op ops IH]; intros live s blocks Hok [Hinv Hf]; [by eexists _, _, _|].
  apply Forall_cons in Hok as [Hop Hok]. destruct op as [size|k]; cbn [run_dma].
  - destruct (alloc_cases size s blocks Hinv Hop) as (ptr&s'&Hrun&Hcase&_).
    pose proof (alloc_checks_kept _ _ _ _ _ Hinv Hrun) as Hen. rewrite Hrun. cbn [rbind].
    destruct Hcase as [[-> Hinv']|(b&Hb&Hinv'&Hp&_&Hsz&Hlo&_)].
    + destruct (IH live s' blocks Hok) as (l&s2&bs&?&?&?); [by split; rewrite ?Hen|]. exists l, s2, bs. by rewrite <- Hen.
    + destruct (Z.eqb_spec ptr 0) as [->|_].
      { exfalso. unfold user_ptr, sizeof_MemBlockInfo in Hp. change CY_U3P_BUFFER_HEAP_BASE with 1074003968 in Hlo.
        destruct (enable_checks (buf_trk s)); lia. }
      destruct (IH ((ptr, size) :: live) s' (b :: blocks) Hok) as (l&s2&bs&?&?&?).
      { split; [done|]. rewrite Hen. constructor; [|done]. split; [done|]. cbn [snd]; split; [lia|done]. }
      exists l, s2, bs. by rewrite <- Hen.
  - destruct (live !! k) as [[ptr size]|] eqn:Hk; [|by apply IH with blocks].
    destruct (Forall2_lookup_l _ _ _ _ _ Hf Hk) as (b&Hbk&Hp&_&_). cbn [fst] in Hp.
    assert (Hb : b ∈ blocks) by (by eapply list_elem_of_lookup_2).
    destruct (free_cases s blocks b Hinv Hb) as (r&s'&Hrun&Hen&Hcase).
    unfold user_ptr in Hrun. rewrite <- Hp in Hrun. rewrite Hrun. cbn [rbind].
    destruct (bool_decide _).
    + destruct Hcase as (->&Hinv'&_). cbn [Z.eqb].
      destruct (IH (delete k live) s' (delete k blocks) Hok) as (l&s2&bs&?&?&?).
      { split; [|rewrite Hen; by apply Forall2_delete]. pose proof Hinv as [(?&ws&?&_&_&_&Hheap) _].
        by rewrite <- (filter_delete blocks k b (ho_nodup _ _ Hheap) Hbk). }
      exists l, s2, bs. by rewrite <- Hen.
    + destruct Hcase as (->&Hinv'). cbn [Z.eqb].
      destruct (IH live s' blocks Hok) as (l&s2&bs&?&?&?); [by split; rewrite ?Hen|]. exists l, s2, bs. by rewrite <- Hen.
Qed.

(** What the blocks mean for the user. *)
Lemma dma_live_disjoint s live blocks i j u v :
  dma_live s live blocks -> live !! i = Some u -> live !! j = Some v -> i <> j ->
  u.1 + u.2 <= v.1 \/ v.1 + v.2 <= u.1.
Proof.
  intros [[(?&ws&?&_&_&_&Hheap) _] Hf] Hu Hv Hij.
  destruct (Forall2_lookup_l _ _ _ _ _ Hf Hu) as (b&Hb&Hpb&Hb0&Hsb).
  destruct (Forall2_lookup_l _ _ _ _ _ Hf Hv) as (c&Hc&Hpc&Hc0&Hsc).
  assert (Hne : b <> c).
  { intros ->. apply Hij. by eapply NoDup_lookup; [apply (ho_nodup _ _ Hheap)| |]. }
  destruct (ho_disjoint _ _ Hheap b c) as [Hd|Hd]; [by eapply list_elem_of_lookup_2..|done| |];
    unfold block_addr, sizeof_MemBlockInfo in *; destruct (enable_checks _); lia.
Qed.

Lemma dma_live_inside s live blocks u :
  dma_live s live blocks -> u ∈ live ->
  CY_U3P_BUFFER_HEAP_BASE < u.1 /\ u.1 + u.2 <= CY_U3P_SYS_MEM_TOP /\
  u.1 mod 32 = (if enable_checks (buf_trk s) then 20 else 0).
Proof.
  intros [[(?&ws&?&_&Hlen&_&Hheap) _] Hf] [i Hu]%list_elem_of_lookup.
  destruct (Forall2_lookup_l _ _ _ _ _ Hf Hu) as (b&Hb&Hpb&Hb0&Hsb).
  destruct (ho_inside _ _ Hheap b) as (H1&H2&H3); [by eapply list_elem_of_lookup_2|]. rewrite Hlen in H3.
  rewrite Hpb. unfold block_addr, sizeof_MemBlockInfo in *.
  change CY_U3P_SYS_MEM_TOP with (CY_U3P_BUFFER_HEAP_BASE + 32 * 32 * 224).
  split; [destruct (enable_checks _); lia|]. split; [destruct (enable_checks _); lia|].
  change CY_U3P_BUFFER_HEAP_BASE with (33562624 * 32). symmetry.
  destruct (enable_checks _); apply (Z.mod_unique _ _ (33562624 + b.1)); lia.
Qed.
End dma_theorems.

(** ** The properties *)

(** C10. DMA buffers do not overlap.  From the initialisation on, of a fresh
    manager and leak list, where the mutex is created and the memory for the status
    words is allocated from a memory heap without checks ([init_ok]), and for sizes
    in 16 bits, whatever
    sequence of allocations and frees follows, with or without the leak checks,
    and whether or not the lock is obtained each time: no operation faults, the
    buffers in use are disjoint and inside of the buffer heap, each with all of
    the bytes asked for, on a cache line without the checks and 20 bytes behind
    one with them, which is not the alignment that the comments at cyfx_tx.c:115
    and cyfx_tx.c:690 promise, and with the checks the leak list has exactly these
    buffers. *)
Theorem dma_heap_run {O} `{Rtos O} (s0 : heaps O) ops :
  init_ok s0 -> sizes_ok ops ->
  exists s1 live s, CyU3PDmaBufferInit s0 = Ok s1 /\ run_dma ops [] s1 = Ok (live, s) /\
    (forall i j u v, live !! i = Some u -> live !! j = Some v -> i <> j ->
       u.1 + u.2 <= v.1 \/ v.1 + v.2 <= u.1) /\
    (forall u, u ∈ live ->
       CY_U3P_BUFFER_HEAP_BASE < u.1 /\ u.1 + u.2 <= CY_U3P_SYS_MEM_TOP /\
       u.1 mod 32 = (if enable_checks (buf_trk s0) then 20 else 0)) /\
    (enable_checks (buf_trk s0) = true ->
     tracks (buf_trk s) ((fun u => u.1 - sizeof_MemBlockInfo) <$> live)).
Proof.
  intros Hi Hok. destruct (init_inv s0 Hi) as (s1&Hinit&Hinv&Ht).
  destruct (run_dma_inv ops [] s1 [] Hok) as (live&s&blocks&Hrun&Hlive&Hen); [by split; [|constructor]|].
  exists s1, live, s. rewrite <- Ht, <- Hen. split; [done|]. split; [done|].
  split; [intros; by eapply dma_live_disjoint|]. split; [intros; by eapply dma_live_inside|].
  intros Hc. destruct Hlive as [[_ Htr] Hf]. destruct (Htr Hc) as [Htr' _]. rewrite Hc in Hf.
  replace ((fun u => u.1 - sizeof_MemBlockInfo) <$> live) with (block_addr <$> blocks); [done|].
  clear -Hf. induction Hf as [|u b live blocks (Hp&_) Hf IH]; [done|]. cbn. f_equal; [lia|done].
Qed.

(** A DMA allocation refuses only for lack of space.  When the search starts
    at the top of the heap, where every free puts it, and the lock is obtained,
    then an allocation returns null only if nowhere in the heap are as many free
    cache lines in a row as the request needs, and the one in front. *)
Theorem dma_alloc_null {O} `{Rtos O} (s : heaps O) blocks size o ad ws :
  dma_inv s blocks -> 0 <= size < 65536 ->
  CyU3PMutexGet (wait_for (Timeout 10) s) (rtos s) = (CY_U3P_SUCCESS, o) ->
  searchPos (glBufferManager s) = 0 -> usedStatus (glBufferManager s) = Some (ad, ws) ->
  exists ptr s', CyU3PDmaBufferAlloc size s = Ok (ptr, s') /\
    (ptr = 0 -> forall a, ~ free_run ws (block_lines (tracked_size (enable_checks (buf_trk s)) size) + 1) a).
Proof.
  intros Hinv Hs Hget Hpos Hws.
  destruct (alloc_cases size s blocks Hinv Hs) as (ptr&s'&Hrun&_&Hnull).
  exists ptr, s'. split; [done|]. intros Hp a. by eapply Hnull.
Qed.

(** A DMA free gives back exactly its block.  With the lock, freeing a
    buffer in use returns 0, takes that block and no other out of the blocks in
    use and restarts the search at the top; without it the call returns -1 and
    every block stays. *)
Theorem dma_free_exact {O} `{Rtos O} (s : heaps O) blocks b :
  dma_inv s blocks -> b ∈ blocks ->
  exists r s', CyU3PDmaBufferFree (user_ptr s b) s = Ok (r, s') /\
    (if bool_decide ((CyU3PMutexGet (wait_for (Timeout 10) s) (rtos s)).1 = CY_U3P_SUCCESS)
     then r = 0 /\ dma_inv s' (filter (fun c => c <> b) blocks) /\ searchPos (glBufferManager s') = 0
     else r = -1 /\ dma_inv s' blocks).
Proof.
  intros Hinv Hb. destruct (free_cases s blocks b Hinv Hb) as (r&s'&Hrun&_&Hcase).
  by exists r, s'.
Qed.

(** ** An RTOS *)

(** A lock that is free, and a byte pool that is handed out from below. *)
Definition bump_alloc (size : Z) (o : Z) : CyU3PReturnStatus_t * Z * Z :=
  if o + size <=? CY_U3P_BUFFER_HEAP_BASE then (CY_U3P_SUCCESS, o, o + size)
  else (CY_U3P_ERROR_FAILURE, 0, o).

Definition bump_rtos : Rtos Z := {|
  CyU3PThreadIdentify _ := true;
  CyU3PMutexCreate o := (CY_U3P_SUCCESS, o);
  CyU3PMutexGet _ o := (CY_U3P_SUCCESS, o);
  CyU3PMutexPut o := o;
  CyU3PMutexDestroy o := o;
  CyU3PBytePoolCreate base _ _ := base;
  CyU3PBytePoolDestroy o := o;
  CyU3PByteAlloc size _ o := bump_alloc size o;
  CyU3PByteFree _ o := o
|}.

Definition boot (checks : bool) : heaps Z :=
  mk_heaps true (mk_tracker false 0 0 0 false ∅ ∅ []) (mk_mgr None 0 0 0 0)
    (mk_tracker checks 0 0 0 true ∅ ∅ []) CY_U3P_MEM_HEAP_BASE.

Lemma boot_ok checks : @init_ok Z bump_rtos (boot checks).
Proof. constructor; try done. Qed.

Lemma dma_heap_run_witness :
  exists live s s1, @CyU3PDmaBufferInit Z bump_rtos (boot true) = Ok s1 /\
    @run_dma Z bump_rtos [DAlloc 3200; DAlloc 0; DFree 1; DAlloc 100] [] s1 = Ok (live, s) /\
    tracks (buf_trk s) ((fun u => u.1 - sizeof_MemBlockInfo) <$> live).
Proof.
  destruct (@dma_heap_run Z bump_rtos (boot true) [DAlloc 3200; DAlloc 0; DFree 1; DAlloc 100])
    as (s1&live&s&Hi&Hr&_&_&Ht); [apply boot_ok|repeat constructor; lia|].
  exists live, s, s1. split; [exact Hi|]. split; [exact Hr|]. apply Ht. reflexivity.
Defined.

(** The heap after initialisation. *)
Definition booted (checks : bool) : heaps Z :=
  mk_heaps true (mk_tracker false 0 0 0 false ∅ ∅ [])
    (mk_mgr (Some (CY_U3P_MEM_HEAP_BASE, replicate 224 0)) CY_U3P_BUFFER_HEAP_BASE CY_U3P_BUFFER_HEAP_SIZE 224 0)
    (mk_tracker checks 0 0 0 true ∅ ∅ []) (CY_U3P_MEM_HEAP_BASE + 896).

Lemma booted_inv checks : dma_inv (booted checks) [].
Proof.
  destruct (@init_inv Z bump_rtos (boot checks) (boot_ok checks)) as (s'&Hrun&Hinv&_).
  assert (Hb : @CyU3PDmaBufferInit Z bump_rtos (boot checks) = Ok (booted checks)) by reflexivity.
  congruence.
Qed.

Lemma dma_alloc_null_witness :
  exists ptr s', @CyU3PDmaBufferAlloc Z bump_rtos 3200 (booted false) = Ok (ptr, s') /\
    (ptr = 0 -> forall a, ~ free_run (replicate 224 0) (block_lines (tracked_size false 3200) + 1) a).
Proof.
  exact (@dma_alloc_null Z bump_rtos (booted false) [] 3200 _ _ (replicate 224 0) (booted_inv false)
    ltac:(lia) eq_refl eq_refl eq_refl).
Defined.

(** One block of four lines behind the first. *)
Definition one_block : heaps Z :=
  set_mgr (mk_mgr (Some (CY_U3P_MEM_HEAP_BASE, 14 :: replicate 223 0)) CY_U3P_BUFFER_HEAP_BASE CY_U3P_BUFFER_HEAP_SIZE 224 0)
    (booted false).

Lemma one_block_alloc : @CyU3PDmaBufferAlloc Z bump_rtos 100 (booted false) =
  Ok (CY_U3P_BUFFER_HEAP_BASE + 32, one_block).
Proof. reflexivity. Qed.

Lemma one_block_inv : dma_inv one_block [(1, 4)].
Proof.
  destruct (@alloc_cases Z bump_rtos 100 (booted false) [] (booted_inv false)) as (ptr&s'&Hrun&Hc&_); [lia|].
  rewrite one_block_alloc in Hrun. injection Hrun as <- <-. destruct Hc as [[? _]|(b&_&Hinv&_&Hp&_)]; [done|].
  assert (b.1 = 1) by (unfold user_ptr, block_addr in Hp; cbn -[Z.mul Z.add CY_U3P_BUFFER_HEAP_BASE] in Hp; lia).
  destruct b as [b1 b2]. cbn in *. subst b1.
  enough (b2 = 4) by congruence.
  pose proof Hinv as [(?&ws&?&E&_&_&Hok) _]. injection E as <- <- <-.
  destruct (ho_inside _ _ Hok (1, b2)) as (_&H2&H3); [set_solver|]. cbn in H2, H3.
  destruct (heap_ok_ones _ _ (1, b2) Hok) as [Hones Hzero]; [set_solver|]. cbn [fst snd] in Hones, Hzero.
  assert (H4 : ~ 1 + (b2 - 1) > 4) by (intros ?; specialize (Hones 4 ltac:(lia)); discriminate Hones).
  assert (b2 = 2 \/ b2 = 3 \/ b2 = 4) as [->|[->| ->]] by lia; [discriminate Hzero..|done].
Qed.

Lemma dma_free_exact_witness :
  exists r s', @CyU3PDmaBufferFree Z bump_rtos (CY_U3P_BUFFER_HEAP_BASE + 32) one_block = Ok (r, s') /\
    r = 0 /\ dma_inv s' [].
Proof.
  destruct (@dma_free_exact Z bump_rtos one_block [(1, 4)] (1, 4) one_block_inv) as (r&s'&Hrun&Hc); [set_solver|].
  exists r, s'. split; [exact Hrun|]. destruct Hc as (Hr&Hinv&_). split; [exact Hr|exact Hinv].
Defined.
