(* ===== verification/UsbDesc.v ===== *)
(** * USB descriptors: [src/src/usb_desc.c]

    The descriptor structures of [src/lib/ncm/include/desc_types.h], each with
    the bytes of its packed layout, the descriptors of the device, and a host's
    walk over a configuration by the [bLength] of its parts. *)

From stdpp Require Import base numbers list decidable strings.
From Stdlib Require Import ZArith Lia Bool Ascii.
From S2P Require Import Prelude NcmTypes.
Open Scope Z_scope.

(** ** Constants of [desc_value.h] and [usb_desc.h] *)

Definition USB_DT_DEVICE : Z := 0x01.
Definition USB_DT_CONFIG : Z := 0x02.
Definition USB_DT_STRING : Z := 0x03.
Definition USB_DT_INTERFACE : Z := 0x04.
Definition USB_DT_ENDPOINT : Z := 0x05.
Definition USB_DT_INTERFACE_ASSOC : Z := 0x0b.
Definition USB_DT_CS_INTERFACE : Z := 0x24.
Definition USB_CLASS_COMM : Z := 0x02.
Definition USB_CLASS_CDC_DATA : Z := 0x0a.
Definition USB_ENDPOINT_XFER_BULK : Z := 2.
Definition USB_ENDPOINT_XFER_INT : Z := 3.
Definition USB_CDC_SUBCLASS_NCM : Z := 0x0d.
Definition USB_CDC_PROTO_NONE : Z := 0.
Definition USB_CDC_NCM_PROTO_NTB : Z := 1.
Definition USB_CDC_HEADER_TYPE : Z := 0x00.
Definition USB_CDC_UNION_TYPE : Z := 0x06.
Definition USB_CDC_ETHERNET_TYPE : Z := 0x0f.
Definition USB_CDC_NCM_TYPE : Z := 0x1a.

Definition CY_FX_EP_NOTIFIER : Z := 0x81.
Definition CY_FX_EP_PRODUCER : Z := 0x02.
Definition CY_FX_EP_CONSUMER : Z := 0x82.
Definition NCM_STATUS_BYTECOUNT : Z := 16.

Definition STR_ID_LANG : Z := 0.
Definition STR_ID_MANF : Z := 1.
Definition STR_ID_PROD : Z := 2.
Definition STR_ID_MACA : Z := 3.
Definition STR_ID_INTF : Z := 4.

(** ** Structures and their bytes *)

Record usb_device_descriptor_t : Type := mk_device_descriptor {
  dd_bLength : Z;
  dd_bDescriptorType : Z;
  dd_bcdUSB : Z;
  dd_bDeviceClass : Z;
  dd_bDeviceSubClass : Z;
  dd_bDeviceProtocol : Z;
  dd_bMaxPacketSize0 : Z;
  dd_idVendor : Z;
  dd_idProduct : Z;
  dd_bcdDevice : Z;
  dd_iManufacturer : Z;
  dd_iProduct : Z;
  dd_iSerialNumber : Z;
  dd_bNumConfigurations : Z
}.

Abbreviation u8 := (le_bytes 1).
Abbreviation u16 := (le_bytes 2).
Abbreviation u32 := (le_bytes 4).

Definition device_descriptor_bytes (d : usb_device_descriptor_t) : list Z :=
  u8 (dd_bLength d) ++ u8 (dd_bDescriptorType d) ++ u16 (dd_bcdUSB d) ++
  u8 (dd_bDeviceClass d) ++ u8 (dd_bDeviceSubClass d) ++ u8 (dd_bDeviceProtocol d) ++
  u8 (dd_bMaxPacketSize0 d) ++ u16 (dd_idVendor d) ++ u16 (dd_idProduct d) ++
  u16 (dd_bcdDevice d) ++ u8 (dd_iManufacturer d) ++ u8 (dd_iProduct d) ++
  u8 (dd_iSerialNumber d) ++ u8 (dd_bNumConfigurations d).

Record usb_config_descriptor_t : Type := mk_config_descriptor {
  cd_bLength : Z;
  cd_bDescriptorType : Z;
  cd_wTotalLength : Z;
  cd_bNumInterfaces : Z;
  cd_bConfigurationValue : Z;
  cd_iConfiguration : Z;
  cd_bmAttributes : Z;
  cd_MaxPower : Z
}.

Definition config_descriptor_bytes (d : usb_config_descriptor_t) : list Z :=
  u8 (cd_bLength d) ++ u8 (cd_bDescriptorType d) ++ u16 (cd_wTotalLength d) ++
  u8 (cd_bNumInterfaces d) ++ u8 (cd_bConfigurationValue d) ++ u8 (cd_iConfiguration d) ++
  u8 (cd_bmAttributes d) ++ u8 (cd_MaxPower d).

Record usb_interface_assoc_descriptor_t : Type := mk_interface_assoc_descriptor {
  ia_bLength : Z;
  ia_bDescriptorType : Z;
  ia_bFirstInterface : Z;
  ia_bInterfaceCount : Z;
  ia_bFunctionClass : Z;
  ia_bFunctionSubClass : Z;
  ia_bFunctionProtocol : Z;
  ia_iFunction : Z
}.

Definition interface_assoc_descriptor_bytes (d : usb_interface_assoc_descriptor_t) : list Z :=
  u8 (ia_bLength d) ++ u8 (ia_bDescriptorType d) ++ u8 (ia_bFirstInterface d) ++
  u8 (ia_bInterfaceCount d) ++ u8 (ia_bFunctionClass d) ++ u8 (ia_bFunctionSubClass d) ++
  u8 (ia_bFunctionProtocol d) ++ u8 (ia_iFunction d).

Record usb_interface_descriptor_t : Type := mk_interface_descriptor {
  id_bLength : Z;
  id_bDescriptorType : Z;
  id_bInterfaceNumber : Z;
  id_bAlternateSetting : Z;
  id_bNumEndpoints : Z;
  id_bInterfaceClass : Z;
  id_bInterfaceSubClass : Z;
  id_bInterfaceProtocol : Z;
  id_iInterface : Z
}.

Definition interface_descriptor_bytes (d : usb_interface_descriptor_t) : list Z :=
  u8 (id_bLength d) ++ u8 (id_bDescriptorType d) ++ u8 (id_bInterfaceNumber d) ++
  u8 (id_bAlternateSetting d) ++ u8 (id_bNumEndpoints d) ++ u8 (id_bInterfaceClass d) ++
  u8 (id_bInterfaceSubClass d) ++ u8 (id_bInterfaceProtocol d) ++ u8 (id_iInterface d).

Record usb_endpoint_descriptor_t : Type := mk_endpoint_descriptor {
  ed_bLength : Z;
  ed_bDescriptorType : Z;
  ed_bEndpointAddress : Z;
  ed_bmAttributes : Z;
  ed_wMaxPacketSize : Z;
  ed_bInterval : Z
}.

Definition endpoint_descriptor_bytes (d : usb_endpoint_descriptor_t) : list Z :=
  u8 (ed_bLength d) ++ u8 (ed_bDescriptorType d) ++ u8 (ed_bEndpointAddress d) ++
  u8 (ed_bmAttributes d) ++ u16 (ed_wMaxPacketSize d) ++ u8 (ed_bInterval d).

Record usb_cdc_header_desc_t : Type := mk_cdc_header_desc {
  ch_bLength : Z;
  ch_bDescriptorType : Z;
  ch_bDescriptorSubType : Z;
  ch_bcdCDC : Z
}.

Definition cdc_header_desc_bytes (d : usb_cdc_header_desc_t) : list Z :=
  u8 (ch_bLength d) ++ u8 (ch_bDescriptorType d) ++ u8 (ch_bDescriptorSubType d) ++ u16 (ch_bcdCDC d).

Record usb_cdc_union_desc_t : Type := mk_cdc_union_desc {
  cu_bLength : Z;
  cu_bDescriptorType : Z;
  cu_bDescriptorSubType : Z;
  cu_bMasterInterface0 : Z;
  cu_bSlaveInterface0 : Z
}.

Definition cdc_union_desc_bytes (d : usb_cdc_union_desc_t) : list Z :=
  u8 (cu_bLength d) ++ u8 (cu_bDescriptorType d) ++ u8 (cu_bDescriptorSubType d) ++
  u8 (cu_bMasterInterface0 d) ++ u8 (cu_bSlaveInterface0 d).

Record usb_cdc_ether_desc_t : Type := mk_cdc_ether_desc {
  ce_bLength : Z;
  ce_bDescriptorType : Z;
  ce_bDescriptorSubType : Z;
  ce_iMACAddress : Z;
  ce_bmEthernetStatistics : Z;
  ce_wMaxSegmentSize : Z;
  ce_wNumberMCFilters : Z;
  ce_bNumberPowerFilters : Z
}.

Definition cdc_ether_desc_bytes (d : usb_cdc_ether_desc_t) : list Z :=
  u8 (ce_bLength d) ++ u8 (ce_bDescriptorType d) ++ u8 (ce_bDescriptorSubType d) ++
  u8 (ce_iMACAddress d) ++ u32 (ce_bmEthernetStatistics d) ++ u16 (ce_wMaxSegmentSize d) ++
  u16 (ce_wNumberMCFilters d) ++ u8 (ce_bNumberPowerFilters d).

Record usb_cdc_ncm_desc_t : Type := mk_cdc_ncm_desc {
  cn_bLength : Z;
  cn_bDescriptorType : Z;
  cn_bDescriptorSubType : Z;
  cn_bcdNcmVersion : Z;
  cn_bmNetworkCapabilities : Z
}.

Definition cdc_ncm_desc_bytes (d : usb_cdc_ncm_desc_t) : list Z :=
  u8 (cn_bLength d) ++ u8 (cn_bDescriptorType d) ++ u8 (cn_bDescriptorSubType d) ++
  u16 (cn_bcdNcmVersion d) ++ u8 (cn_bmNetworkCapabilities d).

(** [bString] is an array of 31 elements. *)
Record usb_string_descriptor_t : Type := mk_string_descriptor {
  sd_bLength : Z;
  sd_bDescriptorType : Z;
  sd_bString : list Z
}.

Definition string_descriptor_bytes (d : usb_string_descriptor_t) : list Z :=
  u8 (sd_bLength d) ++ u8 (sd_bDescriptorType d) ++ flat_map u16 (sd_bString d).

Record usb_desc_t : Type := mk_usb_desc {
  config_desc : usb_config_descriptor_t;
  ncm_iad_desc : usb_interface_assoc_descriptor_t;
  ncm_control_intf : usb_interface_descriptor_t;
  ncm_header_desc : usb_cdc_header_desc_t;
  ncm_union_desc : usb_cdc_union_desc_t;
  ecm_desc : usb_cdc_ether_desc_t;
  ncm_desc : usb_cdc_ncm_desc_t;
  ncm_notify_ep_desc : usb_endpoint_descriptor_t;
  ncm_data_nop_intf : usb_interface_descriptor_t;
  ncm_data_intf : usb_interface_descriptor_t;
  ncm_in_ep_desc : usb_endpoint_descriptor_t;
  ncm_out_ep_desc : usb_endpoint_descriptor_t
}.

(** The members in the order of the packed structure. *)
Definition usb_desc_parts (d : usb_desc_t) : list (list Z) :=
  [config_descriptor_bytes (config_desc d);
   interface_assoc_descriptor_bytes (ncm_iad_desc d);
   interface_descriptor_bytes (ncm_control_intf d);
   cdc_header_desc_bytes (ncm_header_desc d);
   cdc_union_desc_bytes (ncm_union_desc d);
   cdc_ether_desc_bytes (ecm_desc d);
   cdc_ncm_desc_bytes (ncm_desc d);
   endpoint_descriptor_bytes (ncm_notify_ep_desc d);
   interface_descriptor_bytes (ncm_data_nop_intf d);
   interface_descriptor_bytes (ncm_data_intf d);
   endpoint_descriptor_bytes (ncm_in_ep_desc d);
   endpoint_descriptor_bytes (ncm_out_ep_desc d)].

Definition usb_desc_bytes (d : usb_desc_t) : list Z := concat (usb_desc_parts d).

(** [sizeof] of the packed structures. *)
Definition sizeof_usb_device_descriptor_t : Z := 18.
Definition sizeof_usb_config_descriptor_t : Z := 9.
Definition sizeof_usb_interface_assoc_descriptor_t : Z := 8.
Definition sizeof_usb_interface_descriptor_t : Z := 9.
Definition sizeof_usb_endpoint_descriptor_t : Z := 7.
Definition sizeof_usb_cdc_header_desc_t : Z := 5.
Definition sizeof_usb_cdc_union_desc_t : Z := 5.
Definition sizeof_usb_cdc_ether_desc_t : Z := 13.
Definition sizeof_usb_cdc_ncm_desc_t : Z := 6.
Definition sizeof_usb_desc_t : Z :=
  sizeof_usb_config_descriptor_t + sizeof_usb_interface_assoc_descriptor_t +
  sizeof_usb_interface_descriptor_t + sizeof_usb_cdc_header_desc_t + sizeof_usb_cdc_union_desc_t +
  sizeof_usb_cdc_ether_desc_t + sizeof_usb_cdc_ncm_desc_t + sizeof_usb_endpoint_descriptor_t +
  sizeof_usb_interface_descriptor_t + sizeof_usb_interface_descriptor_t +
  sizeof_usb_endpoint_descriptor_t + sizeof_usb_endpoint_descriptor_t.

(** ** The descriptors of the device; members that are not named are zero *)

Definition usb_device_desc : usb_device_descriptor_t := {|
  dd_bLength := sizeof_usb_device_descriptor_t;
  dd_bDescriptorType := USB_DT_DEVICE;
  dd_bcdUSB := 0x200;
  dd_bDeviceClass := USB_CLASS_COMM;
  dd_bDeviceSubClass := USB_CDC_SUBCLASS_NCM;
  dd_bDeviceProtocol := USB_CDC_PROTO_NONE;
  dd_bMaxPacketSize0 := 64;
  dd_idVendor := 0xCAFE;
  dd_idProduct := 0xEEEE;
  dd_bcdDevice := 0x0101;
  dd_iManufacturer := 1;
  dd_iProduct := 2;
  dd_iSerialNumber := 3;
  dd_bNumConfigurations := 1
|}.

Definition usb_config_desc : usb_desc_t := {|
  config_desc := {|
    cd_bLength := sizeof_usb_config_descriptor_t;
    cd_bDescriptorType := USB_DT_CONFIG;
    cd_wTotalLength := sizeof_usb_desc_t;
    cd_bNumInterfaces := 2;
    cd_bConfigurationValue := 1;
    cd_iConfiguration := 0;
    cd_bmAttributes := 0x80;
    cd_MaxPower := 500 / 2
  |};
  ncm_iad_desc := {|
    ia_bLength := sizeof_usb_interface_assoc_descriptor_t;
    ia_bDescriptorType := USB_DT_INTERFACE_ASSOC;
    ia_bFirstInterface := 0;
    ia_bInterfaceCount := 2;
    ia_bFunctionClass := USB_CLASS_COMM;
    ia_bFunctionSubClass := USB_CDC_SUBCLASS_NCM;
    ia_bFunctionProtocol := USB_CDC_PROTO_NONE;
    ia_iFunction := 0
  |};
  ncm_control_intf := {|
    id_bLength := sizeof_usb_interface_descriptor_t;
    id_bDescriptorType := USB_DT_INTERFACE;
    id_bInterfaceNumber := 0;
    id_bAlternateSetting := 0;
    id_bNumEndpoints := 1;
    id_bInterfaceClass := USB_CLASS_COMM;
    id_bInterfaceSubClass := USB_CDC_SUBCLASS_NCM;
    id_bInterfaceProtocol := USB_CDC_PROTO_NONE;
    id_iInterface := STR_ID_INTF
  |};
  ncm_header_desc := {|
    ch_bLength := sizeof_usb_cdc_header_desc_t;
    ch_bDescriptorType := USB_DT_CS_INTERFACE;
    ch_bDescriptorSubType := USB_CDC_HEADER_TYPE;
    ch_bcdCDC := 0x0110
  |};
  ncm_union_desc := {|
    cu_bLength := sizeof_usb_cdc_union_desc_t;
    cu_bDescriptorType := USB_DT_CS_INTERFACE;
    cu_bDescriptorSubType := USB_CDC_UNION_TYPE;
    cu_bMasterInterface0 := 0;
    cu_bSlaveInterface0 := 1
  |};
  ecm_desc := {|
    ce_bLength := sizeof_usb_cdc_ether_desc_t;
    ce_bDescriptorType := USB_DT_CS_INTERFACE;
    ce_bDescriptorSubType := USB_CDC_ETHERNET_TYPE;
    ce_iMACAddress := STR_ID_MACA;
    ce_bmEthernetStatistics := 0;
    ce_wMaxSegmentSize := 1514;
    ce_wNumberMCFilters := 0;
    ce_bNumberPowerFilters := 0
  |};
  ncm_desc := {|
    cn_bLength := sizeof_usb_cdc_ncm_desc_t;
    cn_bDescriptorType := USB_DT_CS_INTERFACE;
    cn_bDescriptorSubType := USB_CDC_NCM_TYPE;
    cn_bcdNcmVersion := 0x0100;
    cn_bmNetworkCapabilities := 0
  |};
  ncm_notify_ep_desc := {|
    ed_bLength := sizeof_usb_endpoint_descriptor_t;
    ed_bDescriptorType := USB_DT_ENDPOINT;
    ed_bEndpointAddress := CY_FX_EP_NOTIFIER;
    ed_bmAttributes := USB_ENDPOINT_XFER_INT;
    ed_wMaxPacketSize := NCM_STATUS_BYTECOUNT;
    ed_bInterval := 9
  |};
  ncm_data_nop_intf := {|
    id_bLength := sizeof_usb_interface_descriptor_t;
    id_bDescriptorType := USB_DT_INTERFACE;
    id_bInterfaceNumber := 1;
    id_bAlternateSetting := 0;
    id_bNumEndpoints := 0;
    id_bInterfaceClass := USB_CLASS_CDC_DATA;
    id_bInterfaceSubClass := 0;
    id_bInterfaceProtocol := USB_CDC_NCM_PROTO_NTB;
    id_iInterface := STR_ID_INTF
  |};
  ncm_data_intf := {|
    id_bLength := sizeof_usb_interface_descriptor_t;
    id_bDescriptorType := USB_DT_INTERFACE;
    id_bInterfaceNumber := 1;
    id_bAlternateSetting := 1;
    id_bNumEndpoints := 2;
    id_bInterfaceClass := USB_CLASS_CDC_DATA;
    id_bInterfaceSubClass := 0;
    id_bInterfaceProtocol := USB_CDC_NCM_PROTO_NTB;
    id_iInterface := STR_ID_INTF
  |};
  ncm_in_ep_desc := {|
    ed_bLength := sizeof_usb_endpoint_descriptor_t;
    ed_bDescriptorType := USB_DT_ENDPOINT;
    ed_bEndpointAddress := CY_FX_EP_CONSUMER;
    ed_bmAttributes := USB_ENDPOINT_XFER_BULK;
    ed_wMaxPacketSize := 512;
    ed_bInterval := 0
  |};
  ncm_out_ep_desc := {|
    ed_bLength := sizeof_usb_endpoint_descriptor_t;
    ed_bDescriptorType := USB_DT_ENDPOINT;
    ed_bEndpointAddress := CY_FX_EP_PRODUCER;
    ed_bmAttributes := USB_ENDPOINT_XFER_BULK;
    ed_wMaxPacketSize := 512;
    ed_bInterval := 0
  |}
|}.

(** *** Strings *)

(** The characters of a [u] string literal, and the array they initialise. *)
Fixpoint utf16 (s : string) : list Z :=
  match s with
  | EmptyString => []
  | String a s => Z.of_nat (nat_of_ascii a) :: utf16 s
  end.

Definition bString_of (l : list Z) : list Z := take 31 (l ++ replicate 31 0).

(** [sizeof] of a [u] literal: its characters and the terminator. *)
Definition sizeof_literal (s : string) : Z := 2 * (Z.of_nat (String.length s) + 1).

Definition STR_LANG : Z := 0x0409.
Definition STR_MANF : string := "pureLiFi".
Definition STR_PROD : string := "PnP".
Definition STR_INTF : string := "USB CDC-NCM".
Definition STR_MACA : string := "2EF5F368DCE6".

(** [sizeof(STR_LANG)] is the size of an [int]. *)
Definition str_desc_langid : usb_string_descriptor_t := {|
  sd_bLength := 4;
  sd_bDescriptorType := USB_DT_STRING;
  sd_bString := bString_of [STR_LANG]
|}.

Definition str_desc (s : string) : usb_string_descriptor_t := {|
  sd_bLength := sizeof_literal s;
  sd_bDescriptorType := USB_DT_STRING;
  sd_bString := bString_of (utf16 s)
|}.

Definition str_desc_manufacturer : usb_string_descriptor_t := str_desc STR_MANF.
Definition str_desc_product : usb_string_descriptor_t := str_desc STR_PROD.
Definition str_desc_interface : usb_string_descriptor_t := str_desc STR_INTF.
Definition str_desc_serial : usb_string_descriptor_t := str_desc STR_MACA.

(** ** A host's view *)

(** A host splits a configuration by the first byte of each descriptor. *)
Fixpoint walk (fuel : nat) (bs : list Z) : option (list (list Z)) :=
  match fuel with
  | O => None
  | S fuel =>
      match bs with
      | [] => Some []
      | n :: _ =>
          if (2 <=? n) && (n <=? Z.of_nat (length bs)) then
            rest ← walk fuel (drop (Z.to_nat n) bs); Some (take (Z.to_nat n) bs :: rest)
          else None
      end
  end.

(** A part whose first byte is its length. *)
Definition sized (p : list Z) : Prop := 2 <= Z.of_nat (length p) /\ hd 0 p = Z.of_nat (length p).

Lemma walk_concat parts fuel :
  Forall sized parts -> (length parts < fuel)%nat -> walk fuel (concat parts) = Some parts.
Proof.
  intros Hs. revert fuel. induction Hs as [|p parts [Hp Hh] _ IH]; intros [|fuel] Hf;
    [cbn in Hf; lia|done|cbn in Hf; lia|].
  destruct p as [|n p]; [cbn in Hp; lia|]. cbn [hd] in Hh. cbn [concat app walk].
  change (n :: (p ++ concat parts)) with ((n :: p) ++ concat parts).
  assert (Hn : Z.to_nat n = length (n :: p)) by lia.
  rewrite Hn, take_app_length, drop_app_length, length_app, Nat2Z.inj_add.
  destruct (Z.leb_spec 2 n), (Z.leb_spec n (Z.of_nat (length (n :: p)) + Z.of_nat (length (concat parts)))); try lia.
  cbn [andb]. rewrite IH; [done|]. cbn in Hf. lia.
Qed.

Definition dtype (p : list Z) : Z := nth 1 p 0.

(** Number, alternate setting and announced number of endpoints of each
    interface, with the addresses of the endpoint descriptors behind it. *)
Fixpoint interfaces (parts : list (list Z)) : list Z * list (Z * Z * Z * list Z) :=
  match parts with
  | [] => ([], [])
  | p :: parts =>
      let '(eps, ifs) := interfaces parts in
      if dtype p =? USB_DT_INTERFACE then ([], (nth 2 p 0, nth 3 p 0, nth 4 p 0, eps) :: ifs)
      else if dtype p =? USB_DT_ENDPOINT then (nth 2 p 0 :: eps, ifs)
      else (eps, ifs)
  end.

(** The string a host reads: the characters up to [bLength]. *)
Fixpoint units (bs : list Z) : list Z :=
  match bs with
  | lo :: hi :: bs => lo + 256 * hi :: units bs
  | _ => []
  end.

Definition host_string (bs : list Z) : list Z :=
  match bs with
  | n :: _ :: rest => units (take (Z.to_nat n - 2) rest)
  | _ => []
  end.

Lemma units_u16 l : Forall (fun c => 0 <= c < 65536) l -> units (flat_map u16 l) = l.
Proof.
  induction 1 as [|c l Hc _ IH]; [done|]. change (flat_map u16 (c :: l)) with (c mod 256 :: (c / 256) mod 256 :: flat_map u16 l).
  cbn [units]. rewrite IH. f_equal.
  rewrite (Z.mod_small (c / 256)); [|split; [apply Z.div_pos; lia|apply Z.div_lt_upper_bound; lia]].
  pose proof (Z.div_mod c 256 ltac:(lia)). lia.
Qed.

Lemma flat_map_u16_length l : length (flat_map u16 l) = (2 * length l)%nat.
Proof. induction l as [|c l IH]; [done|]. cbn [flat_map]. rewrite length_app, IH, length_le_bytes. cbn. lia. Qed.

Lemma utf16_length s : length (utf16 s) = String.length s.
Proof. induction s as [|a s IH]; cbn; [done|]. by rewrite IH. Qed.

Lemma utf16_range s : Forall (fun c => 0 <= c < 65536) (utf16 s).
Proof.
  induction s as [|a s IH]; cbn [utf16]; constructor; [|done].
  pose proof (nat_ascii_bounded a). lia.
Qed.

(** ** The properties *)

(** The configuration descriptor is consistent: a host that splits its bytes
    by the length fields finds exactly the twelve descriptors of the structure,
    [wTotalLength] is the number of bytes, the interfaces are the [bNumInterfaces]
    numbers 0 and 1, each alternate setting is followed by as many endpoint
    descriptors as it announces, and these have the addresses that the driver
    and the application use. *)
Theorem config_descriptor_consistent :
  walk 13 (usb_desc_bytes usb_config_desc) = Some (usb_desc_parts usb_config_desc) /\
  Z.of_nat (length (usb_desc_bytes usb_config_desc)) = cd_wTotalLength (config_desc usb_config_desc) /\
  le_val (slice 2 2 (usb_desc_bytes usb_config_desc)) = cd_wTotalLength (config_desc usb_config_desc) /\
  Z.of_nat (length (remove_dups ((fun i => i.1.1.1) <$> (interfaces (usb_desc_parts usb_config_desc)).2))) =
    cd_bNumInterfaces (config_desc usb_config_desc) /\
  Forall (fun '(_, _, n, eps) => Z.of_nat (length eps) = n) (interfaces (usb_desc_parts usb_config_desc)).2 /\
  (fun i => i.2) <$> (interfaces (usb_desc_parts usb_config_desc)).2 =
    [[NCM_EP_NOTIFY]; []; [NCM_EP_DATA_IN; NCM_EP_DATA_OUT]] /\
  Z.of_nat (length (device_descriptor_bytes usb_device_desc)) = dd_bLength usb_device_desc.
Proof.
  split; [apply walk_concat; [repeat constructor; cbn; lia|cbn; lia]|].
  repeat split; try reflexivity. repeat constructor.
Qed.

(** String descriptors: for every literal of at most 31 characters, and so
    for those of the device, a host reads back exactly the characters of the
    literal from a descriptor with these initialisers; the terminator that
    [sizeof] counts makes up for the two bytes of the header. *)
Theorem string_descriptor_roundtrip s :
  (String.length s <= 31)%nat ->
  host_string (string_descriptor_bytes (str_desc s)) = utf16 s.
Proof.
  intros Hs. unfold string_descriptor_bytes, str_desc, sizeof_literal. cbn [sd_bLength sd_bDescriptorType sd_bString].
  cbn [le_bytes app host_string]. rewrite Z.mod_small by lia.
  replace (Z.to_nat (2 * (Z.of_nat (String.length s) + 1)) - 2)%nat with (2 * length (utf16 s))%nat
    by (rewrite utf16_length; lia).
  unfold bString_of. rewrite take_app_ge by (rewrite utf16_length; lia).
  rewrite flat_map_app, <- flat_map_u16_length, take_app_length.
  apply units_u16, utf16_range.
Qed.

Lemma string_descriptor_roundtrip_witness :
  host_string (string_descriptor_bytes str_desc_serial) = utf16 "2EF5F368DCE6".
Proof. apply (string_descriptor_roundtrip STR_MACA). cbn. lia. Defined.
