(* ===== verification/LwipMem.v ===== *)
(** * The heap of the network stack: [src/lib/lwip/src/core/mem.c]

    The heap is one array that is cut into blocks; each starts with a
    [struct mem] that links it to its neighbours by their indices.  The
    structures are modelled with their members, by the index at which they
    stand; the bytes of a block belong to its user and are not part of this
    model.  The configuration is that of [src/lib/lwip/lwipopts.h]: one thread,
    no checks of overflow, assertions without effect. *)

From stdpp Require Import base numbers list decidable gmap.
From Stdlib Require Import ZArith Lia Bool.
From S2P Require Import Prelude.
Open Scope Z_scope.

(** [MEM_ALIGNMENT] is 4. *)
Definition LWIP_MEM_ALIGN_SIZE (size : Z) : Z := Z.land (size + 3) (Z.lnot 3).

Module Mem.

(** ** Data *)

Record mem : Type := mk_mem {
  m_next : Z;
  m_prev : Z;
  m_used : Z
}.

Definition set_m_next (v : Z) (m : mem) : mem := mk_mem v (m_prev m) (m_used m).
Definition set_m_prev (v : Z) (m : mem) : mem := mk_mem (m_next m) v (m_used m).
Definition set_m_used (v : Z) (m : mem) : mem := mk_mem (m_next m) (m_prev m) v.

Definition MEM_SIZE : Z := 1600.
Definition MIN_SIZE : Z := 12.
Definition MIN_SIZE_ALIGNED : Z := LWIP_MEM_ALIGN_SIZE MIN_SIZE.
Definition SIZEOF_STRUCT_MEM : Z := LWIP_MEM_ALIGN_SIZE 6.
Definition MEM_SIZE_ALIGNED : Z := LWIP_MEM_ALIGN_SIZE MEM_SIZE.

(** A pointer into the array is its index; [ram_end] stands at the end. *)
Definition ram_end : Z := MEM_SIZE_ALIGNED.

Record heap : Type := mk_heap {
  ram : gmap Z mem;
  lfree : Z
}.

Definition set_ram (v : gmap Z mem) (h : heap) : heap := mk_heap v (lfree h).
Definition set_lfree (v : Z) (h : heap) : heap := mk_heap (ram h) v.

(** [*ptr_to_mem(ptr)], and an assignment to a member of it. *)
Definition ptr_to_mem (h : heap) (ptr : Z) : result mem :=
  match ram h !! ptr with Some m => Ok m | None => Fault Dangling end.

Definition assign (ptr : Z) (f : mem -> mem) (h : heap) : result heap :=
  let* m := ptr_to_mem h ptr in
  Ok (set_ram (<[ptr := f m]> (ram h)) h).

(** A structure written as a whole, at an index without one. *)
Definition create (ptr : Z) (m : mem) (h : heap) : heap := set_ram (<[ptr := m]> (ram h)) h.

(** [if (p != MEM_SIZE_ALIGNED) ptr_to_mem(p)->prev = v]. *)
Definition link_back (p v : Z) (h : heap) : result heap :=
  if negb (p =? MEM_SIZE_ALIGNED) then assign p (set_m_prev v) h else Ok h.

(** ** Operations *)

Definition mem_init : heap :=
  mk_heap (<[ram_end := mk_mem MEM_SIZE_ALIGNED MEM_SIZE_ALIGNED 1]> {[0 := mk_mem MEM_SIZE_ALIGNED 0 0]}) 0.

Definition plug_holes (mem : Z) (h : heap) : result heap :=
  let* m := ptr_to_mem h mem in
  let nmem := m_next m in
  let* h :=
    (if mem =? nmem then Ok h
     else
       let* n := ptr_to_mem h nmem in
       if (m_used n =? 0) && negb (nmem =? ram_end) then
         let h := if lfree h =? nmem then set_lfree mem h else h in
         let* h := assign mem (set_m_next (m_next n)) h in
         link_back (m_next n) mem h
       else Ok h) in
  let* m := ptr_to_mem h mem in
  let pmem := m_prev m in
  if pmem =? mem then Ok h
  else
    let* p := ptr_to_mem h pmem in
    if m_used p =? 0 then
      let h := if lfree h =? mem then set_lfree pmem h else h in
      let* h := assign pmem (set_m_next (m_next m)) h in
      link_back (m_next m) pmem h
    else Ok h.

Definition mem_link_valid (mem : Z) (h : heap) : result bool :=
  let* m := ptr_to_mem h mem in
  if (MEM_SIZE_ALIGNED <? m_next m) || (MEM_SIZE_ALIGNED <? m_prev m) then Ok false
  else
    let* bad := (if m_prev m =? mem then Ok false
                 else let* p := ptr_to_mem h (m_prev m) in Ok (negb (m_next p =? mem))) in
    if bad then Ok false
    else if m_next m =? ram_end then Ok true
    else let* n := ptr_to_mem h (m_next m) in Ok (m_prev n =? mem).

(** [rmem] is null or an index. *)
Definition mem_free (rmem : option Z) (h : heap) : result heap :=
  match rmem with
  | None => Ok h
  | Some rmem =>
      if negb (Z.land rmem 3 =? 0) then Ok h
      else
        let mem := rmem - SIZEOF_STRUCT_MEM in
        if (mem <? 0) || (ram_end <? rmem + MIN_SIZE_ALIGNED) then Ok h
        else
          let* m := ptr_to_mem h mem in
          if m_used m =? 0 then Ok h
          else
            let* valid := mem_link_valid mem h in
            if negb valid then Ok h
            else
              let* h := assign mem (set_m_used 0) h in
              let h := if mem <? lfree h then set_lfree mem h else h in
              plug_holes mem h
  end.

(** The size of a block's data for a request of [n] bytes. *)
Definition data_size (n : Z) : Z :=
  let size := wrap16 (LWIP_MEM_ALIGN_SIZE n) in
  if size <? MIN_SIZE_ALIGNED then MIN_SIZE_ALIGNED else size.

Definition mem_trim (rmem new_size : Z) (h : heap) : result (option Z * heap) :=
  let newsize := data_size new_size in
  if (MEM_SIZE_ALIGNED <? newsize) || (newsize <? new_size) then Ok (None, h)
  else if (rmem <? 0) || (ram_end <=? rmem) then Ok (Some rmem, h)
  else
    let ptr := rmem - SIZEOF_STRUCT_MEM in
    let* m := ptr_to_mem h ptr in
    let size := wrap16 (wrap16 (m_next m - ptr) - SIZEOF_STRUCT_MEM) in
    if size <? newsize then Ok (None, h)
    else if newsize =? size then Ok (Some rmem, h)
    else
      let* mem2 := ptr_to_mem h (m_next m) in
      let ptr2 := wrap16 (ptr + SIZEOF_STRUCT_MEM + newsize) in
      if m_used mem2 =? 0 then
        let h := if lfree h =? m_next m then set_lfree ptr2 h else h in
        let h := create ptr2 (mk_mem (m_next mem2) ptr 0) h in
        let* h := assign ptr (set_m_next ptr2) h in
        let* h := link_back (m_next mem2) ptr2 h in
        Ok (Some rmem, h)
      else if newsize + SIZEOF_STRUCT_MEM + MIN_SIZE_ALIGNED <=? size then
        let h := if ptr2 <? lfree h then set_lfree ptr2 h else h in
        let h := create ptr2 (mk_mem (m_next m) ptr 0) h in
        let* h := assign ptr (set_m_next ptr2) h in
        let* h := link_back (m_next m) ptr2 h in
        Ok (Some rmem, h)
      else Ok (Some rmem, h).

(** The next free block at or behind [cur], or the end. *)
Fixpoint next_free (fuel : nat) (cur : Z) (h : heap) : result Z :=
  match fuel with
  | 0%nat => Fault OutOfFuel
  | S fuel =>
      let* m := ptr_to_mem h cur in
      if negb (m_used m =? 0) && negb (cur =? ram_end) then next_free fuel (m_next m) h else Ok cur
  end.

(** Each block has at least 20 bytes. *)
Definition heap_fuel : nat := 100.

(** Take the free block [m] at [ptr]. *)
Definition take_block (ptr size : Z) (m : mem) (h : heap) : result (option Z * heap) :=
  let* h :=
    (if size + SIZEOF_STRUCT_MEM + MIN_SIZE_ALIGNED <=? wrap32 (m_next m - (ptr + SIZEOF_STRUCT_MEM)) then
       let ptr2 := wrap16 (ptr + SIZEOF_STRUCT_MEM + size) in
       let h := create ptr2 (mk_mem (m_next m) ptr 0) h in
       let* h := assign ptr (set_m_next ptr2) h in
       let* h := assign ptr (set_m_used 1) h in
       link_back (m_next m) ptr2 h
     else assign ptr (set_m_used 1) h) in
  let* h := (if ptr =? lfree h then
               let* cur := next_free heap_fuel ptr h in Ok (set_lfree cur h)
             else Ok h) in
  Ok (Some (ptr + SIZEOF_STRUCT_MEM), h).

(** The scan from [ptr] on. *)
Fixpoint malloc_loop (fuel : nat) (ptr size : Z) (h : heap) : result (option Z * heap) :=
  match fuel with
  | 0%nat => Fault OutOfFuel
  | S fuel =>
      if ptr <? MEM_SIZE_ALIGNED - size then
        let* m := ptr_to_mem h ptr in
        if (m_used m =? 0) && (size <=? wrap32 (m_next m - (ptr + SIZEOF_STRUCT_MEM)))
        then take_block ptr size m h
        else malloc_loop fuel (m_next m) size h
      else Ok (None, h)
  end.

Definition mem_malloc (size_in : Z) (h : heap) : result (option Z * heap) :=
  if size_in =? 0 then Ok (None, h)
  else
    let size := data_size size_in in
    if (MEM_SIZE_ALIGNED <? size) || (size <? size_in) then Ok (None, h)
    else malloc_loop heap_fuel (lfree h) size h.

End Mem.
