(* ===== verification/LwipHeap.v ===== *)
(** * The heap as a list of blocks

    The abstract view of the heap of [src/lib/lwip/src/core/mem.c]: the sizes of
    its blocks in order, each used or free, no two free ones in a row.  The
    operations are shown to be first fit, release with merging, and cutting
    off, on this list. *)

From stdpp Require Import base numbers list decidable gmap.
From Stdlib Require Import ZArith Lia Bool.
From S2P Require Import Prelude LwipMem.
Open Scope Z_scope.
Import Mem.

(** A block: its size with the structure, and whether it is used. *)
Definition blocks : Type := list (Z * bool).

Fixpoint total (bs : blocks) : Z :=
  match bs with [] => 0 | (n, _) :: bs => n + total bs end.

(** The lowest free block of the list that starts at [p], or its end. *)
Fixpoint lowest (p : Z) (bs : blocks) : Z :=
  match bs with
  | [] => p
  | (n, u) :: bs => if u : bool then lowest (p + n) bs else p
  end.

(** No two free blocks in a row. *)
Fixpoint parted (bs : blocks) : Prop :=
  match bs with
  | (_, false) :: ((_, u) :: _) as bs' => u = true /\ parted bs'
  | _ :: bs' => parted bs'
  | [] => True
  end.

(** The structures of the blocks from [p] to [q]; [pv] and [qv] are the indices of
    the structures before the two. *)
Fixpoint seg (r : gmap Z mem) (p pv : Z) (bs : blocks) (q qv : Z) : Prop :=
  match bs with
  | [] => p = q /\ pv = qv
  | (n, u) :: bs => r !! p = Some (mk_mem (p + n) pv (Z.b2z u)) /\ 20 <= n /\ n mod 4 = 0 /\ seg r (p + n) p bs q qv
  end.

(** What the heap holds, and that all of it is in order. *)
Record holds_blocks (h : heap) (bs : blocks) : Prop := {
  hb_seg : exists ev, seg (ram h) 0 0 bs 1600 ev;
  hb_end : ram h !! 1600 = Some (mk_mem 1600 1600 1);
  hb_lfree : lfree h = lowest 0 bs
}.

(** ** Segments *)

Lemma seg_total r p pv bs q qv : seg r p pv bs q qv -> q = p + total bs /\ 20 * Z.of_nat (length bs) <= total bs /\ total bs mod 4 = 0.
Proof.
  revert p pv. induction bs as [|[n u] bs IH]; intros p pv; cbn [seg total length]; [intros [-> _]; split; [lia|done]|].
  intros (_&Hn&Hm&(->&Hl&Ht)%IH). split; [lia|]. split; [lia|]. rewrite Zplus_mod, Hm, Ht. done.
Qed.

Lemma seg_app r p pv b1 b2 q qv :
  seg r p pv (b1 ++ b2) q qv <-> exists xv, seg r p pv b1 (p + total b1) xv /\ seg r (p + total b1) xv b2 q qv.
Proof.
  revert p pv. induction b1 as [|[n u] b1 IH]; intros p pv; cbn [app seg total].
  - rewrite Z.add_0_r. split; [intros Hs; by exists pv|]. by intros (xv&[_ ->]&Hs).
  - rewrite IH. replace (p + (n + total b1)) with (p + n + total b1) by lia. naive_solver.
Qed.

Lemma seg_frame r r' p pv bs q qv :
  (forall k, p <= k < q -> r' !! k = r !! k) -> seg r p pv bs q qv -> seg r' p pv bs q qv.
Proof.
  revert p pv. induction bs as [|[n u] bs IH]; intros p pv Hr; cbn [seg]; [done|].
  intros (Hp&Hn&Hm&Hs). pose proof (seg_total _ _ _ _ _ _ Hs) as (->&Ht&_).
  rewrite Hr by lia. split_and!; try done. apply IH; [|done]. intros k Hk. apply Hr. lia.
Qed.

Lemma seg_insert_out r p pv bs q qv k m :
  k < p \/ q <= k -> seg r p pv bs q qv -> seg (<[k := m]> r) p pv bs q qv.
Proof. intros Hk. apply seg_frame. intros j Hj. apply lookup_insert_ne. lia. Qed.

(** The structure behind a segment. *)
Lemma link_back_ok h q pv v bs qv :
  seg (ram h) q pv bs 1600 qv -> ram h !! 1600 = Some (mk_mem 1600 1600 1) ->
  exists h' qv', link_back q v h = Ok h' /\ lfree h' = lfree h /\ seg (ram h') q v bs 1600 qv' /\
    (forall k, k <> q \/ q = 1600 -> ram h' !! k = ram h !! k).
Proof.
  intros Hs He. unfold link_back. change MEM_SIZE_ALIGNED with 1600. destruct bs as [|[n u] bs]; cbn [seg] in Hs.
  - destruct Hs as [-> _]. rewrite Z.eqb_refl. exists h, v. by split_and!.
  - destruct Hs as (Hq&Hn&Hm&Hs). pose proof (seg_total _ _ _ _ _ _ Hs) as (Hend&?&_).
    rewrite (proj2 (Z.eqb_neq q 1600)) by lia. unfold assign, ptr_to_mem. rewrite Hq. cbn [negb rbind].
    eexists _, qv. split; [done|]. split; [done|]. cbn [set_ram ram lfree]. split.
    + cbn [seg]. rewrite lookup_insert_eq. split_and!; try done. apply seg_insert_out; [lia|done].
    + intros k Hk. apply lookup_insert_ne. lia.
Qed.

(** ** The lowest free block *)

Lemma lowest_app p b1 b2 :
  lowest p (b1 ++ b2) = if forallb snd b1 then lowest (p + total b1) b2 else lowest p b1.
Proof.
  revert p. induction b1 as [|[n []] b1 IH]; intros p; cbn; [by rewrite Z.add_0_r| |done].
  rewrite IH. by rewrite Z.add_assoc.
Qed.

Lemma lowest_bounds r p pv bs q qv :
  seg r p pv bs q qv -> p <= lowest p bs <= q /\ (forallb snd bs = false -> lowest p bs < q).
Proof.
  revert p pv. induction bs as [|[n []] bs IH]; intros p pv; cbn [seg lowest forallb snd andb]; [intros [-> _]; split; [lia|done]| |].
  - intros (_&?&_&[? ?]%IH). split; [lia|done].
  - intros (_&?&_&Hs). pose proof (seg_total _ _ _ _ _ _ Hs). lia.
Qed.

Lemma next_free_ok fuel h p pv bs qv :
  seg (ram h) p pv bs 1600 qv -> ram h !! 1600 = Some (mk_mem 1600 1600 1) -> (length bs < fuel)%nat ->
  next_free fuel p h = Ok (lowest p bs).
Proof.
  intros Hs He. revert fuel p pv Hs. induction bs as [|[n u] bs IH]; intros [|fuel] p pv Hs Hf; cbn [length] in Hf; try lia;
    cbn [next_free]; unfold ptr_to_mem.
  - destruct Hs as [-> _]. rewrite He. by cbn.
  - destruct Hs as (Hp&Hn&_&Hs). pose proof (seg_total _ _ _ _ _ _ Hs) as (Hend&?&_). rewrite Hp. cbn [rbind m_used m_next].
    change ram_end with 1600. rewrite (proj2 (Z.eqb_neq p 1600)) by lia.
    destruct u; cbn; [|done]. apply IH with p; [done|lia].
Qed.

(** ** A block of the heap *)

Lemma at_block h b1 n u b2 :
  holds_blocks h (b1 ++ (n, u) :: b2) ->
  exists pv ev, seg (ram h) 0 0 b1 (total b1) pv /\
    ram h !! total b1 = Some (mk_mem (total b1 + n) pv (Z.b2z u)) /\
    20 <= n /\ n mod 4 = 0 /\ seg (ram h) (total b1 + n) (total b1) b2 1600 ev /\
    0 <= total b1 /\ total b1 + n <= 1600 /\ total b1 mod 4 = 0.
Proof.
  intros [(ev&Hs) He Hl]. apply seg_app in Hs as (pv&H1&(Hp&Hn&Hm&H2)). rewrite Z.add_0_l in *.
  exists pv, ev. pose proof (seg_total _ _ _ _ _ _ H1). pose proof (seg_total _ _ _ _ _ _ H2). split_and!; try done; lia.
Qed.

(** The heap with the blocks behind [b1] exchanged. *)
Lemma rebuild h b1 bs pv ev :
  seg (ram h) 0 0 b1 (total b1) pv -> seg (ram h) (total b1) pv bs 1600 ev ->
  ram h !! 1600 = Some (mk_mem 1600 1600 1) -> lfree h = lowest 0 (b1 ++ bs) -> holds_blocks h (b1 ++ bs).
Proof. intros H1 H2 He Hl. split; try done. exists ev. apply seg_app. exists pv. by rewrite Z.add_0_l. Qed.

(** [lfree] against a block. *)
Lemma lfree_block h b1 n u b2 :
  holds_blocks h (b1 ++ (n, u) :: b2) ->
  lfree h = if forallb snd b1 then lowest (total b1) ((n, u) :: b2) else lowest 0 b1.
Proof. intros [_ _ ->]. by rewrite lowest_app, Z.add_0_l. Qed.

Lemma lowest_before h b1 n u b2 :
  holds_blocks h (b1 ++ (n, u) :: b2) -> forallb snd b1 = false -> 0 <= lowest 0 b1 < total b1.
Proof.
  intros Hh Hb. destruct (at_block _ _ _ _ _ Hh) as (pv&ev&Hs&_).
  destruct (lowest_bounds _ _ _ _ _ _ Hs) as [? Hlt]. specialize (Hlt Hb). lia.
Qed.

(** *** Taking a block *)

(** What is left of a free block of size [n] when [size] bytes are taken. *)
Definition cut (size n : Z) : blocks :=
  if size + 20 <=? n - 8 then [(size + 8, true); (n - 8 - size, false)] else [(n, true)].

Lemma take_struct_ok h b1 n b2 size :
  holds_blocks h (b1 ++ (n, false) :: b2) -> 12 <= size -> size mod 4 = 0 -> size <= n - 8 ->
  exists h', (let m := mk_mem (total b1 + n) 0 0 in
    if size + SIZEOF_STRUCT_MEM + MIN_SIZE_ALIGNED <=? wrap32 (m_next m - (total b1 + SIZEOF_STRUCT_MEM)) then
       let ptr2 := wrap16 (total b1 + SIZEOF_STRUCT_MEM + size) in
       let h := create ptr2 (mk_mem (m_next m) (total b1) 0) h in
       let* h := assign (total b1) (set_m_next ptr2) h in
       let* h := assign (total b1) (set_m_used 1) h in
       link_back (m_next m) ptr2 h
     else assign (total b1) (set_m_used 1) h) = Ok h' /\ lfree h' = lfree h /\
    ram h' !! 1600 = Some (mk_mem 1600 1600 1) /\
    exists pv ev, seg (ram h') 0 0 b1 (total b1) pv /\ seg (ram h') (total b1) pv (cut size n ++ b2) 1600 ev.
Proof.
  intros Hh Hlo Hsz Hfit. destruct (at_block _ _ _ _ _ Hh) as (pv&ev&H1&Hp&Hn&Hm&H2&H0&Hend&Hpm).
  destruct Hh as [_ He _]. set (p := total b1) in *. unfold cut. cbn [m_next].
  change SIZEOF_STRUCT_MEM with 8. change MIN_SIZE_ALIGNED with 12.
  rewrite wrap32_small, wrap16_small by lia. replace (p + n - (p + 8)) with (n - 8) by lia.
  replace (size + 8 + 12) with (size + 20) by lia.
  destruct (Z.leb_spec (size + 20) (n - 8)) as [Hcut|Hno]; cbn zeta.
  - unfold assign, ptr_to_mem, create. cbn [ram set_ram]. rewrite lookup_insert_ne by lia. rewrite Hp. cbn [rbind ram set_ram].
    rewrite lookup_insert_eq. cbn [rbind set_m_next set_m_used m_prev m_next m_used ram].
    match goal with |- context [link_back _ _ ?x] => set (h1 := x) end.
    assert (He1 : ram h1 !! 1600 = Some (mk_mem 1600 1600 1)) by (cbn; by rewrite !lookup_insert_ne by lia).
    assert (H2' : seg (ram h1) (p + n) p b2 1600 ev) by (cbn; by repeat apply seg_insert_out; try lia).
    destruct (link_back_ok h1 (p + n) p (p + 8 + size) b2 ev H2' He1) as (h'&ev'&->&Hlf&Hs2&Hk).
    exists h'. split_and!; try done; [rewrite Hk by lia; done|]. exists pv, ev'. split.
    + apply (seg_frame (ram h)); [|done]. intros k Hk'. rewrite Hk by lia. cbn. by rewrite !lookup_insert_ne by lia.
    + cbn [app seg]. replace (p + (size + 8)) with (p + 8 + size) by lia. replace (p + 8 + size + (n - 8 - size)) with (p + n) by lia.
      rewrite !Hk by lia. subst h1. cbn [ram set_ram].
      split_and!; try done; try lia; [by rewrite lookup_insert_eq| |by rewrite !(lookup_insert_ne _ p), lookup_insert_eq by lia|]; [rewrite Zplus_mod, Hsz; done|].
      replace (n - 8 - size) with (n - (8 + size)) by lia. rewrite Zminus_mod, Hm, Zplus_mod, Hsz. done.
  - unfold assign, ptr_to_mem. rewrite Hp. cbn [rbind]. eexists. split; [done|]. split; [done|]. cbn [ram set_ram set_m_used m_next m_prev].
    split; [by rewrite lookup_insert_ne by lia|]. exists pv, ev. split; [by apply seg_insert_out; [lia|]|].
    cbn [app seg]. rewrite lookup_insert_eq. split_and!; try done. by apply seg_insert_out; [lia|].
Qed.

Lemma seg_length h b1 b2 : holds_blocks h (b1 ++ b2) -> (length b2 <= 80)%nat.
Proof. intros [(ev&Hs) _ _]. pose proof (seg_total _ _ _ _ _ _ Hs) as (?&Hl&_). rewrite length_app in Hl. lia. Qed.

Lemma take_block_ok h b1 n b2 size pv :
  holds_blocks h (b1 ++ (n, false) :: b2) -> 12 <= size -> size mod 4 = 0 -> size <= n - 8 ->
  exists h', take_block (total b1) size (mk_mem (total b1 + n) pv 0) h = Ok (Some (total b1 + 8), h') /\
    holds_blocks h' (b1 ++ cut size n ++ b2).
Proof.
  intros Hh Hlo Hsz Hfit. destruct (take_struct_ok h b1 n b2 size Hh Hlo Hsz Hfit) as (h1&Hrun&Hlf&He&pv'&ev&H1&H2).
  unfold take_block. cbn [m_next] in *. rewrite Hrun. cbn [rbind]. clear Hrun.
  rewrite Hlf, (lfree_block _ _ _ _ _ Hh). pose proof (lowest_before _ _ _ _ _ Hh) as Hbef.
  destruct (forallb snd b1) eqn:Hall.
  - cbn [lowest]. rewrite Z.eqb_refl, (next_free_ok heap_fuel h1 _ _ _ _ H2 He).
    + cbn [rbind]. eexists. split; [done|]. eapply rebuild; try done. cbn [lfree set_lfree]. by rewrite (lowest_app 0 b1), Hall, Z.add_0_l.
    + apply seg_length in Hh. cbn [length] in Hh. unfold heap_fuel, cut. destruct (_ <=? _); cbn [length app]; lia.
  - specialize (Hbef eq_refl). rewrite (proj2 (Z.eqb_neq _ _)) by lia. cbn [rbind]. exists h1. split; [done|].
    eapply rebuild; try done. by rewrite Hlf, (lfree_block _ _ _ _ _ Hh), (lowest_app 0 b1), Hall.
Qed.

(** ** Free blocks in a row *)

Definition free_head (bs : blocks) : bool := match bs with (_, false) :: _ => true | _ => false end.
Definition free_last (bs : blocks) : bool := match last bs with Some (_, false) => true | _ => false end.

Lemma parted_cons n u bs : parted ((n, u) :: bs) <-> (u = false -> free_head bs = false) /\ parted bs.
Proof. destruct u, bs as [|[m []] bs]; cbn; naive_solver. Qed.

Lemma parted_app b1 b2 :
  parted (b1 ++ b2) <-> parted b1 /\ parted b2 /\ (free_last b1 = true -> free_head b2 = false).
Proof.
  induction b1 as [|[n u] b1 IH]; [cbn; naive_solver|]. cbn [app]. rewrite !parted_cons, IH.
  destruct b1 as [|[m v] b1]; [|cbn [app free_head]; unfold free_last; cbn [last]; naive_solver].
  unfold free_last. cbn. destruct u; naive_solver.
Qed.

Lemma cut_head size n : free_head (cut size n) = false.
Proof. unfold cut. by destruct (_ <=? _). Qed.

Lemma free_head_app b1 b2 : free_head b1 = false -> b1 <> [] -> free_head (b1 ++ b2) = false.
Proof. by destruct b1 as [|[n []] b1]. Qed.

Lemma parted_cut b1 n b2 size : parted (b1 ++ (n, false) :: b2) -> parted (b1 ++ cut size n ++ b2).
Proof.
  intros (P1&(Hh&P2)%parted_cons&_)%parted_app. specialize (Hh eq_refl).
  apply parted_app. split; [done|]. unfold cut. destruct (_ <=? _); cbn [app]; rewrite ?parted_cons; naive_solver.
Qed.

(** ** Allocation *)

(** First fit: the first free block with room for [size] bytes. *)
Fixpoint first_fit (size p : Z) (bs : blocks) : option (Z * blocks) :=
  match bs with
  | [] => None
  | (n, u) :: bs =>
      if negb u && (size <=? n - 8) then Some (p + 8, cut size n ++ bs)
      else match first_fit size (p + n) bs with
           | Some (q, bs') => Some (q, (n, u) :: bs')
           | None => None
           end
  end.

(** Nothing fits behind the point where the scan gives up. *)
Lemma no_fit r p pv bs qv size :
  seg r p pv bs 1600 qv -> 1600 - size <= p -> first_fit size p bs = None.
Proof.
  revert p pv. induction bs as [|[n u] bs IH]; intros p pv; [done|]. intros (_&Hn&_&Hs) Hp. cbn [first_fit].
  pose proof (seg_total _ _ _ _ _ _ Hs) as (?&?&_). rewrite (proj2 (Z.leb_gt size (n - 8))) by lia.
  rewrite andb_false_r, (IH _ _ Hs) by lia. done.
Qed.

Lemma total_snoc b1 n u : total (b1 ++ [(n, u)]) = total b1 + n.
Proof. induction b1 as [|[]]; cbn; lia. Qed.

Lemma malloc_loop_ok fuel h b1 b2 size :
  holds_blocks h (b1 ++ b2) -> 12 <= size -> size mod 4 = 0 -> (length b2 < fuel)%nat ->
  match first_fit size (total b1) b2 with
  | None => malloc_loop fuel (total b1) size h = Ok (None, h)
  | Some (q, b2') => exists h', malloc_loop fuel (total b1) size h = Ok (Some q, h') /\ holds_blocks h' (b1 ++ b2')
  end.
Proof.
  intros Hh Hlo Hsz. revert fuel b1 Hh. induction b2 as [|[n u] b2 IH]; intros [|fuel] b1 Hh Hf; cbn [length] in Hf; try lia.
  - destruct Hh as [(ev&Hs) _ _]. rewrite app_nil_r in Hs. pose proof (seg_total _ _ _ _ _ _ Hs) as (?&_).
    cbn [first_fit malloc_loop]. change MEM_SIZE_ALIGNED with 1600. by rewrite (proj2 (Z.ltb_ge _ _)) by lia.
  - destruct (at_block _ _ _ _ _ Hh) as (pv&ev&H1&Hp&Hn&Hm&H2&H0&Hend&_). cbn [malloc_loop].
    change MEM_SIZE_ALIGNED with 1600. destruct (Z.ltb_spec (total b1) (1600 - size)) as [Hlt|Hge].
    2:{ rewrite (no_fit (ram h) (total b1) pv _ ev); [done| |done]. cbn [seg]. by split_and!. }
    unfold ptr_to_mem. rewrite Hp. cbn [rbind m_used m_next]. change SIZEOF_STRUCT_MEM with 8.
    rewrite wrap32_small by lia. replace (total b1 + n - (total b1 + 8)) with (n - 8) by lia. cbn [first_fit].
    assert (Hnext : match (match first_fit size (total b1 + n) b2 with Some (q, b) => Some (q, (n, u) :: b) | None => None end) with
             | None => malloc_loop fuel (total b1 + n) size h = Ok (None, h)
             | Some (q, b2') => exists h', malloc_loop fuel (total b1 + n) size h = Ok (Some q, h') /\ holds_blocks h' (b1 ++ b2')
             end).
    { specialize (IH fuel (b1 ++ [(n, u)])). rewrite <- app_assoc in IH. specialize (IH Hh ltac:(lia)).
      rewrite total_snoc in IH. destruct (first_fit size (total b1 + n) b2) as [[q b2']|]; [|done].
      destruct IH as (h'&Hr&Hh'). exists h'. split; [done|]. by rewrite <- app_assoc in Hh'. }
    destruct u; cbn [Z.b2z negb andb Z.eqb]; [done|].
    destruct (Z.leb_spec size (n - 8)); [by apply take_block_ok|done].
Qed.

Lemma first_fit_used size p b1 b2 :
  forallb snd b1 = true ->
  first_fit size p (b1 ++ b2) =
    match first_fit size (p + total b1) b2 with Some (q, b) => Some (q, b1 ++ b) | None => None end.
Proof.
  revert p. induction b1 as [|[n []] b1 IH]; intros p; cbn [forallb snd andb]; try done.
  - intros _. cbn [app total]. rewrite Z.add_0_r. by destruct (first_fit _ _ _) as [[]|].
  - intros Hb. cbn [app first_fit negb andb total]. rewrite IH by done. rewrite Z.add_assoc.
    by destruct (first_fit _ _ _) as [[]|].
Qed.

Lemma lowest_split p bs :
  exists b1 b2, bs = b1 ++ b2 /\ forallb snd b1 = true /\ lowest p bs = p + total b1.
Proof.
  revert p. induction bs as [|[n []] bs IH]; intros p.
  - exists [], []. split_and!; try done. cbn. lia.
  - destruct (IH (p + n)) as (b1&b2&->&Hb&Hl). exists ((n, true) :: b1), b2. split_and!; try done. cbn [lowest total]. lia.
  - exists [], ((n, false) :: bs). split_and!; try done. cbn. lia.
Qed.

(** The data of a request, with the padding. *)
Lemma align_size n : LWIP_MEM_ALIGN_SIZE n = 4 * ((n + 3) / 4).
Proof.
  unfold LWIP_MEM_ALIGN_SIZE. rewrite <- Z.ldiff_land. change 3 with (Z.ones 2) at 2. rewrite Z.ldiff_ones_r by lia.
  rewrite Z.shiftl_mul_pow2, Z.shiftr_div_pow2 by lia. change (2 ^ 2) with 4. lia.
Qed.

Lemma data_size_ok n : 0 <= n < 65536 -> 12 <= data_size n /\ data_size n mod 4 = 0 /\ (data_size n < n <-> 65532 < n).
Proof.
  intros Hn. unfold data_size. rewrite align_size. change MIN_SIZE_ALIGNED with 12.
  pose proof (Z.div_mod (n + 3) 4 ltac:(lia)). pose proof (Z.mod_pos_bound (n + 3) 4 ltac:(lia)).
  destruct (Z_le_gt_dec n 65532) as [Hs|Hb].
  - rewrite wrap16_small by lia. destruct (Z.ltb_spec (4 * ((n + 3) / 4)) 12); [split_and!; try done; lia|].
    split; [done|]. split; [|lia]. rewrite Z.mul_comm. by apply Z_mod_mult.
  - assert ((n + 3) / 4 = 16384) as -> by lia. change (wrap16 (4 * 16384)) with 0. change (0 <? 12) with true. cbn iota. split_and!; try done; lia.
Qed.

Definition malloc_spec (n : Z) (bs : blocks) : option (Z * blocks) :=
  if (n =? 0) || (1600 <? data_size n) || (data_size n <? n) then None else first_fit (data_size n) 0 bs.

Lemma mem_malloc_ok h bs n :
  holds_blocks h bs -> 0 <= n < 65536 ->
  match malloc_spec n bs with
  | None => mem_malloc n h = Ok (None, h)
  | Some (q, bs') => exists h', mem_malloc n h = Ok (Some q, h') /\ holds_blocks h' bs'
  end.
Proof.
  intros Hh Hn. unfold malloc_spec, mem_malloc. change MEM_SIZE_ALIGNED with 1600.
  destruct (n =? 0); [done|]. cbn [orb]. destruct ((1600 <? data_size n) || (data_size n <? n)); [done|].
  destruct (lowest_split 0 bs) as (b1&b2&->&Hb&Hl). destruct (data_size_ok n Hn) as (Hd&Hm&_).
  rewrite first_fit_used by done. rewrite (hb_lfree _ _ Hh), Hl, Z.add_0_l.
  pose proof (malloc_loop_ok heap_fuel h b1 b2 (data_size n) Hh Hd Hm) as Hloop.
  assert (Hf : (length b2 < heap_fuel)%nat) by (apply seg_length in Hh; unfold heap_fuel; lia). specialize (Hloop Hf).
  by destruct (first_fit _ _ _) as [[q b2']|].
Qed.

(** ** Release *)

(** Free blocks in a row become one. *)
Fixpoint coalesce (bs : blocks) : blocks :=
  match bs with
  | [] => []
  | (n, true) :: bs => (n, true) :: coalesce bs
  | (n, false) :: bs =>
      match coalesce bs with
      | (m, false) :: bs' => (n + m, false) :: bs'
      | bs' => (n, false) :: bs'
      end
  end.

Lemma coalesce_parted bs : parted bs -> coalesce bs = bs.
Proof.
  induction bs as [|[n []] bs IH]; [done| |]; intros [Hh Hp]%parted_cons; cbn [coalesce]; rewrite IH by done; [done|].
  specialize (Hh eq_refl). by destruct bs as [|[m []] bs].
Qed.

Lemma coalesce_app b1 c :
  parted b1 -> (free_last b1 = true -> free_head (coalesce c) = false) -> coalesce (b1 ++ c) = b1 ++ coalesce c.
Proof.
  induction b1 as [|[n u] b1 IH]; [done|]. intros [Hh Hp]%parted_cons Hl. cbn [app].
  assert (Hl' : free_last b1 = true -> free_head (coalesce c) = false).
  { intros Hb. apply Hl. unfold free_last in *. destruct b1; [done|]. by cbn [last]. }
  cbn [coalesce]. rewrite IH by done. destruct u; [done|]. specialize (Hh eq_refl).
  destruct b1 as [|[m []] b1]; cbn [app]; [|done|done]. specialize (Hl eq_refl).
  by destruct (coalesce c) as [|[m []] c'].
Qed.

Lemma parted_coalesce bs : parted (coalesce bs).
Proof.
  induction bs as [|[n []] bs IH]; cbn [coalesce]; [done|by apply parted_cons|].
  destruct (coalesce bs) as [|[m []] bs']; [done|by apply parted_cons|].
  apply parted_cons in IH as [Hh Hp]. apply parted_cons. auto.
Qed.

Lemma merge_ok h b1 n n2 b2 :
  holds_blocks h (b1 ++ (n, false) :: (n2, false) :: b2) ->
  exists h', (let h := if lfree h =? total b1 + n then set_lfree (total b1) h else h in
              let* h := assign (total b1) (set_m_next (total b1 + n + n2)) h in
              link_back (total b1 + n + n2) (total b1) h) = Ok h' /\
    holds_blocks h' (b1 ++ (n + n2, false) :: b2).
Proof.
  intros Hh. destruct (at_block _ _ _ _ _ Hh) as (pv&ev&H1&Hp&Hn&Hm&(H2&Hn2&Hm2&H3)&H0&Hend&_).
  pose proof (lfree_block _ _ _ _ _ Hh) as Hlf. pose proof (lowest_before _ _ _ _ _ Hh) as Hbef. destruct Hh as [_ He _].
  cbn [lowest] in Hlf. set (p := total b1) in *. pose proof (seg_total _ _ _ _ _ _ H3) as (?&?&_).
  rewrite (proj2 (Z.eqb_neq (lfree h) (p + n))) by (destruct (forallb snd b1); [lia|specialize (Hbef eq_refl); lia]).
  unfold assign, ptr_to_mem. rewrite Hp. cbn [rbind set_m_next m_prev m_used]. cbn zeta.
  match goal with |- context [link_back _ _ ?x] => set (h1 := x) end.
  assert (He1 : ram h1 !! 1600 = Some (mk_mem 1600 1600 1)) by (cbn; by rewrite lookup_insert_ne by lia).
  assert (H3' : seg (ram h1) (p + n + n2) (p + n) b2 1600 ev) by (cbn; by apply seg_insert_out; [lia|]).
  destruct (link_back_ok h1 _ _ p _ _ H3' He1) as (h'&ev'&->&Hlf'&Hs2&Hk).
  exists h'. split; [done|]. apply (rebuild h' b1 _ pv ev').
  - apply (seg_frame (ram h)); [|done]. intros k Hk'. rewrite Hk by lia. cbn. by rewrite lookup_insert_ne by lia.
  - cbn [seg]. fold p. rewrite Hk by lia. cbn [h1 ram set_ram]. rewrite lookup_insert_eq, Z.add_assoc.
    split_and!; try done; [lia|]. rewrite Zplus_mod, Hm, Hm2. done.
  - by rewrite Hk by lia.
  - rewrite Hlf', lowest_app. cbn [h1 lfree set_ram]. by rewrite Hlf, Z.add_0_l.
Qed.

(** What a free block joins in front of it and behind it. *)
Lemma plug_forward h b1 n b2 :
  holds_blocks h (b1 ++ (n, false) :: b2) -> parted b2 ->
  exists h' n' b2', coalesce ((n, false) :: b2) = (n', false) :: b2' /\ holds_blocks h' (b1 ++ (n', false) :: b2') /\
    (let* m := ptr_to_mem h (total b1) in
     if total b1 =? m_next m then Ok h
     else
       let* m2 := ptr_to_mem h (m_next m) in
       if (m_used m2 =? 0) && negb (m_next m =? ram_end) then
         let h := if lfree h =? m_next m then set_lfree (total b1) h else h in
         let* h := assign (total b1) (set_m_next (m_next m2)) h in
         link_back (m_next m2) (total b1) h
       else Ok h) = Ok h'.
Proof.
  intros Hh Hp2. destruct (at_block _ _ _ _ _ Hh) as (pv&ev&H1&Hp&Hn&Hm&H2&H0&Hend&_).
  cbn [coalesce]. rewrite coalesce_parted by done. unfold ptr_to_mem at 1. rewrite Hp. cbn [rbind m_next].
  rewrite (proj2 (Z.eqb_neq _ _)) by lia. change ram_end with 1600.
  destruct b2 as [|[n2 u2] b2].
  - destruct H2 as [He2 _]. exists h, n, []. split_and!; try done. unfold ptr_to_mem. rewrite He2, (hb_end _ _ Hh). done.
  - pose proof H2 as (Hq&Hn2&_&H3). pose proof (seg_total _ _ _ _ _ _ H3) as (?&?&_).
    unfold ptr_to_mem at 1. rewrite Hq. cbn [rbind m_used m_next]. destruct u2; cbn [Z.b2z Z.eqb andb].
    + exists h, n, ((n2, true) :: b2). by split_and!.
    + rewrite (proj2 (Z.eqb_neq _ _)) by lia. cbn [negb].
      destruct (merge_ok _ _ _ _ _ Hh) as (h'&Hrun&Hh'). exists h', (n + n2), b2. split_and!; try done.
Qed.

Lemma free_last_snoc b1 : free_last b1 = true -> exists b0 n1, b1 = b0 ++ [(n1, false)].
Proof.
  unfold free_last. destruct (last b1) as [[n1 []]|] eqn:Hl; try done. intros _.
  apply last_Some in Hl as (b0&->). by exists b0, n1.
Qed.

Lemma plug_holes_ok h b1 n b2 :
  holds_blocks h (b1 ++ (n, false) :: b2) -> parted b1 -> parted b2 ->
  exists h', plug_holes (total b1) h = Ok h' /\ holds_blocks h' (coalesce (b1 ++ (n, false) :: b2)).
Proof.
  intros Hh Hp1 Hp2. destruct (plug_forward _ _ _ _ Hh Hp2) as (h1&n'&b2'&Hco&Hh1&Hrun).
  unfold plug_holes. revert Hrun. unfold ptr_to_mem at 1 3.
  destruct (at_block _ _ _ _ _ Hh) as (?&?&_&Hp&_). rewrite Hp. cbn [rbind]. intros ->. cbn [rbind]. clear Hp Hh.
  destruct (at_block _ _ _ _ _ Hh1) as (pv&ev&H1&Hp&Hn&Hm&H2&H0&Hend&_).
  unfold ptr_to_mem at 1. rewrite Hp. cbn [rbind m_prev m_next].
  destruct (free_last b1) eqn:Hfl.
  - destruct (free_last_snoc _ Hfl) as (b0&n1&->). rewrite total_snoc in *. rewrite <- app_assoc in Hh1. cbn [app] in Hh1.
    destruct (at_block _ _ _ _ _ Hh1) as (pv0&ev0&_&Hq&Hn1&_&(Hq2&_)&_).
    assert (pv = total b0) as -> by (rewrite Hp in Hq2; by simplify_eq).
    rewrite (proj2 (Z.eqb_neq _ _)) by lia. unfold ptr_to_mem at 1. rewrite Hq. cbn [rbind m_used Z.b2z Z.eqb].
    destruct (merge_ok _ _ _ _ _ Hh1) as (h'&Hrun&Hh'). exists h'. split; [exact Hrun|].
    apply parted_app in Hp1 as (Hp0&_&Hnf). rewrite <- app_assoc. cbn [app]. rewrite coalesce_app; [|done|].
    + cbn [coalesce] in *. by rewrite Hco.
    + intros Hf0. specialize (Hnf Hf0). done.
  - exists h1. split.
    + destruct b1 as [|b b0] using rev_ind; [destruct H1 as [_ <-]; by rewrite Z.eqb_refl|]. clear IHb0.
      destruct b as [n1 u1]. assert (u1 = true) as -> by (unfold free_last in Hfl; rewrite last_snoc in Hfl; by destruct u1).
      rewrite total_snoc in *. apply seg_app in H1 as (xv&_&(Hq&Hn1&_&[_ <-])). rewrite Z.add_0_l in *.
      rewrite (proj2 (Z.eqb_neq _ _)) by lia. unfold ptr_to_mem. rewrite Hq. done.
    + rewrite coalesce_app; [by rewrite Hco|done|by rewrite Hfl].
Qed.

(** The structure in front of the end of a segment. *)
Lemma seg_prev r b1 p pv :
  seg r 0 0 b1 p pv -> (b1 = [] /\ pv = 0 /\ p = 0) \/ exists x u, r !! pv = Some (mk_mem p x u) /\ 0 <= pv < p.
Proof.
  destruct b1 as [|[n u] b0 _] using rev_ind; [intros [<- <-]; by left|].
  intros (xv&H1&(Hq&Hn&_&[<- <-]))%seg_app. right. pose proof (seg_total _ _ _ _ _ _ H1). eexists _, _. split; [done|lia].
Qed.

Lemma link_valid_ok h b1 n u b2 :
  holds_blocks h (b1 ++ (n, u) :: b2) -> mem_link_valid (total b1) h = Ok true.
Proof.
  intros Hh. destruct (at_block _ _ _ _ _ Hh) as (pv&ev&H1&Hp&Hn&Hm&H2&H0&Hend&_).
  unfold mem_link_valid, ptr_to_mem. rewrite Hp. cbn [rbind m_next m_prev]. change MEM_SIZE_ALIGNED with 1600. change ram_end with 1600.
  rewrite (proj2 (Z.ltb_ge 1600 (total b1 + n))) by lia.
  assert (Hpv : (pv = total b1 \/ exists x u, ram h !! pv = Some (mk_mem (total b1) x u) /\ pv < total b1) /\ pv <= 1600).
  { destruct (seg_prev _ _ _ _ H1) as [(->&->&_)|(x&v&?&?)]; [split; [by left|lia]|]. split; [|lia]. right. exists x, v. split; [done|lia]. }
  destruct Hpv as [Hpv Hle]. rewrite (proj2 (Z.ltb_ge 1600 pv)) by lia. cbn [orb].
  replace (if pv =? total b1 then _ else _) with (Ok false : result bool).
  2:{ destruct Hpv as [->|(x&v&->&?)]; [by rewrite Z.eqb_refl|]. cbn [rbind m_next]. rewrite Z.eqb_refl. by destruct (_ =? _). }
  cbn [rbind]. destruct b2 as [|[n2 u2] b2].
  - destruct H2 as [-> _]. done.
  - destruct H2 as (Hq&Hn2&_&H3). pose proof (seg_total _ _ _ _ _ _ H3) as (?&?&_).
    rewrite (proj2 (Z.eqb_neq _ _)) by lia. rewrite Hq. cbn [rbind m_prev]. by rewrite Z.eqb_refl.
Qed.

(** A block in use is marked free. *)
Lemma mark_free_ok h b1 n b2 :
  holds_blocks h (b1 ++ (n, true) :: b2) ->
  exists h', assign (total b1) (set_m_used 0) h = Ok h' /\
    holds_blocks (if total b1 <? lfree h' then set_lfree (total b1) h' else h') (b1 ++ (n, false) :: b2).
Proof.
  intros Hh. destruct (at_block _ _ _ _ _ Hh) as (pv&ev&H1&Hp&Hn&Hm&H2&H0&Hend&_).
  pose proof (lfree_block _ _ _ _ _ Hh) as Hlf. pose proof (lowest_before _ _ _ _ _ Hh) as Hbef. destruct Hh as [_ He _].
  unfold assign, ptr_to_mem. rewrite Hp. cbn [rbind]. eexists. split; [done|]. cbn [lfree set_ram].
  assert (Hl : lfree (if total b1 <? lfree h then set_lfree (total b1) (set_ram (<[total b1 := mk_mem (total b1 + n) pv 0]> (ram h)) h)
                      else set_ram (<[total b1 := mk_mem (total b1 + n) pv 0]> (ram h)) h) = lowest 0 (b1 ++ (n, false) :: b2)).
  { rewrite lowest_app, Z.add_0_l. cbn [lowest]. destruct (forallb snd b1).
    - cbn [lowest] in Hlf. pose proof (lowest_bounds _ _ _ _ _ _ H2) as [? _]. rewrite (proj2 (Z.ltb_lt _ _)) by lia. done.
    - specialize (Hbef eq_refl). rewrite (proj2 (Z.ltb_ge _ _)) by lia. done. }
  apply (rebuild _ b1 _ pv ev); [..|exact Hl]; destruct (total b1 <? lfree h); cbn [ram set_ram set_lfree set_m_used m_next m_prev];
    try (apply seg_insert_out; [lia|done]); try (by rewrite lookup_insert_ne by lia);
    cbn [seg]; rewrite lookup_insert_eq; (split_and!; try done); by apply seg_insert_out; [lia|].
Qed.

Lemma mem_free_ok h b1 n b2 :
  holds_blocks h (b1 ++ (n, true) :: b2) -> parted (b1 ++ (n, true) :: b2) ->
  exists h', mem_free (Some (total b1 + 8)) h = Ok h' /\ holds_blocks h' (coalesce (b1 ++ (n, false) :: b2)).
Proof.
  intros Hh (Hp1&[_ Hp2]%parted_cons&_)%parted_app. destruct (at_block _ _ _ _ _ Hh) as (pv&ev&H1&Hp&Hn&Hm&H2&H0&Hend&Hpm).
  unfold mem_free. change 3 with (Z.ones 2). rewrite Z.land_ones by lia. change (2 ^ 2) with 4.
  rewrite Zplus_mod, Hpm. change SIZEOF_STRUCT_MEM with 8. change MIN_SIZE_ALIGNED with 12. change ram_end with 1600.
  cbn [Z.eqb negb Z.modulo Z.add]. replace (total b1 + 8 - 8) with (total b1) by lia.
  rewrite (proj2 (Z.ltb_ge _ 0)), (proj2 (Z.ltb_ge 1600 _)) by lia. cbn [orb].
  unfold ptr_to_mem. rewrite Hp. cbn [rbind m_used Z.b2z Z.eqb]. rewrite (link_valid_ok _ _ _ _ _ Hh). cbn [rbind negb].
  destruct (mark_free_ok _ _ _ _ Hh) as (h1&->&Hh1). cbn [rbind]. by apply plug_holes_ok.
Qed.

(** ** Trimming *)

(** The blocks from a used one of size [n] on after its data is cut to [ns]. *)
Definition shrink (ns n : Z) (b2 : blocks) : blocks :=
  if ns =? n - 8 then (n, true) :: b2
  else match b2 with
       | (n2, false) :: b2' => (ns + 8, true) :: (n - 8 - ns + n2, false) :: b2'
       | _ => if ns + 20 <=? n - 8 then (ns + 8, true) :: (n - 8 - ns, false) :: b2 else (n, true) :: b2
       end.

Lemma parted_shrink b1 ns n b2 : parted (b1 ++ (n, true) :: b2) -> parted (b1 ++ shrink ns n b2).
Proof.
  intros (P1&[_ P2]%parted_cons&_)%parted_app. unfold shrink. destruct (ns =? n - 8).
  { apply parted_app. split_and!; [done|by apply parted_cons|done]. }
  destruct b2 as [|[n2 []] b2]; [|apply parted_cons in P2 as P2'|apply parted_cons in P2 as [Hh P2']; specialize (Hh eq_refl)];
    repeat case_match; apply parted_app; (split_and!; [done| |done]); rewrite ?parted_cons; naive_solver.
Qed.

(** A free block from [ptr2] to [q] behind the used block at [total b1]. *)
Lemma insert_free_ok h b1 nx pv q x b2 ev ptr2 :
  seg (ram h) 0 0 b1 (total b1) pv -> ram h !! total b1 = Some (mk_mem nx pv 1) ->
  seg (ram h) q x b2 1600 ev -> ram h !! 1600 = Some (mk_mem 1600 1600 1) ->
  total b1 + 20 <= ptr2 -> ptr2 + 20 <= q -> (ptr2 - total b1) mod 4 = 0 -> (q - ptr2) mod 4 = 0 ->
  lfree h = lowest 0 (b1 ++ (ptr2 - total b1, true) :: (q - ptr2, false) :: b2) ->
  exists h', (let h := create ptr2 (mk_mem q (total b1) 0) h in
              let* h := assign (total b1) (set_m_next ptr2) h in link_back q ptr2 h) = Ok h' /\
    holds_blocks h' (b1 ++ (ptr2 - total b1, true) :: (q - ptr2, false) :: b2).
Proof.
  intros H1 Hp H2 He Hlo Hhi Hm1 Hm2 Hlf. pose proof (seg_total _ _ _ _ _ _ H1) as (_&?&_).
  pose proof (seg_total _ _ _ _ _ _ H2) as (?&?&_). set (p := total b1) in *.
  unfold create, assign, ptr_to_mem. cbn [ram set_ram]. rewrite lookup_insert_ne by lia. rewrite Hp. cbn zeta. cbn [rbind].
  match goal with |- context [link_back _ _ ?y] => set (h1 := y) end.
  assert (He1 : ram h1 !! 1600 = Some (mk_mem 1600 1600 1)) by (cbn; by rewrite !lookup_insert_ne by lia).
  assert (H2' : seg (ram h1) q x b2 1600 ev) by (cbn; by repeat apply seg_insert_out; try lia).
  destruct (link_back_ok h1 q x ptr2 b2 ev H2' He1) as (h'&ev'&->&Hlf'&Hs2&Hk).
  exists h'. split; [done|]. apply (rebuild h' b1 _ pv ev').
  - apply (seg_frame (ram h)); [|done]. intros k Hk'. rewrite Hk by lia. cbn. by rewrite !lookup_insert_ne by lia.
  - cbn [seg]. fold p. replace (p + (ptr2 - p)) with ptr2 by lia. replace (ptr2 + (q - ptr2)) with q by lia.
    rewrite !Hk by lia. subst h1. cbn [ram set_ram set_m_next m_prev m_used].
    split_and!; try done; try lia; [by rewrite lookup_insert_eq|]. by rewrite lookup_insert_ne, lookup_insert_eq by lia.
  - by rewrite Hk by lia.
  - by rewrite Hlf'.
Qed.

Lemma mod4_cut n ns : n mod 4 = 0 -> ns mod 4 = 0 -> (n - 8 - ns) mod 4 = 0.
Proof. intros Hn Hs. replace (n - 8 - ns) with (n - (8 + ns)) by lia. by rewrite Zminus_mod, Hn, (Zplus_mod 8), Hs. Qed.

(** The free block behind the trimmed one grows to the front. *)
Lemma trim_move_ok h b1 n n2 b2 ns :
  holds_blocks h (b1 ++ (n, true) :: (n2, false) :: b2) -> 12 <= ns -> ns mod 4 = 0 -> ns < n - 8 ->
  exists h', (let h := if lfree h =? total b1 + n then set_lfree (total b1 + 8 + ns) h else h in
              let h := create (total b1 + 8 + ns) (mk_mem (total b1 + n + n2) (total b1) 0) h in
              let* h := assign (total b1) (set_m_next (total b1 + 8 + ns)) h in
              link_back (total b1 + n + n2) (total b1 + 8 + ns) h) = Ok h' /\
    holds_blocks h' (b1 ++ (ns + 8, true) :: (n - 8 - ns + n2, false) :: b2).
Proof.
  intros Hh Hd Hdm Hlt. destruct (at_block _ _ _ _ _ Hh) as (pv&ev&H1&Hp&Hn&Hm&(_&Hn2&Hm2&H3)&H0&Hend&_).
  pose proof (lfree_block _ _ _ _ _ Hh) as Hlf. pose proof (lowest_before _ _ _ _ _ Hh) as Hbef. destruct Hh as [_ He _].
  cbn [lowest] in Hlf. replace (ns + 8) with (total b1 + 8 + ns - total b1) by lia.
  replace (n - 8 - ns + n2) with (total b1 + n + n2 - (total b1 + 8 + ns)) by lia.
  set (h0 := if lfree h =? total b1 + n then _ else h).
  assert (Hr : ram h0 = ram h) by (unfold h0; by destruct (_ =? _)).
  apply (insert_free_ok h0 b1 (total b1 + n) pv _ (total b1 + n) b2 ev); rewrite ?Hr; try done; try lia.
  - replace (total b1 + 8 + ns - total b1) with (8 + ns) by lia. by rewrite Zplus_mod, Hdm.
  - replace (total b1 + n + n2 - (total b1 + 8 + ns)) with (n - 8 - ns + n2) by lia.
    by rewrite Zplus_mod, mod4_cut, Hm2.
  - unfold h0. rewrite lowest_app, Z.add_0_l. cbn [lowest]. destruct (forallb snd b1).
    + rewrite Hlf, Z.eqb_refl. cbn [lfree set_lfree]. lia.
    + specialize (Hbef eq_refl). rewrite (proj2 (Z.eqb_neq _ _)) by lia. done.
Qed.

(** A new free block between the trimmed one and a used one. *)
Lemma trim_split_ok h b1 n b2 ns :
  holds_blocks h (b1 ++ (n, true) :: b2) -> 12 <= ns -> ns mod 4 = 0 -> ns + 20 <= n - 8 ->
  exists h', (let h := if total b1 + 8 + ns <? lfree h then set_lfree (total b1 + 8 + ns) h else h in
              let h := create (total b1 + 8 + ns) (mk_mem (total b1 + n) (total b1) 0) h in
              let* h := assign (total b1) (set_m_next (total b1 + 8 + ns)) h in
              link_back (total b1 + n) (total b1 + 8 + ns) h) = Ok h' /\
    holds_blocks h' (b1 ++ (ns + 8, true) :: (n - 8 - ns, false) :: b2).
Proof.
  intros Hh Hd Hdm Hlt. destruct (at_block _ _ _ _ _ Hh) as (pv&ev&H1&Hp&Hn&Hm&H2&H0&Hend&_).
  pose proof (lfree_block _ _ _ _ _ Hh) as Hlf. pose proof (lowest_before _ _ _ _ _ Hh) as Hbef. destruct Hh as [_ He _].
  cbn [lowest] in Hlf. replace (ns + 8) with (total b1 + 8 + ns - total b1) by lia.
  replace (n - 8 - ns) with (total b1 + n - (total b1 + 8 + ns)) by lia.
  set (h0 := if _ <? lfree h then _ else h).
  assert (Hr : ram h0 = ram h) by (unfold h0; by destruct (_ <? _)).
  apply (insert_free_ok h0 b1 (total b1 + n) pv _ (total b1) b2 ev); rewrite ?Hr; try done; try lia.
  - replace (total b1 + 8 + ns - total b1) with (8 + ns) by lia. by rewrite Zplus_mod, Hdm.
  - replace (total b1 + n - (total b1 + 8 + ns)) with (n - 8 - ns) by lia. by apply mod4_cut.
  - unfold h0. rewrite lowest_app, Z.add_0_l. cbn [lowest]. destruct (forallb snd b1).
    + pose proof (lowest_bounds _ _ _ _ _ _ H2) as [? _]. rewrite (proj2 (Z.ltb_lt _ _)) by lia. cbn [lfree set_lfree]. lia.
    + specialize (Hbef eq_refl). rewrite (proj2 (Z.ltb_ge _ _)) by lia. done.
Qed.

Lemma ptr_to_mem_ok h p m : ram h !! p = Some m -> ptr_to_mem h p = Ok m.
Proof. unfold ptr_to_mem. by intros ->. Qed.

(** The two writes of a trim, and the pointer that is returned. *)
Lemma then_some h p f q v h' (r : option Z) :
  (let* h := assign p f h in link_back q v h) = Ok h' ->
  (let* h := assign p f h in let* h := link_back q v h in Ok (r, h)) = Ok (r, h').
Proof. destruct (assign p f h) as [h1|]; cbn [rbind]; [by intros ->|done]. Qed.

Lemma mem_trim_ok h b1 n b2 new :
  holds_blocks h (b1 ++ (n, true) :: b2) -> 0 <= new < 65536 ->
  if (1600 <? data_size new) || (data_size new <? new) || (n - 8 <? data_size new)
  then mem_trim (total b1 + 8) new h = Ok (None, h)
  else exists h', mem_trim (total b1 + 8) new h = Ok (Some (total b1 + 8), h') /\
         holds_blocks h' (b1 ++ shrink (data_size new) n b2).
Proof.
  intros Hh Hnew. destruct (at_block _ _ _ _ _ Hh) as (pv&ev&H1&Hp&Hn&Hm&H2&H0&Hend&_).
  destruct (data_size_ok new Hnew) as (Hd&Hdm&_). unfold mem_trim. set (ns := data_size new) in *.
  change MEM_SIZE_ALIGNED with 1600. change SIZEOF_STRUCT_MEM with 8. change MIN_SIZE_ALIGNED with 12. change ram_end with 1600.
  destruct ((1600 <? ns) || (ns <? new)); [done|]. cbn [orb].
  rewrite (proj2 (Z.ltb_ge _ 0)), (proj2 (Z.leb_gt 1600 _)) by lia. cbn [orb].
  replace (total b1 + 8 - 8) with (total b1) by lia. rewrite (ptr_to_mem_ok _ _ _ Hp). cbn [rbind m_next].
  replace (total b1 + n - total b1) with n by lia. rewrite (wrap16_small n), (wrap16_small (n - 8)) by lia.
  destruct (Z.ltb_spec (n - 8) ns) as [|Hle]; [done|]. unfold shrink.
  destruct (Z.eqb_spec ns (n - 8)) as [|Hne]; [by exists h|]. rewrite wrap16_small by lia.
  replace (ns + 8 + 12) with (ns + 20) by lia.
  destruct b2 as [|[n2 []] b2].
  - destruct H2 as [He2 _]. rewrite (ptr_to_mem_ok _ (total b1 + n) (mk_mem 1600 1600 1)) by (rewrite He2; apply (hb_end _ _ Hh)). cbn [rbind m_used Z.eqb].
    destruct (Z.leb_spec (ns + 20) (n - 8)); [|by exists h].
    destruct (trim_split_ok _ _ _ _ ns Hh) as (h'&Hrun&Hh'); try done. exists h'. split; [|done].
    apply then_some. exact Hrun.
  - destruct H2 as (Hq&_). rewrite (ptr_to_mem_ok _ _ _ Hq). cbn [rbind m_used Z.b2z Z.eqb].
    destruct (Z.leb_spec (ns + 20) (n - 8)); [|by exists h].
    destruct (trim_split_ok _ _ _ _ ns Hh) as (h'&Hrun&Hh'); try done. exists h'. split; [|done].
    apply then_some. exact Hrun.
  - destruct H2 as (Hq&_). rewrite (ptr_to_mem_ok _ _ _ Hq). cbn [rbind m_used m_next Z.b2z Z.eqb].
    destruct (trim_move_ok _ _ _ _ _ ns Hh) as (h'&Hrun&Hh'); try done; [lia|]. exists h'. split; [|done].
    apply then_some. exact Hrun.
Qed.
