(* ===== verification/LwipHeapRun.v ===== *)
(** * Users of the heap

    Sequences of allocations, releases and trims on the heap of
    [src/lib/lwip/src/core/mem.c], and what its users may rely on. *)

From stdpp Require Import base numbers list decidable gmap.
From Stdlib Require Import ZArith Lia Bool.
From S2P Require Import Prelude LwipMem LwipHeap.
Open Scope Z_scope.
Import Mem.

(** ** Blocks in use *)

(** The pointers to the blocks in use and the sizes of their data. *)
Fixpoint used_at (p : Z) (bs : blocks) : list (Z * Z) :=
  match bs with
  | [] => []
  | (n, u) :: bs => (if u : bool then [(p + 8, n - 8)] else []) ++ used_at (p + n) bs
  end.

Lemma used_at_app p b1 b2 : used_at p (b1 ++ b2) = used_at p b1 ++ used_at (p + total b1) b2.
Proof.
  revert p. induction b1 as [|[n u] b1 IH]; intros p; cbn [app used_at total]; [by rewrite Z.add_0_r|].
  by rewrite IH, <- app_assoc, Z.add_assoc.
Qed.

Lemma used_at_in p bs q d :
  (q, d) ∈ used_at p bs -> exists b1 n b2, bs = b1 ++ (n, true) :: b2 /\ q = p + total b1 + 8 /\ d = n - 8.
Proof.
  revert p. induction bs as [|[n u] bs IH]; intros p; [set_solver|]. cbn [used_at]. intros [Hu|Hin]%elem_of_app.
  - destruct u; [|set_solver]. apply list_elem_of_singleton in Hu. simplify_eq. exists [], n, bs. cbn. split_and!; [done|lia|done].
  - destruct (IH _ Hin) as (b1&m&b2&->&->&->). exists ((n, u) :: b1), m, b2. cbn. split_and!; [done|lia|done].
Qed.

Lemma used_at_coalesce p bs : used_at p (coalesce bs) = used_at p bs.
Proof.
  revert p. induction bs as [|[n []] bs IH]; intros p; cbn [coalesce used_at app]; [done|by rewrite IH|].
  rewrite <- IH. destruct (coalesce bs) as [|[m []] bs']; cbn [used_at app]; try done. by rewrite Z.add_assoc.
Qed.

(** The blocks in use lie one behind the other. *)
Lemma used_at_bounds r p pv bs e ev q d :
  seg r p pv bs e ev -> (q, d) ∈ used_at p bs -> p + 8 <= q /\ 12 <= d /\ q + d <= e /\ (p mod 4 = 0 -> q mod 4 = 0).
Proof.
  intros Hs (b1&n&b2&->&->&->)%used_at_in. apply seg_app in Hs as (xv&H1&(_&Hn&_&H2)).
  pose proof (seg_total _ _ _ _ _ _ H1) as (_&?&Hm). pose proof (seg_total _ _ _ _ _ _ H2).
  split_and!; try lia. intros Hp. rewrite Zplus_mod, (Zplus_mod p), Hp, Hm. done.
Qed.

Definition apart (x y : Z * Z) : Prop := x.1 + x.2 <= y.1 \/ y.1 + y.2 <= x.1.

Lemma used_at_apart r p pv bs e ev x y :
  seg r p pv bs e ev -> x ∈ used_at p bs -> y ∈ used_at p bs -> x = y \/ apart x y.
Proof.
  revert p pv. induction bs as [|[n u] bs IH]; intros p pv Hs; cbn [used_at]; [set_solver|]. destruct Hs as (_&Hn&_&Hs).
  assert (Hb : forall z, z ∈ used_at (p + n) bs -> p + n <= z.1).
  { intros [q d] Hz. destruct (used_at_bounds _ _ _ _ _ _ _ _ Hs Hz) as (?&_). cbn. lia. }
  destruct u; cbn [app]; [|by apply (IH (p + n) p)].
  intros [->|Hx]%elem_of_cons [->|Hy]%elem_of_cons; [by left| | |by apply (IH (p + n) p)].
  - right. left. cbn. specialize (Hb _ Hy). lia.
  - right. right. cbn. specialize (Hb _ Hx). lia.
Qed.

(** ** The effect of the operations on the blocks in use *)

Lemma first_fit_split size p bs q bs' :
  first_fit size p bs = Some (q, bs') ->
  exists b1 n b2, bs = b1 ++ (n, false) :: b2 /\ bs' = b1 ++ cut size n ++ b2 /\ q = p + total b1 + 8 /\ size <= n - 8 /\
    Forall (fun b => b.2 = false -> b.1 - 8 < size) b1.
Proof.
  revert p bs'. induction bs as [|[n u] bs IH]; intros p bs'; cbn [first_fit]; [done|].
  destruct u; cbn [negb andb].
  2: destruct (Z.leb_spec size (n - 8)) as [Hle|Hgt].
  2:{ intros [= <- <-]. exists [], n, bs. split_and!; try done; cbn; lia. }
  all: destruct (first_fit size (p + n) bs) as [[q' b']|] eqn:Hf; [|done]; intros [= <- <-];
    destruct (IH _ _ Hf) as (b1&m&b2&->&->&->&Hs&Hall); eexists (_ :: b1), m, b2;
    (split_and!; [done|done|cbn; lia|done|]); constructor; [cbn; naive_solver lia|done].
Qed.

Lemma first_fit_none size p bs : first_fit size p bs = None -> Forall (fun b => b.2 = false -> b.1 - 8 < size) bs.
Proof.
  revert p. induction bs as [|[n u] bs IH]; intros p; cbn [first_fit]; [constructor|].
  destruct u; cbn [negb andb]; [|destruct (Z.leb_spec size (n - 8)); [done|]];
    (destruct (first_fit size (p + n) bs) as [[]|] eqn:Hf; [done|]); intros _; (constructor; [cbn; naive_solver lia|by eapply IH]).
Qed.

Lemma used_at_cut p b1 n b2 size :
  size <= n - 8 ->
  exists d, size <= d /\
    used_at p (b1 ++ cut size n ++ b2) ≡ₚ (p + total b1 + 8, d) :: used_at p (b1 ++ (n, false) :: b2).
Proof.
  intros Hle. rewrite !used_at_app. cbn [used_at app]. unfold cut. destruct (_ <=? _); cbn [app used_at total].
  - exists size. split; [done|]. replace (size + 8 - 8) with size by lia.
    replace (p + total b1 + (size + 8 + (n - 8 - size + 0))) with (p + total b1 + n) by lia. solve_Permutation.
  - exists (n - 8). split; [done|]. replace (p + total b1 + (n + 0)) with (p + total b1 + n) by lia. solve_Permutation.
Qed.

Lemma used_at_shrink p b1 n b2 ns :
  ns <= n - 8 ->
  exists d, ns <= d <= n - 8 /\ (ns = d \/ d = n - 8) /\
    used_at p (b1 ++ shrink ns n b2) = used_at p b1 ++ (p + total b1 + 8, d) :: used_at (p + total b1 + n) b2.
Proof.
  intros Hle. rewrite used_at_app. unfold shrink. destruct (Z.eqb_spec ns (n - 8)).
  { exists (n - 8). split_and!; try lia. done. }
  assert (Hcut : forall b2, used_at (p + total b1) ((ns + 8, true) :: (n - 8 - ns, false) :: b2) =
                 (p + total b1 + 8, ns) :: used_at (p + total b1 + n) b2).
  { intros b. cbn [used_at app]. f_equal; [f_equal; lia|]. f_equal. lia. }
  destruct b2 as [|[n2 []] b2]; [destruct (_ <=? _)|destruct (_ <=? _)|].
  1,3: exists ns; split_and!; try lia; by rewrite Hcut.
  1,2: exists (n - 8); split_and!; try lia; done.
  exists ns. split_and!; try lia. f_equal. cbn [used_at app]. f_equal; [f_equal; lia|]. f_equal. lia.
Qed.

(** ** Runs *)

(** The user of the heap knows the pointers it was given and has not given
    back, each with the size it asked for. *)
Inductive heap_op : Type :=
| OpMalloc (n : Z)
| OpFree (i : nat)
| OpTrim (i : nat) (n : Z).

Definition op_ok (op : heap_op) : Prop :=
  match op with OpMalloc n | OpTrim _ n => 0 <= n < 65536 | OpFree _ => True end.

Record user : Type := mk_user {
  u_heap : heap;
  u_live : list (Z * Z)
}.

Definition heap_step (op : heap_op) (c : user) : result user :=
  match op with
  | OpMalloc n =>
      let* (p, h) := mem_malloc n (u_heap c) in
      Ok (mk_user h (match p with Some q => u_live c ++ [(q, n)] | None => u_live c end))
  | OpFree i =>
      match u_live c !! i with
      | Some (q, _) => let* h := mem_free (Some q) (u_heap c) in Ok (mk_user h (delete i (u_live c)))
      | None => let* h := mem_free None (u_heap c) in Ok (mk_user h (u_live c))
      end
  | OpTrim i n =>
      match u_live c !! i with
      | Some (q, r) =>
          let* (p, h) := mem_trim q n (u_heap c) in
          Ok (mk_user h (match p with Some _ => <[i := (q, Z.min r n)]> (u_live c) | None => u_live c end))
      | None => Ok c
      end
  end.

Fixpoint heap_run (ops : list heap_op) (c : user) : result user :=
  match ops with
  | [] => Ok c
  | op :: ops => let* c := heap_step op c in heap_run ops c
  end.

(** What is in use is what the user has, with room for what was asked for. *)
Record heap_inv (c : user) (bs : blocks) : Prop := {
  hi_blocks : holds_blocks (u_heap c) bs;
  hi_parted : parted bs;
  hi_live : (u_live c).*1 ≡ₚ (used_at 0 bs).*1;
  hi_room : forall q r, (q, r) ∈ u_live c -> exists d, (q, d) ∈ used_at 0 bs /\ r <= d
}.

Lemma heap_inv_init : heap_inv (mk_user mem_init []) [(1600, false)].
Proof.
  split; [|done|done|set_solver]. split; [|done|done]. exists 0. cbn [seg].
  change (ram mem_init !! 0) with (Some (mk_mem 1600 0 0)). by split_and!.
Qed.

Lemma used_nodup r bs ev : seg r 0 0 bs 1600 ev -> NoDup (used_at 0 bs).*1.
Proof.
  intros Hs. assert (Hgen : forall p pv, seg r p pv bs 1600 ev -> NoDup (used_at p bs).*1); [|by eapply Hgen].
  clear Hs. induction bs as [|[n u] bs IH]; intros p pv Hs; cbn [used_at]; [constructor|]. destruct Hs as (_&Hn&_&Hs).
  destruct u; cbn [app fmap list_fmap]; [|by eapply IH]. constructor; [|by eapply IH].
  intros ([q d]&Hq&Hin)%list_elem_of_fmap. cbn in Hq. destruct (used_at_bounds _ _ _ _ _ _ _ _ Hs Hin) as (?&_). lia.
Qed.

Lemma step_malloc c bs n :
  heap_inv c bs -> 0 <= n < 65536 -> exists c' bs', heap_step (OpMalloc n) c = Ok c' /\ heap_inv c' bs'.
Proof.
  intros [Hh Hp Hl Hr] Hn. pose proof (mem_malloc_ok (u_heap c) bs n Hh Hn) as Hm. cbn [heap_step].
  destruct (malloc_spec n bs) as [[q bs']|] eqn:Hspec.
  2:{ rewrite Hm. cbn [rbind]. exists c, bs. destruct c. by split_and!. }
  destruct Hm as (h'&->&Hh'). cbn [rbind]. eexists _, bs'. split; [done|].
  unfold malloc_spec in Hspec. destruct (_ || _) eqn:Hcond; [done|].
  apply orb_false_iff in Hcond as [_ Hlt%Z.ltb_ge].
  destruct (first_fit_split _ _ _ _ _ Hspec) as (b1&m&b2&->&->&->&Hs&_).
  destruct (used_at_cut 0 b1 m b2 (data_size n) Hs) as (d&Hd&Hperm).
  split; cbn [u_heap u_live]; [done|by apply parted_cut| |].
  - rewrite Hperm, fmap_app, Hl. cbn. by rewrite Permutation_app_comm.
  - intros q r [Hq|Hq]%elem_of_app.
    + destruct (Hr _ _ Hq) as (d'&Hd'&?). exists d'. split; [|done]. rewrite Hperm. by right.
    + apply list_elem_of_singleton in Hq. simplify_eq. exists d. split; [|lia]. rewrite Hperm. by left.
Qed.

(** A pointer of the user's is a block in use. *)
Lemma live_block c bs i q r :
  heap_inv c bs -> u_live c !! i = Some (q, r) ->
  exists b1 n b2, bs = b1 ++ (n, true) :: b2 /\ q = total b1 + 8 /\ r <= n - 8.
Proof.
  intros [Hh Hp Hl Hr] Hi. apply list_elem_of_lookup_2, Hr in Hi as (d&Hin&Hle).
  destruct (used_at_in _ _ _ _ Hin) as (b1&n&b2&->&->&->). exists b1, n, b2. split_and!; [done|lia|done].
Qed.

Lemma live_nodup c bs : heap_inv c bs -> NoDup (u_live c).*1.
Proof. intros [[(ev&Hs) _ _] Hp Hl Hr]. rewrite Hl. by eapply used_nodup. Qed.

Lemma step_free c bs i : heap_inv c bs -> exists c' bs', heap_step (OpFree i) c = Ok c' /\ heap_inv c' bs'.
Proof.
  intros Hc. cbn [heap_step]. destruct (u_live c !! i) as [[q r]|] eqn:Hi.
  2:{ cbn. exists c, bs. by destruct c. }
  pose proof (live_nodup _ _ Hc) as Hnd. destruct (live_block _ _ _ _ _ Hc Hi) as (b1&n&b2&->&->&Hle).
  destruct Hc as [Hh Hp Hl Hr]. destruct (mem_free_ok _ _ _ _ Hh Hp) as (h'&->&Hh'). cbn [rbind].
  eexists _, _. split; [done|]. split; cbn [u_heap u_live]; [done|apply parted_coalesce| |].
  all: rewrite used_at_coalesce, used_at_app; cbn [used_at app]; rewrite Z.add_0_l in *.
  all: rewrite used_at_app in Hl, Hr; cbn [used_at app] in Hl, Hr; rewrite Z.add_0_l in *.
  - rewrite list_fmap_delete. apply (Permutation_cons_inv (a := total b1 + 8)).
    rewrite <- (delete_Permutation (u_live c).*1 i) by (by rewrite list_lookup_fmap, Hi).
    rewrite Hl, !fmap_app. cbn. by rewrite Permutation_middle.
  - intros q' r' Hq. assert (Hne : q' <> total b1 + 8).
    { intros ->. rewrite (delete_Permutation (u_live c).*1 i (total b1 + 8)) in Hnd by (by rewrite list_lookup_fmap, Hi).
      apply NoDup_cons in Hnd as [Hnd _]. apply Hnd. rewrite <- list_fmap_delete.
      apply list_elem_of_fmap. exists (total b1 + 8, r'). by split. }
    destruct (Hr q' r') as (d&[Hin|[Hin|Hin]%elem_of_cons]%elem_of_app&?); [by eapply list_elem_of_delete_inv|exists d; set_solver|by simplify_eq|exists d; set_solver].
Qed.

Lemma step_trim c bs i n :
  heap_inv c bs -> 0 <= n < 65536 -> exists c' bs', heap_step (OpTrim i n) c = Ok c' /\ heap_inv c' bs'.
Proof.
  intros Hc Hn. cbn [heap_step]. destruct (u_live c !! i) as [[q r]|] eqn:Hi; [|by exists c, bs].
  pose proof (live_nodup _ _ Hc) as Hnd. destruct (live_block _ _ _ _ _ Hc Hi) as (b1&m&b2&->&->&Hle).
  destruct Hc as [Hh Hp Hl Hr]. pose proof (mem_trim_ok _ _ _ _ _ Hh Hn) as Ht.
  destruct (_ || _) eqn:Hcond in Ht.
  { rewrite Ht. cbn [rbind]. exists c, (b1 ++ (m, true) :: b2). destruct c. by split_and!. }
  destruct Ht as (h'&->&Hh'). cbn [rbind]. apply orb_false_iff in Hcond as [[_ Hlo%Z.ltb_ge]%orb_false_iff Hfit%Z.ltb_ge].
  destruct (used_at_shrink 0 b1 m b2 (data_size n) Hfit) as (d&Hd&Hcases&Hu).
  eexists _, _. split; [done|]. split; cbn [u_heap u_live]; [done|by apply parted_shrink| |].
  all: rewrite Hu; rewrite used_at_app in Hl, Hr; cbn [used_at app] in Hl, Hr.
  - rewrite list_fmap_insert. cbn [fst]. rewrite list_insert_id by (by rewrite list_lookup_fmap, Hi).
    rewrite Hl, !fmap_app. done.
  - intros q' r' Hq. apply list_elem_of_lookup_1 in Hq as [j Hj]. destruct (decide (i = j)) as [<-|Hne].
    + rewrite list_lookup_insert_eq in Hj by (by eapply lookup_lt_Some). simplify_eq. exists d.
      split; [rewrite Z.add_0_l; set_solver|lia].
    + rewrite list_lookup_insert_ne in Hj by done.
      assert (Hqne : q' <> total b1 + 8).
      { intros ->. apply Hne. eapply (NoDup_lookup (u_live c).*1); [done| |]; rewrite list_lookup_fmap; [by rewrite Hi|by rewrite Hj]. }
      apply list_elem_of_lookup_2 in Hj. destruct (Hr _ _ Hj) as (d'&[Hin|[Hin|Hin]%elem_of_cons]%elem_of_app&?);
        [exists d'; set_solver|exfalso; simplify_eq; lia|exists d'; set_solver].
Qed.

Lemma heap_run_inv ops c bs :
  heap_inv c bs -> Forall op_ok ops -> exists c' bs', heap_run ops c = Ok c' /\ heap_inv c' bs'.
Proof.
  revert c bs. induction ops as [|op ops IH]; intros c bs Hc Hops; cbn [heap_run]; [by exists c, bs|].
  inversion_clear Hops as [|? ? Hop Hops'].
  assert (Hstep : exists c1 bs1, heap_step op c = Ok c1 /\ heap_inv c1 bs1).
  { destruct op; [by eapply step_malloc|by eapply step_free|by eapply step_trim]. }
  destruct Hstep as (c1&bs1&->&Hc1). cbn [rbind]. by eapply IH.
Qed.

(** Free blocks only, and no two in a row: one block. *)
Lemma all_free bs r p pv e ev : parted bs -> used_at p bs = [] -> seg r p pv bs e ev -> p < e -> bs = [(e - p, false)].
Proof.
  intros Hp Hu Hs Hlt. destruct bs as [|[n []] bs]; cbn in Hu; [destruct Hs; lia|done|].
  apply parted_cons in Hp as [Hh _]. specialize (Hh eq_refl).
  destruct bs as [|[m []] bs]; cbn in Hh; [|done|done]. destruct Hs as (_&_&_&[<- _]). f_equal. f_equal. lia.
Qed.

(** C23. The heap serves its users.  Over every sequence of allocations of any
    size, releases and trims of pointers it has handed out, no operation
    faults or runs out of rounds; the blocks in use are aligned, inside the heap
    with room for what was asked for, and disjoint; and once everything is given
    back the heap is a single free block again.  The runs include those that trim
    the last block of the heap (see [trim_last_block]): there the assertion
    "invalid next ptr" at mem.c:790 is false, which says that such a trim does not
    happen; assertions have no effect in this program (cc.h:73), and what the
    code does after it is right. *)
Theorem heap_serves_users ops :
  Forall op_ok ops ->
  exists c, heap_run ops (mk_user mem_init []) = Ok c /\
    (forall q r, (q, r) ∈ u_live c -> q mod 4 = 0 /\ SIZEOF_STRUCT_MEM <= q /\ q + r <= MEM_SIZE_ALIGNED) /\
    (forall i j x y, u_live c !! i = Some x -> u_live c !! j = Some y -> i <> j -> apart x y) /\
    (u_live c = [] -> ram (u_heap c) !! 0 = Some (mk_mem MEM_SIZE_ALIGNED 0 0) /\ lfree (u_heap c) = 0).
Proof.
  intros Hops. destruct (heap_run_inv ops _ _ heap_inv_init Hops) as (c&bs&Hrun&Hc). exists c. split; [done|].
  pose proof (live_nodup _ _ Hc) as Hnd. destruct Hc as [[(ev&Hs) He Hlf] Hp Hl Hr]. split_and!.
  - intros q r Hq. destruct (Hr _ _ Hq) as (d&Hin&Hle). destruct (used_at_bounds _ _ _ _ _ _ _ _ Hs Hin) as (?&?&?&Hm).
    change SIZEOF_STRUCT_MEM with 8. change MEM_SIZE_ALIGNED with 1600. split; [by apply Hm|lia].
  - intros i j [q r] [q' r'] Hi Hj Hij. assert (Hne : q <> q').
    { intros ->. apply Hij. eapply (NoDup_lookup (u_live c).*1); [done| |]; rewrite list_lookup_fmap; [by rewrite Hi|by rewrite Hj]. }
    destruct (Hr q r) as (d&Hin&?); [by eapply list_elem_of_lookup_2|].
    destruct (Hr q' r') as (d'&Hin'&?); [by eapply list_elem_of_lookup_2|].
    destruct (used_at_apart _ _ _ _ _ _ _ _ Hs Hin Hin') as [Heq|Ha]; [by simplify_eq|]. unfold apart in *. cbn in *. lia.
  - intros Hnil. rewrite Hnil in Hl. symmetry in Hl. apply Permutation_nil_r, fmap_nil_inv in Hl.
    assert (bs = [(1600 - 0, false)]) as -> by (eapply all_free; try done; lia). destruct Hs as (H0&_). by split.
Qed.

(** Giving back what was cut off a free block restores the blocks. *)
Lemma cut_released b1 n b2 size :
  parted (b1 ++ (n, false) :: b2) ->
  exists m rest, cut size n = (m, true) :: rest /\
    coalesce (b1 ++ (m, false) :: rest ++ b2) = b1 ++ (n, false) :: b2.
Proof.
  intros Hp. unfold cut. destruct (size + 20 <=? n - 8).
  - exists (size + 8), [(n - 8 - size, false)]. split; [done|]. pose proof Hp as (Hp1&Hp2&Hl)%parted_app.
    apply parted_cons in Hp2 as [Hh Hp2]. specialize (Hh eq_refl). cbn [app].
    assert (Hc : coalesce ((size + 8, false) :: (n - 8 - size, false) :: b2) = (n, false) :: b2).
    { cbn [coalesce]. rewrite coalesce_parted by done. destruct b2 as [|[m []] b2]; try done; (f_equal; f_equal; lia). }
    rewrite coalesce_app, Hc; [done|done|]. intros Hf. specialize (Hl Hf). done.
  - exists n, []. split; [done|]. by apply coalesce_parted.
Qed.

(** C24. Allocation is first fit and complete.  On a heap with the blocks [bs],
    [mem_malloc] takes the lowest free block with room for the padded request,
    splits off the rest where another block fits, and giving the pointer back
    restores the list of blocks; it returns null, without a change, only for 0
    bytes, for more than the heap can hold, or when no free block is large
    enough. *)
Theorem mem_malloc_first_fit h bs n :
  holds_blocks h bs -> parted bs -> 0 <= n < 65536 ->
  exists r h', mem_malloc n h = Ok (r, h') /\
    match r with
    | Some q => exists b1 m b2, bs = b1 ++ (m, false) :: b2 /\ q = total b1 + SIZEOF_STRUCT_MEM /\
        n <= data_size n <= m - SIZEOF_STRUCT_MEM /\
        Forall (fun b => b.2 = false -> b.1 - SIZEOF_STRUCT_MEM < data_size n) b1 /\
        holds_blocks h' (b1 ++ cut (data_size n) m ++ b2) /\
        exists h'', mem_free (Some q) h' = Ok h'' /\ holds_blocks h'' bs
    | None => h' = h /\ (n = 0 \/ MEM_SIZE_ALIGNED < n \/
        Forall (fun b => b.2 = false -> b.1 - SIZEOF_STRUCT_MEM < data_size n) bs)
    end.
Proof.
  intros Hh Hp Hn. pose proof (mem_malloc_ok h bs n Hh Hn) as Hm. unfold malloc_spec in Hm.
  change SIZEOF_STRUCT_MEM with 8. change MEM_SIZE_ALIGNED with 1600.
  destruct ((n =? 0) || (1600 <? data_size n) || (data_size n <? n)) eqn:Hcond.
  { exists None, h. split; [done|]. split; [done|]. destruct (data_size_ok n Hn) as (Hd&_&Hlt).
    apply orb_true_iff in Hcond as [[Hz%Z.eqb_eq|Hb%Z.ltb_lt]%orb_true_iff|Hs%Z.ltb_lt]; [by left| |right; left; lia].
    right. left. revert Hb. unfold data_size. rewrite align_size. change MIN_SIZE_ALIGNED with 12.
    pose proof (Z.div_mod (n + 3) 4 ltac:(lia)). pose proof (Z.mod_pos_bound (n + 3) 4 ltac:(lia)).
    destruct (Z.ltb_spec (wrap16 (4 * ((n + 3) / 4))) 12); [lia|].
    destruct (Z_le_gt_dec n 65532); [|lia]. rewrite wrap16_small by lia. lia. }
  apply orb_false_iff in Hcond as [_ Hge%Z.ltb_ge].
  destruct (first_fit (data_size n) 0 bs) as [[q bs']|] eqn:Hf.
  2:{ exists None, h. split; [done|]. split; [done|]. right. right. by eapply first_fit_none. }
  destruct Hm as (h'&Hrun&Hh'). destruct (first_fit_split _ _ _ _ _ Hf) as (b1&m&b2&->&->&->&Hs&Hall).
  exists (Some (total b1 + 8)), h'. split; [done|]. exists b1, m, b2. split_and!; try done.
  destruct (cut_released b1 m b2 (data_size n) Hp) as (k&rest&Hcut&Hco).
  rewrite Hcut in Hh'. pose proof (parted_cut b1 m b2 (data_size n) Hp) as Hp'. rewrite Hcut in Hp'. cbn [app] in Hh', Hp'.
  destruct (mem_free_ok _ _ _ _ Hh' Hp') as (h''&Hfree&Hh''). exists h''. split; [done|]. by rewrite <- Hco.
Qed.

(** ** Concrete runs *)

(** One allocation that takes the whole heap, and a trim of it: the block whose
    [next] is [MEM_SIZE_ALIGNED] is split, against the assertion in [mem_trim],
    and the rest is a free block that reaches to the end. *)
Lemma trim_last_block :
  (exists c, heap_run [OpMalloc 1592] (mk_user mem_init []) = Ok c /\
     ram (u_heap c) !! 0 = Some (mk_mem MEM_SIZE_ALIGNED 0 1)) /\
  exists c, heap_run [OpMalloc 1592; OpTrim 0 100] (mk_user mem_init []) = Ok c /\
    ram (u_heap c) !! 0 = Some (mk_mem 108 0 1) /\ ram (u_heap c) !! 108 = Some (mk_mem MEM_SIZE_ALIGNED 0 0) /\
    lfree (u_heap c) = 108.
Proof. split; eexists; (split; [vm_compute; reflexivity|]); vm_compute; by split_and?. Qed.

Definition sample_ops : list heap_op := [OpMalloc 100; OpMalloc 1; OpFree 0; OpMalloc 60; OpTrim 0 4; OpFree 1; OpFree 0].

Lemma heap_serves_users_witness :
  exists c, heap_run sample_ops (mk_user mem_init []) = Ok c /\ u_live c = [] /\
    ram (u_heap c) !! 0 = Some (mk_mem MEM_SIZE_ALIGNED 0 0) /\ lfree (u_heap c) = 0.
Proof.
  destruct (heap_serves_users sample_ops) as (c&Hrun&_&_&Hnil); [repeat constructor; cbn; lia|].
  exists c. split; [exact Hrun|].
  assert (Hl : u_live c = []) by (vm_compute in Hrun; injection Hrun as <-; reflexivity).
  split; [exact Hl|]. apply Hnil. exact Hl.
Defined.

Lemma mem_malloc_first_fit_witness :
  exists h', mem_malloc 100 mem_init = Ok (Some 8, h') /\ exists h'', mem_free (Some 8) h' = Ok h'' /\ holds_blocks h'' [(1600, false)].
Proof.
  destruct (mem_malloc_first_fit mem_init [(1600, false)] 100 (hi_blocks _ _ heap_inv_init) I) as (r&h'&Hrun&Hr); [lia|].
  destruct r as [q|]; [|vm_compute in Hrun; discriminate Hrun].
  assert (Hq : q = 8) by (vm_compute in Hrun; congruence). subst q.
  exists h'. split; [exact Hrun|]. destruct Hr as (b1&m&b2&_&_&_&_&_&Hfree). exact Hfree.
Defined.
