(* ===== verification/Pbuf.v ===== *)
(** * Packet buffers: [src/lib/lwip/src/core/pbuf.c]

    The packet buffers of the network stack in the configuration of
    [src/lib/lwip/lwipopts.h], with the element pools of [memp.c] that they
    come from.  Structures of pool elements stay in memory when they are given
    back: the free list of a pool is linked through the same first word as a
    chain of packet buffers.  The platform's [LWIP_PLATFORM_ASSERT]
    ([src/lib/lwip/src/include/arch/cc.h]) tests the message and not the
    condition, so [LWIP_ASSERT] has no effect and is not part of the functions. *)

From stdpp Require Import base numbers list decidable gmap.
From Stdlib Require Import ZArith Lia Bool.
From S2P Require Import Prelude LwipMem.
Open Scope Z_scope.

(** ** Constants *)

Definition PBUF_TYPE_FLAG_STRUCT_DATA_CONTIGUOUS : Z := 0x80.
Definition PBUF_TYPE_FLAG_DATA_VOLATILE : Z := 0x40.
Definition PBUF_TYPE_ALLOC_SRC_MASK : Z := 0x0F.
Definition PBUF_ALLOC_FLAG_RX : Z := 0x0100.
Definition PBUF_ALLOC_FLAG_DATA_CONTIGUOUS : Z := 0x0200.
Definition PBUF_TYPE_ALLOC_SRC_MASK_STD_HEAP : Z := 0x00.
Definition PBUF_TYPE_ALLOC_SRC_MASK_STD_MEMP_PBUF : Z := 0x01.
Definition PBUF_TYPE_ALLOC_SRC_MASK_STD_MEMP_PBUF_POOL : Z := 0x02.
Definition PBUF_FLAG_IS_CUSTOM : Z := 0x02.

Inductive pbuf_type : Type :=
| PBUF_RAM
| PBUF_ROM
| PBUF_REF
| PBUF_POOL.

(** The values of the enumeration. *)
Definition type_code (t : pbuf_type) : Z :=
  match t with
  | PBUF_RAM => Z.lor PBUF_ALLOC_FLAG_DATA_CONTIGUOUS
                  (Z.lor PBUF_TYPE_FLAG_STRUCT_DATA_CONTIGUOUS PBUF_TYPE_ALLOC_SRC_MASK_STD_HEAP)
  | PBUF_ROM => PBUF_TYPE_ALLOC_SRC_MASK_STD_MEMP_PBUF
  | PBUF_REF => Z.lor PBUF_TYPE_FLAG_DATA_VOLATILE PBUF_TYPE_ALLOC_SRC_MASK_STD_MEMP_PBUF
  | PBUF_POOL => Z.lor PBUF_ALLOC_FLAG_RX
                   (Z.lor PBUF_TYPE_FLAG_STRUCT_DATA_CONTIGUOUS PBUF_TYPE_ALLOC_SRC_MASK_STD_MEMP_PBUF_POOL)
  end.

Definition PBUF_LINK_HLEN : Z := 14.
Definition PBUF_IP_HLEN : Z := 20.
Definition PBUF_TRANSPORT_HLEN : Z := 20.

Inductive pbuf_layer : Type :=
| PBUF_TRANSPORT
| PBUF_IP
| PBUF_LINK
| PBUF_RAW_TX
| PBUF_RAW.

Definition layer_offset (l : pbuf_layer) : Z :=
  match l with
  | PBUF_TRANSPORT => PBUF_LINK_HLEN + PBUF_IP_HLEN + PBUF_TRANSPORT_HLEN
  | PBUF_IP => PBUF_LINK_HLEN + PBUF_IP_HLEN
  | PBUF_LINK => PBUF_LINK_HLEN
  | PBUF_RAW_TX => 0
  | PBUF_RAW => 0
  end.

Definition TCP_MSS : Z := 1500 - 20 - 20.
Definition PBUF_POOL_BUFSIZE : Z :=
  LWIP_MEM_ALIGN_SIZE (TCP_MSS + PBUF_IP_HLEN + PBUF_TRANSPORT_HLEN + PBUF_LINK_HLEN).
Definition PBUF_POOL_BUFSIZE_ALIGNED : Z := LWIP_MEM_ALIGN_SIZE PBUF_POOL_BUFSIZE.
Definition PBUF_POOL_SIZE : Z := 4.
Definition SIZEOF_STRUCT_PBUF : Z := 16.

Inductive err_t : Type :=
| ERR_OK
| ERR_MEM
| ERR_BUF
| ERR_TIMEOUT
| ERR_RTE
| ERR_INPROGRESS
| ERR_VAL
| ERR_WOULDBLOCK
| ERR_USE
| ERR_ALREADY
| ERR_ISCONN
| ERR_CONN
| ERR_IF
| ERR_ABRT
| ERR_RST
| ERR_CLSD
| ERR_ARG.

(** ** State *)

(** A pointer to a packet buffer is its name; [payload] is null or an offset
    into an area of bytes.  The bytes behind a structure of a contiguous type
    are the area of the same name. *)
Record pbuf : Type := mk_pbuf {
  next : option Z;
  payload : option (Z * Z);
  tot_len : Z;
  len : Z;
  type_internal : Z;
  flags : Z;
  ref : Z;
  if_idx : Z
}.

Definition set_next (v : option Z) (b : pbuf) : pbuf :=
  mk_pbuf v (payload b) (tot_len b) (len b) (type_internal b) (flags b) (ref b) (if_idx b).
Definition set_payload (v : option (Z * Z)) (b : pbuf) : pbuf :=
  mk_pbuf (next b) v (tot_len b) (len b) (type_internal b) (flags b) (ref b) (if_idx b).
Definition set_tot_len (v : Z) (b : pbuf) : pbuf :=
  mk_pbuf (next b) (payload b) v (len b) (type_internal b) (flags b) (ref b) (if_idx b).
Definition set_len (v : Z) (b : pbuf) : pbuf :=
  mk_pbuf (next b) (payload b) (tot_len b) v (type_internal b) (flags b) (ref b) (if_idx b).
Definition set_flags (v : Z) (b : pbuf) : pbuf :=
  mk_pbuf (next b) (payload b) (tot_len b) (len b) (type_internal b) v (ref b) (if_idx b).
Definition set_ref (v : Z) (b : pbuf) : pbuf :=
  mk_pbuf (next b) (payload b) (tot_len b) (len b) (type_internal b) (flags b) v (if_idx b).
Definition set_if_idx (v : Z) (b : pbuf) : pbuf :=
  mk_pbuf (next b) (payload b) (tot_len b) (len b) (type_internal b) (flags b) (ref b) v.

(** The heap of [mem.c] as the packet buffers use it. [mem_malloc] gives the name
    and the bytes of a new area. *)
Class MemHeap (H : Type) : Type := {
  mem_malloc : Z -> H -> option (Z * list Z) * H;
  mem_free : Z -> H -> H;
  mem_trim : Z -> Z -> H -> H
}.

(** The structures, the bytes, the free lists of the two pools, the flag for the
    out-of-sequence queues, the custom buffers given back, and the heap. *)
Record lwip (H : Type) : Type := mk_lwip {
  pbufs : gmap Z pbuf;
  areas : gmap Z (list Z);
  tab_pool : option Z;
  tab_pbuf : option Z;
  pbuf_free_ooseq_pending : bool;
  custom_freed : list Z;
  heap : H
}.
Arguments mk_lwip {H}.
Arguments pbufs {H}.
Arguments areas {H}.
Arguments tab_pool {H}.
Arguments tab_pbuf {H}.
Arguments pbuf_free_ooseq_pending {H}.
Arguments custom_freed {H}.
Arguments heap {H}.

Definition set_pbufs {H} (v : gmap Z pbuf) (s : lwip H) : lwip H :=
  mk_lwip v (areas s) (tab_pool s) (tab_pbuf s) (pbuf_free_ooseq_pending s) (custom_freed s) (heap s).
Definition set_areas {H} (v : gmap Z (list Z)) (s : lwip H) : lwip H :=
  mk_lwip (pbufs s) v (tab_pool s) (tab_pbuf s) (pbuf_free_ooseq_pending s) (custom_freed s) (heap s).
Definition set_tab_pool {H} (v : option Z) (s : lwip H) : lwip H :=
  mk_lwip (pbufs s) (areas s) v (tab_pbuf s) (pbuf_free_ooseq_pending s) (custom_freed s) (heap s).
Definition set_tab_pbuf {H} (v : option Z) (s : lwip H) : lwip H :=
  mk_lwip (pbufs s) (areas s) (tab_pool s) v (pbuf_free_ooseq_pending s) (custom_freed s) (heap s).
Definition set_ooseq_pending {H} (v : bool) (s : lwip H) : lwip H :=
  mk_lwip (pbufs s) (areas s) (tab_pool s) (tab_pbuf s) v (custom_freed s) (heap s).
Definition set_custom_freed {H} (v : list Z) (s : lwip H) : lwip H :=
  mk_lwip (pbufs s) (areas s) (tab_pool s) (tab_pbuf s) (pbuf_free_ooseq_pending s) v (heap s).
Definition set_heap {H} (v : H) (s : lwip H) : lwip H :=
  mk_lwip (pbufs s) (areas s) (tab_pool s) (tab_pbuf s) (pbuf_free_ooseq_pending s) (custom_freed s) v.

(** ** Access through pointers *)

(** [*p]: what has been given back to the heap is gone. *)
Definition deref {H} (s : lwip H) (p : Z) : result pbuf :=
  match pbufs s !! p with Some b => Ok b | None => Fault Dangling end.

Definition not_null {A} (o : option A) : result A :=
  match o with Some a => Ok a | None => Fault NullPointer end.

(** An assignment to a member of [*p]. *)
Definition assign {H} (p : Z) (f : pbuf -> pbuf) (s : lwip H) : result (lwip H) :=
  let* b := deref s p in
  Ok (set_pbufs (<[p := f b]> (pbufs s)) s).

(** The [n] bytes at [off] behind a payload pointer. *)
Definition area {H} (s : lwip H) (a : Z) : result (list Z) :=
  match areas s !! a with Some bs => Ok bs | None => Fault Dangling end.

Definition ld_bytes {H} (s : lwip H) (ptr : option (Z * Z)) (off n : Z) : result (list Z) :=
  let* (a, o) := not_null ptr in
  let* bs := area s a in
  if in_range bs (o + off) n then Ok (bytes_at bs (o + off) n) else Fault OutOfBounds.

Definition st_bytes {H} (s : lwip H) (ptr : option (Z * Z)) (off : Z) (v : list Z) : result (lwip H) :=
  let* (a, o) := not_null ptr in
  let* bs := area s a in
  let* bs := wr bs (o + off) v in
  Ok (set_areas (<[a := bs]> (areas s)) s).

(** Loops that follow a chain end after as many steps as there are structures. *)
Definition chain_fuel {H} (s : lwip H) : nat := S (size (pbufs s)).

Section pbuf_ops.
Context {H : Type} `{MemHeap H}.
Implicit Types (s : lwip H).

(** ** Element pools: [memp.c]

    [memp->next] is the first word of the element. *)

Inductive memp_t : Type :=
| MEMP_PBUF
| MEMP_PBUF_POOL.

Definition tab (t : memp_t) s : option Z :=
  match t with MEMP_PBUF => tab_pbuf s | MEMP_PBUF_POOL => tab_pool s end.
Definition set_tab (t : memp_t) (v : option Z) s : lwip H :=
  match t with MEMP_PBUF => set_tab_pbuf v s | MEMP_PBUF_POOL => set_tab_pool v s end.

Definition memp_malloc (t : memp_t) s : result (option Z * lwip H) :=
  match tab t s with
  | None => Ok (None, s)
  | Some p =>
      let* b := deref s p in
      Ok (Some p, set_tab t (next b) s)
  end.

Definition memp_free (t : memp_t) (mem : Z) s : result (lwip H) :=
  let* s := assign mem (set_next (tab t s)) s in
  Ok (set_tab t (Some mem) s).

(** The loop of [memp_init_pool] over the names of the elements, whose memory is
    zero. *)
Fixpoint memp_init_pool (t : memp_t) (names : list Z) s : lwip H :=
  match names with
  | [] => s
  | p :: names =>
      memp_init_pool t names
        (set_tab t (Some p) (set_pbufs (<[p := mk_pbuf (tab t s) None 0 0 0 0 0 0]> (pbufs s)) s))
  end.

(** ** Reference counts *)

Definition pbuf_get_allocsrc (b : pbuf) : Z := Z.land (type_internal b) PBUF_TYPE_ALLOC_SRC_MASK.
Definition pbuf_match_allocsrc (b : pbuf) (type : Z) : bool :=
  pbuf_get_allocsrc b =? Z.land type PBUF_TYPE_ALLOC_SRC_MASK.

(** Give the memory of [*p] back to where it comes from. *)
Definition pbuf_dealloc (p : Z) (b : pbuf) s : result (lwip H) :=
  let alloc_src := pbuf_get_allocsrc b in
  if negb (Z.land (flags b) PBUF_FLAG_IS_CUSTOM =? 0) then
    Ok (set_custom_freed (custom_freed s ++ [p]) s)
  else if alloc_src =? PBUF_TYPE_ALLOC_SRC_MASK_STD_MEMP_PBUF_POOL then memp_free MEMP_PBUF_POOL p s
  else if alloc_src =? PBUF_TYPE_ALLOC_SRC_MASK_STD_MEMP_PBUF then memp_free MEMP_PBUF p s
  else if alloc_src =? PBUF_TYPE_ALLOC_SRC_MASK_STD_HEAP then
    Ok (set_heap (mem_free p (heap s))
          (set_areas (delete p (areas s)) (set_pbufs (delete p (pbufs s)) s)))
  else Ok s.

Fixpoint free_loop (fuel : nat) (p : option Z) (count : Z) s : result (Z * lwip H) :=
  match fuel with
  | O => Fault OutOfFuel
  | S fuel =>
      match p with
      | None => Ok (count, s)
      | Some p =>
          let* b := deref s p in
          let r := wrap8 (ref b - 1) in
          let* s := assign p (set_ref r) s in
          if r =? 0 then
            let q := next b in
            let* s := pbuf_dealloc p b s in
            free_loop fuel q (wrap8 (count + 1)) s
          else Ok (count, s)
      end
  end.

Definition pbuf_free (p : option Z) s : result (Z * lwip H) := free_loop (chain_fuel s) p 0 s.

Definition pbuf_ref (p : option Z) s : result (lwip H) :=
  match p with
  | None => Ok s
  | Some p => assign p (fun b => set_ref (wrap8 (ref b + 1)) b) s
  end.

Fixpoint clen_loop (fuel : nat) s (p : option Z) (n : Z) : result Z :=
  match fuel with
  | O => Fault OutOfFuel
  | S fuel =>
      match p with
      | None => Ok n
      | Some p => let* b := deref s p in clen_loop fuel s (next b) (wrap16 (n + 1))
      end
  end.

Definition pbuf_clen (p : option Z) s : result Z := clen_loop (chain_fuel s) s p 0.

(** ** Allocation *)

Definition pbuf_init_alloced_pbuf (p : Z) (pay : option (Z * Z)) (totlen ln type flgs : Z) s : lwip H :=
  set_pbufs (<[p := mk_pbuf None pay totlen ln (wrap8 type) flgs 1 0]> (pbufs s)) s.

Definition pbuf_alloc_reference (pay : option (Z * Z)) (length : Z) (type : pbuf_type) s
  : result (option Z * lwip H) :=
  let* (p, s) := memp_malloc MEMP_PBUF s in
  match p with
  | None => Ok (None, s)
  | Some p => Ok (Some p, pbuf_init_alloced_pbuf p pay length length (type_code type) 0 s)
  end.

(** The loop for [PBUF_POOL]: [p] is the head of the chain so far, [last] its end. *)
Fixpoint pool_loop (fuel : nat) (p last : option Z) (rem_len offset : Z) s
  : result (option Z * lwip H) :=
  match fuel with
  | O => Fault OutOfFuel
  | S fuel =>
      let* (q, s) := memp_malloc MEMP_PBUF_POOL s in
      match q with
      | None =>
          let s := set_ooseq_pending true s in
          match p with
          | Some _ => let* (_, s) := pbuf_free p s in Ok (None, s)
          | None => Ok (None, s)
          end
      | Some q =>
          let qlen := Z.min rem_len (wrap16 (PBUF_POOL_BUFSIZE_ALIGNED - LWIP_MEM_ALIGN_SIZE offset)) in
          let s := pbuf_init_alloced_pbuf q (Some (q, LWIP_MEM_ALIGN_SIZE offset)) rem_len qlen
                     (type_code PBUF_POOL) 0 s in
          let* s := match p with
                    | None => Ok s
                    | Some _ => let* l := not_null last in assign l (set_next (Some q)) s
                    end in
          let p := match p with None => Some q | Some _ => p end in
          let rem_len := wrap16 (rem_len - qlen) in
          if 0 <? rem_len then pool_loop fuel p (Some q) rem_len 0 s else Ok (p, s)
      end
  end.

(** [mem_size_t] has 16 bits for a heap of at most 64000 bytes. *)
Definition pbuf_alloc (layer : pbuf_layer) (length : Z) (type : pbuf_type) s
  : result (option Z * lwip H) :=
  let offset := layer_offset layer in
  match type with
  | PBUF_REF | PBUF_ROM => pbuf_alloc_reference None length type s
  | PBUF_POOL => pool_loop (chain_fuel s) None None length offset s
  | PBUF_RAM =>
      let payload_len := wrap16 (LWIP_MEM_ALIGN_SIZE offset + LWIP_MEM_ALIGN_SIZE length) in
      let alloc_len := wrap16 (LWIP_MEM_ALIGN_SIZE SIZEOF_STRUCT_PBUF + payload_len) in
      if (payload_len <? LWIP_MEM_ALIGN_SIZE length) || (alloc_len <? LWIP_MEM_ALIGN_SIZE length)
      then Ok (None, s)
      else
        let '(r, h) := mem_malloc alloc_len (heap s) in
        let s := set_heap h s in
        match r with
        | None => Ok (None, s)
        | Some (p, bs) =>
            let s := set_areas (<[p := drop (Z.to_nat SIZEOF_STRUCT_PBUF) bs]> (areas s)) s in
            Ok (Some p, pbuf_init_alloced_pbuf p (Some (p, LWIP_MEM_ALIGN_SIZE offset)) length length
                          (type_code PBUF_RAM) 0 s)
        end
  end.

(** The custom structure [p] is the caller's; [payload_mem] its buffer. *)
Definition pbuf_alloced_custom (l : pbuf_layer) (length : Z) (type : pbuf_type) (p : Z)
    (payload_mem : option (Z * Z)) (payload_mem_len : Z) s : option Z * lwip H :=
  let offset := layer_offset l in
  if payload_mem_len <? LWIP_MEM_ALIGN_SIZE offset + length then (None, s)
  else
    let pay := match payload_mem with
               | Some (a, o) => Some (a, o + LWIP_MEM_ALIGN_SIZE offset)
               | None => None
               end in
    (Some p, pbuf_init_alloced_pbuf p pay length length (type_code type) PBUF_FLAG_IS_CUSTOM s).

(** ** Length and headers *)

(** The loop of [pbuf_realloc] over the buffers that stay. *)
Fixpoint realloc_loop (fuel : nat) (q : Z) (rem_len shrink : Z) s : result (Z * Z * lwip H) :=
  match fuel with
  | O => Fault OutOfFuel
  | S fuel =>
      let* b := deref s q in
      if len b <? rem_len then
        let rem_len := wrap16 (rem_len - len b) in
        let* s := assign q (set_tot_len (wrap16 (tot_len b - shrink))) s in
        let* q := not_null (next b) in
        realloc_loop fuel q rem_len shrink s
      else Ok (q, rem_len, s)
  end.

(** [mem_trim]: the bytes behind the new end are no longer the buffer's. *)
Definition trim (q : Z) (b : pbuf) (rem_len : Z) s : result (lwip H) :=
  let* (a, o) := not_null (payload b) in
  let* bs := area s a in
  Ok (set_heap (mem_trim q (SIZEOF_STRUCT_PBUF + o + rem_len) (heap s))
        (set_areas (<[a := take (Z.to_nat (o + rem_len)) bs]> (areas s)) s)).

Definition pbuf_realloc (p : Z) (new_len : Z) s : result (lwip H) :=
  let* b := deref s p in
  if tot_len b <=? new_len then Ok s
  else
    let shrink := wrap16 (tot_len b - new_len) in
    let* (q, rem_len, s) := realloc_loop (chain_fuel s) p new_len shrink s in
    let* b := deref s q in
    let* s := (if pbuf_match_allocsrc b PBUF_TYPE_ALLOC_SRC_MASK_STD_HEAP && negb (rem_len =? len b) &&
                  (Z.land (flags b) PBUF_FLAG_IS_CUSTOM =? 0)
               then trim q b rem_len s else Ok s) in
    let* s := assign q (fun b => set_tot_len rem_len (set_len rem_len b)) s in
    let* s := match next b with
              | Some n => let* (_, s) := pbuf_free (Some n) s in Ok s
              | None => Ok s
              end in
    assign q (set_next None) s.

(** The result is the function's return value: 0 for success. *)
Definition pbuf_add_header_impl (p : option Z) (header_size_increment : Z) (force : bool) s
  : result (Z * lwip H) :=
  match p with
  | None => Ok (1, s)
  | Some p =>
      if 0xFFFF <? header_size_increment then Ok (1, s)
      else if header_size_increment =? 0 then Ok (0, s)
      else
        let increment_magnitude := wrap16 header_size_increment in
        let* b := deref s p in
        if wrap16 (increment_magnitude + tot_len b) <? increment_magnitude then Ok (1, s)
        else
          let* pay :=
            (if negb (Z.land (type_internal b) PBUF_TYPE_FLAG_STRUCT_DATA_CONTIGUOUS =? 0) then
               let* (a, o) := not_null (payload b) in
               if o - header_size_increment <? 0 then Ok None
               else Ok (Some (a, o - header_size_increment))
             else if force then
               let* (a, o) := not_null (payload b) in
               Ok (Some (a, o - header_size_increment))
             else Ok None) in
          match pay with
          | None => Ok (1, s)
          | Some pay =>
              let* s := assign p (fun b =>
                          set_tot_len (wrap16 (tot_len b + increment_magnitude))
                            (set_len (wrap16 (len b + increment_magnitude))
                               (set_payload (Some pay) b))) s in
              Ok (0, s)
          end
  end.

Definition pbuf_add_header (p : option Z) (n : Z) s : result (Z * lwip H) :=
  pbuf_add_header_impl p n false s.
Definition pbuf_add_header_force (p : option Z) (n : Z) s : result (Z * lwip H) :=
  pbuf_add_header_impl p n true s.

Definition pbuf_remove_header (p : option Z) (header_size_decrement : Z) s : result (Z * lwip H) :=
  match p with
  | None => Ok (1, s)
  | Some p =>
      if 0xFFFF <? header_size_decrement then Ok (1, s)
      else if header_size_decrement =? 0 then Ok (0, s)
      else
        let increment_magnitude := wrap16 header_size_decrement in
        let* b := deref s p in
        if negb (increment_magnitude <=? len b) then Ok (1, s)
        else
          let* (a, o) := not_null (payload b) in
          let* s := assign p (fun b =>
                      set_tot_len (wrap16 (tot_len b - increment_magnitude))
                        (set_len (wrap16 (len b - increment_magnitude))
                           (set_payload (Some (a, o + header_size_decrement)) b))) s in
          Ok (0, s)
  end.

Definition pbuf_header_impl (p : option Z) (n : Z) (force : bool) s : result (Z * lwip H) :=
  if n <? 0 then pbuf_remove_header p (- n) s else pbuf_add_header_impl p n force s.
Definition pbuf_header (p : option Z) (n : Z) s : result (Z * lwip H) := pbuf_header_impl p n false s.
Definition pbuf_header_force (p : option Z) (n : Z) s : result (Z * lwip H) := pbuf_header_impl p n true s.

Fixpoint free_header_loop (fuel : nat) (p : option Z) (free_left : Z) s : result (option Z * lwip H) :=
  match fuel with
  | O => Fault OutOfFuel
  | S fuel =>
      match p with
      | None => Ok (None, s)
      | Some f =>
          if free_left =? 0 then Ok (Some f, s)
          else
            let* b := deref s f in
            if len b <=? free_left then
              let* s := assign f (set_next None) s in
              let* (_, s) := pbuf_free (Some f) s in
              free_header_loop fuel (next b) (wrap16 (free_left - len b)) s
            else
              let* (_, s) := pbuf_remove_header (Some f) free_left s in
              free_header_loop fuel (Some f) 0 s
      end
  end.

Definition pbuf_free_header (q : option Z) (size : Z) s : result (option Z * lwip H) :=
  free_header_loop (S (chain_fuel s)) q size s.

(** ** Chains *)

Fixpoint cat_loop (fuel : nat) (p t : Z) s : result (Z * lwip H) :=
  match fuel with
  | O => Fault OutOfFuel
  | S fuel =>
      let* b := deref s p in
      match next b with
      | None => Ok (p, s)
      | Some n =>
          let* bt := deref s t in
          let* s := assign p (set_tot_len (wrap16 (tot_len b + tot_len bt))) s in
          cat_loop fuel n t s
      end
  end.

Definition pbuf_cat (h t : option Z) s : result (lwip H) :=
  match h, t with
  | Some h, Some t =>
      let* (p, s) := cat_loop (chain_fuel s) h t s in
      let* bt := deref s t in
      let* s := assign p (fun b => set_tot_len (wrap16 (tot_len b + tot_len bt)) b) s in
      assign p (set_next (Some t)) s
  | _, _ => Ok s
  end.

Definition pbuf_chain (h t : option Z) s : result (lwip H) :=
  let* s := pbuf_cat h t s in
  pbuf_ref t s.

Definition pbuf_dechain (p : Z) s : result (option Z * lwip H) :=
  let* b := deref s p in
  match next b with
  | None => Ok (None, s)
  | Some q =>
      let* s := assign q (set_tot_len (wrap16 (tot_len b - len b))) s in
      let* s := assign p (set_next None) s in
      let* s := assign p (fun b => set_tot_len (len b) b) s in
      let* (tail_gone, s) := pbuf_free (Some q) s in
      Ok (if 0 <? tail_gone then None else Some q, s)
  end.

(** ** Copying *)

(** [dataptr] is the memory from the pointer on; the result is this memory
    and the number of bytes copied. *)
Fixpoint copy_partial_loop (fuel : nat) s (p : option Z) (dataptr : list Z) (ln offset left copied_total : Z)
  : result (list Z * Z) :=
  match fuel with
  | O => Fault OutOfFuel
  | S fuel =>
      match p with
      | None => Ok (dataptr, copied_total)
      | Some q =>
          if ln =? 0 then Ok (dataptr, copied_total)
          else
            let* b := deref s q in
            if negb (offset =? 0) && (len b <=? offset) then
              copy_partial_loop fuel s (next b) dataptr ln (wrap16 (offset - len b)) left copied_total
            else
              let buf_copy_len := wrap16 (len b - offset) in
              let buf_copy_len := (if ln <? buf_copy_len then ln else buf_copy_len) in
              let* bs := ld_bytes s (payload b) offset buf_copy_len in
              let* dataptr := wr dataptr left bs in
              copy_partial_loop fuel s (next b) dataptr (wrap16 (ln - buf_copy_len)) 0
                (wrap16 (left + buf_copy_len)) (wrap16 (copied_total + buf_copy_len))
      end
  end.

Definition pbuf_copy_partial (buf : option Z) (dataptr : list Z) (ln offset : Z) s : result (list Z * Z) :=
  match buf with
  | None => Ok (dataptr, 0)
  | Some _ => copy_partial_loop (chain_fuel s) s buf dataptr ln offset 0 0
  end.

Fixpoint skip_loop (fuel : nat) s (q : option Z) (offset_left : Z) : result (option Z * Z) :=
  match fuel with
  | O => Fault OutOfFuel
  | S fuel =>
      match q with
      | None => Ok (None, offset_left)
      | Some p =>
          let* b := deref s p in
          if len b <=? offset_left then skip_loop fuel s (next b) (wrap16 (offset_left - len b))
          else Ok (Some p, offset_left)
      end
  end.

Definition pbuf_skip_const (inp : option Z) (in_offset : Z) s : result (option Z * Z) :=
  skip_loop (chain_fuel s) s inp in_offset.
Definition pbuf_skip (inp : option Z) (in_offset : Z) s : result (option Z * Z) :=
  pbuf_skip_const inp in_offset s.

(** The answer is a pointer into the payload, or the buffer with the bytes
    copied there. *)
Inductive contiguous : Type :=
| InPbuf (ptr : Z * Z)
| InBuffer (bytes : list Z).

Definition pbuf_get_contiguous (p : option Z) (buffer : list Z) (ln offset : Z) s
  : result (option contiguous) :=
  match p with
  | None => Ok None
  | Some _ =>
      if Z.of_nat (length buffer) <? ln then Ok None
      else
        let* (q, out_offset) := pbuf_skip_const p offset s in
        match q with
        | None => Ok None
        | Some r =>
            let* b := deref s r in
            if out_offset + ln <=? len b then
              let* (a, o) := not_null (payload b) in
              Ok (Some (InPbuf (a, o + out_offset)))
            else
              let* (bytes, n) := pbuf_copy_partial q buffer ln out_offset s in
              if negb (n =? ln) then Ok None else Ok (Some (InBuffer bytes))
        end
  end.

(** [dataptr] is the memory from the pointer on. *)
Fixpoint take_loop (fuel : nat) (p : option Z) (dataptr : list Z) (total_copy_len copied_total : Z) s
  : result (lwip H) :=
  match fuel with
  | O => Fault OutOfFuel
  | S fuel =>
      if total_copy_len =? 0 then Ok s
      else
        let* q := not_null p in
        let* b := deref s q in
        let buf_copy_len := (if len b <? total_copy_len then len b else total_copy_len) in
        if negb (in_range dataptr copied_total buf_copy_len) then Fault OutOfBounds
        else
          let* s := st_bytes s (payload b) 0 (bytes_at dataptr copied_total buf_copy_len) in
          take_loop fuel (next b) dataptr (total_copy_len - buf_copy_len) (copied_total + buf_copy_len) s
  end.

Definition pbuf_take (buf : option Z) (dataptr : list Z) (ln : Z) s : result (err_t * lwip H) :=
  match buf with
  | None => Ok (ERR_ARG, s)
  | Some p =>
      let* b := deref s p in
      if negb (ln <=? tot_len b) then Ok (ERR_MEM, s)
      else
        let* s := take_loop (chain_fuel s) buf dataptr ln 0 s in
        Ok (ERR_OK, s)
  end.

Definition pbuf_take_at (buf : option Z) (dataptr : list Z) (ln offset : Z) s : result (err_t * lwip H) :=
  let* (q, target_offset) := pbuf_skip buf offset s in
  match q with
  | None => Ok (ERR_MEM, s)
  | Some q =>
      let* b := deref s q in
      if target_offset + ln <=? tot_len b then
        let first_copy_len := wrap16 (Z.min (len b - target_offset) ln) in
        if negb (in_range dataptr 0 first_copy_len) then Fault OutOfBounds
        else
          let* s := st_bytes s (payload b) target_offset (bytes_at dataptr 0 first_copy_len) in
          let remaining_len := wrap16 (ln - first_copy_len) in
          if 0 <? remaining_len then
            pbuf_take (next b) (drop (Z.to_nat first_copy_len) dataptr) remaining_len s
          else Ok (ERR_OK, s)
      else Ok (ERR_MEM, s)
  end.

(** The loop of [pbuf_copy_partial_pbuf]; the differences of lengths and offsets
    are of type [size_t].  The answer is the error returned, or none at the end
    of the loop. *)
Fixpoint copy_pbuf_loop (fuel : nat) (p_to p_from : Z) (offset_to offset_from copy_len : Z) s
  : result (option err_t * lwip H) :=
  match fuel with
  | O => Fault OutOfFuel
  | S fuel =>
      let* bt := deref s p_to in
      let* bf := deref s p_from in
      let ln := (if wrap32 (len bf - offset_from) <=? wrap32 (len bt - offset_to)
                 then wrap32 (len bf - offset_from) else wrap32 (len bt - offset_to)) in
      let ln := Z.min copy_len ln in
      let* bs := ld_bytes s (payload bf) offset_from ln in
      let* s := st_bytes s (payload bt) offset_to bs in
      let offset_to := wrap32 (offset_to + ln) in
      let offset_from := wrap32 (offset_from + ln) in
      let copy_len := wrap16 (copy_len - ln) in
      let '(f, offset_from) := (if len bf <=? offset_from then (next bf, 0) else (Some p_from, offset_from)) in
      let '(t, offset_to) := (if offset_to =? len bt then (next bt, 0) else (Some p_to, offset_to)) in
      if negb (bool_decide (is_Some f)) && negb (copy_len =? 0) then Ok (Some ERR_ARG, s)
      else if negb (bool_decide (is_Some t)) && negb (copy_len =? 0) then Ok (Some ERR_ARG, s)
      else
        let is_queue o := match o with
                          | None => Ok false
                          | Some q => let* b := deref s q in
                                      Ok ((len b =? tot_len b) && bool_decide (is_Some (next b)))
                          end in
        let* qf := is_queue f in
        if (qf : bool) then Ok (Some ERR_VAL, s)
        else
          let* qt := is_queue t in
          if (qt : bool) then Ok (Some ERR_VAL, s)
          else if copy_len =? 0 then Ok (None, s)
          else
            let* f := not_null f in
            let* t := not_null t in
            copy_pbuf_loop fuel t f offset_to offset_from copy_len s
  end.

Definition pbuf_copy_partial_pbuf (p_to p_from : option Z) (copy_len offset : Z) s
  : result (err_t * lwip H) :=
  match p_from, p_to with
  | Some f, Some t =>
      let* bf := deref s f in
      if negb (copy_len <=? tot_len bf) then Ok (ERR_ARG, s)
      else
        let* bt := deref s t in
        if negb (offset + copy_len <=? tot_len bt) then Ok (ERR_ARG, s)
        else
          let* (e, s) := copy_pbuf_loop (2 * chain_fuel s) t f offset 0 copy_len s in
          Ok (match e with Some e => e | None => ERR_OK end, s)
  | Some f, None =>
      let* bf := deref s f in Ok (ERR_ARG, s)
  | None, _ => Ok (ERR_ARG, s)
  end.

Definition pbuf_copy (p_to p_from : option Z) s : result (err_t * lwip H) :=
  match p_from with
  | None => Ok (ERR_ARG, s)
  | Some f =>
      let* bf := deref s f in
      pbuf_copy_partial_pbuf p_to p_from (tot_len bf) 0 s
  end.

Definition pbuf_clone (layer : pbuf_layer) (type : pbuf_type) (p : Z) s : result (option Z * lwip H) :=
  let* b := deref s p in
  let* (q, s) := pbuf_alloc layer (tot_len b) type s in
  match q with
  | None => Ok (None, s)
  | Some _ =>
      let* (_, s) := pbuf_copy q (Some p) s in
      Ok (q, s)
  end.

Definition pbuf_coalesce (p : Z) (layer : pbuf_layer) s : result (option Z * lwip H) :=
  let* b := deref s p in
  match next b with
  | None => Ok (Some p, s)
  | Some _ =>
      let* (q, s) := pbuf_clone layer PBUF_RAM p s in
      match q with
      | None => Ok (Some p, s)
      | Some _ => let* (_, s) := pbuf_free (Some p) s in Ok (q, s)
      end
  end.

(** ** Bytes *)

Definition pbuf_try_get_at (p : option Z) (offset : Z) s : result Z :=
  let* (q, q_idx) := pbuf_skip_const p offset s in
  match q with
  | None => Ok (-1)
  | Some q =>
      let* b := deref s q in
      if q_idx <? len b then
        let* bs := ld_bytes s (payload b) q_idx 1 in
        Ok (le_val bs)
      else Ok (-1)
  end.

Definition pbuf_get_at (p : option Z) (offset : Z) s : result Z :=
  let* ret := pbuf_try_get_at p offset s in
  if 0 <=? ret then Ok (wrap8 ret) else Ok 0.

Definition pbuf_put_at (p : option Z) (offset : Z) (v : Z) s : result (lwip H) :=
  let* (q, q_idx) := pbuf_skip p offset s in
  match q with
  | None => Ok s
  | Some q =>
      let* b := deref s q in
      if q_idx <? len b then st_bytes s (payload b) q_idx [wrap8 v] else Ok s
  end.

(** The comparing loop over the positions that are left. *)
Fixpoint memcmp_loop (k : nat) s (q : option Z) (start : Z) (s2 : list Z) (i : Z) : result Z :=
  match k with
  | O => Ok 0
  | S k =>
      let* a := pbuf_get_at q (wrap16 (start + i)) s in
      match s2 !! Z.to_nat i with
      | None => Fault OutOfBounds
      | Some b => if negb (a =? b) then Ok (wrap16 (Z.min (i + 1) 0xFFFF)) else memcmp_loop k s q start s2 (i + 1)
      end
  end.

Definition pbuf_memcmp (p : Z) (offset : Z) (s2 : list Z) (n : Z) s : result Z :=
  let* b := deref s p in
  if tot_len b <? offset + n then Ok 0xFFFF
  else
    let* (q, start) := skip_loop (chain_fuel s) s (Some p) offset in
    memcmp_loop (Z.to_nat n) s q start s2 0.

(** The searching loop; [i] has 16 bits. *)
Fixpoint memfind_loop (fuel : nat) s (p : Z) (mem : list Z) (mem_len max_cmp_start i : Z) : result Z :=
  match fuel with
  | O => Fault OutOfFuel
  | S fuel =>
      if i <=? max_cmp_start then
        let* plus := pbuf_memcmp p i mem mem_len s in
        if plus =? 0 then Ok i else memfind_loop fuel s p mem mem_len max_cmp_start (wrap16 (i + 1))
      else Ok 0xFFFF
  end.

Definition pbuf_memfind (p : Z) (mem : list Z) (mem_len start_offset : Z) s : result Z :=
  let* b := deref s p in
  let max_cmp_start := wrap16 (tot_len b - mem_len) in
  if mem_len + start_offset <=? tot_len b then
    memfind_loop (Z.to_nat 0x10000) s p mem mem_len max_cmp_start start_offset
  else Ok 0xFFFF.

(** [substr] without its terminator. *)
Definition pbuf_strstr (p : Z) (substr : list Z) s : result Z :=
  if (length substr =? 0)%nat then Ok 0xFFFF
  else
    let* b := deref s p in
    if tot_len b =? 0xFFFF then Ok 0xFFFF
    else if 0xFFFF <=? Z.of_nat (length substr) then Ok 0xFFFF
    else pbuf_memfind p substr (wrap16 (Z.of_nat (length substr))) 0 s.
End pbuf_ops.
