(* ===== verification/PbufChain.v ===== *)
(** * Chains of packet buffers

    What a chain of packet buffers is, the bytes it holds, and what the
    functions of [src/lib/lwip/src/core/pbuf.c] that read and write packets,
    count references and free do on such chains. *)

From stdpp Require Import base numbers list decidable gmap.
From Stdlib Require Import ZArith Lia Bool.
From S2P Require Import Prelude Linked LwipMem Pbuf.
Open Scope Z_scope.

(** ** Chains *)

(** Following [next] from [o] gives exactly the buffers of the list. *)
Abbreviation chain := (linked next).

Lemma chain_fuel_ok {H} (s : lwip H) o l : chain (pbufs s) o l -> (length l < chain_fuel s)%nat.
Proof. intros Hc%linked_size. unfold chain_fuel. lia. Qed.

(** ** Packets *)

(** The [len] bytes behind [payload]. *)
Definition holds {H} (s : lwip H) (b : pbuf) (c : list Z) : Prop :=
  exists a o bs, payload b = Some (a, o) /\ areas s !! a = Some bs /\
    0 <= o /\ o + len b <= Z.of_nat (length bs) /\ bytes_at bs o (len b) = c.

(** The chain [l] with the bytes of each buffer; [tot_len] counts the bytes from
    a buffer to the end of the chain. *)
Fixpoint packet {H} (s : lwip H) (o : option Z) (l : list Z) (cs : list (list Z)) : Prop :=
  match l, cs with
  | [], [] => o = None
  | p :: l, c :: cs => o = Some p /\ exists b, pbufs s !! p = Some b /\
      len b = Z.of_nat (length c) /\ tot_len b = Z.of_nat (length (concat (c :: cs))) /\
      tot_len b < 65536 /\ holds s b c /\ packet s (next b) l cs
  | _, _ => False
  end.

Lemma packet_chain {H} (s : lwip H) o l cs : packet s o l cs -> chain (pbufs s) o l.
Proof.
  revert o cs. induction l as [|p l IH]; intros o [|c cs]; cbn; try done.
  intros [-> (b&Hb&_&_&_&_&Hp)]. eauto.
Qed.

Lemma packet_fuel {H} (s : lwip H) o l cs : packet s o l cs -> (length l < chain_fuel s)%nat.
Proof. intros Hp%packet_chain. by eapply chain_fuel_ok. Qed.

Lemma deref_ok {H} (s : lwip H) p b : pbufs s !! p = Some b -> deref s p = Ok b.
Proof. unfold deref. by intros ->. Qed.

Lemma bytes_at_bytes_at bs o n off k :
  0 <= o -> 0 <= off -> 0 <= k -> off + k <= n ->
  bytes_at (bytes_at bs o n) off k = bytes_at bs (o + off) k.
Proof.
  intros. unfold bytes_at. apply list_eq. intros i. rewrite !lookup_slice. case_decide; [|done].
  rewrite decide_True by lia. f_equal. lia.
Qed.

(** Reading a part of what a buffer holds. *)
Lemma ld_holds {H} (s : lwip H) b c off k :
  holds s b c -> 0 <= off -> 0 <= k -> off + k <= len b ->
  ld_bytes s (payload b) off k = Ok (bytes_at c off k).
Proof.
  intros (a&o&bs&Hp&Ha&H0&Hl&Hc) Hoff Hk Hle. unfold ld_bytes, area. rewrite Hp. cbn [not_null rbind].
  rewrite Ha. cbn [rbind]. rewrite (proj2 (in_range_spec bs (o + off) k)) by lia. f_equal.
  rewrite <- Hc. symmetry. by apply bytes_at_bytes_at.
Qed.

Lemma length_bytes_at bs o n : 0 <= o -> o + n <= Z.of_nat (length bs) -> length (bytes_at bs o n) = Z.to_nat n.
Proof. intros. unfold bytes_at. destruct (Z_lt_ge_dec n 0); [|apply length_slice; lia].
  replace (Z.to_nat n) with 0%nat by lia. done. Qed.

Lemma bytes_at_take_drop c off k : bytes_at c off k = take (Z.to_nat k) (drop (Z.to_nat off) c).
Proof. done. Qed.

(** The bytes from [off] on, split behind the first buffer. *)
Lemma take_drop_split (c rest : list Z) ln off :
  (off <= length c)%nat ->
  take ln (drop off (c ++ rest)) =
    take (Nat.min ln (length c - off)) (drop off c) ++ take (ln - Nat.min ln (length c - off)) rest.
Proof.
  intros Hoff. rewrite drop_app_le by done. rewrite take_app, length_drop.
  destruct (Nat.le_gt_cases ln (length c - off)).
  - rewrite Nat.min_l by done. rewrite Nat.sub_diag. replace (ln - (length c - off))%nat with 0%nat by lia. done.
  - rewrite Nat.min_r by lia. f_equal. rewrite !take_ge; [done|rewrite length_drop; lia..].
Qed.

(** ** [pbuf_copy_partial] *)

Section ops.
Context {H : Type} `{MemHeap H}.
Implicit Types (s : lwip H).

Lemma copy_partial_ok fuel s o l cs dp ln off left :
  packet s o l cs -> (length l < fuel)%nat -> 0 <= ln -> 0 <= off < 65536 ->
  0 <= left -> left + ln < 65536 -> 
  left + Z.of_nat (length (take (Z.to_nat ln) (drop (Z.to_nat off) (concat cs)))) <= Z.of_nat (length dp) ->
  copy_partial_loop fuel s o dp ln off left left =
    Ok (splice (Z.to_nat left) (take (Z.to_nat ln) (drop (Z.to_nat off) (concat cs))) dp,
        left + Z.of_nat (length (take (Z.to_nat ln) (drop (Z.to_nat off) (concat cs))))).
Proof.
  revert o l cs dp ln off left.
  induction fuel as [|fuel IH]; intros o l cs dp ln off left Hp Hf Hln Hoff Hleft Hlim Hdp; [lia|].
  destruct l as [|p l], cs as [|c cs]; cbn in Hp; try done.
  { subst o. cbn [copy_partial_loop concat]. rewrite drop_nil, take_nil. cbn. by rewrite splice_nil, Z.add_0_r. }
  destruct Hp as [-> (b&Hb&Hlen&Htot&Ht&Hh&Hp)]. cbn [copy_partial_loop]. cbn in Hf.
  destruct (Z.eqb_spec ln 0) as [->|Hln0].
  { cbn. by rewrite splice_nil, Z.add_0_r. }
  rewrite (deref_ok _ _ _ Hb). cbn [rbind]. cbn [concat] in *.
  assert (Hlb : 0 <= len b < 65536) by (rewrite length_app in Htot; lia).
  destruct (negb (off =? 0) && (len b <=? off)) eqn:Hskip.
  - apply andb_true_iff in Hskip as [Hnz%negb_true_iff%Z.eqb_neq Hge%Z.leb_le].
    rewrite wrap16_small by lia. rewrite drop_app_ge in * by lia.
    replace (Z.to_nat off - length c)%nat with (Z.to_nat (off - len b)) in * by lia.
    apply IH with l; auto; lia.
  - assert (Ho : off <= len b).
    { apply andb_false_iff in Hskip as [Hz%negb_false_iff%Z.eqb_eq|Hlt%Z.leb_gt]; lia. }
    rewrite (wrap16_small (len b - off)) by lia.
    rewrite take_drop_split in * by lia.
    set (k := if ln <? len b - off then ln else len b - off) in *.
    assert (Hk : k = Z.min ln (len b - off)) by (unfold k; destruct (Z.ltb_spec ln (len b - off)); lia).
    clearbody k.
    replace (Nat.min (Z.to_nat ln) (length c - Z.to_nat off)) with (Z.to_nat k) in * by lia.
    replace (Z.to_nat ln - Z.to_nat k)%nat with (Z.to_nat (ln - k)) in * by lia.
    rewrite (ld_holds s b c off k) by (done || lia). cbn [rbind]. rewrite bytes_at_take_drop.
    set (x := take (Z.to_nat k) (drop (Z.to_nat off) c)) in *.
    assert (Hx : length x = Z.to_nat k) by (unfold x; rewrite length_take, length_drop; lia).
    rewrite length_app in Hdp. rewrite wr_in_range by lia. cbn [rbind].
    rewrite !wrap16_small by lia.
    change (drop (Z.to_nat 0) (concat cs)) with (concat cs).
    pose proof (IH (next b) l cs (splice (Z.to_nat left) x dp) (ln - k) 0 (left + k)) as IH'.
    change (drop (Z.to_nat 0) (concat cs)) with (concat cs) in IH'. rewrite IH'; [|done|lia|lia|lia|lia|lia|rewrite length_splice by lia; lia].
    rewrite length_app. f_equal. f_equal; [|lia].
    replace (Z.to_nat (left + k)) with (Z.to_nat left + length x)%nat by lia.
    apply splice_splice. lia.
Qed.

Lemma copy_partial_spec s p l cs dp ln off :
  packet s (Some p) l cs -> 0 <= ln < 65536 -> 0 <= off < 65536 ->
  (length (take (Z.to_nat ln) (drop (Z.to_nat off) (concat cs))) <= length dp)%nat ->
  pbuf_copy_partial (Some p) dp ln off s =
    Ok (splice 0 (take (Z.to_nat ln) (drop (Z.to_nat off) (concat cs))) dp,
        Z.of_nat (length (take (Z.to_nat ln) (drop (Z.to_nat off) (concat cs))))).
Proof.
  intros Hp Hln Hoff Hdp. unfold pbuf_copy_partial.
  rewrite (copy_partial_ok _ s _ l cs) by (done || lia || by eapply packet_fuel). done.
Qed.

(** ** [pbuf_take] *)

(** No two buffers of the chain have their bytes in the same area. *)
Definition separate s (l : list Z) : Prop :=
  forall p q b c a o a' o', p ∈ l -> q ∈ l -> p <> q ->
    pbufs s !! p = Some b -> pbufs s !! q = Some c ->
    payload b = Some (a, o) -> payload c = Some (a', o') -> a <> a'.

(** The areas the chain uses. *)
Definition uses s (l : list Z) (a : Z) : Prop :=
  exists q c o, q ∈ l /\ pbufs s !! q = Some c /\ payload c = Some (a, o).

Lemma packet_ext s s' o l cs :
  pbufs s' = pbufs s -> (forall a, uses s l a -> areas s' !! a = areas s !! a) ->
  packet s o l cs -> packet s' o l cs.
Proof.
  intros Hpb. revert o cs. induction l as [|p l IH]; intros o [|c cs] Ha; cbn [packet]; try done.
  intros [-> (b&Hb&H1&H2&H3&(a&off&bs&Hpay&Har&Hh)&Hp)]. split; [done|]. exists b. rewrite Hpb.
  split_and!; try done.
  - exists a, off, bs. split; [done|]. split; [|done]. rewrite Ha; [done|]. exists p, b, off. set_solver.
  - apply IH; [|done]. intros a' (q&c'&o'&Hq&?&?). apply Ha. exists q, c', o'. set_solver.
Qed.

Lemma separate_tail s p l : separate s (p :: l) -> separate s l.
Proof. unfold separate. intros Hs p' q b c a o a' o' Hp' Hq'. apply Hs; set_solver. Qed.

(** The bytes of a buffer after the first [length d] of them are replaced. *)
Lemma bytes_at_splice bs o n d :
  0 <= o -> 0 <= n -> o + n <= Z.of_nat (length bs) -> Z.of_nat (length d) <= n ->
  bytes_at (splice (Z.to_nat o) d bs) o n = d ++ drop (length d) (bytes_at bs o n).
Proof.
  intros Ho Hn Hb Hd. unfold bytes_at. apply list_eq. intros i. rewrite lookup_slice.
  assert (Hln : length (slice (Z.to_nat o) (Z.to_nat n) bs) = Z.to_nat n) by (apply length_slice; lia).
  case_decide as Hi.
  - rewrite lookup_splice by lia. rewrite decide_False by lia.
    destruct (decide (Z.to_nat o + i < Z.to_nat o + length d)%nat).
    + rewrite lookup_app_l by lia. f_equal. lia.
    + rewrite lookup_app_r by lia. rewrite lookup_drop, lookup_slice, decide_True by lia. f_equal. lia.
  - symmetry. apply lookup_ge_None. rewrite length_app, length_drop. lia.
Qed.

(** The first buffer of a packet with its first bytes replaced. *)
Lemma st_holds s p b l cs c d :
  pbufs s !! p = Some b -> holds s b c -> len b = Z.of_nat (length c) ->
  packet s (next b) l cs -> separate s (p :: l) -> p ∉ l -> (length d <= length c)%nat ->
  exists s', st_bytes s (payload b) 0 d = Ok s' /\ pbufs s' = pbufs s /\
    holds s' b (d ++ drop (length d) c) /\ packet s' (next b) l cs /\
    (forall a, ~ uses s [p] a -> areas s' !! a = areas s !! a).
Proof.
  intros Hb (a&o&bs&Hpay&Ha&Ho&Hlen&Hc) Hl Hp Hsep Hpl Hd. unfold st_bytes, area.
  rewrite Hpay. cbn [not_null rbind]. rewrite Ha. cbn [rbind]. rewrite Z.add_0_r, wr_in_range by lia. cbn [rbind].
  eexists. split; [done|]. split; [done|]. split_and!.
  - exists a, o, (splice (Z.to_nat o) d bs). cbn. rewrite lookup_insert_eq. split_and!; try done.
    + rewrite length_splice by lia. lia.
    + rewrite bytes_at_splice by lia. by rewrite Hc.
  - apply (packet_ext s); [done| |done]. intros a' (q&c'&o'&Hq&Hc'&Hpay'). cbn.
    rewrite lookup_insert_ne; [done|]. eapply (Hsep p q b c' a o a' o'); try done; set_solver.
  - intros a' Hu. cbn. rewrite lookup_insert_ne; [done|]. intros <-. apply Hu. exists p, b, o. set_solver.
Qed.

Lemma take_ok fuel s o l cs dataptr ln cop :
  packet s o l cs -> separate s l -> (length l < fuel)%nat -> 0 <= ln -> 0 <= cop ->
  ln <= Z.of_nat (length (concat cs)) -> cop + ln <= Z.of_nat (length dataptr) ->
  exists s' cs', take_loop fuel o dataptr ln cop s = Ok s' /\ packet s' o l cs' /\ pbufs s' = pbufs s /\
    concat cs' = bytes_at dataptr cop ln ++ drop (Z.to_nat ln) (concat cs) /\
    (length <$> cs') = (length <$> cs) /\
    (forall a, ~ uses s l a -> areas s' !! a = areas s !! a).
Proof.
  revert s o l cs ln cop. induction fuel as [|fuel IH]; intros s o l cs ln cop Hp Hsep Hf Hln Hcop Htot Hd; [lia|].
  cbn [take_loop]. destruct (Z.eqb_spec ln 0) as [->|Hn0]; [by eexists _, cs|].
  destruct l as [|p l], cs as [|c cs]; cbn in Hp; try done; [cbn in Htot; lia|].
  pose proof (linked_nodup (nxt := next) (pbufs s) o (p :: l)) as Hnd.
  destruct Hp as [-> (b&Hb&Hlen&Htl&Ht&Hh&Hp)]. cbn [not_null rbind]. rewrite (deref_ok _ _ _ Hb). cbn [rbind].
  assert (Hpl : p ∉ l). { apply NoDup_cons, Hnd. split; [done|]. exists b. split; [done|]. by eapply packet_chain. }
  cbn [concat] in Htot, Htl |- *. rewrite length_app in Htot, Htl.
  set (k := if len b <? ln then len b else ln).
  assert (Hk : k = Z.min ln (len b)) by (unfold k; destruct (Z.ltb_spec (len b) ln); lia). clearbody k.
  rewrite (proj2 (in_range_spec dataptr cop k)) by lia. cbn [negb].
  set (d := bytes_at dataptr cop k).
  assert (Hdl : length d = Z.to_nat k) by (apply length_bytes_at; lia).
  destruct (st_holds s p b l cs c d) as (s1&->&Hpb&Hh1&Hp1&Hu1); try done; [lia|]. cbn [rbind].
  assert (Hsep1 : separate s1 l) by (apply separate_tail in Hsep; unfold separate in *; by rewrite Hpb).
  destruct (IH s1 (next b) l cs (ln - k) (cop + k)) as (s2&cs2&->&Hp2&Hpb2&Hc2&Hls&Hu2); [done|done|cbn in Hf; lia|lia|lia| |lia|].
  { destruct (Z_lt_ge_dec (len b) ln); lia. }
  exists s2, ((d ++ drop (length d) c) :: cs2). split; [done|].
  assert (Hlc : length (d ++ drop (length d) c) = length c) by (rewrite length_app, length_drop; lia).
  assert (Hcs2 : length (concat cs2) = length (concat cs)).
  { rewrite Hc2, length_app, length_drop. rewrite length_bytes_at by lia. lia. }
  split_and!.
  - cbn [packet]. split; [done|]. exists b. rewrite Hpb2, Hpb, Hlc. cbn [concat]. rewrite length_app, Hlc, Hcs2.
    split_and!; try done; try lia.
    destruct Hh1 as (a&off&bs&Hpay&Ha&?&?&?). exists a, off, bs. split; [done|]. split; [|done].
    rewrite Hu2; [done|]. intros (q&c'&o'&Hq&Hc'&Hpay'). rewrite Hpb in Hc'.
    eapply (Hsep p q b c' a off a o'); try done; set_solver.
  - congruence.
  - cbn [concat]. rewrite Hc2, Hdl. unfold d. destruct (Z_le_gt_dec ln (len b)) as [Hle|Hgt].
    + replace k with ln in * by lia. rewrite Z.sub_diag. change (bytes_at dataptr (cop + ln) 0) with (@nil Z).
      cbn [app]. change (drop (Z.to_nat 0) (concat cs)) with (concat cs).
      rewrite drop_app_le by lia. by rewrite app_assoc.
    + replace k with (len b) in * by lia. rewrite (drop_ge c) by lia. rewrite app_nil_r.
      rewrite drop_app_ge by lia. rewrite app_assoc. f_equal; [|f_equal; lia].
      unfold bytes_at, slice.
      replace (take (Z.to_nat ln) _) with (take (Z.to_nat (len b) + Z.to_nat (ln - len b)) (drop (Z.to_nat cop) dataptr))
        by (f_equal; lia).
      rewrite <- take_take_drop, drop_drop. f_equal. f_equal. f_equal. lia.
  - cbn. by rewrite Hlc, Hls.
  - intros a Ha. rewrite Hu2.
    + apply Hu1. intros (q&c'&o'&Hq&?&?). apply Ha. exists q, c', o'. split; [set_solver|done].
    + intros (q&c'&o'&Hq&Hc'&?). apply Ha. exists q, c', o'. rewrite <- Hpb. split; [set_solver|done].
Qed.
End ops.
