(* ===== verification/PbufPool.v ===== *)
(** * The pool of packet buffers

    Allocation from the pool ([pbuf_alloc] with [PBUF_POOL]) and freeing
    ([pbuf_free]) as operations on the free list. *)

From stdpp Require Import base numbers list decidable gmap.
From Stdlib Require Import ZArith Lia Bool.
From S2P Require Import Prelude Linked LwipMem Pbuf PbufChain.
Open Scope Z_scope.

(** An element of the pool, as [pbuf_free] recognises it. *)
Definition is_pool (b : pbuf) : Prop :=
  pbuf_get_allocsrc b = PBUF_TYPE_ALLOC_SRC_MASK_STD_MEMP_PBUF_POOL /\
  Z.land (flags b) PBUF_FLAG_IS_CUSTOM = 0.

(** A structure in the pool with one reference. *)
Definition single (ps : gmap Z pbuf) (p : Z) : Prop :=
  exists b, ps !! p = Some b /\ ref b = 1 /\ is_pool b.

Lemma wrap8_add a b : wrap8 (wrap8 a + b) = wrap8 (a + b).
Proof. unfold wrap. by rewrite Zplus_mod_idemp_l. Qed.

Lemma chain_insert ps p b o l : p ∉ l -> chain ps o l -> chain (<[p := b]> ps) o l.
Proof. intros Hp. apply linked_ext. intros q Hq. by rewrite lookup_insert_ne by set_solver. Qed.

(** A new end for a chain. *)
Lemma chain_snoc ps o l l0 b0 q bq :
  chain ps o (l ++ [l0]) -> ps !! l0 = Some b0 -> q ∉ l ++ [l0] -> next bq = None ->
  chain (<[l0 := set_next (Some q) b0]> (<[q := bq]> ps)) o ((l ++ [l0]) ++ [q]).
Proof.
  intros Hc Hb0 Hq Hn.
  assert (Hnd : NoDup (l ++ [l0])) by (by eapply linked_nodup).
  revert o Hc Hq Hnd. induction l as [|p l IH]; intros o Hc Hq Hnd; cbn [app chain] in *.
  - destruct Hc as [-> _]. split; [done|]. eexists. rewrite lookup_insert_eq. split; [done|].
    cbn. split; [done|]. exists bq. rewrite lookup_insert_ne, lookup_insert_eq by set_solver. done.
  - destruct Hc as [-> (b&Hb&Hc)]. apply NoDup_cons in Hnd as [Hp Hnd]. split; [done|].
    exists b. rewrite !lookup_insert_ne by set_solver. split; [done|]. apply IH; [done|set_solver|done].
Qed.

Section pool.
Context {H : Type} `{MemHeap H}.
Implicit Types (s : lwip H).

(** What freeing and allocating from the pool leave alone. *)
Definition same_rest s s' : Prop :=
  areas s' = areas s /\ tab_pbuf s' = tab_pbuf s /\ custom_freed s' = custom_freed s /\ heap s' = heap s.

#[local] Instance same_rest_preorder : PreOrder same_rest.
Proof. split; [by intros s|]. intros s1 s2 s3 (?&?&?&?) (?&?&?&?). split_and!; congruence. Qed.

(** Freeing an element of the pool that loses its last reference. *)
Lemma free_step fuel s p b count :
  pbufs s !! p = Some b -> ref b = 1 -> is_pool b ->
  free_loop (S fuel) (Some p) count s =
    free_loop fuel (next b) (wrap8 (count + 1))
      (set_tab_pool (Some p) (set_pbufs (<[p := set_next (tab_pool s) (set_ref 0 b)]> (pbufs s)) s)).
Proof.
  intros Hb Hr [Hsrc Hfl]. cbn [free_loop]. rewrite (deref_ok _ _ _ Hb). cbn [rbind].
  unfold assign. rewrite (deref_ok _ _ _ Hb). cbn [rbind]. rewrite Hr. change (wrap8 (1 - 1) =? 0) with true. cbn match.
  unfold pbuf_dealloc. rewrite Hfl, Hsrc. cbn [Z.eqb negb]. rewrite Z.eqb_refl. cbn match.
  unfold memp_free, assign, deref. cbn [tab pbufs set_pbufs]. rewrite lookup_insert_eq. cbn [rbind].
  rewrite insert_insert_eq. done.
Qed.

(** [pbuf_free] on a chain: the buffers of [l1] lose their last reference and go
    to the front of the free list, the one behind them loses one, and the rest
    of the chain keeps all. *)
Lemma free_loop_pool fuel s o l1 l2 free count :
  chain (pbufs s) o (l1 ++ l2) -> (forall p, p ∈ l1 -> single (pbufs s) p) ->
  (forall p b, head l2 = Some p -> pbufs s !! p = Some b -> wrap8 (ref b - 1) <> 0) ->
  chain (pbufs s) (tab_pool s) free -> (forall p, p ∈ l1 ++ take 1 l2 -> p ∉ free) ->
  (length l1 < fuel)%nat -> 0 <= count < 256 ->
  exists s', free_loop fuel o count s = Ok (wrap8 (count + Z.of_nat (length l1)), s') /\
    chain (pbufs s') (tab_pool s') (rev l1 ++ free) /\ same_rest s s' /\
    pbuf_free_ooseq_pending s' = pbuf_free_ooseq_pending s /\
    (forall p, p ∉ l1 ++ take 1 l2 -> pbufs s' !! p = pbufs s !! p) /\
    (forall p b, p ∈ l1 -> pbufs s !! p = Some b -> exists n, pbufs s' !! p = Some (set_next n (set_ref 0 b))) /\
    (forall p b, head l2 = Some p -> pbufs s !! p = Some b ->
       pbufs s' !! p = Some (set_ref (wrap8 (ref b - 1)) b)).
Proof.
  revert s o l1 free count. induction fuel as [|fuel IH]; intros s o l1 free count Hc Hs Hh Hfree Hdis Hf Hcnt; [lia|].
  destruct l1 as [|p l1].
  - cbn [app length] in *. rewrite Z.add_0_r. rewrite (wrap_small 8) by (split; [lia|change (2 ^ 8) with 256; lia]).
    destruct l2 as [|p l2].
    + cbn in Hc. subst o. cbn. eexists. split; [done|]. split_and!; try done; set_solver.
    + destruct Hc as [-> (b&Hb&Hc)]. cbn [free_loop]. rewrite (deref_ok _ _ _ Hb). cbn [rbind].
      unfold assign. rewrite (deref_ok _ _ _ Hb). cbn [rbind].
      specialize (Hh p b eq_refl Hb). destruct (Z.eqb_spec (wrap8 (ref b - 1)) 0); [done|].
      eexists. split; [done|]. cbn. split_and!; try done.
      * apply chain_insert; [apply Hdis; set_solver|done].
      * intros q Hq. rewrite lookup_insert_ne; [done|]. cbn in Hq. set_solver.
      * set_solver.
      * intros q b' [= <-] Hb'. rewrite Hb in Hb'. injection Hb' as <-. by rewrite lookup_insert_eq.
  - pose proof (linked_nodup _ _ _ Hc) as Hnd. cbn [app] in Hc, Hnd.
    destruct Hc as [-> (b&Hb&Hc)]. apply NoDup_cons in Hnd as [Hpl Hnd].
    destruct (Hs p ltac:(set_solver)) as (b'&Hb'&Hr&Hpool). rewrite Hb in Hb'. injection Hb' as <-.
    rewrite (free_step fuel s p b count Hb Hr Hpool).
    set (s1 := set_tab_pool (Some p) _).
    assert (Hpb1 : pbufs s1 = <[p := set_next (tab_pool s) (set_ref 0 b)]> (pbufs s)) by done.
    assert (Hne : forall q, q ∈ l1 ++ l2 -> p <> q) by (intros q Hq ->; done).
    assert (Hl2 : forall q, q ∈ take 1 l2 -> q ∈ l2) by (intros q Hq; rewrite <- (take_drop 1 l2); set_solver).
    destruct (IH s1 (next b) l1 (p :: free) (wrap8 (count + 1))) as (s'&Hrun&Hc'&Hrest&Hoo&Hout&Hin&Hhd).
    + rewrite Hpb1. by apply chain_insert.
    + intros q Hq. destruct (Hs q ltac:(set_solver)) as (bq&?&?&?). exists bq. rewrite Hpb1.
      rewrite lookup_insert_ne by (apply Hne; set_solver). done.
    + intros q bq Hq. rewrite Hpb1. rewrite lookup_insert_ne; [by apply Hh|].
      apply Hne. destruct l2; [done|]. injection Hq as ->. set_solver.
    + cbn [chain]. split; [done|]. eexists. rewrite Hpb1, lookup_insert_eq. split; [done|]. cbn [next set_next].
      apply chain_insert; [apply Hdis; set_solver|done].
    + intros q Hq. apply not_elem_of_cons. split; [|apply Hdis; set_solver].
      intros ->. eapply Hne; [|done]. set_solver.
    + cbn in Hf. lia.
    + apply wrap8_range.
    + exists s'. rewrite Hrun. split; [f_equal; f_equal; rewrite wrap8_add; f_equal; cbn [length]; lia|].
      cbn [rev]. rewrite <- app_assoc. split; [done|]. split; [done|]. split; [done|]. split_and!.
      * intros q Hq. rewrite Hout by set_solver. rewrite Hpb1. by rewrite lookup_insert_ne by set_solver.
      * intros q bq [->|Hq]%elem_of_cons Hbq.
        -- rewrite Hb in Hbq. injection Hbq as <-. exists (tab_pool s).
           rewrite Hout; [by rewrite Hpb1, lookup_insert_eq|]. intros [Hin'|Hin']%elem_of_app; eapply Hne; try done; set_solver.
        -- apply Hin; [done|]. rewrite Hpb1. rewrite lookup_insert_ne by (apply Hne; set_solver). done.
      * intros q bq Hq Hbq. apply Hhd; [done|]. rewrite Hpb1. rewrite lookup_insert_ne; [done|].
        apply Hne. destruct l2; [done|]. injection Hq as ->. set_solver.
Qed.

(** ** Allocation *)

(** The room in an element behind an offset, and the number of elements for
    [length] bytes. *)
Definition room (offset : Z) : Z := PBUF_POOL_BUFSIZE_ALIGNED - LWIP_MEM_ALIGN_SIZE offset.
Definition need (offset length : Z) : nat :=
  S (Z.to_nat ((length - room offset + (PBUF_POOL_BUFSIZE_ALIGNED - 1)) / PBUF_POOL_BUFSIZE_ALIGNED)).

Lemma need_small off n : 0 < room off -> n <= room off -> need off n = 1%nat.
Proof.
  intros Hr Hn. unfold need. change PBUF_POOL_BUFSIZE_ALIGNED with 1516 in *. f_equal.
  enough ((n - room off + (1516 - 1)) / 1516 <= 0) by lia. apply Z.lt_succ_r, Z.div_lt_upper_bound; lia.
Qed.

Lemma need_large off n : room off < n -> need off n = S (need 0 (n - room off)).
Proof.
  intros Hn. unfold need. f_equal. change (room 0) with 1516. change PBUF_POOL_BUFSIZE_ALIGNED with 1516.
  set (m := n - room off) in *. replace (m + (1516 - 1)) with ((m - 1516 + (1516 - 1)) + 1 * 1516) by lia.
  rewrite Z.div_add by lia. rewrite Z2Nat.inj_add; [|apply Z.div_pos; lia|lia]. cbn. lia.
Qed.

(** The elements [l] have an area of the element's size each. *)
Definition sized s (l : list Z) : Prop :=
  forall q, q ∈ l -> exists bs, areas s !! q = Some bs /\ Z.of_nat (length bs) = PBUF_POOL_BUFSIZE_ALIGNED.

(** A buffer as [pbuf_alloc] initialises it. *)
Definition fresh_pbuf (q off rem qlen : Z) : pbuf :=
  mk_pbuf None (Some (q, LWIP_MEM_ALIGN_SIZE off)) rem qlen (wrap8 (type_code PBUF_POOL)) 0 1 0.

Definition link (lst : option Z) (q : Z) (ps : gmap Z pbuf) : gmap Z pbuf :=
  match lst with
  | Some l => match ps !! l with Some b => <[l := set_next (Some q) b]> ps | None => ps end
  | None => ps
  end.

(** One round of the loop with an element left; [pl] is head and end so far. *)
Lemma pool_step fuel s (pl : option (Z * Z)) rem off q f :
  chain (pbufs s) (tab_pool s) (q :: f) ->
  (forall h l, pl = Some (h, l) -> is_Some (pbufs s !! l) /\ l ∉ q :: f) ->
  0 <= rem < 65536 -> 0 < room off <= PBUF_POOL_BUFSIZE_ALIGNED ->
  exists s1, pbufs s1 = link (snd <$> pl) q (<[q := fresh_pbuf q off rem (Z.min rem (room off))]> (pbufs s)) /\
    chain (pbufs s1) (tab_pool s1) f /\ same_rest s s1 /\
    pbuf_free_ooseq_pending s1 = pbuf_free_ooseq_pending s /\
    pool_loop (S fuel) (fst <$> pl) (snd <$> pl) rem off s =
      (if room off <? rem
       then pool_loop fuel (Some (match pl with Some (h, _) => h | None => q end)) (Some q) (rem - room off) 0 s1
       else Ok (Some (match pl with Some (h, _) => h | None => q end), s1)).
Proof.
  intros Hc Hpl Hrem Hroom. pose proof (linked_nodup _ _ _ Hc) as [Hqf _]%NoDup_cons.
  destruct Hc as [Htab (bq&Hbq&Hc)].
  assert (Hwr : wrap16 (PBUF_POOL_BUFSIZE_ALIGNED - LWIP_MEM_ALIGN_SIZE off) = room off).
  { apply wrap16_small. fold (room off). change PBUF_POOL_BUFSIZE_ALIGNED with 1516 in Hroom. lia. }
  cbn [pool_loop]. unfold memp_malloc. cbn [tab]. rewrite Htab. rewrite (deref_ok _ _ _ Hbq). cbn [rbind set_tab].
  rewrite Hwr. unfold pbuf_init_alloced_pbuf. cbn [pbufs set_tab_pool set_pbufs].
  fold (fresh_pbuf q off rem (Z.min rem (room off))).
  assert (Hrest : forall A (x y : A),
    (if 0 <? wrap16 (rem - Z.min rem (room off)) then x else y) = (if room off <? rem then x else y)).
  { intros A x y. rewrite wrap16_small by lia.
    destruct (Z.ltb_spec 0 (rem - Z.min rem (room off))), (Z.ltb_spec (room off) rem); done || lia. }
  assert (Hr' : room off < rem -> wrap16 (rem - Z.min rem (room off)) = rem - room off).
  { intros. rewrite wrap16_small; lia. }
  destruct pl as [[h l0]|]; cbn [fmap option_fmap option_map fst snd].
  - destruct (Hpl h l0 eq_refl) as [[b0 Hb0] Hl0]. cbn [not_null rbind]. unfold assign, deref.
    cbn [pbufs set_pbufs]. rewrite lookup_insert_ne by set_solver. rewrite Hb0. cbn [rbind link].
    rewrite lookup_insert_ne by set_solver. rewrite Hb0.
    match goal with |- context [pool_loop fuel _ _ _ 0 ?s2] => exists s2 end.
    split; [done|]. cbn -[pool_loop]. split_and!; try done.
    + do 2 (apply chain_insert; [set_solver|]). done.
    + rewrite Hrest. destruct (Z.ltb_spec (room off) rem); [|done]. by rewrite Hr'.
  - cbn [rbind link]. match goal with |- context [pool_loop fuel _ _ _ 0 ?s2] => exists s2 end.
    split; [done|]. cbn -[pool_loop]. split_and!; try done.
    + by apply chain_insert.
    + rewrite Hrest. destruct (Z.ltb_spec (room off) rem); [|done]. by rewrite Hr'.
Qed.

Lemma length_concat_cons (c : list Z) cs : Z.of_nat (length (concat (c :: cs))) = Z.of_nat (length c) + Z.of_nat (length (concat cs)).
Proof. cbn. rewrite length_app. lia. Qed.

(** With enough elements: they are taken from the front of the free list and
    form a packet of the length asked for. *)
Lemma pool_loop_ok fuel s pl rem off f :
  chain (pbufs s) (tab_pool s) f -> sized s f -> (need off rem <= length f)%nat ->
  (forall h l, pl = Some (h, l) -> is_Some (pbufs s !! l) /\ l ∉ f) ->
  0 <= rem < 65536 -> 0 < room off <= PBUF_POOL_BUFSIZE_ALIGNED -> (length f < fuel)%nat ->
  exists q f1 f2 cs s', f = q :: f1 ++ f2 /\ S (length f1) = need off rem /\
    pool_loop fuel (fst <$> pl) (snd <$> pl) rem off s =
      Ok (Some (match pl with Some (h, _) => h | None => q end), s') /\
    packet s' (Some q) (q :: f1) cs /\ Z.of_nat (length (concat cs)) = rem /\
    chain (pbufs s') (tab_pool s') f2 /\ same_rest s s' /\
    pbuf_free_ooseq_pending s' = pbuf_free_ooseq_pending s /\
    (forall p, p ∈ q :: f1 -> single (pbufs s') p) /\
    (forall p, p ∈ q :: f1 -> exists b o, pbufs s' !! p = Some b /\ payload b = Some (p, o)) /\
    (forall p, p ∉ q :: f1 -> Some p <> snd <$> pl -> pbufs s' !! p = pbufs s !! p) /\
    (forall h l b, pl = Some (h, l) -> pbufs s !! l = Some b -> pbufs s' !! l = Some (set_next (Some q) b)).
Proof.
  revert fuel s pl rem off. induction f as [|q f IH]; intros fuel s pl rem off Hc Hsz Hneed Hpl Hrem Hroom Hf.
  { cbn in Hneed. unfold need in Hneed. lia. }
  destruct fuel as [|fuel]; [cbn in Hf; lia|].
  destruct (pool_step fuel s pl rem off q f Hc Hpl Hrem Hroom) as (s1&Hpb1&Hc1&Hrest1&Hoo1&Hrun).
  pose proof (linked_nodup _ _ _ Hc) as [Hqf Hnd]%NoDup_cons.
  set (nb := fresh_pbuf q off rem (Z.min rem (room off))) in *.
  assert (Hq1 : pbufs s1 !! q = Some nb).
  { rewrite Hpb1. destruct pl as [[h l0]|]; cbn; [|by rewrite lookup_insert_eq].
    destruct (Hpl h l0 eq_refl) as [[b0 Hb0] Hl0]. rewrite lookup_insert_ne by set_solver. rewrite Hb0.
    by rewrite lookup_insert_ne, lookup_insert_eq by set_solver. }
  assert (Hold : forall p, p <> q -> Some p <> snd <$> pl -> pbufs s1 !! p = pbufs s !! p).
  { intros p Hpq Hpl'. rewrite Hpb1. destruct pl as [[h l0]|]; cbn in *; [|by rewrite lookup_insert_ne by congruence].
    destruct (Hpl h l0 eq_refl) as [[b0 Hb0] Hl0]. rewrite lookup_insert_ne by set_solver. rewrite Hb0.
    by rewrite !lookup_insert_ne by congruence. }
  assert (Hlast : forall h l b, pl = Some (h, l) -> pbufs s !! l = Some b -> pbufs s1 !! l = Some (set_next (Some q) b)).
  { intros h l b -> Hb. rewrite Hpb1. cbn. destruct (Hpl h l eq_refl) as [_ Hl0].
    rewrite lookup_insert_ne by set_solver. rewrite Hb. by rewrite lookup_insert_eq. }
  destruct (Hsz q ltac:(set_solver)) as (bs&Hbs&Hlb).
  assert (Hal : 0 <= LWIP_MEM_ALIGN_SIZE off) by (unfold room in Hroom; lia).
  assert (Hfit : LWIP_MEM_ALIGN_SIZE off + len nb <= Z.of_nat (length bs)).
  { cbn. rewrite Hlb. unfold room in *. lia. }
  set (c := bytes_at bs (LWIP_MEM_ALIGN_SIZE off) (len nb)).
  assert (Hlc : Z.of_nat (length c) = Z.min rem (room off)).
  { unfold c. rewrite length_bytes_at by done. cbn. lia. }
  rewrite Hrun. destruct (Z.ltb_spec (room off) rem) as [Hmore|Hdone].
  - rewrite need_large in Hneed |- * by done.
    destruct (IH fuel s1 (Some (match pl with Some (h, _) => h | None => q end, q)) (rem - room off) 0)
      as (q'&f1&f2&cs&s'&->&Hn&Hrun'&Hp&Htot&Hc2&Hrest2&Hoo2&Hsin&Hpay&Hold2&Hlast2).
    { done. } { intros x Hx. destruct Hrest1 as (->&_). apply Hsz. set_solver. } { cbn in Hneed. lia. }
    { intros h l [= <- <-]. rewrite Hq1. by split. } { lia. } { by change (room 0) with 1516. } { cbn in Hf. lia. }
    cbn [fmap option_fmap option_map fst snd] in Hrun', Hold2.
    specialize (Hlast2 _ q nb eq_refl Hq1).
    exists q, (q' :: f1), f2, (c :: cs), s'. split; [done|]. split; [cbn; lia|]. split; [by destruct pl as [[]|]|].
    assert (Hareas : areas s' = areas s) by (destruct Hrest1 as (<-&_); by destruct Hrest2).
    split_and!.
    + split; [done|]. eexists. split; [exact Hlast2|]. rewrite length_concat_cons, Htot. cbn [len set_next tot_len nb fresh_pbuf].
      split_and!; try lia; [|exact Hp]. exists q, (LWIP_MEM_ALIGN_SIZE off), bs. rewrite Hareas. by split_and!.
    + rewrite length_concat_cons. lia.
    + done.
    + by etransitivity.
    + congruence.
    + intros p [->|Hp']%elem_of_cons; [|by apply Hsin]. eexists. split; [exact Hlast2|]. by split.
    + intros p [->|Hp']%elem_of_cons; [|by apply Hpay]. eexists _, _. split; [exact Hlast2|]. done.
    + intros p Hp1 Hp2. rewrite Hold2 by (try apply Hold; set_solver). apply Hold; set_solver.
    + intros h l b -> Hb. rewrite Hold2; [by eapply Hlast| |].
      * destruct (Hpl h l eq_refl) as [_ Hl0]. set_solver.
      * destruct (Hpl h l eq_refl) as [_ Hl0]. set_solver.
  - rewrite need_small in Hneed |- * by lia. exists q, [], f, [c], s1.
    split; [done|]. split; [done|]. split; [done|].
    split_and!.
    + split; [done|]. exists nb. rewrite length_concat_cons. cbn [concat length len tot_len nb fresh_pbuf next packet].
      split_and!; try done; try lia. exists q, (LWIP_MEM_ALIGN_SIZE off), bs. destruct Hrest1 as (->&_). by split_and!.
    + rewrite length_concat_cons. cbn. lia.
    + done.
    + done.
    + done.
    + intros p [->|Hp']%elem_of_cons; [|set_solver]. eexists. split; [exact Hq1|]. by split.
    + intros p [->|Hp']%elem_of_cons; [|set_solver]. eexists _, _. split; [exact Hq1|]. done.
    + intros p Hp1 Hp2. apply Hold; set_solver.
    + done.
Qed.

(** Without enough elements: those taken so far ([done], ending in the [last] of
    [pl]) and all others of the free list are given back. *)
Lemma pool_loop_fail fuel s pl done rem off f :
  chain (pbufs s) (tab_pool s) f -> (length f < need off rem)%nat ->
  chain (pbufs s) (fst <$> pl) done -> snd <$> pl = last done ->
  (forall p, p ∈ done -> single (pbufs s) p /\ p ∉ f) ->
  0 <= rem < 65536 -> 0 < room off <= PBUF_POOL_BUFSIZE_ALIGNED -> (length f < fuel)%nat ->
  exists s', pool_loop fuel (fst <$> pl) (snd <$> pl) rem off s = Ok (None, s') /\
    chain (pbufs s') (tab_pool s') (rev (done ++ f)) /\ same_rest s s' /\
    pbuf_free_ooseq_pending s' = true /\
    (forall p, p ∉ done ++ f -> pbufs s' !! p = pbufs s !! p).
Proof.
  revert fuel s pl done rem off. induction f as [|q f IH]; intros fuel s pl done rem off Hc Hneed Hdone Hlast Hs Hrem Hroom Hf;
    (destruct fuel as [|fuel]; [cbn in Hf; lia|]).
  - rewrite app_nil_r. cbn [pool_loop]. unfold memp_malloc. cbn [tab]. rewrite Hc. cbn [rbind].
    destruct (fst <$> pl) as [h|] eqn:Hh.
    + unfold pbuf_free. destruct (free_loop_pool (chain_fuel (set_ooseq_pending true s)) (set_ooseq_pending true s) (Some h) done [] [] 0)
        as (s'&Hrun&Hc'&Hrest&Hoo&Hout&_); try done.
      * by rewrite app_nil_r.
      * intros p Hp. by apply Hs.
      * set_solver.
      * by eapply (chain_fuel_ok (set_ooseq_pending true s)).
      * rewrite app_nil_r in Hc'. rewrite Hrun. cbn [rbind]. exists s'. split_and!; try done.
        intros p Hp. apply Hout. cbn. by rewrite app_nil_r.
    + destruct done; [|by destruct Hdone]. eexists. split; [done|]. by split_and!.
  - destruct (pool_step fuel s pl rem off q f Hc) as (s1&Hpb1&Hc1&Hrest1&Hoo1&Hrun); [|done|done|].
    { intros h l ->. cbn in Hlast. symmetry in Hlast. apply last_Some_elem_of in Hlast.
      destruct (Hs l Hlast) as [(b&->&_) ?]. by split. }
    pose proof (linked_nodup _ _ _ Hc) as [Hqf Hnd]%NoDup_cons.
    assert (Hmore : room off < rem).
    { destruct (Z_lt_ge_dec (room off) rem); [done|]. rewrite need_small in Hneed by lia. cbn in Hneed. lia. }
    rewrite Hrun. destruct (Z.ltb_spec (room off) rem); [|lia].
    rewrite need_large in Hneed by done.
    set (nb := fresh_pbuf q off rem (Z.min rem (room off))) in *.
    assert (Hqd : q ∉ done) by (intros Hq; destruct (Hs q Hq); set_solver).
    (* the chain so far with the new element *)
    assert (Hd1 : chain (pbufs s1) (Some (match pl with Some (h, _) => h | None => q end)) (done ++ [q]) /\
      (forall p, p ∈ done ++ [q] -> single (pbufs s1) p) /\
      (forall p, p ∉ done ++ [q] -> pbufs s1 !! p = pbufs s !! p)).
    { rewrite Hpb1. destruct pl as [[h l0]|]; cbn in Hdone, Hlast |- *.
      - symmetry in Hlast. apply last_Some in Hlast as [done' ->].
        destruct (Hs l0 ltac:(set_solver)) as [(b0&Hb0&Hr0&Hp0) Hl0].
        rewrite lookup_insert_ne by set_solver. rewrite Hb0. split_and!.
        + by apply chain_snoc.
        + intros p [Hp| ->%list_elem_of_singleton]%elem_of_app.
          * destruct (decide (p = l0)) as [->|Hne].
            -- eexists. rewrite lookup_insert_eq. split; [done|]. by split.
            -- unfold single. rewrite !lookup_insert_ne by set_solver. by apply Hs.
          * eexists. rewrite lookup_insert_ne, lookup_insert_eq by set_solver. split; [done|]. by split.
        + intros p Hp. by rewrite !lookup_insert_ne by set_solver.
      - destruct done; [|by destruct Hdone]. cbn [app]. split_and!.
        + split; [done|]. exists nb. by rewrite lookup_insert_eq.
        + intros p ->%list_elem_of_singleton. exists nb. rewrite lookup_insert_eq. split; [done|]. by split.
        + intros p Hp. by rewrite lookup_insert_ne by set_solver. }
    destruct Hd1 as (Hd1&Hs1&Hout1).
    destruct (IH fuel s1 (Some (match pl with Some (h, _) => h | None => q end, q)) (done ++ [q]) (rem - room off) 0)
      as (s'&Hrun'&Hc'&Hrest&Hoo&Hout); try done.
    + cbn in Hneed. lia.
    + by rewrite last_snoc.
    + intros p Hp. split; [by apply Hs1|]. apply elem_of_app in Hp as [Hp| ->%list_elem_of_singleton]; [|done].
      destruct (Hs p Hp). set_solver.
    + lia.
    + cbn in Hf. lia.
    + exists s'. split; [by destruct pl as [[]|]|]. rewrite <- app_assoc in Hc', Hout. split_and!; try done.
      * by etransitivity.
      * intros p Hp. rewrite Hout by done. apply Hout1. set_solver.
Qed.
End pool.
