(* ===== verification/PbufProps.v ===== *)
(** * Properties of packet buffers

    Concatenation and headers on packets, and the theorems on the packet
    buffers of [src/lib/lwip/src/core/pbuf.c]. *)

From stdpp Require Import base numbers list decidable gmap.
From Stdlib Require Import ZArith Lia Bool.
From S2P Require Import Prelude Linked LwipMem Pbuf PbufChain PbufPool.
Open Scope Z_scope.

Section props.
Context {H : Type} `{MemHeap H}.
Implicit Types (s : lwip H).

(** ** Packets under changes elsewhere *)

Lemma packet_frame s s' o l cs :
  areas s' = areas s -> (forall q, q ∈ l -> pbufs s' !! q = pbufs s !! q) ->
  packet s o l cs -> packet s' o l cs.
Proof.
  intros Ha. revert o cs. induction l as [|p l IH]; intros o [|c cs] Hq; cbn [packet]; try done.
  intros [-> (b&Hb&H1&H2&H3&Hh&Hp)]. split; [done|]. exists b. rewrite Hq by set_solver.
  split_and!; try done; [|apply IH; [|done]; intros; apply Hq; set_solver].
  unfold holds in *. by rewrite Ha.
Qed.

Lemma assign_ok s p b (f : pbuf -> pbuf) :
  pbufs s !! p = Some b -> assign p f s = Ok (set_pbufs (<[p := f b]> (pbufs s)) s).
Proof. intros Hb. unfold assign. by rewrite (deref_ok _ _ _ Hb). Qed.

(** ** Concatenation *)

Lemma cat_ok fuel s p l cs t l2 cs2 :
  packet s (Some p) (p :: l) cs -> packet s (Some t) (t :: l2) cs2 ->
  (forall q, q ∈ p :: l -> q ∉ t :: l2) ->
  Z.of_nat (length (concat (cs ++ cs2))) < 65536 -> (length l < fuel)%nat ->
  exists s', (let* (q, s) := cat_loop fuel p t s in
              let* bt := deref s t in
              let* s := assign q (fun b => set_tot_len (wrap16 (tot_len b + tot_len bt)) b) s in
              assign q (set_next (Some t)) s) = Ok s' /\
    packet s' (Some p) ((p :: l) ++ t :: l2) (cs ++ cs2) /\ areas s' = areas s /\
    (forall q, payload <$> pbufs s' !! q = payload <$> pbufs s !! q) /\
    (forall q, q ∉ p :: l -> pbufs s' !! q = pbufs s !! q).
Proof.
  revert s p l cs. induction fuel as [|fuel IH]; intros s p l cs Hp Ht Hdis Htot Hf; [lia|].
  pose proof (linked_nodup _ _ _ (packet_chain _ _ _ _ Hp)) as [Hpl Hnd]%NoDup_cons.
  destruct cs as [|c cs]; [done|]. destruct Hp as [_ (b&Hb&Hlen&Htl&Hlt&Hh&Hp)].
  destruct cs2 as [|c2 cs2]; [done|]. pose proof Ht as [_ (bt&Hbt&_&Htl2&_)].
  rewrite concat_app, length_app in Htot.
  assert (Hpt : p <> t) by (intros ->; apply (Hdis t); set_solver).
  cbn [cat_loop]. rewrite (deref_ok _ _ _ Hb). cbn [rbind].
  destruct l as [|n l], cs as [|c' cs]; try done.
  - (* the last buffer *)
    cbn in Hp. rewrite Hp. cbn [rbind]. rewrite (deref_ok _ _ _ Hbt). cbn [rbind].
    rewrite (assign_ok _ _ _ _ Hb). cbn [rbind].
    rewrite (assign_ok _ p (set_tot_len (wrap16 (tot_len b + tot_len bt)) b)) by apply lookup_insert_eq.
    eexists. split; [done|]. cbn [pbufs set_pbufs]. rewrite insert_insert_eq.
    assert (Hpay : forall q b', payload b' = payload b ->
      payload <$> <[p := b']> (pbufs s) !! q = payload <$> pbufs s !! q).
    { intros q b' Hb'. destruct (decide (q = p)) as [->|]; [|by rewrite lookup_insert_ne].
      by rewrite lookup_insert_eq, Hb; cbn; rewrite Hb'. }
    split_and!; [|done|intros q; by apply Hpay|intros q Hq; by rewrite lookup_insert_ne by set_solver].
    cbn [app]. split; [done|]. eexists. split; [apply lookup_insert_eq|].
    cbn [len tot_len set_next set_tot_len next]. rewrite wrap16_small by lia.
    split_and!; try done.
    + change (concat (c :: c2 :: cs2)) with (c ++ concat (c2 :: cs2)). rewrite length_app.
      cbn [concat] in Htl. rewrite app_nil_r in Htl. lia.
    + lia.
    + eapply (packet_frame s); [done| |exact Ht]. intros q Hq. cbn. rewrite lookup_insert_ne; [done|].
      intros <-. apply (Hdis p); set_solver.
  - (* an inner buffer *)
    pose proof Hp as [Hn _]. rewrite Hn, (deref_ok _ _ _ Hbt). cbn [rbind]. rewrite (assign_ok _ _ _ _ Hb). cbn [rbind].
    set (s1 := set_pbufs _ s).
    assert (Hfr : forall q, q <> p -> pbufs s1 !! q = pbufs s !! q) by (intros q Hq; cbn; by rewrite lookup_insert_ne).
    rewrite Hn in Hp.
    destruct (IH s1 n l (c' :: cs)) as (s'&Hrun&Hp'&Ha&Hpay&Hout).
    + apply (packet_frame s); [done| |done]. intros q Hq. apply Hfr. set_solver.
    + apply (packet_frame s); [done| |done]. intros q Hq. apply Hfr. intros ->. apply (Hdis p); set_solver.
    + intros q Hq. apply Hdis. set_solver.
    + rewrite concat_app, length_app. cbn [concat] in *. rewrite !length_app in *. lia.
    + cbn in Hf. lia.
    + exists s'. split; [exact Hrun|]. split_and!; [|done| |intros q Hq; rewrite Hout by set_solver; apply Hfr; set_solver].
      2: { intros q. rewrite Hpay. destruct (decide (q = p)) as [->|]; [|by rewrite Hfr].
           cbn. by rewrite lookup_insert_eq, Hb. }
      cbn [app]. split; [done|]. eexists. rewrite Hout by done. split; [apply lookup_insert_eq|].
      cbn [len tot_len set_tot_len next]. rewrite wrap16_small by lia. rewrite Hn.
      split_and!; try done.
      * change (concat (c :: c' :: cs ++ c2 :: cs2)) with (concat ((c :: c' :: cs) ++ c2 :: cs2)).
        rewrite concat_app, length_app. lia.
      * lia.
      * unfold holds in *. by rewrite Ha.
Qed.

Lemma pbuf_cat_ok s h l cs t l2 cs2 :
  packet s (Some h) l cs -> packet s (Some t) l2 cs2 -> (forall q, q ∈ l -> q ∉ l2) ->
  Z.of_nat (length (concat (cs ++ cs2))) < 65536 ->
  exists s', pbuf_cat (Some h) (Some t) s = Ok s' /\ packet s' (Some h) (l ++ l2) (cs ++ cs2) /\
    areas s' = areas s /\ (forall q, payload <$> pbufs s' !! q = payload <$> pbufs s !! q) /\
    (forall q, q ∉ l -> pbufs s' !! q = pbufs s !! q).
Proof.
  intros Hp Ht Hdis Htot. pose proof (packet_fuel _ _ _ _ Hp) as Hf.
  destruct l as [|p l]; [by destruct cs|]. destruct l2 as [|t' l2]; [by destruct cs2|].
  assert (h = p) as -> by (destruct cs; [done|]; by destruct Hp as [[= ->] _]).
  assert (t = t') as -> by (destruct cs2; [done|]; by destruct Ht as [[= ->] _]).
  apply (cat_ok (chain_fuel s) s p l cs t' l2 cs2 Hp Ht Hdis Htot). cbn in Hf. lia.
Qed.

(** ** Headers *)

Lemma bytes_at_drop bs o n k :
  0 <= k <= n -> 0 <= o -> bytes_at bs (o + k) (n - k) = drop (Z.to_nat k) (bytes_at bs o n).
Proof.
  intros Hk Ho. unfold bytes_at, slice. rewrite skipn_firstn_comm, drop_drop. f_equal; [lia|]. f_equal. lia.
Qed.

Lemma remove_header_ok s p l c cs n :
  packet s (Some p) (p :: l) (c :: cs) -> 0 < n <= Z.of_nat (length c) ->
  exists s', pbuf_remove_header (Some p) n s = Ok (0, s') /\
    packet s' (Some p) (p :: l) (drop (Z.to_nat n) c :: cs) /\ areas s' = areas s /\
    (forall q, q <> p -> pbufs s' !! q = pbufs s !! q).
Proof.
  intros Hpk Hn. pose proof (linked_nodup _ _ _ (packet_chain _ _ _ _ Hpk)) as [Hpl _]%NoDup_cons.
  destruct Hpk as [_ (b&Hb&Hlen&Htl&Hlt&(a&o&bs&Hpay&Ha&Ho&Hl&Hc)&Hp)].
  rewrite length_concat_cons in Htl.
  unfold pbuf_remove_header. destruct (Z.ltb_spec 65535 n); [lia|]. destruct (Z.eqb_spec n 0); [lia|].
  rewrite wrap16_small, (deref_ok _ _ _ Hb) by lia. cbn [rbind].
  destruct (Z.leb_spec n (len b)); [|lia]. cbn [negb]. rewrite Hpay. cbn [not_null rbind].
  rewrite (assign_ok _ _ _ _ Hb). cbn [rbind]. rewrite !wrap16_small by lia.
  eexists. split; [done|]. split_and!; [|done|intros q Hq; cbn; by rewrite lookup_insert_ne].
  split; [done|]. eexists. split; [apply lookup_insert_eq|].
  cbn [len tot_len set_tot_len set_len set_payload next].
  rewrite length_concat_cons, length_drop. split_and!; try lia.
  - exists a, (o + n), bs. cbn. rewrite <- Hc. split_and!; try done; try lia.
    apply bytes_at_drop; lia.
  - apply (packet_frame s); [done| |done]. intros q Hq. cbn. rewrite lookup_insert_ne; [done|]. set_solver.
Qed.

(** A buffer whose bytes are behind its structure. *)
Definition contiguous_pbuf (b : pbuf) : Prop :=
  Z.land (type_internal b) PBUF_TYPE_FLAG_STRUCT_DATA_CONTIGUOUS <> 0.

Lemma add_after_remove s p l c cs n b :
  packet s (Some p) (p :: l) (c :: cs) -> 0 < n <= Z.of_nat (length c) ->
  pbufs s !! p = Some b -> contiguous_pbuf b ->
  exists s', pbuf_remove_header (Some p) n s = Ok (0, s') /\ pbuf_add_header (Some p) n s' = Ok (0, s).
Proof.
  intros Hpk Hn Hb Hcont.
  destruct Hpk as [_ (b'&Hb'&Hlen&Htl&Hlt&(a&o&bs&Hpay&Ha&Ho&Hl&Hc)&Hp)].
  rewrite Hb in Hb'. injection Hb' as <-. rewrite length_concat_cons in Htl.
  unfold pbuf_remove_header. destruct (Z.ltb_spec 65535 n); [lia|]. destruct (Z.eqb_spec n 0); [lia|].
  rewrite wrap16_small, (deref_ok _ _ _ Hb) by lia. cbn [rbind].
  destruct (Z.leb_spec n (len b)); [|lia]. cbn [negb]. rewrite Hpay. cbn [not_null rbind].
  rewrite (assign_ok _ _ _ _ Hb). cbn [rbind]. rewrite !wrap16_small by lia.
  eexists. split; [done|]. set (b1 := set_tot_len _ _). set (s1 := set_pbufs _ s).
  assert (Hb1 : pbufs s1 !! p = Some b1) by apply lookup_insert_eq.
  unfold pbuf_add_header, pbuf_add_header_impl. destruct (Z.ltb_spec 65535 n); [lia|]. destruct (Z.eqb_spec n 0); [lia|].
  rewrite (deref_ok _ _ _ Hb1). cbn [rbind]. change (type_internal b1) with (type_internal b).
  change (tot_len b1) with (tot_len b - n). rewrite (wrap16_small n), (wrap16_small (n + _)) by lia.
  destruct (Z.ltb_spec (n + (tot_len b - n)) n); [lia|].
  destruct (Z.eqb_spec (Z.land (type_internal b) PBUF_TYPE_FLAG_STRUCT_DATA_CONTIGUOUS) 0); [done|]. cbn [negb].
  change (payload b1) with (Some (a, o + n)). cbn [not_null rbind].
  destruct (Z.ltb_spec (o + n - n) 0); [lia|]. cbn [rbind]. rewrite (assign_ok _ _ _ _ Hb1). cbn [rbind].
  change (tot_len b1) with (tot_len b - n). change (len b1) with (len b - n). rewrite !wrap16_small by lia.
  f_equal. f_equal. unfold s1, b1. cbn [pbufs set_pbufs]. rewrite insert_insert_eq, insert_id; [by destruct s|].
  rewrite Hb. f_equal. destruct b. cbn in *. unfold set_tot_len, set_len, set_payload. cbn.
  f_equal; [(*MARK*)rewrite Hpay; f_equal; f_equal; lia|lia|lia].
Qed.
End props.

(** ** The properties *)

(** C18. Allocation from the pool is all or nothing.  With enough free elements,
    [pbuf_alloc] takes as many as the length and the header room need from the
    front of the free list and returns a packet of exactly that length, each
    buffer with one reference; otherwise it returns null, every element it had
    taken is free again, and the flag for the out-of-sequence queues is set. *)
Theorem pbuf_alloc_pool {H} `{MemHeap H} (s : lwip H) f layer ln :
  chain (pbufs s) (tab_pool s) f -> sized s f -> 0 <= ln < 65536 ->
  exists r s', pbuf_alloc layer ln PBUF_POOL s = Ok (r, s') /\ areas s' = areas s /\
    (forall p, p ∉ f -> pbufs s' !! p = pbufs s !! p) /\
    if bool_decide (need (layer_offset layer) ln <= length f)%nat then
      exists cs, packet s' r (take (need (layer_offset layer) ln) f) cs /\
        Z.of_nat (length (concat cs)) = ln /\
        (forall p, p ∈ take (need (layer_offset layer) ln) f -> single (pbufs s') p) /\
        chain (pbufs s') (tab_pool s') (drop (need (layer_offset layer) ln) f)
    else r = None /\ chain (pbufs s') (tab_pool s') (rev f) /\ pbuf_free_ooseq_pending s' = true.
Proof.
  intros Hc Hsz Hln. unfold pbuf_alloc.
  assert (Hroom : 0 < room (layer_offset layer) <= PBUF_POOL_BUFSIZE_ALIGNED) by (destruct layer; vm_compute; split; done).
  pose proof (chain_fuel_ok s _ _ Hc) as Hf. case_bool_decide as Hneed.
  - destruct (pool_loop_ok (chain_fuel s) s None ln (layer_offset layer) f) as
      (q&f1&f2&cs&s'&->&Hn&Hrun&Hp&Htot&Hc2&Hrest&_&Hs&_&Hout&_); try done.
    exists (Some q), s'. split; [exact Hrun|]. split; [apply Hrest|]. split; [intros p Hp'; apply Hout; set_solver|].
    rewrite <- Hn. cbn [take drop]. rewrite take_app_length, drop_app_length. by exists cs.
  - destruct (pool_loop_fail (chain_fuel s) s None [] ln (layer_offset layer) f) as
      (s'&Hrun&Hc2&Hrest&Hoo&Hout); try done; [lia|set_solver|].
    exists None, s'. split; [exact Hrun|]. split; [apply Hrest|]. split; [done|]. done.
Qed.

Lemma separate_ext {H} (s s' : lwip H) l :
  (forall q, payload <$> pbufs s' !! q = payload <$> pbufs s !! q) -> separate s l -> separate s' l.
Proof.
  intros Hpay Hs p q b c a o a' o' Hp Hq Hne Hb Hc Hpb Hpc.
  pose proof (Hpay p) as H1. pose proof (Hpay q) as H2. rewrite Hb in H1. rewrite Hc in H2.
  destruct (pbufs s !! p) as [b0|] eqn:Hb0; [|done]. destruct (pbufs s !! q) as [c0|] eqn:Hc0; [|done].
  injection H1 as H1. injection H2 as H2. apply (Hs p q b0 c0 a o a' o'); try done; congruence.
Qed.

(** C20. A chain of buffers is one buffer: after two packets are concatenated and
    the whole is filled with [pbuf_take], [pbuf_copy_partial] gives back, for
    every length and offset, exactly the bytes that were put there, however they
    are spread over the buffers, and writes nothing behind them. *)
Theorem chain_is_buffer {H} `{MemHeap H} (s : lwip H) h l cs t l2 cs2 data dp ln off :
  packet s (Some h) l cs -> packet s (Some t) l2 cs2 -> (forall q, q ∈ l -> q ∉ l2) ->
  separate s (l ++ l2) ->
  length data = length (concat (cs ++ cs2)) -> Z.of_nat (length data) < 65536 ->
  0 <= ln < 65536 -> 0 <= off < 65536 ->
  (length (take (Z.to_nat ln) (drop (Z.to_nat off) data)) <= length dp)%nat ->
  exists s1 s2, pbuf_cat (Some h) (Some t) s = Ok s1 /\
    pbuf_take (Some h) data (Z.of_nat (length data)) s1 = Ok (ERR_OK, s2) /\
    pbuf_copy_partial (Some h) dp ln off s2 =
      Ok (splice 0 (take (Z.to_nat ln) (drop (Z.to_nat off) data)) dp,
          Z.of_nat (length (take (Z.to_nat ln) (drop (Z.to_nat off) data)))).
Proof.
  intros Hp Ht Hdis Hsep Hd Hlt Hln Hoff Hdp.
  destruct (pbuf_cat_ok s h l cs t l2 cs2) as (s1&Hcat&Hp1&Ha1&Hpay&_); [done|done|done|lia|].
  pose proof (separate_ext s s1 (l ++ l2) Hpay Hsep) as Hsep1.
  destruct (take_ok (chain_fuel s1) s1 (Some h) (l ++ l2) (cs ++ cs2) data (Z.of_nat (length data)) 0)
    as (s2&cs'&Htake&Hp2&Hpb&Hc&_); [done|done|by eapply packet_fuel|lia|lia|lia|lia|].
  assert (Hdata : concat cs' = data).
  { rewrite Hc, drop_ge, app_nil_r by lia. unfold bytes_at, slice. cbn [Z.to_nat drop]. apply take_ge. lia. }
  exists s1, s2. split; [done|]. split.
  - unfold pbuf_take.
    assert (exists b, pbufs s1 !! h = Some b /\ tot_len b = Z.of_nat (length data)) as (b&Hb&Htl).
    { rewrite Hd. destruct (l ++ l2) as [|x lx], (cs ++ cs2) as [|c cx]; try done.
      destruct Hp1 as [[= <-] (b&Hb&_&Htl&_)]. by exists b. }
    rewrite (deref_ok _ _ _ Hb). cbn [rbind]. rewrite Htl, Z.leb_refl. cbn [negb]. by rewrite Htake.
  - rewrite <- Hdata. apply (copy_partial_spec s2 h (l ++ l2) cs'); [done|lia|lia|by rewrite Hdata].
Qed.

(** Headers: [pbuf_remove_header] by at most the length of the first buffer
    hides exactly that many bytes at the front of the packet, and on a buffer
    whose bytes follow its structure [pbuf_add_header] by the same amount
    restores the state as it was. *)
Theorem header_roundtrip {H} `{MemHeap H} (s : lwip H) p l c cs n b :
  packet s (Some p) (p :: l) (c :: cs) -> 0 < n <= Z.of_nat (length c) ->
  pbufs s !! p = Some b -> contiguous_pbuf b ->
  exists s', pbuf_remove_header (Some p) n s = Ok (0, s') /\
    packet s' (Some p) (p :: l) (drop (Z.to_nat n) c :: cs) /\
    pbuf_add_header (Some p) n s' = Ok (0, s).
Proof.
  intros Hp Hn Hb Hc. destruct (remove_header_ok s p l c cs n Hp Hn) as (s'&Hrun&Hp'&_).
  destruct (add_after_remove s p l c cs n b Hp Hn Hb Hc) as (s''&Hrun'&Hadd). exists s'.
  rewrite Hrun in Hrun'. injection Hrun' as <-. done.
Qed.

(** ** The pool after initialisation *)

(** A heap without memory. *)
#[export] Instance no_heap : MemHeap unit := {|
  mem_malloc _ h := (None, h);
  mem_free _ h := h;
  mem_trim _ _ h := h
|}.

Definition pool_names : list Z := [1; 2; 3; 4].

Definition lwip_boot : lwip unit :=
  memp_init_pool MEMP_PBUF_POOL pool_names
    (mk_lwip ∅ (list_to_map ((fun p => (p, replicate 1516 0)) <$> pool_names)) None None false [] tt).

Lemma boot_chain : chain (pbufs lwip_boot) (tab_pool lwip_boot) [4; 3; 2; 1].
Proof. vm_compute. repeat (split; [reflexivity|eexists; split; [reflexivity|]]). reflexivity. Qed.

Lemma boot_sized : sized lwip_boot [4; 3; 2; 1].
Proof.
  intros q Hq. rewrite !elem_of_cons, elem_of_nil in Hq.
  destruct Hq as [->|[->|[->|[->|[]]]]]; exists (replicate 1516 0); split; reflexivity.
Qed.

Lemma pbuf_alloc_pool_witness :
  (exists r s', pbuf_alloc PBUF_RAW 4000 PBUF_POOL lwip_boot = Ok (r, s') /\
     chain (pbufs s') (tab_pool s') [1]) /\
  (exists s', pbuf_alloc PBUF_TRANSPORT 9000 PBUF_POOL lwip_boot = Ok (None, s') /\
     chain (pbufs s') (tab_pool s') [1; 2; 3; 4]).
Proof.
  split.
  - destruct (pbuf_alloc_pool lwip_boot [4; 3; 2; 1] PBUF_RAW 4000 boot_chain boot_sized) as (r&s'&Hrun&_&_&Hc); [lia|].
    exists r, s'. split; [exact Hrun|]. vm_compute need in Hc.
    destruct Hc as (cs&_&_&_&Hc). exact Hc.
  - destruct (pbuf_alloc_pool lwip_boot [4; 3; 2; 1] PBUF_TRANSPORT 9000 boot_chain boot_sized) as (r&s'&Hrun&_&_&Hc); [lia|].
    vm_compute need in Hc. destruct Hc as (Hr&Hc&_). subst r. exists s'. split; [exact Hrun|exact Hc].
Defined.

(** Two packets: of 1600 bytes in the buffers 4 and 3, and of 100 bytes in 2. *)
Definition alloc_state (ln : Z) (s : lwip unit) : lwip unit :=
  match pbuf_alloc PBUF_RAW ln PBUF_POOL s with Ok (_, s') => s' | Fault _ => s end.
Definition two_packets : lwip unit := alloc_state 100 (alloc_state 1600 lwip_boot).

Lemma packet1 : packet two_packets (Some 4) [4; 3] [replicate 1516 0; replicate 84 0].
Proof.
  split; [reflexivity|]. eexists. split; [vm_compute; reflexivity|]. split; [reflexivity|]. split; [reflexivity|].
  split; [vm_compute; reflexivity|]. split.
  { exists 4, 0, (replicate 1516 0). split; [reflexivity|]. split; [vm_compute; reflexivity|].
    split; [lia|]. split; [vm_compute; discriminate|vm_compute; reflexivity]. }
  split; [reflexivity|]. eexists. split; [vm_compute; reflexivity|]. split; [reflexivity|]. split; [reflexivity|].
  split; [vm_compute; reflexivity|]. split; [|reflexivity].
  exists 3, 0, (replicate 1516 0). split; [reflexivity|]. split; [vm_compute; reflexivity|].
  split; [lia|]. split; [vm_compute; discriminate|vm_compute; reflexivity].
Qed.

Lemma packet2 : packet two_packets (Some 2) [2] [replicate 100 0].
Proof.
  split; [reflexivity|]. eexists. split; [vm_compute; reflexivity|]. split; [reflexivity|]. split; [reflexivity|].
  split; [vm_compute; reflexivity|]. split; [|reflexivity].
  exists 2, 0, (replicate 1516 0). split; [reflexivity|]. split; [vm_compute; reflexivity|].
  split; [lia|]. split; [vm_compute; discriminate|vm_compute; reflexivity].
Qed.

Lemma two_packets_areas p b :
  p ∈ [4; 3; 2] -> pbufs two_packets !! p = Some b -> payload b = Some (p, 0).
Proof.
  intros Hp Hb. rewrite !elem_of_cons, elem_of_nil in Hp.
  assert (H4 : payload <$> pbufs two_packets !! 4 = Some (Some (4, 0))) by (vm_compute; reflexivity).
  assert (H3 : payload <$> pbufs two_packets !! 3 = Some (Some (3, 0))) by (vm_compute; reflexivity).
  assert (H2 : payload <$> pbufs two_packets !! 2 = Some (Some (2, 0))) by (vm_compute; reflexivity).
  destruct Hp as [->|[->|[->|[]]]]; [rewrite Hb in H4; by injection H4|rewrite Hb in H3; by injection H3|
    rewrite Hb in H2; by injection H2].
Qed.

Lemma two_packets_separate : separate two_packets [4; 3; 2].
Proof.
  intros p q b c a o a' o' Hp Hq Hne Hb Hc Hpb Hpc.
  pose proof (two_packets_areas p b Hp Hb). pose proof (two_packets_areas q c Hq Hc). congruence.
Qed.

Lemma chain_is_buffer_witness :
  exists s1 s2, pbuf_cat (Some 4) (Some 2) two_packets = Ok s1 /\
    pbuf_take (Some 4) (replicate 1700 7) 1700 s1 = Ok (ERR_OK, s2) /\
    pbuf_copy_partial (Some 4) (replicate 300 0) 200 1450 s2 = Ok (replicate 200 7 ++ replicate 100 0, 200).
Proof.
  destruct (chain_is_buffer two_packets 4 [4; 3] _ 2 [2] _ (replicate 1700 7) (replicate 300 0) 200 1450 packet1 packet2)
    as (s1&s2&H1&H2&H3).
  - set_solver.
  - exact two_packets_separate.
  - reflexivity.
  - vm_compute. reflexivity.
  - lia.
  - lia.
  - vm_compute. lia.
  - exists s1, s2. split; [exact H1|]. split; [exact H2|]. exact H3.
Defined.

Lemma header_roundtrip_witness :
  exists s', pbuf_remove_header (Some 4) 14 two_packets = Ok (0, s') /\
    pbuf_add_header (Some 4) 14 s' = Ok (0, two_packets).
Proof.
  destruct (header_roundtrip two_packets 4 [3] (replicate 1516 0) [replicate 84 0] 14
    (mk_pbuf (Some 3) (Some (4, 0)) 1600 1516 130 0 1 0) packet1) as (s'&H1&_&H2).
  - vm_compute. split; [reflexivity|discriminate].
  - vm_compute. reflexivity.
  - vm_compute. discriminate.
  - exists s'. split; [exact H1|exact H2].
Defined.
