(* ===== verification/PbufFree.v ===== *)
(** * Freeing packet buffers of every kind

    [pbuf_free] on a chain in which buffers of the pool, references, buffers of
    the heap and custom buffers are mixed. *)

From stdpp Require Import base numbers list decidable gmap.
From Stdlib Require Import ZArith Lia Bool.
From S2P Require Import Prelude Linked LwipMem Pbuf PbufChain PbufPool PbufProps.
Open Scope Z_scope.

(** Where the memory of a buffer comes from. *)
Inductive origin : Type :=
| FromCustom
| FromPool
| FromMemp
| FromHeap
| FromElsewhere.

#[export] Instance origin_eq_dec : EqDecision origin.
Proof. solve_decision. Defined.

(** The custom flag comes first, then the allocation source. *)
Definition origin_of (b : pbuf) : origin :=
  if negb (Z.land (flags b) PBUF_FLAG_IS_CUSTOM =? 0) then FromCustom
  else if pbuf_get_allocsrc b =? PBUF_TYPE_ALLOC_SRC_MASK_STD_MEMP_PBUF_POOL then FromPool
  else if pbuf_get_allocsrc b =? PBUF_TYPE_ALLOC_SRC_MASK_STD_MEMP_PBUF then FromMemp
  else if pbuf_get_allocsrc b =? PBUF_TYPE_ALLOC_SRC_MASK_STD_HEAP then FromHeap
  else FromElsewhere.

(** The buffers of [l] with the origin [k]. *)
Definition picked (ps : gmap Z pbuf) (k : origin) (l : list Z) : list Z :=
  filter (fun p => origin_of <$> ps !! p = Some k) l.

Section free.
Context {H : Type} `{MemHeap H}.
Implicit Types (s : lwip H).

(** The structure of [p] after it has lost its last reference: linked into the
    free list of its pool, gone with the heap block, or left alone. *)
Definition struct_after s (b : pbuf) : option pbuf :=
  match origin_of b with
  | FromPool => Some (set_next (tab_pool s) (set_ref 0 b))
  | FromMemp => Some (set_next (tab_pbuf s) (set_ref 0 b))
  | FromHeap => None
  | FromCustom | FromElsewhere => Some (set_ref 0 b)
  end.

(** What the release of [p] does to the rest of the memory. *)
Record released s (p : Z) (b : pbuf) s' : Prop := {
  re_struct : pbufs s' !! p = struct_after s b;
  re_others q : q <> p -> pbufs s' !! q = pbufs s !! q;
  re_pool : tab_pool s' = if decide (origin_of b = FromPool) then Some p else tab_pool s;
  re_memp : tab_pbuf s' = if decide (origin_of b = FromMemp) then Some p else tab_pbuf s;
  re_custom : custom_freed s' = custom_freed s ++ if decide (origin_of b = FromCustom) then [p] else [];
  re_heap : heap s' = if decide (origin_of b = FromHeap) then mem_free p (heap s) else heap s;
  re_areas : areas s' = if decide (origin_of b = FromHeap) then delete p (areas s) else areas s
}.

(** One round of the loop for a buffer with one reference. *)
Lemma free_step_any fuel s p b count :
  pbufs s !! p = Some b -> ref b = 1 ->
  exists s', free_loop (S fuel) (Some p) count s = free_loop fuel (next b) (wrap8 (count + 1)) s' /\
    released s p b s'.
Proof.
  intros Hb Hr. cbn [free_loop]. rewrite (deref_ok _ _ _ Hb). cbn [rbind].
  unfold assign at 1. rewrite (deref_ok _ _ _ Hb). cbn [rbind]. rewrite Hr. change (wrap8 (1 - 1)) with 0. cbn [Z.eqb].
  unfold pbuf_dealloc.
  destruct (negb (Z.land (flags b) PBUF_FLAG_IS_CUSTOM =? 0)) eqn:Hfl;
    [|destruct (pbuf_get_allocsrc b =? PBUF_TYPE_ALLOC_SRC_MASK_STD_MEMP_PBUF_POOL) eqn:H1;
      [|destruct (pbuf_get_allocsrc b =? PBUF_TYPE_ALLOC_SRC_MASK_STD_MEMP_PBUF) eqn:H2;
        [|destruct (pbuf_get_allocsrc b =? PBUF_TYPE_ALLOC_SRC_MASK_STD_HEAP) eqn:H3]]];
    assert (Ho : origin_of b = _) by (unfold origin_of; rewrite ?Hfl, ?H1, ?H2, ?H3; reflexivity);
    unfold memp_free, assign, deref; cbn [tab pbufs set_pbufs]; rewrite ?lookup_insert_eq; cbn [rbind];
    (eexists; split; [reflexivity|]; split; unfold struct_after; rewrite ?Ho;
     cbn [pbufs areas tab_pool tab_pbuf custom_freed heap set_pbufs set_areas set_tab set_tab_pool set_tab_pbuf
          set_custom_freed set_heap];
     rewrite ?decide_True, ?decide_False by done; rewrite ?app_nil_r; try done;
     [by rewrite ?insert_insert_eq, ?lookup_insert_eq, ?lookup_delete_eq
     |intros q Hq; by rewrite ?insert_insert_eq, ?lookup_delete_ne, ?lookup_insert_ne by done]).
Qed.

Lemma picked_ext (ps ps' : gmap Z pbuf) k l :
  (forall q, q ∈ l -> ps' !! q = ps !! q) -> picked ps' k l = picked ps k l.
Proof.
  intros Hl. unfold picked. induction l as [|q l IH]; [done|]. rewrite !filter_cons.
  rewrite (Hl q) by set_solver. rewrite IH; [done|]. intros. apply Hl. set_solver.
Qed.

Lemma picked_cons ps k p b l :
  ps !! p = Some b -> picked ps k (p :: l) = (if decide (origin_of b = k) then [p] else []) ++ picked ps k l.
Proof.
  intros Hb. unfold picked. rewrite filter_cons, Hb. cbn.
  destruct (decide (Some (origin_of b) = Some k)) as [E|E]; destruct (decide (origin_of b = k)); try done; congruence.
Qed.

Lemma picked_elem ps k l q : q ∈ picked ps k l -> q ∈ l.
Proof. unfold picked. by intros [_ ?]%list_elem_of_filter. Qed.

(** The memory after the buffers of [l] have been released one after the other;
    [fp] and [fm] are the free lists of the two pools before. *)
Record all_released s (l fp fm : list Z) s' : Prop := {
  ar_pool : chain (pbufs s') (tab_pool s') (rev (picked (pbufs s) FromPool l) ++ fp);
  ar_memp : chain (pbufs s') (tab_pbuf s') (rev (picked (pbufs s) FromMemp l) ++ fm);
  ar_custom : custom_freed s' = custom_freed s ++ picked (pbufs s) FromCustom l;
  ar_heap : heap s' = foldl (fun h p => mem_free p h) (heap s) (picked (pbufs s) FromHeap l);
  ar_areas a : areas s' !! a = if decide (a ∈ picked (pbufs s) FromHeap l) then None else areas s !! a;
  ar_structs p b : p ∈ l -> pbufs s !! p = Some b ->
    if decide (origin_of b = FromHeap) then pbufs s' !! p = None
    else exists n, pbufs s' !! p = Some (set_next n (set_ref 0 b))
}.

(** The free list of a pool after one release. *)
Lemma released_chain s p b s' fp (t t' : option Z) k :
  released s p b s' -> chain (pbufs s) t fp -> p ∉ fp ->
  t' = (if decide (origin_of b = k) then Some p else t) ->
  (origin_of b = k -> struct_after s b = Some (set_next t (set_ref 0 b))) ->
  chain (pbufs s') t' ((if decide (origin_of b = k) then [p] else []) ++ fp).
Proof.
  intros Hre Hc Hp -> Hst.
  assert (Hc' : chain (pbufs s') t fp).
  { revert Hc. apply linked_ext. intros q Hq. rewrite (re_others _ _ _ _ Hre) by set_solver. done. }
  case_decide as Hk; [|done]. split; [done|].
  exists (set_next t (set_ref 0 b)). split; [|exact Hc'].
  rewrite (re_struct _ _ _ _ Hre). by apply Hst.
Qed.

Lemma released_then s p b s1 l fp fm s' :
  released s p b s1 -> pbufs s !! p = Some b -> p ∉ l ->
  all_released s1 l ((if decide (origin_of b = FromPool) then [p] else []) ++ fp)
    ((if decide (origin_of b = FromMemp) then [p] else []) ++ fm) s' ->
  pbufs s' !! p = pbufs s1 !! p ->
  all_released s (p :: l) fp fm s'.
Proof.
  intros Hre Hb Hp [Hpool Hmemp Hcus Hheap Har Hst] Hkeep.
  assert (Hpk : forall k, picked (pbufs s1) k l = picked (pbufs s) k l).
  { intros k. apply picked_ext. intros q Hq. apply (re_others _ _ _ _ Hre). set_solver. }
  rewrite !Hpk in *.
  split; rewrite ?(picked_cons _ _ _ _ _ Hb).
  - rewrite rev_app_distr, <- app_assoc. by destruct (decide (origin_of b = FromPool)).
  - rewrite rev_app_distr, <- app_assoc. by destruct (decide (origin_of b = FromMemp)).
  - by rewrite Hcus, (re_custom _ _ _ _ Hre), <- app_assoc.
  - rewrite Hheap, (re_heap _ _ _ _ Hre), foldl_app. by destruct (decide (origin_of b = FromHeap)).
  - intros a. rewrite Har, (re_areas _ _ _ _ Hre).
    destruct (decide (origin_of b = FromHeap)); [|done]. cbn [app].
    destruct (decide (a = p)) as [->|Ha].
    + rewrite lookup_delete_eq, (decide_True (P := p ∈ p :: _)) by set_solver. by destruct (decide (p ∈ picked (pbufs s) FromHeap l)).
    + rewrite lookup_delete_ne by done.
      destruct (decide (a ∈ picked _ _ _)), (decide (a ∈ p :: _)); set_solver.
  - intros q bq [->|Hq]%elem_of_cons Hbq.
    + rewrite Hb in Hbq. injection Hbq as <-. rewrite Hkeep, (re_struct _ _ _ _ Hre).
      unfold struct_after. destruct b; destruct (origin_of _); cbn; try done; by eexists.
    + apply Hst; [done|]. rewrite (re_others _ _ _ _ Hre); [done|]. set_solver.
Qed.

(** The loop on a chain whose buffers before [l2] have one reference. *)
Lemma free_loop_any fuel s o l1 l2 fp fm count :
  chain (pbufs s) o (l1 ++ l2) -> (forall p b, p ∈ l1 -> pbufs s !! p = Some b -> ref b = 1) ->
  (forall p b, head l2 = Some p -> pbufs s !! p = Some b -> wrap8 (ref b - 1) <> 0) ->
  chain (pbufs s) (tab_pool s) fp -> chain (pbufs s) (tab_pbuf s) fm ->
  (forall p, p ∈ l1 ++ take 1 l2 -> p ∉ fp ++ fm) ->
  (length l1 < fuel)%nat -> 0 <= count < 256 ->
  exists s', free_loop fuel o count s = Ok (wrap8 (count + Z.of_nat (length l1)), s') /\
    all_released s l1 fp fm s' /\
    (forall p, p ∉ l1 ++ take 1 l2 -> pbufs s' !! p = pbufs s !! p) /\
    (forall p b, head l2 = Some p -> pbufs s !! p = Some b ->
       pbufs s' !! p = Some (set_ref (wrap8 (ref b - 1)) b)).
Proof.
  revert s o l1 fp fm count. induction fuel as [|fuel IH]; intros s o l1 fp fm count Hc Hs Hh Hfp Hfm Hdis Hf Hcnt; [lia|].
  destruct l1 as [|p l1].
  - cbn [app length] in *. rewrite Z.add_0_r. rewrite (wrap_small 8) by (split; [lia|change (2 ^ 8) with 256; lia]).
    destruct l2 as [|p l2].
    + cbn in Hc. subst o. cbn. exists s. split; [done|]. split; [|done].
      split; cbn; rewrite ?app_nil_r; try done. set_solver.
    + destruct Hc as [-> (b&Hb&Hc)]. cbn [free_loop]. rewrite (deref_ok _ _ _ Hb). cbn [rbind].
      unfold assign. rewrite (deref_ok _ _ _ Hb). cbn [rbind].
      specialize (Hh p b eq_refl Hb). destruct (Z.eqb_spec (wrap8 (ref b - 1)) 0); [done|].
      eexists. split; [done|]. split; [|split].
      * split; cbn; rewrite ?app_nil_r; try done;
          [apply chain_insert; [specialize (Hdis p); set_solver|done]..|set_solver].
      * intros q Hq. cbn. rewrite lookup_insert_ne; [done|]. cbn in Hq. set_solver.
      * intros q b' [= <-] Hb'. rewrite Hb in Hb'. injection Hb' as <-. cbn. by rewrite lookup_insert_eq.
  - pose proof (linked_nodup _ _ _ Hc) as Hnd. cbn [app] in Hc, Hnd.
    destruct Hc as [-> (b&Hb&Hc)]. apply NoDup_cons in Hnd as [Hpl Hnd].
    destruct (free_step_any fuel s p b count Hb) as (s1&->&Hre); [apply (Hs p); [set_solver|done]|].
    assert (Hoth : forall q, q ∈ l1 ++ l2 -> pbufs s1 !! q = pbufs s !! q).
    { intros q Hq. apply (re_others _ _ _ _ Hre). intros ->. done. }
    assert (Hl2 : forall q, q ∈ take 1 l2 -> q ∈ l2) by (intros q Hq; rewrite <- (take_drop 1 l2); set_solver).
    destruct (IH s1 (next b) l1 ((if decide (origin_of b = FromPool) then [p] else []) ++ fp)
      ((if decide (origin_of b = FromMemp) then [p] else []) ++ fm) (wrap8 (count + 1))) as (s'&Hrun&Hall&Hout&Hhd).
    + revert Hc. apply linked_ext. intros q Hq. by rewrite Hoth.
    + intros q bq Hq. rewrite Hoth by set_solver. apply Hs. set_solver.
    + intros q bq Hq. rewrite Hoth; [by apply Hh|]. destruct l2; [done|]. injection Hq as ->. set_solver.
    + eapply released_chain; [done|done|specialize (Hdis p); set_solver|apply (re_pool _ _ _ _ Hre)|].
      intros Ho. unfold struct_after. by rewrite Ho.
    + eapply released_chain; [done|done|specialize (Hdis p); set_solver|apply (re_memp _ _ _ _ Hre)|].
      intros Ho. unfold struct_after. by rewrite Ho.
    + intros q Hq. assert (q <> p) by (intros ->; apply Hpl; set_solver).
      assert (q ∉ fp ++ fm) by (apply Hdis; set_solver). repeat case_decide; set_solver.
    + cbn in Hf. lia.
    + apply wrap8_range.
    + exists s'. rewrite Hrun, wrap8_add. split; [do 2 f_equal; f_equal; cbn [length]; lia|].
      assert (Hp1 : p ∉ l1 ++ take 1 l2) by set_solver.
      split; [|split].
      * eapply released_then; [done|done|set_solver|exact Hall|by apply Hout].
      * intros q Hq. rewrite Hout by set_solver. apply (re_others _ _ _ _ Hre). set_solver.
      * intros q bq Hq Hbq. apply Hhd; [done|]. rewrite Hoth; [done|]. destruct l2; [done|]. injection Hq as ->. set_solver.
Qed.
End free.

(** C19. Freeing a chain of buffers of any kinds follows the reference counts.
    [pbuf_free] releases exactly the buffers before the first one that has
    another reference and returns their number (modulo 256), each to where it
    comes from: elements of the pool and references to the front of the free
    list of their pool, the last of them first, blocks of the heap to [mem_free]
    with their structure and bytes gone, and custom buffers to their own
    function; the buffer behind them loses one reference, and no other structure,
    area or list changes. *)
Theorem pbuf_free_chain {H} `{MemHeap H} (s : lwip H) o l1 l2 fp fm :
  chain (pbufs s) o (l1 ++ l2) -> (forall p b, p ∈ l1 -> pbufs s !! p = Some b -> ref b = 1) ->
  (forall p b, head l2 = Some p -> pbufs s !! p = Some b -> 1 < ref b < 256) ->
  chain (pbufs s) (tab_pool s) fp -> chain (pbufs s) (tab_pbuf s) fm ->
  (forall p, p ∈ l1 ++ l2 -> p ∉ fp ++ fm) ->
  exists s', pbuf_free o s = Ok (wrap8 (Z.of_nat (length l1)), s') /\
    all_released s l1 fp fm s' /\
    (forall p b, head l2 = Some p -> pbufs s !! p = Some b -> pbufs s' !! p = Some (set_ref (ref b - 1) b)) /\
    (forall p, p ∉ l1 ++ take 1 l2 -> pbufs s' !! p = pbufs s !! p).
Proof.
  intros Hc Hs Hr Hfp Hfm Hdis. pose proof (chain_fuel_ok s _ _ Hc) as Hf. rewrite length_app in Hf.
  assert (Hsmall : forall r, 1 < r < 256 -> wrap8 (r - 1) = r - 1).
  { intros r Hr'. apply wrap_small. split; [lia|]. change (2 ^ 8) with 256. lia. }
  destruct (free_loop_any (chain_fuel s) s o l1 l2 fp fm 0) as (s'&Hrun&Hall&Hout&Hhd); try done.
  - intros p b Hp Hb. specialize (Hr p b Hp Hb). rewrite Hsmall; lia.
  - intros p Hp. apply Hdis. apply elem_of_app in Hp as [?|Hp]; [set_solver|].
    apply elem_of_app. right. rewrite <- (take_drop 1 l2). set_solver.
  - lia.
  - exists s'. split; [exact Hrun|]. split; [done|]. split; [|done].
    intros p b Hp Hb. rewrite (Hhd p b Hp Hb). by rewrite Hsmall by eauto.
Qed.

(** A chain of all kinds: an element of the pool (11), a block of the heap (12), a
    reference (13), a custom buffer (14), and a buffer of the pool that somebody
    else holds as well (15).  The elements 1 and 2 are free. *)
Definition mixed : lwip unit :=
  mk_lwip
    (list_to_map
       [(11, mk_pbuf (Some 12) (Some (11, 0)) 20 4 (type_code PBUF_POOL) 0 1 0);
        (12, mk_pbuf (Some 13) (Some (12, 16)) 16 4 (type_code PBUF_RAM) 0 1 0);
        (13, mk_pbuf (Some 14) (Some (50, 0)) 12 4 (type_code PBUF_REF) 0 1 0);
        (14, mk_pbuf (Some 15) (Some (51, 0)) 8 4 (type_code PBUF_REF) PBUF_FLAG_IS_CUSTOM 1 0);
        (15, mk_pbuf None (Some (15, 0)) 4 4 (type_code PBUF_POOL) 0 2 0);
        (1, mk_pbuf None None 0 0 0 0 0 0); (2, mk_pbuf None None 0 0 0 0 0 0)])
    (list_to_map [(11, replicate 8 0); (12, replicate 20 0); (50, replicate 4 0); (51, replicate 4 0); (15, replicate 8 0)])
    (Some 1) (Some 2) false [] tt.

Lemma pbuf_free_chain_witness :
  exists s', pbuf_free (Some 11) mixed = Ok (4, s') /\
    chain (pbufs s') (tab_pool s') [11; 1] /\ chain (pbufs s') (tab_pbuf s') [13; 2] /\
    custom_freed s' = [14] /\ areas s' !! 12 = None /\ pbufs s' !! 12 = None /\
    pbufs s' !! 15 = Some (mk_pbuf None (Some (15, 0)) 4 4 (type_code PBUF_POOL) 0 1 0).
Proof.
  destruct (pbuf_free_chain mixed (Some 11) [11; 12; 13; 14] [15] [1] [2]) as (s'&Hrun&Hall&Hhd&_).
  - vm_compute. repeat (split; [reflexivity|eexists; split; [reflexivity|]]). reflexivity.
  - intros p b Hp Hb. repeat (apply elem_of_cons in Hp as [->|Hp]; [vm_compute in Hb; injection Hb as <-; reflexivity|]).
    by apply elem_of_nil in Hp.
  - intros p b Hp Hb. injection Hp as <-. vm_compute in Hb. injection Hb as <-. cbn. lia.
  - vm_compute. repeat (split; [reflexivity|eexists; split; [reflexivity|]]). reflexivity.
  - vm_compute. repeat (split; [reflexivity|eexists; split; [reflexivity|]]). reflexivity.
  - set_solver.
  - exists s'. split; [exact Hrun|]. split; [exact (ar_pool _ _ _ _ _ Hall)|]. split; [exact (ar_memp _ _ _ _ _ Hall)|].
    split; [exact (ar_custom _ _ _ _ _ Hall)|].
    split; [rewrite (ar_areas _ _ _ _ _ Hall 12); vm_compute; reflexivity|].
    split; [exact (ar_structs _ _ _ _ _ Hall 12 (mk_pbuf (Some 13) (Some (12, 16)) 16 4 (type_code PBUF_RAM) 0 1 0)
              ltac:(set_solver) eq_refl)|].
    apply (Hhd 15 (mk_pbuf None (Some (15, 0)) 4 4 (type_code PBUF_POOL) 0 2 0)); vm_compute; reflexivity.
Defined.
