(* ===== verification/OnesComp.v ===== *)
(** * One's complement sums of 16-bit words

    The reference for the checksums of [src/lib/lwip/src/core/inet_chksum.c]:
    the Internet checksum of RFC 1071 on a list of bytes, and the arithmetic
    that relates it to sums of words of either byte order.  Numbers that are
    congruent modulo 65535 and zero together have the same one's complement
    sum; since 65536 is congruent to 1, the sum of the little-endian words of
    some bytes is congruent to their value as one little-endian number. *)

From stdpp Require Import base numbers list decidable.
From Stdlib Require Import ZArith Lia Bool RelationClasses Morphisms.
From S2P Require Import Prelude.
Open Scope Z_scope.

(** ** The Internet checksum *)

(** Addition with end-around carry. *)
Definition oc_add (x y : Z) : Z := if 0xffff <? x + y then x + y - 0xffff else x + y.

(** The bytes as words in network order; a last single byte is padded with zero. *)
Fixpoint be_words (bs : list Z) : list Z :=
  match bs with
  | [] => []
  | [a] => [256 * a]
  | a :: b :: bs => 256 * a + b :: be_words bs
  end.

Definition oc_sum (ws : list Z) : Z := foldr oc_add 0 ws.

(** The checksum of RFC 1071, as the two bytes that are sent. *)
Definition rfc1071 (bs : list Z) : list Z :=
  let c := 0xffff - oc_sum (be_words bs) in [c / 256; c mod 256].

(** ** Numbers with the same one's complement sum *)

Definition congr (n m : Z) : Prop :=
  0 <= n /\ 0 <= m /\ n mod 65535 = m mod 65535 /\ (n = 0 <-> m = 0).

Lemma congr_refl n : 0 <= n -> congr n n.
Proof. by repeat split. Qed.

#[export] Instance congr_per : PER congr.
Proof.
  split.
  - intros n m (?&?&?&?). repeat split; tauto || lia.
  - intros n m k (?&?&?&?) (?&?&?&?). repeat split; tauto || lia.
Qed.

#[export] Instance congr_add : Proper (congr ==> congr ==> congr) Z.add.
Proof.
  intros n m (?&?&Hm&?) n' m' (?&?&Hm'&?). split; [lia|]. split; [lia|]. split; [|lia].
  by rewrite Z.add_mod, Hm, Hm', <- Z.add_mod by lia.
Qed.

#[export] Instance congr_mul : Proper (congr ==> congr ==> congr) Z.mul.
Proof.
  intros n m (?&?&Hm&?) n' m' (?&?&Hm'&?). split; [nia|]. split; [nia|]. split; [|rewrite !Z.mul_eq_0; tauto].
  by rewrite Z.mul_mod, Hm, Hm', <- Z.mul_mod by lia.
Qed.

(** Two 16-bit words that are congruent are equal. *)
Lemma congr_word n m : n <= 65535 -> m <= 65535 -> congr n m -> n = m.
Proof.
  intros Hn Hm (H0&H1&Hmod&Hz).
  destruct (decide (n = 65535)) as [->|]; destruct (decide (m = 65535)) as [->|]; try done.
  - rewrite (Z.mod_small m) in Hmod by lia. change (65535 mod 65535) with 0 in Hmod. lia.
  - rewrite (Z.mod_small n) in Hmod by lia. change (65535 mod 65535) with 0 in Hmod. lia.
  - by rewrite !Z.mod_small in Hmod by lia.
Qed.

Lemma congr_mod n m k : 0 <= n -> 0 <= m -> (n = 0 <-> m = 0) -> n = m + k * 65535 -> congr n m.
Proof. intros. subst n. repeat split; try tauto. by rewrite Z.mod_add by lia. Qed.

(** Swapping bytes twice does nothing. *)
Lemma congr_square n : 0 <= n -> congr (256 * (256 * n)) n.
Proof. intros. apply (congr_mod _ _ n); lia. Qed.

Lemma pow256_parity k : congr (256 ^ Z.of_nat k) (if Nat.odd k then 256 else 1).
Proof.
  induction k as [k IH] using lt_wf_ind. destruct k as [|[|k]]; [by repeat split..|].
  change (Nat.odd (S (S k))) with (Nat.odd k). specialize (IH k ltac:(lia)).
  replace (256 ^ Z.of_nat (S (S k))) with (256 * (256 * 256 ^ Z.of_nat k)).
  - etrans; [apply congr_square; lia|exact IH].
  - rewrite !Nat2Z.inj_succ, !Z.pow_succ_r by lia. lia.
Qed.

(** ** Bytes as one number *)

Lemma le_val_nonneg bs : bytes_ok bs -> 0 <= le_val bs.
Proof. intros H%le_val_range. lia. Qed.

Lemma le_val_app l1 l2 : le_val (l1 ++ l2) = le_val l1 + 256 ^ Z.of_nat (length l1) * le_val l2.
Proof.
  induction l1 as [|b l1 IH]; [cbn; lia|]. cbn [app le_val length]. rewrite IH.
  rewrite Nat2Z.inj_succ, Z.pow_succ_r by lia. lia.
Qed.

Lemma le_val_app_congr l1 l2 : bytes_ok l1 -> bytes_ok l2 ->
  congr (le_val (l1 ++ l2)) (le_val l1 + (if Nat.odd (length l1) then 256 else 1) * le_val l2).
Proof.
  intros H1%le_val_nonneg H2%le_val_nonneg. rewrite le_val_app.
  apply congr_add; [by apply congr_refl|]. apply congr_mul; [apply pow256_parity|by apply congr_refl].
Qed.

(** ** The reference and congruence *)

Lemma oc_add_word x y : 0 <= x <= 65535 -> 0 <= y <= 65535 ->
  0 <= oc_add x y <= 65535 /\ congr (oc_add x y) (x + y).
Proof.
  intros. unfold oc_add. destruct (Z.ltb_spec 65535 (x + y)).
  - split; [lia|]. symmetry. apply (congr_mod _ _ 1); lia.
  - split; [lia|]. apply congr_refl. lia.
Qed.

(** The sum of the words in network order, with its bytes swapped, is congruent
    to the little-endian number. *)
Lemma be_sum_congr bs : bytes_ok bs ->
  0 <= oc_sum (be_words bs) <= 65535 /\ congr (oc_sum (be_words bs)) (256 * le_val bs).
Proof.
  induction bs as [bs IH] using (induction_ltof1 _ length). unfold ltof in IH.
  destruct bs as [|a [|b bs]]; intros Hb.
  - cbn. split; [lia|]. by repeat split.
  - inversion Hb; subst. destruct (oc_add_word (256 * a) 0) as [? Hc]; [lia..|].
    split; [done|]. etrans; [exact Hc|]. cbn [le_val]. apply congr_mod with 0; lia.
  - inversion Hb as [|? ? Ha Hb']; subst. inversion Hb' as [|? ? Hb0 Hbs]; subst.
    destruct (IH bs) as [Hr Hcs]; [cbn; lia|done|].
    destruct (oc_add_word (256 * a + b) (oc_sum (be_words bs))) as [Hs Hc]; [lia..|].
    split; [done|]. cbn [be_words oc_sum foldr]. etrans; [exact Hc|]. cbn [le_val].
    pose proof (le_val_nonneg _ Hbs). etrans.
    + apply congr_add; [apply congr_refl; lia|exact Hcs].
    + symmetry. apply (congr_mod _ _ (b + 256 * le_val bs)); lia.
Qed.

(** What a stored word must satisfy to be the checksum. *)
Lemma rfc1071_word bs v :
  bytes_ok bs -> 0 <= v <= 65535 -> congr (65535 - v) (le_val bs) -> le_bytes 2 v = rfc1071 bs.
Proof.
  intros Hb Hv Hc. destruct (be_sum_congr bs Hb) as [Hr Hs]. unfold rfc1071.
  assert (Heq : oc_sum (be_words bs) = 65535 - (256 * (v mod 256) + v / 256)).
  { pose proof (Z.div_mod v 256 ltac:(lia)). pose proof (Z.mod_pos_bound v 256 ltac:(lia)).
    assert (0 <= v / 256 < 256) by (split; [apply Z.div_pos; lia|apply Z.div_lt_upper_bound; lia]).
    apply congr_word; [lia..|]. etrans; [exact Hs|]. symmetry. etrans.
    - symmetry. apply congr_square. lia.
    - apply congr_mul; [apply congr_refl; lia|]. etrans; [|exact Hc].
      apply (congr_mod _ _ (255 - v mod 256)); lia. }
  rewrite Heq. cbn [le_bytes].
  pose proof (Z.mod_pos_bound v 256 ltac:(lia)).
  assert (0 <= v / 256 < 256) by (split; [apply Z.div_pos; lia|apply Z.div_lt_upper_bound; lia]).
  rewrite (Z.mod_small (v / 256)) by lia.
  replace (65535 - (65535 - (256 * (v mod 256) + v / 256))) with (v / 256 + v mod 256 * 256) by lia.
  rewrite Z.div_add, Z.mod_add, (Z.div_small (v / 256)), (Z.mod_small (v / 256)) by lia. done.
Qed.
