(* ===== verification/InetChksum.v ===== *)
(** * Internet checksums: [src/lib/lwip/src/core/inet_chksum.c]

    The checksums of the network stack in the configuration of
    [src/lib/lwip/lwipopts.h]: version 2 of [lwip_standard_chksum], IPv4 only,
    no checksum on copy, on a little-endian processor.  The theorems compare
    them with the checksum of RFC 1071. *)

From stdpp Require Import base numbers list decidable gmap.
From Stdlib Require Import ZArith Lia Bool.
From S2P Require Import Prelude Linked LwipMem Pbuf PbufChain PbufProps OnesComp.
Open Scope Z_scope.

(** ** Words *)

Definition FOLD_U32T (u : Z) : Z := wrap32 (Z.shiftr u 16 + Z.land u 0x0000ffff).

Definition SWAP_BYTES_IN_WORD (w : Z) : Z :=
  Z.lor (Z.shiftl (Z.land w 0xff) 8) (Z.shiftr (Z.land w 0xff00) 8).

Definition lwip_htons (n : Z) : Z :=
  wrap16 (Z.lor (Z.shiftl (Z.land n 0x00ff) 8) (Z.shiftr (Z.land n 0xff00) 8)).

(** ** The functions *)

(** [base] gives the address at which an area of bytes lies. *)
Section inet_chksum.
Context {H : Type} (base : Z -> Z).
Implicit Types (s : lwip H).

Definition address (ptr : option (Z * Z)) : Z :=
  match ptr with Some (a, o) => base a + o | None => 0 end.

Definition ld s (ptr : option (Z * Z)) (off n : Z) : result Z :=
  let* bs := ld_bytes s ptr off n in Ok (le_val bs).

(** The loop over the bulk of the data; the state is [ps] as an offset, [len]
    and [sum]. *)
Definition bulk_loop s (dataptr : option (Z * Z)) (pb ln : Z) : result (Z * Z * Z) :=
  while (S (Z.to_nat ln))
    (fun '(ps, ln, sum) => 1 <? ln)
    (fun '(ps, ln, sum) =>
       let* w := ld s dataptr ps 2 in
       Ok (ps + 2, ln - 2, wrap32 (sum + w)))
    (pb, ln, 0).

(** [t] is a word in memory, written by bytes. *)
Definition lwip_standard_chksum s (dataptr : option (Z * Z)) (ln : Z) : result Z :=
  let odd := Z.land (address dataptr) 1 in
  let* (pb, t, ln) :=
    if negb (odd =? 0) && (0 <? ln)
    then let* b := ld s dataptr 0 1 in Ok (1, <[1%nat := b]> [0; 0], ln - 1)
    else Ok (0, [0; 0], ln) in
  let* (ps, ln, sum) := bulk_loop s dataptr pb ln in
  let* t := if 0 <? ln
            then let* b := ld s dataptr ps 1 in Ok (<[0%nat := b]> t)
            else Ok t in
  let sum := wrap32 (sum + le_val t) in
  let sum := FOLD_U32T sum in
  let sum := FOLD_U32T sum in
  let sum := if negb (odd =? 0) then SWAP_BYTES_IN_WORD sum else sum in
  Ok (wrap16 sum).

Definition inet_chksum s (dataptr : option (Z * Z)) (ln : Z) : result Z :=
  let* c := lwip_standard_chksum s dataptr ln in
  Ok (wrap16 (Z.lnot c)).

(** One round of the loops over a chain: the sum of [chklen] bytes of the buffer
    [b] is added, and the accumulator is swapped behind an odd length. *)
Definition chksum_round s (b : pbuf) (chklen acc : Z) (swapped : bool) : result (Z * bool) :=
  let* c := lwip_standard_chksum s (payload b) chklen in
  let acc := FOLD_U32T (wrap32 (acc + c)) in
  if negb (len b mod 2 =? 0)
  then Ok (SWAP_BYTES_IN_WORD acc, negb swapped)
  else Ok (acc, swapped).

Fixpoint chksum_loop (fuel : nat) s (q : option Z) (acc : Z) (swapped : bool) : result (Z * bool) :=
  match fuel with
  | O => Fault OutOfFuel
  | S fuel =>
      match q with
      | None => Ok (acc, swapped)
      | Some q =>
          let* b := deref s q in
          let* (acc, swapped) := chksum_round s b (len b) acc swapped in
          chksum_loop fuel s (next b) acc swapped
      end
  end.

(** The loop that stops after [chksum_len] bytes. *)
Fixpoint chksum_partial_loop (fuel : nat) s (q : option Z) (chksum_len acc : Z) (swapped : bool)
    : result (Z * bool) :=
  match fuel with
  | O => Fault OutOfFuel
  | S fuel =>
      match q with
      | None => Ok (acc, swapped)
      | Some q =>
          if 0 <? chksum_len then
            let* b := deref s q in
            let chklen := len b in
            let chklen := if chksum_len <? chklen then chksum_len else chklen in
            let* (acc, swapped) := chksum_round s b chklen acc swapped in
            chksum_partial_loop fuel s (next b) (wrap16 (chksum_len - chklen)) acc swapped
          else Ok (acc, swapped)
      end
  end.

Definition unswap (acc : Z) (swapped : bool) : Z :=
  if swapped then SWAP_BYTES_IN_WORD acc else acc.

(** What both pseudo checksums do behind their loops. *)
Definition pseudo_tail (proto proto_len acc : Z) : Z :=
  let acc := wrap32 (acc + lwip_htons proto) in
  let acc := wrap32 (acc + lwip_htons proto_len) in
  let acc := FOLD_U32T acc in
  let acc := FOLD_U32T acc in
  wrap16 (Z.lnot (Z.land acc 0xffff)).

Definition inet_cksum_pseudo_base s (p : option Z) (proto proto_len acc : Z) : result Z :=
  let* (acc, swapped) := chksum_loop (chain_fuel s) s p acc false in
  Ok (pseudo_tail proto proto_len (unswap acc swapped)).

Definition inet_cksum_pseudo_partial_base s (p : option Z) (proto proto_len chksum_len acc : Z) : result Z :=
  let* (acc, swapped) := chksum_partial_loop (chain_fuel s) s p chksum_len acc false in
  Ok (pseudo_tail proto proto_len (unswap acc swapped)).

(** The sum of the two addresses, which are words in network order. *)
Definition addr_sum (src dest : Z) : Z :=
  let acc := Z.land src 0xffff in
  let acc := wrap32 (acc + Z.land (Z.shiftr src 16) 0xffff) in
  let acc := wrap32 (acc + Z.land dest 0xffff) in
  let acc := wrap32 (acc + Z.land (Z.shiftr dest 16) 0xffff) in
  let acc := FOLD_U32T acc in
  FOLD_U32T acc.

Definition inet_chksum_pseudo s (p : option Z) (proto proto_len src dest : Z) : result Z :=
  inet_cksum_pseudo_base s p proto proto_len (addr_sum src dest).

Definition inet_chksum_pseudo_partial s (p : option Z) (proto proto_len chksum_len src dest : Z) : result Z :=
  inet_cksum_pseudo_partial_base s p proto proto_len chksum_len (addr_sum src dest).

Definition inet_chksum_pbuf s (p : option Z) : result Z :=
  let* (acc, swapped) := chksum_loop (chain_fuel s) s p 0 false in
  Ok (wrap16 (Z.lnot (Z.land (unswap acc swapped) 0xffff))).

Definition ip_chksum_pseudo s (p : option Z) (proto proto_len src dest : Z) : result Z :=
  inet_chksum_pseudo s p proto proto_len src dest.

Definition ip_chksum_pseudo_partial s (p : option Z) (proto proto_len chksum_len src dest : Z) : result Z :=
  inet_chksum_pseudo_partial s p proto proto_len chksum_len src dest.

End inet_chksum.

(** ** Operations on words and congruence *)

Lemma fold_u32t u : 0 <= u < 2 ^ 32 ->
  congr (FOLD_U32T u) u /\ FOLD_U32T u = u / 65536 + u mod 65536.
Proof.
  intros Hu. assert (He : FOLD_U32T u = u / 65536 + u mod 65536).
  { unfold FOLD_U32T. change 0x0000ffff with (Z.ones 16). rewrite Z.land_ones, Z.shiftr_div_pow2 by lia.
    apply wrap32_small. change (2 ^ 16) with 65536. pose proof (Z.mod_pos_bound u 65536).
    assert (0 <= u / 65536 < 65536) by (split; [apply Z.div_pos; lia|apply Z.div_lt_upper_bound; lia]). lia. }
  split; [|done]. rewrite He. pose proof (Z.div_mod u 65536 ltac:(lia)). pose proof (Z.mod_pos_bound u 65536).
  pose proof (Z.div_pos u 65536). symmetry. apply (congr_mod _ _ (u / 65536)); lia.
Qed.

Lemma fold_once u : 0 <= u <= 0x1fffe -> 0 <= FOLD_U32T u <= 65535.
Proof.
  intros Hu. destruct (fold_u32t u) as [_ ->]; [lia|].
  pose proof (Z.div_mod u 65536 ltac:(lia)). pose proof (Z.mod_pos_bound u 65536).
  assert (0 <= u / 65536 < 2) by (split; [apply Z.div_pos; lia|apply Z.div_lt_upper_bound; lia]). lia.
Qed.

Lemma fold_twice u : 0 <= u < 2 ^ 32 ->
  0 <= FOLD_U32T (FOLD_U32T u) <= 65535 /\ congr (FOLD_U32T (FOLD_U32T u)) u.
Proof.
  intros Hu. destruct (fold_u32t u Hu) as [Hc He].
  assert (Hb : 0 <= FOLD_U32T u <= 0x1fffe).
  { rewrite He. pose proof (Z.mod_pos_bound u 65536).
    assert (0 <= u / 65536 < 65536) by (split; [apply Z.div_pos; lia|apply Z.div_lt_upper_bound; lia]). lia. }
  split; [by apply fold_once|]. etrans; [|exact Hc]. by apply fold_u32t; lia.
Qed.

(** A byte below a shifted one. *)
Lemma lor_shiftl_add a b : 0 <= b < 256 -> Z.lor (Z.shiftl a 8) b = Z.shiftl a 8 + b.
Proof.
  intros Hb. assert (Hl : Z.land (Z.shiftl a 8) b = 0).
  { rewrite <- (Z.mod_small b (2 ^ 8)), <- Z.land_ones by lia.
    rewrite Z.land_assoc, (Z.land_comm _ b), <- Z.land_assoc.
    rewrite Z.land_ones, Z.shiftl_mul_pow2, Z.mod_mul by lia. apply Z.land_0_r. }
  rewrite <- Z.lxor_lor, <- Z.add_nocarry_lxor by done. done.
Qed.

Lemma swap_arith w : 0 <= w <= 65535 -> SWAP_BYTES_IN_WORD w = 256 * (w mod 256) + w / 256.
Proof.
  intros Hw. unfold SWAP_BYTES_IN_WORD.
  assert (H1 : Z.shiftr (Z.land w 0xff00) 8 = w / 256).
  { rewrite Z.shiftr_land. change (Z.shiftr 0xff00 8) with (Z.ones 8).
    rewrite Z.land_ones, Z.shiftr_div_pow2 by lia. apply Z.mod_small.
    split; [apply Z.div_pos; lia|apply Z.div_lt_upper_bound; lia]. }
  rewrite H1. change 0xff with (Z.ones 8). rewrite Z.land_ones by lia. change (2 ^ 8) with 256.
  rewrite lor_shiftl_add, Z.shiftl_mul_pow2 by
    (lia || (split; [apply Z.div_pos; lia|apply Z.div_lt_upper_bound; lia])).
  lia.
Qed.

Lemma swap_congr w : 0 <= w <= 65535 ->
  0 <= SWAP_BYTES_IN_WORD w <= 65535 /\ congr (SWAP_BYTES_IN_WORD w) (256 * w).
Proof.
  intros Hw. rewrite swap_arith by done. pose proof (Z.div_mod w 256 ltac:(lia)). pose proof (Z.mod_pos_bound w 256).
  assert (0 <= w / 256 < 256) by (split; [apply Z.div_pos; lia|apply Z.div_lt_upper_bound; lia]).
  split; [lia|]. symmetry. apply (congr_mod _ _ (w / 256)); lia.
Qed.

Lemma lnot16 v : 0 <= v <= 65535 -> wrap16 (Z.lnot v) = 65535 - v.
Proof.
  intros. unfold wrap, Z.lnot. rewrite <- (Z.mod_add _ 1) by lia. change (2 ^ 16) with 65536.
  rewrite Z.mod_small by lia. lia.
Qed.

Lemma land16 v : 0 <= v <= 65535 -> Z.land v 0xffff = v.
Proof. intros. change 0xffff with (Z.ones 16). rewrite Z.land_ones by lia. apply Z.mod_small. lia. Qed.

(** ** One block of bytes *)

(** The bytes [c] can be read behind the pointer. *)
Definition readable {H} (s : lwip H) (ptr : option (Z * Z)) (c : list Z) : Prop :=
  forall off k, 0 <= off -> 0 <= k -> off + k <= Z.of_nat (length c) ->
    ld_bytes s ptr off k = Ok (bytes_at c off k).

Lemma bytes_ok_bytes_at c off k : bytes_ok c -> bytes_ok (bytes_at c off k).
Proof. intros. unfold bytes_at, slice. by apply Forall_take, Forall_drop. Qed.

Lemma bytes_at_app c off k k' : 0 <= off -> 0 <= k -> 0 <= k' ->
  bytes_at c off (k + k') = bytes_at c off k ++ bytes_at c (off + k) k'.
Proof.
  intros. unfold bytes_at, slice. rewrite !Z2Nat.inj_add by lia.
  rewrite <- drop_drop. symmetry. apply take_take_drop.
Qed.

Lemma bytes_at_all c : bytes_at c 0 (Z.of_nat (length c)) = c.
Proof. unfold bytes_at, slice. cbn. apply take_ge. lia. Qed.

Lemma length_bytes_at_odd c off k : 0 <= off -> off + k <= Z.of_nat (length c) ->
  Nat.odd (length (bytes_at c off k)) = Nat.odd (Z.to_nat k).
Proof. intros. by rewrite length_bytes_at. Qed.

Section one_block.
Context {H : Type} (s : lwip H) (ptr : option (Z * Z)) (c : list Z).
Hypothesis Hread : readable s ptr c.
Hypothesis Hbytes : bytes_ok c.

Lemma ld_ok off k : 0 <= off -> 0 <= k -> off + k <= Z.of_nat (length c) ->
  ld s ptr off k = Ok (le_val (bytes_at c off k)) /\ 0 <= le_val (bytes_at c off k) < 2 ^ (8 * k).
Proof.
  intros. unfold ld. rewrite Hread by lia. split; [done|].
  pose proof (le_val_range _ (bytes_ok_bytes_at c off k Hbytes)) as Hr.
  rewrite length_bytes_at, Z2Nat.id in Hr by lia. done.
Qed.

Lemma bulk_ok pb ln : 0 <= pb -> 0 <= ln -> pb + ln <= Z.of_nat (length c) -> 65535 * (ln / 2) < 2 ^ 32 ->
  exists sum, bulk_loop s ptr pb ln = Ok (pb + 2 * (ln / 2), ln mod 2, sum) /\
    congr sum (le_val (bytes_at c pb (2 * (ln / 2)))) /\ 0 <= sum <= 65535 * (ln / 2).
Proof.
  intros Hpb Hln Hle Hmax. pose proof (Z.div_mod ln 2 ltac:(lia)) as Hdm. pose proof (Z.mod_pos_bound ln 2 ltac:(lia)).
  set (I := fun '(ps, l, sum) => exists k, 0 <= k /\ 2 * k <= ln /\ ps = pb + 2 * k /\ l = ln - 2 * k /\
    congr sum (le_val (bytes_at c pb (2 * k))) /\ 0 <= sum <= 65535 * k).
  destruct (while_total I (fun '(_, l, _) => Z.to_nat l) (fun '(ps, l, sum) => 1 <? l)
    (fun '(ps, l, sum) => let* w := ld s ptr ps 2 in Ok (ps + 2, l - 2, wrap32 (sum + w)))
    (S (Z.to_nat ln)) (pb, ln, 0)) as ([[ps l] sum]&Hrun&(k&Hk&Hkl&->&->&Hc&Hs)&Hend).
  - exists 0. repeat split; lia || done.
  - lia.
  - intros [[ps l] sum] (k&Hk&Hkl&->&->&Hc&Hs) Hgo%Z.ltb_lt.
    destruct (ld_ok (pb + 2 * k) 2) as [-> Hw]; [lia..|]. cbn [rbind].
    eexists. split; [reflexivity|]. split; [|lia].
    exists (k + 1). rewrite wrap32_small by lia. change (2 ^ (8 * 2)) with 65536 in Hw.
    repeat (split; [lia|]). split; [|lia].
    replace (2 * (k + 1)) with (2 * k + 2) by lia. rewrite bytes_at_app by lia.
    etrans; [apply congr_add; [exact Hc|apply congr_refl; lia]|]. symmetry.
    etrans; [apply le_val_app_congr; by apply bytes_ok_bytes_at|].
    rewrite length_bytes_at_odd by lia. replace (Z.to_nat (2 * k)) with (2 * Z.to_nat k)%nat by lia.
    rewrite Nat.odd_mul. cbn [Nat.odd Nat.even andb negb]. rewrite Z.mul_1_l.
    apply congr_refl. pose proof (le_val_nonneg _ (bytes_ok_bytes_at c pb (2 * k) Hbytes)). lia.
  - apply Z.ltb_ge in Hend. assert (k = ln / 2) as -> by (Z.div_mod_to_equations; lia).
    exists sum. split; [|split; [done|lia]]. unfold bulk_loop. rewrite Hrun. repeat f_equal; lia.
Qed.

(** The bulk and the left-over byte, from [pb] on; [t1] is the byte before. *)
Lemma bulk_tail_ok pb ln t1 : 0 <= pb <= 1 -> 0 <= ln -> pb + ln <= Z.of_nat (length c) ->
  pb + ln <= 0x20000 ->
  exists sum t0,
    (forall f : Z -> Z,
     (let* (ps, ln, sum) := bulk_loop s ptr pb ln in
      let* t := if 0 <? ln then let* b := ld s ptr ps 1 in Ok (<[0%nat := b]> [0; t1]) else Ok [0; t1] in
      Ok (f (sum + le_val t))) = Ok (f (sum + t0 + 256 * t1))) /\
    0 <= sum /\ 0 <= t0 < 256 /\ sum + t0 + 256 * 255 * pb < 2 ^ 32 /\
    congr (sum + t0) (le_val (bytes_at c pb ln)).
Proof.
  intros Hpb Hln Hle Hmax. pose proof (Z.div_mod ln 2 ltac:(lia)) as Hdm. pose proof (Z.mod_pos_bound ln 2 ltac:(lia)).
  destruct (bulk_ok pb ln) as (sum&->&Hc&Hs); [lia..|]. cbn [rbind]. exists sum.
  destruct (Z.ltb_spec 0 (ln mod 2)).
  - destruct (ld_ok (pb + 2 * (ln / 2)) 1) as [-> Hb]; [lia..|]. cbn [rbind].
    exists (le_val (bytes_at c (pb + 2 * (ln / 2)) 1)). split; [intros f; apply (f_equal Ok), (f_equal f); cbn -[Z.mul le_val bytes_at]; cbn [le_val]; lia|]. split; [lia|]. split; [lia|]. split; [lia|].
    replace (bytes_at c pb ln) with (bytes_at c pb (2 * (ln / 2) + 1)) by (f_equal; lia).
    rewrite bytes_at_app by lia. symmetry.
    etrans; [apply le_val_app_congr; by apply bytes_ok_bytes_at|].
    rewrite length_bytes_at_odd by lia. replace (Z.to_nat (2 * (ln / 2))) with (2 * Z.to_nat (ln / 2))%nat by lia.
    rewrite Nat.odd_mul. cbn [Nat.odd Nat.even andb negb]. rewrite Z.mul_1_l. symmetry.
    apply congr_add; [done|apply congr_refl; lia].
  - exists 0. split; [intros f; apply (f_equal Ok), (f_equal f); cbn -[Z.mul le_val bytes_at]; cbn [le_val]; lia|]. split; [lia|]. split; [lia|]. split; [lia|].
    replace ln with (2 * (ln / 2)) at 1 by lia. by rewrite Z.add_0_r.
Qed.

(** The sum of a block is congruent to its bytes as a number, wherever it lies. *)
Lemma standard_chksum_ok base : Z.of_nat (length c) <= 0x20000 ->
  exists v, lwip_standard_chksum base s ptr (Z.of_nat (length c)) = Ok v /\
    0 <= v <= 65535 /\ congr v (le_val c).
Proof.
  intros Hmax. unfold lwip_standard_chksum.
  destruct (negb (Z.land (address base ptr) 1 =? 0)) eqn:Hodd; cbn [andb].
  - destruct (Z.ltb_spec 0 (Z.of_nat (length c))).
    + destruct (ld_ok 0 1) as [-> Hb]; [lia..|]. cbn [rbind]. change (2 ^ (8 * 1)) with 256 in Hb.
      change (<[1%nat := le_val (bytes_at c 0 1)]> [0; 0]) with [0; le_val (bytes_at c 0 1)].
      destruct (bulk_tail_ok 1 (Z.of_nat (length c) - 1) (le_val (bytes_at c 0 1)))
        as (sum&t0&Hf&Hs&Ht&Hmx&Hc); [lia..|].
      rewrite (Hf (fun x => wrap16 (SWAP_BYTES_IN_WORD (FOLD_U32T (FOLD_U32T (wrap32 x)))))).
      rewrite wrap32_small by lia.
      destruct (fold_twice (sum + t0 + 256 * le_val (bytes_at c 0 1))) as [Hr Hfc]; [lia|].
      destruct (swap_congr _ Hr) as [Hr' Hsc]. rewrite wrap16_small by lia.
      eexists. split; [reflexivity|]. split; [done|]. etrans; [exact Hsc|].
      etrans; [apply congr_mul; [by apply congr_refl|exact Hfc]|].
      assert (Hsplit : c = bytes_at c 0 1 ++ bytes_at c 1 (Z.of_nat (length c) - 1)).
      { change 1 with (0 + 1) at 2. rewrite <- bytes_at_app by lia. rewrite Z.add_sub_assoc, Z.add_simpl_l.
        symmetry. apply bytes_at_all. }
      replace (le_val c) with (le_val (bytes_at c 0 1 ++ bytes_at c 1 (Z.of_nat (length c) - 1)))
        by (by rewrite <- Hsplit). symmetry.
      etrans; [apply le_val_app_congr; by apply bytes_ok_bytes_at|].
      rewrite length_bytes_at_odd by lia. change (Nat.odd (Z.to_nat 1)) with true. cbn iota.
      etrans; [apply congr_add; [apply congr_refl; lia|apply congr_mul; [by apply congr_refl|symmetry; exact Hc]]|].
      symmetry. apply (congr_mod _ _ (le_val (bytes_at c 0 1))); lia.
    + destruct c; [|cbn in *; lia]. cbn. exists 0. split; [done|]. split; [lia|]. by apply congr_refl.
  - destruct (bulk_tail_ok 0 (Z.of_nat (length c)) 0) as (sum&t0&Hf&Hs&Ht&Hmx&Hc); [lia..|].
    cbn [rbind]. rewrite (Hf (fun x => wrap16 (FOLD_U32T (FOLD_U32T (wrap32 x))))).
    rewrite Z.add_0_r, wrap32_small by lia. destruct (fold_twice (sum + t0)) as [Hr Hfc]; [lia|].
    rewrite wrap16_small by lia. eexists. split; [reflexivity|]. split; [done|].
    rewrite bytes_at_all in Hc. by etrans.
Qed.

End one_block.
