(* ===== verification/InetChksumProps.v ===== *)
(** * The checksums against RFC 1071

    The functions of [InetChksum] on chains of packet buffers and on blocks of
    memory: they compute the checksum of RFC 1071 over the bytes of the packet
    however it is split into buffers and wherever the buffers lie, and a stored
    checksum is accepted until a byte changes. *)

From stdpp Require Import base numbers list decidable gmap.
From Stdlib Require Import ZArith Lia Bool.
From S2P Require Import Prelude Linked LwipMem Pbuf PbufChain PbufProps OnesComp InetChksum.
Open Scope Z_scope.

(** ** Accumulators *)

(** The factor by which a swapped accumulator is off. *)
Definition factor (swapped : bool) : Z := if swapped then 256 else 1.

(** [acc] is a 16-bit word that stands for the sum [A]. *)
Definition stands (acc : Z) (swapped : bool) (A : Z) : Prop :=
  0 <= acc <= 65535 /\ congr acc (factor swapped * A).

Lemma factor_pos sw : 0 < factor sw.
Proof. by destruct sw. Qed.

Lemma factor_square sw n : 0 <= n -> congr (factor sw * (factor sw * n)) n.
Proof. intros. destruct sw; [by apply congr_square|]. unfold factor. rewrite !Z.mul_1_l. by apply congr_refl. Qed.

Lemma factor_xorb sw b n : 0 <= n -> congr (factor (xorb sw b) * n) (factor sw * (factor b * n)).
Proof.
  intros. destruct sw, b; cbn [xorb factor]; rewrite ?Z.mul_1_l; try (apply congr_refl; lia).
  symmetry. by apply congr_square.
Qed.

Lemma stands_unswap acc sw A : 0 <= A -> stands acc sw A -> stands (unswap acc sw) false A.
Proof.
  intros HA [Hr Hc]. unfold unswap, stands. cbn [factor] in *. rewrite Z.mul_1_l. destruct sw.
  - destruct (swap_congr acc Hr) as [Hr' Hs]. split; [done|]. etrans; [exact Hs|].
    etrans; [apply congr_mul; [by apply congr_refl|exact Hc]|]. by apply congr_square.
  - split; [done|]. cbn [factor] in Hc. by rewrite Z.mul_1_l in Hc.
Qed.

Lemma stands_congr acc sw A B : congr A B -> stands acc sw A -> stands acc sw B.
Proof.
  intros HAB [Hr Hc]. split; [done|]. etrans; [exact Hc|].
  apply congr_mul; [|done]. apply congr_refl. pose proof (factor_pos sw). lia.
Qed.

(** ** Chains *)

Section chains.
Context {H : Type} (base : Z -> Z).
Implicit Types (s : lwip H).

Lemma odd_mod2 n : negb (Z.of_nat n mod 2 =? 0) = Nat.odd n.
Proof.
  destruct (Nat.Even_or_Odd n) as [[k ->]|[k ->]].
  - rewrite Nat2Z.inj_mul, Nat.odd_mul, (Z.mul_comm (Z.of_nat 2)), Z.mod_mul by lia. done.
  - rewrite Nat.odd_add, Nat.odd_mul. cbn [Nat.odd Nat.even negb andb xorb].
    replace (Z.of_nat (2 * k + 1)) with (1 + Z.of_nat k * 2) by lia. by rewrite Z.mod_add by lia.
Qed.

(** One buffer, of which the bytes [d] are summed. *)
Lemma round_ok s b (c d : list Z) acc sw A :
  readable s (payload b) d -> bytes_ok d -> Z.of_nat (length d) < 65536 ->
  len b = Z.of_nat (length c) -> 0 <= A -> stands acc sw A ->
  exists acc', chksum_round base s b (Z.of_nat (length d)) acc sw = Ok (acc', xorb sw (Nat.odd (length c))) /\
    stands acc' (xorb sw (Nat.odd (length c))) (A + factor sw * le_val d).
Proof.
  intros Hrd Hb Hl Hlen HA [Hr Hc]. unfold chksum_round.
  destruct (standard_chksum_ok s (payload b) d Hrd Hb base) as (v&->&Hv&Hvc); [lia|]. cbn [rbind].
  rewrite wrap32_small by lia. rewrite Hlen, odd_mod2.
  pose proof (fold_once (acc + v) ltac:(lia)) as Hf. pose proof (le_val_nonneg _ Hb) as Hd.
  pose proof (factor_pos sw) as Hfp.
  assert (Hst : stands (FOLD_U32T (acc + v)) sw (A + factor sw * le_val d)).
  { split; [done|]. etrans; [apply fold_u32t; lia|]. etrans; [apply congr_add; [exact Hc|exact Hvc]|].
    rewrite Z.mul_add_distr_l. apply congr_add; [apply congr_refl; nia|]. symmetry. by apply factor_square. }
  destruct (Nat.odd (length c)).
  - rewrite xorb_true_r. eexists. split; [reflexivity|]. destruct Hst as [_ Hst].
    destruct (swap_congr _ Hf) as [Hr' Hs]. split; [done|]. etrans; [exact Hs|].
    etrans; [apply congr_mul; [by apply congr_refl|exact Hst]|].
    replace (negb sw) with (xorb true sw) by (by destruct sw). symmetry. apply (factor_xorb true). nia.
  - rewrite xorb_false_r. eauto.
Qed.

Lemma holds_readable s b c : len b = Z.of_nat (length c) -> holds s b c -> readable s (payload b) c.
Proof. intros Hl Hh off k H0 Hk Hle. apply (ld_holds s b c); [done|lia..]. Qed.

Lemma readable_take s ptr c n : readable s ptr c -> readable s ptr (take n c).
Proof.
  intros Hr off k H0 Hk Hle. rewrite length_take in Hle. rewrite Hr by lia. f_equal.
  unfold bytes_at, slice. apply list_eq. intros i. rewrite !lookup_take.
  case_decide; [|done]. rewrite !lookup_drop, lookup_take, decide_True by lia. done.
Qed.

Lemma le_val_split sw c rest : bytes_ok c -> bytes_ok rest ->
  congr (factor sw * le_val c + factor (xorb sw (Nat.odd (length c))) * le_val rest) (factor sw * le_val (c ++ rest)).
Proof.
  intros Hc Hr. pose proof (le_val_nonneg _ Hc). pose proof (le_val_nonneg _ Hr). pose proof (factor_pos sw).
  symmetry. etrans; [apply congr_mul; [apply congr_refl; lia|by apply le_val_app_congr]|].
  rewrite Z.mul_add_distr_l. apply congr_add; [apply congr_refl; nia|].
  symmetry. change (if Nat.odd (length c) then 256 else 1) with (factor (Nat.odd (length c))).
  by apply factor_xorb.
Qed.

Lemma chksum_partial_ok fuel s o l cs n acc sw A :
  packet s o l cs -> Forall bytes_ok cs -> (length l < fuel)%nat -> 0 <= n < 65536 ->
  0 <= A -> stands acc sw A ->
  exists acc' sw', chksum_partial_loop base fuel s o n acc sw = Ok (acc', sw') /\
    stands acc' sw' (A + factor sw * le_val (take (Z.to_nat n) (concat cs))).
Proof.
  revert o cs n acc sw A fuel. induction l as [|p l IH]; intros o [|c cs] n acc sw A fuel; cbn [packet]; try done.
  - intros -> _ Hf Hn HA Hst. destruct fuel as [|fuel]; [lia|]. cbn [chksum_partial_loop concat].
    rewrite take_nil. cbn [le_val]. rewrite Z.mul_0_r, Z.add_0_r. eauto.
  - intros [-> (b&Hb&Hlen&Htot&Hmax&Hh&Hp)] [Hc Hcs]%Forall_cons Hf Hn HA Hst.
    destruct fuel as [|fuel]; [lia|]. cbn [length] in Hf. cbn [chksum_partial_loop concat].
    cbn [concat] in Htot. rewrite length_app in Htot.
    pose proof (factor_pos sw) as Hfp.
    destruct (Z.ltb_spec 0 n) as [Hgo|Hstop].
    2:{ replace (Z.to_nat n) with 0%nat by lia. cbn [take le_val]. rewrite Z.mul_0_r, Z.add_0_r. eauto. }
    rewrite (deref_ok s p b Hb). cbn [rbind]. rewrite Hlen.
    pose proof (holds_readable s b c Hlen Hh) as Hrd.
    destruct (Z.ltb_spec n (Z.of_nat (length c))) as [Hcut|Hall].
    + destruct (round_ok s b c (take (Z.to_nat n) c) acc sw A) as (acc'&Hrun&Hst');
        [by apply readable_take|by apply Forall_take|rewrite length_take; lia|done..|].
      rewrite length_take, Nat.min_l, Z2Nat.id in Hrun by lia. rewrite Hrun. cbn [rbind].
      rewrite Z.sub_diag. change (wrap16 0) with 0. rewrite take_app_le by lia.
      exists acc', (xorb sw (Nat.odd (length c))). split; [|done].
      destruct fuel as [|fuel]; [lia|]. cbn [chksum_partial_loop]. by destruct (next b).
    + destruct (round_ok s b c c acc sw A) as (acc'&->&Hst'); [done|done|lia|done..|]. cbn [rbind].
      pose proof (le_val_nonneg _ Hc). rewrite wrap16_small by lia.
      destruct (IH (next b) cs (n - Z.of_nat (length c)) acc' (xorb sw (Nat.odd (length c)))
        (A + factor sw * le_val c) fuel) as (acc''&sw''&->&Hst''); [done|done|lia|lia|nia|done|].
      exists acc'', sw''. split; [done|]. revert Hst''. apply stands_congr.
      rewrite <- Z.add_assoc. apply congr_add; [by apply congr_refl|].
      rewrite take_app_ge by lia. replace (Z.to_nat n - length c)%nat with (Z.to_nat (n - Z.of_nat (length c))) by lia.
      apply le_val_split; [done|]. apply Forall_take. by apply Forall_concat.
Qed.

Lemma chksum_loop_ok fuel s o l cs acc sw A :
  packet s o l cs -> Forall bytes_ok cs -> (length l < fuel)%nat -> 0 <= A -> stands acc sw A ->
  exists acc' sw', chksum_loop base fuel s o acc sw = Ok (acc', sw') /\
    stands acc' sw' (A + factor sw * le_val (concat cs)).
Proof.
  revert o cs acc sw A fuel. induction l as [|p l IH]; intros o [|c cs] acc sw A fuel; cbn [packet]; try done.
  - intros -> _ Hf HA Hst. destruct fuel as [|fuel]; [lia|]. cbn [chksum_loop concat le_val].
    rewrite Z.mul_0_r, Z.add_0_r. eauto.
  - intros [-> (b&Hb&Hlen&Htot&Hmax&Hh&Hp)] [Hc Hcs]%Forall_cons Hf HA Hst.
    destruct fuel as [|fuel]; [lia|]. cbn [length] in Hf. cbn [chksum_loop concat].
    cbn [concat] in Htot. rewrite length_app in Htot. pose proof (factor_pos sw).
    rewrite (deref_ok s p b Hb). cbn [rbind]. rewrite Hlen.
    destruct (round_ok s b c c acc sw A) as (acc'&->&Hst'); [by apply holds_readable|done|lia|done..|]. cbn [rbind].
    pose proof (le_val_nonneg _ Hc).
    destruct (IH (next b) cs acc' (xorb sw (Nat.odd (length c))) (A + factor sw * le_val c) fuel)
      as (acc''&sw''&->&Hst''); [done|done|lia|nia|done|].
    exists acc'', sw''. split; [done|]. revert Hst''. apply stands_congr.
    rewrite <- Z.add_assoc. apply congr_add; [by apply congr_refl|].
    apply le_val_split; [done|]. by apply Forall_concat.
Qed.

End chains.

(** ** The pseudo header *)

(** The bytes of the IPv4 pseudo header; the addresses are kept in network order. *)
Definition pseudo_header (proto proto_len src dest : Z) : list Z :=
  le_bytes 4 src ++ le_bytes 4 dest ++ [0; proto] ++ [proto_len / 256; proto_len mod 256].

Lemma htons_arith n : 0 <= n < 65536 -> lwip_htons n = le_val [n / 256; n mod 256].
Proof.
  intros. unfold lwip_htons. fold (SWAP_BYTES_IN_WORD n). destruct (swap_congr n) as [Hr _]; [lia|].
  rewrite wrap16_small, swap_arith by lia. cbn [le_val]. lia.
Qed.

(** The two halves of a 32-bit word. *)
Lemma halves a : 0 <= a < 2 ^ 32 ->
  congr (Z.land a 0xffff + Z.land (Z.shiftr a 16) 0xffff) a /\
  0 <= Z.land a 0xffff < 65536 /\ 0 <= Z.land (Z.shiftr a 16) 0xffff < 65536.
Proof.
  intros Ha. change 0xffff with (Z.ones 16). rewrite !Z.land_ones, Z.shiftr_div_pow2 by lia.
  change (2 ^ 16) with 65536. assert (0 <= a / 65536 < 65536) by (split; [apply Z.div_pos; lia|apply Z.div_lt_upper_bound; lia]).
  rewrite (Z.mod_small (a / 65536)) by lia.
  pose proof (Z.mod_pos_bound a 65536 ltac:(lia)). pose proof (Z.div_mod a 65536 ltac:(lia)).
  split; [|lia]. symmetry. apply (congr_mod _ _ (a / 65536)); lia.
Qed.

Lemma addr_sum_ok src dest : 0 <= src < 2 ^ 32 -> 0 <= dest < 2 ^ 32 ->
  stands (addr_sum src dest) false (src + dest).
Proof.
  intros Hs Hd. destruct (halves src Hs) as (Hsc&?&?). destruct (halves dest Hd) as (Hdc&?&?).
  unfold addr_sum. set (a := Z.land src 0xffff) in *. set (b := Z.land (Z.shiftr src 16) 0xffff) in *.
  set (c := Z.land dest 0xffff) in *. set (d := Z.land (Z.shiftr dest 16) 0xffff) in *.
  rewrite (wrap32_small (a + b)), (wrap32_small (a + b + c)), (wrap32_small (a + b + c + d)) by lia.
  unfold stands. cbn [factor]. rewrite Z.mul_1_l.
  match goal with |- context [FOLD_U32T (FOLD_U32T ?u)] => destruct (fold_twice u) as [Hr Hc]; [lia|] end.
  split; [done|]. etrans; [exact Hc|]. rewrite <- Z.add_assoc. by apply congr_add.
Qed.

Lemma pseudo_header_ok proto proto_len src dest :
  0 <= proto < 256 -> 0 <= proto_len < 65536 ->
  bytes_ok (pseudo_header proto proto_len src dest).
Proof.
  intros. unfold pseudo_header. repeat (apply Forall_app; split); try apply bytes_ok_le_bytes.
  - repeat constructor; lia.
  - pose proof (Z.mod_pos_bound proto_len 256). repeat constructor; try lia.
    + apply Z.div_pos; lia. + apply Z.div_lt_upper_bound; lia.
Qed.

Lemma pseudo_header_sum proto proto_len src dest data :
  0 <= proto < 256 -> 0 <= proto_len < 65536 -> 0 <= src < 2 ^ 32 -> 0 <= dest < 2 ^ 32 -> bytes_ok data ->
  congr (src + dest + le_val data + lwip_htons proto + lwip_htons proto_len)
    (le_val (pseudo_header proto proto_len src dest ++ data)).
Proof.
  intros Hp Hl Hs Hd Hb. rewrite !htons_arith by lia. rewrite Z.div_small, Z.mod_small by lia.
  unfold pseudo_header. rewrite <- !app_assoc, !le_val_app, !le_val_bytes, !length_le_bytes.
  change (2 ^ (8 * Z.of_nat 4)) with (2 ^ 32). rewrite (Z.mod_small src), (Z.mod_small dest) by lia.
  change (length [0; proto]) with 2%nat. change (length [proto_len / 256; proto_len mod 256]) with 2%nat.
  pose proof (le_val_nonneg _ Hb). set (h := le_val [0; proto]).
  set (n := le_val [proto_len / 256; proto_len mod 256]).
  assert (0 <= h) by (unfold h; cbn [le_val]; lia).
  assert (0 <= n).
  { unfold n; cbn [le_val]. pose proof (Z.mod_pos_bound proto_len 256). pose proof (Z.div_pos proto_len 256). lia. }
  change (256 ^ Z.of_nat 4) with (65535 * 65537 + 1). change (256 ^ Z.of_nat 2) with (65535 + 1). symmetry.
  apply (congr_mod _ _ (65537 * (dest + (65535 * 65537 + 1) * (h + (65535 + 1) * (n + (65535 + 1) * le_val data)))
    + 65537 * (h + (65535 + 1) * (n + (65535 + 1) * le_val data))
    + (n + (65535 + 1) * le_val data) + le_val data)); lia.
Qed.

Lemma pseudo_tail_sum proto proto_len src dest acc data :
  0 <= proto < 256 -> 0 <= proto_len < 65536 -> 0 <= src < 2 ^ 32 -> 0 <= dest < 2 ^ 32 -> bytes_ok data ->
  stands acc false (src + dest + le_val data) ->
  let v := pseudo_tail proto proto_len acc in
  0 <= v <= 65535 /\ congr (65535 - v) (le_val (pseudo_header proto proto_len src dest ++ data)).
Proof.
  intros Hp Hl Hs Hd Hb [Hr Hc]. cbn [factor] in Hc. rewrite Z.mul_1_l in Hc.
  assert (forall n, 0 <= n < 65536 -> 0 <= lwip_htons n < 65536) as Hht by (intros; apply wrap16_range).
  pose proof (Hht proto ltac:(lia)). pose proof (Hht proto_len ltac:(lia)).
  unfold pseudo_tail.
  rewrite (wrap32_small (acc + lwip_htons proto)), (wrap32_small (acc + lwip_htons proto + lwip_htons proto_len)) by lia.
  destruct (fold_twice (acc + lwip_htons proto + lwip_htons proto_len)) as [Hr' Hc']; [lia|].
  rewrite land16, lnot16 by lia. split; [lia|].
  replace (65535 - (65535 - _)) with (FOLD_U32T (FOLD_U32T (acc + lwip_htons proto + lwip_htons proto_len))) by lia.
  etrans; [exact Hc'|]. etrans; [|by apply pseudo_header_sum].
  apply congr_add; [apply congr_add; [done|]|]; apply congr_refl; lia.
Qed.

Lemma pseudo_tail_ok proto proto_len src dest acc data :
  0 <= proto < 256 -> 0 <= proto_len < 65536 -> 0 <= src < 2 ^ 32 -> 0 <= dest < 2 ^ 32 -> bytes_ok data ->
  stands acc false (src + dest + le_val data) ->
  le_bytes 2 (pseudo_tail proto proto_len acc) = rfc1071 (pseudo_header proto proto_len src dest ++ data).
Proof.
  intros Hp Hl Hs Hd Hb Hst. destruct (pseudo_tail_sum proto proto_len src dest acc data Hp Hl Hs Hd Hb Hst) as [Hr Hc].
  apply rfc1071_word; [|done|done]. apply Forall_app. split; [by apply pseudo_header_ok|done].
Qed.

(** The checksum over a chain with a pseudo header. *)
Lemma chain_pseudo {H} (base : Z -> Z) (s : lwip H) p l cs proto proto_len src dest :
  packet s p l cs -> Forall bytes_ok cs -> 0 <= proto < 256 -> 0 <= proto_len < 65536 -> 0 <= src < 2 ^ 32 -> 0 <= dest < 2 ^ 32 ->
  exists v, ip_chksum_pseudo base s p proto proto_len src dest = Ok v /\ 0 <= v <= 65535 /\
    congr (65535 - v) (le_val (pseudo_header proto proto_len src dest ++ concat cs)).
Proof.
  intros Hp Hcs Hpr Hpl Hs Hd. pose proof (packet_fuel _ _ _ _ Hp) as Hf. pose proof (addr_sum_ok src dest Hs Hd) as Ha.
  assert (Hb : bytes_ok (concat cs)) by (by apply Forall_concat). pose proof (le_val_nonneg _ Hb).
  unfold ip_chksum_pseudo, inet_chksum_pseudo, inet_cksum_pseudo_base.
  destruct (chksum_loop_ok base (chain_fuel s) s p l cs (addr_sum src dest) false (src + dest)) as (acc&sw&->&Hst); [done|done|done|lia|done|].
  cbn [rbind]. eexists. split; [reflexivity|]. apply pseudo_tail_sum; [done..|].
  apply stands_unswap; [lia|]. cbn [factor] in Hst. by rewrite Z.mul_1_l in Hst.
Qed.

(** ** Packets *)

(** C21.  On every packet, however its bytes are split into buffers and
    wherever the buffers lie, the checksum over a chain terminates with the
    checksum of RFC 1071 over the concatenated bytes, stored in network order;
    with a pseudo header it is the checksum of the bytes of the header followed
    by the packet, and the partial form sums the first [n] bytes of the packet.  The
    assertion "delete me" at inet_chksum.c:416, which only allows fewer
    than 0x7fff bytes to be left after a buffer, has no effect in this program (cc.h:73); the sum is right for
    all lengths. *)
Theorem chain_checksum {H} (base : Z -> Z) (s : lwip H) p l cs :
  packet s p l cs -> Forall bytes_ok cs ->
  (exists v, inet_chksum_pbuf base s p = Ok v /\ le_bytes 2 v = rfc1071 (concat cs)) /\
  (forall proto proto_len src dest n,
     0 <= proto < 256 -> 0 <= proto_len < 65536 -> 0 <= src < 2 ^ 32 -> 0 <= dest < 2 ^ 32 -> 0 <= n < 65536 ->
     let hdr := pseudo_header proto proto_len src dest in
     (exists v, ip_chksum_pseudo base s p proto proto_len src dest = Ok v /\
        le_bytes 2 v = rfc1071 (hdr ++ concat cs)) /\
     (exists v, ip_chksum_pseudo_partial base s p proto proto_len n src dest = Ok v /\
        le_bytes 2 v = rfc1071 (hdr ++ take (Z.to_nat n) (concat cs)))).
Proof.
  intros Hp Hcs. pose proof (packet_fuel _ _ _ _ Hp) as Hf.
  assert (Hb : bytes_ok (concat cs)) by (by apply Forall_concat).
  pose proof (le_val_nonneg _ Hb) as Hnn. split.
  - unfold inet_chksum_pbuf.
    destruct (chksum_loop_ok base (chain_fuel s) s p l cs 0 false 0) as (acc&sw&->&Hst); [done|done|done|lia|by repeat split|].
    cbn [rbind]. eexists. split; [reflexivity|].
    apply stands_unswap in Hst as [Hr Hc]; [|cbn [factor]; lia]. cbn [factor] in Hc.
    rewrite land16, lnot16 by lia. apply rfc1071_word; [done|lia|]. rewrite Z.sub_sub_distr, Z.sub_diag.
    rewrite !Z.mul_1_l in Hc. done.
  - intros proto proto_len src dest n Hpr Hpl Hs Hd Hn hdr. pose proof (addr_sum_ok src dest Hs Hd) as Ha.
    assert (Ht : bytes_ok (take (Z.to_nat n) (concat cs))) by (by apply Forall_take).
    pose proof (le_val_nonneg _ Ht). split.
    + destruct (chain_pseudo base s p l cs proto proto_len src dest Hp Hcs Hpr Hpl Hs Hd) as (v&Hv&Hr&Hc). exists v. split; [done|].
      apply rfc1071_word; [|done|done]. apply Forall_app. split; [by apply pseudo_header_ok|done].
    + unfold ip_chksum_pseudo_partial, inet_chksum_pseudo_partial, inet_cksum_pseudo_partial_base.
      destruct (chksum_partial_ok base (chain_fuel s) s p l cs n (addr_sum src dest) false (src + dest))
        as (acc&sw&->&Hst); [done|done|done|lia|lia|done|].
      cbn [rbind]. eexists. split; [reflexivity|]. apply pseudo_tail_ok; [done..|].
      apply stands_unswap; [lia|]. cbn [factor] in Hst. by rewrite Z.mul_1_l in Hst.
Qed.

(** A packet of five bytes in two buffers of three and two, the first of them at
    an odd address. *)
Definition odd_packet : lwip unit :=
  mk_lwip {[ 1 := mk_pbuf (Some 2) (Some (10, 1)) 5 3 1 0 1 0; 2 := mk_pbuf None (Some (20, 0)) 2 2 1 0 1 0 ]}
    {[ 10 := [0xaa; 0x45; 0x00; 0xff]; 20 := [0x73; 0xf0] ]} None None false [] tt.

Definition odd_base (a : Z) : Z := 0x40000000 + 16 * a.

Lemma odd_packet_ok : packet odd_packet (Some 1) [1; 2] [[0x45; 0x00; 0xff]; [0x73; 0xf0]].
Proof.
  split; [reflexivity|]. eexists. split; [reflexivity|]. repeat (split; [reflexivity|]). split.
  { exists 10, 1, [0xaa; 0x45; 0x00; 0xff]. repeat split; cbn; lia. }
  split; [reflexivity|]. eexists. split; [reflexivity|]. repeat (split; [reflexivity|]). split; [|reflexivity].
  exists 20, 0, [0x73; 0xf0]. repeat split; cbn; lia.
Qed.

Lemma chain_checksum_witness :
  (exists v, inet_chksum_pbuf odd_base odd_packet (Some 1) = Ok v /\ v = 0x8acb) /\
  (exists v, ip_chksum_pseudo odd_base odd_packet (Some 1) 17 5 0x0100a8c0 0x0200a8c0 = Ok v /\
     le_bytes 2 v = rfc1071 [192; 168; 0; 1; 192; 168; 0; 2; 0; 17; 0; 5; 0x45; 0x00; 0xff; 0x73; 0xf0]).
Proof.
  destruct (chain_checksum odd_base odd_packet (Some 1) [1; 2] [[0x45; 0x00; 0xff]; [0x73; 0xf0]] odd_packet_ok)
    as [(v&Hv&Hrfc) Hps].
  { repeat constructor; lia. }
  split.
  - exists v. split; [exact Hv|]. vm_compute in Hv. injection Hv as <-. reflexivity.
  - destruct (Hps 17 5 0x0100a8c0 0x0200a8c0 0) as [Hp _]; [lia..|]. exact Hp.
Defined.

(** ** Blocks of memory *)

Lemma inet_chksum_ok {H} (base : Z -> Z) (s : lwip H) ptr c :
  readable s ptr c -> bytes_ok c -> Z.of_nat (length c) <= 0x20000 ->
  exists v, inet_chksum base s ptr (Z.of_nat (length c)) = Ok v /\ 0 <= v <= 65535 /\ congr (65535 - v) (le_val c).
Proof.
  intros Hr Hb Hl. unfold inet_chksum. destruct (standard_chksum_ok s ptr c Hr Hb base Hl) as (v&->&Hv&Hc).
  cbn [rbind]. rewrite lnot16 by done. exists (65535 - v). split; [done|]. split; [lia|].
  rewrite Z.sub_sub_distr, Z.sub_diag. done.
Qed.

(** Bytes of a block that are replaced. *)
Lemma le_val_splice k bs c : (k + length bs <= length c)%nat ->
  le_val (splice k bs c) =
    le_val c + 256 ^ Z.of_nat k * (le_val bs - le_val (slice k (length bs) c)).
Proof.
  intros Hk.
  assert (Hc : le_val c = le_val (take k c ++ slice k (length bs) c ++ drop (k + length bs) c)).
  { f_equal. unfold slice. rewrite <- drop_drop, take_drop, take_drop. done. }
  rewrite Hc. unfold splice. rewrite !le_val_app, length_take, length_slice, Nat.min_l by lia. lia.
Qed.

(** A block of [n] bytes at [o] in the area [a], and writes inside it. *)
Definition block {H} (s : lwip H) (a o : Z) (c : list Z) : Prop :=
  exists bs, areas s !! a = Some bs /\ bytes_ok bs /\ 0 <= o /\
    o + Z.of_nat (length c) <= Z.of_nat (length bs) /\ bytes_at bs o (Z.of_nat (length c)) = c.

Lemma block_readable {H} (s : lwip H) a o c : block s a o c -> readable s (Some (a, o)) c /\ bytes_ok c.
Proof.
  intros (bs&Ha&Hb&Ho&Hl&Hc). split; [|rewrite <- Hc; by apply bytes_ok_bytes_at].
  intros off k H0 Hk Hle. unfold ld_bytes, area. cbn [not_null rbind]. rewrite Ha. cbn [rbind].
  rewrite (proj2 (in_range_spec bs (o + off) k)) by lia. f_equal. rewrite <- Hc.
  symmetry. apply bytes_at_bytes_at; lia.
Qed.

Lemma block_write {H} (s : lwip H) a o c k v :
  block s a o c -> 0 <= k -> k + Z.of_nat (length v) <= Z.of_nat (length c) -> bytes_ok v ->
  exists s', st_bytes s (Some (a, o)) k v = Ok s' /\ block s' a o (splice (Z.to_nat k) v c).
Proof.
  intros (bs&Ha&Hb&Ho&Hl&Hc) Hk Hle Hv. unfold st_bytes, area. cbn [not_null rbind]. rewrite Ha. cbn [rbind].
  unfold wr. rewrite (proj2 (in_range_spec bs (o + k) (Z.of_nat (length v)))) by lia. cbn [rbind].
  eexists. split; [reflexivity|]. eexists. split; [apply lookup_insert_eq|].
  split; [by apply bytes_ok_splice|]. split; [done|].
  rewrite !length_splice by lia. split; [done|]. apply list_eq. intros i.
  assert (Hci : forall i, c !! i = bytes_at bs o (Z.of_nat (length c)) !! i) by (intros; by rewrite Hc).
  unfold bytes_at in *. rewrite lookup_slice, !lookup_splice, !Hci, !lookup_slice by lia.
  repeat case_decide; try lia; try (f_equal; lia); done.
Qed.

(** The two bytes of the checksum, at an even place that was zero, complete the sum. *)
Lemma stored_sum k v c : Nat.even k = true -> (k + 2 <= length c)%nat -> slice k 2 c = [0; 0] ->
  0 <= v <= 65535 -> congr (65535 - v) (le_val c) -> congr (le_val (splice k (le_bytes 2 v) c)) 65535.
Proof.
  intros Hk Hl Hz Hv Hc. rewrite le_val_splice by done. change (length (le_bytes 2 v)) with 2%nat.
  rewrite Hz, le_val_bytes, Z.mod_small by (cbn; lia). change (le_val [0; 0]) with 0. rewrite Z.sub_0_r.
  pose proof (pow256_parity k) as Hp. rewrite <- Nat.negb_even, Hk in Hp. cbn [negb] in Hp.
  etrans; [apply congr_add; [symmetry; exact Hc|apply congr_mul; [exact Hp|apply congr_refl; lia]]|].
  rewrite Z.mul_1_l, Z.sub_add. by apply congr_refl.
Qed.

(** A block whose checksum is zero does not stay one when a single byte changes. *)
Lemma changed_sum i x c : (i < length c)%nat -> 0 <= x < 256 -> bytes_ok c ->
  congr (le_val c) 65535 -> congr (le_val (splice i [x] c)) 65535 -> slice i 1 c = [x].
Proof.
  intros Hi Hx Hb (_&_&Hm&_) (_&_&Hm'&_). rewrite le_val_splice in Hm' by (cbn; lia).
  change (length [x]) with 1%nat in Hm'. change (65535 mod 65535) with 0 in *.
  destruct (lookup_lt_is_Some_2 c i Hi) as [y Hy].
  assert (Hs : slice i 1 c = [y]). { unfold slice. by rewrite (drop_S _ y), firstn_cons, firstn_O. }
  pose proof (Forall_lookup_1 _ _ _ _ Hb Hy) as Hyb. cbn in Hyb.
  rewrite Hs in *. cbn [le_val] in Hm'. f_equal.
  rewrite Z.add_mod, Hm, Z.add_0_l, Z.mod_mod in Hm' by lia.
  apply Z.mod_divide in Hm'; [|lia]. apply Z.gauss in Hm'.
  - destruct Hm' as [q Hq]. nia.
  - apply Z.coprime_pow_r; [lia|reflexivity].
Qed.

(** Clearing the checksum field of a block, computing [inet_chksum] and
    storing it in the field, at an even offset, always succeeds, and
    [inet_chksum] over the block is then zero, which is what a receiver tests;
    after a write of any one byte it is zero only if the byte was there before,
    so every change of a single byte is detected. *)
Theorem checksum_detects {H} (base : Z -> Z) (s : lwip H) a o c k :
  block s a o c -> Z.of_nat (length c) < 65536 ->
  0 <= k -> Z.even k = true -> k + 2 <= Z.of_nat (length c) ->
  let n := Z.of_nat (length c) in
  exists s1 v s2,
    st_bytes s (Some (a, o)) k [0; 0] = Ok s1 /\
    inet_chksum base s1 (Some (a, o)) n = Ok v /\
    st_bytes s1 (Some (a, o)) k (le_bytes 2 v) = Ok s2 /\
    inet_chksum base s2 (Some (a, o)) n = Ok 0 /\
    forall i x, 0 <= i < n -> 0 <= x < 256 ->
      exists s3, st_bytes s2 (Some (a, o)) i [x] = Ok s3 /\
        (inet_chksum base s3 (Some (a, o)) n = Ok 0 -> ld_bytes s2 (Some (a, o)) i 1 = Ok [x]).
Proof.
  intros Hblk Hmax Hk Hev Hle n.
  destruct (block_write s a o c k [0; 0] Hblk Hk) as (s1&Hw1&Hb1); [cbn; lia|repeat constructor; lia|].
  set (c1 := splice (Z.to_nat k) [0; 0] c) in *.
  assert (Hl1 : length c1 = length c) by (apply length_splice; cbn; lia).
  destruct (block_readable _ _ _ _ Hb1) as [Hr1 Hok1].
  destruct (inet_chksum_ok base s1 (Some (a, o)) c1 Hr1 Hok1) as (v&Hv&Hvr&Hvc); [lia|].
  destruct (block_write s1 a o c1 k (le_bytes 2 v) Hb1 Hk) as (s2&Hw2&Hb2); [cbn; lia|apply bytes_ok_le_bytes|].
  assert (Hsum : congr (le_val (splice (Z.to_nat k) (le_bytes 2 v) c1)) 65535).
  { apply stored_sum; [|lia| |done|done].
    - apply Z.even_spec in Hev as [m ->]. apply Nat.even_spec. exists (Z.to_nat m). lia.
    - apply slice_splice_same; [done|lia]. }
  set (c2 := splice (Z.to_nat k) (le_bytes 2 v) c1) in *.
  assert (Hl2 : length c2 = length c) by (unfold c2; rewrite length_splice; [done|cbn; lia]).
  destruct (block_readable _ _ _ _ Hb2) as [Hr2 Hok2].
  exists s1, v, s2. rewrite Hl1 in Hv. split; [done|]. split; [done|]. split; [done|]. split.
  - destruct (inet_chksum_ok base s2 (Some (a, o)) c2 Hr2 Hok2) as (v2&Hv2&Hvr2&Hvc2); [lia|].
    rewrite Hl2 in Hv2. replace 0 with v2; [exact Hv2|].
    assert (65535 - v2 = 65535) by (apply congr_word; [lia..|by etrans]). lia.
  - intros i x Hi Hx.
    destruct (block_write s2 a o c2 i [x] Hb2) as (s3&Hw3&Hb3); [lia|cbn; lia|by apply Forall_singleton|].
    exists s3. split; [done|]. intros Hz. destruct (block_readable _ _ _ _ Hb3) as [Hr3 Hok3].
    assert (Hl3 : length (splice (Z.to_nat i) [x] c2) = length c) by (rewrite length_splice; [done|cbn; lia]).
    destruct (inet_chksum_ok base s3 (Some (a, o)) _ Hr3 Hok3) as (v3&Hv3&_&Hvc3); [lia|].
    rewrite Hl3 in Hv3. unfold n in Hz. rewrite Hz in Hv3. injection Hv3 as <-. rewrite Z.sub_0_r in Hvc3.
    rewrite Hr2 by lia. f_equal. apply (changed_sum (Z.to_nat i)); [lia|done|done|done|by symmetry].
Qed.

Lemma checksum_detects_witness :
  exists s1 v s2,
    st_bytes odd_packet (Some (10, 1)) 0 [0; 0] = Ok s1 /\
    inet_chksum odd_base s1 (Some (10, 1)) 3 = Ok v /\
    st_bytes s1 (Some (10, 1)) 0 (le_bytes 2 v) = Ok s2 /\
    inet_chksum odd_base s2 (Some (10, 1)) 3 = Ok 0.
Proof.
  destruct (checksum_detects odd_base odd_packet 10 1 [0x45; 0x00; 0xff] 0) as (s1&v&s2&H1&H2&H3&H4&_).
  - exists [0xaa; 0x45; 0x00; 0xff]. split; [reflexivity|]. split; [repeat constructor; lia|].
    repeat split; cbn; lia.
  - cbn. lia.
  - lia.
  - reflexivity.
  - cbn. lia.
  - exists s1, v, s2. repeat (split; [assumption|]). exact H4.
Defined.
