(* ===== verification/Timeouts.v ===== *)
(** * Timers: [src/lib/lwip/src/core/timeouts.c]

    The timeouts of the network stack in the configuration of
    [src/lib/lwip/lwipopts.h]: TCP, reassembly and ARP have cyclic timers, the
    names of timers are not kept.  Timeouts are structures of a pool, linked in
    the order in which they are due; times are milliseconds in 32 bits and wrap
    around. *)

From stdpp Require Import base numbers list decidable gmap.
From Stdlib Require Import ZArith Lia Bool.
From S2P Require Import Prelude Linked.
Open Scope Z_scope.

(** ** Constants *)

Definition LWIP_MAX_TIMEOUT : Z := 0x7fffffff.
Definition TCP_TMR_INTERVAL : Z := 250.
Definition IP_TMR_INTERVAL : Z := 1000.
Definition ARP_TMR_INTERVAL : Z := 1000.
Definition SYS_TIMEOUTS_SLEEPTIME_INFINITE : Z := 0xFFFFFFFF.

(** One timeout for each of TCP, reassembly and ARP. *)
Definition MEMP_NUM_SYS_TIMEOUT : Z := 1 + 1 + 1.

Definition TIME_LESS_THAN (t compare_to : Z) : bool := LWIP_MAX_TIMEOUT <? wrap32 (t - compare_to).

(** ** State *)

(** The functions of this file that are passed as handlers, and others. *)
Inductive handler : Type :=
| h_tcpip_tcp_timer
| h_lwip_cyclic_timer
| h_other (f : Z).

#[export] Instance handler_eq_dec : EqDecision handler.
Proof. solve_decision. Defined.

(** [arg] is null or a pointer; for the cyclic timers it points to the element of
    [lwip_cyclic_timers] with this index. *)
Record sys_timeo : Type := mk_sys_timeo {
  t_next : option Z;
  time : Z;
  h : option handler;
  arg : option Z
}.

Definition set_t_next (v : option Z) (t : sys_timeo) : sys_timeo := mk_sys_timeo v (time t) (h t) (arg t).
Definition set_time (v : Z) (t : sys_timeo) : sys_timeo := mk_sys_timeo (t_next t) v (h t) (arg t).

Inductive cyclic_id : Type :=
| tcp_tmr
| ip_reass_tmr
| etharp_tmr.

Record lwip_cyclic_timer_t : Type := mk_cyclic { interval_ms : Z; cyc_handler : cyclic_id }.

Definition lwip_cyclic_timers : list lwip_cyclic_timer_t :=
  [mk_cyclic TCP_TMR_INTERVAL tcp_tmr; mk_cyclic IP_TMR_INTERVAL ip_reass_tmr; mk_cyclic ARP_TMR_INTERVAL etharp_tmr].

(** The structures of the pool, its free list, the list of timeouts, the time of
    the last timeout that has expired, whether the TCP timer is scheduled, and
    the rest of the system. *)
Record timers (W : Type) : Type := mk_timers {
  timeos : gmap Z sys_timeo;
  tab_timeo : option Z;
  next_timeout : option Z;
  current_timeout_due_time : Z;
  tcpip_tcp_timer_active : bool;
  world : W
}.

Arguments mk_timers {W}.
Arguments timeos {W}.
Arguments tab_timeo {W}.
Arguments next_timeout {W}.
Arguments current_timeout_due_time {W}.
Arguments tcpip_tcp_timer_active {W}.
Arguments world {W}.

Definition set_timeos {W} (v : gmap Z sys_timeo) (s : timers W) : timers W :=
  mk_timers v (tab_timeo s) (next_timeout s) (current_timeout_due_time s) (tcpip_tcp_timer_active s) (world s).
Definition set_tab_timeo {W} (v : option Z) (s : timers W) : timers W :=
  mk_timers (timeos s) v (next_timeout s) (current_timeout_due_time s) (tcpip_tcp_timer_active s) (world s).
Definition set_next_timeout {W} (v : option Z) (s : timers W) : timers W :=
  mk_timers (timeos s) (tab_timeo s) v (current_timeout_due_time s) (tcpip_tcp_timer_active s) (world s).
Definition set_due_time {W} (v : Z) (s : timers W) : timers W :=
  mk_timers (timeos s) (tab_timeo s) (next_timeout s) v (tcpip_tcp_timer_active s) (world s).
Definition set_tcp_active {W} (v : bool) (s : timers W) : timers W :=
  mk_timers (timeos s) (tab_timeo s) (next_timeout s) (current_timeout_due_time s) v (world s).
Definition set_world {W} (v : W) (s : timers W) : timers W :=
  mk_timers (timeos s) (tab_timeo s) (next_timeout s) (current_timeout_due_time s) (tcpip_tcp_timer_active s) v.

(** What the timers use of the rest of the system: the clock, whether TCP has
    active or waiting connections, the freeing of out-of-sequence data, and the
    functions that are called.  These functions may set and cancel timeouts. *)
Class TimerEnv (W : Type) : Type := {
  sys_now : W -> Z * W;
  tcp_pcbs : W -> bool;
  check_free_ooseq : W -> W;
  run_cyclic : cyclic_id -> timers W -> result (timers W);
  run_other : Z -> option Z -> timers W -> result (timers W)
}.

(** ** The functions *)

Section timeouts.
Context {W : Type} `{TimerEnv W}.
Implicit Types (s : timers W).

Definition t_deref s (p : Z) : result sys_timeo :=
  match timeos s !! p with Some b => Ok b | None => Fault Dangling end.

Definition t_assign (p : Z) (f : sys_timeo -> sys_timeo) s : result (timers W) :=
  let* b := t_deref s p in
  Ok (set_timeos (<[p := f b]> (timeos s)) s).

(** [memp_malloc] and [memp_free] of the pool of timeouts. *)
Definition timeo_malloc s : result (option Z * timers W) :=
  match tab_timeo s with
  | None => Ok (None, s)
  | Some p =>
      let* b := t_deref s p in
      Ok (Some p, set_tab_timeo (t_next b) s)
  end.

Definition timeo_free (p : Z) s : result (timers W) :=
  let* s := t_assign p (set_t_next (tab_timeo s)) s in
  Ok (set_tab_timeo (Some p) s).

Definition now s : Z * timers W :=
  let (t, w) := sys_now (world s) in (t, set_world w s).

(** Loops over the list end after as many rounds as there are structures. *)
Definition timer_fuel s : nat := S (size (timeos s)).

(** The walk to the place of [timeout], from [t] on. *)
Fixpoint insert_loop (fuel : nat) (timeout t : Z) s : result (timers W) :=
  match fuel with
  | O => Fault OutOfFuel
  | S fuel =>
      let* b := t_deref s t in
      match t_next b with
      | None =>
          let* s := t_assign timeout (set_t_next None) s in
          t_assign t (set_t_next (Some timeout)) s
      | Some n =>
          let* x := t_deref s timeout in
          let* bn := t_deref s n in
          if TIME_LESS_THAN (time x) (time bn) then
            let* s := t_assign timeout (set_t_next (Some n)) s in
            t_assign t (set_t_next (Some timeout)) s
          else insert_loop fuel timeout n s
      end
  end.

Definition sys_timeout_abs (abs_time : Z) (hd : option handler) (a : option Z) s : result (timers W) :=
  let* (timeout, s) := timeo_malloc s in
  match timeout with
  | None => Ok s
  | Some timeout =>
      let* s := t_assign timeout (fun _ => mk_sys_timeo None abs_time hd a) s in
      match next_timeout s with
      | None => Ok (set_next_timeout (Some timeout) s)
      | Some first =>
          let* b := t_deref s first in
          if TIME_LESS_THAN abs_time (time b) then
            let* s := t_assign timeout (set_t_next (Some first)) s in
            Ok (set_next_timeout (Some timeout) s)
          else insert_loop (timer_fuel s) timeout first s
      end
  end.

Definition sys_timeout (msecs : Z) (hd : option handler) (a : option Z) s : result (timers W) :=
  let (t, s) := now s in
  sys_timeout_abs (wrap32 (t + msecs)) hd a s.

Definition tcpip_tcp_timer s : result (timers W) :=
  let* s := run_cyclic tcp_tmr s in
  if tcp_pcbs (world s) then sys_timeout TCP_TMR_INTERVAL (Some h_tcpip_tcp_timer) None s
  else Ok (set_tcp_active false s).

Definition tcp_timer_needed s : result (timers W) :=
  if negb (tcpip_tcp_timer_active s) && tcp_pcbs (world s) then
    sys_timeout TCP_TMR_INTERVAL (Some h_tcpip_tcp_timer) None (set_tcp_active true s)
  else Ok s.

Definition lwip_cyclic_timer (a : option Z) s : result (timers W) :=
  match a with
  | None => Fault NullPointer
  | Some i =>
      match lwip_cyclic_timers !! Z.to_nat i with
      | None => Fault OutOfBounds
      | Some cyclic =>
          let* s := run_cyclic (cyc_handler cyclic) s in
          let (t, s) := now s in
          let next_timeout_time := wrap32 (current_timeout_due_time s + interval_ms cyclic) in
          if TIME_LESS_THAN next_timeout_time t
          then sys_timeout_abs (wrap32 (t + interval_ms cyclic)) (Some h_lwip_cyclic_timer) a s
          else sys_timeout_abs next_timeout_time (Some h_lwip_cyclic_timer) a s
      end
  end.

(** The loop over the timers, of which [tcp_tmr] at index 0 is left out. *)
Fixpoint init_loop (i : Z) (cs : list lwip_cyclic_timer_t) s : result (timers W) :=
  match cs with
  | [] => Ok s
  | c :: cs =>
      let* s := sys_timeout (interval_ms c) (Some h_lwip_cyclic_timer) (Some i) s in
      init_loop (i + 1) cs s
  end.

Definition sys_timeouts_init s : result (timers W) := init_loop 1 (tl lwip_cyclic_timers) s.

Fixpoint untimeout_loop (fuel : nat) (hd : option handler) (a : option Z) (prev t : option Z) s
    : result (timers W) :=
  match fuel with
  | O => Fault OutOfFuel
  | S fuel =>
      match t with
      | None => Ok s
      | Some t =>
          let* b := t_deref s t in
          if bool_decide (h b = hd) && bool_decide (arg b = a) then
            let* s := match prev with
                      | None => Ok (set_next_timeout (t_next b) s)
                      | Some p => t_assign p (set_t_next (t_next b)) s
                      end in
            timeo_free t s
          else untimeout_loop fuel hd a (Some t) (t_next b) s
      end
  end.

Definition sys_untimeout (hd : option handler) (a : option Z) s : result (timers W) :=
  untimeout_loop (timer_fuel s) hd a None (next_timeout s) s.

(** [handler(arg)]. *)
Definition call_handler (hd : handler) (a : option Z) s : result (timers W) :=
  match hd with
  | h_tcpip_tcp_timer => tcpip_tcp_timer s
  | h_lwip_cyclic_timer => lwip_cyclic_timer a s
  | h_other f => run_other f a s
  end.

(** One round: the state and whether the function returns. *)
Definition check_round (t : Z) s : result (bool * timers W) :=
  let s := set_world (check_free_ooseq (world s)) s in
  match next_timeout s with
  | None => Ok (true, s)
  | Some tmp =>
      let* b := t_deref s tmp in
      if TIME_LESS_THAN t (time b) then Ok (true, s)
      else
        let s := set_due_time (time b) (set_next_timeout (t_next b) s) in
        let* s := timeo_free tmp s in
        let* s := match h b with Some hd => call_handler hd (arg b) s | None => Ok s end in
        Ok (false, s)
  end.

(** The loop has no end of its own: handlers may set timeouts. *)
Fixpoint check_loop (fuel : nat) (t : Z) s : result (timers W) :=
  match fuel with
  | O => Fault OutOfFuel
  | S fuel =>
      let* (ret, s) := check_round t s in
      if ret : bool then Ok s else check_loop fuel t s
  end.

Definition sys_check_timeouts (fuel : nat) s : result (timers W) :=
  let (t, s) := now s in check_loop fuel t s.

Fixpoint restart_loop (fuel : nat) (t base : Z) (p : option Z) s : result (timers W) :=
  match fuel with
  | O => Fault OutOfFuel
  | S fuel =>
      match p with
      | None => Ok s
      | Some p =>
          let* b := t_deref s p in
          let* s := t_assign p (set_time (wrap32 (time b - base + t))) s in
          restart_loop fuel t base (t_next b) s
      end
  end.

Definition sys_restart_timeouts s : result (timers W) :=
  match next_timeout s with
  | None => Ok s
  | Some first =>
      let (t, s) := now s in
      let* b := t_deref s first in
      restart_loop (timer_fuel s) t (time b) (Some first) s
  end.

Definition sys_timeouts_sleeptime s : result (Z * timers W) :=
  match next_timeout s with
  | None => Ok (SYS_TIMEOUTS_SLEEPTIME_INFINITE, s)
  | Some first =>
      let (t, s) := now s in
      let* b := t_deref s first in
      if TIME_LESS_THAN (time b) t then Ok (0, s) else Ok (wrap32 (time b - t), s)
  end.

End timeouts.
