(* ===== verification/TimerQueue.v ===== *)
(** * The timeouts as a queue ordered by time

    The list of timeouts of [Timeouts] against a queue whose times do not wrap
    around: what the functions of [src/lib/lwip/src/core/timeouts.c] do to the
    linked structures is insertion, removal and expiry on that queue, as long as
    the times that are compared are less than 2^31 milliseconds apart. *)

From stdpp Require Import base numbers list decidable gmap sorting.
From Stdlib Require Import ZArith Lia Bool.
From S2P Require Import Prelude Linked Timeouts.
Open Scope Z_scope.

(** ** The abstract queue *)

(** A timeout that is due at a time of an unbounded clock. *)
Record entry : Type := mk_entry { due : Z; e_h : option handler; e_arg : option Z }.

(** Behind the entries that are due at the same time. *)
Fixpoint enqueue (e : entry) (q : list entry) : list entry :=
  match q with
  | [] => [e]
  | e' :: q => if due e <? due e' then e :: e' :: q else e' :: enqueue e q
  end.

Definition matching (hd : option handler) (a : option Z) (e : entry) : bool :=
  bool_decide (e_h e = hd) && bool_decide (e_arg e = a).

(** Without the first matching entry. *)
Fixpoint cancel (hd : option handler) (a : option Z) (q : list entry) : list entry :=
  match q with
  | [] => []
  | e :: q => if matching hd a e then q else e :: cancel hd a q
  end.

Definition in_order (q : list entry) : Prop := StronglySorted Z.le (due <$> q).

Lemma elem_of_enqueue e q x : x ∈ enqueue e q <-> x = e \/ x ∈ q.
Proof. induction q as [|y q IH]; cbn; [set_solver|]. destruct (due e <? due y); set_solver. Qed.

Lemma enqueue_perm e q : enqueue e q ≡ₚ e :: q.
Proof. induction q as [|y q IH]; cbn; [done|]. destruct (due e <? due y); [done|]. rewrite IH. apply Permutation_swap. Qed.

Lemma enqueue_in_order e q : in_order q -> in_order (enqueue e q).
Proof.
  unfold in_order. induction q as [|y q IH]; cbn; intros Hs; [repeat constructor|].
  inversion Hs as [|? ? Hq Hy]; subst. destruct (Z.ltb_spec (due e) (due y)); cbn.
  - constructor; [done|]. constructor; [lia|]. eapply Forall_impl; [exact Hy|]. cbn. lia.
  - constructor; [auto|]. rewrite Forall_fmap in *. apply Forall_forall. intros x Hx%elem_of_enqueue.
    rewrite Forall_forall in Hy. destruct Hx as [->|Hx]; cbn; [lia|]. by apply Hy.
Qed.

Lemma Forall_cancel (P : entry -> Prop) hd a q : Forall P q -> Forall P (cancel hd a q).
Proof. induction 1 as [|e q He Hq IH]; cbn; [constructor|]. destruct (matching hd a e); by try constructor. Qed.

(** ** Times that wrap around *)

Lemma time_less_than a b : -2 ^ 31 <= a - b < 2 ^ 31 -> TIME_LESS_THAN (wrap32 a) (wrap32 b) = (a <? b).
Proof.
  intros Hd. unfold TIME_LESS_THAN, LWIP_MAX_TIMEOUT, wrap. rewrite <- Zminus_mod.
  destruct (Z.ltb_spec a b).
  - rewrite <- (Z.mod_add _ 1) by lia. rewrite Z.mod_small by lia. apply Z.ltb_lt. lia.
  - rewrite Z.mod_small by lia. apply Z.ltb_ge. lia.
Qed.

(** ** The linked structures *)

Definition shows (b : sys_timeo) (e : entry) : Prop :=
  time b = wrap32 (due e) /\ h b = e_h e /\ arg b = e_arg e.

Fixpoint tlist (m : gmap Z sys_timeo) (o : option Z) (l : list Z) (q : list entry) : Prop :=
  match l, q with
  | [], [] => o = None
  | p :: l, e :: q => o = Some p /\ exists b, m !! p = Some b /\ shows b e /\ tlist m (t_next b) l q
  | _, _ => False
  end.

Lemma tlist_linked m o l q : tlist m o l q -> linked t_next m o l.
Proof.
  revert o q. induction l as [|p l IH]; intros o [|e q]; cbn; try done.
  intros [-> (b&Hb&_&Hl)]. eauto.
Qed.

Lemma tlist_length m o l q : tlist m o l q -> length l = length q.
Proof. revert o q. induction l as [|p l IH]; intros o [|e q]; cbn; try done. intros [_ (b&_&_&Hl)]. f_equal. eauto. Qed.

Lemma tlist_ext m m' o l q : (forall p, p ∈ l -> m' !! p = m !! p) -> tlist m o l q -> tlist m' o l q.
Proof.
  revert o q. induction l as [|p l IH]; intros o [|e q] Hext; cbn; try done. intros [-> (b&Hb&Hs&Hl)].
  split; [done|]. exists b. rewrite Hext by set_solver. split; [done|]. split; [done|].
  apply IH; [|done]. intros r Hr. apply Hext. set_solver.
Qed.

Lemma tlist_not_elem m p b l q : m !! p = Some b -> tlist m (Some p) (p :: l) q -> p ∉ l.
Proof. intros _ Ht%tlist_linked%linked_nodup. by apply NoDup_cons in Ht as [? _]. Qed.

(** A state holds the queue [q] and [n] free structures. *)
Definition timerq {W} (s : timers W) (q : list entry) (n : nat) : Prop :=
  exists l f, tlist (timeos s) (next_timeout s) l q /\ linked t_next (timeos s) (tab_timeo s) f /\
    l ## f /\ length f = n.

(** What an operation on the list leaves alone. *)
Definition same_rest {W} (s s' : timers W) : Prop :=
  world s' = world s /\ current_timeout_due_time s' = current_timeout_due_time s /\
  tcpip_tcp_timer_active s' = tcpip_tcp_timer_active s.

Section queue_ops.
Context {W : Type} `{TimerEnv W}.
Implicit Types (s : timers W).

Lemma t_deref_ok s p b : timeos s !! p = Some b -> t_deref s p = Ok b.
Proof. unfold t_deref. by intros ->. Qed.

Lemma t_assign_ok s p b f : timeos s !! p = Some b ->
  t_assign p f s = Ok (set_timeos (<[p := f b]> (timeos s)) s).
Proof. intros Hb. unfold t_assign. by rewrite (t_deref_ok s p b Hb). Qed.

Lemma tlist_fuel s o l q : tlist (timeos s) o l q -> (length l < timer_fuel s)%nat.
Proof. intros Ht%tlist_linked%linked_size. unfold timer_fuel. lia. Qed.

(** ** Insertion *)

Lemma insert_loop_ok fuel s x bx ex t l e0 q :
  tlist (timeos s) (Some t) (t :: l) (e0 :: q) -> timeos s !! x = Some bx -> shows bx ex ->
  x ∉ t :: l -> (length l < fuel)%nat ->
  (forall e, e ∈ q -> -2 ^ 31 <= due ex - due e < 2 ^ 31) ->
  exists m l', insert_loop fuel x t s = Ok (set_timeos m s) /\
    tlist m (Some t) (t :: l') (e0 :: enqueue ex q) /\ l' ≡ₚ x :: l /\
    (forall p, p ∉ x :: t :: l -> m !! p = timeos s !! p).
Proof.
  revert fuel t e0 q. induction l as [|n l IH]; intros fuel t e0 q Ht Hx Hsx Hnx Hf Hw;
    (destruct fuel as [|fuel]; [lia|]); pose proof (tlist_linked _ _ _ _ Ht) as Hnd%linked_nodup;
    destruct Ht as [_ (b&Hb&Hs&Ht)]; cbn [insert_loop]; rewrite (t_deref_ok s t b Hb); cbn [rbind].
  - destruct q as [|? ?]; [|done]. cbn in Ht. rewrite Ht. rewrite (t_assign_ok s x bx _ Hx). cbn [rbind].
    rewrite (t_assign_ok _ t b) by (cbn; rewrite lookup_insert_ne by set_solver; done).
    eexists _, [x]. split; [reflexivity|]. split.
    { split; [done|]. eexists. split; [apply lookup_insert_eq|]. split; [exact Hs|]. split; [done|].
      eexists. split; [rewrite lookup_insert_ne by set_solver; apply lookup_insert_eq|]. by split. }
    split; [done|]. intros p Hp. cbn. rewrite !lookup_insert_ne by set_solver. done.
  - destruct q as [|e1 q]; [done|]. destruct Ht as [Hn (bn&Hbn&Hsn&Ht)]. rewrite Hn. cbn [rbind].
    rewrite (t_deref_ok s x bx Hx). cbn [rbind]. rewrite (t_deref_ok s n bn Hbn). cbn [rbind].
    destruct Hsx as (Htx&Hsx'). pose proof Hsn as (Htn&_). rewrite Htx, Htn, time_less_than by (apply Hw; set_solver).
    cbn [enqueue]. destruct (Z.ltb_spec (due ex) (due e1)).
    + rewrite (t_assign_ok s x bx _ Hx). cbn [rbind].
      rewrite (t_assign_ok _ t b) by (cbn; rewrite lookup_insert_ne by set_solver; done).
      eexists _, (x :: n :: l). split; [reflexivity|]. split.
      { split; [done|]. eexists. split; [apply lookup_insert_eq|]. split; [exact Hs|]. split; [done|].
        eexists. split; [rewrite lookup_insert_ne by set_solver; apply lookup_insert_eq|]. split; [by split|].
        cbn. apply NoDup_cons in Hnd as [Htl _]. split; [done|].
        exists bn. rewrite !lookup_insert_ne by set_solver. split; [done|]. split; [done|].
        eapply tlist_ext; [|exact Ht]. intros p Hp. rewrite !lookup_insert_ne by set_solver. done. }
      split; [done|]. intros p Hp. cbn. rewrite !lookup_insert_ne by set_solver. done.
    + destruct (IH fuel n e1 q) as (m&l'&Hrun&Ht'&Hp&Hout); [|done|by split|set_solver|cbn in Hf; lia|set_solver|].
      { split; [done|]. by exists bn. }
      exists m, (n :: l'). split; [done|]. apply NoDup_cons in Hnd as [Htl _]. split.
      { split; [done|]. exists b. rewrite Hout by set_solver. split; [done|]. split; [done|]. rewrite Hn. exact Ht'. }
      split; [rewrite Hp; apply Permutation_swap|]. intros p Hpo. apply Hout. set_solver.
Qed.

Lemma timeout_abs_full s q D hd a : timerq s q 0 -> sys_timeout_abs (wrap32 D) hd a s = Ok s.
Proof.
  intros (l&f&_&Hf&_&Hn). destruct f; [|done]. cbn in Hf. unfold sys_timeout_abs, timeo_malloc. by rewrite Hf.
Qed.

Lemma timeout_abs_ok s q n D hd a :
  timerq s q (S n) -> (forall e, e ∈ q -> -2 ^ 31 <= D - due e < 2 ^ 31) ->
  exists s', sys_timeout_abs (wrap32 D) hd a s = Ok s' /\ timerq s' (enqueue (mk_entry D hd a) q) n /\
    same_rest s s'.
Proof.
  intros (l&[|x f]&Hl&Hf&Hd&Hn) Hw; [done|]. destruct Hf as [Hx (bx&Hbx&Hf)].
  assert (Hnd : x ∉ f). { apply NoDup_cons. apply (linked_nodup (nxt := t_next) (timeos s) (Some x)). cbn. eauto. }
  assert (Hxl : x ∉ l) by set_solver. assert (Hdf : l ## f) by set_solver. injection Hn as Hn.
  unfold sys_timeout_abs, timeo_malloc. rewrite Hx, (t_deref_ok s x bx Hbx). cbn [rbind].
  rewrite (t_assign_ok (set_tab_timeo (t_next bx) s) x bx) by exact Hbx. cbn [rbind next_timeout set_timeos set_tab_timeo].
  set (m := <[x := mk_sys_timeo None (wrap32 D) hd a]> (timeos s)).
  assert (Hl' : tlist m (next_timeout s) l q).
  { eapply tlist_ext; [|exact Hl]. intros p Hp. unfold m. rewrite lookup_insert_ne by set_solver. done. }
  assert (Hf' : linked t_next m (t_next bx) f) by (by apply linked_insert_ne).
  assert (Hmx : m !! x = Some (mk_sys_timeo None (wrap32 D) hd a)) by apply lookup_insert_eq.
  destruct l as [|t l], q as [|e0 q]; try done.
  - cbn in Hl'. rewrite Hl'. eexists. split; [reflexivity|]. split; [|done]. exists [x], f. split; [|set_solver].
    cbn. split; [done|]. eexists. split; [exact Hmx|]. by repeat split.
  - pose proof Hl' as [Ht (b&Hb&Hs&Hr)]. rewrite Ht. pose proof (Hs) as (Htb&_).
    rewrite (t_deref_ok _ t b) by exact Hb. cbn [rbind]. rewrite Htb, time_less_than by (apply Hw; set_solver).
    cbn [enqueue due]. destruct (Z.ltb_spec D (due e0)).
    + match goal with |- context [t_assign x _ ?s1] => rewrite (t_assign_ok s1 x _ _ Hmx) end.
      cbn [rbind]. eexists. split; [reflexivity|]. split; [|done].
      exists (x :: t :: l), f. cbn -[tlist]. split.
      { split; [done|]. eexists. split; [apply lookup_insert_eq|]. split; [done|]. cbn [t_next set_t_next].
        eapply tlist_ext; [|rewrite <- Ht; exact Hl']. intros p Hp. rewrite lookup_insert_ne by set_solver. done. }
      split; [by apply linked_insert_ne|]. set_solver.
    + match goal with |- context [insert_loop _ x t ?s1] =>
        destruct (insert_loop_ok (timer_fuel s1) s1 x (mk_sys_timeo None (wrap32 D) hd a) (mk_entry D hd a) t l e0 q) as (m'&l'&->&Ht'&Hp&Hout) end.
      * cbn -[tlist]. rewrite <- Ht. exact Hl'.
      * exact Hmx.
      * done.
      * done.
      * pose proof (tlist_linked _ _ _ _ Hl') as Hsz%linked_size. cbn [length] in Hsz. unfold timer_fuel.
        match goal with |- context [timeos ?x] => change (timeos x) with m end. lia.
      * intros e He. apply Hw. set_solver.
      * eexists. split; [reflexivity|]. split; [|done]. exists (t :: l'), f. cbn -[tlist]. rewrite Ht. split; [done|].
        split; [|split; [|done]].
        { eapply linked_ext; [|exact Hf']. intros p Hpf. rewrite Hout; [done|]. set_solver. }
        intros r Hin Hrf. apply elem_of_cons in Hin as [->|Hin]; [set_solver|]. rewrite Hp in Hin. set_solver.
Qed.

(** ** Expiry *)

Lemma timeo_free_ok s q n p b l f o :
  timeos s !! p = Some b -> tlist (timeos s) o l q -> p ∉ l -> linked t_next (timeos s) (tab_timeo s) f ->
  p ∉ f -> l ## f -> length f = n ->
  exists s', timeo_free p s = Ok s' /\ tlist (timeos s') o l q /\ next_timeout s' = next_timeout s /\
    linked t_next (timeos s') (tab_timeo s') (p :: f) /\ l ## p :: f /\ same_rest s s'.
Proof.
  intros Hb Hl Hpl Hf Hpf Hd Hn. unfold timeo_free. rewrite (t_assign_ok s p b _ Hb). cbn [rbind].
  eexists. split; [reflexivity|]. cbn. split.
  { eapply tlist_ext; [|exact Hl]. intros r Hr. rewrite lookup_insert_ne by set_solver. done. }
  split; [done|]. split; [|split; [set_solver|done]]. split; [done|]. eexists. split; [apply lookup_insert_eq|].
  cbn. by apply linked_insert_ne.
Qed.

(** A round of [sys_check_timeouts]: it returns, or takes the first timeout from
    the queue and calls its handler with the structure given back. *)
Lemma check_round_ok s q n T :
  timerq s q n -> (forall e, e ∈ q -> -2 ^ 31 <= T - due e < 2 ^ 31) ->
  let s0 := set_world (check_free_ooseq (world s)) s in
  match q with
  | [] => check_round (wrap32 T) s = Ok (true, s0)
  | e :: q =>
      if T <? due e then check_round (wrap32 T) s = Ok (true, s0)
      else exists s1, timerq s1 q (S n) /\ same_rest (set_due_time (wrap32 (due e)) s0) s1 /\
        check_round (wrap32 T) s =
          (let* s2 := match e_h e with Some hd => call_handler hd (e_arg e) s1 | None => Ok s1 end in Ok (false, s2))
  end.
Proof.
  intros (l&f&Hl&Hf&Hd&Hn) Hw s0. unfold check_round. fold s0. cbn [next_timeout set_world s0].
  destruct l as [|t l], q as [|e q]; try done; [by rewrite Hl|].
  pose proof (tlist_linked _ _ _ _ Hl) as Hnd%linked_nodup. apply NoDup_cons in Hnd as [Htl _].
  destruct Hl as [Ht (b&Hb&(Htb&Hhb&Hab)&Hl)]. rewrite Ht, (t_deref_ok _ t b) by exact Hb. cbn [rbind].
  rewrite Htb, time_less_than by (apply Hw; set_solver). destruct (Z.ltb_spec T (due e)); [done|].
  destruct (timeo_free_ok (set_due_time (wrap32 (due e)) (set_next_timeout (t_next b) s0)) q n t b l f (t_next b))
    as (s1&->&Hl1&Hn1&Hf1&Hd1&Hr1); [exact Hb|done|done|done|set_solver|set_solver|done|].
  cbn [rbind]. exists s1. rewrite Hhb, Hab. split; [|by split].
  exists l, (t :: f). rewrite Hn1. cbn [length]. by rewrite Hn.
Qed.

(** ** Cancelling *)

Lemma tlist_app m o l1 q1 l2 q2 : length l1 = length q1 -> tlist m o (l1 ++ l2) (q1 ++ q2) ->
  tlist m (match last l1 with Some p => from_option t_next None (m !! p) | None => o end) l2 q2.
Proof.
  revert o q1. induction l1 as [|p l1 IH]; intros o [|e q1] Hlen; try done. cbn [app tlist].
  intros [-> (b&Hb&_&Ht)]. injection Hlen as Hlen. specialize (IH _ _ Hlen Ht).
  destruct l1 as [|p' l1]; [cbn in *; by rewrite Hb|]. rewrite last_cons_cons.
  destruct (last (p' :: l1)) eqn:Hlast; [exact IH|by apply last_None in Hlast].
Qed.

(** The structure behind the last of [l1] is taken out of the list. *)
Lemma tlist_unlink m o l1 p t l2 q1 e q2 b bt :
  length l1 = length q1 -> last l1 = Some p -> m !! p = Some b -> m !! t = Some bt ->
  tlist m o (l1 ++ t :: l2) (q1 ++ e :: q2) ->
  tlist (<[p := set_t_next (t_next bt) b]> m) o (l1 ++ l2) (q1 ++ q2).
Proof.
  intros Hlen Hlast Hb Hbt. revert o q1 Hlen. induction l1 as [|p' l1 IH]; intros o [|e' q1] Hlen; try done.
  intros Ht. pose proof (tlist_linked _ _ _ _ Ht) as Hnd%linked_nodup.
  cbn [app] in Hnd. apply NoDup_cons in Hnd as [Hp' Hnd].
  destruct Ht as [-> (b'&Hb'&Hs&Ht)]. cbn [app tlist]. split; [done|]. injection Hlen as Hlen.
  destruct l1 as [|p1 l1].
  - injection Hlast as ->. destruct q1; [|done]. rewrite Hb in Hb'. injection Hb' as <-.
    eexists. split; [apply lookup_insert_eq|]. split; [exact Hs|]. cbn.
    destruct Ht as [_ (bt'&Hbt'&_&Ht)]. rewrite Hbt in Hbt'. injection Hbt' as <-.
    eapply tlist_ext; [|exact Ht]. intros r Hr. rewrite lookup_insert_ne by set_solver. done.
  - assert (p ∈ p1 :: l1). { apply last_Some_elem_of. by rewrite <- Hlast. }
    exists b'. rewrite lookup_insert_ne by set_solver. split; [done|]. split; [done|].
    apply IH; [exact Hlast|done|exact Ht].
Qed.

Lemma untimeout_loop_ok fuel s hd a l1 q1 l2 q2 f :
  length l1 = length q1 -> tlist (timeos s) (next_timeout s) (l1 ++ l2) (q1 ++ q2) ->
  linked t_next (timeos s) (tab_timeo s) f -> (l1 ++ l2) ## f -> (length l2 < fuel)%nat ->
  exists s', untimeout_loop fuel hd a (last l1) (head l2) s = Ok s' /\
    timerq s' (q1 ++ cancel hd a q2) (length f + (length q2 - length (cancel hd a q2))) /\ same_rest s s'.
Proof.
  revert fuel l1 q1 q2. induction l2 as [|t l2 IH]; intros fuel l1 q1 q2 Hlen Hl Hf Hd Hfu;
    (destruct fuel as [|fuel]; [lia|]); cbn [untimeout_loop head].
  - pose proof (tlist_app _ _ _ _ _ _ Hlen Hl) as Hq. destruct q2; [|done]. exists s. split; [done|].
    split; [|done]. exists (l1 ++ []), f. cbn. rewrite Nat.add_0_r. done.
  - pose proof (tlist_app _ _ _ _ _ _ Hlen Hl) as Hq. destruct q2 as [|e q2]; [done|].
    pose proof (tlist_linked _ _ _ _ Hl) as Hnd%linked_nodup. apply NoDup_app in Hnd as (_&Hdl&Hnd).
    apply NoDup_cons in Hnd as [Htl _].
    destruct Hq as [_ (b&Hb&(Htb&Hhb&Hab)&Hq)]. rewrite (t_deref_ok s t b Hb). cbn [rbind cancel].
    unfold matching. rewrite Hhb, Hab. destruct (bool_decide (e_h e = hd) && bool_decide (e_arg e = a)) eqn:Hm.
    + assert (exists s1, match last l1 with
          | None => Ok (set_next_timeout (t_next b) s) | Some p => t_assign p (set_t_next (t_next b)) s end = Ok s1 /\
          tlist (timeos s1) (next_timeout s1) (l1 ++ l2) (q1 ++ q2) /\ timeos s1 !! t = Some b /\
          linked t_next (timeos s1) (tab_timeo s1) f /\ same_rest s s1) as (s1&->&Hl1&Hb1&Hf1&Hr1).
      { destruct (last l1) as [p|] eqn:Hlast.
        - assert (Hpl : p ∈ l1) by (by apply last_Some_elem_of).
          destruct (linked_dom (nxt := t_next) (timeos s) (next_timeout s) (l1 ++ t :: l2) p) as [bp Hbp];
            [by eapply tlist_linked|set_solver|].
          rewrite (t_assign_ok s p bp _ Hbp). eexists. split; [reflexivity|]. cbn. split; [by eapply tlist_unlink|].
          split; [rewrite lookup_insert_ne by set_solver; done|]. split; [|done]. apply linked_insert_ne; [set_solver|done].
        - apply last_None in Hlast as ->. destruct q1; [|done]. eexists. split; [reflexivity|]. cbn. done. }
      cbn [rbind].
      destruct (timeo_free_ok s1 (q1 ++ q2) (length f) t b (l1 ++ l2) f (next_timeout s1))
        as (s2&->&Hl2&Hn2&Hf2&Hd2&Hr2); [done|done|set_solver|done|set_solver|set_solver|done|].
      exists s2. split; [done|]. split; [|destruct Hr1 as (?&?&?), Hr2 as (?&?&?); repeat split; congruence].
      exists (l1 ++ l2), (t :: f). rewrite Hn2. repeat (split; [done|]). cbn. lia.
    + destruct (IH fuel (l1 ++ [t]) (q1 ++ [e]) q2) as (s'&Hrun&Hq'&Hr');
        [rewrite !length_app, Hlen; done|by rewrite <- !app_assoc|done|by rewrite <- app_assoc|cbn in Hfu; lia|].
      rewrite last_snoc in Hrun. exists s'.
      assert (Hh : head l2 = t_next b). { destruct l2, q2; try done. by destruct Hq as [-> _]. }
      rewrite <- Hh. split; [done|]. rewrite <- app_assoc in Hq'. cbn in *. done.
Qed.

Lemma untimeout_ok s hd a q n : timerq s q n ->
  exists s', sys_untimeout hd a s = Ok s' /\
    timerq s' (cancel hd a q) (n + (length q - length (cancel hd a q))) /\ same_rest s s'.
Proof.
  intros (l&f&Hl&Hf&Hd&<-). unfold sys_untimeout.
  assert (Hh : next_timeout s = head l) by (destruct l, q; try done; by destruct Hl as [-> _]). rewrite Hh.
  apply (untimeout_loop_ok (timer_fuel s) s hd a [] [] l q f); [done|done|done|done|].
  by eapply tlist_fuel.
Qed.

(** ** Shifting all times *)

Lemma restart_loop_ok fuel s t base d o l q f :
  tlist (timeos s) o l q -> linked t_next (timeos s) (tab_timeo s) f -> l ## f -> (length l < fuel)%nat ->
  (forall e, wrap32 (wrap32 (due e) - base + t) = wrap32 (due e + d)) ->
  exists m, restart_loop fuel t base o s = Ok (set_timeos m s) /\
    tlist m o l ((fun e => mk_entry (due e + d) (e_h e) (e_arg e)) <$> q) /\
    (forall p, p ∉ l -> m !! p = timeos s !! p).
Proof.
  intros Hl Hf Hd Hfu Hsh. revert fuel s o q Hl Hf Hfu. induction l as [|p l IH]; intros fuel s o [|e q] Hl Hf Hfu; try done;
    (destruct fuel as [|fuel]; [lia|]).
  - cbn in *. subst o. exists (timeos s). split; [by destruct s|done].
  - pose proof (tlist_linked _ _ _ _ Hl) as Hnd%linked_nodup. apply NoDup_cons in Hnd as [Hpl _].
    destruct Hl as [-> (b&Hb&(Htb&Hhb&Hab)&Hl)]. cbn [restart_loop]. rewrite (t_deref_ok s p b Hb). cbn [rbind].
    rewrite (t_assign_ok s p b _ Hb). cbn [rbind].
    match goal with |- context [restart_loop _ _ _ _ ?s1] => destruct (IH ltac:(set_solver) fuel s1 (t_next b) q) as (m&->&Ht&Hout) end.
    + cbn. eapply tlist_ext; [|exact Hl]. intros r Hr. rewrite lookup_insert_ne by set_solver. done.
    + cbn. apply linked_insert_ne; [set_solver|done].
    + cbn in Hfu. lia.
    + exists m. split; [done|]. split.
      * split; [done|]. eexists. split; [rewrite Hout by done; apply lookup_insert_eq|]. split; [|exact Ht].
        split; [|done]. cbn. rewrite Htb. apply Hsh.
      * intros r Hr. rewrite Hout by set_solver. cbn. rewrite lookup_insert_ne by set_solver. done.
Qed.
End queue_ops.
