(* ===== verification/TimerRun.v ===== *)
(** * Runs of the timers

    The timers of [Timeouts] used by a system with a clock: every sequence of
    timeouts set, cancelled and checked behaves as a queue ordered by time whose
    clock does not wrap around, and the cyclic timers of the stack go on for
    ever. *)

From stdpp Require Import base numbers list decidable gmap sorting.
From Stdlib Require Import ZArith Lia Bool.
From S2P Require Import Prelude Linked Timeouts TimerQueue.
Open Scope Z_scope.

(** ** A system with a clock *)

(** The clock counts milliseconds since some time without wrapping around; the
    stack reads its lower 32 bits.  The calls of handlers are recorded; the cyclic
    functions leave the timers alone and take at most [BUSY] milliseconds. *)
Definition BUSY : Z := 2 ^ 20.

Class TimerClock (W : Type) `{TimerEnv W} : Type := {
  clock : W -> Z;
  fired : W -> list (Z * option Z);
  ran : W -> list cyclic_id;
  pass : Z -> W -> W;
  now_spec : forall w, sys_now w = (wrap32 (clock w), w);
  pass_spec : forall d w, clock (pass d w) = clock w + d /\ fired (pass d w) = fired w /\ ran (pass d w) = ran w;
  ooseq_spec : forall w, clock (check_free_ooseq w) = clock w /\ fired (check_free_ooseq w) = fired w /\
    ran (check_free_ooseq w) = ran w;
  cyclic_spec : forall c s, exists w, run_cyclic c s = Ok (set_world w s) /\
    clock (world s) <= clock w <= clock (world s) + BUSY /\ ran w = ran (world s) ++ [c]
}.

(** ** Sequences of events *)

(** What the application does to the timers, and the time that passes. *)
Inductive action : Type :=
| SetTimeout (msecs : Z) (f : Z) (a : option Z)
| CancelTimeout (f : Z) (a : option Z)
| RestartTimeouts
| Pass (msecs : Z).

Inductive tevent : Type :=
| Do (x : action)
| CheckTimeouts.

Section actions.
Context {W : Type} `{TimerClock W}.

Definition run_action (x : action) (s : timers W) : result (timers W) :=
  match x with
  | SetTimeout ms f a => sys_timeout ms (Some (h_other f)) a s
  | CancelTimeout f a => sys_untimeout (Some (h_other f)) a s
  | RestartTimeouts => sys_restart_timeouts s
  | Pass d => Ok (set_world (pass d (world s)) s)
  end.

Fixpoint run_actions (xs : list action) (s : timers W) : result (timers W) :=
  match xs with
  | [] => Ok s
  | x :: xs => let* s := run_action x s in run_actions xs s
  end.
End actions.

(** What a handler does: any actions, its own timeout set again among them,
    chosen by its argument, the time and the handlers called before. *)
Definition program_t : Type := Z -> option Z -> Z -> list (Z * option Z) -> list action.

Class TimerApp (W : Type) `{TimerClock W} (program : program_t) : Prop :=
  other_spec : forall f a s, exists w,
    clock w = clock (world s) /\ fired w = fired (world s) ++ [(f, a)] /\
    run_other f a s = run_actions (program f a (clock (world s)) (fired (world s))) (set_world w s).

(** The longest timeout that [sys_timeout] documents. *)
Definition MAX_MSECS : Z := 0xFFFFFFFF / 4.

(** The specification: the time, the queue, the number of timeouts that can still
    be set, and the handlers that were called. *)
Record astate : Type := mk_astate {
  a_time : Z;
  a_queue : list entry;
  a_free : nat;
  a_fired : list (Z * option Z)
}.

Definition shift (d : Z) (e : entry) : entry := mk_entry (due e + d) (e_h e) (e_arg e).

(** No timeout is more than 2^30 milliseconds late. *)
Definition punctual (T : Z) (q : list entry) : bool := forallb (fun e => T - due e <=? 2 ^ 30) q.

Definition ado (x : action) (st : astate) : option astate :=
  let (T, q, n, log) := st in
  match x with
  | SetTimeout ms f a =>
      if (0 <=? ms) && (ms <=? MAX_MSECS) then
        match n with
        | O => Some st
        | S n => Some (mk_astate T (enqueue (mk_entry (T + ms) (Some (h_other f)) a) q) n log)
        end
      else None
  | CancelTimeout f a =>
      let q' := cancel (Some (h_other f)) a q in
      Some (mk_astate T q' (n + (length q - length q')) log)
  | RestartTimeouts =>
      match q with
      | [] => Some st
      | e :: _ =>
          if forallb (fun e' => due e' - due e <=? 2 ^ 30) q
          then Some (mk_astate T (shift (T - due e) <$> q) n log) else None
      end
  | Pass d => if (0 <=? d) && punctual (T + d) q then Some (mk_astate (T + d) q n log) else None
  end.

Fixpoint ados (xs : list action) (st : astate) : option astate :=
  match xs with
  | [] => Some st
  | x :: xs => match ado x st with Some st => ados xs st | None => None end
  end.

(** A check that started at [T]: the first timeout is taken from the queue if it
    was due at [T], its handler runs, and so on, for as many rounds as there are,
    which take 2^30 milliseconds at most. *)
Fixpoint acheck (program : program_t) (rounds : nat) (T : Z) (st : astate) : option astate :=
  match rounds with
  | O => None
  | S rounds =>
      if T + 2 ^ 30 <? a_time st then None
      else match a_queue st with
           | [] => Some st
           | e :: q =>
               if T <? due e then Some st
               else match e_h e with
                    | Some (h_other f) =>
                        match ados (program f (e_arg e) (a_time st) (a_fired st))
                                (mk_astate (a_time st) q (S (a_free st)) (a_fired st ++ [(f, e_arg e)])) with
                        | Some st => acheck program rounds T st
                        | None => None
                        end
                    | _ => None
                    end
           end
  end.

Definition aexec (program : program_t) (rounds : nat) (ev : tevent) (st : astate) : option astate :=
  match ev with
  | Do x => ado x st
  | CheckTimeouts => acheck program rounds (a_time st) st
  end.

Fixpoint arun (program : program_t) (rounds : nat) (evs : list tevent) (st : astate) : option astate :=
  match evs with
  | [] => Some st
  | ev :: evs => match aexec program rounds ev st with Some st => arun program rounds evs st | None => None end
  end.

(** A handler that is over at once and sets no timeout that is due at once. *)
Definition quick (x : action) : bool :=
  match x with
  | SetTimeout ms _ _ => (0 <? ms) && (ms <=? MAX_MSECS)
  | CancelTimeout _ _ => true
  | _ => false
  end.

Section run.
Context {W : Type} `{TimerClock W}.
Implicit Types (s : timers W).

Definition texec (rounds : nat) (ev : tevent) s : result (timers W) :=
  match ev with
  | Do x => run_action x s
  | CheckTimeouts => sys_check_timeouts rounds s
  end.

Fixpoint trun (rounds : nat) (evs : list tevent) s : result (timers W) :=
  match evs with
  | [] => Ok s
  | ev :: evs => let* s := texec rounds ev s in trun rounds evs s
  end.

(** ** The simulation *)

Definition is_other (e : entry) : Prop := exists f, e_h e = Some (h_other f).

Definition sim s (st : astate) : Prop :=
  timerq s (a_queue st) (a_free st) /\ clock (world s) = a_time st /\ fired (world s) = a_fired st /\
  in_order (a_queue st) /\
  Forall (fun e => is_other e /\ - 2 ^ 30 <= due e - a_time st <= 2 ^ 30) (a_queue st).

Lemma now_ok s : now s = (wrap32 (clock (world s)), s).
Proof. unfold now. rewrite now_spec. by destruct s. Qed.

Lemma timerq_world s w q n : timerq s q n -> timerq (set_world w s) q n.
Proof. done. Qed.

Lemma timerq_length s q n : timerq s q n -> (length q < timer_fuel s)%nat.
Proof. intros (l&f&Hl&_). rewrite <- (tlist_length _ _ _ _ Hl). by eapply tlist_fuel. Qed.

Lemma timeout_ok s q n ms hd a :
  timerq s q n -> (forall e, e ∈ q -> -2 ^ 31 <= clock (world s) + ms - due e < 2 ^ 31) ->
  exists s', sys_timeout ms hd a s = Ok s' /\ same_rest s s' /\
    timerq s' (match n with O => q | S _ => enqueue (mk_entry (clock (world s) + ms) hd a) q end) (pred n).
Proof.
  intros Hq Hw. unfold sys_timeout. rewrite now_ok.
  replace (wrap32 (wrap32 (clock (world s)) + ms)) with (wrap32 (clock (world s) + ms))
    by (unfold wrap; by rewrite Zplus_mod_idemp_l).
  destruct n as [|n].
  - rewrite (timeout_abs_full s q) by done. exists s. by repeat split.
  - destruct (timeout_abs_ok s q n (clock (world s) + ms) hd a Hq Hw) as (s'&->&Hq'&Hr). eauto.
Qed.


Lemma in_order_cancel hd a q : in_order q -> in_order (cancel hd a q).
Proof.
  unfold in_order. induction q as [|e q IH]; cbn; intros Hs; [done|]. inversion Hs as [|? ? Hq He]; subst.
  destruct (matching hd a e); [done|]. cbn. constructor; [auto|]. rewrite Forall_fmap in *.
  by apply Forall_cancel.
Qed.

Lemma in_order_shift d q : in_order q -> in_order (shift d <$> q).
Proof.
  unfold in_order. induction q as [|e q IH]; cbn; intros Hs; [done|]. inversion Hs as [|? ? Hq He]; subst.
  constructor; [auto|]. rewrite !Forall_fmap in *. eapply Forall_impl; [exact He|]. cbn. lia.
Qed.

Lemma punctual_spec T q : punctual T q = true <-> Forall (fun e => T - due e <= 2 ^ 30) q.
Proof.
  unfold punctual. rewrite forallb_forall, Forall_forall. setoid_rewrite Z.leb_le. setoid_rewrite list_elem_of_In. done.
Qed.

Lemma restart_ok s e0 q n : timerq s (e0 :: q) n ->
  exists s', sys_restart_timeouts s = Ok s' /\
    timerq s' (shift (clock (world s) - due e0) <$> e0 :: q) n /\ same_rest s s'.
Proof.
  intros (l&f&Hl&Hf&Hd&Hn). unfold sys_restart_timeouts. destruct l as [|t l]; [done|].
  pose proof Hl as [Ht (b&Hb&(Htb&_)&_)]. rewrite Ht, now_ok, (t_deref_ok s t b Hb). cbn [rbind].
  destruct (restart_loop_ok (timer_fuel s) s (wrap32 (clock (world s))) (time b) (clock (world s) - due e0)
    (Some t) (t :: l) (e0 :: q) f) as (m&->&Hl'&Hout); [by rewrite <- Ht|done|done|by eapply tlist_fuel| |].
  { intros e. rewrite Htb. unfold wrap. rewrite Zplus_mod_idemp_r.
    rewrite <- (Zplus_mod_idemp_l (_ - _)), <- Zminus_mod, Zplus_mod_idemp_l. f_equal. lia. }
  eexists. split; [reflexivity|]. split; [|done]. exists (t :: l), f. cbn -[tlist]. rewrite Ht. split; [exact Hl'|].
  split; [|done]. eapply linked_ext; [|exact Hf]. intros p Hp. rewrite Hout; [done|]. set_solver.
Qed.

Lemma action_sim x s st st' : sim s st -> ado x st = Some st' -> exists s', run_action x s = Ok s' /\ sim s' st'.
Proof.
  intros (Hq&Hc&Hf&Ho&Hall) Hev. destruct st as [T q n log]. cbn [a_queue a_free a_time a_fired] in *. subst T log.
  assert (Hoth : Forall is_other q) by (eapply Forall_impl; [exact Hall|]; by intros ? [? _]).
  assert (Hnear : forall e, e ∈ q -> - 2 ^ 30 <= due e - clock (world s) <= 2 ^ 30)
    by (intros e He; rewrite Forall_forall in Hall; by apply Hall).
  destruct x as [ms f a|f a| |d]; cbn [ado run_action] in *.
  - destruct ((0 <=? ms) && (ms <=? MAX_MSECS)) eqn:Hms; [|done].
    apply andb_prop in Hms as [?%Z.leb_le ?%Z.leb_le]. change MAX_MSECS with 1073741823 in *.
    destruct (timeout_ok s q n ms (Some (h_other f)) a Hq) as (s'&->&(Hw'&_)&Hq').
    { intros e He. specialize (Hnear e He). lia. }
    exists s'. split; [done|]. unfold sim. rewrite Hw'.
    destruct n as [|n]; injection Hev as <-; cbn [a_queue a_free a_time a_fired]; [done|].
    split; [done|]. split; [done|]. split; [done|]. split; [by apply enqueue_in_order|].
    rewrite enqueue_perm. constructor; [|done]. split; [by exists f|]. cbn. lia.
  - destruct (untimeout_ok s (Some (h_other f)) a q n Hq) as (s'&->&Hq'&(Hw'&_)). injection Hev as <-.
    exists s'. split; [done|]. unfold sim. rewrite Hw'. cbn [a_queue a_free a_time a_fired].
    split; [done|]. split; [done|]. split; [done|]. split; [by apply in_order_cancel|].
    by apply Forall_cancel.
  - destruct q as [|e0 q]; [injection Hev as <-|].
    { destruct Hq as (l&f&Hl&?). destruct l; [|done]. unfold sys_restart_timeouts. cbn in Hl. rewrite Hl.
      exists s. split; [done|]. split; [by exists [], f; rewrite Hl|]. done. }
    destruct (forallb _ (e0 :: q)) eqn:Hd; [|done]. injection Hev as <-.
    assert (Hd' : Forall (fun e => due e - due e0 <= 2 ^ 30) (e0 :: q)).
    { rewrite forallb_forall in Hd. setoid_rewrite Z.leb_le in Hd. apply Forall_forall. setoid_rewrite list_elem_of_In. done. }
    destruct (restart_ok s e0 q n Hq) as (s'&Hrun&Hq'&(Hw'&_)).
    exists s'. split; [done|]. unfold sim. rewrite Hw'. cbn [a_queue a_free a_time a_fired].
    split; [done|]. split; [done|]. split; [done|]. split; [exact (in_order_shift _ (e0 :: q) Ho)|].
    apply (Forall_fmap _ _ (e0 :: q)), Forall_forall. intros e He. rewrite Forall_forall in Hd', Hall.
    destruct (Hall e He) as [[f Hf] _]. split; [by exists f|]. cbn.
    specialize (Hd' e He). assert (due e0 <= due e).
    { apply elem_of_cons in He as [->|He]; [lia|]. inversion Ho as [|? ? _ Hle]; subst. rewrite Forall_fmap, Forall_forall in Hle.
      by apply Hle. }
    lia.
  - destruct ((0 <=? d) && punctual (clock (world s) + d) q) eqn:Hd; [|done]. injection Hev as <-.
    apply andb_prop in Hd as [?%Z.leb_le Hp%punctual_spec]. destruct (pass_spec d (world s)) as (Hcp&Hfp&_).
    eexists. split; [reflexivity|]. unfold sim. cbn [world set_world a_queue a_free a_time a_fired].
    split; [by apply timerq_world|]. split; [done|]. split; [done|]. split; [done|].
    apply Forall_forall. intros e He. rewrite Forall_forall in Hall, Hp. destruct (Hall e He). specialize (Hp e He).
    split; [done|]. lia.
Qed.

Lemma actions_sim xs s st st' : sim s st -> ados xs st = Some st' -> exists s', run_actions xs s = Ok s' /\ sim s' st'.
Proof.
  revert s st. induction xs as [|x xs IH]; intros s st Hs; cbn [ados run_actions]; [intros [= <-]; eauto|].
  destruct (ado x st) as [st1|] eqn:Hx; [|done]. destruct (action_sim x s st st1 Hs Hx) as (s1&->&Hs1). eauto.
Qed.

Lemma ados_time xs st st' : ados xs st = Some st' -> a_time st <= a_time st'.
Proof.
  revert st. induction xs as [|x xs IH]; intros st; cbn [ados]; [by intros [= <-]|].
  destruct (ado x st) as [st1|] eqn:Hx; [|done]. intros Hr%IH. transitivity (a_time st1); [|done].
  destruct st as [T q n log], x as [ms f a|f a| |d]; cbn [ado] in Hx; repeat case_match; try done; injection Hx as <-; cbn; try lia.
Qed.

(** A check, against any programs of the handlers. *)
Lemma check_sim {program} `{!TimerApp W program} fuel T s st st' :
  sim s st -> T <= a_time st -> acheck program fuel T st = Some st' ->
  exists s', check_loop fuel (wrap32 T) s = Ok s' /\ sim s' st'.
Proof.
  revert s st. induction fuel as [|fuel IH]; intros s st Hs HT; cbn [acheck check_loop]; [done|].
  destruct (Z.ltb_spec (T + 2 ^ 30) (a_time st)) as [|Hmax]; [done|].
  pose proof Hs as (Hq&Hc&Hf&Ho&Hall). pose proof (check_round_ok s (a_queue st) (a_free st) T Hq) as Hr.
  destruct (ooseq_spec (world s)) as (Hc0&Hf0&_).
  assert (Hs0 : sim (set_world (check_free_ooseq (world s)) s) st)
    by (unfold sim; cbn [world set_world]; rewrite Hc0, Hf0; by split_and!).
  assert (Hw : forall e, e ∈ a_queue st -> - 2 ^ 31 <= T - due e < 2 ^ 31).
  { intros e He. rewrite Forall_forall in Hall. destruct (Hall e He). lia. }
  specialize (Hr Hw). clear Hw. cbv zeta in Hr. destruct st as [now' q n lg]. cbn [a_queue a_free a_time a_fired] in *.
  destruct q as [|e q]; [intros [= <-]; rewrite Hr; cbn [rbind]; eauto|].
  destruct (T <? due e); [intros [= <-]; rewrite Hr; cbn [rbind]; eauto|].
  destruct Hr as (s1&Hq1&(Hw1&_)&->). cbn in Hw1. destruct (e_h e) as [[| |f]|] eqn:Hh; try done. cbn [call_handler].
  apply Forall_cons in Hall as [_ Hall].
  destruct (other_spec f (e_arg e) s1) as (w&Hcw&Hfw&->). rewrite Hw1, Hc0, Hf0, Hc, Hf in *.
  destruct (ados _ _) as [st2|] eqn:Ha; [|done]. intros Hrest.
  assert (Hs1 : sim (set_world w s1) (mk_astate now' q (S n) (lg ++ [(f, e_arg e)]))).
  { unfold sim. cbn [world set_world a_queue a_free a_time a_fired]. split; [by apply timerq_world|].
    split; [done|]. split; [done|]. split; [by inversion Ho|done]. }
  destruct (actions_sim _ _ _ st2 Hs1 Ha) as (s2&->&Hs2).
  cbn [rbind]. apply IH with st2; try done. apply ados_time in Ha. cbn in Ha. lia.
Qed.

Lemma texec_sim {program} `{!TimerApp W program} rounds ev s st st' :
  sim s st -> aexec program rounds ev st = Some st' -> exists s', texec rounds ev s = Ok s' /\ sim s' st'.
Proof.
  intros Hs. destruct ev as [x|]; cbn [aexec texec]; [by apply action_sim|]. intros Hc.
  unfold sys_check_timeouts. rewrite now_ok. replace (clock (world s)) with (a_time st) by (by destruct Hs as (_&->&_)).
  by apply (check_sim rounds (a_time st) s st).
Qed.

(** *** Checks that end *)

Lemma length_cancel hd a q : (length (cancel hd a q) <= length q)%nat.
Proof. induction q as [|e q IH]; cbn; [done|]. destruct (matching hd a e); cbn; lia. Qed.

(** The structures of the pool are set or free. *)
Definition pool_size (st : astate) : nat := (length (a_queue st) + a_free st)%nat.

Lemma ado_pool x st st' : ado x st = Some st' -> pool_size st' = pool_size st.
Proof.
  unfold pool_size. destruct st as [T q n log], x as [ms f a|f a| |d]; cbn [ado]; intros Hx.
  - destruct (_ && _); [|done]. destruct n; injection Hx as <-; cbn; [done|]. rewrite (Permutation_length (enqueue_perm _ _)). cbn. lia.
  - injection Hx as <-. cbn. pose proof (length_cancel (Some (h_other f)) a q). lia.
  - destruct q; [by injection Hx as <-|]. destruct (forallb _ _); [|done]. injection Hx as <-. cbn. by rewrite length_fmap.
  - destruct (_ && _); [|done]. by injection Hx as <-.
Qed.

Lemma ados_pool xs st st' : ados xs st = Some st' -> pool_size st' = pool_size st.
Proof.
  revert st. induction xs as [|x xs IH]; intros st; cbn [ados]; [by intros [= <-]|].
  destruct (ado x st) as [st1|] eqn:Hx; [|done]. intros ->%IH. by eapply ado_pool.
Qed.

Lemma acheck_pool program rounds T st st' : acheck program rounds T st = Some st' -> pool_size st' = pool_size st.
Proof.
  revert st. induction rounds as [|rounds IH]; intros st; cbn [acheck]; [done|].
  destruct (_ <? _); [done|]. destruct st as [t q n log]. cbn [a_queue a_free a_time a_fired].
  destruct q as [|e q]; [by intros [= <-]|]. destruct (_ <? _); [by intros [= <-]|].
  destruct (e_h e) as [[| |f]|]; try done. destruct (ados _ _) as [st1|] eqn:Ha; [|done].
  intros ->%IH. rewrite (ados_pool _ _ _ Ha). unfold pool_size. cbn. lia.
Qed.

Lemma arun_pool program rounds evs st st' : arun program rounds evs st = Some st' -> pool_size st' = pool_size st.
Proof.
  revert st. induction evs as [|ev evs IH]; intros st; cbn [arun]; [by intros [= <-]|].
  destruct (aexec program rounds ev st) as [st1|] eqn:Hx; [|done]. intros ->%IH.
  destruct ev; [by eapply ado_pool|by eapply acheck_pool].
Qed.

(** The number of timeouts due at [T]. *)
Definition due_count (T : Z) (q : list entry) : nat := length (filter (fun e => due e <= T) q).

Lemma due_count_cancel T hd a q : (due_count T (cancel hd a q) <= due_count T q)%nat.
Proof.
  unfold due_count. induction q as [|e q IH]; cbn [cancel]; [done|].
  destruct (matching hd a e); rewrite !filter_cons; repeat case_decide; cbn; lia.
Qed.

(** Quick actions leave the time alone and make nothing due. *)
Lemma quick_actions xs st :
  forallb quick xs = true -> Forall is_other (a_queue st) ->
  exists st', ados xs st = Some st' /\ a_time st' = a_time st /\ Forall is_other (a_queue st') /\
    (due_count (a_time st) (a_queue st') <= due_count (a_time st) (a_queue st))%nat.
Proof.
  revert st. induction xs as [|x xs IH]; intros st Hx Ho; cbn [ados forallb] in *; [by exists st|].
  apply andb_prop in Hx as [Hx Hxs].
  assert (exists st1, ado x st = Some st1 /\ a_time st1 = a_time st /\ Forall is_other (a_queue st1) /\
            (due_count (a_time st) (a_queue st1) <= due_count (a_time st) (a_queue st))%nat) as (st1&->&Ht1&Ho1&Hd1).
  { destruct st as [T q n log], x as [ms f a|f a| |d]; cbn [quick ado a_time a_queue] in *; try done.
    - apply andb_prop in Hx as [?%Z.ltb_lt Hmax]. rewrite Hmax, (proj2 (Z.leb_le 0 ms)) by lia. cbn [andb].
      destruct n; [by eexists|]. eexists. split; [reflexivity|]. cbn. split; [done|].
      split; [rewrite enqueue_perm; constructor; [by exists f|done]|]. unfold due_count.
      rewrite (enqueue_perm _ q), filter_cons_False by (cbn; lia). done.
    - eexists. split; [reflexivity|]. cbn. split; [done|]. split; [by apply Forall_cancel|]. apply due_count_cancel. }
  destruct (IH st1 Hxs Ho1) as (st'&->&Ht'&Ho'&Hd'). exists st'. rewrite Ht1 in *. split; [done|]. split; [done|].
  split; [done|]. lia.
Qed.

Lemma quick_check_ends program rounds st :
  (forall f a T log, forallb quick (program f a T log) = true) ->
  Forall is_other (a_queue st) -> (due_count (a_time st) (a_queue st) < rounds)%nat ->
  exists st', acheck program rounds (a_time st) st = Some st'.
Proof.
  intros Hp. remember (a_time st) as T eqn:HT. revert st HT. induction rounds as [|rounds IH]; intros st HT Ho Hd; [lia|].
  cbn [acheck]. rewrite (proj2 (Z.ltb_ge _ _)) by lia. destruct st as [t q n log]. cbn [a_queue a_free a_time a_fired] in *.
  destruct q as [|e q]; [by eexists|]. destruct (Z.ltb_spec T (due e)); [by eexists|].
  apply Forall_cons in Ho as [[f Hf] Ho]. rewrite Hf. subst t.
  destruct (quick_actions (program f (e_arg e) T log) (mk_astate T q (S n) (log ++ [(f, e_arg e)]))) as (st1&->&Ht1&Ho1&Hd1);
    [apply Hp|done|]. cbn [a_time a_queue] in *.
  apply IH; try done. unfold due_count in Hd at 1. rewrite filter_cons_True in Hd by lia. cbn in Hd. unfold due_count in *. lia.
Qed.

Lemma sleeptime_ok s q n : timerq s q n ->
  (forall e, e ∈ q -> -2 ^ 31 <= due e - clock (world s) < 2 ^ 31) ->
  sys_timeouts_sleeptime s =
    Ok (match q with [] => SYS_TIMEOUTS_SLEEPTIME_INFINITE | e :: _ => Z.max 0 (due e - clock (world s)) end, s).
Proof.
  intros (l&f&Hl&_) Hw. unfold sys_timeouts_sleeptime. destruct l as [|t l], q as [|e q]; try done; [by rewrite Hl|].
  destruct Hl as [Ht (b&Hb&(Htb&_)&_)]. rewrite Ht, now_ok, (t_deref_ok s t b Hb). cbn [rbind]. specialize (Hw e ltac:(set_solver)).
  rewrite Htb, time_less_than by lia. destruct (Z.ltb_spec (due e) (clock (world s))).
  - by rewrite Z.max_l by lia.
  - rewrite Z.max_r by lia. unfold wrap. rewrite <- Zminus_mod, Z.mod_small by lia. done.
Qed.

(** ** Cyclic timers *)

Definition cyc_of (e : entry) : option lwip_cyclic_timer_t :=
  match e_h e, e_arg e with
  | Some h_lwip_cyclic_timer, Some i => lwip_cyclic_timers !! Z.to_nat i
  | _, _ => None
  end.

(** How often the handler of an entry is at most called by a check at [T]. *)
Definition rank (T : Z) (e : entry) : nat :=
  if T <? due e then 0%nat else if due e =? T then 1%nat else 2%nat.

Definition ranks (T : Z) (q : list entry) : nat := sum_list (rank T <$> q).

Lemma ranks_enqueue T e q : ranks T (enqueue e q) = (rank T e + ranks T q)%nat.
Proof.
  induction q as [|y q IH]; cbn; [done|]. destruct (due e <? due y); [done|].
  unfold ranks in *. cbn in *. unfold ranks in IH. rewrite IH. lia.
Qed.

Lemma cyclic_interval i c : lwip_cyclic_timers !! i = Some c -> 0 < interval_ms c <= 1000.
Proof. destruct i as [|[|[|i]]]; cbn; [intros [= <-]..|done]; cbn; unfold TCP_TMR_INTERVAL, IP_TMR_INTERVAL, ARP_TMR_INTERVAL; lia. Qed.

(** A call reschedules the timer one interval after the time it was due, or after
    the present time if that has passed already. *)
Lemma cyclic_call_ok s q n e c :
  timerq s q (S n) -> cyc_of e = Some c -> current_timeout_due_time s = wrap32 (due e) ->
  (forall e', e' ∈ q -> - 2 ^ 30 <= due e' - clock (world s) <= 2 ^ 30) ->
  - 2 ^ 30 <= due e - clock (world s) <= 0 ->
  exists s' D, lwip_cyclic_timer (e_arg e) s = Ok s' /\
    timerq s' (enqueue (mk_entry D (e_h e) (e_arg e)) q) n /\
    clock (world s) <= clock (world s') <= clock (world s) + BUSY /\
    ran (world s') = ran (world s) ++ [cyc_handler c] /\
    D = if due e + interval_ms c <? clock (world s') then clock (world s') + interval_ms c else due e + interval_ms c.
Proof.
  intros Hq Hc Hdue Hw He. unfold cyc_of in Hc. destruct (e_h e) as [[| |]|]; try done.
  destruct (e_arg e) as [i|]; [|done]. unfold lwip_cyclic_timer. rewrite Hc. pose proof (cyclic_interval _ _ Hc) as Hi.
  destruct (cyclic_spec (cyc_handler c) s) as (w&->&Hcw&Hrw). cbn [rbind]. rewrite now_ok. cbn [world set_world current_timeout_due_time].
  rewrite Hdue. unfold BUSY in *.
  replace (wrap32 (wrap32 (due e) + interval_ms c)) with (wrap32 (due e + interval_ms c)) by (unfold wrap; by rewrite Zplus_mod_idemp_l).
  replace (wrap32 (wrap32 (clock w) + interval_ms c)) with (wrap32 (clock w + interval_ms c)) by (unfold wrap; by rewrite Zplus_mod_idemp_l).
  rewrite time_less_than by lia.
  assert (forall D, (D = clock w + interval_ms c \/ D = due e + interval_ms c) ->
    exists s', sys_timeout_abs (wrap32 D) (Some h_lwip_cyclic_timer) (Some i) (set_world w s) = Ok s' /\
      timerq s' (enqueue (mk_entry D (Some h_lwip_cyclic_timer) (Some i)) q) n /\ world s' = w) as Hab.
  { intros D HD. destruct (timeout_abs_ok (set_world w s) q n D (Some h_lwip_cyclic_timer) (Some i)) as (s'&Hr&Hq'&Hw'&_).
    - by apply timerq_world.
    - intros e' He'. specialize (Hw e' He'). lia.
    - eauto. }
  destruct (Z.ltb_spec (due e + interval_ms c) (clock w)).
  - destruct (Hab (clock w + interval_ms c)) as (s'&->&Hq'&Hw'); [tauto|]. exists s', (clock w + interval_ms c).
    rewrite Hw'. split; [done|]. split; [done|]. split; [done|]. split; [done|]. by rewrite (proj2 (Z.ltb_lt _ _)).
  - destruct (Hab (due e + interval_ms c)) as (s'&->&Hq'&Hw'); [tauto|]. exists s', (due e + interval_ms c).
    rewrite Hw'. split; [done|]. split; [done|]. split; [done|]. split; [done|]. by rewrite (proj2 (Z.ltb_ge _ _)).
Qed.

(** The timers that may stand in the queue during a check that started at [T]. *)
Definition cyclic_queue (T : Z) (q : list entry) : Prop :=
  in_order q /\ Forall (fun e => is_Some (cyc_of e) /\ - 2 ^ 29 <= due e - T <= 2 ^ 29 + 2 ^ 10) q.

Lemma in_order_head T e q : in_order (e :: q) -> T < due e -> Forall (fun e => T < due e) (e :: q).
Proof.
  intros Ho HT. inversion Ho as [|? ? _ Hle]; subst. constructor; [done|]. rewrite Forall_fmap in Hle.
  eapply Forall_impl; [exact Hle|]. cbn. lia.
Qed.

(** What a check at [T] that found the queue [q] has done. *)
Definition checked (T : Z) s (q : list entry) (n : nat) s' : Prop :=
  exists q' cs, timerq s' q' n /\ cyclic_queue T q' /\ Forall (fun e => T < due e) q' /\
    (e_arg <$> q') ≡ₚ (e_arg <$> q) /\ ran (world s') = ran (world s) ++ cs /\ (length cs <= ranks T q)%nat /\
    (forall c, c ∈ cs <-> exists e cy, e ∈ q /\ due e <= T /\ cyc_of e = Some cy /\ cyc_handler cy = c) /\
    T <= clock (world s') <= clock (world s) + BUSY * Z.of_nat (ranks T q) /\ clock (world s) <= clock (world s') /\
    (Forall (fun e => due e <= clock (world s) + 1000) q -> Forall (fun e => due e <= clock (world s') + 1000) q').

Lemma checked_stop T s q n :
  timerq s q n -> cyclic_queue T q -> Forall (fun e => T < due e) q -> T <= clock (world s) ->
  checked T s q n (set_world (check_free_ooseq (world s)) s).
Proof.
  intros Hq Hc Hall HT. destruct (ooseq_spec (world s)) as (Hc0&_&Hr0). exists q, []. rewrite app_nil_r.
  split; [by apply timerq_world|]. split; [done|]. split; [done|]. split; [done|]. split; [done|]. split; [cbn; lia|].
  cbn [world set_world]. rewrite Hc0. split; [|split; [unfold BUSY; lia|done]]. intros c. split; [by intros ?%elem_of_nil|].
  intros (e&cy&He&Hd&_). rewrite Forall_forall in Hall. specialize (Hall e He). lia.
Qed.

(** The rest of a check after the first handler, whose timer is now [e']. *)
Lemma checked_step T s s2 q n e D c s' :
  cyc_of e = Some c -> due e <= T -> (rank T (mk_entry D (e_h e) (e_arg e)) < rank T e)%nat ->
  clock (world s) <= clock (world s2) <= clock (world s) + BUSY -> ran (world s2) = ran (world s) ++ [cyc_handler c] ->
  D <= clock (world s2) + 1000 ->
  checked T s2 (enqueue (mk_entry D (e_h e) (e_arg e)) q) n s' -> checked T s (e :: q) n s'.
Proof.
  intros Hc Hd Hrk Hck Hran HD (q'&cs&Hq'&Hcq&Hall&Hp&Hr&Hl&Hcs&Ht&Hck'&Hnew). exists q', (cyc_handler c :: cs).
  rewrite ranks_enqueue in *. unfold BUSY in *.
  assert (Hrs : ranks T (e :: q) = (rank T e + ranks T q)%nat) by done. rewrite Hrs.
  split; [done|]. split; [done|]. split; [done|]. split; [by rewrite Hp, enqueue_perm|].
  split; [by rewrite Hr, Hran, <- app_assoc|]. split; [cbn; lia|].
  split; [|split; [lia|split; [lia|]]]; cycle 1.
  { intros [_ Hle]%Forall_cons. apply Hnew. rewrite enqueue_perm. constructor; [done|].
    eapply Forall_impl; [exact Hle|]. cbn. lia. }
  intros c'. rewrite elem_of_cons, Hcs. split.
  - intros [->|(e'&cy&He'&Hd'&Hcy&Hh)]; [by exists e, c; set_solver|].
    apply elem_of_enqueue in He' as [->|He']; [|exists e', cy; set_solver].
    exists e, cy. split; [set_solver|]. by split.
  - intros (e'&cy&[->|He']%elem_of_cons&Hd'&Hcy&Hh); [left; congruence|].
    right. exists e', cy. rewrite elem_of_enqueue. auto.
Qed.

Lemma cyclic_loop_ok fuel s q n T :
  timerq s q n -> cyclic_queue T q -> (ranks T q < fuel)%nat ->
  T <= clock (world s) -> clock (world s) + BUSY * Z.of_nat (ranks T q) <= T + 2 ^ 29 ->
  exists s', check_loop fuel (wrap32 T) s = Ok s' /\ checked T s q n s'.
Proof.
  revert s q n. induction fuel as [|fuel IH]; intros s q n Hq Hcq Hf HT Hmax; [lia|].
  pose proof Hcq as [Ho Hall]. destruct (ooseq_spec (world s)) as (Hc0&_&Hr0).
  pose proof (check_round_ok s q n T Hq) as Hround. cbv zeta in Hround. cbn [check_loop].
  assert (Hnear : forall e, e ∈ q -> is_Some (cyc_of e) /\ - 2 ^ 29 <= due e - T <= 2 ^ 29 + 2 ^ 10)
    by (rewrite Forall_forall in Hall; exact Hall).
  specialize (Hround ltac:(intros e He; specialize (Hnear e He); lia)).
  destruct q as [|e q].
  { rewrite Hround. cbn [rbind]. eexists. split; [reflexivity|]. by apply checked_stop. }
  destruct (Z.ltb_spec T (due e)).
  { rewrite Hround. cbn [rbind]. eexists. split; [reflexivity|]. apply checked_stop; try done. by apply in_order_head. }
  destruct Hround as (s1&Hq1&(Hw1&Hd1&_)&->). cbn in Hw1, Hd1.
  assert (Hrs : ranks T (e :: q) = (rank T e + ranks T q)%nat) by done. rewrite Hrs in *.
  assert (Hre : (1 <= rank T e)%nat). { unfold rank. rewrite (proj2 (Z.ltb_ge _ _)) by done. destruct (_ =? _); lia. }
  destruct (Hnear e ltac:(set_solver)) as [[c Hc] He].
  assert (Hh : e_h e = Some h_lwip_cyclic_timer) by (unfold cyc_of in Hc; by destruct (e_h e) as [[| |]|]).
  rewrite Hh. cbn [call_handler]. rewrite <- Hw1 in Hc0, Hr0. unfold BUSY in *.
  destruct (cyclic_call_ok s1 q n e c Hq1 Hc Hd1) as (s2&D&->&Hq2&Hck&Hran&HD).
  { intros e' He'. destruct (Hnear e') as [_ ?]; [set_solver|]. lia. }
  { lia. }
  cbn [rbind]. assert (Hi : 0 < interval_ms c <= 1000).
  { unfold cyc_of in Hc. destruct (e_h e) as [[| |]|], (e_arg e); try done. by eapply cyclic_interval. }
  assert (HDr : T <= D <= T + 2 ^ 29 + 2 ^ 10 /\ D <= clock (world s2) + 1000 /\ (rank T (mk_entry D (e_h e) (e_arg e)) < rank T e)%nat).
  { unfold rank, BUSY in *. cbn [due]. rewrite (proj2 (Z.ltb_ge T (due e))) by done.
    destruct (Z.ltb_spec (due e + interval_ms c) (clock (world s2))); subst D;
      destruct (Z.eqb_spec (due e) T); repeat case_match; rewrite ?Z.ltb_lt, ?Z.ltb_ge, ?Z.eqb_eq, ?Z.eqb_neq in *; lia. }
  destruct (IH s2 (enqueue (mk_entry D (e_h e) (e_arg e)) q) n Hq2) as (s'&->&Hck').
  - split; [apply enqueue_in_order; by inversion Ho|]. rewrite enqueue_perm. apply Forall_cons in Hall as [_ Hall].
    constructor; [|done]. cbn [due]. split; [by exists c|lia].
  - rewrite ranks_enqueue. lia.
  - unfold BUSY in *. lia.
  - rewrite ranks_enqueue. unfold BUSY in *. lia.
  - exists s'. split; [done|]. apply (checked_step T s s2 q n e D c s'); try done; first [lia | unfold BUSY in *; lia | congruence].
Qed.

(** ** The stack's own timers *)

#[export] Instance cyclic_id_eq_dec : EqDecision cyclic_id.
Proof. solve_decision. Defined.

Definition runs_of (c : cyclic_id) s : nat := length (filter (fun c' => c' = c) (ran (world s))).

(** A main loop: time passes, then the timeouts are checked.  At most four calls
    are made, and one more round sees that nothing is due. *)
Fixpoint check_each (gaps : list Z) s : result (timers W) :=
  match gaps with
  | [] => Ok s
  | d :: gaps =>
      let* s := sys_check_timeouts 5 (set_world (pass d (world s)) s) in
      check_each gaps s
  end.

(** The timers of reassembly and ARP, with one structure to spare for TCP. *)
Definition stack_timers s : Prop :=
  exists q, timerq s q 1 /\ in_order q /\ (e_arg <$> q) ≡ₚ [Some 1; Some 2] /\
    Forall (fun e => e_h e = Some h_lwip_cyclic_timer /\ - 2 ^ 25 <= due e - clock (world s) <= 1000) q.

Lemma stack_timers_init s : timerq s [] 3 -> exists s', sys_timeouts_init s = Ok s' /\ stack_timers s' /\ world s' = world s.
Proof.
  intros Hq. unfold sys_timeouts_init, lwip_cyclic_timers. cbn [tl init_loop interval_ms].
  destruct (timeout_ok s [] 3 IP_TMR_INTERVAL (Some h_lwip_cyclic_timer) (Some 1) Hq) as (s1&->&(Hw1&_)&Hq1); [set_solver|].
  cbn [rbind interval_ms]. cbn [enqueue pred] in Hq1. change (1 + 1) with 2.
  destruct (timeout_ok s1 _ 2 ARP_TMR_INTERVAL (Some h_lwip_cyclic_timer) (Some 2) Hq1) as (s2&->&(Hw2&_)&Hq2).
  { intros e ->%list_elem_of_singleton. cbn. rewrite Hw1. unfold ARP_TMR_INTERVAL, IP_TMR_INTERVAL. lia. }
  cbn [rbind]. exists s2. split; [done|]. split; [|congruence]. rewrite Hw1 in Hq2. cbn [pred] in Hq2.
  eexists. split; [exact Hq2|]. split; [apply enqueue_in_order; repeat constructor|]. split.
  - rewrite enqueue_perm. cbn. apply Permutation_swap.
  - rewrite enqueue_perm, Hw2, Hw1. repeat constructor; cbn; unfold ARP_TMR_INTERVAL, IP_TMR_INTERVAL; lia.
Qed.

Lemma stack_timers_cyclic T q : (e_arg <$> q) ≡ₚ [Some 1; Some 2] ->
  Forall (fun e => e_h e = Some h_lwip_cyclic_timer /\ - 2 ^ 29 <= due e - T <= 1000) q -> in_order q ->
  cyclic_queue T q /\ (ranks T q <= 4)%nat /\ length q = 2%nat /\
  forall i c, (i = 1 /\ c = ip_reass_tmr \/ i = 2 /\ c = etharp_tmr) ->
    exists e cy, e ∈ q /\ cyc_of e = Some cy /\ cyc_handler cy = c.
Proof.
  intros Hp Hall Ho. pose proof (Permutation_length Hp) as Hl. rewrite length_fmap in Hl. cbn in Hl.
  split; [|split; [|split; [done|]]].
  - split; [done|]. rewrite Forall_forall in *. intros e He. destruct (Hall e He) as [Hh Hd]. split; [|lia].
    assert (Ha : e_arg e ∈ [Some 1; Some 2]) by (rewrite <- Hp; by apply list_elem_of_fmap_2).
    unfold cyc_of. rewrite Hh. rewrite !elem_of_cons, elem_of_nil in Ha. destruct Ha as [->|[->|[]]]; by eexists.
  - destruct q as [|e1 [|e2 [|? ?]]]; try done. unfold ranks, rank. cbn. repeat case_match; lia.
  - intros i c Hic. assert (Hi : Some i ∈ e_arg <$> q) by (rewrite Hp; destruct Hic as [[-> _]|[-> _]]; set_solver).
    apply list_elem_of_fmap in Hi as (e&He&Hin). rewrite Forall_forall in Hall. destruct (Hall e Hin) as [Hh _].
    unfold cyc_of. exists e. rewrite Hh, <- He. destruct Hic as [[-> ->]|[-> ->]]; eexists; split; eauto.
Qed.

(** One round of the main loop: nothing is lost, and after an interval or more
    both functions have been called. *)
Lemma stack_timers_step s d : stack_timers s -> 0 <= d <= 2 ^ 28 ->
  exists s', sys_check_timeouts 5 (set_world (pass d (world s)) s) = Ok s' /\ stack_timers s' /\
    forall c, c = ip_reass_tmr \/ c = etharp_tmr ->
      (runs_of c s + (if (1000 <=? d)%Z then 1 else 0) <= runs_of c s')%nat.
Proof.
  intros (q&Hq&Ho&Hp&Hall) Hd. destruct (pass_spec d (world s)) as (Hc&_&Hr). set (s0 := set_world (pass d (world s)) s).
  set (T := clock (world s0)). assert (HT : T = clock (world s) + d) by exact Hc.
  destruct (stack_timers_cyclic T q Hp) as (Hcq&Hrk&Hlq&Hids); [|done|].
  { eapply Forall_impl; [exact Hall|]. cbn. intros e [? ?]. split; [done|]. lia. }
  destruct (cyclic_loop_ok 5 s0 q 1 T) as (s'&Hrun&q'&cs&Hq'&[Ho' Hcq']&Hfut&Hp'&Hran&_&Hcs&Hck&Hck'&Hnew);
    [by apply timerq_world|done|lia|lia|unfold BUSY; lia|].
  exists s'. split; [unfold sys_check_timeouts; by rewrite now_ok|]. split.
  - exists q'. split; [done|]. split; [done|]. split; [by rewrite Hp'|].
    assert (Hold : Forall (fun e => due e <= clock (world s0) + 1000) q).
    { eapply Forall_impl; [exact Hall|]. cbn. fold T. lia. }
    specialize (Hnew Hold). rewrite Forall_forall in *. intros e He. destruct (Hcq' e He) as [[cy Hcy] _].
    specialize (Hnew e He). specialize (Hfut e He). cbn in *. split; [|unfold BUSY in *; lia].
    unfold cyc_of in Hcy. by destruct (e_h e) as [[| |]|].
  - intros c Hcc. unfold runs_of. rewrite Hran. cbn [world set_world s0]. rewrite Hr, filter_app, length_app.
    destruct (Z.leb_spec 1000 d); [|lia].
    assert (Hin : c ∈ cs).
    { apply Hcs. destruct (Hids (if decide (c = ip_reass_tmr) then 1 else 2) c) as (e&cy&He&Hcy&Hh).
      - destruct Hcc as [->| ->]; [left|right]; done.
      - exists e, cy. rewrite Forall_forall in Hall. destruct (Hall e He) as [_ Hde]. repeat split; try done. lia. }
    assert (Hf : c ∈ filter (fun c' => c' = c) cs) by (apply list_elem_of_filter; by split).
    destruct (filter (fun c' => c' = c) cs); [by apply elem_of_nil in Hf|]. cbn. lia.
Qed.
End run.

(** C28.  Every sequence of timeouts set, cancelled, checked and rebased while
    time passes behaves as a queue ordered by an unbounded clock, although times
    are kept in 32 bits that wrap around.  Handlers may do all of this themselves,
    set their own timeout again, and take time.  No operation faults, a timeout
    beyond the size of the pool is dropped, [sys_check_timeouts] calls exactly the
    handlers that the queue says, in order, and [sys_timeouts_sleeptime] gives the
    time to the first timeout.  The specification is defined as long as timeouts
    are no longer than [sys_timeout] documents, no timeout is served more than
    2^30 milliseconds late, a rebase finds the timeouts no more than 2^30
    milliseconds apart, and a check ends within the rounds given and 2^30
    milliseconds.  It does end where handlers take no time and set no timeout of
    zero milliseconds, with one round more than the pool has structures. *)
Theorem timer_queue_refines {W program} `{TimerApp W program} (s : timers W) n rounds evs st :
  timerq s [] n -> fired (world s) = [] ->
  arun program rounds evs (mk_astate (clock (world s)) [] n []) = Some st ->
  (exists s', trun rounds evs s = Ok s' /\ timerq s' (a_queue st) (a_free st) /\ in_order (a_queue st) /\
    clock (world s') = a_time st /\ fired (world s') = a_fired st /\
    sys_timeouts_sleeptime s' =
      Ok (match a_queue st with
          | [] => SYS_TIMEOUTS_SLEEPTIME_INFINITE
          | e :: _ => Z.max 0 (due e - a_time st)
          end, s')) /\
  ((forall f a T log, forallb quick (program f a T log) = true) -> (n < rounds)%nat ->
     exists st', aexec program rounds CheckTimeouts st = Some st').
Proof.
  intros Hq Hf Hrun.
  assert (Hsim : sim s (mk_astate (clock (world s)) [] n [])) by (repeat split; try done; constructor).
  pose proof (arun_pool _ _ _ _ _ Hrun) as Hpool. unfold pool_size in Hpool. cbn in Hpool.
  assert (Hs' : exists s', trun rounds evs s = Ok s' /\ sim s' st).
  { clear Hq Hf Hpool. revert Hsim Hrun. generalize (mk_astate (clock (world s)) [] n []) as st0.
    revert s. induction evs as [|ev evs IH]; intros s st0 Hsim; cbn [arun trun]; [intros [= ->]; eauto|].
    destruct (aexec program rounds ev st0) as [st1|] eqn:Hev; [|done].
    destruct (texec_sim rounds ev s st0 st1 Hsim Hev) as (s1&->&Hs1). cbn [rbind]. eauto. }
  destruct Hs' as (s'&Htr&Hq'&Hc&Hfi&Ho&Hall). split.
  - exists s'. repeat (split; [done|]). rewrite <- Hc.
    apply (sleeptime_ok s' _ (a_free st)); [done|]. intros e He. rewrite Forall_forall in Hall. destruct (Hall e He). lia.
  - intros Hquick Hn. apply quick_check_ends; [done|eapply Forall_impl; [exact Hall|]; by intros ? [? _]|].
    unfold due_count. pose proof (length_filter (fun e => due e <= a_time st) (a_queue st)). lia.
Qed.

(** C29.  After [sys_timeouts_init], in runs where only [sys_check_timeouts] is
    called, the timers of reassembly and ARP stay set for ever: however much time
    (up to 2^28 milliseconds) passes between two calls, each call ends after at most four handlers, both timers
    are set again with one structure of the pool left for TCP, and after an
    interval of a second or more both functions have run. *)
Theorem cyclic_timers_persist {W} `{TimerClock W} (s : timers W) gaps :
  timerq s [] 3 -> Forall (fun d => 0 <= d <= 2 ^ 28) gaps ->
  exists s1 s2, sys_timeouts_init s = Ok s1 /\ check_each gaps s1 = Ok s2 /\ stack_timers s2 /\
    forall c, c = ip_reass_tmr \/ c = etharp_tmr ->
      (runs_of c s + length (filter (fun d => (1000 <= d)%Z) gaps) <= runs_of c s2)%nat.
Proof.
  intros Hq Hg. destruct (stack_timers_init s Hq) as (s1&->&Hst&Hw). exists s1.
  assert (Hr : forall c, runs_of c s1 = runs_of c s) by (intros; unfold runs_of; by rewrite Hw).
  setoid_rewrite <- Hr. clear Hr Hq Hw s. revert s1 Hst.
  induction Hg as [|d gaps Hd Hg IH]; intros s Hst; cbn [check_each].
  - exists s. repeat (split; [done|]). intros c _. cbn. lia.
  - destruct (stack_timers_step s d Hst Hd) as (s'&->&Hst'&Hrun). cbn [rbind].
    destruct (IH s' Hst') as (s2&_&->&Hst2&Hruns). exists s2. repeat (split; [done|]). intros c Hc.
    specialize (Hrun c Hc). specialize (Hruns c Hc). rewrite filter_cons. case_decide as Hdec; cbn [length].
    + rewrite (proj2 (Z.leb_le _ _)) in Hrun by done. lia.
    + destruct (1000 <=? d); lia.
Qed.

(** ** A concrete system *)

(** A clock that starts shortly before it wraps around; every cyclic function
    takes two milliseconds. *)
Record tworld : Type := mk_tworld { clk : Z; log : list (Z * option Z); rlog : list cyclic_id }.

(** Handler 7 sets itself again after 200 milliseconds, handler 8 cancels
    handler 9, and both take no time; handler 12 takes three milliseconds. *)
Definition tprogram : program_t := fun f a _ _ =>
  if f =? 7 then [SetTimeout 200 7 a] else if f =? 8 then [CancelTimeout 9 None]
  else if f =? 12 then [Pass 3] else [].

Definition tworld_called (f : Z) (a : option Z) (w : tworld) : tworld := mk_tworld (clk w) (log w ++ [(f, a)]) (rlog w).

Definition tworld_clocked (other : Z -> option Z -> timers tworld -> result (timers tworld)) : TimerEnv tworld := {|
  sys_now w := (wrap32 (clk w), w);
  tcp_pcbs _ := false;
  check_free_ooseq w := w;
  run_cyclic c s := Ok (set_world (mk_tworld (clk (world s) + 2) (log (world s)) (rlog (world s) ++ [c])) s);
  run_other := other
|}.

#[refine] Definition tworld_clock_of other : TimerClock tworld (H := tworld_clocked other) := {|
  clock := clk;
  fired := log;
  ran := rlog;
  pass d w := mk_tworld (clk w + d) (log w) (rlog w)
|}.
Proof.
  - done.
  - done.
  - done.
  - intros c s. eexists. split; [reflexivity|]. cbn. unfold BUSY. split; [lia|done].
Defined.

Definition tworld_other (f : Z) (a : option Z) (s : timers tworld) : result (timers tworld) :=
  run_actions (H0 := tworld_clock_of (fun _ _ s => Ok s)) (tprogram f a (clk (world s)) (log (world s)))
    (set_world (tworld_called f a (world s)) s).

#[export] Instance tworld_env : TimerEnv tworld := tworld_clocked tworld_other.
#[export] Instance tworld_clock : TimerClock tworld := tworld_clock_of tworld_other.
#[export] Instance tworld_app : TimerApp tworld tprogram.
Proof. intros f a s. exists (tworld_called f a (world s)). by split_and!. Qed.

(** The pool after [memp_init]. *)
Definition timer_boot : timers tworld :=
  mk_timers {[ 1 := mk_sys_timeo None 0 None None; 2 := mk_sys_timeo (Some 1) 0 None None;
               3 := mk_sys_timeo (Some 2) 0 None None ]} (Some 3) None 0 false (mk_tworld 0xFFFFFF00 [] []).

Lemma timer_boot_ok : timerq timer_boot [] 3.
Proof.
  exists [], [3; 2; 1]. split; [done|]. split; [|split; [set_solver|done]].
  repeat (split; [reflexivity|]; eexists; split; [reflexivity|]). reflexivity.
Qed.

(** Three timeouts around the end of the clock's range, a fourth that finds no
    structure, one cancelled by a handler, one set again by its handler, and one
    whose handler takes time. *)
Definition timer_events : list tevent :=
  [Do (SetTimeout 500 7 None); Do (SetTimeout 100 8 (Some 1)); Do (SetTimeout 300 9 None); Do (SetTimeout 50 10 None);
   Do (Pass 120); CheckTimeouts; Do (SetTimeout 10 12 None); Do (Pass 400); CheckTimeouts].

Lemma timer_queue_refines_witness :
  exists s', trun 4 timer_events timer_boot = Ok s' /\ fired (world s') = [(8, Some 1); (12, None); (7, None)] /\
    sys_timeouts_sleeptime s' = Ok (200, s').
Proof.
  destruct (timer_queue_refines (program := tprogram) timer_boot 3 4 timer_events
    (mk_astate (0xFFFFFF00 + 120 + 400 + 3) [mk_entry (0xFFFFFF00 + 120 + 400 + 3 + 200) (Some (h_other 7)) None] 2
       [(8, Some 1); (12, None); (7, None)]) timer_boot_ok)
    as ((s'&Hrun&_&_&_&Hf&Hs)&_); [reflexivity|reflexivity|].
  exists s'. split; [exact Hrun|]. split; [exact Hf|exact Hs].
Defined.

Lemma cyclic_timers_persist_witness :
  exists s1 s2, sys_timeouts_init timer_boot = Ok s1 /\ check_each [999; 1500; 100000; 3] s1 = Ok s2 /\
    (2 <= runs_of etharp_tmr s2)%nat.
Proof.
  destruct (cyclic_timers_persist timer_boot [999; 1500; 100000; 3] timer_boot_ok) as (s1&s2&H1&H2&_&Hr).
  - repeat constructor; lia.
  - exists s1, s2. split; [exact H1|]. split; [exact H2|]. specialize (Hr etharp_tmr (or_intror eq_refl)).
    cbn in Hr. exact Hr.
Defined.
