(* ===== verification/Ip4Addr.v ===== *)
(** * IPv4 addresses: [src/lib/lwip/src/core/ipv4/ip4_addr.c]

    Addresses are 32-bit numbers in network order, that is, on this
    little-endian processor the first byte of the address is the low byte of the
    number.  The functions that classify, parse and print them, with the macros
    of [ip4_addr.h], [def.h] and [arch.h] they use.  A pointer into a string is
    the list of the characters from there on; reading behind the end of the
    memory is a fault. *)

From stdpp Require Import base numbers list decidable.
From Stdlib Require Import ZArith Lia Bool.
From S2P Require Import Prelude.
Open Scope Z_scope.

(** ** Macros *)

Definition PP_HTONL (x : Z) : Z :=
  Z.lor (Z.lor (Z.lor (wrap32 (Z.shiftl (Z.land x 0xff) 24)) (Z.shiftl (Z.land x 0xff00) 8))
               (Z.shiftr (Z.land x 0xff0000) 8))
        (Z.shiftr (Z.land x 0xff000000) 24).

Definition lwip_htonl (n : Z) : Z := PP_HTONL n.

Definition IPADDR_ANY : Z := 0.
Definition IPADDR_BROADCAST : Z := 0xffffffff.
Definition IPADDR_NONE : Z := 0xffffffff.
Definition IP4ADDR_STRLEN_MAX : Z := 16.

Definition ip4_addr_net_eq (addr1 addr2 mask : Z) : bool := Z.land addr1 mask =? Z.land addr2 mask.
Definition ip4_addr_isany (addr : Z) : bool := addr =? IPADDR_ANY.
Definition ip4_addr_ismulticast (addr : Z) : bool := Z.land addr (PP_HTONL 0xf0000000) =? PP_HTONL 0xe0000000.
Definition ip4_addr_islinklocal (addr : Z) : bool := Z.land addr (PP_HTONL 0xffff0000) =? PP_HTONL 0xa9fe0000.

(** [((const u8_t * )&addr)[idx]]. *)
Definition ip4_addr_get_byte (addr : Z) (idx : nat) : Z := le_bytes 4 addr !!! idx.

(** ** Classification *)

(** [bcast] says whether the interface has [NETIF_FLAG_BROADCAST]; then its
    address and netmask. *)
Definition ip4_addr_isbroadcast_u32 (addr : Z) (bcast : bool) (ip_addr netmask : Z) : bool :=
  if (wrap32 (Z.lnot addr) =? IPADDR_ANY) || (addr =? IPADDR_ANY) then true
  else if negb bcast then false
  else if addr =? ip_addr then false
  else if ip4_addr_net_eq addr ip_addr netmask &&
          (Z.land addr (wrap32 (Z.lnot netmask)) =? Z.land IPADDR_BROADCAST (wrap32 (Z.lnot netmask)))
  then true else false.

(** The first loop of [ip4_addr_netmask_valid]: the mask of the first zero. *)
Fixpoint first_zero (fuel : nat) (nm mask : Z) : Z :=
  match fuel with
  | O => mask
  | S fuel =>
      if mask =? 0 then mask
      else if Z.land nm mask =? 0 then mask else first_zero fuel nm (Z.shiftr mask 1)
  end.

(** The second loop. *)
Fixpoint no_more_ones (fuel : nat) (nm mask : Z) : bool :=
  match fuel with
  | O => true
  | S fuel =>
      if mask =? 0 then true
      else if negb (Z.land nm mask =? 0) then false else no_more_ones fuel nm (Z.shiftr mask 1)
  end.

(** A mask of 32 bits is shifted out after 32 rounds. *)
Definition ip4_addr_netmask_valid (netmask : Z) : bool :=
  let nm := lwip_htonl netmask in
  no_more_ones 33 nm (first_zero 33 nm (Z.shiftl 1 31)).

(** ** Parsing *)

Definition lwip_in_range (c lo up : Z) : bool := (lo <=? wrap8 c) && (wrap8 c <=? up).
Definition lwip_isdigit (c : Z) : bool := lwip_in_range c 48 57.
Definition lwip_isxdigit (c : Z) : bool := lwip_isdigit c || lwip_in_range c 97 102 || lwip_in_range c 65 70.
Definition lwip_islower (c : Z) : bool := lwip_in_range c 97 122.
Definition lwip_isspace (c : Z) : bool :=
  (c =? 32) || (c =? 12) || (c =? 10) || (c =? 13) || (c =? 9) || (c =? 11).

(** [*cp]. *)
Definition char_at (cp : list Z) : result Z :=
  match cp with c :: _ => Ok c | [] => Fault OutOfBounds end.

(** The loop over the digits of a number. *)
Fixpoint digits_loop (base val : Z) (cp : list Z) : result (Z * list Z) :=
  match cp with
  | [] => Fault OutOfBounds
  | c :: cp' =>
      if lwip_isdigit c then
        if (base =? 8) && (8 <=? c - 48) then Ok (val, cp)
        else digits_loop base (wrap32 (val * base + (c - 48))) cp'
      else if (base =? 16) && lwip_isxdigit c then
        digits_loop base (Z.lor (wrap32 (Z.shiftl val 4)) (c + 10 - (if lwip_islower c then 97 else 65))) cp'
      else Ok (val, cp)
  end.

(** A number: the first digit decides on the base. *)
Definition number (cp : list Z) : result (option (Z * list Z)) :=
  let* c := char_at cp in
  if negb (lwip_isdigit c) then Ok None
  else
    let* (base, cp) :=
      if c =? 48 then
        let* c := char_at (tl cp) in
        if (c =? 120) || (c =? 88) then Ok (16, tl (tl cp)) else Ok (8, tl cp)
      else Ok (10, cp) in
    let* (val, cp) := digits_loop base 0 cp in
    Ok (Some (val, cp)).

(** The outer loop: the parts before the last, the last, and where it ends.  There
    are at most four rounds. *)
Fixpoint parts_loop (fuel : nat) (parts : list Z) (cp : list Z) : result (option (list Z * Z * list Z)) :=
  match fuel with
  | O => Fault OutOfFuel
  | S fuel =>
      let* r := number cp in
      match r with
      | None => Ok None
      | Some (val, cp) =>
          let* c := char_at cp in
          if c =? 46 then
            if (3 <=? length parts)%nat then Ok None else parts_loop fuel (parts ++ [val]) (tl cp)
          else Ok (Some (parts, val, cp))
      end
  end.

(** The address according to the number of parts, in host order. *)
Definition concoct (parts : list Z) (val : Z) : option Z :=
  match parts with
  | [] => Some val
  | [p0] =>
      if 0xffffff <? val then None
      else if 0xff <? p0 then None
      else Some (Z.lor val (wrap32 (Z.shiftl p0 24)))
  | [p0; p1] =>
      if 0xffff <? val then None
      else if (0xff <? p0) || (0xff <? p1) then None
      else Some (Z.lor val (Z.lor (wrap32 (Z.shiftl p0 24)) (wrap32 (Z.shiftl p1 16))))
  | [p0; p1; p2] =>
      if 0xff <? val then None
      else if (0xff <? p0) || (0xff <? p1) || (0xff <? p2) then None
      else Some (Z.lor val (Z.lor (Z.lor (wrap32 (Z.shiftl p0 24)) (wrap32 (Z.shiftl p1 16))) (wrap32 (Z.shiftl p2 8))))
  | _ => Some val
  end.

(** [Ok None] is the return value 0, [Ok (Some a)] is 1 with the address [a]. *)
Definition ip4addr_aton (cp : list Z) : result (option Z) :=
  let* r := parts_loop 4 [] cp in
  match r with
  | None => Ok None
  | Some (parts, val, cp) =>
      let* c := char_at cp in
      if negb (c =? 0) && negb (lwip_isspace c) then Ok None
      else match concoct parts val with
           | None => Ok None
           | Some v => Ok (Some (lwip_htonl v))
           end
  end.

Definition ipaddr_addr (cp : list Z) : result Z :=
  let* r := ip4addr_aton cp in
  match r with Some v => Ok v | None => Ok IPADDR_NONE end.

(** ** Printing *)

(** The [do] loop: the digits of a byte from the last on; a byte has three. *)
Fixpoint inv_digits (fuel : nat) (ap : Z) : list Z :=
  match fuel with
  | O => []
  | S fuel => 48 + ap mod 10 :: if ap / 10 =? 0 then [] else inv_digits fuel (ap / 10)
  end.

(** [if (len++ >= buflen) return NULL; *rp++ = c;] for the characters in turn;
    [rp] is the buffer's position [len]. *)
Fixpoint emit (cs : list Z) (buflen : Z) (buf : list Z) (len : Z) : result (option (list Z * Z)) :=
  match cs with
  | [] => Ok (Some (buf, len))
  | c :: cs =>
      if buflen <=? len then Ok None
      else
        let* buf := wr buf len [c] in
        emit cs buflen buf (len + 1)
  end.

(** The loop over the bytes of the address. *)
Fixpoint print_loop (aps : list Z) (buflen : Z) (buf : list Z) (len : Z) : result (option (list Z * Z)) :=
  match aps with
  | [] => Ok (Some (buf, len))
  | ap :: aps =>
      let* r := emit (rev (inv_digits 3 ap)) buflen buf len in
      match r with
      | None => Ok None
      | Some (buf, len) =>
          let* r := emit [46] buflen buf len in
          match r with
          | None => Ok None
          | Some (buf, len) => print_loop aps buflen buf len
          end
      end
  end.

(** [Ok None] is the null pointer, otherwise the contents of the buffer. *)
Definition ip4addr_ntoa_r (addr : Z) (buf : list Z) (buflen : Z) : result (option (list Z)) :=
  let* r := print_loop (le_bytes 4 addr) buflen buf 0 in
  match r with
  | None => Ok None
  | Some (buf, len) =>
      let* buf := wr buf (len - 1) [0] in
      Ok (Some buf)
  end.

(** [str] is the static buffer. *)
Definition ip4addr_ntoa (addr : Z) (str : list Z) : result (option (list Z)) :=
  ip4addr_ntoa_r addr str IP4ADDR_STRLEN_MAX.
