(* ===== verification/Ip4AddrProps.v ===== *)
(** * Theorems on IPv4 addresses

    What [Ip4Addr] prints is parsed back to the same address, parsing stays
    inside every terminated string, printing inside every buffer, and netmasks
    are accepted exactly if they are a run of ones followed by zeros. *)

From stdpp Require Import base numbers list decidable.
From Stdlib Require Import ZArith Lia Bool.
From S2P Require Import Prelude OnesComp Ip4Addr.
Open Scope Z_scope.

(** ** Bytes in words *)

Lemma lor_shiftl_low a b k : 0 <= k -> 0 <= b < 2 ^ k -> Z.lor (Z.shiftl a k) b = a * 2 ^ k + b.
Proof.
  intros Hk Hb. assert (Hl : Z.land (Z.shiftl a k) b = 0).
  { rewrite <- (Z.mod_small b (2 ^ k)), <- Z.land_ones by lia.
    rewrite Z.land_assoc, (Z.land_comm _ b), <- Z.land_assoc.
    rewrite Z.land_ones, Z.shiftl_mul_pow2, Z.mod_mul by lia. apply Z.land_0_r. }
  rewrite <- Z.lxor_lor, <- Z.add_nocarry_lxor, Z.shiftl_mul_pow2 by done. done.
Qed.

Lemma lor_two a b k : 0 <= k -> 0 <= b < 256 -> Z.lor (Z.shiftl a (8 + k)) (Z.shiftl b k) = Z.shiftl (a * 256 + b) k.
Proof.
  intros. rewrite <- Z.shiftl_shiftl, <- Z.shiftl_lor by lia. f_equal. by apply (lor_shiftl_low a b 8).
Qed.

(** Four bytes put together by shifting. *)
Lemma lor4 a b c d : 0 <= b < 256 -> 0 <= c < 256 -> 0 <= d < 256 ->
  Z.lor (Z.lor (Z.lor (Z.shiftl a 24) (Z.shiftl b 16)) (Z.shiftl c 8)) d = ((a * 256 + b) * 256 + c) * 256 + d.
Proof.
  intros. change 24 with (8 + 16). rewrite lor_two by lia. change 16 with (8 + 8). rewrite lor_two by lia.
  by apply (lor_shiftl_low _ d 8).
Qed.

Lemma land_shiftl_mask x m k : 0 <= k -> Z.land x (Z.shiftl m k) = Z.shiftl (Z.land (Z.shiftr x k) m) k.
Proof.
  intros Hk. apply Z.bits_inj'. intros n Hn. rewrite Z.land_spec, !Z.shiftl_spec by done.
  destruct (Z.lt_ge_cases n k).
  - rewrite !(Z.testbit_neg_r _ (n - k)) by lia. apply andb_false_r.
  - rewrite Z.land_spec, Z.shiftr_spec by lia. do 2 f_equal. lia.
Qed.

Lemma byte_of x k : Z.land (Z.shiftr x k) 0xff = (x / 2 ^ k) mod 256 \/ k < 0.
Proof.
  destruct (Z.lt_ge_cases k 0); [by right|left]. change 0xff with (Z.ones 8).
  by rewrite Z.land_ones, Z.shiftr_div_pow2 by lia.
Qed.

Lemma htonl_bytes x : 0 <= x < 2 ^ 32 -> lwip_htonl x = le_val (rev (le_bytes 4 x)).
Proof.
  intros Hx. unfold lwip_htonl, PP_HTONL.
  change 0xff00 with (Z.shiftl 0xff 8). change 0xff0000 with (Z.shiftl 0xff 16). change 0xff000000 with (Z.shiftl 0xff 24).
  rewrite !land_shiftl_mask by lia. rewrite Z.shiftl_shiftl, (Z.shiftr_shiftl_l _ 16 8), (Z.shiftr_shiftl_l _ 24 24) by lia.
  change (8 + 8) with 16. change (16 - 8) with 8. change (24 - 24) with 0. rewrite Z.shiftl_0_r.
  replace (Z.land x 255) with (Z.land (Z.shiftr x 0) 255) by (by rewrite Z.shiftr_0_r).
  destruct (byte_of x 0) as [->|]; [|lia]. destruct (byte_of x 8) as [->|]; [|lia].
  destruct (byte_of x 16) as [->|]; [|lia]. destruct (byte_of x 24) as [->|]; [|lia].
  rewrite Z.pow_0_r, Z.div_1_r.
  assert (forall y, 0 <= y mod 256 < 256) as Hm by (intros; apply Z.mod_pos_bound; lia).
  rewrite wrap32_small by (rewrite Z.shiftl_mul_pow2 by lia; specialize (Hm x); lia).
  rewrite lor4 by apply Hm. cbn [le_bytes rev app le_val].
  rewrite !Z.div_div by lia. change (256 * 256) with (2 ^ 16). change (2 ^ 16 * 256) with (2 ^ 24).
  change (2 ^ 8) with 256. change (256 * 2 ^ 16) with (2 ^ 24). lia.
Qed.

(** ** Decimal digits of bytes *)

Definition dec (b : Z) : list Z := rev (inv_digits 3 b).

(** The text of an address: its bytes in decimal, joined by dots. *)
Definition dotted (addr : Z) : list Z :=
  match le_bytes 4 addr with
  | [a; b; c; d] => dec a ++ 46 :: dec b ++ 46 :: dec c ++ 46 :: dec d
  | _ => []
  end.

Definition push_digit (v c : Z) : Z := wrap32 (v * 10 + (c - 48)).

(** What the digits of every byte satisfy. *)
Definition dec_good (b : Z) : bool :=
  match dec b with
  | [] => false
  | c :: ds =>
      ((b =? 0) && (c =? 48) && (length ds =? 0)%nat) ||
      (negb (c =? 48) && forallb lwip_isdigit (c :: ds) && (foldl push_digit 0 (c :: ds) =? b) && (length ds <=? 2)%nat)
  end.

Lemma dec_ok b : 0 <= b < 256 -> dec_good b = true.
Proof.
  intros Hb. assert (Hall : forallb dec_good (seqZ 0 256) = true) by (vm_compute; reflexivity).
  rewrite forallb_forall in Hall. apply Hall. apply list_elem_of_In, elem_of_seqZ. lia.
Qed.

Lemma length_dec b : 0 <= b < 256 -> (1 <= length (dec b) <= 3)%nat.
Proof.
  intros Hb%dec_ok. unfold dec_good in Hb. destruct (dec b) as [|c ds]; [done|].
  apply orb_prop in Hb as [Hb|Hb]; apply andb_prop in Hb as [_ Hl]; [apply Nat.eqb_eq in Hl|apply Nat.leb_le in Hl]; cbn; lia.
Qed.

Lemma digits_loop_dec ds v x r : forallb lwip_isdigit ds = true -> lwip_isdigit x = false ->
  digits_loop 10 v (ds ++ x :: r) = Ok (foldl push_digit v ds, x :: r).
Proof.
  revert v. induction ds as [|c ds IH]; intros v Hds Hx; cbn [app digits_loop foldl]; [by rewrite Hx|].
  cbn in Hds. apply andb_prop in Hds as [-> Hds]. cbn [andb Z.eqb]. by apply IH.
Qed.

(** A byte in decimal is read back, before a dot or the end of the string. *)
Lemma number_dec b x r : 0 <= b < 256 -> x = 46 \/ x = 0 -> number (dec b ++ x :: r) = Ok (Some (b, x :: r)).
Proof.
  intros Hb Hx. pose proof (dec_ok b Hb) as Hg. unfold dec_good in Hg. destruct (dec b) as [|c ds] eqn:Hd; [done|].
  apply orb_prop in Hg as [Hg|Hg].
  - apply andb_prop in Hg as [Hg Hl%Nat.eqb_eq]. apply andb_prop in Hg as [->%Z.eqb_eq ->%Z.eqb_eq].
    destruct ds; [|done]. destruct Hx as [->| ->]; reflexivity.
  - apply andb_prop in Hg as [Hg _]. apply andb_prop in Hg as [Hg Hv%Z.eqb_eq]. apply andb_prop in Hg as [Hc Hds].
    assert (Hnx : lwip_isdigit x = false) by (destruct Hx as [->| ->]; reflexivity).
    pose proof Hds as Hds'. cbn in Hds'. apply andb_prop in Hds' as [Hcd _].
    unfold number. cbn [app char_at rbind]. rewrite Hcd. cbn [negb]. apply negb_true_iff in Hc. rewrite Hc. cbn [rbind].
    change (c :: ds ++ x :: r) with ((c :: ds) ++ x :: r). rewrite digits_loop_dec by done. cbn [rbind]. by rewrite Hv.
Qed.

Lemma parts_loop_dot fuel parts b r : 0 <= b < 256 -> (length parts < 3)%nat ->
  parts_loop (S fuel) parts (dec b ++ 46 :: r) = parts_loop fuel (parts ++ [b]) r.
Proof.
  intros Hb Hl. cbn [parts_loop]. rewrite number_dec by (done || by left). cbn [rbind char_at Z.eqb Pos.eqb].
  by rewrite (proj2 (Nat.leb_gt _ _)).
Qed.

Lemma parts_loop_end fuel parts b r : 0 <= b < 256 ->
  parts_loop (S fuel) parts (dec b ++ 0 :: r) = Ok (Some (parts, b, 0 :: r)).
Proof. intros Hb. cbn [parts_loop]. by rewrite number_dec by (done || by right). Qed.

Lemma aton_dotted addr rest : 0 <= addr < 2 ^ 32 -> ip4addr_aton (dotted addr ++ 0 :: rest) = Ok (Some addr).
Proof.
  intros Ha. unfold dotted. pose proof (bytes_ok_le_bytes 4 addr) as Hb.
  assert (Hv : le_val (le_bytes 4 addr) = addr) by (rewrite le_val_bytes; by apply Z.mod_small).
  destruct (le_bytes 4 addr) as [|a [|b [|c [|d [|? ?]]]]] eqn:Hl; try done.
  destruct (Forall_cons_1 _ _ _ Hb) as [Hba [Hbb [Hbc [Hbd _]%Forall_cons_1]%Forall_cons_1]%Forall_cons_1]. unfold ip4addr_aton.
  repeat (rewrite <- app_assoc; cbn [app]).
  do 3 rewrite parts_loop_dot by (done || (cbn; lia)). rewrite parts_loop_end by done.
  cbn [rbind char_at app concoct]. cbn [Z.eqb negb andb].
  rewrite (proj2 (Z.ltb_ge _ d)), (proj2 (Z.ltb_ge _ a)), (proj2 (Z.ltb_ge _ b)), (proj2 (Z.ltb_ge _ c)) by lia.
  cbn [orb]. do 2 f_equal. rewrite !wrap32_small by (rewrite Z.shiftl_mul_pow2 by lia; lia).
  rewrite Z.lor_comm, lor4 by done. set (v := ((a * 256 + b) * 256 + c) * 256 + d).
  rewrite htonl_bytes by (unfold v; lia). rewrite <- Hv.
  replace v with (le_val [d; c; b; a]) by (unfold v; cbn [le_val]; lia).
  assert (Hr : le_bytes 4 (le_val [d; c; b; a]) = [d; c; b; a]) by (apply (le_bytes_val [d; c; b; a]); repeat (apply Forall_cons; [done|]); constructor).
  by rewrite Hr.
Qed.

(** ** Printing stays inside the buffer *)

Lemma emit_ok cs buf len : 0 <= len <= Z.of_nat (length buf) ->
  emit cs (Z.of_nat (length buf)) buf len =
    if len + Z.of_nat (length cs) <=? Z.of_nat (length buf)
    then Ok (Some (splice (Z.to_nat len) cs buf, len + Z.of_nat (length cs))) else Ok None.
Proof.
  revert buf len. induction cs as [|c cs IH]; intros buf len Hl; cbn [emit length].
  - rewrite (proj2 (Z.leb_le _ _)) by lia. by rewrite splice_nil, Z.add_0_r.
  - destruct (Z.leb_spec (Z.of_nat (length buf)) len); [by rewrite (proj2 (Z.leb_gt _ _)) by lia|].
    rewrite wr_in_range by (cbn; lia). cbn [rbind]. assert (Hls : length (splice (Z.to_nat len) [c] buf) = length buf) by (apply length_splice; cbn; lia).
    rewrite <- Hls at 1. rewrite IH, Hls by lia.
    replace (len + 1 + Z.of_nat (length cs)) with (len + Z.of_nat (S (length cs))) by lia.
    destruct (Z.leb_spec (len + Z.of_nat (S (length cs))) (Z.of_nat (length buf))); [|done]. do 3 f_equal.
    replace (Z.to_nat (len + 1)) with (Z.to_nat len + length [c])%nat by (cbn; lia).
    rewrite splice_splice by (cbn; lia). done.
Qed.

Definition with_dots (aps : list Z) : list Z := concat ((fun b => dec b ++ [46]) <$> aps).

Lemma print_loop_ok aps buf len : 0 <= len <= Z.of_nat (length buf) ->
  print_loop aps (Z.of_nat (length buf)) buf len =
    if len + Z.of_nat (length (with_dots aps)) <=? Z.of_nat (length buf)
    then Ok (Some (splice (Z.to_nat len) (with_dots aps) buf, len + Z.of_nat (length (with_dots aps)))) else Ok None.
Proof.
  revert buf len. induction aps as [|b aps IH]; intros buf len Hl; cbn [print_loop].
  - cbn. rewrite (proj2 (Z.leb_le _ _)) by lia. by rewrite splice_nil, Z.add_0_r.
  - change (with_dots (b :: aps)) with ((dec b ++ [46]) ++ with_dots aps). fold (dec b).
    rewrite !length_app, (emit_ok (dec b) buf len Hl). cbn [length].
    destruct (Z.leb_spec (len + Z.of_nat (length (dec b))) (Z.of_nat (length buf))); cbn [rbind];
      [|by rewrite (proj2 (Z.leb_gt _ _)) by lia].
    set (buf1 := splice (Z.to_nat len) (dec b) buf).
    assert (Hl1 : length buf1 = length buf) by (apply length_splice; lia). rewrite <- Hl1 at 1. rewrite emit_ok, Hl1 by lia.
    cbn [length]. destruct (Z.leb_spec (len + Z.of_nat (length (dec b)) + Z.of_nat 1) (Z.of_nat (length buf))); cbn [rbind];
      [|by rewrite (proj2 (Z.leb_gt _ _)) by lia].
    set (buf2 := splice (Z.to_nat (len + Z.of_nat (length (dec b)))) [46] buf1).
    assert (Hl2 : length buf2 = length buf) by (unfold buf2; rewrite length_splice; [exact Hl1|rewrite Hl1; cbn [length]; lia]).
    rewrite <- Hl2 at 1. rewrite IH, Hl2 by lia.
    replace (len + Z.of_nat (length (dec b)) + Z.of_nat 1 + Z.of_nat (length (with_dots aps)))
      with (len + Z.of_nat (length (dec b) + 1 + length (with_dots aps))) by lia.
    case_match eqn:Hfit; [|done]. apply Z.leb_le in Hfit. do 3 f_equal.
    assert (Hb2 : buf2 = splice (Z.to_nat len) (dec b ++ [46]) buf).
    { unfold buf2, buf1. replace (Z.to_nat (len + Z.of_nat (length (dec b)))) with (Z.to_nat len + length (dec b))%nat by lia.
      apply splice_splice. cbn [length]. lia. }
    rewrite Hb2. replace (Z.to_nat (len + Z.of_nat (length (dec b)) + Z.of_nat 1))
      with (Z.to_nat len + length (dec b ++ [46%Z]))%nat by (rewrite length_app; cbn [length]; lia).
    apply splice_splice. rewrite length_app. cbn [length]. lia.
Qed.

Lemma dotted_dots addr : with_dots (le_bytes 4 addr) = dotted addr ++ [46].
Proof.
  unfold dotted, with_dots. cbn [le_bytes fmap list_fmap concat].
  rewrite app_nil_r. repeat (rewrite <- app_assoc; cbn [app]). done.
Qed.

Lemma length_dotted addr : (7 <= length (dotted addr) <= 15)%nat.
Proof.
  unfold dotted. pose proof (bytes_ok_le_bytes 4 addr) as Hb. cbn [le_bytes] in *.
  destruct (Forall_cons_1 _ _ _ Hb) as [?%length_dec [?%length_dec [?%length_dec [?%length_dec _]%Forall_cons_1]%Forall_cons_1]%Forall_cons_1].
  rewrite !length_app. cbn [length]. rewrite !length_app. cbn [length]. rewrite !length_app. cbn [length]. lia.
Qed.

Lemma ntoa_ok addr buf :
  ip4addr_ntoa_r addr buf (Z.of_nat (length buf)) =
    if Z.of_nat (length (dotted addr)) + 1 <=? Z.of_nat (length buf)
    then Ok (Some (dotted addr ++ 0 :: drop (length (dotted addr) + 1) buf)) else Ok None.
Proof.
  unfold ip4addr_ntoa_r. rewrite print_loop_ok by lia. rewrite dotted_dots, length_app, Nat2Z.inj_add. cbn [length Z.of_nat Pos.of_succ_nat].
  change (Z.of_nat 1) with 1. rewrite Z.add_0_l. destruct (Z.leb_spec (Z.of_nat (length (dotted addr)) + 1) (Z.of_nat (length buf))); [|done].
  cbn [rbind]. set (t := dotted addr) in *.
  assert (Hfit : (Z.to_nat 0 + length (t ++ [46%Z]) <= length buf)%nat) by (rewrite length_app; cbn [length]; lia).
  rewrite wr_in_range by (rewrite ?length_splice by exact Hfit; cbn [length]; lia). cbn [rbind]. do 2 f_equal. unfold splice. cbn [Z.to_nat take app Nat.add].
  rewrite Z.add_simpl_r, Nat2Z.id, length_app. cbn [length].
  change (Z.to_nat 0) with 0%nat. cbn [Nat.add]. rewrite take_0. cbn [app].
  rewrite take_app_le by (rewrite length_app; lia). rewrite take_app_le, take_ge by lia.
  f_equal. f_equal. rewrite drop_app_ge by (rewrite length_app; cbn [length]; lia). rewrite length_app. cbn [length].
  by rewrite Nat.sub_diag, drop_0.
Qed.

(** ** Parsing stays inside the string *)

Lemma isdigit_0 : lwip_isdigit 0 = false.
Proof. done. Qed.

(** A terminated string has a character, and a terminated rest unless that is the
    end. *)
Lemma char_terminated cp : 0 ∈ cp -> exists c, char_at cp = Ok c /\ (c <> 0 -> 0 ∈ tl cp).
Proof.
  intros H0. destruct cp as [|c cp]; [by apply elem_of_nil in H0|]. exists c. split; [done|].
  intros Hc. apply elem_of_cons in H0 as [<-|H0]; done.
Qed.

Lemma digits_loop_total base val cp : 0 ∈ cp -> exists v cp', digits_loop base val cp = Ok (v, cp') /\ 0 ∈ cp'.
Proof.
  revert val. induction cp as [|c cp IH]; intros val H0; [by apply elem_of_nil in H0|]. cbn [digits_loop].
  assert (Hc : c <> 0 -> 0 ∈ cp) by (intros Hc; apply elem_of_cons in H0 as [<-|H0]; done).
  destruct (lwip_isdigit c) eqn:Hd.
  - assert (c <> 0) by (by intros ->). destruct ((base =? 8) && (8 <=? c - 48)); [eauto|]. auto.
  - destruct ((base =? 16) && lwip_isxdigit c) eqn:Hx; [|eauto]. apply andb_prop in Hx as [_ Hx].
    assert (c <> 0) by (by intros ->). auto.
Qed.

Lemma number_total cp : 0 ∈ cp ->
  number cp = Ok None \/ exists v cp', number cp = Ok (Some (v, cp')) /\ 0 ∈ cp'.
Proof.
  intros H0. unfold number. destruct (char_terminated cp H0) as (c&->&Ht). cbn [rbind].
  destruct (lwip_isdigit c) eqn:Hd; cbn [negb]; [|by left]. right. assert (Hc : c <> 0) by (by intros ->).
  assert (exists base cp1, (if c =? 48 then let* c1 := char_at (tl cp) in
      if (c1 =? 120) || (c1 =? 88) then Ok (16, tl (tl cp)) else Ok (8, tl cp) else Ok (10, cp)) = Ok (base, cp1) /\ 0 ∈ cp1)
    as (base&cp1&->&H1).
  { destruct (c =? 48); [|eauto]. destruct (char_terminated (tl cp) (Ht Hc)) as (c1&->&Ht1). cbn [rbind].
    destruct ((c1 =? 120) || (c1 =? 88)) eqn:Hx; [|eauto]. eexists _, _. split; [reflexivity|].
    apply Ht1. intros ->. done. }
  cbn [rbind]. destruct (digits_loop_total base 0 cp1 H1) as (v&cp2&->&H2). cbn [rbind]. eauto.
Qed.

Lemma parts_loop_total fuel parts cp : 0 ∈ cp -> (fuel + length parts = 4)%nat -> (length parts <= 3)%nat ->
  parts_loop fuel parts cp = Ok None \/
  exists parts' v cp', parts_loop fuel parts cp = Ok (Some (parts', v, cp')) /\ 0 ∈ cp' /\ (length parts' <= 3)%nat.
Proof.
  revert parts cp. induction fuel as [|fuel IH]; intros parts cp H0 Hf Hl; [lia|]. cbn [parts_loop].
  destruct (number_total cp H0) as [->|(v&cp'&->&H1)]; cbn [rbind]; [by left|].
  destruct (char_terminated cp' H1) as (c&->&Ht). cbn [rbind]. destruct (Z.eqb_spec c 46) as [->|].
  - destruct (Nat.leb_spec 3 (length parts)); [by left|]. apply IH; [by apply Ht|rewrite length_app; cbn; lia..].
  - right. eauto 6.
Qed.

(** C30.  [ip4addr_aton] never reads behind the end of a string: on every string
    that is terminated it returns; and [ip4addr_ntoa_r] never writes outside a
    buffer of the length it is told: it returns null exactly if the text and its
    end do not fit, and otherwise writes the text of the address, which
    [ip4addr_aton] maps back to the address.  The static buffer of
    [ip4addr_ntoa] is always large enough. *)
Theorem ip4addr_roundtrip addr buf str :
  0 <= addr < 2 ^ 32 -> 0 ∈ str ->
  (exists r, ip4addr_aton str = Ok r) /\
  (Z.of_nat (length buf) <= Z.of_nat (length (dotted addr)) ->
     ip4addr_ntoa_r addr buf (Z.of_nat (length buf)) = Ok None) /\
  (Z.of_nat (length (dotted addr)) < Z.of_nat (length buf) ->
     exists text, ip4addr_ntoa_r addr buf (Z.of_nat (length buf)) = Ok (Some text) /\
       take (length (dotted addr) + 1) text = dotted addr ++ [0] /\ length text = length buf /\
       ip4addr_aton text = Ok (Some addr)) /\
  (Z.of_nat (length buf) = IP4ADDR_STRLEN_MAX -> exists text, ip4addr_ntoa addr buf = Ok (Some text)).
Proof.
  intros Ha H0. pose proof (length_dotted addr) as Hd. split; [|split; [|split]].
  - unfold ip4addr_aton. destruct (parts_loop_total 4 [] str H0) as [->|(parts&v&cp&->&H1&_)]; [done|cbn; lia|by eexists|].
    cbn [rbind]. destruct (char_terminated cp H1) as (c&->&_). cbn [rbind].
    destruct (negb (c =? 0) && negb (lwip_isspace c)); [by eexists|]. destruct (concoct parts v); by eexists.
  - intros Hs. rewrite ntoa_ok. by rewrite (proj2 (Z.leb_gt _ _)) by lia.
  - intros Hs. rewrite ntoa_ok, (proj2 (Z.leb_le _ _)) by lia. eexists. split; [reflexivity|]. split; [|split].
    + rewrite take_app_ge by lia. rewrite Nat.add_sub_swap, Nat.sub_diag by lia. done.
    + rewrite length_app. cbn [length]. rewrite length_drop. lia.
    + by apply aton_dotted.
  - intros Hl. unfold ip4addr_ntoa. rewrite <- Hl, ntoa_ok. change IP4ADDR_STRLEN_MAX with 16 in Hl.
    rewrite (proj2 (Z.leb_le _ _)) by lia. by eexists.
Qed.

Lemma ip4addr_roundtrip_witness :
  exists text, ip4addr_ntoa_r 0x0107a8c0 (replicate 20 0xee) 20 = Ok (Some text) /\
    take 12 text = [49; 57; 50; 46; 49; 54; 56; 46; 55; 46; 49; 0] /\ ip4addr_aton text = Ok (Some 0x0107a8c0).
Proof.
  destruct (ip4addr_roundtrip 0x0107a8c0 (replicate 20 0xee) [49; 46; 0]) as (_&_&Hp&_).
  - lia.
  - apply elem_of_cons. right. apply elem_of_cons. right. apply list_elem_of_singleton. reflexivity.
  - destruct Hp as (text&H1&H2&_&H3); [vm_compute; reflexivity|]. exists text. split; [exact H1|]. split; [exact H2|exact H3].
Defined.

(** Numbers are taken modulo 2^32: an address of one part that is too large is
    accepted. *)
Lemma aton_overflow : ip4addr_aton [52; 50; 57; 52; 57; 54; 55; 50; 57; 55; 0] = Ok (Some (lwip_htonl 1)).
Proof. vm_compute. reflexivity. Qed.

(** ** Netmasks *)

Lemma land_pow2 nm k : 0 <= k -> (Z.land nm (2 ^ k) =? 0) = negb (Z.testbit nm k).
Proof.
  intros Hk. destruct (Z.testbit nm k) eqn:Hb; cbn [negb].
  - apply Z.eqb_neq. intros Hz. apply (f_equal (fun z => Z.testbit z k)) in Hz.
    rewrite Z.land_spec, Hb, Z.pow2_bits_true, Z.bits_0 in Hz by done. done.
  - apply Z.eqb_eq, Z.bits_inj'. intros n Hn. rewrite Z.land_spec, Z.bits_0, Z.pow2_bits_eqb by done.
    destruct (Z.eqb_spec k n) as [->|]; [by rewrite Hb|apply andb_false_r].
Qed.

Lemma shiftr_pow2 k : 0 <= k -> Z.shiftr (2 ^ k) 1 = if k =? 0 then 0 else 2 ^ (k - 1).
Proof.
  intros Hk. rewrite Z.shiftr_div_pow2 by lia. destruct (Z.eqb_spec k 0) as [->|]; [done|].
  rewrite <- Z.pow_sub_r by lia. done.
Qed.

(** Bits from the highest on: [j] is the highest zero, or -1. *)
Lemma first_zero_ok fuel nm k : 0 <= k -> (Z.to_nat k + 1 < fuel)%nat ->
  exists j, -1 <= j <= k /\ first_zero fuel nm (2 ^ k) = (if j =? -1 then 0 else 2 ^ j) /\
    (forall i, j < i <= k -> Z.testbit nm i = true) /\ (0 <= j -> Z.testbit nm j = false).
Proof.
  revert k. induction fuel as [|fuel IH]; intros k Hk Hf; [lia|]. cbn [first_zero].
  rewrite (proj2 (Z.eqb_neq _ _)) by (pose proof (Z.pow_pos_nonneg 2 k); lia). rewrite land_pow2 by done.
  destruct (Z.testbit nm k) eqn:Hb; cbn [negb].
  - rewrite shiftr_pow2 by done. destruct (Z.eqb_spec k 0) as [->|].
    + exists (-1). split; [lia|]. split; [by destruct fuel|]. split; [|lia]. intros i Hi. by replace i with 0 by lia.
    + destruct (IH (k - 1)) as (j&Hj&->&Hs&Hz); [lia..|]. exists j. split; [lia|]. split; [done|]. split; [|done].
      intros i Hi. destruct (decide (i = k)) as [->|]; [done|]. apply Hs. lia.
  - exists k. split; [lia|]. rewrite (proj2 (Z.eqb_neq _ _)) by lia. split; [done|]. split; [lia|done].
Qed.

Lemma no_more_ones_ok fuel nm k : 0 <= k -> (Z.to_nat k + 1 < fuel)%nat ->
  no_more_ones fuel nm (2 ^ k) = true <-> forall i, 0 <= i <= k -> Z.testbit nm i = false.
Proof.
  revert k. induction fuel as [|fuel IH]; intros k Hk Hf; [lia|]. cbn [no_more_ones].
  rewrite (proj2 (Z.eqb_neq _ _)) by (pose proof (Z.pow_pos_nonneg 2 k); lia). rewrite land_pow2, negb_involutive by done.
  destruct (Z.testbit nm k) eqn:Hb.
  - split; [done|]. intros Hall. rewrite Hall in Hb by lia. done.
  - rewrite shiftr_pow2 by done. destruct (Z.eqb_spec k 0) as [->|].
    + split; [|by destruct fuel]. intros _ i Hi. by replace i with 0 by lia.
    + rewrite IH by lia. split; intros Hall i Hi; [|apply Hall; lia].
      destruct (decide (i = k)) as [->|]; [done|]. apply Hall. lia.
Qed.

Lemma run_of_ones a i : 0 <= a <= 32 -> 0 <= i -> Z.testbit (2 ^ 32 - 2 ^ a) i = (a <=? i) && (i <? 32).
Proof.
  intros Ha Hi. replace (2 ^ 32 - 2 ^ a) with (Z.shiftl (Z.ones (32 - a)) a).
  - rewrite Z.shiftl_spec by done. destruct (Z.leb_spec a i); cbn [andb]; [|by rewrite Z.testbit_neg_r by lia].
    rewrite Z.testbit_ones by lia. rewrite (proj2 (Z.leb_le _ _)) by lia. cbn [andb].
    destruct (Z.ltb_spec i 32); [apply Z.ltb_lt|apply Z.ltb_ge]; lia.
  - rewrite Z.shiftl_mul_pow2, Z.ones_equiv by lia. replace 32 with ((32 - a) + a) at 2 by lia.
    rewrite Z.pow_add_r by lia. lia.
Qed.

(** [ip4_addr_netmask_valid] accepts exactly the masks of some ones followed by
    zeros in network order. *)
Theorem netmask_valid_ok netmask : 0 <= netmask < 2 ^ 32 ->
  ip4_addr_netmask_valid netmask = true <-> exists n, 0 <= n <= 32 /\ lwip_htonl netmask = 2 ^ 32 - 2 ^ (32 - n).
Proof.
  intros Hn. unfold ip4_addr_netmask_valid. set (nm := lwip_htonl netmask).
  assert (Hnm : 0 <= nm < 2 ^ 32).
  { unfold nm. rewrite htonl_bytes by done. pose proof (le_val_range (rev (le_bytes 4 netmask))) as Hr.
    rewrite length_rev, length_le_bytes in Hr. apply Hr. apply Forall_rev, bytes_ok_le_bytes. }
  change (Z.shiftl 1 31) with (2 ^ 31). destruct (first_zero_ok 33 nm 31) as (j&Hj&->&Hones&Hzero); [lia..|].
  assert (Hhigh : forall i, 32 <= i -> Z.testbit nm i = false).
  { intros i Hi. destruct (decide (nm = 0)) as [->|]; [apply Z.bits_0|]. apply Z.bits_above_log2; [lia|].
    apply Z.log2_lt_pow2; [lia|]. apply Z.lt_le_trans with (2 ^ 32); [lia|]. apply Z.pow_le_mono_r; lia. }
  split.
  - intros Hv. exists (31 - j). split; [lia|]. apply Z.bits_inj'. intros i Hi.
    replace (32 - (31 - j)) with (j + 1) by lia. rewrite run_of_ones by lia.
    destruct (Z.leb_spec (j + 1) i); cbn [andb].
    + destruct (Z.ltb_spec i 32); [apply Hones|apply Hhigh]; lia.
    + rewrite (proj2 (Z.eqb_neq _ _)) in Hv by lia. rewrite no_more_ones_ok in Hv by lia. apply Hv. lia.
  - intros (n&Hn32&He). assert (Hbit : forall i, 0 <= i -> Z.testbit nm i = ((32 - n <=? i) && (i <? 32)))
      by (intros i Hi; rewrite He; apply run_of_ones; lia).
    destruct (Z.eqb_spec j (-1)); [done|]. apply no_more_ones_ok; [lia..|]. intros i Hi.
    specialize (Hzero ltac:(lia)). rewrite Hbit in Hzero by lia. rewrite (proj2 (Z.ltb_lt j 32)), andb_true_r in Hzero by lia.
    apply Z.leb_gt in Hzero. rewrite Hbit by lia. by rewrite (proj2 (Z.leb_gt _ _)) by lia.
Qed.
