(* ===== verification/PbufView.v ===== *)
(** * Windows into packet memory

    A part of an area of bytes that is read and written through pointers into
    it: header fields are written one by one, and the theorems speak of the bytes
    that result.  Also what making room for a header does. *)

From stdpp Require Import base numbers list decidable gmap.
From Stdlib Require Import ZArith Lia Bool.
From S2P Require Import Prelude LwipMem Pbuf PbufChain PbufProps InetChksum InetChksumProps.
Open Scope Z_scope.

(** A write inside what has been written. *)
Lemma splice_inside o d (v h bs : list Z) : (d + length v <= length h)%nat -> (o + length h <= length bs)%nat ->
  splice (o + d) v (splice o h bs) = splice o (splice d v h) bs.
Proof.
  intros Hd Ho. apply list_eq. intros i.
  repeat (rewrite lookup_splice by (rewrite ?length_splice; lia)). rewrite length_splice by done.
  repeat case_decide; try lia; try done; f_equal; lia.
Qed.

Lemma slice_inside o d n (h bs : list Z) : (d + n <= length h)%nat -> (o + length h <= length bs)%nat ->
  slice (o + d) n (splice o h bs) = slice d n h.
Proof.
  intros Hd Ho. apply list_eq. intros i. rewrite !lookup_slice. case_decide; [|done].
  rewrite lookup_splice by done. rewrite decide_False by lia. rewrite decide_True by lia. f_equal. lia.
Qed.

Lemma splice_slice o n (bs : list Z) : (o + n <= length bs)%nat -> splice o (slice o n bs) bs = bs.
Proof.
  intros Hl. apply list_eq. intros i. rewrite lookup_splice by (rewrite length_slice; lia). rewrite length_slice by done.
  repeat case_decide; try done. rewrite lookup_slice, decide_True by lia. f_equal. lia.
Qed.

Lemma splice_app_l d v (h1 h2 : list Z) : (d + length v <= length h1)%nat -> splice d v (h1 ++ h2) = splice d v h1 ++ h2.
Proof. intros Hd. unfold splice. rewrite take_app_le, drop_app_le by lia. by rewrite <- !app_assoc. Qed.

Lemma splice_app_r d v (h1 h2 : list Z) : splice (length h1 + d) v (h1 ++ h2) = h1 ++ splice d v h2.
Proof.
  unfold splice. rewrite take_app_ge, drop_app_ge by lia. rewrite <- !app_assoc. do 2 f_equal; [f_equal; lia|].
  do 2 f_equal. lia.
Qed.

Lemma slice_app_r d n (h1 h2 : list Z) : slice (length h1 + d) n (h1 ++ h2) = slice d n h2.
Proof. unfold slice. rewrite drop_app_ge by lia. do 2 f_equal. lia. Qed.

Lemma slice_app_l n (h1 h2 : list Z) : length h1 = n -> slice 0 n (h1 ++ h2) = h1.
Proof. intros <-. unfold slice. rewrite drop_0. by apply take_app_length. Qed.

Lemma slice_app_in d n (h1 h2 : list Z) : (d + n <= length h1)%nat -> slice d n (h1 ++ h2) = slice d n h1.
Proof. intros Hd. unfold slice. rewrite drop_app_le, take_app_le by (rewrite ?length_drop; lia). done. Qed.

Lemma slice_split o n m (bs : list Z) : slice o (n + m) bs = slice o n bs ++ slice (o + n) m bs.
Proof. unfold slice. rewrite <- drop_drop. symmetry. apply take_take_drop. Qed.

Section view.
Context {H : Type}.
Implicit Types (s : lwip H).

(** The state with the bytes [h] at [o] in the area [a], whose bytes are [bs]. *)
Definition view s (a : Z) (o : nat) (bs h : list Z) : lwip H := set_areas (<[a := splice o h bs]> (areas s)) s.

Lemma view_open s a o n bs : areas s !! a = Some bs -> (o + n <= length bs)%nat ->
  s = view s a o bs (slice o n bs).
Proof. intros Ha Hl. unfold view. rewrite splice_slice, insert_id by done. by destruct s. Qed.

Lemma view_st s a o bs h z k d v : (o + length h <= length bs)%nat -> z + k = Z.of_nat (o + d) ->
  (d + length v <= length h)%nat ->
  st_bytes (view s a o bs h) (Some (a, z)) k v = Ok (view s a o bs (splice d v h)).
Proof.
  intros Hl Hz Hd. unfold st_bytes, area, view. cbn [not_null rbind areas set_areas]. rewrite lookup_insert_eq. cbn [rbind].
  rewrite wr_in_range by (rewrite ?length_splice; lia). cbn [rbind]. rewrite Hz, Nat2Z.id, splice_inside by done.
  unfold set_areas. cbn. by rewrite insert_insert_eq.
Qed.

Lemma view_ld_bytes s a o bs h z k n d : (o + length h <= length bs)%nat -> z + k = Z.of_nat (o + d) -> 0 <= n ->
  (d + Z.to_nat n <= length h)%nat ->
  ld_bytes (view s a o bs h) (Some (a, z)) k n = Ok (slice d (Z.to_nat n) h).
Proof.
  intros Hl Hz Hn Hd. unfold ld_bytes, area, view. cbn [not_null rbind areas set_areas]. rewrite lookup_insert_eq. cbn [rbind].
  rewrite (proj2 (in_range_spec _ _ _)) by (rewrite length_splice; lia).
  unfold bytes_at. by rewrite Hz, Nat2Z.id, slice_inside.
Qed.

Lemma view_ld s a o bs h z k n d : (o + length h <= length bs)%nat -> z + k = Z.of_nat (o + d) -> 0 <= n ->
  (d + Z.to_nat n <= length h)%nat -> ld (view s a o bs h) (Some (a, z)) k n = Ok (le_val (slice d (Z.to_nat n) h)).
Proof. intros. unfold ld. by rewrite (view_ld_bytes s a o bs h z k n d). Qed.

Lemma view_readable s a o bs h z d n : (o + length h <= length bs)%nat -> z = Z.of_nat (o + d) -> (d + n <= length h)%nat ->
  readable (view s a o bs h) (Some (a, z)) (slice d n h).
Proof.
  intros Hl -> Hd off k Hoff Hk Hle. rewrite length_slice in Hle by done.
  rewrite (view_ld_bytes s a o bs h _ off k (d + Z.to_nat off)) by lia. f_equal.
  unfold bytes_at. apply list_eq. intros i. rewrite !lookup_slice. case_decide; [|done].
  rewrite decide_True by lia. f_equal. lia.
Qed.

Lemma view_pbufs s a o bs h : pbufs (view s a o bs h) = pbufs s.
Proof. done. Qed.

(** The checksum of a part of the window. *)
Lemma view_chksum base s a o bs h z d n : (o + length h <= length bs)%nat -> z = Z.of_nat (o + d) ->
  (d + n <= length h)%nat -> bytes_ok h -> Z.of_nat n < 65536 ->
  exists v, inet_chksum base (view s a o bs h) (Some (a, z)) (Z.of_nat n) = Ok v /\ 0 <= v <= 65535 /\
    OnesComp.congr (65535 - v) (le_val (slice d n h)).
Proof.
  intros Hl Hz Hd Hb Hn. pose proof (view_readable s a o bs h z d n Hl Hz Hd) as Hr.
  destruct (inet_chksum_ok base (view s a o bs h) (Some (a, z)) (slice d n h) Hr) as (v&Hv&Hrest).
  - by apply Forall_take, Forall_drop.
  - rewrite length_slice by done. lia.
  - rewrite length_slice in Hv by done. by exists v.
Qed.
End view.

(** Room for a header in front of the payload. *)
Definition with_header (n : Z) (b : pbuf) (a o : Z) : pbuf :=
  set_tot_len (tot_len b + n) (set_len (len b + n) (set_payload (Some (a, o - n)) b)).

Lemma add_header_ok {H} `{MemHeap H} (s : lwip H) p b a o n :
  pbufs s !! p = Some b -> contiguous_pbuf b -> payload b = Some (a, o) -> 0 < n <= o ->
  0 <= len b <= tot_len b -> tot_len b + n < 65536 ->
  pbuf_add_header (Some p) n s = Ok (0, set_pbufs (<[p := with_header n b a o]> (pbufs s)) s).
Proof.
  intros Hb Hcont Hpay Hn Hlen Htot. unfold pbuf_add_header, pbuf_add_header_impl.
  destruct (Z.ltb_spec 65535 n); [lia|]. destruct (Z.eqb_spec n 0); [lia|].
  rewrite (deref_ok _ _ _ Hb). cbn [rbind]. rewrite (wrap16_small n), (wrap16_small (n + _)) by lia.
  destruct (Z.ltb_spec (n + tot_len b) n); [lia|].
  destruct (Z.eqb_spec (Z.land (type_internal b) PBUF_TYPE_FLAG_STRUCT_DATA_CONTIGUOUS) 0); [done|]. cbn [negb].
  rewrite Hpay. cbn [not_null rbind]. destruct (Z.ltb_spec (o - n) 0); [lia|]. cbn [rbind].
  rewrite (assign_ok _ _ _ _ Hb). cbn [rbind]. rewrite !wrap16_small by lia. done.
Qed.
