(* ===== verification/Ethernet.v ===== *)
(** * Ethernet frames: [src/lib/lwip/src/netif/ethernet.c]

    Input and output of Ethernet frames in the configuration of
    [src/lib/lwip/lwipopts.h] (IPv4 with ARP, no VLAN, no IPv6).  The IP and ARP
    layers above are the class [UpperLayers]; the output function of the
    interface is an argument. *)

From stdpp Require Import base numbers list decidable gmap.
From Stdlib Require Import ZArith Lia Bool.
From S2P Require Import Prelude LwipMem Pbuf PbufChain PbufPool.
Open Scope Z_scope.

Definition SIZEOF_ETH_HDR : Z := 14.
Definition ETH_HWADDR_LEN : Z := 6.
Definition ETHTYPE_IP : Z := 0x0800.
Definition ETHTYPE_ARP : Z := 0x0806.
Definition PBUF_FLAG_LLBCAST : Z := 0x08.
Definition PBUF_FLAG_LLMCAST : Z := 0x10.
Definition NETIF_FLAG_UP : Z := 0x01.
Definition NETIF_FLAG_BROADCAST : Z := 0x02.
Definition NETIF_FLAG_LINK_UP : Z := 0x04.
Definition NETIF_FLAG_ETHARP : Z := 0x08.
Definition NETIF_NO_INDEX : Z := 0.
Definition ethbroadcast : list Z := replicate 6 0xff.

(** The members of [struct netif] that are used. *)
Record netif : Type := mk_netif {
  mtu : Z;
  hwaddr : list Z;
  hwaddr_len : Z;
  netif_flags : Z;
  name : Z * Z;
  num : Z;
  ip_addr : Z;
  netmask : Z;
  gw : Z
}.

Definition netif_get_index (n : netif) : Z := wrap8 (num n + 1).

(** [ip4_input] and [etharp_input] take the packet over. *)
Class UpperLayers (H : Type) : Type := {
  ip4_input : Z -> lwip H -> result (lwip H);
  etharp_input : Z -> lwip H -> result (lwip H)
}.

(** A field of the header in network byte order. *)
Definition be16 (bs : list Z) : Z := match bs with [a; b] => 256 * a + b | _ => 0 end.

Section ethernet.
Context {H : Type} `{MemHeap H} `{!UpperLayers H}.
Implicit Types (s : lwip H).

(** The flag for a destination address. *)
Definition dest_flag (dest : list Z) : Z :=
  if Z.odd (hd 0 dest) then
    if hd 0 dest =? 0x01 then
      if bool_decide (take 2 (drop 1 dest) = [0x00; 0x5e]) then PBUF_FLAG_LLMCAST else 0
    else if bool_decide (dest = ethbroadcast) then PBUF_FLAG_LLBCAST else 0
  else 0.

(** [goto free_and_return]. *)
Definition free_and_return (p : Z) s : result (err_t * lwip H) :=
  let* (_, s) := pbuf_free (Some p) s in Ok (ERR_OK, s).

(** Pass the packet on without the Ethernet header. *)
Definition to_upper (input : Z -> lwip H -> result (lwip H)) (p : Z) (n : netif) s
  : result (err_t * lwip H) :=
  if Z.land (netif_flags n) NETIF_FLAG_ETHARP =? 0 then free_and_return p s
  else
    let* (r, s) := pbuf_remove_header (Some p) SIZEOF_ETH_HDR s in
    if negb (r =? 0) then free_and_return p s
    else let* s := input p s in Ok (ERR_OK, s).

Definition ethernet_input (p : Z) (n : netif) s : result (err_t * lwip H) :=
  let* b := deref s p in
  if len b <=? SIZEOF_ETH_HDR then free_and_return p s
  else
    let* dest := ld_bytes s (payload b) 0 6 in
    let* ty := ld_bytes s (payload b) 12 2 in
    let type := be16 ty in
    let* s := (if if_idx b =? NETIF_NO_INDEX then assign p (set_if_idx (netif_get_index n)) s else Ok s) in
    let* s := (if negb (dest_flag dest =? 0)
               then assign p (fun b => set_flags (Z.lor (flags b) (dest_flag dest)) b) s else Ok s) in
    if type =? ETHTYPE_IP then to_upper ip4_input p n s
    else if type =? ETHTYPE_ARP then to_upper etharp_input p n s
    else free_and_return p s.

(** [linkoutput] is the interface's function for complete frames. *)
Definition ethernet_output (linkoutput : netif -> Z -> lwip H -> result (err_t * lwip H)) (n : netif) (p : Z)
    (src dst : list Z) (eth_type : Z) s : result (err_t * lwip H) :=
  let* (r, s) := pbuf_add_header (Some p) SIZEOF_ETH_HDR s in
  if negb (r =? 0) then Ok (ERR_BUF, s)
  else
    let* b := deref s p in
    let* s := st_bytes s (payload b) 12 [wrap8 (eth_type / 256); wrap8 eth_type] in
    let* s := st_bytes s (payload b) 0 (take 6 dst) in
    let* s := st_bytes s (payload b) 6 (take 6 src) in
    linkoutput n p s.
End ethernet.
