(* ===== verification/Ip4.v ===== *)
(** * Routing and sending: [src/lib/lwip/src/core/ipv4/ip4.c]

    The globals of the IP layer, the choice of the interface and the output
    functions in the configuration of [src/lib/lwip/lwipopts.h]: one interface, no
    loopback, no IP options, no forwarding, checksums computed while the header is
    written, fragments on output.  The state of the layers around IP (the ARP
    table, the control blocks of UDP and TCP) is the type [X]; what IP calls of
    them is the class [Neighbours].  Statistics and debug output are left out. *)

From stdpp Require Import base numbers list decidable gmap.
From Stdlib Require Import ZArith Lia Bool.
From S2P Require Import Prelude LwipMem Pbuf InetChksum Ip4Addr Ethernet.
Open Scope Z_scope.

(** ** Constants *)

Definition IP_HLEN : Z := 20.
Definition IP_DF : Z := 0x4000.
Definition IP_MF : Z := 0x2000.
Definition IP_OFFMASK : Z := 0x1fff.
Definition IP_PROTO_ICMP : Z := 1.
Definition IP_PROTO_UDP : Z := 17.
Definition IP_PROTO_TCP : Z := 6.
Definition IP_CLASSA_NET : Z := 0xff000000.
Definition IP_LOOPBACKNET : Z := 127.

Definition PP_HTONS (x : Z) : Z := Z.lor (Z.shiftl (Z.land x 0x00ff) 8) (Z.shiftr (Z.land x 0xff00) 8).

Definition ip4_addr_isloopback (addr : Z) : bool :=
  Z.land addr (PP_HTONL IP_CLASSA_NET) =? PP_HTONL (Z.shiftl IP_LOOPBACKNET 24).

Definition netif_is_up (n : netif) : bool := negb (Z.land (netif_flags n) NETIF_FLAG_UP =? 0).
Definition netif_is_link_up (n : netif) : bool := negb (Z.land (netif_flags n) NETIF_FLAG_LINK_UP =? 0).

Definition isbroadcast (ip : Z) (n : netif) : bool :=
  ip4_addr_isbroadcast_u32 ip (negb (Z.land (netif_flags n) NETIF_FLAG_BROADCAST =? 0)) (ip_addr n) (netmask n).

(** ** State *)

(** [struct ip_globals]; [current_ip4_header] points into a packet. *)
Record ip_globals : Type := mk_ip_globals {
  current_netif : option Z;
  current_input_netif : option Z;
  current_ip4_header : option (Z * Z);
  current_ip_header_tot_len : Z;
  current_iphdr_src : Z;
  current_iphdr_dest : Z
}.

Record ip4 (X H : Type) : Type := mk_ip4 {
  ip_id : Z;
  ip_data : ip_globals;
  around : X;
  stack : lwip H
}.
Arguments mk_ip4 {X H}.
Arguments ip_id {X H}.
Arguments ip_data {X H}.
Arguments around {X H}.
Arguments stack {X H}.

Definition set_ip_id {X H} (v : Z) (s : ip4 X H) : ip4 X H := mk_ip4 v (ip_data s) (around s) (stack s).
Definition set_ip_data {X H} (v : ip_globals) (s : ip4 X H) : ip4 X H := mk_ip4 (ip_id s) v (around s) (stack s).
Definition set_stack {X H} (v : lwip H) (s : ip4 X H) : ip4 X H := mk_ip4 (ip_id s) (ip_data s) (around s) v.

Definition set_around {X H} (v : X) (s : ip4 X H) : ip4 X H := mk_ip4 (ip_id s) (ip_data s) v (stack s).

(** What happens to the packets alone. *)
Definition on_stack {X H} (f : lwip H -> result (lwip H)) (s : ip4 X H) : result (ip4 X H) :=
  let* x := f (stack s) in Ok (set_stack x s).
Definition on_stack_r {X H A} (f : lwip H -> result (A * lwip H)) (s : ip4 X H) : result (A * ip4 X H) :=
  let* (a, x) := f (stack s) in Ok (a, set_stack x s).

(** The way down: [netif->output] and [ip4_frag]; interfaces are given by their
    pointers. *)
Class Neighbours (X H : Type) : Type := {
  netif_output : Z -> Z -> Z -> ip4 X H -> result (err_t * ip4 X H);
  ip4_frag : Z -> Z -> Z -> ip4 X H -> result (err_t * ip4 X H)
}.

(** The way up: [ip4_reass], [udp_input] and [tcp_input]. *)
Class Receivers (X H : Type) : Type := {
  ip4_reass : Z -> ip4 X H -> result (option Z * ip4 X H);
  udp_input : Z -> Z -> ip4 X H -> result (ip4 X H);
  tcp_input : Z -> Z -> ip4 X H -> result (ip4 X H)
}.

(** ** Routing *)

(** [nif] gives the structure behind a pointer. *)
Definition ip4_route (nif : Z -> netif) (netif_default : option Z) (dest : Z) : option Z :=
  match netif_default with
  | None => None
  | Some np =>
      if negb (netif_is_up (nif np)) || negb (netif_is_link_up (nif np)) ||
         ip4_addr_isany (ip_addr (nif np)) || ip4_addr_isloopback dest
      then None else Some np
  end.

(** ** Output *)

Section output.
Context {X H : Type} `{MemHeap H} `{!Neighbours X H}.
Context (nif : Z -> netif) (netif_default : option Z).
Implicit Types (s : ip4 X H).

(** [ip4_addr_isany] of a pointer. *)
Definition isany_ptr (a : option Z) : bool := match a with None => true | Some a => ip4_addr_isany a end.

(** The checksum of the header as it is summed up while the fields are written,
    and its last lines. *)
Definition inline_chksum (ttl tos proto vhl len_n id_n src dest : Z) : Z :=
  let chk_sum := 0 in
  let chk_sum := wrap32 (chk_sum + PP_HTONS (Z.lor proto (Z.shiftl ttl 8))) in
  let chk_sum := wrap32 (chk_sum + Z.land dest 0xFFFF) in
  let chk_sum := wrap32 (chk_sum + Z.shiftr dest 16) in
  let chk_sum := wrap32 (chk_sum + PP_HTONS (Z.lor tos (Z.shiftl vhl 8))) in
  let chk_sum := wrap32 (chk_sum + len_n) in
  let chk_sum := wrap32 (chk_sum + id_n) in
  let chk_sum := wrap32 (chk_sum + Z.land src 0xFFFF) in
  let chk_sum := wrap32 (chk_sum + Z.shiftr src 16) in
  let chk_sum := wrap32 (Z.shiftr chk_sum 16 + Z.land chk_sum 0xFFFF) in
  let chk_sum := wrap32 (Z.shiftr chk_sum 16 + chk_sum) in
  wrap16 (Z.lnot chk_sum).

(** The members of [struct ip_hdr] at their offsets: [_v_hl] 0, [_tos] 1, [_len] 2,
    [_id] 4, [_offset] 6, [_ttl] 8, [_proto] 9, [_chksum] 10, [src] 12, [dest] 16. *)
Definition write_header (p : Z) (src : option Z) (dest ttl tos proto : Z) s : result (ip4 X H) :=
  let* b := deref (stack s) p in
  let iphdr := payload b in
  let st off v s := on_stack (fun x => st_bytes x iphdr off v) s in
  let* s := st 8 [wrap8 ttl] s in
  let* s := st 9 [wrap8 proto] s in
  let* s := st 16 (le_bytes 4 dest) s in
  let vhl := wrap8 (Z.lor (Z.shiftl 4 4) (IP_HLEN / 4)) in
  let* s := st 0 [vhl] s in
  let* s := st 1 [tos] s in
  let len_n := lwip_htons (tot_len b) in
  let* s := st 2 (le_bytes 2 len_n) s in
  let* s := st 6 (le_bytes 2 0) s in
  let id_n := lwip_htons (ip_id s) in
  let* s := st 4 (le_bytes 2 id_n) s in
  let s := set_ip_id (wrap16 (ip_id s + 1)) s in
  let src := match src with None => IPADDR_ANY | Some src => src end in
  let* s := st 12 (le_bytes 4 src) s in
  st 10 (le_bytes 2 (inline_chksum ttl tos proto vhl len_n id_n src dest)) s.

(** [dest] is null for [LWIP_IP_HDRINCL]. *)
Definition ip4_output_if_src (p : Z) (src dest : option Z) (ttl tos proto : Z) (np : Z) s
    : result (err_t * ip4 X H) :=
  let* (r, s) :=
    match dest with
    | Some dest =>
        let* (r, s) := on_stack_r (pbuf_add_header (Some p) IP_HLEN) s in
        if negb (r =? 0) then Ok (None, s)
        else
          let* s := write_header p src dest ttl tos proto s in
          Ok (Some dest, s)
    | None =>
        let* b := deref (stack s) p in
        if len b <? IP_HLEN then Ok (None, s)
        else
          let* dest := ld (stack s) (payload b) 16 4 in
          Ok (Some dest, s)
    end in
  match r with
  | None => Ok (ERR_BUF, s)
  | Some dest =>
      let* b := deref (stack s) p in
      if negb (mtu (nif np) =? 0) && (mtu (nif np) <? tot_len b)
      then ip4_frag p np dest s
      else netif_output np p dest s
  end.

Definition ip4_output_if (p : Z) (src dest : option Z) (ttl tos proto : Z) (np : Z) s : result (err_t * ip4 X H) :=
  let src_used :=
    match dest with
    | Some _ => if isany_ptr src then Some (ip_addr (nif np)) else src
    | None => src
    end in
  ip4_output_if_src p src_used dest ttl tos proto np s.

Definition ip4_output (p : Z) (src : option Z) (dest : Z) (ttl tos proto : Z) s : result (err_t * ip4 X H) :=
  match ip4_route nif netif_default dest with
  | None => Ok (ERR_RTE, s)
  | Some np => ip4_output_if p src (Some dest) ttl tos proto np s
  end.
End output.
