(* ===== verification/Icmp.v ===== *)
(** * ICMP: [src/lib/lwip/src/core/ipv4/icmp.c]

    Echo requests and error messages in the configuration of
    [src/lib/lwip/lwipopts.h]: broadcast and multicast requests are answered,
    checksums are checked and generated, the room in the received packet is
    tested.  Statistics and debug output are left out; [LWIP_ASSERT] has no
    effect in this port. *)

From stdpp Require Import base numbers list decidable gmap.
From Stdlib Require Import ZArith Lia Bool.
From S2P Require Import Prelude LwipMem Pbuf InetChksum Ip4Addr Ethernet Ip4.
Open Scope Z_scope.

Definition ICMP_ER : Z := 0.
Definition ICMP_DUR : Z := 3.
Definition ICMP_ECHO : Z := 8.
Definition ICMP_TE : Z := 11.
Definition ICMP_DUR_PROTO : Z := 2.
Definition ICMP_TTL : Z := 255.
Definition ICMP_DEST_UNREACH_DATASIZE : Z := 8.
Definition SIZEOF_ICMP_HDR : Z := 8.
Definition SIZEOF_ICMP_ECHO_HDR : Z := 8.

(** [IPH_HL_BYTES] of the first byte of a header. *)
Definition IPH_HL_BYTES (v_hl : Z) : Z := wrap8 (Z.land v_hl 0x0f * 4).

(** The new checksum when the type goes from [ICMP_ECHO] to [ICMP_ER]. *)
Definition echo_chksum (chksum : Z) : Z :=
  if PP_HTONS (0xffff - Z.shiftl ICMP_ECHO 8) <? chksum
  then wrap16 (chksum + PP_HTONS (Z.shiftl ICMP_ECHO 8) + 1)
  else wrap16 (chksum + PP_HTONS (Z.shiftl ICMP_ECHO 8)).

(** [base] gives the address at which an area of bytes lies. *)
Section icmp.
Context {X H : Type} `{MemHeap H} `{!Neighbours X H}.
Context (base : Z -> Z) (nif : Z -> netif) (netif_default : option Z).
Implicit Types (s : ip4 X H).

(** [pbuf_free(p); return;] with the statistics left out. *)
Definition drop_packet (p : Z) s : result (ip4 X H) :=
  let* (_, s) := on_stack_r (pbuf_free (Some p)) s in Ok s.

(** A copy of [p] behind a copy of its IP header, with room for the link header;
    none when that fails, after [r] has been freed. *)
Definition echo_copy (p : Z) (iphdr_in : option (Z * Z)) (hlen : Z) s : result (option Z * ip4 X H) :=
  let* b := deref (stack s) p in
  let alloc_len := wrap16 (tot_len b + hlen) in
  if alloc_len <? tot_len b then Ok (None, s)
  else
    let* (r, s) := on_stack_r (pbuf_alloc PBUF_LINK alloc_len PBUF_RAM) s in
    match r with
    | None => Ok (None, s)
    | Some r =>
        let fail s := let* s := drop_packet r s in Ok (None, s) in
        let* br := deref (stack s) r in
        if len br <? hlen + SIZEOF_ICMP_ECHO_HDR then fail s
        else
          let* hdr := ld_bytes (stack s) iphdr_in 0 hlen in
          let* s := on_stack (fun x => st_bytes x (payload br) 0 hdr) s in
          let* (e, s) := on_stack_r (pbuf_remove_header (Some r) hlen) s in
          if negb (e =? 0) then fail s
          else
            let* (e, s) := on_stack_r (pbuf_copy (Some r) (Some p)) s in
            match e with
            | ERR_OK => let* s := drop_packet p s in Ok (Some r, s)
            | _ => fail s
            end
    end.

(** The packet to answer with: [p] itself when there is room for the headers. *)
Definition echo_room (p : Z) (iphdr_in : option (Z * Z)) (hlen : Z) s : result (option Z * ip4 X H) :=
  let* (e, s) := on_stack_r (pbuf_add_header (Some p) (hlen + PBUF_LINK_HLEN)) s in
  if negb (e =? 0) then echo_copy p iphdr_in hlen s
  else
    let* (e, s) := on_stack_r (pbuf_remove_header (Some p) (hlen + PBUF_LINK_HLEN)) s in
    Ok (if negb (e =? 0) then None else Some p, s).

(** Change the request [p] into the answer, where its headers are, and send it. *)
Definition echo_answer (p : Z) (iphdr iecho : option (Z * Z)) (hlen src : Z) (np : Z) s : result (ip4 X H) :=
  let* s := on_stack (fun x => st_bytes x iphdr 12 (le_bytes 4 src)) s in
  let* s := on_stack (fun x => st_bytes x iphdr 16 (le_bytes 4 (current_iphdr_src (ip_data s)))) s in
  let* s := on_stack (fun x => st_bytes x iecho 0 [ICMP_ER]) s in
  let* c := ld (stack s) iecho 2 2 in
  let* s := on_stack (fun x => st_bytes x iecho 2 (le_bytes 2 (echo_chksum c))) s in
  let* s := on_stack (fun x => st_bytes x iphdr 8 [ICMP_TTL]) s in
  let* s := on_stack (fun x => st_bytes x iphdr 10 (le_bytes 2 0)) s in
  let* c := inet_chksum base (stack s) iphdr hlen in
  let* s := on_stack (fun x => st_bytes x iphdr 10 (le_bytes 2 c)) s in
  let* (_, s) := ip4_output_if nif p (Some src) None ICMP_TTL 0 IP_PROTO_ICMP np s in
  Ok s.

(** The answer to the request [p], unless there is no room for its header. *)
Definition echo_reply (p : Z) (hlen src : Z) (np : Z) s : result (ip4 X H) :=
  let* b := deref (stack s) p in
  let iecho := payload b in
  let* (e, s) := on_stack_r (pbuf_add_header (Some p) hlen) s in
  if negb (e =? 0) then Ok s
  else
    let* b := deref (stack s) p in
    echo_answer p (payload b) iecho hlen src np s.

Definition icmp_input (p : Z) (np : Z) s : result (ip4 X H) :=
  let iphdr_in := current_ip4_header (ip_data s) in
  let* v_hl := ld (stack s) iphdr_in 0 1 in
  let hlen := IPH_HL_BYTES v_hl in
  if hlen <? IP_HLEN then drop_packet p s
  else
    let* b := deref (stack s) p in
    if len b <? 2 * 2 then drop_packet p s
    else
      let* type := ld (stack s) (payload b) 0 1 in
      if type =? ICMP_ER then drop_packet p s
      else if type =? ICMP_ECHO then
        let dest := current_iphdr_dest (ip_data s) in
        let src := if ip4_addr_ismulticast dest then ip_addr (nif np) else dest in
        let* cur := not_null (current_netif (ip_data s)) in
        let src := if isbroadcast dest (nif cur) then ip_addr (nif np) else src in
        if tot_len b <? SIZEOF_ICMP_ECHO_HDR then drop_packet p s
        else
          let* c := inet_chksum_pbuf base (stack s) (Some p) in
          if negb (c =? 0) then drop_packet p s
          else
            let* (r, s) := echo_room p iphdr_in hlen s in
            match r with
            | None => drop_packet p s
            | Some p =>
                let* s := echo_reply p hlen src np s in
                drop_packet p s
            end
      else drop_packet p s.

Definition icmp_send_response (p : Z) (type code : Z) s : result (ip4 X H) :=
  let* b := deref (stack s) p in
  let response_pkt_len := IP_HLEN + ICMP_DEST_UNREACH_DATASIZE in
  let response_pkt_len := if tot_len b <? response_pkt_len then tot_len b else response_pkt_len in
  let* (q, s) := on_stack_r (pbuf_alloc PBUF_IP (SIZEOF_ICMP_HDR + response_pkt_len) PBUF_RAM) s in
  match q with
  | None => Ok s
  | Some q =>
      let iphdr := payload b in
      let* bq := deref (stack s) q in
      let icmphdr := payload bq in
      let* s := on_stack (fun x => st_bytes x icmphdr 0 [type]) s in
      let* s := on_stack (fun x => st_bytes x icmphdr 1 [code]) s in
      let* s := on_stack (fun x => st_bytes x icmphdr 4 (le_bytes 4 0)) s in
      let* (_, s) := on_stack_r (pbuf_copy_partial_pbuf (Some q) (Some p) response_pkt_len SIZEOF_ICMP_HDR) s in
      let* iphdr_src := ld (stack s) iphdr 12 4 in
      let* s :=
        match ip4_route nif netif_default iphdr_src with
        | None => Ok s
        | Some np =>
            let* s := on_stack (fun x => st_bytes x icmphdr 2 (le_bytes 2 0)) s in
            let* bq := deref (stack s) q in
            let* c := inet_chksum base (stack s) icmphdr (len bq) in
            let* s := on_stack (fun x => st_bytes x icmphdr 2 (le_bytes 2 c)) s in
            let* (_, s) := ip4_output_if nif q None (Some iphdr_src) ICMP_TTL 0 IP_PROTO_ICMP np s in
            Ok s
        end in
      drop_packet q s
  end.

Definition icmp_dest_unreach (p : Z) (t : Z) s : result (ip4 X H) := icmp_send_response p ICMP_DUR t s.
Definition icmp_time_exceeded (p : Z) (t : Z) s : result (ip4 X H) := icmp_send_response p ICMP_TE t s.
End icmp.
