(* ===== verification/Ip4Input.v ===== *)
(** * Receiving: [ip4_input] of [src/lib/lwip/src/core/ipv4/ip4.c]

    In the configuration of [src/lib/lwip/lwipopts.h]: one interface, no
    multicast groups, UDP packets to port 67 accepted whatever their address, no
    forwarding, reassembly, IP options allowed and skipped, no raw sockets. *)

From stdpp Require Import base numbers list decidable gmap.
From Stdlib Require Import ZArith Lia Bool.
From S2P Require Import Prelude LwipMem Pbuf InetChksum Ip4Addr Ethernet Ip4 Icmp.
Open Scope Z_scope.

Definition IP_ACCEPT_LINK_LAYER_ADDRESSED_PORT (port : Z) : bool := port =? PP_HTONS 67.

(** Whether a packet to [dest] is accepted on this interface. *)
Definition ip4_input_accept (n : netif) (dest : Z) : bool :=
  if netif_is_up n && negb (ip4_addr_isany (ip_addr n)) then
    if (dest =? ip_addr n) || isbroadcast dest n then true else false
  else false.

(** The interface that takes a packet to [dest], which is [inp] or none. *)
Definition ip4_input_netif (n : netif) (dest : Z) : bool :=
  if ip4_addr_ismulticast dest
  then netif_is_up n && negb (ip4_addr_isany (ip_addr n))
  else ip4_input_accept n dest.

Section input.
Context {X H : Type} `{MemHeap H} `{!Neighbours X H, !Receivers X H}.
Context (base : Z -> Z) (nif : Z -> netif) (netif_default : option Z).
Implicit Types (s : ip4 X H).

Definition no_packet : ip_globals := mk_ip_globals None None None 0 IPADDR_ANY IPADDR_ANY.

(** [switch (IPH_PROTO(iphdr))], behind the header. *)
Definition to_protocol (p : Z) (inp : Z) (iphdr_hlen proto : Z) s : result (ip4 X H) :=
  if proto =? IP_PROTO_UDP then udp_input p inp s
  else if proto =? IP_PROTO_TCP then tcp_input p inp s
  else if proto =? IP_PROTO_ICMP then icmp_input base nif p inp s
  else
    let dest := current_iphdr_dest (ip_data s) in
    let* s := if negb (isbroadcast dest (nif inp)) && negb (ip4_addr_ismulticast dest) then
                let* (_, s) := on_stack_r (pbuf_header_force (Some p) iphdr_hlen) s in
                icmp_dest_unreach base nif netif_default p ICMP_DUR_PROTO s
              else Ok s in
    drop_packet p s.

(** From [send to upper layers] on. *)
Definition ip4_deliver (p : Z) (inp : Z) (iphdr : option (Z * Z)) (iphdr_hlen : Z) s : result (ip4 X H) :=
  let* v_hl := ld (stack s) iphdr 0 1 in
  let d := ip_data s in
  let s := set_ip_data (mk_ip_globals (Some inp) (Some inp) iphdr (IPH_HL_BYTES v_hl)
                          (current_iphdr_src d) (current_iphdr_dest d)) s in
  let* (_, s) := on_stack_r (pbuf_remove_header (Some p) iphdr_hlen) s in
  let* proto := ld (stack s) iphdr 9 1 in
  let* s := to_protocol p inp iphdr_hlen proto s in
  Ok (set_ip_data no_packet s).

(** The checks on addresses: whether the packet is for us, and whether its source
    can be one. *)
Definition ip4_accept (inp : Z) (iphdr : option (Z * Z)) (iphdr_hlen : Z) s : result bool :=
  let dest := current_iphdr_dest (ip_data s) in
  let src := current_iphdr_src (ip_data s) in
  let accepted := ip4_input_netif (nif inp) dest in
  let* (accepted, check_ip_src) :=
    if accepted : bool then Ok (true, true)
    else
      let* proto := ld (stack s) iphdr 9 1 in
      if proto =? IP_PROTO_UDP then
        let* port := ld (stack s) iphdr (iphdr_hlen + 2) 2 in
        if IP_ACCEPT_LINK_LAYER_ADDRESSED_PORT port then Ok (true, false) else Ok (false, true)
      else Ok (false, true) in
  if (check_ip_src && negb (ip4_addr_isany src)) && (isbroadcast src (nif inp) || ip4_addr_ismulticast src)
  then Ok false
  else Ok accepted.

Definition ip4_input (p : Z) (inp : Z) s : result (err_t * ip4 X H) :=
  let dropped s := let* s := drop_packet p s in Ok (ERR_OK, s) in
  let* b := deref (stack s) p in
  let iphdr := payload b in
  let* v_hl := ld (stack s) iphdr 0 1 in
  if negb (Z.shiftr v_hl 4 =? 4) then dropped s
  else
    let iphdr_hlen := IPH_HL_BYTES v_hl in
    let* len_n := ld (stack s) iphdr 2 2 in
    let iphdr_len := lwip_htons len_n in
    let* s := if iphdr_len <? tot_len b then on_stack (pbuf_realloc p iphdr_len) s else Ok s in
    let* b := deref (stack s) p in
    if (len b <? iphdr_hlen) || (tot_len b <? iphdr_len) || (iphdr_hlen <? IP_HLEN) then dropped s
    else
      let* c := inet_chksum base (stack s) iphdr iphdr_hlen in
      if negb (c =? 0) then dropped s
      else
        let* dest := ld (stack s) iphdr 16 4 in
        let* src := ld (stack s) iphdr 12 4 in
        let d := ip_data s in
        let s := set_ip_data (mk_ip_globals (current_netif d) (current_input_netif d) (current_ip4_header d)
                                (current_ip_header_tot_len d) src dest) s in
        let* accepted := ip4_accept inp iphdr iphdr_hlen s in
        if negb accepted then dropped s
        else
          let* offset := ld (stack s) iphdr 6 2 in
          if negb (Z.land offset (PP_HTONS (Z.lor IP_OFFMASK IP_MF)) =? 0) then
            let* (r, s) := ip4_reass p s in
            match r with
            | None => Ok (ERR_OK, s)
            | Some p =>
                let* b := deref (stack s) p in
                let* s := ip4_deliver p inp (payload b) iphdr_hlen s in
                Ok (ERR_OK, s)
            end
          else
            let* s := ip4_deliver p inp iphdr iphdr_hlen s in
            Ok (ERR_OK, s).
End input.
