(* ===== verification/Ip4Props.v ===== *)
(** * The IP header

    The header that [Ip4] writes, with the checksum it sums up on the way,
    against the header of RFC 791 with the checksum of RFC 1071; what [Ip4Input]
    does with such a header; and damaged headers. *)

From stdpp Require Import base numbers list decidable gmap.
From Stdlib Require Import ZArith Lia Bool.
From S2P Require Import Prelude LwipMem Pbuf PbufChain PbufProps OnesComp InetChksum InetChksumProps PbufView Ip4Addr Ethernet Ip4 Icmp Ip4Input.
Open Scope Z_scope.

(** ** The reference *)

(** The bytes of a header without options, with [ck] in the checksum field; the
    addresses are kept in network order. *)
Definition ip_header_with (ck : list Z) (tos ln id ttl proto src dest : Z) : list Z :=
  [0x45; tos; ln / 256; ln mod 256; id / 256; id mod 256; 0; 0; ttl; proto] ++ ck ++ le_bytes 4 src ++ le_bytes 4 dest.

Definition ip_header (tos ln id ttl proto src dest : Z) : list Z :=
  ip_header_with (rfc1071 (ip_header_with [0; 0] tos ln id ttl proto src dest)) tos ln id ttl proto src dest.

Definition is_byte (x : Z) : Prop := 0 <= x < 256.
Definition is_word (x : Z) : Prop := 0 <= x < 65536.
Definition is_addr (x : Z) : Prop := 0 <= x < 2 ^ 32.

(** ** The checksum on the way *)

Lemma htons_word hi lo : is_byte hi -> is_byte lo -> PP_HTONS (Z.lor lo (Z.shiftl hi 8)) = le_val [hi; lo].
Proof.
  intros Hh Hl. unfold is_byte in *. rewrite Z.lor_comm, lor_shiftl_add by lia. rewrite Z.shiftl_mul_pow2 by lia.
  change (PP_HTONS (hi * 2 ^ 8 + lo)) with (SWAP_BYTES_IN_WORD (hi * 256 + lo)). rewrite swap_arith by lia.
  replace ((hi * 256 + lo) mod 256) with lo by (rewrite Z.add_comm, Z.mod_add, Z.mod_small; lia).
  replace ((hi * 256 + lo) / 256) with hi by (rewrite Z.add_comm, Z.div_add, Z.div_small; lia). cbn [le_val]. lia.
Qed.

Lemma wrap16_lnot x : wrap16 (Z.lnot x) = 65535 - x mod 65536.
Proof.
  unfold wrap, Z.lnot. change (2 ^ 16) with 65536. pose proof (Z.div_mod x 65536 ltac:(lia)).
  pose proof (Z.mod_pos_bound x 65536 ltac:(lia)).
  replace (Z.pred (- x)) with (65535 - x mod 65536 + (- (x / 65536) - 1) * 65536) by lia.
  rewrite Z.mod_add by lia. apply Z.mod_small. lia.
Qed.

(** The last lines: two additions and the complement. *)
Lemma inline_fold S : 0 < S < 0x100000 ->
  let c := wrap32 (Z.shiftr S 16 + Z.land S 0xFFFF) in
  let v := wrap16 (Z.lnot (wrap32 (Z.shiftr c 16 + c))) in
  0 <= v <= 65535 /\ congr (65535 - v) S.
Proof.
  intros HS c v. unfold v. rewrite wrap16_lnot.
  assert (Hc : c = S / 65536 + S mod 65536).
  { unfold c. rewrite Z.shiftr_div_pow2 by lia. change 0xFFFF with (Z.ones 16). rewrite Z.land_ones by lia.
    change (2 ^ 16) with 65536. apply wrap32_small. split; [apply Z.add_nonneg_nonneg; [apply Z.div_pos; lia|apply Z.mod_pos_bound; lia]|].
    pose proof (Z.mod_pos_bound S 65536 ltac:(lia)). assert (S / 65536 < 16) by (apply Z.div_lt_upper_bound; lia). lia. }
  pose proof (Z.mod_pos_bound S 65536 ltac:(lia)). pose proof (Z.div_mod S 65536 ltac:(lia)).
  assert (0 <= S / 65536 < 16) by (split; [apply Z.div_pos; lia|apply Z.div_lt_upper_bound; lia]).
  rewrite Z.shiftr_div_pow2 by lia. change (2 ^ 16) with 65536.
  assert (Hq : c / 65536 = 0 /\ c < 65536 \/ c / 65536 = 1 /\ 65536 <= c < 65536 + 15).
  { destruct (Z.lt_ge_cases c 65536); [left; split; [apply Z.div_small; lia|done]|right].
    split; [|lia]. symmetry. apply (Z.div_unique _ _ _ (c - 65536)); lia. }
  destruct Hq as [[-> Hlt]|[-> Hge]]; rewrite wrap32_small by lia.
  - rewrite Z.add_0_l, Z.mod_small by lia. split; [lia|]. rewrite Z.sub_sub_distr, Z.sub_diag, Z.add_0_l.
    symmetry. apply (congr_mod _ _ (S / 65536)); lia.
  - replace ((1 + c) mod 65536) with (c - 65535) by (apply (Z.mod_unique _ _ 1); lia). split; [lia|].
    rewrite Z.sub_sub_distr, Z.sub_diag, Z.add_0_l. symmetry. apply (congr_mod _ _ (S / 65536 + 1)); lia.
Qed.

Lemma le_val_app_even l1 l2 : Nat.even (length l1) = true -> bytes_ok l1 -> bytes_ok l2 ->
  congr (le_val (l1 ++ l2)) (le_val l1 + le_val l2).
Proof.
  intros He H1 H2. pose proof (le_val_app_congr l1 l2 H1 H2) as Hc. rewrite <- Nat.negb_even, He in Hc. cbn [negb] in Hc.
  by rewrite Z.mul_1_l in Hc.
Qed.

Lemma addr_halves a : is_addr a ->
  congr (Z.land a 0xFFFF + Z.shiftr a 16) (le_val (le_bytes 4 a)) /\
  0 <= Z.land a 0xFFFF < 65536 /\ 0 <= Z.shiftr a 16 < 65536.
Proof.
  intros Ha. destruct (halves a Ha) as (Hc&Hl&Hh). rewrite le_val_bytes, Z.mod_small by (cbn; unfold is_addr in Ha; lia).
  assert (Heq : Z.land (Z.shiftr a 16) 0xFFFF = Z.shiftr a 16).
  { apply land16. rewrite Z.shiftr_div_pow2 by lia. unfold is_addr in Ha.
    assert (0 <= a / 2 ^ 16 < 65536) by (split; [apply Z.div_pos; lia|apply Z.div_lt_upper_bound; lia]). lia. }
  by rewrite Heq in *.
Qed.

Lemma word_bytes n : is_word n -> is_byte (n / 256) /\ is_byte (n mod 256).
Proof.
  intros Hn. unfold is_word, is_byte in *. pose proof (Z.mod_pos_bound n 256 ltac:(lia)).
  split; [|lia]. split; [apply Z.div_pos; lia|apply Z.div_lt_upper_bound; lia].
Qed.

Section header.
Context (tos ln id ttl proto src dest : Z).
Hypothesis Htos : is_byte tos.
Hypothesis Hln : is_word ln.
Hypothesis Hid : is_word id.
Hypothesis Httl : is_byte ttl.
Hypothesis Hproto : is_byte proto.
Hypothesis Hsrc : is_addr src.
Hypothesis Hdest : is_addr dest.

Lemma header_bytes ck : bytes_ok ck -> bytes_ok (ip_header_with ck tos ln id ttl proto src dest).
Proof.
  intros Hck. destruct (word_bytes ln Hln), (word_bytes id Hid). unfold ip_header_with, is_byte in *.
  apply Forall_app. split; [repeat constructor; lia|]. apply Forall_app. split; [done|].
  apply Forall_app. split; apply bytes_ok_le_bytes.
Qed.

Lemma inline_chksum_sum :
  let v := inline_chksum ttl tos proto 0x45 (lwip_htons ln) (lwip_htons id) src dest in
  0 <= v <= 65535 /\ congr (65535 - v) (le_val (ip_header_with [0; 0] tos ln id ttl proto src dest)).
Proof.
  destruct (addr_halves src Hsrc) as (Hs&?&?). destruct (addr_halves dest Hdest) as (Hd&?&?).
  destruct (word_bytes ln Hln), (word_bytes id Hid).
  assert (Hb : bytes_ok (ip_header_with [0; 0] tos ln id ttl proto src dest)) by (apply header_bytes; repeat constructor; lia).
  unfold inline_chksum. rewrite !htons_word by (done || (unfold is_byte; lia)). rewrite !htons_arith by (unfold is_word in *; lia).
  set (h0 := le_val [ttl; proto]) in *. set (h1 := le_val [0x45; tos]) in *. set (h2 := le_val [ln / 256; ln mod 256]) in *.
  set (h3 := le_val [id / 256; id mod 256]) in *.
  assert (Hr : 0 <= h0 < 65536 /\ 0 < h1 < 65536 /\ 0 <= h2 < 65536 /\ 0 <= h3 < 65536)
    by (unfold h0, h1, h2, h3, is_byte in *; cbn [le_val]; lia).
  set (dl := Z.land dest 0xFFFF) in *. set (dh := Z.shiftr dest 16) in *. set (sl := Z.land src 0xFFFF) in *.
  set (sh := Z.shiftr src 16) in *. cbv zeta. rewrite Z.add_0_l.
  rewrite (wrap32_small h0), (wrap32_small (h0 + dl)), (wrap32_small (h0 + dl + dh)), (wrap32_small (h0 + dl + dh + h1)),
    (wrap32_small (h0 + dl + dh + h1 + h2)), (wrap32_small (h0 + dl + dh + h1 + h2 + h3)),
    (wrap32_small (h0 + dl + dh + h1 + h2 + h3 + sl)), (wrap32_small (h0 + dl + dh + h1 + h2 + h3 + sl + sh)) by lia.
  destruct (inline_fold (h0 + dl + dh + h1 + h2 + h3 + sl + sh)) as [Hv Hc]; [lia|].
  split; [exact Hv|]. etrans; [exact Hc|]. clear Hv Hc.
  assert (Hhd : congr (h0 + h1 + h2 + h3) (le_val ([0x45; tos; ln / 256; ln mod 256; id / 256; id mod 256; 0; 0; ttl; proto] ++ [0; 0]))).
  { symmetry. apply (congr_mod _ _ (h2 + h3 * (1 + 65536) + h0 * (1 + 65536 + 65536 * 65536 + 65536 * 65536 * 65536)));
      unfold h0, h1, h2, h3, is_byte in *; cbn [app le_val]; lia. }
  unfold ip_header_with in *. rewrite app_assoc. symmetry.
  apply Forall_app in Hb as [Hb1 [Hb2 Hb3]%Forall_app]. apply Forall_app in Hb3 as [Hb3 Hb4].
  etrans; [apply le_val_app_even; [done|by apply Forall_app|by apply Forall_app]|].
  etrans; [apply congr_add; [symmetry; exact Hhd|]|].
  { etrans; [apply le_val_app_even; [done|done|done]|]. apply congr_add; symmetry; [exact Hs|exact Hd]. }
  replace (h0 + dl + dh + h1 + h2 + h3 + sl + sh) with (h0 + h1 + h2 + h3 + (sl + sh + (dl + dh))) by lia.
  apply congr_refl. lia.
Qed.

Lemma inline_chksum_ok :
  le_bytes 2 (inline_chksum ttl tos proto 0x45 (lwip_htons ln) (lwip_htons id) src dest) =
  rfc1071 (ip_header_with [0; 0] tos ln id ttl proto src dest).
Proof.
  destruct inline_chksum_sum as [Hv Hc]. apply rfc1071_word; [|done|done].
  apply header_bytes. repeat constructor; lia.
Qed.

(** The words of the whole header add up to zero, in one's complement. *)
Lemma header_sum : congr (le_val (ip_header tos ln id ttl proto src dest)) 65535.
Proof.
  destruct inline_chksum_sum as [Hv Hc]. unfold ip_header. rewrite <- inline_chksum_ok.
  apply (stored_sum 10 _ (ip_header_with [0; 0] tos ln id ttl proto src dest)); [done|cbn; lia|done|done|done].
Qed.

Lemma header_ok : bytes_ok (ip_header tos ln id ttl proto src dest).
Proof. unfold ip_header. rewrite <- inline_chksum_ok. apply header_bytes, bytes_ok_le_bytes. Qed.
End header.

(** ** Writing the header *)

(** Fields written one after the other into twenty bytes. *)
Lemma fields_header h ck tos ln id ttl proto src dest : length h = 20%nat -> is_word ln -> is_word id ->
  splice 10 (le_bytes 2 ck) (splice 12 (le_bytes 4 src) (splice 4 (le_bytes 2 (lwip_htons id))
    (splice 6 (le_bytes 2 0) (splice 2 (le_bytes 2 (lwip_htons ln)) (splice 1 [tos] (splice 0 [0x45]
      (splice 16 (le_bytes 4 dest) (splice 9 [proto] (splice 8 [ttl] h))))))))) =
  ip_header_with (le_bytes 2 ck) tos ln id ttl proto src dest.
Proof.
  intros Hl Hln Hid.
  assert (Hw : forall n, is_word n -> le_bytes 2 (lwip_htons n) = [n / 256; n mod 256]).
  { intros n Hn. destruct (word_bytes n Hn). unfold is_word, is_byte in *. rewrite htons_arith by done.
    apply (le_bytes_val [n / 256; n mod 256]). repeat constructor; lia. }
  rewrite !Hw by done. do 20 (destruct h as [|? h]; [done|]). destruct h; [|done]. reflexivity.
Qed.

Lemma on_stack_st {X H} (s : ip4 X H) t a o bs h z k d v : (o + length h <= length bs)%nat -> z + k = Z.of_nat (o + d) ->
  (d + length v <= length h)%nat ->
  on_stack (fun x => st_bytes x (Some (a, z)) k v) (set_stack (view t a o bs h) s) =
  Ok (set_stack (view t a o bs (splice d v h)) s).
Proof. intros Hl Hz Hd. unfold on_stack. cbn [stack set_stack]. by rewrite (view_st t a o bs h z k d v). Qed.

Lemma length_field n d v (h : list Z) : length h = n -> (d + length v <= n)%nat -> length (splice d v h) = n.
Proof. intros <- Hd. by apply length_splice. Qed.

(** The field at [d] of a window of [n] bytes. *)
Ltac field_length := repeat (apply length_field; [|cbn [length]; rewrite ?length_le_bytes; lia]); first [assumption|reflexivity].
Ltac field n d :=
  match goal with |- context [on_stack _ (set_stack (view _ _ _ _ ?h) _)] =>
    let Hh := fresh in assert (Hh : length h = n) by field_length;
    rewrite (on_stack_st _ _ _ _ _ _ _ _ d) by (rewrite ?Hh, ?length_le_bytes; cbn [length]; lia); clear Hh; cbn [rbind]
  end.

Section sending.
Context {X H : Type} `{MemHeap H} `{!Neighbours X H}.
Implicit Types (s : ip4 X H).

Lemma write_header_ok s p b a o bs src dest ttl tos proto :
  pbufs (stack s) !! p = Some b -> payload b = Some (a, Z.of_nat o) -> areas (stack s) !! a = Some bs ->
  (o + 20 <= length bs)%nat -> is_word (tot_len b) -> is_word (ip_id s) ->
  is_byte ttl -> is_byte tos -> is_byte proto -> is_addr src -> is_addr dest ->
  write_header p (Some src) dest ttl tos proto s =
  Ok (set_ip_id (wrap16 (ip_id s + 1))
        (set_stack (view (stack s) a o bs (ip_header tos (tot_len b) (ip_id s) ttl proto src dest)) s)).
Proof.
  intros Hb Hpay Ha Hl Hln Hid Httl Htos Hproto Hsrc Hdest. unfold write_header. rewrite (deref_ok _ _ _ Hb). cbn [rbind].
  rewrite Hpay. unfold ip_header. rewrite <- (inline_chksum_ok tos (tot_len b) (ip_id s) ttl proto src dest) by done.
  change (wrap8 (Z.lor (Z.shiftl 4 4) (IP_HLEN / 4))) with 0x45.
  assert (H8 : forall x, is_byte x -> wrap8 x = x) by (intros x Hx; apply wrap_small; exact Hx).
  rewrite (H8 ttl), (H8 proto) by done.
  pose proof (view_open (stack s) a o 20 bs Ha Hl) as Hopen.
  assert (Hlen : length (slice o 20 bs) = 20%nat) by (by apply length_slice). revert Hopen Hlen.
  generalize (slice o 20 bs). intros h Hopen Hlen. rewrite <- (fields_header h) by done.
  assert (Hfirst : on_stack (fun x => st_bytes x (Some (a, Z.of_nat o)) 8 [ttl]) s =
            Ok (set_stack (view (stack s) a o bs (splice 8 [ttl] h)) s)).
  { unfold on_stack. rewrite Hopen at 1. by rewrite (view_st _ a o bs h _ 8 8) by (cbn [length]; lia). }
  rewrite Hfirst. cbn [rbind].
  field 20%nat 9%nat. field 20%nat 16%nat. field 20%nat 0%nat. field 20%nat 1%nat. field 20%nat 2%nat. field 20%nat 6%nat.
  cbn [ip_id set_stack]. field 20%nat 4%nat. cbn [ip_id set_stack].
  match goal with |- context [set_ip_id ?x (set_stack ?y s)] =>
    change (set_ip_id x (set_stack y s)) with (set_stack y (set_ip_id x s)) end.
  field 20%nat 12%nat. field 20%nat 10%nat. done.
Qed.

(** What is handed on once there is a header: to the interface, or to be cut into
    fragments. *)
Definition transmit (nif : Z -> netif) (np p dest total : Z) s : result (err_t * ip4 X H) :=
  if negb (mtu (nif np) =? 0) && (mtu (nif np) <? total) then ip4_frag p np dest s else netif_output np p dest s.

(** The state with the header in front of the packet. *)
Definition sent s (p : Z) (b : pbuf) (a : Z) (o : nat) (bs hdr : list Z) : ip4 X H :=
  mk_ip4 (wrap16 (ip_id s + 1)) (ip_data s) (around s)
    (view (set_pbufs (<[p := with_header IP_HLEN b a (Z.of_nat o)]> (pbufs (stack s))) (stack s)) a (o - 20) bs hdr).

Lemma output_if_src_ok nif s p b a o bs src dest ttl tos proto np :
  pbufs (stack s) !! p = Some b -> contiguous_pbuf b -> payload b = Some (a, Z.of_nat o) ->
  areas (stack s) !! a = Some bs -> (20 <= o <= length bs)%nat -> 0 <= len b <= tot_len b -> tot_len b + 20 < 65536 ->
  is_word (ip_id s) -> is_byte ttl -> is_byte tos -> is_byte proto -> is_addr src -> is_addr dest ->
  ip4_output_if_src nif p (Some src) (Some dest) ttl tos proto np s =
  transmit nif np p dest (tot_len b + 20)
    (sent s p b a o bs (ip_header tos (tot_len b + 20) (ip_id s) ttl proto src dest)).
Proof.
  intros Hb Hcont Hpay Ha Ho Hlen Htot Hid Httl Htos Hproto Hsrc Hdest. unfold ip4_output_if_src, on_stack_r.
  rewrite (add_header_ok (stack s) p b a (Z.of_nat o) IP_HLEN Hb Hcont Hpay) by (unfold IP_HLEN; lia). cbn [rbind].
  rewrite Z.eqb_refl. cbn [negb]. set (s1 := set_stack _ s).
  assert (Hb1 : pbufs (stack s1) !! p = Some (with_header IP_HLEN b a (Z.of_nat o))) by apply lookup_insert_eq.
  rewrite (write_header_ok s1 p (with_header IP_HLEN b a (Z.of_nat o)) a (o - 20) bs src dest ttl tos proto) by
    (try done; try (cbn; f_equal; f_equal; unfold IP_HLEN; lia); try lia; unfold is_word; cbn; unfold IP_HLEN; lia).
  cbn [rbind]. rewrite (deref_ok _ p (with_header IP_HLEN b a (Z.of_nat o))) by exact Hb1. done.
Qed.
End sending.

(** ** Reading the header *)

Section receiving.
Context {X H : Type} `{MemHeap H} `{!Neighbours X H, !Receivers X H}.
Context (base : Z -> Z) (nif : Z -> netif) (netif_default : option Z).
Implicit Types (s : ip4 X H).

(** A packet whose first buffer starts with the bytes [h]. *)
Record starts_with s (p : Z) (b : pbuf) (a : Z) (o : nat) (bs h : list Z) : Prop := {
  starts_pbuf : pbufs (stack s) !! p = Some b;
  starts_payload : payload b = Some (a, Z.of_nat o);
  starts_area : areas (stack s) !! a = Some bs;
  starts_bytes : bytes_ok bs;
  starts_len : Z.of_nat (length h) <= len b <= tot_len b;
  starts_max : tot_len b < 65536;
  starts_room : (o + Z.to_nat (len b) <= length bs)%nat;
  starts_slice : slice o (length h) bs = h
}.

Lemma starts_view s p b a o bs h : starts_with s p b a o bs h ->
  stack s = view (stack s) a o bs h /\ (o + length h <= length bs)%nat /\ bytes_ok h.
Proof.
  intros [Hb Hpay Ha Hok Hlen Hmax Hroom Hsl]. assert (Hl : (o + length h <= length bs)%nat) by lia.
  split; [|split; [done|]]; rewrite <- Hsl at 1; [by apply view_open|]. by apply Forall_take, Forall_drop.
Qed.

(** Without options, and with the length of the packet in the header: the
    checksum decides. *)
Lemma input_header_ok s p b a o bs h inp : starts_with s p b a o bs h -> length h = 20%nat ->
  slice 0 1 h = [0x45] -> slice 2 2 h = le_bytes 2 (lwip_htons (tot_len b)) ->
  exists v, 0 <= v <= 65535 /\ congr (65535 - v) (le_val h) /\
  ip4_input base nif netif_default p inp s =
    if negb (v =? 0) then let* s := drop_packet p s in Ok (ERR_OK, s)
    else
      let d := ip_data s in
      let src := le_val (slice 12 4 h) in
      let dest := le_val (slice 16 4 h) in
      let s := set_ip_data (mk_ip_globals (current_netif d) (current_input_netif d) (current_ip4_header d)
                              (current_ip_header_tot_len d) src dest) s in
      let* accepted := ip4_accept nif inp (Some (a, Z.of_nat o)) 20 s in
      if negb accepted then let* s := drop_packet p s in Ok (ERR_OK, s)
      else if negb (Z.land (le_val (slice 6 2 h)) (PP_HTONS (Z.lor IP_OFFMASK IP_MF)) =? 0) then
        let* (r, s) := ip4_reass p s in
        match r with
        | None => Ok (ERR_OK, s)
        | Some p =>
            let* b := deref (stack s) p in
            let* s := ip4_deliver base nif netif_default p inp (payload b) 20 s in
            Ok (ERR_OK, s)
        end
      else let* s := ip4_deliver base nif netif_default p inp (Some (a, Z.of_nat o)) 20 s in Ok (ERR_OK, s).
Proof.
  intros Hst Hlh Hvhl Htl. destruct (starts_view _ _ _ _ _ _ _ Hst) as (Hv&Hl&Hok). destruct Hst as [Hb Hpay Ha Hbs Hlen Hmax Hroom Hsl].
  assert (Hld : forall k n, 0 <= k -> 0 <= n -> k + n <= 20 ->
            ld (stack s) (Some (a, Z.of_nat o)) k n = Ok (le_val (slice (Z.to_nat k) (Z.to_nat n) h))).
  { intros k n Hk Hn Hkn. rewrite Hv. apply (view_ld _ a o bs h); lia. }
  destruct (view_chksum base (stack s) a o bs h (Z.of_nat o) 0 20) as (v&Hvc&Hvr&Hcong); [done|lia|lia|done|lia|].
  exists v. split; [done|].
  assert (Hs20 : slice 0 20 h = h) by (unfold slice; rewrite drop_0; apply take_ge; lia).
  rewrite Hs20 in Hcong. split; [done|]. rewrite <- Hv in Hvc.
  unfold ip4_input. rewrite (deref_ok _ _ _ Hb). cbn [rbind]. rewrite Hpay, (Hld 0 1) by lia.
  change (Z.to_nat 0) with 0%nat. change (Z.to_nat 1) with 1%nat. rewrite Hvhl. cbn [rbind le_val].
  change (Z.shiftr (69 + 256 * 0) 4 =? 4) with true. cbn [negb]. change (IPH_HL_BYTES (69 + 256 * 0)) with 20.
  rewrite (Hld 2 2) by lia. change (Z.to_nat 2) with 2%nat. rewrite Htl, le_val_bytes. cbn [rbind].
  assert (Hsw : lwip_htons (lwip_htons (tot_len b) mod 2 ^ (8 * Z.of_nat 2)) = tot_len b).
  { assert (Hw : is_word (tot_len b)) by (unfold is_word; lia). destruct (word_bytes _ Hw). unfold is_byte in *.
    rewrite (htons_arith (tot_len b)) by lia. rewrite Z.mod_small by (cbn [le_val]; change (2 ^ (8 * Z.of_nat 2)) with 65536; lia).
    pose proof (Z.div_mod (tot_len b) 256 ltac:(lia)) as Hdm. cbn [le_val].
    set (hi := tot_len b / 256) in *. set (lo := tot_len b mod 256) in *.
    replace (hi + 256 * (lo + 256 * 0)) with (hi + lo * 256) by lia. rewrite htons_arith by lia. cbn [le_val].
    rewrite Z.div_add, Z.mod_add, Z.div_small, Z.mod_small by lia. lia. }
  rewrite Hsw. destruct (Z.ltb_spec (tot_len b) (tot_len b)); [lia|]. cbn [rbind].
  rewrite (deref_ok _ _ _ Hb). cbn [rbind]. rewrite Hlh in Hlen.
  destruct (Z.ltb_spec (len b) 20); [lia|]. destruct (Z.ltb_spec (tot_len b) (tot_len b)); [lia|]. cbn [orb].
  change (20 <? IP_HLEN) with false. cbn [orb]. change (Z.of_nat 20) with 20 in Hvc. rewrite Hvc. cbn [rbind].
  destruct (negb (v =? 0)); [done|]. rewrite (Hld 16 4), (Hld 12 4) by lia. cbn [rbind].
  destruct (ip4_accept _ _ _ _ _) as [acc|]; [|done]. cbn [rbind]. destruct (negb acc); [done|].
  cbn [stack set_ip_data]. rewrite (Hld 6 2) by lia. done.
Qed.

(** The source address is one that a host can have. *)
Definition source_ok (inp src : Z) : Prop :=
  ip4_addr_isany src = true \/ (isbroadcast src (nif inp) = false /\ ip4_addr_ismulticast src = false).

Lemma accept_ok s inp iphdr hlen :
  ip4_input_netif (nif inp) (current_iphdr_dest (ip_data s)) = true -> source_ok inp (current_iphdr_src (ip_data s)) ->
  ip4_accept nif inp iphdr hlen s = Ok true.
Proof.
  intros Hacc Hsrc. unfold ip4_accept. rewrite Hacc. cbn [rbind andb].
  destruct Hsrc as [->|[-> ->]]; [done|]. cbn [orb]. by rewrite andb_false_r.
Qed.

(** The structure behind the header. *)
Definition stripped (b : pbuf) (a : Z) (o : nat) : pbuf :=
  set_tot_len (tot_len b - 20) (set_len (len b - 20) (set_payload (Some (a, Z.of_nat o + 20)) b)).

Lemma strip_ok (t : lwip H) p b a o : pbufs t !! p = Some b -> payload b = Some (a, Z.of_nat o) ->
  20 <= len b <= tot_len b -> tot_len b < 65536 ->
  pbuf_remove_header (Some p) 20 t = Ok (0, set_pbufs (<[p := stripped b a o]> (pbufs t)) t).
Proof.
  intros Hb Hpay Hlen Hmax. unfold pbuf_remove_header. destruct (Z.ltb_spec 65535 20); [lia|].
  change (20 =? 0) with false. cbv iota. rewrite (deref_ok _ _ _ Hb). cbn [rbind]. change (wrap16 20) with 20.
  destruct (Z.leb_spec 20 (len b)); [|lia]. cbn [negb]. rewrite Hpay. cbn [not_null rbind].
  rewrite (assign_ok _ _ _ _ Hb). cbn [rbind]. rewrite !wrap16_small by lia. done.
Qed.

(** The state in which the protocol gets the packet. *)
Definition delivered s (p : Z) (b : pbuf) (a : Z) (o : nat) (inp src dest : Z) : ip4 X H :=
  mk_ip4 (ip_id s) (mk_ip_globals (Some inp) (Some inp) (Some (a, Z.of_nat o)) 20 src dest) (around s)
    (set_pbufs (<[p := stripped b a o]> (pbufs (stack s))) (stack s)).

Lemma input_delivers s p b a o bs tos id ttl proto src dest inp :
  starts_with s p b a o bs (ip_header tos (tot_len b) id ttl proto src dest) ->
  is_byte tos -> is_word id -> is_byte ttl -> is_byte proto -> is_addr src -> is_addr dest ->
  ip4_input_netif (nif inp) dest = true -> source_ok inp src ->
  ip4_input base nif netif_default p inp s =
    let* s := to_protocol base nif netif_default p inp 20 proto (delivered s p b a o inp src dest) in
    Ok (ERR_OK, set_ip_data no_packet s).
Proof.
  intros Hst Htos Hid Httl Hproto Hsrc Hdest Hacc Hsok. set (h := ip_header _ _ _ _ _ _ _) in *.
  assert (Hword : is_word (tot_len b)) by (destruct Hst as [_ _ _ _ Hlen Hmax _ _]; unfold is_word; lia).
  assert (Haddr : forall x, is_addr x -> le_val (le_bytes 4 x) = x)
    by (intros x Hx; rewrite le_val_bytes; apply Z.mod_small; exact Hx).
  assert (Hl2 : slice 2 2 h = le_bytes 2 (lwip_htons (tot_len b))).
  { destruct (word_bytes _ Hword). unfold is_word, is_byte in *. rewrite htons_arith by lia.
    symmetry. apply (le_bytes_val [tot_len b / 256; tot_len b mod 256]). repeat constructor; lia. }
  destruct (input_header_ok s p b a o bs h inp Hst eq_refl eq_refl Hl2) as (v&Hvr&Hvc&->).
  assert (Hsum : congr (le_val h) 65535) by (by apply header_sum).
  assert (v = 0) as -> by (assert (65535 - v = 65535) by (apply congr_word; [lia..|by etrans]); lia).
  change (0 =? 0) with true. cbn [negb].
  change (le_val (slice 12 4 h)) with (le_val (le_bytes 4 src)). change (le_val (slice 16 4 h)) with (le_val (le_bytes 4 dest)).
  rewrite !Haddr by done. cbv zeta. rewrite accept_ok by done. cbn [rbind negb].
  change (Z.land (le_val (slice 6 2 h)) (PP_HTONS (Z.lor IP_OFFMASK IP_MF)) =? 0) with true. cbn [negb].
  destruct (starts_view _ _ _ _ _ _ _ Hst) as (Hv&Hl&Hok). destruct Hst as [Hb Hpay Ha Hbs Hlen Hmax Hroom Hsl].
  assert (Hlh : length h = 20%nat) by done. rewrite Hlh in Hlen.
  unfold ip4_deliver, on_stack_r. cbn [stack set_ip_data]. rewrite Hv at 1.
  rewrite (view_ld _ a o bs h _ 0 1 0) by (rewrite ?Hlh; (done || lia)). cbn [rbind].
  rewrite (strip_ok _ p b a o Hb Hpay) by (done || lia). cbn [rbind].
  assert (Hld : ld (set_pbufs (<[p := stripped b a o]> (pbufs (stack s))) (stack s)) (Some (a, Z.of_nat o)) 9 1 = Ok proto).
  { change (ld (stack s) (Some (a, Z.of_nat o)) 9 1 = Ok proto). rewrite Hv, (view_ld _ a o bs h _ 9 1 9) by (rewrite ?Hlh; (done || lia)).
    change (le_val (slice 9 (Z.to_nat 1) h)) with (proto + 256 * 0). f_equal. lia. }
  cbn [stack set_stack]. rewrite Hld. cbn [rbind]. change (IPH_HL_BYTES (le_val (slice 0 (Z.to_nat 1) h))) with 20.
  unfold delivered. destruct (to_protocol _ _ _ _ _ _ _ _); done.
Qed.

(** A byte of a header that is neither the version nor the length. *)
Lemma input_damaged s p b a o bs tos id ttl proto src dest inp i x :
  starts_with s p b a o bs (splice i [x] (ip_header tos (tot_len b) id ttl proto src dest)) ->
  is_byte tos -> is_word id -> is_byte ttl -> is_byte proto -> is_addr src -> is_addr dest -> is_byte x ->
  (i < 20)%nat -> i <> 0%nat -> i <> 2%nat -> i <> 3%nat ->
  slice i 1 (ip_header tos (tot_len b) id ttl proto src dest) <> [x] ->
  ip4_input base nif netif_default p inp s = let* s := drop_packet p s in Ok (ERR_OK, s).
Proof.
  intros Hst Htos Hid Httl Hproto Hsrc Hdest Hx Hi H0i H2i H3i Hne.
  assert (Hword : is_word (tot_len b)) by (destruct Hst as [_ _ _ _ Hlen Hmax _ _]; unfold is_word; lia).
  set (h := ip_header _ _ _ _ _ _ _) in *.
  assert (Hl2 : slice 2 2 h = le_bytes 2 (lwip_htons (tot_len b))).
  { destruct (word_bytes _ Hword). unfold is_word, is_byte in *. rewrite htons_arith by lia.
    symmetry. apply (le_bytes_val [tot_len b / 256; tot_len b mod 256]). repeat constructor; lia. }
  assert (Hlh : length h = 20%nat) by done.
  destruct (input_header_ok s p b a o bs (splice i [x] h) inp Hst) as (v&Hvr&Hvc&->).
  - rewrite length_splice; [done|cbn [length]; lia].
  - rewrite slice_splice_disj; [done|cbn [length]; lia|cbn [length]; lia].
  - rewrite slice_splice_disj; [done|cbn [length]; lia|cbn [length]; lia].
  - destruct (Z.eqb_spec v 0) as [->|]; [|done]. exfalso. apply Hne. apply (changed_sum i x h); [lia|done|by apply header_ok| |].
    + by apply header_sum.
    + rewrite Z.sub_0_r in Hvc. by symmetry.
Qed.
End receiving.

(** ** The theorems *)

(** C31. [ip4_output] of a packet with room for the header in front (without,
    it returns ERR_BUF, which is not covered here).  Without a route it changes
    nothing and reports it.  With a route, the packet goes to the interface, or to fragmentation when it is
    longer than the interface takes, with exactly the header of RFC 791 in front:
    the checksum that the code sums up while it writes the fields is the one of
    RFC 1071, an absent or null source is replaced by the interface's address, the
    identification counts up, and a receiver's checksum over the header is zero. *)
Theorem ip4_output_header {X H} `{MemHeap H} `{!Neighbours X H} base nif netif_default
    (s : ip4 X H) p b a o bs src dest ttl tos proto :
  pbufs (stack s) !! p = Some b -> contiguous_pbuf b -> payload b = Some (a, Z.of_nat o) ->
  areas (stack s) !! a = Some bs -> (20 <= o <= length bs)%nat -> 0 <= len b <= tot_len b -> tot_len b + 20 < 65536 ->
  is_word (ip_id s) -> is_byte ttl -> is_byte tos -> is_byte proto -> is_addr dest ->
  (ip4_route nif netif_default dest = None ->
     ip4_output nif netif_default p src dest ttl tos proto s = Ok (ERR_RTE, s)) /\
  (forall np, ip4_route nif netif_default dest = Some np ->
     let used := match src with
                 | Some x => if ip4_addr_isany x then ip_addr (nif np) else x
                 | None => ip_addr (nif np)
                 end in
     is_addr used ->
     let s' := sent s p b a o bs (ip_header tos (tot_len b + 20) (ip_id s) ttl proto used dest) in
     ip4_output nif netif_default p src dest ttl tos proto s = transmit nif np p dest (tot_len b + 20) s' /\
     inet_chksum base (stack s') (Some (a, Z.of_nat (o - 20))) 20 = Ok 0).
Proof.
  intros Hb Hcont Hpay Ha Ho Hlen Htot Hid Httl Htos Hproto Hdest. split; [unfold ip4_output; by intros ->|].
  intros np Hnp used Hused s'. split.
  - unfold ip4_output, ip4_output_if. rewrite Hnp. replace (if isany_ptr src then _ else _) with (Some used)
      by (unfold used, isany_ptr; destruct src as [x|]; [by destruct (ip4_addr_isany x)|done]).
    by apply output_if_src_ok.
  - assert (Hword : is_word (tot_len b + 20)) by (unfold is_word; lia).
    set (h := ip_header tos (tot_len b + 20) (ip_id s) ttl proto used dest) in *.
    destruct (view_chksum base (set_pbufs (<[p := with_header IP_HLEN b a (Z.of_nat o)]> (pbufs (stack s))) (stack s))
                a (o - 20) bs h (Z.of_nat (o - 20)) 0 20) as (v&Hv&Hvr&Hc); [cbn [length]; change (length h) with 20%nat; lia|lia|done| |lia|].
    + by apply header_ok.
    + change (slice 0 20 h) with h in Hc.
      assert (Hsum : congr (le_val h) 65535) by (by apply header_sum).
      assert (v = 0) as -> by (assert (65535 - v = 65535) by (apply congr_word; [lia..|by etrans]); lia). exact Hv.
Qed.

(** C32. A packet that [ip4_output_if_src] has given its header is accepted by
    [ip4_input] on an interface with the destination address: the header is taken
    off again, so that the packet is as it was before, and it is handed to its
    protocol with both addresses, after which the globals are cleared. *)
Theorem ip4_roundtrip {X H} `{MemHeap H} `{!Neighbours X H, !Receivers X H} base nif netif_default
    (s : ip4 X H) p b a o bs src dest ttl tos proto inp :
  pbufs (stack s) !! p = Some b -> contiguous_pbuf b -> payload b = Some (a, Z.of_nat o) ->
  areas (stack s) !! a = Some bs -> bytes_ok bs -> (20 <= o)%nat -> (o + Z.to_nat (len b) <= length bs)%nat ->
  0 <= len b <= tot_len b -> tot_len b + 20 < 65536 ->
  is_word (ip_id s) -> is_byte ttl -> is_byte tos -> is_byte proto -> is_addr src -> is_addr dest ->
  ip4_input_netif (nif inp) dest = true -> source_ok nif inp src ->
  let hdr := ip_header tos (tot_len b + 20) (ip_id s) ttl proto src dest in
  exists s', ip4_output_if_src nif p (Some src) (Some dest) ttl tos proto inp s =
      transmit nif inp p dest (tot_len b + 20) s' /\
    ip4_input base nif netif_default p inp s' =
      let* s2 := to_protocol base nif netif_default p inp 20 proto
                   (mk_ip4 (wrap16 (ip_id s + 1)) (mk_ip_globals (Some inp) (Some inp) (Some (a, Z.of_nat (o - 20))) 20 src dest)
                      (around s) (view (stack s) a (o - 20) bs hdr)) in
      Ok (ERR_OK, set_ip_data no_packet s2).
Proof.
  intros Hb Hcont Hpay Ha Hbs Ho Hroom Hlen Htot Hid Httl Htos Hproto Hsrc Hdest Hacc Hsok hdr.
  exists (sent s p b a o bs hdr). split; [apply output_if_src_ok; try done; lia|].
  set (b1 := with_header IP_HLEN b a (Z.of_nat o)).
  assert (Htl : tot_len b1 = tot_len b + 20) by done. assert (Hlh : length hdr = 20%nat) by done.
  assert (Hword : is_word (tot_len b + 20)) by (unfold is_word; lia).
  assert (Hst : starts_with (sent s p b a o bs hdr) p b1 a (o - 20) (splice (o - 20) hdr bs) hdr).
  { split.
    - apply lookup_insert_eq.
    - cbn. f_equal. f_equal. unfold IP_HLEN. lia.
    - apply lookup_insert_eq.
    - apply bytes_ok_splice; [|done]. by apply header_ok.
    - rewrite Hlh, Htl. change (len b1) with (len b + 20). lia.
    - rewrite Htl. lia.
    - change (len b1) with (len b + 20). rewrite length_splice; lia.
    - rewrite Hlh. apply slice_splice_same; lia. }
  rewrite (input_delivers base nif netif_default _ _ b1 _ _ _ tos (ip_id s) ttl proto src dest inp Hst) by done.
  unfold delivered, sent. cbn [ip_id around stack]. f_equal. f_equal. f_equal. unfold view.
  cbn [pbufs areas set_pbufs set_areas]. rewrite insert_insert_eq.
  assert (Hback : stripped b1 a (o - 20) = b).
  { unfold stripped, b1, with_header, IP_HLEN. destruct b. cbn in *. unfold set_tot_len, set_len, set_payload. cbn.
    f_equal; [rewrite Hpay; f_equal; f_equal; lia|lia|lia]. }
  rewrite Hback, insert_id by done. by destruct (stack s).
Qed.

(** A packet in whose header one byte other than the version and the length
    has changed since it was sent is dropped: it is freed and nothing else
    happens. *)
Theorem ip4_damage_dropped {X H} `{MemHeap H} `{!Neighbours X H, !Receivers X H} base nif netif_default
    (s : ip4 X H) p b a o bs tos id ttl proto src dest inp i x :
  is_byte tos -> is_word id -> is_byte ttl -> is_byte proto -> is_addr src -> is_addr dest -> is_byte x ->
  (i < 20)%nat -> i <> 0%nat -> i <> 2%nat -> i <> 3%nat ->
  slice i 1 (ip_header tos (tot_len b) id ttl proto src dest) <> [x] ->
  starts_with s p b a o bs (splice i [x] (ip_header tos (tot_len b) id ttl proto src dest)) ->
  ip4_input base nif netif_default p inp s = let* s := drop_packet p s in Ok (ERR_OK, s).
Proof. intros. by eapply (input_damaged base nif netif_default s p b a o bs tos id ttl proto src dest inp i x). Qed.

(** ** Witnesses *)

(** The packets handed to the interface and to the protocols. *)
#[export] Instance log_neighbours : Neighbours (list (Z * Z)) unit := {|
  netif_output np p dest s := Ok (ERR_OK, mk_ip4 (ip_id s) (ip_data s) (around s ++ [(p, dest)]) (stack s));
  ip4_frag p np dest s := Ok (ERR_OK, s)
|}.
#[export] Instance log_receivers : Receivers (list (Z * Z)) unit := {|
  ip4_reass p s := Ok (None, s);
  udp_input p inp s := Ok (mk_ip4 (ip_id s) (ip_data s) (around s ++ [(p, 17)]) (stack s));
  tcp_input p inp s := Ok (mk_ip4 (ip_id s) (ip_data s) (around s ++ [(p, 6)]) (stack s))
|}.

(** 10.0.0.1/24, with a UDP packet of eight bytes in the buffer 1. *)
Definition host_nif (_ : Z) : netif :=
  mk_netif 1500 [2; 0; 0; 0; 0; 1] 6 (Z.lor (Z.lor NETIF_FLAG_UP NETIF_FLAG_BROADCAST) NETIF_FLAG_LINK_UP) (101, 48) 0
    0x0100000a 0x00ffffff 0.
Definition eight : pbuf := mk_pbuf None (Some (1, Z.of_nat 40)) 8 8 0x80 0 1 0.
Definition memory (h : list Z) : lwip unit :=
  mk_lwip {[1 := eight]} {[1 := splice 20 h (replicate 48 0)]} None None false [] tt.
Definition host (h : list Z) : ip4 (list (Z * Z)) unit := mk_ip4 7 no_packet [] (memory h).
Definition at_zero (_ : Z) : Z := 0.

Lemma ip4_output_header_witness :
  ip4_output host_nif (Some 0) 1 None 0x0200000a 255 0 17 (host []) =
  Ok (ERR_OK, mk_ip4 8 no_packet [(1, 0x0200000a)]
                (stack (sent (host []) 1 eight 1 40 (replicate 48 0) (ip_header 0 28 7 255 17 0x0100000a 0x0200000a)))).
Proof.
  destruct (ip4_output_header at_zero host_nif (Some 0) (host []) 1 eight 1 40 (replicate 48 0) None 0x0200000a 255 0 17)
    as [_ Hok]; try reflexivity; try (cbn; unfold is_word, is_byte, is_addr; lia); try done.
Defined.

Lemma ip4_roundtrip_witness :
  exists s', ip4_output_if_src host_nif 1 (Some 0x0200000a) (Some 0x0100000a) 255 0 17 0 (host []) =
      transmit host_nif 0 1 0x0100000a 28 s' /\
    exists s2, ip4_input at_zero host_nif (Some 0) 1 0 s' = Ok (ERR_OK, s2) /\ around s2 = [(1, 17)].
Proof.
  destruct (ip4_roundtrip at_zero host_nif (Some 0) (host []) 1 eight 1 40 (replicate 48 0) 0x0200000a 0x0100000a 255 0 17 0)
    as (s'&Hsend&Hrecv);
    [first [reflexivity|apply Forall_replicate; lia|cbn; unfold is_word, is_byte, is_addr; lia|by right|done]..|].
  exists s'. split; [exact Hsend|]. eexists. rewrite Hrecv. split; reflexivity.
Defined.

(** The time to live has changed. *)
Definition damaged : list Z := splice 8 [254] (ip_header 0 28 7 255 17 0x0200000a 0x0100000a).
Definition arrived : pbuf := mk_pbuf None (Some (1, Z.of_nat 20)) 28 28 0x80 0 2 0.
Definition damaged_host : ip4 (list (Z * Z)) unit :=
  mk_ip4 7 no_packet [] (mk_lwip {[1 := arrived]} {[1 := splice 20 damaged (replicate 48 0)]} None None false [] tt).

Lemma ip4_damage_dropped_witness :
  exists s2, ip4_input at_zero host_nif (Some 0) 1 0 damaged_host = Ok (ERR_OK, s2) /\ around s2 = [].
Proof.
  rewrite (ip4_damage_dropped at_zero host_nif (Some 0) damaged_host 1 arrived 1 20 (splice 20 damaged (replicate 48 0))
             0 7 255 17 0x0200000a 0x0100000a 0 8 254); try (unfold is_word, is_byte, is_addr; lia); try done.
  - eexists. split; reflexivity.
  - split; try reflexivity; try (cbn; lia). vm_compute. repeat constructor; congruence.
Defined.
