(* ===== verification/IcmpProps.v ===== *)
(** * Echo requests

    What [Icmp] makes of an echo request: the bytes of the answer against a
    reference, and the checksums a receiver of the answer computes. *)

From stdpp Require Import base numbers list decidable gmap.
From Stdlib Require Import ZArith Lia Bool.
From S2P Require Import Prelude Linked LwipMem Pbuf PbufChain PbufProps OnesComp InetChksum InetChksumProps PbufView Ip4Addr Ethernet Ip4 Icmp Ip4Input Ip4Props.
Open Scope Z_scope.

(** ** The reference *)

(** The answer's IP header: addresses exchanged, a new time to live, and the
    checksum of RFC 1071. *)
Definition reply_header (hd : list Z) (src dest : Z) : list Z :=
  let h0 := splice 10 [0; 0] (splice 8 [ICMP_TTL] (splice 16 (le_bytes 4 dest) (splice 12 (le_bytes 4 src) hd))) in
  splice 10 (rfc1071 h0) h0.

(** The message with another type and the checksum adjusted. *)
Definition reply_message (c : list Z) : list Z :=
  splice 2 (le_bytes 2 (echo_chksum (le_val (slice 2 2 c)))) (splice 0 [ICMP_ER] c).

(** ** The adjusted checksum *)

Lemma echo_chksum_cases v : 0 <= v <= 65535 ->
  (v <= 0xfff7 /\ echo_chksum v = v + 8) \/ (0xfff7 < v /\ echo_chksum v = v + 9 - 65536).
Proof.
  intros Hv. unfold echo_chksum. change (PP_HTONS (0xffff - Z.shiftl ICMP_ECHO 8)) with 0xfff7.
  change (PP_HTONS (Z.shiftl ICMP_ECHO 8)) with 8. destruct (Z.ltb_spec 0xfff7 v) as [Hlt|Hge]; [right|left]; (split; [done|]).
  - unfold wrap. change (2 ^ 16) with 65536. symmetry. apply (Z.mod_unique _ _ 1); lia.
  - apply wrap16_small. lia.
Qed.

Lemma reply_message_sum c rest : (4 <= length c)%nat -> bytes_ok c -> bytes_ok rest -> slice 0 1 c = [ICMP_ECHO] ->
  congr (le_val (c ++ rest)) 65535 -> congr (le_val (reply_message c ++ rest)) 65535 /\ bytes_ok (reply_message c).
Proof.
  intros Hl Hb Hr H8 Hc. set (v := le_val (slice 2 2 c)).
  assert (Hv : 0 <= v <= 65535).
  { pose proof (le_val_range (slice 2 2 c) ltac:(by apply Forall_take, Forall_drop)) as Hrg.
    rewrite length_slice in Hrg by lia. change (2 ^ (8 * Z.of_nat 2)) with 65536 in Hrg. unfold v. lia. }
  assert (Hok : bytes_ok (reply_message c)).
  { apply bytes_ok_splice; [apply bytes_ok_le_bytes|]. apply bytes_ok_splice; [|done]. repeat constructor; unfold ICMP_ER; lia. }
  split; [|done].
  assert (Hval : le_val (reply_message c) = le_val c - 8 + 65536 * (echo_chksum v - v)).
  { unfold reply_message. fold v. rewrite le_val_splice by (rewrite length_splice; cbn [length]; rewrite ?length_le_bytes; lia).
    rewrite length_le_bytes. rewrite slice_splice_disj by (cbn [length]; lia).
    rewrite le_val_splice by (cbn [length]; lia). cbn [length]. rewrite H8.
    rewrite le_val_bytes, Z.mod_small by (destruct (echo_chksum_cases v Hv) as [[? ->]|[? ->]]; cbn; lia).
    fold v. change (256 ^ Z.of_nat 2) with 65536. change (256 ^ Z.of_nat 0) with 1. unfold ICMP_ER, ICMP_ECHO. cbn [le_val]. lia. }
  assert (Hlen : length (reply_message c) = length c).
  { unfold reply_message. rewrite length_splice; rewrite length_splice; cbn [length]; rewrite ?length_le_bytes; lia. }
  assert (Hpos : 0 < le_val (reply_message c)).
  { unfold reply_message. fold v. set (x := splice 0 [ICMP_ER] c).
    assert (Hx : bytes_ok x) by (apply bytes_ok_splice; [repeat constructor; unfold ICMP_ER; lia|done]).
    assert (Hlx : length x = length c) by (apply length_splice; cbn [length]; lia).
    unfold splice. rewrite !le_val_app, length_take, le_val_bytes, Z.mod_small by
      (destruct (echo_chksum_cases v Hv) as [[? ->]|[? ->]]; cbn; lia).
    rewrite Nat.min_l by lia. change (256 ^ Z.of_nat 2) with 65536.
    pose proof (le_val_nonneg (take 2 x) ltac:(by apply Forall_take)).
    pose proof (le_val_nonneg (drop (2 + length (le_bytes 2 (echo_chksum v))) x) ltac:(by apply Forall_drop)).
    assert (0 < 256 ^ Z.of_nat (length (le_bytes 2 (echo_chksum v)))) by (apply Z.pow_pos_nonneg; lia).
    destruct (echo_chksum_cases v Hv) as [[? Hev]|[? Hev]]; rewrite Hev in *; nia. }
  rewrite le_val_app in *. rewrite Hlen. destruct Hc as (Hn&_&Hm&_). change (65535 mod 65535) with 0 in Hm.
  pose proof (le_val_nonneg _ Hr) as Hrn.
  assert (0 < 256 ^ Z.of_nat (length c)) by (apply Z.pow_pos_nonneg; lia).
  set (R := 256 ^ Z.of_nat (length c) * le_val rest) in *. assert (0 <= R) by (unfold R; nia).
  split; [lia|]. split; [lia|]. split; [|lia]. change (65535 mod 65535) with 0. rewrite Hval.
  destruct (echo_chksum_cases v Hv) as [[? ->]|[? ->]].
  - replace (le_val c - 8 + 65536 * (v + 8 - v) + R) with (le_val c + R + 8 * 65535) by lia. by rewrite Z.mod_add.
  - replace (le_val c - 8 + 65536 * (v + 9 - 65536 - v) + R) with (le_val c + R + (9 - 65537) * 65535) by lia.
    by rewrite Z.mod_add.
Qed.

(** ** The answer *)

Section echo.
Context {X H : Type} `{MemHeap H} `{!Neighbours X H}.
Context (base : Z -> Z) (nif : Z -> netif).
Implicit Types (s : ip4 X H).

(** A message in the buffer [p] with [hl] bytes of header in front of it. *)
Record message s (p : Z) (b : pbuf) (a : Z) (o hl : nat) (bs : list Z) : Prop := {
  message_pbuf : pbufs (stack s) !! p = Some b;
  message_contiguous : contiguous_pbuf b;
  message_payload : payload b = Some (a, Z.of_nat o);
  message_area : areas (stack s) !! a = Some bs;
  message_bytes : bytes_ok bs;
  message_header : (20 <= hl <= o)%nat;
  message_len : 4 <= len b <= tot_len b;
  message_max : tot_len b + Z.of_nat hl < 65536;
  message_room : (o + Z.to_nat (len b) <= length bs)%nat
}.

(** The state in which the answer is sent. *)
Definition answered s (p : Z) (b : pbuf) (a : Z) (o hl : nat) (bs : list Z) (src dest : Z) : ip4 X H :=
  set_stack (view (set_pbufs (<[p := with_header (Z.of_nat hl) b a (Z.of_nat o)]> (pbufs (stack s))) (stack s)) a (o - hl) bs
               (reply_header (slice (o - hl) hl bs) src dest ++ reply_message (slice o (Z.to_nat (len b)) bs))) s.

Lemma length_reply_header hd src dest : (20 <= length hd)%nat -> length (reply_header hd src dest) = length hd.
Proof.
  intros Hl. unfold reply_header. repeat (apply length_field; [|cbn [length]; rewrite ?length_le_bytes; cbn; lia]). done.
Qed.

Lemma reply_header_dest hd src dest : (20 <= length hd)%nat -> slice 16 4 (reply_header hd src dest) = le_bytes 4 dest.
Proof.
  intros Hl. unfold reply_header. set (h1 := splice 12 (le_bytes 4 src) hd).
  assert (H1 : length h1 = length hd) by (by apply length_field; [|rewrite length_le_bytes; lia]).
  set (h2 := splice 16 (le_bytes 4 dest) h1).
  assert (H2 : length h2 = length hd) by (by apply length_field; [|rewrite length_le_bytes; lia]).
  set (h3 := splice 8 [ICMP_TTL] h2). assert (H3 : length h3 = length hd) by (by apply length_field; [|cbn; lia]).
  set (h4 := splice 10 [0; 0] h3). assert (H4 : length h4 = length hd) by (by apply length_field; [|cbn; lia]).
  rewrite slice_splice_disj by (cbn; lia). unfold h4. rewrite slice_splice_disj by (cbn; lia).
  unfold h3. rewrite slice_splice_disj by (cbn; lia). apply slice_splice_same; [done|lia].
Qed.

Lemma echo_answer_ok s t p b1 a o hl bs hd c src np z :
  length hd = hl -> (20 <= hl)%nat -> (4 <= length c)%nat -> (o + (hl + length c) <= length bs)%nat ->
  bytes_ok hd -> bytes_ok c -> Z.of_nat hl < 65536 ->
  pbufs t !! p = Some b1 -> payload b1 = Some (a, Z.of_nat o) -> 20 <= len b1 -> z = Z.of_nat (o + hl) ->
  is_addr (current_iphdr_src (ip_data s)) ->
  echo_answer base nif p (Some (a, Z.of_nat o)) (Some (a, z)) (Z.of_nat hl) src np (set_stack (view t a o bs (hd ++ c)) s) =
  let* (_, s) := transmit nif np p (current_iphdr_src (ip_data s)) (tot_len b1)
                   (set_stack (view t a o bs (reply_header hd src (current_iphdr_src (ip_data s)) ++ reply_message c)) s) in
  Ok s.
Proof.
  intros Hhd Hhl Hc Hl Hbh Hbc Hmax Hb1 Hpay Hlen -> Haddr. set (n := (hl + length c)%nat) in *.
  assert (Hn : length (hd ++ c) = n) by (rewrite length_app; lia).
  unfold echo_answer. field n 12%nat. cbn [ip_data set_stack]. set (dst := current_iphdr_src (ip_data s)) in *.
  field n 16%nat. field n hl.
  set (hd1 := splice 16 (le_bytes 4 dst) (splice 12 (le_bytes 4 src) hd)).
  assert (Hl1 : length hd1 = hl) by (unfold hd1; field_length).
  assert (Hw1 : splice hl [ICMP_ER] (splice 16 (le_bytes 4 dst) (splice 12 (le_bytes 4 src) (hd ++ c))) =
                hd1 ++ splice 0 [ICMP_ER] c).
  { rewrite (splice_app_l 12), (splice_app_l 16) by (rewrite ?length_splice by (rewrite length_le_bytes; lia); rewrite length_le_bytes; lia).
    fold hd1. rewrite <- Hl1, <- (Nat.add_0_r (length hd1)). apply splice_app_r. }
  rewrite Hw1. set (c1 := splice 0 [ICMP_ER] c) in *.
  assert (Hlc1 : length c1 = length c) by (apply length_splice; cbn [length]; lia).
  cbn [stack set_stack]. rewrite (view_ld t a o bs _ _ 2 2 (hl + 2)) by (rewrite ?length_app, ?Hl1, ?Hlc1; lia). cbn [rbind].
  assert (Hs1 : slice (hl + 2) (Z.to_nat 2) (hd1 ++ c1) = slice 2 2 c).
  { rewrite <- Hl1, slice_app_r. unfold c1. rewrite slice_splice_disj; [done|cbn [length]; lia..]. }
  rewrite Hs1. assert (Hn1 : length (hd1 ++ c1) = n) by (rewrite length_app; lia).
  field n (hl + 2)%nat.
  assert (Hw2 : splice (hl + 2) (le_bytes 2 (echo_chksum (le_val (slice 2 2 c)))) (hd1 ++ c1) = hd1 ++ reply_message c)
    by (rewrite <- Hl1; apply splice_app_r).
  rewrite Hw2. assert (Hn2 : length (hd1 ++ reply_message c) = n) by (rewrite <- Hw2; field_length).
  field n 8%nat. field n 10%nat. clear Hw1 Hs1 Hw2 Hn1.
  change (le_bytes 2 0) with [0; 0].
  set (hd2 := splice 10 [0; 0] (splice 8 [ICMP_TTL] hd1)).
  assert (Hl2 : length hd2 = hl) by (unfold hd2; field_length).
  assert (Hw3 : splice 10 [0; 0] (splice 8 [ICMP_TTL] (hd1 ++ reply_message c)) = hd2 ++ reply_message c).
  { rewrite (splice_app_l 8), (splice_app_l 10); [done|..]; rewrite ?length_splice; cbn [length]; lia. }
  rewrite Hw3. cbn [stack set_stack].
  assert (Hn3 : length (hd2 ++ reply_message c) = n) by (rewrite length_app in *; lia).
  assert (Hb2 : bytes_ok hd2).
  { unfold hd2, hd1. repeat apply bytes_ok_splice; try apply bytes_ok_le_bytes; try done; repeat constructor; unfold ICMP_TTL; lia. }
  assert (Hbm : bytes_ok (reply_message c)).
  { repeat apply bytes_ok_splice; try apply bytes_ok_le_bytes; try done; repeat constructor; unfold ICMP_ER; lia. }
  destruct (view_chksum base t a o bs (hd2 ++ reply_message c) (Z.of_nat o) 0 hl) as (v&->&Hvr&Hvc);
    [lia|lia|lia|by apply Forall_app|lia|]. cbn [rbind].
  rewrite slice_app_l in Hvc by done.
  rewrite (rfc1071_word hd2 v Hb2 Hvr Hvc).
  assert (Hr2 : length (rfc1071 hd2) = 2%nat) by done.
  rewrite (on_stack_st _ _ _ _ _ _ _ _ 10) by (rewrite ?Hn3, ?Hr2; lia). cbn [rbind].
  rewrite splice_app_l by (rewrite Hr2; lia). fold hd2.
  change (splice 10 (rfc1071 hd2) hd2) with (reply_header hd src dst).
  assert (Hlr : length (reply_header hd src dst) = hl) by (rewrite <- Hhd; apply length_reply_header; lia).
  unfold ip4_output_if, ip4_output_if_src. cbn [stack set_stack]. rewrite (deref_ok _ p b1) by exact Hb1. cbn [rbind].
  destruct (Z.ltb_spec (len b1) IP_HLEN); [unfold IP_HLEN in *; lia|]. rewrite Hpay.
  rewrite (view_ld t a o bs _ _ 16 4 16) by (rewrite ?length_app, ?Hlr in *; lia). cbn [rbind].
  rewrite slice_app_in by (rewrite Hlr; lia).
  change (Z.to_nat 4) with 4%nat. rewrite (reply_header_dest hd src dst) by lia.
  rewrite le_val_bytes, Z.mod_small by exact Haddr. cbn [stack set_stack].
  rewrite (deref_ok _ p b1) by exact Hb1. done.
Qed.

Lemma with_header_payload b a o hl : (hl <= o)%nat ->
  payload (with_header (Z.of_nat hl) b a (Z.of_nat o)) = Some (a, Z.of_nat (o - hl)).
Proof. intros Hl. cbn. f_equal. f_equal. lia. Qed.

Lemma echo_reply_ok s p b a o hl bs src np : message s p b a o hl bs -> is_addr (current_iphdr_src (ip_data s)) ->
  echo_reply base nif p (Z.of_nat hl) src np s =
  let* (_, s) := transmit nif np p (current_iphdr_src (ip_data s)) (tot_len b + Z.of_nat hl)
                   (answered s p b a o hl bs src (current_iphdr_src (ip_data s))) in
  Ok s.
Proof.
  intros [Hb Hcont Hpay Ha Hbs Hhl Hlen Hmax Hroom] Haddr. unfold echo_reply, on_stack_r.
  rewrite (deref_ok _ _ _ Hb). cbn [rbind].
  rewrite (add_header_ok (stack s) p b a (Z.of_nat o) (Z.of_nat hl) Hb Hcont Hpay) by lia. cbn [rbind].
  rewrite Z.eqb_refl. cbn [negb]. set (b1 := with_header (Z.of_nat hl) b a (Z.of_nat o)).
  set (t := set_pbufs (<[p := b1]> (pbufs (stack s))) (stack s)).
  assert (Hb1 : pbufs t !! p = Some b1) by apply lookup_insert_eq. cbn [stack set_stack].
  rewrite (deref_ok _ p b1) by exact Hb1. cbn [rbind]. unfold b1 at 1. rewrite with_header_payload, Hpay by lia.
  set (n := Z.to_nat (len b)). set (hd := slice (o - hl) hl bs). set (c := slice o n bs).
  assert (Hopen : t = view t a (o - hl) bs (hd ++ c)).
  { unfold hd, c. replace o with (o - hl + hl)%nat at 3 by lia. rewrite <- slice_split. apply view_open; [exact Ha|]. unfold n. lia. }
  rewrite Hopen at 1. assert (Hlhd : length hd = hl) by (apply length_slice; lia).
  assert (Hlc : length c = n) by (apply length_slice; unfold n; lia).
  rewrite (echo_answer_ok s t p b1 a (o - hl) hl bs hd c src np); try done.
  - lia.
  - unfold n in *. lia.
  - unfold n in *. lia.
  - by apply Forall_take, Forall_drop.
  - by apply Forall_take, Forall_drop.
  - lia.
  - by apply with_header_payload; lia.
  - unfold b1. cbn. lia.
  - lia.
Qed.

(** There is room for the link header too. *)
Lemma echo_room_ok s p b a o hl bs iphdr_in : message s p b a o hl bs -> (hl + 14 <= o)%nat ->
  tot_len b + Z.of_nat hl + 14 < 65536 -> echo_room p iphdr_in (Z.of_nat hl) s = Ok (Some p, s).
Proof.
  intros [Hb Hcont Hpay Ha Hbs Hhl Hlen Hmax Hroom] Ho Htot. unfold echo_room, on_stack_r, PBUF_LINK_HLEN.
  set (n := Z.of_nat hl + 14).
  rewrite (add_header_ok (stack s) p b a (Z.of_nat o) n Hb Hcont Hpay) by (unfold n; lia). cbn [rbind].
  rewrite Z.eqb_refl. cbn [negb]. set (b1 := with_header n b a (Z.of_nat o)).
  set (t := set_pbufs (<[p := b1]> (pbufs (stack s))) (stack s)). cbn [stack set_stack].
  assert (Hb1 : pbufs t !! p = Some b1) by apply lookup_insert_eq.
  unfold pbuf_remove_header. destruct (Z.ltb_spec 65535 n); [unfold n in *; lia|].
  destruct (Z.eqb_spec n 0); [unfold n in *; lia|]. rewrite (deref_ok _ _ _ Hb1). cbn [rbind].
  rewrite (wrap16_small n) by (unfold n; lia). destruct (Z.leb_spec n (len b1)); [|unfold b1 in *; cbn in *; lia].
  cbn [negb]. change (payload b1) with (Some (a, Z.of_nat o - n)). cbn [not_null rbind].
  rewrite (assign_ok _ _ _ _ Hb1). cbn [rbind]. rewrite Z.eqb_refl. cbn [negb].
  change (tot_len b1) with (tot_len b + n). change (len b1) with (len b + n). rewrite !wrap16_small by (unfold n; lia).
  assert (Hback : set_tot_len (tot_len b + n - n) (set_len (len b + n - n) (set_payload (Some (a, Z.of_nat o - n + n)) b1)) = b).
  { rewrite !Z.add_simpl_r, Z.sub_add. unfold b1, with_header. destruct b. cbn in *. unfold set_tot_len, set_len, set_payload. cbn. by rewrite Hpay. }
  rewrite Hback. unfold t. cbn [pbufs set_pbufs]. rewrite insert_insert_eq, insert_id by done.
  do 2 f_equal. destruct s as [i d x st]. cbn. unfold set_stack. cbn. f_equal. by destruct st.
Qed.

(** The source of the answer. *)
Definition echo_source (np cur dest : Z) : Z :=
  if isbroadcast dest (nif cur) || ip4_addr_ismulticast dest then ip_addr (nif np) else dest.

Lemma icmp_echo_ok s p b a o hl bs np cur :
  message s p b a o hl bs -> (hl + 14 <= o)%nat -> tot_len b + Z.of_nat hl + 14 < 65536 -> 8 <= tot_len b ->
  current_ip4_header (ip_data s) = Some (a, Z.of_nat (o - hl)) -> current_netif (ip_data s) = Some cur ->
  is_addr (current_iphdr_src (ip_data s)) ->
  IPH_HL_BYTES (le_val (slice (o - hl) 1 bs)) = Z.of_nat hl -> slice o 1 bs = [ICMP_ECHO] ->
  inet_chksum_pbuf base (stack s) (Some p) = Ok 0 ->
  icmp_input base nif p np s =
    let* (_, s) := transmit nif np p (current_iphdr_src (ip_data s)) (tot_len b + Z.of_nat hl)
                     (answered s p b a o hl bs (echo_source np cur (current_iphdr_dest (ip_data s))) (current_iphdr_src (ip_data s))) in
    drop_packet p s.
Proof.
  intros Hm Ho Htot H8 Hhdr Hcur Haddr Hhl Htype Hck. destruct (Hm) as [Hb Hcont Hpay Ha Hbs Hhlo Hlen Hmax Hroom].
  unfold icmp_input. rewrite Hhdr.
  assert (Hld : forall k, (k + 1 <= length bs)%nat -> ld (stack s) (Some (a, Z.of_nat k)) 0 1 = Ok (le_val (slice k 1 bs))).
  { intros k Hk. rewrite (view_open (stack s) a k 1 bs Ha Hk) at 1.
    rewrite (view_ld (stack s) a k bs (slice k 1 bs) _ 0 1 0) by (rewrite ?length_slice; lia).
    unfold slice at 1. rewrite drop_0, take_ge; [done|]. rewrite length_slice; [done|lia]. }
  rewrite Hld by lia. cbn [rbind]. rewrite Hhl. destruct (Z.ltb_spec (Z.of_nat hl) IP_HLEN); [unfold IP_HLEN in *; lia|].
  rewrite (deref_ok _ _ _ Hb). cbn [rbind]. destruct (Z.ltb_spec (len b) (2 * 2)); [lia|].
  rewrite Hpay, Hld, Htype by lia. cbn [rbind]. change (le_val [ICMP_ECHO]) with 8.
  change (8 =? ICMP_ER) with false. change (8 =? ICMP_ECHO) with true. cbv iota. rewrite Hcur. cbn [not_null rbind].
  destruct (Z.ltb_spec (tot_len b) SIZEOF_ICMP_ECHO_HDR); [unfold SIZEOF_ICMP_ECHO_HDR in *; lia|].
  rewrite Hck. cbn [rbind]. change (0 =? 0) with true. cbn [negb].
  rewrite (echo_room_ok s p b a o hl bs) by done. cbn [rbind].
  replace (if isbroadcast _ _ then _ else _) with (echo_source np cur (current_iphdr_dest (ip_data s)))
    by (unfold echo_source; by destruct (isbroadcast _ _), (ip4_addr_ismulticast _)).
  rewrite (echo_reply_ok s p b a o hl bs) by done. destruct (transmit _ _ _ _ _ _) as [[e s']|]; done.
Qed.
End echo.

(** ** What the other side computes *)

Lemma congr_exists n : 0 <= n -> exists v, 0 <= v <= 65535 /\ congr (65535 - v) n.
Proof.
  intros Hn. destruct (Z.eq_dec n 0) as [->|Hne]; [exists 65535; split; [lia|by repeat split]|].
  pose proof (Z.mod_pos_bound (n - 1) 65535 ltac:(lia)). pose proof (Z.div_mod (n - 1) 65535 ltac:(lia)).
  exists (65535 - (1 + (n - 1) mod 65535)). split; [lia|]. symmetry. apply (congr_mod _ _ ((n - 1) / 65535)); lia.
Qed.

Lemma reply_header_sum hd src dest : (20 <= length hd)%nat -> bytes_ok hd ->
  congr (le_val (reply_header hd src dest)) 65535 /\ bytes_ok (reply_header hd src dest).
Proof.
  intros Hl Hb. unfold reply_header. set (h0 := splice 10 [0; 0] _).
  assert (Hl0 : length h0 = length hd) by (unfold h0; field_length).
  assert (Hb0 : bytes_ok h0).
  { unfold h0. repeat apply bytes_ok_splice; try apply bytes_ok_le_bytes; try done; repeat constructor; unfold ICMP_TTL; lia. }
  destruct (congr_exists (le_val h0)) as (v&Hv&Hc); [by apply le_val_nonneg|].
  rewrite <- (rfc1071_word h0 v Hb0 Hv Hc). split; [|apply bytes_ok_splice; [apply bytes_ok_le_bytes|done]].
  apply stored_sum; [done|lia| |done|done]. apply slice_splice_same; [done|].
  match goal with |- (_ <= length ?x)%nat => assert (length x = length hd) by field_length end. lia.
Qed.

(** The checksum of a packet is zero if its words add up to zero. *)
Lemma pbuf_chksum_congr {H} base (s : lwip H) p l cs : packet s p l cs -> Forall bytes_ok cs ->
  exists v, inet_chksum_pbuf base s p = Ok v /\ 0 <= v <= 65535 /\ congr (65535 - v) (le_val (concat cs)).
Proof.
  intros Hp Hcs. pose proof (packet_fuel _ _ _ _ Hp) as Hf.
  pose proof (le_val_nonneg (concat cs) ltac:(by apply Forall_concat)) as Hnn. unfold inet_chksum_pbuf.
  destruct (chksum_loop_ok base (chain_fuel s) s p l cs 0 false 0) as (acc&sw&->&Hst); [done|done|done|lia|by repeat split|].
  cbn [rbind]. eexists. split; [reflexivity|].
  apply stands_unswap in Hst as [Hr Hc]; [|cbn [factor]; lia]. cbn [factor] in Hc.
  rewrite land16, lnot16 by lia. split; [lia|]. rewrite Z.sub_sub_distr, Z.sub_diag. by rewrite !Z.mul_1_l in Hc.
Qed.

Section receiver.
Context {X H : Type} `{MemHeap H} `{!Neighbours X H}.

Lemma answered_header base (s : ip4 X H) p b a o hl bs src dest : message s p b a o hl bs ->
  inet_chksum base (stack (answered s p b a o hl bs src dest)) (Some (a, Z.of_nat (o - hl))) (Z.of_nat hl) = Ok 0.
Proof.
  intros [Hb Hcont Hpay Ha Hbs Hhl Hlen Hmax Hroom]. unfold answered. cbn [stack set_stack].
  set (hd := slice (o - hl) hl bs). set (c := slice o (Z.to_nat (len b)) bs).
  assert (Hlhd : length hd = hl) by (apply length_slice; lia).
  assert (Hlc : length c = Z.to_nat (len b)) by (apply length_slice; lia).
  assert (Hbh : bytes_ok hd) by (by apply Forall_take, Forall_drop).
  destruct (reply_header_sum hd src dest ltac:(lia) Hbh) as [Hsum Hok].
  assert (Hlr : length (reply_header hd src dest) = hl) by (rewrite length_reply_header; lia).
  assert (Hbc : bytes_ok c) by (by apply Forall_take, Forall_drop).
  assert (Hbm : bytes_ok (reply_message c)).
  { repeat apply bytes_ok_splice; try apply bytes_ok_le_bytes; try done; repeat constructor; unfold ICMP_ER; lia. }
  assert (Hlm : length (reply_message c) = length c).
  { unfold reply_message. repeat (apply length_field; [|cbn [length]; rewrite ?length_le_bytes; lia]). done. }
  destruct (view_chksum base (set_pbufs (<[p := with_header (Z.of_nat hl) b a (Z.of_nat o)]> (pbufs (stack s))) (stack s)) a (o - hl) bs
              (reply_header hd src dest ++ reply_message c) (Z.of_nat (o - hl)) 0 hl) as (v&->&Hvr&Hvc);
    [rewrite length_app; lia|lia|rewrite length_app; lia|by apply Forall_app|lia|].
  rewrite slice_app_l in Hvc by done. f_equal.
  assert (65535 - v = 65535) by (apply congr_word; [lia..|by etrans]). lia.
Qed.

(** The message, once the header has been taken off. *)
Lemma answered_message base (s : ip4 X H) p b a o hl bs src dest l cs :
  message s p b a o hl bs -> packet (stack s) (Some p) (p :: l) (slice o (Z.to_nat (len b)) bs :: cs) ->
  Forall bytes_ok cs -> separate (stack s) (p :: l) -> slice o 1 bs = [ICMP_ECHO] ->
  inet_chksum_pbuf base (stack s) (Some p) = Ok 0 ->
  let w := reply_header (slice (o - hl) hl bs) src dest ++ reply_message (slice o (Z.to_nat (len b)) bs) in
  packet (view (stack s) a (o - hl) bs w) (Some p) (p :: l) (reply_message (slice o (Z.to_nat (len b)) bs) :: cs) /\
  inet_chksum_pbuf base (view (stack s) a (o - hl) bs w) (Some p) = Ok 0.
Proof.
  intros [Hb Hcont Hpay Ha Hbs Hhl Hlen Hmax Hroom] Hpk Hcs Hsep Htype Hck w.
  set (c := slice o (Z.to_nat (len b)) bs) in *.
  assert (Hlc : length c = Z.to_nat (len b)) by (apply length_slice; lia).
  assert (Hbc : bytes_ok c) by (by apply Forall_take, Forall_drop).
  assert (Hlm : length (reply_message c) = length c).
  { unfold reply_message. repeat (apply length_field; [|cbn [length]; rewrite ?length_le_bytes; lia]). done. }
  assert (Hlr : length (reply_header (slice (o - hl) hl bs) src dest) = hl)
    by (rewrite length_reply_header; rewrite length_slice; lia).
  assert (Hlw : length w = (hl + Z.to_nat (len b))%nat) by (unfold w; rewrite length_app; lia).
  destruct (pbuf_chksum_congr base (stack s) (Some p) (p :: l) (c :: cs) Hpk) as (v&Hv&_&Hc); [by constructor|].
  rewrite Hck in Hv. injection Hv as <-. rewrite Z.sub_0_r in Hc. cbn [concat] in Hc.
  assert (Htype' : slice 0 1 c = [ICMP_ECHO]).
  { rewrite <- Htype. unfold c, slice. rewrite drop_0, take_take. f_equal. lia. }
  destruct (reply_message_sum c (concat cs)) as [Hsum Hbm]; [lia|done|by apply Forall_concat|done|by symmetry|].
  assert (Hpk' : packet (view (stack s) a (o - hl) bs w) (Some p) (p :: l) (reply_message c :: cs)).
  { pose proof (linked_nodup _ _ _ (packet_chain _ _ _ _ Hpk)) as [Hpl _]%NoDup_cons.
    destruct Hpk as [_ (b'&Hb'&Hl'&Ht'&Hm'&Hh'&Hrest)]. rewrite Hb in Hb'. injection Hb' as <-. split; [done|].
    exists b. split; [done|]. rewrite Hlm. split; [done|]. split; [cbn [concat] in *; by rewrite length_app, Hlm, <- length_app|].
    split; [done|]. split.
    - exists a, (Z.of_nat o), (splice (o - hl) w bs). split; [done|]. split; [apply lookup_insert_eq|]. split; [lia|].
      split; [rewrite length_splice; lia|]. unfold bytes_at. rewrite Nat2Z.id. replace o with (o - hl + hl)%nat at 1 by lia.
      rewrite slice_inside by lia. unfold w. rewrite <- Hlr at 1. rewrite <- (Nat.add_0_r (length (reply_header _ _ _))), slice_app_r.
      unfold slice. rewrite drop_0, take_ge; [done|lia].
    - apply (packet_ext (stack s)); [done| |done]. intros a' (q&c'&o'&Hq&Hc'&Hpay'). cbn. rewrite lookup_insert_ne; [done|].
      assert (p <> q) by (by intros <-).
      eapply (Hsep p q b c'); try done; set_solver. }
  split; [done|]. destruct (pbuf_chksum_congr base _ _ _ _ Hpk') as (v&->&Hvr&Hvc); [by constructor|].
  f_equal. cbn [concat] in Hvc. assert (65535 - v = 65535) by (apply congr_word; [lia..|by etrans]). lia.
Qed.
End receiver.

(** ** The theorem *)

(** C34. An echo request with a correct checksum, in a packet with room for the
    headers, is answered from the same packet, which is then freed: what goes to
    the sender is the request with both addresses exchanged (the interface's own
    address for a request to everybody), a new time to live and the type of an
    answer, whose IP checksum and whose adjusted ICMP checksum, over the whole
    chain of buffers, are zero for the receiver. *)
Theorem icmp_echo_answered {X H} `{MemHeap H} `{!Neighbours X H} base nif (s : ip4 X H) p b a o hl bs np cur l cs :
  message s p b a o hl bs -> (hl + 14 <= o)%nat -> tot_len b + Z.of_nat hl + 14 < 65536 -> 8 <= tot_len b ->
  current_ip4_header (ip_data s) = Some (a, Z.of_nat (o - hl)) -> current_netif (ip_data s) = Some cur ->
  is_addr (current_iphdr_src (ip_data s)) ->
  IPH_HL_BYTES (le_val (slice (o - hl) 1 bs)) = Z.of_nat hl -> slice o 1 bs = [ICMP_ECHO] ->
  packet (stack s) (Some p) (p :: l) (slice o (Z.to_nat (len b)) bs :: cs) -> Forall bytes_ok cs ->
  separate (stack s) (p :: l) -> inet_chksum_pbuf base (stack s) (Some p) = Ok 0 ->
  let src := echo_source nif np cur (current_iphdr_dest (ip_data s)) in
  let peer := current_iphdr_src (ip_data s) in
  let hdr := reply_header (slice (o - hl) hl bs) src peer in
  let msg := reply_message (slice o (Z.to_nat (len b)) bs) in
  let s' := answered s p b a o hl bs src peer in
  icmp_input base nif p np s =
    (let* (_, s2) := transmit nif np p peer (tot_len b + Z.of_nat hl) s' in drop_packet p s2) /\
  stack s' = view (set_pbufs (<[p := with_header (Z.of_nat hl) b a (Z.of_nat o)]> (pbufs (stack s))) (stack s))
               a (o - hl) bs (hdr ++ msg) /\
  inet_chksum base (stack s') (Some (a, Z.of_nat (o - hl))) (Z.of_nat hl) = Ok 0 /\
  packet (view (stack s) a (o - hl) bs (hdr ++ msg)) (Some p) (p :: l) (msg :: cs) /\
  inet_chksum_pbuf base (view (stack s) a (o - hl) bs (hdr ++ msg)) (Some p) = Ok 0.
Proof.
  intros Hm Ho Htot H8 Hhdr Hcur Haddr Hhl Htype Hpk Hcs Hsep Hck src peer hdr msg s'.
  split; [by apply icmp_echo_ok|]. split; [done|]. split; [by apply answered_header|].
  by apply (answered_message base s p b a o hl bs src peer l cs).
Qed.

(** ** The witness *)

(** 10.0.0.2 pings 10.0.0.1, with the header at 14 in the buffer 1. *)
Definition ping : list Z := [8; 0; 0xe5; 0xca; 0x12; 0x34; 0; 1].
Definition ping_memory : list Z := replicate 14 0 ++ ip_header 0 28 1 64 1 0x0200000a 0x0100000a ++ ping.
Definition ping_pbuf : pbuf := mk_pbuf None (Some (1, Z.of_nat 34)) 8 8 0x80 0 2 0.
Definition pinged : ip4 (list (Z * Z)) unit :=
  mk_ip4 7 (mk_ip_globals (Some 0) (Some 0) (Some (1, 14)) 20 0x0200000a 0x0100000a) []
    (mk_lwip {[1 := ping_pbuf]} {[1 := ping_memory]} None None false [] tt).

Lemma icmp_echo_answered_witness :
  exists s2, icmp_input at_zero host_nif 1 0 pinged = Ok s2 /\ around s2 = [(1, 0x0200000a)] /\
    slice 34 8 (areas (stack s2) !!! 1) = [0; 0; 0xed; 0xca; 0x12; 0x34; 0; 1].
Proof.
  destruct (icmp_echo_answered at_zero host_nif pinged 1 ping_pbuf 1 34 20 ping_memory 0 0 [] []) as [Hin _];
    [..|eexists; rewrite Hin; split; [vm_compute; reflexivity|split; vm_compute; reflexivity]];
    try reflexivity; try (cbn; unfold is_addr; lia); try done.
  - split; try reflexivity; try (vm_compute; lia); try done.
    vm_compute. repeat constructor; congruence.
  - split; [done|]. exists ping_pbuf. split; [done|]. split; [done|]. split; [done|]. split; [done|]. split; [|done].
    exists 1, 34, ping_memory. split; [done|]. split; [done|]. split; [lia|]. split; [vm_compute; congruence|done].
  - intros q r ? ? ? ? ? ? Hq Hr Hne. apply list_elem_of_singleton in Hq, Hr. congruence.
Defined.
