(* ===== verification/Etharp.v ===== *)
(** * Address resolution: [src/lib/lwip/src/core/ipv4/etharp.c]

    The ARP table and the functions on it in the configuration of
    [src/lib/lwip/lwipopts.h]: static entries, one queued packet per entry, a
    single interface, no address conflict detection, no link-local addresses, no
    hints.  What ARP uses of packet buffers and of the Ethernet layer is the class
    [PacketOps]; [lwip_packets] is the instance that the stack makes.  Pointers to
    interfaces are numbers, and [nif] gives the structure behind them.  The
    statistics and debug output are left out; [LWIP_ASSERT] has no effect in this
    port. *)

From stdpp Require Import base numbers list decidable gmap.
From Stdlib Require Import ZArith Lia Bool.
From S2P Require Import Prelude LwipMem Pbuf InetChksum Ip4Addr Ethernet Ip4.
Open Scope Z_scope.

(** ** Constants *)

Definition ARP_TABLE_SIZE : Z := 10.
Definition ARP_MAXAGE : Z := 300.
Definition ARP_AGE_REREQUEST_USED_UNICAST : Z := ARP_MAXAGE - 30.
Definition ARP_AGE_REREQUEST_USED_BROADCAST : Z := ARP_MAXAGE - 15.
Definition ARP_MAXPENDING : Z := 5.
Definition ETHARP_FLAG_TRY_HARD : Z := 1.
Definition ETHARP_FLAG_FIND_ONLY : Z := 2.
Definition ETHARP_FLAG_STATIC_ENTRY : Z := 4.
Definition SIZEOF_ETHARP_HDR : Z := 28.
Definition LWIP_IANA_HWTYPE_ETHERNET : Z := 1.
Definition ARP_REQUEST : Z := 1.
Definition ARP_REPLY : Z := 2.
Definition ethzero : list Z := replicate 6 0.

Inductive etharp_state : Type :=
| ETHARP_STATE_EMPTY
| ETHARP_STATE_PENDING
| ETHARP_STATE_STABLE
| ETHARP_STATE_STABLE_REREQUESTING_1
| ETHARP_STATE_STABLE_REREQUESTING_2
| ETHARP_STATE_STATIC.

#[export] Instance etharp_state_eq_dec : EqDecision etharp_state.
Proof. solve_decision. Defined.

(** [state >= ETHARP_STATE_STABLE]. *)
Definition is_stable (st : etharp_state) : bool :=
  match st with ETHARP_STATE_EMPTY | ETHARP_STATE_PENDING => false | _ => true end.

(** ** State *)

Record etharp_entry : Type := mk_etharp_entry {
  q : option Z;
  ipaddr : Z;
  e_netif : option Z;
  ethaddr : list Z;
  ctime : Z;
  state : etharp_state
}.

Definition set_q (v : option Z) (e : etharp_entry) : etharp_entry :=
  mk_etharp_entry v (ipaddr e) (e_netif e) (ethaddr e) (ctime e) (state e).
Definition set_ipaddr (v : Z) (e : etharp_entry) : etharp_entry :=
  mk_etharp_entry (q e) v (e_netif e) (ethaddr e) (ctime e) (state e).
Definition set_e_netif (v : option Z) (e : etharp_entry) : etharp_entry :=
  mk_etharp_entry (q e) (ipaddr e) v (ethaddr e) (ctime e) (state e).
Definition set_ethaddr (v : list Z) (e : etharp_entry) : etharp_entry :=
  mk_etharp_entry (q e) (ipaddr e) (e_netif e) v (ctime e) (state e).
Definition set_ctime (v : Z) (e : etharp_entry) : etharp_entry :=
  mk_etharp_entry (q e) (ipaddr e) (e_netif e) (ethaddr e) v (state e).
Definition set_state (v : etharp_state) (e : etharp_entry) : etharp_entry :=
  mk_etharp_entry (q e) (ipaddr e) (e_netif e) (ethaddr e) (ctime e) v.

(** The table, the entry that was used last, and the packets. *)
Record arp (P : Type) : Type := mk_arp {
  arp_table : list etharp_entry;
  etharp_cached_entry : Z;
  packets : P
}.

Arguments mk_arp {P}.
Arguments arp_table {P}.
Arguments etharp_cached_entry {P}.
Arguments packets {P}.

Definition set_arp_table {P} (v : list etharp_entry) (s : arp P) : arp P := mk_arp v (etharp_cached_entry s) (packets s).
Definition set_cached_entry {P} (v : Z) (s : arp P) : arp P := mk_arp (arp_table s) v (packets s).
Definition set_packets {P} (v : P) (s : arp P) : arp P := mk_arp (arp_table s) (etharp_cached_entry s) v.

(** [pkt_clone] is [pbuf_clone(PBUF_LINK, PBUF_RAM, p)], [pkt_alloc] is
    [pbuf_alloc(PBUF_LINK, length, PBUF_RAM)]; reading and writing is behind the
    payload pointer; [pkt_needs_copy] looks for a buffer of the chain with
    [PBUF_NEEDS_COPY]. *)
Class PacketOps (P : Type) : Type := {
  pkt_free : Z -> P -> result P;
  pkt_ref : Z -> P -> result P;
  pkt_clone : Z -> P -> result (option Z * P);
  pkt_needs_copy : Z -> P -> result bool;
  pkt_alloc : Z -> P -> result (option Z * P);
  pkt_read : Z -> Z -> Z -> P -> result (list Z);
  pkt_write : Z -> Z -> list Z -> P -> result P;
  pkt_output : netif -> Z -> list Z -> list Z -> Z -> P -> result (err_t * P)
}.

(** ** The instance for packet buffers *)

Section instance.
Context {H : Type} `{MemHeap H}.

Definition PBUF_NEEDS_COPY (b : pbuf) : bool :=
  negb (Z.land (type_internal b) PBUF_TYPE_FLAG_DATA_VOLATILE =? 0).

Fixpoint needs_copy_loop (fuel : nat) (s : lwip H) (p : option Z) : result bool :=
  match fuel with
  | O => Fault OutOfFuel
  | S fuel =>
      match p with
      | None => Ok false
      | Some p =>
          let* b := deref s p in
          if PBUF_NEEDS_COPY b then Ok true else needs_copy_loop fuel s (next b)
      end
  end.

Definition lwip_packets (linkoutput : netif -> Z -> lwip H -> result (err_t * lwip H)) : PacketOps (lwip H) := {|
  pkt_free p s := let* (_, s) := pbuf_free (Some p) s in Ok s;
  pkt_ref p s := pbuf_ref (Some p) s;
  pkt_clone p s := pbuf_clone PBUF_LINK PBUF_RAM p s;
  pkt_needs_copy p s := needs_copy_loop (chain_fuel s) s (Some p);
  pkt_alloc n s := pbuf_alloc PBUF_LINK n PBUF_RAM s;
  pkt_read p off n s := let* b := deref s p in ld_bytes s (payload b) off n;
  pkt_write p off v s := let* b := deref s p in st_bytes s (payload b) off v;
  pkt_output n p src dst ty s := ethernet_output linkoutput n p src dst ty s
|}.
End instance.

(** ** The functions *)

Section etharp.
Context {P : Type} `{PacketOps P}.
Context (nif : Z -> netif).
Implicit Types (s : arp P).

(** [arp_table[i]]. *)
Definition entry_at s (i : Z) : result etharp_entry :=
  if 0 <=? i then
    match arp_table s !! Z.to_nat i with Some e => Ok e | None => Fault OutOfBounds end
  else Fault OutOfBounds.

Definition update_entry (i : Z) (f : etharp_entry -> etharp_entry) s : result (arp P) :=
  let* e := entry_at s i in
  Ok (set_arp_table (<[Z.to_nat i := f e]> (arp_table s)) s).

Definition on_packets (f : P -> result P) s : result (arp P) :=
  let* x := f (packets s) in Ok (set_packets x s).

Definition on_packets_r {A} (f : P -> result (A * P)) s : result (A * arp P) :=
  let* (a, x) := f (packets s) in Ok (a, set_packets x s).

(** *** Sending *)

(** The members of [struct etharp_hdr] at their offsets: [hwtype] 0, [proto] 2,
    [hwlen] 4, [protolen] 5, [opcode] 6, [shwaddr] 8, [sipaddr] 14, [dhwaddr] 18,
    [dipaddr] 24. *)
Definition etharp_raw (n : netif) (ethsrc_addr ethdst_addr hwsrc_addr : list Z) (ipsrc_addr : Z)
    (hwdst_addr : list Z) (ipdst_addr : Z) (opcode : Z) s : result (err_t * arp P) :=
  let* (p, s) := on_packets_r (pkt_alloc SIZEOF_ETHARP_HDR) s in
  match p with
  | None => Ok (ERR_MEM, s)
  | Some p =>
      let* s := on_packets (pkt_write p 6 (le_bytes 2 (lwip_htons opcode))) s in
      let* s := on_packets (pkt_write p 8 (take 6 hwsrc_addr)) s in
      let* s := on_packets (pkt_write p 18 (take 6 hwdst_addr)) s in
      let* s := on_packets (pkt_write p 14 (le_bytes 4 ipsrc_addr)) s in
      let* s := on_packets (pkt_write p 24 (le_bytes 4 ipdst_addr)) s in
      let* s := on_packets (pkt_write p 0 (le_bytes 2 (lwip_htons LWIP_IANA_HWTYPE_ETHERNET))) s in
      let* s := on_packets (pkt_write p 2 (le_bytes 2 (lwip_htons ETHTYPE_IP))) s in
      let* s := on_packets (pkt_write p 4 [ETH_HWADDR_LEN]) s in
      let* s := on_packets (pkt_write p 5 [4]) s in
      let* (_, s) := on_packets_r (pkt_output n p ethsrc_addr ethdst_addr ETHTYPE_ARP) s in
      let* s := on_packets (pkt_free p) s in
      Ok (ERR_OK, s)
  end.

Definition etharp_request_dst (n : netif) (ip : Z) (hw_dst_addr : list Z) s : result (err_t * arp P) :=
  etharp_raw n (hwaddr n) hw_dst_addr (hwaddr n) (ip_addr n) ethzero ip ARP_REQUEST s.

Definition etharp_request (n : netif) (ip : Z) s : result (err_t * arp P) :=
  etharp_request_dst n ip ethbroadcast s.

(** *** The table *)

Definition etharp_free_entry (i : Z) s : result (arp P) :=
  let* e := entry_at s i in
  let* s := match q e with
            | None => Ok s
            | Some p =>
                let* s := on_packets (pkt_free p) s in
                update_entry i (set_q None) s
            end in
  update_entry i (set_state ETHARP_STATE_EMPTY) s.

(** What [etharp_tmr] does with one entry. *)
Definition tmr_entry (i : Z) s : result (arp P) :=
  let* e := entry_at s i in
  if bool_decide (state e = ETHARP_STATE_EMPTY) || bool_decide (state e = ETHARP_STATE_STATIC) then Ok s
  else
    let* s := update_entry i (fun e => set_ctime (wrap16 (ctime e + 1)) e) s in
    let* e := entry_at s i in
    if (ARP_MAXAGE <=? ctime e) || (bool_decide (state e = ETHARP_STATE_PENDING) && (ARP_MAXPENDING <=? ctime e))
    then etharp_free_entry i s
    else match state e with
         | ETHARP_STATE_STABLE_REREQUESTING_1 => update_entry i (set_state ETHARP_STATE_STABLE_REREQUESTING_2) s
         | ETHARP_STATE_STABLE_REREQUESTING_2 => update_entry i (set_state ETHARP_STATE_STABLE) s
         | ETHARP_STATE_PENDING =>
             let* nt := not_null (e_netif e) in
             let* (_, s) := etharp_request (nif nt) (ipaddr e) s in
             Ok s
         | _ => Ok s
         end.

(** [for (i = 0; i < ARP_TABLE_SIZE; ++i)], with [k] rounds left. *)
Fixpoint each_entry (f : Z -> arp P -> result (arp P)) (k : nat) (i : Z) s : result (arp P) :=
  match k with
  | O => Ok s
  | S k => let* s := f i s in each_entry f k (i + 1) s
  end.

Definition etharp_tmr s : result (arp P) := each_entry tmr_entry (Z.to_nat ARP_TABLE_SIZE) 0 s.

(** The candidates of the search sweep; [ARP_TABLE_SIZE] stands for none. *)
Record candidates : Type := mk_candidates {
  old_pending : Z;
  old_stable : Z;
  empty : Z;
  old_queue : Z;
  age_queue : Z;
  age_pending : Z;
  age_stable : Z
}.

Definition no_candidates : candidates :=
  mk_candidates ARP_TABLE_SIZE ARP_TABLE_SIZE ARP_TABLE_SIZE ARP_TABLE_SIZE 0 0 0.

(** The sweep over the entries from [i] on: the index of a match, or the
    candidates. *)
Fixpoint sweep (ip : option Z) (i : Z) (tab : list etharp_entry) (c : candidates) : Z + candidates :=
  match tab with
  | [] => inr c
  | e :: tab =>
      if (empty c =? ARP_TABLE_SIZE) && bool_decide (state e = ETHARP_STATE_EMPTY) then
        sweep ip (i + 1) tab
          (mk_candidates (old_pending c) (old_stable c) i (old_queue c) (age_queue c) (age_pending c) (age_stable c))
      else if negb (bool_decide (state e = ETHARP_STATE_EMPTY)) then
        if bool_decide (ip = Some (ipaddr e)) then inl i
        else if bool_decide (state e = ETHARP_STATE_PENDING) then
          match q e with
          | Some _ =>
              if age_queue c <=? ctime e then
                sweep ip (i + 1) tab
                  (mk_candidates (old_pending c) (old_stable c) (empty c) i (ctime e) (age_pending c) (age_stable c))
              else sweep ip (i + 1) tab c
          | None =>
              if age_pending c <=? ctime e then
                sweep ip (i + 1) tab
                  (mk_candidates i (old_stable c) (empty c) (old_queue c) (age_queue c) (ctime e) (age_stable c))
              else sweep ip (i + 1) tab c
          end
        else if bool_decide (state e = ETHARP_STATE_STATIC) then sweep ip (i + 1) tab c
        else if age_stable c <=? ctime e then
          sweep ip (i + 1) tab
            (mk_candidates (old_pending c) i (empty c) (old_queue c) (age_queue c) (age_pending c) (ctime e))
        else sweep ip (i + 1) tab c
      else sweep ip (i + 1) tab c
  end.

(** The entry to recycle when none is empty. *)
Definition recyclable (c : candidates) : option Z :=
  if old_stable c <? ARP_TABLE_SIZE then Some (old_stable c)
  else if old_pending c <? ARP_TABLE_SIZE then Some (old_pending c)
  else if old_queue c <? ARP_TABLE_SIZE then Some (old_queue c)
  else None.

(** The index of the entry, or [None] for [ERR_MEM]. *)
Definition etharp_find_entry (ip : option Z) (flags : Z) s : result (option Z * arp P) :=
  match sweep ip 0 (arp_table s) no_candidates with
  | inl i => Ok (Some i, s)
  | inr c =>
      if negb (Z.land flags ETHARP_FLAG_FIND_ONLY =? 0) ||
         ((empty c =? ARP_TABLE_SIZE) && (Z.land flags ETHARP_FLAG_TRY_HARD =? 0)) then Ok (None, s)
      else
        let* (i, s) :=
          if empty c <? ARP_TABLE_SIZE then Ok (Some (empty c), s)
          else match recyclable c with
               | None => Ok (None, s)
               | Some i => let* s := etharp_free_entry i s in Ok (Some i, s)
               end in
        match i with
        | None => Ok (None, s)
        | Some i =>
            let* s := match ip with Some a => update_entry i (set_ipaddr a) s | None => Ok s end in
            let* s := update_entry i (set_ctime 0) s in
            Ok (Some i, s)
        end
  end.

Definition non_unicast (ip : Z) (n : netif) : bool :=
  ip4_addr_isany ip || isbroadcast ip n || ip4_addr_ismulticast ip.

Definition etharp_update_arp_entry (np : Z) (ip : Z) (hw : list Z) (flags : Z) s : result (err_t * arp P) :=
  let n := nif np in
  if non_unicast ip n then Ok (ERR_ARG, s)
  else
    let* (i, s) := etharp_find_entry (Some ip) flags s in
    match i with
    | None => Ok (ERR_MEM, s)
    | Some i =>
        let* e := entry_at s i in
        if (Z.land flags ETHARP_FLAG_STATIC_ENTRY =? 0) && bool_decide (state e = ETHARP_STATE_STATIC)
        then Ok (ERR_VAL, s)
        else
          let* s := update_entry i (set_state (if Z.land flags ETHARP_FLAG_STATIC_ENTRY =? 0
                                               then ETHARP_STATE_STABLE else ETHARP_STATE_STATIC)) s in
          let* s := update_entry i (set_e_netif (Some np)) s in
          let* s := update_entry i (set_ethaddr (take 6 hw)) s in
          let* s := update_entry i (set_ctime 0) s in
          let* e := entry_at s i in
          match q e with
          | None => Ok (ERR_OK, s)
          | Some p =>
              let* s := update_entry i (set_q None) s in
              let* (_, s) := on_packets_r (pkt_output n p (hwaddr n) hw ETHTYPE_IP) s in
              let* s := on_packets (pkt_free p) s in
              Ok (ERR_OK, s)
          end
    end.

Definition etharp_add_static_entry (netif_default : option Z) (ip : Z) (hw : list Z) s : result (err_t * arp P) :=
  match ip4_route nif netif_default ip with
  | None => Ok (ERR_RTE, s)
  | Some np => etharp_update_arp_entry np ip hw (Z.lor ETHARP_FLAG_TRY_HARD ETHARP_FLAG_STATIC_ENTRY) s
  end.

Definition etharp_remove_static_entry (ip : Z) s : result (err_t * arp P) :=
  let* (i, s) := etharp_find_entry (Some ip) ETHARP_FLAG_FIND_ONLY s in
  match i with
  | None => Ok (ERR_MEM, s)
  | Some i =>
      let* e := entry_at s i in
      if negb (bool_decide (state e = ETHARP_STATE_STATIC)) then Ok (ERR_ARG, s)
      else let* s := etharp_free_entry i s in Ok (ERR_OK, s)
  end.

Definition cleanup_entry (np : Z) (i : Z) s : result (arp P) :=
  let* e := entry_at s i in
  if negb (bool_decide (state e = ETHARP_STATE_EMPTY)) && bool_decide (e_netif e = Some np)
  then etharp_free_entry i s else Ok s.

Definition etharp_cleanup_netif (np : Z) s : result (arp P) :=
  each_entry (cleanup_entry np) (Z.to_nat ARP_TABLE_SIZE) 0 s.

(** The index with the two addresses, or [None] for -1. *)
Definition etharp_find_addr (ip : Z) s : result (option (Z * list Z * Z) * arp P) :=
  let* (i, s) := etharp_find_entry (Some ip) ETHARP_FLAG_FIND_ONLY s in
  match i with
  | None => Ok (None, s)
  | Some i =>
      let* e := entry_at s i in
      if is_stable (state e) then Ok (Some (i, ethaddr e, ipaddr e), s) else Ok (None, s)
  end.

Definition etharp_get_entry (i : Z) s : result (option (Z * option Z * list Z)) :=
  if i <? ARP_TABLE_SIZE then
    let* e := entry_at s i in
    if is_stable (state e) then Ok (Some (ipaddr e, e_netif e, ethaddr e)) else Ok None
  else Ok None.

(** *** Input *)

(** The header is read from behind the payload pointer, whatever the length of
    the packet. *)
Definition etharp_input (p : Z) (np : Z) s : result (arp P) :=
  let n := nif np in
  let* hdr := pkt_read p 0 SIZEOF_ETHARP_HDR (packets s) in
  if negb (le_val (bytes_at hdr 0 2) =? lwip_htons LWIP_IANA_HWTYPE_ETHERNET) ||
     negb (le_val (bytes_at hdr 4 1) =? ETH_HWADDR_LEN) ||
     negb (le_val (bytes_at hdr 5 1) =? 4) ||
     negb (le_val (bytes_at hdr 2 2) =? lwip_htons ETHTYPE_IP)
  then on_packets (pkt_free p) s
  else
    let shwaddr := bytes_at hdr 8 6 in
    let sipaddr := le_val (bytes_at hdr 14 4) in
    let dipaddr := le_val (bytes_at hdr 24 4) in
    let for_us := if ip4_addr_isany (ip_addr n) then false else dipaddr =? ip_addr n in
    let from_us := if ip4_addr_isany (ip_addr n) then false else sipaddr =? ip_addr n in
    let* (_, s) := etharp_update_arp_entry np sipaddr shwaddr
                     (if for_us then ETHARP_FLAG_TRY_HARD else ETHARP_FLAG_FIND_ONLY) s in
    let* s := if le_val (bytes_at hdr 6 2) =? lwip_htons ARP_REQUEST then
                if for_us && negb from_us then
                  let* (_, s) := etharp_raw n (hwaddr n) shwaddr (hwaddr n) (ip_addr n) shwaddr sipaddr ARP_REPLY s in
                  Ok s
                else Ok s
              else Ok s in
    on_packets (pkt_free p) s.

(** *** Output *)

Definition etharp_output_to_arp_index (n : netif) (p : Z) (arp_idx : Z) s : result (err_t * arp P) :=
  let* e := entry_at s arp_idx in
  let* s :=
    if bool_decide (state e = ETHARP_STATE_STABLE) then
      if ARP_AGE_REREQUEST_USED_BROADCAST <=? ctime e then
        let* (r, s) := etharp_request n (ipaddr e) s in
        match r with
        | ERR_OK => update_entry arp_idx (set_state ETHARP_STATE_STABLE_REREQUESTING_1) s
        | _ => Ok s
        end
      else if ARP_AGE_REREQUEST_USED_UNICAST <=? ctime e then
        let* (r, s) := etharp_request_dst n (ipaddr e) (ethaddr e) s in
        match r with
        | ERR_OK => update_entry arp_idx (set_state ETHARP_STATE_STABLE_REREQUESTING_1) s
        | _ => Ok s
        end
      else Ok s
    else Ok s in
  let* e := entry_at s arp_idx in
  on_packets_r (pkt_output n p (hwaddr n) (ethaddr e) ETHTYPE_IP) s.

(** Queue the packet on a pending entry. *)
Definition queue_packet (i : Z) (p : Z) s : result (err_t * arp P) :=
  let* copy_needed := pkt_needs_copy p (packets s) in
  let* (p', s) :=
    if copy_needed : bool then on_packets_r (pkt_clone p) s
    else let* s := on_packets (pkt_ref p) s in Ok (Some p, s) in
  match p' with
  | None => Ok (ERR_MEM, s)
  | Some p' =>
      let* e := entry_at s i in
      let* s := match q e with Some old => on_packets (pkt_free old) s | None => Ok s end in
      let* s := update_entry i (set_q (Some p')) s in
      Ok (ERR_OK, s)
  end.

Definition etharp_query (np : Z) (ip : Z) (p : option Z) s : result (err_t * arp P) :=
  let n := nif np in
  if isbroadcast ip n || ip4_addr_ismulticast ip || ip4_addr_isany ip then Ok (ERR_ARG, s)
  else
    let* (i, s) := etharp_find_entry (Some ip) ETHARP_FLAG_TRY_HARD s in
    match i with
    | None => Ok (ERR_MEM, s)
    | Some i =>
        let* e := entry_at s i in
        let is_new_entry := bool_decide (state e = ETHARP_STATE_EMPTY) in
        let* s := if is_new_entry then
                    let* s := update_entry i (set_state ETHARP_STATE_PENDING) s in
                    update_entry i (set_e_netif (Some np)) s
                  else Ok s in
        let* (result, s) :=
          if is_new_entry || bool_decide (p = None) then
            let* (r, s) := etharp_request n ip s in
            let* e := entry_at s i in
            let* s := match r with
                      | ERR_OK =>
                          if bool_decide (state e = ETHARP_STATE_PENDING) && negb is_new_entry
                          then update_entry i (set_ctime 0) s else Ok s
                      | _ => Ok s
                      end in
            Ok (r, s)
          else Ok (ERR_MEM, s) in
        match p with
        | None => Ok (result, s)
        | Some p =>
            let* e := entry_at s i in
            if is_stable (state e) then
              let s := set_cached_entry i s in
              on_packets_r (pkt_output n p (hwaddr n) (ethaddr e) ETHTYPE_IP) s
            else if bool_decide (state e = ETHARP_STATE_PENDING) then queue_packet i p s
            else Ok (result, s)
        end
    end.

(** The search for a stable entry, over the entries from [i] on. *)
Fixpoint find_stable (dst : Z) (i : Z) (tab : list etharp_entry) : option Z :=
  match tab with
  | [] => None
  | e :: tab => if is_stable (state e) && (dst =? ipaddr e) then Some i else find_stable dst (i + 1) tab
  end.

Definition etharp_output (np : Z) (p : Z) (ip : Z) s : result (err_t * arp P) :=
  let n := nif np in
  if isbroadcast ip n then
    on_packets_r (pkt_output n p (hwaddr n) ethbroadcast ETHTYPE_IP) s
  else if ip4_addr_ismulticast ip then
    let mcastaddr := [0x01; 0x00; 0x5e; Z.land (ip4_addr_get_byte ip 1) 0x7f; ip4_addr_get_byte ip 2; ip4_addr_get_byte ip 3] in
    on_packets_r (pkt_output n p (hwaddr n) mcastaddr ETHTYPE_IP) s
  else
    let outside := negb (ip4_addr_net_eq ip (ip_addr n) (netmask n)) && negb (ip4_addr_islinklocal ip) in
    if outside && ip4_addr_isany (gw n) then Ok (ERR_RTE, s)
    else
      let dst_addr := if outside then gw n else ip in
      let* e := entry_at s (etharp_cached_entry s) in
      if is_stable (state e) && (dst_addr =? ipaddr e)
      then etharp_output_to_arp_index n p (etharp_cached_entry s) s
      else match find_stable dst_addr 0 (arp_table s) with
           | Some i => etharp_output_to_arp_index n p i (set_cached_entry i s)
           | None => etharp_query np dst_addr (Some p) s
           end.

End etharp.
