(* ===== verification/EtharpInv.v ===== *)
(** * The invariant of the ARP table

    What ARP relies on from the packets below it, as a class of laws on the
    references it holds, and what holds of the table between two calls of
    [Etharp]: no address has two entries, packets are queued on pending entries
    only, ages are in range, entries are for unicast addresses, and every queued
    packet is owned exactly once. *)

From stdpp Require Import base numbers list decidable gmap gmultiset.
From Stdlib Require Import ZArith Lia Bool.
From S2P Require Import Prelude LwipMem Pbuf InetChksum Ip4Addr Ethernet Ip4 Etharp.
Open Scope Z_scope.

(** ** Packets as references *)

(** [owns r s]: the references [r] to packets are held, each as often as it
    occurs.  Freeing gives one up, referencing, cloning and allocating add one,
    and sending leaves them as they are.  [room s p n]: there are [n] bytes of
    memory behind the payload pointer. *)
Class PacketLaws (P : Type) `{PacketOps P} : Type := {
  owns : gmultiset Z -> P -> Prop;
  room : P -> Z -> Z -> Prop;
  law_free : forall r p s, owns ({[+ p +]} ⊎ r) s -> exists s', pkt_free p s = Ok s' /\ owns r s';
  law_ref : forall r p s, owns r s -> p ∈ r -> (multiplicity p r < 255)%nat ->
    exists s', pkt_ref p s = Ok s' /\ owns ({[+ p +]} ⊎ r) s';
  law_copy : forall r p s, owns r s -> p ∈ r -> exists b, pkt_needs_copy p s = Ok b;
  law_clone : forall r p s, owns r s -> p ∈ r -> exists o s', pkt_clone p s = Ok (o, s') /\
    owns (match o with Some p' => {[+ p' +]} ⊎ r | None => r end) s';
  law_alloc : forall r n s, owns r s -> 0 <= n < 1000 -> exists o s', pkt_alloc n s = Ok (o, s') /\
    match o with Some p => owns ({[+ p +]} ⊎ r) s' /\ room s' p n | None => owns r s' end;
  law_write : forall r p n off v s, owns r s -> p ∈ r -> room s p n -> 0 <= off ->
    off + Z.of_nat (length v) <= n -> exists s', pkt_write p off v s = Ok s' /\ owns r s' /\ room s' p n;
  law_read : forall r p n off k s, owns r s -> p ∈ r -> room s p n -> 0 <= off -> 0 <= k -> off + k <= n ->
    exists v, pkt_read p off k s = Ok v /\ Z.of_nat (length v) = k;
  law_output : forall r n p src dst ty s, owns r s -> p ∈ r ->
    exists e s', pkt_output n p src dst ty s = Ok (e, s') /\ owns r s'
}.

(** ** The table *)

Definition nonempty (e : etharp_entry) : Prop := state e <> ETHARP_STATE_EMPTY.

(** Between two calls. *)
Record entry_ok (nif : Z -> netif) (e : etharp_entry) : Prop := {
  ok_queue : q e <> None -> state e = ETHARP_STATE_PENDING;
  ok_age : nonempty e -> 0 <= ctime e < ARP_MAXAGE;
  ok_pending : state e = ETHARP_STATE_PENDING -> ctime e < ARP_MAXPENDING;
  ok_static : state e = ETHARP_STATE_STATIC -> ctime e = 0;
  ok_unicast : nonempty e -> exists np, e_netif e = Some np /\ non_unicast (ipaddr e) (nif np) = false
}.

Definition unique_ip (t : list etharp_entry) : Prop :=
  forall i j ei ej, t !! i = Some ei -> t !! j = Some ej -> nonempty ei -> nonempty ej ->
    ipaddr ei = ipaddr ej -> i = j.

Definition table_ok (nif : Z -> netif) (t : list etharp_entry) : Prop :=
  length t = Z.to_nat ARP_TABLE_SIZE /\ Forall (entry_ok nif) t /\ unique_ip t.

(** The packets that wait for an answer. *)
Definition queued_at (e : etharp_entry) : gmultiset Z := match q e with Some p => {[+ p +]} | None => ∅ end.
Definition queued (t : list etharp_entry) : gmultiset Z := foldr (fun e r => queued_at e ⊎ r) ∅ t.

Lemma queued_cons e t : queued (e :: t) = queued_at e ⊎ queued t.
Proof. done. Qed.

Lemma queued_app t1 t2 : queued (t1 ++ t2) = queued t1 ⊎ queued t2.
Proof.
  induction t1 as [|e t1 IH]; [change (queued []) with (∅ : gmultiset Z); cbn [app]; multiset_solver|]. cbn [app].
  by rewrite !queued_cons, IH, (assoc_L (⊎)).
Qed.

(** What replacing an entry does to the queued packets. *)
Lemma queued_insert t i e e' : t !! i = Some e ->
  exists r, queued t = queued_at e ⊎ r /\ queued (<[i := e']> t) = queued_at e' ⊎ r.
Proof.
  intros He. exists (queued (take i t) ⊎ queued (drop (S i) t)).
  assert (Hi : (i < length t)%nat) by (by eapply lookup_lt_Some).
  rewrite <- (take_drop_middle t i e He) at 1. rewrite insert_take_drop by done. rewrite !queued_app, !queued_cons.
  split; multiset_solver.
Qed.

Lemma queued_elem t i e p : t !! i = Some e -> q e = Some p -> p ∈ queued t.
Proof. intros He Hq. destruct (queued_insert t i e e He) as (r&->&_). unfold queued_at. rewrite Hq. multiset_solver. Qed.

Lemma table_insert nif t i e e' :
  table_ok nif t -> t !! i = Some e -> entry_ok nif e' ->
  (nonempty e' -> forall j ej, t !! j = Some ej -> j <> i -> nonempty ej -> ipaddr ej <> ipaddr e') ->
  table_ok nif (<[i := e']> t).
Proof.
  intros (Hl&Hall&Hu) He He' Hnew. split; [by rewrite length_insert|]. split; [by apply Forall_insert|].
  intros a b ea eb Ha Hb Hna Hnb Hip.
  destruct (decide (a = i)) as [->|Hai], (decide (b = i)) as [->|Hbi]; [done| | |].
  - rewrite list_lookup_insert_eq in Ha by (by eapply lookup_lt_Some). injection Ha as <-.
    rewrite list_lookup_insert_ne in Hb by done. exfalso. by apply (Hnew Hna b eb Hb Hbi Hnb).
  - rewrite list_lookup_insert_eq in Hb by (by eapply lookup_lt_Some). injection Hb as <-.
    rewrite list_lookup_insert_ne in Ha by done. exfalso. by apply (Hnew Hnb a ea Ha Hai Hna).
  - rewrite list_lookup_insert_ne in Ha, Hb by done. by apply (Hu a b ea eb).
Qed.

(** An entry whose address or use does not grow stays unique. *)
Lemma table_insert_same nif t i e e' :
  table_ok nif t -> t !! i = Some e -> entry_ok nif e' -> (nonempty e' -> nonempty e /\ ipaddr e' = ipaddr e) ->
  table_ok nif (<[i := e']> t).
Proof.
  intros Ht He He' Hsame. apply (table_insert nif t i e e' Ht He He'). intros Hne j ej Hj Hji Hnj Heq.
  destruct (Hsame Hne) as [Hn Hip]. destruct Ht as (_&_&Hu). apply Hji. apply (Hu j i ej e); congruence.
Qed.

(** ** Good states *)

(** The table is in order, and the packets queued in it are owned, besides the
    references [r] of the caller. *)
Definition good {P} `{PacketLaws P} (nif : Z -> netif) (r : gmultiset Z) (s : arp P) : Prop :=
  table_ok nif (arp_table s) /\ 0 <= etharp_cached_entry s < ARP_TABLE_SIZE /\
  owns (queued (arp_table s) ⊎ r) (packets s).

Section ops.
Context {P : Type} `{PacketLaws P} (nif : Z -> netif).
Implicit Types (s : arp P) (r : gmultiset Z).

Lemma entry_at_ok s i e : 0 <= i -> arp_table s !! Z.to_nat i = Some e -> entry_at s i = Ok e.
Proof. intros Hi He. unfold entry_at. rewrite (proj2 (Z.leb_le _ _)) by done. by rewrite He. Qed.

Lemma update_entry_ok s i e f : 0 <= i -> arp_table s !! Z.to_nat i = Some e ->
  update_entry i f s = Ok (set_arp_table (<[Z.to_nat i := f e]> (arp_table s)) s).
Proof. intros Hi He. unfold update_entry. by rewrite (entry_at_ok s i e Hi He). Qed.

(** A second change of the same entry. *)
Lemma update_again s i e f : 0 <= i -> (Z.to_nat i < length (arp_table s))%nat ->
  update_entry i f (set_arp_table (<[Z.to_nat i := e]> (arp_table s)) s) =
  Ok (set_arp_table (<[Z.to_nat i := f e]> (arp_table s)) s).
Proof.
  intros Hi Hlt. rewrite (update_entry_ok _ i e) by (cbn; rewrite ?list_lookup_insert_eq; done).
  cbn. by rewrite list_insert_insert_eq.
Qed.

Lemma table_lookup (t : list etharp_entry) i : length t = Z.to_nat ARP_TABLE_SIZE -> 0 <= i < ARP_TABLE_SIZE -> exists e, t !! Z.to_nat i = Some e.
Proof. intros Hl Hi. apply lookup_lt_is_Some_2. rewrite Hl. lia. Qed.

(** Only the packets have changed. *)
Definition same_table s s' : Prop :=
  arp_table s' = arp_table s /\ etharp_cached_entry s' = etharp_cached_entry s.

Lemma on_packets_ok s r f : (exists x, f (packets s) = Ok x /\ owns r x) ->
  exists s', on_packets f s = Ok s' /\ same_table s s' /\ owns r (packets s').
Proof. intros (x&Hx&Ho). unfold on_packets. rewrite Hx. eexists. split; [reflexivity|]. done. Qed.

Lemma free_ok s r p : owns ({[+ p +]} ⊎ r) (packets s) ->
  exists s', on_packets (pkt_free p) s = Ok s' /\ same_table s s' /\ owns r (packets s').
Proof. intros Ho. apply on_packets_ok. by apply law_free. Qed.

Lemma output_ok s r n p src dst ty : owns r (packets s) -> p ∈ r ->
  exists e s', on_packets_r (pkt_output n p src dst ty) s = Ok (e, s') /\ same_table s s' /\ owns r (packets s').
Proof.
  intros Ho Hp. unfold on_packets_r. destruct (law_output r n p src dst ty (packets s) Ho Hp) as (e&x&->&Hx).
  cbn [rbind]. eexists _, _. split; [reflexivity|]. done.
Qed.

Lemma same_table_trans s s' s'' : same_table s s' -> same_table s' s'' -> same_table s s''.
Proof. intros [? ?] [? ?]. split; congruence. Qed.

(** A packet that is being written, since the state [s]. *)
Definition writing s r (p n : Z) s0 : Prop :=
  same_table s s0 /\ owns r (packets s0) /\ p ∈ r /\ room (packets s0) p n.

Lemma write_ok s s0 r p n off v : writing s r p n s0 -> 0 <= off -> off + Z.of_nat (length v) <= n ->
  exists s1, on_packets (pkt_write p off v) s0 = Ok s1 /\ writing s r p n s1.
Proof.
  intros (Hs&Ho&Hp&Hr) Hoff Hl. unfold on_packets.
  destruct (law_write r p n off v (packets s0) Ho Hp Hr Hoff Hl) as (x&->&Hx&Hx'). cbn [rbind].
  eexists. split; [reflexivity|]. by destruct Hs.
Qed.

(** An ARP packet is allocated, written, sent and freed, or there is no memory. *)
Lemma raw_ok s r n ethsrc ethdst hwsrc ipsrc hwdst ipdst opcode :
  owns r (packets s) ->
  exists e s', etharp_raw n ethsrc ethdst hwsrc ipsrc hwdst ipdst opcode s = Ok (e, s') /\ same_table s s' /\
    owns r (packets s').
Proof.
  intros Ho. unfold etharp_raw, on_packets_r at 1.
  destruct (law_alloc r SIZEOF_ETHARP_HDR (packets s) Ho) as (o&x&->&Hx); [unfold SIZEOF_ETHARP_HDR; lia|].
  cbn [rbind]. destruct o as [p|]; [|by eexists _, _].
  assert (Hw : writing s ({[+ p +]} ⊎ r) p SIZEOF_ETHARP_HDR (set_packets x s))
    by (destruct Hx; split; [done|]; split; [done|]; split; [multiset_solver|done]).
  unfold SIZEOF_ETHARP_HDR in Hw. clear Ho Hx. revert Hw. generalize (set_packets x s). intros s0 Hw.
  repeat match goal with Hw : writing s _ _ _ ?s0 |- context [on_packets (pkt_write p ?off ?v) ?s0] =>
    destruct (write_ok s s0 _ p 28 off v Hw) as (?s&->&?Hw);
      [lia|rewrite ?length_take, ?length_le_bytes; cbn [length]; lia|]; clear Hw; cbn [rbind] end.
  match goal with Hw : writing s _ _ _ ?s0 |- _ => destruct Hw as (Hs&Ho&Hp&_);
    destruct (output_ok s0 _ n p ethsrc ethdst ETHTYPE_ARP Ho Hp) as (e&so&->&Hs1&Ho1) end. cbn [rbind].
  destruct (free_ok so r p Ho1) as (sf&->&Hs2&Ho2). cbn [rbind]. eexists _, sf. split; [reflexivity|].
  split; [|done]. eauto using same_table_trans.
Qed.
End ops.
