(* ===== verification/EtharpFind.v ===== *)
(** * The search in the ARP table

    [etharp_find_entry] against a specification that does not mention the sweep:
    the entry with the address, else the first empty one, else the oldest stable
    one, the oldest pending one without a packet or the oldest pending one with a
    packet, in this order. *)

From stdpp Require Import base numbers list decidable gmap gmultiset.
From Stdlib Require Import ZArith Lia Bool.
From S2P Require Import Prelude LwipMem Pbuf InetChksum Ip4Addr Ethernet Ip4 Etharp EtharpInv.
Open Scope Z_scope.

(** ** The kinds of entries that can be recycled *)

Definition kind_stable (e : etharp_entry) : bool :=
  is_stable (state e) && negb (bool_decide (state e = ETHARP_STATE_STATIC)).
Definition kind_pending (e : etharp_entry) : bool :=
  bool_decide (state e = ETHARP_STATE_PENDING) && bool_decide (q e = None).
Definition kind_queue (e : etharp_entry) : bool :=
  bool_decide (state e = ETHARP_STATE_PENDING) && negb (bool_decide (q e = None)).

Definition none_of (k : etharp_entry -> bool) (t : list etharp_entry) : Prop :=
  forall j ej, t !! j = Some ej -> k ej = false.

(** The entry [e] at [n] is the oldest of its kind, the last one of that age. *)
Record oldest (k : etharp_entry -> bool) (t : list etharp_entry) (n : nat) (e : etharp_entry) : Prop := {
  oldest_at : t !! n = Some e;
  oldest_kind : k e = true;
  oldest_age : forall j ej, t !! j = Some ej -> k ej = true -> ctime ej <= ctime e;
  oldest_last : forall j ej, t !! j = Some ej -> k ej = true -> (n < j)%nat -> ctime ej < ctime e
}.

Definition matches (ip : Z) (e : etharp_entry) : Prop := nonempty e /\ ipaddr e = ip.
Definition no_match (ip : Z) (t : list etharp_entry) : Prop := forall j ej, t !! j = Some ej -> ~ matches ip ej.

Definition is_empty (e : etharp_entry) : bool := bool_decide (state e = ETHARP_STATE_EMPTY).

Record first_empty (t : list etharp_entry) (n : nat) (e : etharp_entry) : Prop := {
  first_empty_at : t !! n = Some e;
  first_empty_state : state e = ETHARP_STATE_EMPTY;
  first_empty_first : forall j ej, t !! j = Some ej -> (j < n)%nat -> nonempty ej
}.

(** The order in which entries are given up. *)
Inductive recycled (t : list etharp_entry) (n : nat) (e : etharp_entry) : Prop :=
| recycled_stable : oldest kind_stable t n e -> recycled t n e
| recycled_pending : none_of kind_stable t -> oldest kind_pending t n e -> recycled t n e
| recycled_queue : none_of kind_stable t -> none_of kind_pending t -> oldest kind_queue t n e -> recycled t n e.

(** ** The sweep *)

(** The candidate [x] of age [a] after the entries [t]. *)
Definition candidate (k : etharp_entry -> bool) (t : list etharp_entry) (x a : Z) : Prop :=
  (x = ARP_TABLE_SIZE /\ a = 0 /\ none_of k t) \/
  exists n e, x = Z.of_nat n /\ a = ctime e /\ oldest k t n e.

Lemma lookup_snoc_inv {A} (l : list A) x j y : (l ++ [x]) !! j = Some y ->
  (l !! j = Some y /\ (j < length l)%nat) \/ (j = length l /\ y = x).
Proof.
  intros Hj. destruct (decide (j < length l)%nat) as [Hlt|Hge].
  - rewrite lookup_app_l in Hj by done. by left.
  - rewrite lookup_app_r in Hj by lia. apply list_lookup_singleton_Some in Hj as [? ->]. right. split; [lia|done].
Qed.

(** An entry of another kind, or a younger one. *)
Lemma candidate_skip k t x a e : candidate k t x a -> (k e = true -> ctime e < a) -> 0 <= ctime e \/ k e = false ->
  candidate k (t ++ [e]) x a.
Proof.
  intros [(->&->&Hn)|(n&e0&->&->&[Hat Hk Hage Hlast])] Hskip Hpos.
  - left. split; [done|]. split; [done|]. intros j ej Hj.
    destruct (lookup_snoc_inv _ _ _ _ Hj) as [[Hj' _]|[_ ->]]; [by eapply Hn|].
    destruct (k e); [|done]. specialize (Hskip eq_refl). destruct Hpos; [lia|done].
  - right. exists n, e0. split; [done|]. split; [done|].
    assert (n < length t)%nat by (by eapply lookup_lt_Some).
    split; [by apply lookup_app_l_Some|done| |].
    + intros j ej Hj Hkj. destruct (lookup_snoc_inv _ _ _ _ Hj) as [[Hj' _]|[_ ->]]; [by eapply Hage|].
      specialize (Hskip Hkj). lia.
    + intros j ej Hj Hkj Hnj. destruct (lookup_snoc_inv _ _ _ _ Hj) as [[Hj' _]|[_ ->]]; [by eapply Hlast|].
      by apply Hskip.
Qed.

(** An older one of the kind, or one of the same age. *)
Lemma candidate_take k t x a e : candidate k t x a -> k e = true -> a <= ctime e ->
  candidate k (t ++ [e]) (Z.of_nat (length t)) (ctime e).
Proof.
  intros Hc Hk Ha. right. exists (length t), e. split; [done|]. split; [done|].
  split; [by rewrite list_lookup_middle|done| |].
  - intros j ej Hj Hkj. destruct (lookup_snoc_inv _ _ _ _ Hj) as [[Hj' _]|[_ ->]]; [|lia].
    destruct Hc as [(_&_&Hn)|(n&e0&_&->&Ho)].
    + rewrite (Hn _ _ Hj') in Hkj. done.
    + pose proof (oldest_age _ _ _ _ Ho _ _ Hj' Hkj). lia.
  - intros j ej Hj _ Hlt. apply lookup_lt_Some in Hj. rewrite length_app in Hj. cbn [length] in Hj. lia.
Qed.

Definition empty_candidate (t : list etharp_entry) (x : Z) : Prop :=
  (x = ARP_TABLE_SIZE /\ forall j ej, t !! j = Some ej -> nonempty ej) \/
  exists n e, x = Z.of_nat n /\ first_empty t n e.

Lemma empty_skip t x e : empty_candidate t x -> x <> ARP_TABLE_SIZE \/ nonempty e -> empty_candidate (t ++ [e]) x.
Proof.
  intros [[-> Hn]|(n&e0&->&[Hat Hst Hfirst])] Hskip.
  - left. split; [done|]. intros j ej Hj. destruct (lookup_snoc_inv _ _ _ _ Hj) as [[Hj' _]|[_ ->]]; [by eapply Hn|].
    by destruct Hskip.
  - right. exists n, e0. split; [done|]. split; [by apply lookup_app_l_Some|done|].
    intros j ej Hj Hlt. apply lookup_lt_Some in Hat.
    destruct (lookup_snoc_inv _ _ _ _ Hj) as [[Hj' _]|[? ->]]; [by eapply Hfirst|lia].
Qed.

Lemma empty_take t e : empty_candidate t ARP_TABLE_SIZE -> (Z.of_nat (length t) < ARP_TABLE_SIZE) ->
  state e = ETHARP_STATE_EMPTY -> empty_candidate (t ++ [e]) (Z.of_nat (length t)).
Proof.
  intros Hc Hl He. right. exists (length t), e. split; [done|]. split; [by rewrite list_lookup_middle|done|].
  intros j ej Hj Hlt. destruct (lookup_snoc_inv _ _ _ _ Hj) as [[Hj' _]|[? ->]]; [|lia].
  destruct Hc as [[_ Hn]|(n&e0&Hn&[Hat _ _])]; [by eapply Hn|]. apply lookup_lt_Some in Hat. lia.
Qed.

Record cand_ok (t : list etharp_entry) (c : candidates) : Prop := {
  cand_empty : empty_candidate t (empty c);
  cand_stable : candidate kind_stable t (old_stable c) (age_stable c);
  cand_pending : candidate kind_pending t (old_pending c) (age_pending c);
  cand_queue : candidate kind_queue t (old_queue c) (age_queue c)
}.

Lemma cand_start : cand_ok [] no_candidates.
Proof. split; left; repeat split; try done; intros j ej Hj; by rewrite lookup_nil in Hj. Qed.

(** What the sweep finds. *)
Definition sweep_result (ip : Z) (t : list etharp_entry) (x : Z + candidates) : Prop :=
  match x with
  | inl i => exists n e, i = Z.of_nat n /\ t !! n = Some e /\ matches ip e
  | inr c => cand_ok t c /\ no_match ip t
  end.

Lemma no_match_snoc ip t e : no_match ip t -> ~ matches ip e -> no_match ip (t ++ [e]).
Proof.
  intros Hn He j ej Hj. destruct (lookup_snoc_inv _ _ _ _ Hj) as [[Hj' _]|[_ ->]]; [by eapply Hn|done].
Qed.

Ltac kinds := unfold kind_stable, kind_pending, kind_queue, is_stable, nonempty in *;
  repeat match goal with
         | H : state ?e = _ |- _ => rewrite H in *
         | H : q ?e = _ |- _ => rewrite H in *
         end.

Lemma sweep_ok nif ip : forall tab pre c,
  Forall (entry_ok nif) tab -> Z.of_nat (length (pre ++ tab)) <= ARP_TABLE_SIZE ->
  cand_ok pre c -> no_match ip pre ->
  sweep_result ip (pre ++ tab) (sweep (Some ip) (Z.of_nat (length pre)) tab c).
Proof.
  induction tab as [|e tab IH]; intros pre c Hall Hl Hc Hn.
  - cbn. rewrite app_nil_r. done.
  - apply Forall_cons_1 in Hall as [He Hall].
    assert (Hnext : forall c', cand_ok (pre ++ [e]) c' -> ~ matches ip e ->
              sweep_result ip (pre ++ e :: tab) (sweep (Some ip) (Z.of_nat (length pre) + 1) tab c')).
    { intros c' Hc' Hm. specialize (IH (pre ++ [e]) c' Hall). rewrite <- app_assoc in IH. cbn [app] in IH.
      specialize (IH Hl Hc' (no_match_snoc _ _ _ Hn Hm)). rewrite length_app in IH. cbn [length] in IH.
      replace (Z.of_nat (length pre) + 1) with (Z.of_nat (length pre + 1)) by lia. done. }
    rewrite length_app in Hl. cbn [length] in Hl. clear IH.
    destruct Hc as [C1 C2 C3 C4]. pose proof (ok_age _ _ He) as Hage.
    assert (Hskip : forall k x a, candidate k pre x a -> k e = false -> candidate k (pre ++ [e]) x a)
      by (intros k x a Hk Hke; apply candidate_skip; [done|congruence|by right]).
    assert (Htake : forall k x a, candidate k pre x a -> k e = true -> a <= ctime e ->
              candidate k (pre ++ [e]) (Z.of_nat (length pre)) (ctime e)) by (intros; by eapply candidate_take).
    assert (Hyoung : forall k x a, candidate k pre x a -> ctime e < a -> 0 <= ctime e -> candidate k (pre ++ [e]) x a)
      by (intros; apply candidate_skip; [done|done|by left]).
    cbn [sweep]. destruct (decide (state e = ETHARP_STATE_EMPTY)) as [Hst|Hne].
    { assert (~ matches ip e) by (intros [Hne _]; by apply Hne).
      rewrite !bool_decide_true by done. cbn [negb].
      destruct (Z.eqb_spec (empty c) ARP_TABLE_SIZE) as [Hemp|Hemp]; cbn [andb]; (apply Hnext; [|done]).
      - rewrite Hemp in C1. split; cbn; [apply empty_take; [done|lia|done]| | |]; (apply Hskip; [done|]); by kinds.
      - split; [by apply empty_skip; [|left]| | |]; (apply Hskip; [done|]); by kinds. }
    specialize (Hage Hne). rewrite (bool_decide_false (state e = ETHARP_STATE_EMPTY)), andb_false_r by done. cbn [negb].
    destruct (decide (ip = ipaddr e)) as [Hip|Hip].
    { rewrite bool_decide_true by congruence. exists (length pre), e. split; [done|].
      split; [by rewrite list_lookup_middle|done]. }
    rewrite (bool_decide_false (Some ip = _)) by congruence. apply (empty_skip _ _ e) in C1; [|by right].
    assert (~ matches ip e) by (intros [_ ?]; congruence).
    destruct (decide (state e = ETHARP_STATE_PENDING)) as [Hst|Hnp].
    { rewrite bool_decide_true by done. destruct (q e) as [p|] eqn:Hq; case Z.leb_spec; intros Ha;
        (apply Hnext; [|done]); (split; [done| | |]); cbn;
        first [by apply Hskip; [|kinds]|by eapply Htake; [|kinds|]|apply Hyoung; [done|done|lia]]. }
    rewrite (bool_decide_false (state e = ETHARP_STATE_PENDING)) by done.
    assert (kind_pending e = false /\ kind_queue e = false) as [Hkp Hkq]
      by (unfold kind_pending, kind_queue; by rewrite bool_decide_false).
    destruct (decide (state e = ETHARP_STATE_STATIC)) as [Hst|Hns].
    { rewrite bool_decide_true by done. apply Hnext; [|done].
      split; [done| | |]; (apply Hskip; [done|]); by kinds. }
    rewrite (bool_decide_false (state e = ETHARP_STATE_STATIC)) by done.
    assert (kind_stable e = true) by (unfold kind_stable; destruct (state e); done).
    case Z.leb_spec; intros Ha; (apply Hnext; [|done]); (split; [done| | |]); cbn;
      first [by apply Hskip|by eapply Htake|apply Hyoung; [done|done|lia]].
Qed.

(** ** Changing one entry *)

(** An entry that has been freed, and one that has been taken for an address. *)
Definition freed (e : etharp_entry) : etharp_entry := set_state ETHARP_STATE_EMPTY (set_q None e).
Definition fresh (ip : Z) (e : etharp_entry) : etharp_entry := set_ctime 0 (set_ipaddr ip (freed e)).

Lemma freed_ok nif e : entry_ok nif (freed e).
Proof. split; cbn; try done; intros Hne; by destruct Hne. Qed.

Lemma fresh_ok nif ip e : entry_ok nif (fresh ip e).
Proof. split; cbn; try done; intros Hne; by destruct Hne. Qed.

Section search.
Context {P : Type} `{PacketLaws P} (nif : Z -> netif).
Implicit Types (s : arp P) (r : gmultiset Z).

Lemma queued_same t i e e' : t !! i = Some e -> q e' = q e -> queued (<[i := e']> t) = queued t.
Proof. intros He Hq. destruct (queued_insert t i e e' He) as (r&->&->). unfold queued_at. by rewrite Hq. Qed.

(** The packet leaves the queue. *)
Lemma queued_take t i e e' p : t !! i = Some e -> q e = Some p -> q e' = None ->
  queued t = {[+ p +]} ⊎ queued (<[i := e']> t).
Proof.
  intros He Hq Hq'. destruct (queued_insert t i e e' He) as (r&->&->). unfold queued_at. rewrite Hq, Hq'.
  multiset_solver.
Qed.

(** Another use of an entry for the same address, or one whose address is new. *)
Definition may_put (t : list etharp_entry) (i : nat) (e e' : etharp_entry) : Prop :=
  nonempty e' -> (nonempty e /\ ipaddr e' = ipaddr e) \/ no_match (ipaddr e') t.

Lemma table_put t i e e' : table_ok nif t -> t !! i = Some e -> entry_ok nif e' -> may_put t i e e' ->
  table_ok nif (<[i := e']> t).
Proof.
  intros Ht He He' Hput. destruct (decide (state e' = ETHARP_STATE_EMPTY)) as [Hemp|Hne].
  - apply (table_insert_same nif t i e e' Ht He He'). intros Hne. by destruct Hne.
  - destruct (Hput Hne) as [Hsame|Hno]; [by apply (table_insert_same nif t i e e')|].
    apply (table_insert nif t i e e' Ht He He'). intros _ j ej Hj _ Hnj Heq. by apply (Hno j ej Hj).
Qed.

Lemma good_put s r i e e' : good nif r s -> arp_table s !! i = Some e -> entry_ok nif e' -> q e' = q e ->
  may_put (arp_table s) i e e' -> good nif r (set_arp_table (<[i := e']> (arp_table s)) s).
Proof.
  intros (Ht&Hc&Ho) He He' Hq Hput. split; [by apply (table_put _ _ e)|]. split; [done|].
  cbn. by rewrite (queued_same _ _ e).
Qed.

(** The rest of the table must be in order, not the entry itself. *)
Lemma free_any_ok s r i e : table_ok nif (<[Z.to_nat i := freed e]> (arp_table s)) ->
  0 <= etharp_cached_entry s < ARP_TABLE_SIZE -> owns (queued (arp_table s) ⊎ r) (packets s) ->
  0 <= i -> arp_table s !! Z.to_nat i = Some e ->
  exists s', etharp_free_entry i s = Ok s' /\ arp_table s' = <[Z.to_nat i := freed e]> (arp_table s) /\
    etharp_cached_entry s' = etharp_cached_entry s /\ good nif r s'.
Proof.
  intros Ht' Hc Ho Hi He. unfold etharp_free_entry. rewrite (entry_at_ok s i e Hi He). cbn [rbind].
  assert (Hlt := lookup_lt_Some _ _ _ He).
  destruct (q e) as [p|] eqn:Hq.
  - destruct (free_ok s (queued (<[Z.to_nat i := freed e]> (arp_table s)) ⊎ r) p) as (s1&->&[Hs1 Hc1]&Ho1).
    { rewrite (queued_take _ _ e (freed e) p He Hq eq_refl) in Ho. by rewrite (assoc_L (⊎)). }
    cbn [rbind]. rewrite (update_entry_ok s1 i e) by (rewrite ?Hs1; done). cbn [rbind].
    rewrite (update_entry_ok _ i (set_q None e)) by (cbn; rewrite ?Hs1, ?list_lookup_insert_eq; done).
    eexists. split; [reflexivity|]. cbn. rewrite Hs1, list_insert_insert_eq. split; [done|]. split; [done|].
    split; [done|]. split; [cbn; congruence|done].
  - cbn [rbind]. rewrite (update_entry_ok s i e) by done. eexists. split; [reflexivity|]. cbn.
    assert (Hfr : set_state ETHARP_STATE_EMPTY e = freed e) by (unfold freed; destruct e; cbn in *; by rewrite Hq).
    rewrite Hfr. split; [done|]. split; [done|]. split; [done|]. split; [done|]. cbn. by rewrite (queued_same _ _ e).
Qed.

Lemma free_entry_ok s r i e : good nif r s -> 0 <= i -> arp_table s !! Z.to_nat i = Some e ->
  exists s', etharp_free_entry i s = Ok s' /\ arp_table s' = <[Z.to_nat i := freed e]> (arp_table s) /\
    etharp_cached_entry s' = etharp_cached_entry s /\ good nif r s'.
Proof.
  intros (Ht&Hc&Ho) Hi He. apply free_any_ok; try done.
  apply (table_put _ _ e); [done|done|apply freed_ok|intros Hne; by destruct Hne].
Qed.

(** ** The specification of the search *)

Definition flag (flags f : Z) : Prop := Z.land flags f <> 0.

Inductive found (ip flags : Z) (t : list etharp_entry) : option Z -> list etharp_entry -> Prop :=
| found_match n e : t !! n = Some e -> matches ip e -> found ip flags t (Some (Z.of_nat n)) t
| found_only : no_match ip t -> flag flags ETHARP_FLAG_FIND_ONLY -> found ip flags t None t
| found_full : no_match ip t -> none_of is_empty t ->
    (~ flag flags ETHARP_FLAG_TRY_HARD \/ none_of kind_stable t /\ none_of kind_pending t /\ none_of kind_queue t) ->
    found ip flags t None t
| found_empty n e : no_match ip t -> ~ flag flags ETHARP_FLAG_FIND_ONLY -> first_empty t n e ->
    found ip flags t (Some (Z.of_nat n)) (<[n := fresh ip e]> t)
| found_recycled n e : no_match ip t -> ~ flag flags ETHARP_FLAG_FIND_ONLY -> flag flags ETHARP_FLAG_TRY_HARD ->
    none_of is_empty t -> recycled t n e -> found ip flags t (Some (Z.of_nat n)) (<[n := fresh ip e]> t).

Lemma recyclable_ok t c : cand_ok t c -> (length t <= Z.to_nat ARP_TABLE_SIZE)%nat ->
  match recyclable c with
  | Some i => exists n e, i = Z.of_nat n /\ t !! n = Some e /\ recycled t n e
  | None => none_of kind_stable t /\ none_of kind_pending t /\ none_of kind_queue t
  end.
Proof.
  intros [_ C1 C2 C3] Hl. unfold recyclable.
  assert (Hcase : forall k x a, candidate k t x a -> (x = ARP_TABLE_SIZE /\ none_of k t) \/
            (x < ARP_TABLE_SIZE /\ exists n e, x = Z.of_nat n /\ oldest k t n e)).
  { intros k x a [(->&_&Hn)|(m&e&->&_&Ho)]; [by left|right].
    pose proof (lookup_lt_Some _ _ _ (oldest_at _ _ _ _ Ho)). split; [unfold ARP_TABLE_SIZE in *; lia|by exists m, e]. }
  destruct (Hcase _ _ _ C1) as [[-> Hn1]|(Hlt&m&e&Hm&Ho)].
  2:{ rewrite (proj2 (Z.ltb_lt _ _)) by done. exists m, e. split; [done|]. split; [apply Ho|by apply recycled_stable]. }
  rewrite Z.ltb_irrefl. destruct (Hcase _ _ _ C2) as [[-> Hn2]|(Hlt&m&e&Hm&Ho)].
  2:{ rewrite (proj2 (Z.ltb_lt _ _)) by done. exists m, e. split; [done|]. split; [apply Ho|by apply recycled_pending]. }
  rewrite Z.ltb_irrefl. destruct (Hcase _ _ _ C3) as [[-> Hn3]|(Hlt&m&e&Hm&Ho)].
  2:{ rewrite (proj2 (Z.ltb_lt _ _)) by done. exists m, e. split; [done|]. split; [apply Ho|by apply recycled_queue]. }
  by rewrite Z.ltb_irrefl.
Qed.

(** The entry gets its address. *)
Lemma take_entry_ok s r i e ip : good nif r s -> 0 <= i -> arp_table s !! Z.to_nat i = Some e ->
  state e = ETHARP_STATE_EMPTY ->
  exists s', (let* s := update_entry i (set_ipaddr ip) s in
              let* s := update_entry i (set_ctime 0) s in Ok (Some i, s)) = Ok (Some i, s') /\
    arp_table s' = <[Z.to_nat i := fresh ip e]> (arp_table s) /\
    etharp_cached_entry s' = etharp_cached_entry s /\ good nif r s'.
Proof.
  intros Hg Hi He Hst. assert (Hlt := lookup_lt_Some _ _ _ He).
  assert (Hq : q e = None).
  { destruct Hg as ((_&Hall&_)&_). pose proof (Forall_lookup_1 _ _ _ _ Hall He) as Hok.
    destruct (q e) eqn:Hq; [|done]. pose proof (ok_queue _ _ Hok). rewrite Hq, Hst in *. naive_solver. }
  assert (Hfr : set_ctime 0 (set_ipaddr ip e) = fresh ip e) by (destruct e; cbn in *; by subst).
  rewrite (update_entry_ok s i e) by done. cbn [rbind].
  rewrite update_again by done. cbn [rbind].
  eexists. split; [reflexivity|]. cbn. rewrite Hfr. split; [done|]. split; [done|].
  apply (good_put _ _ _ e); [done|done|apply fresh_ok|by cbn|intros Hne; by destruct Hne].
Qed.

Lemma none_empty t x : empty_candidate t x -> x = ARP_TABLE_SIZE -> (length t <= Z.to_nat ARP_TABLE_SIZE)%nat ->
  none_of is_empty t.
Proof.
  intros [[_ Hn]|(n&e&->&Hf)] Hx Hl.
  - intros j ej Hj. apply bool_decide_eq_false_2. by apply (Hn j).
  - pose proof (lookup_lt_Some _ _ _ (first_empty_at _ _ _ Hf)). lia.
Qed.

Lemma flag_eqb flags f : (Z.land flags f =? 0) = false <-> flag flags f.
Proof. unfold flag. by rewrite Z.eqb_neq. Qed.

Lemma find_entry_ok s r ip flags : good nif r s ->
  exists o s', etharp_find_entry (Some ip) flags s = Ok (o, s') /\
    found ip flags (arp_table s) o (arp_table s') /\
    etharp_cached_entry s' = etharp_cached_entry s /\ good nif r s'.
Proof.
  intros Hg. unfold etharp_find_entry. destruct (Hg) as ((Hl&Hall&_)&_&_).
  pose proof (sweep_ok nif ip (arp_table s) [] no_candidates Hall) as Hsw. cbn [app length] in Hsw.
  specialize (Hsw ltac:(rewrite Hl; done) cand_start ltac:(intros j ej Hj; by rewrite lookup_nil in Hj)).
  change (Z.of_nat 0) with 0 in Hsw. destruct (sweep _ _ _ _) as [i|c]; cbn in Hsw.
  { destruct Hsw as (n&e&->&He&Hm). eexists _, _. split; [reflexivity|]. by split; [econstructor|]. }
  destruct Hsw as [Hc Hno].
  destruct (Z.land flags ETHARP_FLAG_FIND_ONLY =? 0) eqn:Hfo; cbn [negb orb].
  2:{ eexists _, _. split; [reflexivity|]. split; [apply found_only; [done|by apply flag_eqb]|done]. }
  assert (Hnfo : ~ flag flags ETHARP_FLAG_FIND_ONLY) by (rewrite <- flag_eqb; congruence).
  destruct (Z.eqb_spec (empty c) ARP_TABLE_SIZE) as [Hemp|Hemp]; cbn [andb].
  - pose proof (none_empty _ _ (cand_empty _ _ Hc) Hemp ltac:(lia)) as Hne. rewrite Hemp, Z.ltb_irrefl.
    pose proof (recyclable_ok _ _ Hc ltac:(lia)) as Hrec.
    destruct (Z.land flags ETHARP_FLAG_TRY_HARD =? 0) eqn:Hth.
    { eexists _, _. split; [reflexivity|]. split; [apply found_full; [done|done|left]|done].
      rewrite <- flag_eqb. congruence. }
    destruct (recyclable c) as [i|].
    2:{ cbn [rbind]. eexists _, _. split; [reflexivity|]. split; [apply found_full; [done|done|by right]|done]. }
    destruct Hrec as (n&e&->&He&Hrec).
    destruct (free_entry_ok s r (Z.of_nat n) e Hg ltac:(lia)) as (s1&->&Ht1&Hc1&Hg1); [by rewrite Nat2Z.id|].
    cbn [rbind]. rewrite Nat2Z.id in Ht1. assert (Hlt := lookup_lt_Some _ _ _ He).
    destruct (take_entry_ok s1 r (Z.of_nat n) (freed e) ip Hg1 ltac:(lia)) as (s2&->&Ht2&Hc2&Hg2);
      [by rewrite Nat2Z.id, Ht1, list_lookup_insert_eq|done|].
    rewrite Nat2Z.id, Ht1, list_insert_insert_eq in Ht2. eexists _, s2. split; [reflexivity|]. rewrite Ht2.
    change (fresh ip (freed e)) with (fresh ip e).
    split; [|split; [congruence|done]]. apply found_recycled; try done. by apply flag_eqb.
  - destruct (cand_empty _ _ Hc) as [[? _]|(n&e&Hn&Hf)]; [done|].
    assert (Hlt := lookup_lt_Some _ _ _ (first_empty_at _ _ _ Hf)).
    rewrite (proj2 (Z.ltb_lt _ _)) by (unfold ARP_TABLE_SIZE in *; lia). cbn [rbind]. rewrite Hn.
    destruct (take_entry_ok s r (Z.of_nat n) e ip Hg ltac:(lia)) as (s2&->&Ht2&Hc2&Hg2);
      [rewrite Nat2Z.id; apply Hf|apply Hf|].
    rewrite Nat2Z.id in Ht2. eexists _, s2. split; [reflexivity|]. rewrite Ht2. split; [by apply found_empty|done].
Qed.

End search.

(** What the callers use: the entry is there for the address, in use with the
    table as it was, or empty with no other entry for the address. *)
Lemma found_some ip flags t i t' : found ip flags t (Some i) t' -> (length t <= Z.to_nat ARP_TABLE_SIZE)%nat ->
  0 <= i < ARP_TABLE_SIZE /\ exists e, t' !! Z.to_nat i = Some e /\ ipaddr e = ip /\
    ((nonempty e /\ t' = t) \/
     (state e = ETHARP_STATE_EMPTY /\ q e = None /\ ctime e = 0 /\ no_match ip t')).
Proof.
  assert (Hput : forall n e, t !! n = Some e -> (length t <= Z.to_nat ARP_TABLE_SIZE)%nat -> no_match ip t ->
    0 <= Z.of_nat n < ARP_TABLE_SIZE /\ exists e', <[n := fresh ip e]> t !! Z.to_nat (Z.of_nat n) = Some e' /\ ipaddr e' = ip /\
    ((nonempty e' /\ <[n := fresh ip e]> t = t) \/
     (state e' = ETHARP_STATE_EMPTY /\ q e' = None /\ ctime e' = 0 /\ no_match ip (<[n := fresh ip e]> t)))).
  { intros n e He Hl Hno. assert (Hlt := lookup_lt_Some _ _ _ He).
    split; [unfold ARP_TABLE_SIZE in *; lia|]. exists (fresh ip e). rewrite Nat2Z.id, list_lookup_insert_eq by done.
    split; [done|]. split; [done|]. right. repeat (split; [done|]).
    intros j ej Hj. apply list_lookup_insert_Some in Hj as [(_&<-&_)|[_ Hj]]; [by intros [Hne _]|by eapply Hno]. }
  intros Hf Hl. inversion Hf as [n e He [Hne Hip]| | | |]; subst.
  - assert (Hlt := lookup_lt_Some _ _ _ He). split; [unfold ARP_TABLE_SIZE in *; lia|]. exists e.
    rewrite Nat2Z.id. naive_solver.
  - apply Hput; [by apply first_empty_at|done|done].
  - apply Hput; [|done|done]. match goal with H : recycled _ _ _ |- _ => destruct H as [Ho|_ Ho|_ _ Ho]; apply Ho end.
Qed.
