(* ===== verification/EtharpOps.v ===== *)
(** * The operations on the ARP table

    For every function of [Etharp]: it returns, the table is in order afterwards,
    the references to packets add up, static entries are still there unless the
    call is about them, and what the entry holds then. *)

From stdpp Require Import base numbers list decidable gmap gmultiset.
From Stdlib Require Import ZArith Lia Bool.
From S2P Require Import Prelude LwipMem Pbuf InetChksum Ip4Addr Ethernet Ip4 Etharp EtharpInv EtharpFind.
Open Scope Z_scope.

(** ** Static entries *)

Definition has_static (t : list etharp_entry) (ip : Z) (hw : list Z) (np : Z) : Prop :=
  exists n e, t !! n = Some e /\ state e = ETHARP_STATE_STATIC /\ ipaddr e = ip /\ ethaddr e = hw /\ e_netif e = Some np.

Definition keeps (t t' : list etharp_entry) : Prop :=
  forall ip hw np, has_static t ip hw np -> has_static t' ip hw np.

#[export] Instance keeps_preorder : PreOrder keeps.
Proof. split; [by intros t ip hw np|]. intros t1 t2 t3 H1 H2 ip hw np Hs. by apply H2, H1. Qed.

Lemma has_static_put t i e e' ip hw np : t !! i = Some e -> has_static t ip hw np ->
  (state e = ETHARP_STATE_STATIC -> ipaddr e = ip -> e_netif e = Some np ->
   state e' = state e /\ ipaddr e' = ipaddr e /\ ethaddr e' = ethaddr e /\ e_netif e' = e_netif e) ->
  has_static (<[i := e']> t) ip hw np.
Proof.
  intros He (n&e0&He0&Hst&Hip&Hhw&Hnp) Hsame. destruct (decide (n = i)) as [->|Hne].
  - rewrite He in He0. injection He0 as ->. destruct (Hsame Hst Hip Hnp) as (?&?&?&?). exists i, e'.
    rewrite list_lookup_insert_eq by (by eapply lookup_lt_Some). repeat split; congruence.
  - exists n, e0. by rewrite list_lookup_insert_ne.
Qed.

Lemma keeps_put t i e e' : t !! i = Some e -> state e <> ETHARP_STATE_STATIC -> keeps t (<[i := e']> t).
Proof. intros He Hst ip hw np Hs. by apply (has_static_put t i e e'). Qed.

Lemma keeps_found ip flags t o t' : found ip flags t o t' -> keeps t t'.
Proof.
  destruct 1 as [| | |n e _ _ Hf|n e _ _ _ _ Hr]; try done.
  - apply (keeps_put t n e); [apply Hf|]. by rewrite (first_empty_state _ _ _ Hf).
  - assert (exists k, oldest k t n e /\ (k e = true -> state e <> ETHARP_STATE_STATIC)) as (k&Ho&Hk).
    { destruct Hr as [Ho|_ Ho|_ _ Ho]; eexists; (split; [exact Ho|]); intros Hk Hst; kinds; done. }
    apply (keeps_put t n e); [apply Ho|]. apply Hk, Ho.
Qed.

(** ** A pass over the table *)

Section operations.
Context {P : Type} `{PacketLaws P} (nif : Z -> netif).
Implicit Types (s : arp P) (r : gmultiset Z).

(** [f] replaces an entry [e] by [g e]. *)
Definition maps_entry r (f : Z -> arp P -> result (arp P)) (g : etharp_entry -> etharp_entry) : Prop :=
  forall i e s, good nif r s -> 0 <= i -> arp_table s !! Z.to_nat i = Some e ->
    exists s', f i s = Ok s' /\ arp_table s' = <[Z.to_nat i := g e]> (arp_table s) /\
      etharp_cached_entry s' = etharp_cached_entry s /\ good nif r s'.

Lemma each_entry_ok r f g : maps_entry r f g -> forall post pre s, good nif r s -> arp_table s = pre ++ post ->
  exists s', each_entry f (length post) (Z.of_nat (length pre)) s = Ok s' /\ arp_table s' = pre ++ map g post /\
    etharp_cached_entry s' = etharp_cached_entry s /\ good nif r s'.
Proof.
  intros Hf. induction post as [|e post IH]; intros pre s Hg Ht; cbn [length each_entry map].
  - rewrite app_nil_r in *. by exists s.
  - destruct (Hf (Z.of_nat (length pre)) e s Hg ltac:(lia)) as (s1&->&Ht1&Hc1&Hg1);
      [by rewrite Nat2Z.id, Ht, list_lookup_middle|]. cbn [rbind].
    rewrite Nat2Z.id, Ht, insert_app_r_alt, Nat.sub_diag in Ht1 by done. cbn in Ht1.
    destruct (IH (pre ++ [g e]) s1 Hg1) as (s2&Hs2&Ht2&Hc2&Hg2); [by rewrite <- app_assoc|].
    rewrite length_app in Hs2. cbn [length] in Hs2.
    replace (Z.of_nat (length pre) + 1) with (Z.of_nat (length pre + 1)) by lia. exists s2. split; [done|].
    rewrite <- app_assoc in Ht2. cbn [app] in Ht2. split; [done|]. split; [congruence|done].
Qed.

Lemma each_table_ok r f g s : maps_entry r f g -> good nif r s ->
  exists s', each_entry f (Z.to_nat ARP_TABLE_SIZE) 0 s = Ok s' /\ arp_table s' = map g (arp_table s) /\
    etharp_cached_entry s' = etharp_cached_entry s /\ good nif r s'.
Proof.
  intros Hf Hg. destruct (each_entry_ok r f g Hf (arp_table s) [] s Hg eq_refl) as (s'&Hs'&Ht).
  destruct Hg as ((Hl&_)&_). rewrite Hl in Hs'. by exists s'.
Qed.

Lemma keeps_map g t : (forall e, state e = ETHARP_STATE_STATIC -> g e = e) -> keeps t (map g t).
Proof.
  intros Hg ip hw np (n&e&He&Hst&Hrest). exists n, e. split; [|done].
  rewrite list_lookup_fmap, He. cbn. by rewrite Hg.
Qed.

(** *** The timer *)

(** An entry one tick of the timer later. *)
Definition aged (e : etharp_entry) : etharp_entry :=
  match state e with
  | ETHARP_STATE_EMPTY | ETHARP_STATE_STATIC => e
  | st =>
      let e := set_ctime (ctime e + 1) e in
      if (ARP_MAXAGE <=? ctime e) || (bool_decide (st = ETHARP_STATE_PENDING) && (ARP_MAXPENDING <=? ctime e))
      then freed e
      else match st with
           | ETHARP_STATE_STABLE_REREQUESTING_1 => set_state ETHARP_STATE_STABLE_REREQUESTING_2 e
           | ETHARP_STATE_STABLE_REREQUESTING_2 => set_state ETHARP_STATE_STABLE e
           | _ => e
           end
  end.

Lemma good_packets s s' r : good nif r s -> same_table s s' -> owns (queued (arp_table s) ⊎ r) (packets s') ->
  good nif r s'.
Proof. intros (Ht&Hc&_) [Hs Hc'] Ho. split; [by rewrite Hs|]. split; [by rewrite Hc'|]. by rewrite Hs. Qed.

Lemma request_ok s r n ip hw : good nif r s ->
  exists e s', etharp_request_dst n ip hw s = Ok (e, s') /\ same_table s s' /\ good nif r s'.
Proof.
  intros Hg. unfold etharp_request_dst.
  destruct (raw_ok nif s (queued (arp_table s) ⊎ r) n (hwaddr n) hw (hwaddr n) (ip_addr n) ethzero ip ARP_REQUEST)
    as (e&s'&->&Hs&Ho); [apply Hg|]. exists e, s'. split; [done|]. split; [done|]. by apply (good_packets s).
Qed.

(** The three things that happen to an entry that is in use. *)
Lemma aged_cases e : entry_ok nif e -> nonempty e -> state e <> ETHARP_STATE_STATIC ->
  let e1 := set_ctime (ctime e + 1) e in
  let old := (ARP_MAXAGE <=? ctime e1) || (bool_decide (state e1 = ETHARP_STATE_PENDING) && (ARP_MAXPENDING <=? ctime e1)) in
  (old = true /\ aged e = freed e1) \/
  (old = false /\ entry_ok nif (aged e) /\ nonempty (aged e) /\ ipaddr (aged e) = ipaddr e /\ q (aged e) = q e /\
   aged e = match state e1 with
            | ETHARP_STATE_STABLE_REREQUESTING_1 => set_state ETHARP_STATE_STABLE_REREQUESTING_2 e1
            | ETHARP_STATE_STABLE_REREQUESTING_2 => set_state ETHARP_STATE_STABLE e1
            | _ => e1
            end).
Proof.
  intros [Hq Hage Hpend _ Huni] Hne Hns e1 old. specialize (Hage Hne). specialize (Huni Hne).
  assert (Hold : old = false -> ctime e + 1 < ARP_MAXAGE /\ (state e = ETHARP_STATE_PENDING -> ctime e + 1 < ARP_MAXPENDING)).
  { intros Ho. apply orb_false_iff in Ho as [Ho1 Ho2]. apply Z.leb_gt in Ho1. cbn in Ho1, Ho2. split; [done|].
    intros Hst. rewrite bool_decide_true in Ho2 by done. by apply Z.leb_gt in Ho2. }
  unfold aged. fold e1. unfold nonempty in Hne. change (state e) with (state e1) in *.
  destruct (state e1) eqn:Hst; try done; cbn zeta; fold old;
    (destruct old; [by left|right]); specialize (Hold eq_refl); cbn in Hst, Hq; (split; [done|]);
    (split; [|unfold nonempty; cbn; rewrite ?Hst; done]);
    split; unfold nonempty; cbn; rewrite ?Hst; try done; try lia; try (intros Hq'; by specialize (Hq Hq')).
  by destruct Hold.
Qed.

Lemma tmr_entry_ok r : maps_entry r (tmr_entry nif) aged.
Proof.
  intros i e s Hg Hi He. unfold tmr_entry. rewrite (entry_at_ok s i e Hi He). cbn [rbind].
  assert (Hlt := lookup_lt_Some _ _ _ He). destruct (Hg) as (Ht&Hc&Ho).
  assert (Hok : entry_ok nif e) by (destruct Ht as (_&Hall&_); by eapply Forall_lookup_1).
  destruct (bool_decide (state e = ETHARP_STATE_EMPTY) || bool_decide (state e = ETHARP_STATE_STATIC)) eqn:Hidle.
  { exists s. split; [done|]. split; [|done]. rewrite list_insert_id; [done|].
    rewrite He. f_equal. unfold aged. by destruct (state e). }
  apply orb_false_iff in Hidle as [Hne Hns]. apply bool_decide_eq_false_1 in Hne, Hns.
  pose proof (ok_age _ _ Hok Hne) as Hage. pose proof (aged_cases e Hok Hne Hns) as Hcases. cbn zeta in Hcases.
  rewrite (update_entry_ok s i e) by done. cbn [rbind]. rewrite wrap16_small by (unfold ARP_MAXAGE in *; lia).
  set (e1 := set_ctime (ctime e + 1) e) in *.
  set (s1 := set_arp_table (<[Z.to_nat i := e1]> (arp_table s)) s).
  assert (He1 : arp_table s1 !! Z.to_nat i = Some e1) by (cbn; by rewrite list_lookup_insert_eq).
  rewrite (entry_at_ok s1 i e1) by done. cbn [rbind]. destruct Hcases as [[-> ->]|(->&Hok'&Hne'&Hip&Hq&Haged)].
  - destruct (free_any_ok nif s1 r i e1) as (s2&->&Ht2&Hc2&Hg2); try done.
    + cbn. rewrite list_insert_insert_eq. apply (table_put nif _ _ e); [done|done|apply freed_ok|intros Hx; by destruct Hx].
    + cbn. by rewrite (queued_same _ _ e).
    + exists s2. split; [done|]. rewrite Ht2. cbn. by rewrite list_insert_insert_eq.
  - assert (Hg2 : good nif r (set_arp_table (<[Z.to_nat i := aged e]> (arp_table s)) s)) by
      (apply (good_put nif s r _ e); try done; by left).
    destruct (state e1) eqn:Hst; rewrite Haged in *; try (exists s1; done);
      try (unfold s1; rewrite update_again by done; eexists; split; [reflexivity|done]).
    (* a pending entry asks again *)
    destruct (ok_unicast _ _ Hok Hne) as (np&Hnp&_). change (e_netif e1) with (e_netif e). rewrite Hnp. cbn [not_null rbind].
    unfold etharp_request. destruct (request_ok s1 r (nif np) (ipaddr e1) ethbroadcast Hg2) as (x&s2&->&[Hs2 Hc2]&Hg3).
    cbn [rbind]. exists s2. by rewrite Hs2.
Qed.

Lemma tmr_ok s r : good nif r s ->
  exists s', etharp_tmr nif s = Ok s' /\ arp_table s' = map aged (arp_table s) /\
    etharp_cached_entry s' = etharp_cached_entry s /\ good nif r s'.
Proof. apply each_table_ok, tmr_entry_ok. Qed.

(** *** Taking an interface down *)

Definition cleaned (np : Z) (e : etharp_entry) : etharp_entry :=
  if negb (bool_decide (state e = ETHARP_STATE_EMPTY)) && bool_decide (e_netif e = Some np) then freed e else e.

Lemma cleanup_ok np s r : good nif r s ->
  exists s', etharp_cleanup_netif np s = Ok s' /\ arp_table s' = map (cleaned np) (arp_table s) /\
    etharp_cached_entry s' = etharp_cached_entry s /\ good nif r s'.
Proof.
  apply each_table_ok. intros i e s0 Hg Hi He. unfold cleanup_entry, cleaned.
  rewrite (entry_at_ok s0 i e Hi He). cbn [rbind]. case_match; [by apply free_entry_ok|].
  exists s0. by rewrite list_insert_id.
Qed.

(** *** Learning an address *)

(** The entry that an update leaves. *)
Definition learned (np ip : Z) (hw : list Z) (flags : Z) (e : etharp_entry) : Prop :=
  state e = (if Z.land flags ETHARP_FLAG_STATIC_ENTRY =? 0 then ETHARP_STATE_STABLE else ETHARP_STATE_STATIC) /\
  ipaddr e = ip /\ e_netif e = Some np /\ ethaddr e = take 6 hw /\ ctime e = 0 /\ q e = None.

Definition has_entry (t : list etharp_entry) (Q : etharp_entry -> Prop) : Prop := exists n e, t !! n = Some e /\ Q e.

Inductive updated (np ip : Z) (hw : list Z) (flags : Z) (t t' : list etharp_entry) : err_t -> Prop :=
| updated_arg : non_unicast ip (nif np) = true -> t' = t -> updated np ip hw flags t t' ERR_ARG
| updated_mem : found ip flags t None t' -> updated np ip hw flags t t' ERR_MEM
| updated_val : Z.land flags ETHARP_FLAG_STATIC_ENTRY = 0 ->
    has_entry t (fun e => state e = ETHARP_STATE_STATIC /\ ipaddr e = ip) -> t' = t -> updated np ip hw flags t t' ERR_VAL
| updated_ok : non_unicast ip (nif np) = false -> has_entry t' (learned np ip hw flags) -> updated np ip hw flags t t' ERR_OK.

(** The statics of other addresses. *)
Definition keeps_but (ip : Z) (t t' : list etharp_entry) : Prop :=
  forall ip' hw np, ip' <> ip -> has_static t ip' hw np -> has_static t' ip' hw np.

Lemma keeps_keeps_but ip t t' : keeps t t' -> keeps_but ip t t'.
Proof. intros Hk ip' hw np _. apply Hk. Qed.

Lemma put_learned t i e e' : t !! i = Some e ->
  keeps_but (ipaddr e) t (<[i := e']> t) /\ (state e <> ETHARP_STATE_STATIC -> keeps t (<[i := e']> t)).
Proof.
  intros He. split; [|by apply keeps_put]. intros ip' hw np Hne Hs. by apply (has_static_put t i e e').
Qed.

(** A packet leaves the queue of an entry, is sent and freed. *)
Lemma flush_ok s r i e e' p n src dst ty : good nif r s -> arp_table s !! i = Some e -> q e = Some p -> q e' = None ->
  table_ok nif (<[i := e']> (arp_table s)) ->
  exists s', (let* (_, s) := on_packets_r (pkt_output n p src dst ty) (set_arp_table (<[i := e']> (arp_table s)) s) in
              let* s := on_packets (pkt_free p) s in Ok (ERR_OK, s)) = Ok (ERR_OK, s') /\
    arp_table s' = <[i := e']> (arp_table s) /\ good nif r s'.
Proof.
  intros (Ht&Hc&Ho) He Hq Hq' Ht'. set (s1 := set_arp_table _ s).
  rewrite (queued_take _ i e e' p He Hq Hq'), <- (assoc_L (⊎)) in Ho.
  destruct (output_ok s1 _ n p src dst ty Ho) as (x&s2&->&[Hs2 Hc2]&Ho2); [multiset_solver|]. cbn [rbind].
  destruct (free_ok s2 _ p Ho2) as (s3&->&[Hs3 Hc3]&Ho3). cbn [rbind]. exists s3. split; [done|].
  assert (Hs : arp_table s3 = <[i := e']> (arp_table s)) by (rewrite Hs3, Hs2; done).
  split; [done|]. split; [by rewrite Hs|]. split; [rewrite Hc3, Hc2; done|]. by rewrite Hs.
Qed.

Lemma update_ok s r np ip hw flags : good nif r s ->
  exists x s', etharp_update_arp_entry nif np ip hw flags s = Ok (x, s') /\ good nif r s' /\
    keeps_but ip (arp_table s) (arp_table s') /\
    (Z.land flags ETHARP_FLAG_STATIC_ENTRY = 0 -> keeps (arp_table s) (arp_table s')) /\
    updated np ip hw flags (arp_table s) (arp_table s') x.
Proof.
  intros Hg. unfold etharp_update_arp_entry. destruct (non_unicast ip (nif np)) eqn:Hu.
  { eexists _, s. split; [reflexivity|]. split; [done|]. split; [by intros ???|]. split; [done|]. by apply updated_arg. }
  destruct (find_entry_ok nif s r ip flags Hg) as (o&s1&->&Hf&_&Hg1). cbn [rbind].
  pose proof (keeps_found _ _ _ _ _ Hf) as Hk1. destruct o as [i|].
  2:{ eexists _, s1. split; [reflexivity|]. split; [done|]. split; [by apply keeps_keeps_but|].
      split; [done|]. by apply updated_mem. }
  destruct (found_some _ _ _ _ _ Hf) as (Hi&e&He&Hip&Hcase); [destruct Hg as ((->&_)&_); done|].
  assert (Hlt := lookup_lt_Some _ _ _ He). rewrite (entry_at_ok s1 i e) by (done || lia). cbn [rbind].
  destruct ((Z.land flags ETHARP_FLAG_STATIC_ENTRY =? 0) && bool_decide (state e = ETHARP_STATE_STATIC)) eqn:Hval.
  { apply andb_true_iff in Hval as [Hfl Hst]. apply Z.eqb_eq in Hfl. apply bool_decide_eq_true_1 in Hst.
    eexists _, s1. split; [reflexivity|]. split; [done|]. split; [by apply keeps_keeps_but|]. split; [done|].
    destruct Hcase as [[_ Ht]|(Hemp&_)]; [|congruence]. apply updated_val; [done| |done].
    exists (Z.to_nat i), e. by rewrite <- Ht. }
  rewrite (update_entry_ok s1 i e) by (done || lia). cbn [rbind].
  do 3 (rewrite update_again by (done || lia); cbn [rbind]).
  set (e1 := set_ctime 0 _). set (e2 := set_q None e1).
  assert (Hl2 : learned np ip hw flags e2) by done.
  assert (Hok2 : entry_ok nif e2).
  { split; cbn; try done. intros _. exists np. by rewrite Hip. }
  assert (Ht2 : table_ok nif (<[Z.to_nat i := e2]> (arp_table s1))).
  { apply (table_put nif _ _ e); [apply Hg1|done|done|]. intros _. cbn.
    destruct Hcase as [[Hne _]|(_&_&_&Hno)]; [by left|right; by rewrite Hip]. }
  destruct (put_learned (arp_table s1) (Z.to_nat i) e e2 He) as [Hb Hk]. rewrite Hip in Hb.
  assert (Hend : forall s', arp_table s' = <[Z.to_nat i := e2]> (arp_table s1) -> good nif r s' ->
    good nif r s' /\ keeps_but ip (arp_table s) (arp_table s') /\
    (Z.land flags ETHARP_FLAG_STATIC_ENTRY = 0 -> keeps (arp_table s) (arp_table s')) /\
    updated np ip hw flags (arp_table s) (arp_table s') ERR_OK).
  { intros s' -> Hg'. split; [done|]. split; [|split].
    - intros ip' hw' np' Hne Hs. by apply Hb, Hk1.
    - intros Hfl. etrans; [exact Hk1|]. apply Hk. rewrite (proj2 (Z.eqb_eq _ _) Hfl) in Hval. cbn [andb] in Hval.
      by apply bool_decide_eq_false_1 in Hval.
    - apply updated_ok; [done|]. exists (Z.to_nat i), e2. by rewrite list_lookup_insert_eq. }
  rewrite (entry_at_ok _ i e1) by (cbn; rewrite ?list_lookup_insert_eq; (done || lia)). cbn [rbind].
  change (q e1) with (q e). destruct (q e) as [p|] eqn:Hq.
  - rewrite update_again by (done || lia). cbn [rbind]. fold e2.
    destruct (flush_ok s1 r (Z.to_nat i) e e2 p (nif np) (hwaddr (nif np)) hw ETHTYPE_IP) as (s'&->&Ht'&Hg'); try done.
    eexists _, s'. split; [reflexivity|]. by apply Hend.
  - assert (He12 : e1 = e2) by (unfold e2; destruct e; cbn in *; by subst). rewrite He12.
    eexists _, _. split; [reflexivity|]. apply Hend; [done|]. split; [done|]. split; [apply Hg1|]. cbn.
    rewrite (queued_same _ _ e) by (done || congruence). apply Hg1.
Qed.

Lemma remove_static_ok s r ip : good nif r s ->
  exists x s', etharp_remove_static_entry ip s = Ok (x, s') /\ good nif r s' /\
    keeps_but ip (arp_table s) (arp_table s').
Proof.
  intros Hg. unfold etharp_remove_static_entry.
  destruct (find_entry_ok nif s r ip ETHARP_FLAG_FIND_ONLY Hg) as (o&s1&->&Hf&_&Hg1). cbn [rbind].
  pose proof (keeps_found _ _ _ _ _ Hf) as Hk1. destruct o as [i|].
  2:{ eexists _, s1. split; [reflexivity|]. split; [done|]. by apply keeps_keeps_but. }
  destruct (found_some _ _ _ _ _ Hf) as (Hi&e&He&Hip&_); [destruct Hg as ((->&_)&_); done|].
  rewrite (entry_at_ok s1 i e) by (done || lia). cbn [rbind]. case_match.
  { eexists _, s1. split; [reflexivity|]. split; [done|]. by apply keeps_keeps_but. }
  destruct (free_entry_ok nif s1 r i e Hg1 ltac:(lia) He) as (s2&->&Ht2&_&Hg2). cbn [rbind].
  eexists _, s2. split; [reflexivity|]. split; [done|]. rewrite Ht2.
  destruct (put_learned (arp_table s1) (Z.to_nat i) e (freed e) He) as [Hb _]. rewrite Hip in Hb.
  intros ip' hw np Hne Hs. by apply Hb, Hk1.
Qed.

(** *** Asking for an address *)

Lemma queued_bound t p : (multiplicity p (queued t) <= length t)%nat.
Proof.
  induction t as [|e t IH]; [done|]. rewrite queued_cons, multiplicity_disj_union. cbn [length].
  assert (multiplicity p (queued_at e) <= 1)%nat; [|lia].
  unfold queued_at. destruct (q e) as [p'|]; [|rewrite multiplicity_empty; lia].
  rewrite multiplicity_singleton. case_match; lia.
Qed.

(** The caller's packet, which another reference may be taken to. *)
Definition lent (p : Z) (r : gmultiset Z) : Prop := p ∈ r /\ (multiplicity p r < 245)%nat.

Lemma lent_ref s r p : good nif r s -> lent p r ->
  exists x, pkt_ref p (packets s) = Ok x /\ owns ({[+ p +]} ⊎ (queued (arp_table s) ⊎ r)) x.
Proof.
  intros ((Hl&_)&_&Ho) [Hp Hm]. apply law_ref; [done|multiset_solver|].
  pose proof (queued_bound (arp_table s) p) as Hb. rewrite multiplicity_disj_union. rewrite Hl in Hb.
  change (Z.to_nat ARP_TABLE_SIZE) with 10%nat in Hb. lia.
Qed.

(** A reference for the queue: to the packet itself or to a copy. *)
Lemma reference_ok s r p : good nif r s -> lent p r ->
  exists copy o s', pkt_needs_copy p (packets s) = Ok copy /\
    (if copy : bool then on_packets_r (pkt_clone p) s
     else let* s := on_packets (pkt_ref p) s in Ok (Some p, s)) = Ok (o, s') /\ same_table s s' /\
    owns (match o with Some p' => {[+ p' +]} ⊎ (queued (arp_table s) ⊎ r) | None => queued (arp_table s) ⊎ r end)
      (packets s').
Proof.
  intros Hg Hp. assert (Hin : p ∈ queued (arp_table s) ⊎ r) by (destruct Hp; multiset_solver).
  destruct (Hg) as (_&_&Ho). destruct (law_copy _ p (packets s) Ho Hin) as [copy Hcopy]. exists copy. destruct copy.
  - destruct (law_clone _ p (packets s) Ho Hin) as (o&x&Hx&Hox). exists o, (set_packets x s). split; [done|].
    unfold on_packets_r. rewrite Hx. cbn [rbind]. by split; [|split].
  - destruct (lent_ref s r p Hg Hp) as (x&Hx&Hox). exists (Some p), (set_packets x s). split; [done|].
    unfold on_packets. rewrite Hx. cbn [rbind]. by split; [|split].
Qed.

Lemma pending_put_ok e p : entry_ok nif e -> state e = ETHARP_STATE_PENDING -> entry_ok nif (set_q (Some p) e).
Proof. intros [Hq Hage Hpend Hstat Huni] Hst. by split. Qed.

Lemma queue_packet_ok s r i e p : good nif r s -> 0 <= i -> arp_table s !! Z.to_nat i = Some e ->
  state e = ETHARP_STATE_PENDING -> lent p r ->
  exists x s', queue_packet i p s = Ok (x, s') /\ good nif r s' /\ keeps (arp_table s) (arp_table s').
Proof.
  intros Hg Hi He Hst Hp. unfold queue_packet. destruct (reference_ok s r p Hg Hp) as (copy&o&s1&->&Hx&[Hs1 Hc1]&Ho1).
  cbn [rbind]. rewrite Hx. cbn [rbind]. destruct o as [p'|].
  2:{ eexists _, s1. split; [reflexivity|]. rewrite Hs1. split; [|done]. by apply (good_packets s). }
  rewrite (entry_at_ok s1 i e) by (by rewrite ?Hs1). cbn [rbind]. destruct (Hg) as (Ht&Hc&_).
  assert (Hok : entry_ok nif e) by (destruct Ht as (_&Hall&_); by eapply Forall_lookup_1).
  set (e' := set_q (Some p') e). destruct (queued_insert (arp_table s) (Z.to_nat i) e e' He) as (r0&Hq&Hq').
  change (queued_at e') with ({[+ p' +]} : gmultiset Z) in Hq'.
  assert (exists s2, match q e with Some old => on_packets (pkt_free old) s1 | None => Ok s1 end = Ok s2 /\
            same_table s s2 /\ owns ({[+ p' +]} ⊎ (r0 ⊎ r)) (packets s2)) as (s2&->&[Hs2 Hc2]&Ho2).
  { unfold queued_at in Hq. destruct (q e) as [old|].
    - destruct (free_ok s1 ({[+ p' +]} ⊎ (r0 ⊎ r)) old) as (s2&Hf&Hsame&Ho2).
      { assert (({[+ old +]} ⊎ ({[+ p' +]} ⊎ (r0 ⊎ r))) = {[+ p' +]} ⊎ (queued (arp_table s) ⊎ r)) as -> by (rewrite Hq; multiset_solver). done. }
      exists s2. split; [done|]. split; [|done]. by apply (same_table_trans s s1).
    - exists s1. split; [done|]. split; [done|].
      assert ({[+ p' +]} ⊎ (r0 ⊎ r) = {[+ p' +]} ⊎ (queued (arp_table s) ⊎ r)) as -> by (rewrite Hq; multiset_solver). done. }
  cbn [rbind]. rewrite (update_entry_ok s2 i e) by (by rewrite ?Hs2). cbn [rbind]. fold e'. rewrite Hs2.
  eexists _, _. split; [reflexivity|]. split; [|apply (keeps_put _ _ e); [done|congruence]].
  split; [|split; [cbn; congruence|]].
  - apply (table_put nif _ _ e); [done|done|by apply pending_put_ok|]. intros _. left. split; [|done]. unfold nonempty. congruence.
  - change (owns (queued (<[Z.to_nat i := e']> (arp_table s)) ⊎ r) (packets s2)). by rewrite Hq', <- (assoc_L (⊎)).
Qed.
End operations.
