(* ===== verification/EtharpSend.v ===== *)
(** * Sending and receiving through the ARP table

    [etharp_query], [etharp_output] and [etharp_input] of [Etharp] return, keep the
    table in order, account for every reference to a packet and leave static
    entries alone. *)

From stdpp Require Import base numbers list decidable gmap gmultiset.
From Stdlib Require Import ZArith Lia Bool.
From S2P Require Import Prelude LwipMem Pbuf InetChksum Ip4Addr Ethernet Ip4 Etharp EtharpInv EtharpFind EtharpOps.
Open Scope Z_scope.

Section send.
Context {P : Type} `{PacketLaws P} (nif : Z -> netif).
Implicit Types (s : arp P) (r : gmultiset Z).

(** The table may have changed, static entries have not. *)
Definition fine r s s' : Prop := good nif r s' /\ keeps (arp_table s) (arp_table s').

Lemma fine_same r s s' : good nif r s' -> arp_table s' = arp_table s -> fine r s s'.
Proof. intros Hg Hs. split; [done|]. by rewrite Hs. Qed.

Lemma fine_trans r s s' s'' : fine r s s' -> fine r s' s'' -> fine r s s''.
Proof. intros [_ Hk] [Hg Hk']. split; [done|]. by etrans. Qed.

Lemma good_in s r p : good nif r s -> p ∈ r -> owns (queued (arp_table s) ⊎ r) (packets s) /\ p ∈ queued (arp_table s) ⊎ r.
Proof. intros (_&_&Ho) Hp. split; [done|]. multiset_solver. Qed.

Lemma send_ok s r n p src dst ty : good nif r s -> p ∈ r ->
  exists x s', on_packets_r (pkt_output n p src dst ty) s = Ok (x, s') /\ fine r s s'.
Proof.
  intros Hg Hp. destruct (good_in s r p Hg Hp) as [Ho Hin].
  destruct (output_ok s _ n p src dst ty Ho Hin) as (x&s'&->&Hs&Ho'). exists x, s'. split; [done|].
  apply fine_same; [by apply (good_packets nif s)|apply Hs].
Qed.

(** A change of the age, of a state that is not static, or of the packet. *)
Lemma fine_update s r i e f : good nif r s -> 0 <= i -> arp_table s !! Z.to_nat i = Some e ->
  entry_ok nif (f e) -> q (f e) = q e -> may_put (arp_table s) (Z.to_nat i) e (f e) -> state e <> ETHARP_STATE_STATIC ->
  exists s', update_entry i f s = Ok s' /\ arp_table s' = <[Z.to_nat i := f e]> (arp_table s) /\ fine r s s'.
Proof.
  intros Hg Hi He Hok Hq Hput Hst. rewrite (update_entry_ok s i e) by done. eexists. split; [reflexivity|].
  split; [done|]. split; [by apply (good_put nif s r _ e)|]. by apply (keeps_put _ _ e).
Qed.

(** *** [etharp_query] *)

(** A new entry is pending now. *)
Lemma start_ok s r i e np : good nif r s -> 0 <= i -> arp_table s !! Z.to_nat i = Some e ->
  non_unicast (ipaddr e) (nif np) = false ->
  nonempty e \/ (state e = ETHARP_STATE_EMPTY /\ q e = None /\ ctime e = 0 /\ no_match (ipaddr e) (arp_table s)) ->
  exists e' s', (if bool_decide (state e = ETHARP_STATE_EMPTY) then
                let* s := update_entry i (set_state ETHARP_STATE_PENDING) s in
                update_entry i (set_e_netif (Some np)) s
              else Ok s) = Ok s' /\ arp_table s' !! Z.to_nat i = Some e' /\ nonempty e' /\ fine r s s'.
Proof.
  intros Hg Hi He Hu Hcase. assert (Hlt := lookup_lt_Some _ _ _ He). destruct Hcase as [Hne|(Hemp&Hq&Hct&Hno)].
  { rewrite bool_decide_false by done. exists e, s. split; [done|]. split; [done|]. split; [done|]. by apply fine_same. }
  rewrite bool_decide_true by done. rewrite (update_entry_ok s i e) by done. cbn [rbind].
  rewrite update_again by done. set (e' := set_e_netif _ _). exists e'. eexists. split; [reflexivity|].
  split; [cbn; by rewrite list_lookup_insert_eq|]. split; [done|]. split; [|apply (keeps_put _ _ e); [done|congruence]].
  apply (good_put nif s r _ e); [done|done| |done|intros _; by right].
  split; unfold nonempty; cbn; try done; rewrite ?Hct; try done. intros _. by exists np.
Qed.

(** The request, and the age of an entry that was pending already. *)
Lemma ask_ok s r i e n ip new (p : option Z) : good nif r s -> 0 <= i -> arp_table s !! Z.to_nat i = Some e -> nonempty e ->
  exists x s' e', (if new || bool_decide (p = None) then
            let* (r, s) := etharp_request n ip s in
            let* e := entry_at s i in
            let* s := match r with
                      | ERR_OK =>
                          if bool_decide (state e = ETHARP_STATE_PENDING) && negb new
                          then update_entry i (set_ctime 0) s else Ok s
                      | _ => Ok s
                      end in
            Ok (r, s)
          else Ok (ERR_MEM, s)) = Ok (x, s') /\ arp_table s' !! Z.to_nat i = Some e' /\ nonempty e' /\ fine r s s'.
Proof.
  intros Hg Hi He Hne. assert (Hlt := lookup_lt_Some _ _ _ He). destruct (new || bool_decide (p = None)).
  2:{ exists ERR_MEM, s, e. split; [done|]. split; [done|]. split; [done|]. by apply fine_same. }
  unfold etharp_request. destruct (request_ok nif s r n ip ethbroadcast Hg) as (x&s1&->&[Hs1 Hc1]&Hg1). cbn [rbind].
  rewrite (entry_at_ok s1 i e) by (by rewrite ?Hs1). cbn [rbind].
  assert (Hstay : exists s' e', Ok s1 = Ok s' /\ arp_table s' !! Z.to_nat i = Some e' /\ nonempty e' /\ fine r s s').
  { exists s1, e. rewrite Hs1. split; [done|]. split; [done|]. split; [done|]. by apply fine_same. }
  assert (exists s' e', match x with
            | ERR_OK => if bool_decide (state e = ETHARP_STATE_PENDING) && negb new then update_entry i (set_ctime 0) s1 else Ok s1
            | _ => Ok s1 end = Ok s' /\ arp_table s' !! Z.to_nat i = Some e' /\ nonempty e' /\ fine r s s') as (s2&e2&->&Hrest);
    [|cbn [rbind]; by exists x, s2, e2].
  destruct x; try exact Hstay. destruct (bool_decide (state e = ETHARP_STATE_PENDING) && negb new) eqn:Hpend; [|exact Hstay].
  apply andb_true_iff in Hpend as [Hpend _]. apply bool_decide_eq_true_1 in Hpend.
  assert (Hok : entry_ok nif e) by (destruct Hg as ((_&Hall&_)&_); by eapply Forall_lookup_1).
  destruct (fine_update s1 r i e (set_ctime 0)) as (s2&->&Ht2&Hf2); try (by rewrite ?Hs1); try congruence.
  - destruct Hok as [Hq Hage Hpn Hst Huni]. by split.
  - intros _. by left.
  - exists s2, (set_ctime 0 e). split; [done|]. rewrite Ht2, list_lookup_insert_eq by (by rewrite Hs1). split; [done|].
    split; [done|]. apply (fine_trans r s s1); [by apply fine_same|done].
Qed.

Lemma query_ok s r np ip p : good nif r s -> (forall p', p = Some p' -> lent p' r) ->
  exists x s', etharp_query nif np ip p s = Ok (x, s') /\ fine r s s'.
Proof.
  intros Hg Hp. unfold etharp_query.
  destruct (isbroadcast ip (nif np) || ip4_addr_ismulticast ip || ip4_addr_isany ip) eqn:Hu.
  { eexists _, s. split; [reflexivity|]. by apply fine_same. }
  assert (Hu' : non_unicast ip (nif np) = false)
    by (apply orb_false_iff in Hu as [Hu ?]; apply orb_false_iff in Hu as [Hb Hm]; unfold non_unicast; rewrite Hb, Hm; by apply orb_false_iff; split; [apply orb_false_iff|]).
  destruct (find_entry_ok nif s r ip ETHARP_FLAG_TRY_HARD Hg) as (o&s1&->&Hf&_&Hg1). cbn [rbind].
  assert (Hf1 : fine r s s1) by (split; [done|by eapply keeps_found]).
  destruct o as [i|]; [|by eexists _, s1].
  destruct (found_some _ _ _ _ _ Hf) as (Hi&e&He&Hip&Hcase); [destruct Hg as ((->&_)&_); done|].
  rewrite (entry_at_ok s1 i e) by (done || lia). cbn [rbind].
  destruct (start_ok s1 r i e np) as (e2&s2&->&He2&Hne2&Hf2); [done|lia|done|by rewrite Hip| |].
  { destruct Hcase as [[Hne _]|(?&?&?&?)]; [by left|right; by rewrite Hip]. }
  cbn [rbind]. destruct (ask_ok s2 r i e2 (nif np) ip (bool_decide (state e = ETHARP_STATE_EMPTY)) p) as (x&s3&e3&->&He3&Hne3&Hf3);
    [apply Hf2|lia|done|done|]. cbn [rbind].
  assert (Hf03 : fine r s s3) by eauto using fine_trans. destruct p as [p|]; [|by eexists _, s3].
  rewrite (entry_at_ok s3 i e3) by (done || lia). cbn [rbind]. destruct (Hp p eq_refl) as [Hin _].
  destruct (is_stable (state e3)) eqn:Hst.
  - destruct (send_ok (set_cached_entry i s3) r (nif np) p (hwaddr (nif np)) (ethaddr e3) ETHTYPE_IP) as (y&s4&->&Hf4); [|done|].
    + destruct Hf03 as [(Ht&_&Ho) _]. by split; [|split].
    + exists y, s4. split; [done|]. by apply (fine_trans r s s3).
  - assert (Hpend : state e3 = ETHARP_STATE_PENDING) by (unfold nonempty in Hne3; by destruct (state e3)).
    rewrite bool_decide_true by done.
    destruct (queue_packet_ok nif s3 r i e3 p) as (y&s4&->&Hg4&Hk4); [apply Hf03|lia|done|done|by apply Hp|].
    exists y, s4. split; [done|]. apply (fine_trans r s s3); [done|]. by split.
Qed.

(** *** [etharp_output] *)

Lemma find_stable_lookup dst : forall tab i k, find_stable dst i tab = Some k ->
  exists n e, k = i + Z.of_nat n /\ tab !! n = Some e /\ is_stable (state e) = true /\ ipaddr e = dst.
Proof.
  induction tab as [|e tab IH]; intros i k Hk; [done|]. cbn in Hk.
  destruct (is_stable (state e) && (dst =? ipaddr e)) eqn:Hm.
  - injection Hk as <-. apply andb_true_iff in Hm as [Hs Hd]. apply Z.eqb_eq in Hd. exists 0%nat, e. split; [lia|done].
  - destruct (IH _ _ Hk) as (n&e'&->&He'&Hrest). exists (S n), e'. split; [lia|done].
Qed.

(** A request that was sent marks the entry, so that it is not sent again at once. *)
Lemma rerequest_ok s r i e n ip hw : good nif r s -> 0 <= i -> arp_table s !! Z.to_nat i = Some e ->
  state e = ETHARP_STATE_STABLE ->
  exists s' e', (let* (x, s) := etharp_request_dst n ip hw s in
              match x with
              | ERR_OK => update_entry i (set_state ETHARP_STATE_STABLE_REREQUESTING_1) s
              | _ => Ok s
              end) = Ok s' /\ arp_table s' !! Z.to_nat i = Some e' /\ fine r s s'.
Proof.
  intros Hg Hi He Hst. assert (Hlt := lookup_lt_Some _ _ _ He).
  destruct (request_ok nif s r n ip hw Hg) as (x&s1&->&[Hs1 Hc1]&Hg1). cbn [rbind].
  assert (Hf1 : fine r s s1) by (by apply fine_same).
  destruct x; try (exists s1, e; rewrite Hs1; done).
  assert (Hok : entry_ok nif e) by (destruct Hg as ((_&Hall&_)&_); by eapply Forall_lookup_1).
  destruct (fine_update s1 r i e (set_state ETHARP_STATE_STABLE_REREQUESTING_1)) as (s2&->&Ht2&Hf2);
    try (by rewrite ?Hs1); try congruence.
  - destruct Hok as [Hq Hage Hpn _ Huni]. split; unfold nonempty in *; cbn in *; try done; rewrite ?Hst in *; auto.
    intros Hq'. by specialize (Hq Hq').
  - intros _. left. split; [unfold nonempty; congruence|done].
  - exists s2. eexists. split; [done|]. rewrite Ht2, list_lookup_insert_eq by (by rewrite Hs1). split; [done|].
    by apply (fine_trans r s s1).
Qed.

Lemma output_to_index_ok s r n p i : good nif r s -> p ∈ r -> 0 <= i < ARP_TABLE_SIZE ->
  exists x s', etharp_output_to_arp_index n p i s = Ok (x, s') /\ fine r s s'.
Proof.
  intros Hg Hp Hi. destruct (table_lookup (arp_table s) i) as [e He]; [apply Hg|done|].
  unfold etharp_output_to_arp_index. rewrite (entry_at_ok s i e) by (done || lia). cbn [rbind].
  assert (Hstay : exists s' e', Ok s = Ok s' /\ arp_table s' !! Z.to_nat i = Some e' /\ fine r s s')
    by (exists s, e; split; [done|]; split; [done|]; by apply fine_same).
  match goal with |- context [rbind ?b _] => assert (exists s' e', b = Ok s' /\ arp_table s' !! Z.to_nat i = Some e' /\ fine r s s')
    as (s1&e1&->&He1&Hf1) end.
  { destruct (bool_decide (state e = ETHARP_STATE_STABLE)) eqn:Hst; [|exact Hstay]. apply bool_decide_eq_true_1 in Hst.
    case_match; [by apply (rerequest_ok s r i e); try lia|]. case_match; [by apply (rerequest_ok s r i e); try lia|].
    exact Hstay. }
  cbn [rbind]. rewrite (entry_at_ok s1 i e1) by (done || lia). cbn [rbind].
  destruct (send_ok s1 r n p (hwaddr n) (ethaddr e1) ETHTYPE_IP) as (x&s2&->&Hf2); [apply Hf1|done|].
  exists x, s2. split; [done|]. by apply (fine_trans r s s1).
Qed.

Lemma arp_output_ok s r np p ip : good nif r s -> lent p r ->
  exists x s', etharp_output nif np p ip s = Ok (x, s') /\ fine r s s'.
Proof.
  intros Hg Hp. destruct (Hp) as [Hin _]. unfold etharp_output. case_match; [by apply send_ok|].
  case_match; [by apply send_ok|]. cbn zeta. case_match; [eexists _, s; split; [reflexivity|by apply fine_same]|].
  destruct (Hg) as ((Hl&_)&Hc&Ho). destruct (table_lookup (arp_table s) (etharp_cached_entry s)) as [e He]; [done|done|].
  rewrite (entry_at_ok s _ e) by (done || lia). cbn [rbind]. case_match; [by apply output_to_index_ok|].
  destruct (find_stable _ _ _) as [i|] eqn:Hfs; [|by apply query_ok; [|intros p' [= <-]]].
  destruct (find_stable_lookup _ _ _ _ Hfs) as (n&e'&->&He'&_). apply lookup_lt_Some in He'.
  assert (Hi : 0 <= 0 + Z.of_nat n < ARP_TABLE_SIZE) by (unfold ARP_TABLE_SIZE in *; lia).
  destruct (output_to_index_ok (set_cached_entry (0 + Z.of_nat n) s) r (nif np) p (0 + Z.of_nat n)) as (x&s'&Hx&Hf); [|done|done|].
  - destruct Hg as (Ht&_&_). by split; [|split].
  - by exists x, s'.
Qed.

(** *** [etharp_input] *)

Lemma arp_input_ok s r np p : good nif ({[+ p +]} ⊎ r) s -> room (packets s) p SIZEOF_ETHARP_HDR ->
  exists s', etharp_input nif p np s = Ok s' /\ fine r s s'.
Proof.
  intros Hg Hroom. unfold etharp_input. destruct (good_in s _ p Hg ltac:(multiset_solver)) as [Ho Hin].
  destruct (law_read _ p _ 0 SIZEOF_ETHARP_HDR _ Ho Hin Hroom) as (hdr&->&_); [done|done|done|]. cbn [rbind].
  assert (Hfree : forall s1, fine ({[+ p +]} ⊎ r) s s1 -> exists s', on_packets (pkt_free p) s1 = Ok s' /\ fine r s s').
  { intros s1 [Hg1 Hk1]. destruct (Hg1) as (Ht1&Hc1&Ho1).
    destruct (free_ok s1 (queued (arp_table s1) ⊎ r) p) as (s2&->&[Hs2 Hc2]&Ho2).
    - assert ({[+ p +]} ⊎ (queued (arp_table s1) ⊎ r) = queued (arp_table s1) ⊎ ({[+ p +]} ⊎ r)) as -> by multiset_solver. done.
    - exists s2. split; [done|]. split; [|by rewrite Hs2]. split; [by rewrite Hs2|]. split; [by rewrite Hc2|]. by rewrite Hs2. }
  case_match; [apply Hfree; by apply fine_same|]. cbn zeta.
  match goal with |- context [etharp_update_arp_entry nif np ?ip ?hw ?fl s] =>
    assert (Hfl : Z.land fl ETHARP_FLAG_STATIC_ENTRY = 0) by (by repeat case_match);
    destruct (update_ok nif s _ np ip hw fl Hg) as (x&s1&->&Hg1&_&Hk1&_) end. cbn [rbind].
  assert (Hf1 : fine ({[+ p +]} ⊎ r) s s1) by (split; [done|by apply Hk1]).
  match goal with |- context [rbind ?b _] => assert (exists s2, b = Ok s2 /\ fine ({[+ p +]} ⊎ r) s s2) as (s2&->&Hf2) end;
    [|cbn [rbind]; by apply Hfree].
  destruct (_ =? lwip_htons ARP_REQUEST); [|by exists s1]. match goal with |- context [if ?b && ?c then _ else Ok s1] => destruct (b && c) end; [|by exists s1].
  match goal with |- context [etharp_raw ?a ?b ?c ?d ?e ?f ?g ?h s1] =>
    destruct (raw_ok nif s1 (queued (arp_table s1) ⊎ ({[+ p +]} ⊎ r)) a b c d e f g h) as (y&s2&->&Hs2&Ho2) end; [apply Hg1|].
  cbn [rbind]. exists s2. split; [done|]. apply (fine_trans _ s s1); [done|].
  apply fine_same; [by apply (good_packets nif s1)|apply Hs2].
Qed.
End send.
