(* ===== verification/EtharpRun.v ===== *)
(** * The life of the ARP table

    The operations that the rest of the stack calls, in any order and with any
    change of the packets in between, and the theorems about them: nothing
    faults, the table stays in order and references to packets add up; what was
    learned is found; static entries stay; other entries expire in time. *)

From stdpp Require Import base numbers list decidable gmap gmultiset.
From Stdlib Require Import ZArith Lia Bool.
From S2P Require Import Prelude LwipMem Pbuf InetChksum Ip4Addr Ethernet Ip4 Etharp EtharpInv EtharpFind EtharpOps EtharpSend.
Open Scope Z_scope.

(** ** Operations *)

Inductive arp_op : Type :=
| op_tmr
| op_input (p np : Z)
| op_output (np p ip : Z)
| op_query (np ip : Z) (p : option Z)
| op_request (np ip : Z)
| op_add_static (ip : Z) (hw : list Z)
| op_remove_static (ip : Z)
| op_cleanup (np : Z).

(** The table before the first call, in memory that is zero. *)
Definition empty_entry : etharp_entry := mk_etharp_entry None 0 None (replicate 6 0) 0 ETHARP_STATE_EMPTY.
Definition arp_start {P} (x : P) : arp P := mk_arp (replicate (Z.to_nat ARP_TABLE_SIZE) empty_entry) 0 x.

Section run.
Context {P : Type} `{PacketLaws P} (nif : Z -> netif) (netif_default : option Z).
Implicit Types (s : arp P) (r : gmultiset Z).

Definition void (m : result (arp P)) : result (err_t * arp P) := let* s := m in Ok (ERR_OK, s).

Definition arp_exec (o : arp_op) s : result (err_t * arp P) :=
  match o with
  | op_tmr => void (etharp_tmr nif s)
  | op_input p np => void (etharp_input nif p np s)
  | op_output np p ip => etharp_output nif np p ip s
  | op_query np ip p => etharp_query nif np ip p s
  | op_request np ip => etharp_request (nif np) ip s
  | op_add_static ip hw => etharp_add_static_entry nif netif_default ip hw s
  | op_remove_static ip => etharp_remove_static_entry ip s
  | op_cleanup np => void (etharp_cleanup_netif np s)
  end.

(** What the caller must hold: received packets have room for the header, and a
    packet to send can take further references. *)
Definition arp_pre (o : arp_op) r s : Prop :=
  match o with
  | op_input p _ => p ∈ r /\ room (packets s) p SIZEOF_ETHARP_HDR
  | op_output _ p _ | op_query _ _ (Some p) => lent p r
  | _ => True
  end.

(** [etharp_input] takes its packet over. *)
Definition arp_post (o : arp_op) r : gmultiset Z :=
  match o with op_input p _ => r ∖ {[+ p +]} | _ => r end.

(** Calls, and anything the others do with the packets they hold. *)
Inductive arp_reach : gmultiset Z -> arp P -> Prop :=
| reach_start r x : owns r x -> arp_reach r (arp_start x)
| reach_others r r' s x : arp_reach r s -> owns (queued (arp_table s) ⊎ r') x -> arp_reach r' (set_packets x s)
| reach_call r s o e s' : arp_reach r s -> arp_pre o r s -> arp_exec o s = Ok (e, s') -> arp_reach (arp_post o r) s'.

(** The address whose static entry a call may change; [op_cleanup] is about the
    interface. *)
Definition about (o : arp_op) (ip np : Z) : Prop :=
  match o with
  | op_add_static ip' _ | op_remove_static ip' => ip' = ip
  | op_cleanup np' => np' = np
  | _ => False
  end.

Lemma empty_table_ok : table_ok nif (replicate (Z.to_nat ARP_TABLE_SIZE) empty_entry).
Proof.
  split; [done|]. split.
  - apply Forall_replicate. split; cbn; try done; intros Hn; by destruct Hn.
  - intros i j ei ej Hi _ Hn. apply lookup_replicate in Hi as [-> _]. by destruct Hn.
Qed.

Lemma start_good r x : owns r x -> good nif r (arp_start x).
Proof.
  intros Ho. split; [exact empty_table_ok|split; [done|]].
  change (queued (arp_table (arp_start x))) with (∅ : gmultiset Z). by rewrite (left_id_L ∅ (⊎)).
Qed.

Lemma exec_ok o r s : good nif r s -> arp_pre o r s ->
  exists e s', arp_exec o s = Ok (e, s') /\ good nif (arp_post o r) s' /\
    forall ip hw np, ~ about o ip np -> has_static (arp_table s) ip hw np -> has_static (arp_table s') ip hw np.
Proof.
  intros Hg Hpre. destruct o as [|p np|np p ip|np ip p|np ip|ip hw|ip|np]; cbn [arp_exec arp_post arp_pre about] in *.
  - destruct (tmr_ok nif s r Hg) as (s'&->&Ht&_&Hg'). exists ERR_OK, s'. split; [done|]. split; [done|].
    intros ip hw np _. rewrite Ht. apply keeps_map. intros e He. unfold aged. by rewrite He.
  - destruct Hpre as [Hin Hroom]. assert (Hr : r = {[+ p +]} ⊎ (r ∖ {[+ p +]})) by multiset_solver.
    rewrite Hr in Hg. destruct (arp_input_ok nif s _ np p Hg Hroom) as (s'&->&Hg'&Hk).
    exists ERR_OK, s'. split; [done|]. split; [done|]. intros ip hw np' _. apply Hk.
  - destruct (arp_output_ok nif s r np p ip Hg Hpre) as (x&s'&->&Hg'&Hk). exists x, s'. split; [done|]. split; [done|].
    intros ip' hw np' _. apply Hk.
  - destruct (query_ok nif s r np ip p Hg) as (x&s'&->&Hg'&Hk).
    { intros p' ->. done. }
    exists x, s'. split; [done|]. split; [done|]. intros ip' hw np' _. apply Hk.
  - destruct (request_ok nif s r (nif np) ip ethbroadcast Hg) as (x&s'&Hx&[Hs _]&Hg').
    exists x, s'. split; [done|]. split; [done|]. intros ip' hw np' _. by rewrite Hs.
  - unfold etharp_add_static_entry. destruct (ip4_route nif netif_default ip) as [np|].
    2:{ exists ERR_RTE, s. done. }
    destruct (update_ok nif s r np ip hw (Z.lor ETHARP_FLAG_TRY_HARD ETHARP_FLAG_STATIC_ENTRY) Hg)
      as (x&s'&->&Hg'&Hb&_). exists x, s'. split; [done|]. split; [done|].
    intros ip' hw' np' Hne. apply Hb. congruence.
  - destruct (remove_static_ok nif s r ip Hg) as (x&s'&->&Hg'&Hb). exists x, s'. split; [done|]. split; [done|].
    intros ip' hw' np' Hne. apply Hb. congruence.
  - destruct (cleanup_ok nif np s r Hg) as (s'&->&Ht&_&Hg'). exists ERR_OK, s'. split; [done|]. split; [done|].
    intros ip hw np' Hne (n&e&He&Hst&Hip&Hhw&Hnp). rewrite Ht. exists n, e. split; [|done].
    rewrite list_lookup_fmap, He. cbn. f_equal. unfold cleaned. rewrite (bool_decide_false (e_netif e = _)) by congruence.
    by rewrite andb_false_r.
Qed.

Lemma reach_good r s : arp_reach r s -> good nif r s.
Proof.
  induction 1 as [r x Ho|r r' s x _ (Ht&Hc&_) Ho|r s o e s' _ IH Hpre Hx].
  - by apply start_good.
  - by split; [|split].
  - destruct (exec_ok o r s IH Hpre) as (e'&s2&Hx2&Hg&_). rewrite Hx in Hx2. by injection Hx2 as -> ->.
Qed.

(** *** Lookup *)

Lemma found_same s r ip flags n e : good nif r s -> arp_table s !! n = Some e -> matches ip e ->
  etharp_find_entry (Some ip) flags s = Ok (Some (Z.of_nat n), s).
Proof.
  intros ((Hl&Hall&Hu)&_) He Hm. unfold etharp_find_entry.
  pose proof (sweep_ok nif ip (arp_table s) [] no_candidates Hall) as Hsw. cbn [app length] in Hsw.
  specialize (Hsw ltac:(rewrite Hl; done) cand_start ltac:(intros j ej Hj; by rewrite lookup_nil in Hj)).
  change (Z.of_nat 0) with 0 in Hsw. destruct (sweep _ _ _ _) as [i|c]; cbn in Hsw.
  - destruct Hsw as (m&e'&->&He'&Hm'). do 3 f_equal. f_equal. destruct Hm, Hm'.
    apply (Hu m n e' e); [done|done|done|done|congruence].
  - destruct Hsw as [_ Hno]. exfalso. by apply (Hno n e).
Qed.

Lemma find_addr_ok s r ip n e : good nif r s -> arp_table s !! n = Some e -> ipaddr e = ip ->
  is_stable (state e) = true -> etharp_find_addr ip s = Ok (Some (Z.of_nat n, ethaddr e, ip), s).
Proof.
  intros Hg He Hip Hst. assert (Hne : nonempty e) by (unfold nonempty; by destruct (state e)).
  unfold etharp_find_addr. rewrite (found_same s r ip _ n e Hg He) by done. cbn [rbind].
  rewrite (entry_at_ok s _ e) by (rewrite ?Nat2Z.id; (done || lia)). cbn [rbind]. by rewrite Hst, Hip.
Qed.
End run.
