(* ===== verification/EtharpProps.v ===== *)
(** * Theorems on address resolution

    The theorems about sequences of calls into [Etharp], with a small store of
    reference-counted packets for the witnesses. *)

From stdpp Require Import base numbers list decidable gmap gmultiset.
From Stdlib Require Import ZArith Lia Bool.
From S2P Require Import Prelude LwipMem Pbuf PbufChain InetChksum Ip4Addr Ethernet Ip4 Etharp EtharpInv EtharpFind EtharpOps EtharpSend EtharpRun.
Open Scope Z_scope.

(** ** A store of packets *)

(** Counts and bytes by number, and what was sent: destination and data. *)
Record bench : Type := mk_bench {
  bufs : list (nat * list Z);
  wire : list (list Z * list Z)
}.

Definition buf (p : Z) (x : bench) : option (nat * list Z) := if 0 <=? p then bufs x !! Z.to_nat p else None.
Definition count (p : Z) (x : bench) : nat := match buf p x with Some (n, _) => n | None => O end.
Definition put_buf (p : Z) (c : nat) (bs : list Z) (x : bench) : bench :=
  mk_bench (<[Z.to_nat p := (c, bs)]> (bufs x)) (wire x).
Definition new_buf (bs : list Z) (x : bench) : option Z * bench :=
  (Some (Z.of_nat (length (bufs x))), mk_bench (bufs x ++ [(1%nat, bs)]) (wire x)).
Definition with_buf {A} (p : Z) (f : nat -> list Z -> bench -> A) (x : bench) : result A :=
  match buf p x with Some (S c, bs) => Ok (f c bs x) | _ => Fault Dangling end.

#[export] Instance bench_ops : PacketOps bench := {|
  pkt_free p x := with_buf p (fun c bs x => put_buf p c bs x) x;
  pkt_ref p x := with_buf p (fun c bs x => put_buf p (S (S c)) bs x) x;
  pkt_clone p x := with_buf p (fun _ bs x => new_buf bs x) x;
  pkt_needs_copy p x := with_buf p (fun _ _ _ => false) x;
  pkt_alloc n x := Ok (new_buf (replicate (Z.to_nat n) 0) x);
  pkt_read p off n x :=
    match with_buf p (fun _ bs _ => bs) x with
    | Ok bs => if in_range bs off n then Ok (bytes_at bs off n) else Fault OutOfBounds
    | Fault e => Fault e
    end;
  pkt_write p off v x :=
    match with_buf p (fun c bs _ => (c, bs)) x with
    | Ok (c, bs) => let* bs := wr bs off v in Ok (put_buf p (S c) bs x)
    | Fault e => Fault e
    end;
  pkt_output n p src dst ty x := with_buf p (fun _ bs x => (ERR_OK, mk_bench (bufs x) (wire x ++ [(dst, bs)]))) x
|}.

Definition bench_owns (r : gmultiset Z) (x : bench) : Prop := forall p, (multiplicity p r <= count p x)%nat.
Definition bench_room (x : bench) (p n : Z) : Prop := exists c bs, buf p x = Some (c, bs) /\ n <= Z.of_nat (length bs).

Lemma with_buf_ok {A} r p (f : nat -> list Z -> bench -> A) x : bench_owns r x -> p ∈ r ->
  exists c bs, buf p x = Some (S c, bs) /\ with_buf p f x = Ok (f c bs x).
Proof.
  intros Ho Hp. specialize (Ho p). unfold elem_of, gmultiset_elem_of in Hp. unfold count in Ho. unfold with_buf.
  destruct (buf p x) as [[[|c] bs]|]; [lia| |lia]. by exists c, bs.
Qed.

Lemma buf_put p c bs x p' c0 bs0 : buf p x = Some (c0, bs0) ->
  buf p' (put_buf p c bs x) = if decide (p' = p) then Some (c, bs) else buf p' x.
Proof.
  unfold buf, put_buf. cbn [bufs]. destruct (Z.leb_spec 0 p) as [Hp|]; [|done]. intros Hb. apply lookup_lt_Some in Hb.
  destruct (Z.leb_spec 0 p') as [Hp'|]; case_decide; subst; try lia; try done.
  - by rewrite list_lookup_insert_eq.
  - rewrite list_lookup_insert_ne; [done|]. lia.
Qed.

Lemma owns_put r p c bs x c0 bs0 : buf p x = Some (c0, bs0) ->
  (forall p', (multiplicity p' r <= if decide (p' = p) then c else count p' x)%nat) -> bench_owns r (put_buf p c bs x).
Proof. intros Hb Hc p'. unfold count. rewrite (buf_put p c bs x p' c0 bs0 Hb). specialize (Hc p'). by case_decide. Qed.

Lemma owns_new r bs x : bench_owns r x ->
  bench_owns ({[+ Z.of_nat (length (bufs x)) +]} ⊎ r) (mk_bench (bufs x ++ [(1%nat, bs)]) (wire x)).
Proof.
  intros Ho p. specialize (Ho p). unfold count, buf in *. cbn [bufs] in *.
  rewrite multiplicity_disj_union, multiplicity_singleton. destruct (Z.leb_spec 0 p) as [Hp|Hp]; case_decide as Heq; try lia.
  - subst p. rewrite Nat2Z.id, list_lookup_middle by done. rewrite Nat2Z.id, lookup_ge_None_2 in Ho by done. lia.
  - destruct (bufs x !! Z.to_nat p) as [[c bs']|] eqn:Hb; [|destruct (_ !! _); lia].
    rewrite lookup_app_l by (by eapply lookup_lt_Some). by rewrite Hb.
Qed.

Lemma multiplicity_add (p p' : Z) (r : gmultiset Z) :
  multiplicity p' ({[+ p +]} ⊎ r) = ((if decide (p' = p) then 1 else 0) + multiplicity p' r)%nat.
Proof. by rewrite multiplicity_disj_union, multiplicity_singleton. Qed.

#[export, refine] Instance bench_laws : PacketLaws bench := {| owns := bench_owns; room := bench_room |}.
Proof.
  - intros r p s Ho. destruct (with_buf_ok _ p (fun c bs x => put_buf p c bs x) s Ho) as (c&bs&Hb&Hx); [multiset_solver|].
    eexists. split; [exact Hx|]. apply (owns_put _ _ _ _ _ _ _ Hb). intros p'. specialize (Ho p').
    rewrite multiplicity_add in Ho. case_decide as Hd; [|lia]. subst p'. unfold count in Ho. rewrite Hb in Ho. lia.
  - intros r p s Ho Hp _. destruct (with_buf_ok _ p (fun c bs x => put_buf p (S (S c)) bs x) s Ho Hp) as (c&bs&Hb&Hx).
    eexists. split; [exact Hx|]. apply (owns_put _ _ _ _ _ _ _ Hb). intros p'. specialize (Ho p').
    rewrite multiplicity_add. case_decide as Hd; [|lia]. subst p'. unfold count in Ho. rewrite Hb in Ho. lia.
  - intros r p s Ho Hp. destruct (with_buf_ok _ p (fun _ _ _ => false) s Ho Hp) as (c&bs&Hb&Hx). by exists false.
  - intros r p s Ho Hp. destruct (with_buf_ok _ p (fun _ bs x => new_buf bs x) s Ho Hp) as (c&bs&Hb&Hx).
    eexists _, _. split; [exact Hx|]. by apply owns_new.
  - intros r n s Ho Hn. eexists _, _. split; [reflexivity|]. split; [by apply owns_new|].
    exists 1%nat, (replicate (Z.to_nat n) 0). split; [|rewrite length_replicate; lia].
    unfold buf. cbn [bufs]. rewrite (proj2 (Z.leb_le _ _)) by lia. by rewrite Nat2Z.id, list_lookup_middle.
  - intros r p n off v s Ho Hp Hroom Hoff Hl. destruct (with_buf_ok _ p (fun c bs _ => (c, bs)) s Ho Hp) as (c&bs&Hb&Hx).
    destruct Hroom as (c'&bs'&Hb'&Hlen). rewrite Hb in Hb'. injection Hb' as <- <-.
  destruct (wr_total bs off v) as (bs2&Hw&_); [lia..|]. exists (put_buf p (S c) bs2 s). cbn. rewrite Hx, Hw. split; [done|].
    split.
    + apply (owns_put _ _ _ _ _ _ _ Hb). intros p'. specialize (Ho p'). case_decide as Hd; [|done]. subst p'.
      unfold count in Ho. by rewrite Hb in Ho.
    + exists (S c), bs2. rewrite (buf_put _ _ _ _ _ _ _ Hb), decide_True by done. split; [done|].
      apply wr_length in Hw. lia.
  - intros r p n off k s Ho Hp Hroom Hoff Hk Hl. destruct (with_buf_ok _ p (fun _ bs _ => bs) s Ho Hp) as (c&bs&Hb&Hx).
    destruct Hroom as (c'&bs'&Hb'&Hlen). rewrite Hb in Hb'. injection Hb' as <- <-. cbn. rewrite Hx.
    rewrite (proj2 (in_range_spec bs off k)) by lia. eexists. split; [reflexivity|]. rewrite length_bytes_at; lia.
  - intros r n p src dst ty s Ho Hp.
    destruct (with_buf_ok _ p (fun _ bs x => (ERR_OK, mk_bench (bufs x) (wire x ++ [(dst, bs)]))) s Ho Hp) as (c&bs&Hb&Hx).
    eexists _, _. split; [exact Hx|]. exact Ho.
Defined.

(** ** The theorems *)

Section theorems.
Context {P : Type} `{PacketLaws P} (nif : Z -> netif) (netif_default : option Z).

(** Calls that are not about the static entry of [ip] on the interface [np],
    and what others do with their packets. *)
Inductive undisturbed (ip np : Z) (r : gmultiset Z) (s : arp P) : gmultiset Z -> arp P -> Prop :=
| undisturbed_refl : undisturbed ip np r s r s
| undisturbed_others r1 s1 r2 x : undisturbed ip np r s r1 s1 -> owns (queued (arp_table s1) ⊎ r2) x ->
    undisturbed ip np r s r2 (set_packets x s1)
| undisturbed_call r1 s1 o e s2 : undisturbed ip np r s r1 s1 -> ~ about o ip np -> arp_pre o r1 s1 ->
    arp_exec nif netif_default o s1 = Ok (e, s2) -> undisturbed ip np r s (arp_post o r1) s2.

Lemma undisturbed_ok ip np hw r s r' s' : good nif r s -> has_static (arp_table s) ip hw np ->
  undisturbed ip np r s r' s' -> good nif r' s' /\ has_static (arp_table s') ip hw np.
Proof.
  intros Hg Hst. induction 1 as [|r1 s1 r2 x _ [IHg IHs] Ho|r1 s1 o e s2 _ [IHg IHs] Hab Hpre Hx]; [done| |].
  - split; [|done]. destruct IHg as (Ht&Hc&_). by split; [|split].
  - destruct (exec_ok nif netif_default o r1 s1 IHg Hpre) as (e'&s2'&Hx'&Hg'&Hk). rewrite Hx in Hx'. injection Hx' as -> ->.
    split; [done|]. by apply Hk.
Qed.

(** [k] ticks of the timer. *)
Fixpoint ticks (k : nat) (s : arp P) : result (arp P) :=
  match k with O => Ok s | S k => let* s := etharp_tmr nif s in ticks k s end.

Lemma ticks_ok k : forall r s, good nif r s -> exists s', ticks k s = Ok s' /\ good nif r s' /\
  arp_table s' = map (Nat.iter k aged) (arp_table s).
Proof.
  induction k as [|k IH]; intros r s Hg.
  - exists s. split; [done|]. split; [done|]. cbn. by rewrite map_id.
  - cbn [ticks]. destruct (tmr_ok nif s r Hg) as (s1&->&Ht1&_&Hg1). cbn [rbind].
    destruct (IH r s1 Hg1) as (s2&->&Hg2&Ht2). exists s2. split; [done|]. split; [done|].
    rewrite Ht2, Ht1, map_map. apply map_ext. intros e. by rewrite <- Nat.iter_succ_r.
Qed.
End theorems.

(** The age at which an entry in use is given up. *)
Definition lifetime (e : etharp_entry) : Z :=
  if bool_decide (state e = ETHARP_STATE_PENDING) then ARP_MAXPENDING else ARP_MAXAGE.
Definition ageing (e : etharp_entry) : Prop := nonempty e /\ state e <> ETHARP_STATE_STATIC.

Lemma aged_step e : ageing e -> ctime e < lifetime e ->
  (ctime e + 1 < lifetime e -> ageing (aged e) /\ lifetime (aged e) = lifetime e /\ ctime (aged e) = ctime e + 1 /\
     ipaddr (aged e) = ipaddr e /\ ethaddr (aged e) = ethaddr e) /\
  (lifetime e <= ctime e + 1 -> state (aged e) = ETHARP_STATE_EMPTY).
Proof.
  intros [Hne Hns] Hlt. unfold ageing, lifetime, aged, nonempty, ARP_MAXPENDING, ARP_MAXAGE in *.
  destruct (state e) eqn:Hst; try done; cbn [ctime set_ctime] in *; rewrite ?bool_decide_true, ?bool_decide_false in * by done;
    cbn [orb andb]; (split; intros Hc);
    repeat match goal with |- context [?a <=? ?b] => destruct (Z.leb_spec a b); [try lia|try lia] end; cbn; rewrite ?Hst;
    repeat split; try done.
Qed.

Lemma aged_empty e : state e = ETHARP_STATE_EMPTY -> aged e = e.
Proof. intros Hst. unfold aged. by rewrite Hst. Qed.

Lemma iter_fixed {A} (f : A -> A) x k : f x = x -> Nat.iter k f x = x.
Proof. intros Hx. induction k as [|k IH]; [done|]. by rewrite Nat.iter_succ, IH. Qed.

(** An entry after [k] ticks. *)
Lemma aged_iter k : forall e, ageing e -> ctime e < lifetime e ->
  (ctime e + Z.of_nat k < lifetime e -> nonempty (Nat.iter k aged e) /\ ctime (Nat.iter k aged e) = ctime e + Z.of_nat k /\
     ipaddr (Nat.iter k aged e) = ipaddr e /\ ethaddr (Nat.iter k aged e) = ethaddr e) /\
  (lifetime e <= ctime e + Z.of_nat k -> state (Nat.iter k aged e) = ETHARP_STATE_EMPTY).
Proof.
  induction k as [|k IH]; intros e Ha Hlt.
  - cbn. split; [intros _|lia]. split; [apply Ha|]. split; [lia|done].
  - rewrite Nat.iter_succ_r. destruct (aged_step e Ha Hlt) as [Hstay Hgone].
    destruct (decide (ctime e + 1 < lifetime e)) as [Hc|Hc].
    + destruct (Hstay Hc) as (Ha'&Hlt'&Hct&Hip&Heth). destruct (IH (aged e) Ha' ltac:(lia)) as [H1 H2].
      rewrite Hlt', Hct, Hip, Heth in *. split; intros Hk.
      * destruct H1 as (?&->&?&?); [lia|]. split; [done|]. split; [lia|done].
      * apply H2. lia.
    + split; intros Hk; [lia|]. rewrite iter_fixed by (apply aged_empty, Hgone; lia). apply Hgone. lia.
Qed.

(** Whatever is called and in whatever order, and whatever the rest of the
    stack does with its own packets in between: the ARP table stays in order (at
    most one entry in use per address, packets queued on pending entries only,
    ages in range, unicast addresses only), every packet in a queue is owned
    exactly once, and the next call returns without a fault. *)
Theorem arp_safe {P} `{PacketLaws P} nif netif_default r (s : arp P) :
  arp_reach nif netif_default r s ->
  good nif r s /\
  forall o, arp_pre o r s -> exists e s', arp_exec nif netif_default o s = Ok (e, s').
Proof.
  intros Hr. pose proof (reach_good nif netif_default r s Hr) as Hg. split; [done|]. intros o Hpre.
  destruct (exec_ok nif netif_default o r s Hg Hpre) as (e&s'&Hx&_). by exists e, s'.
Qed.

(** C22. The search for an entry, in a table that is in order: the entry in use for
    the address if there is one; if not and the caller only looks, nothing; else
    the first empty entry; else, if the caller insists, the oldest stable entry,
    the oldest pending entry without a packet, or the oldest pending entry with
    one, in this order and never a static one, whose packet is released; else no
    memory.  Static entries stay, and so does the order of the table and of the
    references to packets. *)
Theorem arp_search {P} `{PacketLaws P} nif r (s : arp P) ip flags :
  good nif r s ->
  exists o s', etharp_find_entry (Some ip) flags s = Ok (o, s') /\
    found ip flags (arp_table s) o (arp_table s') /\ keeps (arp_table s) (arp_table s') /\ good nif r s'.
Proof.
  intros Hg. destruct (find_entry_ok nif s r ip flags Hg) as (o&s'&Hx&Hf&_&Hg'). exists o, s'.
  split; [done|]. split; [done|]. split; [by eapply keeps_found|done].
Qed.

(** An update says what it did, and after a successful one the address is
    found with the new hardware address; a static entry is not overwritten by an
    update that is not static. *)
Theorem arp_learn {P} `{PacketLaws P} nif r (s : arp P) np ip hw flags :
  good nif r s ->
  exists x s', etharp_update_arp_entry nif np ip hw flags s = Ok (x, s') /\
    updated nif np ip hw flags (arp_table s) (arp_table s') x /\
    (x = ERR_OK -> exists i, etharp_find_addr ip s' = Ok (Some (i, take 6 hw, ip), s')) /\
    (forall hw0 np0, Z.land flags ETHARP_FLAG_STATIC_ENTRY = 0 -> has_static (arp_table s) ip hw0 np0 ->
       exists i, etharp_find_addr ip s' = Ok (Some (i, hw0, ip), s')).
Proof.
  intros Hg. destruct (update_ok nif s r np ip hw flags Hg) as (x&s'&Hx&Hg'&_&Hk&Hu). exists x, s'.
  split; [done|]. split; [done|]. split.
  - intros ->. inversion Hu as [| | |_ (n&e&He&Hst&Hip&_&Heth&_)]. exists (Z.of_nat n). rewrite <- Heth.
    apply (find_addr_ok nif s' r ip n e); [done|done|done|]. rewrite Hst. by case_match.
  - intros hw0 np0 Hfl Hs. destruct (Hk Hfl ip hw0 np0 Hs) as (n&e&He&Hst&Hip&Heth&_). exists (Z.of_nat n).
    rewrite <- Heth. apply (find_addr_ok nif s' r ip n e); [done|done|done|]. by rewrite Hst.
Qed.

(** C26. The packet that waits for an address is sent to the hardware address
    that answers, then released, and the entry is stable with an age of zero and
    nothing queued; nothing else changes. *)
Theorem arp_answer {P} `{PacketLaws P} nif r (s : arp P) n e p np ip hw flags :
  good nif r s -> arp_table s !! n = Some e -> state e = ETHARP_STATE_PENDING -> ipaddr e = ip -> q e = Some p ->
  non_unicast ip (nif np) = false -> Z.land flags ETHARP_FLAG_STATIC_ENTRY = 0 ->
  etharp_update_arp_entry nif np ip hw flags s =
    let* (_, x) := pkt_output (nif np) p (hwaddr (nif np)) hw ETHTYPE_IP (packets s) in
    let* x := pkt_free p x in
    Ok (ERR_OK, mk_arp (<[n := mk_etharp_entry None ip (Some np) (take 6 hw) 0 ETHARP_STATE_STABLE]> (arp_table s))
                       (etharp_cached_entry s) x).
Proof.
  intros Hg He Hst Hip Hq Hu Hfl. unfold etharp_update_arp_entry. rewrite Hu.
  assert (Hm : matches ip e) by (split; [unfold nonempty; congruence|done]).
  assert (Hlt := lookup_lt_Some _ _ _ He).
  rewrite (found_same nif s r ip flags n e Hg He Hm). cbn [rbind].
  rewrite (entry_at_ok s _ e) by (rewrite ?Nat2Z.id; (done || lia)). cbn [rbind].
  rewrite Hfl, (bool_decide_false (state e = ETHARP_STATE_STATIC)) by congruence. cbn [Z.eqb andb].
  rewrite (update_entry_ok s _ e) by (rewrite ?Nat2Z.id; (done || lia)). cbn [rbind].
  do 3 (rewrite update_again by (rewrite ?Nat2Z.id; (done || lia)); cbn [rbind]).
  erewrite entry_at_ok; [|lia|cbn; by rewrite Nat2Z.id, list_lookup_insert_eq]. cbn [rbind]. cbn [q set_ctime set_ethaddr set_e_netif set_state].
  rewrite Hq. cbn [rbind]. rewrite update_again by (rewrite ?Nat2Z.id; (done || lia)). cbn [rbind].
  unfold on_packets_r, on_packets. cbn [packets set_arp_table]. destruct (pkt_output _ _ _ _ _ _) as [[x s1]|]; [|done].
  cbn [rbind packets set_packets]. destruct (pkt_free p s1) as [s2|]; [|done]. cbn [rbind]. rewrite Nat2Z.id.
  unfold set_packets, set_arp_table, set_q, set_ctime, set_ethaddr, set_e_netif, set_state. cbn. by rewrite Hip.
Qed.

(** A static entry is found with its hardware address for as long as
    nobody adds or removes a static entry for the same address or takes its
    interface down, whatever else is called and received. *)
Theorem arp_static_stays {P} `{PacketLaws P} nif netif_default r (s : arp P) ip hw np r' s' :
  arp_reach nif netif_default r s -> has_static (arp_table s) ip hw np ->
  undisturbed nif netif_default ip np r s r' s' ->
  exists i, etharp_find_addr ip s' = Ok (Some (i, hw, ip), s').
Proof.
  intros Hr Hs Hu. pose proof (reach_good nif netif_default r s Hr) as Hg.
  destruct (undisturbed_ok nif netif_default ip np hw r s r' s' Hg Hs Hu) as [Hg' (n&e&He&Hst&Hip&Heth&_)].
  exists (Z.of_nat n). rewrite <- Heth. apply (find_addr_ok nif s' r' ip n e); [done|done|done|]. by rewrite Hst.
Qed.

(** C27. The timer returns however often it is called; a pending entry is gone
    after five ticks without an answer, any other entry that is not static after
    300, counted from its last update, and until then it keeps its addresses;
    static entries do not age. *)
Theorem arp_expiry {P} `{PacketLaws P} nif r (s : arp P) k :
  good nif r s ->
  exists s', ticks nif k s = Ok s' /\ good nif r s' /\
    forall n e, arp_table s !! n = Some e -> exists e', arp_table s' !! n = Some e' /\
      (state e = ETHARP_STATE_STATIC -> e' = e) /\
      (ageing e -> lifetime e <= ctime e + Z.of_nat k -> state e' = ETHARP_STATE_EMPTY) /\
      (ageing e -> ctime e + Z.of_nat k < lifetime e ->
         nonempty e' /\ ctime e' = ctime e + Z.of_nat k /\ ipaddr e' = ipaddr e /\ ethaddr e' = ethaddr e).
Proof.
  intros Hg. destruct (ticks_ok nif k r s Hg) as (s'&Hx&Hg'&Ht). exists s'. split; [done|]. split; [done|].
  intros n e He. exists (Nat.iter k aged e). rewrite Ht, list_lookup_fmap, He. split; [done|].
  assert (Hok : entry_ok nif e) by (destruct Hg as ((_&Hall&_)&_); by eapply Forall_lookup_1).
  assert (Hlt : ageing e -> ctime e < lifetime e).
  { intros [Hne _]. unfold lifetime. case_bool_decide; [by apply (ok_pending _ _ Hok)|]. by apply (ok_age _ _ Hok). }
  split; [|split].
  - intros Hst. apply iter_fixed. unfold aged. by rewrite Hst.
  - intros Ha. by apply aged_iter; [|apply Hlt].
  - intros Ha. by apply aged_iter; [|apply Hlt].
Qed.

(** ** Witnesses *)

(** 10.0.0.1/24; the packet 0 is to be sent to 10.0.0.2, which is not known. *)
Definition one_nif (_ : Z) : netif :=
  mk_netif 1500 [2; 0; 0; 0; 0; 1] 6
    (Z.lor (Z.lor NETIF_FLAG_UP NETIF_FLAG_BROADCAST) (Z.lor NETIF_FLAG_LINK_UP NETIF_FLAG_ETHARP)) (101, 48) 0
    0x0100000a 0x00ffffff 0.
Definition peer : Z := 0x0200000a.
Definition peer_hw : list Z := [2; 0; 0; 0; 0; 2].
Definition bench0 : bench := mk_bench [(1%nat, replicate 60 7)] [].
Definition state_of (m : result (err_t * arp bench)) : arp bench :=
  match m with Ok (_, s) => s | Fault _ => arp_start bench0 end.
Definition asked : arp bench := state_of (arp_exec one_nif (Some 0) (op_query 0 peer (Some 0)) (arp_start bench0)).
Definition fixed : arp bench := state_of (arp_exec one_nif (Some 0) (op_add_static peer peer_hw) (arp_start bench0)).

Lemma bench0_owns : owns {[+ 0 +]} bench0.
Proof. intros p. rewrite multiplicity_singleton. case_decide; [subst; vm_compute; lia|lia]. Qed.

Lemma lent0 : lent 0 {[+ 0 +]}.
Proof. split; [multiset_solver|]. by apply Nat.ltb_lt. Qed.

Lemma asked_reach : arp_reach one_nif (Some 0) {[+ 0 +]} asked.
Proof.
  pose proof (reach_call one_nif (Some 0) {[+ 0 +]} (arp_start bench0) (op_query 0 peer (Some 0)) ERR_OK asked) as Hc.
  cbn [arp_post] in Hc. apply Hc; [apply reach_start, bench0_owns|apply lent0|vm_compute; reflexivity].
Qed.

Lemma fixed_reach : arp_reach one_nif (Some 0) {[+ 0 +]} fixed.
Proof.
  pose proof (reach_call one_nif (Some 0) {[+ 0 +]} (arp_start bench0) (op_add_static peer peer_hw) ERR_OK fixed) as Hc.
  cbn [arp_post] in Hc. apply Hc; [apply reach_start, bench0_owns|done|vm_compute; reflexivity].
Qed.

Lemma fixed_static : has_static (arp_table fixed) peer peer_hw 0.
Proof. by exists 0%nat, (mk_etharp_entry None peer (Some 0) peer_hw 0 ETHARP_STATE_STATIC). Qed.

Definition asked_entry : etharp_entry := mk_etharp_entry (Some 0) peer (Some 0) (replicate 6 0) 0 ETHARP_STATE_PENDING.

Lemma arp_safe_witness : exists e s', arp_exec one_nif (Some 0) op_tmr asked = Ok (e, s').
Proof. apply (arp_safe one_nif (Some 0) {[+ 0 +]} asked asked_reach). done. Defined.

Lemma arp_search_witness : exists s', etharp_find_entry (Some peer) ETHARP_FLAG_TRY_HARD asked = Ok (Some 0, s') /\
  found peer ETHARP_FLAG_TRY_HARD (arp_table asked) (Some 0) (arp_table s').
Proof.
  destruct (arp_search one_nif {[+ 0 +]} asked peer ETHARP_FLAG_TRY_HARD) as (o&s'&Hx&Hf&_);
    [apply (reach_good one_nif (Some 0)), asked_reach|].
  assert (Ho : o = Some 0) by (vm_compute in Hx; by injection Hx as <- _).
  rewrite Ho in Hx, Hf. by exists s'.
Defined.

Lemma arp_learn_witness : exists x s', etharp_update_arp_entry one_nif 0 peer peer_hw 0 asked = Ok (x, s').
Proof.
  destruct (arp_learn one_nif {[+ 0 +]} asked 0 peer peer_hw 0) as (x&s'&Hx&_);
    [apply (reach_good one_nif (Some 0)), asked_reach|].
  by exists x, s'.
Defined.

(** The request and the packet go out. *)
Lemma arp_answer_witness :
  exists s', etharp_update_arp_entry one_nif 0 peer peer_hw 0 asked = Ok (ERR_OK, s') /\
    map fst (wire (packets s')) = [ethbroadcast; peer_hw] /\ count 0 (packets s') = 1%nat.
Proof.
  eexists. rewrite (arp_answer one_nif {[+ 0 +]} asked 0 asked_entry 0 0 peer peer_hw 0);
    [split; [vm_compute; reflexivity|split; reflexivity]| | | | | | |]; try reflexivity.
  apply (reach_good one_nif (Some 0)), asked_reach.
Defined.

Lemma arp_static_stays_witness :
  exists i, etharp_find_addr peer (state_of (arp_exec one_nif (Some 0) op_tmr fixed)) =
    Ok (Some (i, peer_hw, peer), state_of (arp_exec one_nif (Some 0) op_tmr fixed)).
Proof.
  eapply (arp_static_stays one_nif (Some 0) {[+ 0 +]} fixed peer peer_hw 0); [apply fixed_reach|apply fixed_static|].
  eapply (undisturbed_call one_nif (Some 0) peer 0 _ _ _ _ op_tmr);
    [apply undisturbed_refl|intros []|done|vm_compute; reflexivity].
Defined.

Lemma arp_expiry_witness : exists s', ticks one_nif 5 asked = Ok s' /\
  exists e', arp_table s' !! 0%nat = Some e' /\ state e' = ETHARP_STATE_EMPTY.
Proof.
  destruct (arp_expiry one_nif {[+ 0 +]} asked 5) as (s'&Hx&_&Hall);
    [apply (reach_good one_nif (Some 0)), asked_reach|].
  exists s'. split; [done|]. destruct (Hall 0%nat asked_entry eq_refl) as (e'&He'&_&Hgone&_).
  exists e'. split; [done|]. apply Hgone; [split; done|vm_compute; congruence].
Defined.
