(* ===== verification/PbufOwn.v ===== *)
(** * Who owns a packet buffer

    The reference counts of [src/lib/lwip/src/core/pbuf.c] as ownership: every
    packet is a chain of its own, the count of its first buffer is the number of
    references that are held, and what is not in a packet is in the free lists of
    the pools or in the heap.  With a heap that keeps its promises, the
    operations ARP uses keep this invariant, which makes the packet buffers an
    instance of the laws [EtharpInv.PacketLaws]. *)

From stdpp Require Import base numbers decidable gmap gmultiset list.
From Stdlib Require Import ZArith Lia Bool.
From S2P Require Import Prelude Linked LwipMem Pbuf PbufChain PbufPool PbufProps InetChksum PbufView Ethernet Etharp EtharpInv.
Open Scope Z_scope.

(** ** The heap *)

(** A pointer that is not null. *)
Definition is_ptr (p : Z) : Prop := 0 < p < 2 ^ 32.

(** What [mem.c] promises: blocks that are in use are not handed out again, and a
    new block has the size asked for.  The pointers of the heap are told from
    those of the pools by [heap_name]. *)
Class HeapLaws (H : Type) `{MemHeap H} : Type := {
  heap_ok : gset Z -> H -> Prop;
  heap_name : Z -> bool;
  law_malloc : forall U n h, heap_ok U h -> 0 <= n < 65536 ->
    match mem_malloc n h with
    | (Some (p, bs), h') => p ∉ U /\ heap_name p = true /\ is_ptr p /\ Z.of_nat (length bs) = n /\ heap_ok ({[p]} ∪ U) h'
    | (None, h') => heap_ok U h'
    end;
  law_mem_free : forall U p h, heap_ok U h -> p ∈ U -> heap_ok (U ∖ {[p]}) (mem_free p h)
}.

(** ** Counting references *)

Lemma mult_same (p : Z) r : multiplicity p ({[+ p +]} ⊎ r) = S (multiplicity p r).
Proof. rewrite multiplicity_disj_union, multiplicity_singleton, decide_True by done. done. Qed.

Lemma mult_other (p q : Z) r : q <> p -> multiplicity q ({[+ p +]} ⊎ r) = multiplicity q r.
Proof. intros Hne. rewrite multiplicity_disj_union, multiplicity_singleton, decide_False by done. done. Qed.

(** ** Packets that change in place *)

(** Other bytes in the area [p], nothing else. *)
Definition areas_but {H} (p : Z) (s s' : lwip H) : Prop :=
  (forall a, a <> p -> areas s' !! a = areas s !! a) /\
  (forall bs, areas s !! p = Some bs -> exists bs', areas s' !! p = Some bs' /\ length bs' = length bs).

#[export] Instance areas_but_preorder {H} p : PreOrder (@areas_but H p).
Proof.
  split; [intros s; split; [done|intros bs Ha; by exists bs]|]. intros x y z [Hxy Hx] [Hyz Hy]. split.
  - intros a Ha. by rewrite Hyz, Hxy.
  - intros bs Ha. destruct (Hx bs Ha) as (bs1&Ha1&Hl1). destruct (Hy bs1 Ha1) as (bs2&Ha2&Hl2). exists bs2. split; [done|congruence].
Qed.

Lemma areas_but_same {H} p (s s' : lwip H) : areas s' = areas s -> areas_but p s s'.
Proof. intros Ha. split; intros; rewrite Ha; eauto. Qed.

Lemma length_concat_eq (cs' cs : list (list Z)) : (length <$> cs') = (length <$> cs) -> length (concat cs') = length (concat cs).
Proof.
  revert cs. induction cs' as [|x cs' IH]; intros [|y cs] Hl; try done. cbn in *. rewrite !length_app.
  injection Hl as Hxy Hl. rewrite Hxy. by rewrite (IH cs Hl).
Qed.

Lemma packet_touch {H} (s s' : lwip H) o l cs :
  packet s o l cs -> (forall q, q ∈ l -> pbufs s' !! q = pbufs s !! q) ->
  (forall a bs, uses s l a -> areas s !! a = Some bs -> exists bs', areas s' !! a = Some bs' /\ length bs' = length bs) ->
  exists cs', packet s' o l cs' /\ (length <$> cs') = (length <$> cs).
Proof.
  revert o cs. induction l as [|p l IH]; intros o [|c cs] Hp Hb Ha; try done; [by exists []|].
  destruct Hp as [-> (b&Hbp&Hlen&Htot&Hmax&(a&off&bs&Hpay&Har&Hof&Hle&Hc)&Hp)].
  destruct (IH _ _ Hp) as (cs'&Hp'&Hl'); [intros q Hq; apply Hb; set_solver| |].
  { intros a' bs' (q&c'&o'&Hq&?&?). apply Ha. exists q, c', o'. set_solver. }
  destruct (Ha a bs) as (bs'&Har'&Hlb); [exists p, b, off; set_solver|done|].
  pose proof (length_concat_eq _ _ Hl') as Hlc.
  exists (bytes_at bs' off (len b) :: cs').
  assert (Hl1 : length (bytes_at bs' off (len b)) = length c) by (rewrite length_bytes_at; lia).
  split; [|cbn; by rewrite Hl1, Hl']. split; [done|]. exists b. rewrite Hb by set_solver. split; [done|]. split; [lia|].
  cbn [concat] in *. rewrite length_app in *. split; [lia|]. split; [done|]. split; [|done].
  exists a, off, bs'. split_and!; try done; lia.
Qed.

(** The same packet in another memory. *)
Lemma packet_same {H} (s s' : lwip H) o l cs :
  packet s o l cs -> (forall q, q ∈ l -> pbufs s' !! q = pbufs s !! q) ->
  (forall a, uses s l a -> areas s' !! a = areas s !! a) -> packet s' o l cs.
Proof.
  revert o cs. induction l as [|p l IH]; intros o [|c cs] Hp Hb Ha; try done.
  destruct Hp as [-> (b&Hbp&Hlen&Htot&Hmax&(a&off&bs&Hpay&Har&Hrest)&Hp)]. split; [done|]. exists b.
  rewrite Hb by set_solver. split_and!; try done.
  - exists a, off, bs. split; [done|]. split; [|done]. rewrite Ha; [done|]. exists p, b, off. set_solver.
  - apply IH; [done|intros q Hq; apply Hb; set_solver|]. intros a' (q&c'&o'&Hq&?&?). apply Ha. exists q, c', o'. set_solver.
Qed.

Section own.
Context {H : Type} `{HeapLaws H}.
Implicit Types (s : lwip H) (r : gmultiset Z) (K : gmap Z (Z * list (list Z))).

(** ** The invariant *)

(** Where a buffer comes from, and where its bytes are: behind the structure, or
    in memory that is never freed. *)
Definition buf_kind (q : Z) (b : pbuf) : Prop :=
  is_ptr q /\ Z.land (flags b) PBUF_FLAG_IS_CUSTOM = 0 /\
  (if heap_name q then pbuf_get_allocsrc b = PBUF_TYPE_ALLOC_SRC_MASK_STD_HEAP
   else pbuf_get_allocsrc b = PBUF_TYPE_ALLOC_SRC_MASK_STD_MEMP_PBUF_POOL \/
        pbuf_get_allocsrc b = PBUF_TYPE_ALLOC_SRC_MASK_STD_MEMP_PBUF) /\
  (forall a o, payload b = Some (a, o) -> a = q \/ (heap_name a = false /\ ~ contiguous_pbuf b)).

(** What is known of a packet: where in its first buffer the data begin, and the
    bytes in each buffer. *)
Definition known_as s (p : Z) (k : Z * list (list Z)) (cs : list (list Z)) : Prop :=
  k.2 = cs /\ exists b, pbufs s !! p = Some b /\ payload b = Some (p, k.1).

(** The packet [p] with the buffers [l] and [m] references.  What it holds is
    known if it is one of the packets [K]. *)
Record live K (m : nat) s (p : Z) (l : list Z) : Prop := {
  lv_packet : exists cs, packet s (Some p) l cs /\ forall k, K !! p = Some k -> known_as s p k cs;
  lv_kind : forall q b, q ∈ l -> pbufs s !! q = Some b -> buf_kind q b;
  lv_ref : forall q b, q ∈ l -> pbufs s !! q = Some b -> ref b = if decide (q = p) then Z.of_nat m else 1;
  lv_count : (1 <= m <= 255)%nat;
  lv_kept : is_Some (K !! p) -> forall q b, q ∈ l -> pbufs s !! q = Some b -> contiguous_pbuf b
}.

(** The packets [L], by their first buffers, the free lists [f] and [g] of the
    pools, and the blocks [U] of the heap in use. *)
Record layout K r s (L : gmap Z (list Z)) (f g : list Z) (U : gset Z) : Prop := {
  ly_heads : forall p, p ∈ r <-> is_Some (L !! p);
  ly_live : forall p l, L !! p = Some l -> live K (multiplicity p r) s p l;
  ly_apart : forall p p' l l' q, L !! p = Some l -> L !! p' = Some l' -> q ∈ l -> q ∈ l' -> p = p';
  ly_pool : chain (pbufs s) (tab_pool s) f;
  ly_memp : chain (pbufs s) (tab_pbuf s) g;
  ly_free : forall q, q ∈ f \/ q ∈ g -> heap_name q = false /\ forall p l, L !! p = Some l -> q ∉ l;
  ly_heap : heap_ok U (heap s);
  ly_used : forall q, q ∈ U <-> heap_name q = true /\ exists p l, L !! p = Some l /\ q ∈ l;
  ly_kept : forall p, is_Some (K !! p) -> p ∈ r
}.

Definition owned K r s : Prop := exists L f g U, layout K r s L f g U.

(** ** Changes in one packet *)

Lemma live_head K m s p l : live K m s p l -> exists b l', l = p :: l' /\ pbufs s !! p = Some b /\ ref b = Z.of_nat m.
Proof.
  intros [(cs&Hp&_) _ Hr _ _]. destruct l as [|q l], cs as [|c cs]; try done. destruct Hp as [[= <-] (b&Hb&_)].
  exists b, l. split; [done|]. split; [done|]. rewrite (Hr p b ltac:(set_solver) Hb). by rewrite decide_True.
Qed.

(** The buffers of a packet whose contents are known have their bytes behind them. *)
Lemma kept_uses K m s p l a : live K m s p l -> is_Some (K !! p) -> uses s l a -> a ∈ l.
Proof.
  intros [_ Hk _ _ Hc] HK (q&b&o&Hq&Hb&Hpay). destruct (Hk q b Hq Hb) as (_&_&_&Hpl).
  destruct (Hpl a o Hpay) as [->|[_ Hn]]; [done|]. destruct Hn. by apply (Hc HK q).
Qed.

(** The other packets do not notice. *)
Lemma live_frame K m s s' p l : live K m s p l -> (forall q, q ∈ l -> pbufs s' !! q = pbufs s !! q) ->
  (forall a bs, a ∈ l \/ heap_name a = false -> areas s !! a = Some bs ->
     exists bs', areas s' !! a = Some bs' /\ length bs' = length bs) ->
  (forall a, a ∈ l -> areas s' !! a = areas s !! a) -> live K m s' p l.
Proof.
  intros Hlive Hb Ha Hsame. pose proof Hlive as [(cs&Hp&HK) Hk Hr Hc Ho]. split.
  - destruct (K !! p) as [cs0|] eqn:HKp.
    + exists cs. split; [|intros k Hk'; destruct (HK k Hk') as [? (b&Hbp&Hpay)]; split; [done|]; exists b; rewrite Hb; [done|];
        destruct (live_head _ _ _ _ _ Hlive) as (?&?&->&_); apply list_elem_of_here]. apply (packet_same s); [done..|]. intros a Hu. apply Hsame.
      apply (kept_uses K m s p l a Hlive); [by rewrite HKp|done].
    + destruct (packet_touch s s' _ _ _ Hp Hb) as (cs'&Hp'&_); [|by exists cs'].
      intros a bs (q&b&o&Hq&Hbq&Hpay). apply Ha. destruct (Hk q b Hq Hbq) as (_&_&_&Hpl). destruct (Hpl a o Hpay) as [->|[? _]]; auto.
  - intros q b Hq. rewrite Hb by done. by apply Hk.
  - intros q b Hq. rewrite Hb by done. by apply Hr.
  - done.
  - intros HKp q b Hq. rewrite Hb by done. by apply Ho.
Qed.

(** Other knowledge about other packets. *)
Lemma live_other K K' m s p l : K' !! p = K !! p -> live K m s p l -> live K' m s p l.
Proof. intros HK [Hp Hk Hr Hc Ho]. split; rewrite ?HK; done. Qed.

Lemma owned_change K K' r r' s s' p :
  owned K r s -> p ∈ r -> p ∈ r' -> (forall p', p' <> p -> multiplicity p' r' = multiplicity p' r) ->
  (forall p', p' <> p -> K' !! p' = K !! p') ->
  (forall l, live K (multiplicity p r) s p l ->
     live K' (multiplicity p r') s' p l /\ forall q, q ∉ l -> pbufs s' !! q = pbufs s !! q) ->
  areas_but p s s' -> tab_pool s' = tab_pool s -> tab_pbuf s' = tab_pbuf s -> heap s' = heap s ->
  owned K' r' s'.
Proof.
  intros (L&f&g&U&[Hh Hl Ha Hf Hg Hfr Hhp Hu Hkp]) Hp Hp' Hm HK Hch [Har1 Har2] Htp Htm Hhe.
  destruct (proj1 (Hh p) Hp) as [l0 Hl0]. destruct (Hch l0 (Hl p l0 Hl0)) as [Hlive Hout].
  assert (Hfree : forall q, q ∈ f \/ q ∈ g -> pbufs s' !! q = pbufs s !! q).
  { intros q Hq. apply Hout. by apply (Hfr q Hq) with p. }
  destruct (live_head _ _ _ _ _ (Hl p l0 Hl0)) as (_&l0'&Hl0p&_).
  exists L, f, g, U. split.
  - intros q. destruct (decide (q = p)) as [->|Hne]; [by split|].
    rewrite <- Hh, !elem_of_multiplicity. by rewrite Hm.
  - intros q l Hq. destruct (decide (q = p)) as [->|Hne]; [congruence|]. rewrite Hm by done.
    apply (live_other K); [by apply HK|]. apply (live_frame _ _ s); [by apply Hl| | |].
    + intros x Hx. apply Hout. intros Hx0. apply Hne. by apply (Ha q p l l0 x).
    + intros a bs _ Hbs. destruct (decide (a = p)) as [->|]; [by apply Har2|]. exists bs. by rewrite Har1.
    + intros a Hal. apply Har1. intros ->. apply Hne, (Ha q p l l0 p); try done. subst l0. by apply list_elem_of_here.
  - done.
  - rewrite Htp. apply (linked_ext (pbufs s)); [|done]. intros q Hq. by rewrite Hfree by auto.
  - rewrite Htm. apply (linked_ext (pbufs s)); [|done]. intros q Hq. by rewrite Hfree by auto.
  - done.
  - by rewrite Hhe.
  - done.
  - intros q Hq. destruct (decide (q = p)) as [->|Hne]; [done|]. rewrite HK in Hq by done. apply Hkp in Hq.
    rewrite elem_of_multiplicity in *. by rewrite Hm.
Qed.

Lemma owned_live K r s p : owned K r s -> p ∈ r -> exists b l, live K (multiplicity p r) s p (p :: l) /\ pbufs s !! p = Some b.
Proof.
  intros (L&f&g&U&[Hh Hl _ _ _ _ _ _ _]) Hp. destruct (proj1 (Hh p) Hp) as [l Hl0]. pose proof (Hl p l Hl0) as Hlive.
  destruct (live_head _ _ _ _ _ Hlive) as (b&l'&->&Hb&_). by exists b, l'.
Qed.

Lemma owned_kept K r s p : owned K r s -> is_Some (K !! p) -> p ∈ r.
Proof. intros (L&f&g&U&Hly). by apply (ly_kept _ _ _ _ _ _ _ Hly). Qed.

(** Another count for the first buffer. *)
Lemma live_count K m m' s p l b : live K m s p l -> pbufs s !! p = Some b -> (1 <= m' <= 255)%nat ->
  live K m' (set_pbufs (<[p := set_ref (Z.of_nat m') b]> (pbufs s)) s) p l.
Proof.
  intros Hlive Hb Hm. pose proof Hlive as [(cs&Hp&HK) Hk Hr _ Ho]. destruct (live_head _ _ _ _ _ Hlive) as (b'&l'&->&Hb'&_).
  assert (b' = b) as -> by congruence. assert (Hnd : NoDup (p :: l')) by (eapply linked_nodup, packet_chain, Hp).
  apply NoDup_cons in Hnd as [Hpl _]. split; [|..|done|].
  - destruct cs as [|c cs]; [done|]. destruct Hp as [_ (b0&Hb0&Hlen&Htot&Hmax&Hh&Hp)]. assert (b0 = b) as -> by congruence.
    exists (c :: cs). split.
    2:{ intros k Hk'. destruct (HK k Hk') as [? (b1&Hb1&Hpay)]. assert (b1 = b) as -> by congruence. split; [done|].
      exists (set_ref (Z.of_nat m') b). cbn. by rewrite lookup_insert_eq. }
    split; [done|]. exists (set_ref (Z.of_nat m') b). cbn [pbufs set_pbufs]. split; [apply lookup_insert_eq|].
    split_and!; try done. apply (packet_frame s); [done| |done]. intros q Hq. cbn. rewrite lookup_insert_ne; [done|]. by intros ->.
  - intros q c Hq. cbn. destruct (decide (q = p)) as [->|]; [rewrite lookup_insert_eq; intros [= <-]; exact (Hk p b Hq Hb)|].
    rewrite lookup_insert_ne by done. by apply Hk.
  - intros q c Hq. cbn. destruct (decide (q = p)) as [->|]; [rewrite lookup_insert_eq; by intros [= <-]|].
    rewrite lookup_insert_ne by done. intros Hc. rewrite (Hr q c Hq Hc). by rewrite decide_False.
  - intros HKp q c Hq. cbn. destruct (decide (q = p)) as [->|]; [rewrite lookup_insert_eq; intros [= <-]; exact (Ho HKp p b Hq Hb)|].
    rewrite lookup_insert_ne by done. by apply Ho.
Qed.

Lemma head_outside K m s p l q b : live K m s p l -> q ∉ l -> pbufs (set_pbufs (<[p := b]> (pbufs s)) s) !! q = pbufs s !! q.
Proof.
  intros Hlive Hq. cbn. rewrite lookup_insert_ne; [done|]. intros ->. destruct (live_head _ _ _ _ _ Hlive) as (?&?&->&_). set_solver.
Qed.

(** The count of a held packet is replaced by that of other references. *)
Lemma owned_recount K r r' s p b :
  owned K r s -> p ∈ r -> pbufs s !! p = Some b -> p ∈ r' -> (multiplicity p r' <= 255)%nat ->
  (forall p', p' <> p -> multiplicity p' r' = multiplicity p' r) ->
  owned K r' (set_pbufs (<[p := set_ref (Z.of_nat (multiplicity p r')) b]> (pbufs s)) s).
Proof.
  intros Ho Hp Hb Hp' Hc Hm. apply (owned_change K _ r _ s _ p); try done; [|by apply areas_but_same]. intros l Hlive.
  split; [apply (live_count _ _ _ _ _ _ b Hlive Hb)|].
  - pose proof (proj1 (elem_of_multiplicity p r') Hp') as Hx. lia.
  - intros q Hq. by eapply head_outside.
Qed.

Lemma own_ref K r p s : owned K r s -> p ∈ r -> (multiplicity p r < 255)%nat ->
  exists s', pbuf_ref (Some p) s = Ok s' /\ owned K ({[+ p +]} ⊎ r) s'.
Proof.
  intros Ho Hp Hm. destruct (owned_live K r s p Ho Hp) as (b&l&Hlive&Hb).
  destruct (live_head _ _ _ _ _ Hlive) as (b'&l'&_&Hb'&Hr). assert (b' = b) as -> by congruence.
  unfold pbuf_ref. rewrite (assign_ok _ _ _ _ Hb). eexists. split; [reflexivity|].
  rewrite Hr. pose proof (mult_same p r) as Hm'.
  rewrite wrap_small by (split; [lia|]; change (2 ^ 8) with 256; lia).
  replace (Z.of_nat (multiplicity p r) + 1) with (Z.of_nat (multiplicity p ({[+ p +]} ⊎ r))) by lia.
  apply (owned_recount K r); try done; [multiset_solver|lia|]. intros p' Hne. by apply mult_other.
Qed.

(** ** Reading and writing *)

Definition own_room s (p n : Z) : Prop := exists b o bs, pbufs s !! p = Some b /\ contiguous_pbuf b /\
  payload b = Some (p, o) /\ areas s !! p = Some bs /\ 0 <= o /\ o + n <= Z.of_nat (length bs).

(** Only bytes of one area have changed. *)
Definition bytes_only (p : Z) s s' : Prop := pbufs s' = pbufs s /\ areas_but p s s' /\ tab_pool s' = tab_pool s /\
  tab_pbuf s' = tab_pbuf s /\ heap s' = heap s.

#[export] Instance bytes_only_preorder p : PreOrder (bytes_only p).
Proof.
  split; [by intros x; split_and!|]. intros x y z (?&?&?&?&?) (?&?&?&?&?). split_and!; try congruence. by etrans.
Qed.

Lemma live_bytes K m s s' p l : live K m s p l -> K !! p = None -> bytes_only p s s' -> live K m s' p l.
Proof.
  intros [(cs&Hp&_) Hk Hr Hc _] HK (Hb&[Ha1 Ha2]&_). split; rewrite ?HK, ?Hb; try done.
  destruct (packet_touch s s' _ _ _ Hp) as (cs'&Hp'&_); [by rewrite Hb| |by exists cs'].
  intros a bs _ Hbs. destruct (decide (a = p)) as [->|]; [by apply Ha2|]. exists bs. by rewrite Ha1.
Qed.

(** Other bytes in the packet [p]. *)
Lemma owned_bytes K r s s' p : owned K r s -> p ∈ r -> K !! p = None -> bytes_only p s s' -> owned K r s'.
Proof.
  intros Ho Hp HK Hbo. pose proof Hbo as (Hb&Har&Htp&Htm&Hhe). apply (owned_change K K r r s s' p); try done.
  intros l Hlive. split; [by eapply live_bytes|]. intros q _. by rewrite Hb.
Qed.

Lemma st_like s off v p o bs : areas s !! p = Some bs -> 0 <= o + off ->
  o + off + Z.of_nat (length v) <= Z.of_nat (length bs) ->
  st_bytes s (Some (p, o)) off v = Ok (set_areas (<[p := splice (Z.to_nat (o + off)) v bs]> (areas s)) s) /\
  bytes_only p s (set_areas (<[p := splice (Z.to_nat (o + off)) v bs]> (areas s)) s).
Proof.
  intros Ha Ho Hl. unfold st_bytes, area. cbn [not_null rbind]. rewrite Ha. cbn [rbind]. rewrite wr_in_range by lia. cbn [rbind].
  split; [done|]. split; [done|]. split; [|done]. split.
  - intros a Hne. cbn. by rewrite lookup_insert_ne.
  - intros bs' Ha'. cbn. rewrite lookup_insert_eq. eexists. split; [reflexivity|]. assert (bs' = bs) as -> by congruence.
    apply length_splice. lia.
Qed.

Lemma own_room_bytes s s' p n : own_room s p n -> bytes_only p s s' -> own_room s' p n.
Proof.
  intros (b&o&bs&Hb&Hc&Hpay&Ha&Hnn&Hle) (Hb'&[_ Ha']&_). destruct (Ha' bs Ha) as (bs'&Hbs'&Hlb).
  exists b, o, bs'. rewrite Hb'. split_and!; try done. lia.
Qed.

Lemma own_write K r p n off v s : owned K r s -> p ∈ r -> K !! p = None -> own_room s p n -> 0 <= off ->
  off + Z.of_nat (length v) <= n ->
  exists s', (let* b := deref s p in st_bytes s (payload b) off v) = Ok s' /\ owned K r s' /\ bytes_only p s s'.
Proof.
  intros Ho Hp HK (b&o&bs&Hb&Hc&Hpay&Ha&Hnn&Hle) Hoff Hl. rewrite (deref_ok _ _ _ Hb). cbn [rbind]. rewrite Hpay.
  destruct (st_like s off v p o bs Ha) as (->&Hbo); [lia|lia|]. eexists. split; [reflexivity|].
  split; [by apply (owned_bytes K r s _ p)|done].
Qed.

Lemma own_read p n off k s : own_room s p n -> 0 <= off -> 0 <= k -> off + k <= n ->
  exists v, (let* b := deref s p in ld_bytes s (payload b) off k) = Ok v /\ Z.of_nat (length v) = k.
Proof.
  intros (b&o&bs&Hb&Hc&Hpay&Ha&Hnn&Hle) Hoff Hk Hl. rewrite (deref_ok _ _ _ Hb). cbn [rbind].
  unfold ld_bytes, area. rewrite Hpay. cbn [not_null rbind]. rewrite Ha. cbn [rbind].
  rewrite (proj2 (in_range_spec _ _ _)) by lia. eexists. split; [reflexivity|]. rewrite length_bytes_at; lia.
Qed.

Lemma needs_copy_ok fuel s o l cs : packet s o l cs -> (length l < fuel)%nat -> exists b, needs_copy_loop fuel s o = Ok b.
Proof.
  revert o l cs. induction fuel as [|fuel IH]; intros o l cs Hp Hf; [lia|]. cbn [needs_copy_loop].
  destruct l as [|p l], cs as [|c cs]; try done; [cbn in Hp; subst o; by exists false|].
  destruct Hp as [-> (b&Hb&_&_&_&_&Hp)]. rewrite (deref_ok _ _ _ Hb). cbn [rbind].
  destruct (PBUF_NEEDS_COPY b); [by exists true|]. apply (IH _ l cs Hp). cbn in Hf. lia.
Qed.

(** ** Sending *)

(** Room for a header in front of a packet. *)
Lemma live_grow K m s p l b a o n : live K m s p l -> K !! p = None -> pbufs s !! p = Some b -> payload b = Some (a, o) ->
  0 < n <= o -> tot_len b + n < 65536 -> live K m (set_pbufs (<[p := with_header n b a o]> (pbufs s)) s) p l.
Proof.
  intros Hlive HK Hb Hpay Hn Htn. pose proof Hlive as [(cs&Hp&_) Hk Hr Hm _]. destruct (live_head _ _ _ _ _ Hlive) as (b'&l'&->&Hb'&_).
  assert (b' = b) as -> by congruence. assert (Hnd : NoDup (p :: l')) by (eapply linked_nodup, packet_chain, Hp).
  apply NoDup_cons in Hnd as [Hpl _]. split; [|..|done|]; rewrite ?HK; [| | |by intros [? ?]].
  - destruct cs as [|c cs]; [done|]. destruct Hp as [_ (b0&Hb0&Hlen&Htot&Hmax&(a'&o'&bs&Hpay'&Ha&Ho&Hle&Hc)&Hp)].
    assert (b0 = b) as -> by congruence. rewrite Hpay in Hpay'. injection Hpay' as <- <-.
    assert (Hl1 : length (bytes_at bs (o - n) (len b + n)) = (length c + Z.to_nat n)%nat) by (rewrite length_bytes_at; lia).
    cbn [concat] in Htot. rewrite length_app in Htot.
    exists (bytes_at bs (o - n) (len b + n) :: cs). split; [|done]. split; [done|]. exists (with_header n b a o). cbn [pbufs set_pbufs].
    split; [apply lookup_insert_eq|]. split; [cbn; lia|]. split; [cbn [concat]; rewrite length_app; cbn; lia|].
    split; [cbn; lia|]. split; [|apply (packet_frame s); [done| |done]].
    + exists a, (o - n), bs. split; [done|]. split; [done|]. split; [lia|]. split; [cbn; lia|done].
    + intros q Hq. cbn. rewrite lookup_insert_ne; [done|]. by intros ->.
  - intros q c Hq. cbn. destruct (decide (q = p)) as [->|]; [|rewrite lookup_insert_ne by done; by apply Hk].
    rewrite lookup_insert_eq. intros [= <-]. destruct (Hk p b Hq Hb) as (Hf&Hs&Hx&Hpl'). split_and!; try done.
    intros a' o' [= <- <-]. by apply (Hpl' a o).
  - intros q c Hq. cbn. destruct (decide (q = p)) as [->|]; [|rewrite lookup_insert_ne by done; intros Hc; rewrite (Hr q c Hq Hc); by rewrite decide_False].
    rewrite lookup_insert_eq. intros [= <-]. cbn. rewrite (Hr p b Hq Hb). by rewrite decide_True.
Qed.

(** The interface's function leaves the references and the other packets alone. *)
Definition link_keeps (linkoutput : netif -> Z -> lwip H -> result (err_t * lwip H)) : Prop :=
  forall K r n p s, owned K r s -> p ∈ r -> K !! p = None -> exists e s', linkoutput n p s = Ok (e, s') /\ owned K r s'.

(** [pbuf_add_header] fails, or makes room in front of the packet. *)
Lemma own_add_header K r p n s : owned K r s -> p ∈ r -> K !! p = None -> 0 < n < 65536 ->
  pbuf_add_header (Some p) n s = Ok (1, s) \/
  exists b o bs, pbufs s !! p = Some b /\ contiguous_pbuf b /\ payload b = Some (p, o) /\ areas s !! p = Some bs /\
    n <= o /\ 0 <= len b <= tot_len b /\ tot_len b + n < 65536 /\ o + len b <= Z.of_nat (length bs) /\
    pbuf_add_header (Some p) n s = Ok (0, set_pbufs (<[p := with_header n b p o]> (pbufs s)) s) /\
    owned K r (set_pbufs (<[p := with_header n b p o]> (pbufs s)) s).
Proof.
  intros Ho Hp HK Hn. destruct (owned_live K r s p Ho Hp) as (b&l&Hlive&Hb). pose proof Hlive as [(cs&Hpk&_) Hkind _ _ _].
  destruct cs as [|c cs]; [done|]. destruct Hpk as [_ (b0&Hb0&Hlen&Htot&Hmax&(a&o&bs&Hpay&Ha&Ho0&Hle&_)&_)].
  assert (b0 = b) as -> by congruence. cbn [concat] in Htot. rewrite length_app in Htot.
  destruct (Hkind p b ltac:(set_solver) Hb) as (_&_&_&Hown).
  assert (Hcase : pbuf_add_header (Some p) n s = Ok (1, s) \/
    (contiguous_pbuf b /\ n <= o /\ tot_len b + n < 65536)).
  { unfold pbuf_add_header, pbuf_add_header_impl.
    destruct (Z.ltb_spec 65535 n); [lia|]. destruct (Z.eqb_spec n 0); [lia|]. rewrite (deref_ok _ _ _ Hb). cbn [rbind].
    rewrite (wrap16_small n) by lia. destruct (Z.ltb_spec (wrap16 (n + tot_len b)) n) as [|Hw]; [by left|].
    assert (Hsum : tot_len b + n < 65536).
    { destruct (Z_lt_ge_dec (n + tot_len b) 65536); [lia|]. exfalso. revert Hw. unfold wrap. change (2 ^ 16) with 65536.
      rewrite <- (Z.mod_unique (n + tot_len b) 65536 1 (n + tot_len b - 65536)) by lia. lia. }
    destruct (Z.eqb_spec (Z.land (type_internal b) PBUF_TYPE_FLAG_STRUCT_DATA_CONTIGUOUS) 0) as [|Hc]; cbn [negb]; [by left|].
    rewrite Hpay. cbn [not_null rbind]. destruct (Z.ltb_spec (o - n) 0); [by left|]. right. split; [exact Hc|lia]. }
  destruct Hcase as [|(Hc&Hno&Hsum)]; [by left|]. right.
  assert (a = p) as -> by (destruct (Hown a o Hpay) as [|[_ []]]; done).
  exists b, o, bs. split_and!; try done; try lia; [apply add_header_ok; (done || lia)|].
  apply (owned_change K K r r s _ p); try done; [|by apply areas_but_same]. intros l' Hl'. split; [apply live_grow; (done || lia)|].
  intros q Hq. by eapply head_outside.
Qed.

Lemma own_output linkoutput K r n p src dst ty s : link_keeps linkoutput -> owned K r s -> p ∈ r -> K !! p = None ->
  exists e s', ethernet_output linkoutput n p src dst ty s = Ok (e, s') /\ owned K r s'.
Proof.
  intros Hlink Ho Hp HK. unfold ethernet_output, SIZEOF_ETH_HDR.
  destruct (own_add_header K r p 14 s Ho Hp HK) as [->|(b&o&bs&Hb&Hcont&Hpay&Ha&Ho14&Hlb&Ht14&Hle&->&Ho1)]; [lia|cbn [rbind]; by exists ERR_BUF, s|].
  cbn [rbind]. change (negb (0 =? 0)) with false. cbv iota. set (s1 := set_pbufs _ s) in *.
  assert (Hb1 : pbufs s1 !! p = Some (with_header 14 b p o)) by apply lookup_insert_eq.
  assert (Hroom : own_room s1 p 14) by (exists (with_header 14 b p o), (o - 14), bs; split_and!; (done || lia)).
  rewrite (deref_ok _ _ _ Hb1). cbn [rbind].
  assert (Hst : forall x off v, owned K r x -> pbufs x !! p = Some (with_header 14 b p o) -> own_room x p 14 -> 0 <= off ->
            off + Z.of_nat (length v) <= 14 ->
            exists x', st_bytes x (payload (with_header 14 b p o)) off v = Ok x' /\ owned K r x' /\
              pbufs x' !! p = Some (with_header 14 b p o) /\ own_room x' p 14).
  { intros x off v Hox Hbx Hrx Hoff Hv. destruct (own_write K r p 14 off v x Hox Hp HK Hrx Hoff Hv) as (x'&Hx&Hox'&Hbo).
    rewrite (deref_ok _ _ _ Hbx) in Hx. cbn [rbind] in Hx. exists x'. split_and!; try done; [|by eapply own_room_bytes].
    by destruct Hbo as (->&_). }
  destruct (Hst s1 12 [wrap8 (ty / 256); wrap8 ty] Ho1 Hb1 Hroom) as (s2&->&Ho2&Hb2&Hr2); [lia|cbn; lia|]. cbn [rbind].
  destruct (Hst s2 0 (take 6 dst) Ho2 Hb2 Hr2) as (s3&->&Ho3&Hb3&Hr3); [lia|rewrite length_take; lia|]. cbn [rbind].
  destruct (Hst s3 6 (take 6 src) Ho3 Hb3 Hr3) as (s4&->&Ho4&_&_); [lia|rewrite length_take; lia|]. cbn [rbind].
  by apply (Hlink K r n p s4).
Qed.

(** ** Freeing *)

(** The last reference to the first buffer of a chain is given up. *)
Lemma dealloc_ok s q b0 b f g U : pbufs s !! q = Some b0 -> buf_kind q b ->
  chain (pbufs s) (tab_pool s) f -> chain (pbufs s) (tab_pbuf s) g -> q ∉ f -> q ∉ g ->
  heap_ok U (heap s) -> (forall x, x ∈ U -> heap_name x = true) -> (heap_name q = true -> q ∈ U) ->
  exists s' f' g', pbuf_dealloc q b s = Ok s' /\ chain (pbufs s') (tab_pool s') f' /\ chain (pbufs s') (tab_pbuf s') g' /\
    (forall x, x ∈ f' \/ x ∈ g' -> (x ∈ f \/ x ∈ g) \/ (x = q /\ heap_name q = false)) /\
    heap_ok (U ∖ {[q]}) (heap s') /\
    (forall x, x <> q -> pbufs s' !! x = pbufs s !! x) /\
    (forall a, ~ (a = q /\ heap_name q = true) -> areas s' !! a = areas s !! a).
Proof.
  intros Hb (_&Hcu&Hsrc&_) Hf Hg Hqf Hqg Hh HU HqU. unfold pbuf_dealloc. rewrite Hcu. change (negb (0 =? 0)) with false. cbv iota.
  assert (Hins : forall b' o x, q ∉ x -> chain (pbufs s) o x -> chain (<[q := b']> (pbufs s)) o x) by (intros; by apply chain_insert).
  destruct (heap_name q) eqn:Hn.
  - rewrite Hsrc. cbn [Z.eqb]. eexists _, f, g. split; [reflexivity|]. cbn.
    assert (Hdel : forall o x, q ∉ x -> chain (pbufs s) o x -> chain (delete q (pbufs s)) o x).
    { intros o x Hx. apply linked_ext. intros y Hy. rewrite lookup_delete_ne; [done|]. by intros ->. }
    split; [by apply Hdel|]. split; [by apply Hdel|]. split; [by left|]. split; [apply law_mem_free; auto|].
    split; [intros x Hx; by rewrite lookup_delete_ne by done|].
    intros a Ha. rewrite lookup_delete_ne; [done|]. intros <-. by apply Ha.
  - assert (HqU' : U ∖ {[q]} = U).
    { apply leibniz_equiv. intros x. rewrite elem_of_difference, elem_of_singleton. split; [by intros [? _]|].
      intros Hx. split; [done|]. intros ->. rewrite (HU _ Hx) in Hn. done. }
    rewrite HqU'. unfold memp_free, Pbuf.assign, deref. cbn [tab]. destruct Hsrc as [-> | ->]; cbn [Z.eqb Pos.eqb]; rewrite Hb; cbn [rbind tab set_tab].
    + eexists _, (q :: f), g. split; [reflexivity|]. cbn. split; [|split; [by apply Hins|]].
      { split; [done|]. eexists. split; [apply lookup_insert_eq|]. by apply Hins. }
      split; [intros x [Hx|Hx]; [apply elem_of_cons in Hx as [->|Hx]; auto|auto]|]. split; [done|].
      split; [intros x Hx; by rewrite lookup_insert_ne by done|done].
    + eexists _, f, (q :: g). split; [reflexivity|]. cbn. split; [by apply Hins|]. split.
      { split; [done|]. eexists. split; [apply lookup_insert_eq|]. by apply Hins. }
      split; [intros x [Hx|Hx]; [auto|apply elem_of_cons in Hx as [->|Hx]; auto]|]. split; [done|].
      split; [intros x Hx; by rewrite lookup_insert_ne by done|done].
Qed.

Lemma free_all fuel s o l f g U count :
  chain (pbufs s) o l -> (forall q, q ∈ l -> exists b, pbufs s !! q = Some b /\ ref b = 1 /\ buf_kind q b) ->
  chain (pbufs s) (tab_pool s) f -> chain (pbufs s) (tab_pbuf s) g -> (forall q, q ∈ l -> q ∉ f /\ q ∉ g) ->
  heap_ok U (heap s) -> (forall x, x ∈ U -> heap_name x = true) -> (forall q, q ∈ l -> heap_name q = true -> q ∈ U) ->
  (length l < fuel)%nat ->
  exists n s' f' g' U', free_loop fuel o count s = Ok (n, s') /\
    chain (pbufs s') (tab_pool s') f' /\ chain (pbufs s') (tab_pbuf s') g' /\
    (forall x, x ∈ f' \/ x ∈ g' -> (x ∈ f \/ x ∈ g) \/ (x ∈ l /\ heap_name x = false)) /\
    heap_ok U' (heap s') /\ (forall x, x ∈ U' <-> x ∈ U /\ x ∉ l) /\
    (forall x, x ∉ l -> pbufs s' !! x = pbufs s !! x) /\
    (forall a, ~ (a ∈ l /\ heap_name a = true) -> areas s' !! a = areas s !! a).
Proof.
  revert s o l f g U count. induction fuel as [|fuel IH]; intros s o l f g U count Hc Hl Hf Hg Hout Hh HU HlU Hfu; [lia|].
  cbn [free_loop]. destruct l as [|q l].
  { cbn in Hc. subst o. exists count, s, f, g, U. split_and!; try done; [by left|]. intros x. split; [|by intros [? _]]. intros Hx. split; [done|]. apply not_elem_of_nil. }
  pose proof (linked_nodup _ _ _ Hc) as [Hql _]%NoDup_cons. destruct Hc as [-> (b&Hb&Hc)].
  destruct (Hl q (list_elem_of_here q l)) as (b'&Hb'&Hr&Hk). assert (b' = b) as -> by congruence.
  rewrite (deref_ok _ _ _ Hb). cbn [rbind]. rewrite (assign_ok _ _ _ _ Hb). cbn [rbind]. rewrite Hr.
  change (wrap8 (1 - 1)) with 0. change (0 =? 0) with true. cbv iota. set (s1 := set_pbufs _ s).
  destruct (Hout q (list_elem_of_here q l)) as [Hqf Hqg].
  destruct (dealloc_ok s1 q (set_ref 0 b) b f g U) as (s2&f2&g2&->&Hf2&Hg2&Hfg2&Hh2&Hp2&Ha2);
    [apply lookup_insert_eq|done|by apply chain_insert|by apply chain_insert|done|done|done|done|apply HlU; by left|].
  cbn [rbind].
  assert (Hp2' : forall x, x <> q -> pbufs s2 !! x = pbufs s !! x)
    by (intros x Hx; rewrite Hp2 by done; cbn; by rewrite lookup_insert_ne by done).
  destruct (IH s2 (next b) l f2 g2 (U ∖ {[q]}) (wrap8 (count + 1))) as (n&s'&f'&g'&U'&->&Hf'&Hg'&Hfg'&Hh'&HU'&Hp'&Ha').
  - apply (linked_ext (pbufs s)); [|done]. intros x Hx. rewrite Hp2'; [done|]. by intros ->.
  - intros x Hx. destruct (Hl x (list_elem_of_further x q l Hx)) as (bx&Hbx&?). exists bx. rewrite Hp2'; [done|]. by intros ->.
  - done.
  - done.
  - intros x Hx. assert (Hn : x ∉ f /\ x ∉ g) by (apply Hout; by right).
    split; intros Hin; (destruct (Hfg2 x) as [[?|?]|[-> _]]; [auto|tauto|tauto|by apply Hql]).
  - done.
  - intros x [Hx _]%elem_of_difference. by apply HU.
  - intros x Hx Hn. apply elem_of_difference. split; [apply HlU; [by right|done]|]. intros ->%elem_of_singleton. done.
  - cbn in Hfu. lia.
  - exists n, s', f', g', U'. split_and!; try done.
    + intros x Hx. destruct (Hfg' x Hx) as [Hx2|[Hx2 Hn]]; [|right; split; [by right|done]].
      destruct (Hfg2 x Hx2) as [?|[-> ?]]; [by left|right; split; [by left|done]].
    + intros x. rewrite HU', elem_of_difference, elem_of_singleton, elem_of_cons. tauto.
    + intros x Hx. apply not_elem_of_cons in Hx as [Hxq Hxl]. rewrite Hp' by done. by apply Hp2'.
    + intros a Ha. rewrite Ha' by (intros [? ?]; apply Ha; split; [by right|done]). rewrite Ha2; [done|]. intros [-> Hn]. apply Ha. split; [by left|done].
Qed.

Lemma own_free K r p s : owned K ({[+ p +]} ⊎ r) s -> K !! p = None ->
  exists s', (let* (_, x) := pbuf_free (Some p) s in Ok x) = Ok s' /\ owned K r s'.
Proof.
  intros Ho HK. assert (Hp : p ∈ {[+ p +]} ⊎ r) by multiset_solver.
  destruct (owned_live K _ s p Ho Hp) as (b&l&Hlive&Hb). destruct (live_head _ _ _ _ _ Hlive) as (b'&l'&[= <-]&Hb'&Hr).
  assert (b' = b) as -> by congruence. rewrite mult_same in Hr, Hlive. unfold pbuf_free.
  destruct (decide (p ∈ r)) as [Hin|Hout].
  - pose proof (proj1 (elem_of_multiplicity p r) Hin) as Hm. pose proof (lv_count _ _ _ _ _ Hlive) as Hc.
    unfold chain_fuel. cbn [free_loop]. rewrite (deref_ok _ _ _ Hb). cbn [rbind]. rewrite (assign_ok _ _ _ _ Hb). cbn [rbind].
    rewrite Hr. replace (wrap8 (Z.of_nat (S (multiplicity p r)) - 1)) with (Z.of_nat (multiplicity p r))
      by (rewrite wrap_small; [lia|split; [lia|]; change (2 ^ 8) with 256; lia]).
    rewrite (proj2 (Z.eqb_neq _ _)) by lia. cbn [rbind]. eexists. split; [reflexivity|].
    apply (owned_recount K ({[+ p +]} ⊎ r)); try done; [lia|]. intros p' Hne. by rewrite mult_other.
  - assert (Hm0 : multiplicity p r = 0%nat) by (by apply not_elem_of_multiplicity). rewrite Hm0 in *.
    destruct Ho as (L&f&g&U&[Hh Hl Ha Hf Hg Hfr Hhp Hu Hkp]). destruct (proj1 (Hh p) Hp) as [l0 Hl0].
    pose proof (Hl p l0 Hl0) as Hlv. rewrite mult_same, Hm0 in Hlv. destruct Hlv as [(cs&Hpk&_) Hk Hrf _ _].
    pose proof (packet_chain _ _ _ _ Hpk) as Hc.
    destruct (free_all (chain_fuel s) s (Some p) l0 f g U 0) as (n&s'&f'&g'&U'&->&Hf'&Hg'&Hfg'&Hh'&HU'&Hp'&Ha'); try done.
    { intros q Hq. destruct (linked_dom _ _ _ q Hc Hq) as [bq Hbq]. exists bq. split; [done|]. split; [|by apply Hk].
      rewrite (Hrf q bq Hq Hbq). by case_decide. }
    { intros q Hq. split; intros Hin; (destruct (Hfr q) as [_ Hno]; [auto|by apply (Hno p l0)]). }
    { intros x Hx. by apply Hu. }
    { intros q Hq Hn. apply Hu. split; [done|]. by exists p, l0. }
    { by apply chain_fuel_ok with (o := Some p). }
    cbn [rbind]. eexists. split; [reflexivity|]. exists (delete p L), f', g', U'.
    assert (Hdis : forall p' l', delete p L !! p' = Some l' -> L !! p' = Some l' /\ p' <> p /\ forall q, q ∈ l' -> q ∉ l0).
    { intros p' l' [Hne Hl']%lookup_delete_Some. split; [done|]. split; [done|]. intros q Hq Hq0. apply Hne. by apply (Ha p p' l0 l' q). }
    split; try done.
    + intros q. destruct (decide (q = p)) as [->|Hne].
      * rewrite lookup_delete_eq. split; [done|]. by intros [? ?].
      * rewrite lookup_delete_ne by done. rewrite <- Hh, !elem_of_multiplicity. by rewrite mult_other.
    + intros p' l' (Hl'&Hne&Hd)%Hdis. pose proof (Hl p' l' Hl') as Hlv. rewrite mult_other in Hlv by done.
      apply (live_frame _ _ s); [done|intros q Hq; by apply Hp', Hd| |].
      * intros a bs Hor Hbs. exists bs. split; [|done].
        rewrite Ha'; [done|]. intros [Hal Hn]. destruct Hor as [Hor|Hor]; [by apply (Hd a)|congruence].
      * intros a Hal. apply Ha'. intros [Hal' _]. by apply (Hd a).
    + intros p1 p2 l1 l2 q (Hx1&_)%Hdis (Hx2&_)%Hdis. by apply Ha.
    + intros q Hq. destruct (Hfg' q Hq) as [Hq'|[Hq' Hn]].
      * destruct (Hfr q Hq') as [Hn Hno]. split; [done|]. intros p' l' (Hl'&_)%Hdis. by apply (Hno p').
      * split; [done|]. intros p' l' (_&_&Hd)%Hdis Hin. by apply (Hd q).
    + intros q. rewrite HU', Hu. split.
      * intros [[Hn (p'&l'&Hl'&Hq)] Hnl]. split; [done|]. exists p', l'. split; [|done]. apply lookup_delete_Some.
        split; [|done]. intros <-. congruence.
      * intros [Hn (p'&l'&(Hl'&_&Hd)%Hdis&Hq)]. split; [|by apply Hd]. split; [done|]. by exists p', l'.
    + intros q Hq. pose proof (Hkp q Hq) as Hq'. assert (q <> p) by (intros ->; rewrite HK in Hq; by destruct Hq).
      rewrite elem_of_multiplicity in *. by rewrite mult_other in Hq'.
Qed.

(** ** Allocating *)

Lemma align_bounds n : n <= LWIP_MEM_ALIGN_SIZE n < n + 4.
Proof.
  unfold LWIP_MEM_ALIGN_SIZE. change (Z.lnot 3) with (-4). replace (Z.land (n + 3) (-4)) with (4 * ((n + 3) / 4)).
  - pose proof (Z.div_mod (n + 3) 4 ltac:(lia)). pose proof (Z.mod_pos_bound (n + 3) 4 ltac:(lia)). lia.
  - change (-4) with (Z.lnot (Z.ones 2)). rewrite Z.mul_comm. change 4 with (2 ^ 2).
    rewrite <- Z.ldiff_land, Z.ldiff_ones_r, Z.shiftl_mul_pow2, Z.shiftr_div_pow2 by lia. done.
Qed.

(** A new packet of one buffer from the heap. *)
Definition fresh (p o n : Z) : pbuf := mk_pbuf None (Some (p, o)) n n (wrap8 (type_code PBUF_RAM)) 0 1 0.

Lemma owned_new K r s p bs o n U h' :
  (exists L f g, layout K r s L f g U) -> p ∉ U -> heap_name p = true -> is_ptr p -> heap_ok ({[p]} ∪ U) h' ->
  0 <= o -> 0 <= n < 65536 -> o + n <= Z.of_nat (length bs) ->
  owned K ({[+ p +]} ⊎ r) (set_pbufs (<[p := fresh p o n]> (pbufs s)) (set_areas (<[p := bs]> (areas s)) (set_heap h' s))) /\ p ∉ r.
Proof.
  intros (L&f&g&[Hh Hl Ha Hf Hg Hfr Hhp Hu Hkp]) HpU Hn Hptr Hh' Ho Hn0 Hlen.
  set (s' := set_pbufs _ _).
  assert (Hb : pbufs s' !! p = Some (fresh p o n)) by apply lookup_insert_eq.
  assert (Hfresh : forall p' l, L !! p' = Some l -> p ∉ l).
  { intros p' l Hp' Hin. apply HpU, Hu. split; [done|]. by exists p', l. }
  assert (Hpr : p ∉ r).
  { intros [l Hpl]%Hh. destruct (live_head _ _ _ _ _ (Hl p l Hpl)) as (?&l'&->&_). by apply (Hfresh p (p :: l') Hpl), list_elem_of_here. }
  assert (HpL : L !! p = None) by (apply eq_None_not_Some; by rewrite <- Hh).
  assert (HpK : K !! p = None) by (apply eq_None_not_Some; intros Hs; by apply Hpr, Hkp).
  assert (Hne : forall q, q ∈ f \/ q ∈ g -> q <> p) by (intros q Hq ->; destruct (Hfr p Hq); congruence).
  split; [|done].
  exists (<[p := [p]]> L), f, g, ({[p]} ∪ U). split.
  - intros q. destruct (decide (q = p)) as [->|Hq].
    + rewrite lookup_insert_eq. split; [done|]. intros _. multiset_solver.
    + rewrite lookup_insert_ne by done. rewrite <- Hh, !elem_of_multiplicity. by rewrite mult_other.
  - intros q l Hql. destruct (decide (q = p)) as [->|Hq].
    + rewrite lookup_insert_eq in Hql. injection Hql as <-. rewrite mult_same. rewrite (proj1 (not_elem_of_multiplicity p r) Hpr).
      split; [|..|lia|]; rewrite ?HpK.
      * exists [bytes_at bs o n]. split; [|done]. split; [done|]. exists (fresh p o n). split; [done|].
        assert (Hlb : length (bytes_at bs o n) = Z.to_nat n) by (apply length_bytes_at; lia).
        cbn [concat]. rewrite app_nil_r, Hlb. split; [cbn; lia|]. split; [cbn; lia|]. split; [cbn; lia|]. split; [|done].
        exists p, o, bs. split; [done|]. split; [cbn; by rewrite lookup_insert_eq|]. by split_and!.
      * intros q c Hq Hc. apply list_elem_of_singleton in Hq. subst q. rewrite Hb in Hc. injection Hc as <-.
        split; [done|]. split; [done|]. split; [by rewrite Hn|]. intros a' o' [= <- <-]. by left.
      * intros q c Hq Hc. apply list_elem_of_singleton in Hq. subst q. rewrite Hb in Hc. injection Hc as <-. by rewrite decide_True.
      * by intros [? ?].
    + rewrite lookup_insert_ne in Hql by done. rewrite mult_other by done. apply (live_frame _ _ s); [by apply Hl| | |].
      * intros x Hx. cbn. rewrite lookup_insert_ne; [done|]. intros <-. by apply (Hfresh q l).
      * intros a bs' Hor Hbs. exists bs'. split; [|done]. cbn. rewrite lookup_insert_ne; [done|]. intros <-.
        destruct Hor as [Hor|Hor]; [by apply (Hfresh q l)|congruence].
      * intros a Hal. cbn. rewrite lookup_insert_ne; [done|]. intros <-. by apply (Hfresh q l).
  - intros p1 p2 l1 l2 q. rewrite !lookup_insert_Some.
    intros [[<- <-]|[Hn1 Hx1]] [[<- <-]|[Hn2 Hx2]] Hq1 Hq2; [done| | |by apply (Ha p1 p2 l1 l2 q)].
    + apply list_elem_of_singleton in Hq1. subst q. by apply (Hfresh p2 l2) in Hq2.
    + apply list_elem_of_singleton in Hq2. subst q. by apply (Hfresh p1 l1) in Hq1.
  - apply (linked_ext (pbufs s)); [|done]. intros q Hq. cbn. rewrite lookup_insert_ne; [done|]. intros <-. by apply (Hne p); [left|].
  - apply (linked_ext (pbufs s)); [|done]. intros q Hq. cbn. rewrite lookup_insert_ne; [done|]. intros <-. by apply (Hne p); [right|].
  - intros q Hq. destruct (Hfr q Hq) as [Hnq Hno]. split; [done|]. intros p' l'. rewrite lookup_insert_Some.
    intros [[<- <-]|[_ Hx]]; [|by apply (Hno p')]. intros Hin%list_elem_of_singleton. subst. by apply (Hne p).
  - done.
  - intros q. rewrite elem_of_union, elem_of_singleton, Hu. split.
    + intros [->|[Hnq (p'&l'&Hl'&Hq)]].
      * split; [done|]. exists p, [p]. rewrite lookup_insert_eq. split; [done|]. by apply list_elem_of_here.
      * split; [done|]. exists p', l'. split; [|done]. rewrite lookup_insert_ne; [done|]. congruence.
    + intros [Hnq (p'&l'&Hx&Hq)]. apply lookup_insert_Some in Hx as [[<- <-]|[_ Hx]].
      * left. by apply list_elem_of_singleton in Hq.
      * right. split; [done|]. by exists p', l'.
  - intros q Hq%Hkp. multiset_solver.
Qed.

(** The heap alone has changed. *)
Lemma owned_heap K r s h' : owned K r s -> (forall U, heap_ok U (heap s) -> heap_ok U h') -> owned K r (set_heap h' s).
Proof.
  intros (L&f&g&U&[Hh Hl Ha Hf Hg Hfr Hhp Hu Hkp]) Hheap. exists L, f, g, U. split; try done; [|by apply Hheap].
  intros p l Hp. apply (live_frame _ _ s); [by apply Hl|done| |done]. intros a bs _ Hbs. by exists bs.
Qed.

(** A packet of the heap is one buffer, with room in front of it for the headers
    of the layer. *)
Lemma own_alloc K r layer n s : owned K r s -> 0 <= n < 65536 ->
  exists o s', pbuf_alloc layer n PBUF_RAM s = Ok (o, s') /\
    match o with
    | Some p => owned K ({[+ p +]} ⊎ r) s' /\ p ∉ r /\
        pbufs s' = <[p := fresh p (LWIP_MEM_ALIGN_SIZE (layer_offset layer)) n]> (pbufs s) /\
        exists bs, areas s' = <[p := bs]> (areas s) /\ LWIP_MEM_ALIGN_SIZE (layer_offset layer) + n <= Z.of_nat (length bs)
    | None => owned K r s' /\ pbufs s' = pbufs s /\ areas s' = areas s
    end.
Proof.
  intros Ho Hn. unfold pbuf_alloc.
  assert (Hoff : 0 <= LWIP_MEM_ALIGN_SIZE (layer_offset layer) <= 56) by (destruct layer; vm_compute; split; congruence).
  set (off := LWIP_MEM_ALIGN_SIZE (layer_offset layer)) in *.
  change (LWIP_MEM_ALIGN_SIZE SIZEOF_STRUCT_PBUF) with 16. pose proof (align_bounds n) as Hal. set (k := LWIP_MEM_ALIGN_SIZE n) in *.
  destruct (_ || _) eqn:Hov; [by exists None, s|]. apply orb_false_iff in Hov as [Ho1%Z.ltb_ge Ho2%Z.ltb_ge].
  assert (Hsmall : off + k < 65536).
  { destruct (Z_lt_ge_dec (off + k) 65536); [done|]. exfalso. revert Ho1. unfold wrap. change (2 ^ 16) with 65536.
    rewrite <- (Z.mod_unique (off + k) 65536 1 (off + k - 65536)) by lia. lia. }
  rewrite (wrap16_small (off + k)) in * by lia.
  assert (Hfit : 16 + (off + k) < 65536).
  { destruct (Z_lt_ge_dec (16 + (off + k)) 65536); [done|]. exfalso. revert Ho2. unfold wrap. change (2 ^ 16) with 65536.
    rewrite <- (Z.mod_unique (16 + (off + k)) 65536 1 (16 + (off + k) - 65536)) by lia. lia. }
  rewrite wrap16_small by lia.
  destruct (mem_malloc (16 + (off + k)) (heap s)) as [[[p bs]|] h'] eqn:Hmm.
  - destruct Ho as (L&f&g&U&Hly).
    pose proof (law_malloc U (16 + (off + k)) (heap s) (ly_heap _ _ _ _ _ _ _ Hly) ltac:(lia)) as Hmal. rewrite Hmm in Hmal.
    destruct Hmal as (HpU&Hnm&Hptr&Hlb&Hh'). exists (Some p). eexists. split; [reflexivity|].
    destruct (owned_new K r s p (drop (Z.to_nat SIZEOF_STRUCT_PBUF) bs) off n U h') as (Hown&Hpr); try done; try lia.
    { by exists L, f, g. }
    { rewrite length_drop. change (Z.to_nat SIZEOF_STRUCT_PBUF) with 16%nat. lia. }
    split; [exact Hown|]. split; [done|]. split; [done|]. eexists. split; [done|].
    rewrite length_drop. change (Z.to_nat SIZEOF_STRUCT_PBUF) with 16%nat. lia.
  - eexists None, _. split; [reflexivity|]. split; [|done]. apply owned_heap; [done|]. intros U HU.
    pose proof (law_malloc U (16 + (off + k)) (heap s) HU ltac:(lia)) as Hmal. by rewrite Hmm in Hmal.
Qed.

(** ** Copying *)

Lemma is_queue_ok s o l cs : packet s o l cs ->
  exists v, match o with
            | None => Ok false
            | Some q => let* b := deref s q in Ok ((len b =? tot_len b) && bool_decide (is_Some (next b)))
            end = Ok v.
Proof.
  destruct l as [|p l], cs as [|c cs]; try done; [intros ->; by exists false|]. intros [-> (b&Hb&_)].
  rewrite (deref_ok _ _ _ Hb). by eexists.
Qed.

(** The first bytes of a packet are copied into one buffer. *)
Lemma copy_into fuel s t bt o bs f l cs off clen :
  pbufs s !! t = Some bt -> payload bt = Some (t, o) -> areas s !! t = Some bs -> 0 <= o ->
  o + len bt <= Z.of_nat (length bs) -> next bt = None -> packet s (Some f) l cs -> (length l <= fuel)%nat ->
  0 <= clen <= Z.of_nat (length (concat cs)) -> 0 <= off -> off + clen <= len bt -> len bt < 65536 ->
  exists e s', copy_pbuf_loop fuel t f off 0 clen s = Ok (e, s') /\ bytes_only t s s'.
Proof.
  revert s bs f l cs off clen. induction fuel as [|fuel IH];
    intros s bs f l cs off clen Hbt Hpay Ha Ho Hroom Hnt Hp Hf Hcl Hoff Hsum Hmax.
  { destruct l as [|? l], cs as [|c cs]; done || (cbn in Hf; lia). }
  destruct l as [|f' l], cs as [|c cs]; try done. pose proof Hp as Hp0. destruct Hp as [[= <-] (bf&Hbf&Hlf&Htf&_&Hh&Hp)].
  cbn [concat] in Hcl. rewrite length_app in Hcl. cbn [copy_pbuf_loop].
  rewrite (deref_ok _ _ _ Hbt), (deref_ok _ _ _ Hbf). cbn [rbind]. cbn [concat] in Htf. rewrite length_app in Htf.
  assert (Hlf' : len bf < 65536) by (destruct Hp0 as [_ (b0&Hb0&_&Ht0&Hm0&_)]; assert (b0 = bf) as -> by congruence; cbn [concat] in Ht0; rewrite length_app in Ht0; lia).
  assert (Hw : forall x, 0 <= x < 65536 -> wrap32 x = x) by (intros x Hx; apply wrap_small; split; [lia|]; change (2 ^ 32) with 4294967296; lia).
  rewrite (Hw (len bf - 0)), (Hw (len bt - off)) by lia. rewrite Z.sub_0_r.
  set (n := Z.min clen (if len bf <=? len bt - off then len bf else len bt - off)).
  assert (Hn : 0 <= n /\ n = Z.min clen (len bf)) by (unfold n; destruct (Z.leb_spec (len bf) (len bt - off)); lia). clearbody n. destruct Hn as [Hn0 Hn].
  rewrite (ld_holds s bf c 0 n Hh) by lia. cbn [rbind]. set (v := bytes_at c 0 n).
  assert (Hv : Z.of_nat (length v) = n) by (unfold v; rewrite length_bytes_at; lia).
  rewrite Hpay. destruct (st_like s off v t o bs Ha) as (->&Hbo); [lia|lia|]. cbn [rbind]. set (s1 := set_areas _ s) in *.
  pose proof Hbo as (Hb1&Har1&_). rewrite (Hw (off + n)), (Hw (0 + n)), (wrap16_small (clen - n)), Z.add_0_l by lia.
  assert (Htouch : forall o0 l0 cs0, packet s o0 l0 cs0 -> exists cs1, packet s1 o0 l0 cs1 /\ (length <$> cs1) = (length <$> cs0)).
  { intros o0 l0 cs0 Hp1. apply (packet_touch s s1 o0 l0 cs0 Hp1); [by rewrite Hb1|]. intros x y _ Hy. destruct Har1 as [Hx1 Hx2].
    destruct (decide (x = t)) as [->|]; [by apply Hx2|]. exists y. by rewrite Hx1. }
  destruct (Z.leb_spec (len bf) n) as [Hfull|Hpart].
  - assert (Hnb : n = len bf) by lia. destruct (Htouch _ _ _ Hp) as (cs1&Hp1&Hl1).
    pose proof (length_concat_eq _ _ Hl1) as Hlc.
    destruct (is_queue_ok s1 _ l cs1 Hp1) as (qf&Hqf).
    destruct (Z.eqb_spec (clen - n) 0) as [Hz|Hz].
    + cbn [negb]. rewrite !andb_false_r. destruct (off + n =? len bt).
      * rewrite andb_false_r, Hqf. cbn [rbind]. destruct qf; [by eexists _, s1|]. rewrite Hnt. cbn [rbind]. by eexists _, s1.
      * rewrite andb_false_r, Hqf. cbn [rbind]. destruct qf; [by eexists _, s1|]. rewrite (deref_ok s1 t bt) by (by rewrite Hb1). cbn [rbind].
        rewrite Hnt, andb_false_r. cbn [rbind]. by eexists _, s1.
    + destruct (next bf) as [f2|] eqn:Hnf; [|destruct l, cs; try done; cbn in Hcl; lia || by destruct Hp].
      rewrite (proj2 (Z.eqb_neq (off + n) (len bt))) by lia.
      rewrite !bool_decide_true by by eexists. cbn [negb andb]. rewrite Hqf. cbn [rbind]. destruct qf; [by eexists _, s1|].
      rewrite (deref_ok s1 t bt) by (by rewrite Hb1). cbn [rbind]. rewrite Hnt, andb_false_r. cbv iota. cbn [not_null rbind].
      destruct Har1 as [_ Har1]. destruct (Har1 bs Ha) as (bs1&Ha1&Hlb1).
      destruct (IH s1 bs1 f2 l cs1 (off + n) (clen - n)) as (e&s2&->&H2); try done; try lia; [cbn in Hf; lia|].
      exists e, s2. split; [done|]. by etrans.
  - assert (Hz : clen - n = 0) by lia. rewrite Hz. change (0 =? 0) with true. cbn [negb]. rewrite !andb_false_r.
    destruct (Htouch _ _ _ Hp0) as (cs1&Hp1&_). destruct (is_queue_ok s1 _ _ cs1 Hp1) as (qf&Hqf).
    destruct (off + n =? len bt).
    + rewrite andb_false_r, Hqf. cbn [rbind]. destruct qf; [by eexists _, s1|]. rewrite Hnt. cbn [rbind]. by eexists _, s1.
    + rewrite andb_false_r, Hqf. cbn [rbind]. destruct qf; [by eexists _, s1|]. rewrite (deref_ok s1 t bt) by (by rewrite Hb1). cbn [rbind].
      rewrite Hnt, andb_false_r. cbn [rbind]. by eexists _, s1.
Qed.

(** [q] is one buffer of its own with its bytes behind it. *)
Lemma own_copy K r q bq o bs p n off s : owned K r s -> q ∈ r -> K !! q = None -> p ∈ r ->
  pbufs s !! q = Some bq -> payload bq = Some (q, o) -> areas s !! q = Some bs -> 0 <= o ->
  o + len bq <= Z.of_nat (length bs) -> next bq = None -> tot_len bq = len bq -> len bq < 65536 ->
  0 <= n -> 0 <= off -> off + n <= len bq ->
  exists e s', pbuf_copy_partial_pbuf (Some q) (Some p) n off s = Ok (e, s') /\ owned K r s' /\ bytes_only q s s'.
Proof.
  intros Ho Hq HK Hp Hbq Hpay Ha Ho0 Hroom Hnx Htl Hmax Hn Hoff Hfit.
  destruct (owned_live K r s p Ho Hp) as (b&l&[(cs&Hpk&_) _ _ _ _]&Hb).
  unfold pbuf_copy_partial_pbuf. rewrite (deref_ok _ _ _ Hb). cbn [rbind].
  destruct (Z.leb_spec n (tot_len b)); [|cbn [negb]; eexists _, s; split; [reflexivity|]; by split]. cbn [negb].
  rewrite (deref_ok _ _ _ Hbq). cbn [rbind]. rewrite (proj2 (Z.leb_le _ _)) by lia. cbn [negb].
  destruct (copy_into (2 * chain_fuel s) s q bq o bs p (p :: l) cs off n) as (e&s2&->&Hbo); try done; try lia.
  { pose proof (packet_fuel _ _ _ _ Hpk). lia. }
  { destruct cs; [done|]. destruct Hpk as [_ (b0&Hb0&_&Ht0&_)]. assert (b0 = b) as -> by congruence. lia. }
  cbn [rbind]. eexists _, s2. split; [reflexivity|]. split; [|done]. by apply (owned_bytes _ _ s _ q).
Qed.

Lemma own_clone K r p s : owned K r s -> p ∈ r -> exists o s', pbuf_clone PBUF_LINK PBUF_RAM p s = Ok (o, s') /\
  owned K (match o with Some q => {[+ q +]} ⊎ r | None => r end) s' /\ (forall q, o = Some q -> q ∉ r).
Proof.
  intros Ho Hp. destruct (owned_live K r s p Ho Hp) as (b&l&[(cs&Hpk&_) _ _ _ _]&Hb). unfold pbuf_clone. rewrite (deref_ok _ _ _ Hb). cbn [rbind].
  assert (Htl : 0 <= tot_len b < 65536).
  { destruct cs; [done|]. destruct Hpk as [_ (b0&Hb0&_&?&?&_)]. assert (b0 = b) as -> by congruence. lia. }
  destruct (own_alloc K r PBUF_LINK (tot_len b) s Ho Htl) as (o&s1&->&Hs1). cbn [rbind]. destruct o as [q|]; [|destruct Hs1 as (?&_); by exists None, s1].
  destruct Hs1 as (Ho1&Hqr&Hb1&bs&Ha1&Hle). assert (Hqp : p <> q) by (by intros ->).
  assert (HKq : K !! q = None) by (apply eq_None_not_Some; intros Hs; by apply Hqr, (owned_kept K r s)).
  unfold pbuf_copy. rewrite (deref_ok s1 p b) by (rewrite Hb1, lookup_insert_ne by done; done). cbn [rbind].
  destruct (own_copy K ({[+ q +]} ⊎ r) q (fresh q (LWIP_MEM_ALIGN_SIZE (layer_offset PBUF_LINK)) (tot_len b))
    (LWIP_MEM_ALIGN_SIZE (layer_offset PBUF_LINK)) bs p (tot_len b) 0 s1)
    as (e&s2&Hrun&Ho2&_); rewrite ?Hb1, ?Ha1, ?lookup_insert_eq; try done; try (cbn in *; lia); [multiset_solver..|].
  rewrite Hrun.
  cbn [rbind]. eexists _, s2. split; [reflexivity|]. split; [done|]. by intros q' [= <-].
Qed.

(** ** Packets whose contents are known *)

(** What a packet holds is fixed, or forgotten. *)
Lemma own_keep K r s p b o l cs : owned K r s -> p ∈ r -> packet s (Some p) l cs -> pbufs s !! p = Some b -> payload b = Some (p, o) ->
  (forall q b, q ∈ l -> pbufs s !! q = Some b -> contiguous_pbuf b) -> owned (<[p := (o, cs)]> K) r s.
Proof.
  intros Ho Hp Hpk Hb Hpay Hc. apply (owned_change K _ r r s s p); try done; [by intros; rewrite lookup_insert_ne|].
  intros l' [(cs'&Hpk'&_) Hk Hr Hm _]. split; [|done].
  assert (l' = l) as -> by (eapply linked_det; eapply packet_chain; done).
  split; try done. exists cs. split; [done|]. rewrite lookup_insert_eq. intros k [= <-]. split; [done|]. by exists b.
Qed.

Lemma own_forget K r s p : owned K r s -> p ∈ r -> owned (delete p K) r s.
Proof.
  intros Ho Hp. apply (owned_change K _ r r s s p); try done; [by intros; rewrite lookup_delete_ne|].
  intros l' [(cs&Hpk&_) Hk Hr Hm _]. split; [|done]. split; rewrite ?lookup_delete_eq; try done. by exists cs.
Qed.

(** Where the first bytes of such a packet are. *)
Lemma own_contents K r s p o cs : owned K r s -> K !! p = Some (o, cs) -> exists b l c cs' bs,
  cs = c :: cs' /\ pbufs s !! p = Some b /\ contiguous_pbuf b /\ payload b = Some (p, o) /\ areas s !! p = Some bs /\
  0 <= o /\ o + len b <= Z.of_nat (length bs) /\ bytes_at bs o (len b) = c /\ len b = Z.of_nat (length c) /\
  tot_len b = Z.of_nat (length (concat cs)) /\ tot_len b < 65536 /\
  live K (multiplicity p r) s p (p :: l) /\ packet s (Some p) (p :: l) cs.
Proof.
  intros Ho HK. pose proof (owned_kept K r s p Ho ltac:(by eexists)) as Hp.
  destruct (owned_live K r s p Ho Hp) as (b&l&Hlive&Hb). pose proof Hlive as [(cs'&Hpk&HKc) Hkind _ _ Hcont].
  destruct (HKc _ HK) as [Hcs (b1&Hb1&Hpay1)]. cbn in Hcs, Hpay1. subst cs'. assert (b1 = b) as -> by congruence. assert (Hc : contiguous_pbuf b) by (apply (Hcont ltac:(by eexists) p); [set_solver|done]).
  destruct cs as [|c cs]; [done|]. pose proof Hpk as [_ (b0&Hb0&Hlen&Htot&Hmax&(a&o'&bs&Hpay&Ha&Ho0&Hle&Hbs)&_)].
  assert (b0 = b) as -> by congruence. rewrite Hpay1 in Hpay. injection Hpay as <- <-.
  exists b, l, c, cs, bs. by split_and!.
Qed.

(** Reading what is known. *)
Lemma own_ld K r s p o c cs off n : owned K r s -> K !! p = Some (o, c :: cs) -> 0 <= off -> 0 <= n ->
  off + n <= Z.of_nat (length c) ->
  exists b, deref s p = Ok b /\ ld_bytes s (payload b) off n = Ok (bytes_at c off n).
Proof.
  intros Ho HK Hoff Hn Hle. destruct (own_contents K r s p _ _ Ho HK) as (b&l&c'&cs'&bs&[= <- <-]&Hb&_&Hpay&Ha&Ho0&Hl&Hc&Hlen&_).
  exists b. split; [by apply deref_ok|]. apply ld_holds; try done; [|lia]. exists p, o, bs. by split_and!.
Qed.

(** Writing into the first buffer. *)
Lemma own_st K r s p o c cs off v : owned K r s -> K !! p = Some (o, c :: cs) -> 0 <= off ->
  off + Z.of_nat (length v) <= Z.of_nat (length c) ->
  exists b s', deref s p = Ok b /\ st_bytes s (payload b) off v = Ok s' /\ pbufs s' = pbufs s /\
    owned (<[p := (o, splice (Z.to_nat off) v c :: cs)]> K) r s'.
Proof.
  intros Ho HK Hoff Hle. destruct (own_contents K r s p _ _ Ho HK) as (b&l&c'&cs'&bs&[= <- <-]&Hb&Hcont&Hpay&Ha&Ho0&Hl&Hc&Hlen&Htot&Hmax&Hlive&Hpk).
  pose proof (owned_kept K r s p Ho ltac:(by eexists)) as Hp.
  destruct (st_like s off v p o bs Ha) as (Hst&Hbo); [lia|lia|]. set (s1 := set_areas _ s) in *. exists b, s1. rewrite Hpay.
  split; [by apply deref_ok|]. split; [done|]. split; [done|]. pose proof Hbo as (Hb1&Har1&Htp&Htm&Hhe).
  apply (owned_change K _ r r s s1 p); try done; [by intros; rewrite lookup_insert_ne|].
  intros l' Hl'. pose proof Hl' as [(cs0&Hpk0&HK0) Hk Hr Hm Ho'].
  assert (l' = p :: l) as -> by (eapply linked_det; eapply packet_chain; done).
  split; [|done]. split; rewrite ?Hb1; try done; [|intros _; apply Ho'; by eexists].
  exists (splice (Z.to_nat off) v c :: cs). split; [|rewrite lookup_insert_eq; intros k [= <-]; split; [done|]; exists b; by rewrite Hb1].
  assert (Hls : length (splice (Z.to_nat off) v c) = length c) by (apply length_splice; lia).
  pose proof (linked_nodup _ _ _ (packet_chain _ _ _ _ Hpk)) as [Hpl _]%NoDup_cons.
  split; [done|]. exists b. rewrite Hb1, Hls. split; [done|]. split; [done|].
  split; [rewrite Htot; cbn [concat]; by rewrite !length_app, Hls|]. split; [done|]. split.
  - exists p, o. eexists. cbn. rewrite lookup_insert_eq. split; [done|]. split; [done|]. split; [done|].
    rewrite length_splice by lia. split; [done|]. rewrite <- Hc. unfold bytes_at. apply list_eq. intros i.
    rewrite lookup_slice. repeat (rewrite lookup_splice by (rewrite ?length_slice; lia)). rewrite lookup_slice.
    destruct (decide (i < Z.to_nat (len b))%nat).
    + repeat case_decide; try lia; try done; f_equal; lia.
    + repeat case_decide; try lia; done.
  - destruct Hpk as [_ (b1&Hb1'&_&_&_&_&Hpk)]. assert (b1 = b) as -> by congruence. apply (packet_same s); [done|done|].
    intros a (q&cq&oq&Hq&Hcq&Hpq). apply Har1. intros ->. destruct (Hk q cq ltac:(set_solver) Hcq) as (_&_&_&Hown).
    destruct (Hown p oq Hpq) as [->|[_ []]]; [done|]. apply (Ho' ltac:(by eexists) q); [set_solver|done].
Qed.

(** Hiding a header. *)
Lemma own_remove_header K r s p o c cs n : owned K r s -> K !! p = Some (o, c :: cs) -> 0 < n <= Z.of_nat (length c) ->
  exists s', pbuf_remove_header (Some p) n s = Ok (0, s') /\ areas s' = areas s /\
    owned (<[p := (o + n, drop (Z.to_nat n) c :: cs)]> K) r s'.
Proof.
  intros Ho HK Hn. destruct (own_contents K r s p _ _ Ho HK) as (b&l&c'&cs'&bs&[= <- <-]&Hb&Hcont&Hpay&Ha&Ho0&Hl&Hc&Hlen&Htot&Hmax&Hlive&Hpk).
  pose proof (owned_kept K r s p Ho ltac:(by eexists)) as Hp.
  destruct (remove_header_ok s p l c cs n Hpk Hn) as (s1&Hrun&Hpk1&Ha1&Hb1). exists s1. split; [done|]. split; [done|].
  assert (Hb1p : pbufs s1 !! p = Some (with_header (- n) b p o) /\ tab_pool s1 = tab_pool s /\ tab_pbuf s1 = tab_pbuf s /\ heap s1 = heap s).
  { revert Hrun. unfold pbuf_remove_header. destruct (65535 <? n); [done|]. destruct (Z.eqb_spec n 0); [lia|].
    rewrite (deref_ok _ _ _ Hb). cbn [rbind]. destruct (negb _); [done|]. rewrite Hpay. cbn [not_null rbind]. rewrite (assign_ok _ _ _ _ Hb).
    cbn [rbind]. cbn [concat] in Htot. rewrite length_app in Htot. rewrite !wrap16_small by (try lia; rewrite wrap16_small; lia). intros [= <-]. split; [|done]. cbn. rewrite lookup_insert_eq. unfold with_header. by rewrite Z.sub_opp_r, !Z.add_opp_r. }
  destruct Hb1p as (Hb1p&Htp&Htm&Hhe).
  apply (owned_change K _ r r s s1 p); try done; [by intros; rewrite lookup_insert_ne| |by apply areas_but_same].
  intros l' Hl'. pose proof Hl' as [(cs0&Hpk0&HK0) Hk Hr Hm Ho'].
  assert (l' = p :: l) as -> by (eapply linked_det; eapply packet_chain; done).
  pose proof (linked_nodup _ _ _ (packet_chain _ _ _ _ Hpk)) as [Hpl _]%NoDup_cons.
  split; [|intros q Hq; apply Hb1; set_solver]. split; [|..|done|].
  - exists (drop (Z.to_nat n) c :: cs). split; [done|]. rewrite lookup_insert_eq. intros k [= <-]. split; [done|].
    exists (with_header (- n) b p o). split; [done|]. cbn. do 2 f_equal. lia.
  - intros q cq Hq. destruct (decide (q = p)) as [->|Hne]; [|rewrite Hb1 by done; by apply Hk].
    rewrite Hb1p. intros [= <-]. destruct (Hk p b ltac:(set_solver) Hb) as (?&?&?&Hown). split_and!; try done.
    intros a' o' [= <- <-]. by left.
  - intros q cq Hq. destruct (decide (q = p)) as [->|Hne]; [|rewrite Hb1 by done; intros Hcq; rewrite (Hr q cq Hq Hcq); by rewrite decide_False].
    rewrite Hb1p. intros [= <-]. cbn. rewrite (Hr p b ltac:(set_solver) Hb). by rewrite decide_True.
  - intros _ q cq Hq. destruct (decide (q = p)) as [->|Hne]; [|rewrite Hb1 by done; apply Ho'; [by eexists|done]].
    rewrite Hb1p. by intros [= <-].
Qed.

Lemma clen_ok fuel s o l n : chain (pbufs s) o l -> (length l < fuel)%nat -> 0 <= n -> n + Z.of_nat (length l) < 65536 ->
  clen_loop fuel s o n = Ok (n + Z.of_nat (length l)).
Proof.
  revert o l n. induction fuel as [|fuel IH]; intros o l n Hc Hf Hn Hm; [lia|]. cbn [clen_loop].
  destruct l as [|p l]; [cbn in Hc; subst o; f_equal; cbn; lia|]. destruct Hc as [-> (b&Hb&Hc)].
  rewrite (deref_ok _ _ _ Hb). cbn [rbind]. cbn [length] in *. rewrite wrap16_small by lia. rewrite (IH _ l) by (done || lia). f_equal. lia.
Qed.

Lemma own_clen K r s p o cs : owned K r s -> K !! p = Some (o, cs) -> Z.of_nat (length cs) < 65536 ->
  pbuf_clen (Some p) s = Ok (Z.of_nat (length cs)).
Proof.
  intros Ho HK Hm. destruct (own_contents K r s p _ _ Ho HK) as (b&l&c'&cs'&bs&->&Hb&_&_&_&_&_&_&_&_&_&_&Hpk).
  assert (Hll : forall (o : option Z) l0 cs0, packet s o l0 cs0 -> length l0 = length cs0).
  { intros o0 l0. revert o0. induction l0 as [|x l0 IH]; intros o0 [|y cs0]; cbn; try done. intros [_ (?&_&_&_&_&_&Hx)]. by rewrite (IH _ _ Hx). }
  pose proof (packet_chain _ _ _ _ Hpk) as Hc. rewrite <- (Hll _ _ _ Hpk) in *. unfold pbuf_clen.
  by rewrite (clen_ok _ s _ (p :: l)) by (done || lia || by eapply chain_fuel_ok).
Qed.

(** Joining two packets. *)
Definition core (b : pbuf) := (payload b, len b, type_internal b, flags b, ref b).

Lemma assign_core s p f s' : assign p f s = Ok s' -> (forall b, core (f b) = core b) ->
  (forall q, core <$> pbufs s' !! q = core <$> pbufs s !! q) /\ tab_pool s' = tab_pool s /\ tab_pbuf s' = tab_pbuf s /\ heap s' = heap s.
Proof.
  unfold assign, deref. destruct (pbufs s !! p) as [b|] eqn:Hb; [|done]. intros [= <-] Hf. split; [|done]. intros q. cbn.
  destruct (decide (q = p)) as [->|]; [|by rewrite lookup_insert_ne]. rewrite lookup_insert_eq, Hb. cbn. by rewrite Hf.
Qed.

Lemma cat_loop_core fuel p t s q s' : cat_loop fuel p t s = Ok (q, s') ->
  (forall x, core <$> pbufs s' !! x = core <$> pbufs s !! x) /\ tab_pool s' = tab_pool s /\ tab_pbuf s' = tab_pbuf s /\ heap s' = heap s.
Proof.
  revert p s. induction fuel as [|fuel IH]; intros p s; cbn [cat_loop]; [done|]. destruct (deref s p) as [b|]; [|done]. cbn [rbind].
  destruct (next b) as [n|]; [|by intros [= <- <-]]. destruct (deref s t) as [bt|]; [|done]. cbn [rbind].
  destruct (assign _ _ s) as [s1|] eqn:Ha; [|done]. cbn [rbind]. intros (Hx&?&?&?)%IH.
  destruct (assign_core _ _ _ _ Ha) as (Hy&?&?&?); [done|]. split_and!; congruence.
Qed.

Lemma cat_core h t s s' : pbuf_cat (Some h) (Some t) s = Ok s' ->
  (forall x, core <$> pbufs s' !! x = core <$> pbufs s !! x) /\ tab_pool s' = tab_pool s /\ tab_pbuf s' = tab_pbuf s /\ heap s' = heap s.
Proof.
  cbn [pbuf_cat]. destruct (cat_loop _ _ _ s) as [[q s1]|] eqn:Hc; [|done]. cbn [rbind]. destruct (deref s1 t); [|done]. cbn [rbind].
  destruct (assign q _ s1) as [s2|] eqn:Ha; [|done]. cbn [rbind]. intros Hb.
  destruct (cat_loop_core _ _ _ _ _ _ Hc) as (?&?&?&?). destruct (assign_core _ _ _ _ Ha) as (?&?&?&?); [done|].
  destruct (assign_core _ _ _ _ Hb) as (?&?&?&?); [done|]. split_and!; congruence.
Qed.

(** The packet [t] becomes the end of [h]. *)
Lemma own_cat K r h t oh ot ch ct s : owned K ({[+ h +]} ⊎ ({[+ t +]} ⊎ r)) s -> h <> t -> t ∉ r ->
  K !! h = Some (oh, ch) -> K !! t = Some (ot, ct) -> Z.of_nat (length (concat (ch ++ ct))) < 65536 ->
  exists s', pbuf_cat (Some h) (Some t) s = Ok s' /\ areas s' = areas s /\
    owned (<[h := (oh, ch ++ ct)]> (delete t K)) ({[+ h +]} ⊎ r) s'.
Proof.
  intros Ho Hht Htr HKh HKt Hlen.
  destruct (own_contents K _ s h _ _ Ho HKh) as (bh&lh&_&_&_&_&Hbh&_&Hpayh&_&_&_&_&_&_&_&_&Hph).
  destruct (own_contents K _ s t _ _ Ho HKt) as (bt&lt&_&_&_&_&Hbt&_&_&_&_&_&_&_&_&_&_&Hpt).
  destruct Ho as (L&f&g&U&[Hh Hl Ha Hf Hg Hfr Hhp Hu Hkp]).
  assert (HLh : L !! h = Some (h :: lh)).
  { destruct (proj1 (Hh h) ltac:(multiset_solver)) as [l Hlh]. destruct (Hl h l Hlh) as [(cs&Hpk&_) _ _ _ _].
    assert (l = h :: lh) as -> by (eapply linked_det; eapply packet_chain; done). done. }
  assert (HLt : L !! t = Some (t :: lt)).
  { destruct (proj1 (Hh t) ltac:(multiset_solver)) as [l Hlt]. destruct (Hl t l Hlt) as [(cs&Hpk&_) _ _ _ _].
    assert (l = t :: lt) as -> by (eapply linked_det; eapply packet_chain; done). done. }
  assert (Hdis : forall q, q ∈ h :: lh -> q ∉ t :: lt) by (intros q Hq Hq'; apply Hht; by apply (Ha h t (h :: lh) (t :: lt) q)).
  destruct (pbuf_cat_ok s h (h :: lh) ch t (t :: lt) ct Hph Hpt Hdis Hlen) as (s'&Hrun&Hpk'&Har&_&Hout).
  destruct (cat_core _ _ _ _ Hrun) as (Hcore&Htp&Htm&Hhe). exists s'. split; [done|]. split; [done|].
  assert (Hm : forall q, q <> t -> multiplicity q ({[+ h +]} ⊎ r) = multiplicity q ({[+ h +]} ⊎ ({[+ t +]} ⊎ r)))
    by (intros q Hq; by rewrite !multiplicity_disj_union, (multiplicity_singleton_ne q t)).
  assert (Hmt : multiplicity t ({[+ h +]} ⊎ ({[+ t +]} ⊎ r)) = 1%nat).
  { rewrite mult_other, mult_same by done. by rewrite (proj1 (not_elem_of_multiplicity t r) Htr). }
  assert (Hold : forall q b', q ∈ (h :: lh) ++ t :: lt -> pbufs s' !! q = Some b' ->
    exists b, pbufs s !! q = Some b /\ core b' = core b).
  { intros q b' _ Hb'. specialize (Hcore q). rewrite Hb' in Hcore. destruct (pbufs s !! q) as [b|]; [|done]. exists b. split; [done|].
    cbn in Hcore. congruence. }
  assert (Hfree : forall q, q ∈ f \/ q ∈ g -> pbufs s' !! q = pbufs s !! q).
  { intros q Hq. apply Hout. by apply (Hfr q Hq) with h. }
  assert (HL' : forall q l, <[h := (h :: lh) ++ t :: lt]> (delete t L) !! q = Some l ->
    (q = h /\ l = (h :: lh) ++ t :: lt) \/ (q <> h /\ q <> t /\ L !! q = Some l)).
  { intros q l [[<- <-]|[Hne [Hnt HLq]%lookup_delete_Some]]%lookup_insert_Some; [by left|right; done]. }
  pose proof (Hl h _ HLh) as Hlvh. pose proof (Hl t _ HLt) as Hlvt. rewrite Hmt in Hlvt.
  exists (<[h := (h :: lh) ++ t :: lt]> (delete t L)), f, g, U. split.
  - intros q. destruct (decide (q = h)) as [->|Hqh]; [rewrite lookup_insert_eq; split; [done|]; intros _; multiset_solver|].
    rewrite lookup_insert_ne by done. destruct (decide (q = t)) as [->|Hqt].
    + rewrite lookup_delete_eq. split; [|by intros [? ?]]. intros Hin. exfalso. multiset_solver.
    + rewrite lookup_delete_ne by done. rewrite <- Hh, !elem_of_multiplicity. by rewrite Hm.
  - intros q l [[-> ->]|(Hqh&Hqt&HLq)]%HL'.
    + rewrite Hm by done. split.
      * exists (ch ++ ct). split; [done|]. rewrite lookup_insert_eq. intros k [= <-]. split; [done|].
        specialize (Hcore h). rewrite Hbh in Hcore. destruct (pbufs s' !! h) as [bh'|]; [|done]. exists bh'. split; [done|].
        cbn in Hcore |- *. unfold core in Hcore. congruence.
      * intros q b' Hq Hb'. destruct (Hold q b' Hq Hb') as (b&Hb&Hc). assert (Hk : buf_kind q b).
        { apply elem_of_app in Hq as [Hq|Hq]; [by apply (lv_kind _ _ _ _ _ Hlvh)|by apply (lv_kind _ _ _ _ _ Hlvt)]. }
        unfold core in Hc. injection Hc as H1' H2' H3' H4' H5'. unfold buf_kind, pbuf_get_allocsrc, contiguous_pbuf in *. by rewrite H1', H3', H4'.
      * intros q b' Hq Hb'. destruct (Hold q b' Hq Hb') as (b&Hb&Hc). unfold core in Hc. injection Hc as _ _ _ _ ->.
        apply elem_of_app in Hq as [Hq|Hq]; [by apply (lv_ref _ _ _ _ _ Hlvh)|]. rewrite (lv_ref _ _ _ _ _ Hlvt q b Hq Hb).
        rewrite (decide_False (P := q = h)); [by case_decide|]. intros ->. apply (Hdis h); set_solver.
      * apply (lv_count _ _ _ _ _ Hlvh).
      * intros _ q b' Hq Hb'. destruct (Hold q b' Hq Hb') as (b&Hb&Hc). unfold core in Hc. injection Hc as _ _ Hty _ _.
        unfold contiguous_pbuf. rewrite Hty. apply elem_of_app in Hq as [Hq|Hq];
          [apply (lv_kept _ _ _ _ _ Hlvh ltac:(by eexists) q b Hq Hb)|apply (lv_kept _ _ _ _ _ Hlvt ltac:(by eexists) q b Hq Hb)].
    + rewrite Hm by done. apply (live_other K); [by rewrite lookup_insert_ne, lookup_delete_ne|].
      apply (live_frame _ _ s); [by apply Hl| |intros a bs _ Hbs; rewrite Har; by exists bs|intros a _; by rewrite Har].
      intros x Hx. apply Hout. intros Hx'. apply Hqh. by apply (Ha q h l (h :: lh) x).
  - intros p1 p2 l1 l2 q [[-> ->]|(?&?&HL1)]%HL' [[-> ->]|(?&?&HL2)]%HL' Hq1 Hq2; [done| | |by apply (Ha p1 p2 l1 l2 q)].
    + exfalso. apply elem_of_app in Hq1 as [Hq1|Hq1]; [by assert (p2 = h) by (by apply (Ha p2 h l2 (h :: lh) q))|by assert (p2 = t) by (by apply (Ha p2 t l2 (t :: lt) q))].
    + exfalso. apply elem_of_app in Hq2 as [Hq2|Hq2]; [by assert (p1 = h) by (by apply (Ha p1 h l1 (h :: lh) q))|by assert (p1 = t) by (by apply (Ha p1 t l1 (t :: lt) q))].
  - rewrite Htp. apply (linked_ext (pbufs s)); [|done]. intros q Hq. by rewrite Hfree by auto.
  - rewrite Htm. apply (linked_ext (pbufs s)); [|done]. intros q Hq. by rewrite Hfree by auto.
  - intros q Hq. destruct (Hfr q Hq) as [Hn Hno]. split; [done|]. intros p l [[-> ->]|(_&_&HLp)]%HL'; [|by apply (Hno p)].
    rewrite elem_of_app. intros [Hin|Hin]; [by apply (Hno h (h :: lh))|by apply (Hno t (t :: lt))].
  - by rewrite Hhe.
  - intros q. rewrite Hu. split.
    + intros [Hn (p&l&HLp&Hq)]. split; [done|]. destruct (decide (p = h)) as [->|Hph'].
      * exists h, ((h :: lh) ++ t :: lt). rewrite lookup_insert_eq. split; [done|]. rewrite HLh in HLp. injection HLp as <-. apply elem_of_app. by left.
      * destruct (decide (p = t)) as [->|Hpt'].
        -- exists h, ((h :: lh) ++ t :: lt). rewrite lookup_insert_eq. split; [done|]. rewrite HLt in HLp. injection HLp as <-. apply elem_of_app. by right.
        -- exists p, l. by rewrite lookup_insert_ne, lookup_delete_ne.
    + intros [Hn (p&l&[[-> ->]|(_&_&HLp)]%HL'&Hq)]; (split; [done|]); [|by exists p, l].
      apply elem_of_app in Hq as [Hq|Hq]; [by exists h, (h :: lh)|by exists t, (t :: lt)].
  - intros q Hq. destruct (decide (q = h)) as [->|Hqh]; [multiset_solver|]. rewrite lookup_insert_ne in Hq by done.
    destruct (decide (q = t)) as [->|Hqt]; [rewrite lookup_delete_eq in Hq; by destruct Hq|]. rewrite lookup_delete_ne in Hq by done.
    apply Hkp in Hq. rewrite elem_of_multiplicity in *. by rewrite Hm.
Qed.
(** ** Beside others *)

(** The references [r] are held, beside the references [R] of others to other
    packets.  What the packets [K] hold is known and does not change. *)
Definition owns_beside (K : gmap Z (Z * list (list Z))) (R r : gmultiset Z) (s : lwip H) : Prop :=
  owned K (R ⊎ r) s /\ forall p, p ∈ r -> p ∉ R /\ K !! p = None.

Lemma beside_add K R r p (s : lwip H) : owned K ({[+ p +]} ⊎ (R ⊎ r)) s -> p ∉ R -> K !! p = None ->
  (forall p, p ∈ r -> p ∉ R /\ K !! p = None) -> owns_beside K R ({[+ p +]} ⊎ r) s.
Proof.
  intros Ho HR HKp HK. split.
  - replace (R ⊎ ({[+ p +]} ⊎ r)) with ({[+ p +]} ⊎ (R ⊎ r)) by multiset_solver. done.
  - intros q Hq. destruct (decide (q ∈ r)) as [|Hn]; [by apply HK|]. by assert (q = p) as -> by multiset_solver.
Qed.

(** Nobody else. *)
Lemma beside_none r (s : lwip H) : owns_beside ∅ ∅ r s <-> owned ∅ r s.
Proof.
  unfold owns_beside. rewrite (left_id_L ∅ (⊎)). split; [by intros [? _]|]. intros Ho. split; [done|]. intros p _.
  rewrite lookup_empty. split; [multiset_solver|done].
Qed.

Lemma beside_new K R r p (s s' : lwip H) : owned K (R ⊎ r) s -> owned K ({[+ p +]} ⊎ (R ⊎ r)) s' -> p ∉ R ⊎ r ->
  (forall p, p ∈ r -> p ∉ R /\ K !! p = None) -> owns_beside K R ({[+ p +]} ⊎ r) s'.
Proof.
  intros Ho Ho' Hp HK. apply beside_add; try done; [multiset_solver|]. apply eq_None_not_Some. intros Hs.
  by apply Hp, (owned_kept K _ s).
Qed.

End own.

(** ** The instance *)

Section instance.
Context {H : Type} `{HeapLaws H}.
Context (linkoutput : netif -> Z -> lwip H -> result (err_t * lwip H)) (Hlink : link_keeps linkoutput).

#[local] Instance pbuf_ops : PacketOps (lwip H) := lwip_packets linkoutput.

#[local, refine] Instance pbuf_laws (K : gmap Z (Z * list (list Z))) (R : gmultiset Z) : PacketLaws (lwip H) :=
  {| owns := owns_beside K R; room := own_room |}.
Proof.
  - intros r p s [Ho HK]. destruct (own_free K (R ⊎ r) p s) as (s'&Hrun&Ho'); [|apply HK; multiset_solver|].
    + replace ({[+ p +]} ⊎ (R ⊎ r)) with (R ⊎ ({[+ p +]} ⊎ r)) by multiset_solver. done.
    + exists s'. split; [done|]. split; [done|]. intros q Hq. apply HK. multiset_solver.
  - intros r p s [Ho HK] Hp Hm. destruct (HK p Hp) as [HpR HKp].
    destruct (own_ref K (R ⊎ r) p s Ho ltac:(multiset_solver)) as (s'&Hrun&Ho').
    { rewrite multiplicity_disj_union, (proj1 (not_elem_of_multiplicity p R) HpR). lia. }
    exists s'. split; [done|]. by apply beside_add.
  - intros r p s [Ho HK] Hp. destruct (owned_live K _ s p Ho ltac:(multiset_solver)) as (b&l&[(cs&Hc&_) _ _ _ _]&_).
    apply (needs_copy_ok _ s _ (p :: l) cs Hc). by eapply packet_fuel.
  - intros r p s [Ho HK] Hp. destruct (own_clone K _ p s Ho ltac:(multiset_solver)) as (o&s'&Hrun&Ho'&Hfr).
    exists o, s'. split; [done|]. destruct o as [q|]; [|by split]. apply (beside_new K R r q s); auto.
  - intros r n s [Ho HK] Hn. destruct (own_alloc K _ PBUF_LINK n s Ho ltac:(lia)) as (o&s'&Hs&Ho'). exists o, s'. split; [done|].
    destruct o as [q|]; [|by destruct Ho' as (?&_)]. destruct Ho' as (Ho'&Hq&Hb&bs&Ha&Hle). split; [by apply (beside_new K R r q s)|].
    eexists _, _, bs. rewrite Hb, Ha, !lookup_insert_eq. split; [done|]. split; [done|]. split; [done|]. split; [done|]. split; [by vm_compute|done].
  - intros r p n off v s [Ho HK] Hp Hr Hoff Hl. destruct (HK p Hp) as [_ HKp].
    destruct (own_write K _ p n off v s Ho ltac:(multiset_solver) HKp Hr Hoff Hl) as (s'&Hrun&Ho'&Hbo). exists s'. split; [done|].
    split; [by split|]. by eapply own_room_bytes.
  - intros r p n off k s _ _. apply own_read.
  - intros r n p src dst ty s [Ho HK] Hp. destruct (HK p Hp) as [_ HKp].
    destruct (own_output linkoutput K _ n p src dst ty s Hlink Ho ltac:(multiset_solver) HKp) as (e&s'&Hrun&Ho'). by exists e, s'.
Defined.
End instance.
