(* ===== verification/PbufHeap.v ===== *)
(** * Packet buffers on the heap of the stack

    The heap of [src/lib/lwip/src/core/mem.c] keeps the promises that the packet
    buffers rely on, and packet buffers on this heap keep those that ARP relies
    on: ARP with the packet buffers, the pools and the heap of the stack under
    it, from the start on. *)

From stdpp Require Import base numbers decidable gmap gmultiset list.
From Stdlib Require Import ZArith Lia Bool.
From S2P Require Import Prelude Linked LwipMem LwipHeap LwipHeapRun Pbuf PbufChain PbufPool PbufProps InetChksum Ip4Addr Ethernet Ip4 Etharp EtharpInv EtharpFind EtharpOps EtharpSend EtharpRun EtharpProps PbufOwn.
Open Scope Z_scope.

(** ** The heap *)

(** The functions of [mem.c] on their own state; the bytes of a block are kept
    with the packet buffers. *)
#[export] Instance ram_heap : MemHeap Mem.heap := {|
  Pbuf.mem_malloc n h :=
    match Mem.mem_malloc n h with
    | Ok (Some p, h') => (Some (p, replicate (Z.to_nat n) 0), h')
    | Ok (None, h') => (None, h')
    | Fault _ => (None, h)
    end;
  Pbuf.mem_free p h := match Mem.mem_free (Some p) h with Ok h' => h' | Fault _ => h end;
  Pbuf.mem_trim p n h := match Mem.mem_trim p n h with Ok (_, h') => h' | Fault _ => h end
|}.

(** The blocks of the heap that are in use are those with these pointers. *)
Definition ram_ok (U : gset Z) (h : Mem.heap) : Prop :=
  exists bs, holds_blocks h bs /\ parted bs /\ forall q, q ∈ U <-> q ∈ (used_at 0 bs).*1.

(** Pointers into the heap lie behind the first structure; smaller names are
    those of the pools. *)
Definition ram_name (p : Z) : bool := 8 <=? p.

Lemma ram_malloc U n h : ram_ok U h -> 0 <= n < 65536 ->
  match Pbuf.mem_malloc n h with
  | (Some (p, bs), h') => p ∉ U /\ ram_name p = true /\ is_ptr p /\ Z.of_nat (length bs) = n /\ ram_ok ({[p]} ∪ U) h'
  | (None, h') => ram_ok U h'
  end.
Proof.
  intros (bs&Hh&Hp&HU) Hn. cbn [Pbuf.mem_malloc ram_heap]. pose proof (mem_malloc_ok h bs n Hh Hn) as Hm.
  destruct (malloc_spec n bs) as [[q bs']|] eqn:Hspec; [|rewrite Hm; by exists bs].
  destruct Hm as (h'&->&Hh'). unfold malloc_spec in Hspec. destruct (_ || _) eqn:Hcond; [done|].
  destruct (first_fit_split _ _ _ _ _ Hspec) as (b1&m&b2&->&->&->&Hs&_).
  destruct (used_at_cut 0 b1 m b2 (Mem.data_size n) Hs) as (d&Hd&Hperm).
  pose proof Hh' as [(ev&Hseg) _ _]. pose proof (used_nodup _ _ _ Hseg) as Hnd. rewrite Hperm in Hnd. cbn in Hnd.
  apply NoDup_cons in Hnd as [Hfresh _]. split_and!.
  - by rewrite HU.
  - unfold ram_name. apply Z.leb_le. destruct (used_at_bounds _ _ _ _ _ _ (0 + total b1 + 8) d Hseg) as (?&_); [|lia].
    rewrite Hperm. by left.
  - destruct (used_at_bounds _ _ _ _ _ _ (0 + total b1 + 8) d Hseg) as (?&?&?); [|unfold is_ptr; lia].
    rewrite Hperm. by left.
  - rewrite length_replicate. lia.
  - exists (b1 ++ cut (Mem.data_size n) m ++ b2). split; [done|]. split; [by apply parted_cut|].
    intros q. rewrite Hperm. cbn. rewrite elem_of_union, elem_of_singleton, elem_of_cons, HU. done.
Qed.

Lemma ram_free U p h : ram_ok U h -> p ∈ U -> ram_ok (U ∖ {[p]}) (Pbuf.mem_free p h).
Proof.
  intros (bs&Hh&Hp&HU) HpU. cbn [Pbuf.mem_free ram_heap]. pose proof (proj1 (HU p) HpU) as Hin.
  apply list_elem_of_fmap in Hin as ([q d]&->&Hin). destruct (used_at_in _ _ _ _ Hin) as (b1&n&b2&->&->&->). cbn [fst] in *.
  rewrite Z.add_0_l in *. destruct (mem_free_ok _ _ _ _ Hh Hp) as (h'&->&Hh').
  exists (coalesce (b1 ++ (n, false) :: b2)). split; [done|]. split; [apply parted_coalesce|].
  pose proof Hh as [(ev&Hseg) _ _]. pose proof (used_nodup _ _ _ Hseg) as Hnd.
  intros q. rewrite used_at_coalesce, elem_of_difference, elem_of_singleton, HU.
  rewrite used_at_app, fmap_app in *. cbn [used_at app fmap list_fmap fst] in *. rewrite Z.add_0_l in *.
  apply NoDup_app in Hnd as (_&Hd&Hnd). apply NoDup_cons in Hnd as [Hn2 _].
  rewrite (used_at_app 0 b1 ((n, false) :: b2)), fmap_app. cbn [used_at app]. rewrite Z.add_0_l, !elem_of_app, elem_of_cons.
  split; [tauto|]. intros [Hq|Hq]; (split; [tauto|]); intros ->; [|done]. apply (Hd _ Hq). by left.
Qed.

#[export, refine] Instance ram_laws : HeapLaws Mem.heap := {| heap_ok := ram_ok; heap_name := ram_name |}.
Proof.
  - apply ram_malloc.
  - apply ram_free.
Defined.

(** ** The start *)

(** The pools filled, no packet in use. *)
Definition boot_on {H} (h : H) : lwip H :=
  memp_init_pool MEMP_PBUF_POOL pool_names
    (mk_lwip ∅ (list_to_map ((fun p => (p, replicate 1516 0)) <$> pool_names)) None None false [] h).

Lemma boot_on_owned {H} `{HeapLaws H} (h : H) : heap_ok ∅ h -> Forall (fun q => heap_name q = false) pool_names -> owned ∅ ∅ (boot_on h).
Proof.
  intros Hh Hn. exists ∅, [4; 3; 2; 1], [], ∅. split.
  - intros p. rewrite lookup_empty. split; [multiset_solver|]. by intros [? ?].
  - intros p l. by rewrite lookup_empty.
  - intros p p' l l' q. by rewrite lookup_empty.
  - vm_compute. repeat (split; [reflexivity|eexists; split; [reflexivity|]]). reflexivity.
  - reflexivity.
  - intros q [Hq|Hq]; [|set_solver]. split; [|intros p l; by rewrite lookup_empty].
    rewrite Forall_forall in Hn. apply Hn. revert Hq. unfold pool_names. set_solver.
  - exact Hh.
  - intros q. split; [set_solver|]. intros [_ (p&l&Hp&_)]. by rewrite lookup_empty in Hp.
  - intros p. rewrite lookup_empty. by intros [? ?].
Qed.

(** The heap one free block. *)
Definition stack_boot : lwip Mem.heap := boot_on Mem.mem_init.

Lemma ram_init : heap_ok ∅ Mem.mem_init.
Proof. exists [(1600, false)]. destruct heap_inv_init as [Hh Hp _ _]. split; [done|]. split; [done|]. set_solver. Qed.

Lemma boot_owned : owned ∅ ∅ stack_boot.
Proof. apply boot_on_owned; [exact ram_init|]. repeat constructor. Qed.

(** An interface that copies the frame out, as [net_tx_cb] of [src/src/main.c]
    does. *)
Definition copy_out {H} `{MemHeap H} (n : netif) (p : Z) (s : lwip H) : result (err_t * lwip H) :=
  let* b := deref s p in
  let* _ := pbuf_copy_partial (Some p) (replicate (Z.to_nat (tot_len b)) 0) (tot_len b) 0 s in
  Ok (ERR_OK, s).

Lemma copy_out_keeps {H} `{HeapLaws H} : link_keeps copy_out.
Proof.
  intros K r n p s Ho Hp _. destruct (owned_live K r s p Ho Hp) as (b&l&[(cs&Hpk&_) _ _ _ _]&Hb). unfold copy_out.
  rewrite (deref_ok _ _ _ Hb). cbn [rbind]. exists ERR_OK, s. split; [|done].
  assert (Ht : tot_len b = Z.of_nat (length (concat cs)) /\ tot_len b < 65536).
  { destruct cs as [|c cs]; [done|]. destruct Hpk as [_ (b0&Hb0&_&Ht&Hm&_)]. assert (b0 = b) as -> by congruence. done. }
  rewrite (copy_partial_spec s p (p :: l) cs) by (try done; try lia; rewrite length_replicate, length_take; lia). done.
Qed.

(** ** ARP on top *)

Section arp.
Context (linkoutput : netif -> Z -> lwip Mem.heap -> result (err_t * lwip Mem.heap)).
Hypothesis Hlink : link_keeps linkoutput.
#[local] Instance stack_ops : PacketOps (lwip Mem.heap) := pbuf_ops linkoutput.
#[local] Instance stack_laws : PacketLaws (lwip Mem.heap) := pbuf_laws linkoutput Hlink ∅ ∅.

(** C25. ARP over the packet buffers, pools and heap of the stack: from the
    start on, whatever is called and in whatever order, and whatever the others do
    with the packets they hold, the table stays in order, every packet has as many
    references as are held and every buffer is in exactly one packet, free list
    or free block, and the next call returns without a fault and keeps it so.  The
    output function of the interface is one that keeps this ([link_keeps]), and a
    packet that is given to [etharp_input] holds the 28 bytes of an ARP packet,
    which the code does not check. *)
Theorem arp_on_packet_buffers nif netif_default :
  arp_reach nif netif_default ∅ (arp_start stack_boot) /\
  forall r s, arp_reach nif netif_default r s ->
    table_ok nif (arp_table s) /\ owned ∅ (queued (arp_table s) ⊎ r) (packets s) /\
    forall o, arp_pre o r s -> exists e s', arp_exec nif netif_default o s = Ok (e, s') /\
      table_ok nif (arp_table s') /\ owned ∅ (queued (arp_table s') ⊎ arp_post o r) (packets s').
Proof.
  split; [apply reach_start; exact (proj2 (beside_none _ _) boot_owned)|]. intros r s Hr. pose proof (reach_good nif netif_default r s Hr) as Hg.
  pose proof Hg as (Ht&_&Ho). split; [done|]. split; [exact (proj1 (beside_none _ _) Ho)|]. intros o Hpre.
  destruct (exec_ok nif netif_default o r s Hg Hpre) as (e&s'&Hx&(Ht'&_&Ho')&_). exists e, s'. split; [done|]. split; [done|].
  exact (proj1 (beside_none _ _) Ho').
Qed.
End arp.

(** A query on the empty table: the request is allocated, sent and freed. *)
Lemma arp_on_packet_buffers_witness :
  exists e s', @arp_exec _ (pbuf_ops copy_out) one_nif (Some 0) (op_query 0 peer None) (arp_start stack_boot) = Ok (e, s') /\
    e = ERR_OK /\ owned ∅ ∅ (packets s') /\ Mem.ram (heap (packets s')) !! 0 = Some (Mem.mk_mem 1600 0 0).
Proof.
  destruct (arp_on_packet_buffers copy_out copy_out_keeps one_nif (Some 0)) as [Hst Hall].
  destruct (Hall ∅ _ Hst) as (_&_&Hop). destruct (Hop (op_query 0 peer None) I) as (e&s'&Hx&_&Ho).
  exists e, s'. split; [exact Hx|]. vm_compute in Hx. injection Hx as <- <-. split; [reflexivity|]. split; [|reflexivity].
  exact Ho.
Defined.
