(* ===== verification/NetStack.v ===== *)
(** * The layers of the stack put together

    The Ethernet layer with the IP, ICMP and ARP functions above it, as the
    interface of [src/src/main.c] connects them: [ethernet_input] calls
    [ip4_input] and [etharp_input], IP sends through [netif->output], which is
    [etharp_output], and ARP through [ethernet_output] and [netif->linkoutput].
    The variables of [ip4.c] and [etharp.c] are kept beside the heap.  UDP, TCP
    and fragments are the class [Transport].  The theorems follow a frame from
    the wire through all layers and back to the wire. *)

From stdpp Require Import base numbers list decidable gmap.
From Stdlib Require Import ZArith Lia Bool.
From S2P Require Import Prelude LwipMem Pbuf PbufChain PbufPool PbufProps OnesComp InetChksum InetChksumProps Ip4Addr PbufView Ethernet Ip4 Icmp Ip4Input Ip4Props IcmpProps Etharp.
Open Scope Z_scope.

(** ** State *)

(** The heap, the variables of [etharp.c] and those of [ip4.c]. *)
Record net (H : Type) : Type := mk_net {
  n_heap : H;
  n_table : list etharp_entry;
  n_cached : Z;
  n_id : Z;
  n_data : ip_globals
}.
Arguments mk_net {H}.
Arguments n_heap {H}.
Arguments n_table {H}.
Arguments n_cached {H}.
Arguments n_id {H}.
Arguments n_data {H}.

Definition put_heap {H} (v : H) (x : net H) : net H := mk_net v (n_table x) (n_cached x) (n_id x) (n_data x).
Definition put_arp {H} (t : list etharp_entry) (c : Z) (x : net H) : net H := mk_net (n_heap x) t c (n_id x) (n_data x).
Definition put_ip {H} (i : Z) (d : ip_globals) (x : net H) : net H := mk_net (n_heap x) (n_table x) (n_cached x) i d.

#[export] Instance net_mem {H} `{MemHeap H} : MemHeap (net H) := {|
  mem_malloc n x := let '(r, h) := mem_malloc n (n_heap x) in (r, put_heap h x);
  mem_free p x := put_heap (mem_free p (n_heap x)) x;
  mem_trim p n x := put_heap (mem_trim p n (n_heap x)) x
|}.

(** What is not modelled above IP. *)
Class Transport (H : Type) : Type := {
  t_frag : Z -> Z -> Z -> ip4 unit (net H) -> result (err_t * ip4 unit (net H));
  t_reass : Z -> ip4 unit (net H) -> result (option Z * ip4 unit (net H));
  t_udp : Z -> Z -> ip4 unit (net H) -> result (ip4 unit (net H));
  t_tcp : Z -> Z -> ip4 unit (net H) -> result (ip4 unit (net H))
}.

(** ** Sending to a known address *)

Section known.
Context {P : Type} `{PacketOps P} (nif : Z -> netif).
Implicit Types (x : arp P).

(** The [k]-th entry of the table knows the hardware address of [ip], and is not
    so old that it is asked for again. *)
Record knows (t : list etharp_entry) (k : nat) (e : etharp_entry) (ip : Z) : Prop := {
  kn_entry : t !! k = Some e;
  kn_ip : ipaddr e = ip;
  kn_stable : is_stable (state e) = true;
  kn_young : state e = ETHARP_STATE_STABLE -> ctime e < ARP_AGE_REREQUEST_USED_UNICAST;
  kn_only : forall j ej, t !! j = Some ej -> is_stable (state ej) = true -> ipaddr ej = ip -> j = k
}.

(** An address on the network of the interface, of one host. *)
Definition on_link (n : netif) (ip : Z) : Prop :=
  isbroadcast ip n = false /\ ip4_addr_ismulticast ip = false /\
  (ip4_addr_net_eq ip (ip_addr n) (netmask n) = true \/ ip4_addr_islinklocal ip = true).

Lemma find_stable_ok t k e ip i : knows t k e ip -> find_stable ip i t = Some (i + Z.of_nat k).
Proof.
  intros [He Hip Hst _ Honly]. clear -He Hip Hst Honly. revert k i He Honly.
  induction t as [|e' t IH]; intros k i He Honly; [done|]. cbn [find_stable].
  destruct (is_stable (state e') && (ip =? ipaddr e')) eqn:Hm.
  - apply andb_true_iff in Hm as [Hs Heq%Z.eqb_eq]. assert (0%nat = k) as <- by (by apply (Honly 0%nat e')). f_equal. lia.
  - destruct k as [|k].
    + cbn in He. injection He as ->. rewrite Hst, Hip, Z.eqb_refl in Hm. done.
    + rewrite (IH k (i + 1) He); [f_equal; lia|]. intros j ej Hj Hs Hi. pose proof (Honly (S j) ej Hj Hs Hi). lia.
Qed.

Lemma output_known x i p ip k e : knows (arp_table x) k e ip -> on_link (nif i) ip ->
  0 <= etharp_cached_entry x -> (Z.to_nat (etharp_cached_entry x) < length (arp_table x))%nat ->
  etharp_output nif i p ip x =
  on_packets_r (pkt_output (nif i) p (hwaddr (nif i)) (ethaddr e) ETHTYPE_IP) (set_cached_entry (Z.of_nat k) x).
Proof.
  intros Hk (Hbc&Hmc&Hloc) Hc0 Hc. pose proof Hk as [He Hip Hst Hyoung Honly]. unfold etharp_output. rewrite Hbc, Hmc.
  assert (Hin : negb (ip4_addr_net_eq ip (ip_addr (nif i)) (netmask (nif i))) && negb (ip4_addr_islinklocal ip) = false)
    by (destruct Hloc as [->| ->]; rewrite ?andb_false_r; done).
  rewrite Hin. cbn [andb].
  assert (Hidx : forall y, arp_table y = arp_table x ->
            etharp_output_to_arp_index (nif i) p (Z.of_nat k) y =
            on_packets_r (pkt_output (nif i) p (hwaddr (nif i)) (ethaddr e) ETHTYPE_IP) y).
  { intros y Hy. unfold etharp_output_to_arp_index, entry_at. rewrite (proj2 (Z.leb_le 0 _)) by lia.
    rewrite Hy, Nat2Z.id, He. cbn [rbind]. case_bool_decide as Hs; cbn [rbind].
    - specialize (Hyoung Hs). unfold ARP_AGE_REREQUEST_USED_BROADCAST, ARP_AGE_REREQUEST_USED_UNICAST, ARP_MAXAGE in *.
      rewrite !(proj2 (Z.leb_gt _ _)) by lia. cbn [rbind]. by rewrite Hy, He.
    - by rewrite Hy, He. }
  unfold entry_at. rewrite (proj2 (Z.leb_le _ _)) by done.
  destruct (lookup_lt_is_Some_2 _ _ Hc) as [ec Hec]. rewrite Hec. cbn [rbind].
  destruct (is_stable (state ec) && (ip =? ipaddr ec)) eqn:Hm.
  - apply andb_true_iff in Hm as [Hs Heq%Z.eqb_eq].
    assert (Hck : Z.of_nat k = etharp_cached_entry x) by (rewrite <- (Honly _ _ Hec Hs ltac:(congruence)); lia).
    rewrite <- Hck. rewrite Hidx by done. rewrite Hck. by destruct x.
  - rewrite (find_stable_ok _ k e) by done. rewrite Z.add_0_l. by apply Hidx.
Qed.
End known.

Section stack.
Context {H : Type} `{MemHeap H} `{!Transport H}.
Context (linkoutput : netif -> Z -> lwip (net H) -> result (err_t * lwip (net H))).
Context (base : Z -> Z) (nif : Z -> netif) (np : Z).
Implicit Types (s : lwip (net H)).

#[local] Instance net_packets : PacketOps (lwip (net H)) := lwip_packets linkoutput.

(** Running a function of ARP or of IP on the variables beside the heap. *)
Definition arp_open s : arp (lwip (net H)) := mk_arp (n_table (heap s)) (n_cached (heap s)) s.
Definition arp_close (x : arp (lwip (net H))) : lwip (net H) :=
  set_heap (put_arp (arp_table x) (etharp_cached_entry x) (heap (packets x))) (packets x).
Definition ip_open s : ip4 unit (net H) := mk_ip4 (n_id (heap s)) (n_data (heap s)) tt s.
Definition ip_close (x : ip4 unit (net H)) : lwip (net H) :=
  set_heap (put_ip (ip_id x) (ip_data x) (heap (stack x))) (stack x).

(** [netif->output] is [etharp_output]. *)
#[local] Instance net_neighbours : Neighbours unit (net H) := {|
  netif_output i p dest := on_stack_r (fun s => let* (e, x) := etharp_output nif i p dest (arp_open s) in Ok (e, arp_close x));
  ip4_frag := t_frag
|}.

#[local] Instance net_receivers : Receivers unit (net H) := {|
  ip4_reass := t_reass;
  udp_input := t_udp;
  tcp_input := t_tcp
|}.

#[local] Instance net_upper : UpperLayers (net H) := {|
  Ethernet.ip4_input p s := let* (_, x) := ip4_input base nif (Some np) p np (ip_open s) in Ok (ip_close x);
  Ethernet.etharp_input p s := let* x := etharp_input nif p np (arp_open s) in Ok (arp_close x)
|}.

(** [netif->input] of the interface. *)
Definition net_input (p : Z) s : result (err_t * lwip (net H)) := ethernet_input p (nif np) s.

(** ** Frames *)

Definition eth_header (dst src : list Z) (ty : Z) : list Z := dst ++ src ++ [ty / 256; ty mod 256].

(** The buffer [p] holds the frame [f] in one piece, at [o] in the area [a]. *)
Record frame_in s (p : Z) (b : pbuf) (a : Z) (o : nat) (bs f : list Z) : Prop := {
  fr_pbuf : pbufs s !! p = Some b;
  fr_contiguous : contiguous_pbuf b;
  fr_next : next b = None;
  fr_payload : payload b = Some (a, Z.of_nat o);
  fr_area : areas s !! a = Some bs;
  fr_bytes : bytes_ok bs;
  fr_len : len b = Z.of_nat (length f);
  fr_tot : tot_len b = len b;
  fr_max : len b < 65536;
  fr_room : (o + length f <= length bs)%nat;
  fr_slice : slice o (length f) bs = f
}.

Lemma splice_front o (h1 h2 bs : list Z) : (o + length h1 + length h2 <= length bs)%nat ->
  splice o h1 (splice (o + length h1) h2 bs) = splice o (h1 ++ h2) bs.
Proof.
  intros Hl. apply list_eq. intros i.
  repeat (rewrite lookup_splice by (rewrite ?length_splice, ?length_app; lia)).
  rewrite length_app. repeat case_decide; try lia; try done.
  - by rewrite lookup_app_l by lia.
  - rewrite lookup_app_r by lia. f_equal. lia.
Qed.

(** [ethernet_output] puts the header in front and hands the frame on. *)
Lemma ethernet_output_ok s n p b a o bs src dst ty :
  pbufs s !! p = Some b -> contiguous_pbuf b -> payload b = Some (a, Z.of_nat o) -> areas s !! a = Some bs ->
  (14 <= o <= length bs)%nat -> 0 <= len b <= tot_len b -> tot_len b + 14 < 65536 ->
  length src = 6%nat -> length dst = 6%nat -> 0 <= ty < 65536 ->
  ethernet_output linkoutput n p src dst ty s =
  linkoutput n p (view (set_pbufs (<[p := with_header 14 b a (Z.of_nat o)]> (pbufs s)) s) a (o - 14) bs (eth_header dst src ty)).
Proof.
  intros Hb Hcont Hpay Ha Ho Hlen Htot Hsrc Hdst Hty. unfold ethernet_output, SIZEOF_ETH_HDR.
  rewrite (add_header_ok s p b a (Z.of_nat o) 14 Hb Hcont Hpay) by lia. cbn [rbind]. change (negb (0 =? 0)) with false. cbv iota.
  set (s1 := set_pbufs _ s). assert (Hb1 : pbufs s1 !! p = Some (with_header 14 b a (Z.of_nat o))) by apply lookup_insert_eq.
  rewrite (deref_ok _ _ _ Hb1). cbn [rbind with_header payload set_tot_len set_len set_payload].
  assert (Hx : s1 = view s1 a (o - 14) bs (slice (o - 14) 14 bs)) by (apply view_open; [done|lia]).
  assert (Hl : length (slice (o - 14) 14 bs) = 14%nat) by (apply length_slice; lia). revert Hx Hl.
  generalize (slice (o - 14) 14 bs). intros h Hx Hl. rewrite Hx at 1.
  rewrite (view_st _ a (o - 14) bs h _ _ 12) by (cbn [length]; lia). cbn [rbind].
  assert (Hl1 : length (splice 12 [wrap8 (ty / 256); wrap8 ty] h) = 14%nat) by (rewrite length_splice; cbn [length]; lia).
  rewrite (take_ge dst), (take_ge src) by lia.
  rewrite (view_st _ a (o - 14) bs _ _ _ 0) by lia. cbn [rbind].
  assert (Hl2 : length (splice 0 dst (splice 12 [wrap8 (ty / 256); wrap8 ty] h)) = 14%nat) by (rewrite length_splice; lia).
  rewrite (view_st _ a (o - 14) bs _ _ _ 6) by lia. cbn [rbind]. do 2 f_equal.
  unfold eth_header. rewrite (wrap_small 8 (ty / 256)) by (change (2 ^ 8) with 256; split; [apply Z.div_pos; lia|apply Z.div_lt_upper_bound; lia]).
  change (wrap 8 ty) with (ty mod 256).
  do 6 (destruct dst as [|? dst]; [done|]). destruct dst; [|done]. do 6 (destruct src as [|? src]; [done|]). destruct src; [|done].
  do 14 (destruct h as [|? h]; [done|]). by destruct h.
Qed.

(** What [ethernet_input] notes in the structure: the interface and the kind of
    destination. *)
Definition labelled (n : netif) (dst : list Z) (b : pbuf) : pbuf :=
  let b := if if_idx b =? NETIF_NO_INDEX then set_if_idx (netif_get_index n) b else b in
  if negb (dest_flag dst =? 0) then set_flags (Z.lor (flags b) (dest_flag dst)) b else b.

Lemma labelled_same n dst b : payload (labelled n dst b) = payload b /\ len (labelled n dst b) = len b /\
  tot_len (labelled n dst b) = tot_len b /\ next (labelled n dst b) = next b /\
  type_internal (labelled n dst b) = type_internal b.
Proof. unfold labelled. by destruct (if_idx b =? _), (negb _). Qed.

(** A frame loses its header on the way up. *)
Lemma frame_strip s p b a o bs h f n dst : frame_in s p b a o bs (h ++ f) -> 0 < Z.of_nat (length h) ->
  let b' := with_header (- Z.of_nat (length h)) (labelled n dst b) a (Z.of_nat o) in
  pbuf_remove_header (Some p) (Z.of_nat (length h)) (set_pbufs (<[p := labelled n dst b]> (pbufs s)) s) =
    Ok (0, set_pbufs (<[p := b']> (pbufs s)) s) /\
  frame_in (set_pbufs (<[p := b']> (pbufs s)) s) p b' a (o + length h) bs f.
Proof.
  intros [Hb Hcont Hnx Hpay Ha Hok Hlen Htot Hmax Hroom Hsl] Hh b'. rewrite length_app in *.
  destruct (labelled_same n dst b) as (Hpg&Hlg&Htg&Hng&Hty). unfold b'. split.
  - unfold pbuf_remove_header. rewrite (proj2 (Z.ltb_ge _ _)), (proj2 (Z.eqb_neq _ 0)) by lia.
    rewrite wrap16_small by lia. rewrite (deref_ok _ p (labelled n dst b)) by apply lookup_insert_eq. cbn [rbind].
    rewrite (proj2 (Z.leb_le _ _)) by lia. cbn [negb]. rewrite Hpg, Hpay. cbn [not_null rbind].
    rewrite (assign_ok _ p (labelled n dst b)) by apply lookup_insert_eq. cbn [rbind]. unfold set_pbufs, with_header. cbn.
    rewrite insert_insert_eq, !wrap16_small by lia. do 8 f_equal; try lia. do 2 f_equal; lia.
  - split; cbn; try done; try congruence; try lia.
    + apply lookup_insert_eq.
    + unfold contiguous_pbuf. cbn. by rewrite Hty.
    + do 2 f_equal. lia.
    + rewrite slice_split in Hsl. apply app_inj_1 in Hsl as [_ ->]; [done|apply length_slice; lia].
Qed.

Lemma assign_if (c : bool) s p b (f : pbuf -> pbuf) : pbufs s !! p = Some b ->
  (if c then assign p f s else Ok s) = Ok (set_pbufs (<[p := if c then f b else b]> (pbufs s)) s).
Proof.
  intros Hb. destruct c; [by apply assign_ok|]. rewrite insert_id by done. by destruct s.
Qed.

(** A frame for the interface goes up without its header. *)
Lemma net_input_up s p b a o bs dst hw ty f :
  frame_in s p b a o bs (eth_header dst hw ty ++ f) -> length dst = 6%nat -> length hw = 6%nat -> 0 <= ty < 65536 ->
  f <> [] -> Z.land (netif_flags (nif np)) NETIF_FLAG_ETHARP <> 0 ->
  let b' := with_header (-14) (labelled (nif np) dst b) a (Z.of_nat o) in
  let s' := set_pbufs (<[p := b']> (pbufs s)) s in
  frame_in s' p b' a (o + 14) bs f /\
  net_input p s =
      if ty =? ETHTYPE_IP then let* s2 := Ethernet.ip4_input p s' in Ok (ERR_OK, s2)
      else if ty =? ETHTYPE_ARP then let* s2 := Ethernet.etharp_input p s' in Ok (ERR_OK, s2)
      else net_input p s.
Proof.
  intros Hfr Hdst Hhw Hty Hf Hfl b' s'. pose proof Hfr as [Hb Hcont Hnx Hpay Ha Hok Hlen Htot Hmax Hroom Hsl].
  assert (Hlh : length (eth_header dst hw ty) = 14%nat) by (unfold eth_header; rewrite !length_app, Hdst, Hhw; done).
  rewrite length_app, Hlh in *. assert (0 < length f)%nat by (destruct f; [done|cbn; lia]).
  destruct (frame_strip s p b a o bs (eth_header dst hw ty) f (nif np) dst Hfr) as (Hrm&Hfr'); [lia|].
  rewrite Hlh in *. change (Z.of_nat 14) with 14 in Hrm, Hfr'. split; [done|].
  pose proof (view_open s a o (14 + length f) bs Ha Hroom) as Hv. rewrite Hsl in Hv.
  assert (Hd : ld_bytes s (payload b) 0 6 = Ok dst).
  { rewrite Hpay, Hv, (view_ld_bytes s a o bs _ _ 0 6 0) by (rewrite ?length_app, ?Hlh; lia). f_equal.
    unfold eth_header. rewrite <- !app_assoc. by apply slice_app_l. }
  assert (Ht : ld_bytes s (payload b) 12 2 = Ok [ty / 256; ty mod 256]).
  { rewrite Hpay, Hv, (view_ld_bytes s a o bs _ _ 12 2 12) by (rewrite ?length_app, ?Hlh; lia). f_equal.
    unfold eth_header. rewrite <- !app_assoc. replace 12%nat with (length dst + (length hw + 0))%nat by lia.
    rewrite !slice_app_r. done. }
  assert (Hbe : be16 [ty / 256; ty mod 256] = ty) by (cbn; pose proof (Z.div_mod ty 256); lia).
  unfold net_input, ethernet_input. rewrite (deref_ok _ _ _ Hb). cbn [rbind].
  rewrite (proj2 (Z.leb_gt _ _)) by (unfold SIZEOF_ETH_HDR; lia). rewrite Hd, Ht. cbn [rbind]. rewrite Hbe.
  rewrite (assign_if _ _ _ _ _ Hb). cbn [rbind]. rewrite (assign_if _ _ _ _ _ (lookup_insert_eq _ _ _)). cbn [rbind].
  unfold to_upper. rewrite (proj2 (Z.eqb_neq _ 0)) by done.
  match goal with |- context [pbuf_remove_header _ _ ?x] => replace x with (set_pbufs (<[p := labelled (nif np) dst b]> (pbufs s)) s) by
    (unfold set_pbufs; cbn; by rewrite insert_insert_eq) end.
  change SIZEOF_ETH_HDR with 14. rewrite Hrm. cbn [rbind]. change (negb (0 =? 0)) with false. cbv iota.
  destruct (ty =? ETHTYPE_IP); [done|]. by destruct (ty =? ETHTYPE_ARP).
Qed.

(** ** Ping *)

Section ping.
Context (tos id ttl src dest : Z) (msg : list Z) (k : nat) (e : etharp_entry).
Hypothesis Htos : is_byte tos.
Hypothesis Hid : is_word id.
Hypothesis Httl : is_byte ttl.
Hypothesis Hsrc : is_addr src.
Hypothesis Hdest : is_addr dest.
Hypothesis Hmsg : (8 <= length msg)%nat.
Hypothesis Hecho : slice 0 1 msg = [ICMP_ECHO].
Hypothesis Hsum : rfc1071 msg = [0; 0].
Hypothesis Hus : ip4_input_netif (nif np) dest = true.
Hypothesis Hmtu : 20 + Z.of_nat (length msg) <= mtu (nif np).
Hypothesis Hpeer : on_link (nif np) src.
Hypothesis Hmac : length (hwaddr (nif np)) = 6%nat.
Hypothesis Hpmac : length (ethaddr e) = 6%nat.

(** What the sender has put behind its Ethernet header. *)
Definition ping_packet : list Z :=
  ip_header tos (20 + Z.of_nat (length msg)) id ttl IP_PROTO_ICMP src dest ++ msg.

(** The answer, and its frame. *)
Definition pong_packet : list Z :=
  reply_header (ip_header tos (20 + Z.of_nat (length msg)) id ttl IP_PROTO_ICMP src dest) (echo_source nif np np dest) src ++
  reply_message msg.
Definition pong_frame : list Z := eth_header (ethaddr e) (hwaddr (nif np)) ETHTYPE_IP ++ pong_packet.

Lemma length_pong : length pong_packet = (20 + length msg)%nat.
Proof.
  unfold pong_packet. rewrite !length_app, length_reply_header by (cbn; lia).
  replace (length (reply_message msg)) with (length msg); [done|]. unfold reply_message. symmetry.
  repeat (apply length_field; [|cbn [length]; rewrite ?length_le_bytes; lia]). done.
Qed.

Lemma length_pong_frame : length pong_frame = (34 + length msg)%nat.
Proof. unfold pong_frame, eth_header. by rewrite !length_app, Hmac, Hpmac, length_pong. Qed.

Lemma ping_starts s p b a o bs : frame_in s p b a o bs ping_packet ->
  starts_with (ip_open s) p b a o bs (ip_header tos (tot_len b) id ttl IP_PROTO_ICMP src dest).
Proof.
  intros [Hb Hcont Hnx Hpay Ha Hok Hlen Htot Hmax Hroom Hsl].
  assert (Hlp : length ping_packet = (20 + length msg)%nat) by (unfold ping_packet; rewrite length_app; done). rewrite Hlp in *.
  assert (Ht : tot_len b = 20 + Z.of_nat (length msg)) by lia.
  split; try done; [cbn; lia|lia|lia|]. cbn [length]. rewrite slice_split in Hsl. unfold ping_packet in Hsl.
  apply app_inj_1 in Hsl as [Hsl _]; [|rewrite length_slice by lia; done]. by rewrite Ht.
Qed.

(** The message behind the header, once IP has taken that off. *)
Lemma ping_message s p b a o bs : frame_in s p b a o bs ping_packet -> len b + 14 < 65536 ->
  let d := delivered (ip_open s) p b a o np src dest in
  message d p (stripped b a o) a (o + 20) 20 bs /\ slice (o + 20) (length msg) bs = msg /\
  inet_chksum_pbuf base (stack d) (Some p) = Ok 0.
Proof.
  intros Hfr Hroom14. pose proof Hfr as [Hb Hcont Hnx Hpay Ha Hok Hlen Htot Hmax Hroom Hsl].
  assert (Hlp : length ping_packet = (20 + length msg)%nat) by (unfold ping_packet; rewrite length_app; done). rewrite Hlp in *.
  rewrite slice_split in Hsl. apply app_inj_1 in Hsl as [Hhd Hm]; [|rewrite length_slice by lia; done].
  assert (Hls : len (stripped b a o) = Z.of_nat (length msg)) by (cbn; lia).
  assert (Hb1 : pbufs (stack (delivered (ip_open s) p b a o np src dest)) !! p = Some (stripped b a o)) by apply lookup_insert_eq.
  split; [|split; [done|]].
  - split; try done; try lia; cbn; f_equal; f_equal; lia.
  - destruct (pbuf_chksum_congr base (stack (delivered (ip_open s) p b a o np src dest)) (Some p) [p] [msg]) as (v&->&Hvr&Hvc).
    + split; [done|]. exists (stripped b a o). split; [done|]. split; [done|]. cbn [concat]. rewrite app_nil_r.
      split; [cbn; lia|]. split; [cbn; lia|]. split; [|exact Hnx].
      exists a, (Z.of_nat o + 20), bs. rewrite Hls. split; [done|]. split; [done|]. split; [lia|]. split; [lia|].
      unfold bytes_at. by replace (Z.to_nat (Z.of_nat o + 20)) with (o + 20)%nat by lia; rewrite Nat2Z.id.
    + constructor; [|done]. rewrite <- Hm. by apply Forall_take, Forall_drop.
    + f_equal. cbn [concat] in Hvc. rewrite app_nil_r in Hvc. apply rfc1071_word in Hvc; [|rewrite <- Hm; by apply Forall_take, Forall_drop|done].
      rewrite Hsum in Hvc. pose proof (le_val_bytes 2 v) as Hv. rewrite Hvc, Z.mod_small in Hv by (cbn; lia). by rewrite <- Hv.
Qed.

(** The answer leaves through [etharp_output], which knows the address. *)
Lemma pong_sent (x : ip4 unit (net H)) t p b a o bs :
  stack x = view t a o bs pong_packet -> heap t = heap (stack x) ->
  pbufs t !! p = Some b -> contiguous_pbuf b -> payload b = Some (a, Z.of_nat o) ->
  (14 <= o)%nat -> (o + (20 + length msg) <= length bs)%nat ->
  0 <= len b <= tot_len b -> tot_len b + 14 < 65536 ->
  knows (n_table (heap t)) k e src -> 0 <= n_cached (heap t) ->
  (Z.to_nat (n_cached (heap t)) < length (n_table (heap t)))%nat ->
  transmit nif np p src (20 + Z.of_nat (length msg)) x =
  let* (r, y) := linkoutput (nif np) p
                   (view (set_pbufs (<[p := with_header 14 b a (Z.of_nat o)]> (pbufs t)) t) a (o - 14) bs pong_frame) in
  Ok (r, set_stack (set_heap (put_arp (n_table (heap t)) (Z.of_nat k) (heap y)) y) x).
Proof.
  intros Hx Hheap Hb Hcont Hpay Ho Hroom Hlen Htot Hk Hc0 Hc. unfold transmit.
  rewrite (proj2 (Z.ltb_ge _ _)), andb_false_r by lia. cbn [netif_output net_neighbours]. unfold on_stack_r.
  rewrite Hx. unfold arp_open. change (heap (view t a o bs _)) with (heap t).
  rewrite (output_known nif _ np p src k e) by done. unfold on_packets_r. cbn [packets pkt_output net_packets lwip_packets set_cached_entry].
  pose proof length_pong as Hlp.
  rewrite (ethernet_output_ok _ _ p b a o (splice o pong_packet bs)) by
    first [done|lia|apply lookup_insert_eq|rewrite length_splice; lia].
  match goal with |- context [linkoutput (nif np) p ?y] =>
    replace y with (view (set_pbufs (<[p := with_header 14 b a (Z.of_nat o)]> (pbufs t)) t) a (o - 14) bs pong_frame) end.
  - destruct (linkoutput _ _ _) as [[r y]|]; done.
  - unfold view, set_pbufs, set_areas. cbn. rewrite insert_insert_eq. do 2 f_equal. unfold pong_frame.
    assert (Hle : length (eth_header (ethaddr e) (hwaddr (nif np)) ETHTYPE_IP) = 14%nat)
      by (unfold eth_header; by rewrite !length_app, Hmac, Hpmac).
    rewrite <- splice_front by lia. do 2 f_equal. lia.
Qed.

Lemma ping_up s p b a o bs : frame_in s p b a o bs ping_packet -> (14 <= o)%nat -> len b + 14 < 65536 ->
  knows (n_table (heap s)) k e src -> 0 <= n_cached (heap s) ->
  (Z.to_nat (n_cached (heap s)) < length (n_table (heap s)))%nat ->
  let b' := with_header 14 (with_header 20 (stripped b a o) a (Z.of_nat (o + 20))) a (Z.of_nat o) in
  Ethernet.ip4_input p s =
    let* (_, y) := linkoutput (nif np) p (view (set_pbufs (<[p := b']> (pbufs s)) s) a (o - 14) bs pong_frame) in
    let* (_, y) := pbuf_free (Some p) (set_heap (put_arp (n_table (heap s)) (Z.of_nat k) (heap y)) y) in
    Ok (set_heap (put_ip (n_id (heap s)) no_packet (heap y)) y).
Proof.
  intros Hfr Ho Hl14 Hk Hc0 Hc b'. pose proof Hfr as [Hb Hcont Hnx Hpay Ha Hok Hlen Htot Hmax Hroom Hsl].
  assert (Hlp : length ping_packet = (20 + length msg)%nat) by (unfold ping_packet; rewrite length_app; done). rewrite Hlp in *.
  rewrite slice_split in Hsl. apply app_inj_1 in Hsl as [Hhd _]; [|rewrite length_slice by lia; done].
  destruct (ping_message s p b a o bs Hfr Hl14) as (Hm&Hs&Hck). set (d := delivered _ _ _ _ _ _ _ _) in *.
  set (b1 := with_header 20 (stripped b a o) a (Z.of_nat (o + 20))).
  cbn [Ethernet.ip4_input net_upper].
  rewrite (input_delivers base nif (Some np) (ip_open s) p b a o bs tos id ttl IP_PROTO_ICMP src dest np) by
    first [done|by apply ping_starts|right; by destruct Hpeer as (?&?&_)|unfold is_byte, IP_PROTO_ICMP; lia].
  fold d. unfold to_protocol. change (IP_PROTO_ICMP =? IP_PROTO_UDP) with false. change (IP_PROTO_ICMP =? IP_PROTO_TCP) with false.
  change (IP_PROTO_ICMP =? IP_PROTO_ICMP) with true. cbv iota.
  assert (Hecho' : slice (o + 20) 1 bs = [ICMP_ECHO]).
  { rewrite <- Hecho, <- Hs. unfold slice. rewrite drop_0, take_take. f_equal. lia. }
  rewrite (icmp_echo_ok base nif d p (stripped b a o) a (o + 20) 20 bs np np) by
    first [done|cbn; lia|cbn; do 2 f_equal; lia|replace (o + 20 - 20)%nat with o by lia;
     replace (slice o 1 bs) with (slice 0 1 (slice o 20 bs)) by (unfold slice; by rewrite drop_0, take_take); by rewrite Hhd].
  assert (Hans : answered d p (stripped b a o) a (o + 20) 20 bs (echo_source nif np np dest) src =
            set_stack (view (set_pbufs (<[p := b1]> (pbufs (stack d))) (stack d)) a o bs pong_packet) d).
  { unfold answered. replace (o + 20 - 20)%nat with o by lia. rewrite Hhd.
    replace (Z.to_nat (len (stripped b a o))) with (length msg) by (cbn; lia). by rewrite Hs. }
  change (current_iphdr_src (ip_data d)) with src. change (current_iphdr_dest (ip_data d)) with dest. rewrite Hans.
  replace (tot_len (stripped b a o) + Z.of_nat 20) with (20 + Z.of_nat (length msg)) by (cbn; lia).
  set (t := set_pbufs (<[p := b1]> (pbufs (stack d))) (stack d)).
  rewrite (pong_sent (set_stack (view t a o bs pong_packet) d) t p b1 a o bs) by
    first [done|lia|apply lookup_insert_eq|cbn; do 2 f_equal; lia|cbn; lia].
  replace (set_pbufs (<[p := with_header 14 b1 a (Z.of_nat o)]> (pbufs t)) t)
    with (set_pbufs (<[p := with_header 14 b1 a (Z.of_nat o)]> (pbufs s)) s)
    by (unfold t, set_pbufs; cbn; by rewrite !insert_insert_eq).
  destruct (linkoutput _ _ _) as [[r y]|]; [|done]. cbn [rbind]. unfold drop_packet. cbn [stack set_stack].
  change (heap t) with (heap s). unfold on_stack_r. cbn [stack Ip4.set_stack].
  destruct (pbuf_free _ _) as [[c y']|]; done.
Qed.
End ping.
End stack.

(** ** The theorem *)

(** A sum of words that is all ones has the checksum zero. *)
Lemma rfc1071_zero bs : bytes_ok bs -> congr (le_val bs) 65535 -> rfc1071 bs = [0; 0].
Proof. intros Hb Hc. symmetry. apply (rfc1071_word bs 0); [done|lia|]. rewrite Z.sub_0_r. by symmetry. Qed.

Lemma rfc1071_sum bs : bytes_ok bs -> rfc1071 bs = [0; 0] -> congr (le_val bs) 65535.
Proof.
  intros Hb Hz. destruct (congr_exists (le_val bs)) as (v&Hv&Hc); [by apply le_val_nonneg|].
  pose proof (le_val_bytes 2 v) as Hlv. rewrite (rfc1071_word bs v Hb Hv Hc), Hz, Z.mod_small in Hlv by (cbn; lia).
  cbn in Hlv. subst v. by symmetry.
Qed.

Lemma pong_sums nif np tos id ttl src dest msg e :
  is_byte tos -> is_word id -> is_byte ttl -> is_addr src -> is_addr dest -> 20 + Z.of_nat (length msg) < 65536 ->
  (8 <= length msg)%nat -> slice 0 1 msg = [ICMP_ECHO] -> bytes_ok msg -> rfc1071 msg = [0; 0] ->
  length (hwaddr (nif np)) = 6%nat -> length (ethaddr e) = 6%nat ->
  let pong := pong_frame nif np tos id ttl src dest msg e in
  rfc1071 (slice 14 20 pong) = [0; 0] /\ rfc1071 (drop 34 pong) = [0; 0].
Proof.
  intros Htos Hid Httl Hsrc Hdest Hlen Hmsg Hecho Hb Hsum Hmac Hpmac pong. unfold pong, pong_frame, pong_packet.
  set (hdr := ip_header _ _ _ _ _ _ _).
  assert (Hle : length (eth_header (ethaddr e) (hwaddr (nif np)) ETHTYPE_IP) = 14%nat)
    by (unfold eth_header; by rewrite !length_app, Hmac, Hpmac).
  destruct (reply_header_sum hdr (echo_source nif np np dest) src) as [Hs Hok];
    [cbn; lia|apply header_ok; first [done|unfold is_word, is_byte, IP_PROTO_ICMP; lia]|].
  assert (Hlr : length (reply_header hdr (echo_source nif np np dest) src) = 20%nat) by (by rewrite length_reply_header).
  destruct (reply_message_sum msg []) as [Hs' Hok']; [lia|done|by constructor|done|rewrite app_nil_r; by apply rfc1071_sum|].
  rewrite app_nil_r in Hs'. split.
  - match goal with |- context [slice 14 20 (?h ++ ?r)] => pose proof (slice_app_r 0 20 h r) as Hsr end.
    rewrite Hle in Hsr. cbn [Nat.add] in Hsr. rewrite Hsr, slice_app_l by done. by apply rfc1071_zero.
  - rewrite app_assoc, drop_app_length'; [by apply rfc1071_zero|]. rewrite length_app. lia.
Qed.

(** Moving the payload pointer twice. *)
Lemma with_header_twice n m b a o : with_header n (with_header m b a o) a (o - m) = with_header (n + m) b a o.
Proof.
  destruct b. unfold with_header, set_tot_len, set_len, set_payload. cbn. f_equal; first [lia|apply f_equal, (f_equal (pair a)); lia].
Qed.

Lemma with_header_none b a o : payload b = Some (a, o) -> with_header 0 b a o = b.
Proof.
  intros Hp. destruct b. cbn in Hp. subst. unfold with_header, set_tot_len, set_len, set_payload. cbn.
  f_equal; first [lia|apply f_equal, (f_equal (pair a)); lia].
Qed.

Lemma stripped_header b a o : stripped b a o = with_header (-20) b a (Z.of_nat o).
Proof.
  destruct b. unfold stripped, with_header, set_tot_len, set_len, set_payload. cbn.
  f_equal; first [lia|apply f_equal, (f_equal (pair a)); lia].
Qed.

(** The headers taken off have been put back. *)
Lemma label_back n dst b a o : payload b = Some (a, Z.of_nat o) ->
  with_header 14 (with_header 20 (stripped (with_header (-14) (labelled n dst b) a (Z.of_nat o)) a (o + 14)) a (Z.of_nat (o + 14 + 20)))
    a (Z.of_nat (o + 14)) = labelled n dst b.
Proof.
  intros Hp. rewrite stripped_header. replace (Z.of_nat (o + 14)) with (Z.of_nat o - (-14)) by lia. rewrite with_header_twice.
  replace (Z.of_nat (o + 14 + 20)) with (Z.of_nat o - (-20 + -14)) by lia. rewrite with_header_twice.
  replace (Z.of_nat o - -14) with (Z.of_nat o - (20 + (-20 + -14))) by lia. rewrite with_header_twice.
  apply with_header_none. by destruct (labelled_same n dst b) as (->&_).
Qed.

(** C33. A ping that arrives in a frame for the interface is answered with one
    frame, in the buffer it came in: its Ethernet header has the hardware address
    that ARP knows for the sender and the interface's own, its IP header the
    addresses exchanged, and its message is the request's with the type changed;
    both checksums are right.  Once the interface has taken it the buffer is
    freed, and nothing else has changed but ARP's guess for the next packet. *)
Theorem ping_answered {H} `{MemHeap H} `{!Transport H} linkoutput base nif np
    (s : lwip (net H)) p b a o bs dst hw tos id ttl src dest msg k e :
  frame_in s p b a o bs (eth_header dst hw ETHTYPE_IP ++ ping_packet tos id ttl src dest msg) ->
  length dst = 6%nat -> length hw = 6%nat -> is_byte tos -> is_word id -> is_byte ttl -> is_addr src -> is_addr dest ->
  (8 <= length msg)%nat -> slice 0 1 msg = [ICMP_ECHO] -> rfc1071 msg = [0; 0] ->
  ip4_input_netif (nif np) dest = true -> Z.land (netif_flags (nif np)) NETIF_FLAG_ETHARP <> 0 ->
  20 + Z.of_nat (length msg) <= mtu (nif np) -> length (hwaddr (nif np)) = 6%nat ->
  on_link (nif np) src -> knows (n_table (heap s)) k e src -> length (ethaddr e) = 6%nat ->
  0 <= n_cached (heap s) -> (Z.to_nat (n_cached (heap s)) < length (n_table (heap s)))%nat ->
  let pong := pong_frame nif np tos id ttl src dest msg e in
  length pong = length (eth_header dst hw ETHTYPE_IP ++ ping_packet tos id ttl src dest msg) /\
  rfc1071 (slice 14 20 pong) = [0; 0] /\ rfc1071 (drop 34 pong) = [0; 0] /\
  net_input linkoutput base nif np p s =
    let* (_, y) := linkoutput (nif np) p (view (set_pbufs (<[p := labelled (nif np) dst b]> (pbufs s)) s) a o bs pong) in
    let* (_, y) := pbuf_free (Some p) (set_heap (put_arp (n_table (heap s)) (Z.of_nat k) (heap y)) y) in
    Ok (ERR_OK, set_heap (put_ip (n_id (heap s)) no_packet (heap y)) y).
Proof.
  intros Hfr Hdst Hhw Htos Hid Httl Hsrc Hdest Hmsg Hecho Hsum Hus Hfl Hmtu Hmac Hpeer Hk Hpmac Hc0 Hc pong.
  destruct (net_input_up linkoutput base nif np s p b a o bs dst hw ETHTYPE_IP _ Hfr) as (Hfr1&Hin);
    [done|done|by vm_compute|done|done|].
  assert (Hlp : length (ping_packet tos id ttl src dest msg) = (20 + length msg)%nat) by (unfold ping_packet; rewrite length_app; done).
  assert (Hlf : length (eth_header dst hw ETHTYPE_IP ++ ping_packet tos id ttl src dest msg) = (34 + length msg)%nat)
    by (unfold eth_header; rewrite !length_app, Hdst, Hhw, Hlp; done).
  set (b1 := with_header (-14) _ _ _) in *. pose proof Hfr1 as [Hb1 Hcont1 Hnx1 Hpay1 Ha1 Hok1 Hlen1 Htot1 Hmax1 Hroom1 Hsl1].
  pose proof Hfr as [_ _ _ Hpay _ _ Hlen Htot Hmax _ _]. rewrite Hlf in Hlen. rewrite Hlp in Hlen1.
  split; [rewrite Hlf; unfold pong; by rewrite length_pong_frame|].
  assert (Hbm : bytes_ok msg).
  { assert (Hbp : bytes_ok (ping_packet tos id ttl src dest msg)) by (rewrite <- Hsl1; by apply Forall_take, Forall_drop).
    by apply Forall_app in Hbp as [_ ?]. }
  destruct (pong_sums nif np tos id ttl src dest msg e) as [Hs1 Hs2]; [done || lia..|]. split; [done|]. split; [done|].
  assert (Hup := ping_up linkoutput base nif np tos id ttl src dest msg k e Htos Hid Httl Hsrc Hdest Hmsg Hecho Hsum Hus Hmtu Hpeer Hmac Hpmac
    (set_pbufs (<[p := b1]> (pbufs s)) s) p b1 a (o + 14) bs Hfr1 ltac:(lia) ltac:(lia) Hk Hc0 Hc). cbv zeta in Hup.
  set (b' := with_header 14 _ _ _) in Hup.
  assert (b' = labelled (nif np) dst b) as Hb'.
  { by apply label_back. }
  rewrite Hb' in Hup.
  rewrite Hin. change (ETHTYPE_IP =? ETHTYPE_IP) with true. cbv zeta iota. rewrite Hup. cbn [pbufs set_pbufs heap].
  replace (set_pbufs _ (set_pbufs (<[p := b1]> (pbufs s)) s)) with (set_pbufs (<[p := labelled (nif np) dst b]> (pbufs s)) s)
    by (unfold set_pbufs; cbn; by rewrite insert_insert_eq).
  replace (o + 14 - 14)%nat with o by lia. fold pong.
  clear Hin Hup. match goal with |- context [linkoutput ?n ?q ?x] => destruct (linkoutput n q x) as [[r y]|] end; [|done].
  cbn [rbind]. by destruct (pbuf_free _ _) as [[c y']|].
Qed.

(** ** The witness *)

#[export] Instance no_transport : Transport unit := {|
  t_frag p i dest s := Ok (ERR_OK, s);
  t_reass p s := Ok (None, s);
  t_udp p i s := Ok s;
  t_tcp p i s := Ok s
|}.

(** 10.0.0.2 pings 10.0.0.1; ARP knows both. *)
Definition ping_nif (_ : Z) : netif := mk_netif 1500 [2; 0; 0; 0; 0; 1] 6 15 (101, 48) 0 0x0100000a 0x00ffffff 0.
Definition peer_entry : etharp_entry :=
  mk_etharp_entry None 0x0200000a (Some 0) [2; 0; 0; 0; 0; 2] 3 ETHARP_STATE_STABLE.
Definition no_entry : etharp_entry := mk_etharp_entry None 0 None ethzero 0 ETHARP_STATE_EMPTY.
Definition ping_in : list Z :=
  eth_header [2; 0; 0; 0; 0; 1] [2; 0; 0; 0; 0; 2] ETHTYPE_IP ++ ping_packet 0 1 64 0x0200000a 0x0100000a ping.
Definition ping_buf : pbuf := mk_pbuf None (Some (1, Z.of_nat 0)) 42 42 0x82 0 1 0.
Definition ping_state : lwip (net unit) :=
  mk_lwip {[1 := ping_buf]} {[1 := ping_in ++ replicate 18 0]} None None false []
    (mk_net tt (no_entry :: peer_entry :: replicate 8 no_entry) 0 7 no_packet).

Lemma ping_answered_witness :
  exists y, net_input (fun _ _ s => Ok (ERR_OK, s)) at_zero ping_nif 0 1 ping_state = Ok (ERR_OK, y) /\
    tab_pool y = Some 1 /\ n_cached (heap y) = 1 /\
    slice 0 14 (areas y !!! 1) = [2; 0; 0; 0; 0; 2; 2; 0; 0; 0; 0; 1; 8; 0] /\
    slice 26 16 (areas y !!! 1) = [10; 0; 0; 1; 10; 0; 0; 2; 0; 0; 0xed; 0xca; 0x12; 0x34; 0; 1].
Proof.
  destruct (ping_answered (fun _ _ s => Ok (ERR_OK, s)) at_zero ping_nif 0 ping_state 1 ping_buf 1 0 (ping_in ++ replicate 18 0)
              [2; 0; 0; 0; 0; 1] [2; 0; 0; 0; 0; 2] 0 1 64 0x0200000a 0x0100000a ping 1 peer_entry)
    as (_&_&_&Hrun); try reflexivity; try (unfold is_byte, is_word, is_addr; lia); try (cbn; lia).
  - split; first [reflexivity|vm_compute; lia|vm_compute; congruence|vm_compute; repeat constructor; congruence].
  - vm_compute. congruence.
  - split; [reflexivity|]. split; [reflexivity|left; reflexivity].
  - split; [reflexivity..|done|]. intros [|[|j]] ej Hj Hs _; [injection Hj as <-; discriminate Hs|done|].
    apply (lookup_replicate_1 8 no_entry ej j) in Hj as [-> _]. discriminate Hs.
  - rewrite Hrun. eexists. split; [vm_compute; reflexivity|]. split_and!; vm_compute; reflexivity.
Defined.
