(* ===== verification/Below.v ===== *)
(** * What the layers above IP rely on

    Reassembly, ICMP and UDP hold packets while other packets go down the stack.
    The class [OutputLaws] says what they may rely on: they keep the references
    they hold, and what they know of a packet ([PbufOwn.owned]) stays true.  Lemmas
    for the functions of [pbuf.c] these layers call, and what ICMP needs to send a
    message. *)

From stdpp Require Import base numbers decidable gmap gmultiset list.
From Stdlib Require Import ZArith Lia Bool.
From S2P Require Import Prelude Linked LwipMem Pbuf PbufChain PbufPool PbufProps InetChksum InetChksumProps PbufView Ip4Addr Ethernet Ip4 Icmp EtharpOps PbufOwn.
Open Scope Z_scope.

(** [below K r t]: in the memory [t] the references [r] are ours, the packets [K]
    hold what is known of them, and nobody else has a reference to one of these.
    Sending, in one piece or in fragments, keeps this and changes nothing else of
    ours, if there is room for further references. *)
Class OutputLaws (X H : Type) `{MemHeap H} `{!Neighbours X H} : Type := {
  below : gmap Z (Z * list (list Z)) -> gmultiset Z -> lwip H -> Prop;
  below_owned : forall K r t, below K r t -> exists (HL : HeapLaws H) e, owned K (e ⊎ r) t /\
    forall p, is_Some (K !! p) -> p ∉ e;
  below_change : forall K K' r r' t t', below K r t ->
    (forall (HL : HeapLaws H) e, owned K (e ⊎ r) t -> (forall p, is_Some (K !! p) -> p ∉ e) ->
       owned K' (e ⊎ r') t' /\ forall p, is_Some (K' !! p) -> p ∉ e) -> below K' r' t';
  below_output : forall K r np p dest s, below K r (stack s) -> lent p r -> K !! p = None ->
    exists e t, netif_output np p dest s = Ok (e, set_stack t s) /\ below K r t;
  below_frag : forall K r np p dest s, below K r (stack s) -> lent p r -> K !! p = None ->
    exists e t, ip4_frag p np dest s = Ok (e, set_stack t s) /\ below K r t
}.

Section below.
Context {X H : Type} `{OutputLaws X H}.
Implicit Types (t : lwip H) (s : ip4 X H) (r : gmultiset Z) (K : gmap Z (Z * list (list Z))).

Lemma comm3 (e r : gmultiset Z) (p : Z) : e ⊎ ({[+ p +]} ⊎ r) = {[+ p +]} ⊎ (e ⊎ r).
Proof. multiset_solver. Qed.

(** ** Known packets *)

Lemma below_in K r t p : below K r t -> is_Some (K !! p) -> p ∈ r.
Proof.
  intros Hb HK. destruct (below_owned K r t Hb) as (HL&e&Ho&He). pose proof (owned_kept K _ t p Ho HK). specialize (He p HK). multiset_solver.
Qed.

Lemma below_head K r t p : below K r t -> p ∈ r -> exists b, pbufs t !! p = Some b /\ is_ptr p.
Proof.
  intros Hb Hp. destruct (below_owned K r t Hb) as (HL&e&Ho&He).
  destruct (owned_live K _ t p Ho ltac:(multiset_solver)) as (b&l&[_ Hk _ _ _]&Hbp). exists b. split; [done|].
  by destruct (Hk p b ltac:(set_solver) Hbp).
Qed.

Lemma kept_head K r t p o c cs : below K r t -> K !! p = Some (o, c :: cs) -> exists b bs, pbufs t !! p = Some b /\
  payload b = Some (p, o) /\ areas t !! p = Some bs /\ 0 <= o /\ o + len b <= Z.of_nat (length bs) /\
  len b = Z.of_nat (length c) /\ tot_len b = Z.of_nat (length (concat (c :: cs))) /\ tot_len b < 65536 /\ bytes_at bs o (len b) = c.
Proof.
  intros Hb HK. destruct (below_owned K r t Hb) as (HL&e&Ho&He).
  destruct (own_contents K _ t p _ _ Ho HK) as (b&l&c'&cs'&bs&[= <- <-]&Hbp&_&Hpay&Ha&Ho0&Hl&Hc&Hlen&Htot&Hmax&_).
  exists b, bs. by split_and!.
Qed.

Lemma kept_deref K r t p o c cs : below K r t -> K !! p = Some (o, c :: cs) -> exists b, deref t p = Ok b /\ payload b = Some (p, o).
Proof. intros Hb HK. destruct (kept_head K r t p o c cs Hb HK) as (b&_&Hbp&Hpay&_). exists b. by rewrite (deref_ok _ _ _ Hbp). Qed.

Lemma kept_ld_bytes K r t p o c cs off n : below K r t -> K !! p = Some (o, c :: cs) ->
  0 <= off -> 0 <= n -> off + n <= Z.of_nat (length c) -> ld_bytes t (Some (p, o)) off n = Ok (bytes_at c off n).
Proof.
  intros Hb HK Hoff Hn Hle. destruct (kept_deref K r t p o c cs Hb HK) as (b&Hbp&<-). destruct (below_owned K r t Hb) as (HL&e&Ho&He).
  destruct (own_ld K _ t p o c cs off n Ho HK Hoff Hn Hle) as (b'&Hd&Hld). rewrite Hbp in Hd. by injection Hd as ->.
Qed.

Lemma kept_ld K r t p o c cs off n : below K r t -> K !! p = Some (o, c :: cs) ->
  0 <= off -> 0 <= n -> off + n <= Z.of_nat (length c) -> ld t (Some (p, o)) off n = Ok (le_val (bytes_at c off n)).
Proof. intros. unfold ld. by rewrite (kept_ld_bytes K r t p o c cs). Qed.

Lemma kept_st K r t p o c cs off v : below K r t -> K !! p = Some (o, c :: cs) ->
  0 <= off -> off + Z.of_nat (length v) <= Z.of_nat (length c) ->
  exists t', st_bytes t (Some (p, o)) off v = Ok t' /\ pbufs t' = pbufs t /\ below (<[p := (o, splice (Z.to_nat off) v c :: cs)]> K) r t'.
Proof.
  intros Hb HK Hoff Hle. destruct (kept_deref K r t p o c cs Hb HK) as (b&Hbp&<-). destruct (below_owned K r t Hb) as (HL&e&Ho&He).
  destruct (own_st K _ t p _ c cs off v Ho HK Hoff Hle) as (b'&t'&Hd&Hst&Hpb&_).
  rewrite Hbp in Hd. injection Hd as <-. exists t'. split; [done|]. split; [done|].
  apply (below_change K _ r _ t); [done|]. intros HL' e' Ho' He'.
  destruct (own_st K _ t p _ c cs off v Ho' HK Hoff Hle) as (b'&t2&Hd'&Hst'&_&Ho2). rewrite Hbp in Hd'. injection Hd' as <-.
  rewrite Hst in Hst'. injection Hst' as <-. split; [done|]. intros q Hq. apply He'.
  destruct (decide (q = p)) as [->|]; [by eexists|]. by rewrite lookup_insert_ne in Hq.
Qed.

Lemma kept_clen K r t p o cs : below K r t -> K !! p = Some (o, cs) -> Z.of_nat (length cs) < 65536 ->
  pbuf_clen (Some p) t = Ok (Z.of_nat (length cs)).
Proof. intros Hb HK Hm. destruct (below_owned K r t Hb) as (HL&e&Ho&He). by apply (own_clen K (e ⊎ r) _ _ o). Qed.

Lemma kept_remove_header K r t p o c cs n : below K r t -> K !! p = Some (o, c :: cs) -> 0 < n <= Z.of_nat (length c) ->
  exists t', pbuf_remove_header (Some p) n t = Ok (0, t') /\ areas t' = areas t /\
    below (<[p := (o + n, drop (Z.to_nat n) c :: cs)]> K) r t'.
Proof.
  intros Hb HK Hn. destruct (below_owned K r t Hb) as (HL&e&Ho&He).
  destruct (own_remove_header K _ t p o c cs n Ho HK Hn) as (t'&Hrun&Ha&_). exists t'. split; [done|]. split; [done|].
  apply (below_change K _ r _ t); [done|]. intros HL' e' Ho' He'.
  destruct (own_remove_header K _ t p o c cs n Ho' HK Hn) as (t2&Hrun'&_&Ho2). rewrite Hrun in Hrun'. injection Hrun' as <-.
  split; [done|]. intros q Hq. apply He'. destruct (decide (q = p)) as [->|]; [by eexists|]. by rewrite lookup_insert_ne in Hq.
Qed.

Lemma kept_cat K r h q oh oq ch cq t : below K ({[+ h +]} ⊎ ({[+ q +]} ⊎ r)) t -> h <> q -> q ∉ r ->
  K !! h = Some (oh, ch) -> K !! q = Some (oq, cq) -> Z.of_nat (length (concat (ch ++ cq))) < 65536 ->
  exists t', pbuf_cat (Some h) (Some q) t = Ok t' /\ areas t' = areas t /\
    below (<[h := (oh, ch ++ cq)]> (delete q K)) ({[+ h +]} ⊎ r) t'.
Proof.
  intros Hb Hne Hqr HKh HKq Hlen.
  assert (Hone : forall (HL : HeapLaws H) e, owned K (e ⊎ ({[+ h +]} ⊎ ({[+ q +]} ⊎ r))) t -> (forall p, is_Some (K !! p) -> p ∉ e) ->
    exists t', pbuf_cat (Some h) (Some q) t = Ok t' /\ areas t' = areas t /\ owned (<[h := (oh, ch ++ cq)]> (delete q K)) (e ⊎ ({[+ h +]} ⊎ r)) t').
  { intros HL e Ho He. destruct (own_cat K (e ⊎ r) h q oh oq ch cq t) as (t'&?&?&Ho'); try done.
    - by rewrite comm3, (comm3 e r q) in Ho.
    - specialize (He q ltac:(by eexists)). multiset_solver.
    - exists t'. split_and!; try done. by rewrite comm3. }
  destruct (below_owned K _ t Hb) as (HL&e&Ho&He). destruct (Hone HL e Ho He) as (t'&Hrun&Ha&_). exists t'. split; [done|]. split; [done|].
  apply (below_change K _ ({[+ h +]} ⊎ ({[+ q +]} ⊎ r)) _ t); [done|]. intros HL' e' Ho' He'. destruct (Hone HL' e' Ho' He') as (t2&Hrun'&_&Ho2).
  rewrite Hrun in Hrun'. injection Hrun' as <-. split; [done|]. intros x Hx. apply He'.
  destruct (decide (x = h)) as [->|]; [by eexists|]. rewrite lookup_insert_ne in Hx by done.
  destruct Hx as [? [? Hx]%lookup_delete_Some]. by eexists.
Qed.

(** What a packet holds becomes known when nobody else has it, or is forgotten. *)
Lemma below_keep K r t p b o l cs : below K r t -> p ∈ r -> pbufs t !! p = Some b -> ref b = 1 -> payload b = Some (p, o) -> packet t (Some p) l cs ->
  (forall q b, q ∈ l -> pbufs t !! q = Some b -> contiguous_pbuf b) -> below (<[p := (o, cs)]> K) r t.
Proof.
  intros Hb Hp Hbp Href Hpay Hpk Hc. apply (below_change K _ r _ t); [done|]. intros HL e Ho He.
  split; [apply (own_keep K _ t p b o l cs); [done|multiset_solver|done..]|]. intros q Hq. destruct (decide (q = p)) as [->|]; [|apply He; by rewrite lookup_insert_ne in Hq].
  destruct (owned_live K _ t p Ho ltac:(multiset_solver)) as (b'&l'&Hlive&Hb'). destruct (live_head _ _ _ _ _ Hlive) as (b2&_&_&Hb2&Hr2).
  assert (b2 = b) as -> by congruence. rewrite Href, multiplicity_disj_union in Hr2.
  pose proof (proj1 (elem_of_multiplicity p r) Hp). apply not_elem_of_multiplicity. lia.
Qed.

Lemma below_forget K r t p : below K r t -> p ∈ r -> below (delete p K) r t.
Proof.
  intros Hb Hp. apply (below_change K _ r _ t); [done|]. intros HL e Ho He. split; [apply own_forget; [done|multiset_solver]|].
  intros q [? [? Hq]%lookup_delete_Some]. apply He. by eexists.
Qed.

(** ** References *)

Lemma below_free K r t p : below K ({[+ p +]} ⊎ r) t -> K !! p = None ->
  exists n t', pbuf_free (Some p) t = Ok (n, t') /\ below K r t'.
Proof.
  intros Hb HK.
  assert (Hone : forall (HL : HeapLaws H) e, owned K (e ⊎ ({[+ p +]} ⊎ r)) t ->
    exists n t', pbuf_free (Some p) t = Ok (n, t') /\ owned K (e ⊎ r) t').
  { intros HL e Ho. rewrite comm3 in Ho. destruct (own_free K (e ⊎ r) p t Ho HK) as (t'&Hrun&Ho').
    destruct (pbuf_free (Some p) t) as [[n x]|]; [|done]. injection Hrun as ->. by exists n, t'. }
  destruct (below_owned K _ t Hb) as (HL&e&Ho&He). destruct (Hone HL e Ho) as (n&t'&Hrun&_). exists n, t'. split; [done|].
  apply (below_change K _ ({[+ p +]} ⊎ r) _ t); [done|]. intros HL' e' Ho' He'. destruct (Hone HL' e' Ho') as (n2&t2&Hrun'&Ho2).
  rewrite Hrun in Hrun'. injection Hrun' as <- <-. by split.
Qed.

(** The state with another memory. *)
Lemma drop_ok K r s p : below K ({[+ p +]} ⊎ r) (stack s) -> K !! p = None ->
  exists t, drop_packet p s = Ok (set_stack t s) /\ below K r t.
Proof.
  intros Hb HK. destruct (below_free K r (stack s) p Hb HK) as (n&t&Hrun&Ht). exists t. split; [|done].
  unfold drop_packet, on_stack_r. by rewrite Hrun.
Qed.

Lemma below_alloc K r t layer n : below K r t -> 0 <= n < 65536 ->
  exists o t', pbuf_alloc layer n PBUF_RAM t = Ok (o, t') /\
    match o with
    | Some p => below K ({[+ p +]} ⊎ r) t' /\ p ∉ r /\ K !! p = None /\
        pbufs t' = <[p := fresh p (LWIP_MEM_ALIGN_SIZE (layer_offset layer)) n]> (pbufs t) /\
        exists bs, areas t' = <[p := bs]> (areas t) /\ LWIP_MEM_ALIGN_SIZE (layer_offset layer) + n <= Z.of_nat (length bs)
    | None => below K r t' /\ pbufs t' = pbufs t /\ areas t' = areas t
    end.
Proof.
  intros Hb Hn. destruct (below_owned K r t Hb) as (HL&e&Ho&He).
  destruct (own_alloc K _ layer n t Ho Hn) as (o&t'&Hrun&Hres). exists o, t'. split; [done|]. destruct o as [p|].
  - destruct Hres as (Ho'&Hp&Hpb&Har). split.
    + apply (below_change K _ r _ t); [done|]. intros HL' e' Ho2 He'. destruct (own_alloc K _ layer n t Ho2 Hn) as (o&t2&Hrun'&Hres').
      rewrite Hrun in Hrun'. injection Hrun' as <- <-. destruct Hres' as (Ho3&_). rewrite comm3. by split.
    + split; [multiset_solver|]. split; [|done]. apply eq_None_not_Some. intros Hs. by apply Hp, (owned_kept K _ t).
  - destruct Hres as (Ho'&Hpb&Har). split; [|done]. apply (below_change K _ r _ t); [done|]. intros HL' e' Ho2 He'.
    destruct (own_alloc K _ layer n t Ho2 Hn) as (o&t2&Hrun'&Hres'). rewrite Hrun in Hrun'. injection Hrun' as <- <-.
    destruct Hres' as (Ho3&_). by split.
Qed.

(** Other bytes in one of our packets. *)
Lemma below_bytes K r t t' p : below K r t -> p ∈ r -> K !! p = None -> bytes_only p t t' -> below K r t'.
Proof.
  intros Hb Hp HK Hbo. apply (below_change K _ r _ t); [done|]. intros HL e Ho He. split; [|done].
  apply (owned_bytes K _ t _ p); try done. multiset_solver.
Qed.

Lemma below_add_header K r t p n : below K r t -> p ∈ r -> K !! p = None -> 0 < n < 65536 ->
  pbuf_add_header (Some p) n t = Ok (1, t) \/
  exists b o bs, pbufs t !! p = Some b /\ contiguous_pbuf b /\ payload b = Some (p, o) /\ areas t !! p = Some bs /\
    n <= o /\ 0 <= len b <= tot_len b /\ tot_len b + n < 65536 /\ o + len b <= Z.of_nat (length bs) /\
    pbuf_add_header (Some p) n t = Ok (0, set_pbufs (<[p := with_header n b p o]> (pbufs t)) t) /\
    below K r (set_pbufs (<[p := with_header n b p o]> (pbufs t)) t).
Proof.
  intros Hb Hp HK Hn. destruct (below_owned K r t Hb) as (HL&e&Ho&He).
  destruct (own_add_header K _ p n t Ho ltac:(multiset_solver) HK Hn) as [->|(b&o&bs&Hbp&Hc&Hpay&Ha&Hno&Hlb&Ht&Hle&Hrun&_)]; [by left|].
  right. exists b, o, bs. split_and!; try done; try lia. apply (below_change K _ r _ t); [done|]. intros HL' e' Ho' He'.
  destruct (own_add_header K _ p n t Ho' ltac:(multiset_solver) HK Hn) as [Hx|(b'&o'&bs'&Hbp'&_&Hpay'&_&_&_&_&_&_&Ho2)].
  - rewrite Hrun in Hx. injection Hx as Hx _. done.
  - assert (b' = b) as -> by congruence. assert (o' = o) as -> by congruence. by split.
Qed.

(** ** Sending a packet with an IP header *)

Lemma st_step K r t p o bs off v : below K r t -> p ∈ r -> K !! p = None -> areas t !! p = Some bs -> 0 <= o + off ->
  o + off + Z.of_nat (length v) <= Z.of_nat (length bs) ->
  exists t' bs', st_bytes t (Some (p, o)) off v = Ok t' /\ below K r t' /\ pbufs t' = pbufs t /\ areas t' !! p = Some bs' /\
    length bs' = length bs /\ forall a, a <> p -> areas t' !! a = areas t !! a.
Proof.
  intros Hb Hp HK Ha Ho Hl. destruct (st_like t off v p o bs Ha Ho Hl) as (Hst&Hbo). eexists _, _. split; [done|].
  split; [by apply (below_bytes K r t _ p)|]. split; [done|]. split; [cbn; apply lookup_insert_eq|]. split; [apply length_splice; lia|].
  intros a Hne. cbn. by rewrite lookup_insert_ne.
Qed.
End below.
