(* ===== verification/BelowIcmp.v ===== *)
(** * Sending from the layers above

    The functions of [ip4.c] and [icmp.c] that reassembly and UDP call return and
    keep what these layers hold, whatever the bytes of the packets are: the
    checksums end, the IP header fits, the error messages are made and sent. *)

From stdpp Require Import base numbers decidable gmap gmultiset list.
From Stdlib Require Import ZArith Lia Bool.
From S2P Require Import Prelude Linked LwipMem Pbuf PbufChain PbufPool PbufProps InetChksum InetChksumProps PbufView Ip4Addr Ethernet Ip4 Icmp EtharpOps PbufOwn Below.
Open Scope Z_scope.

(** ** Checksums of any bytes *)

Section total.
Context {H : Type} (base : Z -> Z).
Implicit Types (t : lwip H).

(** [n] bytes can be read at [o] in the area [a]. *)
Definition span t (a o n : Z) : Prop := exists bs, areas t !! a = Some bs /\ 0 <= o /\ o + n <= Z.of_nat (length bs).

Lemma span_ld_bytes t a o n off k : span t a o n -> 0 <= off -> 0 <= k -> off + k <= n ->
  exists v, ld_bytes t (Some (a, o)) off k = Ok v /\ Z.of_nat (length v) = k.
Proof.
  intros (bs&Ha&Ho&Hl) Hoff Hk Hle. unfold ld_bytes, area. cbn [not_null rbind]. rewrite Ha. cbn [rbind].
  rewrite (proj2 (in_range_spec _ _ _)) by lia. eexists. split; [reflexivity|]. rewrite length_bytes_at; lia.
Qed.

Lemma span_ld t a o n off k : span t a o n -> 0 <= off -> 0 <= k -> off + k <= n ->
  exists v, ld t (Some (a, o)) off k = Ok v.
Proof. intros Hs Ho Hk Hl. unfold ld. destruct (span_ld_bytes t a o n off k Hs Ho Hk Hl) as (v&->&_). by eexists. Qed.

Lemma bulk_total t a o n pb ln : span t a o n -> 0 <= pb -> 0 <= ln -> pb + ln <= n ->
  exists ps l sum, bulk_loop t (Some (a, o)) pb ln = Ok (ps, l, sum) /\ 0 <= ps /\ ps + l = pb + ln /\ l <= 1 /\ 0 <= l.
Proof.
  intros Hs Hpb Hln Hle. unfold bulk_loop.
  set (I := (fun x => let '(ps, l, _) := x in 0 <= ps /\ 0 <= l /\ ps + l = pb + ln) : Z * Z * Z -> Prop).
  destruct (while_total (S := Z * Z * Z) I (fun '(_, l, _) => Z.to_nat l) (fun '(ps, l, sum) => 1 <? l)
    (fun '(ps, l, sum) => let* w := ld t (Some (a, o)) ps 2 in Ok (ps + 2, l - 2, wrap32 (sum + w)))
    (S (Z.to_nat ln)) (pb, ln, 0)) as ([[ps l] sum]&Hrun&(H1&H2&H3)&Hend).
  - unfold I. lia.
  - lia.
  - intros [[ps l] sum] (H1&H2&H3) Hgo%Z.ltb_lt. destruct (span_ld t a o n ps 2 Hs) as (w&->); [lia..|]. cbn [rbind].
    eexists. split; [reflexivity|]. unfold I. split; lia.
  - exists ps, l, sum. apply Z.ltb_ge in Hend. split; [exact Hrun|]. lia.
Qed.

Lemma standard_chksum_total t a o n : span t a o n -> 0 <= n -> exists v, lwip_standard_chksum base t (Some (a, o)) n = Ok v.
Proof.
  intros Hs Hn. unfold lwip_standard_chksum. set (odd := negb _ && (0 <? n)).
  assert (Hfirst : exists pb w, (if odd then let* b := ld t (Some (a, o)) 0 1 in Ok (1, <[1%nat := b]> [0; 0], n - 1) else Ok (0, [0; 0], n)) =
    Ok (pb, w, n - pb) /\ 0 <= pb <= n).
  { destruct odd eqn:Ho.
    - unfold odd in Ho. apply andb_true_iff in Ho as [_ Hlt%Z.ltb_lt]. destruct (span_ld t a o n 0 1 Hs) as (v&->); [lia..|]. cbn [rbind].
      eexists 1, _. split; [reflexivity|]. lia.
    - eexists 0, _. rewrite Z.sub_0_r. split; [reflexivity|]. lia. }
  destruct Hfirst as (pb&w&->&Hpb). cbn [rbind].
  destruct (bulk_total t a o n pb (n - pb) Hs) as (ps&l&sum&->&Hps&Hsum&Hl1&Hl0); [lia..|]. cbn [rbind].
  destruct (Z.ltb_spec 0 l); [|by eexists]. destruct (span_ld t a o n ps 1 Hs) as (v&->); [lia..|]. cbn [rbind]. by eexists.
Qed.

Lemma inet_chksum_total t a o n : span t a o n -> 0 <= n -> exists v, inet_chksum base t (Some (a, o)) n = Ok v.
Proof. intros Hs Hn. unfold inet_chksum. destruct (standard_chksum_total t a o n Hs Hn) as (v&->). by eexists. Qed.

Lemma holds_span t b c : holds t b c -> len b = Z.of_nat (length c) -> exists a o, payload b = Some (a, o) /\ span t a o (len b).
Proof. intros (a&o&bs&Hp&Ha&Ho&Hl&_) _. exists a, o. split; [done|]. by exists bs. Qed.

Lemma chksum_loop_total fuel t o l cs acc sw : packet t o l cs -> (length l < fuel)%nat ->
  exists r, chksum_loop base fuel t o acc sw = Ok r.
Proof.
  revert o l cs acc sw. induction fuel as [|fuel IH]; intros o l cs acc sw Hp Hf; [lia|]. cbn [chksum_loop].
  destruct l as [|p l], cs as [|c cs]; try done; [cbn in Hp; subst o; by eexists|].
  destruct Hp as [-> (b&Hb&Hlen&_&_&Hh&Hp)]. rewrite (deref_ok _ _ _ Hb). cbn [rbind]. unfold chksum_round.
  destruct (holds_span t b c Hh Hlen) as (a&o&->&Hs). destruct (standard_chksum_total t a o (len b) Hs ltac:(lia)) as (v&->). cbn [rbind].
  cbn in Hf. destruct (negb _); cbn [rbind]; apply (IH _ l cs); (done || lia).
Qed.

Lemma pbuf_chksum_total t p l cs : packet t (Some p) l cs -> exists v, inet_chksum_pbuf base t (Some p) = Ok v.
Proof.
  intros Hp. unfold inet_chksum_pbuf. destruct (chksum_loop_total (chain_fuel t) t (Some p) l cs 0 false Hp) as ([acc sw]&->).
  - by eapply packet_fuel.
  - cbn [rbind]. by eexists.
Qed.

Lemma pseudo_chksum_total t p l cs proto ln src dest : packet t (Some p) l cs ->
  exists v, ip_chksum_pseudo base t (Some p) proto ln src dest = Ok v.
Proof.
  intros Hp. unfold ip_chksum_pseudo, inet_chksum_pseudo, inet_cksum_pseudo_base.
  destruct (chksum_loop_total (chain_fuel t) t (Some p) l cs (addr_sum src dest) false Hp) as ([acc sw]&->).
  - by eapply packet_fuel.
  - cbn [rbind]. by eexists.
Qed.
End total.

Section send.
Context {X H : Type} `{OutputLaws X H}.
Context (base : Z -> Z) (nif : Z -> netif) (netif_default : option Z).
Implicit Types (t : lwip H) (s : ip4 X H) (r : gmultiset Z) (K : gmap Z (Z * list (list Z))).

(** ** Headers *)

(** Our variables and the structures of the packets are as in [s]. *)
Definition same_vars s s' : Prop := ip_data s' = ip_data s /\ around s' = around s.

#[export] Instance same_vars_preorder : PreOrder same_vars.
Proof. split; [done|]. intros x y z [? ?] [? ?]. split; congruence. Qed.

(** Since [s] the [n] bytes at [o] behind [p] are being written. *)
Record writing K r p o n s s' : Prop := {
  wr_below : below K r (stack s');
  wr_pbufs : pbufs (stack s') = pbufs (stack s);
  wr_span : span (stack s') p o n;
  wr_other : forall a, a <> p -> areas (stack s') !! a = areas (stack s) !! a;
  wr_vars : same_vars s s'
}.

Lemma write_step K r p o n s s' off v : writing K r p o n s s' -> p ∈ r -> K !! p = None -> 0 <= off ->
  off + Z.of_nat (length v) <= n ->
  exists s'', on_stack (fun x => st_bytes x (Some (p, o)) off v) s' = Ok s'' /\ writing K r p o n s s'' /\ ip_id s'' = ip_id s'.
Proof.
  intros [Hb Hpb (bs&Ha&Ho&Hl) Hot Hv] Hp HK Hoff Hle.
  destruct (st_step K r (stack s') p o bs off v Hb Hp HK Ha) as (t'&bs'&Hst&Hb'&Hpb'&Ha'&Hlb&Hoth); [lia|lia|].
  unfold on_stack. rewrite Hst. cbn [rbind]. eexists. split; [reflexivity|]. split; [|done]. split; cbn; try done; [congruence| |].
  - exists bs'. split_and!; try done. lia.
  - intros a Hne. by rewrite Hoth, Hot.
Qed.

Lemma write_id K r p o n s s' i : writing K r p o n s s' -> writing K r p o n s (set_ip_id i s').
Proof. intros [Hb Hpb Hs Hot Hv]. by split. Qed.

(** Perform the next write of the goal. *)
Ltac step_write :=
  match goal with
  | Hw : writing ?K ?r ?p ?o ?n ?s ?s0 |- context [on_stack (fun x => st_bytes x (Some (?p, ?o)) ?off ?v) ?s0] =>
      let s1 := fresh "s" in let Hw1 := fresh "Hw" in let Hid := fresh "Hid" in
      destruct (write_step K r p o n s s0 off v Hw) as (s1&->&Hw1&Hid);
      [assumption|assumption|lia|rewrite ?length_le_bytes; cbn [length]; lia|]; clear Hw; cbn [rbind]
  end.

Lemma write_header_total K r p b o s src dest ttl tos proto : below K r (stack s) -> p ∈ r -> K !! p = None ->
  pbufs (stack s) !! p = Some b -> payload b = Some (p, o) -> span (stack s) p o 20 ->
  exists s', write_header p src dest ttl tos proto s = Ok s' /\ writing K r p o 20 s s'.
Proof.
  intros Hb Hp HK Hbp Hpay Hs. unfold write_header. rewrite (deref_ok _ _ _ Hbp). cbn [rbind]. rewrite Hpay.
  assert (Hw : writing K r p o 20 s s) by (by split). do 8 step_write.
  match goal with |- context [set_ip_id ?i ?s0] => match goal with Hw : writing _ _ _ _ _ _ s0 |- _ => apply (write_id _ _ _ _ _ _ _ i) in Hw end end.
  step_write.
  match goal with Hw : writing _ _ _ _ _ _ ?s0 |- exists s', on_stack (fun x => st_bytes x _ ?off ?v) ?s0 = _ /\ _ =>
    destruct (write_step K r p o 20 s s0 off v Hw) as (s9&->&Hw9&_); [done|done|lia|rewrite length_le_bytes; lia|] end.
  by exists s9.
Qed.

(** ** [ip4_output_if] *)

Lemma transmit_total K r p np dest s : below K r (stack s) -> lent p r -> K !! p = None ->
  exists e s', (let* b := deref (stack s) p in
                if negb (mtu (nif np) =? 0) && (mtu (nif np) <? tot_len b)
                then ip4_frag p np dest s else netif_output np p dest s) = Ok (e, s') /\
    below K r (stack s') /\ same_vars s s'.
Proof.
  intros Hb Hp HK. destruct (below_head K r _ p Hb (proj1 Hp)) as (b&Hbp&_). rewrite (deref_ok _ _ _ Hbp). cbn [rbind].
  destruct (_ && _).
  - destruct (below_frag K r np p dest s Hb Hp HK) as (e&t&->&Ht). by exists e, (set_stack t s).
  - destruct (below_output K r np p dest s Hb Hp HK) as (e&t&->&Ht). by exists e, (set_stack t s).
Qed.

Lemma output_if_total K r p src dest ttl tos proto np s : below K r (stack s) -> lent p r -> K !! p = None ->
  exists e s', ip4_output_if nif p src dest ttl tos proto np s = Ok (e, s') /\ below K r (stack s') /\ same_vars s s'.
Proof.
  intros Hb Hlent HK. pose proof (proj1 Hlent) as Hp. unfold ip4_output_if. generalize (match dest with Some _ => if isany_ptr src then Some (ip_addr (nif np)) else src | None => src end). intros src'.
  unfold ip4_output_if_src.
  destruct dest as [dest|].
  - unfold on_stack_r at 1.
    destruct (below_add_header K r (stack s) p 20 Hb Hp HK) as [Hx|(b&o&bs&Hbp&Hc&Hpay&Ha&Ho&Hlb&Htl&Hle&Hx&Hb1)]; [lia| |];
      unfold IP_HLEN; rewrite Hx; cbn [rbind].
    + change (negb (1 =? 0)) with true. cbn [rbind]. eexists _, _. split; [reflexivity|]. cbn. by destruct s.
    + change (negb (0 =? 0)) with false. cbv iota. set (t1 := set_pbufs _ _) in *.
      destruct (write_header_total K r p (with_header 20 b p o) (o - 20) (set_stack t1 s) src' dest ttl tos proto) as (s1&->&[Hb2 Hpb2 _ _ Hv2]);
        try done; [apply lookup_insert_eq|exists bs; split; [done|lia]|]. cbn [rbind].
      destruct (transmit_total K r p np dest s1 Hb2 Hlent HK) as (e&s2&->&Hb3&Hv3). exists e, s2. split; [done|]. split; [done|].
      by etrans.
  - destruct (below_head K r _ p Hb Hp) as (b&Hbp&_). rewrite (deref_ok _ _ _ Hbp). cbn [rbind].
    destruct (Z.ltb_spec (len b) IP_HLEN) as [|Hlen]; cbn [rbind]; [by eexists _, s|].
    assert (Hs : exists v, ld (stack s) (payload b) 16 4 = Ok v).
    { destruct (below_owned K r _ Hb) as (HL&e&Ho&_). destruct (owned_live K _ _ p Ho ltac:(multiset_solver)) as (b'&l&[(cs&Hpk&_) _ _ _ _]&Hb').
      destruct cs as [|c cs]; [done|]. destruct Hpk as [_ (b0&Hb0&Hl0&_&_&Hh&_)]. assert (b0 = b) as -> by congruence.
      destruct (holds_span _ b c Hh Hl0) as (a&o&->&Hsp). unfold IP_HLEN in Hlen. apply (span_ld _ a o (len b)); (done || lia). }
    destruct Hs as (v&->). cbn [rbind]. by apply transmit_total.
Qed.

(** ** Error messages *)

Lemma below_copy K r t q bq o bs p n off : below K r t -> q ∈ r -> K !! q = None -> p ∈ r ->
  pbufs t !! q = Some bq -> payload bq = Some (q, o) -> areas t !! q = Some bs -> 0 <= o ->
  o + len bq <= Z.of_nat (length bs) -> next bq = None -> tot_len bq = len bq -> len bq < 65536 ->
  0 <= n -> 0 <= off -> off + n <= len bq ->
  exists e t', pbuf_copy_partial_pbuf (Some q) (Some p) n off t = Ok (e, t') /\ below K r t' /\ bytes_only q t t'.
Proof.
  intros Hb Hq HK Hp Hbq Hpay Ha Ho Hl Hn Htl Hmax Hn0 Hoff Hfit. destruct (below_owned K r t Hb) as (HL&e&Hown&He).
  destruct (own_copy K _ q bq o bs p n off t Hown) as (err&t'&Hrun&_&Hbo); try done; [multiset_solver..|].
  exists err, t'. split; [done|]. split; [|done]. by apply (below_bytes K r t _ q).
Qed.

(** The packet that is answered has an IP header. *)
Definition has_header t (p : Z) : Prop := exists b o, pbufs t !! p = Some b /\ payload b = Some (p, o) /\ span t p o 20 /\
  0 <= tot_len b.

Lemma send_response_total K r p type code s : below K r (stack s) -> p ∈ r -> has_header (stack s) p ->
  exists s', icmp_send_response base nif netif_default p type code s = Ok s' /\ below K r (stack s') /\ same_vars s s'.
Proof.
  intros Hb Hp (b&o&Hbp&Hpay&Hsp&Htl). unfold icmp_send_response. rewrite (deref_ok _ _ _ Hbp). cbn [rbind].
  change (IP_HLEN + ICMP_DEST_UNREACH_DATASIZE) with 28. set (n := if tot_len b <? 28 then tot_len b else 28).
  assert (Hn : 0 <= n <= 28) by (unfold n; destruct (Z.ltb_spec (tot_len b) 28); lia). clearbody n. unfold on_stack_r at 1.
  destruct (below_alloc K r (stack s) PBUF_IP (SIZEOF_ICMP_HDR + n) Hb) as (q&t1&->&Hq); [unfold SIZEOF_ICMP_HDR; lia|]. cbn [rbind].
  destruct q as [q|]; [|destruct Hq as (Hb1&_); by exists (set_stack t1 s)].
  destruct Hq as (Hb1&Hqr&HKq&Hpb1&bs&Ha1&Hle). change (LWIP_MEM_ALIGN_SIZE (layer_offset PBUF_IP)) with 36 in *.
  unfold SIZEOF_ICMP_HDR in *. assert (Hqp : q <> p) by (by intros ->). assert (Hq1 : q ∈ {[+ q +]} ⊎ r) by multiset_solver.
  assert (Hq2 : lent q ({[+ q +]} ⊎ r)) by (split; [done|rewrite mult_same, (proj1 (not_elem_of_multiplicity q r) Hqr); lia]).
  assert (Hbq : pbufs t1 !! q = Some (fresh q 36 (8 + n))) by (rewrite Hpb1; apply lookup_insert_eq).
  rewrite (deref_ok (stack (set_stack t1 s)) q _ Hbq). cbn [rbind payload fresh].
  assert (Hw : writing K ({[+ q +]} ⊎ r) q 36 (8 + n) (set_stack t1 s) (set_stack t1 s)).
  { split; try done. exists bs. cbn. rewrite Ha1, lookup_insert_eq. split; [done|]. lia. }
  do 3 step_write. match goal with Hw : writing _ _ _ _ _ _ ?x |- _ => rename x into s3; rename Hw into Hw3 end.
  destruct Hw3 as [Hb3 Hpb3 (bs3&Ha3&_&Hl3) Hot3 Hv3]. cbn [stack set_stack] in Hpb3, Hot3. unfold on_stack_r at 1.
  destruct (below_copy K _ (stack s3) q (fresh q 36 (8 + n)) 36 bs3 p n 8 Hb3) as (e4&t4&->&Hb4&Hpb4&[Hot4 Hla4]&_); try done; try (cbn; lia);
    [multiset_solver|by rewrite Hpb3|]. cbn [rbind stack set_stack].
  assert (Hsrc : exists v, ld t4 (payload b) 12 4 = Ok v).
  { rewrite Hpay. apply (span_ld t4 p o 20); [|lia..]. destruct Hsp as (bp&Hap&Ho&Hlo). exists bp. split; [|lia].
    rewrite Hot4, Hot3, Ha1, lookup_insert_ne by done. done. }
  destruct Hsrc as (v&->). cbn [rbind]. destruct (Hla4 _ Ha3) as (bs4&Ha4&Hl4).
  assert (Hend : forall s5, below K ({[+ q +]} ⊎ r) (stack s5) -> same_vars s s5 ->
    exists s', drop_packet q s5 = Ok s' /\ below K r (stack s') /\ same_vars s s').
  { intros s5 Hb5 Hv5. destruct (drop_ok K r s5 q Hb5 HKq) as (t5&->&Hb6). by exists (set_stack t5 s5). }
  destruct (ip4_route nif netif_default v) as [np|]; cbn [rbind]; [|by apply Hend].
  assert (Hw : writing K ({[+ q +]} ⊎ r) q 36 (8 + n) (set_stack t4 s3) (set_stack t4 s3)).
  { split; try done. exists bs4. split; [done|]. lia. }
  step_write. match goal with Hw : writing _ _ _ _ _ _ ?x |- _ => rename x into s5; rename Hw into Hw5 end.
  assert (Hbq5 : pbufs (stack s5) !! q = Some (fresh q 36 (8 + n))) by (rewrite (wr_pbufs _ _ _ _ _ _ _ Hw5); cbn; by rewrite Hpb4, Hpb3).
  rewrite (deref_ok _ _ _ Hbq5). cbn [rbind len fresh].
  destruct (inet_chksum_total base (stack s5) q 36 (8 + n) (wr_span _ _ _ _ _ _ _ Hw5)) as (c&->); [lia|]. cbn [rbind]. step_write.
  match goal with Hw : writing _ _ _ _ _ _ ?x |- _ => rename x into s6; rename Hw into Hw6 end.
  destruct (output_if_total K ({[+ q +]} ⊎ r) q None (Some v) ICMP_TTL 0 IP_PROTO_ICMP np s6 (wr_below _ _ _ _ _ _ _ Hw6) Hq2 HKq)
    as (e&s7&->&Hb7&Hv7). cbn [rbind]. apply Hend; [done|]. pose proof (wr_vars _ _ _ _ _ _ _ Hw6) as Hv6.
  transitivity s3; [done|]. transitivity s6; done.
Qed.
End send.
