(* ===== verification/Ip4Reass.v ===== *)
(** * Reassembly: the first half of [src/lib/lwip/src/core/ipv4/ip4_frag.c]

    Incoming fragments in the configuration of [src/lib/lwip/lwipopts.h] with the
    defaults of [opt.h]: at most ten packet buffers and five datagrams wait,
    overlapping fragments are dropped, the oldest datagram makes room.  The
    fragments of a datagram are linked through the bytes of their own packets:
    [struct ip_reass_helper] lies over the IP header, a pointer in four bytes and
    two offsets in two bytes each.  A pointer is stored as its name, null as zero.
    Statistics and debug output are left out; [LWIP_ASSERT] has no effect in this
    port. *)

From stdpp Require Import base numbers list decidable gmap.
From Stdlib Require Import ZArith Lia Bool.
From S2P Require Import Prelude LwipMem Pbuf InetChksum Ip4Addr Ethernet Ip4 Icmp.
Open Scope Z_scope.

Definition IP_REASS_MAXAGE : Z := 15.
Definition IP_REASS_MAX_PBUFS : Z := 10.
Definition MEMP_NUM_REASSDATA : Z := 5.
Definition IP_REASS_FLAG_LASTFRAG : Z := 0x01.
Definition ICMP_TE_FRAG : Z := 1.

(** What becomes of a fragment: [IP_REASS_VALIDATE_*]. *)
Inductive validate : Type :=
| TELEGRAM_FINISHED
| PBUF_QUEUED
| PBUF_DROPPED.

(** ** State *)

(** [struct ip_reassdata]. *)
Record ip_reassdata : Type := mk_reassdata {
  r_next : option Z;
  r_p : option Z;
  r_iphdr : list Z;
  datagram_len : Z;
  r_flags : Z;
  timer : Z
}.

Definition set_r_next (v : option Z) (d : ip_reassdata) : ip_reassdata :=
  mk_reassdata v (r_p d) (r_iphdr d) (datagram_len d) (r_flags d) (timer d).
Definition set_r_p (v : option Z) (d : ip_reassdata) : ip_reassdata :=
  mk_reassdata (r_next d) v (r_iphdr d) (datagram_len d) (r_flags d) (timer d).
Definition set_r_iphdr (v : list Z) (d : ip_reassdata) : ip_reassdata :=
  mk_reassdata (r_next d) (r_p d) v (datagram_len d) (r_flags d) (timer d).
Definition set_r_last (ln fl : Z) (d : ip_reassdata) : ip_reassdata :=
  mk_reassdata (r_next d) (r_p d) (r_iphdr d) ln fl (timer d).
Definition set_timer (v : Z) (d : ip_reassdata) : ip_reassdata :=
  mk_reassdata (r_next d) (r_p d) (r_iphdr d) (datagram_len d) (r_flags d) v.

(** The structures, the list of datagrams, the free list of their pool and the
    number of packet buffers that wait. *)
Record reass : Type := mk_reass {
  reassdata : gmap Z ip_reassdata;
  reassdatagrams : option Z;
  tab_reassdata : option Z;
  ip_reass_pbufcount : Z
}.

Definition set_reassdata (v : gmap Z ip_reassdata) (r : reass) : reass :=
  mk_reass v (reassdatagrams r) (tab_reassdata r) (ip_reass_pbufcount r).
Definition set_reassdatagrams (v : option Z) (r : reass) : reass :=
  mk_reass (reassdata r) v (tab_reassdata r) (ip_reass_pbufcount r).
Definition set_tab_reassdata (v : option Z) (r : reass) : reass :=
  mk_reass (reassdata r) (reassdatagrams r) v (ip_reass_pbufcount r).
Definition set_pbufcount (v : Z) (r : reass) : reass :=
  mk_reass (reassdata r) (reassdatagrams r) (tab_reassdata r) v.

Definition r_deref (r : reass) (p : Z) : result ip_reassdata :=
  match reassdata r !! p with Some d => Ok d | None => Fault Dangling end.

Definition r_assign (p : Z) (f : ip_reassdata -> ip_reassdata) (r : reass) : result reass :=
  let* d := r_deref r p in Ok (set_reassdata (<[p := f d]> (reassdata r)) r).

(** Loops over the list get one round more than there are structures. *)
Definition reass_fuel (r : reass) : nat := S (size (reassdata r)).

(** [memp_malloc] and [memp_free] of the pool of these structures, whose first
    word is [next]. *)
Definition reassdata_malloc (r : reass) : result (option Z * reass) :=
  match tab_reassdata r with
  | None => Ok (None, r)
  | Some p => let* d := r_deref r p in Ok (Some p, set_tab_reassdata (r_next d) r)
  end.

Definition reassdata_free (p : Z) (r : reass) : result reass :=
  let* r := r_assign p (set_r_next (tab_reassdata r)) r in
  Ok (set_tab_reassdata (Some p) r).

Definition ip_reass_dequeue_datagram (ipr : Z) (prev : option Z) (r : reass) : result reass :=
  let* d := r_deref r ipr in
  let* r :=
    if bool_decide (reassdatagrams r = Some ipr) then Ok (set_reassdatagrams (r_next d) r)
    else let* prev := not_null prev in r_assign prev (set_r_next (r_next d)) r in
  reassdata_free ipr r.

(** ** The helper over the IP header *)

Definition ptr_of (v : Z) : option Z := if v =? 0 then None else Some v.
Definition ptr_code (o : option Z) : Z := match o with Some p => p | None => 0 end.

Section helper.
Context {H : Type}.
Implicit Types (s : lwip H).

Definition next_pbuf s (iprh : option (Z * Z)) : result (option Z) :=
  let* v := ld s iprh 0 4 in Ok (ptr_of v).
Definition start s (iprh : option (Z * Z)) : result Z := ld s iprh 4 2.
Definition end_ s (iprh : option (Z * Z)) : result Z := ld s iprh 6 2.
Definition set_next_pbuf (iprh : option (Z * Z)) (q : option Z) s : result (lwip H) :=
  st_bytes s iprh 0 (le_bytes 4 (ptr_code q)).

(** [IP_ADDRESSES_AND_ID_MATCH]. *)
Definition IP_ADDRESSES_AND_ID_MATCH (iphdr : list Z) (fraghdr : option (Z * Z)) s : result bool :=
  let* srcA := rd iphdr 12 4 in
  let* srcB := ld s fraghdr 12 4 in
  let* destA := rd iphdr 16 4 in
  let* destB := ld s fraghdr 16 4 in
  let* idA := rd iphdr 4 2 in
  let* idB := ld s fraghdr 4 2 in
  Ok ((srcA =? srcB) && (destA =? destB) && (idA =? idB)).
End helper.

(** [IPH_OFFSET_BYTES] of the field in network byte order. *)
Definition IPH_OFFSET_BYTES (offset : Z) : Z := wrap16 (Z.land (lwip_htons offset) IP_OFFMASK * 8).

Section reass.
Context {X H : Type} `{MemHeap H} `{!Neighbours X H} `{!Part reass X}.
Context (base : Z -> Z) (nif : Z -> netif) (netif_default : option Z).
Implicit Types (s : ip4 X H).

Definition rs s : reass := part (around s).
Definition on_reass (f : reass -> result reass) s : result (ip4 X H) :=
  let* r := f (rs s) in Ok (set_around (set_part r (around s)) s).
Definition on_reass_r {A} (f : reass -> result (A * reass)) s : result (A * ip4 X H) :=
  let* (a, r) := f (rs s) in Ok (a, set_around (set_part r (around s)) s).
Definition put_reass (r : reass) s : ip4 X H := set_around (set_part r (around s)) s.

(** [pbuf_clen(p); pbuf_free(p)] with the count of what has been freed. *)
Definition count_and_free (p : Z) (pbufs_freed : Z) s : result (Z * ip4 X H) :=
  let* clen := pbuf_clen (Some p) (stack s) in
  let pbufs_freed := wrap16 (pbufs_freed + clen) in
  let* s := drop_packet p s in
  Ok (pbufs_freed, s).

(** The loop over the fragments that are left. *)
Fixpoint free_frags_loop (fuel : nat) (p : option Z) (pbufs_freed : Z) s : result (Z * ip4 X H) :=
  match fuel with
  | O => Fault OutOfFuel
  | S fuel =>
      match p with
      | None => Ok (pbufs_freed, s)
      | Some pcur =>
          let* b := deref (stack s) pcur in
          let* p := next_pbuf (stack s) (payload b) in
          let* (pbufs_freed, s) := count_and_free pcur pbufs_freed s in
          free_frags_loop fuel p pbufs_freed s
      end
  end.

Definition ip_reass_free_complete_datagram (ipr : Z) (prev : option Z) s : result (Z * ip4 X H) :=
  let* d := r_deref (rs s) ipr in
  let* p := not_null (r_p d) in
  let* b := deref (stack s) p in
  let* st := start (stack s) (payload b) in
  let* (pbufs_freed, s) :=
    if st =? 0 then
      let* nxt := next_pbuf (stack s) (payload b) in
      let* s := on_reass (r_assign ipr (set_r_p nxt)) s in
      let* s := on_stack (fun x => st_bytes x (payload b) 0 (r_iphdr d)) s in
      let* s := icmp_time_exceeded base nif netif_default p ICMP_TE_FRAG s in
      count_and_free p 0 s
    else Ok (0, s) in
  let* d := r_deref (rs s) ipr in
  let* (pbufs_freed, s) := free_frags_loop (chain_fuel (stack s)) (r_p d) pbufs_freed s in
  let* s := on_reass (ip_reass_dequeue_datagram ipr prev) s in
  let s := put_reass (set_pbufcount (wrap16 (ip_reass_pbufcount (rs s) - pbufs_freed)) (rs s)) s in
  Ok (pbufs_freed, s).

(** ** The timer *)

Fixpoint reass_tmr_loop (fuel : nat) (r prev : option Z) s : result (ip4 X H) :=
  match fuel with
  | O => Fault OutOfFuel
  | S fuel =>
      match r with
      | None => Ok s
      | Some r =>
          let* d := r_deref (rs s) r in
          if 0 <? timer d then
            let* s := on_reass (r_assign r (set_timer (wrap8 (timer d - 1)))) s in
            reass_tmr_loop fuel (r_next d) (Some r) s
          else
            let* (_, s) := ip_reass_free_complete_datagram r prev s in
            reass_tmr_loop fuel (r_next d) prev s
      end
  end.

Definition ip_reass_tmr s : result (ip4 X H) :=
  reass_tmr_loop (reass_fuel (rs s)) (reassdatagrams (rs s)) None s.

(** ** Making room *)

(** The search for the oldest other datagram: it and the one before it, and how
    many other datagrams there are. *)
Fixpoint oldest_loop (fuel : nat) (fraghdr : option (Z * Z)) (r prev oldest oldest_prev : option Z) (other : Z) s
  : result (option Z * option Z * Z) :=
  match fuel with
  | O => Fault OutOfFuel
  | S fuel =>
      match r with
      | None => Ok (oldest, oldest_prev, other)
      | Some r =>
          let* d := r_deref (rs s) r in
          let* same := IP_ADDRESSES_AND_ID_MATCH (r_iphdr d) fraghdr (stack s) in
          let* (oldest, oldest_prev, other) :=
            if negb same then
              match oldest with
              | None => Ok (Some r, prev, other + 1)
              | Some o =>
                  let* od := r_deref (rs s) o in
                  if timer d <=? timer od then Ok (Some r, prev, other + 1) else Ok (oldest, oldest_prev, other + 1)
              end
            else Ok (oldest, oldest_prev, other) in
          let prev := match r_next d with Some _ => Some r | None => prev end in
          oldest_loop fuel fraghdr (r_next d) prev oldest oldest_prev other s
      end
  end.

Fixpoint remove_oldest_loop (fuel : nat) (fraghdr : option (Z * Z)) (pbufs_needed pbufs_freed : Z) s
  : result (Z * ip4 X H) :=
  match fuel with
  | O => Fault OutOfFuel
  | S fuel =>
      let* (oldest, oldest_prev, other) :=
        oldest_loop (reass_fuel (rs s)) fraghdr (reassdatagrams (rs s)) None None None 0 s in
      let* (pbufs_freed, s) :=
        match oldest with
        | Some o =>
            let* (current, s) := ip_reass_free_complete_datagram o oldest_prev s in
            Ok (pbufs_freed + current, s)
        | None => Ok (pbufs_freed, s)
        end in
      if (pbufs_freed <? pbufs_needed) && (1 <? other)
      then remove_oldest_loop fuel fraghdr pbufs_needed pbufs_freed s
      else Ok (pbufs_freed, s)
  end.

Definition ip_reass_remove_oldest_datagram (fraghdr : option (Z * Z)) (pbufs_needed : Z) s : result (Z * ip4 X H) :=
  remove_oldest_loop (reass_fuel (rs s)) fraghdr pbufs_needed 0 s.

Definition ip_reass_enqueue_new_datagram (fraghdr : option (Z * Z)) (clen : Z) s : result (option Z * ip4 X H) :=
  let* (ipr, s) := on_reass_r reassdata_malloc s in
  let* (ipr, s) :=
    match ipr with
    | Some _ => Ok (ipr, s)
    | None =>
        let* (freed, s) := ip_reass_remove_oldest_datagram fraghdr clen s in
        if clen <=? freed then on_reass_r reassdata_malloc s else Ok (None, s)
    end in
  match ipr with
  | None => Ok (None, s)
  | Some ipr =>
      let* hdr := ld_bytes (stack s) fraghdr 0 IP_HLEN in
      let r := rs s in
      let r := set_reassdata (<[ipr := mk_reassdata (reassdatagrams r) None hdr 0 0 IP_REASS_MAXAGE]> (reassdata r)) r in
      Ok (Some ipr, put_reass (set_reassdatagrams (Some ipr) r) s)
  end.

(** ** The place of a fragment *)

(** Where the loop over the fragments ends: the fragment is dropped, or the
    fragment behind it is [q] and the one before it [iprh_prev], and [valid] says
    that there was no hole up to it. *)
Inductive place : Type :=
| Dropped
| Between (q : option Z) (iprh_prev : option (Z * Z)) (valid : bool).

Fixpoint chain_loop (fuel : nat) (ipr new_p : Z) (iprh : option (Z * Z)) (q : option Z) (iprh_prev : option (Z * Z))
    (valid : bool) s : result (place * ip4 X H) :=
  match fuel with
  | O => Fault OutOfFuel
  | S fuel =>
      match q with
      | None => Ok (Between None iprh_prev valid, s)
      | Some qp =>
          let* bq := deref (stack s) qp in
          let iprh_tmp := payload bq in
          let* st := start (stack s) iprh in
          let* en := end_ (stack s) iprh in
          let* tstart := start (stack s) iprh_tmp in
          let* tend := end_ (stack s) iprh_tmp in
          if st <? tstart then
            let* s := on_stack (set_next_pbuf iprh q) s in
            match iprh_prev with
            | Some _ =>
                let* pend := end_ (stack s) iprh_prev in
                if (st <? pend) || (tstart <? en) then Ok (Dropped, s)
                else
                  let* s := on_stack (set_next_pbuf iprh_prev (Some new_p)) s in
                  Ok (Between q iprh_prev (valid && (pend =? st)), s)
            | None =>
                if tstart <? en then Ok (Dropped, s)
                else
                  let* s := on_reass (r_assign ipr (set_r_p (Some new_p))) s in
                  Ok (Between q None valid, s)
            end
          else if st =? tstart then Ok (Dropped, s)
          else if st <? tend then Ok (Dropped, s)
          else
            let* valid :=
              match iprh_prev with
              | Some _ => let* pend := end_ (stack s) iprh_prev in Ok (valid && (pend =? tstart))
              | None => Ok valid
              end in
            let* nxt := next_pbuf (stack s) iprh_tmp in
            chain_loop fuel ipr new_p iprh nxt iprh_tmp valid s
      end
  end.

(** The loop over the fragments behind the new one: whether there is no hole. *)
Fixpoint holes_loop (fuel : nat) (iprh_prev : option (Z * Z)) (q : option Z) s : result bool :=
  match fuel with
  | O => Fault OutOfFuel
  | S fuel =>
      match q with
      | None => Ok true
      | Some q =>
          let* b := deref (stack s) q in
          let iprh := payload b in
          let* pend := end_ (stack s) iprh_prev in
          let* st := start (stack s) iprh in
          if negb (pend =? st) then Ok false
          else
            let* nxt := next_pbuf (stack s) iprh in
            holes_loop fuel iprh nxt s
      end
  end.

(** From [At this point, the validation part begins] on. *)
Definition validate_datagram (ipr : Z) (iprh : option (Z * Z)) (is_last valid : bool) s : result validate :=
  let* d := r_deref (rs s) ipr in
  if is_last || negb (Z.land (r_flags d) IP_REASS_FLAG_LASTFRAG =? 0) then
    let* valid :=
      if valid : bool then
        match r_p d with
        | None => Ok false
        | Some p =>
            let* b := deref (stack s) p in
            let* st := start (stack s) (payload b) in
            if negb (st =? 0) then Ok false
            else
              let* nxt := next_pbuf (stack s) iprh in
              holes_loop (chain_fuel (stack s)) iprh nxt s
        end
      else Ok false in
    Ok (if valid then TELEGRAM_FINISHED else PBUF_QUEUED)
  else Ok PBUF_QUEUED.

Definition ip_reass_chain_frag_into_datagram_and_validate (ipr new_p : Z) (is_last : bool) s
  : result (validate * ip4 X H) :=
  let* b := deref (stack s) new_p in
  let fraghdr := payload b in
  let* len_n := ld (stack s) fraghdr 2 2 in
  let ln := lwip_htons len_n in
  let* v_hl := ld (stack s) fraghdr 0 1 in
  let hlen := IPH_HL_BYTES v_hl in
  if ln <? hlen then Ok (PBUF_DROPPED, s)
  else
    let ln := wrap16 (ln - hlen) in
    let* offset_n := ld (stack s) fraghdr 6 2 in
    let offset := IPH_OFFSET_BYTES offset_n in
    let iprh := fraghdr in
    let en := wrap16 (offset + ln) in
    let* s := on_stack (set_next_pbuf iprh None) s in
    let* s := on_stack (fun x => st_bytes x iprh 4 (le_bytes 2 offset)) s in
    let* s := on_stack (fun x => st_bytes x iprh 6 (le_bytes 2 en)) s in
    if en <? offset then Ok (PBUF_DROPPED, s)
    else
      let* d := r_deref (rs s) ipr in
      let* (pl, s) := chain_loop (chain_fuel (stack s)) ipr new_p iprh (r_p d) None true s in
      match pl with
      | Dropped => Ok (PBUF_DROPPED, s)
      | Between q iprh_prev valid =>
          let* (valid, s) :=
            match q with
            | Some _ => Ok (valid, s)
            | None =>
                match iprh_prev with
                | Some _ =>
                    let* s := on_stack (set_next_pbuf iprh_prev (Some new_p)) s in
                    let* pend := end_ (stack s) iprh_prev in
                    let* st := start (stack s) iprh in
                    Ok (valid && (pend =? st), s)
                | None =>
                    let* s := on_reass (r_assign ipr (set_r_p (Some new_p))) s in
                    Ok (valid, s)
                end
            end in
          let* v := validate_datagram ipr iprh is_last valid s in
          Ok (v, s)
      end.

(** ** A fragment arrives *)

(** The datagram the fragment belongs to. *)
Fixpoint find_loop (fuel : nat) (fraghdr : option (Z * Z)) (ipr : option Z) s : result (option Z) :=
  match fuel with
  | O => Fault OutOfFuel
  | S fuel =>
      match ipr with
      | None => Ok None
      | Some r =>
          let* d := r_deref (rs s) r in
          let* same := IP_ADDRESSES_AND_ID_MATCH (r_iphdr d) fraghdr (stack s) in
          if same : bool then Ok (Some r) else find_loop fuel fraghdr (r_next d) s
      end
  end.

(** The datagram whose [next] is [ipr]. *)
Fixpoint prev_loop (fuel : nat) (ipr : Z) (ipr_prev : option Z) s : result (option Z) :=
  match fuel with
  | O => Fault OutOfFuel
  | S fuel =>
      match ipr_prev with
      | None => Ok None
      | Some r =>
          let* d := r_deref (rs s) r in
          if bool_decide (r_next d = Some ipr) then Ok (Some r) else prev_loop fuel ipr (r_next d) s
      end
  end.

(** [chain together the pbufs contained within the reass_data list]; the pointer
    to the helper is kept while the header is hidden. *)
Fixpoint join_loop (fuel : nat) (p : Z) (r : option Z) s : result (ip4 X H) :=
  match fuel with
  | O => Fault OutOfFuel
  | S fuel =>
      match r with
      | None => Ok s
      | Some rp =>
          let* b := deref (stack s) rp in
          let iprh := payload b in
          let* (_, s) := on_stack_r (pbuf_remove_header r IP_HLEN) s in
          let* s := on_stack (pbuf_cat (Some p) r) s in
          let* r := next_pbuf (stack s) iprh in
          join_loop fuel p r s
      end
  end.

(** All fragments are there: the header back in front, the fragments joined, the
    datagram out of the list. *)
Definition reass_finish (ipr : Z) s : result (option Z * ip4 X H) :=
  let* d := r_deref (rs s) ipr in
  let total := wrap16 (datagram_len d + IP_HLEN) in
  let* p := not_null (r_p d) in
  let* b := deref (stack s) p in
  let fraghdr := payload b in
  let* r := next_pbuf (stack s) fraghdr in
  let* s := on_stack (fun x => st_bytes x fraghdr 0 (r_iphdr d)) s in
  let* s := on_stack (fun x => st_bytes x fraghdr 2 (le_bytes 2 (lwip_htons total))) s in
  let* s := on_stack (fun x => st_bytes x fraghdr 6 (le_bytes 2 0)) s in
  let* s := on_stack (fun x => st_bytes x fraghdr 10 (le_bytes 2 0)) s in
  let* c := inet_chksum base (stack s) fraghdr IP_HLEN in
  let* s := on_stack (fun x => st_bytes x fraghdr 10 (le_bytes 2 c)) s in
  let* s := join_loop (chain_fuel (stack s)) p r s in
  let* ipr_prev :=
    if bool_decide (reassdatagrams (rs s) = Some ipr) then Ok None
    else prev_loop (reass_fuel (rs s)) ipr (reassdatagrams (rs s)) s in
  let* s := on_reass (ip_reass_dequeue_datagram ipr ipr_prev) s in
  let* clen := pbuf_clen (Some p) (stack s) in
  let s := put_reass (set_pbufcount (wrap16 (ip_reass_pbufcount (rs s) - clen)) (rs s)) s in
  Ok (Some p, s).

(** [nullreturn] and [nullreturn_ipr]. *)
Definition nullreturn (p : Z) s : result (option Z * ip4 X H) :=
  let* s := drop_packet p s in Ok (None, s).

Definition nullreturn_ipr (p ipr : Z) s : result (option Z * ip4 X H) :=
  let* d := r_deref (rs s) ipr in
  let* s := match r_p d with
            | None => on_reass (ip_reass_dequeue_datagram ipr None) s
            | Some _ => Ok s
            end in
  nullreturn p s.

(** The datagram is found or new: put the fragment into it. *)
Definition reass_into (p ipr : Z) (fraghdr : option (Z * Z)) (offset ln clen : Z) s : result (option Z * ip4 X H) :=
  let* offset_n := ld (stack s) fraghdr 6 2 in
  let is_last := Z.land offset_n (PP_HTONS IP_MF) =? 0 in
  let datagram := wrap16 (offset + ln) in
  if is_last && ((datagram <? offset) || (0xFFFF - IP_HLEN <? datagram)) then nullreturn_ipr p ipr s
  else
    let* (valid, s) := ip_reass_chain_frag_into_datagram_and_validate ipr p is_last s in
    match valid with
    | PBUF_DROPPED => nullreturn_ipr p ipr s
    | _ =>
        let s := put_reass (set_pbufcount (wrap16 (ip_reass_pbufcount (rs s) + clen)) (rs s)) s in
        let* s :=
          if is_last then
            on_reass (r_assign ipr (fun d => set_r_last datagram (Z.lor (r_flags d) IP_REASS_FLAG_LASTFRAG) d)) s
          else Ok s in
        match valid with
        | TELEGRAM_FINISHED => reass_finish ipr s
        | _ => Ok (None, s)
        end
    end.

Definition ip4_reass (p : Z) s : result (option Z * ip4 X H) :=
  let* b := deref (stack s) p in
  let fraghdr := payload b in
  let* v_hl := ld (stack s) fraghdr 0 1 in
  if negb (IPH_HL_BYTES v_hl =? IP_HLEN) then nullreturn p s
  else
    let* offset_n := ld (stack s) fraghdr 6 2 in
    let offset := IPH_OFFSET_BYTES offset_n in
    let* len_n := ld (stack s) fraghdr 2 2 in
    let ln := lwip_htons len_n in
    let hlen := IPH_HL_BYTES v_hl in
    if ln <? hlen then nullreturn p s
    else
      let ln := wrap16 (ln - hlen) in
      let* clen := pbuf_clen (Some p) (stack s) in
      let* (ok, s) :=
        if IP_REASS_MAX_PBUFS <? ip_reass_pbufcount (rs s) + clen then
          let* (freed, s) := ip_reass_remove_oldest_datagram fraghdr clen s in
          Ok (negb ((freed =? 0) || (IP_REASS_MAX_PBUFS <? ip_reass_pbufcount (rs s) + clen)), s)
        else Ok (true, s) in
      if negb ok then nullreturn p s
      else
        let* found := find_loop (reass_fuel (rs s)) fraghdr (reassdatagrams (rs s)) s in
        let* (ipr, s) :=
          match found with
          | None => ip_reass_enqueue_new_datagram fraghdr clen s
          | Some ipr =>
              let* d := r_deref (rs s) ipr in
              let* first := rd (r_iphdr d) 6 2 in
              if (Z.land (lwip_htons offset_n) IP_OFFMASK =? 0) && negb (Z.land (lwip_htons first) IP_OFFMASK =? 0) then
                let* hdr := ld_bytes (stack s) fraghdr 0 IP_HLEN in
                let* s := on_reass (r_assign ipr (set_r_iphdr hdr)) s in
                Ok (Some ipr, s)
              else Ok (Some ipr, s)
          end in
        match ipr with
        | None => nullreturn p s
        | Some ipr => reass_into p ipr fraghdr offset ln clen s
        end.
End reass.
