(* ===== verification/Ip4ReassOrder.v ===== *)
(** * The order of the fragments

    The fragments of a datagram, in whatever order they come, give the datagram:
    while one is missing nothing is delivered, and the last one to come delivers
    the whole, under the header of the first fragment. *)

From stdpp Require Import base numbers decidable gmap list sorting.
From Stdlib Require Import ZArith Lia Bool.
From S2P Require Import Prelude Linked LwipMem Pbuf OnesComp InetChksum Ethernet Ip4 Icmp Ip4Reass Ip4ReassSpec.
Open Scope Z_scope.

(** A packet that comes in: its name and what its buffers hold. *)
Record incoming : Type := mk_incoming { in_p : Z; in_c : list Z; in_cs : list (list Z) }.

Definition in_hdr (x : incoming) : list Z := take 20 (in_c x).
Definition in_frag (x : incoming) : frag := frag_of (in_p x) (in_c x) (in_cs x).

(** The packets that are delivered while the fragments [xs] come. *)
Fixpoint feed (xs : list incoming) (w : waiting) : list (Z * list (list Z)) * waiting :=
  match xs with
  | [] => ([], w)
  | x :: xs =>
      let '(o, w) := fragment_in (in_p x) (in_c x) (in_cs x) w in
      let '(ds, w) := feed xs w in
      (option_list o ++ ds, w)
  end.

(** The packets [ps] are the fragments, in order, of a datagram with the header [h]
    and [n] bytes of data. *)
Record datagram_of (ps : list incoming) (h : list Z) (n : Z) : Prop := {
  do_packets : Forall (fun x => frag_packet (in_p x) (in_c x) (in_cs x)) ps;
  do_plain : Forall (fun x => plain_header (in_c x) = true) ps;
  do_key : Forall (fun x => key (in_hdr x) = key h) ps;
  do_names : NoDup (in_p <$> ps);
  do_data : Forall (fun x => f_start (in_frag x) < f_end (in_frag x)) ps;
  do_whole : no_hole 0 (in_frag <$> ps) = true;
  do_first : in_hdr <$> head ps = Some h;
  do_last : exists xs y, ps = xs ++ [y] /\ Forall (fun x => is_last (in_c x) = false) xs /\ is_last (in_c y) = true /\
    f_end (in_frag y) = n;
  do_size : n <= 0xFFFF - IP_HLEN
}.

(** ** Lists without holes *)

Definition proper (f : frag) : Prop := f_start f < f_end f.

Lemma no_hole_sorted e l : no_hole e l = true -> Forall proper l -> StronglySorted before l /\ Forall (fun f => e <= f_start f) l.
Proof.
  revert e. induction l as [|f l IH]; intros e Hn Hp; [repeat constructor|]. cbn in Hn. apply andb_true_iff in Hn as [He%Z.eqb_eq Hn].
  apply Forall_cons in Hp as [Hf Hp]. destruct (IH _ Hn Hp) as [Hs Hall]. unfold proper in Hf. split.
  - constructor; [done|]. eapply Forall_impl; [exact Hall|]. intros y Hy. cbn in Hy. split; lia.
  - constructor; [lia|]. eapply Forall_impl; [exact Hall|]. intros y Hy. cbn in Hy. lia.
Qed.

Lemma sorted_apart l x y : StronglySorted before l -> x ∈ l -> y ∈ l -> x <> y -> before x y \/ before y x.
Proof.
  induction l as [|f l IH]; intros Hs Hx Hy Hne; [by apply not_elem_of_nil in Hx|]. apply StronglySorted_inv in Hs as [Hs Hf]. rewrite Forall_forall in Hf.
  apply elem_of_cons in Hx as [->|Hx]; apply elem_of_cons in Hy as [->|Hy]; auto. done.
Qed.

(** A part without holes that has the end is the whole. *)
Lemma no_hole_whole e fs z l : no_hole e (fs ++ [z]) = true -> Forall proper (fs ++ [z]) -> no_hole e l = true ->
  (forall x, x ∈ l -> x ∈ fs ++ [z]) -> z ∈ l -> l = fs ++ [z].
Proof.
  revert e l. induction fs as [|f fs IH]; intros e l Hn Hp Hl Hsub Hz.
  - destruct l as [|x l]; [by apply not_elem_of_nil in Hz|]. assert (x = z) as -> by (apply list_elem_of_singleton, Hsub; set_solver).
    destruct l as [|y l]; [done|]. assert (y = z) as -> by (apply list_elem_of_singleton, Hsub; set_solver). cbn in Hl, Hn. apply Forall_cons in Hp as [Hp _].
    unfold proper in Hp. repeat (apply andb_true_iff in Hl as [?%Z.eqb_eq Hl]). repeat (apply andb_true_iff in Hn as [?%Z.eqb_eq Hn]). lia.
  - cbn [app] in *. destruct l as [|x l]; [by apply not_elem_of_nil in Hz|]. cbn in Hn, Hl. apply andb_true_iff in Hn as [He%Z.eqb_eq Hn].
    apply andb_true_iff in Hl as [Hx%Z.eqb_eq Hl]. apply Forall_cons in Hp as [Hf Hp].
    destruct (no_hole_sorted _ _ Hn Hp) as [_ Hall]. rewrite Forall_forall in Hall. unfold proper in Hf.
    assert (x = f) as ->.
    { destruct (proj1 (elem_of_cons _ _ _) (Hsub x ltac:(set_solver))) as [|Hin]; [done|]. specialize (Hall x Hin). lia. }
    assert (Hlp : Forall (fun y => f_end f <= f_start y) l).
    { apply no_hole_sorted in Hl as [_ ?]; [done|]. apply Forall_forall. intros y Hy.
      destruct (proj1 (elem_of_cons _ _ _) (Hsub y ltac:(set_solver))) as [->|Hin]; [done|]. by apply (proj1 (Forall_forall _ _) Hp). }
    rewrite Forall_forall in Hlp. f_equal. apply (IH (f_end f)); try done.
    + intros y Hy. destruct (proj1 (elem_of_cons _ _ _) (Hsub y ltac:(set_solver))) as [->|Hin]; [|done]. specialize (Hlp f Hy). lia.
    + apply elem_of_cons in Hz as [->|Hz]; [|done]. specialize (Hall f ltac:(set_solver)). lia.
Qed.

Lemma header_field_take c off k : 0 <= off -> 0 <= k -> off + k <= 20 -> header_field (take 20 c) off k = header_field c off k.
Proof.
  intros Ho Hk Hl. unfold header_field, bytes_at, slice. f_equal. rewrite skipn_firstn_comm, take_take. f_equal. lia.
Qed.

Lemma offset_take c : offset_of (take 20 c) = offset_of c.
Proof. unfold offset_of. by rewrite header_field_take by lia. Qed.

(** ** One datagram *)

Section order.
Context (ps : list incoming) (h : list Z) (n : Z) (Hps : datagram_of ps h n).
Context (D : list (Z * dgram)) (i : Z) (fr : list Z) (Hfind : find_dg h D = None).

Definition total (xs : list incoming) : Z := Z.of_nat (length (xs ≫= fun x => in_c x :: in_cs x)).

Hypothesis Hname : i ∉ D.*1.
Hypothesis Hroom : bufs D + total ps <= IP_REASS_MAX_PBUFS.

Definition some_last (xs : list incoming) : bool := existsb (fun x => is_last (in_c x)) xs.
Definition some_first (xs : list incoming) : bool := existsb (fun x => offset_of (in_c x) =? 0) xs.

(** The fragments [T] are in [g]; the headers seen are those of [S]. *)
Record taken (S T : list incoming) (g : dgram) : Prop := {
  tk_frags : g_frags g ≡ₚ in_frag <$> T;
  tk_sorted : StronglySorted before (g_frags g);
  tk_last : g_last g = some_last T;
  tk_len : g_last g = true -> g_len g = n;
  tk_key : key (g_hdr g) = key h;
  tk_hdr : if some_first S then g_hdr g = h else offset_of (g_hdr g) <> 0
}.

Definition so_far (T : list incoming) (w : waiting) : Prop :=
  match T with
  | [] => w = mk_waiting D (i :: fr)
  | _ => exists g, taken T T g /\ w = mk_waiting ((i, g) :: D) fr
  end.

Lemma start_offset x : f_start (in_frag x) = offset_of (in_c x) * 8.
Proof. done. Qed.

Lemma frags_proper : Forall proper (in_frag <$> ps).
Proof. apply Forall_fmap. exact (do_data _ _ _ Hps). Qed.

Lemma first_offset x : x ∈ ps -> offset_of (in_c x) = 0 -> in_hdr x = h.
Proof.
  intros Hx Ho. destruct Hps as [_ _ _ _ Hpr Hn Hf _ _]. destruct ps as [|y l]; [done|]. injection Hf as Hf.
  apply elem_of_cons in Hx as [->|Hx]; [done|]. rewrite fmap_cons in Hn. cbn [no_hole] in Hn. apply andb_true_iff in Hn as [H0%Z.eqb_eq Hn].
  apply Forall_cons in Hpr as [Hy Hpr]. destruct (no_hole_sorted _ _ Hn) as [_ Hall]; [by apply Forall_fmap|].
  rewrite Forall_fmap, Forall_forall in Hall. specialize (Hall x Hx). exfalso.
  change (f_end (in_frag y) <= f_start (in_frag x)) in Hall. pose proof (start_offset x). lia.
Qed.

Lemma key_same x : x ∈ ps -> key (in_hdr x) = key h.
Proof. exact (proj1 (Forall_forall _ _) (do_key _ _ _ Hps) x). Qed.

(** The datagram of the next fragment. *)
Lemma next_datagram T x m w : so_far T w -> x ∈ ps ->
  exists g, datagram_for (in_hdr x) m w = (Some (i, g), mk_waiting ((i, g) :: D) fr) /\ taken (x :: T) T g.
Proof.
  intros Hs Hx. pose proof (key_same x Hx) as Hkx. unfold datagram_for.
  assert (Hsame : forall D', find_dg (in_hdr x) D' = find_dg h D') by (intros; unfold find_dg, same_key; by rewrite Hkx).
  rewrite Hsame. destruct T as [|y T].
  - cbn in Hs. subst w. cbn [w_dgrams]. rewrite Hfind. unfold new_dg. cbn [w_free w_dgrams]. eexists. split; [reflexivity|].
    split; try done; [constructor|]. cbn. rewrite orb_false_r. unfold in_hdr. rewrite offset_take.
    destruct (Z.eqb_spec (offset_of (in_c x)) 0) as [H0|]; [|done]. by apply first_offset.
  - destruct Hs as (g&Hg&->). cbn [w_dgrams].
    assert (Hf : find_dg h ((i, g) :: D) = Some (i, g)).
    { unfold find_dg. cbn. unfold same_key. rewrite bool_decide_eq_true_2; [done|]. exact (tk_key _ _ _ Hg). }
    rewrite Hf. exists (first_header (in_hdr x) g). split.
    { unfold set_dg. cbn [w_dgrams w_free]. by rewrite (set_name [] i g _ D) by set_solver. }
    destruct Hg as [H1 H2 H3 H4 H5 H6]. unfold first_header, in_hdr. rewrite offset_take.
    assert (Hsf : some_first (x :: y :: T) = (offset_of (in_c x) =? 0) || some_first (y :: T)) by done.
    destruct (Z.eqb_spec (offset_of (in_c x)) 0) as [H0|H0]; cbn [andb].
    + destruct (Z.eqb_spec (offset_of (g_hdr g)) 0) as [Hg0|Hg0]; cbn [negb]; split; try done; rewrite Hsf; cbn.
      * by destruct (some_first (y :: T)).
      * by apply first_offset.
    + split; try done. by rewrite Hsf.
Qed.

(** What is delivered in the end. *)
Definition delivery : option (Z * list (list Z)) := delivered_in (mk_dgram h (in_frag <$> ps) n true 0).

Lemma frag_inj x y : in_p x <> in_p y -> in_frag x <> in_frag y.
Proof. intros Hne Heq. apply Hne. exact (f_equal f_p Heq). Qed.

Lemma last_of x : x ∈ ps -> is_last (in_c x) = true -> f_end (in_frag x) = n.
Proof.
  intros Hx Hl. destruct (do_last _ _ _ Hps) as (xs&y&Heq&Hxs&_&Hn). rewrite Heq in Hx. apply elem_of_app in Hx as [Hx|Hx].
  - rewrite Forall_forall in Hxs. specialize (Hxs x Hx). congruence.
  - by apply list_elem_of_singleton in Hx as ->.
Qed.

Lemma end_of x : x ∈ ps -> f_end (in_frag x) <= n.
Proof.
  intros Hx. destruct (do_last _ _ _ Hps) as (xs&y&Heq&_&_&Hyn). rewrite <- Hyn.
  destruct (no_hole_sorted _ _ (do_whole _ _ _ Hps) frags_proper) as [Hs _]. pose proof frags_proper as Hp.
  rewrite Heq in Hs, Hp, Hx. apply elem_of_app in Hx as [Hx|Hx]; [|by apply list_elem_of_singleton in Hx as ->].
  rewrite fmap_app in Hs, Hp. destruct (StronglySorted_app_1_elem_of _ _ _ (in_frag x) (in_frag y) Hs) as [_ Hb]; [set_solver..|].
  apply Forall_app in Hp as [_ [Hy _]%Forall_cons]. unfold proper in Hy. lia.
Qed.

Lemma total_cons x xs : total (x :: xs) = Z.of_nat (length (in_c x :: in_cs x)) + total xs.
Proof. unfold total. rewrite bind_cons, length_app. lia. Qed.

Lemma total_perm xs ys : xs ≡ₚ ys -> total xs = total ys.
Proof. intros Hp. unfold total. by rewrite Hp. Qed.

Lemma bufs_taken S T g : taken S T g -> dg_bufs g = total T.
Proof.
  intros [Hp _ _ _ _ _]. unfold dg_bufs, total. rewrite Hp. f_equal. clear. induction T as [|x T IH]; [done|].
  rewrite fmap_cons, !bind_cons, !length_app. cbn [in_frag frag_of f_data length]. lia.
Qed.

Lemma bufs_so_far T w : so_far T w -> bufs (w_dgrams w) = bufs D + total T.
Proof.
  destruct T as [|y T]; cbn [so_far]; [intros ->; cbn; unfold total; cbn; lia|]. intros (g&Hg&->). cbn [w_dgrams].
  rewrite bufs_cons. cbn [snd]. rewrite (bufs_taken _ _ _ Hg). lia.
Qed.

Lemma perm_in T x rest : T ++ x :: rest ≡ₚ ps -> x ∈ ps /\ (forall y, y ∈ T -> y ∈ ps) /\ x ∉ T /\ x ∉ rest /\ forall y, y ∈ rest -> y ∈ ps /\ y ∉ T.
Proof.
  intros Hp. pose proof (NoDup_fmap_1 in_p ps (do_names _ _ _ Hps)) as Hn. rewrite <- Hp in Hn. apply NoDup_app in Hn as (_&H1&H2).
  apply NoDup_cons in H2 as [H2 _]. assert (Hall : forall y, y ∈ T ++ x :: rest -> y ∈ ps) by (intros y; by rewrite Hp).
  split; [set_solver|]. split; [set_solver|]. split; [intros Hin; apply (H1 x Hin); set_solver|]. split; [done|]. intros y Hy.
  split; [set_solver|]. intros Hin. apply (H1 y Hin). set_solver.
Qed.

Lemma apart_of x y : x ∈ ps -> y ∈ ps -> x <> y -> before (in_frag x) (in_frag y) \/ before (in_frag y) (in_frag x).
Proof.
  intros Hx Hy Hne. destruct (no_hole_sorted _ _ (do_whole _ _ _ Hps) frags_proper) as [Hs _].
  apply (sorted_apart _ _ _ Hs); [set_solver..|]. apply frag_inj. intros Heq. apply Hne.
  apply list_elem_of_lookup in Hx as [j Hj]. apply list_elem_of_lookup in Hy as [k Hk].
  assert (j = k) as ->; [|congruence]. apply (NoDup_lookup (in_p <$> ps) j k (in_p x)); [exact (do_names _ _ _ Hps)| |].
  - by rewrite list_lookup_fmap, Hj.
  - rewrite list_lookup_fmap, Hk. cbn. by rewrite Heq.
Qed.

(** All are there exactly when nothing is left. *)
Lemma complete_iff T x rest l : T ++ x :: rest ≡ₚ ps -> l ≡ₚ in_frag <$> x :: T -> StronglySorted before l ->
  some_last (x :: T) && no_hole 0 l = match rest with [] => true | _ => false end /\ (rest = [] -> l = in_frag <$> ps).
Proof.
  intros Hp Hl Hs. destruct (perm_in T x rest Hp) as (Hx&HT&HxT&Hxr&Hr). destruct (no_hole_sorted _ _ (do_whole _ _ _ Hps) frags_proper) as [Hsp _].
  destruct (do_last _ _ _ Hps) as (xs&z&Heq&Hxs&Hz&_).
  assert (Hin : forall y, y ∈ x :: T <-> y ∈ ps /\ y ∉ rest).
  { intros y. split.
    - intros [->|Hy]%elem_of_cons; [done|]. split; [by apply HT|]. intros Hyr. by destruct (Hr y Hyr).
    - intros [Hy Hyr]. rewrite <- Hp in Hy. set_solver. }
  destruct rest as [|y rest].
  - assert (Hall : l = in_frag <$> ps).
    { apply sorted_perm; [|done..]. rewrite Hl, <- Hp. by rewrite Permutation_app_comm. }
    split; [|done]. rewrite Hall, (do_whole _ _ _ Hps), andb_true_r. apply existsb_exists. exists z. split; [|done].
    apply list_elem_of_In, Hin. split; [rewrite Heq; set_solver|apply not_elem_of_nil].
  - split; [|done]. destruct (some_last (x :: T)) eqn:Hsl; [|done]. cbn [andb]. destruct (no_hole 0 l) eqn:Hnh; [|done]. exfalso.
    apply existsb_exists in Hsl as (z'&Hz0%list_elem_of_In&Hz2). pose proof (proj1 (proj1 (Hin z') Hz0)) as Hz1.
    assert (z' = z) as ->.
    { rewrite Heq in Hz1. apply elem_of_app in Hz1 as [Hz1|Hz1]; [|by apply list_elem_of_singleton in Hz1].
      rewrite Forall_forall in Hxs. rewrite (Hxs z' Hz1) in Hz2. done. }
    assert (Hzl : in_frag z ∈ l) by (rewrite Hl; by apply list_elem_of_fmap_2).
    assert (Hlx : forall f, f ∈ l -> f ∈ in_frag <$> ps).
    { intros f. rewrite Hl. intros (u&->&[Hu _]%Hin)%list_elem_of_fmap. by apply list_elem_of_fmap_2. }
    assert (Hall : l = in_frag <$> ps).
    { assert (Hsplit : in_frag <$> ps = (in_frag <$> xs) ++ [in_frag z]) by (by rewrite Heq, fmap_app).
      pose proof (do_whole _ _ _ Hps) as Hw. pose proof frags_proper as Hpr. rewrite Hsplit in *. by apply (no_hole_whole 0). }
    assert (Hlen : length l = length ps) by (by rewrite Hall, length_fmap). rewrite Hl, <- Hp, length_fmap, length_app in Hlen. clear -Hlen.
    cbn in Hlen. lia.
Qed.

(** The next fragment; it is the last one to come if nothing is left. *)
Lemma next_frag T x rest w : so_far T w -> T ++ x :: rest ≡ₚ ps ->
  exists o w', fragment_in (in_p x) (in_c x) (in_cs x) w = (o, w') /\
    match rest with
    | [] => o = delivery /\ w' = mk_waiting D (i :: fr)
    | _ => o = None /\ so_far (x :: T) w'
    end.
Proof.
  intros Hs Hp. destruct (perm_in T x rest Hp) as (Hx&HT&HxT&_&_). unfold fragment_in.
  rewrite (proj1 (Forall_forall _ _) (do_plain _ _ _ Hps) x Hx). cbn [negb].
  assert (Hacc : forall m, m = Z.of_nat (length (in_c x :: in_cs x)) -> accept_frag (in_hdr x) m w = (true, w)).
  { intros m ->. unfold accept_frag. rewrite (bufs_so_far T w Hs). pose proof (total_perm _ _ Hp) as Ht.
    rewrite <- (total_perm _ _ (Permutation_middle T rest x)), total_cons in Ht. rewrite (proj2 (Z.ltb_ge _ _)); [done|].
    assert (total T <= total (T ++ rest)) by (unfold total; rewrite bind_app, length_app; lia). lia. }
  fold (in_hdr x). rewrite Hacc by done. cbn [negb].
  destruct (next_datagram T x (Z.of_nat (length (in_c x :: in_cs x))) w Hs Hx) as (g&->&Hg). fold (in_frag x). unfold put_frag.
  pose proof (end_of x Hx) as Hend. pose proof (do_size _ _ _ Hps) as Hmax. unfold IP_HLEN in Hmax.
  rewrite (proj2 (Z.ltb_ge 0xFFFF _)), (proj2 (Z.ltb_ge (0xFFFF - IP_HLEN) _)), andb_false_r by (unfold IP_HLEN; lia). cbn [orb].
  pose proof Hg as [Hf Hso Hla Hle Hk Hh].
  destruct (ins_apart (in_frag x) (g_frags g)) as [l Hins].
  - exact (proj1 (Forall_forall _ _) (do_data _ _ _ Hps) x Hx).
  - rewrite Hf. apply Forall_fmap, Forall_forall. intros y Hy. apply apart_of; [done|by apply HT|congruence].
  - rewrite Hins. cbn [g_last g_frags]. pose proof (ins_perm _ _ _ Hins) as Hl. rewrite Hf in Hl.
    assert (Hprop : forall y, y ∈ ps -> f_start (in_frag y) <= f_end (in_frag y)).
    { intros y Hy. apply Z.lt_le_incl. exact (proj1 (Forall_forall _ _) (do_data _ _ _ Hps) y Hy). }
    assert (Hsl : StronglySorted before l).
    { apply (ins_sorted (in_frag x) (g_frags g)); auto. rewrite Hf. apply Forall_fmap, Forall_forall. auto. }
    destruct (complete_iff T x rest l Hp Hl Hsl) as [Hc Hall].
    assert (Hlast : g_last g || is_last (in_c x) = some_last (x :: T)) by (rewrite Hla, orb_comm; done).
    rewrite Hlast, Hc. assert (Hlen : some_last (x :: T) = true -> (if is_last (in_c x) then f_end (in_frag x) else g_len g) = n).
    { destruct (is_last (in_c x)) eqn:Hxl; [by intros _; apply last_of|]. rewrite <- Hlast, orb_false_r. exact Hle. }
    destruct rest as [|y rest].
    + eexists _, _. split; [reflexivity|]. apply andb_true_iff in Hc as [Hc _]. rewrite (Hall eq_refl), (Hlen Hc). split.
      * assert (Hsf : some_first (x :: T) = true).
        { apply existsb_exists. destruct (head ps) as [z|] eqn:Hz; [|by pose proof (do_first _ _ _ Hps) as Hd; rewrite Hz in Hd].
          exists z. split; [|pose proof (do_whole _ _ _ Hps) as Hw; destruct ps as [|z' ps']; [done|]; injection Hz as ->; rewrite fmap_cons in Hw;
            cbn [no_hole] in Hw; apply andb_true_iff in Hw as [Hw%Z.eqb_eq _]; rewrite start_offset in Hw; apply Z.eqb_eq; lia].
          apply list_elem_of_In. rewrite <- Permutation_middle, app_nil_r in Hp. rewrite Hp. by apply head_Some_elem_of. }
        rewrite Hsf in Hh. rewrite Hh. done.
      * unfold remove_dg. f_equal. apply (filter_name [] i g D); set_solver.
    + eexists _, _. split; [reflexivity|]. split; [done|]. unfold set_dg. cbn [w_dgrams w_free].
      rewrite (set_name [] i g _ D) by set_solver. eexists. split; [|reflexivity]. split; done.
Qed.

Lemma feed_rest T rest w : so_far T w -> rest <> [] -> T ++ rest ≡ₚ ps -> feed rest w = (option_list delivery, mk_waiting D (i :: fr)).
Proof.
  revert T w. induction rest as [|x rest IH]; intros T w Hs Hne Hp; [done|]. cbn [feed].
  destruct (next_frag T x rest w Hs Hp) as (o&w'&->&Hres). destruct rest as [|y rest].
  - destruct Hres as [-> ->]. cbn. by rewrite app_nil_r.
  - destruct Hres as [-> Hs']. rewrite (IH (x :: T)); [done..|]. cbn. rewrite <- Hp. apply Permutation_middle.
Qed.
End order.

Lemma delivery_data ps h n : datagram_of ps h n -> length h = 20%nat -> exists p cs, delivery ps h n = Some (p, cs) /\ in_p <$> head ps = Some p /\
  concat cs = whole_header h n ++ concat (concat (f_data <$> (in_frag <$> ps))).
Proof.
  intros Hps Hh. unfold delivery, delivered_in, whole. cbn [g_frags g_hdr g_len]. destruct ps as [|x ps]; [by pose proof (do_first _ _ _ Hps)|].
  eexists _, _. split; [reflexivity|]. split; [done|]. rewrite fmap_cons, bind_cons. cbn [in_frag frag_of f_data app concat].
  rewrite <- app_assoc. f_equal. cbn. f_equal. rewrite !concat_app. f_equal. f_equal. clear. induction ps as [|y ps IH]; [done|]. cbn. by rewrite IH.
Qed.
