(* ===== verification/Ip4ReassMem.v ===== *)
(** * Reassembly in memory

    How the datagrams that wait ([Ip4ReassSpec.waiting]) lie in memory: the
    structures are linked through [next], the packets of a datagram through the
    bytes of their IP headers.  The functions of
    [src/lib/lwip/src/core/ipv4/ip4_frag.c] that look at or change these lists. *)

From stdpp Require Import base numbers decidable gmap gmultiset list.
From Stdlib Require Import ZArith Lia Bool.
From S2P Require Import Prelude Linked LwipMem Pbuf PbufChain PbufPool PbufProps OnesComp InetChksum InetChksumProps PbufView Ip4Addr Ethernet Ip4 Icmp PbufOwn Below BelowIcmp Ip4Reass Ip4ReassSpec Ip4ReassOrder.
Open Scope Z_scope.

Implicit Types (K : gmap Z (Z * list (list Z))) (D : list (Z * dgram)) (fr : list Z) (g : dgram).

(** ** The relation *)

(** The fragments [fs], linked through their headers. *)
Fixpoint frags_in K (o : option Z) (fs : list frag) : Prop :=
  match fs with
  | [] => o = None
  | f :: fs =>
      o = Some (f_p f) /\ exists off c cs, K !! f_p f = Some (off, c :: cs) /\ (20 <= length c)%nat /\
        header_field c 4 2 = f_start f /\ header_field c 6 2 = f_end f /\ f_data f = drop 20 c :: cs /\
        frags_in K (ptr_of (header_field c 0 4)) fs
  end.

Definition dgram_in K (d : ip_reassdata) g : Prop :=
  r_iphdr d = g_hdr g /\ datagram_len d = g_len g /\ r_flags d = (if g_last g then IP_REASS_FLAG_LASTFRAG else 0) /\
  timer d = g_timer g /\ frags_in K (r_p d) (g_frags g).

Definition dgrams_in K D (x : reass) : Prop := Forall (fun y => exists d, reassdata x !! y.1 = Some d /\ dgram_in K d y.2) D.

(** The lists of structures. *)
Record links D fr (x : reass) : Prop := {
  lk_list : linked r_next (reassdata x) (reassdatagrams x) D.*1;
  lk_free : linked r_next (reassdata x) (tab_reassdata x) fr;
  lk_names : NoDup (D.*1 ++ fr)
}.

Record reass_in K (w : waiting) (x : reass) : Prop := {
  ri_links : links (w_dgrams w) (w_free w) x;
  ri_each : dgrams_in K (w_dgrams w) x;
  ri_count : ip_reass_pbufcount x = bufs (w_dgrams w)
}.

Lemma frags_in_ext K K' o fs : (forall p, p ∈ f_p <$> fs -> K' !! p = K !! p) -> frags_in K o fs -> frags_in K' o fs.
Proof.
  revert o. induction fs as [|f fs IH]; intros o He; [done|]. intros [-> (off&c&cs&HK&Hl&Hs&He'&Hd&Hr)]. split; [done|]. exists off, c, cs.
  rewrite He by set_solver. split_and!; try done. apply IH; [|done]. intros p Hp. apply He. set_solver.
Qed.

(** What a structure says, apart from the link. *)
Definition body (d : ip_reassdata) := (r_p d, r_iphdr d, datagram_len d, r_flags d, timer d).

Lemma dgram_in_ext K K' d d' g : (forall p, p ∈ f_p <$> g_frags g -> K' !! p = K !! p) -> body d' = body d ->
  dgram_in K d g -> dgram_in K' d' g.
Proof.
  intros HK Hb (H1&H2&H3&H4&H5). unfold body in Hb. injection Hb as E1 E2 E3 E4 E5. unfold dgram_in. rewrite E1, E2, E3, E4, E5.
  split_and!; try done. by apply (frags_in_ext K).
Qed.

Lemma dgrams_in_ext K K' D x x' : (forall p, p ∈ packets_of D -> K' !! p = K !! p) ->
  (forall i, i ∈ D.*1 -> body <$> reassdata x' !! i = body <$> reassdata x !! i) -> dgrams_in K D x -> dgrams_in K' D x'.
Proof.
  intros HK Hb. unfold dgrams_in. rewrite !Forall_forall. intros Hall y Hy. destruct (Hall y Hy) as (d&Hd&Hg).
  specialize (Hb y.1 (list_elem_of_fmap_2 _ _ _ Hy)). rewrite Hd in Hb. destruct (reassdata x' !! y.1) as [d'|] eqn:Hd'; [|done].
  assert (Hbd : body d' = body d) by (by apply (inj Some) in Hb). exists d'. split; [done|]. apply (dgram_in_ext K _ d); [|done|done]. intros p Hp. apply HK. unfold packets_of. apply list_elem_of_bind. by exists y.
Qed.

Lemma dgrams_in_app K D1 D2 x : dgrams_in K (D1 ++ D2) x <-> dgrams_in K D1 x /\ dgrams_in K D2 x.
Proof. apply Forall_app. Qed.

Lemma dgrams_in_cons K i g D x : dgrams_in K ((i, g) :: D) x <-> (exists d, reassdata x !! i = Some d /\ dgram_in K d g) /\ dgrams_in K D x.
Proof. unfold dgrams_in. rewrite Forall_cons. done. Qed.

Lemma dgrams_in_split K D1 i g D2 x : dgrams_in K (D1 ++ (i, g) :: D2) x ->
  (exists d, reassdata x !! i = Some d /\ dgram_in K d g) /\ dgrams_in K (D1 ++ D2) x.
Proof. rewrite !dgrams_in_app, dgrams_in_cons. tauto. Qed.

(** ** The lists of structures *)

Lemma r_deref_ok x i d : reassdata x !! i = Some d -> r_deref x i = Ok d.
Proof. unfold r_deref. by intros ->. Qed.

Lemma r_assign_ok x i d f : reassdata x !! i = Some d -> r_assign i f x = Ok (set_reassdata (<[i := f d]> (reassdata x)) x).
Proof. intros Hd. unfold r_assign. by rewrite (r_deref_ok _ _ _ Hd). Qed.

Lemma links_deref D fr x i : links D fr x -> i ∈ D.*1 ++ fr -> exists d, reassdata x !! i = Some d.
Proof. intros [Hl Hf _] [Hi|Hi]%elem_of_app; [by apply (linked_dom _ _ _ _ Hl)|by apply (linked_dom _ _ _ _ Hf)]. Qed.

(** A change that keeps [next]. *)
Lemma links_assign D fr x i d d' : links D fr x -> reassdata x !! i = Some d -> r_next d' = r_next d ->
  links D fr (set_reassdata (<[i := d']> (reassdata x)) x).
Proof.
  intros [Hl Hf Hn] Hd He. split; [..|done]; cbn; (apply (linked_ext (reassdata x)); [|done]); intros q _;
    (destruct (decide (q = i)) as [->|]; [rewrite lookup_insert_eq, Hd; cbn; by rewrite He|by rewrite lookup_insert_ne]).
Qed.

Lemma links_fuel D fr x : links D fr x -> (length D < reass_fuel x)%nat.
Proof. intros [Hl _ _]. apply linked_size in Hl. rewrite length_fmap in Hl. unfold reass_fuel. lia. Qed.

Lemma dequeue_ok D1 i g D2 fr x : links (D1 ++ (i, g) :: D2) fr x ->
  exists x', ip_reass_dequeue_datagram i (last D1.*1) x = Ok x' /\ links (D1 ++ D2) (i :: fr) x' /\
    ip_reass_pbufcount x' = ip_reass_pbufcount x /\ forall j, j <> i -> body <$> reassdata x' !! j = body <$> reassdata x !! j.
Proof.
  intros Hlk. destruct (links_deref _ _ _ i Hlk) as [d Hd]; [rewrite fmap_app; set_solver|]. pose proof Hlk as [Hl Hf Hn].
  rewrite fmap_app, fmap_cons in Hl, Hn. cbn [fst] in Hl, Hn. assert (Hfree : i ∉ D1.*1 /\ i ∉ D2.*1 /\ i ∉ fr).
  { rewrite <- app_assoc in Hn. cbn in Hn. rewrite <- Permutation_middle in Hn. apply NoDup_cons in Hn as [Hn _]. set_solver. }
  destruct Hfree as (HD1&HD2&Hfr).
  unfold ip_reass_dequeue_datagram. rewrite (r_deref_ok _ _ _ Hd). cbn [rbind].
  assert (Hmid : exists x1, (if bool_decide (reassdatagrams x = Some i) then Ok (set_reassdatagrams (r_next d) x)
    else let* prev := not_null (last D1.*1) in r_assign prev (set_r_next (r_next d)) x) = Ok x1 /\
    linked r_next (reassdata x1) (reassdatagrams x1) (D1 ++ D2).*1 /\ linked r_next (reassdata x1) (tab_reassdata x1) fr /\
    ip_reass_pbufcount x1 = ip_reass_pbufcount x /\ reassdata x1 !! i = Some d /\
    forall j, j <> i -> body <$> reassdata x1 !! j = body <$> reassdata x !! j).
  { destruct D1 as [|y D1 _] using rev_ind.
    - cbn in Hl. destruct Hl as [Hh (b&Hb&Hl)]. assert (b = d) as -> by congruence. rewrite bool_decide_eq_true_2 by done.
      eexists. split; [reflexivity|]. by split_and!.
    - rewrite bool_decide_eq_false_2.
      2:{ intros Hh. rewrite Hh in Hl. rewrite fmap_app in Hl, HD1. destruct (D1.*1) as [|k l]; cbn in Hl; destruct Hl as [[= ->] _]; set_solver. }
      assert (Hlast : last (D1 ++ [y]).*1 = Some y.1) by (rewrite fmap_app; apply last_snoc). rewrite Hlast. cbn [not_null rbind].
      destruct (links_deref _ _ _ y.1 Hlk) as [dy Hdy]; [rewrite !fmap_app; set_solver|]. rewrite (r_assign_ok _ _ _ _ Hdy).
      assert (Hyi : y.1 <> i) by (rewrite fmap_app in HD1; set_solver).
      eexists. split; [reflexivity|]. cbn. split; [|split; [|split; [done|]]].
      + assert (Hn1 : NoDup ((D1 ++ [y]).*1 ++ i :: D2.*1)) by (by apply NoDup_app in Hn as [? _]).
        rewrite fmap_app, <- app_assoc in Hl, Hn1. rewrite !fmap_app, <- app_assoc. cbn in *. by apply (linked_skip _ _ _ _ _ i _ dy d).
      + apply linked_insert_ne; [|done]. apply NoDup_app in Hn as (_&Hn&_). apply Hn. rewrite fmap_app. set_solver.
      + split; [by rewrite lookup_insert_ne|]. intros j Hj. destruct (decide (j = y.1)) as [->|]; [by rewrite lookup_insert_eq, Hdy|by rewrite lookup_insert_ne]. }
  destruct Hmid as (x1&->&Hl1&Hf1&Hc1&Hd1&Hb1). cbn [rbind]. unfold reassdata_free. rewrite (r_assign_ok _ _ _ _ Hd1). cbn [rbind].
  eexists. split; [reflexivity|]. split; [|split; [done|]].
  - split; cbn.
    + apply linked_insert_ne; [rewrite fmap_app; set_solver|done].
    + split; [done|]. eexists. rewrite lookup_insert_eq. split; [done|]. cbn. by apply linked_insert_ne.
    + rewrite fmap_app, <- app_assoc in *. cbn in Hn. by rewrite <- (Permutation_middle D2.*1 fr i).
  - intros j Hj. cbn. rewrite lookup_insert_ne by done. by apply Hb1.
Qed.

(** ** Headers *)

Lemma field_same c off v : 0 <= off -> off + Z.of_nat (length v) <= Z.of_nat (length c) ->
  header_field (splice (Z.to_nat off) v c) off (Z.of_nat (length v)) = le_val v.
Proof. intros Ho Hl. unfold header_field, bytes_at. rewrite Nat2Z.id. by rewrite slice_splice_same by lia. Qed.

Lemma field_other c off v off' k : 0 <= off -> off + Z.of_nat (length v) <= Z.of_nat (length c) -> 0 <= off' -> 0 <= k ->
  off' + k <= off \/ off + Z.of_nat (length v) <= off' ->
  header_field (splice (Z.to_nat off) v c) off' k = header_field c off' k.
Proof. intros Ho Hl Ho' Hk Hd. unfold header_field, bytes_at. by rewrite slice_splice_disj by lia. Qed.

Lemma drop_splice k off v (c : list Z) : (off + length v <= k)%nat -> (k <= length c)%nat -> drop k (splice off v c) = drop k c.
Proof.
  intros Hk Hl. unfold splice. rewrite app_assoc, drop_app. rewrite length_app, length_take.
  rewrite drop_ge by (rewrite length_app, length_take; lia). cbn. rewrite drop_drop. f_equal. lia.
Qed.

Lemma ptr_code_of p : is_ptr p -> ptr_of (le_val (le_bytes 4 p)) = Some p.
Proof.
  intros Hp. unfold is_ptr in Hp. rewrite le_val_bytes, Z.mod_small by (cbn; lia). unfold ptr_of. by rewrite (proj2 (Z.eqb_neq p 0)) by lia.
Qed.

Lemma word_of v : 0 <= v < 65536 -> le_val (le_bytes 2 v) = v.
Proof. intros Hv. rewrite le_val_bytes, Z.mod_small; [done|cbn; lia]. Qed.

Section mem.
Context {X H : Type} `{OutputLaws X H} `{!Part reass X}.
Implicit Types (t : lwip H) (s : ip4 X H) (R r : gmultiset Z).

Section field.
Context K R t p o c cs (Hb : below K R t) (HK : K !! p = Some (o, c :: cs)) (Hc : (20 <= length c)%nat).

Lemma read_field off n : 0 <= off -> 0 <= n -> off + n <= 20 -> ld t (Some (p, o)) off n = Ok (header_field c off n).
Proof. intros. unfold header_field. apply (kept_ld K R t p o c cs); (done || lia). Qed.

Lemma read_next : next_pbuf t (Some (p, o)) = Ok (ptr_of (header_field c 0 4)).
Proof. unfold next_pbuf. by rewrite read_field by lia. Qed.
Lemma read_start : start t (Some (p, o)) = Ok (header_field c 4 2).
Proof. unfold start. by rewrite read_field by lia. Qed.
Lemma read_end : end_ t (Some (p, o)) = Ok (header_field c 6 2).
Proof. unfold end_. by rewrite read_field by lia. Qed.
End field.

Lemma known_fuel K R t (l : list Z) : below K R t -> NoDup l -> (forall p, p ∈ l -> p ∈ R) -> (length l < chain_fuel t)%nat.
Proof.
  intros Hb Hn Hl. assert (Hsub : list_to_set l ⊆ dom (pbufs t)).
  { intros p Hp%elem_of_list_to_set. apply elem_of_dom. destruct (below_head K R t p Hb (Hl p Hp)) as (b&->&_). by eexists. }
  apply subseteq_size in Hsub. rewrite size_list_to_set, size_dom in Hsub by done. unfold chain_fuel. lia.
Qed.

(** ** Freeing packets *)

Lemma count_and_free_ok K R p o cs n s : below K ({[+ p +]} ⊎ R) (stack s) -> K !! p = Some (o, cs) -> 0 <= n ->
  n + Z.of_nat (length cs) < 65536 ->
  exists t, count_and_free p n s = Ok (n + Z.of_nat (length cs), set_stack t s) /\ below (delete p K) R t.
Proof.
  intros Hb HK Hn Hm. unfold count_and_free. rewrite (kept_clen K _ _ p o cs Hb HK) by lia. cbn [rbind]. rewrite wrap16_small by lia.
  assert (Hb1 : below (delete p K) ({[+ p +]} ⊎ R) (stack s)) by (apply below_forget; [done|multiset_solver]).
  destruct (drop_ok (delete p K) R s p Hb1) as (t&->&Ht); [apply lookup_delete_eq|]. cbn [rbind]. by exists t.
Qed.

Lemma free_frags_ok fuel K R fs o n s : below K (list_to_set_disj (f_p <$> fs) ⊎ R) (stack s) -> frags_in K o fs ->
  NoDup (f_p <$> fs) -> (length fs < fuel)%nat -> 0 <= n -> n + Z.of_nat (length (fs ≫= f_data)) < 65536 ->
  exists K' t, free_frags_loop fuel o n s = Ok (n + Z.of_nat (length (fs ≫= f_data)), set_stack t s) /\ below K' R t /\
    forall q, q ∉ f_p <$> fs -> K' !! q = K !! q.
Proof.
  revert K o n s fs. induction fuel as [|fuel IH]; intros K o n s fs Hb Hf Hn Hfu Hn0 Hm; [lia|]. cbn [free_frags_loop].
  destruct fs as [|f fs].
  - cbn in Hf. subst o. exists K, (stack s). cbn. rewrite Z.add_0_r. split; [by destruct s|]. split; [|done].
    change (list_to_set_disj (f_p <$> [])) with (∅ : gmultiset Z) in Hb. by rewrite (left_id_L ∅ (⊎)) in Hb.
  - destruct Hf as [-> (off&c&cs&HK&Hc&_&_&Hd&Hf)]. rewrite fmap_cons in *. apply NoDup_cons in Hn as [Hfn Hn].
    rewrite list_to_set_disj_cons, <- (assoc_L (⊎)) in Hb. rewrite bind_cons, length_app, Hd in *. cbn [length] in *.
    destruct (kept_deref K _ _ _ _ _ _ Hb HK) as (b&->&Hpay). cbn [rbind]. rewrite Hpay.
    rewrite (read_next K _ _ _ _ _ _ Hb HK Hc). cbn [rbind].
    destruct (count_and_free_ok K _ _ _ _ n s Hb HK) as (t&->&Ht); [lia|cbn [length]; lia|]. cbn [rbind].
    destruct (IH (delete (f_p f) K) (ptr_of (header_field c 0 4)) (n + Z.of_nat (length (c :: cs))) (set_stack t s) fs) as (K'&t'&Hrun&Hb'&HK');
      try done; [|lia|lia|cbn [length]; lia|].
    + apply (frags_in_ext K); [|done]. intros p Hp. rewrite lookup_delete_ne; [done|]. by intros <-.
    + exists K', t'. rewrite Hrun. split; [f_equal; f_equal; cbn [length]; lia|]. split; [done|]. intros q Hq.
      rewrite HK' by set_solver. rewrite lookup_delete_ne; [done|]. set_solver.
Qed.
End mem.
