(* ===== verification/Ip4ReassRoom.v ===== *)
(** * Datagrams that are given up

    [ip_reass_free_complete_datagram], the timer and the removal of the oldest
    datagrams of [src/lib/lwip/src/core/ipv4/ip4_frag.c] do what
    [Ip4ReassSpec.remove_dg], [tick] and [evict] say: they end, free each packet
    once, and tell the sender of a datagram whose first fragment had come. *)

From stdpp Require Import base numbers decidable gmap gmultiset list.
From Stdlib Require Import ZArith Lia Bool.
From S2P Require Import Prelude Linked LwipMem Pbuf PbufChain PbufPool PbufProps OnesComp InetChksum InetChksumProps PbufView Ip4Addr Ethernet Ip4 Icmp PbufOwn Below BelowIcmp Ip4Reass Ip4ReassSpec Ip4ReassOrder Ip4ReassMem.
Open Scope Z_scope.

Implicit Types (K : gmap Z (Z * list (list Z))) (D : list (Z * dgram)) (fr : list Z) (g : dgram).

(** The references reassembly holds. *)
Definition held D : gmultiset Z := list_to_set_disj (packets_of D).

Lemma held_split D1 i g D2 : held (D1 ++ (i, g) :: D2) = list_to_set_disj (f_p <$> g_frags g) ⊎ held (D1 ++ D2).
Proof. unfold held. rewrite !packets_app, packets_cons, !list_to_set_disj_app. cbn [snd]. multiset_solver. Qed.

Lemma elem_held D p : p ∈ held D <-> p ∈ packets_of D.
Proof. apply elem_of_list_to_set_disj. Qed.

Section room.
Context {X H : Type} `{OutputLaws X H} `{!Part reass X}.
Context (base : Z -> Z) (nif : Z -> netif) (netif_default : option Z).
Implicit Types (t : lwip H) (s : ip4 X H) (R r : gmultiset Z) (w : waiting).

(** The datagrams [w] wait in [s], beside the references [r] of others. *)
Record reassembling K r w s : Prop := {
  rg_below : below K (held (w_dgrams w) ⊎ r) (stack s);
  rg_in : reass_in K w (rs s);
  rg_apart : forall p, p ∈ packets_of (w_dgrams w) -> p ∉ r
}.

(** Nothing else of ours has changed. *)
Definition only_reass s s' : Prop := ip_data s' = ip_data s /\ exists x, around s' = set_part x (around s).

#[export] Instance only_reass_preorder : PreOrder only_reass.
Proof.
  split; [intros s; split; [done|]; exists (rs s); unfold rs; by rewrite set_part_same|]. intros x y z [Hd [a Ha]] [Hd' [b Hb]].
  split; [congruence|]. exists b. by rewrite Hb, Ha, set_part_set.
Qed.

Lemma only_stack t s : only_reass s (set_stack t s).
Proof. split; [done|]. exists (rs s). cbn. unfold rs. by rewrite set_part_same. Qed.

Lemma only_put x s : only_reass s (put_reass x s).
Proof. split; [done|]. by exists x. Qed.

Lemma same_only s s' : same_vars s s' -> only_reass s s' /\ rs s' = rs s.
Proof. intros [Hd Ha]. unfold only_reass, rs. rewrite Ha. split; [split; [done|]|done]. exists (rs s). unfold rs. by rewrite set_part_same. Qed.

Lemma rs_put x s : rs (put_reass x s) = x.
Proof. unfold rs, put_reass. cbn. apply part_set. Qed.

Lemma on_reass_ok f s x : f (rs s) = Ok x -> on_reass f s = Ok (put_reass x s).
Proof. unfold on_reass. by intros ->. Qed.

Lemma kept_header K R t p o c cs : below K R t -> K !! p = Some (o, c :: cs) -> (20 <= length c)%nat -> has_header t p.
Proof.
  intros Hb HK Hc. destruct (kept_head K R t p o c cs Hb HK) as (b&bs&Hbp&Hpay&Ha&Ho&Hl&Hlen&Htot&_). exists b, o. split; [done|]. split; [done|].
  split; [exists bs; split; [done|lia]|]. rewrite Htot. lia.
Qed.

(** The first fragment goes back to its sender, if it has come. *)
Lemma first_freed K R f fs i d s : below K (list_to_set_disj (f_p <$> f :: fs) ⊎ R) (stack s) -> frags_in K (Some (f_p f)) (f :: fs) ->
  reassdata (rs s) !! i = Some d -> r_p d = Some (f_p f) -> length (r_iphdr d) = 20%nat -> NoDup (f_p <$> f :: fs) ->
  Z.of_nat (length (f_data f)) < 65536 ->
  exists K1 n s1 fs1 d1, (let* b := deref (stack s) (f_p f) in
     let* st := start (stack s) (payload b) in
     if st =? 0 then
       let* nxt := next_pbuf (stack s) (payload b) in
       let* s := on_reass (r_assign i (set_r_p nxt)) s in
       let* s := on_stack (fun x => st_bytes x (payload b) 0 (r_iphdr d)) s in
       let* s := icmp_time_exceeded base nif netif_default (f_p f) ICMP_TE_FRAG s in
       count_and_free (f_p f) 0 s
     else Ok (0, s)) = Ok (n, s1) /\
   below K1 (list_to_set_disj (f_p <$> fs1) ⊎ R) (stack s1) /\ frags_in K1 (r_p d1) fs1 /\ r_next d1 = r_next d /\
   rs s1 = set_reassdata (<[i := d1]> (reassdata (rs s))) (rs s) /\ only_reass s s1 /\ 0 <= n /\
   n + Z.of_nat (length (fs1 ≫= f_data)) = Z.of_nat (length ((f :: fs) ≫= f_data)) /\ NoDup (f_p <$> fs1) /\
   (forall q, q ∉ f_p <$> f :: fs -> K1 !! q = K !! q) /\ f_p <$> fs1 ⊆ f_p <$> f :: fs.
Proof.
  intros Hb Hf Hd Hp Hh Hn Hm. pose proof Hf as [_ (off&c&cs&HK&Hc&Hst&_&Hdat&Hf')].
  destruct (kept_deref K _ _ _ _ _ _ Hb HK) as (b&->&Hpay). cbn [rbind]. rewrite Hpay.
  rewrite (read_start K _ _ _ _ _ _ Hb HK Hc). cbn [rbind]. destruct (header_field c 4 2 =? 0).
  2:{ exists K, 0, s, (f :: fs), d. split; [done|]. rewrite Hp. split_and!; try done. rewrite insert_id by done. by destruct (rs s). }
  rewrite (read_next K _ _ _ _ _ _ Hb HK Hc). cbn [rbind]. rewrite (on_reass_ok _ _ _ (r_assign_ok _ _ _ _ Hd)). cbn [rbind].
  set (x1 := set_reassdata _ (rs s)). unfold on_stack.
  destruct (kept_st K _ (stack (put_reass x1 s)) (f_p f) off c cs 0 (r_iphdr d) Hb HK) as (t1&->&Hpb1&Hb1); [lia|lia|]. cbn [rbind].
  set (K1 := <[f_p f := _]> K) in *. rewrite fmap_cons in *. apply NoDup_cons in Hn as [Hfn Hn].
  rewrite list_to_set_disj_cons, <- (assoc_L (⊎)) in Hb1.
  assert (HK1 : K1 !! f_p f = Some (off, splice (Z.to_nat 0) (r_iphdr d) c :: cs)) by apply lookup_insert_eq.
  unfold icmp_time_exceeded.
  destruct (send_response_total base nif netif_default K1 _ (f_p f) ICMP_TE ICMP_TE_FRAG (set_stack t1 (put_reass x1 s)) Hb1) as (s2&->&Hb2&Hv2).
  { multiset_solver. }
  { apply (kept_header K1 _ t1 _ _ _ _ Hb1 HK1). rewrite length_splice by lia. done. }
  cbn [rbind]. destruct (count_and_free_ok K1 _ (f_p f) _ _ 0 s2 Hb2 HK1) as (t3&->&Hb3); [lia|rewrite Hdat in Hm; cbn [length] in *; lia|].
  destruct (same_only _ _ Hv2) as [Ho2 Hr2]. exists (delete (f_p f) K1). eexists _, _, fs, (set_r_p (ptr_of (header_field c 0 4)) d).
  split; [reflexivity|]. split; [exact Hb3|]. split; [|split; [done|split; [|split; [|split; [cbn [length]; lia|split; [|split; [done|split]]]]]]].
  - apply (frags_in_ext K); [|done]. intros q Hq. unfold K1. rewrite lookup_delete_ne, lookup_insert_ne; [done|..]; by intros <-.
  - change (rs (set_stack t3 s2)) with (rs s2). rewrite Hr2. change (rs (set_stack t1 (put_reass x1 s))) with (rs (put_reass x1 s)). by rewrite rs_put.
  - transitivity s2; [|apply only_stack]. transitivity (set_stack t1 (put_reass x1 s)); [|done]. transitivity (put_reass x1 s); [apply only_put|apply only_stack].
  - rewrite bind_cons, length_app, Hdat. cbn [length]. lia.
  - intros q Hq. unfold K1. rewrite lookup_delete_ne, lookup_insert_ne; [done|..]; set_solver.
  - set_solver.
Qed.
Lemma frags_below D1 i g D2 fr K r s : reassembling K r (mk_waiting (D1 ++ (i, g) :: D2) fr) s ->
  below K (list_to_set_disj (f_p <$> g_frags g) ⊎ (held (D1 ++ D2) ⊎ r)) (stack s).
Proof. intros [Hb _ _]. cbn [w_dgrams] in Hb. by rewrite held_split, <- (assoc_L (⊎)) in Hb. Qed.

Lemma parts_dgram D1 i g D2 fr : parts_ok (D1 ++ (i, g) :: D2) fr -> dgram_ok g.
Proof. intros [Hd _ _ _ _]. by apply Forall_app in Hd as [_ [? _]%Forall_cons]. Qed.

Lemma parts_apart D1 i g D2 fr : parts_ok (D1 ++ (i, g) :: D2) fr ->
  NoDup (f_p <$> g_frags g) /\ forall p, p ∈ packets_of (D1 ++ D2) -> p ∉ f_p <$> g_frags g.
Proof.
  intros [_ _ _ Hp _]. rewrite packets_app, packets_cons in Hp. cbn [snd] in Hp.
  rewrite (Permutation_app_swap_app (packets_of D1)) in Hp. apply NoDup_app in Hp as (Hx&Hy&_). split; [done|].
  intros p. rewrite packets_app. intros Hin Hin'. by apply (Hy p Hin').
Qed.

Lemma parts_bufs D1 i g D2 fr : parts_ok (D1 ++ (i, g) :: D2) fr -> dg_bufs g <= IP_REASS_MAX_PBUFS /\
  bufs (D1 ++ (i, g) :: D2) = dg_bufs g + bufs (D1 ++ D2).
Proof.
  intros [_ _ _ _ Hb]. rewrite !bufs_app, bufs_cons in *. cbn [snd] in *. pose proof (bufs_nonneg D1). pose proof (bufs_nonneg D2). lia.
Qed.

(** A datagram is given up. *)
Lemma free_complete_ok K r D1 i g D2 fr s : parts_ok (D1 ++ (i, g) :: D2) fr -> g_frags g <> [] ->
  reassembling K r (mk_waiting (D1 ++ (i, g) :: D2) fr) s ->
  exists K' s', ip_reass_free_complete_datagram base nif netif_default i (last D1.*1) s = Ok (dg_bufs g, s') /\
    reassembling K' r (mk_waiting (D1 ++ D2) (i :: fr)) s' /\ only_reass s s' /\
    forall q, q ∉ f_p <$> g_frags g -> K' !! q = K !! q.
Proof.
  intros Hp Hne Hr. pose proof (frags_below D1 i g D2 fr K r s Hr) as Hb. destruct Hr as [_ [Hlk Hea Hco] Hap]. cbn [w_dgrams w_free] in *.
  destruct (parts_dgram _ _ _ _ _ Hp) as [Hh _ _ _ _ _]. destruct (parts_apart _ _ _ _ _ Hp) as [Hnd Happ]. destruct (parts_bufs _ _ _ _ _ Hp) as [Hmax Hsum].
  destruct (dgrams_in_split _ _ _ _ _ _ Hea) as [(d&Hd&Hg) Hea']. destruct Hg as (Hhd&_&_&_&Hfr).
  destruct (g_frags g) as [|f fs] eqn:Hgf; [done|]. pose proof Hfr as [Hrp _]. rewrite Hrp in Hfr.
  unfold ip_reass_free_complete_datagram. rewrite (r_deref_ok _ _ _ Hd). cbn [rbind]. rewrite Hrp. cbn [not_null rbind].
  assert (Hg1 : Z.of_nat (length ((f :: fs) ≫= f_data)) = dg_bufs g) by (unfold dg_bufs; by rewrite Hgf). unfold IP_REASS_MAX_PBUFS in Hmax.
  destruct (first_freed K _ f fs i d s Hb Hfr Hd Hrp) as (K1&n&s1&fs1&d1&Hrun&Hb1&Hf1&Hn1&Hrs1&Hon1&Hn0&Hcnt&Hnd1&HK1&Hsub);
    [by rewrite Hhd|done|rewrite bind_cons, length_app in Hg1; lia|].
  destruct (deref (stack s) (f_p f)) as [b|]; [|done]. cbn [rbind] in *. destruct (start (stack s) (payload b)) as [st|]; [|done]. cbn [rbind] in *.
  rewrite Hrun. cbn [rbind]. rewrite Hrs1. rewrite (r_deref_ok _ i d1) by apply lookup_insert_eq. cbn [rbind].
  destruct (free_frags_ok (chain_fuel (stack s1)) K1 _ fs1 (r_p d1) n s1 Hb1 Hf1 Hnd1) as (K2&t2&->&Hb2&HK2); [|done|lia|].
  { pose proof (known_fuel K1 _ (stack s1) (f_p <$> fs1) Hb1 Hnd1) as Hfu. rewrite length_fmap in Hfu. apply Hfu. intros p Hpin.
    rewrite gmultiset_elem_of_disj_union, elem_of_list_to_set_disj. by left. }
  cbn [rbind]. rewrite Hcnt, Hg1. set (x1 := set_reassdata _ (rs s)) in *.
  assert (Hlk1 : links (D1 ++ (i, g) :: D2) fr x1) by (by apply (links_assign _ _ _ _ d)).
  destruct (dequeue_ok D1 i g D2 fr x1 Hlk1) as (x2&Hdq&Hlk2&Hc2&Hbo2).
  rewrite (on_reass_ok _ (set_stack t2 s1) x2) by (change (rs (set_stack t2 s1)) with (rs s1); by rewrite Hrs1). cbn [rbind]. rewrite rs_put.
  eexists K2, _. split; [reflexivity|]. split; [|split].
  - split; [done| |intros p Hpin; apply Hap; rewrite packets_app in *; rewrite packets_cons; set_solver]. rewrite rs_put. split.
    + by destruct Hlk2.
    + cbn [w_dgrams]. apply (dgrams_in_ext K _ _ (rs s)); [| |done].
      * intros p Hpin. rewrite HK2, HK1; [done|by apply Happ|]. intros Hin. apply (Happ p Hpin). by apply Hsub.
      * intros j Hj. cbn [reassdata set_pbufcount]. destruct (parts_name _ _ _ _ _ Hp) as (Hi1&Hi2&_). assert (Hji : j <> i) by (rewrite fmap_app in Hj; set_solver).
        rewrite Hbo2 by done. unfold x1. cbn. by rewrite lookup_insert_ne.
    + cbn [w_dgrams ip_reass_pbufcount set_pbufcount]. rewrite Hc2. unfold x1. cbn. rewrite Hco, Hsum. pose proof (bufs_nonneg (D1 ++ D2)).
      pose proof (po_bufs _ _ Hp) as Hbmax. rewrite Hsum in Hbmax. unfold IP_REASS_MAX_PBUFS in *. pose proof (dg_bufs_nonneg g). rewrite wrap16_small by lia. lia.
  - transitivity s1; [done|]. transitivity (set_stack t2 s1); [apply only_stack|]. etransitivity; [apply only_put|apply only_put].
  - intros q Hq. rewrite HK2, HK1; [done..|]. intros Hin. by apply Hq, Hsub.
Qed.
(** ** The timer *)

Lemma links_head D fr x : links D fr x -> reassdatagrams x = head D.*1.
Proof. intros [Hl _ _]. by apply linked_starts in Hl. Qed.

Lemma links_next D1 i g D2 fr x d : links (D1 ++ (i, g) :: D2) fr x -> reassdata x !! i = Some d -> r_next d = head D2.*1.
Proof.
  intros [Hl _ _] Hd. rewrite fmap_app, fmap_cons in Hl. cbn [fst] in Hl. apply linked_suffix in Hl as [_ (b&Hb&Hl)]. assert (b = d) as -> by congruence.
  by apply linked_starts in Hl.
Qed.

(** A datagram changes, its packets do not. *)
Lemma reassembling_set K r D1 i g g' D2 fr s d d' : reassembling K r (mk_waiting (D1 ++ (i, g) :: D2) fr) s -> i ∉ D1.*1 -> i ∉ D2.*1 ->
  reassdata (rs s) !! i = Some d -> r_next d' = r_next d -> dgram_in K d' g' -> g_frags g' = g_frags g ->
  reassembling K r (mk_waiting (D1 ++ (i, g') :: D2) fr) (put_reass (set_reassdata (<[i := d']> (reassdata (rs s))) (rs s)) s).
Proof.
  intros [Hb [Hlk Hea Hco] Hap] Hi1 Hi2 Hd Hn Hg Hf. cbn [w_dgrams w_free] in *.
  assert (Hheld : packets_of (D1 ++ (i, g') :: D2) = packets_of (D1 ++ (i, g) :: D2)) by (rewrite !packets_app, !packets_cons; cbn [snd]; by rewrite Hf).
  split; cbn [w_dgrams].
  - unfold held. by rewrite Hheld.
  - rewrite rs_put. split; cbn [w_dgrams w_free].
    + destruct (links_assign _ _ _ _ _ d' Hlk Hd Hn). split; [..|]; rewrite fmap_app, fmap_cons in *; done.
    + apply dgrams_in_split in Hea as [_ [Hd1 Hd2]%dgrams_in_app]. rewrite dgrams_in_app, dgrams_in_cons. split; [|split].
      * apply (dgrams_in_ext K _ _ (rs s)); [done| |done]. intros j Hj. cbn. rewrite lookup_insert_ne; [done|]. by intros ->.
      * exists d'. cbn. by rewrite lookup_insert_eq.
      * apply (dgrams_in_ext K _ _ (rs s)); [done| |done]. intros j Hj. cbn. rewrite lookup_insert_ne; [done|]. by intros ->.
    + cbn. rewrite Hco. rewrite !bufs_app, !bufs_cons. unfold dg_bufs. cbn [snd]. by rewrite Hf.
  - by rewrite Hheld.
Qed.

Lemma older_ok g : dgram_ok g -> 0 < g_timer g -> dgram_ok (older g).
Proof. intros [] Ht. split; cbn; (done || lia). Qed.

Lemma tmr_loop_ok fuel K r D1 D2 fr s : parts_ok (D1 ++ D2) fr -> Forall started D2 -> reassembling K r (mk_waiting (D1 ++ D2) fr) s ->
  (length D2 < fuel)%nat ->
  exists K' s', reass_tmr_loop base nif netif_default fuel (head D2.*1) (last D1.*1) s = Ok s' /\
    reassembling K' r (mk_waiting (D1 ++ ((fun x => (x.1, older x.2)) <$> filter in_time D2))
                                  (reverse (filter (fun x => ~ in_time x) D2).*1 ++ fr)) s' /\
    only_reass s s' /\ forall q, q ∉ packets_of D2 -> K' !! q = K !! q.
Proof.
  revert K D1 D2 fr s. induction fuel as [|fuel IH]; intros K D1 D2 fr s Hp Hs Hr Hfu; [lia|]. cbn [reass_tmr_loop].
  destruct D2 as [|[i g] D2]; [exists K, s; by split_and!|]. cbn [fmap list_fmap head fst]. apply Forall_cons in Hs as [Hst Hs].
  pose proof Hr as [_ [Hlk Hea _] _]. cbn [w_dgrams w_free] in *. destruct (dgrams_in_split _ _ _ _ _ _ Hea) as [(d&Hd&Hg) _].
  pose proof (parts_dgram _ _ _ _ _ Hp) as Hgok. pose proof (go_timer _ Hgok) as Htm. unfold IP_REASS_MAXAGE in Htm.
  rewrite (r_deref_ok _ _ _ Hd). cbn [rbind]. pose proof Hg as (_&_&_&Htd&_). rewrite Htd, (links_next _ _ _ _ _ _ _ Hlk Hd).
  destruct (parts_name _ _ _ _ _ Hp) as (Hi1&Hi2&_). cbn [length] in Hfu. destruct (Z.ltb_spec 0 (g_timer g)) as [Ht|Ht].
  - rewrite (on_reass_ok _ _ _ (r_assign_ok _ _ _ _ Hd)). cbn [rbind]. rewrite (wrap_small 8) by (split; [lia|]; change (2 ^ 8) with 256; lia).
    pose proof (reassembling_set K r D1 i g (older g) D2 fr s d (set_timer (g_timer g - 1) d) Hr Hi1 Hi2 Hd eq_refl) as Hr1.
    assert (Hr2 : reassembling K r (mk_waiting ((D1 ++ [(i, older g)]) ++ D2) fr)
      (put_reass (set_reassdata (<[i := set_timer (g_timer g - 1) d]> (reassdata (rs s))) (rs s)) s)).
    { rewrite <- app_assoc. apply Hr1; [|done]. by destruct Hg as (?&?&?&_&?). }
    assert (Hp2 : parts_ok ((D1 ++ [(i, older g)]) ++ D2) fr).
    { rewrite <- app_assoc. cbn [app]. apply (parts_set D1 i g (older g) D2 fr []); try done; [by apply older_ok|apply NoDup_nil_2| |].
      - intros p Hin. by apply not_elem_of_nil in Hin.
      - pose proof (po_bufs _ _ Hp). rewrite !bufs_app, !bufs_cons in *. done. }
    destruct (IH _ _ _ _ _ Hp2 Hs Hr2) as (K'&s'&Hrun&Hr'&Hon&HK'); [lia|].
    exists K', s'. assert (Hlast : last (D1 ++ [(i, older g)]).*1 = Some i) by (rewrite fmap_app; apply last_snoc). rewrite Hlast in Hrun.
    split; [done|]. 
    assert (Hf1 : filter in_time ((i, g) :: D2) = (i, g) :: filter in_time D2) by (by apply filter_cons_True).
    assert (Hf2 : filter (fun x => ~ in_time x) ((i, g) :: D2) = filter (fun x => ~ in_time x) D2) by (apply filter_cons_False; unfold in_time; cbn; lia).
    rewrite Hf1, Hf2.
    rewrite fmap_cons, <- (app_assoc D1) in *. split; [done|]. split; [transitivity (put_reass (set_reassdata (<[i := set_timer (g_timer g - 1) d]> (reassdata (rs s))) (rs s)) s); [apply only_put|done]|].
    intros q Hq. apply HK'. rewrite packets_cons in Hq. set_solver.
  - destruct (free_complete_ok K r D1 i g D2 fr s Hp Hst Hr) as (K1&s1&->&Hr1&Hon1&HK1). cbn [rbind].
    destruct (IH K1 D1 D2 (i :: fr) s1 (parts_remove _ _ _ _ _ Hp) Hs Hr1) as (K'&s'&Hrun&Hr'&Hon&HK'); [lia|].
    exists K', s'. split; [done|]. 
    assert (Hf1 : filter in_time ((i, g) :: D2) = filter in_time D2) by (apply filter_cons_False; unfold in_time; cbn; lia).
    assert (Hf2 : filter (fun x => ~ in_time x) ((i, g) :: D2) = (i, g) :: filter (fun x => ~ in_time x) D2) by (apply filter_cons_True; unfold in_time; cbn; lia).
    rewrite Hf1, Hf2.
    rewrite fmap_cons, reverse_cons, <- app_assoc. split; [done|]. split; [by transitivity s1|].
    intros q Hq. rewrite packets_cons in Hq. cbn [snd] in Hq. rewrite HK', HK1; [done|set_solver..].
Qed.

Lemma reass_tmr_ok K r w s : waiting_ok w -> reassembling K r w s ->
  exists K' s', ip_reass_tmr base nif netif_default s = Ok s' /\ reassembling K' r (tick w) s' /\ only_reass s s' /\
    forall q, q ∉ packets_of (w_dgrams w) -> K' !! q = K !! q.
Proof.
  intros [Hp Hs] Hr. destruct w as [D fr]. cbn [w_dgrams w_free] in *. unfold ip_reass_tmr. pose proof (ri_links _ _ _ (rg_in _ _ _ _ Hr)) as Hlk. cbn [w_dgrams w_free] in Hlk.
  assert (Hhead : reassdatagrams (rs s) = head D.*1) by (by apply links_head in Hlk).
  rewrite Hhead. exact (tmr_loop_ok _ K r [] D fr s Hp Hs Hr (links_fuel _ _ _ Hlk)).
Qed.
(** ** Making room *)

Lemma rd_field h off n : length h = 20%nat -> 0 <= off -> 0 <= n -> off + n <= 20 -> rd h off n = Ok (header_field h off n).
Proof. intros Hl Ho Hn Hle. unfold header_field. apply rd_bytes_at; lia. Qed.

Lemma same_key_and h h' : same_key h h' = (header_field h 12 4 =? header_field h' 12 4) && (header_field h 16 4 =? header_field h' 16 4) &&
  (header_field h 4 2 =? header_field h' 4 2).
Proof.
  unfold same_key, key. destruct (Z.eqb_spec (header_field h 12 4) (header_field h' 12 4)), (Z.eqb_spec (header_field h 16 4) (header_field h' 16 4)),
    (Z.eqb_spec (header_field h 4 2) (header_field h' 4 2)); cbn [andb]; (apply bool_decide_eq_true_2 || apply bool_decide_eq_false_2); congruence.
Qed.

Lemma others_cons h x D : others h (x :: D) = (if other h x then 1 else 0) + others h D.
Proof. unfold others. rewrite filter_cons. destruct (other h x); [rewrite decide_True by done; cbn; lia|by rewrite decide_False by (by intros [])]. Qed.

Section arriving.
(** The packet [p] has come and is known. *)
Context (p o : Z) (c : list Z) (cs : list (list Z)) (Hc : (20 <= length c)%nat).

Lemma match_ok K R t h : below K R t -> K !! p = Some (o, c :: cs) -> length h = 20%nat ->
  IP_ADDRESSES_AND_ID_MATCH h (Some (p, o)) t = Ok (same_key h (take 20 c)).
Proof.
  intros Hb HK Hh. unfold IP_ADDRESSES_AND_ID_MATCH. rewrite !rd_field by (done || lia).
  rewrite !(read_field K R t p o c cs) by (done || lia). cbn [rbind]. rewrite same_key_and. by rewrite !header_field_take by lia.
Qed.

Lemma oldest_loop_ok fuel K r D1 D2 fr s found oprev prev n : reassembling K r (mk_waiting (D1 ++ D2) fr) s -> parts_ok (D1 ++ D2) fr ->
  K !! p = Some (o, c :: cs) -> (length D2 < fuel)%nat -> (D2 <> [] -> prev = last D1.*1) ->
  (forall i g, found = Some (i, g) -> exists E F, D1 ++ D2 = E ++ (i, g) :: F /\ oprev = last E.*1) ->
  exists oprev', oldest_loop fuel (Some (p, o)) (head D2.*1) prev (fst <$> found) oprev n s =
      Ok (fst <$> oldest (take 20 c) found D2, oprev', n + others (take 20 c) D2) /\
    forall i g, oldest (take 20 c) found D2 = Some (i, g) -> exists E F, D1 ++ D2 = E ++ (i, g) :: F /\ oprev' = last E.*1.
Proof.
  intros Hr Hp HK. revert D1 D2 Hr Hp found oprev prev n. induction fuel as [|fuel IH]; intros D1 D2 Hr Hp found oprev prev n Hfu Hpr Hfo; [lia|].
  cbn [oldest_loop]. destruct D2 as [|[i g] D2]; [exists oprev; cbn; by rewrite Z.add_0_r|]. cbn [fmap list_fmap head fst oldest].
  pose proof Hr as [Hbel [Hlk Hea _] _]. cbn [w_dgrams w_free] in *. destruct (dgrams_in_split _ _ _ _ _ _ Hea) as [(d&Hd&Hhd&_&_&Htd&_) _].
  rewrite (r_deref_ok _ _ _ Hd). cbn [rbind].
  rewrite (match_ok K _ (stack s)) by (done || rewrite Hhd; apply (go_hdr _ (parts_dgram _ _ _ _ _ Hp))). cbn [rbind]. rewrite Hhd.
  rewrite (links_next _ _ _ _ _ _ _ Hlk Hd).
  assert (Happ : (D1 ++ [(i, g)]) ++ D2 = D1 ++ (i, g) :: D2) by (by rewrite <- app_assoc).
  assert (Hprev : D2 <> [] -> (match head D2.*1 with Some _ => Some i | None => prev end) = last (D1 ++ [(i, g)]).*1).
  { intros Hne. destruct D2 as [|y D2]; [done|]. rewrite fmap_app. symmetry. apply last_snoc. }
  assert (Hnext : forall found' oprev' n', 
    (forall j g', found' = Some (j, g') -> exists E F, D1 ++ (i, g) :: D2 = E ++ (j, g') :: F /\ oprev' = last E.*1) ->
    n' = n + (others (take 20 c) ((i, g) :: D2) - others (take 20 c) D2) ->
    exists oprev2, oldest_loop fuel (Some (p, o)) (head D2.*1) (match head D2.*1 with Some _ => Some i | None => prev end) (fst <$> found') oprev' n' s =
      Ok (fst <$> oldest (take 20 c) found' D2, oprev2, n + others (take 20 c) ((i, g) :: D2)) /\
    forall j g', oldest (take 20 c) found' D2 = Some (j, g') -> exists E F, D1 ++ (i, g) :: D2 = E ++ (j, g') :: F /\ oprev2 = last E.*1).
  { intros found' oprev' n' Hf' ->. destruct (IH (D1 ++ [(i, g)]) D2) with (found := found') (oprev := oprev')
      (prev := match head D2.*1 with Some _ => Some i | None => prev end) (n := n + (others (take 20 c) ((i, g) :: D2) - others (take 20 c) D2))
      as (o2&Hrun&Hres); [by rewrite Happ|by rewrite Happ|cbn in Hfu; lia|done|by rewrite Happ|]. exists o2. rewrite Happ in Hres. rewrite Hrun. split; [|done].
    do 2 f_equal. lia. }
  rewrite others_cons in Hnext |- *. change (other (take 20 c) (i, g)) with (negb (same_key (g_hdr g) (take 20 c))) in *. cbn [snd].
  destruct (same_key (g_hdr g) (take 20 c)); cbn [negb rbind] in *; [apply Hnext; [done|lia]|].
  assert (Hme : exists E F, D1 ++ (i, g) :: D2 = E ++ (i, g) :: F /\ prev = last E.*1) by (exists D1, D2; split; [done|by apply Hpr]).
  destruct found as [[j gj]|]; cbn [fmap option_fmap option_map fst snd].
  - destruct (Hfo j gj eq_refl) as (E&F&HEF&Ho). rewrite HEF in Hea. destruct (dgrams_in_split _ _ _ _ _ _ Hea) as [(dj&Hdj&_&_&_&Htj&_) _].
    rewrite (r_deref_ok _ _ _ Hdj). cbn [rbind]. rewrite Htd, Htj. destruct (g_timer g <=? g_timer gj); cbn [rbind].
    + apply (Hnext (Some (i, g))); [by intros ? ? [= <- <-]|lia].
    + apply (Hnext (Some (j, gj))); [done|lia].
  - cbn [rbind]. apply (Hnext (Some (i, g))); [by intros ? ? [= <- <-]|lia].
Qed.

Lemma remove_loop_ok fuel K r w s need n : waiting_ok w -> reassembling K r w s -> K !! p = Some (o, c :: cs) -> p ∉ packets_of (w_dgrams w) ->
  (length (w_dgrams w) < fuel)%nat ->
  exists K' s', remove_oldest_loop base nif netif_default fuel (Some (p, o)) need n s =
      Ok ((make_room fuel (take 20 c) need n w).1, s') /\
    reassembling K' r (make_room fuel (take 20 c) need n w).2 s' /\ only_reass s s' /\
    forall q, q ∉ packets_of (w_dgrams w) -> K' !! q = K !! q.
Proof.
  revert K w s n. induction fuel as [|fuel IH]; intros K w s n Hw Hr HK Hp Hfu; [lia|]. cbn [remove_oldest_loop make_room].
  destruct w as [D fr]. cbn [w_dgrams w_free] in *. pose proof (ri_links _ _ _ (rg_in _ _ _ _ Hr)) as Hlk. cbn [w_dgrams w_free] in Hlk.
  rewrite (links_head _ _ _ Hlk). pose proof Hw as [Hpok Hst]. cbn [w_dgrams w_free] in Hpok, Hst.
  destruct (oldest_loop_ok (reass_fuel (rs s)) K r [] D fr s None None None 0 Hr Hpok HK (links_fuel _ _ _ Hlk)) as (oprev&Hold&Hsp); [done..|].
  cbn [app] in *. change (fst <$> None) with (@None Z) in Hold. rewrite Hold. cbn [rbind]. rewrite Z.add_0_l.
  destruct (oldest (take 20 c) None D) as [[i g]|] eqn:Ho.
  - destruct (Hsp i g eq_refl) as (E&F&HEF&->). subst D. cbn [fmap option_fmap option_map fst].
    pose proof (oldest_in _ _ _ _ Ho) as [?|[_ Hoth]]; [done|].
    assert (Hstart : g_frags g <> []) by (by apply Forall_app in Hst as [_ [? _]%Forall_cons]).
    destruct (free_complete_ok K r E i g F fr s Hpok Hstart Hr) as (K1&s1&->&Hr1&Hon1&HK1). cbn [rbind].
    pose proof (left_remove (take 20 c) E i g F fr Hw Hoth) as [_ _ _ Hw1]. rewrite (remove_split E i g F fr Hpok) in *.
    assert (Hpk : forall q, q ∉ packets_of (E ++ (i, g) :: F) -> q ∉ f_p <$> g_frags g /\ q ∉ packets_of (E ++ F)).
    { intros q. rewrite !packets_app, packets_cons, !not_elem_of_app. cbn [snd]. tauto. }
    destruct (_ && _).
    + destruct (Hpk p Hp) as [Hp1 Hp2].
      destruct (IH K1 (mk_waiting (E ++ F) (i :: fr)) s1 (n + dg_bufs g)) as (K2&s2&Hrun&Hr2&Hon2&HK2); try done.
      * by rewrite HK1.
      * cbn in *. rewrite length_app in *. cbn in Hfu. lia.
      * exists K2, s2. split; [done|]. split; [done|]. split; [by transitivity s1|]. intros q Hq. destruct (Hpk q Hq). by rewrite HK2, HK1.
    + exists K1, s1. split; [done|]. split; [done|]. split; [done|]. intros q Hq. destruct (Hpk q Hq). by rewrite HK1.
  - apply oldest_none in Ho. rewrite Ho. cbn [fmap option_fmap option_map rbind]. change (1 <? 0) with false. rewrite andb_false_r.
    exists K, s. by split_and!.
Qed.

(** Other datagrams are given up until there is room. *)
Lemma remove_oldest_ok K r w s need : waiting_ok w -> reassembling K r w s -> K !! p = Some (o, c :: cs) -> p ∉ packets_of (w_dgrams w) ->
  exists K' s', ip_reass_remove_oldest_datagram base nif netif_default (Some (p, o)) need s = Ok ((evict (take 20 c) need w).1, s') /\
    reassembling K' r (evict (take 20 c) need w).2 s' /\ only_reass s s' /\
    forall q, q ∉ packets_of (w_dgrams w) -> K' !! q = K !! q.
Proof.
  intros Hw Hr HK Hp. unfold ip_reass_remove_oldest_datagram, evict. pose proof (links_fuel _ _ _ (ri_links _ _ _ (rg_in _ _ _ _ Hr))) as Hfu.
  rewrite (make_room_rounds (take 20 c) need 0 w (S (length (w_dgrams w))) (reass_fuel (rs s))) by (done || lia).
  by apply remove_loop_ok.
Qed.
End arriving.
End room.
