(* ===== verification/Ip4ReassChain.v ===== *)
(** * The place of a fragment

    [ip_reass_chain_frag_into_datagram_and_validate] of
    [src/lib/lwip/src/core/ipv4/ip4_frag.c] puts a packet where [Ip4ReassSpec.ins]
    says and finds out whether the datagram is complete. *)

From stdpp Require Import base numbers decidable gmap gmultiset list.
From Stdlib Require Import ZArith Lia Bool.
From S2P Require Import Prelude Linked LwipMem Pbuf PbufChain PbufPool PbufProps OnesComp InetChksum InetChksumProps PbufView Ip4Addr Ethernet Ip4 Icmp PbufOwn Below BelowIcmp Ip4Reass Ip4ReassSpec Ip4ReassOrder Ip4ReassMem Ip4ReassRoom.
Open Scope Z_scope.

Implicit Types (K : gmap Z (Z * list (list Z))) (D : list (Z * dgram)) (fr : list Z) (g : dgram) (x f : frag) (l A B : list frag).

(** ** Lists of fragments *)

(** Each fragment ends where the next begins. *)
Definition joined l : bool := match l with [] => true | f :: l => no_hole (f_end f) l end.

Lemma no_hole_app e l f l' : no_hole e (l ++ f :: l') = no_hole e (l ++ [f]) && no_hole (f_end f) l'.
Proof. revert e. induction l as [|q l IH]; intros e; cbn; [by rewrite andb_true_r|]. by rewrite IH, andb_assoc. Qed.

Lemma joined_snoc A x f : joined ((A ++ [x]) ++ [f]) = joined (A ++ [x]) && (f_end x =? f_start f).
Proof.
  destruct A as [|a A]; cbn; [by rewrite andb_true_r|]. rewrite <- app_assoc. cbn. rewrite no_hole_app. cbn. by rewrite andb_true_r.
Qed.

Lemma whole_split A x B : no_hole 0 (A ++ x :: B) =
  match head (A ++ x :: B) with Some f => 0 =? f_start f | None => false end && joined (A ++ [x]) && no_hole (f_end x) B.
Proof. destruct A as [|a A]; cbn; [by rewrite andb_true_r|]. rewrite no_hole_app. by rewrite andb_assoc. Qed.

Lemma ins_cons x f l : ins x (f :: l) =
  if f_start x <? f_start f then if f_start f <? f_end x then None else Some (x :: f :: l)
  else if (f_start x =? f_start f) || (f_start x <? f_end f) then None else (cons f) <$> ins x l.
Proof. done. Qed.

Definition first_p l : option Z := f_p <$> head l.

Lemma frags_head K o l : frags_in K o l -> o = first_p l.
Proof. destruct l as [|f l]; [done|]. by intros [-> _]. Qed.

Lemma frags_suffix K o A B : frags_in K o (A ++ B) -> frags_in K (first_p B) B.
Proof.
  revert o. induction A as [|f A IH]; intros o; cbn; [intros Hf; by rewrite <- (frags_head K o B Hf)|].
  intros [_ (off&c&cs&_&_&_&_&_&Hf)]. by apply IH in Hf.
Qed.

Lemma frags_lookup K o A f B : frags_in K o (A ++ f :: B) -> exists off c cs, K !! f_p f = Some (off, c :: cs) /\ (20 <= length c)%nat /\
  header_field c 4 2 = f_start f /\ header_field c 6 2 = f_end f /\ f_data f = drop 20 c :: cs /\ ptr_of (header_field c 0 4) = first_p B.
Proof.
  intros [_ (off&c&cs&HK&Hc&Hs&He&Hd&Hf)]%frags_suffix. exists off, c, cs. split_and!; try done. by apply (frags_head K).
Qed.

Lemma frags_ptr K o l p : frags_in K o l -> p ∈ f_p <$> l -> exists off c cs, K !! p = Some (off, c :: cs) /\ (20 <= length c)%nat.
Proof.
  intros Hf (f&->&Hin)%list_elem_of_fmap. apply list_elem_of_split in Hin as (A&B&->). destruct (frags_lookup K o A f B Hf) as (off&c&cs&HK&Hc&_). by exists off, c, cs.
Qed.

(** The fragment [x] is [c :: cs], with [q] behind it. *)
Definition frag_as x (q : option Z) (c : list Z) (cs : list (list Z)) : Prop :=
  (20 <= length c)%nat /\ header_field c 4 2 = f_start x /\ header_field c 6 2 = f_end x /\ f_data x = drop 20 c :: cs /\
  ptr_of (header_field c 0 4) = q.

Lemma set_next_as x q c cs p : is_ptr p -> frag_as x q c cs -> frag_as x (Some p) (splice 0 (le_bytes 4 p) c) cs.
Proof.
  intros Hp (Hc&Hs&He&Hd&_). unfold frag_as. rewrite length_splice by (rewrite length_le_bytes; lia).
  rewrite !(field_other c 0) by (rewrite ?length_le_bytes; lia). rewrite drop_splice by (rewrite ?length_le_bytes; lia). split_and!; try done.
  pose proof (field_same c 0 (le_bytes 4 p) ltac:(lia)) as Hf. rewrite length_le_bytes in Hf. change (Z.of_nat 4) with 4 in Hf. change (Z.to_nat 0) with 0%nat in Hf. rewrite Hf by lia. by apply ptr_code_of.
Qed.

(** [x] goes in front, or behind [f]. *)
Lemma link_front K B x off c cs o : frags_in K o B -> K !! f_p x = Some (off, c :: cs) -> frag_as x (first_p B) c cs -> frags_in K (Some (f_p x)) (x :: B).
Proof.
  intros Hf HK (Hc&Hs&He&Hd&Hn). split; [done|]. exists off, c, cs. split_and!; try done. rewrite Hn. by rewrite (frags_head K o B Hf) in Hf.
Qed.

Lemma link_behind K o A f B x off c cs foff fc fcs : frags_in K o (A ++ f :: B) -> K !! f_p x = Some (off, c :: cs) ->
  frag_as x (first_p B) c cs -> NoDup (f_p <$> A ++ f :: B) -> f_p x ∉ f_p <$> A ++ f :: B -> is_ptr (f_p x) -> K !! f_p f = Some (foff, fc :: fcs) ->
  frags_in (<[f_p f := (foff, splice 0 (le_bytes 4 (f_p x)) fc :: fcs)]> K) o (A ++ f :: x :: B).
Proof.
  intros Hf HK Hx Hn Hp Hptr HKf. revert o Hf Hn Hp. induction A as [|a A IH]; intros o Hf Hn Hp; cbn [app] in *; rewrite fmap_cons in *; apply NoDup_cons in Hn as [Hna Hn].
  - destruct Hf as [-> (off'&c'&cs'&HK'&Hc'&Hs'&He'&Hd'&Hf)]. rewrite HKf in HK'. injection HK' as <- <- <-. split; [done|].
    exists foff, (splice 0 (le_bytes 4 (f_p x)) fc), fcs. rewrite lookup_insert_eq.
    destruct (set_next_as f (first_p B) fc fcs (f_p x) Hptr) as (H1&H2&H3&H4&H5); [by split_and!; try apply (frags_head K)|]. split_and!; try done.
    rewrite H5. apply (link_front _ _ _ off c cs (first_p B)); [|rewrite lookup_insert_ne; [done|]; set_solver|done].
    apply (frags_in_ext K); [|by rewrite <- (frags_head K _ B Hf)]. intros q Hq. rewrite lookup_insert_ne; [done|]. by intros <-.
  - destruct Hf as [-> (off'&c'&cs'&HK'&Hc'&Hs'&He'&Hd'&Hf)]. split; [done|]. exists off', c', cs'. rewrite lookup_insert_ne; [split_and!; try done|].
    + apply IH; [done..|set_solver].
    + intros Heq. apply Hna. rewrite <- Heq. rewrite fmap_app, fmap_cons. set_solver.
Qed.

(** ** The loop *)

Section chain.
Context {X H : Type} `{OutputLaws X H} `{!Part reass X}.
Implicit Types (t : lwip H) (s : ip4 X H) (R r : gmultiset Z).

(** The new fragment [x] comes for the datagram in the structure [i], whose
    contents were [d]. *)
Context (i : Z) (x : frag) (o : Z) (R : gmultiset Z).

(** The variable [iprh_prev] behind the fragments [A], which are all before [x]. *)
Definition prev_at K A (prev : option (Z * Z)) : Prop :=
  match last A with
  | None => prev = None
  | Some f => exists off k, K !! f_p f = Some (off, k) /\ prev = Some (f_p f, off) /\ f_end f <= f_start x
  end.

(** The new fragment and those it goes to, in memory. *)
Record coming K l s d : Prop := {
  cm_below : below K R (stack s);
  cm_data : reassdata (rs s) !! i = Some d;
  cm_frags : frags_in K (r_p d) l;
  cm_new : exists q c cs, K !! f_p x = Some (o, c :: cs) /\ frag_as x q c cs;
  cm_names : NoDup (f_p x :: (f_p <$> l));
  cm_held : forall q, q ∈ f_p x :: (f_p <$> l) -> q ∈ R
}.

(** [x] is linked between [A] and [B]. *)
Record placed K s d K' s' A B : Prop := {
  pl_below : below K' R (stack s');
  pl_data : exists q, rs s' = set_reassdata (<[i := set_r_p q d]> (reassdata (rs s))) (rs s) /\ frags_in K' q (A ++ x :: B);
  pl_only : only_reass s s';
  pl_other : forall q, q ∉ f_p x :: (f_p <$> A ++ B) -> K' !! q = K !! q;
  pl_new : exists c cs, K' !! f_p x = Some (o, c :: cs) /\ frag_as x (first_p B) c cs
}.

Lemma held_ptr K q t : below K R t -> q ∈ R -> is_ptr q.
Proof. intros Hb Hq. by destruct (below_head K R t q Hb Hq) as (b&_&?). Qed.

(** [iprh->next_pbuf = q]. *)
Lemma next_set K l s d q : coming K l s d -> is_ptr q ->
  exists K' t c cs, set_next_pbuf (Some (f_p x, o)) (Some q) (stack s) = Ok t /\ coming K' l (set_stack t s) d /\
    K' !! f_p x = Some (o, c :: cs) /\ frag_as x (Some q) c cs /\ forall p, p <> f_p x -> K' !! p = K !! p.
Proof.
  intros [Hb Hd Hf (q0&c&cs&HK&Hx) Hn Hh] Hq. pose proof Hx as (Hc&_).
  destruct (kept_st K R (stack s) (f_p x) o c cs 0 (le_bytes 4 q) Hb HK) as (t&Hst&_&Hb'); [lia|rewrite length_le_bytes; lia|].
  exists (<[f_p x := (o, splice (Z.to_nat 0) (le_bytes 4 q) c :: cs)]> K), t, (splice 0 (le_bytes 4 q) c), cs.
  split; [done|]. assert (Hx' := set_next_as x q0 c cs q Hq Hx). split; [|split; [apply lookup_insert_eq|split; [done|]]].
  - split; try done.
    + apply NoDup_cons in Hn as [Hn _]. apply (frags_in_ext K); [|done]. intros p Hp. rewrite lookup_insert_ne; [done|]. by intros <-.
    + exists (Some q), (splice 0 (le_bytes 4 q) c), cs. split; [apply lookup_insert_eq|done].
  - intros p Hp. by rewrite lookup_insert_ne.
Qed.

(** The links once the place is known: [iprh->next_pbuf] is set already. *)
Lemma place_front K s d B c cs : coming K B s d -> K !! f_p x = Some (o, c :: cs) -> frag_as x (first_p B) c cs ->
  exists s', on_reass (r_assign i (set_r_p (Some (f_p x)))) s = Ok s' /\ placed K s d K s' [] B.
Proof.
  intros [Hb Hd Hf _ _ _] HK Hx. rewrite (on_reass_ok _ _ _ (r_assign_ok _ _ _ _ Hd)). eexists. split; [reflexivity|]. split; cbn [app]; try done.
  - exists (Some (f_p x)). rewrite rs_put. split; [done|]. by apply (link_front _ _ _ o c cs (r_p d)).
  - apply only_put.
  - by exists c, cs.
Qed.

Lemma place_behind K s d A f B c cs off k : coming K (A ++ f :: B) s d -> K !! f_p x = Some (o, c :: cs) -> frag_as x (first_p B) c cs ->
  K !! f_p f = Some (off, k) ->
  exists K' t, set_next_pbuf (Some (f_p f, off)) (Some (f_p x)) (stack s) = Ok t /\ placed K s d K' (set_stack t s) (A ++ [f]) B /\
    exists k', K' !! f_p f = Some (off, k') /\ end_ t (Some (f_p f, off)) = Ok (f_end f) /\ start t (Some (f_p x, o)) = Ok (f_start x).
Proof.
  intros [Hb Hd Hf _ Hn Hh] HK Hx HKf. destruct (frags_lookup K _ _ _ _ Hf) as (off'&fc&fcs&HKf'&Hfc&Hfs&Hfe&_).
  rewrite HKf in HKf'. injection HKf' as <- ->. pose proof Hn as [Hxn Hn']%NoDup_cons.
  assert (Hptr : is_ptr (f_p x)) by (apply (held_ptr K _ _ Hb), Hh; set_solver).
  assert (Hxf : f_p x <> f_p f) by (rewrite fmap_app, fmap_cons in Hxn; set_solver).
  destruct (kept_st K R (stack s) (f_p f) off fc fcs 0 (le_bytes 4 (f_p x)) Hb HKf) as (t&Hst&_&Hb'); [lia|rewrite length_le_bytes; lia|].
  change (Z.to_nat 0) with 0%nat in Hb'. set (K' := <[f_p f := _]> K) in *.
  assert (HKf2 : K' !! f_p f = Some (off, splice 0 (le_bytes 4 (f_p x)) fc :: fcs)) by apply lookup_insert_eq.
  assert (HKx : K' !! f_p x = Some (o, c :: cs)) by (unfold K'; by rewrite lookup_insert_ne by done).
  exists K', t. split; [done|]. split.
  - split; [done| |apply only_stack| |by exists c, cs].
    + exists (r_p d). change (rs (set_stack t s)) with (rs s). split.
      * rewrite insert_id; [by destruct (rs s)|]. rewrite Hd. by destruct d.
      * rewrite <- app_assoc. cbn [app]. by apply (link_behind K _ A f B x o c cs off fc fcs).
    + intros q Hq. unfold K'. rewrite lookup_insert_ne; [done|]. intros <-. apply Hq. rewrite <- app_assoc, fmap_app. set_solver.
  - eexists. split; [exact HKf2|]. destruct Hx as (Hc&Hs&He&_). split.
    + rewrite (read_end K' R t _ off _ fcs Hb' HKf2) by (rewrite length_splice; rewrite ?length_le_bytes; lia). f_equal.
      rewrite <- Hfe. apply (field_other fc 0); rewrite ?length_le_bytes; lia.
    + rewrite (read_start K' R t _ o c cs Hb' HKx Hc). by rewrite Hs.
Qed.
Lemma placed_after K K1 s t d K' s' A B : placed K1 (set_stack t s) d K' s' A B -> (forall q, q <> f_p x -> K1 !! q = K !! q) ->
  placed K s d K' s' A B.
Proof.
  intros [P1 P2 P3 P4 P5] Hoth. split; [done..| | |done].
  - transitivity (set_stack t s); [apply only_stack|done].
  - intros p Hp. rewrite P4, Hoth; [done|set_solver|done].
Qed.

Lemma prev_end K l s d A B prev : coming K l s d -> l = A ++ B -> prev_at K A prev ->
  match last A with
  | None => prev = None
  | Some f => exists off k, K !! f_p f = Some (off, k) /\ prev = Some (f_p f, off) /\ end_ (stack s) prev = Ok (f_end f) /\ f_end f <= f_start x
  end.
Proof.
  intros Hc -> Hpr. unfold prev_at in Hpr. destruct A as [|f A _] using rev_ind; [done|]. rewrite last_snoc in *.
  destruct Hpr as (off&k&HK&->&Hle). exists off, k. split_and!; try done. destruct Hc as [Hb _ Hf _ _ _]. rewrite <- app_assoc in Hf.
  destruct (frags_lookup K _ _ _ _ Hf) as (off'&c&cs&HK'&Hc&_&He&_). rewrite HK in HK'. injection HK' as <- ->. by rewrite (read_end K R _ _ off c cs Hb HK Hc), He.
Qed.

(** What the loop finds, given the fragments [A] before and [l] to come. *)
Definition loop_result K s d A l (res : result (place * ip4 X H)) : Prop :=
  match ins x l with
  | None => exists K' t, res = Ok (Dropped, set_stack t s) /\ below K' R t /\ is_Some (K' !! f_p x) /\ forall q, q <> f_p x -> K' !! q = K !! q
  | Some l' =>
      (exists B f B' prev K' s', l = B ++ f :: B' /\ l' = B ++ x :: f :: B' /\
         res = Ok (Between (Some (f_p f)) prev (joined (A ++ B ++ [x])), s') /\ placed K s d K' s' (A ++ B) (f :: B')) \/
      (l' = l ++ [x] /\ exists prev, res = Ok (Between None prev (joined (A ++ l)), s) /\ prev_at K (A ++ l) prev)
  end.

Lemma chain_loop_ok fuel K s d A l prev : coming K (A ++ l) s d -> prev_at K A prev -> (length l < fuel)%nat ->
  loop_result K s d A l (chain_loop fuel i (f_p x) (Some (f_p x, o)) (first_p l) prev (joined A) s).
Proof.
  revert A l prev. induction fuel as [|fuel IH]; intros A l prev Hcm Hpr Hfu; [lia|]. cbn [chain_loop].
  destruct l as [|f l]; [unfold loop_result; right; split; [done|]; exists prev; by rewrite app_nil_r|].
  pose proof (prev_end K _ s d A (f :: l) prev Hcm eq_refl Hpr) as Hpe. pose proof Hcm as [Hb Hd Hf (q0&c&cs&HK&Hx) Hn Hh].
  destruct (frags_lookup K _ _ _ _ Hf) as (foff&fc&fcs&HKf&Hfc&Hfs&Hfe&_&Hnx). cbn [first_p head fmap option_fmap option_map].
  destruct (kept_deref K R _ _ _ _ _ Hb HKf) as (b&->&Hpay). cbn [rbind]. rewrite Hpay. pose proof Hx as (Hc&Hxs&Hxe&_).
  rewrite (read_start K R _ _ _ _ _ Hb HK Hc), (read_end K R _ _ _ _ _ Hb HK Hc), (read_start K R _ _ _ _ _ Hb HKf Hfc), (read_end K R _ _ _ _ _ Hb HKf Hfc).
  cbn [rbind]. rewrite Hxs, Hxe, Hfs, Hfe. generalize (ins_cons x f l).
  destruct (Z.ltb_spec (f_start x) (f_start f)) as [Hlt|Hge].
  - assert (Hfp : is_ptr (f_p f)) by (apply (held_ptr K _ _ Hb), Hh; rewrite fmap_app, fmap_cons; set_solver).
    destruct (next_set K _ s d (f_p f) Hcm Hfp) as (K1&t1&c1&cs1&Hst&Hcm1&HK1&Hx1&Hoth). unfold on_stack at 1. rewrite Hst. cbn [rbind].
    assert (Hsame : forall h, h ∈ A ++ f :: l -> K1 !! f_p h = K !! f_p h).
    { intros h Hin. apply Hoth. intros Heq. apply NoDup_cons in Hn as [Hn _]. apply Hn. rewrite <- Heq. by apply list_elem_of_fmap_2. }
    assert (Hpr1 : prev_at K1 A prev).
    { unfold prev_at in *. destruct (last A) as [h|] eqn:HlA; [|done]. rewrite Hsame; [done|]. apply last_Some in HlA as [A' ->]. set_solver. }
    pose proof (prev_end K1 _ _ d A (f :: l) prev Hcm1 eq_refl Hpr1) as Hpe1.
    assert (Hdrop : exists K' t, Ok (Dropped, set_stack t1 s) = Ok (Dropped, set_stack t s) /\ below K' R t /\ is_Some (K' !! f_p x) /\
      forall q, q <> f_p x -> K' !! q = K !! q).
    { exists K1, t1. split; [done|]. split; [apply (cm_below _ _ _ _ Hcm1)|]. split; [by eexists|done]. }
    destruct A as [|h A _] using rev_ind.
    + cbn in Hpe1. subst prev. destruct (Z.ltb_spec (f_start f) (f_end x)); intros Hins; unfold loop_result; rewrite Hins; [done|]. left.
      destruct (place_front K1 (set_stack t1 s) d (f :: l) c1 cs1 Hcm1 HK1 Hx1) as (s'&->&Hpl). cbn [rbind].
      exists [], f, l, None, K1, s'. split_and!; try done. by apply (placed_after K K1 s t1).
    + rewrite last_snoc in Hpe1. destruct Hpe1 as (poff&k&HKp&->&Hend&Hle). rewrite Hend. cbn [rbind].
      rewrite (proj2 (Z.ltb_ge (f_start x) (f_end h))) by lia. cbn [orb].
      destruct (Z.ltb_spec (f_start f) (f_end x)); intros Hins; unfold loop_result; rewrite Hins; [done|]. left. rewrite <- app_assoc in Hcm1.
      destruct (place_behind K1 (set_stack t1 s) d A h (f :: l) c1 cs1 poff k Hcm1 HK1 Hx1 HKp) as (K2&t2&Hst2&Hpl&_).
      unfold on_stack. rewrite Hst2. cbn [rbind]. exists [], f, l, (Some (f_p h, poff)), K2, (set_stack t2 (set_stack t1 s)).
      change ((A ++ [h]) ++ [] ++ [x]) with ((A ++ [h]) ++ [x]). rewrite joined_snoc. split_and!; try done. rewrite app_nil_r. by apply (placed_after K K1 s t1).
  - destruct (Z.eqb_spec (f_start x) (f_start f)) as [|Hne]; [intros Hins; unfold loop_result; rewrite Hins; exists K, (stack s); split; [by destruct s|]; split_and!; try done; by eexists|].
    destruct (Z.ltb_spec (f_start x) (f_end f)) as [|Hend]; [intros Hins; unfold loop_result; rewrite Hins; exists K, (stack s); split; [by destruct s|]; split_and!; try done; by eexists|]. cbn [orb].
    assert (Hval : match prev with Some _ => let* pend := end_ (stack s) prev in Ok (joined A && (pend =? f_start f)) | None => Ok (joined A) end =
      Ok (joined (A ++ [f]))).
    { destruct A as [|h A _] using rev_ind; [cbn in Hpe; by subst prev|]. rewrite last_snoc in Hpe. destruct Hpe as (off&k&_&->&He&_). rewrite He. cbn [rbind].
      by rewrite joined_snoc. }
    rewrite Hval. cbn [rbind]. rewrite (read_next K R _ _ _ _ _ Hb HKf Hfc). cbn [rbind]. rewrite Hnx.
    assert (Hcm' : coming K ((A ++ [f]) ++ l) s d) by (by rewrite <- app_assoc).
    assert (Hpr' : prev_at K (A ++ [f]) (Some (f_p f, foff))) by (unfold prev_at; rewrite last_snoc; by eexists _, _).
    specialize (IH (A ++ [f]) l (Some (f_p f, foff)) Hcm' Hpr' ltac:(cbn in Hfu; lia)). unfold loop_result in IH.
    intros Hins. unfold loop_result. rewrite Hins. destruct (ins x l) as [l'|]; cbn [fmap option_fmap option_map]; [|done].
    destruct IH as [(B&f'&B'&prev'&K'&s'&->&->&->&Hpl)|(->&prev'&->&Hp')].
    + left. exists (f :: B), f', B', prev', K', s'. rewrite <- !app_assoc in Hpl |- *. by split_and!.
    + right. split; [done|]. exists prev'. rewrite <- app_assoc in *. done.
Qed.
End chain.

(** ** The fields of a fragment *)

Lemma field_word c off : bytes_ok (take 20 c) -> (20 <= length c)%nat -> 0 <= off -> off + 2 <= 20 -> 0 <= header_field c off 2 < 65536.
Proof.
  intros Hb Hl Ho Hle. rewrite <- (header_field_take c off 2) by lia. unfold header_field.
  assert (Hok : bytes_ok (bytes_at (take 20 c) off 2)) by (by apply bytes_ok_bytes_at). pose proof (le_val_range _ Hok) as Hr.
  rewrite length_bytes_at in Hr by (rewrite ?length_take; lia). exact Hr.
Qed.

Lemma offset_range c : 0 <= offset_of c * 8 <= 65528.
Proof.
  unfold offset_of. change IP_OFFMASK with (Z.ones 13). rewrite Z.land_ones by lia. pose proof (Z.mod_pos_bound (lwip_htons (header_field c 6 2)) (2 ^ 13) ltac:(lia)).
  change (2 ^ 13) with 8192 in *. lia.
Qed.

Lemma offset_bytes c : IPH_OFFSET_BYTES (header_field c 6 2) = offset_of c * 8.
Proof. unfold IPH_OFFSET_BYTES. fold (offset_of c). pose proof (offset_range c). apply wrap16_small. lia. Qed.

Lemma htons_range n : 0 <= n < 65536 -> 0 <= lwip_htons n < 65536.
Proof.
  intros Hn. rewrite htons_arith by done. assert (Hok : bytes_ok [n / 256; n mod 256]); [|exact (le_val_range _ Hok)].
  repeat constructor; try (apply Z.div_pos; lia); try (apply Z.div_lt_upper_bound; lia); apply Z.mod_pos_bound; lia.
Qed.

(** The end of a fragment as it is computed, and when it wraps. *)
Lemma end_wrap c : bytes_ok (take 20 c) -> (20 <= length c)%nat -> plain_header c = true ->
  let e := offset_of c * 8 + lwip_htons (header_field c 2 2) - IP_HLEN in
  let w := wrap16 (offset_of c * 8 + wrap16 (lwip_htons (header_field c 2 2) - IP_HLEN)) in
  offset_of c * 8 <= e /\ (e <= 0xFFFF -> w = e) /\ (0xFFFF < e -> w < offset_of c * 8).
Proof.
  intros Hb Hl [_ Hp%Z.leb_le]%andb_true_iff e w. pose proof (htons_range _ (field_word c 2 Hb Hl ltac:(lia) ltac:(lia))) as Hr.
  pose proof (offset_range c). unfold IP_HLEN in *. unfold w, e. rewrite (wrap16_small (lwip_htons _ - 20)) by lia.
  split; [lia|]. split; [intros; rewrite wrap16_small; lia|]. intros Hbig. unfold wrap. change (2 ^ 16) with 65536.
  rewrite <- (Z_mod_plus_full _ (-1)), Z.mod_small by lia. lia.
Qed.

(** ** The whole function *)

Section validate.
Context {X H : Type} `{OutputLaws X H} `{!Part reass X}.
Implicit Types (t : lwip H) (s : ip4 X H) (R r : gmultiset Z).
Context (i : Z) (R : gmultiset Z).

Lemma holes_ok fuel K s p off c cs e q l : below K R (stack s) -> K !! p = Some (off, c :: cs) -> (20 <= length c)%nat -> header_field c 6 2 = e ->
  frags_in K q l -> (length l < fuel)%nat -> holes_loop fuel (Some (p, off)) q s = Ok (no_hole e l).
Proof.
  intros Hb. revert p off c cs e q l. induction fuel as [|fuel IH]; intros p off c cs e q l HK Hc He Hf Hfu; [lia|]. cbn [holes_loop].
  destruct l as [|f l]; [cbn in Hf; by subst q|]. destruct Hf as [-> (foff&fc&fcs&HKf&Hfc&Hfs&Hfe&_&Hf)].
  destruct (kept_deref K R _ _ _ _ _ Hb HKf) as (b&->&Hpay). cbn [rbind]. rewrite Hpay.
  rewrite (read_end K R _ _ _ _ _ Hb HK Hc), (read_start K R _ _ _ _ _ Hb HKf Hfc). cbn [rbind no_hole]. rewrite He, Hfs.
  destruct (e =? f_start f); cbn [negb andb]; [|done]. rewrite (read_next K R _ _ _ _ _ Hb HKf Hfc). cbn [rbind].
  apply (IH _ _ fc fcs); try done. cbn in Hfu. lia.
Qed.

(** The fragments [l] are in the datagram, [x] among them. *)
Record put_in x K s d K' s' l : Prop := {
  pi_below : below K' R (stack s');
  pi_data : exists q, rs s' = set_reassdata (<[i := set_r_p q d]> (reassdata (rs s))) (rs s) /\ frags_in K' q l;
  pi_only : only_reass s s';
  pi_other : forall q, q ∉ f_p <$> l -> K' !! q = K !! q
}.

Lemma placed_in x o K s d K' s' A B : placed i x o R K s d K' s' A B -> put_in x K s d K' s' (A ++ x :: B).
Proof.
  intros [P1 P2 P3 P4 _]. split; try done. intros q Hq. apply P4. rewrite !fmap_app, fmap_cons in *. set_solver.
Qed.

Lemma validate_ok x o K s d K' s' A B last fl : placed i x o R K s d K' s' A B -> NoDup (f_p <$> A ++ x :: B) ->
  (forall q, q ∈ f_p <$> A ++ x :: B -> q ∈ R) -> r_flags d = (if fl : bool then IP_REASS_FLAG_LASTFRAG else 0) ->
  validate_datagram i (Some (f_p x, o)) last (joined (A ++ [x])) s' =
    Ok (if (fl || last) && no_hole 0 (A ++ x :: B) then TELEGRAM_FINISHED else PBUF_QUEUED).
Proof.
  intros [Hb (q&Hrs&Hf) _ _ (c&cs&HK&Hc&_&Hxe&_&Hnx)] Hn Hh Hfl. unfold validate_datagram. rewrite Hrs, (r_deref_ok _ i (set_r_p q d)) by apply lookup_insert_eq.
  cbn [rbind r_flags set_r_p r_p]. rewrite Hfl.
  assert (Hflag : negb (Z.land (if fl then IP_REASS_FLAG_LASTFRAG else 0) IP_REASS_FLAG_LASTFRAG =? 0) = fl) by (by destruct fl).
  rewrite Hflag, orb_comm. destruct (fl || last); [|done]. cbn [andb]. rewrite whole_split.
  pose proof (frags_head K' q _ Hf) as Hq. assert (HB : frags_in K' (first_p B) B).
  { apply (frags_suffix K' q (A ++ [x])). by rewrite <- app_assoc. }
  assert (Hfu : (length B < chain_fuel (stack s'))%nat).
  { pose proof (known_fuel K' R _ _ Hb Hn Hh) as Hfu. rewrite length_fmap, length_app in Hfu. cbn in Hfu. lia. }
  destruct (joined (A ++ [x])); cbn [rbind andb]; [|by rewrite andb_false_r].
  assert (Hhd : exists f C, A ++ x :: B = f :: C) by (destruct A as [|f A]; [by exists x, B|by exists f, (A ++ x :: B)]).
  destruct Hhd as (f&C&Hfc). rewrite Hfc in Hf, Hq |- *. cbn [first_p head fmap option_fmap option_map] in Hq. subst q. cbn [head].
  destruct Hf as [_ (foff&fc&fcs&HKf&Hfl20&Hfs&_)]. destruct (kept_deref K' R _ _ _ _ _ Hb HKf) as (b&->&Hpay). cbn [rbind]. rewrite Hpay.
  rewrite (read_start K' R _ _ _ _ _ Hb HKf Hfl20). cbn [rbind]. rewrite Hfs, Z.eqb_sym. destruct (0 =? f_start f); cbn [negb andb rbind]; [|done].
  rewrite (read_next K' R _ _ _ _ _ Hb HK Hc). cbn [rbind]. rewrite Hnx.
  by rewrite (holes_ok _ K' s' _ _ c cs (f_end x) _ B).
Qed.

(** What becomes of the fragment [x] for a datagram with the fragments [l]. *)
Definition chained x K s d (fl last : bool) l (v : validate) K' s' : Prop :=
  match (if 0xFFFF <? f_end x then None else ins x l) with
  | None => v = PBUF_DROPPED /\ (exists t, s' = set_stack t s) /\ below K' R (stack s') /\ is_Some (K' !! f_p x) /\
      forall q, q <> f_p x -> K' !! q = K !! q
  | Some l' => v = (if (fl || last) && no_hole 0 l' then TELEGRAM_FINISHED else PBUF_QUEUED) /\ put_in x K s d K' s' l'
  end.

(** Behind the loop: the last fragment is linked, then the datagram is checked. *)
Definition link_and_check (p : Z) (o : Z) (last : bool) (pl : place) s : result (validate * ip4 X H) :=
  match pl with
  | Dropped => Ok (PBUF_DROPPED, s)
  | Between q iprh_prev valid =>
      let* (valid, s) :=
        match q with
        | Some _ => Ok (valid, s)
        | None =>
            match iprh_prev with
            | Some _ =>
                let* s := on_stack (set_next_pbuf iprh_prev (Some p)) s in
                let* pend := end_ (stack s) iprh_prev in
                let* st := start (stack s) (Some (p, o)) in
                Ok (valid && (pend =? st), s)
            | None =>
                let* s := on_reass (r_assign i (set_r_p (Some p))) s in
                Ok (valid, s)
            end
        end in
      let* v := validate_datagram i (Some (p, o)) last valid s in
      Ok (v, s)
  end.

Lemma chain_at_end x o K s d l prev c cs : coming i x o R K l s d -> prev_at x K l prev -> K !! f_p x = Some (o, c :: cs) -> frag_as x None c cs ->
  exists K' s', (match prev with
                 | Some _ =>
                     let* s := on_stack (set_next_pbuf prev (Some (f_p x))) s in
                     let* pend := end_ (stack s) prev in
                     let* st := start (stack s) (Some (f_p x, o)) in
                     Ok (joined l && (pend =? st), s)
                 | None =>
                     let* s := on_reass (r_assign i (set_r_p (Some (f_p x)))) s in
                     Ok (joined l, s)
                 end) = Ok (joined (l ++ [x]), s') /\ placed i x o R K s d K' s' l [].
Proof.
  intros Hcm Hpr HK Hx. destruct l as [|f l _] using rev_ind.
  - cbn in Hpr. subst prev. destruct (place_front i x o R K s d [] c cs Hcm HK Hx) as (s'&->&Hpl). by exists K, s'.
  - unfold prev_at in Hpr. rewrite last_snoc in Hpr. destruct Hpr as (off&k&HKf&->&_).
    destruct (place_behind i x o R K s d l f [] c cs off k Hcm HK Hx HKf) as (K'&t&Hst&Hpl&k'&_&Hend&Hstart).
    unfold on_stack. rewrite Hst. cbn [rbind stack set_stack]. rewrite Hend. cbn [rbind]. rewrite Hstart. cbn [rbind].
    exists K', (set_stack t s). by rewrite joined_snoc.
Qed.

Lemma link_check_ok x o K s d l (fl last : bool) c cs : coming i x o R K l s d -> K !! f_p x = Some (o, c :: cs) -> frag_as x None c cs ->
  r_flags d = (if fl then IP_REASS_FLAG_LASTFRAG else 0) -> f_end x <= 0xFFFF ->
  exists v K' s', (let* (pl, s) := chain_loop (chain_fuel (stack s)) i (f_p x) (Some (f_p x, o)) (r_p d) None true s in
     link_and_check (f_p x) o last pl s) = Ok (v, s') /\ chained x K s d fl last l v K' s'.
Proof.
  intros Hcm HK Hx Hfl Hend. pose proof Hcm as [Hb Hd Hf _ Hn Hh]. unfold chained. rewrite (proj2 (Z.ltb_ge _ _)) by done.
  assert (Hfu : (length l < chain_fuel (stack s))%nat).
  { pose proof (known_fuel K R _ _ Hb Hn Hh) as Hfu. cbn in Hfu. rewrite length_fmap in Hfu. lia. }
  rewrite (frags_head K _ _ Hf). pose proof (chain_loop_ok i x o R (chain_fuel (stack s)) K s d [] l None Hcm eq_refl Hfu) as Hloop.
  unfold loop_result in Hloop. cbn [app] in Hloop. change (joined []) with true in Hloop.
  assert (Hperm : forall A B, A ++ B = l -> NoDup (f_p <$> A ++ x :: B) /\ forall q, q ∈ f_p <$> A ++ x :: B -> q ∈ R).
  { intros A B <-. assert (Hpm : f_p <$> A ++ x :: B ≡ₚ f_p x :: (f_p <$> A ++ B)) by (by rewrite <- Permutation_middle).
    split; [by rewrite Hpm|]. intros q. rewrite Hpm. apply Hh. }
  destruct (ins x l) as [l'|].
  - destruct Hloop as [(B&f&B'&prev&K'&s'&->&->&->&Hpl)|(->&prev&->&Hpr)]; cbn [rbind link_and_check].
    + destruct (Hperm B (f :: B') eq_refl) as [Hn' Hh']. rewrite (validate_ok x o K s d K' s' B (f :: B') last fl Hpl Hn' Hh' Hfl). cbn [rbind].
      eexists _, K', s'. split; [reflexivity|]. split; [done|]. by apply (placed_in x o).
    + destruct (chain_at_end x o K s d l prev c cs Hcm Hpr HK Hx) as (K'&s'&->&Hpl). cbn [rbind].
      destruct (Hperm l [] (app_nil_r l)) as [Hn' Hh']. rewrite (validate_ok x o K s d K' s' l [] last fl Hpl Hn' Hh' Hfl). cbn [rbind].
      eexists _, K', s'. split; [reflexivity|]. split; [done|]. by apply (placed_in x o).
  - destruct Hloop as (K'&t&->&Hb'&HK'&Hoth). cbn [rbind link_and_check]. eexists _, K', _. split; [reflexivity|]. split; [done|]. split; [by exists t|done].
Qed.
(** The header of the fragment becomes the helper. *)
Definition helper (c : list Z) (st en : Z) : list Z := splice 6 (le_bytes 2 en) (splice 4 (le_bytes 2 st) (splice 0 (le_bytes 4 0) c)).

Lemma helper_as p c cs : (20 <= length c)%nat -> f_end (frag_of p c cs) <= 0xFFFF -> offset_of c * 8 <= f_end (frag_of p c cs) ->
  frag_as (frag_of p c cs) None (helper c (offset_of c * 8) (f_end (frag_of p c cs))) cs.
Proof.
  intros Hc He Hle. pose proof (offset_range c) as Ho. set (e := f_end _) in *. unfold helper, frag_as.
  assert (H4 : forall n z, Z.of_nat (length (le_bytes n z)) = Z.of_nat n) by (intros; by rewrite length_le_bytes).
  assert (Hl : forall n z d k, (k + n <= 20)%nat -> (20 <= length d)%nat -> length (splice k (le_bytes n z) d) = length d)
    by (intros; apply length_splice; rewrite length_le_bytes; lia).
  set (c1 := splice 0 _ c). assert (Hc1 : length c1 = length c) by (apply Hl; lia).
  set (c2 := splice 4 _ c1). assert (Hc2 : length c2 = length c) by (rewrite <- Hc1; apply Hl; lia).
  rewrite Hl by lia. split; [lia|]. split; [|split; [|split]].
  - rewrite (field_other c2 6) by (rewrite ?H4; lia). pose proof (field_same c1 4 (le_bytes 2 (offset_of c * 8))) as Hf. rewrite !H4 in Hf.
    change (Z.of_nat 2) with 2 in Hf. change (Z.to_nat 4) with 4%nat in Hf. fold c2 in Hf. rewrite Hf by lia. exact (word_of (offset_of c * 8) ltac:(lia)).
  - pose proof (field_same c2 6 (le_bytes 2 e)) as Hf. rewrite !H4 in Hf. change (Z.of_nat 2) with 2 in Hf. change (Z.to_nat 6) with 6%nat in Hf.
    rewrite Hf by lia. exact (word_of e ltac:(lia)).
  - rewrite drop_splice by (rewrite ?length_le_bytes; lia). unfold c2. rewrite drop_splice by (rewrite ?length_le_bytes; lia).
    unfold c1. by rewrite drop_splice by (rewrite ?length_le_bytes; lia).
  - rewrite (field_other c2 6) by (rewrite ?H4; lia). unfold c2. rewrite (field_other c1 4) by (rewrite ?H4; lia).
    pose proof (field_same c 0 (le_bytes 4 0)) as Hf. rewrite !H4 in Hf. change (Z.of_nat 4) with 4 in Hf. change (Z.to_nat 0) with 0%nat in Hf.
    fold c1 in Hf. rewrite Hf by lia. by vm_compute.
Qed.

(** [ip_reass_chain_frag_into_datagram_and_validate]. *)
Lemma chain_frag_ok p o c cs K s d l (fl last : bool) :
  below K R (stack s) -> reassdata (rs s) !! i = Some d -> frags_in K (r_p d) l -> K !! p = Some (o, c :: cs) ->
  NoDup (p :: (f_p <$> l)) -> (forall q, q ∈ p :: (f_p <$> l) -> q ∈ R) -> (20 <= length c)%nat -> bytes_ok (take 20 c) -> plain_header c = true ->
  r_flags d = (if fl then IP_REASS_FLAG_LASTFRAG else 0) ->
  exists v K' s', ip_reass_chain_frag_into_datagram_and_validate i p last s = Ok (v, s') /\
    chained (frag_of p c cs) K s d fl last l v K' s'.
Proof.
  intros Hb Hd Hf HK Hn Hh Hc Hok Hpl Hfl. unfold ip_reass_chain_frag_into_datagram_and_validate.
  destruct (kept_deref K R _ _ _ _ _ Hb HK) as (b&->&Hpay). cbn [rbind]. rewrite Hpay.
  rewrite (read_field K R _ _ _ _ _ Hb HK Hc 2 2), (read_field K R _ _ _ _ _ Hb HK Hc 0 1), (read_field K R _ _ _ _ _ Hb HK Hc 6 2) by lia. cbn [rbind].
  pose proof Hpl as [Hhl%Z.eqb_eq Hlen%Z.leb_le]%andb_true_iff. rewrite Hhl, (proj2 (Z.ltb_ge _ _)), offset_bytes by done.
  destruct (end_wrap c Hok Hc Hpl) as (Hle&Hsm&Hbg). cbv zeta in Hle, Hsm, Hbg.
  set (w := wrap16 (offset_of c * 8 + _)) in *. change (offset_of c * 8 + lwip_htons (header_field c 2 2) - IP_HLEN) with (f_end (frag_of p c cs)) in *.
  assert (Hlb : forall n z, length (le_bytes n z) = n) by (intros; apply length_le_bytes). unfold on_stack at 1, set_next_pbuf at 1.
  destruct (kept_st K R (stack s) p o c cs 0 (le_bytes 4 (ptr_code None)) Hb HK) as (t1&->&_&Hb1); [lia|rewrite Hlb; lia|]. cbn [rbind]. unfold on_stack at 1.
  destruct (kept_st _ R _ p o _ cs 4 (le_bytes 2 (offset_of c * 8)) Hb1 (lookup_insert_eq _ _ _)) as (t2&Hst2&_&Hb2);
    [lia|rewrite length_splice; rewrite ?Hlb; lia|]. cbn [stack set_stack]. rewrite Hst2. cbn [rbind]. unfold on_stack at 1.
  destruct (kept_st _ R _ p o _ cs 6 (le_bytes 2 w) Hb2 (lookup_insert_eq _ _ _)) as (t3&Hst3&_&Hb3);
    [lia|rewrite length_splice; rewrite ?length_splice; rewrite ?Hlb; cbn; lia|]. cbn [stack set_stack]. rewrite Hst3. cbn [rbind]. rewrite !insert_insert_eq in Hb3.
  change (ptr_code None) with 0 in Hb3. change (Z.to_nat 0) with 0%nat in Hb3. change (Z.to_nat 4) with 4%nat in Hb3. change (Z.to_nat 6) with 6%nat in Hb3.
  fold (helper c (offset_of c * 8) w) in Hb3. set (s3 := set_stack t3 _).
  assert (Hex : exists K3, below K3 R t3 /\ K3 !! p = Some (o, helper c (offset_of c * 8) w :: cs) /\ forall q, q <> p -> K3 !! q = K !! q).
  { eexists. split; [exact Hb3|]. split; [apply lookup_insert_eq|]. intros q Hq. by rewrite lookup_insert_ne. }
  clear Hb3. destruct Hex as (K3&Hb3&HK3&Hoth).
  destruct (Z.ltb_spec w (offset_of c * 8)) as [Hw|Hw].
  { eexists _, K3, _. split; [reflexivity|]. unfold chained. rewrite (proj2 (Z.ltb_lt _ _)); [|destruct (Z.le_gt_cases (f_end (frag_of p c cs)) 65535); [rewrite Hsm in Hw by done; lia|lia]].
    split; [done|]. split; [by exists t3|]. split; [exact Hb3|]. split; [by eexists|exact Hoth]. }
  assert (Hend : f_end (frag_of p c cs) <= 0xFFFF) by (destruct (Z.le_gt_cases (f_end (frag_of p c cs)) 65535) as [|Hgt]; [done|]; specialize (Hbg Hgt); lia).
  rewrite (Hsm Hend) in HK3. pose proof (helper_as p c cs Hc Hend Hle) as Hx.
  change (rs s3) with (rs s). rewrite (r_deref_ok _ _ _ Hd). cbn [rbind].
  assert (Hcm : coming i (frag_of p c cs) o R K3 l s3 d).
  { split; try done.
    - apply (frags_in_ext K); [|done]. intros q Hq. apply Hoth. intros ->. by apply NoDup_cons in Hn as [? _].
    - by exists None, (helper c (offset_of c * 8) (f_end (frag_of p c cs))), cs. }
  destruct (link_check_ok (frag_of p c cs) o K3 s3 d l fl last _ cs Hcm HK3 Hx Hfl Hend) as (v&K'&s'&Hrun&Hres).
  exists v, K', s'. split; [exact Hrun|]. unfold chained in *. rewrite (proj2 (Z.ltb_ge _ _)) in * by done. destruct (ins _ l) as [l'|] eqn:Hins.
  - destruct Hres as [-> [P1 P2 P3 P4]]. split; [done|]. split; [done|done|transitivity s3; [split; [done|]|done]|].
    + exists (rs s). unfold s3, rs. cbn. by rewrite set_part_same.
    + intros q Hq. rewrite P4 by done. apply Hoth. intros ->. apply Hq. rewrite (ins_perm _ _ _ Hins). apply list_elem_of_here.
  - destruct Hres as (->&(t&->)&P1&P2&P3). split; [done|]. split; [by exists t|]. split; [done|]. split; [done|]. intros q Hq. rewrite P3, Hoth; done.
Qed.
End validate.
