(* ===== verification/Ip4ReassJoin.v ===== *)
(** * The datagram is complete

    The end of [ip4_reass] of [src/lib/lwip/src/core/ipv4/ip4_frag.c]: the header is
    put back in front of the first fragment, the packets are joined, and the
    datagram leaves the list.  What is handed on is [Ip4ReassSpec.whole]. *)

From stdpp Require Import base numbers decidable gmap gmultiset list.
From Stdlib Require Import ZArith Lia Bool.
From S2P Require Import Prelude Linked LwipMem Pbuf PbufChain PbufPool PbufProps OnesComp InetChksum InetChksumProps PbufView Ip4Addr Ethernet Ip4 Icmp PbufOwn Below BelowIcmp Ip4Reass Ip4ReassSpec Ip4ReassOrder Ip4ReassMem Ip4ReassRoom Ip4ReassChain.
Open Scope Z_scope.

Implicit Types (K : gmap Z (Z * list (list Z))) (D : list (Z * dgram)) (fr : list Z) (g : dgram) (x f : frag) (l : list frag).

Lemma length_whole h n : length h = 20%nat -> length (whole_header h n) = 20%nat.
Proof.
  intros Hh. assert (Hs : forall k v c, length c = 20%nat -> (k + length v <= 20)%nat -> length (splice k v c) = 20%nat) by (intros; rewrite length_splice; lia).
  unfold whole_header. apply Hs; [|change (10 + 2 <= 20)%nat; lia]. repeat (apply Hs; [|rewrite length_le_bytes; lia]). done.
Qed.

Section join.
Context {X H : Type} `{OutputLaws X H} `{!Part reass X}.
Implicit Types (t : lwip H) (s : ip4 X H) (R r : gmultiset Z).

(** ** The packets are joined *)

Lemma join_ok fuel K R h oh ch l q s : below K ({[+ h +]} ⊎ (list_to_set_disj (f_p <$> l) ⊎ R)) (stack s) -> K !! h = Some (oh, ch) ->
  frags_in K q l -> NoDup (h :: (f_p <$> l)) -> (forall p, p ∈ f_p <$> l -> p ∉ R) ->
  Z.of_nat (length (concat (ch ++ (l ≫= f_data)))) < 65536 -> (length l < fuel)%nat ->
  exists K' t, join_loop fuel h q s = Ok (set_stack t s) /\ below K' ({[+ h +]} ⊎ R) t /\ K' !! h = Some (oh, ch ++ (l ≫= f_data)) /\
    forall p, p ∉ h :: (f_p <$> l) -> K' !! p = K !! p.
Proof.
  revert K ch l q s. induction fuel as [|fuel IH]; intros K ch l q s Hb HKh Hf Hn HR Hlen Hfu; [lia|]. cbn [join_loop].
  destruct l as [|f l].
  { cbn in Hf. subst q. exists K, (stack s). split; [by destruct s|]. change (list_to_set_disj (f_p <$> [])) with (∅ : gmultiset Z) in Hb.
    rewrite (left_id_L ∅ (⊎)) in Hb. cbn. rewrite app_nil_r. by split_and!. }
  destruct Hf as [-> (off&c&cs&HK&Hc&_&_&Hd&Hf)]. rewrite fmap_cons in *. pose proof Hn as [Hh [Hfl Hn']%NoDup_cons]%NoDup_cons.
  destruct (kept_deref K _ _ _ _ _ _ Hb HK) as (b&->&Hpay). cbn [rbind]. rewrite Hpay. unfold on_stack_r at 1.
  pose proof (read_next K _ _ _ _ _ _ Hb HK Hc) as Hnx.
  destruct (kept_remove_header K _ _ (f_p f) off c cs IP_HLEN Hb HK) as (t1&->&Ha1&Hb1); [unfold IP_HLEN; lia|]. cbn [rbind]. unfold on_stack at 1.
  change (Z.to_nat IP_HLEN) with 20%nat in Hb1. set (K1 := <[f_p f := _]> K) in *. rewrite list_to_set_disj_cons, <- (assoc_L (⊎)) in Hb1.
  assert (HK1h : K1 !! h = Some (oh, ch)) by (unfold K1; rewrite lookup_insert_ne; [done|]; set_solver).
  rewrite bind_cons, Hd in Hlen |- *.
  destruct (kept_cat K1 (list_to_set_disj (f_p <$> l) ⊎ R) h (f_p f) oh (off + IP_HLEN) ch (drop 20 c :: cs) t1 Hb1) as (t2&Hcat&Ha2&Hb2).
  { set_solver. }
  { rewrite gmultiset_elem_of_disj_union, elem_of_list_to_set_disj. specialize (HR (f_p f) ltac:(apply list_elem_of_here)). tauto. }
  { done. }
  { apply lookup_insert_eq. }
  { rewrite app_assoc, concat_app, length_app in Hlen. lia. }
  cbn [stack set_stack]. rewrite Hcat. cbn [rbind stack set_stack].
  assert (Hnx2 : next_pbuf t2 (Some (f_p f, off)) = Ok (ptr_of (header_field c 0 4))).
  { rewrite <- Hnx. unfold next_pbuf, ld, ld_bytes, area. by rewrite Ha2, Ha1. }
  rewrite Hnx2. cbn [rbind]. set (K2 := <[h := _]> (delete (f_p f) K1)) in *.
  assert (Hoth : forall p, p <> h -> p <> f_p f -> K2 !! p = K !! p).
  { intros p H1' H2'. unfold K2, K1. by rewrite lookup_insert_ne, lookup_delete_ne, lookup_insert_ne. }
  destruct (IH K2 (ch ++ drop 20 c :: cs) l (ptr_of (header_field c 0 4)) (set_stack t2 (set_stack t1 s))) as (K3&t3&Hrun&Hb3&HK3&Hoth3).
  - done.
  - apply lookup_insert_eq.
  - apply (frags_in_ext K); [|done]. intros p Hp. apply Hoth; intros ->; set_solver.
  - apply NoDup_cons. set_solver.
  - intros p Hp. apply HR. set_solver.
  - by rewrite <- app_assoc.
  - cbn in Hfu. lia.
  - exists K3, t3. rewrite Hrun. split; [done|]. split; [done|]. split; [by rewrite HK3, <- app_assoc|].
    intros p Hp. rewrite Hoth3 by set_solver. apply Hoth; set_solver.
Qed.
(** ** The header *)

Section header.
Context (base : Z -> Z) (p o : Z) (rest : list Z) (cs : list (list Z)).

(** The packet [p] begins with the header [h]. *)
Definition headed K R s (h : list Z) : Prop := below K R (stack s) /\ K !! p = Some (o, (h ++ rest) :: cs) /\ length h = 20%nat.

Lemma store_ok K R s h off v : headed K R s h -> (off + length v <= 20)%nat ->
  exists K' t, on_stack (fun y => st_bytes y (Some (p, o)) (Z.of_nat off) v) s = Ok (set_stack t s) /\ headed K' R (set_stack t s) (splice off v h) /\
    forall q, q <> p -> K' !! q = K !! q.
Proof.
  intros (Hb&HK&Hl) Hle. destruct (kept_st K R (stack s) p o _ cs (Z.of_nat off) v Hb HK) as (t&Hst&_&Hb'); [lia|rewrite length_app; lia|].
  eexists _, t. unfold on_stack. rewrite Hst. split; [done|]. split; [split; [exact Hb'|]|].
  - rewrite lookup_insert_eq, Nat2Z.id, splice_app_l by lia. split; [done|]. by rewrite length_splice by lia.
  - intros q Hq. by rewrite lookup_insert_ne.
Qed.

Lemma header_back K R s c h n {A} (k : ip4 X H -> result A) : below K R (stack s) -> K !! p = Some (o, c :: cs) -> rest = drop 20 c ->
  (20 <= length c)%nat -> length h = 20%nat -> bytes_ok h ->
  exists K' t,
    (let* s := on_stack (fun y => st_bytes y (Some (p, o)) 0 h) s in
     let* s := on_stack (fun y => st_bytes y (Some (p, o)) 2 (le_bytes 2 (lwip_htons (wrap16 (n + IP_HLEN))))) s in
     let* s := on_stack (fun y => st_bytes y (Some (p, o)) 6 (le_bytes 2 0)) s in
     let* s := on_stack (fun y => st_bytes y (Some (p, o)) 10 (le_bytes 2 0)) s in
     let* v := inet_chksum base (stack s) (Some (p, o)) IP_HLEN in
     let* s := on_stack (fun y => st_bytes y (Some (p, o)) 10 (le_bytes 2 v)) s in
     k s) = k (set_stack t s) /\ headed K' R (set_stack t s) (whole_header h n) /\ forall q, q <> p -> K' !! q = K !! q.
Proof.
  intros Hb HK Hrest Hc Hh Hok.
  assert (H0' : headed K R s (take 20 c)) by (unfold headed; rewrite Hrest, take_drop, length_take; split_and!; [done..|lia]).
  destruct (store_ok K R s _ 0 h H0') as (K1&t1&Hs1&H1'&Ho1); [lia|]. change (Z.of_nat 0) with 0 in Hs1. rewrite Hs1. cbn [rbind].
  assert (Hsp : splice 0 h (take 20 c) = h) by (unfold splice; cbn [take app]; rewrite drop_ge by (rewrite length_take; lia); apply app_nil_r). rewrite Hsp in H1'. clear Hsp.
  assert (Hlb : forall z, length (le_bytes 2 z) = 2%nat) by (intros; apply length_le_bytes).
  destruct (store_ok K1 R _ _ 2 (le_bytes 2 (lwip_htons (wrap16 (n + IP_HLEN)))) H1') as (K2&t2&Hs2&H2'&Ho2); [rewrite Hlb; lia|].
  change (Z.of_nat 2) with 2 in Hs2. rewrite Hs2. cbn [rbind].
  destruct (store_ok K2 R _ _ 6 (le_bytes 2 0) H2') as (K3&t3&Hs3&H3'&Ho3); [rewrite Hlb; lia|]. change (Z.of_nat 6) with 6 in Hs3. rewrite Hs3. cbn [rbind].
  destruct (store_ok K3 R _ _ 10 (le_bytes 2 0) H3') as (K4&t4&Hs4&H4'&Ho4); [rewrite Hlb; lia|]. change (Z.of_nat 10) with 10 in Hs4. rewrite Hs4. cbn [rbind].
  set (h4 := splice 10 (le_bytes 2 0) _) in *. set (s4 := set_stack t4 _) in *.
  assert (Hok4 : bytes_ok h4) by (unfold h4; repeat apply bytes_ok_splice; try apply bytes_ok_le_bytes; done).
  pose proof H4' as (Hb4&HK4&Hl4).
  destruct (inet_chksum_ok base (stack s4) (Some (p, o)) h4) as (v&Hv&Hvr&Hvc); [|done|rewrite Hl4; cbn; lia|].
  { intros off k' Hoff Hk' Hle. rewrite (kept_ld_bytes K4 R _ p o _ cs) by (done || rewrite ?length_app; lia). f_equal. unfold bytes_at, slice.
    rewrite drop_app_le by lia. apply take_app_le. rewrite length_drop. lia. }
  rewrite Hl4 in Hv. change (Z.of_nat 20) with IP_HLEN in Hv. rewrite Hv. cbn [rbind].
  destruct (store_ok K4 R _ _ 10 (le_bytes 2 v) H4') as (K5&t5&Hs5&H5'&Ho5); [rewrite Hlb; lia|]. change (Z.of_nat 10) with 10 in Hs5. rewrite Hs5. cbn [rbind].
  exists K5, t5. split; [done|]. split; [|intros q Hq; by rewrite Ho5, Ho4, Ho3, Ho2, Ho1].
  unfold whole_header. fold h4. rewrite <- (rfc1071_word h4 v Hok4 Hvr Hvc). exact H5'.
Qed.
End header.
(** ** The datagram leaves the list *)

Lemma prev_loop_ok fuel D0 D1 i g D2 fr s : links (D0 ++ D1 ++ (i, g) :: D2) fr (rs s) -> D1 <> [] -> (length D1 <= fuel)%nat ->
  prev_loop fuel i (head D1.*1) s = Ok (last D1.*1).
Proof.
  revert D0 D1. induction fuel as [|fuel IH]; intros D0 D1 Hlk Hne Hfu; [by destruct D1; [|cbn in Hfu; lia]|].
  destruct D1 as [|[j gj] D1]; [done|]. cbn [prev_loop fmap list_fmap head fst].
  assert (Hlk' : links (D0 ++ (j, gj) :: (D1 ++ (i, g) :: D2)) fr (rs s)) by done.
  destruct (links_deref _ _ _ j Hlk') as [d Hd]; [rewrite fmap_app, fmap_cons; set_solver|]. rewrite (r_deref_ok _ _ _ Hd). cbn [rbind].
  rewrite (links_next _ _ _ _ _ _ _ Hlk' Hd). destruct D1 as [|[k gk] D1].
  - cbn. by rewrite bool_decide_eq_true_2.
  - cbn [app fmap list_fmap head fst]. rewrite bool_decide_eq_false_2.
    + change (Some k) with (head ((k, gk) :: D1).*1). rewrite (IH (D0 ++ [(j, gj)])); [done| |done|cbn in *; lia]. by rewrite <- app_assoc.
    + intros [= ->]. pose proof (lk_names _ _ _ Hlk) as Hn. apply NoDup_app in Hn as [Hn _]. rewrite !fmap_app in Hn.
      apply NoDup_app in Hn as (_&_&Hn). apply NoDup_app in Hn as (_&Hn&_). apply (Hn i); set_solver.
Qed.

Lemma concat_bound n (cs : list (list Z)) : Forall (fun c => Z.of_nat (length c) <= n) cs -> Z.of_nat (length (concat cs)) <= Z.of_nat (length cs) * n.
Proof. induction 1 as [|c cs Hc _ IH]; [cbn; lia|]. cbn [concat]. rewrite length_app. cbn [length]. lia. Qed.

(** All fragments of [g] are there. *)
Lemma finish_ok base K r D1 i g D2 fr s : reassembling K r (mk_waiting (D1 ++ (i, g) :: D2) fr) s -> NoDup (packets_of (D1 ++ (i, g) :: D2)) ->
  bufs (D1 ++ (i, g) :: D2) <= IP_REASS_MAX_PBUFS -> length (g_hdr g) = 20%nat -> bytes_ok (g_hdr g) ->
  Forall (fun c => Z.of_nat (length c) <= PBUF_POOL_BUFSIZE_ALIGNED) (g_frags g ≫= f_data) -> g_frags g <> [] ->
  exists q K' s', first_p (g_frags g) = Some q /\ reass_finish base i s = Ok (Some q, s') /\
    reassembling K' ({[+ q +]} ⊎ r) (mk_waiting (D1 ++ D2) (i :: fr)) s' /\ (exists o, K' !! q = Some (o, whole g)) /\
    only_reass s s' /\ forall y, y ∉ f_p <$> g_frags g -> K' !! y = K !! y.
Proof.
  intros Hr Hnp Hbu Hh Hok Hroom Hne. pose proof (frags_below D1 i g D2 fr K r s Hr) as Hb. destruct Hr as [_ [Hlk Hea Hco] Hap]. cbn [w_dgrams w_free] in *.
  destruct (dgrams_in_split _ _ _ _ _ _ Hea) as [(d&Hd&Hhd&Hln&_&_&Hfr) Hea']. destruct (g_frags g) as [|f l] eqn:Hgf; [done|].
  exists (f_p f). rewrite packets_app, packets_cons in Hnp. cbn [snd] in Hnp. rewrite (Permutation_app_swap_app (packets_of D1)), Hgf in Hnp.
  apply NoDup_app in Hnp as (Hnd&Hdis&Hnp'). rewrite <- packets_app in Hdis, Hnp'.
  assert (Hapart : forall y, y ∈ f_p <$> f :: l -> y ∉ held (D1 ++ D2) ⊎ r).
  { intros x Hx. rewrite gmultiset_elem_of_disj_union, elem_held. intros [Hin|Hin]; [by apply (Hdis x)|]. apply (Hap x); [|done].
    rewrite packets_app, packets_cons. cbn [snd]. rewrite Hgf. set_solver. }
  destruct Hfr as [Hrp (off&c&cs&HK&Hc&_&_&Hdat&Hf)]. unfold reass_finish. rewrite (r_deref_ok _ _ _ Hd). cbn [rbind]. rewrite Hrp. cbn [not_null rbind].
  destruct (kept_deref K _ _ _ _ _ _ Hb HK) as (b&->&Hpay). cbn [rbind]. rewrite Hpay. rewrite (read_next K _ _ _ _ _ _ Hb HK Hc). cbn [rbind]. rewrite Hhd, Hln.
  destruct (header_back base (f_p f) off (drop 20 c) cs K _ s c (g_hdr g) (g_len g) (fun s =>
     let* s := join_loop (chain_fuel (stack s)) (f_p f) (ptr_of (header_field c 0 4)) s in
     let* ipr_prev := if bool_decide (reassdatagrams (rs s) = Some i) then Ok None else prev_loop (reass_fuel (rs s)) i (reassdatagrams (rs s)) s in
     let* s := on_reass (ip_reass_dequeue_datagram i ipr_prev) s in
     let* clen := pbuf_clen (Some (f_p f)) (stack s) in
     Ok (Some (f_p f), put_reass (set_pbufcount (wrap16 (ip_reass_pbufcount (rs s) - clen)) (rs s)) s)) Hb HK eq_refl Hc Hh Hok) as (K1&t1&->&(Hb1&HK1&_)&Ho1).
  rewrite fmap_cons in *. pose proof Hnd as [Hfl Hnl]%NoDup_cons. rewrite list_to_set_disj_cons, <- (assoc_L (⊎)) in Hb1. cbn [stack set_stack] in Hb1 |- *.
  assert (Hwhole : whole g = (whole_header (g_hdr g) (g_len g) ++ drop 20 c) :: cs ++ (l ≫= f_data)).
  { unfold whole. rewrite Hgf, bind_cons, Hdat. done. }
  pose proof (length_whole (g_hdr g) (g_len g) Hh) as Hlw.
  assert (Hnum : Z.of_nat (length (whole g)) = dg_bufs g) by (unfold dg_bufs; rewrite Hwhole, Hgf, bind_cons, Hdat; done).
  assert (Hdb : 0 <= dg_bufs g /\ dg_bufs g <= 10).
  { unfold dg_bufs. split; [lia|]. rewrite bufs_app, bufs_cons in Hbu. cbn [snd] in Hbu. pose proof (bufs_nonneg D1). pose proof (bufs_nonneg D2).
    unfold IP_REASS_MAX_PBUFS in Hbu. unfold dg_bufs in Hbu. lia. }
  assert (Hmax : Z.of_nat (length (concat (whole g))) < 65536).
  { pose proof (concat_bound _ _ Hroom) as Hcb. rewrite Hwhole. rewrite bind_cons, Hdat in Hcb, Hroom. cbn [concat app] in *. rewrite !length_app in *. rewrite Hlw.
    rewrite Hwhole in Hnum. cbn [length] in *. rewrite length_app in *. change PBUF_POOL_BUFSIZE_ALIGNED with 1516 in Hcb. lia. }
  destruct (join_ok (chain_fuel t1) K1 (held (D1 ++ D2) ⊎ r) (f_p f) off _ l (ptr_of (header_field c 0 4)) (set_stack t1 s) Hb1 HK1) as (K2&t2&->&Hb2&HK2&Ho2).
  { apply (frags_in_ext K); [|done]. intros x Hx. apply Ho1. by intros ->. }
  { done. }
  { intros x Hx. apply Hapart. set_solver. }
  { change ((whole_header (g_hdr g) (g_len g) ++ drop 20 c) :: cs ++ (l ≫= f_data)) with (((whole_header (g_hdr g) (g_len g) ++ drop 20 c) :: cs) ++ (l ≫= f_data)) in Hwhole. by rewrite <- Hwhole. }
  { pose proof (known_fuel K1 _ t1 (f_p <$> l) Hb1 Hnl) as Hfu. rewrite length_fmap in Hfu. apply Hfu. intros x Hx.
    rewrite !gmultiset_elem_of_disj_union, elem_of_list_to_set_disj. auto. }
  cbn [rbind stack set_stack]. change (rs (set_stack t2 (set_stack t1 s))) with (rs s).
  assert (Hprev : (if bool_decide (reassdatagrams (rs s) = Some i) then Ok None
     else prev_loop (reass_fuel (rs s)) i (reassdatagrams (rs s)) (set_stack t2 (set_stack t1 s))) = Ok (last D1.*1)).
  { rewrite (links_head _ _ _ Hlk). destruct D1 as [|[j gj] D1]; [cbn; by rewrite bool_decide_eq_true_2|].
    pose proof (links_fuel _ _ _ Hlk) as Hfu. rewrite length_app in Hfu. rewrite bool_decide_eq_false_2.
    - exact (prev_loop_ok (reass_fuel (rs s)) [] ((j, gj) :: D1) i g D2 fr (set_stack t2 (set_stack t1 s)) Hlk ltac:(done) ltac:(lia)).
    - intros [= ->]. pose proof (lk_names _ _ _ Hlk) as Hn. cbn in Hn. rewrite fmap_app in Hn. cbn in Hn. apply NoDup_cons in Hn as [Hn _]. set_solver. }
  rewrite Hprev. cbn [rbind]. destruct (dequeue_ok D1 i g D2 fr (rs s) Hlk) as (x2&Hdq&Hlk2&Hc2&Hbo2).
  rewrite (on_reass_ok _ (set_stack t2 (set_stack t1 s)) x2 Hdq). cbn [rbind]. rewrite rs_put. cbn [stack set_stack put_reass set_around].
  change ((whole_header (g_hdr g) (g_len g) ++ drop 20 c) :: cs ++ (l ≫= f_data)) with (((whole_header (g_hdr g) (g_len g) ++ drop 20 c) :: cs) ++ (l ≫= f_data)) in Hwhole.
  rewrite <- Hwhole in HK2. rewrite (kept_clen K2 _ t2 (f_p f) off (whole g) Hb2 HK2) by lia. cbn [rbind].
  exists K2. eexists. split; [done|]. split; [reflexivity|]. split; [|split; [by exists off|split]].
  - split; cbn [w_dgrams].
    + rewrite (comm3 (held (D1 ++ D2)) r). exact Hb2.
    + rewrite rs_put. split; cbn [w_dgrams w_free].
      * by destruct Hlk2.
      * apply (dgrams_in_ext K _ _ (rs s)); [| |done].
        -- intros y Hy. assert (Hyf : y ∉ f_p f :: (f_p <$> l)) by (intros Hin; by apply (Hdis y)). rewrite Ho2, Ho1; [done|set_solver|done].
        -- intros j Hj. cbn [reassdata set_pbufcount]. apply Hbo2. intros ->. pose proof (lk_names _ _ _ Hlk) as Hn.
           rewrite fmap_app, fmap_cons, <- app_assoc in Hn. cbn in Hn. rewrite <- Permutation_middle in Hn. apply NoDup_cons in Hn as [Hn _].
           rewrite fmap_app in Hj. set_solver.
      * cbn. rewrite Hc2, Hco, Hnum, !bufs_app, bufs_cons. cbn [snd]. pose proof (bufs_nonneg D1). pose proof (bufs_nonneg D2).
        rewrite bufs_app, bufs_cons in Hbu. cbn [snd] in Hbu. unfold IP_REASS_MAX_PBUFS in Hbu. rewrite wrap16_small by lia. lia.
    + intros y Hy. rewrite gmultiset_elem_of_disj_union, gmultiset_elem_of_singleton. intros [->|Hin].
      * apply (Hdis (f_p f)); [set_solver|done].
      * apply (Hap y); [|done]. rewrite packets_app, packets_cons in *. set_solver.
  - transitivity (set_stack t1 s); [apply only_stack|]. transitivity (set_stack t2 (set_stack t1 s)); [apply only_stack|].
    etransitivity; [apply only_put|apply only_put].
  - intros y Hy. rewrite Ho2, Ho1; [done|set_solver|done].
Qed.
End join.
