(* ===== verification/Ip4ReassProps.v ===== *)
(** * Reassembly

    [ip4_reass] and [ip_reass_tmr] of [src/lib/lwip/src/core/ipv4/ip4_frag.c] do
    what [Ip4ReassSpec.fragment_in] and [tick] say, whatever comes: any sequence of
    fragments and ticks keeps the lists in memory sound, at most ten packet buffers
    wait, and the fragments of a datagram give the datagram in any order. *)

From stdpp Require Import base numbers decidable gmap gmultiset list.
From Stdlib Require Import ZArith Lia Bool.
From S2P Require Import Prelude Linked LwipMem Pbuf PbufChain PbufPool PbufProps OnesComp InetChksum InetChksumProps PbufView Ip4Addr Ethernet Ip4 Icmp PbufOwn Below BelowIcmp Ip4Reass Ip4ReassSpec Ip4ReassOrder Ip4ReassMem Ip4ReassRoom Ip4ReassChain Ip4ReassJoin.
Open Scope Z_scope.

Implicit Types (K : gmap Z (Z * list (list Z))) (D : list (Z * dgram)) (fr : list Z) (g : dgram).

Section props.
Context {X H : Type} `{OutputLaws X H} `{!Part reass X}.
Context (base : Z -> Z) (nif : Z -> netif) (netif_default : option Z).
Implicit Types (t : lwip H) (s : ip4 X H) (R r : gmultiset Z) (w : waiting).

(** ** The datagram of a fragment *)

Section arriving.
Context (p o : Z) (c : list Z) (cs : list (list Z)) (Hc : (20 <= length c)%nat).

Lemma find_loop_ok fuel K r D1 D2 fr s : reassembling K r (mk_waiting (D1 ++ D2) fr) s -> parts_ok (D1 ++ D2) fr ->
  K !! p = Some (o, c :: cs) -> (length D2 < fuel)%nat ->
  find_loop fuel (Some (p, o)) (head D2.*1) s = Ok (fst <$> find_dg (take 20 c) D2).
Proof.
  intros Hr Hp HK. revert D1 D2 Hr Hp. induction fuel as [|fuel IH]; intros D1 D2 Hr Hp Hfu; [lia|]. cbn [find_loop].
  destruct D2 as [|[i g] D2]; [done|]. cbn [fmap list_fmap head fst]. unfold find_dg. cbn [List.find].
  pose proof Hr as [Hbel [Hlk Hea _] _]. cbn [w_dgrams w_free] in *. destruct (dgrams_in_split _ _ _ _ _ _ Hea) as [(d&Hd&Hhd&_) _].
  rewrite (r_deref_ok _ _ _ Hd). cbn [rbind].
  rewrite (match_ok p o c cs Hc K _ (stack s)) by (done || rewrite Hhd; apply (go_hdr _ (parts_dgram _ _ _ _ _ Hp))). cbn [rbind snd]. rewrite Hhd.
  destruct (same_key (g_hdr g) (take 20 c)); [done|]. rewrite (links_next _ _ _ _ _ _ _ Hlk Hd).
  apply (IH (D1 ++ [(i, g)])); [by rewrite <- app_assoc..|cbn in Hfu; lia].
Qed.

Lemma malloc_ok D fr x : links D fr x -> reassdata_malloc x =
  Ok (head fr, match fr with [] => x | _ :: fr' => set_tab_reassdata (head fr') x end).
Proof.
  intros [_ Hf _]. unfold reassdata_malloc. destruct fr as [|i fr]; [cbn in Hf; by rewrite Hf|]. destruct Hf as [-> (d&Hd&Hf)].
  rewrite (r_deref_ok _ _ _ Hd). cbn [rbind head]. by rewrite (linked_starts _ _ _ Hf).
Qed.

(** A new structure at the front of the list. *)
Definition enqueued (h : list Z) (i : Z) (x : reass) : reass :=
  set_reassdatagrams (Some i) (set_reassdata (<[i := mk_reassdata (reassdatagrams x) None h 0 0 IP_REASS_MAXAGE]> (reassdata x)) x).

Lemma enqueued_ok K r D i fr s h : reassembling K r (mk_waiting D (i :: fr)) s ->
  reassembling K r (mk_waiting ((i, mk_dgram h [] 0 false IP_REASS_MAXAGE) :: D) fr) (put_reass (enqueued h i (set_tab_reassdata (head fr) (rs s))) s).
Proof.
  intros [Hb [Hlk Hea Hco] Hap]. cbn [w_dgrams w_free] in *. pose proof Hlk as [Hl Hf Hn]. destruct Hf as [Ht (d&Hd&Hf)].
  assert (Hni : i ∉ D.*1 /\ i ∉ fr) by (rewrite <- Permutation_middle in Hn; apply NoDup_cons in Hn as [Hn _]; set_solver).
  destruct Hni as [Hni1 Hni2]. assert (Hfree : r_next d = head fr) by (by apply linked_starts in Hf).
  split; [done| |done]. rewrite rs_put. split; cbn [w_dgrams w_free enqueued set_reassdatagrams set_reassdata set_tab_reassdata reassdata reassdatagrams tab_reassdata ip_reass_pbufcount].
  - split; cbn.
    + split; [done|]. eexists. rewrite lookup_insert_eq. split; [done|]. cbn. by apply linked_insert_ne.
    + rewrite <- Hfree. by apply linked_insert_ne.
    + by rewrite <- Permutation_middle in Hn.
  - apply dgrams_in_cons. split.
    + eexists. cbn. rewrite lookup_insert_eq. split; [done|]. by split_and!.
    + apply (dgrams_in_ext K _ _ (rs s)); [done| |done]. intros j Hj. cbn. rewrite lookup_insert_ne; [done|]. set_solver.
  - by rewrite bufs_cons.
Qed.

Lemma put_malloc x y s : put_reass y (put_reass x s) = put_reass y s.
Proof. unfold put_reass. cbn. by rewrite set_part_set. Qed.

Lemma enqueue_ok K r w s n : waiting_ok w -> reassembling K r w s -> K !! p = Some (o, c :: cs) -> p ∉ packets_of (w_dgrams w) ->
  exists K' s', ip_reass_enqueue_new_datagram base nif netif_default (Some (p, o)) n s = Ok (fst <$> (new_dg (take 20 c) n w).1, s') /\
    reassembling K' r (new_dg (take 20 c) n w).2 s' /\ only_reass s s' /\ forall q, q ∉ packets_of (w_dgrams w) -> K' !! q = K !! q.
Proof.
  intros Hw Hr HK Hp. unfold ip_reass_enqueue_new_datagram, new_dg. unfold on_reass_r at 1. destruct w as [D fr]. cbn [w_free w_dgrams] in *.
  pose proof (ri_links _ _ _ (rg_in _ _ _ _ Hr)) as Hlk. cbn [w_dgrams w_free] in Hlk. rewrite (malloc_ok _ _ _ Hlk). cbn [rbind].
  assert (Hnew : forall K1 D1 i fr1 s1 s2 y, reassembling K1 r (mk_waiting D1 (i :: fr1)) s1 -> K1 !! p = Some (o, c :: cs) ->
    s2 = put_reass y s1 -> y = set_tab_reassdata (head fr1) (rs s1) ->
    exists s', (let* hdr := ld_bytes (stack s2) (Some (p, o)) 0 IP_HLEN in
       let r := rs s2 in
       let r := set_reassdata (<[i := mk_reassdata (reassdatagrams r) None hdr 0 0 IP_REASS_MAXAGE]> (reassdata r)) r in
       Ok (Some i, put_reass (set_reassdatagrams (Some i) r) s2)) = Ok (Some i, s') /\
      reassembling K1 r (mk_waiting ((i, mk_dgram (take 20 c) [] 0 false IP_REASS_MAXAGE) :: D1) fr1) s' /\ only_reass s1 s').
  { intros K1 D1 i fr1 s1 s2 y Hr1 HK1 -> ->. pose proof (rg_below _ _ _ _ Hr1) as Hb1.
    rewrite (kept_ld_bytes K1 _ (stack (put_reass _ s1)) p o c cs 0 IP_HLEN Hb1 HK1) by (unfold IP_HLEN; lia). cbn [rbind]. rewrite rs_put, put_malloc.
    eexists. split; [reflexivity|]. split; [exact (enqueued_ok K1 r D1 i fr1 s1 (take 20 c) Hr1)|apply only_put]. }
  destruct fr as [|i fr]; cbn [head].
  - change (set_around (set_part (rs s) (around s)) s) with (put_reass (rs s) s).
    assert (Hsame : put_reass (rs s) s = s) by (unfold put_reass, rs; rewrite set_part_same; by destruct s). rewrite Hsame.
    destruct (remove_oldest_ok base nif netif_default p o c cs Hc K r _ s n Hw Hr HK Hp) as (K1&s1&->&Hr1&Hon1&HK1). cbn [rbind].
    destruct (evict (take 20 c) n (mk_waiting D [])) as [freed [D1 fr1]] eqn:He. cbn [fst snd w_free w_dgrams] in *.
    pose proof (ri_links _ _ _ (rg_in _ _ _ _ Hr1)) as Hlk1. cbn [w_dgrams w_free] in Hlk1. destruct (n <=? freed).
    + unfold on_reass_r. rewrite (malloc_ok _ _ _ Hlk1). cbn [rbind]. destruct fr1 as [|i fr1]; cbn [head].
      * exists K1. eexists. split; [reflexivity|]. change (set_around (set_part (rs s1) (around s1)) s1) with (put_reass (rs s1) s1).
        assert (Hsame1 : put_reass (rs s1) s1 = s1) by (unfold put_reass, rs; rewrite set_part_same; by destruct s1). rewrite Hsame1. by split_and!.
      * destruct (Hnew K1 D1 i fr1 s1 _ _ Hr1 ltac:(by rewrite HK1) eq_refl eq_refl) as (s2&Hrun&Hr2&Hon2).
        exists K1, s2. split; [exact Hrun|]. split; [done|]. split; [by transitivity s1|done].
    + cbn [rbind]. exists K1, s1. destruct fr1; by split_and!.
  - cbn [rbind]. destruct (Hnew K D i fr s _ _ Hr HK eq_refl eq_refl) as (s2&Hrun&Hr2&Hon2).
    exists K, s2. split; [exact Hrun|]. by split_and!.
Qed.
End arriving.
(** ** Dropping a packet *)

Lemma other_packets K K' r w s t : reassembling K r w s -> below K' (held (w_dgrams w) ⊎ r) t ->
  (forall q, q ∈ packets_of (w_dgrams w) -> K' !! q = K !! q) -> reassembling K' r w (set_stack t s).
Proof.
  intros [_ [Hlk Hea Hco] Hap] Hb Hoth. split; [done| |done]. change (rs (set_stack t s)) with (rs s). split; [done| |done].
  by apply (dgrams_in_ext K _ _ (rs s)).
Qed.

Lemma drop_in K r w s p : reassembling K ({[+ p +]} ⊎ r) w s -> p ∉ packets_of (w_dgrams w) ->
  exists t, drop_packet p s = Ok (set_stack t s) /\ reassembling (delete p K) r w (set_stack t s).
Proof.
  intros Hr Hp. pose proof Hr as [Hb [Hlk Hea Hco] Hap]. rewrite comm3 in Hb.
  assert (Hb1 : below (delete p K) ({[+ p +]} ⊎ (held (w_dgrams w) ⊎ r)) (stack s)) by (apply below_forget; [done|multiset_solver]).
  destruct (drop_ok (delete p K) _ s p Hb1) as (t&Hrun&Ht); [apply lookup_delete_eq|]. exists t. split; [done|]. split; [done| |].
  - change (rs (set_stack t s)) with (rs s). split; [done| |done]. apply (dgrams_in_ext K _ _ (rs s)); [|done|done].
    intros q Hq. rewrite lookup_delete_ne; [done|]. by intros ->.
  - intros q Hq Hin. apply (Hap q Hq). multiset_solver.
Qed.

(** What is true when the packet [p] has been dealt with: [d] is delivered and [w']
    wait. *)
Definition dealt K r w p s (d : option (Z * list (list Z))) w' (res : option Z) K' s' : Prop :=
  res = fst <$> d /\ only_reass s s' /\ (forall q, q ∉ p :: packets_of (w_dgrams w) -> K' !! q = K !! q) /\
  match d with
  | Some (q, cs) => reassembling K' ({[+ q +]} ⊎ r) w' s' /\ (exists o, K' !! q = Some (o, cs)) /\ q ∈ p :: packets_of (w_dgrams w)
  | None => reassembling K' r w' s'
  end.

Lemma nullreturn_ok K r w s p : reassembling K ({[+ p +]} ⊎ r) w s -> p ∉ packets_of (w_dgrams w) ->
  exists K' s', nullreturn p s = Ok (None, s') /\ dealt K r w p s None w None K' s'.
Proof.
  intros Hr Hp. unfold nullreturn. destruct (drop_in K r w s p Hr Hp) as (t&->&Hr'). cbn [rbind]. exists (delete p K), (set_stack t s). split; [done|].
  split; [done|]. split; [apply only_stack|]. split; [|done]. intros q Hq. rewrite lookup_delete_ne; [done|]. intros ->. set_solver.
Qed.

Lemma nullreturn_ipr_ok K r D1 i g D2 fr s p : reassembling K ({[+ p +]} ⊎ r) (mk_waiting (D1 ++ (i, g) :: D2) fr) s ->
  parts_ok (D1 ++ (i, g) :: D2) fr -> (g_frags g = [] -> D1 = []) -> p ∉ packets_of (D1 ++ (i, g) :: D2) ->
  exists K' s', nullreturn_ipr p i s = Ok (None, s') /\
    dealt K r (mk_waiting (D1 ++ (i, g) :: D2) fr) p s None
      (match g_frags g with [] => remove_dg i (mk_waiting (D1 ++ (i, g) :: D2) fr) | _ => mk_waiting (D1 ++ (i, g) :: D2) fr end) None K' s'.
Proof.
  intros Hr Hp Hnil Hpk. pose proof Hr as [Hb [Hlk Hea Hco] Hap]. cbn [w_dgrams w_free] in *.
  destruct (dgrams_in_split _ _ _ _ _ _ Hea) as [(d&Hd&_&_&_&_&Hfr) Hea']. unfold nullreturn_ipr. rewrite (r_deref_ok _ _ _ Hd). cbn [rbind].
  rewrite (remove_split D1 i g) by done. destruct (g_frags g) as [|f l] eqn:Hgf.
  - cbn in Hfr. rewrite Hfr. rewrite (Hnil eq_refl) in *. cbn [app] in *.
    destruct (dequeue_ok [] i g D2 fr (rs s) Hlk) as (x&Hdq&Hlk'&Hc'&Hbo). cbn [fmap list_fmap last] in Hdq. rewrite (on_reass_ok _ _ _ Hdq). cbn [rbind].
    assert (Hr' : reassembling K ({[+ p +]} ⊎ r) (mk_waiting D2 (i :: fr)) (put_reass x s)).
    { split; cbn [w_dgrams].
      - pose proof (held_split [] i g D2) as Hhs. cbn [app] in Hhs. rewrite Hhs, Hgf in Hb. change (list_to_set_disj (f_p <$> [])) with (∅ : gmultiset Z) in Hb. by rewrite (left_id_L ∅ (⊎)) in Hb.
      - rewrite rs_put. split; cbn [w_dgrams w_free]; [done| |].
        + apply (dgrams_in_ext K _ _ (rs s)); [done| |done]. intros j Hj. apply Hbo. intros ->. by destruct (parts_name [] i g D2 fr Hp) as (_&?&_).
        + rewrite Hc', Hco, bufs_cons. unfold dg_bufs. cbn [snd]. by rewrite Hgf.
      - intros q Hq. apply Hap. rewrite packets_cons. set_solver. }
    rewrite packets_cons in Hpk. cbn [snd] in Hpk. rewrite Hgf in Hpk.
    destruct (nullreturn_ok K r _ _ p Hr' Hpk) as (K'&s'&Hrun&_&Hon&HK&Hfin). cbn [app]. exists K', s'. split; [done|].
    split; [done|]. split; [transitivity (put_reass x s); [apply only_put|done]|]. split; [|done]. cbn [w_dgrams] in *.
    rewrite packets_cons. cbn [snd]. by rewrite Hgf.
  - destruct Hfr as [-> _]. cbn [rbind]. by apply nullreturn_ok.
Qed.

(** ** The fragment is in its place *)

Lemma bufs_put D1 i g g' D2 x : g_frags g' ≡ₚ x :: g_frags g -> bufs (D1 ++ (i, g') :: D2) = bufs (D1 ++ (i, g) :: D2) + frag_bufs x.
Proof. intros Hp. rewrite !bufs_app, !bufs_cons. unfold dg_bufs, frag_bufs. cbn [snd]. rewrite Hp, bind_cons, length_app. lia. Qed.

Lemma packets_put D1 i g g' D2 x : g_frags g' ≡ₚ x :: g_frags g -> packets_of (D1 ++ (i, g') :: D2) ≡ₚ f_p x :: packets_of (D1 ++ (i, g) :: D2).
Proof.
  intros Hp. rewrite !packets_app, !packets_cons. cbn [snd]. rewrite Hp, fmap_cons. cbn [app]. by rewrite <- Permutation_middle.
Qed.

(** [x] is put into [g], which becomes [g']. *)
Lemma queued_ok K r D1 i g g' D2 fr s x K' s' d q :
  reassembling K ({[+ f_p x +]} ⊎ r) (mk_waiting (D1 ++ (i, g) :: D2) fr) s -> parts_ok (D1 ++ (i, g) :: D2) fr ->
  f_p x ∉ r -> f_p x ∉ packets_of (D1 ++ (i, g) :: D2) -> g_frags g' ≡ₚ x :: g_frags g ->
  bufs (D1 ++ (i, g) :: D2) + frag_bufs x <= IP_REASS_MAX_PBUFS ->
  reassdata (rs s) !! i = Some d -> below K' (held (D1 ++ (i, g) :: D2) ⊎ ({[+ f_p x +]} ⊎ r)) (stack s') ->
  (forall y, y ∉ f_p <$> g_frags g' -> K' !! y = K !! y) -> r_next q = r_next d -> dgram_in K' q g' ->
  rs s' = set_pbufcount (wrap16 (ip_reass_pbufcount (rs s) + frag_bufs x)) (set_reassdata (<[i := q]> (reassdata (rs s))) (rs s)) ->
  reassembling K' r (mk_waiting (D1 ++ (i, g') :: D2) fr) s'.
Proof.
  intros [_ [Hlk Hea Hco] Hap] Hp Hxr Hxp Hperm Hbu Hd Hb HK Hn Hg Hrs. cbn [w_dgrams w_free] in *.
  destruct (dgrams_in_split _ _ _ _ _ _ Hea) as [_ Hea']. pose proof (packets_put D1 i g g' D2 x Hperm) as Hpk.
  destruct (parts_name _ _ _ _ _ Hp) as (Hi1&Hi2&_). destruct (parts_apart _ _ _ _ _ Hp) as [_ Happ].
  split; cbn [w_dgrams].
  - assert (Hheld : held (D1 ++ (i, g') :: D2) = {[+ f_p x +]} ⊎ held (D1 ++ (i, g) :: D2)) by (unfold held; by rewrite Hpk, list_to_set_disj_cons).
    rewrite Hheld, <- (assoc_L (⊎)), <- comm3. exact Hb.
  - rewrite Hrs. split; cbn [w_dgrams w_free].
    + destruct (links_assign _ _ _ _ _ q Hlk Hd Hn). split; [..|]; rewrite fmap_app, fmap_cons in *; done.
    + apply dgrams_in_app in Hea' as [Hd1 Hd2]. rewrite dgrams_in_app, dgrams_in_cons.
      assert (HKo : forall p, p ∈ packets_of (D1 ++ D2) -> K' !! p = K !! p).
      { intros p Hin. apply HK. rewrite Hperm, fmap_cons. apply not_elem_of_cons. split; [|by apply Happ]. intros ->. apply Hxp.
        rewrite packets_app, packets_cons in *. set_solver. }
      split; [|split; [eexists; cbn; by rewrite lookup_insert_eq|]].
      * apply (dgrams_in_ext K _ _ (rs s)); [intros p Hin; apply HKo; rewrite packets_app; set_solver| |done]. intros j Hj. cbn. rewrite lookup_insert_ne; [done|]. by intros ->.
      * apply (dgrams_in_ext K _ _ (rs s)); [intros p Hin; apply HKo; rewrite packets_app; set_solver| |done]. intros j Hj. cbn. rewrite lookup_insert_ne; [done|]. by intros ->.
    + cbn. rewrite (bufs_put D1 i g g' D2 x Hperm), Hco. pose proof (bufs_nonneg (D1 ++ (i, g) :: D2)). unfold frag_bufs, IP_REASS_MAX_PBUFS in *.
      apply wrap16_small. lia.
  - intros y. rewrite Hpk. intros [->|Hy]%elem_of_cons; [done|]. intros Hin. apply (Hap y Hy). multiset_solver.
Qed.
Lemma frags_ptrs D1 i g D2 p : p ∉ packets_of (D1 ++ (i, g) :: D2) -> p ∉ f_p <$> g_frags g.
Proof. rewrite packets_app, packets_cons, !not_elem_of_app. cbn [snd]. tauto. Qed.

Lemma too_long p c cs : bytes_ok (take 20 c) -> (20 <= length c)%nat -> plain_header c = true ->
  let e := f_end (frag_of p c cs) in
  let w := wrap16 (offset_of c * 8 + wrap16 (lwip_htons (header_field c 2 2) - IP_HLEN)) in
  (w <? offset_of c * 8) || (0xFFFF - IP_HLEN <? w) = (0xFFFF - IP_HLEN <? e).
Proof.
  intros Hb Hl Hp e w. destruct (end_wrap c Hb Hl Hp) as (Hle&Hsm&Hbg). fold w in Hsm, Hbg. cbv zeta in Hle, Hsm, Hbg.
  change (offset_of c * 8 + lwip_htons (header_field c 2 2) - IP_HLEN) with e in *. unfold IP_HLEN in *.
  destruct (Z.le_gt_cases e 0xFFFF) as [Hsmall|Hbig].
  - rewrite (Hsm Hsmall), (proj2 (Z.ltb_ge e _)) by lia. done.
  - specialize (Hbg Hbig). rewrite (proj2 (Z.ltb_lt w _)) by lia. symmetry. apply Z.ltb_lt. lia.
Qed.

(** ** A fragment for the datagram [i] *)

Lemma reass_into_ok K r D1 i g D2 fr s p o c cs : let x := frag_of p c cs in let w := mk_waiting (D1 ++ (i, g) :: D2) fr in
  reassembling K ({[+ p +]} ⊎ r) w s -> parts_ok (D1 ++ (i, g) :: D2) fr -> (g_frags g = [] -> D1 = []) ->
  K !! p = Some (o, c :: cs) -> frag_packet p c cs -> plain_header c = true -> p ∉ packets_of (D1 ++ (i, g) :: D2) -> p ∉ r ->
  bufs (D1 ++ (i, g) :: D2) + frag_bufs x <= IP_REASS_MAX_PBUFS ->
  exists K' s' res, reass_into base p i (Some (p, o)) (offset_of c * 8) (wrap16 (lwip_htons (header_field c 2 2) - IP_HLEN)) (frag_bufs x) s = Ok (res, s') /\
    dealt K r w p s (put_frag i g x (is_last c) w).1 (put_frag i g x (is_last c) w).2 res K' s'.
Proof.
  intros x w Hr Hp Hnil HK Hpk Hpl Hpp Hpr Hbu. pose proof (fp_header _ _ _ Hpk) as Hc. pose proof (fp_bytes _ _ _ Hpk) as Hok.
  pose proof Hr as [Hb [Hlk Hea Hco] Hap]. cbn [w w_dgrams w_free] in *. destruct (dgrams_in_split _ _ _ _ _ _ Hea) as [(d&Hd&Hg) Hea'].
  pose proof Hg as (Hhd&Hlen&Hfl&Htm&Hfr). pose proof (parts_dgram _ _ _ _ _ Hp) as Hgok. destruct (parts_apart _ _ _ _ _ Hp) as [Hnd Happ].
  unfold reass_into. rewrite (read_field K _ _ _ _ _ _ Hb HK Hc 6 2) by lia. cbn [rbind]. fold (is_last c).
  pose proof (too_long p c cs Hok Hc Hpl) as Htl. cbv zeta in Htl. rewrite Htl. clear Htl. fold x.
  assert (Hdrop : forall K1 t, below K1 (held (D1 ++ (i, g) :: D2) ⊎ ({[+ p +]} ⊎ r)) t -> (forall q, q <> p -> K1 !! q = K !! q) ->
    exists K' s' res, nullreturn_ipr p i (set_stack t s) = Ok (res, s') /\
      dealt K r w p s None (match g_frags g with [] => remove_dg i w | _ => w end) res K' s').
  { intros K1 t Hb1 HK1. destruct (nullreturn_ipr_ok K1 r D1 i g D2 fr (set_stack t s) p) as (K'&s'&Hrun&H1'&H2'&H3'&H4'); try done.
    { apply (other_packets K); [done..|]. intros q Hq. apply HK1. by intros ->. }
    exists K', s', None. split; [done|]. split; [done|]. split; [transitivity (set_stack t s); [apply only_stack|done]|]. split; [|done].
    intros q Hq. rewrite H3' by done. apply HK1. intros ->. set_solver. }
  unfold put_frag. destruct (is_last c && (65535 - IP_HLEN <? f_end x)) eqn:Hbig.
  { rewrite orb_true_r. assert (Hs : set_stack (stack s) s = s) by (by destruct s). rewrite <- Hs. by apply (Hdrop K). }
  rewrite orb_false_r. pose proof (frags_ptrs _ _ _ _ _ Hpp) as Hpf.
  destruct (chain_frag_ok i (held (D1 ++ (i, g) :: D2) ⊎ ({[+ p +]} ⊎ r)) p o c cs K s d (g_frags g) (g_last g) (is_last c)) as (v&K1&s1&->&Hch); try done.
  { by apply NoDup_cons. }
  { intros q [->|Hq]%elem_of_cons; [multiset_solver|]. rewrite gmultiset_elem_of_disj_union, elem_held. left.
    rewrite packets_app, packets_cons. cbn [snd]. set_solver. }
  cbn [rbind]. unfold chained in Hch. fold x in Hch. destruct (0xFFFF <? f_end x) eqn:Hend; [destruct Hch as (->&(t&->)&Hb1&_&HK1); by apply (Hdrop K1)|].
  apply Z.ltb_ge in Hend. destruct (ins x (g_frags g)) as [l|] eqn:Hins; [|destruct Hch as (->&(t&->)&Hb1&_&HK1); by apply (Hdrop K1)].
  destruct Hch as (->&[Pb (q&Prs&Pf) Po Pk]). destruct (end_wrap c Hok Hc Hpl) as (_&Hsm&_). cbv zeta in Hsm.
  change (offset_of c * 8 + lwip_htons (header_field c 2 2) - IP_HLEN) with (f_end x) in Hsm. rewrite (Hsm Hend). clear Hsm.
  set (g' := mk_dgram (g_hdr g) l (if is_last c then f_end x else g_len g) (g_last g || is_last c) (g_timer g)).
  pose proof (ins_perm _ _ _ Hins) as Hperm.
  assert (Hnext : exists s3 d3, (if is_last c then on_reass (r_assign i (fun d => set_r_last (f_end x) (Z.lor (r_flags d) IP_REASS_FLAG_LASTFRAG) d))
      (put_reass (set_pbufcount (wrap16 (ip_reass_pbufcount (rs s1) + frag_bufs x)) (rs s1)) s1)
      else Ok (put_reass (set_pbufcount (wrap16 (ip_reass_pbufcount (rs s1) + frag_bufs x)) (rs s1)) s1)) = Ok s3 /\
    rs s3 = set_pbufcount (wrap16 (ip_reass_pbufcount (rs s) + frag_bufs x)) (set_reassdata (<[i := d3]> (reassdata (rs s))) (rs s)) /\
    stack s3 = stack s1 /\ only_reass s1 s3 /\ r_next d3 = r_next d /\ dgram_in K1 d3 g').
  { set (s2 := put_reass _ s1). assert (Hd2 : reassdata (rs s2) !! i = Some (set_r_p q d)) by (unfold s2; rewrite rs_put, Prs; apply lookup_insert_eq).
    unfold g'. destruct (is_last c).
    - eexists _, _. split; [exact (on_reass_ok _ _ _ (r_assign_ok _ _ _ _ Hd2))|]. rewrite rs_put. unfold s2. rewrite rs_put, Prs. cbn. rewrite insert_insert_eq.
      split; [reflexivity|]. split; [done|]. split; [rewrite put_malloc; apply only_put|]. split; [done|]. split_and!; try done. cbn. rewrite Hfl. by destruct (g_last g).
    - eexists s2, (set_r_p q d). split; [done|]. unfold s2. rewrite rs_put, Prs. split; [done|]. split; [done|]. split; [apply only_put|]. split; [done|].
      split_and!; try done. cbn. by rewrite orb_false_r. }
  destruct Hnext as (s3&d3&Hrun3&Hrs3&Hst3&Hon3&Hnx3&Hg3).
  assert (Hr3 : reassembling K1 r (mk_waiting (D1 ++ (i, g') :: D2) fr) s3).
  { apply (queued_ok K r D1 i g g' D2 fr s x K1 s3 d d3); try done. by rewrite Hst3. }
  assert (Hon : only_reass s s3) by (by transitivity s1).
  assert (Hoth : forall y, y ∉ p :: packets_of (D1 ++ (i, g) :: D2) -> K1 !! y = K !! y).
  { intros y Hy. apply Pk. rewrite Hperm, fmap_cons. apply not_elem_of_cons in Hy as [Hyp Hy]. apply not_elem_of_cons. split; [done|]. by eapply frags_ptrs. }
  cbn [g_last g_frags] in *. change (g_last g') with (g_last g || is_last c). change (g_frags g') with l.
  destruct ((g_last g || is_last c) && no_hole 0 l) eqn:Hfin.
  - rewrite Hrun3. cbn [rbind]. destruct Hgok as [Hh Hby Hfo _ _ _].
    destruct (finish_ok base K1 r D1 i g' D2 fr s3 Hr3) as (q'&K4&s4&Hq&Hrun4&Hr4&HK4&Hon4&Hoth4); try done.
    + rewrite (packets_put D1 i g g' D2 x Hperm). apply NoDup_cons. split; [done|]. apply (po_packets _ _ Hp).
    + by rewrite (bufs_put D1 i g g' D2 x Hperm).
    + change (g_frags g') with l. rewrite Hperm, bind_cons. apply Forall_app. split; [exact (fo_room _ (frag_of_sized p c cs Hpk))|].
      clear -Hfo. induction Hfo as [|f l [Hf _] _ IH]; [constructor|]. rewrite bind_cons. apply Forall_app. split; [by destruct Hf|done].
    + change (g_frags g') with l. intros ->. by apply Permutation_nil_cons in Hperm.
    + exists K4, s4, (Some q'). split; [done|]. cbn [fst snd]. unfold delivered_in. change (g_frags g') with l in *. unfold first_p in Hq.
      destruct (head l) as [f|] eqn:Hhl; [|done]. cbn in Hq. injection Hq as <-. cbn [fmap option_fmap option_map].
      assert (Hfl' : f_p f ∈ f_p <$> l) by (apply list_elem_of_fmap_2; by apply head_Some_elem_of).
      split; [done|]. split; [by transitivity s3|]. unfold w. rewrite (remove_split D1 i g) by done. split.
      * intros y Hy. rewrite Hoth4, Hoth; [done|done|]. intros Hin. apply Hy. cbn [w_dgrams]. rewrite Hperm, fmap_cons in Hin.
        apply elem_of_cons in Hin as [->|Hin]; [apply list_elem_of_here|]. apply list_elem_of_further. rewrite packets_app, packets_cons. cbn [snd]. set_solver.
      * split; [done|]. split; [done|]. rewrite Hperm, fmap_cons in Hfl'. cbn [w_dgrams].
        apply elem_of_cons in Hfl' as [->|Hin]; [apply list_elem_of_here|]. apply list_elem_of_further. rewrite packets_app, packets_cons. cbn [snd]. set_solver.
  - rewrite Hrun3. cbn [rbind fst snd]. exists K1, s3, None. split; [done|]. unfold w. rewrite (set_split D1 i g g') by done. by split_and!.
Qed.
(** ** A fragment comes *)

Lemma dealt_after K K1 r w w1 p s s1 d w' res K' s' : dealt K1 r w1 p s1 d w' res K' s' -> only_reass s s1 ->
  (forall q, q ∉ packets_of (w_dgrams w) -> K1 !! q = K !! q) -> (forall q, q ∈ packets_of (w_dgrams w1) -> q ∈ packets_of (w_dgrams w)) ->
  dealt K r w p s d w' res K' s'.
Proof.
  intros (D1&D2&D3&D4) Hon HK Hsub. split; [done|]. split; [by transitivity s1|]. split.
  - intros q [Hqp Hq]%not_elem_of_cons. rewrite D3, HK; [done|done|]. apply not_elem_of_cons. auto.
  - destruct d as [[q cs]|]; [|done]. destruct D4 as (E1&E2&E3). split; [done|]. split; [done|].
    apply elem_of_cons in E3 as [->|E3]; [apply list_elem_of_here|]. apply list_elem_of_further. auto.
Qed.

Section into.
Context (p o : Z) (c : list Z) (cs : list (list Z)) (Hpk : frag_packet p c cs) (Hplain : plain_header c = true).

Lemma found_ok K r w s i g : waiting_ok w -> reassembling K r w s -> K !! p = Some (o, c :: cs) -> find_dg (take 20 c) (w_dgrams w) = Some (i, g) ->
  exists s', (let* d := r_deref (rs s) i in
     let* first := rd (r_iphdr d) 6 2 in
     if (Z.land (lwip_htons (header_field c 6 2)) IP_OFFMASK =? 0) && negb (Z.land (lwip_htons first) IP_OFFMASK =? 0) then
       let* hdr := ld_bytes (stack s) (Some (p, o)) 0 IP_HLEN in
       let* s := on_reass (r_assign i (set_r_iphdr hdr)) s in
       Ok (Some i, s)
     else Ok (Some i, s)) = Ok (Some i, s') /\
    reassembling K r (set_dg i (first_header (take 20 c) g) w) s' /\ only_reass s s'.
Proof.
  intros [Hp _] Hr HK Hf. destruct w as [D fr]. destruct (find_split _ _ _ _ Hf) as (D1&D2&HD&Hk). cbn [w_dgrams w_free] in *. subst D.
  rewrite (set_split D1 i g) by done. pose proof Hr as [Hb [_ Hea _] _]. cbn [w_dgrams] in Hb, Hea.
  destruct (dgrams_in_split _ _ _ _ _ _ Hea) as [(d&Hd&Hg) _]. pose proof Hg as (Hhd&Hg'). rewrite (r_deref_ok _ _ _ Hd). cbn [rbind].
  pose proof (go_hdr _ (parts_dgram _ _ _ _ _ Hp)) as Hl. rewrite Hhd, rd_field by (done || lia). cbn [rbind].
  fold (offset_of c) (offset_of (g_hdr g)). unfold first_header. rewrite offset_take. destruct (_ && _); [|exists s; by split_and!].
  rewrite (kept_ld_bytes K _ (stack s) p o c cs 0 IP_HLEN Hb HK) by (pose proof (fp_header _ _ _ Hpk); unfold IP_HLEN; lia). cbn [rbind].
  rewrite (on_reass_ok _ _ _ (r_assign_ok _ _ _ _ Hd)). cbn [rbind]. eexists. split; [reflexivity|]. split; [|apply only_put].
  destruct (parts_name _ _ _ _ _ Hp) as (?&?&_). by apply (reassembling_set K r D1 i g _ D2 fr s d).
Qed.

(** The datagram is found or made, and the fragment put into it. *)
Lemma into_datagram_ok K r w s : waiting_ok w -> reassembling K ({[+ p +]} ⊎ r) w s -> K !! p = Some (o, c :: cs) ->
  p ∉ packets_of (w_dgrams w) -> p ∉ r -> bufs (w_dgrams w) + Z.of_nat (length (c :: cs)) <= IP_REASS_MAX_PBUFS ->
  exists K' s' res,
    (let* found := find_loop (reass_fuel (rs s)) (Some (p, o)) (reassdatagrams (rs s)) s in
     let* (ipr, s) :=
       match found with
       | None => ip_reass_enqueue_new_datagram base nif netif_default (Some (p, o)) (Z.of_nat (length (c :: cs))) s
       | Some ipr =>
           let* d := r_deref (rs s) ipr in
           let* first := rd (r_iphdr d) 6 2 in
           if (Z.land (lwip_htons (header_field c 6 2)) IP_OFFMASK =? 0) && negb (Z.land (lwip_htons first) IP_OFFMASK =? 0) then
             let* hdr := ld_bytes (stack s) (Some (p, o)) 0 IP_HLEN in
             let* s := on_reass (r_assign ipr (set_r_iphdr hdr)) s in
             Ok (Some ipr, s)
           else Ok (Some ipr, s)
       end in
     match ipr with
     | None => nullreturn p s
     | Some ipr => reass_into base p ipr (Some (p, o)) (offset_of c * 8) (wrap16 (lwip_htons (header_field c 2 2) - IP_HLEN)) (Z.of_nat (length (c :: cs))) s
     end) = Ok (res, s') /\
    match datagram_for (take 20 c) (Z.of_nat (length (c :: cs))) w with
    | (None, w') => dealt K r w p s None w' res K' s'
    | (Some (i, g), w') => dealt K r w p s (put_frag i g (frag_of p c cs) (is_last c) w').1 (put_frag i g (frag_of p c cs) (is_last c) w').2 res K' s'
    end.
Proof.
  intros Hw Hr HK Hpp Hpr Hbu. pose proof (fp_header _ _ _ Hpk) as Hc. pose proof Hw as [Hp _].
  pose proof (ri_links _ _ _ (rg_in _ _ _ _ Hr)) as Hlk. rewrite (links_head _ _ _ Hlk).
  assert (Hfind : find_loop (reass_fuel (rs s)) (Some (p, o)) (head (w_dgrams w).*1) s = Ok (fst <$> find_dg (take 20 c) (w_dgrams w))).
  { destruct w as [D fr]. by apply (find_loop_ok p o c cs Hc _ K ({[+ p +]} ⊎ r) [] D fr); [..|apply links_fuel in Hlk]. }
  rewrite Hfind. cbn [rbind]. clear Hfind.
  set (o2 := (datagram_for (take 20 c) (Z.of_nat (length (c :: cs))) w).1). set (w2 := (datagram_for (take 20 c) (Z.of_nat (length (c :: cs))) w).2).
  assert (Hd : datagram_for (take 20 c) (Z.of_nat (length (c :: cs))) w = (o2, w2)) by (by destruct (datagram_for _ _ w)). rewrite Hd.
  assert (Hl20 : length (take 20 c) = 20%nat) by (rewrite length_take; lia).
  destruct (datagram_for_ok _ _ _ _ _ Hw Hl20 (fp_bytes _ _ _ Hpk) Hd) as (Hb2&Hp2&Ho2).
  assert (Hget : exists K1 s1, (match fst <$> find_dg (take 20 c) (w_dgrams w) with
       | None => ip_reass_enqueue_new_datagram base nif netif_default (Some (p, o)) (Z.of_nat (length (c :: cs))) s
       | Some ipr =>
           let* d := r_deref (rs s) ipr in
           let* first := rd (r_iphdr d) 6 2 in
           if (Z.land (lwip_htons (header_field c 6 2)) IP_OFFMASK =? 0) && negb (Z.land (lwip_htons first) IP_OFFMASK =? 0) then
             let* hdr := ld_bytes (stack s) (Some (p, o)) 0 IP_HLEN in
             let* s := on_reass (r_assign ipr (set_r_iphdr hdr)) s in
             Ok (Some ipr, s)
           else Ok (Some ipr, s)
       end) = Ok (fst <$> o2, s1) /\ reassembling K1 ({[+ p +]} ⊎ r) w2 s1 /\ only_reass s s1 /\
       forall q, q ∉ packets_of (w_dgrams w) -> K1 !! q = K !! q).
  { unfold datagram_for in Hd. destruct (find_dg (take 20 c) (w_dgrams w)) as [[i g]|] eqn:Hf; cbn [fmap option_fmap option_map fst].
    - injection Hd as <- <-. destruct (found_ok K ({[+ p +]} ⊎ r) w s i g Hw Hr HK Hf) as (s1&Hrun&Hr1&Hon1). exists K, s1. by split_and!.
    - destruct (enqueue_ok p o c cs Hc K ({[+ p +]} ⊎ r) w s (Z.of_nat (length (c :: cs))) Hw Hr HK Hpp) as (K1&s1&Hrun&Hr1&Hon1&HK1). rewrite Hd in *.
      exists K1, s1. by split_and!. }
  destruct Hget as (K1&s1&->&Hr1&Hon1&HK1). cbn [rbind].
  assert (Hpp2 : p ∉ packets_of (w_dgrams w2)) by (intros Hin; by apply Hpp, Hp2).
  destruct o2 as [[i g]|]; cbn [fmap option_fmap option_map fst].
  - destruct Ho2 as (D1&D2&HD&Hpo&_&Hnil). destruct w2 as [Dw frw]. cbn [w_dgrams w_free] in *. subst Dw.
    destruct (reass_into_ok K1 r D1 i g D2 frw s1 p o c cs) as (K2&s2&res&Hrun&Hres); try done; [by rewrite HK1|cbn [frag_of f_data frag_bufs] in *; unfold frag_bufs; cbn [f_data frag_of length] in *; lia|].
    exists K2, s2, res. split; [exact Hrun|]. by apply (dealt_after K K1 r w (mk_waiting (D1 ++ (i, g) :: D2) frw) p s s1).
  - destruct (nullreturn_ok K1 r w2 s1 p Hr1 Hpp2) as (K2&s2&Hrun&Hres). exists K2, s2, None. split; [done|]. by apply (dealt_after K K1 r w w2 p s s1).
Qed.
End into.
Lemma reass_step_ok K r w s p o c cs : waiting_ok w -> reassembling K ({[+ p +]} ⊎ r) w s -> K !! p = Some (o, c :: cs) -> frag_packet p c cs ->
  p ∉ packets_of (w_dgrams w) -> p ∉ r -> Z.of_nat (length (c :: cs)) < 65536 ->
  exists K' s' res, ip4_reass base nif netif_default p s = Ok (res, s') /\
    dealt K r w p s (fragment_in p c cs w).1 (fragment_in p c cs w).2 res K' s'.
Proof.
  intros Hw Hr HK Hpk Hpp Hpr Hmax. pose proof (fp_header _ _ _ Hpk) as Hc. pose proof (rg_below _ _ _ _ Hr) as Hb. unfold ip4_reass.
  destruct (kept_deref K _ _ _ _ _ _ Hb HK) as (b&->&Hpay). cbn [rbind]. rewrite Hpay. rewrite !(read_field K _ _ _ _ _ _ Hb HK Hc) by lia. cbn [rbind].
  assert (Hnull : forall K1 w1 s1, reassembling K1 ({[+ p +]} ⊎ r) w1 s1 -> only_reass s s1 -> (forall q, q ∉ packets_of (w_dgrams w) -> K1 !! q = K !! q) ->
    (forall q, q ∈ packets_of (w_dgrams w1) -> q ∈ packets_of (w_dgrams w)) ->
    exists K' s' res, nullreturn p s1 = Ok (res, s') /\ dealt K r w p s None w1 res K' s').
  { intros K1 w1 s1 Hr1 Hon1 HK1 Hsub. destruct (nullreturn_ok K1 r w1 s1 p Hr1) as (K2&s2&Hrun&Hres); [auto|]. exists K2, s2, None. split; [done|]. by apply (dealt_after K K1 r w w1 p s s1). }
  unfold fragment_in, plain_header. destruct (Z.eqb_spec (IPH_HL_BYTES (header_field c 0 1)) IP_HLEN) as [Hhl|]; cbn [negb andb]; [|by apply (Hnull K)].
  rewrite Hhl. destruct (Z.ltb_spec (lwip_htons (header_field c 2 2)) IP_HLEN) as [Hsh|Hlen].
  { rewrite (proj2 (Z.leb_gt _ _)) by done. by apply (Hnull K). }
  assert (Hplain : plain_header c = true) by (unfold plain_header; by rewrite Hhl, (proj2 (Z.leb_le _ _))).
  rewrite (proj2 (Z.leb_le _ _)) by done. cbn [negb]. rewrite (kept_clen K _ _ _ _ _ Hb HK) by done. cbn [rbind]. rewrite (ri_count _ _ _ (rg_in _ _ _ _ Hr)), offset_bytes.
  set (n := Z.of_nat (length (c :: cs))) in *. set (a := accept_frag (take 20 c) n w).
  assert (Hacc : exists K1 s1, (if IP_REASS_MAX_PBUFS <? bufs (w_dgrams w) + n then
      let* (freed, s) := ip_reass_remove_oldest_datagram base nif netif_default (Some (p, o)) n s in
      Ok (negb ((freed =? 0) || (IP_REASS_MAX_PBUFS <? ip_reass_pbufcount (rs s) + n)), s)
    else Ok (true, s)) = Ok (a.1, s1) /\ reassembling K1 ({[+ p +]} ⊎ r) a.2 s1 /\ only_reass s s1 /\ forall q, q ∉ packets_of (w_dgrams w) -> K1 !! q = K !! q).
  { unfold a, accept_frag. destruct (IP_REASS_MAX_PBUFS <? _); [|exists K, s; by split_and!].
    destruct (remove_oldest_ok base nif netif_default p o c cs Hc K ({[+ p +]} ⊎ r) w s n Hw Hr HK Hpp) as (K1&s1&->&Hr1&Hon1&HK1). cbn [rbind].
    destruct (evict (take 20 c) n w) as [freed w1]. cbn [fst snd] in *. rewrite (ri_count _ _ _ (rg_in _ _ _ _ Hr1)). exists K1, s1. by split_and!. }
  destruct Hacc as (K1&s1&->&Hr1&Hon1&HK1). cbn [rbind]. destruct a as [ok w1] eqn:Ha. cbn [fst snd] in *.
  destruct (accept_frag_ok _ _ _ _ _ Hw Ha) as (Hw1&Hs1&Hb1). assert (Hsub : forall q, q ∈ packets_of (w_dgrams w1) -> q ∈ packets_of (w_dgrams w)) by (intros q; by apply sub_packets).
  destruct ok; cbn [negb]; [|by apply (Hnull K1)]. specialize (Hb1 eq_refl).
  destruct (into_datagram_ok p o c cs Hpk Hplain K1 r w1 s1) as (K2&s2&res&Hrun&Hres); try done; [by rewrite HK1|auto|].
  exists K2, s2, res. split; [exact Hrun|]. fold n in Hres. destruct (datagram_for (take 20 c) n w1) as [[[i g]|] w2]; by apply (dealt_after K K1 r w w1 p s s1).
Qed.
End props.
