(* ===== verification/Ip4ReassRun.v ===== *)
(** * Runs of reassembly

    Fragments and ticks of the timer in any sequence, on the code of
    [src/lib/lwip/src/core/ipv4/ip4_frag.c]: nothing faults, what is delivered is
    what the specification says, and every packet is either delivered, waiting or
    freed.  The fragments of a datagram give the datagram in any order, and what
    stays incomplete is gone after sixteen ticks. *)

From stdpp Require Import base numbers decidable gmap gmultiset list.
From Stdlib Require Import ZArith Lia Bool.
From S2P Require Import Prelude Linked LwipMem Pbuf PbufChain PbufPool PbufProps OnesComp InetChksum InetChksumProps PbufView Ip4Addr Ethernet Ip4 Icmp PbufOwn Below BelowIcmp Ip4Reass Ip4ReassSpec Ip4ReassOrder Ip4ReassMem Ip4ReassRoom Ip4ReassChain Ip4ReassJoin Ip4ReassProps.
Open Scope Z_scope.

Implicit Types (K : gmap Z (Z * list (list Z))) (D : list (Z * dgram)) (fr : list Z) (g : dgram).

(** ** Events *)

(** A fragment comes, or the timer ticks. *)
Definition event : Type := option incoming.

(** What they do to the datagrams that wait. *)
Fixpoint spec_run (es : list event) (w : waiting) : list (Z * list (list Z)) * waiting :=
  match es with
  | [] => ([], w)
  | None :: es => spec_run es (tick w)
  | Some x :: es =>
      let '(d, w) := fragment_in (in_p x) (in_c x) (in_cs x) w in
      let '(ds, w) := spec_run es w in
      (option_list d ++ ds, w)
  end.

Section run.
Context {X H : Type} `{OutputLaws X H} `{!Part reass X}.
Context (base : Z -> Z) (nif : Z -> netif) (netif_default : option Z).
Implicit Types (s : ip4 X H) (r : gmultiset Z) (w : waiting).

(** What they do in the code: the packets that are delivered. *)
Fixpoint reass_run (es : list event) s : result (list Z * ip4 X H) :=
  match es with
  | [] => Ok ([], s)
  | None :: es => let* s := ip_reass_tmr base nif netif_default s in reass_run es s
  | Some x :: es =>
      let* (res, s) := ip4_reass base nif netif_default (in_p x) s in
      let* (ds, s) := reass_run es s in
      Ok (option_list res ++ ds, s)
  end.

Definition coming_in (es : list event) : list incoming := omap id es.

(** The packets of the fragments to come: each is known, and nobody else has it. *)
Record to_come K r w (es : list event) : Prop := {
  tc_names : NoDup (in_p <$> coming_in es);
  tc_fresh : forall x, x ∈ coming_in es -> in_p x ∉ packets_of (w_dgrams w) /\ in_p x ∉ r;
  tc_known : forall x, x ∈ coming_in es -> exists o, K !! in_p x = Some (o, in_c x :: in_cs x);
  tc_packet : forall x, x ∈ coming_in es -> frag_packet (in_p x) (in_c x) (in_cs x) /\ Z.of_nat (length (in_c x :: in_cs x)) < 65536
}.

Lemma disj_cons_comm p (l : list Z) r : list_to_set_disj (p :: l) ⊎ r = {[+ p +]} ⊎ (list_to_set_disj l ⊎ r).
Proof. by rewrite list_to_set_disj_cons, <- (assoc_L (⊎)). Qed.

Lemma to_come_rest K K' r r' w w' x es : to_come K r w (Some x :: es) ->
  (forall q, q ∈ packets_of (w_dgrams w') -> q = in_p x \/ q ∈ packets_of (w_dgrams w)) ->
  (forall q, q ∈ r' -> q = in_p x \/ q ∈ packets_of (w_dgrams w) \/ q ∈ r) ->
  (forall q, q ∉ in_p x :: packets_of (w_dgrams w) -> K' !! q = K !! q) -> to_come K' r' w' es.
Proof.
  intros [Hn Hf Hk Hp] Hw Hr HK. cbn in Hn. apply NoDup_cons in Hn as [Hx Hn].
  assert (Hy : forall y, y ∈ coming_in es -> in_p y <> in_p x /\ y ∈ coming_in (Some x :: es)).
  { intros y Hy. split; [|by right]. intros Heq. apply Hx. rewrite <- Heq. by apply list_elem_of_fmap_2. }
  split; [done|..]; intros y Hin; destruct (Hy y Hin) as [Hne Hin']; destruct (Hf y Hin') as [Hfw Hfr].
  - split; [intros [?|?]%Hw; done|]. intros [?|[?|?]]%Hr; done.
  - rewrite HK; [by apply Hk|]. apply not_elem_of_cons. done.
  - by apply Hp.
Qed.

Lemma run_ok es K r w s : waiting_ok w -> reassembling K (list_to_set_disj (in_p <$> coming_in es) ⊎ r) w s -> to_come K r w es ->
  exists K' s', reass_run es s = Ok ((spec_run es w).1.*1, s') /\ waiting_ok (spec_run es w).2 /\
    reassembling K' (list_to_set_disj (spec_run es w).1.*1 ⊎ r) (spec_run es w).2 s' /\ only_reass s s' /\
    (forall q, q ∈ r -> K' !! q = K !! q) /\
    Forall (fun d => exists o, K' !! d.1 = Some (o, d.2)) (spec_run es w).1.
Proof.
  revert K r w s. induction es as [|[x|] es IH]; intros K r w s Hw Hr Htc.
  - exists K, s. by split_and!.
  - cbn [reass_run spec_run]. pose proof Htc as [Hn Hf Hk Hp]. cbn [coming_in omap list_omap id] in *. rewrite fmap_cons, disj_cons_comm in Hr. rewrite fmap_cons in Hn.
    apply NoDup_cons in Hn as [Hx Hn]. assert (Hin : x ∈ x :: omap id es) by apply list_elem_of_here.
    destruct (Hf x Hin) as [Hfw Hfr]. destruct (Hk x Hin) as [o HK]. destruct (Hp x Hin) as [Hpk Hmax].
    destruct (reass_step_ok base nif netif_default K _ w s (in_p x) o (in_c x) (in_cs x) Hw Hr HK Hpk Hfw) as (K1&s1&res&->&Hd); [|done|].
    { rewrite gmultiset_elem_of_disj_union, elem_of_list_to_set_disj. tauto. }
    cbn [rbind]. destruct (fragment_in (in_p x) (in_c x) (in_cs x) w) as [d w1] eqn:Hfi. cbn [fst snd] in Hd. destruct Hd as (->&Hon&HK1&Hd).
    pose proof (fragment_in_ok _ _ _ _ _ _ Hw Hpk Hfw Hfi) as Hw1.
    assert (Hpw : forall q, q ∈ packets_of (w_dgrams w1) -> q = in_p x \/ q ∈ packets_of (w_dgrams w)).
    { intros q Hq. apply (fragment_in_packets _ (in_c x) (in_cs x)); [done|done|]. by rewrite Hfi. }
    assert (Hkeep : forall q, q ∈ r -> K1 !! q = K !! q).
    { intros q Hq. apply HK1. apply not_elem_of_cons. split; [intros ->; done|]. intros Hin'. apply (rg_apart _ _ _ _ Hr q Hin'). multiset_solver. }
    destruct d as [[q cs]|].
    + destruct Hd as (Hr1&[o1 HKq]&Hq). destruct (IH K1 ({[+ q +]} ⊎ r) w1 s1 Hw1) as (K2&s2&->&Hw2&Hr2&Hon2&HK2&Hds).
      * by rewrite comm3.
      * apply (to_come_rest K K1 r _ w w1 x es); try done. intros q'. rewrite gmultiset_elem_of_disj_union, gmultiset_elem_of_singleton.
        apply elem_of_cons in Hq. intros [->|?]; tauto.
      * cbn [rbind]. destruct (spec_run es w1) as [ds w2]. cbn [fst snd option_list fmap option_fmap option_map list_fmap app] in *.
        exists K2, s2. split; [done|]. split; [done|].
        assert (Hheld : list_to_set_disj ((q, cs) :: ds).*1 ⊎ r = list_to_set_disj ds.*1 ⊎ ({[+ q +]} ⊎ r)) by (by rewrite fmap_cons, disj_cons_comm, comm3).
        split; [exact (eq_ind_r (fun h => reassembling K2 h w2 s2) Hr2 Hheld)|]. split; [by transitivity s1|]. split.
        -- intros q' Hq'. rewrite HK2 by multiset_solver. by apply Hkeep.
        -- constructor; [|done]. exists o1. cbn. rewrite HK2 by multiset_solver. done.
    + destruct (IH K1 r w1 s1 Hw1 Hd) as (K2&s2&->&Hw2&Hr2&Hon2&HK2&Hds).
      * apply (to_come_rest K K1 r _ w w1 x es); try done. tauto.
      * cbn [rbind]. destruct (spec_run es w1) as [ds w2]. cbn [fst snd option_list fmap option_fmap option_map app] in *.
        exists K2, s2. split_and!; try done; [by transitivity s1|]. intros q' Hq'. rewrite HK2 by done. by apply Hkeep.
  - cbn [reass_run spec_run]. change (coming_in (None :: es)) with (coming_in es) in *.
    destruct (reass_tmr_ok base nif netif_default K _ w s Hw Hr) as (K1&s1&->&Hr1&Hon1&HK1). cbn [rbind].
    assert (Htc1 : to_come K1 r (tick w) es).
    { destruct Htc as [Hn Hf Hk Hp]. split; try done; intros x Hx; destruct (Hf x Hx) as [Hfw Hfr].
      - split; [intros Hin%tick_packets; done|done].
      - rewrite HK1 by done. by apply Hk. }
    destruct (IH K1 r (tick w) s1 (tick_ok w Hw) Hr1 Htc1) as (K2&s2&->&Hw2&Hr2&Hon2&HK2&Hds). exists K2, s2. split_and!; try done; [by transitivity s1|].
    intros q Hq. rewrite HK2 by done. apply HK1. intros Hin. apply (rg_apart _ _ _ _ Hr q Hin). multiset_solver.
Qed.
End run.
