(* ===== verification/NetLaws.v ===== *)
(** * What IP relies on, kept by what is below it

    With ARP over the packet buffers, the pools and the heap as [netif->output], the
    laws [Below.OutputLaws] hold: the packets that wait in the ARP table are the
    references of others, the table is in order, and sending changes neither the
    packets IP holds nor what is known of them. *)

From stdpp Require Import base numbers decidable gmap gmultiset list.
From Stdlib Require Import ZArith Lia Bool.
From S2P Require Import Prelude Linked LwipMem LwipHeap LwipHeapRun Pbuf PbufChain PbufPool PbufProps InetChksum PbufView Ip4Addr Ethernet Ip4 Icmp Ip4Input Etharp EtharpInv EtharpFind EtharpOps EtharpSend EtharpRun PbufOwn PbufHeap Below NetStack.
Open Scope Z_scope.

(** ** The heap beside the variables of ARP *)

Section laws.
Context {H : Type} `{HeapLaws H}.

(** The variables of [etharp.c] are not changed by the heap. *)
Definition net_laws (tab : list etharp_entry) (c : Z) : HeapLaws (net H).
Proof.
  refine {| heap_ok U x := heap_ok U (n_heap x) /\ n_table x = tab /\ n_cached x = c; heap_name := heap_name |}.
  - intros U n x (Hh&Ht&Hc) Hn. cbn. pose proof (law_malloc U n (n_heap x) Hh Hn) as Hm.
    destruct (mem_malloc n (n_heap x)) as [[[p bs]|] h']; cbn; [|done]. destruct Hm as (?&?&?&?&?). by split_and!.
  - intros U p x (Hh&Ht&Hc) Hp. cbn. split; [by apply law_mem_free|done].
Defined.

(** The same packets under other variables. *)
Lemma owned_vars tab c tab' c' K r (s : lwip (net H)) : @owned _ _ (net_laws tab c) K r s ->
  @owned _ _ (net_laws tab' c') K r (set_heap (put_arp tab' c' (heap s)) s).
Proof.
  intros (L&f&g&U&[Hh Hl Ha Hf Hg Hfr (Hhp&_&_) Hu Hkp]). exists L, f, g, U. split; try done.
  intros p l Hp. destruct (Hl p l Hp) as [(cs&Hpk&HK) Hk Hr Hm Hc]. split; try done.
  exists cs. split; [|done]. by apply (packet_same s).
Qed.

Lemma owned_table tab c K r (s : lwip (net H)) : @owned _ _ (net_laws tab c) K r s -> n_table (heap s) = tab /\ n_cached (heap s) = c.
Proof. by intros (L&f&g&U&[_ _ _ _ _ _ (_&?&?) _ _]). Qed.
End laws.

(** ** The instance *)

Section net_output.
Context {X H : Type} `{HeapLaws H}.
Context (linkoutput : netif -> Z -> lwip (net H) -> result (err_t * lwip (net H))) (nif : Z -> netif).
Context (Hlink : forall tab c, @link_keeps _ _ (net_laws tab c) linkoutput).
Implicit Types (K : gmap Z (Z * list (list Z))) (r : gmultiset Z) (t : lwip (net H)).

#[local] Instance laws_packets : PacketOps (lwip (net H)) := lwip_packets linkoutput.

(** [netif->output] of the interface, on the variables beside the heap. *)
Definition arp_output (i p dest : Z) : ip4 X (net H) -> result (err_t * ip4 X (net H)) :=
  on_stack_r (fun s => let* (e, x) := etharp_output nif i p dest (arp_open s) in Ok (e, arp_close x)).

(** The references to packets of which something is known, and the others. *)
Definition known_refs K r : gmultiset Z := list_to_set_disj (filter (fun p => is_Some (K !! p)) (elements r)).
Definition other_refs K r : gmultiset Z := list_to_set_disj (filter (fun p => ~ is_Some (K !! p)) (elements r)).

Lemma elements_refs (r : gmultiset Z) : list_to_set_disj (elements r) = r.
Proof.
  induction r as [|x r IH] using gmultiset_ind; [by rewrite gmultiset_elements_empty|].
  rewrite (list_to_set_disj_perm _ (x :: elements r)); [cbn; by rewrite IH|].
  by rewrite gmultiset_elements_disj_union, gmultiset_elements_singleton.
Qed.

Lemma refs_split K r : r = known_refs K r ⊎ other_refs K r.
Proof.
  unfold known_refs, other_refs. rewrite <- list_to_set_disj_app. rewrite <- (elements_refs r) at 1.
  apply list_to_set_disj_perm. symmetry. apply filter_app_complement.
Qed.

Lemma known_refs_in K r p : p ∈ known_refs K r -> is_Some (K !! p).
Proof. unfold known_refs. rewrite elem_of_list_to_set_disj, list_elem_of_filter. tauto. Qed.

Lemma other_refs_in K r p : p ∈ other_refs K r -> K !! p = None.
Proof. unfold other_refs. rewrite elem_of_list_to_set_disj, list_elem_of_filter. intros [Hn _]. by apply eq_None_not_Some. Qed.

Definition net_below K r t : Prop :=
  table_ok nif (n_table (heap t)) /\ 0 <= n_cached (heap t) < ARP_TABLE_SIZE /\
  @owned _ _ (net_laws (n_table (heap t)) (n_cached (heap t))) K (queued (n_table (heap t)) ⊎ r) t /\
  forall p, is_Some (K !! p) -> p ∉ queued (n_table (heap t)).

Lemma net_change K K' r r' t t' : net_below K r t ->
  (forall (HL : HeapLaws (net H)) e, owned K (e ⊎ r) t -> (forall p, is_Some (K !! p) -> p ∉ e) ->
     owned K' (e ⊎ r') t' /\ forall p, is_Some (K' !! p) -> p ∉ e) -> net_below K' r' t'.
Proof.
  intros (Ht&Hc&Ho&Hq) Hch. destruct (Hch _ _ Ho Hq) as [Ho' Hq']. destruct (owned_table _ _ _ _ _ Ho') as [Htab Hcac].
  unfold net_below. by rewrite Htab, Hcac.
Qed.

Lemma net_output_ok K r i p dest (s : ip4 X (net H)) : net_below K r (stack s) -> lent p r -> K !! p = None ->
  exists e t, arp_output i p dest s = Ok (e, set_stack t s) /\ net_below K r t.
Proof.
  intros (Ht&Hc&Ho&Hq) [Hp Hm] HK. unfold arp_output, on_stack_r. set (tab := n_table (heap (stack s))) in *. set (c := n_cached (heap (stack s))) in *.
  pose proof (refs_split K r) as Hr. set (R := known_refs K r) in *. set (r1 := other_refs K r) in *.
  set (HL := net_laws tab c) in *. set (PL := @pbuf_laws _ _ HL linkoutput (Hlink tab c) K R).
  assert (Hp1 : p ∈ r1).
  { rewrite Hr in Hp. apply gmultiset_elem_of_disj_union in Hp as [Hp|Hp]; [|done]. apply known_refs_in in Hp as [? Hp]. congruence. }
  assert (Hlent : lent p r1).
  { split; [done|]. rewrite Hr, multiplicity_disj_union in Hm. lia. }
  assert (Hg : good nif r1 (arp_open (stack s))).
  { split; [done|]. split; [done|]. split; cbn [arp_open packets arp_table].
    - fold tab. replace (R ⊎ (queued tab ⊎ r1)) with (queued tab ⊎ r) by (rewrite Hr; multiset_solver). exact Ho.
    - intros q [Hin|Hin]%gmultiset_elem_of_disj_union.
      + assert (HKq : K !! q = None) by (apply eq_None_not_Some; intros Hs; by apply (Hq q Hs)). split; [|done].
        intros Hin'%known_refs_in. rewrite HKq in Hin'. by destruct Hin'.
      + pose proof (other_refs_in K r q Hin) as HKq. split; [|done]. intros Hin'%known_refs_in. rewrite HKq in Hin'. by destruct Hin'. }
  destruct (arp_output_ok nif (arp_open (stack s)) r1 i p dest Hg Hlent) as (e&x&Hx&[(Ht'&Hc'&[Ho' HK'])  _]).
  change (@etharp_output _ (lwip_packets linkoutput)) with (@etharp_output _ laws_packets) in Hx. change (@etharp_output _ (pbuf_ops linkoutput)) with (@etharp_output _ laws_packets) in Hx.
  rewrite Hx. cbn [rbind]. exists e, (arp_close x). split; [done|]. unfold net_below, arp_close. cbn. split; [done|]. split; [done|]. split.
  - rewrite Hr. replace (queued (arp_table x) ⊎ (R ⊎ r1)) with (R ⊎ (queued (arp_table x) ⊎ r1)) by multiset_solver. by apply (owned_vars tab c).
  - intros q [k Hk] Hin. destruct (HK' q) as [_ HKq]; [multiset_solver|]. congruence.
Qed.

(** [ip4_frag] is given, with the law it has to keep. *)
Context (frag : Z -> Z -> Z -> ip4 X (net H) -> result (err_t * ip4 X (net H))).
Context (Hfrag : forall K r np p dest s, net_below K r (stack s) -> lent p r -> K !! p = None ->
  exists e t, frag p np dest s = Ok (e, set_stack t s) /\ net_below K r t).

#[local] Instance arp_neighbours : Neighbours X (net H) := {| netif_output := arp_output; ip4_frag := frag |}.

Definition arp_below : OutputLaws X (net H).
Proof.
  refine {| below := net_below |}.
  - intros K r t (Ht&Hc&Ho&Hq). exists (net_laws (n_table (heap t)) (n_cached (heap t))), (queued (n_table (heap t))). done.
  - intros K K' r r' t t'. apply net_change.
  - intros K r np p dest s. apply net_output_ok.
  - intros K r np p dest s. apply Hfrag.
Defined.
End net_output.

(** ** The start *)

(** The variables of the stack before the first packet: the table of ARP is empty. *)
Definition net_start {H} (h : H) : net H :=
  mk_net h (replicate (Z.to_nat ARP_TABLE_SIZE) empty_entry) 0 0 no_packet.

Lemma net_boot_below nif : net_below nif ∅ ∅ (boot_on (net_start Mem.mem_init)).
Proof.
  split; [apply empty_table_ok|]. split; [done|]. split; [|intros p; rewrite lookup_empty; by intros [? ?]].
  replace (queued _ ⊎ ∅) with (∅ : gmultiset Z) by done.
  apply boot_on_owned; [|repeat constructor]. split; [exact ram_init|done].
Qed.
