(* ===== verification/Ip4ReassTheorems.v ===== *)
(** * What reassembly promises

    The theorems about [ip4_reass] and [ip_reass_tmr] of
    [src/lib/lwip/src/core/ipv4/ip4_frag.c], and runs of them on packets in the
    memory of the stack, with ARP, the packet buffers, the pools and the heap
    below IP. *)

From stdpp Require Import base numbers decidable gmap gmultiset list.
From Stdlib Require Import ZArith Lia Bool.
From S2P Require Import Prelude Linked LwipMem LwipHeap LwipHeapRun Pbuf PbufChain PbufPool PbufProps OnesComp InetChksum InetChksumProps PbufView Ip4Addr Ethernet Ip4 Icmp Ip4Input Ip4Props IcmpProps Etharp EtharpInv EtharpRun EtharpProps PbufOwn PbufHeap NetStack Below BelowIcmp Ip4Reass Ip4ReassSpec Ip4ReassOrder Ip4ReassMem Ip4ReassRoom Ip4ReassChain Ip4ReassJoin Ip4ReassProps Ip4ReassRun NetLaws.
Open Scope Z_scope.

(** ** Packets to begin with *)

Section load.
Context {X H : Type} `{OutputLaws X H}.
Implicit Types (t : lwip H) (r : gmultiset Z) (K : gmap Z (Z * list (list Z))).

(** A packet with the bytes [c], as a driver makes it. *)
Definition load (c : list Z) t : result (option Z * lwip H) :=
  let* (o, t) := pbuf_alloc PBUF_RAW (Z.of_nat (length c)) PBUF_RAM t in
  match o with
  | None => Ok (None, t)
  | Some p => let* b := deref t p in let* t := st_bytes t (payload b) 0 c in Ok (Some p, t)
  end.

Lemma load_ok K r t c p t' : below K r t -> Z.of_nat (length c) < 65536 -> load c t = Ok (Some p, t') ->
  below (<[p := (0, [c])]> K) ({[+ p +]} ⊎ r) t' /\ p ∉ r.
Proof.
  intros Hb Hc Hl. destruct (below_alloc K r t PBUF_RAW (Z.of_nat (length c)) Hb ltac:(lia)) as (o&t1&Hrun&Hres).
  unfold load in Hl. rewrite Hrun in Hl. cbn [rbind] in Hl. destruct o as [p1|]; [|done].
  destruct Hres as (Hb1&Hp&HK&Hpb&bs&Ha&Hlen). change (LWIP_MEM_ALIGN_SIZE _) with 0 in *.
  assert (Hb1' : pbufs t1 !! p1 = Some (fresh p1 0 (Z.of_nat (length c)))) by (rewrite Hpb; apply lookup_insert_eq).
  rewrite (deref_ok _ _ _ Hb1') in Hl. cbn [rbind fresh payload] in Hl.
  set (c0 := bytes_at bs 0 (Z.of_nat (length c))).
  assert (Hc0 : length c0 = length c) by (unfold c0, bytes_at, slice; rewrite length_take, length_drop; lia).
  assert (Hk : below (<[p1 := (0, [c0])]> K) ({[+ p1 +]} ⊎ r) t1).
  { apply (below_keep K _ t1 p1 (fresh p1 0 (Z.of_nat (length c))) 0 [p1]); try done; [multiset_solver|..].
    - split; [done|]. eexists. split; [done|]. cbn [fresh len tot_len next concat]. rewrite app_nil_r, Hc0. split_and!; try done.
      eexists p1, 0, bs. split; [done|]. split; [rewrite Ha; apply lookup_insert_eq|]. split; [done|]. by split.
    - intros q b ->%list_elem_of_singleton Hq. rewrite Hb1' in Hq. by injection Hq as <-. }
  destruct (kept_st _ _ t1 p1 0 c0 [] 0 c Hk) as (t2&Hst&_&Hb2); [apply lookup_insert_eq|lia|lia|].
  rewrite Hst in Hl. cbn [rbind] in Hl. injection Hl as <- <-. split; [|done]. rewrite insert_insert_eq in Hb2.
  assert (splice (Z.to_nat 0) c c0 = c) as Hs; [|by rewrite Hs in Hb2].
  unfold splice. cbn. by rewrite drop_ge, app_nil_r by lia.
Qed.

Fixpoint load_all (cs : list (list Z)) t : result (list Z * lwip H) :=
  match cs with
  | [] => Ok ([], t)
  | c :: cs =>
      let* (o, t) := load c t in
      let* p := not_null o in
      let* (ps, t) := load_all cs t in
      Ok (p :: ps, t)
  end.

Lemma load_all_ok K r t cs ps t' : below K r t -> Forall (fun c => Z.of_nat (length c) < 65536) cs -> load_all cs t = Ok (ps, t') ->
  exists K', below K' (list_to_set_disj ps ⊎ r) t' /\ NoDup ps /\ (forall p, p ∈ ps -> p ∉ r) /\
    Forall2 (fun p c => K' !! p = Some (0, [c])) ps cs /\ forall q, q ∈ r -> K' !! q = K !! q.
Proof.
  revert K r t ps. induction cs as [|c cs IH]; intros K r t ps Hb Hc Hl; cbn [load_all] in Hl.
  - injection Hl as <- <-. exists K. split; [by rewrite list_to_set_disj_nil, (left_id_L ∅ (⊎))|]. split; [apply NoDup_nil_2|]. split; [by intros p ?%not_elem_of_nil|]. by split.
  - apply Forall_cons in Hc as [Hc Hcs]. destruct (load c t) as [[o t1]|] eqn:Hl1; [|done]. cbn [rbind] in Hl.
    destruct o as [p|]; [|done]. cbn [not_null rbind] in Hl. destruct (load_all cs t1) as [[ps1 t2]|] eqn:Hl2; [|done]. injection Hl as <- <-.
    destruct (load_ok K r t c p t1 Hb Hc Hl1) as [Hb1 Hp]. destruct (IH _ _ _ _ Hb1 Hcs Hl2) as (K'&Hb2&Hnd&Hd&HK&Hsame).
    exists K'. rewrite disj_cons_comm, <- comm3. split; [done|]. split; [constructor; [|done]; intros Hin; by apply (Hd p Hin); multiset_solver|].
    split; [intros q [->|Hq]%elem_of_cons; [done|]; specialize (Hd q Hq); multiset_solver|]. split.
    + constructor; [|done]. rewrite Hsame by multiset_solver. apply lookup_insert_eq.
    + intros q Hq. rewrite Hsame by multiset_solver. apply lookup_insert_ne. intros ->. done.
Qed.
End load.

(** ** The theorems *)

Lemma spec_run_feed xs w : spec_run (Some <$> xs) w = feed xs w.
Proof. revert w. induction xs as [|x xs IH]; intros w; [done|]. cbn. destruct (fragment_in _ _ _ w) as [d w1]. by rewrite IH. Qed.

Lemma spec_run_ticks n w : spec_run (replicate n None) w = ([], Nat.iter n tick w).
Proof. revert w. induction n as [|n IH]; intros w; [done|]. cbn [replicate spec_run]. rewrite IH. by rewrite Nat.iter_succ_r. Qed.

Lemma coming_some xs : coming_in (Some <$> xs) = xs.
Proof. unfold coming_in. induction xs as [|x xs IH]; [done|]. cbn. by rewrite IH. Qed.

Lemma coming_ticks n : coming_in (replicate n None) = [].
Proof. unfold coming_in. by induction n. Qed.

Section theorems.
Context {X H : Type} `{OutputLaws X H} `{!Part reass X}.
Context (base : Z -> Z) (nif : Z -> netif) (netif_default : option Z).
Implicit Types (s : ip4 X H) (r : gmultiset Z) (w : waiting) (K : gmap Z (Z * list (list Z))).

(** C35. Whatever fragments come and whenever the timer ticks, reassembly returns
    without a fault, delivers what the specification says with the contents it
    says, and keeps its invariant: fragments in order and without overlap, one
    datagram for each key, every packet in one place, at most ten packet
    buffers; the packets of others are untouched. *)
Theorem reass_run_safe es K r w s : waiting_ok w ->
  reassembling K (list_to_set_disj (in_p <$> coming_in es) ⊎ r) w s -> to_come K r w es ->
  exists K' s', reass_run base nif netif_default es s = Ok ((spec_run es w).1.*1, s') /\ waiting_ok (spec_run es w).2 /\
    reassembling K' (list_to_set_disj (spec_run es w).1.*1 ⊎ r) (spec_run es w).2 s' /\ only_reass s s' /\
    (forall q, q ∈ r -> K' !! q = K !! q) /\
    Forall (fun d => exists o, K' !! d.1 = Some (o, d.2)) (spec_run es w).1.
Proof. apply run_ok. Qed.

(** C36. The fragments of a datagram give the datagram in whatever order they come,
    if no datagram with their key is waiting, a structure is free and they have
    no more than 10 buffers together with those that wait:
    exactly one packet is delivered, that of the first fragment, its bytes are
    the header of the first fragment, with the length of the whole, no offset
    and a fresh checksum, and then the data of all fragments, and nothing is
    left behind. *)
Theorem reass_any_order ps xs h n K r D i fr s : datagram_of ps h n -> xs ≡ₚ ps ->
  let w := mk_waiting D (i :: fr) in
  waiting_ok w -> reassembling K (list_to_set_disj (in_p <$> xs) ⊎ r) w s -> to_come K r w (Some <$> xs) ->
  find_dg h D = None -> bufs D + total ps <= IP_REASS_MAX_PBUFS ->
  exists K' s' p cs o, reass_run base nif netif_default (Some <$> xs) s = Ok ([p], s') /\ in_p <$> head ps = Some p /\
    reassembling K' ({[+ p +]} ⊎ r) w s' /\ K' !! p = Some (o, cs) /\
    concat cs = whole_header h n ++ concat (concat (f_data <$> (in_frag <$> ps))).
Proof.
  intros Hps Hxs w Hw Hr Htc Hfind Hroom.
  assert (Hne : xs <> []) by (intros ->; pose proof (do_first _ _ _ Hps) as Hf; by destruct ps; [|apply Permutation_length in Hxs]).
  assert (Hh : length h = 20%nat).
  { pose proof (do_first _ _ _ Hps) as Hf. destruct ps as [|x ps]; [done|]. injection Hf as <-. pose proof (do_packets _ _ _ Hps) as [Hp _]%Forall_cons.
    unfold in_hdr. rewrite length_take. pose proof (fp_header _ _ _ Hp). lia. }
  assert (Hi : i ∉ D.*1).
  { destruct Hw as [[_ Hn _ _ _] _]. apply NoDup_app in Hn as (_&Hd&_). intros Hin. apply (Hd i Hin). by left. }
  destruct (delivery_data ps h n Hps Hh) as (p&cs&Hd&Hp&Hcs).
  assert (Hfeed : spec_run (Some <$> xs) w = ([(p, cs)], w)).
  { rewrite spec_run_feed, (feed_rest ps h n Hps D i fr Hfind Hi Hroom [] xs w); by rewrite ?Hd. }
  destruct (run_ok base nif netif_default (Some <$> xs) K r w s Hw) as (K'&s'&Hrun&_&Hr'&_&_&Hc); [by rewrite coming_some|done|].
  rewrite Hfeed in Hrun, Hr', Hc. cbn in Hrun. apply Forall_cons in Hc as [[o Ho] _]. exists K', s', p, cs, o.
  split_and!; try done. cbn [fst fmap list_fmap] in Hr'. by rewrite disj_cons_comm, list_to_set_disj_nil, (left_id_L ∅ (⊎)) in Hr'.
Qed.

(** C37. What is not complete is given up in time: after sixteen ticks without a
    fragment no datagram waits, no packet buffer is counted, and the packets
    reassembly held are gone, those of others are as they were. *)
Theorem reass_times_out K r w s : waiting_ok w -> reassembling K r w s ->
  exists K' s', reass_run base nif netif_default (replicate 16 None) s = Ok ([], s') /\
    reassdatagrams (rs s') = None /\ ip_reass_pbufcount (rs s') = 0 /\ below K' r (stack s') /\
    forall q, q ∈ r -> K' !! q = K !! q.
Proof.
  intros Hw Hr. destruct (run_ok base nif netif_default (replicate 16 None) K r w s Hw) as (K'&s'&Hrun&_&Hr'&_&HK&_).
  - rewrite coming_ticks, fmap_nil, list_to_set_disj_nil. by rewrite (left_id_L ∅ (⊎)).
  - split; rewrite coming_ticks; [apply NoDup_nil_2|..]; by intros x ?%not_elem_of_nil.
  - rewrite spec_run_ticks in Hrun, Hr'. cbn [fst snd fmap list_fmap] in Hrun, Hr'. exists K', s'. split; [done|].
    pose proof (ticks_empty 16 w (waiting_timers w Hw)) as He. destruct Hr' as [Hb [Hl _ Hc] _].
    rewrite He in Hb, Hl, Hc. split; [exact (lk_list _ _ _ Hl)|]. split; [done|]. split; [|done].
    change (held []) with (∅ : gmultiset Z) in Hb. by rewrite ?list_to_set_disj_nil, !(left_id_L ∅ (⊎)) in Hb.
Qed.
End theorems.

(** ** Runs *)

(** Nothing that is sent is too long for one piece here. *)
Definition no_frag (p np dest : Z) (s : ip4 reass (net Mem.heap)) : result (err_t * ip4 reass (net Mem.heap)) := Ok (ERR_OK, s).

#[local] Instance run_neighbours : Neighbours reass (net Mem.heap) := arp_neighbours copy_out ping_nif no_frag.

#[local, refine] Instance run_laws : OutputLaws reass (net Mem.heap) :=
  arp_below copy_out ping_nif (fun tab c => @copy_out_keeps _ _ (net_laws tab c)) no_frag _.
Proof. intros K r np p dest s Hb _ _. exists ERR_OK, (stack s). split; [by destruct s|done]. Defined.

(** The structures of the pool, all free. *)
Definition reass_start : reass :=
  mk_reass (list_to_map ((fun i => (i, mk_reassdata (if i =? 5 then None else Some (i + 1)) None [] 0 0 0)) <$> [1; 2; 3; 4; 5])) None (Some 1) 0.
Definition all_free : waiting := mk_waiting [] [1; 2; 3; 4; 5].

(** The stack with packets of the given bytes in its memory. *)
Definition loaded (cs : list (list Z)) : result (list Z * ip4 reass (net Mem.heap)) :=
  let* (ps, t) := load_all cs (boot_on (net_start Mem.mem_init)) in
  Ok (ps, mk_ip4 0 no_packet reass_start t).

Lemma loaded_ok cs ps s : Forall (fun c => Z.of_nat (length c) < 65536) cs -> loaded cs = Ok (ps, s) ->
  exists K, reassembling K (list_to_set_disj ps ⊎ ∅) all_free s /\ NoDup ps /\ Forall2 (fun p c => K !! p = Some (0, [c])) ps cs.
Proof.
  intros Hc Hl. unfold loaded in Hl. destruct (load_all _ _) as [[ps' t]|] eqn:Hall; [|done]. injection Hl as <- <-.
  assert (Hb0 : below (X := reass) ∅ ∅ (boot_on (net_start Mem.mem_init))) by exact (net_boot_below ping_nif).
  destruct (load_all_ok ∅ ∅ _ cs ps' t Hb0 Hc Hall) as (K&Hb&Hn&_&HK&_). exists K. split; [|done].
  split; [change (held (w_dgrams all_free)) with (∅ : gmultiset Z); by rewrite (left_id_L ∅ (⊎))| |by intros p ?%not_elem_of_nil]. split; [|constructor|done].
  split; [done|vm_compute; repeat (split; [reflexivity|eexists; split; [reflexivity|]]); reflexivity|].
  cbn. repeat constructor; set_solver.
Qed.

Lemma all_free_ok : waiting_ok all_free.
Proof.
  split; [|constructor]. split; [constructor| |apply NoDup_nil_2|apply NoDup_nil_2|done]. cbn. repeat constructor; set_solver.
Qed.

(** Fragments of a datagram of 10.0.0.2. *)
Definition frag_bytes (off : Z) (more : bool) (data : list Z) : list Z :=
  [0x45; 0; 0; 20 + Z.of_nat (length data); 0x12; 0x34; (if more then 0x20 else 0); off; 64; 17; 0; 0; 10; 0; 0; 2; 10; 0; 0; 1] ++ data.

Definition frag1 : list Z := frag_bytes 0 true [1; 2; 3; 4; 5; 6; 7; 8].
Definition frag2 : list Z := frag_bytes 1 true [11; 12; 13; 14; 15; 16; 17; 18].
Definition frag3 : list Z := frag_bytes 2 false [21; 22; 23; 24].

(** A packet in one buffer. *)
Lemma one_packet p c : bytes_ok (take 20 c) -> (20 <= length c <= 1500)%nat -> Z.of_nat (length c) = lwip_htons (header_field c 2 2) ->
  frag_packet p c [].
Proof.
  intros Hb Hl Hs. split; [lia|done|cbn; by rewrite app_nil_r|]. constructor; [|constructor]. change PBUF_POOL_BUFSIZE_ALIGNED with 1516. lia.
Qed.

(** The packets of a start state, to come in this order. *)
Definition packets_with (ps : list Z) (cs : list (list Z)) : list incoming := zip_with (fun p c => mk_incoming p c []) ps cs.

Definition frag_bytes_ok (c : list Z) : Prop :=
  bytes_ok (take 20 c) /\ (20 <= length c <= 1500)%nat /\ Z.of_nat (length c) = lwip_htons (header_field c 2 2).

Lemma packets_names ps cs : length ps = length cs -> in_p <$> packets_with ps cs = ps.
Proof. revert cs. induction ps as [|p ps IH]; intros [|c cs] Hl; try done. cbn. f_equal. apply IH. by injection Hl. Qed.

Lemma loaded_to_come cs ps s es : Forall frag_bytes_ok cs -> loaded cs = Ok (ps, s) -> coming_in es = packets_with ps cs ->
  exists K, reassembling K (list_to_set_disj (in_p <$> coming_in es) ⊎ ∅) all_free s /\ to_come K ∅ all_free es.
Proof.
  intros Hf Hl He. rewrite Forall_forall in Hf.
  destruct (loaded_ok cs ps s) as (K&Hr&Hn&HK); [|done|]; [apply Forall_forall; intros c (_&?&_)%Hf; lia|].
  pose proof (Forall2_length _ _ _ HK) as Hlen. exists K. split; [by rewrite He, packets_names|].
  assert (Hin : forall x, x ∈ packets_with ps cs -> exists c, x = mk_incoming (in_p x) c [] /\ c ∈ cs /\ K !! in_p x = Some (0, [c])).
  { clear -HK. induction HK as [|p c ps cs Hp _ IH]; [by intros x ?%not_elem_of_nil|]. cbn. intros x [->|Hx]%elem_of_cons.
    - exists c. split; [done|]. split; [by left|done].
    - destruct (IH x Hx) as (c'&?&?&?). exists c'. split; [done|]. split; [by right|done]. }
  split; rewrite He; [by rewrite packets_names|intros x Hx; destruct (Hin x Hx) as (c&Heq&Hc&HKx); rewrite Heq..].
  - split; [by intros ?%not_elem_of_nil|multiset_solver].
  - by exists 0.
  - split; [|done]. destruct (Hf c Hc) as (?&?&?). by apply one_packet.
Qed.

Lemma three_frags_ok : Forall frag_bytes_ok [frag3; frag1; frag2].
Proof. repeat constructor; cbn; lia. Qed.

(** The last fragment, a tick, then the others. *)
Lemma reass_run_safe_witness :
  exists p1 p2 p3 s s', loaded [frag3; frag1; frag2] = Ok ([p3; p1; p2], s) /\
    reass_run at_zero ping_nif (Some 0) [Some (mk_incoming p3 frag3 []); None; Some (mk_incoming p1 frag1 []); Some (mk_incoming p2 frag2 [])] s = Ok ([p1], s') /\
    ip_reass_pbufcount (rs s') = 0.
Proof.
  destruct (loaded [frag3; frag1; frag2]) as [[ps s]|] eqn:Hl; [|vm_compute in Hl; discriminate Hl].
  assert (exists p1 p2 p3, ps = [p3; p1; p2]) as (p1&p2&p3&->) by (vm_compute in Hl; injection Hl as <- _; by eexists _, _, _).
  set (es := [Some (mk_incoming p3 frag3 []); None; Some (mk_incoming p1 frag1 []); Some (mk_incoming p2 frag2 [])]).
  destruct (loaded_to_come _ _ s es three_frags_ok Hl eq_refl) as (K&Hr&Htc).
  destruct (reass_run_safe at_zero ping_nif (Some 0) es K ∅ all_free s all_free_ok Hr Htc) as (K'&s'&Hrun&_&[_ Hin _]&_).
  exists p1, p2, p3, s, s'. split; [done|]. split; [exact Hrun|]. rewrite (ri_count _ _ _ Hin). reflexivity.
Defined.

Lemma three_frags p1 p2 p3 : NoDup [p1; p2; p3] ->
  datagram_of [mk_incoming p1 frag1 []; mk_incoming p2 frag2 []; mk_incoming p3 frag3 []] (take 20 frag1) 20.
Proof.
  intros Hn. split; try (repeat constructor; done); try done.
  exists [mk_incoming p1 frag1 []; mk_incoming p2 frag2 []], (mk_incoming p3 frag3 []). split; [done|]. repeat constructor.
Qed.

Lemma reass_any_order_witness :
  exists p1 p2 p3 s s' cs, loaded [frag3; frag1; frag2] = Ok ([p3; p1; p2], s) /\
    reass_run at_zero ping_nif (Some 0) (Some <$> [mk_incoming p3 frag3 []; mk_incoming p1 frag1 []; mk_incoming p2 frag2 []]) s = Ok ([p1], s') /\
    concat cs = whole_header (take 20 frag1) 20 ++ [1; 2; 3; 4; 5; 6; 7; 8; 11; 12; 13; 14; 15; 16; 17; 18; 21; 22; 23; 24].
Proof.
  destruct (loaded [frag3; frag1; frag2]) as [[ps s]|] eqn:Hl; [|vm_compute in Hl; discriminate Hl].
  assert (exists p1 p2 p3, ps = [p3; p1; p2]) as (p1&p2&p3&->) by (vm_compute in Hl; injection Hl as <- _; by eexists _, _, _).
  set (xs := [mk_incoming p3 frag3 []; mk_incoming p1 frag1 []; mk_incoming p2 frag2 []]).
  set (ys := [mk_incoming p1 frag1 []; mk_incoming p2 frag2 []; mk_incoming p3 frag3 []]).
  destruct (loaded_to_come _ _ s (Some <$> xs) three_frags_ok Hl (coming_some xs)) as (K&Hr&Htc).
  assert (Hp : xs ≡ₚ ys) by (apply (Permutation_app_comm [_] [_; _])).
  assert (Hn : NoDup [p1; p2; p3]).
  { pose proof (tc_names _ _ _ _ Htc) as Hn. rewrite coming_some, Hp in Hn. exact Hn. }
  destruct (reass_any_order at_zero ping_nif (Some 0) ys xs (take 20 frag1) 20 K ∅ [] 1 [2; 3; 4; 5] s (three_frags p1 p2 p3 Hn) Hp all_free_ok)
    as (K'&s'&p&cs&o&Hrun&Hhd&_&_&Hcs); [by rewrite coming_some in Hr|done|reflexivity|vm_compute; congruence|].
  injection Hhd as <-. exists p1, p2, p3, s, s', cs. split; [done|]. split; [exact Hrun|]. exact Hcs.
Defined.

(** A fragment that stays alone. *)
Lemma reass_times_out_witness :
  exists p s s1 s2, loaded [frag2] = Ok ([p], s) /\ ip4_reass at_zero ping_nif (Some 0) p s = Ok (None, s1) /\
    ip_reass_pbufcount (rs s1) = 1 /\ reass_run at_zero ping_nif (Some 0) (replicate 16 None) s1 = Ok ([], s2) /\
    ip_reass_pbufcount (rs s2) = 0.
Proof.
  destruct (loaded [frag2]) as [[ps s]|] eqn:Hl; [|vm_compute in Hl; discriminate Hl].
  assert (exists p, ps = [p]) as (p&->) by (vm_compute in Hl; injection Hl as <- _; by eexists).
  destruct (loaded_to_come [frag2] [p] s [Some (mk_incoming p frag2 [])]) as (K&Hr&Htc); [by repeat constructor; cbn; lia|done|done|].
  destruct (run_ok at_zero ping_nif (Some 0) _ K ∅ all_free s all_free_ok Hr Htc) as (K1&s1&Hrun&Hw1&Hr1&_).
  set (w := (spec_run [Some (mk_incoming p frag2 [])] all_free).2) in *.
  destruct (reass_times_out at_zero ping_nif (Some 0) K1 _ w s1 Hw1 Hr1) as (K2&s2&Hrun2&_&Hc&_).
  exists p, s, s1, s2. split; [done|]. split; [|split; [|by split]].
  - cbn [reass_run rbind in_p] in Hrun. destruct (ip4_reass _ _ _ _ _) as [[res s1']|]; [|done]. cbn in Hrun. injection Hrun as Hres <-. by destruct res.
  - rewrite (ri_count _ _ _ (rg_in _ _ _ _ Hr1)). reflexivity.
Defined.

(** The bytes in the packet that is delivered, and the length its IP header says. *)
Definition lengths_delivered (cs : list (list Z)) : result (Z * Z) :=
  let* (ps, s) := loaded cs in
  let* (ds, s) := reass_run at_zero ping_nif (Some 0) (Some <$> packets_with ps cs) s in
  let* p := not_null (head ds) in
  let* b := deref (stack s) p in
  let* v := ld (stack s) (payload b) 2 2 in
  Ok (tot_len b, lwip_htons v).

(** A second fragment without [IP_MF], in front of the first one: the length of the
    datagram is that of the later one, and the packet has more bytes. *)
Lemma reass_length_overwritten :
  lengths_delivered [frag_bytes 2 false [21; 22; 23; 24]; frag_bytes 1 false [11; 12; 13; 14; 15; 16; 17; 18]; frag1] = Ok (40, 36) /\
  lengths_delivered [frag3; frag2; frag1] = Ok (40, 40).
Proof. split; vm_compute; reflexivity. Qed.
