(* ===== verification/Udp.v ===== *)
(** * UDP: [src/lib/lwip/src/core/udp.c]

    The control blocks, sending and receiving, in the configuration of
    [src/lib/lwip/lwipopts.h] with the defaults of [opt.h]: IPv4 only, no UDP-Lite,
    no address reuse, no broadcast options, no multicast options, checksums
    generated and checked, [LWIP_RAND] not defined.  Statistics and debug output are
    left out; [LWIP_ASSERT] has no effect in this port. *)

From stdpp Require Import base numbers list decidable gmap.
From Stdlib Require Import ZArith Lia Bool.
From S2P Require Import Prelude LwipMem Pbuf InetChksum Ip4Addr Ethernet Ip4 Icmp.
Open Scope Z_scope.

Definition UDP_HLEN : Z := 8.
Definition UDP_FLAGS_NOCHKSUM : Z := 0x01.
Definition UDP_FLAGS_CONNECTED : Z := 0x04.
Definition UDP_LOCAL_PORT_RANGE_START : Z := 0xc000.
Definition UDP_LOCAL_PORT_RANGE_END : Z := 0xffff.
Definition UDP_TTL : Z := 255.
Definition MEMP_NUM_UDP_PCB : Z := 4.
Definition ICMP_DUR_PORT : Z := 3.

(** ** State *)

(** [struct udp_pcb]; a callback is given by its name. *)
Record udp_pcb : Type := mk_udp_pcb {
  local_ip : Z;
  remote_ip : Z;
  netif_idx : Z;
  so_options : Z;
  tos : Z;
  ttl : Z;
  u_next : option Z;
  u_flags : Z;
  local_port : Z;
  remote_port : Z;
  recv : option Z;
  recv_arg : Z
}.

Definition set_u_next (v : option Z) (b : udp_pcb) : udp_pcb :=
  mk_udp_pcb (local_ip b) (remote_ip b) (netif_idx b) (so_options b) (tos b) (ttl b) v (u_flags b) (local_port b) (remote_port b) (recv b) (recv_arg b).
Definition set_local (ip port : Z) (b : udp_pcb) : udp_pcb :=
  mk_udp_pcb ip (remote_ip b) (netif_idx b) (so_options b) (tos b) (ttl b) (u_next b) (u_flags b) port (remote_port b) (recv b) (recv_arg b).
Definition set_remote (ip port fl : Z) (b : udp_pcb) : udp_pcb :=
  mk_udp_pcb (local_ip b) ip (netif_idx b) (so_options b) (tos b) (ttl b) (u_next b) fl (local_port b) port (recv b) (recv_arg b).
Definition set_netif_idx (v : Z) (b : udp_pcb) : udp_pcb :=
  mk_udp_pcb (local_ip b) (remote_ip b) v (so_options b) (tos b) (ttl b) (u_next b) (u_flags b) (local_port b) (remote_port b) (recv b) (recv_arg b).
Definition set_recv (f : option Z) (arg : Z) (b : udp_pcb) : udp_pcb :=
  mk_udp_pcb (local_ip b) (remote_ip b) (netif_idx b) (so_options b) (tos b) (ttl b) (u_next b) (u_flags b) (local_port b) (remote_port b) f arg.

(** The control blocks, the list of the active ones, the free list of their pool
    and the last local port. *)
Record udp : Type := mk_udp {
  udp_mem : gmap Z udp_pcb;
  udp_pcbs : option Z;
  tab_udp_pcb : option Z;
  udp_port : Z
}.

Definition set_udp_mem (v : gmap Z udp_pcb) (x : udp) : udp := mk_udp v (udp_pcbs x) (tab_udp_pcb x) (udp_port x).
Definition set_udp_pcbs (v : option Z) (x : udp) : udp := mk_udp (udp_mem x) v (tab_udp_pcb x) (udp_port x).
Definition set_tab_udp_pcb (v : option Z) (x : udp) : udp := mk_udp (udp_mem x) (udp_pcbs x) v (udp_port x).
Definition set_udp_port (v : Z) (x : udp) : udp := mk_udp (udp_mem x) (udp_pcbs x) (tab_udp_pcb x) v.

Definition u_deref (x : udp) (p : Z) : result udp_pcb :=
  match udp_mem x !! p with Some b => Ok b | None => Fault Dangling end.

Definition u_assign (p : Z) (f : udp_pcb -> udp_pcb) (x : udp) : result udp :=
  let* b := u_deref x p in Ok (set_udp_mem (<[p := f b]> (udp_mem x)) x).

(** Loops over the list get one round more than there are structures. *)
Definition udp_fuel (x : udp) : nat := S (size (udp_mem x)).

(** [memp_malloc] and [memp_free] of the pool; the link of its list lies over the
    first word of a structure, which is [local_ip], and is kept as [u_next] here. *)
Definition udp_pcb_malloc (x : udp) : result (option Z * udp) :=
  match tab_udp_pcb x with
  | None => Ok (None, x)
  | Some p => let* b := u_deref x p in Ok (Some p, set_tab_udp_pcb (u_next b) x)
  end.

Definition udp_pcb_free (p : Z) (x : udp) : result udp :=
  let* x := u_assign p (set_u_next (tab_udp_pcb x)) x in
  Ok (set_tab_udp_pcb (Some p) x).

(** ** Control blocks *)

(** Whether a control block of the list has the local port. *)
Fixpoint port_loop (fuel : nat) (port : Z) (pcb : option Z) (x : udp) : result bool :=
  match fuel with
  | O => Fault OutOfFuel
  | S fuel =>
      match pcb with
      | None => Ok false
      | Some p =>
          let* b := u_deref x p in
          if local_port b =? port then Ok true else port_loop fuel port (u_next b) x
      end
  end.

(** [again:], with the number [n] of ports that were taken. *)
Fixpoint new_port_loop (rounds : nat) (n : Z) (x : udp) : result (Z * udp) :=
  match rounds with
  | O => Fault OutOfFuel
  | S rounds =>
      let port := udp_port x in
      let x := set_udp_port (if port =? UDP_LOCAL_PORT_RANGE_END then UDP_LOCAL_PORT_RANGE_START else wrap16 (port + 1)) x in
      let* taken := port_loop (udp_fuel x) (udp_port x) (udp_pcbs x) x in
      if taken : bool then
        let n := wrap16 (n + 1) in
        if UDP_LOCAL_PORT_RANGE_END - UDP_LOCAL_PORT_RANGE_START <? n then Ok (0, x)
        else new_port_loop rounds n x
      else Ok (udp_port x, x)
  end.

(** There are 2^14 ports in the range. *)
Definition udp_new_port (x : udp) : result (Z * udp) := new_port_loop (Z.to_nat 0x4000) 0 x.

(** Whether the control block is in the list. *)
Fixpoint on_list_loop (fuel : nat) (pcb : Z) (ipcb : option Z) (x : udp) : result bool :=
  match fuel with
  | O => Fault OutOfFuel
  | S fuel =>
      match ipcb with
      | None => Ok false
      | Some p =>
          if pcb =? p then Ok true
          else let* b := u_deref x p in on_list_loop fuel pcb (u_next b) x
      end
  end.

(** Whether another control block has the address and the port. *)
Definition binds (b : udp_pcb) (ipaddr port : Z) : bool :=
  (local_port b =? port) && ((local_ip b =? ipaddr) || ip4_addr_isany ipaddr || ip4_addr_isany (local_ip b)).

Fixpoint in_use_loop (fuel : nat) (pcb ipaddr port : Z) (ipcb : option Z) (x : udp) : result bool :=
  match fuel with
  | O => Fault OutOfFuel
  | S fuel =>
      match ipcb with
      | None => Ok false
      | Some p =>
          let* b := u_deref x p in
          if negb (pcb =? p) && binds b ipaddr port then Ok true
          else in_use_loop fuel pcb ipaddr port (u_next b) x
      end
  end.

Definition udp_bind (pcb : option Z) (ipaddr : option Z) (port : Z) (x : udp) : result (err_t * udp) :=
  let ipaddr := match ipaddr with Some a => a | None => IPADDR_ANY end in
  match pcb with
  | None => Ok (ERR_ARG, x)
  | Some pcb =>
      let* rebind := on_list_loop (udp_fuel x) pcb (udp_pcbs x) x in
      let* (port, x) :=
        if port =? 0 then udp_new_port x
        else
          let* used := in_use_loop (udp_fuel x) pcb ipaddr port (udp_pcbs x) x in
          Ok (if used : bool then 0 else port, x) in
      if port =? 0 then Ok (ERR_USE, x)
      else
        let* x := u_assign pcb (set_local ipaddr port) x in
        if rebind : bool then Ok (ERR_OK, x)
        else
          let* x := u_assign pcb (set_u_next (udp_pcbs x)) x in
          Ok (ERR_OK, set_udp_pcbs (Some pcb) x)
  end.

(** [index] is that of the interface, none for a null pointer. *)
Definition udp_bind_netif (pcb : Z) (index : option Z) (x : udp) : result udp :=
  u_assign pcb (set_netif_idx (match index with Some i => i | None => NETIF_NO_INDEX end)) x.

Definition udp_connect (pcb : option Z) (ipaddr : option Z) (port : Z) (x : udp) : result (err_t * udp) :=
  match pcb, ipaddr with
  | Some pcb, Some ipaddr =>
      let* b := u_deref x pcb in
      let* (err, x) :=
        if local_port b =? 0 then udp_bind (Some pcb) (Some (local_ip b)) (local_port b) x
        else Ok (ERR_OK, x) in
      match err with
      | ERR_OK =>
        let* x := u_assign pcb (fun b => set_remote ipaddr port (Z.lor (u_flags b) UDP_FLAGS_CONNECTED) b) x in
        let* there := on_list_loop (udp_fuel x) pcb (udp_pcbs x) x in
        if there : bool then Ok (ERR_OK, x)
        else
          let* x := u_assign pcb (set_u_next (udp_pcbs x)) x in
          Ok (ERR_OK, set_udp_pcbs (Some pcb) x)
      | _ => Ok (err, x)
      end
  | _, _ => Ok (ERR_ARG, x)
  end.

Definition udp_disconnect (pcb : option Z) (x : udp) : result udp :=
  match pcb with
  | None => Ok x
  | Some pcb =>
      u_assign pcb (fun b => set_netif_idx NETIF_NO_INDEX
                               (set_remote IPADDR_ANY 0 (Z.land (u_flags b) (Z.land (Z.lnot UDP_FLAGS_CONNECTED) 0xff)) b)) x
  end.

Definition udp_recv (pcb : option Z) (f : option Z) (arg : Z) (x : udp) : result udp :=
  match pcb with
  | None => Ok x
  | Some pcb => u_assign pcb (set_recv f arg) x
  end.

(** The search for the control block before [pcb], and its removal. *)
Fixpoint unlink_loop (fuel : nat) (pcb : Z) (pcb2 : option Z) (x : udp) : result udp :=
  match fuel with
  | O => Fault OutOfFuel
  | S fuel =>
      match pcb2 with
      | None => Ok x
      | Some p =>
          let* b := u_deref x p in
          if bool_decide (u_next b = Some pcb) then
            let* d := u_deref x pcb in
            u_assign p (set_u_next (u_next d)) x
          else unlink_loop fuel pcb (u_next b) x
      end
  end.

Definition udp_remove (pcb : option Z) (x : udp) : result udp :=
  match pcb with
  | None => Ok x
  | Some pcb =>
      let* x :=
        if bool_decide (udp_pcbs x = Some pcb) then
          let* b := u_deref x pcb in Ok (set_udp_pcbs (u_next b) x)
        else unlink_loop (udp_fuel x) pcb (udp_pcbs x) x in
      udp_pcb_free pcb x
  end.

Definition udp_new (x : udp) : result (option Z * udp) :=
  let* (pcb, x) := udp_pcb_malloc x in
  match pcb with
  | None => Ok (None, x)
  | Some p =>
      let b := mk_udp_pcb 0 0 0 0 0 UDP_TTL None 0 0 0 None 0 in
      Ok (Some p, set_udp_mem (<[p := b]> (udp_mem x)) x)
  end.

(** [udp_new_ip_type] does the same without IPv6. *)
Definition udp_new_ip_type (type : Z) (x : udp) : result (option Z * udp) := udp_new x.

Fixpoint addr_changed_loop (fuel : nat) (old_addr new_addr : Z) (upcb : option Z) (x : udp) : result udp :=
  match fuel with
  | O => Fault OutOfFuel
  | S fuel =>
      match upcb with
      | None => Ok x
      | Some p =>
          let* b := u_deref x p in
          let* x := if local_ip b =? old_addr then u_assign p (set_local new_addr (local_port b)) x else Ok x in
          addr_changed_loop fuel old_addr new_addr (u_next b) x
      end
  end.

Definition udp_netif_ip_addr_changed (old_addr new_addr : option Z) (x : udp) : result udp :=
  match old_addr, new_addr with
  | Some o, Some n =>
      if negb (ip4_addr_isany o) && negb (ip4_addr_isany n)
      then addr_changed_loop (udp_fuel x) o n (udp_pcbs x) x
      else Ok x
  | _, _ => Ok x
  end.

(** ** Datagrams *)

(** The callbacks of the control blocks: the function, its argument, the control
    block, the packet, the address and the port. *)
Class UdpUsers (X H : Type) : Type := {
  recv_fn : Z -> Z -> Z -> Z -> Z -> Z -> ip4 X H -> result (ip4 X H)
}.

Section datagrams.
Context {X H : Type} `{MemHeap H} `{!Neighbours X H, !UdpUsers X H, !Part udp X}.
Context (base : Z -> Z) (nif : Z -> netif) (netif_default : option Z).
Implicit Types (s : ip4 X H).

Definition us s : udp := part (around s).
Definition on_udp (f : udp -> result udp) s : result (ip4 X H) :=
  let* x := f (us s) in Ok (set_around (set_part x (around s)) s).
Definition on_udp_r {A} (f : udp -> result (A * udp)) s : result (A * ip4 X H) :=
  let* (a, x) := f (us s) in Ok (a, set_around (set_part x (around s)) s).

(** *** Receiving *)

Definition udp_input_local_match (b : udp_pcb) (inp : Z) (broadcast : bool) s : result bool :=
  let dest := current_iphdr_dest (ip_data s) in
  let* other :=
    if negb (netif_idx b =? NETIF_NO_INDEX) then
      let* n := not_null (current_input_netif (ip_data s)) in
      Ok (negb (netif_idx b =? netif_get_index (nif n)))
    else Ok false in
  if other : bool then Ok false
  else if broadcast : bool then
    Ok (ip4_addr_isany (local_ip b) || (dest =? IPADDR_BROADCAST) || ip4_addr_net_eq (local_ip b) dest (netmask (nif inp)))
  else Ok (ip4_addr_isany (local_ip b) || (local_ip b =? dest)).

(** Which of two control blocks without a remote end is the better one. *)
Definition better_uncon (b : udp_pcb) (p : Z) (uncon : option Z) (inp : Z) (broadcast : bool) s : result (option Z) :=
  match uncon with
  | None => Ok (Some p)
  | Some u =>
      if broadcast && (current_iphdr_dest (ip_data s) =? IPADDR_BROADCAST) then
        let* ub := u_deref (us s) u in
        Ok (if negb (local_ip ub =? ip_addr (nif inp)) && (local_ip b =? ip_addr (nif inp)) then Some p else uncon)
      else Ok uncon
  end.

(** The first control block that matches both ends, moved to the front, else the one
    without a remote end. *)
Fixpoint match_loop (fuel : nat) (src dest : Z) (inp : Z) (broadcast : bool) (pcb prev uncon : option Z) s
  : result (option Z * ip4 X H) :=
  match fuel with
  | O => Fault OutOfFuel
  | S fuel =>
      match pcb with
      | None => Ok (uncon, s)
      | Some p =>
          let* b := u_deref (us s) p in
          let* matches := if local_port b =? dest then udp_input_local_match b inp broadcast s else Ok false in
          if matches : bool then
            let* uncon :=
              if Z.land (u_flags b) UDP_FLAGS_CONNECTED =? 0 then better_uncon b p uncon inp broadcast s else Ok uncon in
            if (remote_port b =? src) && (ip4_addr_isany (remote_ip b) || (remote_ip b =? current_iphdr_src (ip_data s))) then
              match prev with
              | Some prev =>
                  let* s := on_udp (u_assign prev (set_u_next (u_next b))) s in
                  let* s := on_udp (u_assign p (set_u_next (udp_pcbs (us s)))) s in
                  let* s := on_udp (fun x => Ok (set_udp_pcbs (Some p) x)) s in
                  Ok (Some p, s)
              | None => Ok (Some p, s)
              end
            else match_loop fuel src dest inp broadcast (u_next b) (Some p) uncon s
          else match_loop fuel src dest inp broadcast (u_next b) (Some p) uncon s
      end
  end.

(** Behind the checksum: to the callback, or an ICMP message that there is none. *)
Definition udp_deliver (p : Z) (pcb : option Z) (src : Z) (broadcast : bool) s : result (ip4 X H) :=
  let* (e, s) := on_stack_r (pbuf_remove_header (Some p) UDP_HLEN) s in
  if negb (e =? 0) then drop_packet p s
  else
    match pcb with
    | Some pcb =>
        let* b := u_deref (us s) pcb in
        match recv b with
        | Some f => recv_fn f (recv_arg b) pcb p (current_iphdr_src (ip_data s)) src s
        | None => drop_packet p s
        end
    | None =>
        let* s :=
          if negb broadcast && negb (ip4_addr_ismulticast (current_iphdr_dest (ip_data s))) then
            let* (_, s) := on_stack_r (pbuf_header_force (Some p) (current_ip_header_tot_len (ip_data s) + UDP_HLEN)) s in
            icmp_dest_unreach base nif netif_default p ICMP_DUR_PORT s
          else Ok s in
        drop_packet p s
    end.

Definition udp_input (p : Z) (inp : Z) s : result (ip4 X H) :=
  let* b := deref (stack s) p in
  if len b <? UDP_HLEN then drop_packet p s
  else
    let udphdr := payload b in
    let* cur := not_null (current_netif (ip_data s)) in
    let broadcast := isbroadcast (current_iphdr_dest (ip_data s)) (nif cur) in
    let* src_n := ld (stack s) udphdr 0 2 in
    let* dest_n := ld (stack s) udphdr 2 2 in
    let src := lwip_htons src_n in
    let dest := lwip_htons dest_n in
    let* (pcb, s) := match_loop (udp_fuel (us s)) src dest inp broadcast (udp_pcbs (us s)) None None s in
    let for_us := match pcb with
                  | Some _ => true
                  | None => ip_addr (nif inp) =? current_iphdr_dest (ip_data s)
                  end in
    if for_us : bool then
      let* chksum := ld (stack s) udphdr 6 2 in
      let* wrong :=
        if negb (chksum =? 0) then
          let* b := deref (stack s) p in
          let* c := ip_chksum_pseudo base (stack s) (Some p) IP_PROTO_UDP (tot_len b)
                      (current_iphdr_src (ip_data s)) (current_iphdr_dest (ip_data s)) in
          Ok (negb (c =? 0))
        else Ok false in
      if wrong : bool then drop_packet p s else udp_deliver p pcb src broadcast s
    else drop_packet p s.

(** *** Sending *)

(** The header in [q]: [src] 0, [dest] 2, [len] 4, [chksum] 6. *)
Definition udp_write_header (q : Z) (b : udp_pcb) (dst_port src_ip dst_ip : Z) s : result (ip4 X H) :=
  let* bq := deref (stack s) q in
  let udphdr := payload bq in
  let st off v s := on_stack (fun x => st_bytes x udphdr off v) s in
  let* s := st 0 (le_bytes 2 (lwip_htons (local_port b))) s in
  let* s := st 2 (le_bytes 2 (lwip_htons dst_port)) s in
  let* s := st 6 (le_bytes 2 0) s in
  let* s := st 4 (le_bytes 2 (lwip_htons (tot_len bq))) s in
  if Z.land (u_flags b) UDP_FLAGS_NOCHKSUM =? 0 then
    let* c := ip_chksum_pseudo base (stack s) (Some q) IP_PROTO_UDP (tot_len bq) src_ip dst_ip in
    st 6 (le_bytes 2 (if c =? 0 then 0xffff else c)) s
  else Ok s.

(** The packet the header goes to: [p] if it has room in front, else a new one with
    [p] behind it; none if there is no memory. *)
Definition udp_header_room (p : Z) s : result (option Z * ip4 X H) :=
  let* (e, s) := on_stack_r (pbuf_add_header (Some p) UDP_HLEN) s in
  if negb (e =? 0) then
    let* (q, s) := on_stack_r (pbuf_alloc PBUF_IP UDP_HLEN PBUF_RAM) s in
    match q with
    | None => Ok (None, s)
    | Some q =>
        let* b := deref (stack s) p in
        let* s := if negb (tot_len b =? 0) then on_stack (pbuf_chain (Some q) (Some p)) s else Ok s in
        Ok (Some q, s)
    end
  else Ok (Some p, s).

Definition udp_sendto_if_src (pcb p : option Z) (dst_ip : option Z) (dst_port : Z) (np : option Z) (src_ip : option Z) s
  : result (err_t * ip4 X H) :=
  match pcb, p, dst_ip, src_ip, np with
  | Some pcb, Some p, Some dst_ip, Some src_ip, Some np =>
      let* b := u_deref (us s) pcb in
      let* (err, s) :=
        if local_port b =? 0 then on_udp_r (udp_bind (Some pcb) (Some (local_ip b)) (local_port b)) s
        else Ok (ERR_OK, s) in
      match err with
      | ERR_OK =>
          let* bp := deref (stack s) p in
          if wrap16 (tot_len bp + UDP_HLEN) <? tot_len bp then Ok (ERR_MEM, s)
          else
            let* (q, s) := udp_header_room p s in
            match q with
            | None => Ok (ERR_MEM, s)
            | Some q =>
                let* b := u_deref (us s) pcb in
                let* s := udp_write_header q b dst_port src_ip dst_ip s in
                let* (err, s) := ip4_output_if_src nif q (Some src_ip) (Some dst_ip) (ttl b) (tos b) IP_PROTO_UDP np s in
                let* s := if negb (q =? p) then drop_packet q s else Ok s in
                Ok (err, s)
            end
      | _ => Ok (err, s)
      end
  | _, _, _, _, _ => Ok (ERR_ARG, s)
  end.

Definition udp_sendto_if (pcb p : option Z) (dst_ip : option Z) (dst_port : Z) (np : option Z) s : result (err_t * ip4 X H) :=
  match pcb, p, dst_ip, np with
  | Some pc, Some _, Some _, Some n =>
      let* b := u_deref (us s) pc in
      if ip4_addr_isany (local_ip b) || ip4_addr_ismulticast (local_ip b)
      then udp_sendto_if_src pcb p dst_ip dst_port np (Some (ip_addr (nif n))) s
      else if negb (local_ip b =? ip_addr (nif n)) then Ok (ERR_RTE, s)
      else udp_sendto_if_src pcb p dst_ip dst_port np (Some (local_ip b)) s
  | _, _, _, _ => Ok (ERR_ARG, s)
  end.

(** [netif_get_by_index] with a single interface. *)
Definition netif_get_by_index (idx : Z) : option Z :=
  if idx =? NETIF_NO_INDEX then None
  else
    match netif_default with
    | Some n => if idx =? netif_get_index (nif n) then Some n else None
    | None => None
    end.

Definition udp_sendto (pcb p : option Z) (dst_ip : option Z) (dst_port : Z) s : result (err_t * ip4 X H) :=
  match pcb, p, dst_ip with
  | Some pc, Some _, Some dst =>
      let* b := u_deref (us s) pc in
      let np := if negb (netif_idx b =? NETIF_NO_INDEX) then netif_get_by_index (netif_idx b)
                else ip4_route nif netif_default dst in
      match np with
      | None => Ok (ERR_RTE, s)
      | Some np => udp_sendto_if pcb p dst_ip dst_port (Some np) s
      end
  | _, _, _ => Ok (ERR_ARG, s)
  end.

Definition udp_send (pcb p : option Z) s : result (err_t * ip4 X H) :=
  match pcb, p with
  | Some pc, Some _ =>
      let* b := u_deref (us s) pc in
      udp_sendto pcb p (Some (remote_ip b)) (remote_port b) s
  | _, _ => Ok (ERR_ARG, s)
  end.
End datagrams.
