(* ===== verification/UdpBlocks.v ===== *)
(** * The control blocks of UDP

    The calls of [src/lib/lwip/src/core/udp.c] that change control blocks, against a
    specification on lists: the active control blocks in their order, those that are
    not bound, and the last local port.  Whatever is called in whatever order, the
    code does what the specification says, and no two active control blocks are
    bound to one address and port. *)

From stdpp Require Import base numbers decidable gmap list.
From Stdlib Require Import ZArith Lia Bool.
From S2P Require Import Prelude Linked LwipMem Pbuf InetChksum Ip4Addr Ethernet Ip4 Icmp Udp.
Open Scope Z_scope.

(** ** The specification *)

(** A control block without its link. *)
Definition sock_of (b : udp_pcb) : udp_pcb := set_u_next None b.

Record socks : Type := mk_socks {
  active : list (Z * udp_pcb);
  unbound : list (Z * udp_pcb);
  free_blocks : list Z;
  last_port : Z
}.

Definition update (p : Z) (f : udp_pcb -> udp_pcb) (l : list (Z * udp_pcb)) : list (Z * udp_pcb) :=
  (fun y => if y.1 =? p then (y.1, f y.2) else y) <$> l.

Definition is_other (p : Z) (y : Z * udp_pcb) : Prop := y.1 <> p.
#[export] Instance is_other_dec p y : Decision (is_other p y) := decide (y.1 <> p).

Definition find_sock (p : Z) (l : list (Z * udp_pcb)) : option udp_pcb := snd <$> find (fun y => y.1 =? p) l.

(** The port after [port], and the first one after it that is not in use. *)
Definition next_port (port : Z) : Z := if port =? UDP_LOCAL_PORT_RANGE_END then UDP_LOCAL_PORT_RANGE_START else port + 1.

Fixpoint free_port (n : nat) (port : Z) (used : list Z) : Z :=
  match n with
  | O => next_port port
  | S n => if decide (next_port port ∈ used) then free_port n (next_port port) used else next_port port
  end.

Definition ports (st : socks) : list Z := (fun y => local_port y.2) <$> active st.

(** The control block [p] gets the address and the port. *)
Definition bind_to (p ip port : Z) (st : socks) : socks :=
  match find_sock p (active st) with
  | Some _ => mk_socks (update p (set_local ip port) (active st)) (unbound st) (free_blocks st) (last_port st)
  | None =>
      match find_sock p (unbound st) with
      | Some b => mk_socks ((p, set_local ip port b) :: active st) (filter (is_other p) (unbound st)) (free_blocks st) (last_port st)
      | None => st
      end
  end.

Definition bind_spec (p ip port : Z) (st : socks) : err_t * socks :=
  if port =? 0 then
    let port := free_port (length (active st)) (last_port st) (ports st) in
    (ERR_OK, bind_to p ip port (mk_socks (active st) (unbound st) (free_blocks st) port))
  else if existsb (fun y => negb (p =? y.1) && binds y.2 ip port) (active st) then (ERR_USE, st)
  else (ERR_OK, bind_to p ip port st).

Definition on_sock (p : Z) (f : udp_pcb -> udp_pcb) (st : socks) : socks :=
  mk_socks (update p f (active st)) (update p f (unbound st)) (free_blocks st) (last_port st).

Definition connected_to (ip port : Z) (b : udp_pcb) : udp_pcb := set_remote ip port (Z.lor (u_flags b) UDP_FLAGS_CONNECTED) b.

Definition connect_spec (p ip port : Z) (st : socks) : err_t * socks :=
  let '(err, st) :=
    match find_sock p (unbound st) with
    | Some b => bind_spec p (local_ip b) 0 st
    | None => (ERR_OK, st)
    end in
  (err, on_sock p (connected_to ip port) st).

Definition disconnected (b : udp_pcb) : udp_pcb :=
  set_netif_idx NETIF_NO_INDEX (set_remote IPADDR_ANY 0 (Z.land (u_flags b) (Z.land (Z.lnot UDP_FLAGS_CONNECTED) 0xff)) b).

Definition remove_spec (p : Z) (st : socks) : socks :=
  mk_socks (filter (is_other p) (active st)) (filter (is_other p) (unbound st)) (p :: free_blocks st) (last_port st).

Definition new_pcb : udp_pcb := mk_udp_pcb 0 0 0 0 0 UDP_TTL None 0 0 0 None 0.

Definition new_spec (st : socks) : option Z * socks :=
  match free_blocks st with
  | [] => (None, st)
  | p :: fr => (Some p, mk_socks (active st) ((p, new_pcb) :: unbound st) fr (last_port st))
  end.

(** ** Calls *)

Inductive udp_call : Type :=
| call_new
| call_bind (p : Z) (ip : option Z) (port : Z)
| call_connect (p ip port : Z)
| call_disconnect (p : Z)
| call_recv (p : Z) (f : option Z) (arg : Z)
| call_bind_netif (p : Z) (index : option Z)
| call_remove (p : Z).

(** What a call answers: a control block, or an error code. *)
Inductive answer : Type :=
| Block (p : option Z)
| Code (e : err_t).

Definition run_call (c : udp_call) (x : udp) : result (answer * udp) :=
  match c with
  | call_new => let* (p, x) := udp_new x in Ok (Block p, x)
  | call_bind p ip port => let* (e, x) := udp_bind (Some p) ip port x in Ok (Code e, x)
  | call_connect p ip port => let* (e, x) := udp_connect (Some p) (Some ip) port x in Ok (Code e, x)
  | call_disconnect p => let* x := udp_disconnect (Some p) x in Ok (Code ERR_OK, x)
  | call_recv p f arg => let* x := udp_recv (Some p) f arg x in Ok (Code ERR_OK, x)
  | call_bind_netif p i => let* x := udp_bind_netif p i x in Ok (Code ERR_OK, x)
  | call_remove p => let* x := udp_remove (Some p) x in Ok (Code ERR_OK, x)
  end.

Definition spec_call (c : udp_call) (st : socks) : answer * socks :=
  match c with
  | call_new => let '(p, st) := new_spec st in (Block p, st)
  | call_bind p ip port => let '(e, st) := bind_spec p (default IPADDR_ANY ip) port st in (Code e, st)
  | call_connect p ip port => let '(e, st) := connect_spec p ip port st in (Code e, st)
  | call_disconnect p => (Code ERR_OK, on_sock p disconnected st)
  | call_recv p f arg => (Code ERR_OK, on_sock p (set_recv f arg) st)
  | call_bind_netif p i => (Code ERR_OK, on_sock p (set_netif_idx (default NETIF_NO_INDEX i)) st)
  | call_remove p => (Code ERR_OK, remove_spec p st)
  end.

(** The control block of a call is one the caller has. *)
Definition held_by (p : Z) (st : socks) : Prop := p ∈ (active st ++ unbound st).*1.

Definition call_ok (c : udp_call) (st : socks) : Prop :=
  match c with
  | call_new => True
  | call_bind p _ port => held_by p st /\ 0 <= port < 65536
  | call_connect p _ _ | call_disconnect p | call_recv p _ _ | call_bind_netif p _ | call_remove p => held_by p st
  end.

(** ** The invariant *)

Record socks_ok (st : socks) : Prop := {
  so_names : NoDup ((active st ++ unbound st).*1 ++ free_blocks st);
  so_pool : Z.of_nat (length (active st ++ unbound st) + length (free_blocks st)) = MEMP_NUM_UDP_PCB;
  so_bound : Forall (fun y => 0 < local_port y.2 < 65536) (active st);
  so_new : Forall (fun y => local_port y.2 = 0) (unbound st);
  so_apart : forall y z, y ∈ active st -> z ∈ active st -> y.1 <> z.1 -> binds y.2 (local_ip z.2) (local_port z.2) = false;
  so_last : UDP_LOCAL_PORT_RANGE_START <= last_port st <= UDP_LOCAL_PORT_RANGE_END
}.

(** *** Lists of control blocks *)

Lemma update_names p f l : (update p f l).*1 = l.*1.
Proof. unfold update. rewrite <- list_fmap_compose. apply list_fmap_ext. intros i [q b] _. cbn. by destruct (q =? p). Qed.

Lemma length_update p f l : length (update p f l) = length l.
Proof. apply length_fmap. Qed.

Lemma elem_of_update p f l y : y ∈ update p f l -> exists b, (y.1, b) ∈ l /\ y.2 = if y.1 =? p then f b else b.
Proof.
  intros ([q b]&->&Hin)%list_elem_of_fmap. exists b. cbn. by destruct (q =? p) eqn:Hq; cbn; rewrite Hq.
Qed.

Lemma Forall_update (P : Z * udp_pcb -> Prop) p f l : Forall P l -> (forall q b, P (q, b) -> P (q, f b)) -> Forall P (update p f l).
Proof.
  intros Hl Hf. apply Forall_fmap. eapply Forall_impl; [exact Hl|]. intros [q b] Hq. cbn. destruct (q =? p); cbn; auto.
Qed.

Lemma sock_some p l b : find_sock p l = Some b -> (p, b) ∈ l.
Proof.
  unfold find_sock. induction l as [|[q c] l IH]; cbn; [done|]. destruct (Z.eqb_spec q p) as [->|]; cbn.
  - intros [= ->]. by left.
  - intros Hf. right. auto.
Qed.

Lemma sock_none p l : find_sock p l = None -> p ∉ l.*1.
Proof.
  unfold find_sock. induction l as [|[q c] l IH]; cbn; [by intros _ ?%not_elem_of_nil|]. destruct (Z.eqb_spec q p) as [->|]; [done|].
  intros Hf. apply not_elem_of_cons. split; [by intros ->|auto].
Qed.

Lemma sock_in p l : p ∈ l.*1 -> exists b, find_sock p l = Some b.
Proof. intros Hin. destruct (find_sock p l) as [b|] eqn:Hf; [by exists b|]. by apply sock_none in Hf. Qed.

Lemma filter_names p l : (filter (is_other p) l).*1 = filter (fun q => q <> p) l.*1.
Proof.
  induction l as [|[q b] l IH]; [done|]. rewrite filter_cons, fmap_cons, filter_cons. unfold is_other at 1. cbn [fst].
  by destruct (decide (q <> p)); cbn; rewrite IH.
Qed.

Lemma filter_others p l : p ∉ l.*1 -> filter (is_other p) l = l.
Proof.
  intros Hp. induction l as [|[q b] l IH]; [done|]. rewrite fmap_cons in Hp. apply not_elem_of_cons in Hp as [Hq Hp].
  rewrite filter_cons, decide_True by (unfold is_other; cbn in *; intros ->; done). by rewrite IH.
Qed.

Lemma update_others p f l : p ∉ l.*1 -> update p f l = l.
Proof.
  intros Hp. induction l as [|[q b] l IH]; [done|]. rewrite fmap_cons in Hp. apply not_elem_of_cons in Hp as [Hq Hp].
  cbn. rewrite (proj2 (Z.eqb_neq _ _)) by (cbn in Hq; intros ->; done). f_equal. by apply IH.
Qed.

Lemma Forall_others (P : Z * udp_pcb -> Prop) p l : Forall P l -> Forall P (filter (is_other p) l).
Proof. rewrite !Forall_forall. intros Hl y Hy%list_elem_of_filter. apply Hl. tauto. Qed.

(** A list with one control block taken out. *)
Lemma taken_out p b l : NoDup l.*1 -> (p, b) ∈ l -> l ≡ₚ (p, b) :: filter (is_other p) l.
Proof.
  intros Hn (l1&l2&->)%list_elem_of_split. rewrite fmap_app, fmap_cons in Hn. apply NoDup_app in Hn as (_&Hd&Hn).
  apply NoDup_cons in Hn as [Hn _]. rewrite filter_app, filter_cons, decide_False by (unfold is_other; cbn; tauto).
  rewrite !filter_others; [by rewrite Permutation_middle|done|]. intros Hin. apply (Hd p Hin). by left.
Qed.

(** *** Ports *)

Definition PORTS : Z := 0x4000.

Lemma next_port_mod port k : UDP_LOCAL_PORT_RANGE_START <= port <= UDP_LOCAL_PORT_RANGE_END ->
  Nat.iter k next_port port = UDP_LOCAL_PORT_RANGE_START + (port - UDP_LOCAL_PORT_RANGE_START + Z.of_nat k) mod PORTS.
Proof.
  intros Hp. unfold UDP_LOCAL_PORT_RANGE_START, UDP_LOCAL_PORT_RANGE_END, PORTS in *. induction k as [|k IH].
  - cbn. rewrite Z.add_0_r, Z.mod_small by lia. lia.
  - rewrite Nat.iter_succ, IH. unfold next_port, UDP_LOCAL_PORT_RANGE_START, UDP_LOCAL_PORT_RANGE_END.
    set (a := port - 0xc000 + Z.of_nat k). replace (port - 0xc000 + Z.of_nat (S k)) with (a + 1) by lia.
    pose proof (Z.mod_pos_bound a 0x4000 ltac:(lia)). pose proof (Z.div_mod a 0x4000 ltac:(lia)).
    destruct (Z.eqb_spec (0xc000 + a mod 0x4000) 0xffff).
    + replace (a + 1) with ((a / 0x4000 + 1) * 0x4000) by lia. rewrite Z.mod_mul by lia. lia.
    + replace (a + 1) with (a mod 0x4000 + 1 + a / 0x4000 * 0x4000) by lia. rewrite Z.mod_add, (Z.mod_small (a mod 0x4000 + 1)) by lia. lia.
Qed.

Lemma next_port_range port : UDP_LOCAL_PORT_RANGE_START <= port <= UDP_LOCAL_PORT_RANGE_END ->
  UDP_LOCAL_PORT_RANGE_START <= next_port port <= UDP_LOCAL_PORT_RANGE_END.
Proof. unfold next_port, UDP_LOCAL_PORT_RANGE_START, UDP_LOCAL_PORT_RANGE_END. intros Hp. destruct (Z.eqb_spec port 0xffff); lia. Qed.

Lemma tries_apart port n : UDP_LOCAL_PORT_RANGE_START <= port <= UDP_LOCAL_PORT_RANGE_END -> Z.of_nat n <= PORTS ->
  NoDup ((fun k => Nat.iter (S k) next_port port) <$> seq 0 n).
Proof.
  intros Hp Hn. apply NoDup_fmap_2_strong; [|apply NoDup_seq]. intros i j Hi Hj Heq.
  apply elem_of_seq in Hi, Hj. rewrite !next_port_mod in Heq by done. unfold PORTS in *.
  apply Z.add_reg_l in Heq. pose proof (Z.div_mod (port - UDP_LOCAL_PORT_RANGE_START + Z.of_nat (S i)) 0x4000 ltac:(lia)).
  pose proof (Z.div_mod (port - UDP_LOCAL_PORT_RANGE_START + Z.of_nat (S j)) 0x4000 ltac:(lia)). nia.
Qed.

(** The search finds a free port if there are fewer ports in use than tries. *)
Lemma free_port_try n port used : exists k, (k <= n)%nat /\ free_port n port used = Nat.iter (S k) next_port port /\
  (forall i, (i < k)%nat -> Nat.iter (S i) next_port port ∈ used) /\ ((k < n)%nat -> free_port n port used ∉ used).
Proof.
  revert port. induction n as [|n IH]; intros port; cbn [free_port].
  - exists 0%nat. split_and!; try lia; done.
  - case_decide as Hin.
    + destruct (IH (next_port port)) as (k&Hk&->&Hall&Hfree). exists (S k). split; [lia|]. rewrite <- Nat.iter_succ_r. split; [done|]. split.
      * intros [|i] Hi; [done|]. rewrite Nat.iter_succ_r. apply Hall. lia.
      * intros Hlt. rewrite Nat.iter_succ_r. apply Hfree. lia.
    + exists 0%nat. split_and!; try lia; done.
Qed.

Lemma free_port_ok port used : UDP_LOCAL_PORT_RANGE_START <= port <= UDP_LOCAL_PORT_RANGE_END -> Z.of_nat (length used) < PORTS ->
  let v := free_port (length used) port used in UDP_LOCAL_PORT_RANGE_START <= v <= UDP_LOCAL_PORT_RANGE_END /\ v ∉ used.
Proof.
  intros Hp Hu v. destruct (free_port_try (length used) port used) as (k&Hk&Hv&Hall&Hfree). fold v in Hv, Hfree. split.
  - rewrite Hv, next_port_mod by done. pose proof (Z.mod_pos_bound (port - UDP_LOCAL_PORT_RANGE_START + Z.of_nat (S k)) PORTS ltac:(done)).
    unfold UDP_LOCAL_PORT_RANGE_START, UDP_LOCAL_PORT_RANGE_END, PORTS in *. lia.
  - intros Hin. destruct (decide (k < length used)%nat) as [|Hge]; [by apply Hfree|].
    assert (Hsub : (fun i => Nat.iter (S i) next_port port) <$> seq 0 (S k) ⊆+ used).
    { apply NoDup_submseteq; [apply tries_apart; [done|lia]|]. intros q (i&->&Hi%elem_of_seq)%list_elem_of_fmap.
      destruct (decide (i = k)) as [->|]; [by rewrite <- Hv|]. apply Hall. lia. }
    apply submseteq_length in Hsub. rewrite length_fmap, length_seq in Hsub. lia.
Qed.

(** *** The specification keeps the invariant *)

Lemma binds_port b ip port : local_port b <> port -> binds b ip port = false.
Proof. intros Hp. unfold binds. by rewrite (proj2 (Z.eqb_neq _ _)). Qed.

Lemma binds_sym b c : binds b (local_ip c) (local_port c) = binds c (local_ip b) (local_port b).
Proof.
  unfold binds. rewrite (Z.eqb_sym (local_port c)), (Z.eqb_sym (local_ip c)). f_equal.
  by destruct (local_ip b =? local_ip c), (ip4_addr_isany (local_ip b)), (ip4_addr_isany (local_ip c)).
Qed.

Lemma sock_names st : socks_ok st -> NoDup (active st).*1 /\ NoDup (unbound st).*1 /\
  (forall p, p ∈ (active st).*1 -> p ∉ (unbound st).*1 /\ p ∉ free_blocks st) /\ (forall p, p ∈ (unbound st).*1 -> p ∉ free_blocks st) /\
  NoDup (free_blocks st).
Proof.
  intros [Hn _ _ _ _ _]. rewrite fmap_app in Hn. apply NoDup_app in Hn as (Hau&Hd&Hf). apply NoDup_app in Hau as (Ha&Hd'&Hu).
  split_and!; try done; intros p Hp.
  - split; [by apply Hd'|]. apply Hd. apply elem_of_app. by left.
  - apply Hd. apply elem_of_app. by right.
Qed.

(** Changes that leave the local end alone. *)
Lemma on_sock_ok p f st : socks_ok st -> (forall b, local_ip (f b) = local_ip b /\ local_port (f b) = local_port b) -> socks_ok (on_sock p f st).
Proof.
  intros [Hn Hp Hb Hu Ha Hl] Hf. split; cbn [on_sock active unbound free_blocks last_port].
  - by rewrite fmap_app, !update_names, <- fmap_app.
  - by rewrite length_app, !length_update, <- length_app.
  - apply Forall_update; [done|]. intros q b. cbn. by rewrite (proj2 (Hf b)).
  - apply Forall_update; [done|]. intros q b. cbn. by rewrite (proj2 (Hf b)).
  - intros y z (by'&Hy&Ey)%elem_of_update (bz&Hz&Ez)%elem_of_update Hne.
    assert (Hloc : forall (q : Z) b c, c = (if q =? p then f b else b) -> local_ip c = local_ip b /\ local_port c = local_port b).
    { intros q b c ->. destruct (q =? p); [apply Hf|done]. }
    destruct (Hloc _ _ _ Ey) as [E1 E2], (Hloc _ _ _ Ez) as [E3 E4].
    pose proof (Ha (y.1, by') (z.1, bz) Hy Hz Hne) as Hab. unfold binds in *. cbn [snd] in Hab. by rewrite E1, E2, E3, E4.
  - done.
Qed.

Lemma new_ok st : socks_ok st -> socks_ok (new_spec st).2.
Proof.
  intros Hst. unfold new_spec. destruct (free_blocks st) as [|p fr] eqn:Hfr; [done|]. cbn [snd]. destruct Hst as [Hn Hp Hb Hu Ha Hl]. rewrite Hfr in Hn, Hp.
  split; cbn [active unbound free_blocks last_port]; try done.
  - rewrite fmap_app, fmap_cons in *. cbn [fst]. eapply NoDup_Permutation_proper; [|exact Hn].
    rewrite <- !app_assoc. f_equiv. cbn. by rewrite Permutation_middle.
  - rewrite length_app in *. cbn [length] in *. lia.
  - by constructor.
Qed.

Lemma remove_ok p st : socks_ok st -> held_by p st -> socks_ok (remove_spec p st).
Proof.
  intros Hst Hh. pose proof (sock_names st Hst) as (Ha&Hu&Hd&Hdu&Hf). pose proof Hst as [Hn Hp Hb Hnew Hap Hl].
  assert (Hperm : exists b, active st ++ unbound st ≡ₚ (p, b) :: filter (is_other p) (active st) ++ filter (is_other p) (unbound st)).
  { unfold held_by in Hh. rewrite fmap_app, elem_of_app in Hh. destruct Hh as [Hh|Hh].
    - pose proof (proj1 (Hd p Hh)) as Hnu. apply sock_in in Hh as [b Hb']. apply sock_some in Hb'. exists b.
      rewrite (filter_others p (unbound st)) by done. exact (Permutation_app_tail _ (taken_out p b (active st) Ha Hb')).
    - assert (Hna : p ∉ (active st).*1) by (intros Hin; exact (proj1 (Hd p Hin) Hh)). apply sock_in in Hh as [b Hb']. apply sock_some in Hb'. exists b.
      rewrite (filter_others p (active st)) by done. rewrite Permutation_middle. exact (Permutation_app_head _ (taken_out p b (unbound st) Hu Hb')). }
  destruct Hperm as [b Hperm]. split; cbn [remove_spec active unbound free_blocks last_port]; try done.
  - rewrite Hperm in Hn. cbn [fmap list_fmap app fst] in Hn. eapply NoDup_Permutation_proper; [|exact Hn]. by rewrite Permutation_middle.
  - rewrite Hperm in Hp. cbn [length] in *. lia.
  - by apply Forall_others.
  - by apply Forall_others.
  - intros y z Hy%list_elem_of_filter Hz%list_elem_of_filter. apply Hap; tauto.
Qed.

(** Binding to an address and a port nobody else is bound to. *)
Lemma bind_to_ok p ip port st : socks_ok st -> held_by p st -> 0 < port < 65536 ->
  (forall y, y ∈ active st -> y.1 <> p -> binds y.2 ip port = false) -> socks_ok (bind_to p ip port st).
Proof.
  intros Hst Hh Hport Hfree. pose proof (sock_names st Hst) as (Ha&Hu&Hd&Hdu&Hf). pose proof Hst as [Hn Hp Hb Hnew Hap Hl].
  assert (Hapart : forall l : list (Z * udp_pcb), (forall y, y ∈ l -> (y ∈ active st /\ y.1 <> p) \/ (y.1 = p /\ local_ip y.2 = ip /\ local_port y.2 = port)) ->
    forall y z, y ∈ l -> z ∈ l -> y.1 <> z.1 -> binds y.2 (local_ip z.2) (local_port z.2) = false).
  { intros l Hl' y z Hy Hz Hne. destruct (Hl' y Hy) as [[Hya Hyp]|(Hyp&Hi&Hpo)], (Hl' z Hz) as [[Hza Hzp]|(Hzp&Hi'&Hpo')].
    - by apply Hap.
    - rewrite Hi', Hpo'. by apply Hfree.
    - rewrite binds_sym, Hi, Hpo. by apply Hfree.
    - congruence. }
  unfold bind_to. destruct (find_sock p (active st)) as [b|] eqn:Hfa.
  - split; cbn [active unbound free_blocks last_port]; try done.
    + by rewrite fmap_app, update_names, <- fmap_app.
    + by rewrite length_app, length_update, <- length_app.
    + apply Forall_update; [done|]. cbn. lia.
    + apply Hapart. intros y (c&Hc&Hy)%elem_of_update. destruct (Z.eqb_spec y.1 p); [right; by rewrite Hy|left; split; [|done]].
      rewrite <- Hy in Hc. by destruct y.
  - apply sock_none in Hfa. unfold held_by in Hh. rewrite fmap_app, elem_of_app in Hh. destruct Hh as [Hh|Hh]; [done|].
    apply sock_in in Hh as [b Hfu]. rewrite Hfu. pose proof (taken_out p b (unbound st) Hu (sock_some _ _ _ Hfu)) as Hperm.
    split; cbn [active unbound free_blocks last_port]; try done.
    + eapply NoDup_Permutation_proper; [|exact Hn]. apply Permutation_app_tail. rewrite !fmap_app, fmap_cons. cbn [fst app].
      rewrite Permutation_middle. apply Permutation_app_head. symmetry. exact (fmap_Permutation fst _ _ Hperm).
    + apply Permutation_length in Hperm. rewrite length_app in *. cbn [length] in *. lia.
    + by constructor.
    + by apply Forall_others.
    + apply Hapart. intros y [->|Hy]%elem_of_cons; [by right|]. left. split; [done|]. intros Heq. apply Hfa. rewrite <- Heq. by apply list_elem_of_fmap_2.
Qed.

Lemma pool_small st : socks_ok st -> Z.of_nat (length (active st)) <= 4.
Proof. intros [_ Hp _ _ _ _]. rewrite length_app in Hp. unfold MEMP_NUM_UDP_PCB in Hp. lia. Qed.

Lemma new_port_ok st : socks_ok st -> let v := free_port (length (active st)) (last_port st) (ports st) in
  UDP_LOCAL_PORT_RANGE_START <= v <= UDP_LOCAL_PORT_RANGE_END /\ v ∉ ports st.
Proof.
  intros Hst. pose proof (pool_small st Hst). replace (length (active st)) with (length (ports st)) by apply length_fmap.
  apply free_port_ok; [apply Hst|]. unfold ports, PORTS. rewrite length_fmap. lia.
Qed.

Lemma set_last_ok st v : socks_ok st -> UDP_LOCAL_PORT_RANGE_START <= v <= UDP_LOCAL_PORT_RANGE_END ->
  socks_ok (mk_socks (active st) (unbound st) (free_blocks st) v).
Proof. by intros [Hn Hp Hb Hu Ha Hl] Hv. Qed.

Lemma bind_ok p ip port st : socks_ok st -> held_by p st -> 0 <= port < 65536 -> socks_ok (bind_spec p ip port st).2.
Proof.
  intros Hst Hh Hport. unfold bind_spec. destruct (Z.eqb_spec port 0) as [->|Hne]; cbn [snd].
  - destruct (new_port_ok st Hst) as [Hr Hfree]. apply bind_to_ok; [by apply set_last_ok|done|unfold UDP_LOCAL_PORT_RANGE_START, UDP_LOCAL_PORT_RANGE_END in Hr; lia|].
    cbn [active]. intros y Hy _. apply binds_port. intros Heq. apply Hfree. rewrite <- Heq. by apply (list_elem_of_fmap_2 (fun y : Z * udp_pcb => local_port y.2)).
  - destruct (existsb _ _) eqn:He; [done|]. cbn [snd]. apply bind_to_ok; [done|done|lia|]. intros y Hy Hyp.
    destruct (binds y.2 ip port) eqn:Hb; [|done]. assert (Ht : existsb (fun y => negb (p =? y.1) && binds y.2 ip port) (active st) = true); [|congruence].
    apply existsb_exists. exists y. split; [by apply list_elem_of_In|]. rewrite Hb, (proj2 (Z.eqb_neq _ _)) by congruence. done.
Qed.

Lemma update_in p f l : p ∈ l.*1 -> p ∈ (update p f l).*1.
Proof. by rewrite update_names. Qed.

Lemma connect_ok p ip port st : socks_ok st -> held_by p st -> socks_ok (connect_spec p ip port st).2.
Proof.
  intros Hst Hh. unfold connect_spec. destruct (find_sock p (unbound st)) as [b|]; [|by apply on_sock_ok].
  pose proof (bind_ok p (local_ip b) 0 st Hst Hh ltac:(lia)) as Hb. destruct (bind_spec p (local_ip b) 0 st) as [err st']. by apply on_sock_ok.
Qed.

Lemma call_keeps c st : socks_ok st -> call_ok c st -> socks_ok (spec_call c st).2.
Proof.
  intros Hst Hc. destruct c as [|p ip port|p ip port|p|p f arg|p i|p]; cbn [spec_call snd] in *.
  - pose proof (new_ok st Hst) as Hn. by destruct (new_spec st).
  - destruct Hc as [Hh Hp]. pose proof (bind_ok p (default IPADDR_ANY ip) port st Hst Hh Hp) as Hb. by destruct (bind_spec _ _ _ st).
  - pose proof (connect_ok p ip port st Hst Hc) as Hn. by destruct (connect_spec p ip port st).
  - by apply on_sock_ok.
  - by apply on_sock_ok.
  - by apply on_sock_ok.
  - by apply remove_ok.
Qed.

(** ** The code *)

Record holds_socks (st : socks) (x : udp) : Prop := {
  hs_list : linked u_next (udp_mem x) (udp_pcbs x) (active st).*1;
  hs_free : linked u_next (udp_mem x) (tab_udp_pcb x) (free_blocks st);
  hs_each : forall y, y ∈ active st ++ unbound st -> exists b, udp_mem x !! y.1 = Some b /\ sock_of b = y.2;
  hs_port : udp_port x = last_port st
}.

Lemma u_deref_ok x p b : udp_mem x !! p = Some b -> u_deref x p = Ok b.
Proof. intros Hb. unfold u_deref. by rewrite Hb. Qed.

Lemma u_assign_ok x p b f : udp_mem x !! p = Some b -> u_assign p f x = Ok (set_udp_mem (<[p := f b]> (udp_mem x)) x).
Proof. intros Hb. unfold u_assign. by rewrite (u_deref_ok _ _ _ Hb). Qed.

(** *** Searches *)

Lemma list_fuel st x : holds_socks st x -> (length (active st) < udp_fuel x)%nat.
Proof. intros [Hl _ _ _]. apply linked_size in Hl. rewrite length_fmap in Hl. unfold udp_fuel. lia. Qed.

Section search.
Context (x : udp).
Definition all_held (l : list (Z * udp_pcb)) : Prop := forall y, y ∈ l -> exists b, udp_mem x !! y.1 = Some b /\ sock_of b = y.2.

Lemma held_cons y l : all_held (y :: l) -> (exists b, udp_mem x !! y.1 = Some b /\ sock_of b = y.2) /\ all_held l.
Proof. intros Ha. split; [apply Ha; by left|]. intros z Hz. apply Ha. by right. Qed.

Lemma port_loop_ok fuel o l port : linked u_next (udp_mem x) o l.*1 -> all_held l -> (length l < fuel)%nat ->
  port_loop fuel port o x = Ok (bool_decide (port ∈ (fun y => local_port y.2) <$> l)).
Proof.
  revert fuel o. induction l as [|[p c] l IH]; intros [|fuel] o Hl Ha Hf; cbn in Hf; try lia; cbn [port_loop].
  - cbn in Hl. subst o. by rewrite bool_decide_eq_false_2 by apply not_elem_of_nil.
  - apply held_cons in Ha as [(b&Hb&Hbc) Ha]. destruct Hl as [-> (b'&Hb'&Hl)]. cbn in Hb, Hbc, Hb'. assert (b' = b) as -> by congruence.
    cbn [fst]. rewrite (u_deref_ok _ _ _ Hb). cbn [rbind]. rewrite fmap_cons. cbn [snd]. subst c. change (local_port (sock_of b)) with (local_port b).
    destruct (Z.eqb_spec (local_port b) port) as [->|Hne]; [by rewrite bool_decide_eq_true_2 by (by left)|].
    rewrite (IH fuel) by (done || lia). f_equal. apply bool_decide_ext. rewrite elem_of_cons. split; [by right|]. intros [->|?]; done.
Qed.

Lemma on_list_ok fuel o l p : linked u_next (udp_mem x) o l -> (length l < fuel)%nat ->
  on_list_loop fuel p o x = Ok (bool_decide (p ∈ l)).
Proof.
  revert fuel o. induction l as [|q l IH]; intros [|fuel] o Hl Hf; cbn in Hf; try lia; cbn [on_list_loop].
  - cbn in Hl. subst o. by rewrite bool_decide_eq_false_2 by apply not_elem_of_nil.
  - destruct Hl as [-> (b&Hb&Hl)]. destruct (Z.eqb_spec p q) as [->|Hne]; [by rewrite bool_decide_eq_true_2 by (by left)|].
    rewrite (u_deref_ok _ _ _ Hb). cbn [rbind]. rewrite (IH fuel) by (done || lia). f_equal. apply bool_decide_ext.
    rewrite elem_of_cons. split; [by right|]. intros [->|?]; done.
Qed.

Lemma in_use_ok fuel o l p ip port : linked u_next (udp_mem x) o l.*1 -> all_held l -> (length l < fuel)%nat ->
  in_use_loop fuel p ip port o x = Ok (existsb (fun y => negb (p =? y.1) && binds y.2 ip port) l).
Proof.
  revert fuel o. induction l as [|[q c] l IH]; intros [|fuel] o Hl Ha Hf; cbn in Hf; try lia; cbn [in_use_loop existsb].
  - cbn in Hl. by subst o.
  - apply held_cons in Ha as [(b&Hb&Hbc) Ha]. destruct Hl as [-> (b'&Hb'&Hl)]. cbn in Hb, Hbc, Hb'. assert (b' = b) as -> by congruence.
    cbn [fst]. rewrite (u_deref_ok _ _ _ Hb). cbn [rbind fst snd]. subst c. change (binds (sock_of b) ip port) with (binds b ip port).
    destruct (negb (p =? q) && binds b ip port); [done|]. by rewrite (IH fuel) by (done || lia).
Qed.
End search.

Lemma set_port_held st x v : holds_socks st x ->
  holds_socks (mk_socks (active st) (unbound st) (free_blocks st) v) (set_udp_port v x).
Proof. by intros [Hl Hf He Hp]. Qed.

Lemma held_active st x : holds_socks st x -> all_held x (active st).
Proof. intros [_ _ He _] y Hy. apply He, elem_of_app. by left. Qed.

Lemma new_port_loop_ok m : forall rounds n st x, holds_socks st x -> (m < rounds)%nat -> 0 <= n -> n + Z.of_nat m <= 0x3fff ->
  UDP_LOCAL_PORT_RANGE_START <= last_port st <= UDP_LOCAL_PORT_RANGE_END -> free_port m (last_port st) (ports st) ∉ ports st ->
  new_port_loop rounds n x = Ok (free_port m (last_port st) (ports st), set_udp_port (free_port m (last_port st) (ports st)) x).
Proof.
  induction m as [|m IH]; intros [|rounds] n st x Hx Hr Hn Hnm Hlast Hfree; try lia; cbn [new_port_loop];
    rewrite (hs_port _ _ Hx); pose proof (next_port_range _ Hlast) as Hrange.
  all: assert (Hnext : (if last_port st =? UDP_LOCAL_PORT_RANGE_END then UDP_LOCAL_PORT_RANGE_START else wrap16 (last_port st + 1)) = next_port (last_port st))
    by (unfold next_port, UDP_LOCAL_PORT_RANGE_START, UDP_LOCAL_PORT_RANGE_END in *; destruct (Z.eqb_spec (last_port st) 0xffff); [done|]; apply wrap16_small; lia).
  all: rewrite Hnext; cbn [udp_port set_udp_port]; set (v := next_port (last_port st)) in *;
    pose proof (set_port_held st x v Hx) as Hx1;
    rewrite (port_loop_ok _ _ _ (active st)) by (first [exact (hs_list _ _ Hx1)|exact (held_active _ _ Hx1)|exact (list_fuel _ _ Hx1)]); cbn [rbind].
  - cbn [free_port] in *. fold v in Hfree |- *. by rewrite bool_decide_eq_false_2.
  - cbn [free_port] in *. fold v in Hfree |- *. case_decide as Hin.
    + rewrite bool_decide_eq_true_2 by done. rewrite (wrap16_small (n + 1)) by lia.
      unfold UDP_LOCAL_PORT_RANGE_START, UDP_LOCAL_PORT_RANGE_END. destruct (Z.ltb_spec (0xffff - 0xc000) (n + 1)); [lia|].
      exact (IH rounds (n + 1) _ _ Hx1 ltac:(lia) ltac:(lia) ltac:(lia) Hrange Hfree).
    + by rewrite bool_decide_eq_false_2.
Qed.

Lemma new_port_call st x : socks_ok st -> holds_socks st x ->
  let v := free_port (length (active st)) (last_port st) (ports st) in udp_new_port x = Ok (v, set_udp_port v x).
Proof.
  intros Hst Hx v. pose proof (pool_small st Hst). destruct (new_port_ok st Hst) as [_ Hfree]. unfold udp_new_port.
  apply new_port_loop_ok; try done; try lia. apply Hst.
Qed.

(** *** Changes *)

Lemma held_block st x p : holds_socks st x -> held_by p st -> exists b, udp_mem x !! p = Some b /\ (p, sock_of b) ∈ active st ++ unbound st.
Proof.
  intros [_ _ He _] ([q c]&->&Hin)%list_elem_of_fmap. destruct (He _ Hin) as (b&Hb&Hc). cbn in *. subst c. by exists b.
Qed.

Lemma same_name st p b c : socks_ok st -> (p, b) ∈ active st ++ unbound st -> (p, c) ∈ active st ++ unbound st -> b = c.
Proof.
  intros Hst Hb Hc. assert (Hn : NoDup (active st ++ unbound st).*1) by (destruct Hst as [Hn _ _ _ _ _]; by apply NoDup_app in Hn as [? _]).
  apply list_elem_of_lookup in Hb as [i Hi]. apply list_elem_of_lookup in Hc as [j Hj].
  assert (i = j) as -> by (eapply NoDup_lookup; [exact Hn|by rewrite list_lookup_fmap, Hi|by rewrite list_lookup_fmap, Hj]). congruence.
Qed.

(** A change that does not touch the link. *)
Lemma assign_sock st x p f : socks_ok st -> holds_socks st x -> held_by p st ->
  (forall b, u_next (f b) = u_next b /\ sock_of (f b) = f (sock_of b)) ->
  exists x', u_assign p f x = Ok x' /\ holds_socks (on_sock p f st) x' /\ udp_pcbs x' = udp_pcbs x.
Proof.
  intros Hst Hx Hh Hf. destruct (held_block st x p Hx Hh) as (b&Hb&Hin). rewrite (u_assign_ok _ _ _ _ Hb). eexists. split; [reflexivity|]. split; [|done].
  destruct Hx as [Hl Hfr He Hp].
  assert (Hnext : forall q, u_next <$> <[p := f b]> (udp_mem x) !! q = u_next <$> udp_mem x !! q).
  { intros q. destruct (decide (q = p)) as [->|]; [rewrite lookup_insert_eq, Hb; cbn; by rewrite (proj1 (Hf b))|by rewrite lookup_insert_ne]. }
  split; cbn [on_sock active unbound free_blocks last_port set_udp_mem udp_mem udp_pcbs tab_udp_pcb udp_port]; try done.
  - rewrite update_names. eapply linked_ext; [|exact Hl]. auto.
  - eapply linked_ext; [|exact Hfr]. auto.
  - intros y Hy. assert (Hy' : exists c, (y.1, c) ∈ active st ++ unbound st /\ y.2 = if y.1 =? p then f c else c).
    { apply elem_of_app in Hy as [(c&Hc&Hy)%elem_of_update|(c&Hc&Hy)%elem_of_update]; exists c; rewrite elem_of_app; auto. }
    destruct Hy' as (c&Hc&->). destruct (Z.eqb_spec y.1 p) as [Heq|Hne].
    + rewrite Heq in *. rewrite lookup_insert_eq. exists (f b). split; [done|]. rewrite (proj2 (Hf b)). f_equal. exact (same_name st p _ _ Hst Hin Hc).
    + rewrite lookup_insert_ne by done. exact (He _ Hc).
Qed.

Lemma on_sock_active st p f : socks_ok st -> p ∈ (active st).*1 ->
  on_sock p f st = mk_socks (update p f (active st)) (unbound st) (free_blocks st) (last_port st).
Proof.
  intros Hst Hp. unfold on_sock. rewrite (update_others p f (unbound st)); [done|]. pose proof (sock_names st Hst) as (_&_&Hd&_). apply (Hd p Hp).
Qed.

(** A control block that is not in the list gets to its front. *)
Definition to_front (p : Z) (x : udp) : result udp :=
  let* x := u_assign p (set_u_next (udp_pcbs x)) x in Ok (set_udp_pcbs (Some p) x).

Lemma bind_code_ok st x p ip port : socks_ok st -> holds_socks st x -> held_by p st ->
  exists x', (let* x := u_assign p (set_local ip port) x in if bool_decide (p ∈ (active st).*1) then Ok x else to_front p x) = Ok x' /\
    holds_socks (bind_to p ip port st) x' /\ p ∈ (active (bind_to p ip port st)).*1.
Proof.
  intros Hst Hx Hh. pose proof (sock_names st Hst) as (_&Hu&Hd&Hdu&_). case_bool_decide as Hin.
  - destruct (assign_sock st x p (set_local ip port) Hst Hx Hh) as (x'&->&Hx'&_); [done|]. cbn [rbind]. exists x'. split; [done|].
    rewrite on_sock_active in Hx' by done. unfold bind_to. destruct (sock_in p _ Hin) as [b ->]. split; [done|]. cbn [active]. by rewrite update_names.
  - destruct (held_block st x p Hx Hh) as (b&Hb&Hinb). rewrite (u_assign_ok _ _ _ _ Hb). cbn [rbind]. unfold to_front.
    rewrite (u_assign_ok _ p (set_local ip port b)) by (apply lookup_insert_eq). cbn [rbind].
    eexists. split; [reflexivity|]. unfold bind_to.
    destruct (find_sock p (active st)) as [c|] eqn:Hfa; [apply sock_some in Hfa; destruct Hin; by apply (list_elem_of_fmap_2 fst) in Hfa|].
    assert (Hpu : p ∈ (unbound st).*1) by (unfold held_by in Hh; rewrite fmap_app, elem_of_app in Hh; tauto).
    destruct (sock_in p _ Hpu) as [c Hfu]. rewrite Hfu. apply sock_some in Hfu. split; [|by left].
    assert (sock_of b = c) as <- by (eapply (same_name st p); [done|exact Hinb|rewrite elem_of_app; by right]).
    destruct Hx as [Hl Hfr He Hp].
    split; cbn [active unbound free_blocks last_port set_udp_pcbs set_udp_mem udp_mem udp_pcbs tab_udp_pcb udp_port]; rewrite ?insert_insert_eq; try done.
    + rewrite fmap_cons. cbn [fst]. split; [done|]. eexists. rewrite lookup_insert_eq. split; [reflexivity|]. by apply linked_insert_ne.
    + apply linked_insert_ne; [by apply Hdu|done].
    + intros y Hy. cbn [app] in Hy. apply elem_of_cons in Hy as [->|Hy].
      * cbn [fst]. rewrite lookup_insert_eq. by eexists.
      * assert (Hy' : y ∈ active st ++ unbound st /\ y.1 <> p).
        { rewrite !elem_of_app, list_elem_of_filter in Hy. rewrite elem_of_app. destruct Hy as [Hy|[Ho Hy]]; [|by auto].
          split; [auto|]. intros Heq. apply Hin. rewrite <- Heq. by apply list_elem_of_fmap_2. }
        rewrite lookup_insert_ne by (intros Heq; apply (proj2 Hy'); congruence). exact (He _ (proj1 Hy')).
Qed.

Lemma bind_refines st x p ip port : socks_ok st -> holds_socks st x -> held_by p st -> 0 <= port < 65536 ->
  exists x', udp_bind (Some p) ip port x = Ok ((bind_spec p (default IPADDR_ANY ip) port st).1, x') /\
    holds_socks (bind_spec p (default IPADDR_ANY ip) port st).2 x' /\
    ((bind_spec p (default IPADDR_ANY ip) port st).1 = ERR_OK -> p ∈ (active (bind_spec p (default IPADDR_ANY ip) port st).2).*1).
Proof.
  intros Hst Hx Hh Hport. unfold udp_bind. change (match ip with Some a => a | None => IPADDR_ANY end) with (default IPADDR_ANY ip).
  set (a := default IPADDR_ANY ip). clearbody a. clear ip. pose proof (list_fuel st x Hx) as Hfuel.
  rewrite (on_list_ok x _ _ (active st).*1) by (first [exact (hs_list _ _ Hx)|by rewrite length_fmap]). cbn [rbind].
  assert (Htail : forall st1 x1 v, socks_ok st1 -> holds_socks st1 x1 -> held_by p st1 -> active st1 = active st -> v <> 0 ->
    exists x', (if v =? 0 then Ok (ERR_USE, x1) else let* x := u_assign p (set_local a v) x1 in
      if bool_decide (p ∈ (active st).*1) then Ok (ERR_OK, x) else let* x := u_assign p (set_u_next (udp_pcbs x)) x in Ok (ERR_OK, set_udp_pcbs (Some p) x)) = Ok (ERR_OK, x') /\
      holds_socks (bind_to p a v st1) x' /\ p ∈ (active (bind_to p a v st1)).*1).
  { intros st1 x1 v Hst1 Hx1 Hh1 Hact Hv. rewrite (proj2 (Z.eqb_neq _ _)) by done. destruct (bind_code_ok st1 x1 p a v Hst1 Hx1 Hh1) as (x'&Hrun&Hx'&Hp').
    exists x'. split; [|done]. rewrite Hact in Hrun. destruct (u_assign p (set_local a v) x1) as [x2|]; [|done]. cbn [rbind] in *.
    destruct (bool_decide _); [by injection Hrun as ->|]. unfold to_front in Hrun. destruct (u_assign p _ x2) as [x3|]; [|done]. cbn [rbind] in *. by injection Hrun as ->. }
  unfold bind_spec. destruct (Z.eqb_spec port 0) as [->|Hne].
  - rewrite (new_port_call st x Hst Hx). cbn [rbind fst snd]. set (v := free_port _ _ _). destruct (new_port_ok st Hst) as [Hr _]. fold v in Hr.
    destruct (Htail (mk_socks (active st) (unbound st) (free_blocks st) v) (set_udp_port v x) v) as (x'&->&Hx'&Hp'); try done.
    + by apply set_last_ok.
    + by apply set_port_held.
    + unfold UDP_LOCAL_PORT_RANGE_START in Hr. lia.
    + by exists x'.
  - rewrite (in_use_ok x _ _ (active st)) by (first [exact (hs_list _ _ Hx)|exact (held_active _ _ Hx)|done]). cbn [rbind].
    destruct (existsb _ _); cbn [fst snd].
    + exists x. by rewrite Z.eqb_refl.
    + destruct (Htail st x port Hst Hx Hh eq_refl Hne) as (x'&->&Hx'&Hp'). by exists x'.
Qed.

Lemma connect_refines st x p ip port : socks_ok st -> holds_socks st x -> held_by p st ->
  exists x', udp_connect (Some p) (Some ip) port x = Ok ((connect_spec p ip port st).1, x') /\ holds_socks (connect_spec p ip port st).2 x'.
Proof.
  intros Hst Hx Hh. destruct (held_block st x p Hx Hh) as (b&Hb&Hin). unfold udp_connect. rewrite (u_deref_ok _ _ _ Hb). cbn [rbind].
  pose proof (sock_names st Hst) as (_&_&Hd&_). pose proof Hst as [_ _ Hbd Hnw _ _]. rewrite Forall_forall in Hbd, Hnw.
  assert (Htail : forall st1 x1, socks_ok st1 -> holds_socks st1 x1 -> p ∈ (active st1).*1 ->
    exists x', (let* x := u_assign p (fun b => set_remote ip port (Z.lor (u_flags b) UDP_FLAGS_CONNECTED) b) x1 in
      let* there := on_list_loop (udp_fuel x) p (udp_pcbs x) x in
      if there : bool then Ok (ERR_OK, x) else let* x := u_assign p (set_u_next (udp_pcbs x)) x in Ok (ERR_OK, set_udp_pcbs (Some p) x)) = Ok (ERR_OK, x') /\
      holds_socks (on_sock p (connected_to ip port) st1) x').
  { intros st1 x1 Hst1 Hx1 Hp1. destruct (assign_sock st1 x1 p (connected_to ip port) Hst1 Hx1) as (x2&Hrun&Hx2&_); [|done|].
    { unfold held_by. rewrite fmap_app, elem_of_app. by left. }
    unfold connected_to in Hrun. rewrite Hrun. cbn [rbind]. pose proof (hs_list _ _ Hx2) as Hl2. cbn [on_sock active] in Hl2. rewrite update_names in Hl2.
    rewrite (on_list_ok x2 _ _ (active st1).*1); [|done|]; [rewrite bool_decide_eq_true_2 by done; by exists x2|].
    pose proof (list_fuel _ _ Hx2) as Hf2. cbn [on_sock active] in Hf2. rewrite length_update in Hf2. by rewrite length_fmap. }
  unfold connect_spec. destruct (find_sock p (unbound st)) as [c|] eqn:Hfu.
  - apply sock_some in Hfu. pose proof (Hnw _ Hfu) as Hc. cbn in Hc.
    assert (sock_of b = c) as <- by (eapply (same_name st p); [done|exact Hin|rewrite elem_of_app; by right]).
    change (local_port (sock_of b)) with (local_port b) in Hc. change (local_ip (sock_of b)) with (local_ip b). rewrite Hc. cbn [Z.eqb].
    destruct (bind_refines st x p (Some (local_ip b)) 0 Hst Hx Hh ltac:(lia)) as (x1&->&Hx1&Hp1). cbn [rbind]. cbn [default from_option] in *.
    pose proof (bind_ok p (local_ip b) 0 st Hst Hh ltac:(lia)) as Hst1. unfold bind_spec in *. rewrite Z.eqb_refl in *. cbn [fst snd] in *.
    destruct (Htail _ x1 Hst1 Hx1 (Hp1 eq_refl)) as (x'&->&Hx'). by exists x'.
  - apply sock_none in Hfu. rewrite elem_of_app in Hin. destruct Hin as [Hin|Hin]; [|by apply (list_elem_of_fmap_2 fst) in Hin].
    pose proof (Hbd _ Hin) as Hlp. cbn in Hlp. change (local_port (sock_of b)) with (local_port b) in Hlp. rewrite (proj2 (Z.eqb_neq _ _)) by lia. cbn [rbind fst snd].
    destruct (Htail st x Hst Hx) as (x'&->&Hx'); [by apply (list_elem_of_fmap_2 fst) in Hin|]. by exists x'.
Qed.

Lemma new_refines st x : socks_ok st -> holds_socks st x ->
  exists x', udp_new x = Ok ((new_spec st).1, x') /\ holds_socks (new_spec st).2 x'.
Proof.
  intros Hst [Hl Hfr He Hp]. pose proof (sock_names st Hst) as (_&_&Hd&Hdu&Hnf). unfold udp_new, udp_pcb_malloc, new_spec. rewrite (linked_starts _ _ _ Hfr).
  destruct (free_blocks st) as [|p fr] eqn:Hf; cbn [head rbind fst snd]; [exists x; split; [done|]; split; rewrite ?Hf; done|].
  destruct Hfr as [_ (b&Hb&Hfr)]. rewrite (u_deref_ok _ _ _ Hb). cbn [rbind]. eexists. split; [reflexivity|].
  apply NoDup_cons in Hnf as [Hpf _].
  assert (Hpa : forall y, y ∈ active st ++ unbound st -> y.1 <> p).
  { intros y Hy Heq. apply (list_elem_of_fmap_2 fst) in Hy. rewrite fmap_app, elem_of_app, Heq in Hy.
    destruct Hy as [Hy|Hy]; [apply (proj2 (Hd p Hy))|apply (Hdu p Hy)]; by left. }
  split; cbn [active unbound free_blocks last_port set_udp_mem set_tab_udp_pcb udp_mem udp_pcbs tab_udp_pcb udp_port]; try done.
  - apply linked_insert_ne; [|done]. intros ([q c]&->&Hin)%list_elem_of_fmap. apply (Hpa (q, c)); [by apply elem_of_app; left|done].
  - by apply linked_insert_ne.
  - intros y Hy. rewrite elem_of_app, elem_of_cons in Hy. destruct (decide (y.1 = p)) as [Heq|Hne].
    + assert (y = (p, new_pcb)) as ->.
      { destruct Hy as [Hy|[->|Hy]]; [|done|]; exfalso; apply (Hpa y); rewrite ?elem_of_app; auto. }
      cbn [fst]. rewrite lookup_insert_eq. by eexists.
    + rewrite lookup_insert_ne by congruence. apply He. rewrite elem_of_app. destruct Hy as [Hy|[->|Hy]]; [by left|done|by right].
Qed.

(** *** Removal *)

Lemma unlink_ok x l1 q p l2 bq bp o fuel : linked u_next (udp_mem x) o (l1 ++ q :: p :: l2) -> NoDup (l1 ++ q :: p :: l2) ->
  udp_mem x !! q = Some bq -> udp_mem x !! p = Some bp -> (length (l1 ++ q :: p :: l2) < fuel)%nat ->
  unlink_loop fuel p o x = Ok (set_udp_mem (<[q := set_u_next (u_next bp) bq]> (udp_mem x)) x).
Proof.
  intros Hl Hn Hq Hp. revert o fuel Hl. induction l1 as [|k l1 IH]; intros o [|fuel] Hl Hf; cbn in Hf; try lia; cbn [app unlink_loop] in *.
  - destruct Hl as [-> (b&Hb&Hnx&_)]. assert (b = bq) as -> by congruence. rewrite (u_deref_ok _ _ _ Hq). cbn [rbind].
    rewrite bool_decide_eq_true_2 by done. rewrite (u_deref_ok _ _ _ Hp). cbn [rbind]. by rewrite (u_assign_ok _ _ _ _ Hq).
  - destruct Hl as [-> (b&Hb&Hl)]. rewrite (u_deref_ok _ _ _ Hb). cbn [rbind]. rewrite bool_decide_eq_false_2.
    + apply NoDup_cons in Hn as [_ Hn]. apply IH; [done|done|lia].
    + intros Hnx. rewrite Hnx in Hl. apply linked_starts in Hl. apply NoDup_cons in Hn as [_ Hn]. destruct l1 as [|k' l1]; cbn in Hl, Hn; injection Hl as ->;
        apply NoDup_cons in Hn as [Hn _]; apply Hn; set_solver.
Qed.

Lemma unlink_none x l p o fuel : linked u_next (udp_mem x) o l -> p ∉ l -> (length l < fuel)%nat -> unlink_loop fuel p o x = Ok x.
Proof.
  revert o fuel. induction l as [|k l IH]; intros o [|fuel] Hl Hp Hf; cbn in Hf; try lia; cbn [unlink_loop].
  - cbn in Hl. by subst o.
  - destruct Hl as [-> (b&Hb&Hl)]. apply not_elem_of_cons in Hp as [_ Hp]. rewrite (u_deref_ok _ _ _ Hb). cbn [rbind]. rewrite bool_decide_eq_false_2.
    + apply IH; [done|done|lia].
    + intros Hnx. rewrite Hnx in Hl. apply linked_starts in Hl. destruct l as [|k' l]; [done|]. injection Hl as ->. apply Hp. by left.
Qed.

Lemma filter_split p (l1 l2 : list Z) : NoDup (l1 ++ p :: l2) -> filter (fun q => q <> p) (l1 ++ p :: l2) = l1 ++ l2.
Proof.
  intros Hn. apply NoDup_app in Hn as (_&Hd&Hn). apply NoDup_cons in Hn as [Hn _].
  assert (Hall : forall l : list Z, p ∉ l -> filter (fun q => q <> p) l = l).
  { clear. intros l Hp. induction l as [|q l IH]; [done|]. apply not_elem_of_cons in Hp as [Hq Hp].
    rewrite filter_cons, decide_True by congruence. by rewrite IH. }
  rewrite filter_app, filter_cons, decide_False by tauto. rewrite !Hall; [done|done|]. intros Hin. apply (Hd p Hin). by left.
Qed.

Lemma unlinked_ok x l p bp : linked u_next (udp_mem x) (udp_pcbs x) l -> NoDup l -> udp_mem x !! p = Some bp ->
  exists x1, (if bool_decide (udp_pcbs x = Some p) then let* b := u_deref x p in Ok (set_udp_pcbs (u_next b) x)
              else unlink_loop (udp_fuel x) p (udp_pcbs x) x) = Ok x1 /\
    linked u_next (udp_mem x1) (udp_pcbs x1) (filter (fun q => q <> p) l) /\ tab_udp_pcb x1 = tab_udp_pcb x /\ udp_port x1 = udp_port x /\
    (forall q, sock_of <$> udp_mem x1 !! q = sock_of <$> udp_mem x !! q) /\ (forall q, q ∉ l -> udp_mem x1 !! q = udp_mem x !! q).
Proof.
  intros Hl Hn Hp. pose proof (linked_size _ _ _ Hl) as Hsz. assert (Hfuel : (length l < udp_fuel x)%nat) by (unfold udp_fuel; lia).
  pose proof (linked_starts _ _ _ Hl) as Hhd. destruct (decide (p ∈ l)) as [Hin|Hin].
  - apply list_elem_of_split in Hin as (l1&l2&->). rewrite filter_split by done. destruct l1 as [|k l1] using rev_ind; cbn [app head] in *.
    + rewrite bool_decide_eq_true_2 by done. rewrite (u_deref_ok _ _ _ Hp). cbn [rbind]. eexists. split; [reflexivity|].
      destruct Hl as [_ (b&Hb&Hl)]. assert (b = bp) as -> by congruence. by split_and!.
    + rewrite <- app_assoc in *. cbn [app] in *. destruct (linked_dom _ _ _ k Hl) as [bk Hk]; [set_solver|].
      rewrite bool_decide_eq_false_2.
      2:{ rewrite Hhd. destruct l1 as [|j l1]; cbn in Hn |- *; intros [= ->]; apply NoDup_cons in Hn as [Hn _]; apply Hn; set_solver. }
      rewrite (unlink_ok x l1 k p l2 bk bp) by done. eexists. split; [reflexivity|]. cbn [set_udp_mem udp_mem udp_pcbs tab_udp_pcb udp_port].
      split; [by eapply linked_skip|]. split_and!; try done.
      * intros q. destruct (decide (q = k)) as [->|]; [by rewrite lookup_insert_eq, Hk|by rewrite lookup_insert_ne].
      * intros q Hq. rewrite lookup_insert_ne; [done|]. set_solver.
  - rewrite bool_decide_eq_false_2 by (intros Heq; rewrite Hhd in Heq; destruct l; [done|]; injection Heq as ->; set_solver).
    rewrite (unlink_none x l) by done. exists x. split; [done|]. split; [|by split_and!].
    replace (filter _ l) with l; [done|]. clear -Hin. induction l as [|q l IH]; [done|]. apply not_elem_of_cons in Hin as [Hq Hin].
    rewrite filter_cons, decide_True by congruence. by rewrite <- IH.
Qed.

Lemma remove_refines st x p : socks_ok st -> holds_socks st x -> held_by p st ->
  exists x', udp_remove (Some p) x = Ok x' /\ holds_socks (remove_spec p st) x'.
Proof.
  intros Hst Hx Hh. destruct (held_block st x p Hx Hh) as (b&Hb&Hin). pose proof (sock_names st Hst) as (Hna&_&Hd&Hdu&_). destruct Hx as [Hl Hfr He Hp].
  destruct (unlinked_ok x _ p b Hl Hna Hb) as (x1&Hrun&Hl1&Ht1&Hp1&Hs1&Hm1). unfold udp_remove. rewrite Hrun. cbn [rbind]. unfold udp_pcb_free.
  pose proof (Hs1 p) as Hsp. rewrite Hb in Hsp. destruct (udp_mem x1 !! p) as [b1|] eqn:Hb1; [|done].
  rewrite (u_assign_ok _ _ _ _ Hb1). cbn [rbind]. eexists. split; [reflexivity|].
  assert (Hpf : p ∉ free_blocks st) by (unfold held_by in Hh; rewrite fmap_app, elem_of_app in Hh; destruct Hh as [Hh|Hh]; [apply (Hd p Hh)|apply (Hdu p Hh)]).
  split; cbn [remove_spec active unbound free_blocks last_port set_tab_udp_pcb set_udp_mem udp_mem udp_pcbs tab_udp_pcb udp_port].
  - rewrite filter_names. apply linked_insert_ne; [|done]. rewrite list_elem_of_filter. tauto.
  - split; [done|]. rewrite Ht1. eexists. rewrite lookup_insert_eq. split; [reflexivity|]. apply linked_insert_ne; [done|].
    eapply linked_ext; [|exact Hfr]. intros q Hq. rewrite Hm1; [done|]. intros Hqa. by apply (proj2 (Hd q Hqa)).
  - intros y Hy. assert (Hy' : y ∈ active st ++ unbound st /\ y.1 <> p).
    { rewrite elem_of_app, !list_elem_of_filter in Hy. rewrite elem_of_app. unfold is_other in Hy. tauto. }
    rewrite lookup_insert_ne by (intros Heq; apply (proj2 Hy'); congruence). destruct (He _ (proj1 Hy')) as (c&Hc&Hcy).
    pose proof (Hs1 y.1) as Hsy. rewrite Hc in Hsy. destruct (udp_mem x1 !! y.1) as [c1|]; [|done]. apply (inj Some) in Hsy. exists c1. split; [done|]. by rewrite Hsy.
  - congruence.
Qed.

(** ** Sequences of calls *)

Lemma call_refines c st x : socks_ok st -> holds_socks st x -> call_ok c st ->
  exists x', run_call c x = Ok ((spec_call c st).1, x') /\ holds_socks (spec_call c st).2 x'.
Proof.
  intros Hst Hx Hc. destruct c as [|p ip port|p ip port|p|p f arg|p i|p]; cbn [spec_call run_call] in *.
  - destruct (new_refines st x Hst Hx) as (x'&->&Hx'). cbn [rbind]. exists x'. by destruct (new_spec st).
  - destruct Hc as [Hh Hp]. destruct (bind_refines st x p ip port Hst Hx Hh Hp) as (x'&->&Hx'&_). cbn [rbind]. exists x'. by destruct (bind_spec _ _ _ st).
  - destruct (connect_refines st x p ip port Hst Hx Hc) as (x'&->&Hx'). cbn [rbind]. exists x'. by destruct (connect_spec p ip port st).
  - destruct (assign_sock st x p disconnected Hst Hx Hc) as (x'&Hrun&Hx'&_); [done|]. unfold udp_disconnect. unfold disconnected in Hrun. rewrite Hrun. by exists x'.
  - destruct (assign_sock st x p (set_recv f arg) Hst Hx Hc) as (x'&Hrun&Hx'&_); [done|]. unfold udp_recv. rewrite Hrun. by exists x'.
  - destruct (assign_sock st x p (set_netif_idx (default NETIF_NO_INDEX i)) Hst Hx Hc) as (x'&Hrun&Hx'&_); [done|]. unfold udp_bind_netif.
    change (match i with Some j => j | None => NETIF_NO_INDEX end) with (default NETIF_NO_INDEX i). rewrite Hrun. by exists x'.
  - destruct (remove_refines st x p Hst Hx Hc) as (x'&->&Hx'). by exists x'.
Qed.

Fixpoint run_calls (cs : list udp_call) (x : udp) : result (list answer * udp) :=
  match cs with
  | [] => Ok ([], x)
  | c :: cs => let* (a, x) := run_call c x in let* (l, x) := run_calls cs x in Ok (a :: l, x)
  end.

Fixpoint spec_calls (cs : list udp_call) (st : socks) : list answer * socks :=
  match cs with
  | [] => ([], st)
  | c :: cs => let '(a, st) := spec_call c st in let '(l, st) := spec_calls cs st in (a :: l, st)
  end.

Fixpoint calls_ok (cs : list udp_call) (st : socks) : Prop :=
  match cs with
  | [] => True
  | c :: cs => call_ok c st /\ calls_ok cs (spec_call c st).2
  end.

Lemma calls_refine cs st x : socks_ok st -> holds_socks st x -> calls_ok cs st ->
  exists x', run_calls cs x = Ok ((spec_calls cs st).1, x') /\ holds_socks (spec_calls cs st).2 x' /\ socks_ok (spec_calls cs st).2.
Proof.
  revert st x. induction cs as [|c cs IH]; intros st x Hst Hx Hok; [by exists x|]. destruct Hok as [Hc Hok]. cbn [run_calls spec_calls].
  destruct (call_refines c st x Hst Hx Hc) as (x1&->&Hx1). pose proof (call_keeps c st Hst Hc) as Hst1. cbn [rbind].
  destruct (spec_call c st) as [a st1]. cbn [fst snd] in *. destruct (IH st1 x1 Hst1 Hx1 Hok) as (x2&->&Hx2&Hst2). cbn [rbind]. exists x2.
  by destruct (spec_calls cs st1).
Qed.

(** The start: the pool filled, nothing bound. *)
Definition udp_start : udp :=
  mk_udp (list_to_map ((fun i => (i, mk_udp_pcb 0 0 0 0 0 0 (if i =? 4 then None else Some (i + 1)) 0 0 0 None 0)) <$> [1; 2; 3; 4]))
    None (Some 1) UDP_LOCAL_PORT_RANGE_START.
Definition no_socks : socks := mk_socks [] [] [1; 2; 3; 4] UDP_LOCAL_PORT_RANGE_START.

Lemma udp_start_ok : socks_ok no_socks /\ holds_socks no_socks udp_start.
Proof.
  split.
  - split; cbn [no_socks active unbound free_blocks last_port app fmap list_fmap]; try done; [by apply (bool_decide_unpack _)|..].
    intros y z ?%not_elem_of_nil. done.
  - split; [done| |by intros y ?%not_elem_of_nil|done]. vm_compute. repeat (split; [reflexivity|eexists; split; [reflexivity|]]). reflexivity.
Qed.
