(* ===== verification/UdpInput.v ===== *)
(** * Datagrams that come in

    What [udp_input] of [src/lib/lwip/src/core/udp.c] does with a packet, on every
    branch: which control block gets it, when it is dropped and when the sender is
    told that there is none. *)

From stdpp Require Import base numbers decidable gmap gmultiset list.
From Stdlib Require Import ZArith Lia Bool.
From S2P Require Import Prelude Linked LwipMem Pbuf PbufChain PbufPool PbufProps OnesComp InetChksum InetChksumProps PbufView Ip4Addr Ethernet Ip4 Icmp EtharpOps PbufOwn Below BelowIcmp Ip4ReassSpec Udp UdpBlocks.
Open Scope Z_scope.

(** ** Which control block *)

Section select.
Context (n : netif) (src dest sport dport : Z).

Definition broadcast_to : bool := isbroadcast dest n.

(** The local end: the port, the interface and the address. *)
Definition local_matches (b : udp_pcb) : bool :=
  (local_port b =? dport) && ((netif_idx b =? NETIF_NO_INDEX) || (netif_idx b =? netif_get_index n)) &&
  (if broadcast_to then ip4_addr_isany (local_ip b) || (dest =? IPADDR_BROADCAST) || ip4_addr_net_eq (local_ip b) dest (netmask n)
   else ip4_addr_isany (local_ip b) || (local_ip b =? dest)).

(** Both ends. *)
Definition full_match (y : Z * udp_pcb) : bool :=
  local_matches y.2 && ((remote_port y.2 =? sport) && (ip4_addr_isany (remote_ip y.2) || (remote_ip y.2 =? src))).

(** A control block without a remote end, and the better one of two for a packet to
    everybody. *)
Definition half_match (y : Z * udp_pcb) : bool := local_matches y.2 && (Z.land (u_flags y.2) UDP_FLAGS_CONNECTED =? 0).

Definition better (u : option (Z * udp_pcb)) (y : Z * udp_pcb) : option (Z * udp_pcb) :=
  if negb (half_match y) then u
  else
    match u with
    | None => Some y
    | Some v =>
        if (broadcast_to && (dest =? IPADDR_BROADCAST)) && (negb (local_ip v.2 =? ip_addr n) && (local_ip y.2 =? ip_addr n))
        then Some y else u
    end.

(** The control block that gets the datagram, and the list afterwards. *)
Definition select (l : list (Z * udp_pcb)) : option (Z * udp_pcb) * list (Z * udp_pcb) :=
  match find full_match l with
  | Some y => (Some y, y :: filter (is_other y.1) l)
  | None => (foldl better None l, l)
  end.
End select.

Section code.
Context {X H : Type} `{MemHeap H} `{!Part udp X}.
Context (nif : Z -> netif) (inp src dest sport dport : Z).
Implicit Types (s : ip4 X H) (st : socks).

Let n := nif inp.

Definition put_udp (x : udp) s : ip4 X H := set_around (set_part x (around s)) s.

Lemma us_put x s : us (put_udp x s) = x.
Proof. unfold us, put_udp. cbn. apply part_set. Qed.

Lemma on_udp_ok f s x : f (us s) = Ok x -> on_udp f s = Ok (put_udp x s).
Proof. unfold on_udp. by intros ->. Qed.

Lemma put_put x y s : put_udp y (put_udp x s) = put_udp y s.
Proof. unfold put_udp. cbn. by rewrite set_part_set. Qed.

(** The packet being dealt with. *)
Definition current s : Prop := current_netif (ip_data s) = Some inp /\ current_input_netif (ip_data s) = Some inp /\
  current_iphdr_src (ip_data s) = src /\ current_iphdr_dest (ip_data s) = dest.

Lemma local_match_ok s b : current s -> (local_port b =? dport) = true ->
  udp_input_local_match nif b inp (isbroadcast dest n) s = Ok (local_matches n dest dport b).
Proof.
  intros (Hc&Hci&Hs&Hd) Hp. unfold udp_input_local_match, local_matches. rewrite Hp, Hd, Hci. cbn [andb]. fold n.
  destruct (netif_idx b =? NETIF_NO_INDEX); cbn [negb orb not_null rbind]; fold n.
  - unfold broadcast_to. by destruct (isbroadcast dest n).
  - destruct (netif_idx b =? netif_get_index n); cbn [negb andb]; [|done]. unfold broadcast_to. by destruct (isbroadcast dest n).
Qed.

Let best l := foldl (better n dest dport) None l.
Let full := full_match n src dest sport dport.

Lemma best_in l v : best l = Some v -> v ∈ l.
Proof.
  unfold best. induction l as [|y l IH] using rev_ind; [done|]. rewrite foldl_snoc, elem_of_app, list_elem_of_singleton.
  unfold better at 1. destruct (negb (half_match n dest dport y)); [auto|]. destruct (foldl _ None l) as [u|].
  - destruct (_ && _); [|auto]. intros [= <-]. by right.
  - intros [= <-]. by right.
Qed.

Lemma better_ok s st l1 p b : holds_socks st (us s) -> current s -> (forall y, y ∈ l1 -> y ∈ active st) ->
  local_matches n dest dport b = true ->
  (if Z.land (u_flags b) UDP_FLAGS_CONNECTED =? 0 then better_uncon nif b p (fst <$> best l1) inp (isbroadcast dest n) s else Ok (fst <$> best l1)) =
  Ok (fst <$> best (l1 ++ [(p, sock_of b)])).
Proof.
  intros Hst (_&_&_&Hd) Hsub Hm. unfold best at 3. rewrite foldl_snoc. fold (best l1). unfold better, half_match. cbn [snd].
  change (local_matches n dest dport (sock_of b)) with (local_matches n dest dport b). rewrite Hm. cbn [andb].
  change (u_flags (sock_of b)) with (u_flags b). destruct (Z.land (u_flags b) UDP_FLAGS_CONNECTED =? 0); cbn [negb]; [|done].
  unfold better_uncon. destruct (best l1) as [[u c]|] eqn:Hb; cbn [fmap option_fmap option_map fst snd]; [|done].
  rewrite Hd. unfold broadcast_to. destruct (isbroadcast dest n && (dest =? IPADDR_BROADCAST)); cbn [andb]; [|done].
  destruct (held_active st (us s) Hst (u, c)) as (ub&Hu&Hc); [by apply Hsub, best_in|]. cbn in Hu, Hc. rewrite (u_deref_ok _ _ _ Hu). cbn [rbind]. subst c.
  change (local_ip (sock_of ub)) with (local_ip ub). change (local_ip (sock_of b)) with (local_ip b). fold n. by destruct (_ && _).
Qed.

Lemma find_skip {A} (f : A -> bool) l1 l2 : forallb (fun y => negb (f y)) l1 = true -> find f (l1 ++ l2) = find f l2.
Proof. induction l1 as [|y l1 IH]; [done|]. cbn. destruct (f y); [done|]. auto. Qed.

Lemma filter_out p c l1 l2 : NoDup (l1 ++ (p, c) :: l2).*1 -> filter (is_other p) (l1 ++ (p, c) :: l2) = l1 ++ l2.
Proof.
  rewrite fmap_app, fmap_cons. intros Hn. apply NoDup_app in Hn as (_&Hd&Hn). apply NoDup_cons in Hn as [Hn _].
  rewrite filter_app, filter_cons, decide_False by (unfold is_other; cbn; tauto).
  rewrite !filter_others; [done|done|]. intros Hin. apply (Hd p Hin). by left.
Qed.

(** Moving a control block to the front. *)
Lemma to_front_ok st x l1 k ck p b l2 bk : socks_ok st -> holds_socks st x -> active st = (l1 ++ [(k, ck)]) ++ (p, sock_of b) :: l2 ->
  udp_mem x !! k = Some bk -> udp_mem x !! p = Some b ->
  let x1 := set_udp_mem (<[k := set_u_next (u_next b) bk]> (udp_mem x)) x in
  let x2 := set_udp_mem (<[p := set_u_next (udp_pcbs x1) b]> (udp_mem x1)) x1 in
  p <> k /\ holds_socks (mk_socks ((p, sock_of b) :: (l1 ++ [(k, ck)]) ++ l2) (unbound st) (free_blocks st) (last_port st)) (set_udp_pcbs (Some p) x2).
Proof.
  intros Hst Hx Ha Hk Hp x1 x2. pose proof (sock_names st Hst) as (Hna&_&Hd&Hdu&_). destruct Hx as [Hl Hfr He Hport]. rewrite Ha in Hl, Hna.
  rewrite <- app_assoc in Hl, Hna. cbn [app] in Hl, Hna. rewrite fmap_app, !fmap_cons in Hl, Hna. cbn [fst] in Hl, Hna.
  assert (Hpk : p <> k) by (apply NoDup_app in Hna as (_&_&Hna); apply NoDup_cons in Hna as [Hna _]; set_solver). split; [done|].
  assert (Hin : forall q, q ∈ l1.*1 ++ k :: p :: l2.*1 -> q ∈ (active st).*1).
  { intros q Hq. rewrite Ha, <- app_assoc, fmap_app. cbn [app]. rewrite !fmap_cons. exact Hq. }
  assert (Hfree : forall q, q ∈ l1.*1 ++ k :: p :: l2.*1 -> q ∉ free_blocks st) by (intros q Hq; apply (Hd q (Hin q Hq))).
  pose proof (linked_skip u_next _ _ _ _ _ _ bk b (set_u_next (u_next b) bk) Hl Hk Hp Hna eq_refl) as Hl'.
  assert (Hp' : p ∉ l1.*1 ++ k :: l2.*1).
  { apply NoDup_app in Hna as (_&Hd1&Hna). apply NoDup_cons in Hna as [Hk' Hna]. apply NoDup_cons in Hna as [Hp2 _].
    rewrite elem_of_app, elem_of_cons. intros [Hi|[->|Hi]]; [apply (Hd1 p Hi); set_solver|done|done]. }
  split; cbn [active unbound free_blocks last_port set_udp_pcbs udp_pcbs udp_mem tab_udp_pcb udp_port].
  - rewrite fmap_cons, fmap_app, fmap_app. cbn [fst fmap list_fmap]. rewrite <- app_assoc. cbn [app]. split; [done|].
    exists (set_u_next (udp_pcbs x) b). split; [apply lookup_insert_eq|]. cbn [set_u_next u_next]. by apply linked_insert_ne.
  - apply linked_insert_ne; [apply Hfree; set_solver|]. apply linked_insert_ne; [apply Hfree; set_solver|done].
  - intros y Hy. assert (Hy' : y ∈ active st ++ unbound st) by (rewrite Ha; set_solver). destruct (He y Hy') as (c&Hc&Hcy).
    cbn [x2 x1 set_udp_mem udp_mem]. destruct (decide (y.1 = p)) as [Heq|Hne].
    + rewrite Heq in *. rewrite lookup_insert_eq. eexists. split; [reflexivity|]. assert (c = b) as -> by congruence. done.
    + rewrite lookup_insert_ne by congruence. destruct (decide (y.1 = k)) as [Heq|Hne'].
      * rewrite Heq in *. rewrite lookup_insert_eq. eexists. split; [reflexivity|]. assert (c = bk) as -> by congruence. done.
      * rewrite lookup_insert_ne by congruence. by exists c.
  - done.
Qed.

Lemma match_loop_ok st s l2 : forall l1 fuel, socks_ok st -> holds_socks st (us s) -> current s -> active st = l1 ++ l2 ->
  forallb (fun y => negb (full y)) l1 = true -> (length l2 < fuel)%nat ->
  let '(y, l) := select n src dest sport dport (active st) in
  exists x', match_loop nif fuel sport dport inp (isbroadcast dest n) (head l2.*1) (last l1.*1) (fst <$> best l1) s = Ok (fst <$> y, put_udp x' s) /\
    holds_socks (mk_socks l (unbound st) (free_blocks st) (last_port st)) x'.
Proof.
  induction l2 as [|[p c] l2 IH]; intros l1 [|fuel] Hst Hx Hcur Ha Hno Hf; cbn in Hf; try lia; cbn [match_loop].
  - unfold select. rewrite Ha, find_skip by done. cbn. rewrite app_nil_r in *. exists (us s). split; [|rewrite <- Ha; by destruct st].
    unfold put_udp, us. rewrite set_part_same. by destruct s.
  - assert (Hin : (p, c) ∈ active st) by (rewrite Ha, elem_of_app; right; by left).
    destruct (held_active st (us s) Hx _ Hin) as (b&Hb&Hc). cbn [fst snd] in Hb, Hc. subst c. cbn [fmap list_fmap head fst]. rewrite (u_deref_ok _ _ _ Hb). cbn [rbind].
    assert (Hm : (if local_port b =? dport then udp_input_local_match nif b inp (isbroadcast dest n) s else Ok false) = Ok (local_matches n dest dport b)).
    { destruct (local_port b =? dport) eqn:Hp; [by apply local_match_ok|]. unfold local_matches. by rewrite Hp. }
    rewrite Hm. cbn [rbind].
    assert (Hnext : u_next b = head l2.*1).
    { pose proof (hs_list _ _ Hx) as Hl. rewrite Ha, fmap_app, fmap_cons in Hl. apply linked_suffix in Hl. cbn [fst] in Hl.
      destruct Hl as [_ (b'&Hb'&Hl)]. assert (b' = b) as -> by congruence. by apply linked_starts in Hl. }
    assert (Hgo : full (p, sock_of b) = false -> let '(y, l) := select n src dest sport dport (active st) in
      exists x', match_loop nif fuel sport dport inp (isbroadcast dest n) (u_next b) (Some p) (fst <$> best (l1 ++ [(p, sock_of b)])) s = Ok (fst <$> y, put_udp x' s) /\
        holds_socks (mk_socks l (unbound st) (free_blocks st) (last_port st)) x').
    { intros Hfull. specialize (IH (l1 ++ [(p, sock_of b)]) fuel Hst Hx Hcur). rewrite <- app_assoc, fmap_app in IH. cbn [app fmap list_fmap fst] in IH. rewrite last_snoc in IH.
      rewrite Hnext. apply IH; [done| |lia]. rewrite forallb_app, Hno. cbn. by rewrite Hfull. }
    assert (Hfm : full (p, sock_of b) = local_matches n dest dport b && ((remote_port b =? sport) && (ip4_addr_isany (remote_ip b) || (remote_ip b =? src)))) by done.
    destruct (local_matches n dest dport b) eqn:Hlm; cbn [andb] in Hfm.
    + rewrite (better_ok s st l1 p b) by (done || (intros y Hy; rewrite Ha, elem_of_app; by left)). cbn [rbind].
      rewrite (proj1 (proj2 (proj2 Hcur))). rewrite <- Hfm. destruct (full (p, sock_of b)) eqn:Hfull; [|by apply Hgo]. clear Hgo IH.
      pose proof (sock_names st Hst) as (Hna&_). unfold select. rewrite Ha, find_skip by done. cbn [find].
      change (full_match n src dest sport dport (p, sock_of b)) with (full (p, sock_of b)). rewrite Hfull. cbn [fst].
      rewrite Ha in Hna. rewrite filter_out by done. destruct l1 as [|[k ck] l1] using rev_ind.
      * cbn [fmap list_fmap last app]. exists (us s). split; [unfold put_udp, us; rewrite set_part_same; by destruct s|]. cbn [app] in Ha. rewrite <- Ha. by destruct st.
      * clear IHl1. rewrite fmap_app. cbn [fmap list_fmap fst]. rewrite last_snoc.
        destruct (held_active st (us s) Hx (k, ck)) as (bk&Hk&_); [rewrite Ha; set_solver|]. cbn [fst] in Hk.
        destruct (to_front_ok st (us s) l1 k ck p b l2 bk Hst Hx Ha Hk Hb) as [Hpk Hx'].
        rewrite (on_udp_ok _ _ _ (u_assign_ok _ _ _ _ Hk)). cbn [rbind]. rewrite us_put.
        erewrite on_udp_ok; [|rewrite us_put; apply u_assign_ok; cbn [set_udp_mem udp_mem]; rewrite lookup_insert_ne by congruence; exact Hb]. cbn [rbind].
        erewrite on_udp_ok; [|rewrite us_put; reflexivity]. cbn [rbind]. eexists. split; [by rewrite !put_put|exact Hx'].
    + assert (Hfull : full (p, sock_of b) = false) by done. replace (best l1) with (best (l1 ++ [(p, sock_of b)])); [by apply Hgo|].
      unfold best. rewrite foldl_snoc. unfold better, half_match. cbn [snd]. change (local_matches n dest dport (sock_of b)) with (local_matches n dest dport b). by rewrite Hlm.
Qed.
End code.

(** ** Which one is chosen *)

Section chosen.
Context (n : netif) (src dest sport dport : Z).
Let full := full_match n src dest sport dport.
Let half := half_match n dest dport.

Lemma best_some l y : half y = true -> y ∈ l -> foldl (better n dest dport) None l <> None.
Proof.
  intros Hh. induction l as [|z l IH] using rev_ind; [by intros ?%not_elem_of_nil|]. rewrite foldl_snoc, elem_of_app, list_elem_of_singleton.
  unfold better at 1. intros [Hin| ->].
  - specialize (IH Hin). destruct (negb _); [done|]. destruct (foldl _ None l); [|done]. by destruct (_ && _).
  - fold (half z). rewrite Hh. cbn [negb]. destruct (foldl _ None l); [|done]. by destruct (_ && _).
Qed.

Lemma best_half l y : foldl (better n dest dport) None l = Some y -> y ∈ l /\ half y = true.
Proof.
  induction l as [|z l IH] using rev_ind; [done|]. rewrite foldl_snoc, elem_of_app, list_elem_of_singleton.
  unfold better at 1. fold (half z). destruct (half z) eqn:Hz; cbn [negb]; [|intros Hf; destruct (IH Hf); auto].
  destruct (foldl _ None l) as [v|].
  - destruct (_ && _); intros [= <-]; [auto|]. destruct (IH eq_refl). auto.
  - intros [= <-]. auto.
Qed.

(** The choice: a control block both of whose ends match, else one without a remote
    end; none only if there is no such control block. *)
Lemma select_sound l :
  match (select n src dest sport dport l).1 with
  | Some y => y ∈ l /\ (full y = true \/ (half y = true /\ forall z, z ∈ l -> full z = false))
  | None => forall z, z ∈ l -> full z = false /\ half z = false
  end.
Proof.
  unfold select. fold full. destruct (find full l) as [y|] eqn:Hf; cbn [fst].
  - apply List.find_some in Hf as [Hin Hy]. split; [by apply list_elem_of_In|by left].
  - assert (Hno : forall z, z ∈ l -> full z = false) by (intros z Hz; apply (List.find_none _ _ Hf), list_elem_of_In, Hz).
    destruct (foldl _ None l) as [y|] eqn:Hb.
    + destruct (best_half l y Hb). auto.
    + intros z Hz. split; [by apply Hno|]. destruct (half z) eqn:Hh; [|done]. by destruct (best_some l z Hh Hz).
Qed.

Lemma select_perm l : NoDup l.*1 -> (select n src dest sport dport l).2 ≡ₚ l.
Proof.
  intros Hn. unfold select. fold full. destruct (find full l) as [[q b]|] eqn:Hf; cbn [snd fst]; [|done].
  apply List.find_some in Hf as [Hin _]. symmetry. apply taken_out; [done|by apply list_elem_of_In].
Qed.
End chosen.

(** The order of the list does not matter for the invariant. *)
Lemma reorder_ok st l : socks_ok st -> l ≡ₚ active st -> socks_ok (mk_socks l (unbound st) (free_blocks st) (last_port st)).
Proof.
  intros [Hn Hp Hb Hu Ha Hl] Hperm. split; cbn [active unbound free_blocks last_port]; try done.
  - by rewrite Hperm.
  - by rewrite Hperm.
  - by rewrite Hperm.
  - intros y z. rewrite Hperm. apply Ha.
Qed.

(** ** The packet *)

Section packet.
Context {X H : Type} `{OutputLaws X H}.
Implicit Types (t : lwip H) (s : ip4 X H) (r : gmultiset Z) (K : gmap Z (Z * list (list Z))).

Lemma kept_packet K r t p o cs : below K r t -> K !! p = Some (o, cs) -> exists l, packet t (Some p) l cs.
Proof.
  intros Hb HK. destruct (below_owned K r t Hb) as (HL&e&Ho&_).
  destruct (own_contents K _ t p o cs Ho HK) as (b&l&c&cs'&bs&_&_&_&_&_&_&_&_&_&_&_&_&Hpk). by exists (p :: l).
Qed.

(** Forced or not, room behind the structure is room. *)
Lemma force_same t p b n : pbufs t !! p = Some b -> contiguous_pbuf b -> 0 <= n ->
  pbuf_header_force (Some p) n t = pbuf_add_header (Some p) n t.
Proof.
  intros Hb Hc Hn. unfold pbuf_header_force, pbuf_header_impl, pbuf_add_header, pbuf_add_header_impl.
  destruct (Z.ltb_spec n 0); [lia|]. destruct (0xffff <? n); [done|]. destruct (n =? 0); [done|]. rewrite (deref_ok _ _ _ Hb). cbn [rbind].
  destruct (_ <? _); [done|]. destruct (Z.eqb_spec (Z.land (type_internal b) PBUF_TYPE_FLAG_STRUCT_DATA_CONTIGUOUS) 0); [by destruct Hc|done].
Qed.

(** Back to a header in front of what is known. *)
Lemma kept_header_force K r t p o c cs n : below K r t -> K !! p = Some (o, c :: cs) -> 0 < n <= o ->
  Z.of_nat (length (concat (c :: cs))) + n < 65536 ->
  exists t' b, pbuf_header_force (Some p) n t = Ok (0, t') /\ areas t' = areas t /\ below (delete p K) r t' /\
    pbufs t' !! p = Some b /\ payload b = Some (p, o - n) /\ span t' p (o - n) (n + Z.of_nat (length c)) /\ 0 <= tot_len b.
Proof.
  intros Hb HK Hn Hmax. destruct (below_owned K r t Hb) as (HL&e&Ho&_).
  destruct (own_contents K _ t p o _ Ho HK) as (b&l&c'&cs'&bs&[= <- <-]&Hbp&Hc&Hpay&Ha&Ho0&Hle&_&Hlen&Htot&_&_).
  assert (Hpr : p ∈ r) by (apply (below_in K r t p Hb); by eexists). cbn [concat] in Htot, Hmax. rewrite length_app in Htot, Hmax.
  rewrite (force_same t p b n Hbp Hc) by lia.
  assert (Hrun : pbuf_add_header (Some p) n t = Ok (0, set_pbufs (<[p := with_header n b p o]> (pbufs t)) t)) by (apply add_header_ok; (done || lia)).
  destruct (below_add_header (delete p K) r t p n (below_forget K r t p Hb Hpr) Hpr (lookup_delete_eq K p) ltac:(lia))
    as [Hx|(b'&o'&bs'&Hbp'&_&Hpay'&_&_&_&_&_&Hx&Hb')]; [rewrite Hrun in Hx; injection Hx as Hx _; done|].
  assert (b' = b) as -> by congruence. assert (o' = o) as -> by congruence. eexists _, (with_header n b p o).
  split; [exact Hrun|]. split; [done|]. split; [exact Hb'|]. split; [apply lookup_insert_eq|]. split; [done|]. split.
  - exists bs. split; [done|]. lia.
  - cbn. lia.
Qed.
End packet.

(** ** What becomes of the packet *)

Inductive verdict : Type :=
| Dropped
| Refused
| Given (pcb f arg : Z).

Section verdict.
Context (n : netif) (src dest : Z).

(** The fields of the header and the checksum. *)
Definition sport_of (c : list Z) : Z := lwip_htons (header_field c 0 2).
Definition dport_of (c : list Z) : Z := lwip_htons (header_field c 2 2).

Definition damaged (c : list Z) (cs : list (list Z)) : bool :=
  negb (header_field c 6 2 =? 0) &&
  negb (bool_decide (rfc1071 (pseudo_header IP_PROTO_UDP (Z.of_nat (length (concat (c :: cs)))) src dest ++ concat (c :: cs)) = [0; 0])).

Definition chosen (c : list Z) (l : list (Z * udp_pcb)) : option (Z * udp_pcb) * list (Z * udp_pcb) :=
  if Z.of_nat (length c) <? UDP_HLEN then (None, l) else select n src dest (sport_of c) (dport_of c) l.

Definition verdict_on (c : list Z) (cs : list (list Z)) (l : list (Z * udp_pcb)) : verdict :=
  if Z.of_nat (length c) <? UDP_HLEN then Dropped
  else
    match (chosen c l).1 with
    | Some (q, b) =>
        if damaged c cs then Dropped
        else match recv b with Some f => Given q f (recv_arg b) | None => Dropped end
    | None =>
        if negb (ip_addr n =? dest) || damaged c cs || isbroadcast dest n || ip4_addr_ismulticast dest then Dropped else Refused
    end.
End verdict.

Section input.
Context {X H : Type} `{OutputLaws X H} `{!UdpUsers X H, !Part udp X}.
Context (base : Z -> Z) (nif : Z -> netif) (netif_default : option Z).
Implicit Types (t : lwip H) (s : ip4 X H) (r : gmultiset Z) (K : gmap Z (Z * list (list Z))) (st : socks).

(** A datagram as IP hands it over: the packet [p] is ours, its bytes are known and
    the IP header is in front of them. *)
Record arriving K r st (p inp src dest o : Z) (c : list Z) (cs : list (list Z)) s : Prop := {
  ar_below : below K ({[+ p +]} ⊎ r) (stack s);
  ar_known : K !! p = Some (o, c :: cs);
  ar_bytes : Forall bytes_ok (c :: cs);
  ar_socks : socks_ok st;
  ar_holds : holds_socks st (us s);
  ar_current : current inp src dest s;
  ar_addrs : 0 <= src < 2 ^ 32 /\ 0 <= dest < 2 ^ 32;
  ar_header : 20 <= current_ip_header_tot_len (ip_data s) <= o;
  ar_total : Z.of_nat (length (concat (c :: cs))) + current_ip_header_tot_len (ip_data s) < 65536
}.

Lemma wrong_ok K r t p o c cs src dest : below K r t -> K !! p = Some (o, c :: cs) -> Forall bytes_ok (c :: cs) ->
  0 <= src < 2 ^ 32 -> 0 <= dest < 2 ^ 32 ->
  (if negb (header_field c 6 2 =? 0) then
     let* b := deref t p in
     let* v := ip_chksum_pseudo base t (Some p) IP_PROTO_UDP (tot_len b) src dest in Ok (negb (v =? 0))
   else Ok false) = Ok (damaged src dest c cs).
Proof.
  intros Hb HK Hok Hs Hd. unfold damaged. destruct (header_field c 6 2 =? 0); cbn [negb andb]; [done|].
  destruct (kept_head K r t p o c cs Hb HK) as (b&bs&Hbp&_&_&_&_&_&Htot&Hmax&_). rewrite (deref_ok _ _ _ Hbp). cbn [rbind]. rewrite Htot in *.
  destruct (kept_packet K r t p o _ Hb HK) as (l&Hpk).
  destruct (chain_pseudo base t (Some p) l (c :: cs) IP_PROTO_UDP (Z.of_nat (length (concat (c :: cs)))) src dest Hpk Hok) as (v&->&Hv&Hc); try done; try lia.
  cbn [rbind]. f_equal. f_equal.
  assert (Hall : bytes_ok (pseudo_header IP_PROTO_UDP (Z.of_nat (length (concat (c :: cs)))) src dest ++ concat (c :: cs)))
    by (apply Forall_app; split; [apply pseudo_header_ok; (done || lia)|by apply Forall_concat]).
  rewrite <- (rfc1071_word _ v Hall Hv Hc).
  destruct (Z.eqb_spec v 0) as [->|Hne]; [done|]. symmetry. apply bool_decide_eq_false. intros Heq.
  assert (Hv0 : le_val (le_bytes 2 v) = 0) by (by rewrite Heq). rewrite le_val_bytes in Hv0. change (2 ^ (8 * Z.of_nat 2)) with 65536 in Hv0.
  rewrite Z.mod_small in Hv0 by lia. done.
Qed.

(** The packet is freed, the control blocks stay. *)
Lemma drop_known K r s p : below K ({[+ p +]} ⊎ r) (stack s) ->
  exists s', drop_packet p s = Ok s' /\ below (delete p K) r (stack s') /\ same_vars s s'.
Proof.
  intros Hb. destruct (drop_ok (delete p K) r s p) as (t&->&Ht); [apply below_forget; [done|multiset_solver]|apply lookup_delete_eq|].
  by exists (set_stack t s).
Qed.

(** What the code has done: the packet is freed; the sender has been told, with the
    packet moved back to its IP header, and then it is freed; or the callback gets
    the data.  The control blocks are those of [st]. *)
Definition treated K r st (p src o : Z) (c : list Z) (cs : list (list Z)) s (v : verdict) (res : result (ip4 X H)) : Prop :=
  match v with
  | Dropped => exists s', res = Ok s' /\ below (delete p K) r (stack s') /\ holds_socks st (us s') /\ ip_data s' = ip_data s
  | Refused => exists s1 s2 s' b,
      pbufs (stack s1) !! p = Some b /\ payload b = Some (p, o - current_ip_header_tot_len (ip_data s)) /\ areas (stack s1) = areas (stack s) /\
      icmp_dest_unreach base nif netif_default p ICMP_DUR_PORT s1 = Ok s2 /\ drop_packet p s2 = Ok s' /\
      res = Ok s' /\ below (delete p K) r (stack s') /\ holds_socks st (us s') /\ ip_data s' = ip_data s
  | Given q f arg => exists s',
      res = recv_fn f arg q p src (sport_of c) s' /\ below (<[p := (o + UDP_HLEN, drop 8 c :: cs)]> K) ({[+ p +]} ⊎ r) (stack s') /\
      holds_socks st (us s') /\ ip_data s' = ip_data s
  end.

Lemma treated_drop K K1 r st p src o c cs s s1 : below K1 ({[+ p +]} ⊎ r) (stack s1) -> delete p K1 = delete p K ->
  holds_socks st (us s1) -> ip_data s1 = ip_data s -> treated K r st p src o c cs s Dropped (drop_packet p s1).
Proof.
  intros Hb HK Hst Hd. destruct (drop_known K1 r s1 p Hb) as (s'&->&Hb'&[Hip Har]). exists s'. rewrite HK in Hb'. split_and!; try done; [|congruence].
  unfold us. by rewrite Har.
Qed.

Definition handed (n : netif) (dest : Z) (y : option (Z * udp_pcb)) : verdict :=
  match y with
  | Some (q, b) => match recv b with Some f => Given q f (recv_arg b) | None => Dropped end
  | None => if isbroadcast dest n || ip4_addr_ismulticast dest then Dropped else Refused
  end.

Lemma deliver_ok K r st p inp src dest o c cs y s : arriving K r st p inp src dest o c cs s -> 8 <= Z.of_nat (length c) ->
  (forall z, y = Some z -> z ∈ active st) ->
  treated K r st p src o c cs s (handed (nif inp) dest y) (udp_deliver base nif netif_default p (fst <$> y) (sport_of c) (isbroadcast dest (nif inp)) s).
Proof.
  intros [Hb HK Hok Hso Hst (Hc&Hci&Hs&Hd) _ Hh Ht] Hl Hy. unfold udp_deliver. unfold on_stack_r at 1, UDP_HLEN at 1.
  destruct (kept_remove_header K _ (stack s) p o c cs 8 Hb HK ltac:(lia)) as (t1&->&Ha1&Hb1). cbn [rbind]. change (negb (0 =? 0)) with false. cbv iota.
  set (K1 := <[p := _]> K) in *. set (s1 := set_stack t1 s).
  assert (HK1 : delete p K1 = delete p K) by apply delete_insert_eq.
  destruct y as [[q b]|]; cbn [fmap option_fmap option_map fst handed].
  - destruct (held_active st (us s) Hst (q, b) (Hy _ eq_refl)) as (ub&Hub&Hbq). cbn [fst snd] in Hub, Hbq. change (us s1) with (us s).
    rewrite (u_deref_ok _ _ _ Hub). cbn [rbind]. rewrite <- Hbq. cbn [sock_of set_u_next recv recv_arg]. destruct (recv ub) as [f|].
    + exists s1. cbn [ip_data s1 set_stack stack]. rewrite Hs. by split_and!.
    + by apply (treated_drop K K1 r st p src o c cs s s1).
  - cbn [ip_data s1 set_stack]. rewrite Hd. destruct (isbroadcast dest (nif inp)); cbn [negb andb orb];
      [by apply (treated_drop K K1 r st p src o c cs s s1)|]. destruct (ip4_addr_ismulticast dest); cbn [negb];
      [by apply (treated_drop K K1 r st p src o c cs s s1)|].
    set (hl := current_ip_header_tot_len (ip_data s)) in *. unfold on_stack_r. cbn [stack s1 set_stack].
    destruct (kept_header_force K1 _ t1 p (o + 8) (drop 8 c) cs (hl + UDP_HLEN) Hb1) as (t2&b&->&Ha2&Hb2&Hbp&Hpay&Hsp&Htl); [apply lookup_insert_eq|unfold UDP_HLEN; lia| |].
    { cbn [concat] in *. rewrite length_app, length_drop in *. unfold UDP_HLEN. lia. }
    cbn [rbind]. rewrite HK1 in Hb2. replace (o + 8 - (hl + UDP_HLEN)) with (o - hl) in * by (unfold UDP_HLEN; lia). set (s2 := set_stack t2 (set_stack t1 s)).
    destruct (send_response_total base nif netif_default (delete p K) ({[+ p +]} ⊎ r) p ICMP_DUR ICMP_DUR_PORT s2) as (s3&Hrun&Hb3&[Hip3 Har3]); [done|multiset_solver| |].
    { exists b, (o - hl). split; [done|]. split; [done|]. split; [|done]. destruct Hsp as (bs&Hbs&Ho0&Hlb). exists bs. unfold UDP_HLEN in Hlb. split; [done|]. lia. }
    unfold icmp_dest_unreach. change (icmp_send_response base nif netif_default p ICMP_DUR ICMP_DUR_PORT (set_stack t2 s1) = Ok s3) in Hrun. rewrite Hrun. cbn [rbind].
    destruct (drop_known (delete p K) r s3 p Hb3) as (s4&Hdr&Hb4&[Hip4 Har4]). rewrite delete_delete_eq in Hb4.
    exists s2, s3, s4, b. split_and!; try done; [by rewrite <- Ha1, <- Ha2|unfold us; rewrite Har4, Har3; exact Hst|by rewrite Hip4, Hip3].
Qed.
(** The search in the state the datagram finds. *)
Lemma search_ok K r st p inp src dest o c cs s : arriving K r st p inp src dest o c cs s -> 8 <= Z.of_nat (length c) ->
  let '(y, l) := chosen (nif inp) src dest c (active st) in
  let st' := mk_socks l (unbound st) (free_blocks st) (last_port st) in
  exists x', match_loop nif (udp_fuel (us s)) (sport_of c) (dport_of c) inp (isbroadcast dest (nif inp)) (udp_pcbs (us s)) None None s =
      Ok (fst <$> y, put_udp x' s) /\ arriving K r st' p inp src dest o c cs (put_udp x' s) /\ forall z, y = Some z -> z ∈ l.
Proof.
  intros [Hb HK Hok Hso Hst Hcur Had Hh Ht] Hl. unfold chosen. rewrite (proj2 (Z.ltb_ge _ _)) by exact Hl.
  pose proof (match_loop_ok nif inp src dest (sport_of c) (dport_of c) st s (active st) [] (udp_fuel (us s)) Hso Hst Hcur eq_refl eq_refl) as Hm.
  pose proof (select_sound (nif inp) src dest (sport_of c) (dport_of c) (active st)) as Hs.
  pose proof (select_perm (nif inp) src dest (sport_of c) (dport_of c) (active st) (proj1 (sock_names st Hso))) as Hperm.
  destruct (select _ _ _ _ _ (active st)) as [y l]. cbn [fst snd] in Hs, Hperm. destruct Hm as (x'&Hrun&Hx').
  - by apply list_fuel.
  - exists x'. rewrite <- (linked_starts _ _ _ (hs_list _ _ Hst)) in Hrun. split; [exact Hrun|]. split.
    + split; try done; [by apply reorder_ok|by rewrite us_put].
    + intros z ->. destruct Hs as [Hin _]. by rewrite Hperm.
Qed.

Lemma input_ok K r st p inp src dest o c cs s : arriving K r st p inp src dest o c cs s ->
  let '(y, l) := chosen (nif inp) src dest c (active st) in
  treated K r (mk_socks l (unbound st) (free_blocks st) (last_port st)) p src o c cs s
    (verdict_on (nif inp) src dest c cs (active st)) (Udp.udp_input base nif netif_default p inp s).
Proof.
  intros Har. pose proof (ar_below _ _ _ _ _ _ _ _ _ _ _ Har) as Hb. pose proof (ar_known _ _ _ _ _ _ _ _ _ _ _ Har) as HK.
  destruct (ar_current _ _ _ _ _ _ _ _ _ _ _ Har) as (Hc&Hci&Hs&Hd). destruct (ar_addrs _ _ _ _ _ _ _ _ _ _ _ Har) as [Hsr Hdr].
  destruct (kept_head K _ (stack s) p o c cs Hb HK) as (b&bs&Hbp&Hpay&_&_&_&Hlen&_). unfold Udp.udp_input. rewrite (deref_ok _ _ _ Hbp). cbn [rbind]. rewrite Hlen.
  unfold verdict_on. destruct (Z.ltb_spec (Z.of_nat (length c)) UDP_HLEN) as [Hsm|Hl].
  - unfold chosen. rewrite (proj2 (Z.ltb_lt _ _)) by done. apply (treated_drop K K); try done. pose proof (ar_holds _ _ _ _ _ _ _ _ _ _ _ Har) as Hst. by destruct st.
  - unfold UDP_HLEN in Hl. rewrite Hpay, Hc, Hd. cbn [not_null rbind]. rewrite !(kept_ld K _ _ p o c cs) by (done || lia). cbn [rbind].
    change (lwip_htons (le_val (bytes_at c 0 2))) with (sport_of c). change (lwip_htons (le_val (bytes_at c 2 2))) with (dport_of c).
    pose proof (search_ok K r st p inp src dest o c cs s Har Hl) as Hm. destruct (chosen _ _ _ c (active st)) as [y l]. cbn [fst].
    destruct Hm as (x'&->&Har'&Hy). cbn [rbind]. set (s1 := put_udp x' s) in *. set (st' := mk_socks l _ _ _) in *.
    pose proof (deliver_ok K r st' p inp src dest o c cs y s1 Har' Hl Hy) as Hdel.
    pose proof (treated_drop K K r st' p src o c cs s s1 Hb eq_refl (ar_holds _ _ _ _ _ _ _ _ _ _ _ Har') eq_refl) as Hdrop.
    change (treated K r st' p src o c cs s1) with (treated K r st' p src o c cs s) in Hdel.
    pose proof (wrong_ok K _ (stack s1) p o c cs src dest Hb HK (ar_bytes _ _ _ _ _ _ _ _ _ _ _ Har) Hsr Hdr) as Hw.
    change (stack s1) with (stack s) in *. change (ip_data s1) with (ip_data s). rewrite Hd, Hs, (kept_ld K _ _ p o c cs) by (done || lia). cbn [rbind].
    change (le_val (bytes_at c 6 2)) with (header_field c 6 2). rewrite Hw. cbn [rbind].
    destruct y as [[q u]|]; cbn [fmap option_fmap option_map fst handed] in *.
    + destruct (damaged src dest c cs); [exact Hdrop|exact Hdel].
    + destruct (ip_addr (nif inp) =? dest); cbn [negb orb]; [|exact Hdrop]. destruct (damaged src dest c cs); cbn [orb]; [exact Hdrop|exact Hdel].
Qed.
End input.
