(* ===== verification/UdpSend.v ===== *)
(** * Datagrams that are sent

    What [udp_sendto_if_src] of [src/lib/lwip/src/core/udp.c] hands to IP when the
    packet has room for the UDP header: the header of RFC 768 in front of the data,
    with a checksum that the receiver finds right.  [UdpRoom] has the packets
    without room. *)

From stdpp Require Import base numbers decidable gmap gmultiset list.
From Stdlib Require Import ZArith Lia Bool.
From S2P Require Import Prelude Linked LwipMem Pbuf PbufChain PbufPool PbufProps OnesComp InetChksum InetChksumProps PbufView Ip4Addr Ethernet Ip4 Icmp Ip4Input Ip4Props IcmpProps EtharpOps PbufOwn Below BelowIcmp Ip4ReassSpec Udp UdpBlocks UdpInput.
Open Scope Z_scope.

(** ** The header *)

Definition be16 (v : Z) : list Z := [v / 256; v mod 256].

Definition udp_header (sport dport ln : Z) (sum : list Z) : list Z := be16 sport ++ be16 dport ++ be16 ln ++ sum.

(** The checksum over the pseudo header, the header and the data; zero, which means
    that there is none, is sent as its complement. *)
Definition udp_sum (sport dport src dest : Z) (data : list Z) : list Z :=
  let ln := 8 + Z.of_nat (length data) in
  let v := rfc1071 (pseudo_header IP_PROTO_UDP ln src dest ++ udp_header sport dport ln [0; 0] ++ data) in
  if bool_decide (v = [0; 0]) then [0xff; 0xff] else v.

Definition datagram (sport dport src dest : Z) (data : list Z) : list Z :=
  udp_header sport dport (8 + Z.of_nat (length data)) (udp_sum sport dport src dest data) ++ data.

(** The checksum of a control block: none if its flags say so. *)
Definition udp_check (flags sport dport src dest : Z) (data : list Z) : list Z :=
  if Z.land flags UDP_FLAGS_NOCHKSUM =? 0 then udp_sum sport dport src dest data else [0; 0].

Lemma length_check flags sport dport src dest data : length (udp_check flags sport dport src dest data) = 2%nat.
Proof. unfold udp_check, udp_sum. by destruct (_ =? 0); [destruct (bool_decide _)|]. Qed.

Lemma htons_bytes v : is_word v -> le_bytes 2 (lwip_htons v) = be16 v.
Proof.
  intros Hv. rewrite htons_arith by exact Hv. unfold is_word in Hv. unfold be16. cbn [le_val le_bytes].
  pose proof (Z.mod_pos_bound v 256 ltac:(lia)). pose proof (Z.div_lt_upper_bound v 256 256 ltac:(lia) ltac:(lia)). pose proof (Z.div_pos v 256 ltac:(lia) ltac:(lia)).
  f_equal; [|f_equal].
  - rewrite Z.mul_0_r, Z.add_0_r. rewrite (Z.mul_comm 256), Z.mod_add, Z.mod_small by lia. done.
  - rewrite Z.mul_0_r, Z.add_0_r. rewrite (Z.mul_comm 256 (v mod 256)), Z.div_add, Z.div_small, Z.add_0_l, Z.mod_mod by lia. done.
Qed.

Lemma htons_be16 v : is_word v -> lwip_htons (le_val (be16 v)) = v.
Proof.
  intros Hv. unfold is_word in Hv. unfold be16. cbn [le_val].
  pose proof (Z.mod_pos_bound v 256 ltac:(lia)). pose proof (Z.div_lt_upper_bound v 256 256 ltac:(lia) ltac:(lia)). pose proof (Z.div_pos v 256 ltac:(lia) ltac:(lia)).
  pose proof (Z.div_mod v 256 ltac:(lia)). rewrite Z.mul_0_r, Z.add_0_r, htons_arith by lia. cbn [le_val].
  set (a := v / 256) in *. set (b := v mod 256) in *.
  rewrite (Z.mul_comm 256 b), Z.div_add, Z.mod_add, Z.div_small, Z.mod_small by lia. lia.
Qed.

Lemma bytes_ok_be16 v : is_word v -> bytes_ok (be16 v).
Proof.
  intros Hv. unfold is_word in Hv. repeat constructor; try (apply Z.mod_pos_bound; lia); [apply Z.div_pos; lia|apply Z.div_lt_upper_bound; lia].
Qed.

Lemma bytes_ok_header sport dport ln sum : is_word sport -> is_word dport -> is_word ln -> bytes_ok sum -> bytes_ok (udp_header sport dport ln sum).
Proof. intros. unfold udp_header. repeat (apply Forall_app; split); try apply bytes_ok_be16; done. Qed.

(** ** The checksum is right *)

Lemma chksum_word bs : bytes_ok bs -> exists v, 0 <= v <= 65535 /\ congr (65535 - v) (le_val bs) /\ le_bytes 2 v = rfc1071 bs.
Proof.
  intros Hb. pose proof (le_val_nonneg bs Hb) as Hn. pose proof (Z.mod_pos_bound (le_val bs) 65535 ltac:(lia)) as Hm.
  pose proof (Z.div_mod (le_val bs) 65535 ltac:(lia)) as Hd.
  assert (Hex : exists v, 0 <= v <= 65535 /\ congr (65535 - v) (le_val bs)).
  { destruct (Z.eq_dec (le_val bs) 0) as [E|E]; [exists 65535; rewrite E; split; [lia|by apply congr_refl]|].
    destruct (Z.eq_dec (le_val bs mod 65535) 0) as [E'|E'].
    - exists 0. split; [lia|]. symmetry. apply (congr_mod _ _ (le_val bs / 65535 - 1)); lia.
    - exists (65535 - le_val bs mod 65535). split; [lia|]. symmetry. apply (congr_mod _ _ (le_val bs / 65535)); lia. }
  destruct Hex as (v&Hv&Hc). exists v. split; [done|]. split; [done|]. by apply rfc1071_word.
Qed.

(** All ones in place of zero do not change the sum. *)
Lemma stored_ones k c : Nat.even k = true -> (k + 2 <= length c)%nat -> slice k 2 c = [0; 0] ->
  congr 65535 (le_val c) -> congr (le_val (splice k [0xff; 0xff] c)) 65535.
Proof.
  intros Hk Hl Hz Hc. rewrite le_val_splice by (cbn; lia). change (length [0xff; 0xff]) with 2%nat. rewrite Hz.
  change (le_val [0; 0]) with 0. change (le_val [0xff; 0xff]) with 65535. rewrite Z.sub_0_r.
  pose proof (pow256_parity k) as Hp. rewrite <- Nat.negb_even, Hk in Hp. cbn [negb] in Hp.
  etrans; [apply congr_add; [symmetry; exact Hc|apply congr_mul; [exact Hp|apply congr_refl; lia]]|]. apply (congr_mod _ _ 1); lia.
Qed.

Section sum.
Context (sport dport src dest : Z) (data : list Z).
Hypothesis (Hsp : is_word sport) (Hdp : is_word dport) (Hdata : bytes_ok data).
Hypothesis Hlen : 8 + Z.of_nat (length data) < 65536.

Let ln := 8 + Z.of_nat (length data).
Let blank := pseudo_header IP_PROTO_UDP ln src dest ++ udp_header sport dport ln [0; 0] ++ data.

Lemma blank_ok : bytes_ok blank.
Proof.
  apply Forall_app. split; [apply pseudo_header_ok; (done || unfold ln; lia)|]. apply Forall_app. split; [|done].
  apply bytes_ok_header; try done; [unfold is_word, ln; lia|repeat constructor; lia].
Qed.

(** The word that is stored. *)
Lemma sum_stored v : 0 <= v <= 65535 -> congr (65535 - v) (le_val blank) ->
  le_bytes 2 (if v =? 0 then 0xffff else v) = udp_sum sport dport src dest data.
Proof.
  intros Hv Hc. unfold udp_sum. fold ln. fold blank. rewrite <- (rfc1071_word blank v blank_ok Hv Hc).
  destruct (Z.eqb_spec v 0) as [->|Hne]; [done|]. rewrite bool_decide_eq_false_2; [done|]. intros Heq.
  assert (Hv0 : le_val (le_bytes 2 v) = 0) by (by rewrite Heq). rewrite le_val_bytes, Z.mod_small in Hv0 by (cbn; lia). done.
Qed.

Lemma datagram_bytes : bytes_ok (datagram sport dport src dest data).
Proof.
  destruct (chksum_word blank blank_ok) as (v&Hv&Hc&_). unfold datagram. rewrite <- (sum_stored v Hv Hc).
  apply Forall_app. split; [|done]. apply bytes_ok_header; try done; [unfold is_word; lia|apply bytes_ok_le_bytes].
Qed.

Lemma datagram_sum : rfc1071 (pseudo_header IP_PROTO_UDP ln src dest ++ datagram sport dport src dest data) = [0; 0].
Proof.
  destruct (chksum_word blank blank_ok) as (v&Hv&Hc&_).
  assert (Hok : bytes_ok (pseudo_header IP_PROTO_UDP ln src dest ++ datagram sport dport src dest data)).
  { apply Forall_app. split; [apply pseudo_header_ok; (done || unfold ln; lia)|apply datagram_bytes]. }
  assert (Heq : pseudo_header IP_PROTO_UDP ln src dest ++ datagram sport dport src dest data =
                splice 18 (le_bytes 2 (if v =? 0 then 0xffff else v)) blank).
  { unfold datagram. fold ln. by rewrite <- (sum_stored v Hv Hc). }
  rewrite Heq in *. rewrite <- (rfc1071_word _ 0 Hok); [done|lia|]. symmetry. destruct (Z.eqb_spec v 0) as [->|Hne].
  - apply stored_ones; [done|cbn; lia|done|exact Hc].
  - apply stored_sum; [done|cbn; lia|done|done|exact Hc].
Qed.
End sum.

(** The receiver finds it right, and the ports in it. *)
Lemma not_damaged flags sport dport src dest c cs : is_word sport -> is_word dport -> is_addr src -> is_addr dest -> Forall bytes_ok (c :: cs) ->
  8 + Z.of_nat (length (concat (c :: cs))) < 65536 ->
  let h := udp_header sport dport (8 + Z.of_nat (length (concat (c :: cs)))) (udp_check flags sport dport src dest (concat (c :: cs))) ++ c in
  damaged src dest h cs = false /\ sport_of h = sport /\ dport_of h = dport.
Proof.
  intros Hsp Hdp Hs Hd Hb Hl h. assert (Hok : bytes_ok (concat (c :: cs))) by (by apply Forall_concat).
  split; [|split].
  - unfold h, udp_check in *. destruct (_ =? 0); [|done]. clear h. set (h := udp_header _ _ _ _ ++ c).
    assert (Hh : concat (h :: cs) = datagram sport dport src dest (concat (c :: cs))) by (unfold h, datagram; cbn [concat]; by rewrite <- !app_assoc).
    assert (Hn : length (concat (h :: cs)) = (8 + length (concat (c :: cs)))%nat).
    { rewrite Hh. unfold datagram. rewrite length_app. f_equal. unfold udp_header, udp_sum. by destruct (bool_decide _). }
    unfold damaged. rewrite Hn, Hh, Nat2Z.inj_add. change (Z.of_nat 8) with 8. rewrite datagram_sum by done. by rewrite andb_false_r.
  - unfold sport_of, header_field. change (bytes_at h 0 2) with (be16 sport). by apply htons_be16.
  - unfold dport_of, header_field. change (bytes_at h 2 2) with (be16 dport). by apply htons_be16.
Qed.

(** ** Writing it *)

Section write.
Context {X H : Type} `{OutputLaws X H}.
Implicit Types (t : lwip H) (s : ip4 X H) (r : gmultiset Z) (K : gmap Z (Z * list (list Z))).

(** Room in front of what is known. *)
Lemma kept_add_header K r t p o c cs n : below K r t -> K !! p = Some (o, c :: cs) -> 0 < n <= o ->
  Z.of_nat (length (concat (c :: cs))) + n < 65536 ->
  exists b h, pbufs t !! p = Some b /\ pbuf_add_header (Some p) n t = Ok (0, set_pbufs (<[p := with_header n b p o]> (pbufs t)) t) /\
    length h = Z.to_nat n /\ below (<[p := (o - n, (h ++ c) :: cs)]> K) r (set_pbufs (<[p := with_header n b p o]> (pbufs t)) t).
Proof.
  intros Hb HK Hn Hmax. destruct (below_owned K r t Hb) as (HL&e&Ho&_).
  destruct (own_contents K _ t p o _ Ho HK) as (b&l&c'&cs'&bs&[= <- <-]&Hbp&Hc&Hpay&Ha&Ho0&Hle&Hbs&Hlen&Htot&_&[_ _ _ _ Hcont]&Hpk).
  assert (Hpr : p ∈ r) by (apply (below_in K r t p Hb); by eexists). cbn [concat] in Htot, Hmax. rewrite length_app in Htot, Hmax.
  exists b, (bytes_at bs (o - n) n). split; [done|]. split; [apply add_header_ok; (done || lia)|].
  split; [unfold bytes_at; rewrite length_slice; lia|]. set (t1 := set_pbufs _ t).
  pose proof (linked_nodup _ _ _ (packet_chain _ _ _ _ Hpk)) as [Hpl _]%NoDup_cons.
  assert (Hpk1 : packet t1 (Some p) (p :: l) ((bytes_at bs (o - n) n ++ c) :: cs)).
  { destruct Hpk as [_ (b0&Hb0&_&_&_&_&Hrest)]. assert (b0 = b) as -> by congruence. split; [done|]. exists (with_header n b p o).
    assert (Hl1 : length (bytes_at bs (o - n) n ++ c) = (Z.to_nat n + length c)%nat) by (rewrite length_app; unfold bytes_at; rewrite length_slice; lia).
    cbn [with_header set_tot_len set_len set_payload len tot_len next payload concat]. rewrite (length_app _ (concat cs)), Hl1.
    split; [apply lookup_insert_eq|]. split; [lia|]. split; [lia|]. split; [lia|]. split.
    - exists p, (o - n), bs. split; [done|]. split; [done|]. split; [lia|]. split; [cbn; lia|]. cbn [with_header set_tot_len set_len set_payload len].
      rewrite <- Hbs. unfold bytes_at. replace (Z.to_nat o) with (Z.to_nat (o - n) + Z.to_nat n)%nat by lia. rewrite <- slice_split. f_equal; lia.
    - apply (packet_same t); [done| |done]. intros q Hq. cbn. rewrite lookup_insert_ne; [done|]. by intros ->. }
  apply (below_change K _ r _ t); [done|]. intros HL' e' Ho' He'. split.
  - destruct (own_add_header (delete p K) (e' ⊎ r) p n t) as [Hx|(b'&o'&bs'&Hbp'&_&Hpay'&_&_&_&_&_&_&Ho2)];
      [apply own_forget; [done|multiset_solver]|multiset_solver|apply lookup_delete_eq|lia| |].
    + rewrite (add_header_ok t p b p o n) in Hx by (done || lia). by injection Hx.
    + assert (b' = b) as -> by congruence. assert (o' = o) as -> by congruence. fold t1 in Ho2. rewrite <- insert_delete_eq.
      apply (own_keep _ _ t1 p (with_header n b p o) (o - n) (p :: l)); try done; [multiset_solver|apply lookup_insert_eq|].
      intros q bq Hq. cbn. destruct (decide (q = p)) as [->|Hne]; [rewrite lookup_insert_eq; by intros [= <-]|].
      rewrite lookup_insert_ne by done. apply Hcont; [by eexists|done].
  - intros q Hq. apply He'. destruct (decide (q = p)) as [->|]; [by eexists|]. by rewrite lookup_insert_ne in Hq.
Qed.

(** No room. *)
Lemma add_header_refused t p b a o n : pbufs t !! p = Some b -> contiguous_pbuf b -> payload b = Some (a, o) -> o < n -> 0 < n < 65536 ->
  pbuf_add_header (Some p) n t = Ok (1, t).
Proof.
  intros Hb Hcont Hpay Ho Hn. unfold pbuf_add_header, pbuf_add_header_impl.
  rewrite (proj2 (Z.ltb_ge 0xFFFF n)), (proj2 (Z.eqb_neq n 0)), (deref_ok _ _ _ Hb) by lia. cbn [rbind].
  destruct (_ <? wrap16 n); [done|].
  destruct (Z.eqb_spec (Z.land (type_internal b) PBUF_TYPE_FLAG_STRUCT_DATA_CONTIGUOUS) 0); [done|]. cbn [negb].
  rewrite Hpay. cbn [not_null rbind]. by rewrite (proj2 (Z.ltb_lt (o - n) 0)) by lia.
Qed.

Lemma eight_bytes (h : list Z) : length h = 8%nat -> exists a b c d e f g i, h = [a; b; c; d; e; f; g; i].
Proof. do 9 (destruct h as [|? h]; try discriminate). intros _. by eexists _, _, _, _, _, _, _, _. Qed.

Context (base : Z -> Z).

(** The header is written into any packet whose first buffer can be written to:
    [has t c] says that the first buffer of [q] has the bytes [c] in [t]. *)
Section any.
Context (q o : Z) (cs : list (list Z)) (has : lwip H -> list Z -> Prop).
Hypothesis has_packet : forall t c, has t c -> exists b l, pbufs t !! q = Some b /\ payload b = Some (q, o) /\
  tot_len b = Z.of_nat (length (concat (c :: cs))) /\ packet t (Some q) l (c :: cs).
Hypothesis has_store : forall t c off v, has t c -> 0 <= off -> (Z.to_nat off + length v <= length c)%nat ->
  exists t', st_bytes t (Some (q, o)) off v = Ok t' /\ pbufs t' = pbufs t /\ has t' (splice (Z.to_nat off) v c).

Lemma store_any s t c off v : has t c -> 0 <= off -> (Z.to_nat off + length v <= length c)%nat ->
  exists t', on_stack (fun x => st_bytes x (Some (q, o)) off v) (set_stack t s) = Ok (set_stack t' s) /\ pbufs t' = pbufs t /\
    has t' (splice (Z.to_nat off) v c).
Proof.
  intros Ht Hoff Hl. destruct (has_store t c off v Ht Hoff Hl) as (t'&Hst&Hpb&Ht').
  exists t'. split; [|done]. unfold on_stack. cbn [stack set_stack]. by rewrite Hst.
Qed.

Lemma udp_write_any s h c b dport src dest t : has t (h ++ c) -> length h = 8%nat ->
  Forall bytes_ok (c :: cs) -> is_word (local_port b) -> is_word dport -> is_addr src -> is_addr dest ->
  8 + Z.of_nat (length (concat (c :: cs))) < 65536 ->
  let data := concat (c :: cs) in
  exists t', udp_write_header base q b dport src dest (set_stack t s) = Ok (set_stack t' s) /\ pbufs t' = pbufs t /\
    has t' (udp_header (local_port b) dport (8 + Z.of_nat (length data)) (udp_check (u_flags b) (local_port b) dport src dest data) ++ c).
Proof.
  intros Hb0 (h0&h1&h2&h3&h4&h5&h6&h7&->)%eight_bytes Hok Hsp Hdp Hs Hd Hmax data. set (ln := 8 + Z.of_nat (length data)).
  destruct (has_packet _ _ Hb0) as (bq&l0&Hbp&Hpay&Htot&_).
  assert (Hln : tot_len bq = ln) by (rewrite Htot; unfold ln, data; cbn [concat app length]; lia).
  unfold udp_write_header. rewrite (deref_ok (stack (set_stack t s)) _ _ Hbp). cbn [rbind]. rewrite Hpay, Hln.
  rewrite !htons_bytes by (done || (unfold is_word, ln, data; lia)). change (le_bytes 2 0) with [0; 0].
  destruct (store_any s t _ 0 (be16 (local_port b)) Hb0) as (t1&->&Hp1&Hb1); [lia|cbn; lia|]. cbn [rbind].
  change (has t1 ((be16 (local_port b) ++ [h2; h3; h4; h5; h6; h7]) ++ c)) in Hb1.
  destruct (store_any s t1 _ 2 (be16 dport) Hb1) as (t2&->&Hp2&Hb2); [lia|cbn; lia|]. cbn [rbind].
  change (has t2 ((be16 (local_port b) ++ be16 dport ++ [h4; h5; h6; h7]) ++ c)) in Hb2.
  destruct (store_any s t2 _ 6 [0; 0] Hb2) as (t3&->&Hp3&Hb3); [lia|cbn; lia|]. cbn [rbind].
  change (has t3 ((be16 (local_port b) ++ be16 dport ++ [h4; h5; 0; 0]) ++ c)) in Hb3.
  destruct (store_any s t3 _ 4 (be16 ln) Hb3) as (t4&->&Hp4&Hb4); [lia|cbn; lia|]. cbn [rbind].
  change (has t4 (udp_header (local_port b) dport ln [0; 0] ++ c)) in Hb4.
  unfold udp_check. destruct (Z.land (u_flags b) UDP_FLAGS_NOCHKSUM =? 0); [|exists t4; split; [done|]; split; [congruence|exact Hb4]].
  destruct (has_packet _ _ Hb4) as (bq4&l&_&_&_&Hpk). cbn [stack set_stack].
  assert (Hwl : is_word ln) by (unfold is_word, ln, data; lia).
  destruct (chain_pseudo base t4 (Some q) l _ IP_PROTO_UDP ln src dest Hpk) as (v&->&Hv&Hc); [|done|exact Hwl|exact Hs|exact Hd|].
  { apply Forall_cons in Hok as [Hc Hcs]. constructor; [|done]. apply Forall_app. split; [|done]. apply bytes_ok_header; try done. repeat constructor; lia. }
  cbn [rbind]. destruct (store_any s t4 _ 6 (le_bytes 2 (if v =? 0 then 0xffff else v)) Hb4) as (t5&->&Hp5&Hb5); [lia|cbn; lia|].
  exists t5. split; [done|]. split; [congruence|].
  cbn [concat] in Hc. rewrite <- app_assoc in Hc. rewrite <- (sum_stored (local_port b) dport src dest data Hsp Hdp (proj2 (Forall_concat _ _) Hok) Hmax v Hv Hc).
  exact Hb5.
Qed.
End any.

(** A packet that is known. *)
Lemma udp_write_header_ok K r s p o h c cs b dport src dest t : below (<[p := (o, (h ++ c) :: cs)]> K) r t -> length h = 8%nat ->
  Forall bytes_ok (c :: cs) -> is_word (local_port b) -> is_word dport -> is_addr src -> is_addr dest ->
  8 + Z.of_nat (length (concat (c :: cs))) < 65536 ->
  let data := concat (c :: cs) in
  exists t', udp_write_header base p b dport src dest (set_stack t s) = Ok (set_stack t' s) /\ pbufs t' = pbufs t /\
    below (<[p := (o, (udp_header (local_port b) dport (8 + Z.of_nat (length data)) (udp_check (u_flags b) (local_port b) dport src dest data) ++ c) :: cs)]> K) r t'.
Proof.
  intros Hb. apply (udp_write_any p o cs (fun t c => below (<[p := (o, c :: cs)]> K) r t)); [| |exact Hb].
  - intros t1 c1 Hb1. destruct (kept_head _ r t1 p o _ cs Hb1 (lookup_insert_eq _ _ _)) as (bq&bs&Hbp&Hpay&_&_&_&_&Htot&_).
    destruct (kept_packet _ r t1 p o _ Hb1 (lookup_insert_eq _ _ _)) as (l&Hpk). by exists bq, l.
  - intros t1 c1 off v Hb1 Hoff Hl. destruct (kept_st _ r t1 p o c1 cs off v Hb1 (lookup_insert_eq _ _ _) Hoff ltac:(lia)) as (t'&Hst&Hpb&Hb').
    rewrite insert_insert_eq in Hb'. by exists t'.
Qed.
End write.

(** ** Handing it to IP *)

Section send.
Context {X H : Type} `{OutputLaws X H}.
Context (base : Z -> Z) (nif : Z -> netif) (netif_default : option Z).
Implicit Types (t : lwip H) (s : ip4 X H) (r : gmultiset Z) (K : gmap Z (Z * list (list Z))).

Lemma kept_ip_output K r s p o c cs src dest ttl tos proto np : below K r (stack s) -> K !! p = Some (o, c :: cs) -> 20 <= o ->
  Z.of_nat (length (concat (c :: cs))) + 20 < 65536 ->
  is_word (ip_id s) -> is_byte ttl -> is_byte tos -> is_byte proto -> is_addr src -> is_addr dest ->
  let total := Z.of_nat (length (concat (c :: cs))) + 20 in
  exists t', ip4_output_if_src nif p (Some src) (Some dest) ttl tos proto np s =
      transmit nif np p dest total (set_ip_id (wrap16 (ip_id s + 1)) (set_stack t' s)) /\
    below (<[p := (o - 20, (ip_header tos total (ip_id s) ttl proto src dest ++ c) :: cs)]> K) r t'.
Proof.
  intros Hb HK Ho Hmax Hid Httl Htos Hpr Hsrc Hdest total. destruct (below_owned K r (stack s) Hb) as (HL&e&Hown&_).
  destruct (own_contents K _ (stack s) p o _ Hown HK) as (b&l&c'&cs'&bs&[= <- <-]&Hbp&Hcont&Hpay&Ha&_&Hle&Hbs&Hlen&Htot&_&_).
  destruct (kept_add_header K r (stack s) p o c cs 20 Hb HK ltac:(lia) Hmax) as (b'&h&Hbp'&_&Hlh&Hb1). assert (b' = b) as -> by congruence.
  set (t1 := set_pbufs _ (stack s)) in *. set (hdr := ip_header tos total (ip_id s) ttl proto src dest).
  assert (Hlhdr : length hdr = 20%nat) by done. assert (Hlc : 0 <= len b <= tot_len b) by (rewrite Htot, Hlen; cbn [concat]; rewrite length_app; lia).
  destruct (kept_st _ r t1 p (o - 20) (h ++ c) cs 0 hdr Hb1 (lookup_insert_eq _ _ _)) as (t'&Hst&_&Hb2); [lia|rewrite Hlhdr, length_app; lia|].
  exists t'. split.
  - rewrite (output_if_src_ok nif s p b p (Z.to_nat o) bs src dest ttl tos proto np); try done; [|by rewrite Z2Nat.id by lia|lia|rewrite Htot; lia].
    rewrite Htot. fold total. unfold sent. fold hdr. rewrite Z2Nat.id by lia. unfold IP_HLEN. fold t1. unfold set_ip_id, set_stack. cbn [ip_data around stack].
    do 2 f_equal. destruct (st_like t1 0 hdr p (o - 20) bs Ha) as (Hst'&_); [lia|rewrite Hlhdr; lia|]. rewrite Hst in Hst'. injection Hst' as ->.
    unfold view. do 3 f_equal. lia.
  - rewrite insert_insert_eq in Hb2. replace (hdr ++ c) with (splice (Z.to_nat 0) hdr (h ++ c)); [exact Hb2|].
    change (splice (Z.to_nat 0) hdr (h ++ c)) with (hdr ++ drop 20 (h ++ c)). f_equal. by apply drop_app_length'.
Qed.
(** *** The local port *)

Context `{!Part udp X}.

(** The port it is sent from: that of the control block, or the next free one. *)
Definition send_port (b : udp_pcb) (st : socks) : Z :=
  if local_port b =? 0 then free_port (length (active st)) (last_port st) (ports st) else local_port b.

Definition send_socks (pcb : Z) (b : udp_pcb) (st : socks) : socks :=
  if local_port b =? 0 then (bind_spec pcb (local_ip b) 0 st).2 else st.

Lemma sock_found p b l : NoDup l.*1 -> (p, b) ∈ l -> find_sock p l = Some b.
Proof.
  intros Hn Hin. destruct (sock_in p l) as [c Hc]; [apply (list_elem_of_fmap_2 fst l (p, b) Hin)|]. rewrite Hc. f_equal.
  apply sock_some in Hc. apply list_elem_of_lookup in Hin as [i Hi], Hc as [j Hj].
  assert (i = j) as ->; [|congruence]. apply (NoDup_lookup _ _ _ p Hn); rewrite list_lookup_fmap, ?Hi, ?Hj; done.
Qed.

(** A control block without a port is not active. *)
Lemma send_bound st pcb b : socks_ok st -> (pcb, b) ∈ active st ++ unbound st ->
  (pcb, set_local (local_ip b) (send_port b st) b) ∈ active (send_socks pcb b st) /\ socks_ok (send_socks pcb b st) /\ 0 < send_port b st < 65536.
Proof.
  intros Hst Hin. pose proof (sock_names st Hst) as (Hna&Hnu&Hd&_). pose proof Hst as [_ _ Hb Hnew _ _].
  assert (Hh : held_by pcb st) by (unfold held_by; exact (list_elem_of_fmap_2 fst _ _ Hin)).
  unfold send_socks, send_port. destruct (Z.eqb_spec (local_port b) 0) as [E|E].
  - split; [|split; [by apply bind_ok|]].
    + rewrite elem_of_app in Hin. rewrite Forall_forall in Hb. destruct Hin as [Hin|Hin]; [specialize (Hb _ Hin); cbn in Hb; lia|].
      unfold bind_spec. change (0 =? 0) with true. cbv iota. cbn [snd]. unfold bind_to. cbn [active unbound].
      destruct (find_sock pcb (active st)) as [x|] eqn:Hf.
      * apply sock_some in Hf. pose proof (list_elem_of_fmap_2 fst _ _ Hf) as Hf'. cbn in Hf'. destruct (Hd pcb Hf') as [[] _].
        exact (list_elem_of_fmap_2 fst _ _ Hin).
      * rewrite (sock_found pcb b _ Hnu Hin). cbn [active]. by left.
    + destruct (new_port_ok st Hst) as [Hr _]. unfold UDP_LOCAL_PORT_RANGE_START, UDP_LOCAL_PORT_RANGE_END in Hr. lia.
  - rewrite elem_of_app in Hin. rewrite Forall_forall in Hb, Hnew. destruct Hin as [Hin|Hin]; [|by specialize (Hnew _ Hin)].
    split; [by destruct b|]. split; [done|]. by specialize (Hb _ Hin).
Qed.

Lemma put_same s : put_udp (us s) s = s.
Proof. unfold put_udp, us. rewrite set_part_same. by destruct s. Qed.

Lemma send_bind_ok st s pcb ub : socks_ok st -> holds_socks st (us s) -> (pcb, sock_of ub) ∈ active st ++ unbound st ->
  exists x, (if local_port ub =? 0 then on_udp_r (udp_bind (Some pcb) (Some (local_ip ub)) (local_port ub)) s else Ok (ERR_OK, s)) = Ok (ERR_OK, put_udp x s) /\
    holds_socks (send_socks pcb (sock_of ub) st) x.
Proof.
  intros Hst Hx Hin. assert (Hh : held_by pcb st) by (unfold held_by; exact (list_elem_of_fmap_2 fst _ _ Hin)).
  unfold send_socks. change (local_port (sock_of ub)) with (local_port ub). change (local_ip (sock_of ub)) with (local_ip ub).
  destruct (Z.eqb_spec (local_port ub) 0) as [->|_]; [|exists (us s); by rewrite put_same].
  destruct (bind_refines st (us s) pcb (Some (local_ip ub)) 0 Hst Hx Hh ltac:(lia)) as (x&Hrun&Hx'&_). exists x. split; [|done].
  unfold on_udp_r. by rewrite Hrun.
Qed.
(** *** The whole *)

(** What is to be sent: the packet is ours and its bytes are known, IP can carry it,
    and the control block is one the caller has. *)
Record sending K r st (pcb : Z) (b : udp_pcb) (p o : Z) (c : list Z) (cs : list (list Z)) s : Prop := {
  sd_below : below K r (stack s);
  sd_known : K !! p = Some (o, c :: cs);
  sd_bytes : Forall bytes_ok (c :: cs);
  sd_total : Z.of_nat (length (concat (c :: cs))) + 28 < 65536;
  sd_socks : socks_ok st;
  sd_holds : holds_socks st (us s);
  sd_block : (pcb, b) ∈ active st ++ unbound st;
  sd_fields : is_byte (ttl b) /\ is_byte (tos b);
  sd_id : is_word (ip_id s)
}.

(** The two headers. *)
Definition udp_front (b : udp_pcb) (sport dport src dest : Z) (data : list Z) : list Z :=
  udp_header sport dport (8 + Z.of_nat (length data)) (udp_check (u_flags b) sport dport src dest data).

Definition ip_front (b : udp_pcb) (id src dest : Z) (data : list Z) : list Z :=
  ip_header (tos b) (Z.of_nat (length data) + 28) id (ttl b) IP_PROTO_UDP src dest.

Lemma length_udp_front b sport dport src dest data : length (udp_front b sport dport src dest data) = 8%nat.
Proof. unfold udp_front, udp_header. rewrite !length_app, length_check. done. Qed.

(** Up to the place for the header: the control block has its port. *)
Lemma sendto_start K r st pcb b p o c cs s dest dport np src : sending K r st pcb b p o c cs s ->
  exists x ub, holds_socks (send_socks pcb b st) x /\ udp_mem x !! pcb = Some ub /\ local_port ub = send_port b st /\
    tos ub = tos b /\ ttl ub = ttl b /\ u_flags ub = u_flags b /\
    udp_sendto_if_src base nif (Some pcb) (Some p) (Some dest) dport (Some np) (Some src) s =
      (let* (q, s) := udp_header_room p (put_udp x s) in
       match q with
       | None => Ok (ERR_MEM, s)
       | Some q =>
           let* b := u_deref (us s) pcb in
           let* s := udp_write_header base q b dport src dest s in
           let* (err, s) := ip4_output_if_src nif q (Some src) (Some dest) (ttl b) (tos b) IP_PROTO_UDP np s in
           let* s := if negb (q =? p) then drop_packet q s else Ok s in
           Ok (err, s)
       end).
Proof.
  intros [Hb HK Hok Hmax Hst Hx Hin _ _]. set (n := Z.of_nat (length (concat (c :: cs)))) in *.
  destruct (hs_each _ _ Hx _ Hin) as (ub&Hub&Hbu). cbn [fst snd] in Hub, Hbu. subst b. unfold udp_sendto_if_src. rewrite (u_deref_ok _ _ _ Hub). cbn [rbind].
  destruct (send_bind_ok st s pcb ub Hst Hx Hin) as (x&->&Hx'). cbn [rbind].
  destruct (send_bound st pcb (sock_of ub) Hst Hin) as (Hact&_&_).
  destruct (held_active _ _ Hx' _ Hact) as (ub'&Hub'&Hbu'). cbn [fst snd] in Hub', Hbu'.
  injection Hbu' as _ _ _ _ Etos Ettl Efl Eport _ _ _.
  exists x, ub'. split; [done|]. split; [done|]. split; [done|]. split; [done|]. split; [done|]. split; [done|].
  destruct (kept_head K r (stack s) p o c cs Hb HK) as (bp&_&Hbp&_&_&_&_&_&Htot&_). change (stack (put_udp x s)) with (stack s).
  rewrite (deref_ok _ _ _ Hbp). cbn [rbind].
  fold n in Htot. rewrite Htot, wrap16_small by (unfold UDP_HLEN; lia). destruct (Z.ltb_spec (n + UDP_HLEN) n) as [Hlt|_]; [unfold UDP_HLEN in Hlt; lia|].
  done.
Qed.

(** With room for the UDP header in front of the data. *)
Lemma sendto_front K r st pcb b p o c cs s dest dport np src : sending K r st pcb b p o c cs s -> 8 <= o ->
  is_word dport -> is_addr src -> is_addr dest ->
  let data := concat (c :: cs) in
  exists x t, holds_socks (send_socks pcb b st) x /\
    below (<[p := (o - 8, (udp_front b (send_port b st) dport src dest data ++ c) :: cs)]> K) r t /\
    udp_sendto_if_src base nif (Some pcb) (Some p) (Some dest) dport (Some np) (Some src) s =
      ip4_output_if_src nif p (Some src) (Some dest) (ttl b) (tos b) IP_PROTO_UDP np (set_stack t (put_udp x s)).
Proof.
  intros Hsd Ho Hdp Hsrc Hdest data. destruct (sendto_start K r st pcb b p o c cs s dest dport np src Hsd) as (x&ub&Hx&Hub&Eport&Etos&Ettl&Efl&->).
  destruct Hsd as [Hb HK Hok Hmax Hst _ Hin _ _]. destruct (send_bound st pcb b Hst Hin) as (_&_&Hport).
  destruct (kept_add_header K r (stack s) p o c cs 8 Hb HK ltac:(lia)) as (bp'&h&_&Hrun&Hh&Hb1); [lia|]. set (t1 := set_pbufs _ (stack s)) in *.
  unfold udp_header_room, on_stack_r. change (stack (put_udp x s)) with (stack s). unfold UDP_HLEN at 1. rewrite Hrun. cbn [rbind]. change (negb (0 =? 0)) with false. cbv iota. cbn [rbind].
  change (us (set_stack t1 (put_udp x s))) with (us (put_udp x s)). rewrite us_put, (u_deref_ok _ _ _ Hub). cbn [rbind].
  destruct (udp_write_header_ok base K r (put_udp x s) p (o - 8) h c cs ub dport src dest t1 Hb1 Hh Hok) as (t2&->&_&Hb2); try done;
    [rewrite Eport; unfold is_word; lia|lia|]. cbn [rbind]. rewrite Eport, Efl in Hb2. exists x, t2. split; [done|]. split; [exact Hb2|].
  rewrite Ettl, Etos, Z.eqb_refl. cbn [negb]. change (set_stack t2 (set_stack t1 (put_udp x s))) with (set_stack t2 (put_udp x s)).
  by destruct (ip4_output_if_src _ _ _ _ _ _ _ _ _) as [[err s2]|].
Qed.

(** With room for both headers. *)
Lemma sendto_if_src_ok K r st pcb b p o c cs s dest dport np src : sending K r st pcb b p o c cs s -> 28 <= o ->
  is_word dport -> is_addr src -> is_addr dest ->
  let data := concat (c :: cs) in
  exists s', udp_sendto_if_src base nif (Some pcb) (Some p) (Some dest) dport (Some np) (Some src) s =
      transmit nif np p dest (Z.of_nat (length data) + 28) s' /\
    below (<[p := (o - 28, (ip_front b (ip_id s) src dest data ++ udp_front b (send_port b st) dport src dest data ++ c) :: cs)]> K) r (stack s') /\
    holds_socks (send_socks pcb b st) (us s') /\ ip_data s' = ip_data s.
Proof.
  intros Hsd Ho Hdp Hsrc Hdest data. destruct (sendto_front K r st pcb b p o c cs s dest dport np src Hsd ltac:(lia) Hdp Hsrc Hdest) as (x&t2&Hx&Hb2&->).
  destruct Hsd as [Hb HK Hok Hmax Hst _ Hin [Httl Htos] Hid]. fold data in Hb2. set (h2 := udp_front _ _ _ _ _ data ++ c) in *.
  assert (Hl : Z.of_nat (length (concat (h2 :: cs))) = Z.of_nat (length data) + 8).
  { unfold h2, data. cbn [concat]. rewrite !length_app, length_udp_front. lia. }
  destruct (kept_ip_output _ r (set_stack t2 (put_udp x s)) p (o - 8) h2 cs src dest (ttl b) (tos b) IP_PROTO_UDP np Hb2 (lookup_insert_eq _ _ _)) as (t3&->&Hb3);
    try done; [lia|fold data in Hmax; lia|]. rewrite Hl in *.
  rewrite insert_insert_eq in Hb3. replace (Z.of_nat (length data) + 8 + 20) with (Z.of_nat (length data) + 28) in * by lia. replace (o - 8 - 20) with (o - 28) in Hb3 by lia.
  eexists. split; [reflexivity|]. split; [exact Hb3|]. split; [|reflexivity].
  change (holds_socks (send_socks pcb b st) (us (put_udp x s))). by rewrite us_put.
Qed.

(** With room for the UDP header alone: IP refuses, and the UDP header stays in front
    of the data. *)
Lemma sendto_no_ip_room K r st pcb b p o c cs s dest dport np src : sending K r st pcb b p o c cs s -> 8 <= o < 28 ->
  is_word dport -> is_addr src -> is_addr dest ->
  let data := concat (c :: cs) in
  exists s', udp_sendto_if_src base nif (Some pcb) (Some p) (Some dest) dport (Some np) (Some src) s = Ok (ERR_BUF, s') /\
    below (<[p := (o - 8, (udp_front b (send_port b st) dport src dest data ++ c) :: cs)]> K) r (stack s') /\
    holds_socks (send_socks pcb b st) (us s') /\ ip_data s' = ip_data s.
Proof.
  intros Hsd Ho Hdp Hsrc Hdest data. destruct (sendto_front K r st pcb b p o c cs s dest dport np src Hsd ltac:(lia) Hdp Hsrc Hdest) as (x&t&Hx&Hb&->).
  exists (set_stack t (put_udp x s)). split; [|split; [exact Hb|split; [|reflexivity]]].
  - destruct (below_owned _ _ _ Hb) as (HL&e&Hown&_).
    destruct (own_contents _ _ t p _ _ Hown (lookup_insert_eq _ _ _)) as (bp&l&c'&cs'&bs&[= <- <-]&Hbp&Hcont&Hpay&_).
    unfold ip4_output_if_src, on_stack_r. cbn [stack set_stack].
    by rewrite (add_header_refused t p bp p (o - 8) IP_HLEN) by (done || (unfold IP_HLEN; lia)).
  - change (holds_socks (send_socks pcb b st) (us (put_udp x s))). by rewrite us_put.
Qed.
End send.
