(* ===== verification/UdpRoom.v ===== *)
(** * Datagrams whose packet has no room for the header

    [udp_sendto_if_src] then puts the header into a packet of its own with the
    caller's packet behind it, which the caller goes on holding. *)

From stdpp Require Import base numbers decidable gmap gmultiset list.
From Stdlib Require Import ZArith Lia Bool.
From S2P Require Import Prelude Linked LwipMem Pbuf PbufChain PbufPool PbufProps PbufFree OnesComp InetChksum InetChksumProps PbufView Ip4Addr Ethernet Ip4 Icmp Ip4Input Ip4Props IcmpProps EtharpOps PbufOwn Below BelowIcmp Ip4ReassSpec Udp UdpBlocks UdpInput UdpSend.
Open Scope Z_scope.

(** A reference more or less does not change what a packet holds. *)
Lemma packet_ref {H} (t : lwip H) p b v o l cs : pbufs t !! p = Some b -> packet t o l cs ->
  packet (set_pbufs (<[p := set_ref v b]> (pbufs t)) t) o l cs.
Proof.
  intros Hb. revert o cs. induction l as [|q l IH]; intros o [|c cs]; cbn [packet]; try done.
  intros [-> (bq&Hbq&H1&H2&H3&H4&Hp)]. split; [done|]. cbn [pbufs set_pbufs]. destruct (decide (q = p)) as [->|Hne].
  - assert (bq = b) as -> by congruence. exists (set_ref v b). rewrite lookup_insert_eq. split_and!; try done. by apply IH.
  - exists bq. rewrite lookup_insert_ne by done. split_and!; try done. by apply IH.
Qed.

(** ** Writing into the new packet *)

Section beside.
Context {H : Type} `{MemHeap H}.
Context (ps : gmap Z pbuf) (ars : gmap Z (list Z)) (q o : Z) (b : pbuf) (l : list Z) (cs : list (list Z)).
Hypothesis Hq : ps !! q = Some b.
Hypothesis Hpay : payload b = Some (q, o).
Hypothesis Hapart : forall x bx ox, x ∈ l -> ps !! x = Some bx -> payload bx <> Some (q, ox).

(** The structures are [ps], the bytes are those of [ars] but for the area of [q],
    and the first buffer of [q] has the bytes [c]. *)
Record has_beside (t : lwip H) (c : list Z) : Prop := {
  hb_pbufs : pbufs t = ps;
  hb_areas : forall a, a <> q -> areas t !! a = ars !! a;
  hb_packet : packet t (Some q) (q :: l) (c :: cs)
}.

Lemma beside_packet t c : has_beside t c -> exists b l, pbufs t !! q = Some b /\ payload b = Some (q, o) /\
  tot_len b = Z.of_nat (length (concat (c :: cs))) /\ packet t (Some q) l (c :: cs).
Proof.
  intros [Hps _ Hp]. pose proof Hp as [_ (b'&Hb'&_&Htot&_)]. rewrite Hps, Hq in Hb'. injection Hb' as <-.
  exists b, (q :: l). by rewrite Hps.
Qed.

Lemma beside_store t c off v : has_beside t c -> 0 <= off -> (Z.to_nat off + length v <= length c)%nat ->
  exists t', st_bytes t (Some (q, o)) off v = Ok t' /\ pbufs t' = pbufs t /\ has_beside t' (splice (Z.to_nat off) v c).
Proof.
  intros [Hps Hars Hp] Hoff Hl. destruct Hp as [_ (b'&Hb'&Hlen&Htot&Hmax&(a&o'&bs&Hpa&Ha&Ho&Hle&Hbs)&Hp)].
  rewrite Hps, Hq in Hb'. injection Hb' as <-. rewrite Hpay in Hpa. injection Hpa as <- <-.
  destruct (st_like t off v q o bs Ha) as (Hst&Hbo); [lia|lia|]. pose proof Hbo as (Hb1&Har1&_).
  set (t1 := set_areas _ t) in *. exists t1. split; [done|]. split; [done|].
  assert (Hls : length (splice (Z.to_nat off) v c) = length c) by (apply length_splice; lia).
  split; [by rewrite Hb1|intros a Hne; rewrite <- Hars by done; cbn; by rewrite lookup_insert_ne|].
  split; [done|]. exists b. rewrite Hb1, Hps, Hls. split; [done|]. split; [done|].
  split; [rewrite Htot; cbn [concat]; by rewrite !length_app, Hls|]. split; [done|]. split.
  - exists q, o. eexists. cbn. rewrite lookup_insert_eq. split; [done|]. split; [done|]. split; [done|].
    rewrite length_splice by lia. split; [done|]. rewrite <- Hbs. unfold bytes_at. apply list_eq. intros i.
    rewrite lookup_slice. repeat (rewrite lookup_splice by (rewrite ?length_slice; lia)). rewrite lookup_slice.
    destruct (decide (i < Z.to_nat (len b))%nat).
    + repeat case_decide; try lia; try done; f_equal; lia.
    + repeat case_decide; try lia; done.
  - apply (packet_same t); [done|done|]. intros a (x&bx&ox&Hx&Hbx&Hpx). cbn. rewrite lookup_insert_ne; [done|].
    intros <-. rewrite Hps in Hbx. by apply (Hapart x bx ox Hx Hbx).
Qed.
End beside.

(** ** The new packet *)

Section room.
Context {X H : Type} `{OutputLaws X H}.
Implicit Types (t : lwip H) (s : ip4 X H) (r : gmultiset Z) (K : gmap Z (Z * list (list Z))).

(** A packet that is known shares nothing with another one. *)
Lemma apart_from K r t p q o c cs : below K ({[+ q +]} ⊎ r) t -> K !! p = Some (o, c :: cs) -> p <> q ->
  exists l, packet t (Some p) (p :: l) (c :: cs) /\ q ∉ p :: l /\ forall x bx ox, x ∈ p :: l -> pbufs t !! x = Some bx -> payload bx <> Some (q, ox).
Proof.
  intros Hb HK Hne. destruct (below_owned K _ t Hb) as (HL&e&Ho&_).
  destruct (own_contents K _ t p _ _ Ho HK) as (b&l&c'&cs'&bs&[= <- <-]&_&_&_&_&_&_&_&_&_&_&Hlive&Hpk). exists l. split; [done|].
  destruct Ho as (L&f&g&U&[Hh Hl Ha _ _ _ _ _ _]).
  destruct (proj1 (Hh q) ltac:(multiset_solver)) as [lq Hlq]. destruct (live_head _ _ _ _ _ (Hl q lq Hlq)) as (_&lq'&->&_).
  assert (HLp : L !! p = Some (p :: l)).
  { assert (Hpr : p ∈ e ⊎ ({[+ q +]} ⊎ r)) by (pose proof (below_in K _ t p Hb ltac:(by eexists)); multiset_solver).
    destruct (proj1 (Hh p) Hpr) as [l' Hl']. destruct (Hl p l' Hl') as [(cs0&Hpk0&_) _ _ _ _].
    assert (l' = p :: l) as -> by (eapply linked_det; eapply packet_chain; done). done. }
  assert (Hq : q ∉ p :: l) by (intros Hin; apply Hne; apply (Ha p q (p :: l) (q :: lq') q); try done; set_solver).
  split; [done|]. intros x bx ox Hx Hbx Hpx. apply Hq. apply (kept_uses _ _ _ _ _ q Hlive); [by eexists|]. by exists x, bx, ox.
Qed.

(** The structures after a new packet [q] of [n] bytes has been put in front of [p]. *)
Lemma chain_new K r t p q o c cs off n bs : below K ({[+ q +]} ⊎ r) t -> K !! p = Some (o, c :: cs) -> p <> q ->
  pbufs t !! q = Some (fresh q off n) -> areas t !! q = Some bs -> 0 <= off -> 0 <= n -> off + n <= Z.of_nat (length bs) ->
  n + Z.of_nat (length (concat (c :: cs))) < 65536 ->
  exists b l bq t', pbufs t !! p = Some b /\ packet t (Some p) (p :: l) (c :: cs) /\ pbuf_chain (Some q) (Some p) t = Ok t' /\
    packet t' (Some q) (q :: p :: l) (bytes_at bs off n :: c :: cs) /\
    pbufs t' !! q = Some bq /\ core bq = core (fresh q off n) /\ next bq = Some p /\
    pbufs t' !! p = Some (set_ref (wrap8 (ref b + 1)) b) /\
    (forall x, x <> q -> x <> p -> pbufs t' !! x = pbufs t !! x) /\ areas t' = areas t /\
    forall x bx ox, x ∈ p :: l -> pbufs t' !! x = Some bx -> payload bx <> Some (q, ox).
Proof.
  intros Hb HK Hne Hbq Har Hoff Hn Hle Hmax. destruct (apart_from K r t p q o c cs Hb HK Hne) as (l&Hpk&Hql&Hap).
  pose proof Hpk as [_ (b&Hbp&_)].
  assert (Hlb : length (bytes_at bs off n) = Z.to_nat n) by (apply length_bytes_at; lia).
  assert (Hpq : packet t (Some q) [q] [bytes_at bs off n]).
  { split; [done|]. exists (fresh q off n). split; [done|]. cbn [concat]. rewrite app_nil_r, Hlb.
    split; [cbn; lia|]. split; [cbn; lia|]. split; [cbn; lia|]. split; [|done]. exists q, off, bs. by split_and!. }
  destruct (pbuf_cat_ok t q [q] _ p (p :: l) _ Hpq Hpk) as (t1&Hcat&Hpk1&Har1&Hpay1&Hout1).
  { intros x ->%list_elem_of_singleton. done. }
  { cbn [app concat] in *. rewrite !length_app, Hlb in *. lia. }
  destruct (cat_core _ _ _ _ Hcat) as (Hcore&_).
  assert (Hbp1 : pbufs t1 !! p = Some b) by (rewrite Hout1; [done|set_solver]).
  pose proof Hpk1 as [_ (bq&Hbq1&_&_&_&_&Hrest)]. cbn [app] in Hrest. pose proof (proj1 Hrest) as Hnx.
  specialize (Hcore q). rewrite Hbq1, Hbq in Hcore. cbn in Hcore. injection Hcore as C1 C2 C3 C4 C5.
  exists b, l, bq, (set_pbufs (<[p := set_ref (wrap8 (ref b + 1)) b]> (pbufs t1)) t1).
  split; [done|]. split; [done|]. split.
  { unfold pbuf_chain. rewrite Hcat. cbn [rbind pbuf_ref]. unfold Pbuf.assign. by rewrite (deref_ok _ _ _ Hbp1). }
  split; [by apply packet_ref|]. cbn [pbufs set_pbufs areas]. split; [by rewrite lookup_insert_ne|].
  split; [unfold core; by rewrite C1, C2, C3, C4, C5|]. split; [done|]. split; [apply lookup_insert_eq|].
  split; [intros x Hx Hxp; rewrite lookup_insert_ne by done; apply Hout1; set_solver|]. split; [done|].
  intros x bx ox Hx Hbx. destruct (decide (x = p)) as [->|Hxp].
  - rewrite lookup_insert_eq in Hbx. injection Hbx as <-. cbn. by apply (Hap p b).
  - rewrite lookup_insert_ne in Hbx by done. rewrite Hout1 in Hbx by set_solver. by apply (Hap x bx).
Qed.

(** What the new packet has behind it: the caller's packet, unless that is empty. *)
Definition behind {A} (data : list Z) (l : list A) : list A := if bool_decide (data = []) then [] else l.

(** The new packet [q] with its [8] bytes, in front of [p]. *)
Record put_front t t' (p q : Z) (c : list Z) (cs : list (list Z)) (l : list Z) (b bq : pbuf) (bs : list Z) : Prop := {
  pf_ne : q <> p;
  pf_packet : packet t (Some p) (p :: l) (c :: cs);
  pf_caller : pbufs t !! p = Some b;
  pf_ref : 1 <= ref b <= 255;
  pf_new : pbufs t' !! q = Some bq;
  pf_core : core bq = core (fresh q 36 8);
  pf_next : next bq = head (behind (concat (c :: cs)) [p]);
  pf_held : pbufs t' !! p = Some (if bool_decide (concat (c :: cs) = []) then b else set_ref (wrap8 (ref b + 1)) b);
  pf_others : forall x, x <> q -> x <> p -> pbufs t' !! x = pbufs t !! x;
  pf_area : areas t' !! q = Some bs;
  pf_size : 44 <= Z.of_nat (length bs);
  pf_areas : forall a, a <> q -> areas t' !! a = areas t !! a;
  pf_chain : packet t' (Some q) (q :: behind (concat (c :: cs)) (p :: l)) (bytes_at bs 36 8 :: behind (concat (c :: cs)) (c :: cs));
  pf_apart : forall x bx ox, x ∈ behind (concat (c :: cs)) (p :: l) -> pbufs t' !! x = Some bx -> payload bx <> Some (q, ox);
  pf_outside : q ∉ p :: l
}.

(** Without room for the header a packet for it is put in front, if the heap has one. *)
Lemma room_beside K r s p o c cs : below K r (stack s) -> K !! p = Some (o, c :: cs) -> o < 8 ->
  Z.of_nat (length (concat (c :: cs))) + 28 < 65536 ->
  exists t', (udp_header_room p s = Ok (None, set_stack t' s) /\ below K r t' /\ pbufs t' = pbufs (stack s) /\ areas t' = areas (stack s)) \/
    exists q l b bq bs, udp_header_room p s = Ok (Some q, set_stack t' s) /\ put_front (stack s) t' p q c cs l b bq bs.
Proof.
  intros Hb HK Ho Hmax. destruct (below_owned K r (stack s) Hb) as (HL&e&Hown&_).
  destruct (own_contents K _ (stack s) p o _ Hown HK) as (b&l&c'&cs'&bs0&[= <- <-]&Hbp&Hcont&Hpay&_&_&_&_&_&Htot&_&[_ _ Href Hm _]&_).
  assert (Hrb : 1 <= ref b <= 255) by (specialize (Href p b ltac:(set_solver) Hbp); rewrite decide_True in Href by done; lia).
  unfold udp_header_room, on_stack_r. rewrite (add_header_refused (stack s) p b p o UDP_HLEN Hbp Hcont Hpay) by (unfold UDP_HLEN; lia).
  cbn [rbind]. change (negb (1 =? 0)) with true. cbv iota. cbn [stack set_stack].
  destruct (below_alloc K r (stack s) PBUF_IP UDP_HLEN Hb) as (q&t1&->&Hq); [unfold UDP_HLEN; lia|]. cbn [rbind].
  destruct q as [q|]; [|exists t1; left; split; [done|exact Hq]]. destruct Hq as (Hb1&_&HKq&Hpb&bs&Har&Hsz).
  change (LWIP_MEM_ALIGN_SIZE (layer_offset PBUF_IP)) with 36 in *. unfold UDP_HLEN in *.
  assert (Hne : p <> q) by (intros ->; congruence). cbn [stack set_stack].
  assert (Hbp1 : pbufs t1 !! p = Some b) by (rewrite Hpb, lookup_insert_ne by done; done). rewrite (deref_ok _ _ _ Hbp1). cbn [rbind].
  assert (Hbq1 : pbufs t1 !! q = Some (fresh q 36 8)) by (by rewrite Hpb, lookup_insert_eq).
  assert (Harq : areas t1 !! q = Some bs) by (by rewrite Har, lookup_insert_eq).
  assert (Hback : forall l, q ∉ p :: l -> (forall x bx ox, x ∈ p :: l -> pbufs t1 !! x = Some bx -> payload bx <> Some (q, ox)) ->
    packet t1 (Some p) (p :: l) (c :: cs) -> packet (stack s) (Some p) (p :: l) (c :: cs)).
  { intros l1 Hl1 Hap Hpk. apply (packet_same t1); [done| |].
    - intros x Hx. rewrite Hpb, lookup_insert_ne; [done|]. by intros ->.
    - intros a (x&bx&ox&Hx&Hbx&Hpx). rewrite Har, lookup_insert_ne; [done|]. intros <-. by apply (Hap x bx ox). }
  destruct (apart_from K r t1 p q o c cs Hb1 HK Hne) as (l1&Hpk1&Hql&Hap). rewrite Htot.
  destruct (decide (concat (c :: cs) = [])) as [Hnil|Hnil].
  - rewrite Hnil. change (negb (Z.of_nat (length (@nil Z)) =? 0)) with false. cbv iota. cbn [rbind].
    exists t1. right. exists q, l1, b, (fresh q 36 8), bs. split; [done|].
    split; unfold behind; try done; rewrite ?bool_decide_eq_true_2 by done; try done; try lia.
    + by apply Hback.
    + intros x Hx _. by rewrite Hpb, lookup_insert_ne.
    + intros a Ha. by rewrite Har, lookup_insert_ne.
    + split; [done|]. exists (fresh q 36 8). cbn [concat]. rewrite app_nil_r, length_bytes_at by lia. split_and!; try done. exists q, 36, bs. by split_and!.
    + intros x bx ox Hx. by apply not_elem_of_nil in Hx.
  - assert (Hlen : length (concat (c :: cs)) <> 0%nat) by (intros Hz; by apply Hnil, nil_length_inv).
    rewrite (proj2 (Z.eqb_neq (Z.of_nat (length (concat (c :: cs)))) 0)) by lia. cbn [negb]. unfold on_stack. cbn [stack set_stack].
    destruct (chain_new K r t1 p q o c cs 36 8 bs Hb1 HK Hne Hbq1 Harq) as (b1&l2&bq&t2&Hb2&Hpk2&->&Hpk&Hbq&Hcore&Hnx&Hbp2&Hout&Har2&Hap2); [lia..|].
    assert (b1 = b) as -> by congruence. assert (Hl : p :: l2 = p :: l1) by (eapply linked_det; eapply packet_chain; done). injection Hl as ->. cbn [rbind].
    exists t2. right. exists q, l1, b, bq, bs. split; [done|].
    split; unfold behind; rewrite ?bool_decide_eq_false_2 by done; try done; try (rewrite ?Har2; done || lia).
    + by apply Hback.
    + intros x Hx Hxp. rewrite Hout, Hpb, lookup_insert_ne by done. done.
    + intros a Ha. by rewrite Har2, Har, lookup_insert_ne.
Qed.

(** ** Giving it back *)

(** The new packet has one reference, the caller's packet one more than before. *)
Lemma free_front t t' p q c cs l b bq bs y : put_front t t' p q c cs l b bq bs -> forall bq', pbufs y !! q = Some bq' ->
  type_internal bq' = type_internal bq -> flags bq' = flags bq -> ref bq' = ref bq -> next bq' = next bq -> pbufs y !! p = pbufs t' !! p ->
  exists n y', pbuf_free (Some q) y = Ok (n, y') /\ pbufs y' !! q = None /\ pbufs y' !! p = Some b /\
    (forall x, x <> q -> x <> p -> pbufs y' !! x = pbufs y !! x) /\ areas y' = delete q (areas y) /\ heap y' = mem_free q (heap y).
Proof.
  intros [Hne _ _ Href _ Hcore Hnx Hp' _ _ _ _ _ _ _] bq' Hq Ety Efl Erf Enx Hp. rewrite Hp' in Hp. injection Hcore as _ _ C3 C4 C5.
  assert (Ho : origin_of bq' = FromHeap) by (unfold origin_of, pbuf_get_allocsrc; by rewrite Efl, Ety, C3, C4).
  unfold pbuf_free, chain_fuel. destruct (free_step_any (size (pbufs y)) y q bq' 0 Hq) as (y1&->&[Hs Hout _ _ _ Hh Ha]); [congruence|].
  unfold struct_after in Hs. rewrite Ho in Hs, Hh, Ha. rewrite decide_True in Hh by done. rewrite decide_True in Ha by done. rewrite Enx, Hnx.
  assert (Hsz : exists k, size (pbufs y) = S k) by (exists (pred (size (pbufs y))); pose proof (map_size_ne_0_lookup_2 (pbufs y) q ltac:(by eexists)); lia).
  destruct Hsz as [k ->]. unfold behind in *. destruct (bool_decide _); cbn [head] in *.
  - exists (wrap8 (0 + 1)), y1. split; [done|]. split; [done|]. split; [rewrite Hout by done; done|]. split; [|done]. intros x Hx _. by apply Hout.
  - cbn [free_loop]. assert (Hp1 : pbufs y1 !! p = Some (set_ref (wrap8 (ref b + 1)) b)) by (by rewrite Hout by done).
    unfold assign. rewrite !(deref_ok _ _ _ Hp1). cbn [rbind ref set_ref].
    assert (Hw : wrap8 (wrap8 (ref b + 1) - 1) = ref b).
    { unfold wrap8. rewrite Zminus_mod_idemp_l. replace (ref b + 1 - 1) with (ref b) by lia. apply Z.mod_small. lia. }
    rewrite Hw, (proj2 (Z.eqb_neq (ref b) 0)) by lia. eexists _, _. split; [reflexivity|]. cbn [pbufs set_pbufs areas heap].
    split; [by rewrite lookup_insert_ne|]. split; [rewrite lookup_insert_eq; by destruct b|]. split; [|done].
    intros x Hx Hxp. rewrite lookup_insert_ne by done. by apply Hout.
Qed.

(** ** The headers in the new packet *)

Lemma front_packet t q bq bs l cs u hdr : packet t (Some q) (q :: l) (u :: cs) -> pbufs t !! q = Some bq -> payload bq = Some (q, 36) ->
  areas t !! q = Some bs -> length hdr = 20%nat -> tot_len bq + 20 < 65536 -> q ∉ l ->
  (forall x bx ox, x ∈ l -> pbufs t !! x = Some bx -> payload bx <> Some (q, ox)) ->
  packet (view (set_pbufs (<[q := with_header IP_HLEN bq q 36]> (pbufs t)) t) q 16 bs hdr) (Some q) (q :: l) ((hdr ++ u) :: cs).
Proof.
  intros [_ (bq'&Hbq'&Hlen&Htot&_&(a&o&bs'&Hpa&Ha&_&Hle&Hbs)&Hrest)] Hbq Hpay Har Hl Hmax Hql Hap.
  assert (bq' = bq) as -> by congruence. rewrite Hpay in Hpa. injection Hpa as <- <-. assert (bs' = bs) as -> by congruence.
  split; [done|]. exists (with_header IP_HLEN bq q 36). unfold view. cbn [pbufs areas set_pbufs set_areas]. split; [apply lookup_insert_eq|].
  cbn [with_header set_tot_len set_len set_payload len tot_len next payload concat]. unfold IP_HLEN. cbn [concat] in Htot.
  rewrite !length_app in *. split; [lia|]. split; [lia|]. split; [lia|]. split.
  - exists q, 16, (splice 16 hdr bs). cbn [areas set_areas]. rewrite lookup_insert_eq. split; [done|]. split; [done|]. split; [lia|].
    rewrite length_splice by lia. cbn [with_header set_tot_len set_len set_payload len]. split; [lia|]. rewrite <- Hbs. unfold bytes_at.
    replace (Z.to_nat (len bq + 20)) with (20 + Z.to_nat (len bq))%nat by lia. change (Z.to_nat 16) with 16%nat. change (Z.to_nat 36) with 36%nat.
    rewrite slice_split. change (16 + 20)%nat with 36%nat. f_equal; apply list_eq; intros i; rewrite lookup_slice, lookup_splice by lia; rewrite ?lookup_slice.
    + destruct (decide (i < 20)%nat); repeat case_decide; try lia; [f_equal; lia|]. symmetry. apply lookup_ge_None. lia.
    + repeat case_decide; try lia; done.
  - apply (packet_same t); [done| |].
    + intros x Hx. cbn. rewrite lookup_insert_ne; [done|]. by intros ->.
    + intros a' (x&bx&ox&Hx&Hbx&Hpx). cbn. rewrite lookup_insert_ne; [done|]. intros <-. by apply (Hap x bx ox).
Qed.

(** What stands in memory while the datagram is with the interface: the headers in
    [q], the caller's packet behind it with one reference more unless it is empty,
    and everything else as before; and when [q], as it is now, is given back, the
    caller's packet has its references as before. *)
Definition in_front t t' (p q : Z) (hdr : list Z) (c : list Z) (cs : list (list Z)) : Prop :=
  q <> p /\ exists b l, packet t (Some p) (p :: l) (c :: cs) /\ pbufs t !! p = Some b /\
    packet t' (Some q) (q :: behind (concat (c :: cs)) (p :: l)) (hdr :: behind (concat (c :: cs)) (c :: cs)) /\
    pbufs t' !! p = Some (if bool_decide (concat (c :: cs) = []) then b else set_ref (wrap8 (ref b + 1)) b) /\
    (forall x, x <> q -> x <> p -> pbufs t' !! x = pbufs t !! x) /\
    (forall a, a <> q -> areas t' !! a = areas t !! a) /\
    forall y : lwip H, pbufs y !! q = pbufs t' !! q -> pbufs y !! p = pbufs t' !! p ->
      exists n y', pbuf_free (Some q) y = Ok (n, y') /\ pbufs y' !! q = None /\ pbufs y' !! p = Some b /\
        (forall x, x <> q -> x <> p -> pbufs y' !! x = pbufs y !! x) /\ areas y' = delete q (areas y) /\ heap y' = mem_free q (heap y).

(** The bytes of the data are behind the header, all of them. *)
Lemma concat_behind (c : list Z) cs : concat (behind (concat (c :: cs)) (c :: cs)) = concat (c :: cs).
Proof. unfold behind. by destruct (bool_decide_reflect (concat (c :: cs) = [])) as [->|]. Qed.

Lemma Forall_behind {A} (P : A -> Prop) data l : Forall P l -> Forall P (behind data l).
Proof. intros Hl. unfold behind. by destruct (bool_decide _). Qed.

Context (base : Z -> Z) (nif : Z -> netif).
Context `{!Part udp X}.

(** The headers are written, and IP hands the new packet on. *)
Lemma output_beside s t1 p q c cs l b bq bs ub np src dest dport sport :
  put_front (stack s) t1 p q c cs l b bq bs -> Forall bytes_ok (c :: cs) -> Z.of_nat (length (concat (c :: cs))) + 28 < 65536 ->
  local_port ub = sport -> is_word sport -> is_word dport -> is_addr src -> is_addr dest -> is_byte (ttl ub) -> is_byte (tos ub) -> is_word (ip_id s) ->
  let data := concat (c :: cs) in
  exists t2 t3, udp_write_header base q ub dport src dest (set_stack t1 s) = Ok (set_stack t2 s) /\
    ip4_output_if_src nif q (Some src) (Some dest) (ttl ub) (tos ub) IP_PROTO_UDP np (set_stack t2 s) =
      transmit nif np q dest (Z.of_nat (length data) + 28) (set_ip_id (wrap16 (ip_id s + 1)) (set_stack t3 s)) /\
    in_front (stack s) t3 p q (ip_front ub (ip_id s) src dest data ++ udp_front ub sport dport src dest data) c cs.
Proof.
  intros Hpf Hok Hmax <- Hsp Hdp Hsrc Hdest Httl Htos Hid data. pose proof Hpf as [Hne Hpk Hbp Href Hbq Hcore Hnx Hp' Hout Har Hsz Hars Hch Hap Hql].
  injection Hcore as C1 C2 C3 C4 C5. set (l2 := behind (concat (c :: cs)) (p :: l)) in *. set (cs2 := behind (concat (c :: cs)) (c :: cs)) in *.
  assert (Hcs2 : concat cs2 = data) by apply concat_behind.
  assert (Hql2 : q ∉ l2) by (unfold l2, behind; destruct (bool_decide _); [apply not_elem_of_nil|done]).
  destruct (udp_write_any base q 36 cs2 (has_beside (pbufs t1) (areas t1) q l2 cs2)
    (beside_packet _ _ q 36 bq l2 cs2 Hbq C1) (beside_store _ _ q 36 bq l2 cs2 Hbq C1 Hap)
    s (bytes_at bs 36 8) [] ub dport src dest t1) as (t2&Hrun&Hpb&[_ Hars2 Hpk2]).
  { rewrite app_nil_r. by split. }
  { apply length_bytes_at; lia. }
  { constructor; [constructor|]. by apply Forall_behind. }
  1-4: done.
  { cbn [concat app]. rewrite Hcs2. unfold data. lia. }
  cbn [concat app] in Hpk2. rewrite Hcs2, app_nil_r in Hpk2. fold (udp_front ub (local_port ub) dport src dest data) in Hpk2.
  rewrite <- Hpb in Hbq, Hap. pose proof Hpk2 as [_ (bq'&Hbq'&Hlq&Htq&_&(a&o&bs2&Hpa&Ha&_&Hle&_)&_)].
  assert (bq' = bq) as -> by congruence. rewrite C1 in Hpa. injection Hpa as <- <-.
  cbn [concat] in Htq. rewrite length_app, length_udp_front, Hcs2 in Htq.
  assert (Hlen : len bq = 8) by (by rewrite C2). fold data in Hmax.
  exists t2, (view (set_pbufs (<[q := with_header IP_HLEN bq q 36]> (pbufs t2)) t2) q 16 bs2 (ip_front ub (ip_id s) src dest data)).
  split; [done|]. split.
  - rewrite (output_if_src_ok nif (set_stack t2 s) q bq q 36 bs2); try done; [|unfold contiguous_pbuf; by rewrite C3|lia|lia|lia].
    replace (tot_len bq + 20) with (Z.of_nat (length data) + 28) by lia. done.
  - split; [done|]. exists b, l. split; [done|]. split; [done|]. unfold view. cbn [pbufs areas set_pbufs set_areas]. split; [|split; [|split; [|split]]].
    + apply front_packet; try done. lia.
    + rewrite lookup_insert_ne by done. by rewrite Hpb.
    + intros x Hx Hxp. rewrite lookup_insert_ne, Hpb by done. by apply Hout.
    + intros a Hna. rewrite lookup_insert_ne, Hars2 by done. by apply Hars.
    + intros y Hy. rewrite lookup_insert_eq in Hy. rewrite lookup_insert_ne, Hpb by done. by apply (free_front _ _ _ _ _ _ _ _ _ _ y Hpf _ Hy).
Qed.

(** The whole. *)
Lemma sendto_beside K r st pcb b p o c cs s dest dport np src : sending K r st pcb b p o c cs s -> o < 8 ->
  is_word dport -> is_addr src -> is_addr dest ->
  let data := concat (c :: cs) in
  exists s', holds_socks (send_socks pcb b st) (us s') /\ ip_data s' = ip_data s /\
    ((udp_sendto_if_src base nif (Some pcb) (Some p) (Some dest) dport (Some np) (Some src) s = Ok (ERR_MEM, s') /\
        below K r (stack s') /\ pbufs (stack s') = pbufs (stack s) /\ areas (stack s') = areas (stack s)) \/
     exists q, udp_sendto_if_src base nif (Some pcb) (Some p) (Some dest) dport (Some np) (Some src) s =
         (let* (err, y) := transmit nif np q dest (Z.of_nat (length data) + 28) s' in
          let* y := drop_packet q y in Ok (err, y)) /\
       in_front (stack s) (stack s') p q (ip_front b (ip_id s) src dest data ++ udp_front b (send_port b st) dport src dest data) c cs).
Proof.
  intros Hsd Ho Hdp Hsrc Hdest data. destruct (sendto_start base nif K r st pcb b p o c cs s dest dport np src Hsd) as (x&ub&Hx&Hub&Eport&Etos&Ettl&Efl&->).
  destruct Hsd as [Hb HK Hok Hmax Hst _ Hin [Httl Htos] Hid]. destruct (send_bound st pcb b Hst Hin) as (_&_&Hport).
  destruct (room_beside K r (put_udp x s) p o c cs Hb HK Ho Hmax) as (t1&[(->&Hb1&Hpb&Har)|(q&l&b0&bq&bs&->&Hpf)]); cbn [rbind].
  - exists (set_stack t1 (put_udp x s)). split; [change (holds_socks (send_socks pcb b st) (us (put_udp x s))); by rewrite us_put|].
    split; [done|]. by left.
  - change (us (set_stack t1 (put_udp x s))) with (us (put_udp x s)). rewrite us_put, (u_deref_ok _ _ _ Hub). cbn [rbind].
    destruct (output_beside (put_udp x s) t1 p q c cs l b0 bq bs ub np src dest dport (send_port b st) Hpf Hok Hmax Eport)
      as (t2&t3&->&Hout&Hin3); try done; [unfold is_word; lia|by rewrite Ettl|by rewrite Etos|]. cbn [rbind]. rewrite Hout.
    exists (set_ip_id (wrap16 (ip_id s + 1)) (set_stack t3 (put_udp x s))).
    split; [change (holds_socks (send_socks pcb b st) (us (put_udp x s))); by rewrite us_put|]. split; [done|]. right. exists q.
    rewrite (proj2 (Z.eqb_neq q p)) by exact (pf_ne _ _ _ _ _ _ _ _ _ _ Hpf). split; [done|].
    unfold ip_front, udp_front in *. rewrite Ettl, Etos, Efl in Hin3. exact Hin3.
Qed.
End room.
