(* ===== verification/UdpProps.v ===== *)
(** * What UDP promises

    The theorems about [src/lib/lwip/src/core/udp.c]: calls on control blocks in any
    order, what becomes of a datagram that comes in, what is sent, and runs of them
    with ARP, the packet buffers, the pools and the heap below. *)

From stdpp Require Import base numbers decidable gmap gmultiset list.
From Stdlib Require Import ZArith Lia Bool.
From S2P Require Import Prelude Linked LwipMem LwipHeap LwipHeapRun Pbuf PbufChain PbufPool PbufProps OnesComp InetChksum InetChksumProps PbufView Ip4Addr Ethernet Ip4 Icmp Ip4Input Ip4Props IcmpProps Etharp EtharpInv EtharpRun EtharpProps PbufOwn PbufHeap NetStack Below BelowIcmp Ip4ReassSpec NetLaws Ip4ReassTheorems Udp UdpBlocks UdpInput UdpSend UdpRoom.
Open Scope Z_scope.

(** ** Control blocks *)

(** C38. Whatever calls are made on control blocks, in whatever order, by callers
    that pass control blocks they have: every call returns, answers as the
    specification says, and afterwards every control block is in exactly one
    place, the active ones have a port, no two of them are bound to the same
    address and port, and the last local port is in its range. *)
Theorem udp_calls_refine cs st x : socks_ok st -> holds_socks st x -> calls_ok cs st ->
  exists x', run_calls cs x = Ok ((spec_calls cs st).1, x') /\ holds_socks (spec_calls cs st).2 x' /\ socks_ok (spec_calls cs st).2.
Proof. apply calls_refine. Qed.

(** Two control blocks: the second cannot have the port of the first one, gets one of
    its own, is connected, and after the first one is gone gets its port. *)
Definition some_calls : list udp_call :=
  [call_new; call_bind 1 None 7; call_recv 1 (Some 100) 5; call_new; call_bind 2 (Some 0x0100000a) 7; call_bind 2 None 0;
   call_connect 2 0x0200000a 9; call_remove 1; call_bind 2 None 7; call_new].

#[export] Instance held_by_dec p st : Decision (held_by p st) := list_elem_of_dec p _.

#[export] Instance call_ok_dec c st : Decision (call_ok c st).
Proof. destruct c; cbn; apply _. Defined.

#[export] Instance calls_ok_dec cs st : Decision (calls_ok cs st).
Proof. revert st. induction cs as [|c cs IH]; intros st; cbn; apply _. Defined.

Lemma some_calls_ok : calls_ok some_calls no_socks.
Proof. apply (bool_decide_unpack _). vm_compute. exact I. Qed.

Lemma udp_calls_refine_witness :
  exists x', run_calls some_calls udp_start =
    Ok ([Block (Some 1); Code ERR_OK; Code ERR_OK; Block (Some 2); Code ERR_USE; Code ERR_OK; Code ERR_OK; Code ERR_OK; Code ERR_OK; Block (Some 1)], x') /\
    udp_port x' = 0xc001.
Proof.
  destruct udp_start_ok as [Hst Hx]. destruct (udp_calls_refine some_calls no_socks udp_start Hst Hx some_calls_ok) as (x'&Hrun&Hx'&_).
  exists x'. split; [exact Hrun|]. rewrite (hs_port _ _ Hx'). reflexivity.
Defined.

(** ** Datagrams *)

Section theorems.
Context {X H : Type} `{OutputLaws X H} `{!UdpUsers X H, !Part udp X}.
Context (base : Z -> Z) (nif : Z -> netif) (netif_default : option Z).
Implicit Types (s : ip4 X H) (r : gmultiset Z) (K : gmap Z (Z * list (list Z))) (st : socks).

(** C39. A datagram that comes in goes to a control block both of whose ends match, if
    there is one, else to one without a remote end: its callback is called with
    the data behind the header and the address and port of the sender.  It is
    dropped if it is too short for a header, if its checksum is there and wrong,
    or if nobody listens and it was not sent to our address alone; if it was, the
    sender gets a message that quotes the IP header.  In every case the call
    returns, the control blocks keep their invariant, and the packets of others
    are untouched. *)
Theorem udp_input_verdict K r st p inp src dest o c cs s : arriving K r st p inp src dest o c cs s ->
  let '(y, l) := chosen (nif inp) src dest c (active st) in
  let st' := mk_socks l (unbound st) (free_blocks st) (last_port st) in
  treated base nif netif_default K r st' p src o c cs s
    (verdict_on (nif inp) src dest c cs (active st)) (Udp.udp_input base nif netif_default p inp s) /\
  socks_ok st' /\
  (UDP_HLEN <= Z.of_nat (length c) ->
   match y with
   | Some z => z ∈ active st /\ (full_match (nif inp) src dest (sport_of c) (dport_of c) z = true \/
       (half_match (nif inp) dest (dport_of c) z = true /\
        forall w, w ∈ active st -> full_match (nif inp) src dest (sport_of c) (dport_of c) w = false))
   | None => forall z, z ∈ active st -> full_match (nif inp) src dest (sport_of c) (dport_of c) z = false /\ half_match (nif inp) dest (dport_of c) z = false
   end).
Proof.
  intros Har. pose proof (input_ok base nif netif_default K r st p inp src dest o c cs s Har) as Hin. pose proof (ar_socks _ _ _ _ _ _ _ _ _ _ _ Har) as Hst.
  pose proof (select_sound (nif inp) src dest (sport_of c) (dport_of c) (active st)) as Hs.
  pose proof (select_perm (nif inp) src dest (sport_of c) (dport_of c) (active st) (proj1 (sock_names st Hst))) as Hp.
  unfold chosen in *. destruct (Z.ltb_spec (Z.of_nat (length c)) UDP_HLEN).
  - split; [done|]. split; [by apply reorder_ok|lia].
  - destruct (select _ _ _ _ _ (active st)) as [y l]. split; [done|]. split; [by apply reorder_ok|done].
Qed.

(** The interface a datagram is sent on, and the address it is sent from. *)
Definition out_netif (b : udp_pcb) (dest : Z) : option Z :=
  if netif_idx b =? NETIF_NO_INDEX then ip4_route nif netif_default dest else netif_get_by_index nif netif_default (netif_idx b).

Definition out_addr (b : udp_pcb) (np : Z) : option Z :=
  if ip4_addr_isany (local_ip b) || ip4_addr_ismulticast (local_ip b) then Some (ip_addr (nif np))
  else if local_ip b =? ip_addr (nif np) then Some (local_ip b) else None.

(** Sending one packet on the interface [np] from the address [src]: what the caller
    gets, and what the interface gets, by the room [o] in front of the data. *)
Definition sends K r st (pcb : Z) (b : udp_pcb) (p o : Z) (c : list Z) (cs : list (list Z)) s (dest dport np src : Z)
    (run : result (err_t * ip4 X H)) : Prop :=
  let data := concat (c :: cs) in
  let sport := send_port b st in
  let d := udp_front b sport dport src dest data in
  let h := ip_front b (ip_id s) src dest data in
  let total := Z.of_nat (length data) + 28 in
  exists s', holds_socks (send_socks pcb b st) (us s') /\ ip_data s' = ip_data s /\
    if decide (28 <= o) then run = transmit nif np p dest total s' /\ below (<[p := (o - 28, (h ++ d ++ c) :: cs)]> K) r (stack s')
    else if decide (8 <= o) then run = Ok (ERR_BUF, s') /\ below (<[p := (o - 8, (d ++ c) :: cs)]> K) r (stack s')
    else (run = Ok (ERR_MEM, s') /\ below K r (stack s') /\ pbufs (stack s') = pbufs (stack s) /\ areas (stack s') = areas (stack s)) \/
         exists q, run = (let* (err, y) := transmit nif np q dest total s' in let* y := drop_packet q y in Ok (err, y)) /\
           in_front (stack s) (stack s') p q (h ++ d) c cs.

Lemma sends_ok K r st pcb b p o c cs s dest dport np src : sending K r st pcb b p o c cs s -> is_word dport -> is_addr src -> is_addr dest ->
  sends K r st pcb b p o c cs s dest dport np src (udp_sendto_if_src base nif (Some pcb) (Some p) (Some dest) dport (Some np) (Some src) s).
Proof.
  intros Hsd Hdp Hsrc Hdest. unfold sends. destruct (decide (28 <= o)); [|destruct (decide (8 <= o))].
  - destruct (sendto_if_src_ok base nif K r st pcb b p o c cs s dest dport np src Hsd) as (s'&?&?&?&?); [done..|]. by exists s'.
  - destruct (sendto_no_ip_room base nif K r st pcb b p o c cs s dest dport np src Hsd) as (s'&?&?&?&?); [lia|done..|]. by exists s'.
  - apply (sendto_beside base nif K r st pcb b p o c cs s dest dport np src Hsd); [lia|done..].
Qed.

(** What the receiver finds in the bytes that are sent: the right checksum and both
    ports, whether the data are in the buffer of the header or behind it. *)
Lemma sends_read K r st pcb b p o c cs s dest dport src : sending K r st pcb b p o c cs s -> is_word dport -> is_addr src -> is_addr dest ->
  let d := udp_front b (send_port b st) dport src dest (concat (c :: cs)) in
  damaged src dest (d ++ c) cs = false /\ damaged src dest d (behind (concat (c :: cs)) (c :: cs)) = false /\
  sport_of (d ++ c) = send_port b st /\ dport_of (d ++ c) = dport.
Proof.
  intros [_ _ Hok Hmax Hst _ Hin _ _] Hdp Hsrc Hdest d. destruct (send_bound st pcb b Hst Hin) as (_&_&Hport).
  destruct (not_damaged (u_flags b) (send_port b st) dport src dest c cs) as (Hd1&Hd2&Hd3); [unfold is_word; lia|done..|lia|].
  split; [exact Hd1|]. split; [|by split].
  destruct (not_damaged (u_flags b) (send_port b st) dport src dest [] (behind (concat (c :: cs)) (c :: cs))) as (Hd&_); [unfold is_word; lia|done|done|done| | |].
  - constructor; [constructor|by apply Forall_behind].
  - change (concat ([] :: ?l)) with (concat l). rewrite concat_behind. lia.
  - change (concat ([] :: ?l)) with (concat l) in Hd. rewrite concat_behind, app_nil_r in Hd. exact Hd.
Qed.

End theorems.

(** ** Runs *)

Definition udp_no_frag (p np dest : Z) (s : ip4 udp (net Mem.heap)) : result (err_t * ip4 udp (net Mem.heap)) := Ok (ERR_OK, s).

#[local] Instance udp_neighbours : Neighbours udp (net Mem.heap) := arp_neighbours copy_out ping_nif udp_no_frag.

#[local, refine] Instance udp_laws : OutputLaws udp (net Mem.heap) :=
  arp_below copy_out ping_nif (fun tab c => @copy_out_keeps _ _ (net_laws tab c)) udp_no_frag _.
Proof. intros K r np p dest s Hb _ _. exists ERR_OK, (stack s). split; [by destruct s|done]. Defined.

(** A callback that throws the data away. *)
#[local] Instance udp_discard : UdpUsers udp (net Mem.heap) := {| recv_fn f arg pcb p addr port s := drop_packet p s |}.

(** A datagram from port 0x1234 of 10.0.0.2 to port 7 of 10.0.0.1, behind its IP
    header. *)
Definition udp_bytes : list Z := [0x12; 0x34; 0; 7; 0; 10; 0x71; 0x33; 104; 105].
Definition udp_packet : list Z := [0x45; 0; 0; 30; 0; 1; 0; 0; 64; 17; 0; 0; 10; 0; 0; 2; 10; 0; 0; 1] ++ udp_bytes.

Definition udp_here (p : Z) (x : udp) (t : lwip (net Mem.heap)) : ip4 udp (net Mem.heap) :=
  mk_ip4 0 (mk_ip_globals (Some 0) (Some 0) (Some (p, 0)) 20 0x0200000a 0x0100000a) x t.

Lemma udp_here_ok K st p x t : below (X := udp) K ({[+ p +]} ⊎ ∅) t -> K !! p = Some (20, [udp_bytes]) -> socks_ok st -> holds_socks st x ->
  arriving K ∅ st p 0 0x0200000a 0x0100000a 20 udp_bytes [] (udp_here p x t).
Proof. intros Hb HK Hst Hx. split; try done. repeat constructor; done. Qed.

(** The stack when it comes in, after some calls; [t] is the memory at the start. *)
Definition udp_arrival (t : lwip (net Mem.heap)) (cs : list udp_call) : result (Z * ip4 udp (net Mem.heap)) :=
  let* (_, x) := run_calls cs udp_start in
  let* (o, t) := load udp_packet t in
  let* p := not_null o in
  let* (_, t) := pbuf_remove_header (Some p) 20 t in
  Ok (p, udp_here p x t).

Lemma udp_arrival_ok t cs p s : below (X := udp) ∅ ∅ t -> calls_ok cs no_socks -> udp_arrival t cs = Ok (p, s) ->
  exists K, arriving K ∅ (spec_calls cs no_socks).2 p 0 0x0200000a 0x0100000a 20 udp_bytes [] s.
Proof.
  intros Hb0 Hok Hl. destruct udp_start_ok as [Hst Hx]. destruct (calls_refine cs no_socks udp_start Hst Hx Hok) as (x&Hrun&Hx'&Hst').
  unfold udp_arrival in Hl. rewrite Hrun in Hl. cbn [rbind] in Hl. destruct (load udp_packet t) as [[[q|] t1]|] eqn:Hld; [|done..]. cbn [rbind not_null] in Hl.
  destruct (load_ok ∅ ∅ t udp_packet q t1 Hb0 ltac:(done) Hld) as [Hb _].
  destruct (kept_remove_header _ _ t1 q 0 udp_packet [] 20 Hb (lookup_insert_eq _ _ _) ltac:(cbn; lia)) as (t'&Hrm&_&Hb').
  rewrite Hrm in Hl. cbn [rbind] in Hl. injection Hl as <- <-. rewrite insert_insert_eq in Hb'.
  eexists. apply udp_here_ok; [exact Hb'|apply lookup_insert_eq|done|done].
Qed.

Lemma udp_boot : below (X := udp) ∅ ∅ (boot_on (net_start Mem.mem_init)).
Proof. exact (net_boot_below ping_nif). Qed.

(** Somebody listens to port 7, and nobody does. *)
Lemma udp_input_verdict_witness :
  (exists p s s', udp_arrival (boot_on (net_start Mem.mem_init)) (take 3 some_calls) = Ok (p, s) /\
     Udp.udp_input at_zero ping_nif (Some 0) p 0 s = recv_fn 100 5 1 p 0x0200000a 0x1234 s') /\
  (exists p s s1 s2 s', udp_arrival (boot_on (net_start Mem.mem_init)) [] = Ok (p, s) /\ Udp.udp_input at_zero ping_nif (Some 0) p 0 s = Ok s' /\
     icmp_dest_unreach at_zero ping_nif (Some 0) p ICMP_DUR_PORT s1 = Ok s2 /\ drop_packet p s2 = Ok s').
Proof.
  split.
  - destruct (udp_arrival (boot_on (net_start Mem.mem_init)) (take 3 some_calls)) as [[p s]|] eqn:Hl; [|vm_compute in Hl; discriminate Hl].
    destruct (udp_arrival_ok _ (take 3 some_calls) p s udp_boot) as [K Har]; [apply (bool_decide_unpack _); vm_compute; exact I|done|].
    destruct (udp_input_verdict at_zero ping_nif (Some 0) K ∅ _ p 0 0x0200000a 0x0100000a 20 udp_bytes [] s Har) as [(s'&Hrun&_) _].
    exists p, s, s'. split; [done|exact Hrun].
  - destruct (udp_arrival (boot_on (net_start Mem.mem_init)) []) as [[p s]|] eqn:Hl; [|vm_compute in Hl; discriminate Hl].
    destruct (udp_arrival_ok _ [] p s udp_boot) as [K Har]; [exact I|done|].
    destruct (udp_input_verdict at_zero ping_nif (Some 0) K ∅ _ p 0 0x0200000a 0x0100000a 20 udp_bytes [] s Har) as [(s1&s2&s'&b&_&_&_&Hi&Hd&Hr&_) _].
    exists p, s, s1, s2, s'. by split_and!.
Defined.

(** Two bytes with [k] bytes of room in front, and control blocks after some calls. *)
Definition udp_data : list Z := [104; 105].
Definition udp_blank (k : nat) : list Z := replicate k 0 ++ udp_data.

Definition udp_ready (k : nat) (t : lwip (net Mem.heap)) (cs : list udp_call) : result (Z * ip4 udp (net Mem.heap)) :=
  let* (_, x) := run_calls cs udp_start in
  let* (o, t) := load (udp_blank k) t in
  let* p := not_null o in
  let* (_, t) := pbuf_remove_header (Some p) (Z.of_nat k) t in
  Ok (p, mk_ip4 0 no_packet x t).

Lemma udp_ready_ok k t cs p s pcb b : below (X := udp) ∅ ∅ t -> calls_ok cs no_socks -> udp_ready k t cs = Ok (p, s) ->
  (pcb, b) ∈ active (spec_calls cs no_socks).2 ++ unbound (spec_calls cs no_socks).2 -> is_byte (ttl b) /\ is_byte (tos b) -> (0 < k < 100)%nat ->
  exists K, sending K ({[+ p +]} ⊎ ∅) (spec_calls cs no_socks).2 pcb b p (Z.of_nat k) udp_data [] s.
Proof.
  intros Hb0 Hok Hl Hin Hf Hk. destruct udp_start_ok as [Hst Hx]. destruct (calls_refine cs no_socks udp_start Hst Hx Hok) as (x&Hrun&Hx'&Hst').
  unfold udp_ready in Hl. rewrite Hrun in Hl. cbn [rbind] in Hl. destruct (load (udp_blank k) t) as [[[q|] t1]|] eqn:Hld; [|done..]. cbn [rbind not_null] in Hl.
  assert (Hlen : length (udp_blank k) = (k + 2)%nat) by (unfold udp_blank; by rewrite length_app, length_replicate).
  destruct (load_ok ∅ ∅ t (udp_blank k) q t1 Hb0 ltac:(lia) Hld) as [Hb _].
  destruct (kept_remove_header _ _ t1 q 0 (udp_blank k) [] (Z.of_nat k) Hb (lookup_insert_eq _ _ _) ltac:(lia)) as (t'&Hrm&_&Hb').
  rewrite Hrm in Hl. cbn [rbind] in Hl. injection Hl as <- <-. rewrite insert_insert_eq, Nat2Z.id in Hb'.
  unfold udp_blank in Hb'. rewrite drop_app_length' in Hb' by (by rewrite length_replicate).
  eexists. split; [exact Hb'|apply lookup_insert_eq|repeat constructor; done|done..].
Qed.

Lemma udp_ready_id k t cs p s : udp_ready k t cs = Ok (p, s) -> ip_id s = 0.
Proof. unfold udp_ready. intros Hl. inv_bind. repeat (case_match; inv_bind; try done). by subst. Qed.

