(* ===== verification/Fw.v ===== *)
(** * The application: state and SDK of [src/src/main.c]

    The globals of the application, the calls it makes into the FX3 SDK, and
    the functions through which it carries out the driver's requests.  The SDK
    is not part of the sources: it is the class [Sdk], which answers every
    call, and the calls are recorded in the order they are made.  Debug output
    is left out. *)

From stdpp Require Import base numbers list decidable gmap.
From Stdlib Require Import ZArith Lia Bool.
From S2P Require Import Prelude NcmTypes BlockList UsbDesc LwipMem Pbuf PbufChain.
Open Scope Z_scope.

(** ** Calls into the SDK *)

Inductive dma_channel : Type :=
| glChHandleNotifier
| glChHandleBulkSink
| glChHandleBulkSrc.

#[export] Instance dma_channel_eq_dec : EqDecision dma_channel.
Proof. solve_decision. Defined.

Inductive CyU3PUSBSpeed_t : Type :=
| CY_U3P_NOT_CONNECTED
| CY_U3P_FULL_SPEED
| CY_U3P_HIGH_SPEED
| CY_U3P_SUPER_SPEED.

Inductive ep_type : Type :=
| CY_U3P_USB_EP_CONTROL
| CY_U3P_USB_EP_BULK
| CY_U3P_USB_EP_INTR.

(** The members the application sets; the structure is cleared first. *)
Record CyU3PEpConfig_t : Type := mk_ep_config {
  ep_enable : bool;
  ep_epType : ep_type;
  ep_streams : Z;
  ep_pcktSize : Z;
  ep_burstLen : Z
}.

Inductive socket : Type :=
| CY_U3P_CPU_SOCKET_PROD
| CY_U3P_CPU_SOCKET_CONS
| CY_FX_EP_NOTIFIER_SOCKET
| CY_FX_EP_PRODUCER_SOCKET
| CY_FX_EP_CONSUMER_SOCKET.

Inductive dma_type : Type :=
| CY_U3P_DMA_TYPE_MANUAL_IN
| CY_U3P_DMA_TYPE_MANUAL_OUT.

(** [dma_cb]: whether the callback is [CyFxDmaCallback] or null. *)
Record CyU3PDmaChannelConfig_t : Type := mk_dma_config {
  dma_size : Z;
  dma_count : Z;
  dma_prodSckId : socket;
  dma_consSckId : socket;
  dma_notification : Z;
  dma_cb : bool
}.

Inductive desc_kind : Type :=
| CY_U3P_USB_SET_HS_DEVICE_DESCR
| CY_U3P_USB_SET_HS_CONFIG_DESCR
| CY_U3P_USB_SET_FS_CONFIG_DESCR
| CY_U3P_USB_SET_STRING_DESCR.

(** A commit carries the bytes that are in the buffer. *)
Inductive sdk_call : Type :=
| CyU3PUsbGetSpeed
| CyU3PSetEpConfig (ep : Z) (cfg : CyU3PEpConfig_t)
| CyU3PUsbFlushEp (ep : Z)
| CyU3PUsbResetEp (ep : Z)
| CyU3PUsbSetEpNak (ep : Z) (nak : bool)
| CyU3PUsbStall (ep : Z) (stall toggle : bool)
| CyU3PUsbAckSetup
| CyU3PUsbSendEP0Data (count : Z) (buffer : list Z)
| CyU3PUsbRegisterEpEvtCallback
| CyU3PDmaChannelCreate (ch : dma_channel) (type : dma_type) (cfg : CyU3PDmaChannelConfig_t)
| CyU3PDmaChannelDestroy (ch : dma_channel)
| CyU3PDmaChannelSetXfer (ch : dma_channel) (count : Z)
| CyU3PDmaChannelReset (ch : dma_channel)
| CyU3PDmaChannelGetBuffer (ch : dma_channel) (ticks : Z)
| CyU3PDmaChannelCommitBuffer (ch : dma_channel) (count status : Z) (bytes : list Z)
| CyU3PDmaChannelDiscardBuffer (ch : dma_channel)
| CyU3PBusyWait (us : Z)
| CyU3PThreadSleep (ms : Z)
| CyU3PEventCreate
| CyU3PEventSet (mask : Z)
| CyU3PEventGet (mask ticks : Z)
| CyU3PTimerCreate
| CyU3PTimerStop
| CyU3PTimerModify (ticks reload : Z)
| CyU3PTimerStart
| CyU3PUsbLPMDisable
| CyU3PUsbLPMEnable
| CyU3PUsbRegisterSetupCallback (fast : bool)
| CyU3PUsbRegisterEventCallback
| CyU3PUsbRegisterLPMRequestCallback
| CyU3PUsbStart
| CyU3PUsbStop
| CyU3PConnectState (connect ss : bool)
| CyU3PUsbSetDesc (kind : desc_kind) (index : Z) (bytes : list Z)
| CyU3PDmaBufferAlloc (n : Z)
| CyU3PUsbInitEventLog (buffer n : Z)
| CyU3PUsbGetEventLogIndex
| CyU3PUsbSendDevNotification
| CyU3PUsbDoRemoteWakeup
| CyU3PUsbGetLinkPowerState
| CyU3PUsbSetLinkPowerState
| CyU3PSysEnterStandbyMode
| CyU3PGpioInit
| CyU3PGpioSetSimpleConfig (gpio : Z)
| CyU3PGpioSimpleSetValue (gpio : Z) (v : bool)
| CyU3PUartInit
| CyU3PUartDeInit
| CyU3PUartSetConfig
| CyU3PUartTxSetBlockXfer (n : Z)
| CyU3PDebugInit
| CyU3PDebugDeInit
| CyU3PDebugPreamble (b : bool)
| CyU3PMemAlloc (n : Z)
| CyU3PThreadCreate (name : nat) (stack priority : Z)
| CyU3PDeviceInit
| CyU3PDeviceCacheControl (i d dma : bool)
| CyU3PDeviceConfigureIOMatrix
| CyU3PKernelEntry.

(** What a call answers: the status, a number (an address, an index, event
    flags), the bus speed, and the bytes of a DMA buffer. *)
Record sdk_ret : Type := mk_ret {
  r_status : CyU3PReturnStatus_t;
  r_value : Z;
  r_speed : CyU3PUSBSpeed_t;
  r_bytes : list Z
}.

Class Sdk (O : Type) : Type := sdk : sdk_call -> O -> sdk_ret * O.

(** ** State *)

Definition CYFX_USB_CTRL_TASK : Z := 1.
Definition CYFX_USB_HOSTWAKE_TASK : Z := 2.
Definition CYFX_USBLOG_SIZE : Z := 0x1000.
Definition FX3_GPIO_TEST_OUT : Z := 50.
Definition CY_FX_BULKSRCSINK_DMA_TX_SIZE : Z := 0.
Definition CY_FX_BULKSRCSINK_THREAD_STACK : Z := 0x1000.
Definition CY_FX_BULKSRCSINK_THREAD_PRIORITY : Z := 8.

(** The globals of [main.c], the network stack and the SDK. *)
Record fw (O H : Type) : Type := mk_fw {
  glIsApplnActive : bool;
  glDMARxCount : Z;
  glDMATxCount : Z;
  glDataTransStarted : bool;
  StandbyModeEnable : bool;
  TriggerStandbyMode : bool;
  glForceLinkU2 : bool;
  glEp0StatCount : Z;
  gl_setupdat0 : Z;
  gl_setupdat1 : Z;
  glSrcEpFlush : bool;
  gl_UsbLogBuffer : Z;
  received_frame : option Z;
  stack : lwip H;
  sdk_state : O;
  sdk_log : list sdk_call
}.
Arguments mk_fw {O H}.
Arguments glIsApplnActive {O H}.
Arguments glDMARxCount {O H}.
Arguments glDMATxCount {O H}.
Arguments glDataTransStarted {O H}.
Arguments StandbyModeEnable {O H}.
Arguments TriggerStandbyMode {O H}.
Arguments glForceLinkU2 {O H}.
Arguments glEp0StatCount {O H}.
Arguments gl_setupdat0 {O H}.
Arguments gl_setupdat1 {O H}.
Arguments glSrcEpFlush {O H}.
Arguments gl_UsbLogBuffer {O H}.
Arguments received_frame {O H}.
Arguments stack {O H}.
Arguments sdk_state {O H}.
Arguments sdk_log {O H}.

Section setters.
Context {O H : Type}.
Definition set_glIsApplnActive (v : bool) (s : fw O H) : fw O H :=
  mk_fw v (glDMARxCount s) (glDMATxCount s) (glDataTransStarted s) (StandbyModeEnable s) (TriggerStandbyMode s) (glForceLinkU2 s) (glEp0StatCount s) (gl_setupdat0 s) (gl_setupdat1 s) (glSrcEpFlush s) (gl_UsbLogBuffer s) (received_frame s) (stack s) (sdk_state s) (sdk_log s).
Definition set_glDMARxCount (v : Z) (s : fw O H) : fw O H :=
  mk_fw (glIsApplnActive s) v (glDMATxCount s) (glDataTransStarted s) (StandbyModeEnable s) (TriggerStandbyMode s) (glForceLinkU2 s) (glEp0StatCount s) (gl_setupdat0 s) (gl_setupdat1 s) (glSrcEpFlush s) (gl_UsbLogBuffer s) (received_frame s) (stack s) (sdk_state s) (sdk_log s).
Definition set_glDMATxCount (v : Z) (s : fw O H) : fw O H :=
  mk_fw (glIsApplnActive s) (glDMARxCount s) v (glDataTransStarted s) (StandbyModeEnable s) (TriggerStandbyMode s) (glForceLinkU2 s) (glEp0StatCount s) (gl_setupdat0 s) (gl_setupdat1 s) (glSrcEpFlush s) (gl_UsbLogBuffer s) (received_frame s) (stack s) (sdk_state s) (sdk_log s).
Definition set_glDataTransStarted (v : bool) (s : fw O H) : fw O H :=
  mk_fw (glIsApplnActive s) (glDMARxCount s) (glDMATxCount s) v (StandbyModeEnable s) (TriggerStandbyMode s) (glForceLinkU2 s) (glEp0StatCount s) (gl_setupdat0 s) (gl_setupdat1 s) (glSrcEpFlush s) (gl_UsbLogBuffer s) (received_frame s) (stack s) (sdk_state s) (sdk_log s).
Definition set_StandbyModeEnable (v : bool) (s : fw O H) : fw O H :=
  mk_fw (glIsApplnActive s) (glDMARxCount s) (glDMATxCount s) (glDataTransStarted s) v (TriggerStandbyMode s) (glForceLinkU2 s) (glEp0StatCount s) (gl_setupdat0 s) (gl_setupdat1 s) (glSrcEpFlush s) (gl_UsbLogBuffer s) (received_frame s) (stack s) (sdk_state s) (sdk_log s).
Definition set_TriggerStandbyMode (v : bool) (s : fw O H) : fw O H :=
  mk_fw (glIsApplnActive s) (glDMARxCount s) (glDMATxCount s) (glDataTransStarted s) (StandbyModeEnable s) v (glForceLinkU2 s) (glEp0StatCount s) (gl_setupdat0 s) (gl_setupdat1 s) (glSrcEpFlush s) (gl_UsbLogBuffer s) (received_frame s) (stack s) (sdk_state s) (sdk_log s).
Definition set_glForceLinkU2 (v : bool) (s : fw O H) : fw O H :=
  mk_fw (glIsApplnActive s) (glDMARxCount s) (glDMATxCount s) (glDataTransStarted s) (StandbyModeEnable s) (TriggerStandbyMode s) v (glEp0StatCount s) (gl_setupdat0 s) (gl_setupdat1 s) (glSrcEpFlush s) (gl_UsbLogBuffer s) (received_frame s) (stack s) (sdk_state s) (sdk_log s).
Definition set_glEp0StatCount (v : Z) (s : fw O H) : fw O H :=
  mk_fw (glIsApplnActive s) (glDMARxCount s) (glDMATxCount s) (glDataTransStarted s) (StandbyModeEnable s) (TriggerStandbyMode s) (glForceLinkU2 s) v (gl_setupdat0 s) (gl_setupdat1 s) (glSrcEpFlush s) (gl_UsbLogBuffer s) (received_frame s) (stack s) (sdk_state s) (sdk_log s).
Definition set_gl_setupdat0 (v : Z) (s : fw O H) : fw O H :=
  mk_fw (glIsApplnActive s) (glDMARxCount s) (glDMATxCount s) (glDataTransStarted s) (StandbyModeEnable s) (TriggerStandbyMode s) (glForceLinkU2 s) (glEp0StatCount s) v (gl_setupdat1 s) (glSrcEpFlush s) (gl_UsbLogBuffer s) (received_frame s) (stack s) (sdk_state s) (sdk_log s).
Definition set_gl_setupdat1 (v : Z) (s : fw O H) : fw O H :=
  mk_fw (glIsApplnActive s) (glDMARxCount s) (glDMATxCount s) (glDataTransStarted s) (StandbyModeEnable s) (TriggerStandbyMode s) (glForceLinkU2 s) (glEp0StatCount s) (gl_setupdat0 s) v (glSrcEpFlush s) (gl_UsbLogBuffer s) (received_frame s) (stack s) (sdk_state s) (sdk_log s).
Definition set_glSrcEpFlush (v : bool) (s : fw O H) : fw O H :=
  mk_fw (glIsApplnActive s) (glDMARxCount s) (glDMATxCount s) (glDataTransStarted s) (StandbyModeEnable s) (TriggerStandbyMode s) (glForceLinkU2 s) (glEp0StatCount s) (gl_setupdat0 s) (gl_setupdat1 s) v (gl_UsbLogBuffer s) (received_frame s) (stack s) (sdk_state s) (sdk_log s).
Definition set_gl_UsbLogBuffer (v : Z) (s : fw O H) : fw O H :=
  mk_fw (glIsApplnActive s) (glDMARxCount s) (glDMATxCount s) (glDataTransStarted s) (StandbyModeEnable s) (TriggerStandbyMode s) (glForceLinkU2 s) (glEp0StatCount s) (gl_setupdat0 s) (gl_setupdat1 s) (glSrcEpFlush s) v (received_frame s) (stack s) (sdk_state s) (sdk_log s).
Definition set_received_frame (v : option Z) (s : fw O H) : fw O H :=
  mk_fw (glIsApplnActive s) (glDMARxCount s) (glDMATxCount s) (glDataTransStarted s) (StandbyModeEnable s) (TriggerStandbyMode s) (glForceLinkU2 s) (glEp0StatCount s) (gl_setupdat0 s) (gl_setupdat1 s) (glSrcEpFlush s) (gl_UsbLogBuffer s) v (stack s) (sdk_state s) (sdk_log s).
Definition set_stack (v : lwip H) (s : fw O H) : fw O H :=
  mk_fw (glIsApplnActive s) (glDMARxCount s) (glDMATxCount s) (glDataTransStarted s) (StandbyModeEnable s) (TriggerStandbyMode s) (glForceLinkU2 s) (glEp0StatCount s) (gl_setupdat0 s) (gl_setupdat1 s) (glSrcEpFlush s) (gl_UsbLogBuffer s) (received_frame s) v (sdk_state s) (sdk_log s).
Definition set_sdk (o : O) (c : sdk_call) (s : fw O H) : fw O H :=
  mk_fw (glIsApplnActive s) (glDMARxCount s) (glDMATxCount s) (glDataTransStarted s) (StandbyModeEnable s) (TriggerStandbyMode s) (glForceLinkU2 s) (glEp0StatCount s) (gl_setupdat0 s) (gl_setupdat1 s) (glSrcEpFlush s) (gl_UsbLogBuffer s) (received_frame s) (stack s) o (sdk_log s ++ [c]).
End setters.

(** ** Programs of the application *)

Definition FM (O H A : Type) : Type := fw O H -> result (A * fw O H).
Definition fret {O H A} (a : A) : FM O H A := fun s => Ok (a, s).
Definition fbind {O H A B} (m : FM O H A) (k : A -> FM O H B) : FM O H B :=
  fun s => match m s with Ok (a, s') => k a s' | Fault f => Fault f end.
Definition fget {O H A} (g : fw O H -> A) : FM O H A := fun s => Ok (g s, s).
Definition fset {O H} (g : fw O H -> fw O H) : FM O H unit := fun s => Ok (tt, g s).
Definition fail {O H A} (f : fault) : FM O H A := fun _ => Fault f.

Notation "'let%' x ':=' m 'in' k" := (fbind m (fun x => k))
  (at level 10, x pattern, m at level 100, k at level 200,
   format "'[v' 'let%'  x  ':='  m  'in' '/' k ']'") : fx3_scope.
Notation "m '%;' k" := (fbind m (fun _ => k))
  (at level 100, k at level 200, right associativity, format "'[v' m  '%;' '/' k ']'") : fx3_scope.

(** A call into the SDK, and one whose answer is not used. *)
Definition call {O H} `{Sdk O} (c : sdk_call) : FM O H sdk_ret :=
  fun s => let '(r, o) := sdk c (sdk_state s) in Ok (r, set_sdk o c s).
Definition call_ {O H} `{Sdk O} (c : sdk_call) : FM O H unit := call c %; fret tt.
Definition call_status {O H} `{Sdk O} (c : sdk_call) : FM O H CyU3PReturnStatus_t :=
  let% r := call c in fret (r_status r).

(** [apiRetStatus != CY_U3P_SUCCESS]. *)
Definition failed (st : CyU3PReturnStatus_t) : bool := negb (bool_decide (st = CY_U3P_SUCCESS)).

(** The error handler sleeps forever. *)
Definition CyFxAppErrorHandler {O H A} : FM O H A := fail Halted.

(** A call after which any error is fatal. *)
Definition must {O H} `{Sdk O} (c : sdk_call) : FM O H unit :=
  let% st := call_status c in
  if failed st then CyFxAppErrorHandler else fret tt.
