(* ===== verification/FwMain.v ===== *)
(** * The application: [src/src/main.c]

    The functions of the application on the state of [Fw]: USB events and setup
    requests, start and stop of the endpoints, the driver's USB and network
    functions, initialisation and the two threads. *)

From stdpp Require Import base numbers list decidable gmap.
From Stdlib Require Import ZArith Lia Bool.
From S2P Require Import Prelude NcmTypes BlockList NtbList NcmTx NcmRx NcmNet UsbDesc LwipMem Pbuf PbufChain PbufPool Ip4Addr Ethernet Fw.
Open Scope Z_scope.

(** ** Constants of the SDK's setup packets *)

(** [setupdat0] holds bmRequestType, bRequest and wValue, [setupdat1] wIndex and
    wLength, as in a USB setup packet. *)
Definition CY_U3P_USB_REQUEST_TYPE_MASK : Z := 0x000000FF.
Definition CY_U3P_USB_TYPE_MASK : Z := 0x60.
Definition CY_U3P_USB_TARGET_MASK : Z := 0x03.
Definition CY_U3P_USB_REQUEST_MASK : Z := 0x0000FF00.
Definition CY_U3P_USB_REQUEST_POS : Z := 8.
Definition CY_U3P_USB_VALUE_MASK : Z := 0xFFFF0000.
Definition CY_U3P_USB_VALUE_POS : Z := 16.
Definition CY_U3P_USB_INDEX_MASK : Z := 0x0000FFFF.
Definition CY_U3P_USB_INDEX_POS : Z := 0.
Definition CY_U3P_USB_LENGTH_MASK : Z := 0xFFFF0000.
Definition CY_U3P_USB_LENGTH_POS : Z := 16.
Definition CY_U3P_USB_STANDARD_RQT : Z := 0x00.
Definition CY_U3P_USB_CLASS_RQT : Z := 0x20.
Definition CY_U3P_USB_TARGET_INTF : Z := 1.
Definition CY_U3P_USB_TARGET_ENDPT : Z := 2.
Definition CY_U3P_USB_SC_CLEAR_FEATURE : Z := 1.
Definition CY_U3P_USB_SC_SET_FEATURE : Z := 3.
Definition CY_U3P_USBX_FS_EP_HALT : Z := 0.

Definition field (dat mask pos : Z) : Z := Z.shiftr (Z.land dat mask) pos.

Inductive CyU3PUsbEventType_t : Type :=
| CY_U3P_USB_EVENT_CONNECT
| CY_U3P_USB_EVENT_DISCONNECT
| CY_U3P_USB_EVENT_RESET
| CY_U3P_USB_EVENT_SETCONF
| CY_U3P_USB_EVENT_EP0_STAT_CPLT
| CY_U3P_USB_EVENT_VBUS_REMOVED
| CY_U3P_USB_EVENT_OTHER.

Inductive CyU3PDmaCbType_t : Type :=
| CY_U3P_DMA_CB_PROD_EVENT
| CY_U3P_DMA_CB_CONS_EVENT
| CY_U3P_DMA_CB_OTHER.

(** [memcpy (dst, src, n)] on the bytes of the two objects. *)
Definition memcpy (dst : list Z) (src : option (list Z)) (n : Z) : result (list Z) :=
  match src with
  | None => Fault NullPointer
  | Some bs => if n <=? Z.of_nat (length bs) then wr dst 0 (take (Z.to_nat n) bs) else Fault OutOfBounds
  end.

Definition of_result {O H A} (m : result A) : FM O H A :=
  fun s => match m with Ok a => Ok (a, s) | Fault f => Fault f end.

(** A function of the network stack. *)
Definition on_stack {O H A} (f : lwip H -> result (A * lwip H)) : FM O H A :=
  fun s => let* (a, st) := f (stack s) in Ok (a, set_stack st s).

Definition skip {O H} : FM O H unit := fret tt.
Definition when {O H} (b : bool) (m : FM O H unit) : FM O H unit := if b then m else skip.

Module Main.
Section main.
Context {O H : Type} `{Sdk O} `{MemHeap H}.

(** ** Functions for the driver *)

Definition usb_transfer_ep0 (request : usb_control_request_t) (buffer : list Z) (bytes : Z) : FM O H bool :=
  call_ (CyU3PUsbSendEP0Data bytes buffer) %;
  fret true.

(** A buffer of the channel, after a reset if the first attempt fails. *)
Definition get_buffer (ch : dma_channel) : FM O H sdk_ret :=
  let% r := call (CyU3PDmaChannelGetBuffer ch 1000) in
  if failed (r_status r) then
    call_ (CyU3PDmaChannelReset ch) %;
    call_ (CyU3PDmaChannelSetXfer ch 0) %;
    call (CyU3PDmaChannelGetBuffer ch 1000)
  else fret r.

(** Copy [bytes] bytes into the buffer and commit [count] of it. *)
Definition fill_and_commit (ch : dma_channel) (dma : list Z) (buffer : option (list Z)) (bytes count : Z) : FM O H unit :=
  let% data := of_result (memcpy dma buffer bytes) in
  let% st := call_status (CyU3PDmaChannelCommitBuffer ch count 0 data) in
  when (failed st)
    (call_ (CyU3PDmaChannelReset ch) %;
     call_ (CyU3PDmaChannelSetXfer ch 0)).

Definition usb_transfer_ep (ep_addr : Z) (buffer : option (list Z)) (bytes : Z) : FM O H bool :=
  if ep_addr =? NCM_EP_NOTIFY then
    let% r := get_buffer glChHandleNotifier in
    if failed (r_status r) then fret false
    else
      fill_and_commit glChHandleNotifier (r_bytes r) buffer bytes bytes %;
      fret true
  else if ep_addr =? NCM_EP_DATA_OUT then
    let% r := get_buffer glChHandleBulkSink in
    if failed (r_status r) then fret false
    else
      fill_and_commit glChHandleBulkSink (r_bytes r) buffer bytes 2 %;
      fret false
  else fret false.

Definition usb_control_status (request : usb_control_request_t) : FM O H bool :=
  call_ CyU3PUsbAckSetup %;
  fret true.

Definition usb_ep_busy (ep_addr : Z) : FM O H bool := fret false.

(** The bytes stored at the destination, and the number returned. *)
Definition net_tx_cb (datagram arg : Z) : FM O H (list Z * Z) :=
  let% b := (fun s => of_result (deref (stack s) datagram) s) in
  let% (bytes, n) := (fun s => of_result (pbuf_copy_partial (Some datagram)
                        (replicate (Z.to_nat (tot_len b)) 0) (tot_len b) 0 (stack s)) s) in
  fret (take (Z.to_nat n) bytes, n).

Definition net_rx_cb (datagram : list Z) (size : Z) : FM O H Z :=
  let% busy := fget received_frame in
  match busy with
  | Some _ => fret 0
  | None =>
      when (negb (size =? 0))
        (let% p := on_stack (pbuf_alloc PBUF_RAW size PBUF_POOL) in
         match p with
         | None => skip
         | Some p =>
             let% b := (fun s => of_result (deref (stack s) p) s) in
             (if size <=? Z.of_nat (length datagram) then skip else fail OutOfBounds) %;
             on_stack (fun st => let* st := st_bytes st (payload b) 0 (take (Z.to_nat size) datagram) in Ok (tt, st)) %;
             fset (set_received_frame (Some p))
         end) %;
      fret 1
  end.

(** ** Endpoints and channels *)

Definition ep_config (ty : ep_type) : CyU3PEpConfig_t := mk_ep_config true ty 0 16 1.
Definition ep_disabled : CyU3PEpConfig_t := mk_ep_config false CY_U3P_USB_EP_CONTROL 0 0 0.

Definition CyFxAppStart : FM O H unit :=
  let% r := call CyU3PUsbGetSpeed in
  match r_speed r with
  | CY_U3P_NOT_CONNECTED => CyFxAppErrorHandler
  | _ => skip
  end %;
  must (CyU3PSetEpConfig CY_FX_EP_NOTIFIER (ep_config CY_U3P_USB_EP_INTR)) %;
  must (CyU3PSetEpConfig CY_FX_EP_PRODUCER (ep_config CY_U3P_USB_EP_BULK)) %;
  must (CyU3PSetEpConfig CY_FX_EP_CONSUMER (ep_config CY_U3P_USB_EP_BULK)) %;
  call_ (CyU3PUsbFlushEp CY_FX_EP_NOTIFIER) %;
  call_ (CyU3PUsbFlushEp CY_FX_EP_PRODUCER) %;
  call_ (CyU3PUsbFlushEp CY_FX_EP_CONSUMER) %;
  must (CyU3PDmaChannelCreate glChHandleNotifier CY_U3P_DMA_TYPE_MANUAL_OUT
          (mk_dma_config 16 1 CY_U3P_CPU_SOCKET_PROD CY_FX_EP_NOTIFIER_SOCKET 0 false)) %;
  call_ (CyU3PDmaChannelSetXfer glChHandleNotifier 0) %;
  must (CyU3PDmaChannelCreate glChHandleBulkSink CY_U3P_DMA_TYPE_MANUAL_OUT
          (mk_dma_config 512 1 CY_U3P_CPU_SOCKET_PROD CY_FX_EP_CONSUMER_SOCKET 0 true)) %;
  call_ (CyU3PDmaChannelSetXfer glChHandleBulkSink 0) %;
  must (CyU3PDmaChannelCreate glChHandleBulkSrc CY_U3P_DMA_TYPE_MANUAL_IN
          (mk_dma_config 512 1 CY_FX_EP_PRODUCER_SOCKET CY_U3P_CPU_SOCKET_CONS 0 true)) %;
  call_ (CyU3PDmaChannelSetXfer glChHandleBulkSrc 0) %;
  call_ CyU3PUsbRegisterEpEvtCallback %;
  fset (set_glIsApplnActive true).

Definition CyFxAppStop : FM O H unit :=
  fset (set_glIsApplnActive false) %;
  call_ (CyU3PDmaChannelDestroy glChHandleNotifier) %;
  call_ (CyU3PDmaChannelDestroy glChHandleBulkSink) %;
  call_ (CyU3PDmaChannelDestroy glChHandleBulkSrc) %;
  call_ (CyU3PUsbFlushEp CY_FX_EP_NOTIFIER) %;
  call_ (CyU3PUsbFlushEp CY_FX_EP_PRODUCER) %;
  call_ (CyU3PUsbFlushEp CY_FX_EP_CONSUMER) %;
  must (CyU3PSetEpConfig CY_FX_EP_NOTIFIER ep_disabled) %;
  must (CyU3PSetEpConfig CY_FX_EP_PRODUCER ep_disabled) %;
  must (CyU3PSetEpConfig CY_FX_EP_CONSUMER ep_disabled).

(** ** Callbacks *)

(** Clear the halt of an endpoint, with the channel that is reset for it. *)
Definition clear_halt (ep : Z) (ch : dma_channel) (wIndex : Z) : FM O H unit :=
  call_ (CyU3PUsbSetEpNak ep true) %;
  call_ (CyU3PBusyWait 125) %;
  call_ (CyU3PDmaChannelReset ch) %;
  call_ (CyU3PUsbFlushEp ep) %;
  call_ (CyU3PUsbResetEp ep) %;
  call_ (CyU3PUsbSetEpNak ep false) %;
  call_ (CyU3PDmaChannelSetXfer ch CY_FX_BULKSRCSINK_DMA_TX_SIZE) %;
  call_ (CyU3PUsbStall wIndex false true) %;
  call_ CyU3PUsbAckSetup.

(** Leave the request to the application thread. *)
Definition defer (setupdat0 setupdat1 : Z) : FM O H unit :=
  fset (set_gl_setupdat0 setupdat0) %;
  fset (set_gl_setupdat1 setupdat1) %;
  call_ (CyU3PEventSet CYFX_USB_CTRL_TASK).

Definition CyFxAppUSBSetupCB (setupdat0 setupdat1 : Z) : FM O H bool :=
  let bReqType := wrap8 (Z.land setupdat0 CY_U3P_USB_REQUEST_TYPE_MASK) in
  let bType := Z.land bReqType CY_U3P_USB_TYPE_MASK in
  let bTarget := Z.land bReqType CY_U3P_USB_TARGET_MASK in
  let bRequest := wrap8 (field setupdat0 CY_U3P_USB_REQUEST_MASK CY_U3P_USB_REQUEST_POS) in
  let wValue := wrap16 (field setupdat0 CY_U3P_USB_VALUE_MASK CY_U3P_USB_VALUE_POS) in
  let wIndex := wrap16 (field setupdat1 CY_U3P_USB_INDEX_MASK CY_U3P_USB_INDEX_POS) in
  let% isHandled :=
    (if bType =? CY_U3P_USB_STANDARD_RQT then
       let% h1 :=
         (if (bTarget =? CY_U3P_USB_TARGET_INTF) &&
             ((bRequest =? CY_U3P_USB_SC_SET_FEATURE) || (bRequest =? CY_U3P_USB_SC_CLEAR_FEATURE)) &&
             (wValue =? 0) then
            let% active := fget glIsApplnActive in
            (if active then call_ CyU3PUsbAckSetup else call_ (CyU3PUsbStall 0 true false)) %;
            fret true
          else fret false) in
       if (bTarget =? CY_U3P_USB_TARGET_ENDPT) && (bRequest =? CY_U3P_USB_SC_CLEAR_FEATURE) &&
          (wValue =? CY_U3P_USBX_FS_EP_HALT) then
         let% active := fget glIsApplnActive in
         if active then
           let% h2 := (if wIndex =? CY_FX_EP_PRODUCER
                       then clear_halt CY_FX_EP_PRODUCER glChHandleBulkSink wIndex %; fret true
                       else fret h1) in
           if wIndex =? CY_FX_EP_CONSUMER
           then clear_halt CY_FX_EP_CONSUMER glChHandleBulkSrc wIndex %; fret true
           else fret h2
         else fret h1
       else fret h1
     else fret false) in
  let% isHandled :=
    (if (bType =? CY_U3P_USB_CLASS_RQT) && (bRequest =? NCM_GET_NTB_PARAMETERS)
     then defer setupdat0 setupdat1 %; fret true else fret isHandled) in
  let% isHandled :=
    (if (bType =? CY_U3P_USB_STANDARD_RQT) && (bRequest =? USB_REQ_SET_INTERFACE)
     then defer setupdat0 setupdat1 %; fret true else fret isHandled) in
  if (bType =? CY_U3P_USB_STANDARD_RQT) && (bRequest =? USB_REQ_GET_INTERFACE)
  then defer setupdat0 setupdat1 %; fret true else fret isHandled.

Definition CyFxAppUSBEventCB (evtype : CyU3PUsbEventType_t) (evdata : Z) : FM O H unit :=
  match evtype with
  | CY_U3P_USB_EVENT_CONNECT => skip
  | CY_U3P_USB_EVENT_SETCONF =>
      let% active := fget glIsApplnActive in
      when active CyFxAppStop %;
      CyFxAppStart
  | CY_U3P_USB_EVENT_RESET | CY_U3P_USB_EVENT_DISCONNECT =>
      fset (set_glForceLinkU2 false) %;
      let% active := fget glIsApplnActive in
      when active CyFxAppStop %;
      fset (set_glDataTransStarted false)
  | CY_U3P_USB_EVENT_EP0_STAT_CPLT => fset (fun s => set_glEp0StatCount (wrap32 (glEp0StatCount s + 1)) s)
  | CY_U3P_USB_EVENT_VBUS_REMOVED =>
      let% enabled := fget StandbyModeEnable in
      when enabled
        (fset (set_TriggerStandbyMode true) %;
         fset (set_StandbyModeEnable false))
  | CY_U3P_USB_EVENT_OTHER => skip
  end.

Definition CyFxDmaCallback (chHandle : dma_channel) (type : CyU3PDmaCbType_t) : FM O H unit :=
  fset (set_glDataTransStarted true) %;
  call_ CyU3PUsbLPMDisable %;
  call_ CyU3PTimerStop %;
  call_ (CyU3PTimerModify 100 0) %;
  call_ CyU3PTimerStart %;
  match type with
  | CY_U3P_DMA_CB_PROD_EVENT =>
      call_ (CyU3PDmaChannelDiscardBuffer chHandle) %;
      fset (fun s => set_glDMARxCount (wrap32 (glDMARxCount s + 1)) s)
  | CY_U3P_DMA_CB_CONS_EVENT =>
      let% r := call (CyU3PDmaChannelGetBuffer chHandle 0) in
      when (negb (failed (r_status r)))
        (call_ (CyU3PDmaChannelCommitBuffer chHandle (Z.of_nat (length (r_bytes r))) 0 (r_bytes r))) %;
      fset (fun s => set_glDMATxCount (wrap32 (glDMATxCount s + 1)) s)
  | CY_U3P_DMA_CB_OTHER => skip
  end.

Definition CyFxEpEvtCB (ss_retry : bool) : FM O H unit := when ss_retry (fset (set_glSrcEpFlush true)).

Definition TimerCb : FM O H unit := call_ CyU3PUsbLPMEnable.

(** ** Initialisation *)

Definition CyFxDebugInit : FM O H unit :=
  let% st := call_status CyU3PGpioInit in
  (if failed st && negb (bool_decide (st = CY_U3P_ERROR_ALREADY_STARTED)) then CyFxAppErrorHandler
   else must (CyU3PGpioSetSimpleConfig FX3_GPIO_TEST_OUT)) %;
  must CyU3PUartInit %;
  must CyU3PUartSetConfig %;
  must (CyU3PUartTxSetBlockXfer 0xFFFFFFFF) %;
  must CyU3PDebugInit %;
  call_ (CyU3PDebugPreamble false).

(** The descriptors, in the order they are registered. *)
Definition descriptor_calls : list sdk_call :=
  [CyU3PUsbSetDesc CY_U3P_USB_SET_HS_DEVICE_DESCR 0 (device_descriptor_bytes usb_device_desc);
   CyU3PUsbSetDesc CY_U3P_USB_SET_HS_CONFIG_DESCR 0 (usb_desc_bytes usb_config_desc);
   CyU3PUsbSetDesc CY_U3P_USB_SET_FS_CONFIG_DESCR 0 (usb_desc_bytes usb_config_desc);
   CyU3PUsbSetDesc CY_U3P_USB_SET_STRING_DESCR STR_ID_LANG (string_descriptor_bytes str_desc_langid);
   CyU3PUsbSetDesc CY_U3P_USB_SET_STRING_DESCR STR_ID_MANF (string_descriptor_bytes str_desc_manufacturer);
   CyU3PUsbSetDesc CY_U3P_USB_SET_STRING_DESCR STR_ID_PROD (string_descriptor_bytes str_desc_product);
   CyU3PUsbSetDesc CY_U3P_USB_SET_STRING_DESCR STR_ID_MACA (string_descriptor_bytes str_desc_serial);
   CyU3PUsbSetDesc CY_U3P_USB_SET_STRING_DESCR STR_ID_INTF (string_descriptor_bytes str_desc_interface)].

Fixpoint must_all (cs : list sdk_call) : FM O H unit :=
  match cs with
  | [] => skip
  | c :: cs => must c %; must_all cs
  end.

Definition CyFxAppInit : FM O H unit :=
  call_ (CyU3PUsbRegisterSetupCallback true) %;
  call_ CyU3PUsbRegisterEventCallback %;
  call_ CyU3PUsbRegisterLPMRequestCallback %;
  let% st := call_status CyU3PUsbStart in
  let no_renum := bool_decide (st = CY_U3P_ERROR_NO_REENUM_REQUIRED) in
  (if negb no_renum && failed st then CyFxAppErrorHandler else skip) %;
  call_ (CyU3PGpioSimpleSetValue FX3_GPIO_TEST_OUT true) %;
  must_all descriptor_calls %;
  let% r := call (CyU3PDmaBufferAlloc CYFX_USBLOG_SIZE) in
  fset (set_gl_UsbLogBuffer (r_value r)) %;
  when (negb (r_value r =? 0)) (call_ (CyU3PUsbInitEventLog (r_value r) CYFX_USBLOG_SIZE)) %;
  if negb no_renum then must (CyU3PConnectState true false) else CyFxAppStart.

Definition CyFxAppDeinit : FM O H unit :=
  let% active := fget glIsApplnActive in
  when active CyFxAppStop %;
  call_ (CyU3PConnectState false true) %;
  call_ (CyU3PThreadSleep 1000) %;
  call_ CyU3PUsbStop %;
  call_ (CyU3PThreadSleep 1000).

(** A failed creation ends in an endless loop; the stacks are not checked. *)
Definition CyFxApplicationDefine : FM O H unit :=
  must CyU3PEventCreate %;
  let% ptr := call (CyU3PMemAlloc CY_FX_BULKSRCSINK_THREAD_STACK) in
  let% lwip := call (CyU3PMemAlloc CY_FX_BULKSRCSINK_THREAD_STACK) in
  must (CyU3PThreadCreate 21 (r_value ptr) (CY_FX_BULKSRCSINK_THREAD_PRIORITY - 1)) %;
  must (CyU3PThreadCreate 22 (r_value lwip) CY_FX_BULKSRCSINK_THREAD_PRIORITY).

Definition main : FM O H Z :=
  must CyU3PDeviceInit %;
  must (CyU3PDeviceCacheControl true false false) %;
  must CyU3PDeviceConfigureIOMatrix %;
  call_ CyU3PKernelEntry %;
  fret 0.
End main.

(** ** The driver's environment *)

#[export] Instance fw_env {O H} `{Sdk O} `{MemHeap H} : NcmEnv Z (fw O H) := {|
  NcmTypes.usb_transfer_ep ep buffer bytes s := usb_transfer_ep ep buffer bytes s;
  NcmTypes.usb_transfer_ep0 rq buffer bytes s := usb_transfer_ep0 rq buffer bytes s;
  NcmTypes.usb_control_status rq s := usb_control_status rq s;
  NcmTypes.usb_ep_busy ep s := usb_ep_busy ep s;
  NcmTypes.net_tx_cb d arg s := let* (r, s) := net_tx_cb d arg s in Ok (r, s);
  NcmTypes.net_rx_cb d n s := net_rx_cb d n s
|}.

Section threads.
Context {O H : Type} `{Sdk O} `{MemHeap H} `{!UpperLayers H}.

(** A program of the application next to the driver. *)
Definition lift {A} (m : FM O H A) : NM (fw O H) A :=
  fun w => match m (env w) with
           | Ok (a, e) => Ok (a, mk_world (ncm_if w) e (calls w))
           | Fault f => Fault f
           end.

(** ** The application thread *)

(** The initialiser of [req]; the direction is shifted by 8. *)
Definition decode_request (setupdat0 setupdat1 : Z) : usb_control_request_t := {|
  req_direction := Z.land (Z.shiftr (Z.land (Z.land setupdat0 CY_U3P_USB_REQUEST_TYPE_MASK) 0x80) 8) 1;
  req_type := Z.land (Z.shiftr (Z.land (Z.land setupdat0 CY_U3P_USB_REQUEST_TYPE_MASK) CY_U3P_USB_TYPE_MASK) 5) 3;
  req_recipient := Z.land (Z.land (Z.land setupdat0 CY_U3P_USB_REQUEST_TYPE_MASK) CY_U3P_USB_TARGET_MASK) 31;
  req_bRequest := wrap8 (field setupdat0 CY_U3P_USB_REQUEST_MASK CY_U3P_USB_REQUEST_POS);
  req_wLength := wrap16 (field setupdat1 CY_U3P_USB_LENGTH_MASK CY_U3P_USB_LENGTH_POS);
  req_wValue := wrap16 (field setupdat0 CY_U3P_USB_VALUE_MASK CY_U3P_USB_VALUE_POS);
  req_wIndex := wrap16 (field setupdat1 CY_U3P_USB_INDEX_MASK CY_U3P_USB_INDEX_POS)
|}.

(** The pending control request. *)
Definition control_task : NM (fw O H) unit :=
  let! d0 := lift (fget gl_setupdat0) in
  let! d1 := lift (fget gl_setupdat1) in
  let! handled := net_usb_control_transfer (decode_request d0 d1) in
  lift (when (negb handled) (call_ (CyU3PUsbStall 0 true false))).

(** The remote wake-up. *)
Definition hostwake_task : FM O H unit :=
  call_ (CyU3PThreadSleep 1000) %;
  let% r := call CyU3PUsbGetSpeed in
  match r_speed r with
  | CY_U3P_SUPER_SPEED => call_ CyU3PUsbSendDevNotification
  | _ => call_ CyU3PUsbDoRemoteWakeup
  end.

Definition CyU3PUsbLPM_U0 : Z := 0.

(** The loop that tries to go to U2. *)
Fixpoint force_u2 (fuel : nat) (r : sdk_ret) : FM O H unit :=
  match fuel with
  | 0%nat => fail OutOfFuel
  | S fuel =>
      let% force := fget glForceLinkU2 in
      if force && negb (failed (r_status r)) && (r_value r =? CyU3PUsbLPM_U0) then
        call_ CyU3PUsbSetLinkPowerState %;
        call_ (CyU3PThreadSleep 5) %;
        let% r := call CyU3PUsbGetLinkPowerState in
        force_u2 fuel r
      else skip
  end.

(** The indices of the log entries that are printed. *)
Fixpoint log_walk (fuel : nat) (tmp2 tmp1 : Z) : result (list Z) :=
  match fuel with
  | 0%nat => Fault OutOfFuel
  | S fuel =>
      if tmp2 =? tmp1 then Ok []
      else
        let tmp2' := wrap16 (tmp2 + 1) in
        let* l := log_walk fuel (if tmp2' =? CYFX_USBLOG_SIZE then 0 else tmp2') tmp1 in
        Ok (tmp2 :: l)
  end.

(** One round of the loop of [appThread_Entry]; the state it carries over is
    [prevUsbLogIndex]. *)
Definition app_round (fuel : nat) (prevUsbLogIndex : Z) : NM (fw O H) Z :=
  let! r := lift (call (CyU3PEventGet (Z.lor CYFX_USB_CTRL_TASK CYFX_USB_HOSTWAKE_TASK) 10)) in
  let! _ := (if failed (r_status r) then ret tt
             else
               let! _ := lift (when (negb (Z.land (r_value r) CYFX_USB_HOSTWAKE_TASK =? 0)) hostwake_task) in
               if negb (Z.land (r_value r) CYFX_USB_CTRL_TASK =? 0) then control_task else ret tt) in
  let! _ := lift (let% flush := fget glSrcEpFlush in
                  when flush
                    (fset (set_glSrcEpFlush false) %;
                     call_ (CyU3PUsbStall CY_FX_EP_CONSUMER true false))) in
  let! _ := lift (let% force := fget glForceLinkU2 in
                  when force
                    (let% r := call CyU3PUsbGetLinkPowerState in
                     force_u2 fuel r)) in
  let! standby := lift (fget TriggerStandbyMode) in
  if standby then
    lift (fset (set_TriggerStandbyMode false) %;
          call_ (CyU3PConnectState false true) %;
          call_ CyU3PUsbStop %;
          call_ CyU3PDebugDeInit %;
          call_ CyU3PUartDeInit %;
          call_ (CyU3PThreadSleep 1000) %;
          let% st := call_status CyU3PSysEnterStandbyMode in
          when (failed st) CyFxDebugInit %;
          CyFxAppErrorHandler)
  else
    let! tmp1 := lift (call CyU3PUsbGetEventLogIndex) in
    let! _ := lift (of_result (log_walk (S (Z.to_nat CYFX_USBLOG_SIZE)) prevUsbLogIndex (wrap16 (r_value tmp1)))) in
    ret (wrap16 (r_value tmp1)).

(** The part of [appThread_Entry] before its loop, and [n] rounds of it. *)
Definition app_thread_start : NM (fw O H) unit :=
  lift (CyFxDebugInit %; CyFxAppInit %; call_ CyU3PTimerCreate).

Fixpoint app_rounds (n fuel : nat) (prev : Z) : NM (fw O H) Z :=
  match n with
  | 0%nat => ret prev
  | S n => let! prev := app_round fuel prev in app_rounds n fuel prev
  end.

Definition appThread_Entry (n fuel : nat) : NM (fw O H) Z :=
  let! _ := app_thread_start in app_rounds n fuel 0.

(** ** The network thread *)

Definition tud_network_mac_address : list Z := [0x2E; 0xF5; 0xF3; 0x68; 0xDC; 0xE6].

(** The interface after [netif_init_cb]. *)
Definition netif_init_cb (n : netif) : netif :=
  mk_netif 1514 (hwaddr n) (hwaddr_len n)
    (Z.lor NETIF_FLAG_BROADCAST (Z.lor NETIF_FLAG_ETHARP (Z.lor NETIF_FLAG_LINK_UP NETIF_FLAG_UP)))
    (0x45, 0x58) (num n) (ip_addr n) (netmask n) (gw n).

(** The hardware address that [init_lwip] gives the interface. *)
Definition init_hwaddr (n : netif) : netif :=
  mk_netif (mtu n) (<[5%nat := Z.lxor (tud_network_mac_address !!! 5%nat) 0x01]> tud_network_mac_address) 6
    (netif_flags n) (name n) (num n) (ip_addr n) (netmask n) (gw n).

Definition INIT_IP4 (a b c d : Z) : Z :=
  PP_HTONL (Z.lor (Z.lor (Z.lor (Z.shiftl (Z.land a 0xff) 24) (Z.shiftl (Z.land b 0xff) 16))
                         (Z.shiftl (Z.land c 0xff) 8)) (Z.land d 0xff)).

Definition ipaddr : Z := INIT_IP4 192 168 7 1.
Definition ip4_netmask : Z := INIT_IP4 255 255 255 0.
Definition gateway : Z := INIT_IP4 0 0 0 0.

(** The interface after [netif_add]: its configuration is reset, the addresses are
    set while it is still down, so that nothing is reported, and [init] runs. *)
Definition netif_add (n : netif) (ipaddr netmask gw : Z) (init : netif -> netif) : netif :=
  init (mk_netif 0 (hwaddr n) (hwaddr_len n) 0 (name n) 0 ipaddr netmask gw).

Definition init_lwip (n : netif) : netif :=
  netif_add (init_hwaddr n) ipaddr ip4_netmask gateway netif_init_cb.

Definition service_traffic (netif_data : netif) : NM (fw O H) unit :=
  let! frame := lift (fget received_frame) in
  match frame with
  | None => ret tt
  | Some p =>
      let! _ := lift (on_stack (ethernet_input p netif_data)) in
      let! _ := lift (on_stack (pbuf_free (Some p))) in
      let! _ := lift (fset (set_received_frame None)) in
      net_rx_renew
  end.

(** [n] rounds of the loop of [lwipThread_Entry] after the driver and the
    interface are initialised. *)
Fixpoint service_rounds (n : nat) (netif_data : netif) : NM (fw O H) unit :=
  match n with
  | 0%nat => ret tt
  | S n => let! _ := service_traffic netif_data in service_rounds n netif_data
  end.

Definition lwipThread_Entry (n : nat) (netif_data : netif) : NM (fw O H) unit :=
  let! _ := net_init in
  service_rounds n (init_lwip netif_data).
End threads.
End Main.
