(* ===== verification/FwProps.v ===== *)
(** * Properties of the application

    How [src/src/main.c] answers setup packets: the callback decides at once or
    leaves the request to the application thread, which hands it to the driver. *)

From stdpp Require Import base numbers list decidable gmap.
From Stdlib Require Import ZArith Lia Bool.
From S2P Require Import Prelude NcmTypes BlockList NtbList NcmTx NcmRx NcmNet NcmSystem NcmBehaviour UsbDesc LwipMem Pbuf PbufChain PbufPool PbufProps Ethernet Fw FwMain.
Open Scope Z_scope.
Import Main.

(** ** Programs *)

Lemma fbind_Ok {O H A B} (m : FM O H A) (k : A -> FM O H B) s r :
  fbind m k s = Ok r <-> exists a s1, m s = Ok (a, s1) /\ k a s1 = Ok r.
Proof.
  unfold fbind. destruct (m s) as [[a s1]|f]; split; eauto.
  - by intros (? & ? & [= -> ->] & ?).
  - done.
  - by intros (? & ? & ? & ?).
Qed.

Section calls.
Context {O H : Type} `{Sdk O} `{MemHeap H}.
Implicit Types (s : fw O H).

(** The globals, without the SDK. *)
Definition globals s : bool * (Z * Z) * (bool * bool * bool * bool) * (Z * Z * Z) * bool * Z * option Z * lwip H :=
  (glIsApplnActive s, (glDMARxCount s, glDMATxCount s),
   (glDataTransStarted s, StandbyModeEnable s, TriggerStandbyMode s, glForceLinkU2 s),
   (glEp0StatCount s, gl_setupdat0 s, gl_setupdat1 s), glSrcEpFlush s, gl_UsbLogBuffer s,
   received_frame s, stack s).

(** [s'] is [s] after exactly the calls [cs]. *)
Definition after_calls (cs : list sdk_call) s s' : Prop :=
  sdk_log s' = sdk_log s ++ cs /\ globals s' = globals s.

Lemma after_calls_nil s : after_calls [] s s.
Proof. split; [by rewrite app_nil_r|done]. Qed.

Lemma after_calls_app cs cs' s s1 s2 :
  after_calls cs s s1 -> after_calls cs' s1 s2 -> after_calls (cs ++ cs') s s2.
Proof. intros [L1 G1] [L2 G2]. split; [by rewrite L2, L1, app_assoc|congruence]. Qed.

Lemma after_calls_cons c cs s s1 s2 :
  after_calls [c] s s1 -> after_calls cs s1 s2 -> after_calls (c :: cs) s s2.
Proof. apply (after_calls_app [c] cs). Qed.

Lemma call_run c s : exists r s', call c s = Ok (r, s') /\ after_calls [c] s s'.
Proof. unfold call. destruct (sdk c (sdk_state s)) as [r o]. by eexists _, _. Qed.

Lemma call__run c s : exists s', call_ c s = Ok (tt, s') /\ after_calls [c] s s'.
Proof. destruct (call_run c s) as (r&s'&E&?). exists s'. unfold call_, fbind. by rewrite E. Qed.

Lemma call_status_run c s : exists st s', call_status c s = Ok (st, s') /\ after_calls [c] s s'.
Proof. destruct (call_run c s) as (r&s'&E&?). unfold call_status, fbind. rewrite E. by eexists _, _. Qed.

Lemma must_run c s :
  must c s = Fault Halted \/ exists s', must c s = Ok (tt, s') /\ after_calls [c] s s'.
Proof.
  destruct (call_status_run c s) as (st&s'&E&?). unfold must, fbind. rewrite E.
  destruct (failed st); [by left|]. right. by exists s'.
Qed.

(** Run a program that ends with the calls [cs], or halts. *)
Definition runs (m : FM O H unit) (cs : list sdk_call) : Prop :=
  forall s, m s = Fault Halted \/ exists s', m s = Ok (tt, s') /\ after_calls cs s s'.

Lemma runs_call c : runs (call_ c) [c].
Proof. intros s. right. apply call__run. Qed.

Lemma runs_must c : runs (must c) [c].
Proof. intros s. apply must_run. Qed.

Lemma runs_seq m k cs cs' : runs m cs -> runs k cs' -> runs (m %; k) (cs ++ cs').
Proof.
  intros Hm Hk s. unfold fbind. destruct (Hm s) as [->|(s1&->&A1)]; [by left|].
  destruct (Hk s1) as [->|(s2&->&A2)]; [by left|]. right. exists s2. split; [done|]. by eapply after_calls_app.
Qed.
End calls.

(** Split a straight program into its calls. *)
Ltac runs_tac :=
  repeat match goal with
  | |- runs (call_ ?c) _ => apply runs_call
  | |- runs (must ?c) _ => apply runs_must
  | |- runs (must ?c %; _) (_ :: _) => eapply (runs_seq (must c) _ [c]); [apply runs_must|]
  | |- runs (call_ ?c %; _) (_ :: _) => eapply (runs_seq (call_ c) _ [c]); [apply runs_call|]
  end.

(** ** Setup packets *)

(** The two words of a setup packet. *)
Definition setup_words (r : usb_control_request_t) : Z * Z :=
  (req_recipient r + 32 * req_type r + 128 * req_direction r + 256 * req_bRequest r + 65536 * req_wValue r,
   req_wIndex r + 65536 * req_wLength r).

(** Requests; the recipients of the USB specification are the values 0 to 3. *)
Record request_ok (r : usb_control_request_t) : Prop := {
  rq_recipient : 0 <= req_recipient r < 4;
  rq_type : 0 <= req_type r < 4;
  rq_direction : 0 <= req_direction r < 2;
  rq_bRequest : 0 <= req_bRequest r < 256;
  rq_wValue : 0 <= req_wValue r < 65536;
  rq_wIndex : 0 <= req_wIndex r < 65536;
  rq_wLength : 0 <= req_wLength r < 65536
}.

Lemma field_high d k p : 0 <= k -> 0 <= p -> field d (Z.shiftl (Z.ones k) p) p = (d / 2 ^ p) mod 2 ^ k.
Proof.
  intros Hk Hp. unfold field. rewrite Z.shiftr_land, Z.shiftr_shiftl_l, Z.sub_diag, Z.shiftl_0_r by lia.
  by rewrite Z.land_ones, Z.shiftr_div_pow2 by lia.
Qed.

Section setup.
Context (r : usb_control_request_t) (Hr : request_ok r).

Definition request_type_byte : Z := req_recipient r + 32 * req_type r + 128 * req_direction r.

Lemma setup_type_byte : Z.land (setup_words r).1 CY_U3P_USB_REQUEST_TYPE_MASK = request_type_byte.
Proof.
  change CY_U3P_USB_REQUEST_TYPE_MASK with (Z.ones 8). rewrite Z.land_ones by lia. change (2 ^ 8) with 256.
  unfold setup_words, request_type_byte. cbn [fst]. destruct Hr.
  symmetry. apply (Z.mod_unique _ _ (req_bRequest r + 256 * req_wValue r)); lia.
Qed.

Lemma setup_bRequest : field (setup_words r).1 CY_U3P_USB_REQUEST_MASK CY_U3P_USB_REQUEST_POS = req_bRequest r.
Proof.
  change CY_U3P_USB_REQUEST_MASK with (Z.shiftl (Z.ones 8) 8). change CY_U3P_USB_REQUEST_POS with 8.
  rewrite field_high by lia. change (2 ^ 8) with 256. unfold setup_words. cbn [fst]. destruct Hr.
  replace (_ / 256) with (req_bRequest r + 256 * req_wValue r); [symmetry; apply (Z.mod_unique _ _ (req_wValue r)); lia|].
  apply (Z.div_unique _ _ _ request_type_byte); unfold request_type_byte; lia.
Qed.

Lemma setup_wValue : field (setup_words r).1 CY_U3P_USB_VALUE_MASK CY_U3P_USB_VALUE_POS = req_wValue r.
Proof.
  change CY_U3P_USB_VALUE_MASK with (Z.shiftl (Z.ones 16) 16). change CY_U3P_USB_VALUE_POS with 16.
  rewrite field_high by lia. change (2 ^ 16) with 65536. unfold setup_words. cbn [fst]. destruct Hr.
  replace (_ / 65536) with (req_wValue r); [rewrite Z.mod_small; lia|].
  apply (Z.div_unique _ _ _ (request_type_byte + 256 * req_bRequest r)); unfold request_type_byte; lia.
Qed.

Lemma setup_wIndex : field (setup_words r).2 CY_U3P_USB_INDEX_MASK CY_U3P_USB_INDEX_POS = req_wIndex r.
Proof.
  change CY_U3P_USB_INDEX_MASK with (Z.shiftl (Z.ones 16) 0). change CY_U3P_USB_INDEX_POS with 0.
  rewrite field_high by lia. change (2 ^ 16) with 65536. change (2 ^ 0) with 1. rewrite Z.div_1_r.
  unfold setup_words. cbn [snd]. destruct Hr. symmetry. apply (Z.mod_unique _ _ (req_wLength r)); lia.
Qed.

Lemma setup_wLength : field (setup_words r).2 CY_U3P_USB_LENGTH_MASK CY_U3P_USB_LENGTH_POS = req_wLength r.
Proof.
  change CY_U3P_USB_LENGTH_MASK with (Z.shiftl (Z.ones 16) 16). change CY_U3P_USB_LENGTH_POS with 16.
  rewrite field_high by lia. change (2 ^ 16) with 65536. unfold setup_words. cbn [snd]. destruct Hr.
  replace (_ / 65536) with (req_wLength r); [rewrite Z.mod_small; lia|].
  apply (Z.div_unique _ _ _ (req_wIndex r)); lia.
Qed.

Lemma four_values z : 0 <= z < 4 -> z = 0 \/ z = 1 \/ z = 2 \/ z = 3.
Proof. lia. Qed.

(** The fields of the type byte. *)
Lemma setup_type_fields :
  wrap8 request_type_byte = request_type_byte /\
  Z.land request_type_byte CY_U3P_USB_TYPE_MASK = 32 * req_type r /\
  Z.land request_type_byte CY_U3P_USB_TARGET_MASK = req_recipient r /\
  Z.land (Z.shiftr (Z.land request_type_byte 0x80) 8) 1 = 0.
Proof.
  destruct Hr as [H1 H2 H3 _ _ _ _]. unfold request_type_byte.
  assert (H3' : req_direction r = 0 \/ req_direction r = 1) by lia.
  destruct (four_values _ H1) as [->|[->|[->| ->]]], (four_values _ H2) as [->|[->|[->| ->]]], H3' as [->| ->];
    vm_compute; done.
Qed.
End setup.

Lemma wrap8_small z : 0 <= z < 256 -> wrap8 z = z.
Proof. intros. apply wrap_small. split; [lia|]. change (2 ^ 8) with 256. lia. Qed.

(** The request the application thread builds has all fields of the packet but
    the direction, which is always 0. *)
Lemma decode_setup r :
  request_ok r ->
  decode_request (setup_words r).1 (setup_words r).2 =
    mk_request (req_recipient r) (req_type r) 0 (req_bRequest r) (req_wValue r) (req_wIndex r) (req_wLength r).
Proof.
  intros Hr. unfold decode_request. rewrite (setup_type_byte r Hr), (setup_bRequest r Hr), (setup_wValue r Hr), (setup_wIndex r Hr), (setup_wLength r Hr).
  destruct (setup_type_fields r Hr) as (_&->&->&->). destruct Hr as [H1 H2 H3 H4 H5 H6 H7].
  rewrite wrap8_small, !wrap16_small by done.
  destruct (four_values _ H1) as [->|[->|[->| ->]]], (four_values _ H2) as [->|[->|[->| ->]]]; reflexivity.
Qed.

(** *** The answer to a setup packet *)

Inductive setup_answer : Type :=
| NotHandled
| Acknowledge
| StallEp0
| ClearHalt (ep : Z) (ch : dma_channel)
| Defer.

(** Requests by their fields; [active]: whether the application is started. *)
Definition answer_to (active : bool) (r : usb_control_request_t) : setup_answer :=
  if req_type r =? USB_TYPE_STANDARD then
    if (req_bRequest r =? USB_REQ_GET_INTERFACE) || (req_bRequest r =? USB_REQ_SET_INTERFACE) then Defer
    else if (req_recipient r =? 1) && ((req_bRequest r =? 1) || (req_bRequest r =? 3)) && (req_wValue r =? 0)
    then (if active then Acknowledge else StallEp0)
    else if (req_recipient r =? 2) && (req_bRequest r =? 1) && (req_wValue r =? 0) && active
    then (if req_wIndex r =? CY_FX_EP_PRODUCER then ClearHalt CY_FX_EP_PRODUCER glChHandleBulkSink
          else if req_wIndex r =? CY_FX_EP_CONSUMER then ClearHalt CY_FX_EP_CONSUMER glChHandleBulkSrc
          else NotHandled)
    else NotHandled
  else if (req_type r =? USB_TYPE_CLASS) && (req_bRequest r =? NCM_GET_NTB_PARAMETERS) then Defer
  else NotHandled.

Definition answer_calls (a : setup_answer) : list sdk_call :=
  match a with
  | NotHandled => []
  | Acknowledge => [CyU3PUsbAckSetup]
  | StallEp0 => [CyU3PUsbStall 0 true false]
  | ClearHalt ep ch =>
      [CyU3PUsbSetEpNak ep true; CyU3PBusyWait 125; CyU3PDmaChannelReset ch; CyU3PUsbFlushEp ep;
       CyU3PUsbResetEp ep; CyU3PUsbSetEpNak ep false; CyU3PDmaChannelSetXfer ch 0;
       CyU3PUsbStall ep false true; CyU3PUsbAckSetup]
  | Defer => [CyU3PEventSet CYFX_USB_CTRL_TASK]
  end.

Section answers.
Context {O H : Type} `{Sdk O} `{MemHeap H}.
Implicit Types (s : fw O H).

(** The program makes exactly the calls [cs] and ends. *)
Definition does (m : FM O H unit) (cs : list sdk_call) : Prop :=
  forall s, exists s', m s = Ok (tt, s') /\ after_calls cs s s'.

Lemma does_call c : does (call_ c) [c].
Proof. intros s. apply call__run. Qed.

Lemma does_seq c m cs : does m cs -> does (call_ c %; m) (c :: cs).
Proof.
  intros Hm s. unfold fbind. destruct (call__run c s) as (s1&->&A1). destruct (Hm s1) as (s2&->&A2).
  exists s2. split; [done|]. by eapply after_calls_cons.
Qed.

Lemma clear_halt_does ep ch : does (clear_halt ep ch ep) (answer_calls (ClearHalt ep ch)).
Proof. unfold clear_halt. cbn [answer_calls]. repeat first [apply does_call|apply does_seq]. Qed.

Lemma defer_run d0 d1 s :
  exists s', defer d0 d1 s = Ok (tt, s') /\ sdk_log s' = sdk_log s ++ [CyU3PEventSet CYFX_USB_CTRL_TASK] /\
    globals s' = globals (set_gl_setupdat1 d1 (set_gl_setupdat0 d0 s)).
Proof.
  unfold defer, fbind, fset.
  destruct (call__run (CyU3PEventSet CYFX_USB_CTRL_TASK) (set_gl_setupdat1 d1 (set_gl_setupdat0 d0 s))) as (s'&->&L&G).
  by exists s'.
Qed.

(** Decide the comparisons of the goal by the hypotheses. *)
Ltac decide_eqbs :=
  repeat match goal with
  | |- context [?x =? ?y] =>
      first [rewrite (proj2 (Z.eqb_eq x y)) by lia|rewrite (proj2 (Z.eqb_neq x y)) by lia]
  end;
  cbn [andb orb].

(** A path without calls, one with calls that does not defer, and one that does. *)
Ltac no_calls := eexists; split; [reflexivity|]; cbn [answer_calls]; rewrite app_nil_r; done.
Ltac one_call c :=
  let s1 := fresh "s" in let L := fresh "L" in let G := fresh "G" in
  match goal with |- context [call_ c ?st] => destruct (call__run c st) as (s1&->&L&G) end; by exists s1.
Ltac defers :=
  let s1 := fresh "s" in
  match goal with |- context [defer ?d0 ?d1 ?st] => destruct (defer_run d0 d1 st) as (s1&->&?&?) end; by exists s1.
Ltac halts ep ch :=
  let s1 := fresh "s" in
  match goal with |- context [clear_halt ep ch ep ?st] => destruct (clear_halt_does ep ch st) as (s1&->&?&?) end; by exists s1.

(** The callback on a packet whose fields are [r]. *)
Lemma setup_cb_run r s :
  request_ok r ->
  let a := answer_to (glIsApplnActive s) r in
  exists s', CyFxAppUSBSetupCB (setup_words r).1 (setup_words r).2 s =
      Ok (match a with NotHandled => false | _ => true end, s') /\
    sdk_log s' = sdk_log s ++ answer_calls a /\
    globals s' = globals (match a with
                          | Defer => set_gl_setupdat1 (setup_words r).2 (set_gl_setupdat0 (setup_words r).1 s)
                          | _ => s
                          end).
Proof.
  intros Hr a. unfold CyFxAppUSBSetupCB.
  rewrite (setup_type_byte r Hr), (setup_bRequest r Hr), (setup_wValue r Hr), (setup_wIndex r Hr).
  destruct (setup_type_fields r Hr) as (->&->&->&_).
  rewrite wrap8_small, !wrap16_small by apply Hr.
  set (d0 := (setup_words r).1). set (d1 := (setup_words r).2). clearbody d0 d1.
  pose proof (rq_type r Hr) as Hty. destruct Hr as [_ _ _ _ _ _ _].
  subst a. unfold answer_to.
  change CY_U3P_USB_STANDARD_RQT with 0. change CY_U3P_USB_CLASS_RQT with 32.
  change CY_U3P_USB_TARGET_INTF with 1. change CY_U3P_USB_TARGET_ENDPT with 2.
  change CY_U3P_USB_SC_SET_FEATURE with 3. change CY_U3P_USB_SC_CLEAR_FEATURE with 1.
  change CY_U3P_USBX_FS_EP_HALT with 0. change USB_TYPE_STANDARD with 0. change USB_TYPE_CLASS with 1.
  change NCM_GET_NTB_PARAMETERS with 128. change USB_REQ_SET_INTERFACE with 11. change USB_REQ_GET_INTERFACE with 10.
  change CY_FX_EP_PRODUCER with 2. change CY_FX_EP_CONSUMER with 130.
  generalize (req_type r) (req_recipient r) (req_bRequest r) (req_wValue r) (req_wIndex r) Hty.
  intros ty rec req val idx Hty'.
  unfold fbind, fret, fget. destruct (four_values _ Hty') as [->|[->|[->| ->]]]; cbn [Z.mul Pos.mul].
  - (* a standard request *)
    destruct (Z.eq_dec req 10); [decide_eqbs; rewrite ?andb_false_r; decide_eqbs; defers|].
    destruct (Z.eq_dec req 11); [decide_eqbs; rewrite ?andb_false_r; decide_eqbs; defers|].
    destruct (Z.eq_dec val 0); [|decide_eqbs; rewrite ?andb_false_r; cbn [andb]; no_calls].
    destruct (Z.eq_dec rec 1).
    { destruct (Z.eq_dec req 1); [|destruct (Z.eq_dec req 3)]; decide_eqbs.
      - destruct (glIsApplnActive s); [one_call CyU3PUsbAckSetup|one_call (CyU3PUsbStall 0 true false)].
      - destruct (glIsApplnActive s); [one_call CyU3PUsbAckSetup|one_call (CyU3PUsbStall 0 true false)].
      - no_calls. }
    destruct (Z.eq_dec rec 2), (Z.eq_dec req 1); decide_eqbs; [|no_calls|no_calls|no_calls].
    destruct (glIsApplnActive s); [|decide_eqbs; no_calls].
    destruct (Z.eq_dec idx 2); [subst idx; decide_eqbs; halts 2 glChHandleBulkSink|].
    destruct (Z.eq_dec idx 130); [subst idx; decide_eqbs; halts 130 glChHandleBulkSrc|].
    decide_eqbs; no_calls.
  - destruct (Z.eq_dec req 128); decide_eqbs; [defers|no_calls].
  - decide_eqbs; no_calls.
  - decide_eqbs; no_calls.
Qed.

(** *** The deferred requests *)

(** The callback, and the application thread when it finds the event. *)
Definition setup_and_task `{!UpperLayers H} (r : usb_control_request_t) : NM (fw O H) unit :=
  let! _ := lift (CyFxAppUSBSetupCB (setup_words r).1 (setup_words r).2) in
  control_task.

Lemma answer_defer active r :
  answer_to active r = Defer ->
  (req_type r = USB_TYPE_STANDARD /\ req_bRequest r = USB_REQ_GET_INTERFACE) \/
  (req_type r = USB_TYPE_STANDARD /\ req_bRequest r = USB_REQ_SET_INTERFACE) \/
  (req_type r = USB_TYPE_CLASS /\ req_bRequest r = NCM_GET_NTB_PARAMETERS).
Proof.
  unfold answer_to.
  destruct (Z.eqb_spec (req_type r) USB_TYPE_STANDARD); [|destruct (Z.eqb_spec (req_type r) USB_TYPE_CLASS)].
  - destruct (Z.eqb_spec (req_bRequest r) USB_REQ_GET_INTERFACE), (Z.eqb_spec (req_bRequest r) USB_REQ_SET_INTERFACE); auto.
    cbn [orb]. by repeat (case_match; try discriminate).
  - destruct (Z.eqb_spec (req_bRequest r) NCM_GET_NTB_PARAMETERS); auto. done.
  - done.
Qed.

(** The task runs the driver on the request of the packet, without its direction. *)
Lemma setup_and_task_run `{!UpperLayers H} r (w : world (fw O H)) :
  request_ok r -> answer_to (glIsApplnActive (env w)) r = Defer ->
  exists e1, sdk_log e1 = sdk_log (env w) ++ [CyU3PEventSet CYFX_USB_CTRL_TASK] /\
    setup_and_task r w =
      (let! handled := net_usb_control_transfer
         (mk_request (req_recipient r) (req_type r) 0 (req_bRequest r) (req_wValue r) (req_wIndex r) (req_wLength r)) in
       lift (when (negb handled) (call_ (CyU3PUsbStall 0 true false)))) (mk_world (ncm_if w) e1 (calls w)).
Proof.
  intros Hr Ha. destruct (setup_cb_run r (env w) Hr) as (e1&Hrun&Hlog&Hg). rewrite Ha in Hrun, Hlog, Hg.
  exists e1. split; [exact Hlog|]. unfold setup_and_task, bind at 1, lift at 1. rewrite Hrun.
  unfold control_task, bind, lift, fget. cbn [env ncm_if calls].
  assert (gl_setupdat0 e1 = (setup_words r).1 /\ gl_setupdat1 e1 = (setup_words r).2) as [-> ->]
    by (unfold globals in Hg; cbn in Hg; by simplify_eq).
  by rewrite (decode_setup r Hr).
Qed.

(** The driver's two replies on endpoint 0. *)
Lemma ep0_run rq data n (w : world (fw O H)) :
  exists w', call_transfer_ep0 rq data n w = Ok (true, w') /\ ncm_if w' = ncm_if w /\
    sdk_log (env w') = sdk_log (env w) ++ [CyU3PUsbSendEP0Data n data].
Proof.
  unfold call_transfer_ep0. cbn [NcmTypes.usb_transfer_ep0 fw_env]. unfold usb_transfer_ep0, fbind, fret.
  destruct (call__run (CyU3PUsbSendEP0Data n data) (env w)) as (e&->&L&_). by eexists.
Qed.

Lemma status_run rq (w : world (fw O H)) :
  exists w', call_control_status rq w = Ok (true, w') /\ ncm_if w' = ncm_if w /\
    sdk_log (env w') = sdk_log (env w) ++ [CyU3PUsbAckSetup].
Proof.
  unfold call_control_status. cbn [NcmTypes.usb_control_status fw_env]. unfold usb_control_status, fbind, fret.
  destruct (call__run CyU3PUsbAckSetup (env w)) as (e&->&L&_). by eexists.
Qed.

(** A request that is handled is not stalled. *)
Lemma handled_run rq (w w1 : world (fw O H)) :
  net_usb_control_transfer rq w = Ok (true, w1) ->
  (let! handled := net_usb_control_transfer rq in
   lift (when (negb handled) (call_ (CyU3PUsbStall 0 true false)))) w = Ok (tt, w1).
Proof. intros E. unfold bind. rewrite E. by destruct w1. Qed.

(** GET_INTERFACE, GET_NTB_PARAMETERS, and SET_INTERFACE to the setting 0. *)
Lemma get_interface_run rq (w : world (fw O H)) :
  req_type rq = USB_TYPE_STANDARD -> req_bRequest rq = USB_REQ_GET_INTERFACE ->
  exists w', net_usb_control_transfer rq w = Ok (true, w') /\ ncm_if w' = ncm_if w /\
    sdk_log (env w') = sdk_log (env w) ++ [CyU3PUsbSendEP0Data 1 [interface_active (ncm_if w)]].
Proof.
  intros Ht Hb. unfold net_usb_control_transfer. rewrite Ht, Hb. cbn [Z.eqb Pos.eqb USB_TYPE_STANDARD USB_REQ_GET_INTERFACE].
  destruct (ep0_run rq [interface_active (ncm_if w)] 1 w) as (w'&Hrun&?).
  exists w'. unfold bind, gets. by rewrite Hrun.
Qed.

Lemma ntb_parameters_run rq (w : world (fw O H)) :
  req_type rq = USB_TYPE_CLASS -> req_bRequest rq = NCM_GET_NTB_PARAMETERS ->
  exists w', net_usb_control_transfer rq w = Ok (true, w') /\ ncm_if w' = ncm_if w /\
    sdk_log (env w') = sdk_log (env w) ++
      [CyU3PUsbSendEP0Data sizeof_ntb_parameters_t (ntb_parameters_bytes ntb_parameters)].
Proof.
  intros Ht Hb. unfold net_usb_control_transfer. rewrite Ht, Hb.
  cbn [Z.eqb Pos.eqb USB_TYPE_STANDARD USB_TYPE_CLASS NCM_GET_NTB_PARAMETERS].
  destruct (ep0_run rq (ntb_parameters_bytes ntb_parameters) sizeof_ntb_parameters_t w) as (w'&Hrun&?).
  exists w'. unfold bind. by rewrite Hrun.
Qed.

Lemma set_interface_zero rq (w : world (fw O H)) :
  req_type rq = USB_TYPE_STANDARD -> req_bRequest rq = USB_REQ_SET_INTERFACE -> wrap8 (req_wValue rq) = 0 ->
  exists w', net_usb_control_transfer rq w = Ok (true, w') /\
    sdk_log (env w') = sdk_log (env w) ++ [CyU3PUsbAckSetup].
Proof.
  intros Ht Hb Hz. unfold net_usb_control_transfer. rewrite Ht, Hb.
  cbn [Z.eqb Pos.eqb USB_TYPE_STANDARD USB_REQ_SET_INTERFACE USB_REQ_GET_INTERFACE].
  unfold bind, modify, gets, ret. cbn [ncm_if interface_active set_interface_active]. rewrite Hz. cbn [Z.eqb].
  destruct (status_run rq (mk_world (set_interface_active 0 (ncm_if w)) (env w) (calls w))) as (w'&->&_&?).
  by exists w'.
Qed.

(** SET_INTERFACE, when it returns. *)
Lemma set_interface_end rq (w w' : world (fw O H)) h :
  req_type rq = USB_TYPE_STANDARD -> req_bRequest rq = USB_REQ_SET_INTERFACE ->
  net_usb_control_transfer rq w = Ok (h, w') ->
  h = true /\ interface_active (ncm_if w') = wrap8 (req_wValue rq) /\
  exists cs, sdk_log (env w') = cs ++ [CyU3PUsbAckSetup].
Proof.
  intros Ht Hb. unfold net_usb_control_transfer. rewrite Ht, Hb. cbn [Z.eqb Pos.eqb USB_TYPE_STANDARD USB_REQ_SET_INTERFACE USB_REQ_GET_INTERFACE].
  intros (?&w1&[= <- <-]&(a&w2&[= <- <-]&(?&w3&Hmid&(?&w4&Hst&[= <- <-])%bind_Ok)%bind_Ok)%bind_Ok)%bind_Ok.
  destruct (status_run rq w3) as (w5&Hst'&Hif&Hlog). rewrite Hst in Hst'. simplify_eq.
  split; [done|]. rewrite Hif, Hlog. split; [|by eexists].
  assert (Hs : same_active (with_if (set_interface_active (wrap8 (req_wValue rq)) (ncm_if w)) w) w3).
  { revert Hmid. match goal with |- context [if ?b then _ else _] => destruct b end; [intros Hm; unfold ret in Hm; by simplify_eq|].
    apply (respects_bind same_active _ _ rx_update_active (fun _ => tx_notification_active false)). }
  by rewrite Hs.
Qed.
End answers.

(** C12. The setup callback, on every packet whose recipient is one that USB
    defines (0 to 3; the reserved ones 4 to 31 are left out): the interface features are
    acknowledged while the application runs and stalled otherwise; clearing the
    halt of a bulk endpoint makes exactly the sequence of calls that flushes the
    endpoint and acknowledges, with [glChHandleBulkSink] for the producer and
    [glChHandleBulkSrc] for the consumer; the three requests of the driver are
    stored and signalled to the application thread; anything else is left
    unhandled, without a call and without a change of the state. *)
Theorem setup_callback_answers {O H} `{Sdk O} `{MemHeap H} r (s : fw O H) :
  request_ok r ->
  exists s', CyFxAppUSBSetupCB (setup_words r).1 (setup_words r).2 s =
      Ok (match answer_to (glIsApplnActive s) r with NotHandled => false | _ => true end, s') /\
    sdk_log s' = sdk_log s ++ answer_calls (answer_to (glIsApplnActive s) r) /\
    globals s' = globals (match answer_to (glIsApplnActive s) r with
                          | Defer => set_gl_setupdat1 (setup_words r).2 (set_gl_setupdat0 (setup_words r).1 s)
                          | _ => s
                          end).
Proof. apply setup_cb_run. Qed.

(** ** A concrete application *)

(** An SDK on which every call succeeds, at high speed, with buffers of 16 bytes. *)
#[export] Instance sdk_ok : Sdk unit := fun _ o => (mk_ret CY_U3P_SUCCESS 0 CY_U3P_HIGH_SPEED (replicate 16 0), o).

Definition fw_boot : fw unit unit :=
  mk_fw false 0 0 false false false false 0 0 0 false 0 None lwip_boot tt [].
Definition fw_active : fw unit unit := set_glIsApplnActive true fw_boot.

Definition clear_halt_request : usb_control_request_t := mk_request 2 0 0 1 0 CY_FX_EP_PRODUCER 0.

Lemma clear_halt_request_ok : request_ok clear_halt_request.
Proof. by split. Qed.

Lemma setup_callback_answers_witness :
  exists s', CyFxAppUSBSetupCB 258 2 fw_active = Ok (true, s') /\
    sdk_log s' = answer_calls (ClearHalt CY_FX_EP_PRODUCER glChHandleBulkSink).
Proof.
  destruct (setup_callback_answers clear_halt_request fw_active clear_halt_request_ok) as (s'&Hrun&Hlog&_).
  exists s'. split; [exact Hrun|exact Hlog].
Defined.

(** Upper layers that give every packet back. *)
#[export] Instance no_upper : UpperLayers unit := {|
  ip4_input p s := let* (_, s) := pbuf_free (Some p) s in Ok s;
  etharp_input p s := let* (_, s) := pbuf_free (Some p) s in Ok s
|}.
