(* ===== verification/FwEvents.v ===== *)
(** * The application under USB events

    Any sequence of the callbacks of [src/src/main.c]: the life of the DMA
    channels as it follows from the calls that are made, against the flag
    [glIsApplnActive] that the rest of the application tests. *)

From stdpp Require Import base numbers list decidable gmap.
From Stdlib Require Import ZArith Lia Bool.
From S2P Require Import Prelude NcmTypes BlockList NcmNet UsbDesc LwipMem Pbuf PbufChain PbufPool PbufProps Ethernet Fw FwMain FwProps.
Open Scope Z_scope.
Import Main.

(** ** Programs that end or stop in the error handler *)

Section fwp.
Context {O H : Type} `{Sdk O} `{MemHeap H}.
Implicit Types (s : fw O H).

(** Every call of the SDK succeeds, and the device is connected. *)
Definition sdk_succeeds : Prop :=
  forall c o, r_status (sdk c o).1 = CY_U3P_SUCCESS /\ r_speed (sdk c o).1 <> CY_U3P_NOT_CONNECTED.

(** [m] ends in a state with [Q]; the only fault is the error handler, after a
    call that did not succeed. *)
Definition fwp {A} (m : FM O H A) s (Q : A -> fw O H -> Prop) : Prop :=
  match m s with
  | Ok (a, s') => Q a s'
  | Fault f => f = Halted /\ ~ sdk_succeeds
  end.

Lemma fwp_ret {A} (a : A) s Q : Q a s -> fwp (fret a) s Q.
Proof. done. Qed.

Lemma fwp_bind {A B} (m : FM O H A) (k : A -> FM O H B) s Q :
  fwp m s (fun a s' => fwp (k a) s' Q) -> fwp (fbind m k) s Q.
Proof. unfold fwp, fbind. by destruct (m s) as [[a s']|f]. Qed.

Lemma fwp_mono {A} (m : FM O H A) s (Q Q' : A -> fw O H -> Prop) :
  fwp m s Q -> (forall a s', Q a s' -> Q' a s') -> fwp m s Q'.
Proof. unfold fwp. intros. case_match; [case_match|]; auto. Qed.

Lemma fwp_get {A} (g : fw O H -> A) s Q : Q (g s) s -> fwp (fget g) s Q.
Proof. done. Qed.

Lemma fwp_set g s Q : Q tt (g s) -> fwp (fset g) s Q.
Proof. done. Qed.

Lemma fwp_call c s (Q : sdk_ret -> fw O H -> Prop) :
  (forall r s', r = (sdk c (sdk_state s)).1 -> after_calls [c] s s' -> Q r s') -> fwp (call c) s Q.
Proof.
  intros HQ. unfold fwp, call. destruct (sdk c (sdk_state s)) as [r o]. apply HQ; [done|]. by split.
Qed.

Lemma fwp_call_ c s (Q : unit -> fw O H -> Prop) :
  (forall s', after_calls [c] s s' -> Q tt s') -> fwp (call_ c) s Q.
Proof. intros HQ. apply fwp_bind, fwp_call. intros r s' _ Ha. by apply fwp_ret, HQ. Qed.

Lemma fwp_must c s (Q : unit -> fw O H -> Prop) :
  (forall s', after_calls [c] s s' -> Q tt s') -> fwp (must c) s Q.
Proof.
  intros HQ. unfold must, call_status. apply fwp_bind, fwp_bind, fwp_call. intros r s' Hr Ha. apply fwp_ret.
  unfold failed. case_bool_decide as Hst; [by apply fwp_ret, HQ|]. split; [done|].
  intros Hok. apply Hst. rewrite Hr. apply Hok.
Qed.

Lemma fwp_when b m s Q : (b = true -> fwp m s Q) -> (b = false -> Q tt s) -> fwp (when b m) s Q.
Proof. destruct b; intros Ht Hf; [by apply Ht|by apply fwp_ret, Hf]. Qed.
End fwp.
Arguments sdk_succeeds O {_}.

(** One step of a program. *)
Ltac fw_step :=
  lazymatch goal with
  | |- fwp (fbind _ _) _ _ => apply fwp_bind
  | |- fwp (fret _) _ _ => apply fwp_ret
  | |- fwp skip _ _ => apply fwp_ret
  | |- fwp (fget _) _ _ => apply fwp_get
  | |- fwp (fset _) _ _ => apply fwp_set
  | |- fwp (call _) _ _ => apply fwp_call; let L := fresh "L" in let G := fresh "G" in intros ? ? ? [L G]
  | |- fwp (call_ _) _ _ => apply fwp_call_; let L := fresh "L" in let G := fresh "G" in intros ? [L G]
  | |- fwp (must _) _ _ => apply fwp_must; let L := fresh "L" in let G := fresh "G" in intros ? [L G]
  | |- fwp (when _ _) _ _ => apply fwp_when; intros
  | |- fwp (if ?b then _ else _) _ _ => destruct b eqn:?
  end.

(** ** The life of a channel *)

(** Whether the channel exists, or [None] if it is created while it exists or
    destroyed while it does not. *)
Definition channel_step (ch : dma_channel) (st : option bool) (c : sdk_call) : option bool :=
  match c with
  | CyU3PDmaChannelCreate ch' _ _ =>
      if decide (ch' = ch) then (match st with Some false => Some true | _ => None end) else st
  | CyU3PDmaChannelDestroy ch' =>
      if decide (ch' = ch) then (match st with Some true => Some false | _ => None end) else st
  | _ => st
  end.

Definition channel_life (ch : dma_channel) (cs : list sdk_call) : option bool :=
  fold_left (channel_step ch) cs (Some false).

Lemma channel_life_snoc ch cs c : channel_life ch (cs ++ [c]) = channel_step ch (channel_life ch cs) c.
Proof. unfold channel_life. by rewrite fold_left_app. Qed.

Section events.
Context {O H : Type} `{Sdk O} `{MemHeap H}.
Implicit Types (s : fw O H).

Definition life_ok s : Prop := forall ch, channel_life ch (sdk_log s) = Some (glIsApplnActive s).

(** The callbacks the SDK may call. *)
Inductive callback : Type :=
| CbEvent (evtype : CyU3PUsbEventType_t) (evdata : Z)
| CbSetup (setupdat0 setupdat1 : Z)
| CbDma (ch : dma_channel) (type : CyU3PDmaCbType_t)
| CbEpEvt (ss_retry : bool)
| CbTimer.

Definition run_callback (c : callback) : FM O H unit :=
  match c with
  | CbEvent evtype evdata => CyFxAppUSBEventCB evtype evdata
  | CbSetup d0 d1 => let% _ := CyFxAppUSBSetupCB d0 d1 in skip
  | CbDma ch type => CyFxDmaCallback ch type
  | CbEpEvt b => CyFxEpEvtCB b
  | CbTimer => TimerCb
  end.

Fixpoint run_callbacks (cs : list callback) : FM O H unit :=
  match cs with
  | [] => skip
  | c :: cs => run_callback c %; run_callbacks cs
  end.

(** *** Programs that leave the channels alone *)

Definition same_life s s' : Prop :=
  glIsApplnActive s' = glIsApplnActive s /\ forall ch, channel_life ch (sdk_log s') = channel_life ch (sdk_log s).

#[export] Instance same_life_preorder : PreOrder same_life.
Proof. split; [by split|]. intros a b c [A1 L1] [A2 L2]. split; [congruence|]. intros ch. by rewrite L2, L1. Qed.

Lemma same_life_ok s s' : same_life s s' -> life_ok s -> life_ok s'.
Proof. intros [A L] Hs ch. by rewrite L, A. Qed.

Definition quiet {A} (m : FM O H A) : Prop := forall s, fwp m s (fun _ s' => same_life s s').

Lemma quiet_ret {A} (a : A) : quiet (fret a).
Proof. intros s. by apply fwp_ret. Qed.

Lemma quiet_bind {A B} (m : FM O H A) (k : A -> FM O H B) : quiet m -> (forall a, quiet (k a)) -> quiet (fbind m k).
Proof.
  intros Hm Hk s. apply fwp_bind. eapply fwp_mono; [apply Hm|]. intros a s1 Hs1.
  eapply fwp_mono; [apply Hk|]. intros b s2 Hs2. by transitivity s1.
Qed.

Lemma quiet_get {A} (g : fw O H -> A) : quiet (fget g).
Proof. intros s. by apply fwp_get. Qed.

Lemma quiet_set g : (forall s, same_life s (g s)) -> quiet (fset g).
Proof. intros Hg s. by apply fwp_set. Qed.

Lemma quiet_call c : (forall ch st, channel_step ch st c = st) -> quiet (call c).
Proof.
  intros Hc s. apply fwp_call. intros r s' _ [L G]. split; [unfold globals in G; by simplify_eq|].
  intros ch. by rewrite L, channel_life_snoc, Hc.
Qed.

Lemma quiet_call_ c : (forall ch st, channel_step ch st c = st) -> quiet (call_ c).
Proof. intros Hc. apply quiet_bind; [by apply quiet_call|]. intros. apply quiet_ret. Qed.

Lemma quiet_when b m : quiet m -> quiet (when b m).
Proof. destruct b; [done|]. intros _. apply quiet_ret. Qed.
End events.

(** Follow the structure of a program whose calls do not touch the channels. *)
Ltac quiet_tac :=
  repeat first
    [ apply quiet_ret | apply quiet_get | apply quiet_when
    | apply quiet_bind; [|intros]
    | apply quiet_call; done | apply quiet_call_; done
    | apply quiet_set; intros; split; done
    | match goal with
      | |- quiet skip => apply quiet_ret
      | |- quiet (if ?b then _ else _) => destruct b
      | |- quiet (match ?x with _ => _ end) => destruct x
      end ].

Section callbacks.
Context {O H : Type} `{Sdk O} `{MemHeap H}.
Implicit Types (s : fw O H).

Lemma setup_quiet d0 d1 : quiet (O := O) (H := H) (CyFxAppUSBSetupCB d0 d1).
Proof. unfold CyFxAppUSBSetupCB, clear_halt, defer. quiet_tac. Qed.

Lemma dma_quiet ch ty : quiet (O := O) (H := H) (CyFxDmaCallback ch ty).
Proof. unfold CyFxDmaCallback. quiet_tac. Qed.

(** *** Start and stop *)

Lemma globals_active s s' : globals s' = globals s -> glIsApplnActive s' = glIsApplnActive s.
Proof. unfold globals. congruence. Qed.

Ltac by_log :=
  intros ch; repeat match goal with L : sdk_log ?s = _ |- context [sdk_log ?s] => rewrite L, channel_life_snoc; clear L end.

Lemma start_life s :
  life_ok s -> glIsApplnActive s = false ->
  fwp CyFxAppStart s (fun _ s' => life_ok s' /\ glIsApplnActive s' = true).
Proof.
  intros Hs Ha. unfold CyFxAppStart. fw_step. fw_step. fw_step.
  assert (Hsp : fwp (O := O) (H := H) (match r_speed r with CY_U3P_NOT_CONNECTED => CyFxAppErrorHandler | _ => skip end) s'
                  (fun _ s1 => s1 = s')).
  { destruct (r_speed r) eqn:E; try by apply fwp_ret. split; [done|]. intros Hok.
    subst r. by destruct (Hok CyU3PUsbGetSpeed (sdk_state s)). }
  eapply fwp_mono; [apply Hsp|]. intros _ ? ->. repeat fw_step.
  split; [|done]. cbn [set_glIsApplnActive glIsApplnActive sdk_log]. unfold life_ok. cbn [set_glIsApplnActive glIsApplnActive sdk_log].
  by_log. rewrite Hs, Ha. by destruct ch.
Qed.

Lemma stop_life s :
  life_ok s -> glIsApplnActive s = true ->
  fwp CyFxAppStop s (fun _ s' => life_ok s' /\ glIsApplnActive s' = false).
Proof.
  intros Hs Ha. unfold CyFxAppStop. repeat fw_step.
  match goal with |- life_ok ?x /\ _ => assert (Hx : glIsApplnActive x = false) by
    (repeat match goal with G : globals ?y = _ |- context [glIsApplnActive ?y] => rewrite (globals_active _ _ G); clear G end; done) end.
  split; [|done]. intros ch. rewrite Hx. revert ch. by_log. cbn [set_glIsApplnActive sdk_log]. rewrite Hs, Ha. by destruct ch.
Qed.

(** *** Every callback *)

Lemma stop_if_active s :
  life_ok s -> fwp (when (glIsApplnActive s) CyFxAppStop) s (fun _ s' => life_ok s' /\ glIsApplnActive s' = false).
Proof. intros Hs. apply fwp_when; intros Ha; [by apply stop_life|done]. Qed.

Lemma event_life ev data s : life_ok s -> fwp (CyFxAppUSBEventCB ev data) s (fun _ s' => life_ok s').
Proof.
  intros Hs.
  assert (Hreset : fwp (fset (set_glForceLinkU2 false) %;
            let% active := fget glIsApplnActive in
            when active CyFxAppStop %; fset (set_glDataTransStarted false)) s (fun _ s' => life_ok s')).
  { do 4 fw_step. fw_step. eapply fwp_mono; [by apply (stop_if_active (set_glForceLinkU2 false s))|].
    intros _ s1 [L1 _]. by apply fwp_set. }
  destruct ev; cbn [CyFxAppUSBEventCB]; try exact Hreset; try by apply fwp_ret.
  - fw_step. fw_step. fw_step. eapply fwp_mono; [by apply stop_if_active|]. intros _ s1 [L1 L2].
    eapply fwp_mono; [by apply start_life|]. by intros _ s2 [L3 _].
  - repeat fw_step; done.
Qed.

Lemma callback_life c s : life_ok s -> fwp (run_callback c) s (fun _ s' => life_ok s').
Proof.
  intros Hs.
  assert (Hq : forall m : FM O H unit, quiet m -> fwp m s (fun _ s' => life_ok s')).
  { intros m Hm. eapply fwp_mono; [apply Hm|]. intros ? s1 Hl. by apply (same_life_ok s). }
  destruct c; cbn [run_callback]; [by apply event_life|apply Hq..].
  - apply quiet_bind; [apply setup_quiet|]. intros. apply quiet_ret.
  - apply dma_quiet.
  - unfold CyFxEpEvtCB. quiet_tac.
  - unfold TimerCb. quiet_tac.
Qed.

Lemma callbacks_life cs s : life_ok s -> fwp (run_callbacks cs) s (fun _ s' => life_ok s').
Proof.
  revert s. induction cs as [|c cs IH]; intros s Hs; cbn [run_callbacks]; [by apply fwp_ret|].
  apply fwp_bind. eapply fwp_mono; [by apply callback_life|]. intros ? s1 L1. by apply IH.
Qed.
End callbacks.

(** C14. The channels follow the flag.  Over every sequence of USB events, setup
    packets, DMA, endpoint and timer callbacks, from a state without channels:
    if the run ends, each of the three DMA channels exists exactly when
    [glIsApplnActive] is set, and none was created while it existed or destroyed
    while it did not; the only fault is the error handler; and the run does end
    when the SDK's calls succeed. *)
Theorem channels_follow_flag {O H} `{Sdk O} `{MemHeap H} (cs : list callback) (s : fw O H) :
  sdk_log s = [] -> glIsApplnActive s = false ->
  (forall s' ch, run_callbacks cs s = Ok (tt, s') -> channel_life ch (sdk_log s') = Some (glIsApplnActive s')) /\
  (forall f, run_callbacks cs s = Fault f -> f = Halted) /\
  (sdk_succeeds O -> exists s', run_callbacks cs s = Ok (tt, s')).
Proof.
  intros Hl Ha.
  assert (Hs : life_ok s) by (intros ch; by rewrite Hl, Ha).
  pose proof (callbacks_life cs s Hs) as Hrun. unfold fwp in Hrun.
  destruct (run_callbacks cs s) as [[[] s1]|f].
  - split; [intros ? ? [= <-]; apply Hrun|]. split; [done|eauto].
  - split; [done|]. destruct Hrun as [-> Hn]. split; [by intros ? [= <-]|done].
Qed.

(** Configuration, a setup packet, a second configuration and a reset. *)
Definition sample_callbacks : list callback :=
  [CbEvent CY_U3P_USB_EVENT_SETCONF 0; CbSetup 258 2; CbEvent CY_U3P_USB_EVENT_SETCONF 0;
   CbDma glChHandleBulkSink CY_U3P_DMA_CB_CONS_EVENT; CbEvent CY_U3P_USB_EVENT_RESET 0].

Lemma sdk_ok_succeeds : sdk_succeeds unit.
Proof. intros c o. by split. Qed.

Lemma channels_follow_flag_witness :
  exists s', run_callbacks sample_callbacks fw_boot = Ok (tt, s') /\
    channel_life glChHandleBulkSrc (sdk_log s') = Some (glIsApplnActive s') /\ glIsApplnActive s' = false.
Proof.
  destruct (channels_follow_flag sample_callbacks fw_boot eq_refl eq_refl) as (Hl&_&Hr).
  destruct (Hr sdk_ok_succeeds) as (s'&Hrun). exists s'. split; [exact Hrun|]. split; [by apply Hl|].
  vm_compute in Hrun. by injection Hrun as <-.
Defined.
