(* ===== verification/FwData.v ===== *)
(** * Data through the application

    The transfers the driver asks the application for, the frames it delivers
    to the network stack, and the walk over the USB event log. *)

From stdpp Require Import base numbers list decidable gmap.
From Stdlib Require Import ZArith Lia Bool.
From S2P Require Import Prelude Linked NcmTypes BlockList NcmNet UsbDesc LwipMem Pbuf PbufChain PbufPool PbufProps Ethernet Fw FwMain FwProps FwEvents.
Open Scope Z_scope.
Import Main.

Section data.
Context {O H : Type} `{Sdk O} `{MemHeap H}.
Implicit Types (s : fw O H).

(** ** Transfers *)

(** The calls that fetch a buffer: a second attempt follows a reset. *)
Definition fetch_calls (ch : dma_channel) (retry : bool) : list sdk_call :=
  CyU3PDmaChannelGetBuffer ch 1000 ::
  if retry then [CyU3PDmaChannelReset ch; CyU3PDmaChannelSetXfer ch 0; CyU3PDmaChannelGetBuffer ch 1000] else [].

Definition reset_calls (ch : dma_channel) (b : bool) : list sdk_call :=
  if b then [CyU3PDmaChannelReset ch; CyU3PDmaChannelSetXfer ch 0] else [].

Lemma get_buffer_run ch s :
  exists r s1 retry, get_buffer ch s = Ok (r, s1) /\ after_calls (fetch_calls ch retry) s s1.
Proof.
  unfold get_buffer, fbind. destruct (call_run (CyU3PDmaChannelGetBuffer ch 1000) s) as (r&s1&->&A1).
  destruct (failed (r_status r)); [|by exists r, s1, false].
  destruct (call__run (CyU3PDmaChannelReset ch) s1) as (s2&->&A2).
  destruct (call__run (CyU3PDmaChannelSetXfer ch 0) s2) as (s3&->&A3).
  destruct (call_run (CyU3PDmaChannelGetBuffer ch 1000) s3) as (r'&s4&->&A4).
  exists r', s4, true. split; [done|]. repeat (eapply after_calls_cons; [eassumption|]). apply after_calls_nil.
Qed.

(** A buffer with room takes the bytes; a shorter one is overrun. *)
Lemma fill_run ch dma data count s :
  if decide (length data <= length dma)%nat then
    exists s' failed, fill_and_commit ch dma (Some data) (Z.of_nat (length data)) count s = Ok (tt, s') /\
      after_calls (CyU3PDmaChannelCommitBuffer ch count 0 (data ++ drop (length data) dma) :: reset_calls ch failed) s s'
  else fill_and_commit ch dma (Some data) (Z.of_nat (length data)) count s = Fault OutOfBounds.
Proof.
  unfold fill_and_commit, fbind, of_result, memcpy. rewrite Z.leb_refl, Nat2Z.id, firstn_all.
  case_decide as Hd.
  - rewrite wr_in_range by lia. change (splice (Z.to_nat 0) data dma) with (data ++ drop (length data) dma).
    destruct (call_status_run (CyU3PDmaChannelCommitBuffer ch count 0 (data ++ drop (length data) dma)) s) as (st&s1&->&A1).
    destruct (failed st); cbn [when]; [|by exists s1, false].
    unfold fbind. destruct (call__run (CyU3PDmaChannelReset ch) s1) as (s2&->&A2).
    destruct (call__run (CyU3PDmaChannelSetXfer ch 0) s2) as (s3&->&A3).
    exists s3, true. split; [done|]. repeat (eapply after_calls_cons; [eassumption|]). apply after_calls_nil.
  - unfold wr. replace (in_range dma 0 (Z.of_nat (length data))) with false; [done|].
    symmetry. apply not_true_iff_false. rewrite in_range_spec. lia.
Qed.

(** ** Frames for the network stack *)

Lemma in_range_false (bs : list Z) o n : 0 <= o -> Z.of_nat (length bs) < o + n -> in_range bs o n = false.
Proof. intros. apply not_true_iff_false. rewrite in_range_spec. lia. Qed.

Lemma st_bytes_tab (st st' : lwip H) ptr off v : st_bytes st ptr off v = Ok st' -> tab_pool st' = tab_pool st.
Proof. unfold st_bytes. intros ([a o]&_&(bs&_&(bs'&_&[= <-])%rbind_Ok)%rbind_Ok)%rbind_Ok. done. Qed.

(** The allocation for a frame that fits in one element. *)
Lemma alloc_one (st : lwip H) q f n :
  chain (pbufs st) (tab_pool st) (q :: f) -> sized st (q :: f) -> 0 <= n <= PBUF_POOL_BUFSIZE_ALIGNED ->
  exists st' c, pbuf_alloc PBUF_RAW n PBUF_POOL st = Ok (Some q, st') /\ packet st' (Some q) [q] [c] /\
    Z.of_nat (length c) = n /\ chain (pbufs st') (tab_pool st') f.
Proof.
  intros Hc Hsz Hn. change PBUF_POOL_BUFSIZE_ALIGNED with 1516 in Hn.
  assert (Hneed : need 0 n = 1%nat) by (apply need_small; change (room 0) with 1516; lia).
  destruct (pool_loop_ok (chain_fuel st) st None n 0 (q :: f)) as
    (q'&f1&f2&cs&st'&Hf&Hl&Hrun&Hp&Htot&Hc2&_); try done; try lia.
  { rewrite Hneed. cbn. lia. }
  { by apply chain_fuel_ok in Hc. }
  assert (f1 = []) as -> by (rewrite Hneed in Hl; destruct f1; [done|cbn in Hl; lia]).
  cbn in Hf. injection Hf as <- <-. destruct cs as [|c [|? ?]]; try (cbn in Hp; naive_solver).
  exists st', c. cbn in Htot. rewrite app_nil_r in Htot. auto.
Qed.

(** The first element of any allocation, and its size. *)
Lemma alloc_first (st : lwip H) f n :
  chain (pbufs st) (tab_pool st) f -> sized st f -> 0 <= n < 65536 -> (need 0 n <= length f)%nat ->
  exists q st' b o bs, pbuf_alloc PBUF_RAW n PBUF_POOL st = Ok (Some q, st') /\ pbufs st' !! q = Some b /\
    payload b = Some (q, o) /\ 0 <= o /\ areas st' !! q = Some bs /\ Z.of_nat (length bs) = PBUF_POOL_BUFSIZE_ALIGNED.
Proof.
  intros Hc Hsz Hn Hneed.
  destruct (pool_loop_ok (chain_fuel st) st None n 0 f) as
    (q&f1&f2&cs&st'&Hf&Hl&Hrun&Hp&Htot&Hc2&Hrest&_&_&Hpay&_); try done.
  { by apply chain_fuel_ok in Hc. }
  destruct (Hpay q) as (b&o&Hb&Hpb); [set_solver|]. destruct (Hsz q) as (bs&Ha&Hbs); [set_solver|].
  exists q, st', b, o, bs. split_and!; try done; [|by destruct Hrest as [-> _]].
  destruct cs as [|c cs]; [done|]. cbn in Hp. destruct Hp as [_ (b'&Hb'&_&_&_&(a&o'&bs'&Hpb'&_&Ho&_)&_)].
  rewrite Hb in Hb'. simplify_eq. done.
Qed.

Lemma alloc_none (st : lwip H) f n :
  chain (pbufs st) (tab_pool st) f -> sized st f -> 0 <= n < 65536 -> (length f < need 0 n)%nat ->
  exists st', pbuf_alloc PBUF_RAW n PBUF_POOL st = Ok (None, st') /\ chain (pbufs st') (tab_pool st') (rev f).
Proof.
  intros Hc Hsz Hn Hneed. destruct (pool_loop_fail (chain_fuel st) st None [] n 0 f) as (st'&Hrun&Hc2&_); try done.
  - set_solver.
  - by apply chain_fuel_ok in Hc.
  - by exists st'.
Qed.
End data.

(** C15. The transfers the driver asks for, on every branch.  A notification is
    committed to its channel with exactly the driver's bytes when a buffer with
    room can be fetched, after one reset if needed, and refused when none can. A
    transfer to the host does nothing and is refused.  A request to receive
    overruns a DMA buffer shorter than the driver's NTB, and is refused in
    every other case. *)
Theorem usb_transfer_cases {O H} `{Sdk O} `{MemHeap H} (data : list Z) (s : fw O H) :
  let n := Z.of_nat (length data) in
  usb_transfer_ep NCM_EP_DATA_IN (Some data) n s = Ok (false, s) /\
  (exists r s1 retry, get_buffer glChHandleNotifier s = Ok (r, s1) /\ after_calls (fetch_calls glChHandleNotifier retry) s s1 /\
     if failed (r_status r) then usb_transfer_ep NCM_EP_NOTIFY (Some data) n s = Ok (false, s1)
     else if decide (length data <= length (r_bytes r))%nat then
       exists s' reset, usb_transfer_ep NCM_EP_NOTIFY (Some data) n s = Ok (true, s') /\
         after_calls (CyU3PDmaChannelCommitBuffer glChHandleNotifier n 0 (data ++ drop (length data) (r_bytes r)) ::
                      reset_calls glChHandleNotifier reset) s1 s'
     else usb_transfer_ep NCM_EP_NOTIFY (Some data) n s = Fault OutOfBounds) /\
  (exists r s1, get_buffer glChHandleBulkSink s = Ok (r, s1) /\
     if failed (r_status r) then usb_transfer_ep NCM_EP_DATA_OUT (Some data) n s = Ok (false, s1)
     else if decide (length data <= length (r_bytes r))%nat then
       exists s', usb_transfer_ep NCM_EP_DATA_OUT (Some data) n s = Ok (false, s')
     else usb_transfer_ep NCM_EP_DATA_OUT (Some data) n s = Fault OutOfBounds).
Proof.
  intros n. split; [done|]. subst n. split.
  - destruct (get_buffer_run glChHandleNotifier s) as (r&s1&retry&Hget&Ha). exists r, s1, retry. split_and!; try done.
    unfold usb_transfer_ep. rewrite Z.eqb_refl. unfold fbind, fret. rewrite Hget. destruct (failed (r_status r)); [done|].
    pose proof (fill_run glChHandleNotifier (r_bytes r) data (Z.of_nat (length data)) s1) as Hfill. case_decide; [|by rewrite Hfill].
    destruct Hfill as (s'&reset&->&Hc). by exists s', reset.
  - destruct (get_buffer_run glChHandleBulkSink s) as (r&s1&retry&Hget&_). exists r, s1. split; [done|].
    unfold usb_transfer_ep. change (NCM_EP_DATA_OUT =? NCM_EP_NOTIFY) with false. rewrite Z.eqb_refl. cbn iota.
    unfold fbind, fret. rewrite Hget. destruct (failed (r_status r)); [done|].
    pose proof (fill_run glChHandleBulkSink (r_bytes r) data 2 s1) as Hfill. case_decide; [|by rewrite Hfill].
    destruct Hfill as (s'&reset&->&_). by exists s'.
Qed.

(** C16. A received frame, on every branch, with the free list [f] of the buffer
    pool: while an earlier frame waits it is refused; an empty frame and one for
    which the pool has too few elements are accepted and dropped; a frame of at
    most 1516 bytes becomes the pending packet with exactly its bytes; a longer
    one is copied past the end of the first element. *)
Theorem received_frame_cases {O H} `{Sdk O} `{MemHeap H} (frame f : list Z) (s : fw O H) :
  let n := Z.of_nat (length frame) in
  chain (pbufs (stack s)) (tab_pool (stack s)) f -> sized (stack s) f -> n < 65536 ->
  match received_frame s with
  | Some _ => net_rx_cb frame n s = Ok (0, s)
  | None =>
      if decide (n = 0) then net_rx_cb frame n s = Ok (1, s)
      else if decide (length f < need 0 n)%nat then
        exists s', net_rx_cb frame n s = Ok (1, s') /\ received_frame s' = None /\
          chain (pbufs (stack s')) (tab_pool (stack s')) (rev f)
      else if decide (n <= PBUF_POOL_BUFSIZE_ALIGNED) then
        exists q f' s', f = q :: f' /\ net_rx_cb frame n s = Ok (1, s') /\ received_frame s' = Some q /\
          packet (stack s') (Some q) [q] [frame] /\ chain (pbufs (stack s')) (tab_pool (stack s')) f'
      else net_rx_cb frame n s = Fault OutOfBounds
  end.
Proof.
  intros n Hc Hsz Hn. unfold net_rx_cb, fbind, fget. destruct (received_frame s) eqn:Hrf; [done|].
  case_decide as Hz; [by rewrite Hz|].
  rewrite (proj2 (Z.eqb_neq n 0) Hz). cbn [negb when]. unfold on_stack, of_result, fret, fset.
  assert (Htk : take (Z.to_nat n) frame = frame) by (unfold n; by rewrite Nat2Z.id, firstn_all).
  case_decide as Hlack.
  { destruct (alloc_none (stack s) f n Hc Hsz) as (st'&->&Hc'); [lia|done|]. cbn. eauto 10. }
  case_decide as Hfit.
  - destruct f as [|q f]; [unfold need in Hlack; cbn in Hlack; lia|].
    destruct (alloc_one (stack s) q f n Hc Hsz) as (st'&c&->&Hp&Hlc&Hc'); [lia|].
    cbn in Hp. destruct Hp as [_ (b&Hb&Hlen&Htot&Hmax&Hh&Hnx)]. cbn [rbind stack set_stack]. rewrite (deref_ok _ _ _ Hb).
    rewrite Z.leb_refl, Htk. cbn [skip fret stack set_stack].
    destruct (st_holds st' q b [] [] c frame Hb Hh Hlen Hnx) as (st2&Hst&Hpb&Hh2&Hnx2&_); [|set_solver|lia|].
    { intros p1 p2 *. set_solver. }
    rewrite Hst. cbn [rbind]. exists q, f. eexists. split; [done|]. split; [done|]. split; [done|].
    cbn [stack set_stack set_received_frame]. rewrite drop_ge, app_nil_r in Hh2 by lia. split.
    + cbn. split; [done|]. exists b. rewrite Hpb. split_and!; try done; try lia; cbn in *; rewrite ?app_nil_r in *; lia.
    + rewrite Hpb. by rewrite (st_bytes_tab _ _ _ _ _ Hst).
  - destruct (alloc_first (stack s) f n Hc Hsz) as (q&st'&b&o&bs&->&Hb&Hpay&Ho&Ha&Hbs); [lia|lia|].
    cbn [rbind stack set_stack]. rewrite (deref_ok _ _ _ Hb), Z.leb_refl, Htk. cbn [skip fret stack set_stack].
    unfold st_bytes, area. rewrite Hpay. cbn [not_null rbind]. rewrite Ha. cbn [rbind]. unfold wr.
    by rewrite in_range_false by lia.
Qed.

(** ** The event log *)

(** The entries of the ring from [prev] up to [idx]. *)
Definition ring_entries (prev idx : Z) : list Z :=
  (fun i => (prev + Z.of_nat i) mod CYFX_USBLOG_SIZE) <$> seq 0 (Z.to_nat ((idx - prev) mod CYFX_USBLOG_SIZE)).

(** One step of the walk. *)
Definition ring_next (tmp2 : Z) : Z :=
  if wrap16 (tmp2 + 1) =? CYFX_USBLOG_SIZE then 0 else wrap16 (tmp2 + 1).

Lemma ring_next_mod p : 0 <= p < CYFX_USBLOG_SIZE -> ring_next p = (p + 1) mod CYFX_USBLOG_SIZE.
Proof.
  intros Hp. unfold ring_next. change CYFX_USBLOG_SIZE with 4096 in *. rewrite wrap16_small by lia.
  destruct (Z.eqb_spec (p + 1) 4096) as [->|]; [done|]. rewrite Z.mod_small; lia.
Qed.

Lemma ring_entries_step prev idx :
  0 <= prev < CYFX_USBLOG_SIZE -> 0 <= idx < CYFX_USBLOG_SIZE -> prev <> idx ->
  ring_entries prev idx = prev :: ring_entries (ring_next prev) idx /\
  (idx - ring_next prev) mod CYFX_USBLOG_SIZE = (idx - prev) mod CYFX_USBLOG_SIZE - 1.
Proof.
  intros Hp Hi Hne. rewrite ring_next_mod by done. unfold ring_entries. change CYFX_USBLOG_SIZE with 4096 in *.
  assert (Hd : (idx - (prev + 1) mod 4096) mod 4096 = (idx - prev) mod 4096 - 1)
    by (rewrite Zminus_mod_idemp_r; pose proof (Z.mod_pos_bound (idx - prev) 4096);
        symmetry; apply (Z.mod_unique _ _ ((idx - prev) / 4096)); [|pose proof (Z.div_mod (idx - prev) 4096); lia];
        assert ((idx - prev) mod 4096 <> 0); [|lia];
        intros [k Hk]%Z.mod_divide; [lia|lia]).
  split; [|done]. rewrite Hd.
  assert (0 < (idx - prev) mod 4096).
  { pose proof (Z.mod_pos_bound (idx - prev) 4096). enough ((idx - prev) mod 4096 <> 0) by lia.
    intros [k Hk]%Z.mod_divide; lia. }
  replace (Z.to_nat ((idx - prev) mod 4096)) with (S (Z.to_nat ((idx - prev) mod 4096 - 1))) by lia.
  cbn [seq fmap list_fmap]. f_equal; [rewrite Z.mod_small; lia|].
  rewrite <- fmap_S_seq, <- list_fmap_compose. apply list_fmap_ext. intros i k _. cbn.
  rewrite Zplus_mod_idemp_l. f_equal. lia.
Qed.

Lemma log_walk_ring fuel prev idx :
  0 <= prev < CYFX_USBLOG_SIZE -> 0 <= idx < CYFX_USBLOG_SIZE ->
  (idx - prev) mod CYFX_USBLOG_SIZE < Z.of_nat fuel -> log_walk fuel prev idx = Ok (ring_entries prev idx).
Proof.
  revert prev. induction fuel as [|fuel IH]; intros prev Hp Hi Hf; [pose proof (Z.mod_pos_bound (idx - prev) CYFX_USBLOG_SIZE eq_refl); lia|].
  cbn [log_walk]. destruct (Z.eqb_spec prev idx) as [->|Hne].
  - unfold ring_entries. by rewrite Z.sub_diag.
  - destruct (ring_entries_step prev idx Hp Hi Hne) as [-> Hd]. fold (ring_next prev).
    rewrite IH; [done| |done|lia]. rewrite ring_next_mod by done. by apply Z.mod_pos_bound.
Qed.

Lemma log_walk_stuck fuel prev idx :
  0 <= prev < CYFX_USBLOG_SIZE -> CYFX_USBLOG_SIZE <= idx -> log_walk fuel prev idx = Fault OutOfFuel.
Proof.
  revert prev. induction fuel as [|fuel IH]; intros prev Hp Hi; [done|]. cbn [log_walk].
  destruct (Z.eqb_spec prev idx) as [->|Hne]; [lia|]. fold (ring_next prev). rewrite IH; [done| |done].
  rewrite ring_next_mod by done. by apply Z.mod_pos_bound.
Qed.

(** The walk over the event log from the last index to the current one, both
    16 bits wide, ends exactly if the current index is inside the log: then it
    prints the entries between the two in ring order, at most 4095 of them and
    all inside the buffer; an index beyond the log is never reached, however
    many rounds are allowed. *)
Theorem log_walk_ends {prev idx : Z} :
  0 <= prev < CYFX_USBLOG_SIZE -> 0 <= idx ->
  (idx < CYFX_USBLOG_SIZE ->
     log_walk (Z.to_nat CYFX_USBLOG_SIZE) prev idx = Ok (ring_entries prev idx) /\
     Forall (fun i => 0 <= i < CYFX_USBLOG_SIZE) (ring_entries prev idx) /\
     Z.of_nat (length (ring_entries prev idx)) < CYFX_USBLOG_SIZE) /\
  (CYFX_USBLOG_SIZE <= idx -> forall fuel, log_walk fuel prev idx = Fault OutOfFuel).
Proof.
  intros Hp Hi. split; [|intros; by apply log_walk_stuck]. intros Hlt.
  pose proof (Z.mod_pos_bound (idx - prev) CYFX_USBLOG_SIZE eq_refl).
  split; [apply log_walk_ring; [done|done|]; lia|]. split.
  - apply Forall_forall. intros i (k&->&_)%list_elem_of_fmap. by apply Z.mod_pos_bound.
  - unfold ring_entries. rewrite length_fmap, length_seq. lia.
Qed.

(** ** Concrete runs *)

Lemma usb_transfer_cases_witness :
  usb_transfer_ep NCM_EP_DATA_OUT (Some (replicate 3200 0)) 3200 fw_active = Fault OutOfBounds.
Proof.
  destruct (usb_transfer_cases (replicate 3200 0) fw_active) as (_&_&(r&s1&Hget&Hout)).
  vm_compute in Hget. injection Hget as <- <-. exact Hout.
Defined.

Lemma received_frame_cases_witness :
  exists s', net_rx_cb (replicate 60 7) 60 fw_active = Ok (1, s') /\ received_frame s' = Some 4 /\
    packet (stack s') (Some 4) [4] [replicate 60 7].
Proof.
  pose proof (received_frame_cases (replicate 60 7) [4; 3; 2; 1] fw_active boot_chain boot_sized eq_refl) as Hr.
  cbn iota in Hr. cbn [received_frame fw_active set_glIsApplnActive fw_boot] in Hr.
  rewrite decide_False in Hr by (vm_compute; discriminate).
  rewrite decide_False in Hr by (vm_compute; lia).
  rewrite decide_True in Hr by (vm_compute; discriminate).
  destruct Hr as (q&f'&s'&Hf&Hrun&Hrf&Hp&_). injection Hf as <- _. exists s'.
  split; [exact Hrun|]. split; [exact Hrf|exact Hp].
Defined.

Lemma log_walk_ends_witness :
  log_walk (Z.to_nat CYFX_USBLOG_SIZE) 4094 1 = Ok [4094; 4095; 0] /\ log_walk 70000 4094 4096 = Fault OutOfFuel.
Proof.
  split.
  - assert (Hp : 0 <= 4094 < CYFX_USBLOG_SIZE) by (vm_compute; split; [discriminate|reflexivity]).
    destruct (log_walk_ends (prev := 4094) (idx := 1) Hp ltac:(lia)) as [Hr _].
    destruct (Hr eq_refl) as [Hw _]. exact Hw.
  - assert (Hp : 0 <= 4094 < CYFX_USBLOG_SIZE) by (vm_compute; split; [discriminate|reflexivity]).
    destruct (log_walk_ends (prev := 4094) (idx := 4096) Hp ltac:(lia)) as [_ Hr].
    apply Hr. vm_compute. discriminate.
Defined.
