(* ===== verification/FwControl.v ===== *)
(** * Deferred control requests

    The requests that the setup callback of [src/src/main.c] leaves to the
    application thread: which of them are answered, by which call, and what
    can keep the thread from answering. *)

From stdpp Require Import base numbers list decidable gmap.
From Stdlib Require Import ZArith Lia Bool.
From S2P Require Import Prelude NcmTypes BlockList NtbList NcmTx NcmRx NcmNet NcmSystem NcmBehaviour UsbDesc LwipMem Pbuf PbufChain PbufPool PbufProps Ethernet Fw FwMain FwProps FwEvents FwData.
Open Scope Z_scope.
Import Main.

(** The calls that reply to a control request. *)
Definition ep0_reply (c : sdk_call) : bool :=
  match c with
  | CyU3PUsbAckSetup | CyU3PUsbSendEP0Data _ _ => true
  | CyU3PUsbStall ep _ _ => ep =? 0
  | _ => false
  end.

Section control.
Context {O H : Type} `{Sdk O} `{MemHeap H}.
Implicit Types (s : fw O H) (w : world (fw O H)).

(** The buffers of the notification channel have the 16 bytes that
    [CyFxAppStart] asks for when it creates the channel. *)
Definition notifier_room : Prop :=
  forall o, let r := (sdk (CyU3PDmaChannelGetBuffer glChHandleNotifier 1000) o).1 in
    failed (r_status r) = false -> (16 <= length (r_bytes r))%nat.

(** [w'] is [w] after calls none of which is a reply. *)
Definition no_reply s s' : Prop :=
  exists cs, sdk_log s' = sdk_log s ++ cs /\ Forall (fun c => ep0_reply c = false) cs.

Lemma no_reply_refl s : no_reply s s.
Proof. exists []. by rewrite app_nil_r. Qed.

Lemma no_reply_trans s s1 s2 : no_reply s s1 -> no_reply s1 s2 -> no_reply s s2.
Proof.
  intros (cs&L1&F1) (cs'&L2&F2). exists (cs ++ cs'). rewrite L2, L1, app_assoc.
  split; [done|by apply Forall_app].
Qed.

Lemma after_no_reply cs s s' :
  after_calls cs s s' -> Forall (fun c => ep0_reply c = false) cs -> no_reply s s'.
Proof. intros [? _] ?. by exists cs. Qed.

(** A buffer that is fetched is one the channel has given. *)
Lemma get_buffer_given ch s r s1 :
  get_buffer ch s = Ok (r, s1) ->
  failed (r_status r) = false -> exists o, (sdk (CyU3PDmaChannelGetBuffer ch 1000) o).1 = r.
Proof.
  unfold get_buffer. intros (r1&s2&Hc&Hk)%fbind_Ok Hr. revert Hk.
  assert (Hcall : forall x s2 s3, call (CyU3PDmaChannelGetBuffer ch 1000) s2 = Ok (x, s3) ->
            exists o, (sdk (CyU3PDmaChannelGetBuffer ch 1000) o).1 = x).
  { intros x s3 s4. unfold call. destruct (sdk _ (sdk_state s3)) as [x' o'] eqn:Hs. intros [= <- _].
    exists (sdk_state s3). by rewrite Hs. }
  destruct (failed (r_status r1)).
  - intros (?&?&_&(?&?&_&Hg)%fbind_Ok)%fbind_Ok. eauto.
  - intros [= <- <-]. eauto.
Qed.

(** A notification of at most 16 bytes. *)
Lemma notify_run data s :
  notifier_room -> (length data <= 16)%nat ->
  exists r s', usb_transfer_ep NCM_EP_NOTIFY (Some data) (Z.of_nat (length data)) s = Ok (r, s') /\
    no_reply s s'.
Proof.
  intros Hroom Hd. destruct (get_buffer_run glChHandleNotifier s) as (r&s1&retry&Hget&Ha).
  assert (Hq : no_reply s s1) by (apply (after_no_reply _ _ _ Ha); by destruct retry; repeat constructor).
  unfold usb_transfer_ep. rewrite Z.eqb_refl. unfold fbind, fret. rewrite Hget.
  destruct (failed (r_status r)) eqn:Hf; [by eauto|].
  destruct (get_buffer_given _ _ _ _ Hget Hf) as [o Ho].
  pose proof (Hroom o) as Hlen. cbn zeta in Hlen. rewrite Ho in Hlen. specialize (Hlen Hf).
  pose proof (fill_run glChHandleNotifier (r_bytes r) data (Z.of_nat (length data)) s1) as Hfill.
  rewrite decide_True in Hfill by lia. destruct Hfill as (s'&reset&->&Hc). eexists _, _. split; [done|].
  eapply no_reply_trans; [exact Hq|]. apply (after_no_reply _ _ _ Hc). by destruct reset; repeat constructor.
Qed.

Lemma call_notify_run data n w :
  notifier_room -> (length data <= 16)%nat -> n = Z.of_nat (length data) ->
  exists r w', call_transfer_ep NCM_EP_NOTIFY (Some data) n w = Ok (r, w') /\
    ncm_if w' = ncm_if w /\ no_reply (env w) (env w').
Proof.
  intros Hroom Hd ->. unfold call_transfer_ep. cbn [NcmTypes.usb_transfer_ep fw_env].
  destruct (notify_run data (env w) Hroom Hd) as (r&s'&->&?). cbn [rbind]. by eexists _, _.
Qed.

Lemma tx_notification_run w :
  notifier_room -> exists w', tx_notification false w = Ok (tt, w') /\ no_reply (env w) (env w').
Proof.
  intros Hroom. unfold tx_notification, bind at 1, gets.
  destruct (notification_state (ncm_if w)).
  - rewrite bool_decide_eq_true_2 by done. cbn [negb andb]. unfold bind at 1, modify at 1.
    set (w1 := mk_world _ _ _).
    destruct (call_notify_run (notify_speed_bytes notify_speed) sizeof_notify_speed w1) as (r1&w2&Hr1&_&Q1);
      [done|vm_compute; lia|done|].
    destruct (call_notify_run (notification_bytes notify_connection) sizeof_notification w2) as (r2&w3&Hr2&_&Q2);
      [done|vm_compute; lia|done|].
    unfold bind. rewrite Hr1, Hr2. eexists. split; [done|]. by eapply no_reply_trans.
  - exists w. split; [done|apply no_reply_refl].
  - exists w. split; [done|apply no_reply_refl].
Qed.

(** Delivering a datagram makes no call of the SDK. *)
Definition same_log w w' : Prop := sdk_log (env w') = sdk_log (env w).

#[local] Instance same_log_preorder : PreOrder same_log.
Proof. split; unfold same_log; [done|congruence]. Qed.

Lemma net_rx_cb_log data n s a s' : net_rx_cb data n s = Ok (a, s') -> sdk_log s' = sdk_log s.
Proof.
  unfold net_rx_cb. intros (busy&s1&[= <- <-]&Hk)%fbind_Ok.
  destruct (received_frame s); [by injection Hk as <- <-|].
  apply fbind_Ok in Hk as (?&s2&Hk&[= <- <-]). destruct (n =? 0); [by injection Hk as <- <-|].
  cbn [negb when] in Hk. apply fbind_Ok in Hk as (p&s3&Hal&Hk).
  assert (H3 : sdk_log s3 = sdk_log s).
  { unfold on_stack in Hal. apply rbind_Ok in Hal as ([? ?]&_&[= <- <-]). done. }
  rewrite <- H3. destruct p as [p|]; [|by injection Hk as <- <-].
  apply fbind_Ok in Hk as (b&s4&Hd&Hk).
  assert (s4 = s3) as -> by (unfold of_result in Hd; destruct (deref _ _); by simplify_eq).
  apply fbind_Ok in Hk as (?&s5&Hchk&Hk).
  assert (s5 = s3) as -> by (destruct (n <=? _); [by injection Hchk|done]).
  apply fbind_Ok in Hk as (?&s6&Hst&[= <- <-]).
  unfold on_stack in Hst. apply rbind_Ok in Hst as ([? ?]&_&[= <- <-]). done.
Qed.

Lemma call_net_rx_log data n : respects same_log (call_net_rx (E := fw O H) data n).
Proof.
  intros w a w'. unfold call_net_rx. cbn [NcmTypes.net_rx_cb fw_env].
  intros ([r e]&Hr&[= <- <-])%rbind_Ok. exact (net_rx_cb_log _ _ _ _ _ Hr).
Qed.

Lemma rx_update_log : respects same_log (rx_update_user_ntb (E := fw O H)).
Proof.
  unfold rx_update_user_ntb, rx_fetch_user_ntb, rx_offer_datagram, pop_from, push_to.
  repeat first [apply call_net_rx_log | progress respects_with ltac:(done)].
Qed.

(** SET_INTERFACE to a setting that is not 0: it is answered, unless offering
    a received datagram to the application faults. *)
Lemma set_interface_run rq w :
  notifier_room ->
  req_type rq = USB_TYPE_STANDARD -> req_bRequest rq = USB_REQ_SET_INTERFACE ->
  wrap8 (req_wValue rq) <> 0 ->
  let w1 := with_if (set_interface_active (wrap8 (req_wValue rq)) (ncm_if w)) w in
  match rx_update_user_ntb w1 with
  | Ok _ => exists w' s2, net_usb_control_transfer rq w = Ok (true, w') /\ no_reply (env w) s2 /\
      sdk_log (env w') = sdk_log s2 ++ [CyU3PUsbAckSetup]
  | Fault f => net_usb_control_transfer rq w = Fault f
  end.
Proof.
  intros Hroom Ht Hb Hz w1.
  assert (Heq : net_usb_control_transfer rq w =
            (let! _ := (let! _ := rx_update_user_ntb in tx_notification false) in
             let! _ := call_control_status rq in ret true) w1).
  { unfold net_usb_control_transfer. rewrite Ht, Hb.
    cbn [Z.eqb Pos.eqb USB_TYPE_STANDARD USB_REQ_SET_INTERFACE USB_REQ_GET_INTERFACE].
    unfold bind at 1, modify. unfold bind at 1, gets. cbn [ncm_if interface_active set_interface_active].
    apply Z.eqb_neq in Hz. by rewrite Hz. }
  rewrite !Heq. clear Heq.
  destruct (rx_update_user_ntb w1) as [[b w2]|f] eqn:Hrx; unfold bind; rewrite Hrx; [|done].
  destruct (tx_notification_run w2 Hroom) as (w3&->&Hq).
  destruct (status_run rq w3) as (w4&Hst&_&Hl). rewrite Hst. exists w4, (env w3).
  split; [done|]. split; [|done].
  pose proof (rx_update_log _ _ _ Hrx) as Hs. unfold same_log in Hs. cbn in Hs.
  destruct Hq as (cs&Hc&Hf). exists cs. by rewrite <- Hs.
Qed.

(** With nothing received there is nothing to offer. *)
Lemma rx_update_nothing w :
  nothing_received (ncm_if w) -> exists r, rx_update_user_ntb w = Ok r.
Proof.
  intros (Hu&l&Hp). unfold rx_update_user_ntb, rx_fetch_user_ntb, pop_from, bind, gets, getsr, modify, ret.
  rewrite Hu, Hp. cbn. eauto.
Qed.
End control.

(** ** Theorems *)

(** C13. The requests that are deferred are answered by the application thread
    and never stalled: GET_INTERFACE sends the alternate setting and
    GET_NTB_PARAMETERS the 28 bytes of the parameters, without a change of the
    driver; SET_INTERFACE to a zero byte is acknowledged at once.  SET_INTERFACE
    to another byte, with the 16-byte buffers that the notification channel was
    created with, is acknowledged by the last call and no other reply is made,
    with one exception: an NTB has been received and offering its datagram to
    the application faults, and the thread faults with it.  Without a received
    NTB it is always answered. *)
Theorem deferred_request_answered {O H} `{Sdk O} `{MemHeap H} `{!UpperLayers H} r (w : world (fw O H)) :
  request_ok r -> answer_to (glIsApplnActive (env w)) r = Defer ->
  let reply data w' := sdk_log (env w') =
    sdk_log (env w) ++ [CyU3PEventSet CYFX_USB_CTRL_TASK; CyU3PUsbSendEP0Data (Z.of_nat (length data)) data] in
  (req_bRequest r = USB_REQ_GET_INTERFACE ->
     exists w', setup_and_task r w = Ok (tt, w') /\ ncm_if w' = ncm_if w /\ reply [interface_active (ncm_if w)] w') /\
  (req_bRequest r = NCM_GET_NTB_PARAMETERS ->
     exists w', setup_and_task r w = Ok (tt, w') /\ ncm_if w' = ncm_if w /\ reply (ntb_parameters_bytes ntb_parameters) w') /\
  (req_bRequest r = USB_REQ_SET_INTERFACE ->
     (wrap8 (req_wValue r) = 0 -> exists w', setup_and_task r w = Ok (tt, w') /\
        sdk_log (env w') = sdk_log (env w) ++ [CyU3PEventSet CYFX_USB_CTRL_TASK; CyU3PUsbAckSetup]) /\
     (wrap8 (req_wValue r) <> 0 -> notifier_room (O := O) ->
        (exists w' cs, setup_and_task r w = Ok (tt, w') /\
           sdk_log (env w') = sdk_log (env w) ++ CyU3PEventSet CYFX_USB_CTRL_TASK :: cs ++ [CyU3PUsbAckSetup] /\
           Forall (fun c => ep0_reply c = false) cs) \/
        (~ nothing_received (ncm_if w) /\
         exists e1 f, sdk_log e1 = sdk_log (env w) ++ [CyU3PEventSet CYFX_USB_CTRL_TASK] /\
           rx_update_user_ntb
             (mk_world (set_interface_active (wrap8 (req_wValue r)) (ncm_if w)) e1 (calls w)) = Fault f /\
           setup_and_task r w = Fault f)) /\
     forall w', setup_and_task r w = Ok (tt, w') ->
       interface_active (ncm_if w') = wrap8 (req_wValue r) /\
       exists cs, sdk_log (env w') = cs ++ [CyU3PUsbAckSetup]).
Proof.
  intros Hr Ha reply. destruct (setup_and_task_run r w Hr Ha) as (e1&Hlog&->).
  set (rq := mk_request _ _ _ _ _ _ _). set (w1 := mk_world (ncm_if w) e1 (calls w)).
  assert (Hl1 : forall c, sdk_log (env w1) ++ [c] = sdk_log (env w) ++ [CyU3PEventSet CYFX_USB_CTRL_TASK; c])
    by (intros; cbn [env w1]; by rewrite Hlog, <- app_assoc).
  destruct (answer_defer _ _ Ha) as [[Ht Hb]|[[Ht Hb]|[Ht Hb]]]; rewrite Hb; (split; [|split]); try discriminate; intros _.
  - destruct (get_interface_run rq w1 Ht Hb) as (w'&Hrun&Hif&Hl). exists w'.
    split; [by apply handled_run|]. split; [done|]. unfold reply. by rewrite <- Hl1.
  - split; [|split].
    + intros Hz. destruct (set_interface_zero rq w1 Ht Hb Hz) as (w'&Hrun&Hl). exists w'.
      split; [by apply handled_run|]. by rewrite <- Hl1.
    + intros Hz Hroom. pose proof (set_interface_run rq w1 Hroom Ht Hb Hz) as Hset. cbn zeta in Hset.
      destruct (rx_update_user_ntb (with_if _ w1)) as [|f] eqn:Hrx.
      * left. destruct Hset as (w'&s2&Hrun&(cs&Hc&Hf)&Hl). exists w', cs.
        split; [by apply handled_run|]. split; [|done].
        rewrite Hl, Hc. cbn [env w1]. by rewrite Hlog, <- !app_assoc.
      * right. split.
        { intros Hno. destruct (rx_update_nothing (with_if (set_interface_active (wrap8 (req_wValue rq)) (ncm_if w1)) w1))
            as [x Hx]; [exact Hno|]. rewrite Hx in Hrx. done. }
        exists e1, f. split; [done|]. split; [exact Hrx|]. unfold bind. by rewrite Hset.
    + intros w' (h&w2&Hrun&Hw)%bind_Ok. destruct (set_interface_end rq w1 w2 h Ht Hb Hrun) as (->&?&?).
      unfold lift in Hw. cbn in Hw. by destruct w2; simplify_eq/=.
  - destruct (ntb_parameters_run rq w1 Ht Hb) as (w'&Hrun&Hif&Hl). exists w'.
    split; [by apply handled_run|]. split; [done|]. unfold reply. by rewrite <- Hl1.
Qed.

(** The host selects the alternate setting 1 at start. *)
Definition select_request : usb_control_request_t := mk_request 1 0 0 USB_REQ_SET_INTERFACE 1 0 0.

Lemma select_request_ok : request_ok select_request.
Proof. by split. Qed.

Lemma sdk_ok_room : notifier_room (O := unit).
Proof. intros o r Hf. vm_compute. lia. Qed.

Lemma nothing_received_init : nothing_received zero_ncm_if.
Proof. split; [reflexivity|]. eexists. reflexivity. Qed.

Lemma deferred_request_answered_witness :
  exists w' cs, setup_and_task select_request (mk_world zero_ncm_if fw_active []) = Ok (tt, w') /\
    sdk_log (env w') = CyU3PEventSet CYFX_USB_CTRL_TASK :: cs ++ [CyU3PUsbAckSetup] /\
    Forall (fun c => ep0_reply c = false) cs.
Proof.
  destruct (deferred_request_answered select_request (mk_world zero_ncm_if fw_active [])
    select_request_ok eq_refl) as (_&_&Hset).
  destruct (Hset eq_refl) as (_&Hone&_).
  destruct (Hone ltac:(discriminate) sdk_ok_room) as [(w'&cs&Hrun&Hl&Hf)|[Hn _]].
  - exists w', cs. split; [exact Hrun|]. split; [exact Hl|exact Hf].
  - destruct (Hn nothing_received_init).
Defined.
