(* ===== verification/FwService.v ===== *)
(** * A received frame through the network thread

    [service_traffic] of [src/src/main.c] with [ethernet_input] of
    [src/lib/lwip/src/netif/ethernet.c]: the buffer of a received frame from the
    pool and back. *)

From stdpp Require Import base numbers list decidable gmap.
From Stdlib Require Import ZArith Lia Bool.
From S2P Require Import Prelude Linked NcmTypes BlockList NtbList NcmTx NcmRx NcmNet UsbDesc LwipMem Pbuf PbufChain PbufPool PbufProps Ethernet Fw FwMain FwProps.
Open Scope Z_scope.
Import Main.

Section service.
Context {H : Type} `{MemHeap H} `{!UpperLayers H}.
Implicit Types (s : lwip H).

(** The buffer [q] with the bytes [c], outside the free list [f] of the pool. *)
Record loaded s (q : Z) (c : list Z) (f : list Z) : Prop := {
  ld_buf : exists b, pbufs s !! q = Some b /\ ref b = 1 /\ is_pool b /\ next b = None /\
             len b = Z.of_nat (length c) /\ holds s b c;
  ld_free : chain (pbufs s) (tab_pool s) f;
  ld_out : q ∉ f
}.

(** The buffer at the front of the free list, without a reference. *)
Definition given_back s (q : Z) (f : list Z) : Prop :=
  chain (pbufs s) (tab_pool s) (q :: f) /\ exists b, pbufs s !! q = Some b /\ ref b = 0.

(** A change of members that [pbuf_free] does not look at. *)
Lemma loaded_assign s q c f g c' :
  loaded s q c f ->
  (forall b, ref (g b) = ref b /\ next (g b) = next b /\ (is_pool b -> is_pool (g b))) ->
  (forall b, pbufs s !! q = Some b -> holds s b c -> len b = Z.of_nat (length c) ->
     holds s (g b) c' /\ len (g b) = Z.of_nat (length c')) ->
  exists s', Pbuf.assign q g s = Ok s' /\ loaded s' q c' f.
Proof.
  intros [(b&Hb&Hr&Hpl&Hn&Hl&Hh) Hc Ho] Hg Hc'. unfold Pbuf.assign. rewrite (deref_ok _ _ _ Hb). cbn [rbind].
  eexists. split; [done|]. destruct (Hg b) as (Hgr&Hgn&Hgp). destruct (Hc' b Hb Hh Hl) as [Hh' Hl']. split.
  - exists (g b). cbn. rewrite lookup_insert_eq. split_and!; try done; [congruence|by apply Hgp|congruence].
  - by apply chain_insert.
  - done.
Qed.

Lemma free_loaded s q c f : loaded s q c f -> exists s', pbuf_free (Some q) s = Ok (1, s') /\ given_back s' q f.
Proof.
  intros [(b&Hb&Hr&Hpl&Hn&_) Hc Ho]. unfold pbuf_free.
  assert (Hf : exists k, chain_fuel s = S (S k)).
  { unfold chain_fuel. assert (size (pbufs s) <> 0)%nat by (apply map_size_non_empty_iff; intros E; by rewrite E, lookup_empty in Hb).
    exists (size (pbufs s) - 1)%nat. lia. }
  destruct Hf as (k&->). rewrite (free_step _ _ _ _ _ Hb Hr Hpl), Hn. cbn [free_loop]. eexists. split; [done|].
  cbn [set_tab_pool set_pbufs tab_pool pbufs]. split.
  - split; [done|]. eexists. split; [apply lookup_insert_eq|]. by apply chain_insert.
  - eexists. split; [apply lookup_insert_eq|done].
Qed.

Lemma free_again s q f :
  given_back s q f ->
  exists s' b, pbuf_free (Some q) s = Ok (0, s') /\ chain (pbufs s') (tab_pool s') (q :: f) /\
    pbufs s' !! q = Some b /\ ref b = 255.
Proof.
  intros [Hc (b&Hb&Hr)]. pose proof (linked_nodup _ _ _ Hc) as [Hq _]%NoDup_cons.
  destruct Hc as [Ht (b'&Hb'&Hc)]. rewrite Hb in Hb'. simplify_eq.
  unfold pbuf_free, chain_fuel. cbn [free_loop]. rewrite (deref_ok _ _ _ Hb). cbn [rbind].
  unfold Pbuf.assign. rewrite (deref_ok _ _ _ Hb). cbn [rbind]. rewrite Hr. change (wrap8 (0 - 1)) with 255. cbn [Z.eqb].
  eexists _, _. split; [done|]. cbn [set_pbufs pbufs tab_pool]. split; [|split; [apply lookup_insert_eq|done]].
  split; [done|]. eexists. split; [apply lookup_insert_eq|]. by apply chain_insert.
Qed.

(** ** The Ethernet layer *)

Lemma free_and_return_ok s q c f :
  loaded s q c f -> exists s', free_and_return q s = Ok (ERR_OK, s') /\ given_back s' q f.
Proof. intros (s'&Hr&Hg)%free_loaded. unfold free_and_return. rewrite Hr. by exists s'. Qed.

(** The function above that a frame with the bytes [c] is for, if any. *)
Definition upper_of (c : list Z) (n : netif) : option (Z -> lwip H -> result (lwip H)) :=
  if (Z.of_nat (length c) <=? SIZEOF_ETH_HDR) || (Z.land (netif_flags n) NETIF_FLAG_ETHARP =? 0) then None
  else if be16 (bytes_at c 12 2) =? ETHTYPE_IP then Some ip4_input
  else if be16 (bytes_at c 12 2) =? ETHTYPE_ARP then Some etharp_input
  else None.

(** The Ethernet layer's part: a frame that is for nobody is given back, any
    other is passed on without its header. *)
Definition input_done s (q : Z) (c f : list Z) (up : option (Z -> lwip H -> result (lwip H)))
    (r : result (err_t * lwip H)) : Prop :=
  match up with
  | None => exists s', r = Ok (ERR_OK, s') /\ given_back s' q f
  | Some input => exists s1, loaded s1 q (drop 14 c) f /\ r = (let* s' := input q s1 in Ok (ERR_OK, s'))
  end.

Lemma to_upper_ok s q c f n (input : Z -> lwip H -> result (lwip H)) :
  loaded s q c f -> 14 < Z.of_nat (length c) < 65536 ->
  input_done s q c f (if Z.land (netif_flags n) NETIF_FLAG_ETHARP =? 0 then None else Some input)
    (to_upper input q n s).
Proof.
  intros Hl Hc. unfold to_upper, input_done. destruct (_ =? 0); [by eapply free_and_return_ok|].
  pose proof Hl as [(b&Hb&_&_&_&Hlen&(a&o&bs&Hpay&_)) _ _]. unfold pbuf_remove_header.
  change SIZEOF_ETH_HDR with 14. rewrite (deref_ok _ _ _ Hb). cbn [Z.ltb Z.eqb Z.compare Pos.compare Pos.compare_cont].
  change (wrap16 14) with 14. cbn [rbind]. rewrite (proj2 (Z.leb_le 14 (len b))) by lia. cbn [negb]. rewrite Hpay. cbn [not_null rbind].
  match goal with |- context [Pbuf.assign q ?g s] => destruct (loaded_assign s q c f g (drop 14 c) Hl) as (s1&->&Hl1) end.
  - done.
  - intros b' Hb' (a'&o'&bs'&Hpay'&Ha'&Ho'&Hle'&Hh') _. assert (b' = b) as -> by congruence.
    rewrite Hpay in Hpay'. injection Hpay' as <- <-.
    cbn [len set_tot_len set_len set_payload]. rewrite length_drop, (wrap16_small (len b - 14)) by lia. split; [|lia].
    exists a, (o + 14), bs'. cbn [payload len set_tot_len set_len set_payload].
    split_and!; try done; try lia. rewrite <- Hh'. apply bytes_at_drop; lia.
  - exists s1. split; [done|]. done.
Qed.

(** The flag for the kind of destination does not touch the custom flag. *)
Lemma dest_flag_custom d : Z.land (dest_flag d) PBUF_FLAG_IS_CUSTOM = 0.
Proof. unfold dest_flag. by repeat case_match. Qed.

Lemma is_pool_set_flags b d : is_pool b -> is_pool (set_flags (Z.lor (flags b) (dest_flag d)) b).
Proof.
  intros [Hs Hf]. split; [done|]. cbn [flags set_flags]. by rewrite Z.land_lor_distr_l, Hf, dest_flag_custom.
Qed.

Lemma ethernet_input_ok s q c f n :
  loaded s q c f -> Z.of_nat (length c) < 65536 ->
  input_done s q c f (upper_of c n) (ethernet_input q n s).
Proof.
  intros Hl Hc. pose proof Hl as [(b&Hb&Hr&Hpl&Hn&Hlen&Hh) _ _]. unfold ethernet_input, upper_of. change SIZEOF_ETH_HDR with 14.
  rewrite (deref_ok _ _ _ Hb). cbn [rbind]. rewrite <- Hlen. destruct (Z.leb_spec (len b) 14); cbn [orb]; [by eapply free_and_return_ok|].
  rewrite !(ld_holds _ _ _ _ _ Hh) by lia. cbn [rbind]. set (d := bytes_at c 0 6). set (ty := be16 _).
  assert (Hidx : exists s1, (if if_idx b =? NETIF_NO_INDEX then Pbuf.assign q (set_if_idx (netif_get_index n)) s else Ok s) = Ok s1 /\ loaded s1 q c f).
  { destruct (_ =? _); [|by exists s]. by apply (loaded_assign s q c f). }
  destruct Hidx as (s1&->&Hl1). cbn [rbind].
  assert (Hfl : exists s2, (if negb (dest_flag d =? 0) then Pbuf.assign q (fun b => set_flags (Z.lor (flags b) (dest_flag d)) b) s1 else Ok s1) = Ok s2 /\ loaded s2 q c f).
  { destruct (negb _); [|by exists s1]. apply (loaded_assign s1 q c f); [done| |done].
    intros b'. split_and!; [done|done|apply is_pool_set_flags]. }
  destruct Hfl as (s2&->&Hl2). cbn [rbind].
  pose proof (fun input => to_upper_ok s2 q c f n input Hl2 ltac:(lia)) as Hto.
  destruct (ty =? ETHTYPE_IP); [|destruct (ty =? ETHTYPE_ARP)].
  - specialize (Hto ip4_input). by destruct (_ =? 0).
  - specialize (Hto etharp_input). by destruct (_ =? 0).
  - destruct (_ =? 0); by eapply free_and_return_ok.
Qed.
End service.

(** C17. A received frame through the network thread, for whatever functions are
    above the Ethernet layer.  A frame of any content and length that is for none
    of them (too short, of another type, or on an interface without ARP) goes
    back to the pool once, is no longer pending, and the driver is asked for the
    next datagram; the second [pbuf_free] of [service_traffic] finds the buffer
    free already and leaves its reference count at 255.  An IP or ARP frame is
    passed on without its header, and what comes after is exactly that second
    [pbuf_free]: where the function above has given the buffer back, the count is
    255 again; where it has kept the packet, as reassembly does, the buffer is
    put on the free list although the packet is still in use. *)
Theorem frame_serviced {O H} `{Sdk O} `{MemHeap H} `{!UpperLayers H} q c f n (w : world (fw O H)) :
  received_frame (env w) = Some q ->
  packet (stack (env w)) (Some q) [q] [c] -> single (pbufs (stack (env w))) q ->
  chain (pbufs (stack (env w))) (tab_pool (stack (env w))) f -> q ∉ f ->
  let renewed s3 := net_rx_renew (mk_world (ncm_if w) (set_received_frame None (set_stack s3 (env w))) (calls w)) in
  let freed_twice s3 f' := chain (pbufs s3) (tab_pool s3) (q :: f') /\
    exists b, pbufs s3 !! q = Some b /\ ref b = 255 in
  match upper_of c n with
  | None => exists s3, service_traffic n w = renewed s3 /\ freed_twice s3 f
  | Some input => exists s1, loaded s1 q (drop 14 c) f /\
      match input q s1 with
      | Fault e => service_traffic n w = Fault e
      | Ok s2 =>
          (forall f', given_back s2 q f' -> exists s3, service_traffic n w = renewed s3 /\ freed_twice s3 f') /\
          (forall c' f', loaded s2 q c' f' -> exists s3, service_traffic n w = renewed s3 /\ given_back s3 q f')
      end
  end.
Proof.
  intros Hrf [_ (b&Hb&Hlen&Htot&Hmax&Hh&Hnx)] (b'&Hb'&Href&Hpool) Hf Hq renewed freed_twice.
  rewrite Hb in Hb'. simplify_eq. cbn in Hnx.
  assert (Hl : loaded (stack (env w)) q c f) by (split; [exists b'; by split_and!|done|done]).
  cbn in Htot. rewrite app_nil_r in Htot.
  assert (Hrun : forall s2 k s3, ethernet_input q n (stack (env w)) = Ok (ERR_OK, s2) ->
            pbuf_free (Some q) s2 = Ok (k, s3) -> service_traffic n w = renewed s3).
  { intros s2 k s3 He Hfr. unfold service_traffic, bind, lift, fget, fset, on_stack. rewrite Hrf. cbn [env ncm_if calls].
    rewrite He. cbn [rbind env stack set_stack]. by rewrite Hfr. }
  pose proof (ethernet_input_ok _ _ _ _ n Hl ltac:(lia)) as Hin. unfold input_done in Hin.
  destruct (upper_of c n) as [input|].
  - destruct Hin as (s1&Hl1&He). exists s1. split; [done|].
    destruct (input q s1) as [s2|e] eqn:Hi; cbn [rbind] in He.
    + split.
      * intros f' Hg. destruct (free_again _ _ _ Hg) as (s3&b3&Hfr&Hc3&?&?). exists s3.
        split; [by eapply Hrun|]. split; [done|by exists b3].
      * intros c' f' Hl2. destruct (free_loaded _ _ _ _ Hl2) as (s3&Hfr&Hg). exists s3. split; [by eapply Hrun|done].
    + unfold service_traffic, bind, lift, fget, on_stack. rewrite Hrf. cbn [env]. by rewrite He.
  - destruct Hin as (s2&He&Hg). destruct (free_again _ _ _ Hg) as (s3&b3&Hfr&Hc3&?&?). exists s3.
    split; [by eapply Hrun|]. split; [done|by exists b3].
Qed.

Definition arp_frame : list Z := replicate 12 255 ++ [8; 6] ++ replicate 28 0.

(** The world after a frame has arrived. *)
Definition pending_world : world (fw unit unit) :=
  mk_world zero_ncm_if (match net_rx_cb arp_frame 42 fw_active with Ok (_, s) => s | Fault _ => fw_active end) [].

Lemma frame_serviced_witness :
  exists s3, service_traffic (init_lwip (mk_netif 0 [] 0 0 (0, 0) 0 0 0 0)) pending_world =
      net_rx_renew (mk_world zero_ncm_if (set_received_frame None (set_stack s3 (env pending_world))) []) /\
    chain (pbufs s3) (tab_pool s3) [4; 3; 2; 1] /\ exists b, pbufs s3 !! 4 = Some b /\ ref b = 255.
Proof.
  assert (Hs : match upper_of arp_frame (init_lwip (mk_netif 0 [] 0 0 (0, 0) 0 0 0 0)) with
               | Some input => forall p s, input p s = etharp_input p s
               | None => False
               end) by exact (fun p s => eq_refl).
  pose proof (frame_serviced 4 arp_frame [3; 2; 1] (init_lwip (mk_netif 0 [] 0 0 (0, 0) 0 0 0 0)) pending_world) as Ht.
  cbn zeta in Ht.
  destruct (upper_of arp_frame (init_lwip (mk_netif 0 [] 0 0 (0, 0) 0 0 0 0))) as [input|]; [|destruct Hs].
  destruct Ht as (s1&Hl&Ht).
  - vm_compute. reflexivity.
  - cbn [packet]. split; [reflexivity|]. eexists. split; [vm_compute; reflexivity|]. vm_compute.
    split_and!; try reflexivity. eexists 4, 0, _. split_and!; try reflexivity; discriminate.
  - eexists. split; [vm_compute; reflexivity|]. split; [reflexivity|]. vm_compute. split; reflexivity.
  - vm_compute. repeat (split; [reflexivity|eexists; split; [reflexivity|]]). reflexivity.
  - vm_compute. intros Hin. repeat (apply elem_of_cons in Hin as [Hin|Hin]; [discriminate Hin|]). by apply elem_of_nil in Hin.
  - destruct (free_loaded _ _ _ _ Hl) as (s2&Hfr&Hg). rewrite Hs in Ht. cbn [etharp_input no_upper] in Ht. rewrite Hfr in Ht. cbn [rbind] in Ht.
    exact (proj1 Ht [3; 2; 1] Hg).
Defined.
